(* ===== verification/_CoqProject ===== *)
-Q . S2P
Prelude.v
Types.v
Errors.v
Pdu.v
ListApi.v
Session.v
KtliState.v
Ktli.v
KtliSpec.v
KtliThreads.v
KtliThreadSpec.v
KtliLife.v
KtliWitness.v
Keys.v
Ktb.v
Iter.v
Validate.v
Socket.v
BasicKv.v
Toolbox.v
ProtoData.v
ProtoModel.v
Proto.v
ProtoSpec.v
Stat.v
Op.v
Put.v
Del.v
Get.v
Noop.v
Batch.v
Labels.v
Exec.v
Aio.v
Sync.v
Range.v
Getlog.v
Open.v
OpFrame.v
OpSpec.v
OpRequest.v
Util.v
ExecSpec.v
OpComplete.v
ExecComplete.v
Blocking.v
SyncSpec.v
RangeSpec.v
GetlogSpec.v
OpenSpec.v
BatchSpec.v
CommandTypes.v
OpWitness.v
ExecWitness.v
SyncWitness.v
OpenWitness.v
BlockingWitness.v
RoundTrip.v
RoundTripWitness.v
BkvTool.v
BkvToolSpec.v
BkvToolEnds.v
MapSession.v
MapSessionWitness.v
KctlTool.v
KctlToolSpec.v
KctlRangeSpec.v
