(* ===== verification/Prelude.v ===== *)
(** * libkinetic: a verification development of the Kinetic client library

    libkinetic ([src/src]) is a C library that talks to Kinetic key-value
    devices.  From the bottom up:
    - a network driver ([ktli_socket.c]) moves byte vectors over a socket;
    - the transport layer KTLI ([ktli.c], [ktli_session.c]) keeps sessions, each
      with a send, a receive and a completion queue and two threads, and pairs
      responses with requests by sequence number;
    - the protocol layer ([protocol_interface.c], one file per operation) builds
      and parses messages;
    - typed buffers ([ktb.c]), key vectors ([util.c]), request validation
      ([validate.c]), iterators ([iter.c]) and the basic API ([basickv.c]) are
      what a program sees.

    ** The files

    Foundations:
    - [Prelude] (this file): machine integers with their wrap-around, the
      outcomes of C code ([outcome]: a value, undefined behaviour [Ub], a call
      that blocks for ever [Hang], fuel exhausted [NoFuel]), the state monad [ST]
      and its tactics, lists and arrays with C's bounds.
    - [Types]: errno values, status codes, enums, flags and structures
      ([kinetic_types.h], [protocol_types.h], [kio.h], [kinetic_internal.h]).
    - [Errors], [Labels], [Toolbox]: [error.c]; [labels.c] and [version.c]; the
      text functions of the tools ([toolbox/kctl/util.c]).
    - [BkvTool]: the command line tool of the basic API ([toolbox/bkv]), with the
      files, the script and the session as parameters.  [BkvToolSpec]: its
      commands and scripts; [BkvToolEnds]: it comes to an end.
    - [KctlTool]: the tool of the full API ([toolbox/kctl]), over [KvService], the
      class [KctlService] of the other calls it makes and [GetRange].
      [KctlToolSpec]: put, over a drive that keeps versions ([VersionLaws]);
      [KctlRangeSpec]: range.

    Transport:
    - [Pdu]: the nine-byte message header ([protocol_interface.h], and the length
      helpers of [open.c]).
    - [ListApi]: the list library KTLI is built on, as a class of operations
      ([ListApi]) with laws ([ListLaws]); its code is a git submodule that the
      repository does not hold.  [zlist] is an instance with the laws.
    - [Session]: the table of sessions ([ktli_session.c]); allocation also as the
      interleaved steps of concurrent callers ([alloc_step]).
    - [KtliState]: the state KTLI works on ([world]): the session table, queues
      with their mutexes, kios, threads, malloc and the clock as oracles, and the
      driver's environment.  [Ktli]: every client call of [ktli.c].
      [KtliThreads]: sender, receiver, [ktli_open], [ktli_close].
    - [KtliSpec], [KtliThreadSpec], [KtliLife]: what those calls promise.
    - [Socket]: the socket driver ([ktli_socket.c]) over a list of kernel answers.

    Data of the API:
    - [Keys]: key vectors and ranges ([util.c]) over an explicit allocator;
      [Util]: the rest of [util.c].
    - [Ktb]: typed buffers ([ktb.c], and the iterator set-up of [iter.c]).
    - [Validate]: the seven validators ([validate.c]).
    - [Iter]: [ki_start], [ki_next] ([iter.c]); the class [GetRange] stands for
      [ki_getrange], [GetRangeLaws] for a server that answers windows of a sorted
      set of keys.
    - [BasicKv]: [basickv.c] over the class [KvService] ([ki_get], [ki_put],
      [ki_del], [ki_getversion], [ki_limits]); [KvLaws] says they act on a finite
      map, and an instance over a map in memory has the laws.
    - [Stat]: [stat.c] and the running means of the operations, over IEEE 754
      doubles ([spec_float]).

    Protocol:
    - [ProtoData]: the structures of [kinetic.pb-c.h] the library uses, and the
      class [ProtoGen] of the generated code and of HMAC-SHA1, with its documented
      laws [ProtoLaws]; [ProtoModel]: an instance that has them.
    - [Proto], [ProtoSpec]: [protocol_interface.c] and what it promises.
    - [Op]: the body every operation repeats, once, over a description of the
      operation ([op_desc]): initiating a request ([send_request]), completing it,
      the blocking loop ([wait_loop]).  [Put], [Del], [Get], [Noop] ([noop.c] and
      [flush.c]), [Batch], [Exec]: the operations; [Aio]: [aio.c].
    - [Sync]: what [range.c] and [getlog.c] repeat ([sync_request]); [Range],
      [Getlog]: the rest of the two files.  [Open]: [ki_open], and the open and
      close of [basickv.c].

    Theorems about the operations: [OpFrame] (what KTLI leaves alone), [OpSpec]
    (allocations balance on every path), [OpRequest] (the request queued),
    [OpComplete] (the completion), [Blocking] (a blocking call, whatever the
    threads do), [RoundTrip] (a blocking call over the threads), [MapSession]
    (many calls over a drive that keeps a map, the class [MapDrive]), [SyncSpec],
    [RangeSpec], [GetlogSpec], [ExecSpec], [ExecComplete], [OpenSpec],
    [BatchSpec], [CommandTypes].  [KtliWitness], [OpWitness], [SyncWitness],
    [ExecWitness], [OpenWitness], [BlockingWitness], [RoundTripWitness],
    [MapSessionWitness]: the theorems at concrete sessions, which shows that
    their hypotheses can hold.

    ** How the model reads

    A C function is a definition of the same name in the monad [ST] over its
    component's state, branch by branch.  A pointer to a shared object is a
    [positive] into a store of the state; a pointer to an array of kiovecs is the
    array; NULL is [None].  Reading out of bounds, a NULL dereference, a failed
    [assert] and a double free are [Ub].  A handler of KTLI runs without
    interruption, its mutex operations included: locking a mutex the handler
    already holds is [Hang].  The other threads act between handlers, and inside
    [ktli_poll] during its sleeps ([asleep], any computation on the world).
    An operation runs on [opst]: KTLI's world, the heap of typed buffers with its
    allocator, the sessions of the API, the response each kv holds.  [m_live] and
    [w_live] count blocks alive; a theorem's equation between them before and
    after says what is freed and what is lost.

    Loops that are not structural take fuel.  [ktli_sender_drain],
    [timeout_scan] and [free_rear] need one unit per queued kio and one to stop,
    and the theorems give that much; [send_loop] and [recv_loop] take one unit per
    kernel answer; [ktli_poll_loop] one per sleep; [wait_loop], [sync_wait] and
    [open_wait] one per poll: the number of polls that bring nothing is the index
    of [turns] (and of [waits]), and a theorem about the call takes any fuel above
    it.  [RoundTrip] needs one poll.  [show_iter] and [delete_keys] take one unit
    per key; [b_loop] and [kctl_loop] take one unit per line of their input
    and one to find the end.  Statements about calls that do not return
    say so for every fuel.

    ** What the theorems show

    - KTLI client side: the effect of each call on every branch with its errno
      ([ktli_send_spec], [ktli_send_errors], [ktli_receive_spec],
      [ktli_receive_errors], [ktli_receive_unsolicited_spec]); draining ends and
      hands back every kio once ([ktli_drain_complete], [ktli_drain_match_spec]);
      polling ([ktli_poll_waits], [ktli_poll_one_interval]); any sequence of
      client calls follows the session state machine ([ktli_state_machine]).
    - KTLI threads: sequence numbers increase by one in queue order
      ([ktli_sender_sequences]); a failed send ends on the completion queue
      ([ktli_sender_failed]); a response completes the request it acknowledges
      and no other ([ktli_recvmsg_matched]), a late one is tossed
      ([ktli_recvmsg_tossed]), an unsolicited one is kept
      ([ktli_recvmsg_unsolicited]); expired requests time out in order
      ([timeout_check_spec]); opening and closing ([ktli_open_spec],
      [ktli_close_ok], [ktli_close_hangs], [ktli_recvmsg_error_hangs]).
    - Session table: descriptors are exclusive under concurrency
      ([kts_alloc_exclusive], [kts_alloc_slot_spec]).
    - Wire and driver: header round trip and layout ([unpack_pack_pdu],
      [pack_pdu_layout]); whatever partial transfers the kernel makes, a send
      writes exactly the message and a receive fills exactly its buffers
      ([ktli_socket_send_spec], [ktli_socket_receive_spec]), with the end of file
      exception ([ktli_socket_receive_eof_spins]).
    - Requests and answers: what the drive reads is what the caller described,
      stamped and signed ([call_on_the_wire], [exec_on_the_wire],
      [ki_setseq_spec], [ki_getaseq_spec]); whatever the allocator refuses, a call
      that fails gives back what it took ([initiate_balance]); everything handed to
      the packer is in the range of its field ([requests_typed]); the completion
      answers the drive's status and fills the caller's structure
      ([complete_with_response], [get_complete], [exec_complete],
      [exec_malformed], [batch_complete_spec]).
    - Whole calls: a blocking call returns the drive's status once its response is
      there ([blocking_call_spec], [blocking_get_spec]) or the reason there is none
      ([blocking_without_response]), whatever the threads do; over the sender and
      the receiver themselves, with the library's helpers and a driver that
      delivers the drive's answer, the response does get there
      ([blocking_round_trip], [get_round_trip]) and leaves the session ready for the
      next call, so that puts, deletes and gets in sequence answer what a finite
      map answers when the drive keeps one ([session_serves_map]); ranges and logs
      ([ki_getrange_spec], [ki_getlog_spec] and what they do without a response);
      [ki_open] ([ki_open_spec], [ki_open_refused_hangs]).
    - Batches: counters under contention ([b_atom_inc_spec]), limits
      ([batch_account_spec]), life cycle ([start_batch_spec], [end_batch_spec]).
    - Buffers and keys: well-formed typed buffers are invariant
      ([ktb_invariant]), creation and destruction balance ([ki_create_destroy],
      [ki_iterator_life]), key operations preserve the bytes ([ki_keydupf_spec],
      [ki_keydup_destroy], [ki_keyprepend_append], [ki_rangedup_spec]).
    - API: the validators decide predicates stated without loops
      ([ki_validate_kv_spec], [ki_validate_range_spec], [ki_validate_glog_spec],
      [ki_validate_glog2_rejects]); an iterator yields exactly the keys of its
      range, in order ([ki_iterate]); single-key calls refine a finite map
      ([bkv_single_ops]) and multi-key values round trip ([bkv_putn_getn_deln]).
    - Text: escaped bytes decode to themselves ([asciidecode_asciidump]); the
      tables of names cover their enumerations ([labels_cover]).
    - The tool: a script run over a healthy drive does to the stored map, and
      prints, what an abstract session does ([bkv_script_refines]); a line is read
      back as it was written ([parse_line_render]); every run comes to an end
      ([main_ends]).  [kctl put] stores the version after the one the drive holds,
      for one key or many ([kctl_put_spec]); [kctl range] prints the keys between
      its ends ([kctl_range_spec]); the exit code tells nothing ([kctl_main_exit]).

    ** Not modelled

    The interleaving of sender and receiver inside one handler: handlers are
    atomic, and the other threads act between them.  Several requests under way
    at once are the subject of the queue theorems ([ktli_sender_sequences],
    [ktli_recvmsg_matched], [ktli_drain_complete]) and not of [MapSession], whose
    client waits for each answer.  [KvService], [KctlService] and [GetRange],
    over which [BasicKv], the tools and [Iter] are proved, have instances in memory;
    [MapSession] shows the library's own calls serve a map, for forced operations
    on a kv the caller has filled in, without stating it as an instance: a session
    has as many sequence numbers as fit in 63 bits, and the class promises an
    answer for ever.  The blocking batch calls are modelled, their proofs stop at
    the completion ([batch_complete_spec]).

    Not modelled: the generated protobuf code, OpenSSL, the list library and the
    kernel, which are parameters with documented laws; [compute_digest] of
    [util.c], a sequence of OpenSSL calls; of the tool kctl the commands ping,
    info, stats and exec, whose output is times and floating point numbers or
    what exec returned, and which are a parameter of its table of commands, with
    the times [-S] prints; [ktli_test.c], the tests and the vendored code. *)

From Stdlib Require Export ZArith Lia.
From stdpp Require Export base tactics list option numbers relations.
#[global] Open Scope Z_scope.

(** ** Machine integers

    A C integer is a [Z]; the conversions below are the wrap-around that the
    compiler performs on an assignment or a cast (LP64: [int] 32 bits, [size_t]
    and [long] 64 bits). *)
Definition u8 (z : Z) : Z := z mod 2 ^ 8.
Definition u32 (z : Z) : Z := z mod 2 ^ 32.
Definition u64 (z : Z) : Z := z mod 2 ^ 64.
Definition i32 (z : Z) : Z := (z + 2 ^ 31) mod 2 ^ 32 - 2 ^ 31.
Definition i64 (z : Z) : Z := (z + 2 ^ 63) mod 2 ^ 64 - 2 ^ 63.

Lemma u8_range z : 0 <= u8 z < 256.
Proof. unfold u8. pose proof (Z.mod_pos_bound z (2 ^ 8)). lia. Qed.

Lemma u32_range z : 0 <= u32 z < 2 ^ 32.
Proof. unfold u32. apply Z.mod_pos_bound. lia. Qed.

Lemma u64_range z : 0 <= u64 z < 2 ^ 64.
Proof. unfold u64. apply Z.mod_pos_bound. lia. Qed.

Lemma i32_range z : - 2 ^ 31 <= i32 z < 2 ^ 31.
Proof. unfold i32. pose proof (Z.mod_pos_bound (z + 2 ^ 31) (2 ^ 32)). lia. Qed.

Lemma u32_small z : 0 <= z < 2 ^ 32 -> u32 z = z.
Proof. intros. unfold u32. apply Z.mod_small. lia. Qed.

Lemma u64_small z : 0 <= z < 2 ^ 64 -> u64 z = z.
Proof. intros. unfold u64. apply Z.mod_small. lia. Qed.

Lemma i32_small z : - 2 ^ 31 <= z < 2 ^ 31 -> i32 z = z.
Proof. intros. unfold i32. rewrite Z.mod_small; lia. Qed.

Lemma i64_small z : - 2 ^ 63 <= z < 2 ^ 63 -> i64 z = z.
Proof. intros. unfold i64. rewrite Z.mod_small; lia. Qed.

Lemma i32_high z : 2 ^ 31 <= z < 2 ^ 32 -> i32 z = z - 2 ^ 32.
Proof.
  intros. unfold i32.
  replace (z + 2 ^ 31) with ((z - 2 ^ 31) + 1 * 2 ^ 32) by lia.
  rewrite Z.mod_add by lia. rewrite Z.mod_small; lia.
Qed.

Create HintDb kint.
Create Rewrite HintDb kint_rw.
#[export] Hint Resolve u8_range u32_range u64_range i32_range : kint.
#[export] Hint Rewrite u32_small u64_small i32_small i64_small using lia : kint_rw.

(** ** Running C code

    [outcome] is the result of running a piece of C: it returns ([Ok]), it
    performs an operation the language gives no meaning to, or a failing
    [assert] ([Ub]), it blocks for ever on a mutex it holds itself ([Hang]), or
    the model's fuel ran out ([NoFuel]). *)
Inductive outcome (A : Type) : Type :=
| Ok (a : A)
| Ub
| Hang
| NoFuel.
Arguments Ok {_} _.
Arguments Ub {_}.
Arguments Hang {_}.
Arguments NoFuel {_}.

#[global] Instance outcome_ret : MRet outcome := fun _ a => Ok a.
#[global] Instance outcome_bind : MBind outcome := fun _ _ f m =>
  match m with Ok a => f a | Ub => Ub | Hang => Hang | NoFuel => NoFuel end.

(** A stateful C function: state passing over [outcome]. *)
Definition ST (S A : Type) : Type := S -> outcome (A * S).

#[global] Instance ST_ret S : MRet (ST S) := fun _ a s => Ok (a, s).
#[global] Instance ST_bind S : MBind (ST S) := fun _ _ f m s =>
  match m s with Ok (a, s') => f a s' | Ub => Ub | Hang => Hang | NoFuel => NoFuel end.

Section monad.
Context {S : Type}.

Definition get_st : ST S S := fun s => Ok (s, s).
Definition put_st (s : S) : ST S unit := fun _ => Ok (tt, s).
Definition gets_st {A} (f : S -> A) : ST S A := fun s => Ok (f s, s).
Definition modify_st (f : S -> S) : ST S unit := fun s => Ok (tt, f s).
Definition ub_st {A} : ST S A := fun _ => Ub.
Definition hang_st {A} : ST S A := fun _ => Hang.

(** Dereference a pointer: [None] is NULL or a dangling pointer. *)
Definition deref_st {A} (o : option A) : ST S A :=
  fun s => match o with Some a => Ok (a, s) | None => Ub end.

(** [assert(b)] *)
Definition assert_st (b : bool) : ST S unit :=
  fun s => if b then Ok (tt, s) else Ub.

(** [for (x in l) body] *)
Fixpoint forM_st {A} (l : list A) (body : A -> ST S unit) : ST S unit :=
  match l with
  | [] => mret tt
  | x :: l' => body x ;; forM_st l' body
  end.
End monad.

(** A computation that touches no state *)
Definition lift {S A} (o : outcome A) : ST S A := fun s =>
  match o with Ok a => Ok (a, s) | Ub => Ub | Hang => Hang | NoFuel => NoFuel end.
Lemma lift_Ok {S A} (o : outcome A) a (s : S) : o = Ok a -> lift o s = Ok (a, s).
Proof. by intros ->. Qed.

(** An invariant of a step relation holds of every reachable state. *)
Lemma rtc_invariant {A} {R : relation A} (P : A -> Prop) a a' :
  (forall x y, P x -> R x y -> P y) -> P a -> rtc R a a' -> P a'.
Proof. intros Hstep Ha. induction 1; eauto. Qed.

(** *** Equations that let a proof run a program one call at a time *)
Lemma bind_Ok {S A B} (m : ST S A) (f : A -> ST S B) s a s' :
  m s = Ok (a, s') -> (m ≫= f) s = f a s'.
Proof. unfold mbind, ST_bind. by intros ->. Qed.

Lemma bind_Ub {S A B} (m : ST S A) (f : A -> ST S B) s :
  m s = Ub -> (m ≫= f) s = Ub.
Proof. unfold mbind, ST_bind. by intros ->. Qed.

Lemma bind_Hang {S A B} (m : ST S A) (f : A -> ST S B) s :
  m s = Hang -> (m ≫= f) s = Hang.
Proof. unfold mbind, ST_bind. by intros ->. Qed.

Lemma bind_NoFuel {S A B} (m : ST S A) (f : A -> ST S B) s :
  m s = NoFuel -> (m ≫= f) s = NoFuel.
Proof. unfold mbind, ST_bind. by intros ->. Qed.

Lemma bind_inv {S A B} (m : ST S A) (f : A -> ST S B) s r :
  (m ≫= f) s = Ok r -> exists a s', m s = Ok (a, s') /\ f a s' = Ok r.
Proof.
  unfold mbind, ST_bind. intros H.
  destruct (m s) as [[a s']| | |] eqn:E; try discriminate. eauto.
Qed.

Lemma bind_assoc {S A B C} (m : ST S A) (f : A -> ST S B) (g : B -> ST S C) s :
  ((m ≫= f) ≫= g) s = (m ≫= (fun x => f x ≫= g)) s.
Proof. unfold mbind, ST_bind. by destruct (m s) as [[a s']| | |]. Qed.

Lemma bind_ret {S A B} (a : A) (f : A -> ST S B) s : (mret a ≫= f) s = f a s.
Proof. done. Qed.

Lemma ret_inv {S A} (a : A) (s : S) r : (mret a : ST S A) s = Ok r -> r = (a, s).
Proof. unfold mret, ST_ret. congruence. Qed.

(** *** Frames, by the structure of a computation

    [respects R m]: whenever [m] returns, the states before and after are
    related by [R], a preorder: what a computation leaves alone, or only moves
    one way. *)
Definition respects {S A} (R : relation S) (m : ST S A) : Prop :=
  forall s a s', m s = Ok (a, s') -> R s s'.

Section respects.
Context {S : Type} (R : relation S) `{!PreOrder R}.

Lemma respects_bind {A B} (m : ST S A) (f : A -> ST S B) :
  respects R m -> (forall a, respects R (f a)) -> respects R (m ≫= f).
Proof. intros Hm Hf s b s2 H. apply bind_inv in H as (a & s1 & H1 & H2). etrans; [by eapply Hm|by eapply Hf]. Qed.
Lemma respects_ret {A} (a : A) : respects R (mret a).
Proof. intros s b s' [= <- <-]. reflexivity. Qed.
Lemma respects_get : respects R get_st.
Proof. intros s b s' [= <- <-]. reflexivity. Qed.
Lemma respects_ub {A} : respects R (@ub_st S A).
Proof. intros s b s' [=]. Qed.
Lemma respects_deref {A} (o : option A) : respects R (deref_st o).
Proof. intros s b s' H. unfold deref_st in H. destruct o; simplify_eq. reflexivity. Qed.
Lemma respects_assert b : respects R (assert_st b).
Proof. intros s x s' H. unfold assert_st in H. destruct b; simplify_eq. reflexivity. Qed.
Lemma respects_modify f : (forall s, R s (f s)) -> respects R (modify_st f).
Proof. intros Hf s b s' [= <- <-]. apply Hf. Qed.
Lemma respects_nofuel {A} : respects R (fun _ => NoFuel : outcome (A * S)).
Proof. intros s b s' [=]. Qed.
End respects.

(** Walks through a computation; [prims] closes the calls. *)
Ltac respects_with prims :=
  repeat first
    [ prims
    | apply (respects_ret _) | apply (respects_get _) | apply (respects_ub _) | apply (respects_deref _)
    | apply (respects_assert _) | apply (respects_nofuel _) | apply (respects_bind _)
    | match goal with
      | |- forall _, respects _ _ => intros ?
      | |- respects _ (match ?x with _ => _ end) => destruct x
      end ].

(** [run] executes the monadic plumbing of a goal; [inv_run H] takes a
    completed run in [H] apart. *)
Ltac run :=
  repeat (unfold mret, ST_ret, mbind, ST_bind, get_st, put_st, gets_st, modify_st,
    ub_st, hang_st, deref_st, assert_st; cbn).

Ltac inv_run H :=
  let H' := fresh "Hrun" in
  let a := fresh "a" in let s := fresh "s" in
  lazymatch type of H with
  | (mbind _ _) _ = Ok _ => apply bind_inv in H as (a & s & H' & H)
  end.

(** Case split on the boolean or comparison a conditional tests. *)
Ltac case_if :=
  match goal with
  | |- context [if ?b then _ else _] => let E := fresh "E" in destruct b eqn:E
  | H : context [if ?b then _ else _] |- _ => let E := fresh "E" in destruct b eqn:E
  end.

(** Boolean comparisons as linear arithmetic. *)
Ltac zbool :=
  repeat match goal with
  | H : (_ <? _) = true |- _ => apply Z.ltb_lt in H
  | H : (_ <? _) = false |- _ => apply Z.ltb_ge in H
  | H : (_ <=? _) = true |- _ => apply Z.leb_le in H
  | H : (_ <=? _) = false |- _ => apply Z.leb_gt in H
  | H : (_ >? _) = true |- _ => rewrite Z.gtb_ltb in H; apply Z.ltb_lt in H
  | H : (_ >? _) = false |- _ => rewrite Z.gtb_ltb in H; apply Z.ltb_ge in H
  | H : (_ =? _) = true |- _ => apply Z.eqb_eq in H
  | H : (_ =? _) = false |- _ => apply Z.eqb_neq in H
  | H : (_ && _)%bool = true |- _ => apply andb_true_iff in H as [? ?]
  | H : (_ || _)%bool = false |- _ => apply orb_false_iff in H as [? ?]
  | H : negb _ = true |- _ => apply negb_true_iff in H
  | H : negb _ = false |- _ => apply negb_false_iff in H
  end.

(** Close a conjunction of comparisons between numerals. *)
Ltac zc := repeat match goal with |- _ /\ _ => split end; vm_compute; congruence.

(** ** Lists *)

(** The sum of a list, in the order a C loop accumulates it. *)
Definition zsum (l : list Z) : Z := foldr Z.add 0 l.

Lemma zsum_nil : zsum [] = 0.
Proof. done. Qed.

Lemma zsum_cons x l : zsum (x :: l) = x + zsum l.
Proof. done. Qed.

Lemma zsum_app l1 l2 : zsum (l1 ++ l2) = zsum l1 + zsum l2.
Proof. induction l1 as [|x l1 IH]; [done|]. rewrite <- app_comm_cons, !zsum_cons, IH. lia. Qed.

Lemma zsum_nonneg l : Forall (fun z => 0 <= z) l -> 0 <= zsum l.
Proof. induction 1; rewrite ?zsum_nil, ?zsum_cons; lia. Qed.

(** [zlen]: the length of a list as a C size. *)
Definition zlen {A} (l : list A) : Z := Z.of_nat (length l).

Lemma zlen_app {A} (l1 l2 : list A) : zlen (l1 ++ l2) = zlen l1 + zlen l2.
Proof. unfold zlen. rewrite length_app. lia. Qed.

Lemma zlen_cons {A} (x : A) l : zlen (x :: l) = zlen l + 1.
Proof. unfold zlen. cbn [length]. lia. Qed.
Lemma zlen_fmap {A B} (f : A -> B) l : zlen (f <$> l) = zlen l.
Proof. unfold zlen. by rewrite length_fmap. Qed.
Lemma zlen_nonneg {A} (l : list A) : 0 <= zlen l.
Proof. unfold zlen. lia. Qed.

Lemma zlen_eqb0 {A} (l : list A) : (zlen l =? 0) = match l with [] => true | _ => false end.
Proof. unfold zlen. by destruct l. Qed.

Create HintDb klist.
Create Rewrite HintDb klist_rw.
#[export] Hint Rewrite zsum_nil @zsum_cons zsum_app @zlen_app @zlen_cons : klist_rw.
#[export] Hint Resolve zlen_nonneg : klist.

(** ** Arrays

    [a[i]] and [a[i] = x]; outside the array they have no meaning. *)
Definition array_read {A} (a : list A) (i : Z) : outcome A :=
  if i <? 0 then Ub
  else match a !! Z.to_nat i with Some x => Ok x | None => Ub end.

Definition array_write {A} (a : list A) (i : Z) (x : A) : outcome (list A) :=
  if (0 <=? i) && (i <? zlen a) then Ok (<[Z.to_nat i := x]> a) else Ub.

Section arrays.
Context {A : Type}.
Implicit Types (a : list A) (i j : Z).

Lemma array_read_ok a i :
  0 <= i < zlen a -> exists x, array_read a i = Ok x /\ a !! Z.to_nat i = Some x.
Proof.
  intros [? ?]. unfold array_read, zlen in *.
  destruct (i <? 0) eqn:E; zbool; [lia|].
  destruct (lookup_lt_is_Some_2 a (Z.to_nat i)) as [x Hx]; [lia|].
  exists x. by rewrite Hx.
Qed.

Lemma array_read_inv a i x :
  array_read a i = Ok x -> 0 <= i < zlen a /\ a !! Z.to_nat i = Some x.
Proof.
  unfold array_read, zlen. destruct (i <? 0) eqn:E; zbool; [done|].
  destruct (a !! Z.to_nat i) eqn:Hx; [|done]. intros [= ->].
  apply lookup_lt_Some in Hx as ?. split; [lia|done].
Qed.

Lemma array_read_ub a i : array_read a i = Ub <-> ~ 0 <= i < zlen a.
Proof.
  split.
  - intros H Hi. apply array_read_ok in Hi as (x & Hx & _). congruence.
  - intros Hi. unfold array_read. destruct (i <? 0) eqn:E; zbool; [done|].
    rewrite lookup_ge_None_2; [done|]. unfold zlen in Hi. lia.
Qed.

Lemma array_write_ok a i x :
  0 <= i < zlen a -> array_write a i x = Ok (<[Z.to_nat i := x]> a).
Proof. intros. unfold array_write. by replace ((0 <=? i) && (i <? zlen a)) with true by lia. Qed.

Lemma array_write_inv a i x a' :
  array_write a i x = Ok a' -> 0 <= i < zlen a /\ a' = <[Z.to_nat i := x]> a.
Proof.
  unfold array_write. destruct ((0 <=? i) && (i <? zlen a)) eqn:E; [|done].
  zbool. intros [= <-]. split; [lia|done].
Qed.

Lemma array_read_write a i j x a' :
  array_write a i x = Ok a' ->
  array_read a' j = if i =? j then Ok x else array_read a j.
Proof.
  intros (? & ->)%array_write_inv. unfold array_read, zlen in *.
  destruct (i =? j) eqn:E; zbool; [subst|].
  - replace (j <? 0) with false by lia. rewrite list_lookup_insert_eq by lia. done.
  - destruct (j <? 0) eqn:E'; zbool; [done|]. rewrite list_lookup_insert_ne by lia. done.
Qed.

Lemma zlen_insert a n x : zlen (<[n := x]> a) = zlen a.
Proof. unfold zlen. by rewrite length_insert. Qed.
End arrays.
