(* ===== verification/Types.v ===== *)
(** Constants and data structures of the public and internal headers:
    [src/kinetic_types.h], [src/protocol_types.h], [src/kinetic_internal.h],
    [src/kio.h] and the protobuf enumerations of
    [include/kinetic/protocol/kinetic.pb-c.h] they are aliases of.  C structs
    are records with the field names of the source, C enums whose numbers
    matter are [Z] constants. *)

From S2P Require Import Prelude.

(** ** errno values (Linux) *)
Definition ENOENT : Z := 2.
Definition EINTR : Z := 4.
Definition EBADF : Z := 9.
Definition EAGAIN : Z := 11.
Definition EWOULDBLOCK : Z := 11.
Definition ENOMEM : Z := 12.
Definition EINVAL : Z := 22.
Definition EMFILE : Z := 24.
Definition ENOTEMPTY : Z := 39.
Definition ENOMSG : Z := 42.
Definition ECOMM : Z := 70.
Definition EBADFD : Z := 77.
Definition ECONNABORTED : Z := 103.
Definition EISCONN : Z := 106.
Definition ENOTCONN : Z := 107.
Definition ETIMEDOUT : Z := 110.

(** ** kstatus_t *)
Definition K_INVALID_SC : Z := -1.
Definition KSTAT_GRP1 : Z := 0.
Definition K_EREJECTED : Z := 0.
Definition K_OK : Z := 1.
Definition K_EINTERNAL : Z := 5.
Definition K_ENOTFOUND : Z := 7.
Definition K_ETIMEDOUT : Z := 10.
Definition K_EINVAL : Z := 16.
Definition K_ESHUTDOWN : Z := 23.
Definition KSTAT_GRP1_LAST : Z := 24.
Definition KSTAT_GRP2 : Z := 0x8000.
Definition K_EAGAIN : Z := Z.lor KSTAT_GRP2 0.
Definition K_ENOMSG : Z := Z.lor KSTAT_GRP2 1.
Definition K_ENOMEM : Z := Z.lor KSTAT_GRP2 2.
Definition K_EBADSESS : Z := Z.lor KSTAT_GRP2 3.
Definition K_EBATCH : Z := Z.lor KSTAT_GRP2 4.
Definition KSTAT_GRP2_LAST : Z := Z.lor KSTAT_GRP2 5.

(** ** ktype_t *)
Definition KT_NONE : Z := 0.
Definition KV_T : Z := 1.
Definition KRANGE_T : Z := 2.
Definition KITER_T : Z := 3.
Definition KBATCH_T : Z := 4.
Definition KGETLOG_T : Z := 5.
Definition KVERSION_T : Z := 6.
Definition KSTATS_T : Z := 7.
Definition KAPPLET_T : Z := 8.
Definition KT_LAST : Z := 9.

Definition KFIRSTBID : Z := 1000.

(** ** kditype_t, kcachepolicy_t *)
Definition KDI_SHA1 : Z := 1.
Definition KDI_SHA2 : Z := 2.
Definition KDI_SHA3 : Z := 3.
Definition KDI_CRC32C : Z := 4.
Definition KDI_CRC64 : Z := 5.
Definition KDI_CRC32 : Z := 6.

Definition KC_WT : Z := 1.
Definition KC_WB : Z := 2.
Definition KC_FLUSH : Z := 3.

(** ** kmtype_t *)
Definition KMT_GET : Z := 2.
Definition KMT_PUT : Z := 4.
Definition KMT_DEL : Z := 6.
Definition KMT_GETNEXT : Z := 8.
Definition KMT_GETPREV : Z := 10.
Definition KMT_GETRANGE : Z := 12.
Definition KMT_GETVERS : Z := 16.
Definition KMT_GETLOG : Z := 24.
Definition KMT_PUSHP2P : Z := 28.
Definition KMT_NOOP : Z := 30.
Definition KMT_FLUSH : Z := 32.
Definition KMT_STARTBAT : Z := 42.
Definition KMT_ENDBAT : Z := 44.
Definition KMT_ABORTBAT : Z := 46.

(** ** kgltype_t *)
Definition KGLT_UTILIZATIONS : Z := 0.
Definition KGLT_TEMPERATURES : Z := 1.
Definition KGLT_CAPACITIES : Z := 2.
Definition KGLT_CONFIGURATION : Z := 3.
Definition KGLT_STATISTICS : Z := 4.
Definition KGLT_MESSAGES : Z := 5.
Definition KGLT_LIMITS : Z := 6.
Definition KGLT_LOG : Z := 7.

(** ** krange_flags_t *)
Definition KRF_ISTART : Z := 0x0001.
Definition KRF_IEND : Z := 0x0002.
Definition KRF_REVERSE : Z := 0x0100.
Definition KRF_VALIDMASK : Z := 0x0103.
Definition KVR_COUNT_INF : Z := -1.

(** ** Buffers

    A pointer to bytes is [None] (NULL) or the bytes it points to, each a [Z]
    in 0..255.  A [kiovec] carries its own length, as in the source: nothing
    forces [kiov_len] to be the length of the buffer. *)
Definition buffer : Type := list Z.

Record kiovec := Kiovec { kiov_base : option buffer; kiov_len : Z }.

#[global] Instance kiovec_eq_dec : EqDecision kiovec.
Proof. solve_decision. Defined.

(** ** Structures of the API *)
Record klimits := Klimits {
  kl_keylen : Z; kl_vallen : Z; kl_verlen : Z; kl_disumlen : Z;
  kl_msglen : Z; kl_pinlen : Z; kl_batlen : Z;
  kl_pendrdcnt : Z; kl_pendwrcnt : Z; kl_conncnt : Z; kl_idcnt : Z;
  kl_rangekeycnt : Z; kl_batopscnt : Z; kl_batdelcnt : Z; kl_devbatcnt : Z }.

(** [kv_t]; a pointer to an array of kiovecs is the array, [None] for NULL. *)
Record kv := Kv {
  kv_key : option (list kiovec); kv_keycnt : Z;
  kv_val : option (list kiovec); kv_valcnt : Z;
  kv_ver : option buffer; kv_verlen : Z;
  kv_newver : option buffer; kv_newverlen : Z;
  kv_disum : option buffer; kv_disumlen : Z;
  kv_ditype : Z; kv_cpolicy : Z; kv_metaonly : Z }.

Record krange := Krange {
  kr_flags : Z;
  kr_start : option (list kiovec); kr_startcnt : Z;
  kr_end : option (list kiovec); kr_endcnt : Z;
  kr_count : Z;
  kr_keys : option (list kiovec); kr_keyscnt : Z }.

Definition set_kr_count (n : Z) (r : krange) : krange :=
  Krange (kr_flags r) (kr_start r) (kr_startcnt r) (kr_end r) (kr_endcnt r) n (kr_keys r) (kr_keyscnt r).
Definition set_kr_keys (ks : option (list kiovec)) (n : Z) (r : krange) : krange :=
  Krange (kr_flags r) (kr_start r) (kr_startcnt r) (kr_end r) (kr_endcnt r) (kr_count r) ks n.
Definition KR_FLAG_CLR (kvr : krange) (kvrf : Z) : krange :=
  Krange (Z.land (kr_flags kvr) (u32 (Z.lnot kvrf)))
    (kr_start kvr) (kr_startcnt kvr) (kr_end kvr) (kr_endcnt kvr)
    (kr_count kvr) (kr_keys kvr) (kr_keyscnt kvr).
Definition KR_ISTART (kvr : krange) : Z := Z.land (kr_flags kvr) KRF_ISTART.
Definition KR_IEND (kvr : krange) : Z := Z.land (kr_flags kvr) KRF_IEND.
Definition KR_REVERSE (kvr : krange) : Z := Z.land (kr_flags kvr) KRF_REVERSE.

(** *** The parts of a log; a [float] is its bit pattern, a C string a buffer *)
Record kutilization := Kutilization { ku_name : option buffer; ku_value : Z }.
Record ktemperature := Ktemperature {
  kt_name : option buffer; kt_cur : Z; kt_min : Z; kt_max : Z; kt_target : Z }.
Record kcapacity := Kcapacity { kc_total : Z; kc_used : Z }.
Record kinterface := Kinterface {
  ki_name : option buffer; ki_mac : option buffer; ki_ipv4 : option buffer; ki_ipv6 : option buffer }.
Record kconfiguration := Kconfiguration {
  kcf_vendor : option buffer; kcf_model : option buffer; kcf_serial : option buffer; kcf_wwn : option buffer;
  kcf_version : option buffer; kcf_compdate : option buffer; kcf_srchash : option buffer;
  kcf_proto : option buffer; kcf_protocompdate : option buffer; kcf_protosrchash : option buffer;
  kcf_interfaces : option (list kinterface); kcf_interfacescnt : Z;
  kcf_port : Z; kcf_tlsport : Z; kcf_power : Z }.
Record kstatistics := Kstatistics { ks_mtype : Z; ks_cnt : Z; ks_bytes : Z; ks_maxlatency : Z }.

(** [kgetlog_t], without the response it holds *)
Record kgetlog := Kgetlog {
  kgl_type : option (list Z); kgl_typecnt : Z;
  kgl_util : option (list kutilization); kgl_utilcnt : Z;
  kgl_temp : option (list ktemperature); kgl_tempcnt : Z;
  kgl_cap : kcapacity; kgl_conf : kconfiguration;
  kgl_stat : option (list kstatistics); kgl_statcnt : Z;
  kgl_msgs : option buffer; kgl_msgslen : Z;
  kgl_limits : klimits;
  kdl_name : option buffer; kdl_len : Z }.

Definition klimits0 : klimits := Klimits 0 0 0 0 0 0 0 0 0 0 0 0 0 0 0.
Definition kconfiguration0 : kconfiguration :=
  Kconfiguration None None None None None None None None None None None 0 0 0 0.
Definition kgetlog0 : kgetlog :=
  Kgetlog None 0 None 0 None 0 (Kcapacity 0 0) kconfiguration0 None 0 None 0 klimits0 None 0.

(** [kb_t], the internal batch structure *)
Record kb := Kb {
  kb_ktd : Z; kb_bid : Z; kb_ops : Z; kb_dels : Z; kb_bytes : Z }.

Record kpdu := Kpdu { kp_magic : Z; kp_msglen : Z; kp_vallen : Z }.

#[global] Instance kpdu_eq_dec : EqDecision kpdu.
Proof. solve_decision. Defined.

(** ** KIO: the request/response carrier of the transport layer *)
Inductive kio_state : Type :=
  KIO_NEW | KIO_SENT | KIO_RECEIVED | KIO_FAILED | KIO_TIMEDOUT.

#[global] Instance kio_state_eq_dec : EqDecision kio_state.
Proof. solve_decision. Defined.

Definition KIOF_INIT : Z := 0x0000.
Definition KIOF_REQRESP : Z := 0x0001.
Definition KIOF_REQONLY : Z := 0x0002.
Definition KIOF_RESPONLY : Z := 0x0004.
Definition KIOF_TSTAMP : Z := 0x0008.

Definition KIO_TIMEOUT_S : Z := 30.
Definition KIO_MAGIC : Z := 0x004f494B.

Definition KIOV_PDU : nat := 0.
Definition KIOV_MSG : nat := 1.
Definition KIOV_VAL : nat := 2.
Definition KM_CNT_NOVAL : Z := 2.
Definition KM_CNT_WITHVAL : Z := 3.

Record timespec := Timespec { tv_sec : Z; tv_nsec : Z }.

Record kio_msg := KioMsg {
  km_msg : option (list kiovec); km_cnt : Z; km_status : Z; km_errno : Z }.

Definition kio_msg0 : kio_msg := KioMsg None 0 0 0.

Record kio_tstamps := KioTstamps {
  kiot_start : timespec; kiot_sent : timespec;
  kiot_recvs : timespec; kiot_comp : timespec }.

(** Structures that are shared by address: a pointer is a [positive]. *)
Definition ptr : Type := positive.

(** [struct kio]; [E] is the type of a pointer to a list element. *)
Record kio {E : Type} := Kio {
  kio_magic : Z; kio_cmd : Z; kio_seq : Z; kio_flags : Z;
  kio_st : kio_state; kio_errno : Z;
  kio_sendmsg : kio_msg; kio_recvmsg : kio_msg;
  kio_timeout : timespec;
  kio_qbp : option E;
  kio_cctx : option ptr; kio_ckv : option ptr; kio_caltkv : option ptr;
  kio_ckb : option ptr; kio_ckapp : option ptr;
  kio_ts : kio_tstamps }.
Arguments kio : clear implicits.

Definition KIOF_ISSET {E} (k : kio E) (f : Z) : bool :=
  negb (Z.land (kio_flags k) f =? 0).
