(* ===== verification/Errors.v ===== *)
(** Status codes and their messages: [src/error.c]. *)

From stdpp Require Import strings.
From S2P Require Import Prelude Types.

Definition k_status_invalid : string := "Invalid Kinetic Status".

Definition k_status_grp1 : list string := [
  "Not attempted"; "Success"; "HMAC failure"; "Not authorized";
  "Version failure"; "Internal error"; "Header required"; "Not found";
  "Version mismatch"; "Service busy"; "Request timed out"; "Data error";
  "Perm data error"; "Remote connection error"; "No space";
  "No such hmac algorithm"; "Invalid request"; "Nested operation errors";
  "Device locked"; "Device already unlocked"; "Connection terminated";
  "Invalid batch"; "Hibernate"; "Shutdown" ].

Definition k_status_grp2 : list string := [
  "Not ready, try again"; "No message"; "Unable to allocate memory";
  "Bad session"; "General batch error" ].

Definition ki_error (ks : Z) : outcome string :=
  if (KSTAT_GRP1 <=? ks) && (ks <? KSTAT_GRP1_LAST) then
    array_read k_status_grp1 (Z.lxor ks KSTAT_GRP1)
  else if (KSTAT_GRP2 <=? ks) && (ks <? KSTAT_GRP2_LAST) then
    array_read k_status_grp2 (Z.lxor ks KSTAT_GRP2)
  else Ok k_status_invalid.

(** The exclusive or with the group's base strips the base. *)
Lemma lxor_grp2 ks : KSTAT_GRP2 <= ks < KSTAT_GRP2_LAST -> Z.lxor ks KSTAT_GRP2 = ks - KSTAT_GRP2.
Proof.
  intros H. assert (KSTAT_GRP2 = 32768) by done. assert (KSTAT_GRP2_LAST = 32773) by done.
  assert (ks = 32768 \/ ks = 32769 \/ ks = 32770 \/ ks = 32771 \/ ks = 32772) as Hc by lia.
  by destruct_or! Hc; subst.
Qed.

(** [ki_error] never reads outside its message tables, whatever the
    32-bit status code: a code of group 1 or 2 yields the message at its offset
    in its group, any other code the fixed invalid-status message. *)
Theorem ki_error_total ks :
  (0 <= ks < 24 -> exists m, ki_error ks = Ok m /\ k_status_grp1 !! Z.to_nat ks = Some m) /\
  (KSTAT_GRP2 <= ks < KSTAT_GRP2_LAST ->
     exists m, ki_error ks = Ok m /\ k_status_grp2 !! Z.to_nat (ks - KSTAT_GRP2) = Some m) /\
  (ks < 0 \/ 24 <= ks < KSTAT_GRP2 \/ KSTAT_GRP2_LAST <= ks -> ki_error ks = Ok k_status_invalid).
Proof.
  unfold ki_error, KSTAT_GRP1, KSTAT_GRP1_LAST. rewrite Z.lxor_0_r.
  assert (KSTAT_GRP2 = 32768) by done. assert (KSTAT_GRP2_LAST = 32773) by done.
  split_and!; intros Hr.
  - replace ((0 <=? ks) && (ks <? 24)) with true by lia. by apply array_read_ok.
  - replace ((0 <=? ks) && (ks <? 24)) with false by lia.
    replace ((KSTAT_GRP2 <=? ks) && (ks <? KSTAT_GRP2_LAST)) with true by lia.
    rewrite lxor_grp2 by done. apply array_read_ok. unfold zlen. cbn. lia.
  - replace ((0 <=? ks) && (ks <? 24)) with false by lia.
    replace ((KSTAT_GRP2 <=? ks) && (ks <? KSTAT_GRP2_LAST)) with false by lia. done.
Qed.
