(* ===== verification/Pdu.v ===== *)
(** The Kinetic PDU: the nine bytes that open every message on the wire.
    [PACK_PDU]/[UNPACK_PDU] of [src/protocol_interface.h], and the two length
    helpers of [src/open.c] that KTLI uses to size the rest of a message. *)

From S2P Require Import Prelude Types.

Definition KP_MAGIC : Z := 0x46.
Definition KP_PLENGTH : Z := 9.

(** [htonl]/[ntohl] of a little-endian host: reverse the four bytes. *)
Definition bswap32 (x : Z) : Z :=
  Z.lor (Z.shiftl (Z.land x 0x000000ff) 24)
  (Z.lor (Z.shiftl (Z.land x 0x0000ff00) 8)
  (Z.lor (Z.shiftr (Z.land x 0x00ff0000) 8)
         (Z.shiftr (Z.land x 0xff000000) 24))).
Definition htonl (x : Z) : Z := bswap32 x.
Definition ntohl (x : Z) : Z := bswap32 x.

(** The four bytes the macros store at [_p[1]..] (lowest byte first). *)
Definition pack_u32 (d : Z) : buffer :=
  [ Z.land d 0x000000ff; Z.shiftr (Z.land d 0x0000ff00) 8;
    Z.shiftr (Z.land d 0x00ff0000) 16; Z.shiftr (Z.land d 0xff000000) 24 ].

Definition unpack_u32 (b0 b1 b2 b3 : Z) : Z :=
  u32 (Z.lor (Z.shiftl b3 24) (Z.lor (Z.shiftl b2 16) (Z.lor (Z.shiftl b1 8) b0))).

Definition PACK_PDU (pdu : kpdu) : buffer :=
  u8 (kp_magic pdu) :: pack_u32 (htonl (kp_msglen pdu)) ++ pack_u32 (htonl (kp_vallen pdu)).

(** Reading nine bytes through the buffer pointer; a shorter buffer is an
    out-of-bounds read. *)
Definition UNPACK_PDU (p : buffer) : outcome kpdu :=
  match p with
  | m :: l0 :: l1 :: l2 :: l3 :: v0 :: v1 :: v2 :: v3 :: _ =>
      Ok (Kpdu (u8 m) (ntohl (unpack_u32 l0 l1 l2 l3)) (ntohl (unpack_u32 v0 v1 v2 v3)))
  | _ => Ub
  end.

(** The helpers take the header kiovec ([None]: NULL pointer) and return an
    [int32_t]. *)
Definition ki_msglen (msg_hdr : option kiovec) : outcome Z :=
  match msg_hdr with
  | None => Ok (-1)
  | Some h =>
      if negb (kiov_len h =? KP_PLENGTH) then Ok (-1)
      else match kiov_base h with
           | None => Ub
           | Some p => pdu ← UNPACK_PDU p; mret (i32 (kp_msglen pdu))
           end
  end.

Definition ki_vallen (msg_hdr : option kiovec) : outcome Z :=
  match msg_hdr with
  | None => Ok (-1)
  | Some h =>
      if negb (kiov_len h =? KP_PLENGTH) then Ok (-1)
      else match kiov_base h with
           | None => Ub
           | Some p => pdu ← UNPACK_PDU p; mret (i32 (kp_vallen pdu))
           end
  end.

(** *** Words and bytes *)

(** Byte [k/8] of a word, and the word of four bytes, least significant first. *)
Definition byte_at (x k : Z) : Z := Z.land (Z.shiftr x k) 255.
Definition word_of (b0 b1 b2 b3 : Z) : Z := b0 + 2 ^ 8 * b1 + 2 ^ 16 * b2 + 2 ^ 24 * b3.
Definition is_byte (b : Z) : Prop := 0 <= b < 256.

Lemma byte_at_div x k : 0 <= k -> byte_at x k = (x / 2 ^ k) mod 256.
Proof.
  intros. unfold byte_at. change 255 with (Z.ones 8).
  rewrite Z.land_ones, Z.shiftr_div_pow2 by lia. done.
Qed.

Lemma byte_at_range x k : 0 <= k -> is_byte (byte_at x k).
Proof. intros. rewrite byte_at_div by done. unfold is_byte. apply Z.mod_pos_bound. lia. Qed.

Lemma land_byte_mask x k :
  0 <= k -> Z.land x (Z.shiftl 255 k) = Z.shiftl (byte_at x k) k.
Proof.
  intros Hk. unfold byte_at. rewrite Z.shiftl_land.
  apply Z.bits_inj'. intros n Hn. rewrite !Z.land_spec.
  destruct (decide (n < k)) as [?|?].
  - rewrite (Z.shiftl_spec_low _ k n), andb_false_r, andb_false_r by done. done.
  - rewrite !Z.shiftl_spec, Z.shiftr_spec by lia. do 2 f_equal. lia.
Qed.

Lemma lor_shiftl_add a b n :
  0 <= n -> 0 <= a < 2 ^ n -> Z.lor (Z.shiftl b n) a = a + 2 ^ n * b.
Proof.
  intros Hn Ha. rewrite Z.lor_comm.
  assert (Z.land a (Z.shiftl b n) = 0) as Hz.
  { apply Z.bits_inj'. intros m Hm. rewrite Z.land_spec, Z.bits_0.
    destruct (decide (m < n)) as [?|?].
    - by rewrite Z.shiftl_spec_low, andb_false_r.
    - destruct (decide (a = 0)) as [->|]; [by rewrite Z.bits_0|].
      rewrite (Z.bits_above_log2 a m); [done|lia|].
      apply Z.lt_le_trans with n; [|lia]. apply Z.log2_lt_pow2; lia. }
  rewrite <- Z.lxor_lor, <- Z.add_nocarry_lxor by done.
  rewrite Z.shiftl_mul_pow2 by done. lia.
Qed.

Lemma lor_word b0 b1 b2 b3 :
  is_byte b0 -> is_byte b1 -> is_byte b2 -> is_byte b3 ->
  Z.lor (Z.shiftl b3 24) (Z.lor (Z.shiftl b2 16) (Z.lor (Z.shiftl b1 8) b0)) = word_of b0 b1 b2 b3.
Proof.
  unfold is_byte, word_of. intros. rewrite (lor_shiftl_add b0) by lia.
  rewrite (lor_shiftl_add _ b2), (lor_shiftl_add _ b3) by lia. lia.
Qed.

Lemma word_of_range b0 b1 b2 b3 :
  is_byte b0 -> is_byte b1 -> is_byte b2 -> is_byte b3 -> 0 <= word_of b0 b1 b2 b3 < 2 ^ 32.
Proof. unfold is_byte, word_of. lia. Qed.

Lemma byte_at_word b0 b1 b2 b3 :
  is_byte b0 -> is_byte b1 -> is_byte b2 -> is_byte b3 ->
  byte_at (word_of b0 b1 b2 b3) 0 = b0 /\ byte_at (word_of b0 b1 b2 b3) 8 = b1 /\
  byte_at (word_of b0 b1 b2 b3) 16 = b2 /\ byte_at (word_of b0 b1 b2 b3) 24 = b3.
Proof.
  unfold is_byte, word_of. intros. rewrite !byte_at_div by lia.
  split_and!; Z.to_euclidean_division_equations; lia.
Qed.

Lemma word_of_bytes x :
  0 <= x < 2 ^ 32 -> word_of (byte_at x 0) (byte_at x 8) (byte_at x 16) (byte_at x 24) = x.
Proof.
  intros. unfold word_of. rewrite !byte_at_div by lia.
  Z.to_euclidean_division_equations. lia.
Qed.

(** The pieces of the macros in those terms. *)
Lemma pack_u32_bytes d : pack_u32 d = [byte_at d 0; byte_at d 8; byte_at d 16; byte_at d 24].
Proof.
  unfold pack_u32.
  change 0xff000000 with (Z.shiftl 255 24). change 0x00ff0000 with (Z.shiftl 255 16).
  change 0x0000ff00 with (Z.shiftl 255 8). change (0x000000ff) with (Z.shiftl 255 0).
  rewrite !land_byte_mask, !Z.shiftr_shiftl_l by lia. by rewrite !Z.shiftl_0_r.
Qed.

Lemma bswap32_word x :
  bswap32 x = word_of (byte_at x 24) (byte_at x 16) (byte_at x 8) (byte_at x 0).
Proof.
  unfold bswap32.
  change 0xff000000 with (Z.shiftl 255 24). change 0x00ff0000 with (Z.shiftl 255 16).
  change 0x0000ff00 with (Z.shiftl 255 8). change (0x000000ff) with (Z.shiftl 255 0).
  rewrite !land_byte_mask by lia.
  rewrite (Z.shiftr_shiftl_l _ 16), (Z.shiftr_shiftl_l _ 24), !Z.shiftl_shiftl by lia.
  change (24 - 24) with 0. rewrite Z.shiftl_0_r. apply lor_word; by apply byte_at_range.
Qed.

Lemma unpack_u32_word b0 b1 b2 b3 :
  is_byte b0 -> is_byte b1 -> is_byte b2 -> is_byte b3 ->
  unpack_u32 b0 b1 b2 b3 = word_of b0 b1 b2 b3.
Proof.
  intros. unfold unpack_u32. rewrite lor_word by done.
  apply u32_small. by apply word_of_range.
Qed.

Lemma htonl_bytes x :
  byte_at (htonl x) 0 = byte_at x 24 /\ byte_at (htonl x) 8 = byte_at x 16 /\
  byte_at (htonl x) 16 = byte_at x 8 /\ byte_at (htonl x) 24 = byte_at x 0.
Proof. unfold htonl. rewrite bswap32_word. apply byte_at_word; by apply byte_at_range. Qed.

Lemma pack_htonl x :
  pack_u32 (htonl x) = [byte_at x 24; byte_at x 16; byte_at x 8; byte_at x 0].
Proof. rewrite pack_u32_bytes. destruct (htonl_bytes x) as (-> & -> & -> & ->). done. Qed.

Lemma ntohl_unpack x :
  0 <= x < 2 ^ 32 -> ntohl (unpack_u32 (byte_at x 24) (byte_at x 16) (byte_at x 8) (byte_at x 0)) = x.
Proof.
  intros. rewrite unpack_u32_word by (by apply byte_at_range). unfold ntohl. rewrite bswap32_word.
  destruct (byte_at_word (byte_at x 24) (byte_at x 16) (byte_at x 8) (byte_at x 0))
    as (-> & -> & -> & ->); try by apply byte_at_range. by apply word_of_bytes.
Qed.

Definition pdu_ok (p : kpdu) : Prop :=
  0 <= kp_magic p < 2 ^ 8 /\ 0 <= kp_msglen p < 2 ^ 32 /\ 0 <= kp_vallen p < 2 ^ 32.

(** A packed PDU is exactly the nine-byte wire layout the protocol fixes:
    the magic byte, then the message length and the value length, each in big
    endian order, whatever the byte order of the host. *)
Theorem pack_pdu_layout pdu :
  pdu_ok pdu ->
  PACK_PDU pdu =
    [ kp_magic pdu;
      kp_msglen pdu / 2 ^ 24; (kp_msglen pdu / 2 ^ 16) mod 256;
      (kp_msglen pdu / 2 ^ 8) mod 256; kp_msglen pdu mod 256;
      kp_vallen pdu / 2 ^ 24; (kp_vallen pdu / 2 ^ 16) mod 256;
      (kp_vallen pdu / 2 ^ 8) mod 256; kp_vallen pdu mod 256 ].
Proof.
  intros (? & ? & ?). unfold PACK_PDU. rewrite !pack_htonl, !byte_at_div by lia.
  change (2 ^ 0) with 1. unfold u8. rewrite !Z.div_1_r.
  rewrite (Z.mod_small (kp_magic _) (2 ^ 8)) by lia.
  assert (Htop : forall x, 0 <= x < 2 ^ 32 -> (x / 2 ^ 24) mod 256 = x / 2 ^ 24).
  { intros x ?. apply Z.mod_small. Z.to_euclidean_division_equations. lia. }
  by rewrite !Htop by done.
Qed.

Lemma pack_pdu_layout_witness :
  pdu_ok (Kpdu KP_MAGIC 0x01020304 7) /\
  PACK_PDU (Kpdu KP_MAGIC 0x01020304 7) = [0x46; 1; 2; 3; 4; 0; 0; 0; 7].
Proof.
  assert (H : pdu_ok (Kpdu KP_MAGIC 0x01020304 7)) by (unfold pdu_ok; zc).
  split; [exact H|]. exact (pack_pdu_layout _ H).
Defined.

Lemma unpack_packed pdu rest : pdu_ok pdu -> UNPACK_PDU (PACK_PDU pdu ++ rest) = Ok pdu.
Proof.
  intros (? & ? & ?). unfold PACK_PDU. rewrite !pack_htonl. cbn.
  rewrite !ntohl_unpack by done. unfold u8. rewrite !(Z.mod_small (kp_magic pdu) (2 ^ 8)) by lia.
  by destruct pdu.
Qed.

(** C38: Unpacking what was packed gives the PDU back, for every magic byte and
    every pair of 32-bit lengths, and does not look past the nine bytes. *)
Theorem unpack_pack_pdu pdu rest :
  pdu_ok pdu -> UNPACK_PDU (PACK_PDU pdu ++ rest) = Ok pdu.
Proof. exact (unpack_packed pdu rest). Qed.

Lemma unpack_pack_pdu_witness :
  UNPACK_PDU (PACK_PDU (Kpdu KP_MAGIC 300 70000) ++ [1; 2]) = Ok (Kpdu KP_MAGIC 300 70000).
Proof. apply unpack_pack_pdu. unfold pdu_ok; zc. Defined.

(** The lengths KTLI reads from a received header are the lengths the
    sender packed, as long as they fit a positive [int32_t]; a length of 2^31
    or more comes back negative, and a header that is not nine bytes long (or
    is missing) is refused with -1. *)
Theorem msglen_vallen_of_packed pdu hdr :
  pdu_ok pdu ->
  kiov_base hdr = Some (PACK_PDU pdu) ->
  (kiov_len hdr = KP_PLENGTH ->
     ki_msglen (Some hdr) = Ok (i32 (kp_msglen pdu)) /\
     ki_vallen (Some hdr) = Ok (i32 (kp_vallen pdu)) /\
     (kp_msglen pdu < 2 ^ 31 -> ki_msglen (Some hdr) = Ok (kp_msglen pdu)) /\
     (2 ^ 31 <= kp_msglen pdu -> exists n, ki_msglen (Some hdr) = Ok n /\ n < 0)) /\
  (kiov_len hdr <> KP_PLENGTH ->
     ki_msglen (Some hdr) = Ok (-1) /\ ki_vallen (Some hdr) = Ok (-1)) /\
  ki_msglen None = Ok (-1) /\ ki_vallen None = Ok (-1).
Proof.
  intros Hok Hb. pose proof (unpack_packed pdu [] Hok) as Hu. rewrite app_nil_r in Hu.
  unfold ki_msglen, ki_vallen. rewrite Hb. split_and!; try done; intros Hlen.
  - rewrite Hlen, Z.eqb_refl. cbn [negb]. rewrite Hu. cbn -[Z.pow]. destruct Hok as (? & ? & ?).
    split_and!; try done; intros.
    + by rewrite i32_small by lia.
    + eexists. split; [done|]. rewrite i32_high; lia.
  - by rewrite (proj2 (Z.eqb_neq _ _) Hlen).
Qed.

Lemma msglen_vallen_of_packed_witness :
  let pdu := Kpdu KP_MAGIC 77 5 in
  ki_msglen (Some (Kiovec (Some (PACK_PDU pdu)) 9)) = Ok 77.
Proof.
  assert (H : pdu_ok (Kpdu KP_MAGIC 77 5)) by (unfold pdu_ok; zc).
  destruct (msglen_vallen_of_packed (Kpdu KP_MAGIC 77 5)
    (Kiovec (Some (PACK_PDU (Kpdu KP_MAGIC 77 5))) 9) H eq_refl) as [H1 _].
  destruct (H1 eq_refl) as (_ & _ & H2 & _). apply H2. zc.
Defined.
