(* ===== verification/ListApi.v ===== *)
(** The list library KTLI queues are made of ([vendor/list], a git submodule
    whose code is not in the repository): the interface [ListApi] is the calls
    KTLI makes, [ListLaws] what it relies on, and [zlist] a concrete list that
    has the laws, for concrete runs.

    A list holds kio pointers in allocated elements and has a current position.
    An element is known by its address, which [kio_qbp] stores. *)

From S2P Require Import Prelude Types.

(** Traversal from the front, or from the current position ([LIST_CURR]);
    KTLI always asks for [LIST_ALTR], which moves the current position to the
    element the traversal stopped at. *)
Inductive traverse_from : Type := LIST_FRNT | LIST_CURR.

(** An element: its address and the kio pointer it carries. *)
Notation element := (ptr * ptr)%type.

(** Operations.  [list_insert_after] takes the block malloc gave it ([None]:
    NULL) and answers [None] for failure; a removal answers [None] on an empty
    list (or without a current position); [list_setcurr] answers [None] when its
    argument is not an element of the list.  A traversal's callback answers
    [true] to go on (LIST_TRUE) and may dereference the kio, so it is an
    [outcome]. *)
Class ListApi := {
  LIST_OK : Z; LIST_EXTENT : Z; LIST_EMPTY : Z;  (* traversal return codes *)
  clist : Type;
  list_create : clist;
  list_size : clist -> Z;
  list_mvrear : clist -> clist;
  list_insert_after : option ptr -> clist -> ptr -> option clist;
  list_element_curr : clist -> option ptr;
  list_setcurr : clist -> option ptr -> option clist;
  list_remove_front : clist -> option (ptr * clist);
  list_remove_rear : clist -> option (ptr * clist);
  list_remove_curr : clist -> option (ptr * clist);
  list_traverse : traverse_from -> clist -> (ptr -> outcome bool) -> outcome (Z * clist) }.

(** The first position at or after [i] whose element stops the traversal. *)
Fixpoint search_from (f : ptr -> outcome bool) (l : list element) (i : nat) : outcome (option nat) :=
  match l with
  | [] => Ok None
  | (_, p) :: l' =>
      go ← f p;
      if (go : bool) then search_from f l' (S i) else Ok (Some i)
  end.

Class ListLaws `{ListApi} := {
  contents : clist -> list element;
  cursor : clist -> option nat;
  list_codes_distinct : LIST_OK <> LIST_EXTENT /\ LIST_OK <> LIST_EMPTY /\ LIST_EXTENT <> LIST_EMPTY;
  list_create_contents : contents list_create = [];
  list_size_contents l : list_size l = zlen (contents l);
  list_mvrear_contents l : contents (list_mvrear l) = contents l;
  list_mvrear_cursor l : contents l <> [] ->
    cursor (list_mvrear l) = Some (pred (length (contents l)));
  list_insert_after_fail l p : list_insert_after None l p = None;
  list_insert_after_empty l e p : contents l = [] -> exists l',
    list_insert_after (Some e) l p = Some l' /\ contents l' = [(e, p)] /\ cursor l' = Some 0%nat;
  list_insert_after_cursor l e p i : cursor l = Some i -> (i < length (contents l))%nat ->
    exists l', list_insert_after (Some e) l p = Some l' /\
    contents l' = take (S i) (contents l) ++ (e, p) :: drop (S i) (contents l) /\
    cursor l' = Some (S i);
  list_element_curr_cursor l i e p :
    cursor l = Some i -> contents l !! i = Some (e, p) -> list_element_curr l = Some e;
  list_setcurr_in l e p i : NoDup (contents l).*1 -> contents l !! i = Some (e, p) ->
    exists l', list_setcurr l (Some e) = Some l' /\ contents l' = contents l /\ cursor l' = Some i;
  list_setcurr_null l : list_setcurr l None = None;
  list_setcurr_notin l e : e ∉ (contents l).*1 -> list_setcurr l (Some e) = None;
  list_remove_front_cons l e p c : contents l = (e, p) :: c ->
    exists l', list_remove_front l = Some (p, l') /\ contents l' = c;
  list_remove_rear_snoc l e p c : contents l = c ++ [(e, p)] ->
    exists l', list_remove_rear l = Some (p, l') /\ contents l' = c;
  list_remove_curr_cursor l i e p : cursor l = Some i -> contents l !! i = Some (e, p) ->
    exists l', list_remove_curr l = Some (p, l') /\
    contents l' = delete i (contents l) /\
    (contents l' <> [] -> exists j, cursor l' = Some j /\ (j <= i)%nat /\ (j < length (contents l'))%nat);
  list_traverse_empty w l f : contents l = [] ->
    exists l', list_traverse w l f = Ok (LIST_EMPTY, l') /\ contents l' = [];
  list_traverse_found w l f s i : contents l <> [] ->
    s = match w with LIST_FRNT => Some 0%nat | LIST_CURR => cursor l end ->
    (k ← s; Some (search_from f (drop k (contents l)) k)) = Some (Ok (Some i)) ->
    exists l', list_traverse w l f = Ok (LIST_OK, l') /\ contents l' = contents l /\
    cursor l' = Some i;
  list_traverse_extent w l f s : contents l <> [] ->
    s = match w with LIST_FRNT => Some 0%nat | LIST_CURR => cursor l end ->
    (k ← s; Some (search_from f (drop k (contents l)) k)) = Some (Ok None) ->
    exists l', list_traverse w l f = Ok (LIST_EXTENT, l') /\ contents l' = contents l }.

(** ** Derived facts *)
Section derived.
Context `{LL : ListLaws}.
Implicit Types (l : clist) (e p : ptr).

(** The idiom of every KTLI enqueue: to the rear, insert. *)
Lemma insert_at_rear l e p :
  exists l', list_insert_after (Some e) (list_mvrear l) p = Some l' /\
    contents l' = contents l ++ [(e, p)] /\ list_element_curr l' = Some e /\
    cursor l' = Some (length (contents l)).
Proof.
  destruct (decide (contents l = [])) as [Hnil|Hne].
  - destruct (list_insert_after_empty (list_mvrear l) e p) as (l' & Hi & Hc & Hcur).
    { by rewrite list_mvrear_contents. }
    exists l'. rewrite Hnil. split_and!; [done|done| |done].
    eapply list_element_curr_cursor; [done|]. by rewrite Hc.
  - destruct (contents l) as [|x c] eqn:E; [done|].
    pose proof (list_mvrear_cursor l) as Hcur. rewrite E in Hcur. specialize (Hcur Hne).
    destruct (list_insert_after_cursor (list_mvrear l) e p _ Hcur) as (l' & Hi & Hc & Hc').
    { rewrite list_mvrear_contents, E. cbn. lia. }
    rewrite list_mvrear_contents, E in Hc. cbn [length pred] in Hc, Hc'.
    rewrite take_ge, drop_ge in Hc by (cbn; lia).
    exists l'. split_and!; [done|done| |done].
    eapply list_element_curr_cursor; [done|]. rewrite Hc. by apply list_lookup_middle.
Qed.

Lemma list_size_nil l : contents l = [] -> list_size l = 0.
Proof. intros H'. by rewrite list_size_contents, H'. Qed.

Lemma list_size_pos l : contents l <> [] -> 0 < list_size l.
Proof. rewrite list_size_contents. unfold zlen. destruct (contents l); [done|cbn; lia]. Qed.

Lemma list_size_zero_iff l : (list_size l =? 0) = bool_decide (contents l = []).
Proof.
  rewrite list_size_contents. unfold zlen. destruct (contents l); [done|].
  rewrite bool_decide_eq_false_2 by done. apply Z.eqb_neq. cbn [length]. lia.
Qed.
End derived.

(** ** Searching *)
Section search.
Context (f : ptr -> outcome bool) (g : ptr -> bool).
Implicit Types (l : list element).

(** When the callback answers [negb (g p)] on every element, the search is
    the search for the first element with [g]. *)
Definition answers l : Prop := forall e p, (e, p) ∈ l -> f p = Ok (negb (g p)).

Lemma search_from_spec l i : answers l ->
  search_from f l i =
    Ok (match list_find (fun x => g x.2 = true) l with
        | Some (j, _) => Some (i + j)%nat | None => None end).
Proof.
  revert i. induction l as [|[e p] l IH]; intros i Ha; [done|].
  assert (answers l) by (intros ???; eapply Ha; by apply list_elem_of_further).
  cbn [search_from list_find]. rewrite (Ha e p) by apply list_elem_of_here.
  case_decide as Hg; cbn in Hg; rewrite ?Hg; cbn.
  - by rewrite Nat.add_0_r.
  - apply not_true_is_false in Hg. rewrite Hg. cbn. rewrite IH by done.
    destruct list_find as [[j x]|]; cbn; [by rewrite Nat.add_succ_r|done].
Qed.
End search.

(** ** A concrete list

    Elements in order and the position of the current one. *)
Record zlist := Zlist { z_elems : list element; z_cur : nat }.

Definition z_search (f : ptr -> outcome bool) (z : zlist) (k : nat) : outcome (Z * zlist) :=
  match z_elems z with
  | [] => Ok (2, z)
  | _ => r ← search_from f (drop k (z_elems z)) k;
         match r with
         | Some i => Ok (0, Zlist (z_elems z) i)
         | None => Ok (1, z)
         end
  end.

Definition z_remove (z : zlist) (i : nat) : option (ptr * zlist) :=
  '(_, p) ← z_elems z !! i;
  let r := delete i (z_elems z) in
  Some (p, Zlist r (Nat.min i (pred (length r)))).

Definition z_find (e : ptr) (z : zlist) : option nat :=
  fst <$> list_find (fun x => x.1 = e) (z_elems z).

#[export] Instance zlist_api : ListApi := {|
  LIST_OK := 0; LIST_EXTENT := 1; LIST_EMPTY := 2;
  clist := zlist;
  list_create := Zlist [] 0;
  list_size z := zlen (z_elems z);
  list_mvrear z := Zlist (z_elems z) (pred (length (z_elems z)));
  list_insert_after m z p :=
    e ← m;
    Some (match z_elems z with
          | [] => Zlist [(e, p)] 0
          | c => Zlist (take (S (z_cur z)) c ++ (e, p) :: drop (S (z_cur z)) c) (S (z_cur z))
          end);
  list_element_curr z := fst <$> z_elems z !! z_cur z;
  list_setcurr z o := e ← o; i ← z_find e z; Some (Zlist (z_elems z) i);
  list_remove_front z := z_remove z 0;
  list_remove_rear z := z_remove z (pred (length (z_elems z)));
  list_remove_curr z := z_remove z (z_cur z);
  list_traverse w z f := z_search f z (match w with LIST_FRNT => 0%nat | LIST_CURR => z_cur z end) |}.

Lemma z_find_lookup z e p i :
  NoDup (z_elems z).*1 -> z_elems z !! i = Some (e, p) -> z_find e z = Some i.
Proof.
  intros Hnd Hi. unfold z_find.
  replace (list_find (fun x : element => x.1 = e) (z_elems z)) with (Some (i, (e, p))); [done|].
  symmetry. apply list_find_Some. split_and!; [done|done|].
  intros j [e' p'] Hj Hlt Heq. cbn in Heq. subst e'.
  assert (j = i); [|lia]. apply (NoDup_lookup _ j i e Hnd); rewrite list_lookup_fmap.
  - by rewrite Hj.
  - by rewrite Hi.
Qed.

#[export, refine] Instance zlist_laws : @ListLaws zlist_api := {|
  contents := z_elems; cursor := fun z => Some (z_cur z) |}.
Proof.
  - done.
  - done.
  - done.
  - done.
  - done.
  - done.
  - intros l e p H'. cbn. rewrite H'. eauto.
  - intros [c k] e p i [= ->] Hlt. cbn in *. destruct c; [cbn in Hlt; lia|]. eauto.
  - intros [c k] i e p [= ->] H'. cbn in *. by rewrite H'.
  - intros [c k] e p i Hnd Hi. cbn -[z_find]. rewrite (z_find_lookup _ e p i) by done. cbn. eauto.
  - done.
  - intros [c k] e Hn. cbn -[list_find] in *. unfold z_find. cbn -[list_find].
    replace (list_find (fun x : element => x.1 = e) c) with (@None (nat * element)); [done|].
    symmetry. apply list_find_None, Forall_forall. intros [e' p] Hin Heq. cbn in Heq. subst.
    apply Hn, list_elem_of_fmap. by exists (e, p).
  - intros [c k] e p c' H'. cbn in *. subst c. cbn. eauto.
  - intros [c k] e p c' H'. cbn in *. subst c. unfold z_remove. cbn.
    rewrite length_app. cbn. replace (pred (length c' + 1)) with (length c') by lia.
    rewrite list_lookup_middle by done. cbn. eexists. split; [done|]. cbn.
    rewrite delete_middle. by rewrite app_nil_r.
  - intros [c k] i e p [= ->] H'. cbn in *. unfold z_remove. cbn. rewrite H'. cbn.
    eexists. split; [done|]. cbn. split; [done|]. intros Hne.
    eexists. split; [done|]. destruct (delete i c); [done|]. cbn. lia.
  - intros w [c k] f H'. cbn in *. subst c. unfold z_search. cbn. eauto.
  - intros w [c k] f s i Hne -> H'. cbn in *. unfold z_search. cbn.
    destruct c as [|x c]; [done|].
    destruct w; cbn in *; injection H' as ->; cbn; eauto.
  - intros w [c k] f s Hne -> H'. cbn in *. unfold z_search. cbn.
    destruct c as [|x c]; [done|].
    destruct w; cbn in *; injection H' as ->; cbn; eauto.
Defined.
