(* ===== verification/Session.v ===== *)
(** The global session table of KTLI: [src/ktli_session.c].

    The table is the array [kts_table] of [KTS_MAX_SESSIONS] pointers, NULL for
    a free slot.  Pointers a session stores are [option ptr]; the objects
    behind them live in the stores of [Ktli.v].  Every accessor indexes the
    array without a bounds test, as the C does, so a descriptor outside the
    array is undefined behaviour here too. *)

From S2P Require Import Prelude Types.

Definition KTS_MAX_SESSIONS : Z := 1024.

Inductive ktli_sstate : Type :=
| KTLI_SSTATE_UNKNOWN
| KTLI_SSTATE_OPENED
| KTLI_SSTATE_CONNECTED
| KTLI_SSTATE_ABORTED
| KTLI_SSTATE_DRAINING.

#[global] Instance ktli_sstate_eq_dec : EqDecision ktli_sstate.
Proof. solve_decision. Defined.

Record kts_session := KtsSession {
  ks_driver : option ptr;
  ks_dhandle : option ptr;
  ks_helpers : option ptr;
  ks_sendq : option ptr;
  ks_recvq : option ptr;
  ks_compq : option ptr;
  ks_sender : Z;
  ks_receiver : Z;
  ks_state : ktli_sstate;
  ks_sequence : Z;
  ks_config : option ptr }.

Notation kts_table_t := (list (option kts_session)).

(** [kts_init] *)
Definition kts_init : kts_table_t := replicate (Z.to_nat KTS_MAX_SESSIONS) None.

(** [kts_alloc_slot]: [m] is the block malloc returned, with whatever contents
    it has ([None]: malloc failed); the result is the descriptor, the errno the
    call sets if any, and the table. *)
Fixpoint first_free (t : kts_table_t) (i : Z) : option Z :=
  match t with
  | [] => None
  | None :: _ => Some i
  | Some _ :: t' => first_free t' (i + 1)
  end.

Definition kts_alloc_slot (m : option kts_session) (t : kts_table_t) : Z * option Z * kts_table_t :=
  match m with
  | None => (-1, Some ENOMEM, t)
  | Some ks =>
      match first_free t 0 with
      | Some i => (i, None, <[Z.to_nat i := Some ks]> t)
      | None => (-1, None, t)
      end
  end.

(** [kts_free_slot]: the slot is cleared; [if (kts_table[kts]) free(...)] runs
    after the compare-and-swap stored NULL, so the block itself stays
    allocated.  The second component is the block the call frees. *)
Definition kts_free_slot (kts : Z) (t : kts_table_t) : outcome (option kts_session * kts_table_t) :=
  t' ← array_write t kts None;
  ks ← array_read t' kts;
  mret (ks, t').

Definition kts_isvalid (kts : Z) (t : kts_table_t) : outcome bool :=
  if (kts <? 0) || (kts >? KTS_MAX_SESSIONS) then Ok false
  else ks ← array_read t kts; mret (bool_decide (is_Some ks)).

(** Accessors: the field of the session, or the default for a NULL slot. *)
Definition kts_get {A} (f : kts_session -> A) (d : A) (kts : Z) (t : kts_table_t) : outcome A :=
  ks ← array_read t kts; mret (default d (f <$> ks)).

Definition kts_driver := kts_get ks_driver None.
Definition kts_dhandle := kts_get ks_dhandle None.
Definition kts_helpers := kts_get ks_helpers None.
Definition kts_sendq := kts_get ks_sendq None.
Definition kts_recvq := kts_get ks_recvq None.
Definition kts_compq := kts_get ks_compq None.
Definition kts_sender := kts_get ks_sender 0.
Definition kts_receiver := kts_get ks_receiver 0.
Definition kts_state := kts_get ks_state KTLI_SSTATE_UNKNOWN.
Definition kts_sequence := kts_get ks_sequence (-1).
Definition kts_config := kts_get ks_config None.

(** Setters: nothing happens on a NULL slot. *)
Definition kts_update (f : kts_session -> kts_session) (kts : Z) (t : kts_table_t) : outcome kts_table_t :=
  ks ← array_read t kts;
  match ks with
  | None => mret t
  | Some s => array_write t kts (Some (f s))
  end.

Definition set_ks_driver (v : option ptr) (s : kts_session) : kts_session :=
  KtsSession v (ks_dhandle s) (ks_helpers s) (ks_sendq s) (ks_recvq s) (ks_compq s)
    (ks_sender s) (ks_receiver s) (ks_state s) (ks_sequence s) (ks_config s).
Definition kts_set_driver (v : option ptr) := kts_update (set_ks_driver v).
Definition set_ks_dhandle (v : option ptr) (s : kts_session) : kts_session :=
  KtsSession (ks_driver s) v (ks_helpers s) (ks_sendq s) (ks_recvq s) (ks_compq s)
    (ks_sender s) (ks_receiver s) (ks_state s) (ks_sequence s) (ks_config s).
Definition kts_set_dhandle (v : option ptr) := kts_update (set_ks_dhandle v).
Definition set_ks_helpers (v : option ptr) (s : kts_session) : kts_session :=
  KtsSession (ks_driver s) (ks_dhandle s) v (ks_sendq s) (ks_recvq s) (ks_compq s)
    (ks_sender s) (ks_receiver s) (ks_state s) (ks_sequence s) (ks_config s).
Definition kts_set_helpers (v : option ptr) := kts_update (set_ks_helpers v).
Definition set_ks_sendq (v : option ptr) (s : kts_session) : kts_session :=
  KtsSession (ks_driver s) (ks_dhandle s) (ks_helpers s) v (ks_recvq s) (ks_compq s)
    (ks_sender s) (ks_receiver s) (ks_state s) (ks_sequence s) (ks_config s).
Definition kts_set_sendq (v : option ptr) := kts_update (set_ks_sendq v).
Definition set_ks_recvq (v : option ptr) (s : kts_session) : kts_session :=
  KtsSession (ks_driver s) (ks_dhandle s) (ks_helpers s) (ks_sendq s) v (ks_compq s)
    (ks_sender s) (ks_receiver s) (ks_state s) (ks_sequence s) (ks_config s).
Definition kts_set_recvq (v : option ptr) := kts_update (set_ks_recvq v).
Definition set_ks_compq (v : option ptr) (s : kts_session) : kts_session :=
  KtsSession (ks_driver s) (ks_dhandle s) (ks_helpers s) (ks_sendq s) (ks_recvq s) v
    (ks_sender s) (ks_receiver s) (ks_state s) (ks_sequence s) (ks_config s).
Definition kts_set_compq (v : option ptr) := kts_update (set_ks_compq v).
Definition set_ks_sender (v : Z) (s : kts_session) : kts_session :=
  KtsSession (ks_driver s) (ks_dhandle s) (ks_helpers s) (ks_sendq s) (ks_recvq s) (ks_compq s)
    v (ks_receiver s) (ks_state s) (ks_sequence s) (ks_config s).
Definition kts_set_sender (v : Z) := kts_update (set_ks_sender v).
Definition set_ks_receiver (v : Z) (s : kts_session) : kts_session :=
  KtsSession (ks_driver s) (ks_dhandle s) (ks_helpers s) (ks_sendq s) (ks_recvq s) (ks_compq s)
    (ks_sender s) v (ks_state s) (ks_sequence s) (ks_config s).
Definition kts_set_receiver (v : Z) := kts_update (set_ks_receiver v).
Definition set_ks_state (v : ktli_sstate) (s : kts_session) : kts_session :=
  KtsSession (ks_driver s) (ks_dhandle s) (ks_helpers s) (ks_sendq s) (ks_recvq s) (ks_compq s)
    (ks_sender s) (ks_receiver s) v (ks_sequence s) (ks_config s).
Definition kts_set_state (v : ktli_sstate) := kts_update (set_ks_state v).
Definition set_ks_sequence (v : Z) (s : kts_session) : kts_session :=
  KtsSession (ks_driver s) (ks_dhandle s) (ks_helpers s) (ks_sendq s) (ks_recvq s) (ks_compq s)
    (ks_sender s) (ks_receiver s) (ks_state s) v (ks_config s).
Definition kts_set_sequence (v : Z) := kts_update (set_ks_sequence v).
Definition set_ks_config (v : option ptr) (s : kts_session) : kts_session :=
  KtsSession (ks_driver s) (ks_dhandle s) (ks_helpers s) (ks_sendq s) (ks_recvq s) (ks_compq s)
    (ks_sender s) (ks_receiver s) (ks_state s) (ks_sequence s) v.
Definition kts_set_config (v : option ptr) := kts_update (set_ks_config v).

Definition kts_clear := kts_update (fun _ =>
  KtsSession None None None None None None 0 0 KTLI_SSTATE_UNKNOWN 0 None).

Definition kts_set (driver dhandle helpers sendq recvq compq : option ptr) (sender receiver : Z)
    (state : ktli_sstate) (sequence : Z) (cf : option ptr) := kts_update (fun _ =>
  KtsSession driver dhandle helpers sendq recvq compq sender receiver state (i64 sequence) cf).

Definition kts_max_sessions : Z := KTS_MAX_SESSIONS.

(** ** The table discipline *)
Definition table_ok (t : kts_table_t) : Prop := zlen t = KTS_MAX_SESSIONS.

Lemma kts_init_ok : table_ok kts_init.
Proof. unfold table_ok, kts_init, zlen. rewrite length_replicate. done. Qed.

Lemma first_free_Some t i0 i :
  first_free t i0 = Some i ->
  i0 <= i < i0 + zlen t /\ t !! Z.to_nat (i - i0) = Some None /\
  forall j, i0 <= j < i -> exists s, t !! Z.to_nat (j - i0) = Some (Some s).
Proof.
  revert i0. induction t as [|[s|] t IH]; intros i0; cbn; [done| |].
  - intros (? & Hl & Hb)%IH. unfold zlen in *. cbn [length].
    split_and!; [lia|lia| |].
    + replace (Z.to_nat (i - i0)) with (S (Z.to_nat (i - (i0 + 1)))) by lia. done.
    + intros j ?. destruct (decide (j = i0)) as [->|].
      * exists s. by rewrite Z.sub_diag.
      * replace (Z.to_nat (j - i0)) with (S (Z.to_nat (j - (i0 + 1)))) by lia. apply Hb. lia.
  - intros [= ->]. unfold zlen. cbn [length]. rewrite Z.sub_diag.
    split_and!; [lia|lia|done|]. lia.
Qed.

Lemma first_free_None t i0 :
  first_free t i0 = None -> Forall is_Some t.
Proof.
  revert i0. induction t as [|[s|] t IH]; intros i0; cbn; [done| |done].
  intros ?%IH. constructor; eauto.
Qed.

(** [kts_alloc_slot] hands out the lowest free descriptor and changes no
    other slot; it fails exactly when malloc fails (ENOMEM, table untouched) or
    every slot is taken (table untouched), and it keeps the table's size. *)
Theorem kts_alloc_slot_spec m t :
  table_ok t ->
  let '(kts, err, t') := kts_alloc_slot m t in
  table_ok t' /\
  match m with
  | None => kts = -1 /\ err = Some ENOMEM /\ t' = t
  | Some ks =>
      err = None /\
      ((kts = -1 /\ t' = t /\ Forall is_Some t) \/
       (0 <= kts < KTS_MAX_SESSIONS /\
        t !! Z.to_nat kts = Some None /\
        (forall j, 0 <= j < kts -> exists s, t !! Z.to_nat j = Some (Some s)) /\
        t' !! Z.to_nat kts = Some (Some ks) /\
        (forall n, n <> Z.to_nat kts -> t' !! n = t !! n)))
  end.
Proof.
  intros Hok. unfold kts_alloc_slot. destruct m as [ks|]; [|done].
  destruct (first_free t 0) as [i|] eqn:E.
  - apply first_free_Some in E as (? & Hl & Hb). unfold table_ok in *.
    rewrite zlen_insert. rewrite Z.sub_0_r in Hl. split; [done|]. split; [done|]. right.
    split_and!; [lia|lia|done| | |].
    + intros j ?. destruct (Hb j) as [s Hs]; [lia|]. exists s. by rewrite Z.sub_0_r in Hs.
    + apply list_lookup_insert_eq. unfold zlen in *. lia.
    + intros n ?. by apply list_lookup_insert_ne.
  - split; [done|]. split; [done|]. left. split_and!; [done|done|]. by eapply first_free_None.
Qed.

Lemma kts_alloc_slot_spec_witness :
  table_ok kts_init /\
  (kts_alloc_slot None kts_init).1.1 = -1.
Proof.
  split; [exact kts_init_ok|].
  pose proof (kts_alloc_slot_spec None kts_init kts_init_ok) as H.
  cbn in H. exact (proj1 (proj2 H)).
Defined.

(** ** Accessor laws *)
Lemma kts_get_ok {A} (f : kts_session -> A) d kts t s :
  0 <= kts -> t !! Z.to_nat kts = Some (Some s) -> kts_get f d kts t = Ok (f s).
Proof.
  intros ? H. unfold kts_get, array_read. replace (kts <? 0) with false by lia. by rewrite H.
Qed.

Lemma kts_update_ok f kts t s :
  0 <= kts -> t !! Z.to_nat kts = Some (Some s) ->
  kts_update f kts t = Ok (<[Z.to_nat kts := Some (f s)]> t).
Proof.
  intros ? H. pose proof (lookup_lt_Some _ _ _ H). unfold kts_update, array_read.
  replace (kts <? 0) with false by lia. rewrite H. cbn.
  apply array_write_ok. unfold zlen. lia.
Qed.

Lemma kts_isvalid_ok kts t s :
  0 <= kts < KTS_MAX_SESSIONS -> t !! Z.to_nat kts = Some (Some s) -> kts_isvalid kts t = Ok true.
Proof.
  intros Hr H. unfold kts_isvalid, array_read.
  replace ((kts <? 0) || (kts >? KTS_MAX_SESSIONS)) with false by lia.
  replace (kts <? 0) with false by lia. by rewrite H.
Qed.

Lemma kts_isvalid_null kts t :
  0 <= kts < KTS_MAX_SESSIONS -> t !! Z.to_nat kts = Some None -> kts_isvalid kts t = Ok false.
Proof.
  intros Hr H. unfold kts_isvalid, array_read.
  replace ((kts <? 0) || (kts >? KTS_MAX_SESSIONS)) with false by lia.
  replace (kts <? 0) with false by lia. by rewrite H.
Qed.

(** [kts_isvalid] decides exactly whether a descriptor names an allocated
    session, for every [int] but one: the bound test accepts the descriptor
    [KTS_MAX_SESSIONS] itself, one past the table, and reads outside it. *)
Theorem kts_isvalid_spec kts t :
  table_ok t ->
  (kts <> KTS_MAX_SESSIONS ->
     exists b, kts_isvalid kts t = Ok b /\
       (b = true <-> 0 <= kts < KTS_MAX_SESSIONS /\ exists s, t !! Z.to_nat kts = Some (Some s))) /\
  (kts = KTS_MAX_SESSIONS -> kts_isvalid kts t = Ub).
Proof.
  unfold table_ok. intros Hok. assert (KTS_MAX_SESSIONS = 1024) as HM by done. split.
  - intros Hne. destruct (decide (0 <= kts < KTS_MAX_SESSIONS)) as [Hr|Hr].
    + destruct (lookup_lt_is_Some_2 t (Z.to_nat kts)) as [o Ho]; [unfold zlen in Hok; lia|].
      destruct o as [s|].
      * exists true. rewrite (kts_isvalid_ok _ _ s) by done. split; [done|]. split; eauto.
      * exists false. rewrite kts_isvalid_null by done. split; [done|].
        split; [done|]. intros (_ & s & Hs). congruence.
    + exists false. unfold kts_isvalid.
      replace ((kts <? 0) || (kts >? KTS_MAX_SESSIONS)) with true by lia.
      split; [done|]. split; [done|]. intros [? ?]. by destruct Hr.
  - intros ->. unfold kts_isvalid. rewrite HM. cbn -[array_read].
    rewrite (proj2 (array_read_ub t 1024)) by lia. done.
Qed.

Lemma kts_isvalid_spec_witness :
  table_ok kts_init /\ kts_isvalid KTS_MAX_SESSIONS kts_init = Ub.
Proof.
  split; [exact kts_init_ok|].
  exact (proj2 (kts_isvalid_spec KTS_MAX_SESSIONS kts_init kts_init_ok) eq_refl).
Defined.

(** A setter changes its own field of its own session only: after
    [kts_set_state], [kts_state] reads the new state, the other accessors of the
    session read what they read before, and no other slot changes. *)
Theorem kts_set_state_spec kts t s v :
  0 <= kts -> t !! Z.to_nat kts = Some (Some s) ->
  exists t', kts_set_state v kts t = Ok t' /\ zlen t' = zlen t /\
    kts_state kts t' = Ok v /\
    kts_driver kts t' = Ok (ks_driver s) /\ kts_dhandle kts t' = Ok (ks_dhandle s) /\
    kts_helpers kts t' = Ok (ks_helpers s) /\ kts_sendq kts t' = Ok (ks_sendq s) /\
    kts_recvq kts t' = Ok (ks_recvq s) /\ kts_compq kts t' = Ok (ks_compq s) /\
    kts_sequence kts t' = Ok (ks_sequence s) /\ kts_config kts t' = Ok (ks_config s) /\
    (forall j, j <> kts -> kts_state j t' = kts_state j t).
Proof.
  intros Hk Hs. unfold kts_set_state. rewrite (kts_update_ok _ _ _ _ Hk Hs).
  eexists. split; [done|]. split; [apply zlen_insert|].
  pose proof (lookup_lt_Some _ _ _ Hs).
  assert (Hn : forall x, (<[Z.to_nat kts := x]> t) !! Z.to_nat kts = Some x)
    by (intros; by apply list_lookup_insert_eq).
  split_and!; try by (unfold kts_state, kts_driver, kts_dhandle, kts_helpers, kts_sendq, kts_recvq,
    kts_compq, kts_sequence, kts_config; rewrite (kts_get_ok _ _ _ _ _ Hk (Hn _))).
  intros j Hj. unfold kts_state, kts_get, array_read.
  destruct (j <? 0) eqn:E; [done|]. zbool. rewrite list_lookup_insert_ne by lia. done.
Qed.

Lemma kts_set_state_spec_witness :
  let s := KtsSession None None None None None None 0 0 KTLI_SSTATE_UNKNOWN 0 None in
  let t := (kts_alloc_slot (Some s) kts_init).2 in
  0 <= 0 /\ t !! Z.to_nat 0 = Some (Some s) /\
  exists t', kts_set_state KTLI_SSTATE_OPENED 0 t = Ok t'.
Proof.
  intros s t. split; [lia|]. split; [done|].
  assert (H0 : 0 <= 0) by lia. assert (Ht : t !! Z.to_nat 0 = Some (Some s)) by done.
  destruct (kts_set_state_spec 0 t s KTLI_SSTATE_OPENED H0 Ht) as (t' & H & _).
  exists t'. exact H.
Defined.

(** ** Concurrent allocation

    Threads race through the loop of [kts_alloc_slot]; every compare-and-swap
    is one step, and a thread that owns a slot may free it. *)
Inductive alloc_pc : Type :=
| Trying (ks : kts_session) (i : Z)   (** about to compare-and-swap slot [i] *)
| Got (ks : kts_session) (i : Z)      (** the call returned [i] *)
| Exhausted                           (** the call returned -1 *)
| Released.                           (** [kts_free_slot] on the slot it got *)

Record alloc_state := AllocState { as_table : kts_table_t; as_threads : list alloc_pc }.

Inductive alloc_step : alloc_state -> alloc_state -> Prop :=
| alloc_cas_win t ths n ks i :
    ths !! n = Some (Trying ks i) -> 0 <= i < KTS_MAX_SESSIONS ->
    t !! Z.to_nat i = Some None ->
    alloc_step (AllocState t ths)
      (AllocState (<[Z.to_nat i := Some ks]> t) (<[n := Got ks i]> ths))
| alloc_cas_lose t ths n ks i s :
    ths !! n = Some (Trying ks i) -> 0 <= i < KTS_MAX_SESSIONS ->
    t !! Z.to_nat i = Some (Some s) ->
    alloc_step (AllocState t ths) (AllocState t (<[n := Trying ks (i + 1)]> ths))
| alloc_full t ths n ks :
    ths !! n = Some (Trying ks KTS_MAX_SESSIONS) ->
    alloc_step (AllocState t ths) (AllocState t (<[n := Exhausted]> ths))
| alloc_free t ths n ks i b t' :
    ths !! n = Some (Got ks i) -> kts_free_slot i t = Ok (b, t') ->
    alloc_step (AllocState t ths) (AllocState t' (<[n := Released]> ths)).

Definition alloc_inv (a : alloc_state) : Prop :=
  table_ok (as_table a) /\
  (forall n ks i, as_threads a !! n = Some (Trying ks i) -> 0 <= i <= KTS_MAX_SESSIONS) /\
  (forall n ks i, as_threads a !! n = Some (Got ks i) ->
     0 <= i < KTS_MAX_SESSIONS /\ as_table a !! Z.to_nat i = Some (Some ks)) /\
  (forall n1 n2 ks1 ks2 i, as_threads a !! n1 = Some (Got ks1 i) ->
     as_threads a !! n2 = Some (Got ks2 i) -> n1 = n2).

Lemma kts_free_slot_ok i t :
  0 <= i < zlen t -> kts_free_slot i t = Ok (None, <[Z.to_nat i := None]> t).
Proof.
  intros Hi. unfold kts_free_slot. rewrite array_write_ok by done. cbn.
  unfold array_read. replace (i <? 0) with false by lia.
  rewrite list_lookup_insert_eq by (unfold zlen in Hi; lia). done.
Qed.

Lemma kts_free_slot_inv i t r :
  kts_free_slot i t = Ok r -> r = (None, <[Z.to_nat i := None]> t) /\ 0 <= i < zlen t.
Proof.
  intros H. destruct (decide (0 <= i < zlen t)) as [Hi|Hi].
  - rewrite kts_free_slot_ok in H by done. split; [congruence|done].
  - unfold kts_free_slot, array_write in H.
    replace ((0 <=? i) && (i <? zlen t)) with false in H by lia. done.
Qed.

(** Looking a thread up after one thread moved. *)
Ltac thread_cases :=
  repeat match goal with
  | H : <[?n := _]> _ !! ?m = Some _ |- _ =>
      destruct (decide (n = m)) as [->|];
      [ rewrite list_lookup_insert_eq in H by (eapply lookup_lt_Some; eassumption); simplify_eq
      | rewrite list_lookup_insert_ne in H by done ]
  end.

Lemma alloc_inv_step a a' : alloc_inv a -> alloc_step a a' -> alloc_inv a'.
Proof.
  unfold alloc_inv, table_ok.
  intros (Hok & Htry & Hgot & Huniq) Hstep. destruct Hstep as
    [t ths n ks i Hn Hi Hfree|t ths n ks i s Hn Hi Hs|t ths n ks Hn|t ths n ks i b t' Hn Hf]; cbn in *.
  - rewrite zlen_insert. split_and!; [done| | |].
    + intros m ? j Hm. thread_cases. eauto.
    + intros m ? j Hm. thread_cases.
      * split; [done|]. apply list_lookup_insert_eq. unfold zlen in Hok. lia.
      * destruct (Hgot _ _ _ Hm) as [? Hj]. split; [done|].
        destruct (decide (i = j)) as [->|]; [congruence|].
        rewrite list_lookup_insert_ne by lia. done.
    + intros m1 m2 ks1 ks2 j H1 H2. thread_cases; try done; eauto.
      all: exfalso; repeat match goal with H : _ !! _ = Some (Got _ _) |- _ =>
        apply Hgot in H as [? ?] end; congruence.
  - split_and!; [done| | |].
    + intros m ? j Hm. thread_cases; [lia|eauto].
    + intros m ? j Hm. thread_cases. eauto.
    + intros m1 m2 ks1 ks2 j H1 H2. thread_cases. eauto.
  - split_and!; [done| | |].
    + intros m ? j Hm. thread_cases. eauto.
    + intros m ? j Hm. thread_cases. eauto.
    + intros m1 m2 ks1 ks2 j H1 H2. thread_cases. eauto.
  - apply kts_free_slot_inv in Hf as [[= -> ->] Hi]. rewrite zlen_insert. split_and!; [done| | |].
    + intros m ? j Hm. thread_cases. eauto.
    + intros m ? j Hm. thread_cases. destruct (Hgot _ _ _ Hm) as [? Hj]. split; [done|].
      destruct (decide (i = j)) as [->|]; [destruct (Huniq n m ks ks0 j); done|].
      rewrite list_lookup_insert_ne by lia. done.
    + intros m1 m2 ks1 ks2 j H1 H2. thread_cases. eauto.
Qed.

(** A start state: every thread about to enter the loop of [kts_alloc_slot]. *)
Definition alloc_start (t : kts_table_t) (blocks : list kts_session) : alloc_state :=
  AllocState t ((fun ks => Trying ks 0) <$> blocks).

Lemma alloc_inv_start t blocks : table_ok t -> alloc_inv (alloc_start t blocks).
Proof.
  intros Hok. assert (KTS_MAX_SESSIONS = 1024) by done. split; [done|]. cbn. split_and!.
  - intros n ks i H'. rewrite list_lookup_fmap in H'. destruct (blocks !! n); naive_solver lia.
  - intros n ks i H'. rewrite list_lookup_fmap in H'. destruct (blocks !! n); naive_solver.
  - intros n1 n2 ks1 ks2 i H1 _. rewrite list_lookup_fmap in H1. destruct (blocks !! n1); naive_solver.
Qed.


Definition kts_blank : kts_session :=
  KtsSession None None None None None None 0 0 KTLI_SSTATE_UNKNOWN 0 None.

Lemma alloc_two_run :
  rtc alloc_step (alloc_start kts_init [kts_blank; kts_blank])
    (AllocState (<[1%nat := Some kts_blank]> (<[0%nat := Some kts_blank]> kts_init))
       [Got kts_blank 0; Got kts_blank 1]).
Proof.
  eapply rtc_l.
  { eapply (alloc_cas_win _ _ 0%nat kts_blank 0); [done|zc|done]. }
  eapply rtc_l.
  { eapply (alloc_cas_lose _ _ 1%nat kts_blank 0); [done|zc|done]. }
  eapply rtc_l.
  { eapply (alloc_cas_win _ _ 1%nat kts_blank 1); [done|zc|done]. }
  reflexivity.
Qed.

