(* ===== verification/KtliState.v ===== *)
(** The state the KTLI transport layer works on, and the C primitives its code
    is made of: pthread mutexes, malloc and free, the clock, errno, kio and
    queue accesses ([src/ktli.h], [src/kio.h]). *)

From stdpp Require Import gmap.
From S2P Require Import Prelude Types ListApi Session.

Definition KTLI_DRIVER_NONE : Z := 0.
Definition KTLI_DRIVER_SOCKET : Z := 1.

Definition KCFF_TLS : Z := 1.

(** [sizeof] of what KTLI allocates (LP64, glibc).  A list library call that
    makes an element counts as one block of the size of the pointer stored. *)
Definition sizeof_int : Z := 4.
Definition sizeof_ptr : Z := 8.
Definition sizeof_kiovec : Z := 16.
Definition sizeof_kio : Z := 208.
Definition sizeof_ktli_queue : Z := 104.
Definition sizeof_kts_session : Z := 88.

(** [struct ktli_config]; strings are buffers. *)
Record ktli_config := KtliConfig {
  kcfg_host : option buffer; kcfg_port : option buffer;
  kcfg_id : Z; kcfg_hkey : option buffer; kcfg_flags : Z;
  kcfg_pconf : option ptr }.

(** [struct ktli_helpers]: function pointers, [None] for NULL.  [kh_setseq_fn]
    rewrites the message vector it is given. *)
Record ktli_helpers := KtliHelpers {
  kh_recvhdr_len : Z;
  kh_getaseq_fn : option (list kiovec -> Z -> Z);
  kh_setseq_fn : option (list kiovec -> Z -> Z -> list kiovec);
  kh_msglen_fn : option (kiovec -> Z);
  kh_vallen_fn : option (kiovec -> Z) }.

(** [struct ktli_driver_fns] over the environment [X] the driver talks to.  A
    call answers its return code and the errno it set, if any; a receive also
    answers the vector with the bytes it stored. *)
Record ktli_driver_fns {X : Type} := KtliDriverFns {
  ktli_dfns_open : X -> option ptr * X;
  ktli_dfns_close : option ptr -> X -> Z * option Z * X;
  ktli_dfns_connect : option ptr -> option buffer -> option buffer -> Z -> X -> Z * option Z * X;
  ktli_dfns_disconnect : option ptr -> X -> Z * option Z * X;
  ktli_dfns_send : option ptr -> list kiovec -> Z -> X -> Z * option Z * X;
  ktli_dfns_receive : option ptr -> list kiovec -> Z -> X -> Z * option Z * list kiovec * X;
  ktli_dfns_poll : option ptr -> Z -> X -> Z * option Z * X }.
Arguments ktli_driver_fns : clear implicits.

Section state.
Context `{LA : ListApi} {X : Type}.

(** [struct ktli_queue]; the mutex is the flag "held".  Condition variables
    only wake threads, whose steps are explicit here. *)
Record ktli_queue := KtliQueue { ktq_list : option clist; ktq_m : bool; ktq_exit : Z }.

(** A service thread: the [int *] it was started with, and for a receiver
    whether it has seen the session connected, with its last timeout check. *)
Inductive thread : Type :=
  | Sender (p : ptr)
  | Receiver_waiting (p : ptr)
  | Receiver_running (p : ptr) (lastcheck : timespec).

(** Everything KTLI shares.  [w_malloc n size] is the answer to the n-th
    allocation: NULL, or the bytes the block holds; [w_clock n] the n-th
    reading of the clock, [w_pthread n] the id of the n-th thread ([None]:
    pthread_create fails); [w_blank] the contents of a fresh session block;
    [w_live] counts the response blocks KTLI allocated and has not freed. *)
Record world := World {
  w_errno : Z;
  ktli_up : Z;
  w_table : kts_table_t;
  w_queues : gmap ptr ktli_queue;
  w_kios : gmap ptr (kio ptr);
  w_helpers : gmap ptr ktli_helpers;
  w_configs : gmap ptr ktli_config;
  w_ints : gmap ptr Z;
  w_threads : gmap Z thread;
  w_next : ptr;
  w_live : Z;
  w_blank : kts_session;
  w_mcount : nat; w_malloc : nat -> Z -> option (nat -> Z);
  w_tick : nat; w_clock : nat -> timespec;
  w_tcount : nat; w_pthread : nat -> option Z;
  w_env : X }.

Definition set_errno_w (v : Z) (w : world) : world :=
  World v (ktli_up w) (w_table w) (w_queues w) (w_kios w) (w_helpers w) (w_configs w) (w_ints w)
    (w_threads w) (w_next w) (w_live w) (w_blank w) (w_mcount w) (w_malloc w) (w_tick w) (w_clock w)
    (w_tcount w) (w_pthread w) (w_env w).
Definition set_up_w (v : Z) (w : world) : world :=
  World (w_errno w) v (w_table w) (w_queues w) (w_kios w) (w_helpers w) (w_configs w) (w_ints w)
    (w_threads w) (w_next w) (w_live w) (w_blank w) (w_mcount w) (w_malloc w) (w_tick w) (w_clock w)
    (w_tcount w) (w_pthread w) (w_env w).
Definition set_table_w (v : kts_table_t) (w : world) : world :=
  World (w_errno w) (ktli_up w) v (w_queues w) (w_kios w) (w_helpers w) (w_configs w) (w_ints w)
    (w_threads w) (w_next w) (w_live w) (w_blank w) (w_mcount w) (w_malloc w) (w_tick w) (w_clock w)
    (w_tcount w) (w_pthread w) (w_env w).
Definition set_queues_w (v : gmap ptr ktli_queue) (w : world) : world :=
  World (w_errno w) (ktli_up w) (w_table w) v (w_kios w) (w_helpers w) (w_configs w) (w_ints w)
    (w_threads w) (w_next w) (w_live w) (w_blank w) (w_mcount w) (w_malloc w) (w_tick w) (w_clock w)
    (w_tcount w) (w_pthread w) (w_env w).
Definition set_kios_w (v : gmap ptr (kio ptr)) (w : world) : world :=
  World (w_errno w) (ktli_up w) (w_table w) (w_queues w) v (w_helpers w) (w_configs w) (w_ints w)
    (w_threads w) (w_next w) (w_live w) (w_blank w) (w_mcount w) (w_malloc w) (w_tick w) (w_clock w)
    (w_tcount w) (w_pthread w) (w_env w).
Definition set_ints_w (v : gmap ptr Z) (w : world) : world :=
  World (w_errno w) (ktli_up w) (w_table w) (w_queues w) (w_kios w) (w_helpers w) (w_configs w) v
    (w_threads w) (w_next w) (w_live w) (w_blank w) (w_mcount w) (w_malloc w) (w_tick w) (w_clock w)
    (w_tcount w) (w_pthread w) (w_env w).
Definition set_threads_w (v : gmap Z thread) (w : world) : world :=
  World (w_errno w) (ktli_up w) (w_table w) (w_queues w) (w_kios w) (w_helpers w) (w_configs w)
    (w_ints w) v (w_next w) (w_live w) (w_blank w) (w_mcount w) (w_malloc w) (w_tick w) (w_clock w)
    (w_tcount w) (w_pthread w) (w_env w).
Definition set_next_w (v : ptr) (w : world) : world :=
  World (w_errno w) (ktli_up w) (w_table w) (w_queues w) (w_kios w) (w_helpers w) (w_configs w)
    (w_ints w) (w_threads w) v (w_live w) (w_blank w) (w_mcount w) (w_malloc w) (w_tick w) (w_clock w)
    (w_tcount w) (w_pthread w) (w_env w).
Definition set_live_w (v : Z) (w : world) : world :=
  World (w_errno w) (ktli_up w) (w_table w) (w_queues w) (w_kios w) (w_helpers w) (w_configs w)
    (w_ints w) (w_threads w) (w_next w) v (w_blank w) (w_mcount w) (w_malloc w) (w_tick w) (w_clock w)
    (w_tcount w) (w_pthread w) (w_env w).
Definition bump_mcount_w (w : world) : world :=
  World (w_errno w) (ktli_up w) (w_table w) (w_queues w) (w_kios w) (w_helpers w) (w_configs w)
    (w_ints w) (w_threads w) (w_next w) (w_live w) (w_blank w) (S (w_mcount w)) (w_malloc w) (w_tick w)
    (w_clock w) (w_tcount w) (w_pthread w) (w_env w).
Definition bump_tick_w (w : world) : world :=
  World (w_errno w) (ktli_up w) (w_table w) (w_queues w) (w_kios w) (w_helpers w) (w_configs w)
    (w_ints w) (w_threads w) (w_next w) (w_live w) (w_blank w) (w_mcount w) (w_malloc w) (S (w_tick w))
    (w_clock w) (w_tcount w) (w_pthread w) (w_env w).
Definition bump_tcount_w (w : world) : world :=
  World (w_errno w) (ktli_up w) (w_table w) (w_queues w) (w_kios w) (w_helpers w) (w_configs w)
    (w_ints w) (w_threads w) (w_next w) (w_live w) (w_blank w) (w_mcount w) (w_malloc w) (w_tick w)
    (w_clock w) (S (w_tcount w)) (w_pthread w) (w_env w).
Definition set_env_w (v : X) (w : world) : world :=
  World (w_errno w) (ktli_up w) (w_table w) (w_queues w) (w_kios w) (w_helpers w) (w_configs w)
    (w_ints w) (w_threads w) (w_next w) (w_live w) (w_blank w) (w_mcount w) (w_malloc w) (w_tick w)
    (w_clock w) (w_tcount w) (w_pthread w) v.

Notation M := (ST world).

(** errno *)
Definition set_errno (e : Z) : M unit := modify_st (set_errno_w e).
Definition set_errno_opt (e : option Z) : M unit :=
  match e with Some v => set_errno v | None => mret tt end.
Definition fail (e : Z) : M Z := set_errno e ;; mret (-1).

(** The session table *)
Definition kts_rd {A} (f : kts_table_t -> outcome A) : M A := fun w =>
  match f (w_table w) with Ok a => Ok (a, w) | Ub => Ub | Hang => Hang | NoFuel => NoFuel end.
Definition kts_wr (f : kts_table_t -> outcome kts_table_t) : M unit := fun w =>
  match f (w_table w) with Ok t => Ok (tt, set_table_w t w) | Ub => Ub | Hang => Hang | NoFuel => NoFuel end.

(** Mutexes: locking one that is held never returns (every handler runs
    alone, so the holder is the caller itself). *)
Definition pthread_mutex_lock (q : option ptr) : M unit := fun w =>
  match q ≫= (w_queues w !!.) with
  | Some (KtliQueue l false ex) =>
      Ok (tt, set_queues_w (<[default 1%positive q := KtliQueue l true ex]> (w_queues w)) w)
  | Some (KtliQueue _ true _) => Hang
  | None => Ub
  end.
Definition pthread_mutex_unlock (q : option ptr) : M unit := fun w =>
  match q ≫= (w_queues w !!.) with
  | Some (KtliQueue l _ ex) =>
      Ok (tt, set_queues_w (<[default 1%positive q := KtliQueue l false ex]> (w_queues w)) w)
  | None => Ub
  end.

(** [q->ktq_list] and its replacement after a list call *)
Definition q_list (q : option ptr) : M clist := fun w =>
  match q ≫= (w_queues w !!.) with
  | Some (KtliQueue (Some l) _ _) => Ok (l, w)
  | _ => Ub
  end.
Definition q_set (q : option ptr) (l : clist) : M unit := fun w =>
  match q ≫= (w_queues w !!.) with
  | Some (KtliQueue _ m ex) =>
      Ok (tt, set_queues_w (<[default 1%positive q := KtliQueue (Some l) m ex]> (w_queues w)) w)
  | None => Ub
  end.
Definition q_exit (q : option ptr) : M Z := fun w =>
  match q ≫= (w_queues w !!.) with Some (KtliQueue _ _ ex) => Ok (ex, w) | None => Ub end.
Definition q_set_exit (q : option ptr) (v : Z) : M unit := fun w =>
  match q ≫= (w_queues w !!.) with
  | Some (KtliQueue l m _) =>
      Ok (tt, set_queues_w (<[default 1%positive q := KtliQueue l m v]> (w_queues w)) w)
  | None => Ub
  end.

(** kio fields *)
Definition kio_rd (p : ptr) : M (kio ptr) := fun w => deref_st (w_kios w !! p) w.
Definition kio_upd (p : ptr) (f : kio ptr -> kio ptr) : M unit := fun w =>
  match w_kios w !! p with
  | Some k => Ok (tt, set_kios_w (<[p := f k]> (w_kios w)) w)
  | None => Ub
  end.

(** malloc: the oracle's answer, and a fresh address for a block that other
    objects point to. *)
Definition malloc (size : Z) : M (option (nat -> Z)) := fun w =>
  Ok (w_malloc w (w_mcount w) size, bump_mcount_w w).
Definition fresh_ptr : M ptr := fun w => Ok (w_next w, set_next_w (Pos.succ (w_next w)) w).
Definition malloc_ptr (size : Z) : M (option ptr) :=
  m ← malloc size;
  match m with
  | None => mret None
  | Some _ => p ← fresh_ptr; mret (Some p)
  end.
Definition malloc_buf (size : Z) : M (option buffer) :=
  m ← malloc size;
  match m with
  | None => mret None
  | Some f =>
      modify_st (fun w => set_live_w (w_live w + 1) w) ;;
      mret (Some (f <$> seq 0 (Z.to_nat size)))
  end.
Definition free_buf : M unit := modify_st (fun w => set_live_w (w_live w - 1) w).

(** [clock_gettime], [ktli_gettime] *)
Definition ktli_gettime : M timespec := fun w => Ok (w_clock w (w_tick w), bump_tick_w w).

(** A driver call *)
Definition call_driver (f : X -> Z * option Z * X) : M Z := fun w =>
  let '(rc, e, x) := f (w_env w) in (set_errno_opt e ;; mret rc) (set_env_w x w).
Definition call_receive (f : X -> Z * option Z * list kiovec * X) : M (Z * list kiovec) := fun w =>
  let '(rc, e, iov, x) := f (w_env w) in (set_errno_opt e ;; mret (rc, iov)) (set_env_w x w).

(** The idiom "move to the rear, insert, keep the back pointer" of every
    queue a kio enters.  Its malloc is the list's; [list_insert_after]'s
    answer decides. *)
Definition list_enqueue (q : option ptr) (p : ptr) : M bool :=
  l ← q_list q;
  q_set q (list_mvrear l) ;;
  l ← q_list q;
  e ← malloc_ptr sizeof_ptr;
  match list_insert_after e l p with
  | None => mret false
  | Some l' => q_set q l' ;; mret true
  end.
End state.

(** ** kio field updates *)
Section kio_fields.
Context {E : Type}.
Implicit Types k : kio E.

Definition set_kio_seq (v : Z) k : kio E := Kio E (kio_magic k) (kio_cmd k) v (kio_flags k) (kio_st k)
  (kio_errno k) (kio_sendmsg k) (kio_recvmsg k) (kio_timeout k) (kio_qbp k) (kio_cctx k) (kio_ckv k)
  (kio_caltkv k) (kio_ckb k) (kio_ckapp k) (kio_ts k).
Definition set_kio_state (v : kio_state) k : kio E := Kio E (kio_magic k) (kio_cmd k) (kio_seq k)
  (kio_flags k) v (kio_errno k) (kio_sendmsg k) (kio_recvmsg k) (kio_timeout k) (kio_qbp k)
  (kio_cctx k) (kio_ckv k) (kio_caltkv k) (kio_ckb k) (kio_ckapp k) (kio_ts k).
Definition set_kio_errno (v : Z) k : kio E := Kio E (kio_magic k) (kio_cmd k) (kio_seq k)
  (kio_flags k) (kio_st k) v (kio_sendmsg k) (kio_recvmsg k) (kio_timeout k) (kio_qbp k)
  (kio_cctx k) (kio_ckv k) (kio_caltkv k) (kio_ckb k) (kio_ckapp k) (kio_ts k).
Definition set_kio_sendmsg (v : kio_msg) k : kio E := Kio E (kio_magic k) (kio_cmd k) (kio_seq k)
  (kio_flags k) (kio_st k) (kio_errno k) v (kio_recvmsg k) (kio_timeout k) (kio_qbp k) (kio_cctx k)
  (kio_ckv k) (kio_caltkv k) (kio_ckb k) (kio_ckapp k) (kio_ts k).
Definition set_kio_recvmsg (v : kio_msg) k : kio E := Kio E (kio_magic k) (kio_cmd k) (kio_seq k)
  (kio_flags k) (kio_st k) (kio_errno k) (kio_sendmsg k) v (kio_timeout k) (kio_qbp k) (kio_cctx k)
  (kio_ckv k) (kio_caltkv k) (kio_ckb k) (kio_ckapp k) (kio_ts k).
Definition set_kio_timeout (v : timespec) k : kio E := Kio E (kio_magic k) (kio_cmd k) (kio_seq k)
  (kio_flags k) (kio_st k) (kio_errno k) (kio_sendmsg k) (kio_recvmsg k) v (kio_qbp k) (kio_cctx k)
  (kio_ckv k) (kio_caltkv k) (kio_ckb k) (kio_ckapp k) (kio_ts k).
Definition set_kio_qbp (v : option E) k : kio E := Kio E (kio_magic k) (kio_cmd k) (kio_seq k)
  (kio_flags k) (kio_st k) (kio_errno k) (kio_sendmsg k) (kio_recvmsg k) (kio_timeout k) v (kio_cctx k)
  (kio_ckv k) (kio_caltkv k) (kio_ckb k) (kio_ckapp k) (kio_ts k).
Definition set_kiot_sent (v : timespec) k : kio E := Kio E (kio_magic k) (kio_cmd k) (kio_seq k)
  (kio_flags k) (kio_st k) (kio_errno k) (kio_sendmsg k) (kio_recvmsg k) (kio_timeout k) (kio_qbp k)
  (kio_cctx k) (kio_ckv k) (kio_caltkv k) (kio_ckb k) (kio_ckapp k)
  (KioTstamps (kiot_start (kio_ts k)) v (kiot_recvs (kio_ts k)) (kiot_comp (kio_ts k))).
Definition set_kiot_recvs (v : timespec) k : kio E := Kio E (kio_magic k) (kio_cmd k) (kio_seq k)
  (kio_flags k) (kio_st k) (kio_errno k) (kio_sendmsg k) (kio_recvmsg k) (kio_timeout k) (kio_qbp k)
  (kio_cctx k) (kio_ckv k) (kio_caltkv k) (kio_ckb k) (kio_ckapp k)
  (KioTstamps (kiot_start (kio_ts k)) (kiot_sent (kio_ts k)) v (kiot_comp (kio_ts k))).

Definition set_km_status (st er : Z) (m : kio_msg) : kio_msg :=
  KioMsg (km_msg m) (km_cnt m) st er.
Definition set_km_msg (iov : list kiovec) (m : kio_msg) : kio_msg :=
  KioMsg (Some iov) (km_cnt m) (km_status m) (km_errno m).
End kio_fields.
