(* ===== verification/Ktli.v ===== *)
(** The KTLI upper half, client side: [src/ktli.c] from the driver table to
    [ktli_config].  Every function is the body of the C function run without
    interruption; the queues' mutexes are taken and released where the C does.
    A driver is an argument ([ktli_driver_fns]), the list library the interface
    of [ListApi.v]. *)

From stdpp Require Import gmap.
From S2P Require Import Prelude Types ListApi Session KtliState.

Section ktli.
Context `{LA : ListApi} {X : Type} (socket_fns : ktli_driver_fns X).

Notation world := (@world LA X).
Notation M := (ST world).

(** ** The driver table *)
Definition ktlid_table : list (Z * option (ktli_driver_fns X)) :=
  [(KTLI_DRIVER_SOCKET, Some socket_fns); (KTLI_DRIVER_NONE, None)].

(** [&ktlid_table[i]] for the first entry of id [did] before the end marker *)
Fixpoint ktlid_find (did : Z) (t : list (Z * option (ktli_driver_fns X))) (i : nat) : option ptr :=
  match t with
  | [] => None
  | (id, _) :: t' =>
      if id =? KTLI_DRIVER_NONE then None
      else if id =? did then Some (Pos.of_nat (S i)) else ktlid_find did t' (S i)
  end.

(** [de->ktlid_fns], with the asserts on it *)
Definition ktlid_fns (de : option ptr) : M (ktli_driver_fns X) :=
  deref_st (de ← de; '(_, fns) ← ktlid_table !! pred (Pos.to_nat de); fns).

Definition ktli_connect (kts : Z) : M Z :=
  ok ← kts_rd (kts_isvalid kts);
  if negb ok then fail EBADF else
  dh ← kts_rd (kts_dhandle kts);
  de ← kts_rd (kts_driver kts);
  st ← kts_rd (kts_state kts);
  cf ← kts_rd (kts_config kts);
  rq ← kts_rd (kts_recvq kts);
  if bool_decide (st <> KTLI_SSTATE_OPENED) then fail EBADFD else
  if bool_decide (de = None \/ dh = None) then fail EBADF else
  fns ← ktlid_fns de;
  w ← get_st;
  cfg ← deref_st (cf ≫= (w_configs w !!.));
  rc ← call_driver (ktli_dfns_connect fns dh (kcfg_host cfg) (kcfg_port cfg)
                      (Z.land (kcfg_flags cfg) KCFF_TLS));
  if rc =? -1 then mret (-1) else
  kts_wr (kts_set_state KTLI_SSTATE_CONNECTED kts) ;;
  pthread_mutex_lock rq ;;
  pthread_mutex_unlock rq ;;
  mret 0.

Definition ktli_disconnect (kts : Z) : M Z :=
  ok ← kts_rd (kts_isvalid kts);
  if negb ok then fail EBADF else
  st ← kts_rd (kts_state kts);
  if bool_decide (st <> KTLI_SSTATE_CONNECTED) && bool_decide (st <> KTLI_SSTATE_ABORTED)
  then fail ENOTCONN else
  dh ← kts_rd (kts_dhandle kts);
  de ← kts_rd (kts_driver kts);
  if bool_decide (de = None \/ dh = None) then fail EBADF else
  fns ← ktlid_fns de;
  rc ← call_driver (ktli_dfns_disconnect fns dh);
  if rc =? -1 then mret (-1) else
  kts_wr (kts_set_state KTLI_SSTATE_DRAINING kts) ;;
  cq ← kts_rd (kts_compq kts);
  pthread_mutex_lock cq ;;
  pthread_mutex_unlock cq ;;
  mret 0.

Definition ktli_send (kts : Z) (kio : ptr) : M Z :=
  ok ← kts_rd (kts_isvalid kts);
  if negb ok then fail EBADF else
  st ← kts_rd (kts_state kts);
  if bool_decide (st <> KTLI_SSTATE_CONNECTED) then fail ENOTCONN else
  k ← kio_rd kio;
  if (km_cnt (kio_sendmsg k) =? 0) || bool_decide (km_msg (kio_sendmsg k) = None)
  then fail EINVAL else
  kio_upd kio (set_kio_errno 0) ;;
  kio_upd kio (fun k => set_kio_sendmsg (set_km_status 0 0 (kio_sendmsg k)) k) ;;
  kio_upd kio (set_kio_recvmsg kio_msg0) ;;
  sq ← kts_rd (kts_sendq kts);
  if bool_decide (sq = None) then fail EBADF else
  pthread_mutex_lock sq ;;
  inserted ← list_enqueue sq kio;
  if negb inserted then
    set_errno ENOMEM ;; pthread_mutex_unlock sq ;; mret (-1)
  else
  l ← q_list sq;
  kio_upd kio (set_kio_qbp (list_element_curr l)) ;;
  kio_upd kio (set_kio_state KIO_NEW) ;;
  pthread_mutex_unlock sq ;;
  mret 0.

(** The traversal callbacks; [true] is LIST_TRUE, go on. *)
Definition ktli_kiomatch (kio lkio : ptr) : outcome bool := Ok (negb (bool_decide (kio = lkio))).

Definition ktli_kionoreq (w : world) (lkio : ptr) : outcome bool :=
  match w_kios w !! lkio with
  | Some k => Ok (negb (km_cnt (kio_sendmsg k) =? 0))
  | None => Ub
  end.

Definition ktli_timechk (currtime : timespec) (w : world) (lkio : ptr) : outcome bool :=
  match w_kios w !! lkio with
  | Some k => Ok (negb (tv_sec currtime >? tv_sec (kio_timeout k)))
  | None => Ub
  end.

Definition ktli_seqmatch (aseq : Z) (w : world) (lkio : ptr) : outcome bool :=
  match w_kios w !! lkio with
  | Some k => Ok (negb (aseq =? kio_seq k))
  | None => Ub
  end.

(** [list_traverse] on a queue: the code, and the list with its new current
    position stored back. *)
Definition q_traverse (q : option ptr) (from : traverse_from) (f : world -> ptr -> outcome bool) : M Z :=
  w ← get_st;
  l ← q_list q;
  match list_traverse from l (f w) with
  | Ok (rc, l') => q_set q l' ;; mret rc
  | _ => ub_st
  end.

(** [list_remove_curr] with its dereference *)
Definition q_remove_curr (q : option ptr) : M ptr :=
  l ← q_list q;
  '(p, l') ← deref_st (list_remove_curr l);
  q_set q l' ;; mret p.

Definition q_remove_front (q : option ptr) : M ptr :=
  l ← q_list q;
  '(p, l') ← deref_st (list_remove_front l);
  q_set q l' ;; mret p.

Definition q_mvrear (q : option ptr) : M unit := l ← q_list q; q_set q (list_mvrear l).
Definition q_size (q : option ptr) : M Z := l ← q_list q; mret (list_size l).

Definition found (rc : Z) : bool := negb (rc =? LIST_EXTENT) && negb (rc =? LIST_EMPTY).

(** [ktli_drain_match]: each queue overwrites [rc], and every queue is
    searched whether or not an earlier one held the kio. *)
Definition drain_match_q (kio : ptr) (q : option ptr) : M (Z * Z) :=
  pthread_mutex_lock q ;;
  rc ← q_traverse q LIST_FRNT (fun _ => ktli_kiomatch kio);
  rc ← (if found rc then
          lkio ← q_remove_curr q;
          assert_st (bool_decide (kio = lkio)) ;;
          kio_upd kio (set_kio_qbp None) ;;
          kio_upd kio (set_kio_state KIO_FAILED) ;;
          mret 0
        else mret rc);
  n ← q_size q;
  q_mvrear q ;;
  pthread_mutex_unlock q ;;
  mret (rc, n).

Definition ktli_drain_match (kts : Z) (kio : ptr) : M Z :=
  set_errno 0 ;;
  ok ← kts_rd (kts_isvalid kts);
  if negb ok then fail EBADF else
  st ← kts_rd (kts_state kts);
  if bool_decide (st <> KTLI_SSTATE_DRAINING) then fail EBADFD else
  q ← kts_rd (kts_compq kts);
  '(_, n1) ← drain_match_q kio q;
  q ← kts_rd (kts_recvq kts);
  '(_, n2) ← drain_match_q kio q;
  q ← kts_rd (kts_sendq kts);
  '(rc, n3) ← drain_match_q kio q;
  (if u32 (n1 + n2 + n3) =? 0 then kts_wr (kts_set_state KTLI_SSTATE_OPENED kts) else mret tt) ;;
  mret rc.

Definition ktli_receive (kts : Z) (kio : ptr) : M Z :=
  set_errno 0 ;;
  ok ← kts_rd (kts_isvalid kts);
  if negb ok then fail EBADF else
  st ← kts_rd (kts_state kts);
  if bool_decide (st <> KTLI_SSTATE_CONNECTED) && bool_decide (st <> KTLI_SSTATE_DRAINING)
  then fail ENOTCONN else
  if bool_decide (st = KTLI_SSTATE_DRAINING) then ktli_drain_match kts kio else
  cq ← kts_rd (kts_compq kts);
  pthread_mutex_lock cq ;;
  k ← kio_rd kio;
  rc ← (if bool_decide (kio_st k = KIO_RECEIVED \/ kio_st k = KIO_TIMEDOUT \/ kio_st k = KIO_FAILED) then
          l ← q_list cq;
          match list_setcurr l (kio_qbp k) with
          | None => ub_st  (* assert(0) *)
          | Some l' =>
              q_set cq l' ;;
              lkio ← q_remove_curr cq;
              assert_st (bool_decide (kio = lkio)) ;;
              kio_upd kio (set_kio_qbp None) ;;
              k ← kio_rd kio;
              (if bool_decide (kio_st k = KIO_TIMEDOUT) then
                 kio_upd kio (set_kio_errno ETIMEDOUT) ;; set_errno ETIMEDOUT
               else if bool_decide (kio_st k = KIO_FAILED) then
                 kio_upd kio (set_kio_errno ENOMSG) ;; set_errno ENOMSG
               else mret tt) ;;
              mret 0
          end
        else fail ENOENT);
  q_mvrear cq ;;
  pthread_mutex_unlock cq ;;
  mret rc.

(** [ktli_receive_unsolicited]: on success the kio found, on failure the
    caller's pointer is not written. *)
Definition ktli_receive_unsolicited (kts : Z) : M (Z * option ptr) :=
  ok ← kts_rd (kts_isvalid kts);
  if negb ok then rc ← fail EBADF; mret (rc, None) else
  st ← kts_rd (kts_state kts);
  if bool_decide (st <> KTLI_SSTATE_CONNECTED) && bool_decide (st <> KTLI_SSTATE_DRAINING)
  then rc ← fail ENOTCONN; mret (rc, None) else
  cq ← kts_rd (kts_compq kts);
  pthread_mutex_lock cq ;;
  rc ← q_traverse cq LIST_FRNT ktli_kionoreq;
  r ← (if found rc then
         kio ← q_remove_curr cq;
         kio_upd kio (set_kio_qbp None) ;;
         mret (0, Some kio)
       else rc ← fail ENOENT; mret (rc, None));
  q_mvrear cq ;;
  pthread_mutex_unlock cq ;;
  mret r.

(** [ktli_poll]: [asleep n] is what the other threads do during the n-th
    nanosleep, and the nanoseconds that sleep left over. *)
Definition KTLI_POLLINTERVAL : Z := 10 * 1000.

Fixpoint ktli_poll_loop (asleep : nat -> M Z) (timeout : Z) (cq : option ptr)
    (fuel n : nat) (timeleft : Z) : M Z :=
  match fuel with
  | O => fun _ => NoFuel
  | S fuel =>
      remain ← asleep n;
      pthread_mutex_lock cq ;;
      size ← q_size cq;
      if negb (size =? 0) then pthread_mutex_unlock cq ;; mret 0 else
      ex ← q_exit cq;
      if negb (ex =? 0) then pthread_mutex_unlock cq ;; fail ECONNABORTED else
      pthread_mutex_unlock cq ;;
      if negb (timeout =? 0) then
        (* timeleft =- (...) *)
        let timeleft := i32 (- (KTLI_POLLINTERVAL - remain)) in
        if timeleft <=? 0 then fail ETIMEDOUT
        else ktli_poll_loop asleep timeout cq fuel (S n) timeleft
      else ktli_poll_loop asleep timeout cq fuel (S n) timeleft
  end.

Definition ktli_poll (asleep : nat -> M Z) (fuel : nat) (kts timeout : Z) : M Z :=
  set_errno 0 ;;
  ok ← kts_rd (kts_isvalid kts);
  if negb ok then fail EBADF else
  st ← kts_rd (kts_state kts);
  if bool_decide (st <> KTLI_SSTATE_CONNECTED) then fail ENOTCONN else
  cq ← kts_rd (kts_compq kts);
  ktli_poll_loop asleep timeout cq fuel 0 (i32 (timeout * 1000)).

(** [ktli_drain]: the return code and the value stored in the caller's
    pointer ([None]: NULL, or not written on an error). *)
Definition drain_q (q : option ptr) : M (option ptr) :=
  pthread_mutex_lock q ;;
  n ← q_size q;
  r ← (if negb (n =? 0) then
         kio ← q_remove_front q;
         kio_upd kio (set_kio_qbp None) ;;
         kio_upd kio (set_kio_state KIO_FAILED) ;;
         mret (Some kio)
       else mret None);
  pthread_mutex_unlock q ;;
  mret r.

Definition ktli_drain (kts : Z) : M (Z * option ptr) :=
  ok ← kts_rd (kts_isvalid kts);
  if negb ok then rc ← fail EBADF; mret (rc, None) else
  st ← kts_rd (kts_state kts);
  if bool_decide (st <> KTLI_SSTATE_DRAINING) then rc ← fail EBADFD; mret (rc, None) else
  q ← kts_rd (kts_compq kts);
  r ← drain_q q;
  match r with Some kio => mret (1, Some kio) | None =>
  q ← kts_rd (kts_recvq kts);
  r ← drain_q q;
  match r with Some kio => mret (1, Some kio) | None =>
  q ← kts_rd (kts_sendq kts);
  r ← drain_q q;
  match r with Some kio => mret (1, Some kio) | None =>
  kts_wr (kts_set_state KTLI_SSTATE_OPENED kts) ;;
  mret (0, None)
  end end end.

Definition ktli_config (kts : Z) : M (Z * option ptr) :=
  ok ← kts_rd (kts_isvalid kts);
  if negb ok then rc ← fail EBADF; mret (rc, None) else
  cf ← kts_rd (kts_config kts);
  mret (0, cf).
End ktli.
