(* ===== verification/KtliSpec.v ===== *)
(** What the client side of KTLI promises: the effect of every call of
    [Ktli.v] on the session, the queues and the kios. *)

From stdpp Require Import gmap.
From S2P Require Import Prelude Types ListApi Session KtliState Ktli.

Section primitives.
Context {LA : ListApi} {LL : ListLaws} {X : Type}.

Notation world := (@world _ X).
Implicit Types (w : world) (q : ptr) (l : clist).

(** The session a descriptor names *)
Definition session_at (w : world) (kts : Z) (s : kts_session) : Prop :=
  0 <= kts < KTS_MAX_SESSIONS /\ w_table w !! Z.to_nat kts = Some (Some s).

(** The queue behind a pointer, not locked *)
Definition queue_at (w : world) (q : ptr) (l : clist) (ex : Z) : Prop :=
  w_queues w !! q = Some (KtliQueue (Some l) false ex).

(** Updating one queue or one kio; successive updates of the same object
    collapse, and kio updates move under queue updates. *)
Definition upd_q (q : ptr) (Q : ktli_queue) (w : world) : world :=
  set_queues_w (<[q := Q]> (w_queues w)) w.
Definition upd_k (p : ptr) (k : kio ptr) (w : world) : world :=
  set_kios_w (<[p := k]> (w_kios w)) w.

Lemma upd_q_q q Q Q' w : upd_q q Q (upd_q q Q' w) = upd_q q Q w.
Proof. unfold upd_q, set_queues_w. cbn. by rewrite insert_insert_eq. Qed.
Lemma upd_k_k p k k' w : upd_k p k (upd_k p k' w) = upd_k p k w.
Proof. unfold upd_k, set_kios_w. cbn. by rewrite insert_insert_eq. Qed.
Lemma upd_q_id q Q w : w_queues w !! q = Some Q -> upd_q q Q w = w.
Proof. intros H. unfold upd_q, set_queues_w. rewrite insert_id by done. by destruct w. Qed.
Lemma upd_k_q p k q Q w : upd_k p k (upd_q q Q w) = upd_q q Q (upd_k p k w).
Proof. done. Qed.
Lemma set_errno_upd_q q Q e w : set_errno_w e (upd_q q Q w) = upd_q q Q (set_errno_w e w).
Proof. done. Qed.
Lemma set_errno_upd_k p k e w : set_errno_w e (upd_k p k w) = upd_k p k (set_errno_w e w).
Proof. done. Qed.
Lemma set_next_upd_q q Q n w : set_next_w n (upd_q q Q w) = upd_q q Q (set_next_w n w).
Proof. done. Qed.
Lemma set_next_upd_k p k n w : set_next_w n (upd_k p k w) = upd_k p k (set_next_w n w).
Proof. done. Qed.
Lemma bump_mcount_upd_q q Q w : bump_mcount_w (upd_q q Q w) = upd_q q Q (bump_mcount_w w).
Proof. done. Qed.
Lemma bump_mcount_upd_k p k w : bump_mcount_w (upd_k p k w) = upd_k p k (bump_mcount_w w).
Proof. done. Qed.
Lemma bump_tick_upd_q q Q w : bump_tick_w (upd_q q Q w) = upd_q q Q (bump_tick_w w).
Proof. done. Qed.
Lemma bump_tick_upd_k p k w : bump_tick_w (upd_k p k w) = upd_k p k (bump_tick_w w).
Proof. done. Qed.
Lemma set_env_upd_q q Q x w : set_env_w x (upd_q q Q w) = upd_q q Q (set_env_w x w).
Proof. done. Qed.
Lemma set_env_upd_k p k x w : set_env_w x (upd_k p k w) = upd_k p k (set_env_w x w).
Proof. done. Qed.
Lemma set_table_upd_q q Q t w : set_table_w t (upd_q q Q w) = upd_q q Q (set_table_w t w).
Proof. done. Qed.
Lemma set_table_upd_k p k t w : set_table_w t (upd_k p k w) = upd_k p k (set_table_w t w).
Proof. done. Qed.
Lemma set_live_upd_q q Q n w : set_live_w n (upd_q q Q w) = upd_q q Q (set_live_w n w).
Proof. done. Qed.
Lemma set_live_upd_k p k n w : set_live_w n (upd_k p k w) = upd_k p k (set_live_w n w).
Proof. done. Qed.
Lemma set_threads_upd_q q Q t w : set_threads_w t (upd_q q Q w) = upd_q q Q (set_threads_w t w).
Proof. done. Qed.
Lemma set_threads_upd_k p k t w : set_threads_w t (upd_k p k w) = upd_k p k (set_threads_w t w).
Proof. done. Qed.
Lemma set_ints_upd_q q Q t w : set_ints_w t (upd_q q Q w) = upd_q q Q (set_ints_w t w).
Proof. done. Qed.
Lemma set_ints_upd_k p k t w : set_ints_w t (upd_k p k w) = upd_k p k (set_ints_w t w).
Proof. done. Qed.
Lemma w_table_upd_q q Q w : w_table (upd_q q Q w) = w_table w.
Proof. done. Qed.
Lemma w_table_upd_k p k w : w_table (upd_k p k w) = w_table w.
Proof. done. Qed.
Lemma w_next_upd_q q Q w : w_next (upd_q q Q w) = w_next w.
Proof. done. Qed.
Lemma w_next_upd_k p k w : w_next (upd_k p k w) = w_next w.
Proof. done. Qed.
Lemma w_live_upd_q q Q w : w_live (upd_q q Q w) = w_live w.
Proof. done. Qed.
Lemma w_live_upd_k p k w : w_live (upd_k p k w) = w_live w.
Proof. done. Qed.
Lemma w_env_upd_q q Q w : w_env (upd_q q Q w) = w_env w.
Proof. done. Qed.
Lemma w_env_upd_k p k w : w_env (upd_k p k w) = w_env w.
Proof. done. Qed.
Lemma w_tick_upd_q q Q w : w_tick (upd_q q Q w) = w_tick w.
Proof. done. Qed.
Lemma w_tick_upd_k p k w : w_tick (upd_k p k w) = w_tick w.
Proof. done. Qed.
Lemma w_clock_upd_q q Q w : w_clock (upd_q q Q w) = w_clock w.
Proof. done. Qed.
Lemma w_clock_upd_k p k w : w_clock (upd_k p k w) = w_clock w.
Proof. done. Qed.
Lemma w_errno_upd_q q Q w : w_errno (upd_q q Q w) = w_errno w.
Proof. done. Qed.
Lemma w_errno_upd_k p k w : w_errno (upd_k p k w) = w_errno w.
Proof. done. Qed.
Lemma w_helpers_upd_q q Q w : w_helpers (upd_q q Q w) = w_helpers w.
Proof. done. Qed.
Lemma w_helpers_upd_k p k w : w_helpers (upd_k p k w) = w_helpers w.
Proof. done. Qed.
Lemma w_malloc_upd_q q Q w : w_malloc (upd_q q Q w) = w_malloc w.
Proof. done. Qed.
Lemma w_malloc_upd_k p k w : w_malloc (upd_k p k w) = w_malloc w.
Proof. done. Qed.
Lemma w_mcount_upd_q q Q w : w_mcount (upd_q q Q w) = w_mcount w.
Proof. done. Qed.
Lemma w_mcount_upd_k p k w : w_mcount (upd_k p k w) = w_mcount w.
Proof. done. Qed.

Lemma kts_isvalid_run w kts s :
  session_at w kts s -> kts_rd (kts_isvalid kts) w = Ok (true, w).
Proof. intros [? ?]. unfold kts_rd. by erewrite kts_isvalid_ok. Qed.

Lemma kts_isvalid_no w kts :
  kts_isvalid kts (w_table w) = Ok false -> kts_rd (kts_isvalid kts) w = Ok (false, w).
Proof. intros H. unfold kts_rd. by rewrite H. Qed.

Lemma kts_get_run {A} (f : kts_session -> A) d w kts s :
  session_at w kts s -> kts_rd (kts_get f d kts) w = Ok (f s, w).
Proof. intros [? ?]. unfold kts_rd. erewrite kts_get_ok by (done || lia). done. Qed.

Lemma kts_update_run f w kts s :
  session_at w kts s ->
  kts_wr (kts_update f kts) w = Ok (tt, set_table_w (<[Z.to_nat kts := Some (f s)]> (w_table w)) w).
Proof. intros [? ?]. unfold kts_wr. erewrite kts_update_ok by (done || lia). done. Qed.

Lemma lock_run w q (l : option clist) ex :
  w_queues w !! q = Some (KtliQueue l false ex) ->
  pthread_mutex_lock (Some q) w =
    Ok (tt, upd_q q (KtliQueue l true ex) w).
Proof. intros H. unfold pthread_mutex_lock. cbn. by rewrite H. Qed.

Lemma unlock_run w q (l : option clist) m ex :
  w_queues w !! q = Some (KtliQueue l m ex) ->
  pthread_mutex_unlock (Some q) w =
    Ok (tt, upd_q q (KtliQueue l false ex) w).
Proof. intros H. unfold pthread_mutex_unlock. cbn. by rewrite H. Qed.

Lemma q_list_run w q l m ex :
  w_queues w !! q = Some (KtliQueue (Some l) m ex) -> q_list (Some q) w = Ok (l, w).
Proof. intros H. unfold q_list. cbn. by rewrite H. Qed.

Lemma q_set_run w q (l : option clist) l' m ex :
  w_queues w !! q = Some (KtliQueue l m ex) ->
  q_set (Some q) l' w = Ok (tt, upd_q q (KtliQueue (Some l') m ex) w).
Proof. intros H. unfold q_set. cbn. by rewrite H. Qed.

Lemma q_exit_run w q (l : option clist) m ex :
  w_queues w !! q = Some (KtliQueue l m ex) -> q_exit (Some q) w = Ok (ex, w).
Proof. intros H. unfold q_exit. cbn. by rewrite H. Qed.

Lemma kio_rd_run w p k : w_kios w !! p = Some k -> kio_rd p w = Ok (k, w).
Proof. intros H. unfold kio_rd, deref_st. by rewrite H. Qed.

Lemma kio_upd_run w p f k :
  w_kios w !! p = Some k ->
  kio_upd p f w = Ok (tt, upd_k p (f k) w).
Proof. intros H. unfold kio_upd. by rewrite H. Qed.

Lemma set_errno_run w e : set_errno e w = Ok (tt, set_errno_w e w).
Proof. done. Qed.

Lemma q_size_run w q l m ex :
  w_queues w !! q = Some (KtliQueue (Some l) m ex) ->
  q_size (Some q) w = Ok (zlen (contents l), w).
Proof.
  intros H. unfold q_size. rewrite (bind_Ok _ _ _ _ _ (q_list_run _ _ _ _ _ H)). cbn.
  by rewrite list_size_contents.
Qed.

Lemma q_mvrear_run w q l m ex :
  w_queues w !! q = Some (KtliQueue (Some l) m ex) ->
  q_mvrear (Some q) w =
    Ok (tt, upd_q q (KtliQueue (Some (list_mvrear l)) m ex) w).
Proof.
  intros H. unfold q_mvrear. rewrite (bind_Ok _ _ _ _ _ (q_list_run _ _ _ _ _ H)).
  by erewrite q_set_run.
Qed.

Lemma q_remove_curr_run w q l l' m ex p :
  w_queues w !! q = Some (KtliQueue (Some l) m ex) -> list_remove_curr l = Some (p, l') ->
  q_remove_curr (Some q) w = Ok (p, upd_q q (KtliQueue (Some l') m ex) w).
Proof.
  intros H Hr. unfold q_remove_curr. rewrite (bind_Ok _ _ _ _ _ (q_list_run _ _ _ _ _ H)).
  rewrite Hr. erewrite bind_Ok by done. cbn. by erewrite bind_Ok by by eapply q_set_run.
Qed.

Lemma q_remove_front_run w q l l' m ex p :
  w_queues w !! q = Some (KtliQueue (Some l) m ex) -> list_remove_front l = Some (p, l') ->
  q_remove_front (Some q) w = Ok (p, upd_q q (KtliQueue (Some l') m ex) w).
Proof.
  intros H Hr. unfold q_remove_front. rewrite (bind_Ok _ _ _ _ _ (q_list_run _ _ _ _ _ H)).
  rewrite Hr. erewrite bind_Ok by done. cbn. by erewrite bind_Ok by by eapply q_set_run.
Qed.

Lemma q_traverse_run w q l l' m ex from f rc :
  w_queues w !! q = Some (KtliQueue (Some l) m ex) -> list_traverse from l (f w) = Ok (rc, l') ->
  q_traverse (Some q) from f w = Ok (rc, upd_q q (KtliQueue (Some l') m ex) w).
Proof.
  intros H Hr. unfold q_traverse. erewrite bind_Ok by done.
  rewrite (bind_Ok _ _ _ _ _ (q_list_run _ _ _ _ _ H)).
  rewrite Hr. by erewrite bind_Ok by by eapply q_set_run.
Qed.

Lemma found_ok : found LIST_OK = true.
Proof.
  destruct list_codes_distinct as (? & ? & ?). unfold found.
  by rewrite !(proj2 (Z.eqb_neq _ _)).
Qed.
Lemma found_extent : found LIST_EXTENT = false.
Proof. unfold found. by rewrite Z.eqb_refl. Qed.
Lemma found_empty : found LIST_EMPTY = false.
Proof. unfold found. by rewrite Z.eqb_refl, andb_comm. Qed.

Lemma assert_true_run b w : b = true -> assert_st b w = Ok (tt, w).
Proof. by intros ->. Qed.

Lemma get_st_run w : get_st w = Ok (w, w).
Proof. done. Qed.

Lemma deref_run {A} (o : option A) a w : o = Some a -> deref_st o w = Ok (a, w).
Proof. by intros ->. Qed.

Lemma ktli_gettime_run w : ktli_gettime w = Ok (w_clock w (w_tick w), bump_tick_w w).
Proof. done. Qed.

Lemma session_at_update w kts s s' :
  session_at w kts s ->
  session_at (set_table_w (<[Z.to_nat kts := Some s']> (w_table w)) w) kts s'.
Proof.
  intros [Hr Hl]. split; [done|]. cbn. apply list_lookup_insert_eq. by eapply lookup_lt_Some.
Qed.

(** The allocator *)
Definition malloc_ok (w : world) (size : Z) : Prop := is_Some (w_malloc w (w_mcount w) size).

Lemma malloc_ptr_run w size :
  malloc_ptr size w =
    (if bool_decide (malloc_ok w size)
     then Ok (Some (w_next w), set_next_w (Pos.succ (w_next w)) (bump_mcount_w w))
     else Ok (None, bump_mcount_w w)).
Proof.
  unfold malloc_ptr, malloc_ok. run. destruct (w_malloc w (w_mcount w) size) eqn:E.
  - rewrite bool_decide_eq_true_2 by eauto. done.
  - rewrite bool_decide_eq_false_2 by (intros [??]; congruence). done.
Qed.

Lemma malloc_ptr_some w size :
  malloc_ok w size ->
  malloc_ptr size w = Ok (Some (w_next w), set_next_w (Pos.succ (w_next w)) (bump_mcount_w w)).
Proof. intros H. by rewrite malloc_ptr_run, bool_decide_eq_true_2. Qed.

(** Enqueueing: the new last element is the fresh block, and it is current. *)
Lemma list_enqueue_run w q l m ex p :
  w_queues w !! q = Some (KtliQueue (Some l) m ex) -> malloc_ok w sizeof_ptr ->
  exists l', contents l' = contents l ++ [(w_next w, p)] /\ list_element_curr l' = Some (w_next w) /\
    cursor l' = Some (length (contents l)) /\
    list_enqueue (Some q) p w =
      Ok (true, upd_q q (KtliQueue (Some l') m ex)
                  (set_next_w (Pos.succ (w_next w)) (bump_mcount_w w))).
Proof.
  intros Hq Hm. destruct (insert_at_rear l (w_next w) p) as (l' & Hi & Hc & He & Hcur).
  exists l'. split_and!; [done..|]. unfold list_enqueue.
  erewrite bind_Ok by by eapply q_list_run.
  erewrite bind_Ok by by eapply q_set_run.
  erewrite bind_Ok by (eapply q_list_run; cbn; by rewrite lookup_insert_eq).
  erewrite bind_Ok by (rewrite malloc_ptr_run, bool_decide_eq_true_2; done).
  cbn. rewrite Hi. erewrite bind_Ok by (eapply q_set_run; cbn; by rewrite lookup_insert_eq).
  cbn. unfold mret, ST_ret. by rewrite bump_mcount_upd_q, set_next_upd_q, upd_q_q.
Qed.

Lemma list_enqueue_nomem w q l m ex p :
  w_queues w !! q = Some (KtliQueue (Some l) m ex) -> ~ malloc_ok w sizeof_ptr ->
  list_enqueue (Some q) p w =
    Ok (false, upd_q q (KtliQueue (Some (list_mvrear l)) m ex)
                  (bump_mcount_w w)).
Proof.
  intros Hq Hm. unfold list_enqueue.
  erewrite bind_Ok by by eapply q_list_run.
  erewrite bind_Ok by by eapply q_set_run.
  erewrite bind_Ok by (eapply q_list_run; cbn; by rewrite lookup_insert_eq).
  erewrite bind_Ok by (rewrite malloc_ptr_run, bool_decide_eq_false_2; done).
  cbn. by rewrite list_insert_after_fail.
Qed.
End primitives.

(** One call of a handler's run: each tactic below rewrites the first call of
    the goal with its lemma, finding the queue, kio or session it needs among
    the hypotheses, through the updates made so far. *)
Ltac kside := first [ eassumption | done | cbn; simplify_map_eq; (done || eassumption) ].
Ltac kprim := first
  [ eapply kts_update_run; kside | eapply kts_isvalid_run; kside | eapply kts_isvalid_no; kside | eapply kts_get_run; kside
  | eapply lock_run; kside | eapply unlock_run; kside
  | eapply q_list_run; kside | eapply q_set_run; kside | eapply q_exit_run; kside
  | eapply q_size_run; kside | eapply q_mvrear_run; kside
  | eapply kio_rd_run; kside | eapply kio_upd_run; kside
  | eapply q_remove_curr_run; kside | eapply q_remove_front_run; kside
  | eapply q_traverse_run; kside
  | apply assert_true_run; first [ reflexivity | apply bool_decide_eq_true_2; done ]
  | eapply set_errno_run | eapply get_st_run | eapply ktli_gettime_run | eapply deref_run; kside ].
Ltac kdec := cbn; first [ congruence | intuition congruence ].
Ltac kif := match goal with
  | |- context [bool_decide ?P] =>
      first [ rewrite (bool_decide_eq_false_2 P) by kdec | rewrite (bool_decide_eq_true_2 P) by kdec ]
  end.
Ltac kproj := repeat match goal with
  | |- context [?f (set_ks_state ?v ?s)] => progress change (f (set_ks_state v s)) with (f s)
  | |- context [?f (set_ks_sequence ?v ?s)] => progress change (f (set_ks_sequence v s)) with (f s)
  end.
Ltac ksess := kproj; repeat match goal with
  | H : ks_sendq ?s = _ |- context [ks_sendq ?s] => rewrite H
  | H : ks_recvq ?s = _ |- context [ks_recvq ?s] => rewrite H
  | H : ks_compq ?s = _ |- context [ks_compq ?s] => rewrite H
  | H : ks_driver ?s = _ |- context [ks_driver ?s] => rewrite H
  | H : ks_dhandle ?s = _ |- context [ks_dhandle ?s] => rewrite H
  | H : ks_helpers ?s = _ |- context [ks_helpers ?s] => rewrite H
  | H : ks_config ?s = _ |- context [ks_config ?s] => rewrite H
  end.
Create Rewrite HintDb kworld.
#[export] Hint Rewrite @upd_q_q @upd_k_k @upd_k_q
  @set_errno_upd_q @set_errno_upd_k @set_next_upd_q @set_next_upd_k
  @bump_mcount_upd_q @bump_mcount_upd_k @bump_tick_upd_q @bump_tick_upd_k
  @set_env_upd_q @set_env_upd_k @set_table_upd_q @set_table_upd_k
  @set_live_upd_q @set_live_upd_k @set_threads_upd_q @set_threads_upd_k
  @set_ints_upd_q @set_ints_upd_k
  @w_table_upd_q @w_table_upd_k @w_next_upd_q @w_next_upd_k
  @w_live_upd_q @w_live_upd_k @w_env_upd_q @w_env_upd_k
  @w_tick_upd_q @w_tick_upd_k @w_clock_upd_q @w_clock_upd_k
  @w_errno_upd_q @w_errno_upd_k @w_helpers_upd_q @w_helpers_upd_k
  @w_malloc_upd_q @w_malloc_upd_k @w_mcount_upd_q @w_mcount_upd_k : kworld.
Ltac knorm := autorewrite with kworld.
Ltac kstep := first [ rewrite bind_assoc | rewrite bind_ret | kif | erewrite bind_Ok by kprim ]; knorm; ksess; cbn beta iota.
Ltac ksteps := repeat (cbn [negb andb orb]; kstep); cbn [negb andb orb].
Ltac klast := etransitivity; [kprim|]; knorm.

(** An enqueue: names the new list and what is known of it. *)
Ltac kenq l Hc He Hcur := match goal with
  | |- context [(list_enqueue (Some ?q) ?p ≫= _) ?w] =>
      let H := fresh in let HQ := fresh in
      eassert (w_queues w !! q = Some (KtliQueue (Some _) _ _)) as HQ by kside;
      edestruct (list_enqueue_run w q _ _ _ p HQ) as (l & Hc & He & Hcur & H);
      [kside|]; clear HQ; erewrite bind_Ok by exact H; clear H; cbn in Hc, He; cbn beta iota
  end.

Section client.
Context {LA : ListApi} {LL : ListLaws} {X : Type}.

Notation world := (@world _ X).
Implicit Types (w : world).

Lemma ktli_send_run w kts s sq l ex p k iov :
  session_at w kts s -> ks_state s = KTLI_SSTATE_CONNECTED -> ks_sendq s = Some sq ->
  queue_at w sq l ex -> w_kios w !! p = Some k ->
  km_msg (kio_sendmsg k) = Some iov -> km_cnt (kio_sendmsg k) <> 0 -> malloc_ok w sizeof_ptr ->
  exists w' l' k', ktli_send kts p w = Ok (0, w') /\
    contents l' = contents l ++ [(w_next w, p)] /\
    w_queues w' = <[sq := KtliQueue (Some l') false ex]> (w_queues w) /\
    w_kios w' = <[p := k']> (w_kios w) /\ w_table w' = w_table w /\
    kio_qbp k' = Some (w_next w) /\ kio_st k' = KIO_NEW /\ kio_errno k' = 0 /\
    kio_sendmsg k' = KioMsg (Some iov) (km_cnt (kio_sendmsg k)) 0 0 /\ kio_recvmsg k' = kio_msg0.
Proof.
  intros Hs Hst Hsq Hq Hk Hmsg Hcnt Hm. unfold ktli_send, queue_at in *.
  ksteps. replace (km_cnt (kio_sendmsg k) =? 0) with false by lia.
  ksteps. kenq l' Hc He Hcur. ksteps. do 3 eexists. split; [reflexivity|].
  split; [exact Hc|]. rewrite He. split_and!; try done. cbn. by rewrite <- Hmsg.
Qed.

(** A successful [ktli_send] appends the kio at the rear of the session's
    send queue, with its back pointer on the new element, its state NEW, its
    previous results and response cleared, and changes no other queue, kio or
    session. *)
Theorem ktli_send_spec w kts s sq l ex p k iov :
  session_at w kts s -> ks_state s = KTLI_SSTATE_CONNECTED -> ks_sendq s = Some sq ->
  queue_at w sq l ex -> w_kios w !! p = Some k ->
  km_msg (kio_sendmsg k) = Some iov -> km_cnt (kio_sendmsg k) <> 0 -> malloc_ok w sizeof_ptr ->
  exists w' l' k', ktli_send kts p w = Ok (0, w') /\
    contents l' = contents l ++ [(w_next w, p)] /\
    w_queues w' = <[sq := KtliQueue (Some l') false ex]> (w_queues w) /\
    w_kios w' = <[p := k']> (w_kios w) /\ w_table w' = w_table w /\
    kio_qbp k' = Some (w_next w) /\ kio_st k' = KIO_NEW /\ kio_errno k' = 0 /\
    kio_sendmsg k' = KioMsg (Some iov) (km_cnt (kio_sendmsg k)) 0 0 /\ kio_recvmsg k' = kio_msg0.
Proof. apply ktli_send_run. Qed.

(** Every refusal of [ktli_send] comes with its errno and leaves the
    queues' contents as they were: a descriptor that names no session is
    EBADF, a session that is not connected ENOTCONN, a kio without a message
    EINVAL (these three change nothing at all), no memory ENOMEM. *)
Theorem ktli_send_errors w kts p :
  (kts_isvalid kts (w_table w) = Ok false ->
     ktli_send kts p w = Ok (-1, set_errno_w EBADF w)) /\
  (forall s, session_at w kts s -> ks_state s <> KTLI_SSTATE_CONNECTED ->
     ktli_send kts p w = Ok (-1, set_errno_w ENOTCONN w)) /\
  (forall s k, session_at w kts s -> ks_state s = KTLI_SSTATE_CONNECTED ->
     w_kios w !! p = Some k -> km_cnt (kio_sendmsg k) = 0 \/ km_msg (kio_sendmsg k) = None ->
     ktli_send kts p w = Ok (-1, set_errno_w EINVAL w)) /\
  (forall s k sq l ex, session_at w kts s -> ks_state s = KTLI_SSTATE_CONNECTED ->
     ks_sendq s = Some sq -> queue_at w sq l ex -> w_kios w !! p = Some k ->
     km_cnt (kio_sendmsg k) <> 0 -> km_msg (kio_sendmsg k) <> None -> ~ malloc_ok w sizeof_ptr ->
     exists w' l', ktli_send kts p w = Ok (-1, w') /\ w_errno w' = ENOMEM /\
       queue_at w' sq l' ex /\ contents l' = contents l /\
       forall q, q <> sq -> w_queues w' !! q = w_queues w !! q).
Proof.
  unfold ktli_send, queue_at. split_and!.
  - intros Hv. ksteps. done.
  - intros s Hs Hst. ksteps. done.
  - intros s k Hs Hst Hk Hbad. ksteps.
    replace ((km_cnt (kio_sendmsg k) =? 0) || bool_decide (km_msg (kio_sendmsg k) = None)) with true;
      [done|]. symmetry. apply orb_true_iff. rewrite Z.eqb_eq, bool_decide_eq_true. done.
  - intros s k sq l ex Hs Hst Hsq Hq Hk Hcnt Hmsg Hm. ksteps.
    replace (km_cnt (kio_sendmsg k) =? 0) with false by lia. ksteps.
    erewrite bind_Ok by (eapply list_enqueue_nomem; [kside|done]). ksteps.
    do 2 eexists. split; [reflexivity|]. split; [done|]. cbn.
    rewrite lookup_insert_eq. split; [done|]. rewrite list_mvrear_contents. split; [done|].
    intros q Hne. by rewrite lookup_insert_ne.
Qed.

(** ** Receiving *)

Lemma ktli_receive_run w kts s cq l ex p k e i :
  session_at w kts s -> ks_state s = KTLI_SSTATE_CONNECTED -> ks_compq s = Some cq ->
  queue_at w cq l ex -> NoDup (contents l).*1 -> contents l !! i = Some (e, p) ->
  w_kios w !! p = Some k -> kio_qbp k = Some e ->
  kio_st k = KIO_RECEIVED \/ kio_st k = KIO_TIMEDOUT \/ kio_st k = KIO_FAILED ->
  exists w' l' k', ktli_receive kts p w = Ok (0, w') /\
    contents l' = delete i (contents l) /\
    w_queues w' = <[cq := KtliQueue (Some l') false ex]> (w_queues w) /\
    w_kios w' = <[p := k']> (w_kios w) /\ w_table w' = w_table w /\
    kio_qbp k' = None /\ kio_st k' = kio_st k /\ kio_recvmsg k' = kio_recvmsg k /\
    w_errno w' = match kio_st k with
                 | KIO_TIMEDOUT => ETIMEDOUT | KIO_FAILED => ENOMSG | _ => 0 end.
Proof.
  intros Hs Hst Hcq Hq Hnd Hi Hk Hqbp Hk3. unfold ktli_receive, queue_at in *. ksteps.
  rewrite Hqbp. destruct (list_setcurr_in _ _ _ _ Hnd Hi) as (l1 & -> & Hc1 & Hcur1).
  destruct (list_remove_curr_cursor l1 i e p) as (l2 & Hrem & Hc2 & _);
    [done|by rewrite Hc1|]. rewrite Hc1 in Hc2.
  destruct_or! Hk3; ksteps; do 3 eexists; (split; [reflexivity|]); cbn;
    rewrite list_mvrear_contents; (split_and!; try done); by rewrite Hk3.
Qed.

(** On a connected session, [ktli_receive] of a kio that has completed
    takes exactly that kio out of the completion queue, whatever its position,
    and answers 0; errno tells how it completed (0 received, ETIMEDOUT timed
    out, ENOMSG failed), and the other completed kios keep their order. *)
Theorem ktli_receive_spec w kts s cq l ex p k e i :
  session_at w kts s -> ks_state s = KTLI_SSTATE_CONNECTED -> ks_compq s = Some cq ->
  queue_at w cq l ex -> NoDup (contents l).*1 -> contents l !! i = Some (e, p) ->
  w_kios w !! p = Some k -> kio_qbp k = Some e ->
  kio_st k = KIO_RECEIVED \/ kio_st k = KIO_TIMEDOUT \/ kio_st k = KIO_FAILED ->
  exists w' l' k', ktli_receive kts p w = Ok (0, w') /\
    contents l' = delete i (contents l) /\
    w_queues w' = <[cq := KtliQueue (Some l') false ex]> (w_queues w) /\
    w_kios w' = <[p := k']> (w_kios w) /\ w_table w' = w_table w /\
    kio_qbp k' = None /\ kio_st k' = kio_st k /\ kio_recvmsg k' = kio_recvmsg k /\
    w_errno w' = match kio_st k with
                 | KIO_TIMEDOUT => ETIMEDOUT | KIO_FAILED => ENOMSG | _ => 0 end.
Proof. apply ktli_receive_run. Qed.

(** [ktli_receive] refuses, without touching queues or kios, a descriptor
    that names no session (EBADF), a session neither connected nor draining
    (ENOTCONN), and on a connected session a kio that has not completed
    (ENOENT); on a draining session it is [ktli_drain_match]. *)
Theorem ktli_receive_errors w kts p :
  (kts_isvalid kts (w_table w) = Ok false ->
     ktli_receive kts p w = Ok (-1, set_errno_w EBADF w)) /\
  (forall s, session_at w kts s ->
     ks_state s <> KTLI_SSTATE_CONNECTED -> ks_state s <> KTLI_SSTATE_DRAINING ->
     ktli_receive kts p w = Ok (-1, set_errno_w ENOTCONN w)) /\
  (forall s k cq l ex, session_at w kts s -> ks_state s = KTLI_SSTATE_CONNECTED ->
     ks_compq s = Some cq -> queue_at w cq l ex -> w_kios w !! p = Some k ->
     kio_st k = KIO_NEW \/ kio_st k = KIO_SENT ->
     exists w' l', ktli_receive kts p w = Ok (-1, w') /\ w_errno w' = ENOENT /\
       contents l' = contents l /\ w_queues w' = <[cq := KtliQueue (Some l') false ex]> (w_queues w) /\
       w_kios w' = w_kios w /\ w_table w' = w_table w) /\
  (forall s, session_at w kts s -> ks_state s = KTLI_SSTATE_DRAINING ->
     ktli_receive kts p w = ktli_drain_match kts p (set_errno_w 0 w)).
Proof.
  unfold ktli_receive, queue_at. split_and!.
  - intros Hv. ksteps. done.
  - intros s Hs H1 H2. ksteps. done.
  - intros s k cq l ex Hs Hst Hcq Hq Hk Hst'. ksteps.
    unfold fail. ksteps. eexists _, (list_mvrear l). split; [reflexivity|].
    split_and!; try done. apply list_mvrear_contents.
  - intros s Hs Hst. ksteps. done.
Qed.

(** ** Draining *)

(** The three queues of a session, unlocked, and the kios they hold in the
    order a drain takes them: completed, awaiting a response, unsent. *)
Record session_queues (w : world) (kts : Z) (s : kts_session) (sq rq cq : ptr)
    (ls lr lc : clist) (es er ec : Z) : Prop := {
  sqs_session : session_at w kts s;
  sqs_sendq : ks_sendq s = Some sq;
  sqs_recvq : ks_recvq s = Some rq;
  sqs_compq : ks_compq s = Some cq;
  sqs_distinct : sq <> rq /\ sq <> cq /\ rq <> cq;
  sqs_send : queue_at w sq ls es;
  sqs_recv : queue_at w rq lr er;
  sqs_comp : queue_at w cq lc ec }.

Definition pending (ls lr lc : clist) : list element := contents lc ++ contents lr ++ contents ls.

Definition kios_alive (w : world) (c : list element) : Prop :=
  forall e p, (e, p) ∈ c -> is_Some (w_kios w !! p).

(** A kio the drain handed back *)
Definition drained (k : kio ptr) : kio ptr := set_kio_state KIO_FAILED (set_kio_qbp None k).

Lemma drain_q_empty w q l ex :
  queue_at w q l ex -> contents l = [] -> drain_q (Some q) w = Ok (None, w).
Proof.
  unfold queue_at. intros Hq Hl. unfold drain_q. ksteps. rewrite zlen_eqb0, Hl. ksteps.
  by rewrite upd_q_id.
Qed.

Lemma drain_q_cons w q l ex e p c k :
  queue_at w q l ex -> contents l = (e, p) :: c -> w_kios w !! p = Some k ->
  exists l', contents l' = c /\ drain_q (Some q) w =
    Ok (Some p, upd_q q (KtliQueue (Some l') false ex) (upd_k p (drained k) w)).
Proof.
  unfold queue_at. intros Hq Hl Hk. unfold drain_q.
  destruct (list_remove_front_cons l e p c Hl) as (l' & Hr & Hc). exists l'. split; [done|].
  ksteps. rewrite zlen_eqb0, Hl. ksteps. done.
Qed.

(** Asking a session whose queues are empty moves it back to opened. *)
Lemma ktli_drain_none w kts s sq rq cq ls lr lc es er ec :
  session_queues w kts s sq rq cq ls lr lc es er ec ->
  ks_state s = KTLI_SSTATE_DRAINING -> pending ls lr lc = [] ->
  exists s', ktli_drain kts w =
      Ok ((0, None), set_table_w (<[Z.to_nat kts := Some s']> (w_table w)) w) /\
    ks_state s' = KTLI_SSTATE_OPENED /\
    ks_sendq s' = Some sq /\ ks_recvq s' = Some rq /\ ks_compq s' = Some cq.
Proof.
  intros [Hs Hsq Hrq Hcq (? & ? & ?) Hqs Hqr Hqc] Hst (Hc & [Hr Hl]%app_eq_nil)%app_eq_nil.
  unfold ktli_drain. ksteps.
  erewrite bind_Ok by by eapply drain_q_empty. ksteps.
  erewrite bind_Ok by by eapply drain_q_empty. ksteps.
  erewrite bind_Ok by by eapply drain_q_empty.
  cbn beta iota. erewrite bind_Ok by by eapply kts_update_run.
  eexists. split; [reflexivity|]. done.
Qed.

(** Otherwise the first pending kio comes back, failed and off its queue. *)
Lemma ktli_drain_some w kts s sq rq cq ls lr lc es er ec e p c k :
  session_queues w kts s sq rq cq ls lr lc es er ec ->
  ks_state s = KTLI_SSTATE_DRAINING -> pending ls lr lc = (e, p) :: c ->
  w_kios w !! p = Some k ->
  exists w' ls' lr' lc', ktli_drain kts w = Ok ((1, Some p), w') /\
    session_queues w' kts s sq rq cq ls' lr' lc' es er ec /\
    pending ls' lr' lc' = c /\ w_kios w' = <[p := drained k]> (w_kios w) /\
    w_table w' = w_table w.
Proof.
  intros [Hs Hsq Hrq Hcq (H1 & H2 & H3) Hqs Hqr Hqc] Hst Hp Hk.
  unfold pending in *. unfold ktli_drain. ksteps.
  destruct (contents lc) as [|[e1 p1] c1] eqn:Ec; cbn in Hp.
  2:{ injection Hp as -> -> Hp.
      destruct (drain_q_cons w cq lc ec e p c1 k Hqc Ec Hk) as (l' & Hl' & Hrun).
      erewrite bind_Ok by exact Hrun. eexists _, ls, lr, l'. split; [reflexivity|].
      split_and!; [|by rewrite Hl'|done..].
      constructor; try done; unfold queue_at in *; cbn; by simplify_map_eq. }
  erewrite bind_Ok by by eapply drain_q_empty. ksteps.
  destruct (contents lr) as [|[e1 p1] c1] eqn:Er; cbn in Hp.
  2:{ injection Hp as -> -> Hp.
      destruct (drain_q_cons w rq lr er e p c1 k Hqr Er Hk) as (l' & Hl' & Hrun).
      erewrite bind_Ok by exact Hrun. eexists _, ls, l', lc. split; [reflexivity|].
      split_and!; [|by rewrite Hl', Ec|done..].
      constructor; try done; unfold queue_at in *; cbn; by simplify_map_eq. }
  erewrite bind_Ok by by eapply drain_q_empty. ksteps.
  destruct (drain_q_cons w sq ls es e p c k Hqs Hp Hk) as (l' & Hl' & Hrun).
  erewrite bind_Ok by exact Hrun. eexists _, l', lr, lc. split; [reflexivity|].
  split_and!; [|by rewrite Hl', Ec, Er|done..].
  constructor; try done; unfold queue_at in *; cbn; by simplify_map_eq.
Qed.

(** A client's drain loop: call [ktli_drain] until it answers something else
    than 1, collecting the kios. *)
Fixpoint drain_loop (fuel : nat) (kts : Z) (got : list ptr) : ST world (Z * list ptr) :=
  match fuel with
  | O => fun _ => NoFuel
  | S fuel =>
      '(rc, o) ← ktli_drain kts;
      match o with
      | Some p => if rc =? 1 then drain_loop fuel kts (got ++ [p]) else mret (rc, got)
      | None => mret (rc, got)
      end
  end.

Lemma drain_loop_run c : forall w kts s sq rq cq ls lr lc es er ec got fuel,
  session_queues w kts s sq rq cq ls lr lc es er ec ->
  ks_state s = KTLI_SSTATE_DRAINING -> pending ls lr lc = c -> kios_alive w c ->
  (length c < fuel)%nat ->
  exists w' s', drain_loop fuel kts got w = Ok ((0, got ++ c.*2), w') /\
    session_at w' kts s' /\ ks_state s' = KTLI_SSTATE_OPENED /\
    exists ls' lr' lc', session_queues w' kts s' sq rq cq ls' lr' lc' es er ec /\
      pending ls' lr' lc' = [].
Proof.
  induction c as [|[e p] c IH]; intros w kts s sq rq cq ls lr lc es er ec got [|fuel] Hq Hst Hp Ha Hf;
    try (cbn in Hf; lia); cbn [drain_loop].
  - edestruct ktli_drain_none as (s' & Hrun & Hst' & H1 & H2 & H3); [done..|].
    erewrite bind_Ok by exact Hrun. cbn.
    assert (session_at (set_table_w (<[Z.to_nat kts := Some s']> (w_table w)) w) kts s') as Hs'.
    { destruct Hq as [[Hr Hl] _ _ _ _ _ _ _]. split; [done|]. cbn.
      apply list_lookup_insert_eq. by eapply lookup_lt_Some. }
    eexists _, s'. rewrite app_nil_r. split; [reflexivity|]. split; [done|]. split; [done|].
    exists ls, lr, lc. split; [|done]. destruct Hq. constructor; done.
  - destruct (Ha e p) as [k Hk]; [by apply list_elem_of_here|].
    edestruct ktli_drain_some as (w' & ls' & lr' & lc' & Hrun & Hq' & Hp' & Hkios & Ht); [done..|].
    erewrite bind_Ok by exact Hrun. cbn.
    assert (kios_alive w' c) as Ha'.
    { intros e' p' Hin. rewrite Hkios. destruct (decide (p = p')) as [->|].
      - rewrite lookup_insert_eq. eauto.
      - rewrite lookup_insert_ne by done. apply (Ha e'). by apply list_elem_of_further. }
    destruct (IH w' kts s sq rq cq ls' lr' lc' es er ec (got ++ [p]) fuel) as (w2 & s2 & Hrun2 & Hrest);
      [done..|cbn in Hf; lia|].
    exists w2, s2. by rewrite <- app_assoc in Hrun2.
Qed.

(** C18: draining terminates and loses nothing: on a draining session with [n]
    kios in its three queues, [n + 1] calls of [ktli_drain] hand back each of
    them once, completed ones first, then those awaiting a response, then the
    unsent ones, each queue in order; the last call answers 0, leaves the
    queues empty and moves the session to opened. *)
Theorem ktli_drain_complete w kts s sq rq cq ls lr lc es er ec fuel :
  session_queues w kts s sq rq cq ls lr lc es er ec ->
  ks_state s = KTLI_SSTATE_DRAINING -> kios_alive w (pending ls lr lc) ->
  (length (pending ls lr lc) < fuel)%nat ->
  exists w' s', drain_loop fuel kts [] w =
      Ok ((0, (contents lc).*2 ++ (contents lr).*2 ++ (contents ls).*2), w') /\
    session_at w' kts s' /\ ks_state s' = KTLI_SSTATE_OPENED /\
    exists ls' lr' lc', session_queues w' kts s' sq rq cq ls' lr' lc' es er ec /\
      pending ls' lr' lc' = [].
Proof.
  intros Hq Hst Ha Hf.
  destruct (drain_loop_run _ w kts s sq rq cq ls lr lc es er ec [] fuel Hq Hst eq_refl Ha Hf)
    as (w' & s' & Hrun & Hrest).
  exists w', s'. by rewrite app_nil_l in Hrun; unfold pending in Hrun; rewrite !fmap_app in Hrun.
Qed.

(** *** Draining by name

    The first element of a queue that carries a kio, the queue without it,
    and the code the search of that queue ends with. *)
Definition match_in (p : ptr) (c : list element) : option nat :=
  fst <$> list_find (fun x => x.2 = p) c.
Definition match_rest (p : ptr) (c : list element) : list element :=
  match match_in p c with Some i => delete i c | None => c end.
Definition match_rc (p : ptr) (c : list element) : Z :=
  match match_in p c with Some _ => 0 | None => match c with [] => LIST_EMPTY | _ => LIST_EXTENT end end.
Definition match_upd (p : ptr) (k : kio ptr) (c : list element) (w : world) : world :=
  match match_in p c with Some _ => upd_k p (drained k) w | None => w end.

Lemma kiomatch_search p (c : list element) :
  search_from (ktli_kiomatch p) c 0 = Ok (match_in p c).
Proof.
  rewrite (search_from_spec _ (fun x => bool_decide (p = x))) by (intros ???; done).
  unfold match_in. f_equal.
  assert (list_find (fun x : element => bool_decide (p = x.2) = true) c
          = list_find (fun x : element => x.2 = p) c) as ->.
  { apply list_find_ext. intros x. rewrite bool_decide_eq_true. done. }
  by destruct list_find as [[??]|].
Qed.

Lemma drain_match_q_run w q l ex p k :
  queue_at w q l ex -> w_kios w !! p = Some k ->
  exists l', contents l' = match_rest p (contents l) /\
    drain_match_q p (Some q) w =
      Ok ((match_rc p (contents l), zlen (match_rest p (contents l))),
          upd_q q (KtliQueue (Some l') false ex) (match_upd p k (contents l) w)).
Proof.
  unfold queue_at, match_rest, match_rc, match_upd. intros Hq Hk.
  pose proof (kiomatch_search p (contents l)) as Hsearch.
  destruct (decide (contents l = [])) as [Hnil|Hne].
  { destruct (list_traverse_empty LIST_FRNT l (ktli_kiomatch p) Hnil) as (l1 & Ht & Hc).
    rewrite Hnil. cbn. exists (list_mvrear l1). rewrite list_mvrear_contents. split; [done|].
    unfold drain_match_q. ksteps. rewrite ?found_ok, ?found_extent, ?found_empty. ksteps. by rewrite Hc. }
  destruct (match_in p (contents l)) as [i|] eqn:Em.
  - destruct (list_traverse_found LIST_FRNT l (ktli_kiomatch p) (Some 0%nat) i) as (l1 & Ht & Hc & Hcur);
      [done|done|cbn [mbind option_bind]; by rewrite drop_0, Hsearch|].
    unfold match_in in Em. apply fmap_Some in Em as ([i' [e p']] & Hf & ->).
    apply list_find_Some in Hf as (Hi & Heq & _). cbn in Heq. subst p'.
    destruct (list_remove_curr_cursor l1 i' e p Hcur) as (l2 & Hr & Hc2 & _); [by rewrite Hc|].
    rewrite Hc in Hc2. exists (list_mvrear l2). rewrite list_mvrear_contents. split; [done|].
    unfold drain_match_q. ksteps. rewrite ?found_ok, ?found_extent, ?found_empty. ksteps. by rewrite Hc2.
  - destruct (list_traverse_extent LIST_FRNT l (ktli_kiomatch p) (Some 0%nat)) as (l1 & Ht & Hc);
      [done|done|cbn [mbind option_bind]; by rewrite drop_0, Hsearch|].
    exists (list_mvrear l1). rewrite list_mvrear_contents. split; [done|].
    unfold drain_match_q. ksteps. rewrite ?found_ok, ?found_extent, ?found_empty. ksteps. rewrite Hc.
    by destruct (contents l).
Qed.

(** The same, with the new world known by what it changes. *)
Definition match_kio (p : ptr) (k : kio ptr) (c : list element) : kio ptr :=
  match match_in p c with Some _ => drained k | None => k end.

Lemma drain_match_q_effect w q l ex p k :
  queue_at w q l ex -> w_kios w !! p = Some k ->
  exists l' w', contents l' = match_rest p (contents l) /\
    drain_match_q p (Some q) w =
      Ok ((match_rc p (contents l), zlen (match_rest p (contents l))), w') /\
    w_table w' = w_table w /\ w_queues w' = <[q := KtliQueue (Some l') false ex]> (w_queues w) /\
    w_kios w' !! p = Some (match_kio p k (contents l)) /\
    forall p', p' <> p -> w_kios w' !! p' = w_kios w !! p'.
Proof.
  intros Hq Hk. destruct (drain_match_q_run w q l ex p k Hq Hk) as (l' & Hc & Hrun).
  exists l', (upd_q q (KtliQueue (Some l') false ex) (match_upd p k (contents l) w)).
  unfold match_upd, match_kio in *. destruct match_in; split_and!; try done; cbn.
  - by rewrite lookup_insert_eq.
  - intros p' Hne. by rewrite lookup_insert_ne.
Qed.

Lemma match_in_elem p (c : list element) : p ∈ c.*2 -> is_Some (match_in p c).
Proof.
  intros (x & -> & Hx)%list_elem_of_fmap. unfold match_in. apply fmap_is_Some.
  by eapply list_find_elem_of.
Qed.

Lemma match_kio_drained p k c : drained (match_kio p k c) = drained k.
Proof. unfold match_kio. by destruct match_in. Qed.

Lemma match_rest_len p c : zlen (match_rest p c) <= zlen c.
Proof.
  unfold match_rest, match_in, zlen. destruct list_find as [[i x]|] eqn:E; cbn; [|lia].
  apply list_find_Some in E as (E & _ & _). apply lookup_lt_Some in E as ?.
  rewrite length_delete by eauto. lia.
Qed.

(** On a draining session [ktli_drain_match] takes the kio out of every
    queue that holds it, marks it failed and off its queue, keeps all other
    kios in order, and moves the session to opened exactly when nothing is
    left.  Its answer, though, is that of its search of the send queue alone:
    0 when the kio was unsent, but the traversal's LIST_EMPTY or LIST_EXTENT
    when it was found and removed in another queue, although the comment asks
    for "a successful return code". *)
Theorem ktli_drain_match_spec w kts s sq rq cq ls lr lc es er ec p k :
  session_queues w kts s sq rq cq ls lr lc es er ec ->
  ks_state s = KTLI_SSTATE_DRAINING -> w_kios w !! p = Some k ->
  zlen (pending ls lr lc) < 2 ^ 32 ->
  exists w' ls' lr' lc', ktli_drain_match kts p w = Ok (match_rc p (contents ls), w') /\
    contents lc' = match_rest p (contents lc) /\ contents lr' = match_rest p (contents lr) /\
    contents ls' = match_rest p (contents ls) /\
    session_queues w' kts
      (if bool_decide (pending ls' lr' lc' = []) then set_ks_state KTLI_SSTATE_OPENED s else s)
      sq rq cq ls' lr' lc' es er ec /\
    exists k', w_kios w' !! p = Some k' /\ drained k' = drained k /\
      (p ∈ (pending ls lr lc).*2 -> k' = drained k) /\
      forall p', p' <> p -> w_kios w' !! p' = w_kios w !! p'.
Proof.
  intros [Hs Hsq Hrq Hcq (H1 & H2 & H3) Hqs Hqr Hqc] Hst Hk Hlen.
  unfold ktli_drain_match. ksteps.
  destruct (drain_match_q_effect (set_errno_w 0 w) cq lc ec p k Hqc Hk)
    as (lc' & w1 & Hlc & Hrun1 & Ht1 & Hq1 & Hk1 & Ho1).
  erewrite bind_Ok by exact Hrun1. clear Hrun1.
  assert (session_at w1 kts s) by (unfold session_at; by rewrite Ht1). ksteps.
  destruct (drain_match_q_effect w1 rq lr er p (match_kio p k (contents lc))) as
    (lr' & w2 & Hlr & Hrun2 & Ht2 & Hq2 & Hk2 & Ho2);
    [unfold queue_at in *; rewrite Hq1; by simplify_map_eq|exact Hk1|].
  erewrite bind_Ok by exact Hrun2. clear Hrun2.
  assert (session_at w2 kts s) by (unfold session_at; by rewrite Ht2). ksteps.
  destruct (drain_match_q_effect w2 sq ls es p
    (match_kio p (match_kio p k (contents lc)) (contents lr))) as
    (ls' & w3 & Hls & Hrun3 & Ht3 & Hq3 & Hk3 & Ho3);
    [unfold queue_at in *; rewrite Hq2, Hq1; by simplify_map_eq|exact Hk2|].
  erewrite bind_Ok by exact Hrun3. clear Hrun3. cbn beta iota.
  assert (session_at w3 kts s) as Hs3 by (unfold session_at; by rewrite Ht3).
  pose proof (match_rest_len p (contents lc)). pose proof (match_rest_len p (contents lr)).
  pose proof (match_rest_len p (contents ls)).
  rewrite <- Hlc, <- Hlr, <- Hls in *.
  assert (zlen (contents lc') + zlen (contents lr') + zlen (contents ls')
          = zlen (pending ls' lr' lc')) as Hsum by (unfold pending; rewrite !zlen_app; lia).
  assert (zlen (pending ls' lr' lc') <= zlen (pending ls lr lc)) as Hle
    by (unfold pending; rewrite !zlen_app; lia).
  rewrite Hsum, u32_small by (pose proof (zlen_nonneg (pending ls' lr' lc')); lia).
  rewrite zlen_eqb0.
  assert (forall w', w_queues w' = w_queues w3 -> forall st,
    session_at w' kts (set_ks_state st s) ->
    session_queues w' kts (set_ks_state st s) sq rq cq ls' lr' lc' es er ec) as Hfin.
  { intros w' Hw' st Hs'. unfold queue_at in *. constructor; try done;
      unfold queue_at; rewrite Hw', Hq3, ?Hq2, ?Hq1; by simplify_map_eq. }
  assert (exists k', w_kios w3 !! p = Some k' /\ drained k' = drained k /\
    (p ∈ (pending ls lr lc).*2 -> k' = drained k) /\
    forall p', p' <> p -> w_kios w3 !! p' = w_kios w !! p') as Hkio.
  { eexists. split; [exact Hk3|]. rewrite !match_kio_drained. split; [done|]. split.
    - unfold pending. rewrite !fmap_app, !elem_of_app.
      intros [He|[He|He]]; apply match_in_elem in He as [i Hi]; unfold match_kio; rewrite Hi;
        repeat case_match; done.
    - intros p' Hne. by rewrite Ho3, Ho2, Ho1. }
  destruct (pending ls' lr' lc') as [|x c] eqn:Ep.
  - erewrite bind_Ok by by eapply kts_update_run.
    eexists _, ls', lr', lc'. split; [reflexivity|]. split_and!; [done..| |exact Hkio].
    rewrite bool_decide_eq_true_2 by done. apply Hfin; [done|]. destruct Hs3 as [Hr Hl]. split; [done|].
    cbn. apply list_lookup_insert_eq. by eapply lookup_lt_Some.
  - eexists w3, ls', lr', lc'. split; [reflexivity|]. split_and!; [done..| |exact Hkio].
    rewrite bool_decide_eq_false_2 by (by rewrite Ep).
    assert (set_ks_state (ks_state s) s = s) as Hws by by destruct s.
    specialize (Hfin w3 eq_refl (ks_state s)). rewrite Hws in Hfin. by apply Hfin.
Qed.

(** ** Polling *)

(** What one look at the completion queue decides. *)
Definition poll_look (l : clist) (ex : Z) : option Z :=
  match contents l with
  | _ :: _ => Some 0
  | [] => if ex =? 0 then None else Some ECONNABORTED
  end.

Definition poll_result (r : Z) (w : world) : outcome (Z * world) :=
  if r =? 0 then Ok (0, w) else Ok (-1, set_errno_w r w).

Lemma poll_loop_step (asleep : nat -> ST world Z) timeout cq fuel n tl w w' remain l ex :
  asleep n w = Ok (remain, w') -> queue_at w' cq l ex ->
  ktli_poll_loop asleep timeout (Some cq) (S fuel) n tl w =
    match poll_look l ex with
    | Some r => poll_result r w'
    | None =>
        if timeout =? 0 then ktli_poll_loop asleep timeout (Some cq) fuel (S n) tl w'
        else let tl := i32 (- (KTLI_POLLINTERVAL - remain)) in
             if tl <=? 0 then poll_result ETIMEDOUT w'
             else ktli_poll_loop asleep timeout (Some cq) fuel (S n) tl w'
    end.
Proof.
  unfold queue_at, poll_look, poll_result. intros Hsl Hq. cbn [ktli_poll_loop].
  erewrite bind_Ok by exact Hsl. ksteps. rewrite zlen_eqb0.
  destruct (contents l) as [|x c]; ksteps; [|by rewrite upd_q_id].
  destruct (ex =? 0) eqn:Eex; ksteps.
  - rewrite upd_q_id by done. destruct (timeout =? 0); [done|]. cbn zeta.
    by destruct (i32 (- (KTLI_POLLINTERVAL - remain)) <=? 0).
  - rewrite upd_q_id by done. zbool. rewrite (proj2 (Z.eqb_neq ECONNABORTED 0)) by done. done.
Qed.

(** Without a timeout [ktli_poll] waits for as many intervals as it takes
    and no longer: it returns after the first sleep that leaves a completed
    kio in the completion queue (0) or the queue closed (-1, ECONNABORTED).
    [ws n] is the world after the n-th sleep. *)
Theorem ktli_poll_waits asleep kts s cq (ws : nat -> world) (rem : nat -> Z) ls exs n r fuel w :
  session_at w kts s -> ks_state s = KTLI_SSTATE_CONNECTED -> ks_compq s = Some cq ->
  ws 0%nat = set_errno_w 0 w ->
  (forall i, (i <= n)%nat -> asleep i (ws i) = Ok (rem i, ws (S i))) ->
  (forall i, (i <= n)%nat -> queue_at (ws (S i)) cq (ls i) (exs i)) ->
  (forall i, (i < n)%nat -> poll_look (ls i) (exs i) = None) ->
  poll_look (ls n) (exs n) = Some r -> (n < fuel)%nat ->
  ktli_poll asleep fuel kts 0 w = poll_result r (ws (S n)).
Proof.
  intros Hs Hst Hcq H0 Hsl Hq Hno Hyes Hf. unfold ktli_poll. ksteps. rewrite <- H0. clear H0.
  assert (forall d k tl f, (k + d = n)%nat -> (d < f)%nat ->
    ktli_poll_loop asleep 0 (Some cq) f k tl (ws k) = poll_result r (ws (S n))) as Hloop.
  { induction d as [|d IH]; intros k tl [|f] Hk Hf'; try lia.
    - assert (k = n) as -> by lia.
      erewrite poll_loop_step by eauto. by rewrite Hyes.
    - erewrite poll_loop_step; [|apply Hsl; lia|apply Hq; lia].
      rewrite Hno by lia. cbn [Z.eqb]. apply IH; lia. }
  apply (Hloop n 0%nat); [lia|done].
Qed.

(** With a timeout, whatever its length, [ktli_poll] looks once: the
    line [timeleft =- (...)] replaces the time left by minus the interval
    slept, so the call has timed out after its first 10 microsecond sleep
    unless that sleep brought a completed kio or closed the queue. *)
Theorem ktli_poll_one_interval asleep kts s cq w w1 remain l ex timeout fuel :
  session_at w kts s -> ks_state s = KTLI_SSTATE_CONNECTED -> ks_compq s = Some cq ->
  asleep 0%nat (set_errno_w 0 w) = Ok (remain, w1) -> 0 <= remain <= KTLI_POLLINTERVAL ->
  queue_at w1 cq l ex -> timeout <> 0 ->
  ktli_poll asleep (S fuel) kts timeout w =
    poll_result (default ETIMEDOUT (poll_look l ex)) w1.
Proof.
  intros Hs Hst Hcq Hsl Hr Hq Ht. unfold ktli_poll. ksteps.
  erewrite poll_loop_step by eauto.
  destruct (poll_look l ex) as [r|]; [done|]. cbn [default].
  replace (timeout =? 0) with false by lia. cbv zeta.
  assert (KTLI_POLLINTERVAL = 10000) by done.
  rewrite i32_small by lia.
  by replace (- (KTLI_POLLINTERVAL - remain) <=? 0) with true by lia.
Qed.

(** ** Unsolicited responses *)

(** [ktli_receive_unsolicited] hands out the first completed kio that has
    no request, leaving every other one in order, and refuses with ENOENT
    when the completion queue holds none; a kio with a request is never
    handed out. *)
Theorem ktli_receive_unsolicited_spec w kts s cq l ex :
  session_at w kts s -> ks_state s = KTLI_SSTATE_CONNECTED \/ ks_state s = KTLI_SSTATE_DRAINING ->
  ks_compq s = Some cq -> queue_at w cq l ex -> kios_alive w (contents l) ->
  let noreq p := match w_kios w !! p with Some k => km_cnt (kio_sendmsg k) =? 0 | None => false end in
  exists w' l' r, ktli_receive_unsolicited kts w = Ok (r, w') /\
    w_queues w' = <[cq := KtliQueue (Some l') false ex]> (w_queues w) /\ w_table w' = w_table w /\
    match list_find (fun x : element => noreq x.2 = true) (contents l) with
    | Some (i, (_, p)) => r = (0, Some p) /\ contents l' = delete i (contents l) /\
        exists k, w_kios w !! p = Some k /\ w_kios w' = <[p := set_kio_qbp None k]> (w_kios w)
    | None => r = (-1, None) /\ w_errno w' = ENOENT /\ contents l' = contents l /\ w_kios w' = w_kios w
    end.
Proof.
  intros Hs Hst Hcq Hq Ha noreq. unfold ktli_receive_unsolicited, queue_at in *. ksteps.
  replace (bool_decide (ks_state s <> KTLI_SSTATE_CONNECTED) &&
           bool_decide (ks_state s <> KTLI_SSTATE_DRAINING)) with false by by destruct Hst as [->| ->].
  ksteps. set (w1 := upd_q cq (KtliQueue (Some l) true ex) w).
  assert (answers (ktli_kionoreq w1) noreq (contents l)) as Hans.
  { intros e p Hin. destruct (Ha e p Hin) as [k Hk]. unfold ktli_kionoreq, noreq. cbn. by rewrite Hk. }
  pose proof (search_from_spec _ _ _ 0 Hans) as Hsearch. cbn [Nat.add] in Hsearch.
  destruct (decide (contents l = [])) as [Hnil|Hne].
  { destruct (list_traverse_empty LIST_FRNT l (ktli_kionoreq w1) Hnil) as (l1 & Ht & Hc).
    unfold w1 in *. rewrite Hnil. cbn [list_find].
    ksteps. rewrite ?found_ok, ?found_extent, ?found_empty. unfold fail. ksteps. eexists _, (list_mvrear l1), _.
    split; [reflexivity|]. rewrite list_mvrear_contents. done. }
  destruct (list_find _ (contents l)) as [[i [e p]]|] eqn:Ef.
  - apply list_find_Some in Ef as (Hi & _ & _).
    destruct (list_traverse_found LIST_FRNT l (ktli_kionoreq w1) (Some 0%nat) i) as (l1 & Ht & Hc & Hcur);
      [done|done|cbn [mbind option_bind]; by rewrite drop_0, Hsearch|].
    destruct (list_remove_curr_cursor l1 i e p Hcur) as (l2 & Hr & Hc2 & _); [by rewrite Hc|].
    rewrite Hc in Hc2. destruct (Ha e p) as [k Hk]; [by eapply list_elem_of_lookup_2|].
    unfold w1 in *. ksteps. rewrite ?found_ok, ?found_extent, ?found_empty. ksteps.
    eexists _, (list_mvrear l2), _. split; [reflexivity|]. rewrite list_mvrear_contents.
    split_and!; try done. exists k. done.
  - destruct (list_traverse_extent LIST_FRNT l (ktli_kionoreq w1) (Some 0%nat)) as (l1 & Ht & Hc);
      [done|done|cbn [mbind option_bind]; by rewrite drop_0, Hsearch|].
    unfold w1 in *. ksteps. rewrite ?found_ok, ?found_extent, ?found_empty. unfold fail. ksteps. eexists _, (list_mvrear l1), _.
    split; [reflexivity|]. rewrite list_mvrear_contents. done.
Qed.
End client.
