(* ===== verification/KtliThreads.v ===== *)
(** The KTLI service threads and the calls that start and stop them:
    [ktli_sender], [ktli_recvmsg], [ktli_receiver], [ktli_open] and
    [ktli_close] of [src/ktli.c].

    A thread's body is cut where the other threads can run: the sender into
    the part before and the part after the driver's send, the receiver into one
    pass of its loop.  [pthread_join] runs the joined thread to its exit. *)

From stdpp Require Import gmap.
From S2P Require Import Prelude Types ListApi Session KtliState Ktli.

Section threads.
Context `{LA : ListApi} {X : Type} (socket_fns : ktli_driver_fns X).

Notation world := (@world LA X).
Notation M := (ST world).

(** Hang a kio at the rear of a queue and point its back pointer at whatever
    is current then; the caller holds the mutex and ignores a failure. *)
Definition hang_on (q : option ptr) (kio : ptr) : M unit :=
  _ ← list_enqueue q kio;
  l ← q_list q;
  kio_upd kio (set_kio_qbp (list_element_curr l)).

(** ** The sender *)

(** [ktli_sender], from the dequeue to the timeout: the kio about to be sent. *)
Definition sender_dequeue (kts : Z) : M ptr :=
  kh ← kts_rd (kts_helpers kts);
  sq ← kts_rd (kts_sendq kts);
  rq ← kts_rd (kts_recvq kts);
  pthread_mutex_lock sq ;;
  kio ← q_remove_front sq;
  kio_upd kio (set_kio_qbp None) ;;
  pthread_mutex_unlock sq ;;
  seq ← kts_rd (kts_sequence kts);
  kio_upd kio (set_kio_seq seq) ;;
  kts_wr (kts_set_sequence (i64 (seq + 1)) kts) ;;
  w ← get_st;
  h ← deref_st (kh ≫= (w_helpers w !!.));
  setseq ← deref_st (kh_setseq_fn h);
  k ← kio_rd kio;
  iov ← deref_st (km_msg (kio_sendmsg k));
  kio_upd kio (set_kio_sendmsg
    (set_km_msg (setseq iov (km_cnt (kio_sendmsg k)) (u64 seq)) (kio_sendmsg k))) ;;
  (if negb (KIOF_ISSET k KIOF_REQONLY) then
     pthread_mutex_lock rq ;;
     hang_on rq kio ;;
     pthread_mutex_unlock rq
   else mret tt) ;;
  now ← ktli_gettime;
  kio_upd kio (set_kio_timeout (Timespec (tv_sec now + KIO_TIMEOUT_S) (tv_nsec now))) ;;
  mret kio.

(** The driver's send, and what it did to the kio. *)
Definition sender_transmit (kts : Z) (kio : ptr) : M Z :=
  dh ← kts_rd (kts_dhandle kts);
  de ← kts_rd (kts_driver kts);
  fns ← ktlid_fns socket_fns de;
  k ← kio_rd kio;
  iov ← deref_st (km_msg (kio_sendmsg k));
  rc ← call_driver (ktli_dfns_send fns dh iov (km_cnt (kio_sendmsg k)));
  kio_upd kio (fun k => if bool_decide (kio_st k = KIO_NEW) then set_kio_state KIO_SENT k else k) ;;
  w ← get_st;
  kio_upd kio (fun k => set_kio_sendmsg (set_km_status rc (w_errno w) (kio_sendmsg k)) k) ;;
  mret rc.

(** After the send: a kio that failed, or that expects no response, goes to
    the completion queue; for any other the receiver is signalled. *)
Definition sender_finish (kts : Z) (kio : ptr) (rc : Z) : M unit :=
  rq ← kts_rd (kts_recvq kts);
  cq ← kts_rd (kts_compq kts);
  k ← kio_rd kio;
  (if (rc <? 0) || KIOF_ISSET k KIOF_REQONLY then
     (if negb (KIOF_ISSET k KIOF_REQONLY) then
        pthread_mutex_lock rq ;;
        l ← q_list rq;
        (match list_setcurr l (kio_qbp k) with Some l' => q_set rq l' | None => mret tt end) ;;
        _ ← q_remove_curr rq;
        kio_upd kio (set_kio_qbp None) ;;
        q_mvrear rq ;;
        pthread_mutex_unlock rq
      else mret tt) ;;
     pthread_mutex_lock cq ;;
     hang_on cq kio ;;
     kio_upd kio (set_kio_state (if rc <? 0 then KIO_FAILED else KIO_RECEIVED)) ;;
     pthread_mutex_unlock cq
   else
     pthread_mutex_lock rq ;;
     pthread_mutex_unlock rq) ;;
  k ← kio_rd kio;
  if KIOF_ISSET k KIOF_TSTAMP then
    now ← ktli_gettime; kio_upd kio (set_kiot_sent now)
  else mret tt.

Definition ktli_sender_one (kts : Z) : M unit :=
  kio ← sender_dequeue kts;
  rc ← sender_transmit kts kio;
  sender_finish kts kio rc.

(** [while (list_size(sq->ktq_list))] *)
Fixpoint ktli_sender_drain (fuel : nat) (kts : Z) : M unit :=
  match fuel with
  | O => fun _ => NoFuel
  | S fuel =>
      sq ← kts_rd (kts_sendq kts);
      n ← q_size sq;
      if n =? 0 then mret tt
      else ktli_sender_one kts ;; ktli_sender_drain fuel kts
  end.

(** The sender's main loop until it leaves; a wait on the condition variable
    that nobody signals is one empty turn. *)
Fixpoint ktli_sender (fuel : nat) (kts : Z) : M unit :=
  match fuel with
  | O => fun _ => NoFuel
  | S fuel =>
      sq ← kts_rd (kts_sendq kts);
      pthread_mutex_lock sq ;;
      pthread_mutex_unlock sq ;;
      ex ← q_exit sq;
      if negb (ex =? 0) then mret tt
      else ktli_sender_drain fuel kts ;; ktli_sender fuel kts
  end.

(** ** Receiving one message *)

(** The error exit of [ktli_recvmsg].  [sq], [rq] and [cq] are the function's
    locals; [bases] are the buffers of the message array ([None]: the array was
    not allocated; an entry [None]: not initialised). *)
Fixpoint fail_queue (fuel : nat) (q cq : option ptr) : M unit :=
  match fuel with
  | O => fun _ => NoFuel
  | S fuel =>
      n ← q_size q;
      if n =? 0 then mret tt
      else
        kio ← q_remove_front q;
        kio_upd kio (set_kio_qbp None) ;;
        kio_upd kio (set_kio_state KIO_FAILED) ;;
        kio_upd kio (set_kio_errno ECONNABORTED) ;;
        e ← malloc_ptr sizeof_ptr;
        l ← q_list cq;
        (match list_insert_after e l kio with Some l' => q_set cq l' | None => mret tt end) ;;
        l ← q_list cq;
        kio_upd kio (set_kio_qbp (list_element_curr l)) ;;
        fail_queue fuel q cq
  end.

Definition free_bases (bases : option (list (option (option buffer)))) : M unit :=
  bs ← deref_st bases;
  forM_st bs (fun b => b ← deref_st b; match b with Some _ => free_buf | None => mret tt end) ;;
  free_buf.

Definition recvmsgerr (fuel : nat) (kts : Z) (sq rq cq : option ptr)
    (bases : option (list (option (option buffer)))) : M Z :=
  kts_wr (kts_set_state KTLI_SSTATE_ABORTED kts) ;;
  _ ← ktli_disconnect socket_fns kts;
  pthread_mutex_lock sq ;;
  pthread_mutex_lock rq ;;
  pthread_mutex_lock cq ;;
  q_mvrear cq ;;
  fail_queue fuel rq cq ;;
  fail_queue fuel sq cq ;;
  pthread_mutex_unlock cq ;;
  pthread_mutex_unlock rq ;;
  pthread_mutex_unlock sq ;;
  free_bases bases ;;
  mret (-1).

(** Allocate the message array and its buffers and receive the PDU, then the
    message and the value: the last return code and the vector, or the buffers to release on an error. *)
Definition recvmsg_read (kts : Z) : M (Z * list kiovec + option (list (option (option buffer)))) :=
  dh ← kts_rd (kts_dhandle kts);
  de ← kts_rd (kts_driver kts);
  kh ← kts_rd (kts_helpers kts);
  w ← get_st;
  h ← deref_st (kh ≫= (w_helpers w !!.));
  fns ← ktlid_fns socket_fns de;
  arr ← malloc_buf (sizeof_kiovec * KM_CNT_WITHVAL);
  match arr with None => mret (inr None) | Some _ =>
  pdu ← malloc_buf (kh_recvhdr_len h);
  match pdu with None => mret (inr (Some [Some None; None; None])) | Some pdub =>
  '(rc, iov) ← call_receive (ktli_dfns_receive fns dh [Kiovec (Some pdub) (u64 (kh_recvhdr_len h))] 1);
  hdr ← deref_st (head iov);
  if rc =? -1 then mret (inr (Some [Some (kiov_base hdr); None; None])) else
  msglen_fn ← deref_st (kh_msglen_fn h);
  vallen_fn ← deref_st (kh_vallen_fn h);
  let msglen := u64 (msglen_fn hdr) in
  let vallen := u64 (vallen_fn hdr) in
  if (msglen <? 0) || (vallen <? 0) then mret (inr (Some [Some (kiov_base hdr); None; None])) else
  m ← malloc_buf msglen;
  match m with None => mret (inr (Some [Some (kiov_base hdr); Some None; None])) | Some mb =>
  v ← malloc_buf vallen;
  match v with None => mret (inr (Some [Some (kiov_base hdr); Some (Some mb); Some None])) | Some vb =>
  '(rc, iov) ← call_receive
     (ktli_dfns_receive fns dh [Kiovec (Some mb) msglen; Kiovec (Some vb) vallen] 2);
  if rc =? -1 then mret (inr (Some (Some (kiov_base hdr) :: ((fun v => Some (kiov_base v)) <$> iov))))
  else mret (inl (rc, hdr :: iov))
  end end end end.

(** Find the kio the message answers.  [rc0] is what [rc] holds when the
    traversal is skipped. [inl None]: the message was tossed. *)
Definition recvmsg_match (kts : Z) (iov : list kiovec) (rc0 : Z) (rq : option ptr) : M (option ptr + unit) :=
  kh ← kts_rd (kts_helpers kts);
  w ← get_st;
  h ← deref_st (kh ≫= (w_helpers w !!.));
  getaseq ← deref_st (kh_getaseq_fn h);
  let aseq := i64 (getaseq iov KM_CNT_WITHVAL) in
  pthread_mutex_lock rq ;;
  rc ← (if aseq >? 0 then q_traverse rq LIST_FRNT (ktli_seqmatch aseq) else mret rc0);
  if (aseq =? -1) || (rc =? LIST_EXTENT) || (rc =? LIST_EMPTY) then
    if negb (aseq =? -1) then
      forM_st iov (fun _ => free_buf) ;;
      free_buf ;;
      pthread_mutex_unlock rq ;;
      mret (inl None)
    else
      kio ← malloc_ptr sizeof_kio;
      match kio with
      | None => pthread_mutex_unlock rq ;; mret (inr tt)
      | Some kio =>
          modify_st (fun w => set_kios_w (<[kio :=
            Kio ptr KIO_MAGIC 0 aseq KIOF_RESPONLY KIO_NEW 0 kio_msg0 kio_msg0 (Timespec 0 0)
              None None None None None None
              (KioTstamps (Timespec 0 0) (Timespec 0 0) (Timespec 0 0) (Timespec 0 0))]> (w_kios w)) w) ;;
          q_mvrear rq ;;
          pthread_mutex_unlock rq ;;
          mret (inl (Some kio))
      end
  else
    kio ← q_remove_curr rq;
    kio_upd kio (set_kio_qbp None) ;;
    q_mvrear rq ;;
    pthread_mutex_unlock rq ;;
    mret (inl (Some kio)).

(** Hang the response on the kio and complete it. *)
Definition recvmsg_complete (kio : ptr) (iov : list kiovec) (recvs : timespec) (cq : option ptr) : M Z :=
  k ← kio_rd kio;
  (if KIOF_ISSET k KIOF_TSTAMP then kio_upd kio (set_kiot_recvs recvs) else mret tt) ;;
  kio_upd kio (set_kio_recvmsg (KioMsg (Some iov) KM_CNT_WITHVAL 0 0)) ;;
  pthread_mutex_lock cq ;;
  hang_on cq kio ;;
  kio_upd kio (set_kio_state KIO_RECEIVED) ;;
  k ← kio_rd kio;
  assert_st (bool_decide (kio_qbp k <> None)) ;;
  pthread_mutex_unlock cq ;;
  mret 0.

Definition ktli_recvmsg (fuel : nat) (kts : Z) : M Z :=
  recvs ← ktli_gettime;
  sq ← kts_rd (kts_recvq kts);
  rq ← kts_rd (kts_recvq kts);
  cq ← kts_rd (kts_compq kts);
  r ← recvmsg_read kts;
  match r with
  | inr bases => recvmsgerr fuel kts sq rq cq bases
  | inl (rc, iov) =>
      r ← recvmsg_match kts iov rc rq;
      match r with
      | inr _ => recvmsgerr fuel kts sq rq cq (Some ((fun v => Some (kiov_base v)) <$> iov))
      | inl None => mret 0
      | inl (Some kio) => recvmsg_complete kio iov recvs cq
      end
  end.

(** ** The receiver *)

(** Time out one kio: from the current position of the receive queue to the
    rear of the completion queue. *)
Definition timeout_one (rq cq : option ptr) : M unit :=
  kio ← q_remove_curr rq;
  kio_upd kio (set_kio_errno ETIMEDOUT) ;;
  kio_upd kio (set_kio_qbp None) ;;
  pthread_mutex_lock cq ;;
  hang_on cq kio ;;
  kio_upd kio (set_kio_state KIO_TIMEDOUT) ;;
  pthread_mutex_unlock cq.

Fixpoint timeout_scan (fuel : nat) (rq cq : option ptr) (currtime : timespec) (rc : Z) : M unit :=
  match fuel with
  | O => fun _ => NoFuel
  | S fuel =>
      if rc =? LIST_OK then
        timeout_one rq cq ;;
        rc ← q_traverse rq LIST_CURR (ktli_timechk currtime);
        timeout_scan fuel rq cq currtime rc
      else mret tt
  end.

(** The timeout check of one pass; [lastcheck] is carried to the next. *)
Definition timeout_check (fuel : nat) (rq cq : option ptr) (lastcheck : timespec) : M timespec :=
  pthread_mutex_lock rq ;;
  currtime ← ktli_gettime;
  last ← (if tv_sec lastcheck =? tv_sec currtime then mret lastcheck
          else
            rc ← q_traverse rq LIST_FRNT (ktli_timechk currtime);
            timeout_scan fuel rq cq currtime rc ;;
            mret currtime);
  q_mvrear rq ;;
  pthread_mutex_unlock rq ;;
  mret last.

(** One pass of the main loop: [inl last] to go on, [inr] to exit.  A poll
    error goes straight to the next pass, past the exit test. *)
Definition receiver_pass (fuel : nat) (kts : Z) (lastcheck : timespec) : M (timespec + unit) :=
  dh ← kts_rd (kts_dhandle kts);
  de ← kts_rd (kts_driver kts);
  rq ← kts_rd (kts_recvq kts);
  cq ← kts_rd (kts_compq kts);
  fns ← ktlid_fns socket_fns de;
  rc ← call_driver (ktli_dfns_poll fns dh 10);
  if rc <? 0 then mret (inl lastcheck) else
  (if rc =? 1 then _ ← ktli_recvmsg fuel kts; mret tt else mret tt) ;;
  last ← timeout_check fuel rq cq lastcheck;
  ex ← q_exit rq;
  if negb (ex =? 0) then mret (inr tt) else mret (inl last).

Fixpoint receiver_loop (fuel : nat) (kts : Z) (lastcheck : timespec) : M unit :=
  match fuel with
  | O => fun _ => NoFuel
  | S fuel =>
      r ← receiver_pass fuel kts lastcheck;
      match r with inl last => receiver_loop fuel kts last | inr _ => mret tt end
  end.

(** [ktli_receiver]: wait for the connection, then the main loop. *)
Fixpoint ktli_receiver (fuel : nat) (kts : Z) : M unit :=
  match fuel with
  | O => fun _ => NoFuel
  | S fuel =>
      st ← kts_rd (kts_state kts);
      if bool_decide (st <> KTLI_SSTATE_CONNECTED) then ktli_receiver fuel kts
      else receiver_loop fuel kts (Timespec 0 0)
  end.

(** ** Threads *)
Definition int_rd (p : option ptr) : M Z := fun w => deref_st (p ≫= (w_ints w !!.)) w.

(** [pthread_create]: the id of the new thread, or failure. *)
Definition pthread_create (t : thread) : M (option Z) := fun w =>
  match w_pthread w (w_tcount w) with
  | Some tid => Ok (Some tid, set_threads_w (<[tid := t]> (w_threads w)) (bump_tcount_w w))
  | None => Ok (None, bump_tcount_w w)
  end.

(** [pthread_join]: the thread runs to its end; its argument is its result. *)
Definition pthread_join (fuel : nat) (tid : Z) : M ptr :=
  w ← get_st;
  t ← deref_st (w_threads w !! tid);
  let p := match t with Sender p | Receiver_waiting p | Receiver_running p _ => p end in
  kts ← int_rd (Some p);
  (match t with
   | Sender _ => ktli_sender fuel kts
   | Receiver_waiting _ => ktli_receiver fuel kts
   | Receiver_running _ last => receiver_loop fuel kts last
   end) ;;
  modify_st (fun w => set_threads_w (delete tid (w_threads w)) w) ;;
  mret p.

(** ** Opening and closing a session *)

(** [list_create], [pthread_mutex_init] and [pthread_cond_init] on a queue
    block malloc returned. *)
Definition queue_init (q : option ptr) : M unit :=
  match q with
  | None => mret tt
  | Some p =>
      l ← malloc_ptr sizeof_ptr;
      modify_st (fun w => set_queues_w
        (<[p := KtliQueue ((fun _ => list_create) <$> l) false 0]> (w_queues w)) w)
  end.

Definition queue_free (q : option ptr) : M unit :=
  match q with
  | None => mret tt
  | Some p => modify_st (fun w => set_queues_w (delete p (w_queues w)) w)
  end.

Definition queue_has_list (q : option ptr) : M bool := fun w =>
  match q ≫= (w_queues w !!.) with
  | Some Q => Ok (bool_decide (is_Some (ktq_list Q)), w)
  | None => Ub
  end.

Definition int_free (p : option ptr) : M unit :=
  match p with
  | None => mret tt
  | Some p => modify_st (fun w => set_ints_w (delete p (w_ints w)) w)
  end.

(** The driver and helper tests at the top of [ktli_open] *)
Definition open_args_ok (de kh : option ptr) : M bool :=
  if bool_decide (de = None \/ kh = None) then mret false else
  w ← get_st;
  h ← deref_st (kh ≫= (w_helpers w !!.));
  mret (negb (bool_decide (kh_getaseq_fn h = None) || bool_decide (kh_setseq_fn h = None) ||
              bool_decide (kh_msglen_fn h = None) ||
              (kh_recvhdr_len h <=? 0) || (kh_recvhdr_len h >? 1024))).

Definition free_slot (kts : Z) : M unit := kts_wr (fun t => '(_, t') ← kts_free_slot kts t; mret t').

(** [open_err:] *)
Definition open_err (p sq rq cq : option ptr) : M Z :=
  queue_free sq ;; queue_free rq ;; queue_free cq ;;
  kts ← int_rd p;
  free_slot kts ;;
  int_free p ;;
  mret (-1).

(** The call of [kts_alloc_slot], its result stored through [kts]. *)
Definition alloc_slot (m : option kts_session) : M Z := fun w =>
  let '(kts, e, t) := kts_alloc_slot m (w_table w) in
  (set_errno_opt e ;; mret kts) (set_table_w t w).

Definition open_alloc_slot (p : option ptr) : M Z :=
  m ← malloc sizeof_kts_session;
  w ← get_st;
  kts ← alloc_slot ((fun _ => w_blank w) <$> m);
  p ← deref_st p;
  modify_st (fun w => set_ints_w (<[p := kts]> (w_ints w)) w) ;;
  mret kts.

Definition call_open (f : X -> option ptr * X) : M (option ptr) := fun w =>
  let '(dh, x) := f (w_env w) in Ok (dh, set_env_w x w).

(** From the driver open to the end: [sq], [rq], [cq] are initialised and the
    slot is allocated. *)
Definition open_session (fuel : nat) (de cf kh p sq rq cq : option ptr) : M Z :=
  kts ← int_rd p;
  fns ← ktlid_fns socket_fns de;
  dh ← call_open (ktli_dfns_open fns);
  if bool_decide (dh = None) then set_errno EMFILE ;; open_err p sq rq cq else
  kts_wr (kts_set_driver de kts) ;;
  kts_wr (kts_set_dhandle dh kts) ;;
  kts_wr (kts_set_config cf kts) ;;
  kts_wr (kts_set_helpers kh kts) ;;
  kts_wr (kts_set_sendq sq kts) ;;
  kts_wr (kts_set_recvq rq kts) ;;
  kts_wr (kts_set_compq cq kts) ;;
  argp ← deref_st p;
  stid ← pthread_create (Sender argp);
  match stid with None => open_err p sq rq cq | Some stid =>
  kts_wr (kts_set_sender stid kts) ;;
  rtid ← pthread_create (Receiver_waiting argp);
  match rtid with
  | None =>
      pthread_mutex_lock sq ;;
      q_set_exit sq 1 ;;
      pthread_mutex_unlock sq ;;
      _ ← pthread_join fuel stid;
      open_err p sq rq cq
  | Some rtid =>
      kts_wr (kts_set_receiver rtid kts) ;;
      kts_wr (kts_set_sequence 100 kts) ;;
      kts_wr (kts_set_state KTLI_SSTATE_OPENED kts) ;;
      mret kts
  end end.

(** The cell for the descriptor and the three queues *)
Definition open_alloc : M (option ptr * option ptr * option ptr * option ptr) :=
  p ← malloc_ptr sizeof_int;
  sq ← malloc_ptr sizeof_ktli_queue;
  rq ← malloc_ptr sizeof_ktli_queue;
  cq ← malloc_ptr sizeof_ktli_queue;
  queue_init sq ;; queue_init rq ;; queue_init cq ;;
  mret (p, sq, rq, cq).

Definition ktli_open (fuel : nat) (did : Z) (cf kh : option ptr) : M Z :=
  modify_st (fun w => if ktli_up w =? 0 then set_table_w kts_init (set_up_w 1 w) else w) ;;
  let de := ktlid_find did (ktlid_table socket_fns) 0 in
  ok ← open_args_ok de kh;
  if negb ok then fail EINVAL else
  '(p, sq, rq, cq) ← open_alloc;
  ok ← (if bool_decide (p = None \/ sq = None \/ rq = None \/ cq = None) then mret false
        else a ← queue_has_list sq; b ← queue_has_list rq; c ← queue_has_list cq; mret (a && b && c));
  if negb ok then
    (* sq->ktq_list, rq->ktq_list and cq->ktq_list are read without a NULL test *)
    _ ← queue_has_list sq; _ ← queue_has_list rq; _ ← queue_has_list cq;
    queue_free sq ;; queue_free rq ;; queue_free cq ;; int_free p ;;
    fail ENOMEM
  else
  q_set_exit sq 0 ;; q_set_exit rq 0 ;; q_set_exit cq 0 ;;
  kts ← open_alloc_slot p;
  if kts <? 0 then set_errno EMFILE ;; open_err p sq rq cq
  else open_session fuel de cf kh p sq rq cq.

(** [while (list_size(q)) KTLI_FREE(list_remove_rear(q))] *)
Fixpoint free_rear (fuel : nat) (q : option ptr) : M unit :=
  match fuel with
  | O => fun _ => NoFuel
  | S fuel =>
      n ← q_size q;
      if n =? 0 then mret tt
      else
        l ← q_list q;
        '(_, l') ← deref_st (list_remove_rear l);
        q_set q l' ;;
        free_rear fuel q
  end.

(** Stop a service thread and release its queue; the thread's result. *)
Definition close_thread (fuel : nat) (q : option ptr) (tid : Z) : M ptr :=
  pthread_mutex_lock q ;;
  q_set_exit q 1 ;;
  pthread_mutex_unlock q ;;
  res ← pthread_join fuel tid;
  free_rear fuel q ;;
  queue_free q ;;
  mret res.

Definition ktli_close (fuel : nat) (kts : Z) : M Z :=
  ok ← kts_rd (kts_isvalid kts);
  if negb ok then fail EBADF else
  st ← kts_rd (kts_state kts);
  match st with
  | KTLI_SSTATE_UNKNOWN => mret 0
  | KTLI_SSTATE_CONNECTED | KTLI_SSTATE_ABORTED => fail EISCONN
  | KTLI_SSTATE_DRAINING => fail EBADFD
  | KTLI_SSTATE_OPENED =>
      sq ← kts_rd (kts_sendq kts);
      rq ← kts_rd (kts_recvq kts);
      cq ← kts_rd (kts_compq kts);
      n1 ← q_size sq;
      n2 ← q_size rq;
      n3 ← q_size cq;
      if negb (n1 =? 0) || negb (n2 =? 0) || negb (n3 =? 0) then fail ENOTEMPTY else
      dh ← kts_rd (kts_dhandle kts);
      de ← kts_rd (kts_driver kts);
      if bool_decide (de = None \/ dh = None) then fail EBADF else
      fns ← ktlid_fns socket_fns de;
      rc ← call_driver (ktli_dfns_close fns dh);
      if rc =? -1 then mret (-1) else
      stid ← kts_rd (kts_sender kts);
      _ ← close_thread fuel sq stid;
      rq ← kts_rd (kts_recvq kts);
      rtid ← kts_rd (kts_receiver kts);
      res ← close_thread fuel rq rtid;
      cq ← kts_rd (kts_compq kts);
      q_set_exit cq 1 ;;
      free_rear fuel cq ;;
      queue_free cq ;;
      int_free (Some res) ;;
      free_slot kts ;;
      mret 0
  end.
End threads.
