(* ===== verification/KtliThreadSpec.v ===== *)
(** What the KTLI service threads do to the queues: the sender's sequencing and
    completion of kios, the receiver's matching of responses, its timeout scan
    and its error exit, and the opening and closing of a session. *)

From stdpp Require Import gmap.
From S2P Require Import Prelude Types ListApi Session KtliState Ktli KtliSpec KtliThreads.

(** An enqueue with its back pointer, as [kenq]; and a flag test known for the
    kio before its updates. *)
Ltac khang H := match goal with
  | |- context [(hang_on (Some ?q) ?p ≫= _) ?w] =>
      let HQ := fresh in let HK := fresh in
      eassert (w_queues w !! q = Some (KtliQueue (Some _) _ _)) as HQ by kside;
      eassert (w_kios w !! p = Some _) as HK by kside;
      let l := fresh "lq" in let Hc := fresh "Hc" in let Hcur := fresh "Hcur" in
      let Hrun := fresh in
      edestruct (H w q _ _ _ p _ HQ HK) as (l & Hc & Hcur & Hrun);
      [|clear HQ HK; erewrite bind_Ok by exact Hrun; clear Hrun; cbn in Hc, Hcur]
  end.
Ltac kflag H := match type of H with
  | KIOF_ISSET ?k ?f = ?b => repeat match goal with
      | |- context [KIOF_ISSET ?k' f] => change (KIOF_ISSET k' f) with (KIOF_ISSET k f); rewrite H
      end
  end.

Section sender.
Context {LA : ListApi} {LL : ListLaws} {X : Type} (socket_fns : ktli_driver_fns X).

Notation world := (@world _ X).
Implicit Types (w : world).

Definition malloc_always (w : world) : Prop := forall n size, is_Some (w_malloc w n size).

Lemma malloc_always_ok w size : malloc_always w -> malloc_ok w size.
Proof. intros H. apply H. Qed.

Lemma hang_on_run w q l m ex p k :
  w_queues w !! q = Some (KtliQueue (Some l) m ex) -> w_kios w !! p = Some k -> malloc_ok w sizeof_ptr ->
  exists l', contents l' = contents l ++ [(w_next w, p)] /\ cursor l' = Some (length (contents l)) /\
    hang_on (Some q) p w =
      Ok (tt, upd_q q (KtliQueue (Some l') m ex)
                (upd_k p (set_kio_qbp (Some (w_next w)) k)
                  (set_next_w (Pos.succ (w_next w)) (bump_mcount_w w)))).
Proof.
  intros Hq Hk Hm. unfold hang_on. kenq l' Hc He Hcur. exists l'. split; [done|]. split; [done|].
  ksteps. klast. by rewrite He.
Qed.

Lemma KIOF_ISSET_flags {E} (k k' : kio E) f : kio_flags k' = kio_flags k -> KIOF_ISSET k' f = KIOF_ISSET k f.
Proof. unfold KIOF_ISSET. by intros ->. Qed.

(** Configurations, live blocks, the driver's environment, the helpers and the
    allocator are as they were. *)
Definition keeps (w w' : world) : Prop :=
  w_configs w' = w_configs w /\ w_live w' = w_live w /\ w_env w' = w_env w /\
  w_helpers w' = w_helpers w /\ w_malloc w' = w_malloc w.

(** The fields of a kio that belong to the caller *)
Definition same_owner (k k' : kio ptr) : Prop :=
  kio_magic k' = kio_magic k /\ kio_cmd k' = kio_cmd k /\ kio_flags k' = kio_flags k /\
  kio_cctx k' = kio_cctx k /\ kio_ckv k' = kio_ckv k /\ kio_caltkv k' = kio_caltkv k /\
  kio_ckb k' = kio_ckb k /\ kio_ckapp k' = kio_ckapp k.

(** The session's helpers, as [ktli_open] demands them. *)
Definition helpers_at (w : world) (s : kts_session) (h : ktli_helpers)
    (setseq : list kiovec -> Z -> Z -> list kiovec) : Prop :=
  (ks_helpers s ≫= (w_helpers w !!.)) = Some h /\ kh_setseq_fn h = Some setseq.

Definition sequenced (s : kts_session) : kts_session := set_ks_sequence (i64 (ks_sequence s + 1)) s.

(** The kio as it goes to the driver: sequence number, rewritten message,
    deadline; on the receive queue when it expects a response. *)
Definition outbound (k : kio ptr) (seq : Z) (iov : list kiovec) (now : timespec) (e : option ptr) : kio ptr :=
  set_kio_timeout (Timespec (tv_sec now + KIO_TIMEOUT_S) (tv_nsec now))
    (set_kio_qbp e (set_kio_sendmsg (set_km_msg iov (kio_sendmsg k)) (set_kio_seq seq (set_kio_qbp None k)))).

Lemma sender_dequeue_req w kts s sq rq cq ls lr lc es er ec h setseq e p c k iov :
  session_queues w kts s sq rq cq ls lr lc es er ec -> helpers_at w s h setseq -> malloc_always w ->
  contents ls = (e, p) :: c -> w_kios w !! p = Some k -> KIOF_ISSET k KIOF_REQONLY = false ->
  km_msg (kio_sendmsg k) = Some iov ->
  exists w' ls' lr', sender_dequeue kts w = Ok (p, w') /\
    session_queues w' kts (sequenced s) sq rq cq ls' lr' lc es er ec /\
    contents ls' = c /\ contents lr' = contents lr ++ [(w_next w, p)] /\
    w_kios w' = <[p := outbound k (ks_sequence s)
                    (setseq iov (km_cnt (kio_sendmsg k)) (u64 (ks_sequence s)))
                    (w_clock w (w_tick w)) (Some (w_next w))]> (w_kios w) /\
    helpers_at w' (sequenced s) h setseq /\ malloc_always w' /\ keeps w w'.
Proof.
  intros [Hs Hsq Hrq Hcq (H1 & H2 & H3) Hqs Hqr Hqc] [Hh Hset] Hm Hls Hk Hreq Hmsg.
  unfold sender_dequeue, queue_at in *.
  destruct (list_remove_front_cons ls e p c Hls) as (ls' & Hrf & Hls').
  pose proof (session_at_update w kts s (sequenced s) Hs) as Hs'.
  ksteps. kflag Hreq. ksteps.
  khang hang_on_run; [by apply malloc_always_ok|]. ksteps.
  do 3 eexists. split; [reflexivity|]. split_and!; [|done|exact Hc|done|done|done|done].
  constructor; try done; unfold queue_at; cbn; by simplify_map_eq.
Qed.

Definition transmitted (k : kio ptr) (rc er : Z) : kio ptr :=
  let k := if bool_decide (kio_st k = KIO_NEW) then set_kio_state KIO_SENT k else k in
  set_kio_sendmsg (set_km_status rc er (kio_sendmsg k)) k.

Lemma call_driver_run w f rc e x :
  f (w_env w) = (rc, e, x) ->
  exists w', call_driver f w = Ok (rc, w') /\ w' = set_errno_w (default (w_errno w) e) (set_env_w x w).
Proof.
  intros H. unfold call_driver. rewrite H. destruct e as [v|]; cbn.
  - eauto.
  - eexists. split; [done|]. by destruct w.
Qed.

(** What changed between two worlds is at most the errno and the driver's
    environment. *)
Definition same_ktli (w w' : world) : Prop :=
  w_table w' = w_table w /\ w_queues w' = w_queues w /\ w_kios w' = w_kios w /\
  w_helpers w' = w_helpers w /\ w_malloc w' = w_malloc w /\ w_mcount w' = w_mcount w /\
  w_next w' = w_next w /\ w_clock w' = w_clock w /\ w_tick w' = w_tick w /\
  w_configs w' = w_configs w /\ w_live w' = w_live w /\ w_threads w' = w_threads w /\
  w_ints w' = w_ints w.

Lemma same_ktli_session w w' kts s : same_ktli w w' -> session_at w kts s -> session_at w' kts s.
Proof. intros (H & _) [? ?]. unfold session_at. by rewrite H. Qed.

Lemma call_driver_env w f :
  exists w', call_driver f w = Ok ((f (w_env w)).1.1, w') /\ same_ktli w w' /\ w_env w' = (f (w_env w)).2.
Proof.
  destruct (f (w_env w)) as [[rc e] x] eqn:Ef.
  destruct (call_driver_run w f rc e x Ef) as (w' & H & ->). rewrite H. eexists. by split_and!.
Qed.

Lemma call_driver_same w f :
  exists w', call_driver f w = Ok ((f (w_env w)).1.1, w') /\ same_ktli w w'.
Proof. destruct (call_driver_env w f) as (w' & H & Hs & _). eauto. Qed.

Lemma sender_transmit_run w kts s p k iov :
  session_at w kts s -> ks_driver s = Some 1%positive -> w_kios w !! p = Some k ->
  km_msg (kio_sendmsg k) = Some iov ->
  let r := ktli_dfns_send socket_fns (ks_dhandle s) iov (km_cnt (kio_sendmsg k)) (w_env w) in
  let rc := r.1.1 in
  exists w0, same_ktli w w0 /\ w_env w0 = r.2 /\
    sender_transmit socket_fns kts p w = Ok (rc, upd_k p (transmitted k rc (w_errno w0)) w0).
Proof.
  intros Hs Hde Hk Hmsg r rc. unfold sender_transmit. ksteps.
  destruct (call_driver_env w
    (ktli_dfns_send socket_fns (ks_dhandle s) iov (km_cnt (kio_sendmsg k)))) as (w0 & Hrun & Hsame & Henv).
  exists w0. split; [done|]. split; [done|]. erewrite bind_Ok by exact Hrun. fold r rc.
  assert (w_kios w0 !! p = Some k) by (destruct Hsame as (_ & _ & -> & _); done).
  ksteps. done.
Qed.

Lemma sender_finish_sent w kts s sq rq cq ls lr lc es er ec p k rc :
  session_queues w kts s sq rq cq ls lr lc es er ec -> w_kios w !! p = Some k ->
  0 <= rc -> KIOF_ISSET k KIOF_REQONLY = false ->
  exists w' k', sender_finish kts p rc w = Ok (tt, w') /\
    w_queues w' = w_queues w /\ w_table w' = w_table w /\ w_helpers w' = w_helpers w /\
    w_malloc w' = w_malloc w /\
    w_kios w' = <[p := k']> (w_kios w) /\
    (k' = k \/ exists ts, k' = set_kiot_sent ts k) /\ keeps w w'.
Proof.
  intros [Hs Hsq Hrq Hcq (H1 & H2 & H3) Hqs Hqr Hqc] Hk Hrc Hreq. unfold sender_finish, queue_at in *.
  ksteps. rewrite Hreq. replace (rc <? 0) with false by lia. ksteps.
  rewrite upd_q_id by done. ksteps.
  destruct (KIOF_ISSET k KIOF_TSTAMP); ksteps.
  - eexists _, _. split; [klast; reflexivity|]. split_and!; try done. by right; eexists.
  - exists w, k. split_and!; try done; [by rewrite insert_id|by left].
Qed.

Lemma session_queues_same w w' kts s sq rq cq ls lr lc es er ec :
  w_table w' = w_table w -> w_queues w' = w_queues w ->
  session_queues w kts s sq rq cq ls lr lc es er ec ->
  session_queues w' kts s sq rq cq ls lr lc es er ec.
Proof.
  intros Ht Hq [[Hr Hs] Hsq Hrq Hcq Hd H1 H2 H3]. unfold queue_at in *.
  constructor; try done; unfold queue_at, session_at; rewrite ?Ht, ?Hq; done.
Qed.

(** A request waiting to be sent, and the same request once sent with the
    sequence number [seq]. *)
Definition unsent (k : kio ptr) : Prop :=
  KIOF_ISSET k KIOF_REQONLY = false /\ kio_st k = KIO_NEW /\ is_Some (km_msg (kio_sendmsg k)).

Definition sent_as (setseq : list kiovec -> Z -> Z -> list kiovec) (seq : Z) (k k' : kio ptr) : Prop :=
  kio_seq k' = seq /\ kio_st k' = KIO_SENT /\ kio_flags k' = kio_flags k /\
  kio_recvmsg k' = kio_recvmsg k /\
  km_msg (kio_sendmsg k') =
    (fun iov => setseq iov (km_cnt (kio_sendmsg k)) (u64 seq)) <$> km_msg (kio_sendmsg k) /\
  km_cnt (kio_sendmsg k') = km_cnt (kio_sendmsg k) /\ same_owner k k'.

Definition send_succeeds : Prop :=
  forall dh iov cnt x, 0 <= (ktli_dfns_send socket_fns dh iov cnt x).1.1.

Lemma sent_as_transmitted setseq seq k k' iov now rc er e :
  kio_st k = KIO_NEW -> km_msg (kio_sendmsg k) = Some iov ->
  let k1 := transmitted (outbound k seq (setseq iov (km_cnt (kio_sendmsg k)) (u64 seq)) now e) rc er in
  k' = k1 \/ (exists ts, k' = set_kiot_sent ts k1) -> sent_as setseq seq k k'.
Proof.
  intros Hnew Hmsg k1 Hk'. subst k1. unfold transmitted in Hk'.
  rewrite bool_decide_eq_true_2 in Hk' by done. unfold sent_as. rewrite Hmsg.
  by destruct Hk' as [->|[ts ->]].
Qed.

(** What the driver makes of the request [k] *)
Definition handed (s : kts_session) (setseq : list kiovec -> Z -> Z -> list kiovec) (k : kio ptr) (x : X) : Z * option Z * X :=
  ktli_dfns_send socket_fns (ks_dhandle s)
    (setseq (default [] (km_msg (kio_sendmsg k))) (km_cnt (kio_sendmsg k)) (u64 (ks_sequence s)))
    (km_cnt (kio_sendmsg k)) x.

(** One turn of the send loop on a request the driver accepts. *)
Lemma ktli_sender_one_sent w kts s sq rq cq ls lr lc es er ec h setseq e p c k :
  session_queues w kts s sq rq cq ls lr lc es er ec -> helpers_at w s h setseq -> malloc_always w ->
  ks_driver s = Some 1%positive ->
  contents ls = (e, p) :: c -> w_kios w !! p = Some k -> unsent k -> 0 <= (handed s setseq k (w_env w)).1.1 ->
  exists w' ls' lr' k', ktli_sender_one socket_fns kts w = Ok (tt, w') /\
    session_queues w' kts (sequenced s) sq rq cq ls' lr' lc es er ec /\
    contents ls' = c /\ (contents lr').*2 = (contents lr).*2 ++ [p] /\
    w_kios w' = <[p := k']> (w_kios w) /\ sent_as setseq (ks_sequence s) k k' /\
    helpers_at w' (sequenced s) h setseq /\ malloc_always w' /\
    w_configs w' = w_configs w /\ w_live w' = w_live w /\ w_env w' = (handed s setseq k (w_env w)).2.
Proof.
  intros Hq Hh Hm Hde Hls Hk (Hreq & Hnew & iov & Hmsg) Hsend.
  edestruct (sender_dequeue_req w kts s) as (w1 & ls1 & lr1 & Hrun1 & Hq1 & Hls1 & Hlr1 & Hk1 & Hh1 & Hm1 & (Hcf1 & Hlv1 & He1 & _));
    [done..|].
  unfold ktli_sender_one. erewrite bind_Ok by exact Hrun1. clear Hrun1.
  edestruct (sender_transmit_run w1 kts (sequenced s) p) as (w2 & Hsame & Henv2 & Hrun2);
    [by destruct Hq1|done|rewrite Hk1; by rewrite lookup_insert_eq|done|].
  erewrite bind_Ok by exact Hrun2. clear Hrun2.
  unfold handed in *. rewrite Hmsg in *. cbn [default from_option id] in *. rewrite He1 in *.
  set (rc := (ktli_dfns_send _ _ _ _ _).1.1) in *.
  destruct Hsame as (Ht2 & Hqs2 & Hkios2 & Hhelp2 & Hmal2 & _ & _ & _ & _ & Hcf2 & Hlv2 & _).
  match goal with |- context [sender_finish kts p rc ?wx] => set (w2' := wx) end.
  assert (session_queues w2' kts (sequenced s) sq rq cq ls1 lr1 lc es er ec) as Hq2
    by (eapply session_queues_same; [exact Ht2|exact Hqs2|exact Hq1]).
  edestruct (sender_finish_sent w2' kts) as (w3 & k3 & Hrun3 & Hqs3 & Ht3 & Hhelp3 & Hmal3 & Hk3 & Hkor & (Hcf3 & Hlv3 & He3 & _));
    [exact Hq2|cbn; by rewrite lookup_insert_eq|exact Hsend| |].
  { unfold transmitted. case_match; exact Hreq. }
  exists w3, ls1, lr1, k3. split; [exact Hrun3|]. split_and!.
  - eapply session_queues_same; [| |exact Hq1].
    + rewrite Ht3. cbn. by rewrite Ht2.
    + rewrite Hqs3. cbn. by rewrite Hqs2.
  - done.
  - rewrite Hlr1. by rewrite fmap_app.
  - rewrite Hk3. cbn. by rewrite Hkios2, Hk1, !insert_insert_eq.
  - by eapply sent_as_transmitted.
  - split; [|by destruct Hh]. rewrite Hhelp3. cbn. rewrite Hhelp2. by destruct Hh1.
  - unfold malloc_always. rewrite Hmal3. cbn. rewrite Hmal2. exact Hm1.
  - rewrite Hcf3. cbn. by rewrite Hcf2.
  - rewrite Hlv3. cbn. by rewrite Hlv2.
  - rewrite He3. cbn. by rewrite Henv2.
Qed.

(** Every request of [c] has been sent, the n-th with sequence [seq + n]. *)
Fixpoint all_sent (setseq : list kiovec -> Z -> Z -> list kiovec) (seq : Z) (c : list ptr)
    (before after : gmap ptr (kio ptr)) : Prop :=
  match c with
  | [] => True
  | p :: c' => (exists k k', before !! p = Some k /\ after !! p = Some k' /\ sent_as setseq seq k k') /\
               all_sent setseq (seq + 1) c' before after
  end.

Lemma all_sent_ext setseq seq c b b' a :
  (forall p, p ∈ c -> b !! p = b' !! p) -> all_sent setseq seq c b a -> all_sent setseq seq c b' a.
Proof.
  revert seq. induction c as [|p c IH]; intros seq Heq; [done|]. cbn.
  intros [(k & k' & H1 & H2 & H3) Hc]. split.
  - exists k, k'. rewrite <- Heq by apply list_elem_of_here. done.
  - apply IH; [|done]. intros p' Hin. apply Heq. by apply list_elem_of_further.
Qed.

Definition unsent_queue (w : world) (c : list element) : Prop :=
  NoDup c.*2 /\ forall e p, (e, p) ∈ c -> exists k, w_kios w !! p = Some k /\ unsent k.

Lemma sender_drain_run c : forall w kts s sq rq cq ls lr lc es er ec h setseq fuel,
  session_queues w kts s sq rq cq ls lr lc es er ec -> helpers_at w s h setseq -> malloc_always w ->
  ks_driver s = Some 1%positive -> send_succeeds ->
  contents ls = c -> unsent_queue w c ->
  0 <= ks_sequence s -> ks_sequence s + zlen c < 2 ^ 63 -> (length c < fuel)%nat ->
  exists w' s' ls' lr', ktli_sender_drain socket_fns fuel kts w = Ok (tt, w') /\
    session_queues w' kts s' sq rq cq ls' lr' lc es er ec /\
    contents ls' = [] /\ (contents lr').*2 = (contents lr).*2 ++ c.*2 /\
    ks_sequence s' = ks_sequence s + zlen c /\ ks_state s' = ks_state s /\
    all_sent setseq (ks_sequence s) c.*2 (w_kios w) (w_kios w') /\
    forall p, p ∉ c.*2 -> w_kios w' !! p = w_kios w !! p.
Proof.
  induction c as [|[e p] c IH]; intros w kts s sq rq cq ls lr lc es er ec h setseq [|fuel]
    Hq Hh Hm Hde Hsend Hls [Hnd Hun] Hs0 Hs1 Hf; try (cbn in Hf; lia); cbn [ktli_sender_drain].
  - destruct Hq as [Hs Hsq Hrq Hcq Hd Hqs Hqr Hqc]. unfold queue_at in Hqs. ksteps.
    rewrite zlen_eqb0, Hls. exists w, s, ls, lr. split; [done|]. rewrite app_nil_r, Z.add_0_r.
    split_and!; try done.
  - destruct Hq as [Hs Hsq Hrq Hcq Hd Hqs Hqr Hqc] eqn:E. clear E.
    unfold queue_at in Hqs. ksteps. rewrite zlen_eqb0, Hls.
    destruct (Hun e p) as (k & Hk & Hku); [apply list_elem_of_here|].
    destruct (ktli_sender_one_sent w kts s sq rq cq ls lr lc es er ec h setseq e p c k)
      as (w1 & ls1 & lr1 & k' & Hrun & Hq1 & Hls1 & Hlr1 & Hk1 & Hsent & Hh1 & Hm1 & _); [done..|apply Hsend|].
    erewrite bind_Ok by exact Hrun. clear Hrun.
    cbn [fmap list_fmap snd] in Hnd. apply NoDup_cons in Hnd as [Hni Hnd].
    assert (zlen ((e, p) :: c) = 1 + zlen c) as Hlen by (unfold zlen; cbn [length]; lia).
    pose proof (zlen_nonneg c).
    assert (ks_sequence (sequenced s) = ks_sequence s + 1) as Hseq by (cbn; apply i64_small; lia).
    destruct (IH w1 kts (sequenced s) sq rq cq ls1 lr1 lc es er ec h setseq fuel)
      as (w2 & s2 & ls2 & lr2 & Hrun2 & Hq2 & Hls2 & Hlr2 & Hseq2 & Hst2 & Hall & Hoth);
      [done..| |lia|lia|cbn in Hf; lia|].
    { split; [done|]. intros e' p' Hin. destruct (Hun e' p') as (k2 & Hk2 & Hu2);
        [by apply list_elem_of_further|]. exists k2. split; [|done]. rewrite Hk1.
      rewrite lookup_insert_ne; [done|]. intros ->. apply Hni, list_elem_of_fmap. by exists (e', p'). }
    rewrite Hseq in *.
    exists w2, s2, ls2, lr2. split; [done|]. split_and!; try done.
    + rewrite Hlr2, Hlr1. by rewrite <- app_assoc.
    + lia.
    + cbn. split.
      * exists k, k'. split; [done|]. split; [|done]. rewrite Hoth, Hk1 by done. by rewrite lookup_insert_eq.
      * eapply all_sent_ext; [|exact Hall]. intros p' Hin. rewrite Hk1. rewrite lookup_insert_ne; [done|].
        by intros ->.
    + intros p' Hp'. cbn [fmap list_fmap snd] in Hp'. apply not_elem_of_cons in Hp' as [Hne Hp'].
      rewrite Hoth, Hk1 by done. by rewrite lookup_insert_ne.
Qed.

(** C20: the sender empties the send queue in one pass and puts the requests on
    the receive queue in the order they were queued; with a driver that
    accepts them the n-th request of the pass carries the session's sequence
    number plus n, written into its message by the session's set-sequence
    helper, and the session's number ends just past the last one: on a
    connection sequence numbers increase by one from request to request. *)
Theorem ktli_sender_sequences w kts s sq rq cq ls lr lc es er ec h setseq :
  session_queues w kts s sq rq cq ls lr lc es er ec -> helpers_at w s h setseq -> malloc_always w ->
  ks_driver s = Some 1%positive -> send_succeeds ->
  unsent_queue w (contents ls) ->
  0 <= ks_sequence s -> ks_sequence s + zlen (contents ls) < 2 ^ 63 ->
  exists w' s' ls' lr', ktli_sender_drain socket_fns (S (length (contents ls))) kts w = Ok (tt, w') /\
    session_queues w' kts s' sq rq cq ls' lr' lc es er ec /\
    contents ls' = [] /\ (contents lr').*2 = (contents lr).*2 ++ (contents ls).*2 /\
    ks_sequence s' = ks_sequence s + zlen (contents ls) /\ ks_state s' = ks_state s /\
    all_sent setseq (ks_sequence s) (contents ls).*2 (w_kios w) (w_kios w') /\
    forall p, p ∉ (contents ls).*2 -> w_kios w' !! p = w_kios w !! p.
Proof.
  intros. eapply sender_drain_run; eauto.
Qed.

(** ** Requests the driver refuses *)

(** The list's elements are distinct blocks the allocator has handed out. *)
Definition elements_ok (w : world) (l : clist) : Prop :=
  NoDup (contents l).*1 /\ forall e, e ∈ (contents l).*1 -> (e < w_next w)%positive.

Lemma sender_finish_failed w kts s sq rq cq ls lr lc es er ec p k rc e c :
  session_queues w kts s sq rq cq ls lr lc es er ec -> w_kios w !! p = Some k -> malloc_always w ->
  rc < 0 -> KIOF_ISSET k KIOF_REQONLY = false ->
  contents lr = c ++ [(e, p)] -> NoDup (contents lr).*1 -> kio_qbp k = Some e ->
  exists w' lr' lc' k', sender_finish kts p rc w = Ok (tt, w') /\
    session_queues w' kts s sq rq cq ls lr' lc' es er ec /\
    contents lr' = c /\ contents lc' = contents lc ++ [(w_next w, p)] /\
    w_kios w' = <[p := k']> (w_kios w) /\
    kio_st k' = KIO_FAILED /\ kio_qbp k' = Some (w_next w) /\ kio_sendmsg k' = kio_sendmsg k.
Proof.
  intros [Hs Hsq Hrq Hcq (H1 & H2 & H3) Hqs Hqr Hqc] Hk Hm Hrc Hreq Hlr Hnd Hqbp.
  unfold sender_finish, queue_at in *.
  assert (contents lr !! length c = Some (e, p)) as Hi by (rewrite Hlr; by apply list_lookup_middle).
  destruct (list_setcurr_in lr e p _ Hnd Hi) as (l1 & Hset & Hc1 & Hcur1).
  destruct (list_remove_curr_cursor l1 _ e p Hcur1) as (l2 & Hrem & Hc2 & _); [by rewrite Hc1|].
  rewrite Hc1, Hlr, delete_middle, app_nil_r in Hc2.
  ksteps. rewrite Hreq. replace (rc <? 0) with true by lia. ksteps.
  rewrite Hqbp, Hset. ksteps.
  khang hang_on_run; [by apply malloc_always_ok|]. ksteps. kflag Hreq.
  match goal with |- context [if KIOF_ISSET ?k' KIOF_TSTAMP then _ else _] =>
    destruct (KIOF_ISSET k' KIOF_TSTAMP) end; ksteps.
  - eexists _, (list_mvrear l2), _, _. split; [klast; reflexivity|].
    rewrite list_mvrear_contents. split_and!; [|done|exact Hc|done..].
    constructor; try done; unfold queue_at; cbn; by simplify_map_eq.
  - eexists _, (list_mvrear l2), _, _. split; [reflexivity|].
    rewrite list_mvrear_contents. split_and!; [|done|exact Hc|done..].
    constructor; try done; unfold queue_at; cbn; by simplify_map_eq.
Qed.

(** A request the driver fails to send does not stay on the receive queue,
    where the sender had placed it beforehand: it ends at the rear of the
    completion queue, failed, with the driver's return code, and both the send
    queue's other requests and the receive queue are as they were. *)
Theorem ktli_sender_failed w kts s sq rq cq ls lr lc es er ec h setseq e p c k :
  session_queues w kts s sq rq cq ls lr lc es er ec -> helpers_at w s h setseq -> malloc_always w ->
  ks_driver s = Some 1%positive -> elements_ok w lr ->
  (forall dh iov cnt x, (ktli_dfns_send socket_fns dh iov cnt x).1.1 < 0) ->
  contents ls = (e, p) :: c -> w_kios w !! p = Some k -> unsent k ->
  exists w' ls' lr' lc' k' e', ktli_sender_one socket_fns kts w = Ok (tt, w') /\
    session_queues w' kts (sequenced s) sq rq cq ls' lr' lc' es er ec /\
    contents ls' = c /\ contents lr' = contents lr /\ contents lc' = contents lc ++ [(e', p)] /\
    w_kios w' = <[p := k']> (w_kios w) /\ kio_st k' = KIO_FAILED /\ kio_qbp k' = Some e' /\
    km_status (kio_sendmsg k') < 0.
Proof.
  intros Hq Hh Hm Hde [Hnd Hlt] Hsend Hls Hk (Hreq & Hnew & iov & Hmsg).
  edestruct (sender_dequeue_req w kts s) as (w1 & ls1 & lr1 & Hrun1 & Hq1 & Hls1 & Hlr1 & Hk1 & Hh1 & Hm1 & _);
    [done..|].
  unfold ktli_sender_one. erewrite bind_Ok by exact Hrun1. clear Hrun1.
  edestruct (sender_transmit_run w1 kts (sequenced s) p) as (w2 & Hsame & _ & Hrun2);
    [by destruct Hq1|done|rewrite Hk1; by rewrite lookup_insert_eq|done|].
  erewrite bind_Ok by exact Hrun2. clear Hrun2.
  set (rc := (ktli_dfns_send _ _ _ _ _).1.1) in *.
  destruct Hsame as (Ht2 & Hqs2 & Hkios2 & Hhelp2 & Hmal2 & _).
  match goal with |- context [sender_finish kts p rc ?wx] => set (w2' := wx) end.
  assert (session_queues w2' kts (sequenced s) sq rq cq ls1 lr1 lc es er ec) as Hq2
    by (eapply session_queues_same; [exact Ht2|exact Hqs2|exact Hq1]).
  edestruct (sender_finish_failed w2' kts) as
    (w3 & lr3 & lc3 & k3 & Hrun3 & Hq3 & Hlr3 & Hlc3 & Hk3 & Hst3 & Hqbp3 & Hmsg3);
    [exact Hq2|cbn; by rewrite lookup_insert_eq| |apply Hsend| |exact Hlr1| | |].
  { unfold malloc_always. cbn. rewrite Hmal2. exact Hm1. }
  { unfold transmitted. case_match; exact Hreq. }
  { rewrite Hlr1, fmap_app. apply NoDup_app. split; [done|]. split; [|apply NoDup_singleton].
    intros x Hx Hin. apply list_elem_of_singleton in Hin as ->. specialize (Hlt _ Hx). cbn in Hlt. lia. }
  { unfold transmitted. case_match; done. }
  exists w3, ls1, lr3, lc3, k3, (w_next w2'). split; [exact Hrun3|]. split_and!; try done.
  - rewrite Hk3. cbn. by rewrite Hkios2, Hk1, !insert_insert_eq.
  - rewrite Hmsg3. unfold transmitted. case_match; apply Hsend.
Qed.
End sender.

Section receiver.
Context {LA : ListApi} {LL : ListLaws} {X : Type} (socket_fns : ktli_driver_fns X).

Notation world := (@world _ X).
Implicit Types (w : world).

(** ** The timeout scan *)
Definition expired (now : timespec) (k : kio ptr) : bool := tv_sec now >? tv_sec (kio_timeout k).

Definition timed_out (k k' : kio ptr) : Prop :=
  kio_st k' = KIO_TIMEDOUT /\ kio_errno k' = ETIMEDOUT /\ kio_seq k' = kio_seq k /\
  kio_sendmsg k' = kio_sendmsg k /\ is_Some (kio_qbp k').

(** The kios of a queue with their verdicts, fixed before the scan starts *)
Definition verdicts (w : world) (now : timespec) (ex : ptr -> bool) (c : list element) : Prop :=
  NoDup c.*2 /\ forall e p, (e, p) ∈ c -> exists k, w_kios w !! p = Some k /\ expired now k = ex p.

Lemma verdicts_answers w now ex c : verdicts w now ex c -> answers (ktli_timechk now w) ex c.
Proof.
  intros [_ H] e p Hin. destruct (H e p Hin) as (k & Hk & <-). unfold ktli_timechk. by rewrite Hk.
Qed.

(** Where a traversal stopped: at the first expired kio at or after the
    position it started from, or nowhere. *)
Definition scan_at (ex : ptr -> bool) (l : clist) (rc : Z) : Prop :=
  (rc = LIST_OK /\ exists a e p b, contents l = a ++ (e, p) :: b /\ cursor l = Some (length a) /\
     ex p = true /\ Forall (fun x => ex x.2 = false) a) \/
  (rc <> LIST_OK /\ Forall (fun x => ex x.2 = false) (contents l)).

Lemma list_find_scan (ex : ptr -> bool) (c : list element) :
  match list_find (fun x : element => ex x.2 = true) c with
  | Some (m, (e, p)) => exists a b, c = a ++ (e, p) :: b /\ length a = m /\ ex p = true /\
      Forall (fun x => ex x.2 = false) a
  | None => Forall (fun x => ex x.2 = false) c
  end.
Proof.
  destruct (list_find _ c) as [[m [e p]]|] eqn:Ef.
  - apply list_find_Some in Ef as (Hm & Hex & Hb).
    exists (take m c), (drop (S m) c). split; [by rewrite take_drop_middle|].
    apply lookup_lt_Some in Hm as ?. rewrite length_take. split; [lia|]. split; [done|].
    apply Forall_lookup. intros i x Hi. apply lookup_take_Some in Hi as [Hi ?].
    apply not_true_is_false. by eapply Hb.
  - apply list_find_None in Ef. eapply Forall_impl; [exact Ef|].
    intros x Hx. by apply not_true_is_false.
Qed.

(** A traversal from the front, or from a position before which nothing is
    expired, establishes [scan_at]. *)
Lemma traverse_scan w now ex l from j :
  answers (ktli_timechk now w) ex (contents l) ->
  (contents l <> [] -> j = match from with LIST_FRNT => Some 0%nat | LIST_CURR => cursor l end) ->
  (contents l <> [] -> exists n, j = Some n /\ (n <= length (contents l))%nat /\
      Forall (fun x => ex x.2 = false) (take n (contents l))) ->
  exists rc l', list_traverse from l (ktli_timechk now w) = Ok (rc, l') /\
    contents l' = contents l /\ scan_at ex l' rc.
Proof.
  intros Ha Hj Hn. destruct (decide (contents l = [])) as [Hnil|Hne].
  { destruct (list_traverse_empty from l (ktli_timechk now w) Hnil) as (l' & Ht & Hc).
    exists LIST_EMPTY, l'. split; [done|]. split; [by rewrite Hnil|]. right.
    destruct list_codes_distinct as (_ & ? & _). split; [done|]. by rewrite Hc. }
  specialize (Hj Hne). destruct (Hn Hne) as (n & -> & Hle & Hpre).
  assert (answers (ktli_timechk now w) ex (drop n (contents l))) as Ha'.
  { intros e p Hin. eapply Ha. by eapply (subseteq_drop n). }
  pose proof (search_from_spec _ _ _ n Ha') as Hs.
  pose proof (list_find_scan ex (drop n (contents l))) as Hf.
  destruct (list_find _ (drop n (contents l))) as [[m [e p]]|].
  - destruct Hf as (a & b & Hd & Hm & Hex & Hall).
    destruct (list_traverse_found from l (ktli_timechk now w) (Some n) (n + m)) as (l' & Ht & Hc & Hcur);
      [done|done|cbn [mbind option_bind]; by rewrite Hs|].
    exists LIST_OK, l'. split; [done|]. split; [done|]. left. split; [done|].
    exists (take n (contents l) ++ a), e, p, b. rewrite Hc. split_and!; [|rewrite Hcur| |].
    + rewrite <- app_assoc, <- Hd. by rewrite take_drop.
    + rewrite length_app, length_take. do 2 f_equal; lia.
    + done.
    + by apply Forall_app.
  - destruct (list_traverse_extent from l (ktli_timechk now w) (Some n)) as (l' & Ht & Hc);
      [done|done|cbn [mbind option_bind]; by rewrite Hs|].
    exists LIST_EXTENT, l'. split; [done|]. split; [done|]. right.
    destruct list_codes_distinct as (? & _ & _). split; [done|]. rewrite Hc.
    rewrite <- (take_drop n (contents l)). by apply Forall_app.
Qed.

Lemma timeout_one_run w rq cq l l2 lc er ec p k :
  rq <> cq -> w_queues w !! rq = Some (KtliQueue (Some l) true er) -> queue_at w cq lc ec ->
  malloc_always w -> list_remove_curr l = Some (p, l2) -> w_kios w !! p = Some k ->
  exists w' lc' k', timeout_one (Some rq) (Some cq) w = Ok (tt, w') /\
    w_queues w' = <[cq := KtliQueue (Some lc') false ec]>
                    (<[rq := KtliQueue (Some l2) true er]> (w_queues w)) /\
    contents lc' = contents lc ++ [(w_next w, p)] /\
    w_kios w' = <[p := k']> (w_kios w) /\ timed_out k k' /\ malloc_always w' /\ w_table w' = w_table w.
Proof.
  unfold queue_at. intros Hne Hrq Hcq Hm Hr Hk. unfold timeout_one. ksteps.
  khang (@hang_on_run _ _ X); [by apply malloc_always_ok|]. ksteps.
  eexists _, lq, _. split; [klast; reflexivity|]. split_and!; done.
Qed.

Definition live (ex : ptr -> bool) (c : list element) : list element := filter (fun x => ex x.2 = false) c.
Definition dead (ex : ptr -> bool) (c : list element) : list element := filter (fun x => ex x.2 = true) c.

Lemma live_all ex c : Forall (fun x => ex x.2 = false) c -> live ex c = c.
Proof. intros H. unfold live. induction H; [done|]. rewrite filter_cons_True by done. by f_equal. Qed.
Lemma dead_none ex c : Forall (fun x => ex x.2 = false) c -> dead ex c = [].
Proof. intros H. unfold dead. induction H; [done|]. by rewrite filter_cons_False by congruence. Qed.

Lemma scan_split ex a e p b : ex p = true -> Forall (fun x => ex x.2 = false) a ->
  live ex (a ++ (e, p) :: b) = live ex (a ++ b) /\
  dead ex (a ++ (e, p) :: b) = (e, p) :: dead ex (a ++ b).
Proof.
  intros Hp Ha. unfold live, dead. rewrite !filter_app.
  rewrite filter_cons_False by (cbn; congruence). rewrite filter_cons_True by done.
  split; [done|]. fold (dead ex a). by rewrite (dead_none ex a Ha).
Qed.

Definition scan_result (w w' : world) (ex : ptr -> bool) (c : list element) : Prop :=
  (forall p k, p ∈ (dead ex c).*2 -> w_kios w !! p = Some k ->
     exists k', w_kios w' !! p = Some k' /\ timed_out k k') /\
  (forall p, p ∉ (dead ex c).*2 -> w_kios w' !! p = w_kios w !! p).

Lemma verdicts_remove w w1 now ex a e p b k1 :
  verdicts w now ex (a ++ (e, p) :: b)%list -> w_kios w1 = <[p := k1]> (w_kios w) ->
  (p ∉ (a ++ b).*2) /\ verdicts w1 now ex (a ++ b).
Proof.
  intros [Hnd Hv] Hk1. rewrite fmap_app in Hnd. cbn in Hnd.
  apply NoDup_app in Hnd as (Ha & Hd & [Hnb Hb]%NoDup_cons).
  assert (p ∉ (a ++ b).*2) as Hnp.
  { rewrite fmap_app. intros [Hin|Hin]%elem_of_app; [|done]. apply (Hd p Hin). apply list_elem_of_here. }
  split; [done|]. split.
  - rewrite fmap_app. apply NoDup_app. split_and!; [done| |done].
    intros x Hx Hx'. apply (Hd x Hx). by apply list_elem_of_further.
  - intros e' p' Hin. rewrite Hk1. destruct (decide (p = p')) as [->|].
    + destruct Hnp. apply list_elem_of_fmap. by exists (e', p').
    + rewrite lookup_insert_ne by done. apply (Hv e').
      apply elem_of_app in Hin as [?|?]; apply elem_of_app; [by left|right; by apply list_elem_of_further].
Qed.

Lemma scan_result_cons w w1 w2 ex a e p b k k1 :
  ex p = true -> Forall (fun x => ex x.2 = false) a -> p ∉ (a ++ b).*2 ->
  w_kios w !! p = Some k -> w_kios w1 = <[p := k1]> (w_kios w) -> timed_out k k1 ->
  scan_result w1 w2 ex (a ++ b) -> scan_result w w2 ex (a ++ (e, p) :: b).
Proof.
  intros Hex Ha Hnp Hk Hk1 Ht [H1 H2]. destruct (scan_split ex a e p b Hex Ha) as [_ Hd].
  assert (p ∉ (dead ex (a ++ b)).*2) as Hpd.
  { intros Hin. apply Hnp. apply list_elem_of_fmap in Hin as (x & -> & Hx).
    apply list_elem_of_fmap. exists x. split; [done|]. unfold dead in Hx.
    by apply list_elem_of_filter in Hx as [_ ?]. }
  split; rewrite Hd; cbn [fmap list_fmap snd].
  - intros p' k' [->|Hin]%elem_of_cons Hk'.
    + assert (k' = k) as -> by congruence. exists k1. split; [|done].
      rewrite H2 by done. rewrite Hk1. by rewrite lookup_insert_eq.
    + apply H1; [done|]. rewrite Hk1, lookup_insert_ne; [done|]. by intros ->.
  - intros p' [Hne Hni]%not_elem_of_cons. rewrite H2, Hk1 by done. by rewrite lookup_insert_ne.
Qed.

Lemma timeout_scan_run now ex fuel : forall w rq cq l lc er ec rc,
  rq <> cq -> w_queues w !! rq = Some (KtliQueue (Some l) true er) -> queue_at w cq lc ec ->
  malloc_always w -> verdicts w now ex (contents l) -> scan_at ex l rc ->
  (length (contents l) < fuel)%nat ->
  exists w' l' lc', timeout_scan fuel (Some rq) (Some cq) now rc w = Ok (tt, w') /\
    w_queues w' = <[cq := KtliQueue (Some lc') false ec]>
                    (<[rq := KtliQueue (Some l') true er]> (w_queues w)) /\
    contents l' = live ex (contents l) /\
    (contents lc').*2 = (contents lc).*2 ++ (dead ex (contents l)).*2 /\
    w_table w' = w_table w /\ scan_result w w' ex (contents l).
Proof.
  induction fuel as [|fuel IH]; intros w rq cq l lc er ec rc Hne Hrq Hcq Hm Hv Hscan Hf; [lia|].
  cbn [timeout_scan].
  destruct Hscan as [(-> & a & e & p & b & Hl & Hcur & Hex & Ha)|[Hrc Hnone]].
  2:{ replace (rc =? LIST_OK) with false by lia. exists w, l, lc. split; [done|].
      rewrite live_all, dead_none by done. rewrite app_nil_r. split_and!; try done.
      - rewrite !insert_id; done || by rewrite insert_id.
      - split; [|done]. unfold scan_result. rewrite dead_none by done. set_solver. }
  assert (contents l !! length a = Some (e, p)) as Hi by (rewrite Hl; by apply list_lookup_middle).
  destruct (list_remove_curr_cursor l _ e p Hcur Hi) as (l2 & Hr & Hc2 & Hcur2).
  rewrite Hl, delete_middle in Hc2.
  destruct (proj2 Hv e p) as (k & Hk & Hkex); [by eapply list_elem_of_lookup_2|].
  destruct (timeout_one_run w rq cq l l2 lc er ec p k) as (w1 & lc1 & k1 & Hrun1 & Hq1 & Hlc1 & Hk1 & Ht1 & Hm1 & Htb1);
    [done..|].
  rewrite Z.eqb_refl.
  erewrite bind_Ok by exact Hrun1. clear Hrun1.
  destruct (verdicts_remove w w1 now ex a e p b k1) as [Hnp Hv2]; [by rewrite <- Hl|done|].
  rewrite <- Hc2 in Hnp, Hv2.
  destruct (traverse_scan w1 now ex l2 LIST_CURR (cursor l2)) as (rc2 & l3 & Htr & Hc3 & Hscan3);
    [by apply verdicts_answers|done| |].
  { intros Hne2. destruct (Hcur2 Hne2) as (j & Hj & Hle & Hlt). exists j. split; [done|]. split; [lia|].
    rewrite Hc2, take_app_le by lia. by apply Forall_take. }
  assert (w_queues w1 !! rq = Some (KtliQueue (Some l2) true er)) as Hrq1
    by (rewrite Hq1; by simplify_map_eq).
  erewrite bind_Ok by (eapply q_traverse_run; [exact Hrq1|exact Htr]).
  edestruct (IH (upd_q rq (KtliQueue (Some l3) true er) w1) rq cq l3 lc1 er ec rc2)
    as (w2 & l4 & lc2 & Hrun2 & Hq2 & Hl4 & Hlc2 & Htb2 & Hres);
    [done|by cbn; simplify_map_eq|unfold queue_at; cbn; rewrite Hq1; by simplify_map_eq|done
    |by rewrite Hc3|done|rewrite Hc3, Hc2, Hl in *; rewrite !length_app in *; cbn in Hf; lia|].
  destruct (scan_split ex a e p b Hex Ha) as [Hlive Hdead].
  rewrite Hc3, Hc2 in *. exists w2, l4, lc2. split; [done|]. rewrite Hl. split_and!.
  - rewrite Hq2. cbn. rewrite Hq1. apply map_eq. intros i.
    destruct (decide (i = cq)) as [->|]; [by simplify_map_eq|].
    destruct (decide (i = rq)) as [->|]; by simplify_map_eq.
  - by rewrite Hlive.
  - rewrite Hlc2, Hlc1, Hdead, fmap_app. cbn. by rewrite <- app_assoc.
  - by rewrite Htb2.
  - by eapply scan_result_cons.
Qed.

(** C21: the receiver's timeout check is complete, keeps order and ends: when a
    second has passed since the last check, every kio on the receive queue
    whose deadline (in seconds) is past moves to the completion queue, behind
    what is there, in its order, with state TIMEDOUT and errno ETIMEDOUT; the
    others stay, in order and untouched.  One unit of fuel per queued kio is
    enough. *)
Theorem timeout_check_spec w rq cq lr lc er ec lastcheck now ex :
  rq <> cq -> queue_at w rq lr er -> queue_at w cq lc ec -> malloc_always w ->
  now = w_clock w (w_tick w) -> tv_sec lastcheck <> tv_sec now -> verdicts w now ex (contents lr) ->
  exists w' lr' lc', timeout_check (S (length (contents lr))) (Some rq) (Some cq) lastcheck w = Ok (now, w') /\
    queue_at w' rq lr' er /\ queue_at w' cq lc' ec /\
    contents lr' = live ex (contents lr) /\
    (contents lc').*2 = (contents lc).*2 ++ (dead ex (contents lr)).*2 /\
    (forall q, q <> rq -> q <> cq -> w_queues w' !! q = w_queues w !! q) /\
    w_table w' = w_table w /\ scan_result w w' ex (contents lr).
Proof.
  unfold queue_at. intros Hne Hrq Hcq Hm -> Hsec Hv. unfold timeout_check. ksteps.
  replace (tv_sec lastcheck =? tv_sec (w_clock w (w_tick w))) with false by lia.
  match goal with |- context [(_ ≫= _) ?wx] => set (w1 := wx) end.
  destruct (traverse_scan w1 (w_clock w (w_tick w)) ex lr LIST_FRNT (Some 0%nat))
    as (rc & l1 & Htr & Hc1 & Hscan); [by apply verdicts_answers|done| |].
  { intros _. exists 0%nat. split; [done|]. split; [lia|]. rewrite take_0. constructor. }
  rewrite bind_assoc. unfold w1.
  erewrite bind_Ok by (eapply q_traverse_run; [cbn; by rewrite lookup_insert_eq|exact Htr]).
  rewrite upd_q_q, bind_assoc.
  edestruct (timeout_scan_run (w_clock w (w_tick w)) ex (S (length (contents lr)))
      (upd_q rq (KtliQueue (Some l1) true er) (bump_tick_w w)) rq cq l1 lc er ec rc)
    as (w2 & l4 & lc2 & Hrun2 & Hq2 & Hl4 & Hlc2 & Htb2 & Hres);
    [done|cbn; by rewrite lookup_insert_eq|unfold queue_at; cbn; by simplify_map_eq|done
    |by rewrite Hc1|done|rewrite Hc1; lia|].
  erewrite bind_Ok by exact Hrun2. rewrite Hc1 in *.
  assert (w_queues w2 !! rq = Some (KtliQueue (Some l4) true er)) as Hr2
    by (rewrite Hq2; by simplify_map_eq).
  ksteps. eexists _, (list_mvrear l4), lc2. split; [reflexivity|].
  rewrite list_mvrear_contents. cbn. split_and!; try done.
  - by rewrite lookup_insert_eq.
  - rewrite Hq2. by simplify_map_eq.
  - intros q H1 H2. rewrite lookup_insert_ne, Hq2 by done. cbn. by simplify_map_eq.
Qed.

(** ** Receiving a message *)

(** Reading a message off the connection touches the driver's environment,
    errno and the allocator, and nothing KTLI shares. *)
Definition same_shared (w w' : world) : Prop :=
  w_table w' = w_table w /\ w_queues w' = w_queues w /\ w_kios w' = w_kios w /\
  w_helpers w' = w_helpers w /\ w_malloc w' = w_malloc w /\ w_next w' = w_next w.

Definition framed {A} (m : ST world A) : Prop :=
  forall w a w', m w = Ok (a, w') -> same_shared w w'.

Lemma framed_bind {A B} (m : ST world A) (f : A -> ST world B) :
  framed m -> (forall a, framed (f a)) -> framed (m ≫= f).
Proof.
  intros Hm Hf w b w2 H. apply bind_inv in H as (a & w1 & H1 & H2).
  apply Hm in H1 as (? & ? & ? & ? & ? & ?). apply Hf in H2 as (? & ? & ? & ? & ? & ?).
  unfold same_shared. split_and!; congruence.
Qed.
Lemma framed_ret {A} (a : A) : framed (mret a).
Proof. intros w b w' [= <- <-]. done. Qed.
Lemma framed_get : framed get_st.
Proof. intros w b w' [= <- <-]. done. Qed.
Lemma framed_deref {A} (o : option A) : framed (deref_st o).
Proof. intros w b w' H. unfold deref_st in H. destruct o; simplify_eq. done. Qed.
Lemma framed_kts_rd {A} (f : kts_table_t -> outcome A) : framed (kts_rd f).
Proof. intros w b w' H. unfold kts_rd in H. destruct (f (w_table w)); simplify_eq. done. Qed.
Lemma framed_malloc_buf size : framed (malloc_buf size).
Proof.
  intros w b w' H. unfold malloc_buf, malloc in H. apply bind_inv in H as (m & w1 & [= <- <-] & H).
  destruct (w_malloc w (w_mcount w) size).
  - apply bind_inv in H as (? & ? & [= <- <-] & [= <- <-]). done.
  - injection H as <- <-. done.
Qed.
Lemma framed_call_receive f : framed (call_receive f).
Proof.
  intros w b w' H. unfold call_receive in H. destruct (f (w_env w)) as [[[rc e] iov] x].
  destruct e; cbn in H; injection H as <- <-; done.
Qed.

Lemma recvmsg_read_framed kts : framed (recvmsg_read socket_fns kts).
Proof.
  unfold recvmsg_read, ktlid_fns, kts_dhandle, kts_driver, kts_helpers.
  repeat first [ apply framed_ret | apply framed_get | apply framed_deref | apply framed_kts_rd
    | apply framed_malloc_buf | apply framed_call_receive | apply framed_bind
    | match goal with
      | |- forall _, framed _ => intros ?
      | |- framed (match ?x with _ => _ end) => destruct x
      end ].
Qed.

(** The answered request: the first on the receive queue with the message's
    acknowledged sequence number. *)
Definition awaits (w : world) (aseq : Z) (p : ptr) : bool :=
  match w_kios w !! p with Some k => aseq =? kio_seq k | None => false end.

Definition answered (w : world) (aseq : Z) (c : list element) : option (nat * element) :=
  list_find (fun x => awaits w aseq x.2 = true) c.

Definition responded (k k' : kio ptr) (iov : list kiovec) : Prop :=
  kio_st k' = KIO_RECEIVED /\ is_Some (kio_qbp k') /\ kio_seq k' = kio_seq k /\
  kio_sendmsg k' = kio_sendmsg k /\ kio_recvmsg k' = KioMsg (Some iov) KM_CNT_WITHVAL 0 0 /\
  same_owner k k'.

Lemma recvmsg_complete_run w cq lc ec p k iov recvs :
  queue_at w cq lc ec -> w_kios w !! p = Some k -> malloc_always w ->
  exists w' lc' k', recvmsg_complete p iov recvs (Some cq) w = Ok (0, w') /\
    contents lc' = contents lc ++ [(w_next w, p)] /\
    w_queues w' = <[cq := KtliQueue (Some lc') false ec]> (w_queues w) /\
    w_kios w' = <[p := k']> (w_kios w) /\ w_table w' = w_table w /\ responded k k' iov /\
    kio_qbp k' = Some (w_next w) /\ keeps w w'.
Proof.
  unfold queue_at. intros Hcq Hk Hm. unfold recvmsg_complete. ksteps.
  destruct (KIOF_ISSET k KIOF_TSTAMP); ksteps.
  - khang (@hang_on_run _ _ X); [by apply malloc_always_ok|]. ksteps.
    eexists _, lq, _. split; [reflexivity|]. split_and!; done.
  - khang (@hang_on_run _ _ X); [by apply malloc_always_ok|]. ksteps.
    eexists _, lq, _. split; [reflexivity|]. split_and!; done.
Qed.

Definition getaseq_at (w : world) (s : kts_session) (g : list kiovec -> Z -> Z) : Prop :=
  exists h, (ks_helpers s ≫= (w_helpers w !!.)) = Some h /\ kh_getaseq_fn h = Some g.

Lemma answered_answers w aseq c : kios_alive w c -> answers (ktli_seqmatch aseq w) (awaits w aseq) c.
Proof.
  intros H e p Hin. destruct (H e p Hin) as [k Hk]. unfold ktli_seqmatch, awaits. by rewrite Hk.
Qed.

(** The traversal of the receive queue for a sequence number *)
Lemma seq_traverse w aseq l :
  kios_alive w (contents l) ->
  exists l1, contents l1 = contents l /\
  match answered w aseq (contents l) with
  | Some (i, (e, p)) => list_traverse LIST_FRNT l (ktli_seqmatch aseq w) = Ok (LIST_OK, l1) /\
      contents l !! i = Some (e, p) /\ cursor l1 = Some i
  | None => exists rc, list_traverse LIST_FRNT l (ktli_seqmatch aseq w) = Ok (rc, l1) /\
      (rc = LIST_EXTENT \/ rc = LIST_EMPTY)
  end.
Proof.
  intros Ha. pose proof (search_from_spec _ _ _ 0 (answered_answers w aseq _ Ha)) as Hs.
  cbn [Nat.add] in Hs. unfold answered.
  destruct (decide (contents l = [])) as [Hnil|Hne].
  { destruct (list_traverse_empty LIST_FRNT l (ktli_seqmatch aseq w) Hnil) as (l1 & Ht & Hc).
    exists l1. rewrite Hnil. split; [done|]. exists LIST_EMPTY. eauto. }
  destruct (list_find _ (contents l)) as [[i [e p]]|] eqn:Ef.
  - destruct (list_traverse_found LIST_FRNT l (ktli_seqmatch aseq w) (Some 0%nat) i) as (l1 & Ht & Hc & Hcur);
      [done|done|cbn [mbind option_bind]; by rewrite drop_0, Hs|].
    apply list_find_Some in Ef as (Hi & _ & _). exists l1. done.
  - destruct (list_traverse_extent LIST_FRNT l (ktli_seqmatch aseq w) (Some 0%nat)) as (l1 & Ht & Hc);
      [done|done|cbn [mbind option_bind]; by rewrite drop_0, Hs|].
    exists l1. split; [done|]. exists LIST_EXTENT. eauto.
Qed.

Lemma recvmsg_match_found w kts s rq lr er g iov rc0 i e p k :
  session_at w kts s -> getaseq_at w s g -> queue_at w rq lr er -> kios_alive w (contents lr) ->
  0 < i64 (g iov KM_CNT_WITHVAL) ->
  answered w (i64 (g iov KM_CNT_WITHVAL)) (contents lr) = Some (i, (e, p)) -> w_kios w !! p = Some k ->
  exists lr', contents lr' = delete i (contents lr) /\
    recvmsg_match kts iov rc0 (Some rq) w =
      Ok (inl (Some p), upd_q rq (KtliQueue (Some lr') false er) (upd_k p (set_kio_qbp None k) w)).
Proof.
  intros Hs (h & Hh & Hg) Hrq Ha Hpos Hans Hk. unfold recvmsg_match, queue_at in *. ksteps.
  set (aseq := i64 (g iov KM_CNT_WITHVAL)) in *.
  set (w1 := upd_q rq (KtliQueue (Some lr) true er) w).
  destruct (seq_traverse w1 aseq lr Ha) as (l1 & Hc1 & Hm).
  change (answered w1 aseq (contents lr)) with (answered w aseq (contents lr)) in Hm.
  rewrite Hans in Hm. destruct Hm as (Htr & Hi & Hcur).
  destruct (list_remove_curr_cursor l1 i e p Hcur) as (l2 & Hr & Hc2 & _); [by rewrite Hc1|].
  rewrite Hc1 in Hc2. exists (list_mvrear l2). rewrite list_mvrear_contents. split; [done|].
  replace (aseq >? 0) with true by lia. unfold w1 in *. ksteps.
  destruct list_codes_distinct as (H1 & H2 & _).
  replace (aseq =? -1) with false by lia. rewrite !(proj2 (Z.eqb_neq _ _)) by done. ksteps. done.
Qed.

Lemma free_bufs_run (iov : list kiovec) w :
  (forM_st iov (fun _ => free_buf) : ST world unit) w = Ok (tt, set_live_w (w_live w - zlen iov) w).
Proof.
  revert w. induction iov as [|v iov IH]; intros w; cbn.
  - unfold mret, ST_ret. do 2 f_equal. unfold zlen. cbn. rewrite Z.sub_0_r. by destruct w.
  - erewrite bind_Ok by done. rewrite IH. cbn. do 2 f_equal. unfold set_live_w. cbn.
    f_equal. unfold zlen. cbn [length]. lia.
Qed.

Lemma recvmsg_match_tossed w kts s rq lr er g iov rc0 :
  session_at w kts s -> getaseq_at w s g -> queue_at w rq lr er -> kios_alive w (contents lr) ->
  0 < i64 (g iov KM_CNT_WITHVAL) ->
  answered w (i64 (g iov KM_CNT_WITHVAL)) (contents lr) = None ->
  exists lr', contents lr' = contents lr /\
    recvmsg_match kts iov rc0 (Some rq) w =
      Ok (inl None, upd_q rq (KtliQueue (Some lr') false er) (set_live_w (w_live w - (zlen iov + 1)) w)).
Proof.
  intros Hs (h & Hh & Hg) Hrq Ha Hpos Hans. unfold recvmsg_match, queue_at in *. ksteps.
  set (aseq := i64 (g iov KM_CNT_WITHVAL)) in *.
  set (w1 := upd_q rq (KtliQueue (Some lr) true er) w).
  destruct (seq_traverse w1 aseq lr Ha) as (l1 & Hc1 & Hm).
  change (answered w1 aseq (contents lr)) with (answered w aseq (contents lr)) in Hm.
  rewrite Hans in Hm. destruct Hm as (rc & Htr & Hrc). exists l1. split; [done|].
  replace (aseq >? 0) with true by lia. unfold w1 in *. ksteps.
  replace (aseq =? -1) with false by lia.
  replace (false || (rc =? LIST_EXTENT) || (rc =? LIST_EMPTY)) with true
    by (destruct Hrc as [->| ->]; rewrite Z.eqb_refl; by rewrite ?orb_true_r).
  ksteps. erewrite bind_Ok by apply free_bufs_run. knorm.
  erewrite bind_Ok by done. knorm. ksteps.
  assert (forall a b, a = b -> set_live_w a w = set_live_w b w) as Hl by (by intros ? ? ->).
  cbn. unfold mret, ST_ret. do 3 f_equal. apply Hl. lia.
Qed.

Lemma insert_kio_run p k w :
  modify_st (fun w => set_kios_w (<[p := k]> (w_kios w)) w) w = Ok (tt, upd_k p k w).
Proof. done. Qed.

Lemma recvmsg_match_unsolicited w kts s rq lr er g iov rc0 :
  session_at w kts s -> getaseq_at w s g -> queue_at w rq lr er -> malloc_always w ->
  i64 (g iov KM_CNT_WITHVAL) = -1 ->
  exists lr' w' k, contents lr' = contents lr /\
    recvmsg_match kts iov rc0 (Some rq) w = Ok (inl (Some (w_next w)), w') /\
    w_queues w' = <[rq := KtliQueue (Some lr') false er]> (w_queues w) /\
    w_kios w' = <[w_next w := k]> (w_kios w) /\ w_table w' = w_table w /\ malloc_always w' /\
    km_cnt (kio_sendmsg k) = 0 /\ KIOF_ISSET k KIOF_RESPONLY = true /\ kio_magic k = KIO_MAGIC.
Proof.
  intros Hs (h & Hh & Hg) Hrq Hm Ha. unfold recvmsg_match, queue_at in *. ksteps.
  rewrite Ha. change (-1 >? 0) with false. change (-1 =? -1) with true. ksteps.
  erewrite bind_Ok by (apply malloc_ptr_some, malloc_always_ok; exact Hm).
  knorm. cbn beta iota. erewrite bind_Ok by apply insert_kio_run. knorm. ksteps.
  eexists (list_mvrear lr), _, _. rewrite list_mvrear_contents. split; [done|].
  split; [reflexivity|]. split_and!; done.
Qed.

Lemma recvmsg_matched_run fuel w w1 kts s sq rq cq ls lr lc es er ec g rc iov i e p k :
  session_queues w kts s sq rq cq ls lr lc es er ec -> getaseq_at w s g -> malloc_always w ->
  kios_alive w (contents lr) ->
  recvmsg_read socket_fns kts (bump_tick_w w) = Ok (inl (rc, iov), w1) ->
  0 < i64 (g iov KM_CNT_WITHVAL) ->
  answered w (i64 (g iov KM_CNT_WITHVAL)) (contents lr) = Some (i, (e, p)) -> w_kios w !! p = Some k ->
  exists w' lr' lc' k' e', ktli_recvmsg socket_fns fuel kts w = Ok (0, w') /\
    session_queues w' kts s sq rq cq ls lr' lc' es er ec /\
    contents lr' = delete i (contents lr) /\ contents lc' = contents lc ++ [(e', p)] /\
    w_kios w' = <[p := k']> (w_kios w) /\ responded k k' iov /\ kio_qbp k' = Some e' /\ keeps w1 w'.
Proof.
  intros [Hs Hsq Hrq Hcq (H1 & H2 & H3) Hqs Hqr Hqc] Hg Hm Ha Hread Hpos Hans Hk.
  unfold ktli_recvmsg. ksteps.
  destruct (recvmsg_read_framed kts _ _ _ Hread) as (Ht & Hq & Hkios & Hh & Hmal & _).
  cbn in Ht, Hq, Hkios, Hh, Hmal.
  erewrite bind_Ok by exact Hread. cbn beta iota.
  edestruct (recvmsg_match_found w1 kts s rq lr er g iov rc i e p k) as (lr' & Hlr' & Hrun).
  { unfold session_at. by rewrite Ht. }
  { unfold getaseq_at. by rewrite Hh. }
  { unfold queue_at. by rewrite Hq. }
  { unfold kios_alive. by rewrite Hkios. }
  { done. }
  { unfold answered, awaits in *. by rewrite Hkios. }
  { by rewrite Hkios. }
  erewrite bind_Ok by exact Hrun. clear Hrun. cbn beta iota.
  match goal with |- context [recvmsg_complete _ _ _ _ ?wx] => set (w2 := wx) end.
  edestruct (recvmsg_complete_run w2 cq lc ec p) as (w3 & lc' & k' & Hrun & Hlc' & Hq3 & Hk3 & Ht3 & Hresp & Hqbp & Hkeep).
  { unfold queue_at. cbn. rewrite lookup_insert_ne, Hq by done. done. }
  { cbn. by rewrite lookup_insert_eq. }
  { unfold malloc_always. cbn. by rewrite Hmal. }
  exists w3, lr', lc', k', (w_next w2). split; [exact Hrun|]. split_and!; [|done|exact Hlc'| |done|exact Hqbp|exact Hkeep].
  - constructor; try done; unfold queue_at, session_at in *; rewrite ?Ht3, ?Hq3; cbn; rewrite ?Ht, ?Hq;
      by simplify_map_eq.
  - rewrite Hk3. cbn. by rewrite Hkios, insert_insert_eq.
Qed.

(** C19: a response whose acknowledged sequence number is that of a request
    waiting on the receive queue completes that request and no other: the
    first such request leaves the receive queue, the others keep their order,
    and it goes to the rear of the completion queue, received, with the
    message's three buffers as its response. *)
Theorem ktli_recvmsg_matched fuel w w1 kts s sq rq cq ls lr lc es er ec g rc iov i e p k :
  session_queues w kts s sq rq cq ls lr lc es er ec -> getaseq_at w s g -> malloc_always w ->
  kios_alive w (contents lr) ->
  recvmsg_read socket_fns kts (bump_tick_w w) = Ok (inl (rc, iov), w1) ->
  0 < i64 (g iov KM_CNT_WITHVAL) ->
  answered w (i64 (g iov KM_CNT_WITHVAL)) (contents lr) = Some (i, (e, p)) -> w_kios w !! p = Some k ->
  exists w' lr' lc' k', ktli_recvmsg socket_fns fuel kts w = Ok (0, w') /\
    session_queues w' kts s sq rq cq ls lr' lc' es er ec /\
    contents lr' = delete i (contents lr) /\ (contents lc').*2 = (contents lc).*2 ++ [p] /\
    w_kios w' = <[p := k']> (w_kios w) /\ responded k k' iov.
Proof.
  intros Hq Hg Hm Ha Hread Hpos Hans Hk.
  destruct (recvmsg_matched_run fuel w w1 kts s sq rq cq ls lr lc es er ec g rc iov i e p k)
    as (w' & lr' & lc' & k' & e' & E & Hq' & Hl & Hc & Hks & Hresp & _); [done..|].
  exists w', lr', lc', k'. split_and!; try done. by rewrite Hc, fmap_app.
Qed.

(** A response to a request that is no longer waiting (it timed out) is
    tossed: [ktli_recvmsg] answers 0, no queue's contents and no kio changes,
    and all the buffers of the message are freed. *)
Theorem ktli_recvmsg_tossed fuel w w1 kts s sq rq cq ls lr lc es er ec g rc iov :
  session_queues w kts s sq rq cq ls lr lc es er ec -> getaseq_at w s g ->
  kios_alive w (contents lr) ->
  recvmsg_read socket_fns kts (bump_tick_w w) = Ok (inl (rc, iov), w1) ->
  0 < i64 (g iov KM_CNT_WITHVAL) ->
  answered w (i64 (g iov KM_CNT_WITHVAL)) (contents lr) = None ->
  exists w' lr', ktli_recvmsg socket_fns fuel kts w = Ok (0, w') /\
    session_queues w' kts s sq rq cq ls lr' lc es er ec /\ contents lr' = contents lr /\
    w_kios w' = w_kios w /\ w_live w' = w_live w1 - (zlen iov + 1).
Proof.
  intros [Hs Hsq Hrq Hcq (H1 & H2 & H3) Hqs Hqr Hqc] Hg Ha Hread Hpos Hans.
  unfold ktli_recvmsg. ksteps.
  destruct (recvmsg_read_framed kts _ _ _ Hread) as (Ht & Hq & Hkios & Hh & Hmal & _).
  cbn in Ht, Hq, Hkios, Hh, Hmal.
  erewrite bind_Ok by exact Hread. cbn beta iota.
  edestruct (recvmsg_match_tossed w1 kts s rq lr er g iov rc) as (lr' & Hlr' & Hrun).
  { unfold session_at. by rewrite Ht. }
  { unfold getaseq_at. by rewrite Hh. }
  { unfold queue_at. by rewrite Hq. }
  { unfold kios_alive. by rewrite Hkios. }
  { done. }
  { unfold answered, awaits in *. by rewrite Hkios. }
  erewrite bind_Ok by exact Hrun. cbn beta iota.
  eexists _, lr'. split; [reflexivity|]. split_and!; try done.
  constructor; try done; unfold queue_at, session_at in *; cbn; rewrite ?Ht, ?Hq;
    by simplify_map_eq.
Qed.

(** Disconnecting a connected or aborted session: the driver decides; the
    queues do not change. *)
Lemma ktli_disconnect_run w kts s cq lc ec :
  session_at w kts s -> ks_state s = KTLI_SSTATE_CONNECTED \/ ks_state s = KTLI_SSTATE_ABORTED ->
  ks_compq s = Some cq -> queue_at w cq lc ec -> ks_driver s = Some 1%positive ->
  exists rc w', ktli_disconnect socket_fns kts w = Ok (rc, w') /\ w_queues w' = w_queues w /\
    (rc = -1 /\ session_at w' kts s \/ rc = 0 /\ session_at w' kts (set_ks_state KTLI_SSTATE_DRAINING s)).
Proof.
  intros Hs Hst Hcq Hq Hde. unfold ktli_disconnect, queue_at in *. ksteps.
  replace (bool_decide (ks_state s <> KTLI_SSTATE_CONNECTED) &&
           bool_decide (ks_state s <> KTLI_SSTATE_ABORTED)) with false by by destruct Hst as [->| ->].
  ksteps. destruct (ks_dhandle s) as [dh|].
  2:{ ksteps. eexists _, _. split; [reflexivity|]. split; [done|]. by left. }
  rewrite bool_decide_eq_false_2 by (intros [?|?]; congruence). ksteps.
  destruct (call_driver_same w (ktli_dfns_disconnect socket_fns (Some dh))) as (w1 & Hrun & Hsame).
  erewrite bind_Ok by exact Hrun. clear Hrun. destruct Hsame as (Ht & Hqs & _).
  assert (session_at w1 kts s) as Hs1 by (unfold session_at; by rewrite Ht).
  pose proof (session_at_update w1 kts s (set_ks_state KTLI_SSTATE_DRAINING s) Hs1) as Hs2.
  assert (w_queues w1 !! cq = Some (KtliQueue (Some lc) false ec)) as Hq1 by by rewrite Hqs.
  case_if.
  - eexists _, _. split; [reflexivity|]. split; [done|]. by left.
  - ksteps. eexists _, _. split; [reflexivity|]. split.
    + cbn. by rewrite insert_id, Hqs.
    + by right.
Qed.

(** When the connection fails while a message is read (or memory runs
    out), [ktli_recvmsg] never returns: its local [sq] is the receive queue,
    not the send queue, so its error exit locks the receive queue's mutex
    twice. *)
Theorem ktli_recvmsg_error_hangs fuel w w1 kts s sq rq cq ls lr lc es er ec bases :
  session_queues w kts s sq rq cq ls lr lc es er ec -> ks_driver s = Some 1%positive ->
  recvmsg_read socket_fns kts (bump_tick_w w) = Ok (inr bases, w1) ->
  ktli_recvmsg socket_fns fuel kts w = Hang.
Proof.
  intros [Hs Hsq Hrq Hcq (H1 & H2 & H3) Hqs Hqr Hqc] Hde Hread.
  unfold ktli_recvmsg. ksteps.
  destruct (recvmsg_read_framed kts _ _ _ Hread) as (Ht & Hq & Hkios & Hh & Hmal & _).
  cbn in Ht, Hq, Hkios, Hh, Hmal.
  erewrite bind_Ok by exact Hread. cbn beta iota. unfold recvmsgerr.
  assert (session_at w1 kts s) as Hs1 by (unfold session_at; by rewrite Ht).
  pose proof (session_at_update w1 kts s (set_ks_state KTLI_SSTATE_ABORTED s) Hs1) as Hs2.
  ksteps.
  edestruct (ktli_disconnect_run _ kts _ cq lc ec Hs2) as (rd & w2 & Hrun & Hq2 & _);
    [by right|done|unfold queue_at; cbn; by rewrite Hq|done|].
  erewrite bind_Ok by exact Hrun. cbn beta iota.
  assert (w_queues w2 !! rq = Some (KtliQueue (Some lr) false er)) as Hr2
    by (rewrite Hq2; cbn; by rewrite Hq).
  ksteps. apply bind_Hang. unfold pthread_mutex_lock. cbn. by rewrite lookup_insert_eq.
Qed.

(** A message that acknowledges no request (sequence -1) is not lost: a
    fresh kio that carries it, with no request and flagged as a response only,
    goes to the rear of the completion queue, where
    [ktli_receive_unsolicited] finds it; no waiting request is touched. *)
Theorem ktli_recvmsg_unsolicited fuel w w1 kts s sq rq cq ls lr lc es er ec g rc iov :
  session_queues w kts s sq rq cq ls lr lc es er ec -> getaseq_at w s g -> malloc_always w ->
  recvmsg_read socket_fns kts (bump_tick_w w) = Ok (inl (rc, iov), w1) ->
  i64 (g iov KM_CNT_WITHVAL) = -1 ->
  exists w' lr' lc' k', ktli_recvmsg socket_fns fuel kts w = Ok (0, w') /\
    session_queues w' kts s sq rq cq ls lr' lc' es er ec /\
    contents lr' = contents lr /\ (contents lc').*2 = (contents lc).*2 ++ [w_next w] /\
    w_kios w' = <[w_next w := k']> (w_kios w) /\
    km_cnt (kio_sendmsg k') = 0 /\ kio_st k' = KIO_RECEIVED /\
    kio_recvmsg k' = KioMsg (Some iov) KM_CNT_WITHVAL 0 0.
Proof.
  intros [Hs Hsq Hrq Hcq (H1 & H2 & H3) Hqs Hqr Hqc] Hg Hm Hread Ha.
  unfold ktli_recvmsg. ksteps.
  destruct (recvmsg_read_framed kts _ _ _ Hread) as (Ht & Hq & Hkios & Hh & Hmal & Hnext).
  cbn in Ht, Hq, Hkios, Hh, Hmal, Hnext.
  erewrite bind_Ok by exact Hread. cbn beta iota.
  edestruct (recvmsg_match_unsolicited w1 kts s rq lr er g iov rc) as
    (lr' & w2 & k & Hlr' & Hrun & Hq2 & Hk2 & Ht2 & Hm2 & Hcnt & Hresponly & Hmagic).
  { unfold session_at. by rewrite Ht. }
  { unfold getaseq_at. by rewrite Hh. }
  { unfold queue_at. by rewrite Hq. }
  { unfold malloc_always. by rewrite Hmal. }
  { done. }
  erewrite bind_Ok by exact Hrun. clear Hrun. cbn beta iota. rewrite Hnext in *.
  edestruct (recvmsg_complete_run w2 cq lc ec (w_next w))
    as (w3 & lc' & k' & Hrun & Hlc' & Hq3 & Hk3 & Ht3 & (Hst & _ & _ & Hsm & Hrm & _) & _).
  { unfold queue_at. rewrite Hq2, lookup_insert_ne, Hq by done. done. }
  { rewrite Hk2. by rewrite lookup_insert_eq. }
  { done. }
  exists w3, lr', lc', k'. split; [exact Hrun|]. split_and!; [|done| | |by rewrite Hsm|done..].
  - constructor; try done; unfold queue_at, session_at in *; rewrite ?Ht3, ?Hq3, ?Ht2, ?Hq2, ?Ht, ?Hq;
      by simplify_map_eq.
  - by rewrite Hlc', fmap_app.
  - rewrite Hk3, Hk2. by rewrite Hkios, insert_insert_eq.
Qed.

(** A message whose acknowledged sequence number is 0 (what the
    helper answers when it cannot unpack the message) is handed to a request
    that has nothing to do with it: the receive queue is not searched, and the
    request at its current position, its rear, is completed with it. *)
Theorem ktli_recvmsg_zero_sequence fuel w w1 kts s sq rq cq ls lr lc es er ec g rc iov c e p k :
  session_queues w kts s sq rq cq ls lr lc es er ec -> getaseq_at w s g -> malloc_always w ->
  recvmsg_read socket_fns kts (bump_tick_w w) = Ok (inl (rc, iov), w1) ->
  i64 (g iov KM_CNT_WITHVAL) = 0 -> rc <> LIST_EXTENT -> rc <> LIST_EMPTY ->
  contents lr = c ++ [(e, p)] -> cursor lr = Some (length c) -> w_kios w !! p = Some k ->
  exists w' lr' lc' k', ktli_recvmsg socket_fns fuel kts w = Ok (0, w') /\
    session_queues w' kts s sq rq cq ls lr' lc' es er ec /\
    contents lr' = c /\ (contents lc').*2 = (contents lc).*2 ++ [p] /\
    w_kios w' = <[p := k']> (w_kios w) /\ responded k k' iov.
Proof.
  intros [Hs Hsq Hrq Hcq (H1 & H2 & H3) Hqs Hqr Hqc] (h & Hh & Hg) Hm Hread Ha Hr1 Hr2 Hlr Hcur Hk.
  unfold ktli_recvmsg. ksteps.
  destruct (recvmsg_read_framed kts _ _ _ Hread) as (Ht & Hq & Hkios & Hhe & Hmal & _).
  cbn in Ht, Hq, Hkios, Hhe, Hmal.
  erewrite bind_Ok by exact Hread. cbn beta iota.
  assert (session_at w1 kts s) as Hs1 by (unfold session_at; by rewrite Ht).
  assert (ks_helpers s ≫= (w_helpers w1 !!.) = Some h) as Hh1 by by rewrite Hhe.
  assert (w_queues w1 !! rq = Some (KtliQueue (Some lr) false er)) as Hqr1 by by rewrite Hq.
  assert (w_kios w1 !! p = Some k) as Hk1 by by rewrite Hkios.
  assert (contents lr !! length c = Some (e, p)) as Hi by (rewrite Hlr; by apply list_lookup_middle).
  destruct (list_remove_curr_cursor lr _ e p Hcur Hi) as (l2 & Hr & Hc2 & _).
  rewrite Hlr, delete_middle, app_nil_r in Hc2.
  unfold recvmsg_match. ksteps. rewrite Ha. change (0 >? 0) with false. change (0 =? -1) with false.
  ksteps. rewrite !(proj2 (Z.eqb_neq _ _)) by done. ksteps.
  match goal with |- context [recvmsg_complete _ _ _ _ ?wx] => set (w2 := wx) end.
  edestruct (recvmsg_complete_run w2 cq lc ec p) as (w3 & lc' & k' & Hrun & Hlc' & Hq3 & Hk3 & Ht3 & Hresp & _).
  { unfold queue_at. cbn. rewrite lookup_insert_ne, Hq by done. done. }
  { cbn. by rewrite lookup_insert_eq. }
  { unfold malloc_always. cbn. by rewrite Hmal. }
  exists w3, (list_mvrear l2), lc', k'. split; [exact Hrun|].
  rewrite list_mvrear_contents. split_and!; [|done| | |done].
  - constructor; try done; unfold queue_at, session_at in *; rewrite ?Ht3, ?Hq3; cbn; rewrite ?Ht, ?Hq;
      by simplify_map_eq.
  - by rewrite Hlc', fmap_app.
  - rewrite Hk3. cbn. by rewrite Hkios, insert_insert_eq.
Qed.
End receiver.
