(* ===== verification/KtliLife.v ===== *)
(** The life of a KTLI session: what [ktli_open] builds, what [ktli_connect]
    and [ktli_disconnect] do to it, when [ktli_close] succeeds, and the state
    machine of [src/ktli.h] that all calls respect. *)

From stdpp Require Import gmap.
From S2P Require Import Prelude Types ListApi Session KtliState Ktli KtliSpec KtliThreads KtliThreadSpec.

Section life.
Context {LA : ListApi} {LL : ListLaws} {X : Type} (socket_fns : ktli_driver_fns X).

Notation world := (@world _ X).
Implicit Types (w : world).

(** ** Opening *)

(** Helpers [ktli_open] accepts *)
Definition helpers_valid (h : ktli_helpers) : Prop :=
  is_Some (kh_getaseq_fn h) /\ is_Some (kh_setseq_fn h) /\ is_Some (kh_msglen_fn h) /\
  0 < kh_recvhdr_len h <= 1024.

Lemma open_args_ok_valid w de kh h :
  de <> None -> (kh ≫= (w_helpers w !!.)) = Some h -> helpers_valid h ->
  open_args_ok de kh w = Ok (true, w).
Proof.
  intros Hde Hh ((? & H1) & (? & H2) & (? & H3) & H4). unfold open_args_ok.
  rewrite bool_decide_eq_false_2 by (intros [?| ->]; [done|done]).
  erewrite bind_Ok by done. erewrite bind_Ok by by apply deref_run.
  rewrite H1, H2, H3. cbn. unfold mret, ST_ret. do 2 f_equal.
  replace (kh_recvhdr_len h <=? 0) with false by lia.
  by replace (kh_recvhdr_len h >? 1024) with false by lia.
Qed.

(** Two worlds that differ in the allocator's counters, errno and the like;
    new blocks are above [w_next]. *)
Definition new_queue (w : world) (q : ptr) : Prop := queue_at w q list_create 0.

(** The allocations of [ktli_open]: four blocks, three initialised queues. *)
Lemma open_alloc_run w :
  malloc_always w ->
  exists w' p sq rq cq,
    open_alloc w = Ok ((Some p, Some sq, Some rq, Some cq), w') /\
    sq <> rq /\ sq <> cq /\ rq <> cq /\ malloc_always w' /\
    w_queues w' = <[cq := KtliQueue (Some list_create) false 0]>
      (<[rq := KtliQueue (Some list_create) false 0]>
        (<[sq := KtliQueue (Some list_create) false 0]> (w_queues w))) /\
    (w_next w <= sq)%positive /\ (w_next w <= rq)%positive /\ (w_next w <= cq)%positive /\
    w_table w' = w_table w /\ w_ints w' = w_ints w /\ w_threads w' = w_threads w /\
    w_pthread w' = w_pthread w /\ w_helpers w' = w_helpers w /\ w_env w' = w_env w /\
    w_tcount w' = w_tcount w /\ w_kios w' = w_kios w /\ w_configs w' = w_configs w.
Proof.
  intros Hm. unfold open_alloc.
  assert (forall size (w1 : world), malloc_always w1 -> malloc_ptr size w1 =
    Ok (Some (w_next w1), set_next_w (Pos.succ (w_next w1)) (bump_mcount_w w1))) as Hmal
    by (intros; apply malloc_ptr_some; by apply malloc_always_ok).
  repeat (erewrite bind_Ok by (apply Hmal; exact Hm); cbn beta iota).
  unfold queue_init.
  repeat (rewrite bind_assoc; erewrite bind_Ok by (apply Hmal; exact Hm); cbn beta iota;
    erewrite bind_Ok by done; cbn beta iota).
  do 5 eexists. split; [reflexivity|]. cbn. split_and!; try done; lia.
Qed.

(** The driver's open and the session it is stored in *)
Definition session_of (de dh kh sq rq cq cf : option ptr) (stid rtid : Z) : kts_session :=
  KtsSession de dh kh sq rq cq stid rtid KTLI_SSTATE_OPENED 100 cf.

Lemma kts_wr_update w kts s f :
  session_at w kts s ->
  exists t, kts_wr (kts_update f kts) w = Ok (tt, set_table_w t w) /\
    session_at (set_table_w t w) kts (f s).
Proof.
  intros Hs. eexists. split; [by apply (kts_update_run f w kts s)|]. by apply (session_at_update w kts s).
Qed.

Ltac setter := match goal with
  | Hs : session_at ?w ?kts _ |- context [(kts_wr (kts_update ?f ?kts) ≫= _) ?w] =>
    let t := fresh "t" in let H := fresh in let Hs' := fresh "Hs" in
    destruct (kts_wr_update w kts _ f Hs) as (t & H & Hs');
    erewrite bind_Ok by exact H; clear H; cbn beta iota
  end.

Lemma pthread_create_run (t : thread) (w : world) tid :
  w_pthread w (w_tcount w) = Some tid ->
  pthread_create t w = Ok (Some tid, set_threads_w (<[tid := t]> (w_threads w)) (bump_tcount_w w)).
Proof. intros H. unfold pthread_create. by rewrite H. Qed.

Ltac spawn := match goal with
  | Hs : session_at ?w ?kts ?s |- context [(pthread_create ?t ≫= _) ?w] =>
    let Hs' := fresh "Hs" in
    erewrite (bind_Ok (pthread_create t) _ w) by (apply pthread_create_run; eassumption); cbn beta iota;
    match goal with |- context [set_threads_w ?m ?w1] =>
      pose proof (Hs : session_at (set_threads_w m w1) kts s) as Hs' end
  end.

Lemma open_session_run fuel w kts s de cf kh p sq rq cq dh stid rtid :
  session_at w kts s -> w_ints w !! p = Some kts -> de = Some 1%positive ->
  (ktli_dfns_open socket_fns (w_env w)).1 = Some dh ->
  w_pthread w (w_tcount w) = Some stid -> w_pthread w (S (w_tcount w)) = Some rtid ->
  exists w', open_session socket_fns fuel de cf kh (Some p) sq rq cq w = Ok (kts, w') /\
    session_at w' kts (session_of de (Some dh) kh sq rq cq cf stid rtid) /\
    w_queues w' = w_queues w /\ w_kios w' = w_kios w /\ w_ints w' = w_ints w /\
    w_threads w' = <[rtid := Receiver_waiting p]> (<[stid := Sender p]> (w_threads w)) /\
    w_helpers w' = w_helpers w /\ w_malloc w' = w_malloc w /\
    w_env w' = (ktli_dfns_open socket_fns (w_env w)).2 /\ w_configs w' = w_configs w.
Proof.
  intros Hs Hp -> Hdh Hst Hrt. unfold open_session.
  erewrite bind_Ok by (unfold int_rd; cbn; rewrite Hp; done).
  erewrite bind_Ok by done. cbn beta iota.
  destruct (ktli_dfns_open socket_fns (w_env w)) as [o x] eqn:Eo. cbn in Hdh. subst o.
  erewrite bind_Ok by (unfold call_open; rewrite Eo; done). cbn beta iota.
  rewrite bool_decide_eq_false_2 by done.
  assert (session_at (set_env_w x w) kts s) as Hs0 by done.
  unfold kts_set_driver, kts_set_dhandle, kts_set_config, kts_set_helpers, kts_set_sendq, kts_set_recvq,
    kts_set_compq, kts_set_sender, kts_set_receiver, kts_set_sequence, kts_set_state.
  do 7 setter.
  assert (forall t t' (w1 : world), set_table_w t (set_table_w t' w1) = set_table_w t w1) as Htt by done.
  rewrite !Htt in *.
  erewrite bind_Ok by done. cbn beta iota.
  do 2 (spawn; setter; rewrite ?Htt in *).
  setter. setter. rewrite !Htt in *.
  eexists. split; [reflexivity|]. split; [eassumption|]. done.
Qed.

Lemma queue_has_list_run w q l m ex :
  w_queues w !! q = Some (KtliQueue l m ex) ->
  queue_has_list (Some q) w = Ok (bool_decide (is_Some l), w).
Proof. intros H. unfold queue_has_list. cbn. by rewrite H. Qed.

Lemma q_set_exit_run w q (l : option clist) m ex v :
  w_queues w !! q = Some (KtliQueue l m ex) ->
  q_set_exit (Some q) v w = Ok (tt, upd_q q (KtliQueue l m v) w).
Proof. intros H. unfold q_set_exit. cbn. by rewrite H. Qed.

Lemma open_alloc_slot_run w p n :
  malloc_always w -> table_ok (w_table w) -> first_free (w_table w) 0 = Some n ->
  exists w' blank, open_alloc_slot (Some p) w = Ok (n, w') /\ session_at w' n blank /\
    w_ints w' !! p = Some n /\ w_queues w' = w_queues w /\ w_kios w' = w_kios w /\
    w_threads w' = w_threads w /\ w_pthread w' = w_pthread w /\ w_tcount w' = w_tcount w /\
    w_env w' = w_env w /\ w_configs w' = w_configs w.
Proof.
  intros Hm Ht Hf. unfold open_alloc_slot. erewrite bind_Ok by done.
  destruct (Hm (w_mcount w) sizeof_kts_session) as [f Hf']. rewrite Hf'. erewrite bind_Ok by done. cbn.
  unfold alloc_slot, kts_alloc_slot. cbn.
  erewrite bind_Ok by (unfold alloc_slot, kts_alloc_slot; cbn; rewrite Hf; reflexivity).
  erewrite bind_Ok by done. erewrite bind_Ok by done.
  pose proof (first_free_Some _ _ _ Hf) as (Hn & _ & _). unfold table_ok in Ht.
  eexists _, (w_blank w). split; [reflexivity|]. split; [split|].
  - lia.
  - cbn. apply list_lookup_insert_eq. unfold zlen in *. lia.
  - cbn. rewrite lookup_insert_eq. done.
Qed.

Lemma ktli_open_run fuel w cf kh h dh stid rtid n :
  malloc_always w -> ktli_up w <> 0 -> table_ok (w_table w) ->
  first_free (w_table w) 0 = Some n ->
  (kh ≫= (w_helpers w !!.)) = Some h -> helpers_valid h ->
  (ktli_dfns_open socket_fns (w_env w)).1 = Some dh ->
  w_pthread w (w_tcount w) = Some stid -> w_pthread w (S (w_tcount w)) = Some rtid ->
  exists w' sq rq cq, ktli_open socket_fns fuel KTLI_DRIVER_SOCKET cf kh w = Ok (n, w') /\
    session_queues w' n (session_of (Some 1%positive) (Some dh) kh (Some sq) (Some rq) (Some cq) cf stid rtid)
      sq rq cq list_create list_create list_create 0 0 0 /\
    w_kios w' = w_kios w /\
    (forall q, (q < w_next w)%positive -> w_queues w' !! q = w_queues w !! q) /\
    (exists p, w_threads w' = <[rtid := Receiver_waiting p]> (<[stid := Sender p]> (w_threads w)) /\
       w_ints w' !! p = Some n) /\
    w_env w' = (ktli_dfns_open socket_fns (w_env w)).2 /\ w_configs w' = w_configs w.
Proof.
  intros Hm Hup Htab Hfree Hh Hv Hdh Hst Hrt. unfold ktli_open.
  erewrite bind_Ok by done. replace (ktli_up w =? 0) with false by lia. cbn beta iota zeta.
  erewrite bind_Ok by (apply (open_args_ok_valid _ _ _ h); [done|exact Hh|exact Hv]).
  destruct (open_alloc_run w Hm) as (w1 & p & sq & rq & cq & Hrun & H1 & H2 & H3 & Hm1 & Hq1 & Hn1 & Hn2 & Hn3
    & Ht1 & Hi1 & Hth1 & Hpt1 & Hhe1 & Henv1 & Htc1 & Hk1 & Hcf1).
  cbn [negb]. erewrite bind_Ok by exact Hrun. clear Hrun. cbn beta iota.
  rewrite bool_decide_eq_false_2 by (intros [?|[?|[?|?]]]; congruence).
  assert (w_queues w1 !! sq = Some (KtliQueue (Some list_create) false 0)) by (rewrite Hq1; by simplify_map_eq).
  assert (w_queues w1 !! rq = Some (KtliQueue (Some list_create) false 0)) by (rewrite Hq1; by simplify_map_eq).
  assert (w_queues w1 !! cq = Some (KtliQueue (Some list_create) false 0)) by (rewrite Hq1; by simplify_map_eq).
  rewrite bind_assoc. erewrite bind_Ok by by eapply queue_has_list_run.
  rewrite bind_assoc. erewrite bind_Ok by by eapply queue_has_list_run.
  rewrite bind_assoc. erewrite bind_Ok by by eapply queue_has_list_run.
  rewrite !bool_decide_eq_true_2 by eauto. cbn [andb]. rewrite bind_ret. cbn [negb].
  do 3 (erewrite bind_Ok by (by eapply q_set_exit_run); rewrite upd_q_id by done).
  edestruct (open_alloc_slot_run w1 p n) as (w2 & blank & Hrun & Hs2 & Hi2 & Hq2 & Hk2 & Hth2 & Hpt2 & Htc2 & Henv2 & Hcf2);
    [done|unfold table_ok; by rewrite Ht1|by rewrite Ht1|].
  erewrite bind_Ok by exact Hrun. clear Hrun.
  pose proof (first_free_Some _ _ _ Hfree) as (Hn & _ & _).
  replace (n <? 0) with false by lia.
  edestruct (open_session_run fuel w2 n blank (Some 1%positive) cf kh p (Some sq) (Some rq) (Some cq) dh stid rtid)
    as (w3 & Hrun & Hs3 & Hq3 & Hk3 & Hi3 & Hth3 & _ & _ & Henv3 & Hcf3); [done|done|done| | | |].
  { by rewrite Henv2, Henv1. }
  { by rewrite Hpt2, Htc2, Hpt1, Htc1. }
  { by rewrite Hpt2, Htc2, Hpt1, Htc1. }
  exists w3, sq, rq, cq. split; [exact Hrun|]. split_and!.
  - constructor; try done; unfold queue_at; by rewrite Hq3, Hq2.
  - congruence.
  - intros q Hlt. rewrite Hq3, Hq2, Hq1, !lookup_insert_ne by lia. done.
  - exists p. split; [by rewrite Hth3, Hth2, Hth1|by rewrite Hi3].
  - by rewrite Henv3, Henv2, Henv1.
  - by rewrite Hcf3, Hcf2, Hcf1.
Qed.


(** ** Closing *)

Lemma sender_exits fuel w kts s sq l es :
  session_at w kts s -> ks_sendq s = Some sq -> queue_at w sq l es -> es <> 0 ->
  ktli_sender socket_fns (S fuel) kts w = Ok (tt, w).
Proof.
  unfold queue_at. intros Hs Hsq Hq Hes. cbn [ktli_sender]. ksteps.
  rewrite upd_q_id by done. by replace (es =? 0) with false by lia.
Qed.

(** A receiver that has not seen its session connected never ends. *)
Lemma receiver_waits fuel w kts s :
  session_at w kts s -> ks_state s <> KTLI_SSTATE_CONNECTED ->
  ktli_receiver socket_fns fuel kts w = NoFuel.
Proof.
  intros Hs Hst. induction fuel as [|fuel IH]; [done|]. cbn [ktli_receiver]. ksteps. done.
Qed.

(** Nor does one whose driver's poll keeps failing. *)
Lemma receiver_poll_error fuel : forall w kts s last,
  session_at w kts s -> ks_driver s = Some 1%positive ->
  (forall dh t x, (ktli_dfns_poll socket_fns dh t x).1.1 < 0) ->
  receiver_loop socket_fns fuel kts last w = NoFuel.
Proof.
  induction fuel as [|fuel IH]; intros w kts s last Hs Hde Hp; [done|]. cbn [receiver_loop].
  unfold receiver_pass. ksteps.
  destruct (call_driver_same w (ktli_dfns_poll socket_fns (ks_dhandle s) 10)) as (w1 & Hrun & Hsame).
  erewrite bind_Ok by exact Hrun. clear Hrun.
  specialize (Hp (ks_dhandle s) 10 (w_env w)) as Hpw.
  replace (_ <? 0) with true by lia. ksteps.
  eapply IH; [by eapply same_ktli_session|done|done].
Qed.

Lemma free_rear_nil fuel w q l m ex :
  w_queues w !! q = Some (KtliQueue (Some l) m ex) -> contents l = [] ->
  free_rear (S fuel) (Some q) w = Ok (tt, w).
Proof. intros Hq Hl. cbn [free_rear]. ksteps. by rewrite zlen_eqb0, Hl. Qed.

Lemma int_rd_run w p v : w_ints w !! p = Some v -> int_rd (Some p) w = Ok (v, w).
Proof. intros H. unfold int_rd. cbn. by rewrite H. Qed.

Lemma join_nofuel fuel w tid t p kts :
  w_threads w !! tid = Some t ->
  (match t with Sender p | Receiver_waiting p | Receiver_running p _ => p end) = p ->
  w_ints w !! p = Some kts ->
  (match t with
   | Sender _ => ktli_sender socket_fns fuel kts
   | Receiver_waiting _ => ktli_receiver socket_fns fuel kts
   | Receiver_running _ last => receiver_loop socket_fns fuel kts last
   end) w = NoFuel ->
  pthread_join socket_fns fuel tid w = NoFuel.
Proof.
  intros Ht Hp Hi Hb. unfold pthread_join. erewrite bind_Ok by done.
  erewrite bind_Ok by (apply deref_run; exact Ht). cbn beta iota zeta. rewrite Hp.
  erewrite bind_Ok by (apply int_rd_run; exact Hi). by apply bind_NoFuel.
Qed.

Lemma close_sender fuel w kts s sq l es stid p :
  session_at w kts s -> ks_sendq s = Some sq -> queue_at w sq l es -> contents l = [] ->
  w_threads w !! stid = Some (Sender p) -> w_ints w !! p = Some kts ->
  exists w', close_thread socket_fns (S fuel) (Some sq) stid w = Ok (p, w') /\
    w_table w' = w_table w /\ w_queues w' = delete sq (w_queues w) /\
    w_threads w' = delete stid (w_threads w) /\ w_ints w' = w_ints w.
Proof.
  unfold queue_at. intros Hs Hsq Hq Hl Ht Hp. unfold close_thread. ksteps.
  erewrite bind_Ok by (eapply q_set_exit_run; kside). knorm. ksteps.
  unfold pthread_join. rewrite ?bind_assoc. erewrite bind_Ok by done. cbn beta.
  rewrite ?bind_assoc. erewrite bind_Ok by (apply deref_run; exact Ht). cbn beta iota zeta.
  rewrite ?bind_assoc. erewrite bind_Ok by (apply int_rd_run; exact Hp).
  rewrite ?bind_assoc. erewrite bind_Ok.
  2:{ eapply (sender_exits fuel _ kts s sq l 1); [exact Hs|done| |done].
      unfold queue_at. cbn. by rewrite lookup_insert_eq. }
  rewrite ?bind_assoc. erewrite bind_Ok by done. rewrite bind_ret.
  erewrite bind_Ok by (eapply free_rear_nil; [cbn; by rewrite lookup_insert_eq|done]).
  erewrite bind_Ok by done. eexists. split; [reflexivity|]. cbn. split_and!; try done.
  by rewrite delete_insert_eq.
Qed.

Lemma ktli_close_joins fuel w kts s sq rq cq ls lr lc es er ec dh sp rp rcv :
  session_queues w kts s sq rq cq ls lr lc es er ec -> pending ls lr lc = [] ->
  ks_state s = KTLI_SSTATE_OPENED -> ks_driver s = Some 1%positive -> ks_dhandle s = Some dh ->
  (forall o x, (ktli_dfns_close socket_fns o x).1.1 = 0) ->
  ks_sender s <> ks_receiver s ->
  w_threads w !! ks_sender s = Some (Sender sp) -> w_threads w !! ks_receiver s = Some rcv ->
  w_ints w !! sp = Some kts -> w_ints w !! rp = Some kts ->
  (rcv = Receiver_waiting rp \/
   (exists last, rcv = Receiver_running rp last) /\
     forall o t x, (ktli_dfns_poll socket_fns o t x).1.1 < 0) ->
  ktli_close socket_fns fuel kts w = NoFuel.
Proof.
  intros [Hs Hsq Hrq Hcq (H1 & H2 & H3) Hqs Hqr Hqc] Hpend Hst Hde Hdh Hcl Hne Hts Htr Hsp Hrp Hrcv.
  unfold pending in Hpend. apply app_eq_nil in Hpend as (Hlc & [Hlr Hls]%app_eq_nil).
  unfold ktli_close, queue_at in *. ksteps. rewrite Hst. ksteps.
  rewrite !zlen_eqb0, Hlc, Hlr, Hls. ksteps.
  destruct (call_driver_same w (ktli_dfns_close socket_fns (Some dh))) as (w1 & Hrun & Hsame).
  erewrite bind_Ok by exact Hrun. clear Hrun. rewrite Hcl. change (0 =? -1) with false. cbn iota.
  pose proof (same_ktli_session _ _ _ _ Hsame Hs) as Hs1.
  destruct Hsame as (_ & Hq1 & _ & _ & _ & _ & _ & _ & _ & _ & _ & Hth1 & Hi1). ksteps.
  destruct fuel as [|fuel].
  { apply bind_NoFuel. unfold close_thread. ksteps.
    assert (w_queues w1 !! sq = Some (KtliQueue (Some ls) false es)) by by rewrite Hq1. ksteps.
    erewrite bind_Ok by (eapply q_set_exit_run; kside). knorm. ksteps.
    apply bind_NoFuel. eapply join_nofuel; [cbn; by rewrite Hth1|done|cbn; by rewrite Hi1|done]. }
  edestruct (close_sender fuel w1 kts s sq ls es) as (w2 & Hrun & Ht2 & Hq2 & Hth2 & Hi2);
    [done|done|unfold queue_at; by rewrite Hq1|done|by rewrite Hth1|by rewrite Hi1|].
  erewrite bind_Ok by exact Hrun. clear Hrun.
  assert (session_at w2 kts s) as Hs2 by (unfold session_at; by rewrite Ht2).
  assert (w_queues w2 !! rq = Some (KtliQueue (Some lr) false er)) as Hqr2
    by (rewrite Hq2, Hq1, lookup_delete_ne by done; done).
  ksteps. unfold close_thread. ksteps.
  erewrite bind_Ok by (eapply q_set_exit_run; kside). knorm. ksteps.
  apply bind_NoFuel. eapply join_nofuel;
    [cbn; by rewrite Hth2, Hth1, lookup_delete_ne| |cbn; by rewrite Hi2, Hi1|].
  - destruct Hrcv as [->|[[last ->] _]]; reflexivity.
  - destruct Hrcv as [->|[[last ->] Hpoll]].
    + eapply receiver_waits; [exact Hs2|by rewrite Hst].
    + eapply receiver_poll_error; [exact Hs2|done|done].
Qed.

(** [ktli_close] never returns when the receiver thread cannot leave its
    loops: on a session that was opened but never seen connected (its receiver
    waits for the connected state and does not look at the exit flag), and on
    one whose driver's poll reports errors (the main loop's [continue] skips
    the exit test).  Every fuel runs out in the join of the receiver. *)
Theorem ktli_close_hangs fuel w kts s sq rq cq ls lr lc es er ec dh sp rp rcv :
  session_queues w kts s sq rq cq ls lr lc es er ec -> pending ls lr lc = [] ->
  ks_state s = KTLI_SSTATE_OPENED -> ks_driver s = Some 1%positive -> ks_dhandle s = Some dh ->
  (forall o x, (ktli_dfns_close socket_fns o x).1.1 = 0) ->
  ks_sender s <> ks_receiver s ->
  w_threads w !! ks_sender s = Some (Sender sp) -> w_threads w !! ks_receiver s = Some rcv ->
  w_ints w !! sp = Some kts -> w_ints w !! rp = Some kts ->
  (rcv = Receiver_waiting rp \/
   (exists last, rcv = Receiver_running rp last) /\
     forall o t x, (ktli_dfns_poll socket_fns o t x).1.1 < 0) ->
  ktli_close socket_fns fuel kts w = NoFuel.
Proof. apply ktli_close_joins. Qed.

(** *** Closing a session whose receiver can leave *)

Lemma timeout_check_idle fuel w rq cq lr er last :
  queue_at w rq lr er -> contents lr = [] ->
  exists w' lr' last', timeout_check (S fuel) (Some rq) cq last w = Ok (last', w') /\
    contents lr' = [] /\ w_queues w' = <[rq := KtliQueue (Some lr') false er]> (w_queues w) /\
    w_table w' = w_table w /\ w_threads w' = w_threads w /\ w_ints w' = w_ints w.
Proof.
  unfold queue_at. intros Hq Hl. unfold timeout_check. ksteps.
  match goal with |- context [if ?b then _ else _] => destruct b end.
  - ksteps. eexists _, (list_mvrear lr), _. split; [reflexivity|]. by rewrite list_mvrear_contents.
  - match goal with |- context [q_traverse _ _ ?f] => match goal with |- context [(_ ≫= _) ?w1] =>
      destruct (list_traverse_empty LIST_FRNT lr (f w1) Hl) as (l1 & Ht & Hc) end end.
    ksteps. cbn [timeout_scan]. destruct list_codes_distinct as (_ & Hne & _).
    rewrite (proj2 (Z.eqb_neq LIST_EMPTY LIST_OK)) by congruence. ksteps.
    eexists _, (list_mvrear l1), _. split; [reflexivity|]. by rewrite list_mvrear_contents.
Qed.

(** One idle pass ends the receiver when its exit flag is up. *)
Lemma receiver_loop_exits fuel w kts s rq cq lr er last :
  session_at w kts s -> ks_driver s = Some 1%positive -> ks_recvq s = Some rq -> ks_compq s = Some cq ->
  queue_at w rq lr er -> contents lr = [] -> er <> 0 ->
  (forall o t x, (ktli_dfns_poll socket_fns o t x).1.1 = 0) ->
  exists w' lr', receiver_loop socket_fns (S (S fuel)) kts last w = Ok (tt, w') /\
    contents lr' = [] /\ w_queues w' = <[rq := KtliQueue (Some lr') false er]> (w_queues w) /\
    w_table w' = w_table w /\ w_threads w' = w_threads w /\ w_ints w' = w_ints w.
Proof.
  intros Hs Hde Hrq Hcq Hq Hl Her Hp.
  change (receiver_loop socket_fns (S (S fuel)) kts last) with
    (receiver_pass socket_fns (S fuel) kts last ≫= (fun r =>
       match r with inl last => receiver_loop socket_fns (S fuel) kts last | inr _ => mret tt end : ST world unit)).
  unfold receiver_pass. ksteps.
  destruct (call_driver_same w (ktli_dfns_poll socket_fns (ks_dhandle s) 10)) as (w1 & Hrun & Hsame).
  erewrite bind_Ok by exact Hrun. clear Hrun. rewrite Hp. cbn [Z.ltb Z.eqb Z.compare]. ksteps.
  destruct Hsame as (Ht1 & Hq1 & _ & _ & _ & _ & _ & _ & _ & _ & _ & Hth1 & Hi1).
  destruct (timeout_check_idle fuel w1 rq (Some cq) lr er last) as (w2 & l2 & last' & Hrun & Hl2 & Hq2 & Ht2 & Hth2 & Hi2);
    [unfold queue_at; by rewrite Hq1|done|].
  erewrite bind_Ok by exact Hrun. clear Hrun.
  assert (w_queues w2 !! rq = Some (KtliQueue (Some l2) false er)) by (rewrite Hq2; by simplify_map_eq).
  ksteps. replace (er =? 0) with false by lia. ksteps.
  exists w2, l2. split; [done|]. split; [done|]. rewrite Hq2, Hq1. split_and!; congruence.
Qed.

Lemma close_receiver fuel w kts s rq cq lr er rtid p last :
  session_at w kts s -> ks_driver s = Some 1%positive -> ks_recvq s = Some rq -> ks_compq s = Some cq ->
  queue_at w rq lr er -> contents lr = [] ->
  w_threads w !! rtid = Some (Receiver_running p last) -> w_ints w !! p = Some kts ->
  (forall o t x, (ktli_dfns_poll socket_fns o t x).1.1 = 0) ->
  exists w', close_thread socket_fns (S (S fuel)) (Some rq) rtid w = Ok (p, w') /\
    w_table w' = w_table w /\ w_queues w' = delete rq (w_queues w) /\
    w_threads w' = delete rtid (w_threads w) /\ w_ints w' = w_ints w.
Proof.
  unfold queue_at. intros Hs Hde Hrq Hcq Hq Hl Ht Hp Hpoll. unfold close_thread. ksteps.
  erewrite bind_Ok by (eapply q_set_exit_run; kside). knorm. ksteps.
  unfold pthread_join. rewrite ?bind_assoc. erewrite bind_Ok by done. cbn beta.
  rewrite ?bind_assoc. erewrite bind_Ok by (apply deref_run; exact Ht). cbn beta iota zeta.
  rewrite ?bind_assoc. erewrite bind_Ok by (apply int_rd_run; exact Hp). rewrite ?bind_assoc.
  edestruct (receiver_loop_exits fuel (upd_q rq (KtliQueue (Some lr) false 1) w) kts s rq cq lr 1 last)
    as (w2 & l2 & Hrun & Hl2 & Hq2 & Ht2 & Hth2 & Hi2);
    [exact Hs|done|done|done|unfold queue_at; cbn; by rewrite lookup_insert_eq|done|done|done|].
  erewrite bind_Ok by exact Hrun. clear Hrun.
  rewrite ?bind_assoc. erewrite bind_Ok by done. rewrite bind_ret.
  erewrite bind_Ok by (eapply free_rear_nil; [cbn; rewrite Hq2; by rewrite lookup_insert_eq|done]).
  erewrite bind_Ok by done. eexists. split; [reflexivity|]. cbn. rewrite Hq2, Ht2, Hth2, Hi2. cbn.
  split_and!; try done. by rewrite insert_insert_eq, delete_insert_eq.
Qed.

(** On an opened session with empty queues whose receiver has run and
    whose driver reports no events, [ktli_close] returns 0: both threads are
    joined, the three queues and the descriptor cell are released, and the
    session's slot is free again. *)
Theorem ktli_close_ok fuel w kts s sq rq cq ls lr lc es er ec dh sp rp last :
  session_queues w kts s sq rq cq ls lr lc es er ec -> pending ls lr lc = [] ->
  table_ok (w_table w) ->
  ks_state s = KTLI_SSTATE_OPENED -> ks_driver s = Some 1%positive -> ks_dhandle s = Some dh ->
  (forall o x, (ktli_dfns_close socket_fns o x).1.1 = 0) ->
  (forall o t x, (ktli_dfns_poll socket_fns o t x).1.1 = 0) ->
  ks_sender s <> ks_receiver s ->
  w_threads w !! ks_sender s = Some (Sender sp) ->
  w_threads w !! ks_receiver s = Some (Receiver_running rp last) ->
  w_ints w !! sp = Some kts -> w_ints w !! rp = Some kts ->
  exists w', ktli_close socket_fns (S (S fuel)) kts w = Ok (0, w') /\
    w_table w' !! Z.to_nat kts = Some None /\
    w_queues w' = delete cq (delete rq (delete sq (w_queues w))) /\
    w_threads w' = delete (ks_receiver s) (delete (ks_sender s) (w_threads w)) /\
    w_ints w' = delete rp (w_ints w).
Proof.
  intros [Hs Hsq Hrq Hcq (H1 & H2 & H3) Hqs Hqr Hqc] Hpend Htab Hst Hde Hdh Hcl Hpoll Hne Hts Htr Hsp Hrp.
  unfold pending in Hpend. apply app_eq_nil in Hpend as (Hlc & [Hlr Hls]%app_eq_nil).
  unfold ktli_close, queue_at in *. ksteps. rewrite Hst. ksteps.
  rewrite !zlen_eqb0, Hlc, Hlr, Hls. ksteps.
  destruct (call_driver_same w (ktli_dfns_close socket_fns (Some dh))) as (w1 & Hrun & Hsame).
  erewrite bind_Ok by exact Hrun. clear Hrun. rewrite Hcl. change (0 =? -1) with false. cbn iota.
  pose proof (same_ktli_session _ _ _ _ Hsame Hs) as Hs1.
  destruct Hsame as (Ht1 & Hq1 & _ & _ & _ & _ & _ & _ & _ & _ & _ & Hth1 & Hi1). ksteps.
  edestruct (close_sender (S fuel) w1 kts s sq ls es) as (w2 & Hrun & Ht2 & Hq2 & Hth2 & Hi2);
    [done|done|unfold queue_at; by rewrite Hq1|done|by rewrite Hth1|by rewrite Hi1|].
  erewrite bind_Ok by exact Hrun. clear Hrun.
  assert (session_at w2 kts s) as Hs2 by (unfold session_at; by rewrite Ht2).
  assert (w_queues w2 !! rq = Some (KtliQueue (Some lr) false er)) as Hqr2
    by (rewrite Hq2, Hq1, lookup_delete_ne by done; done).
  ksteps. edestruct (close_receiver fuel w2 kts s rq cq lr er (ks_receiver s) rp last)
    as (w3 & Hrun & Ht3 & Hq3 & Hth3 & Hi3);
    [done|done|done|done|done|done|by rewrite Hth2, Hth1, lookup_delete_ne|by rewrite Hi2, Hi1|done|].
  erewrite bind_Ok by exact Hrun. clear Hrun.
  assert (session_at w3 kts s) as Hs3 by (unfold session_at; by rewrite Ht3).
  assert (w_queues w3 !! cq = Some (KtliQueue (Some lc) false ec)) as Hqc3
    by (rewrite Hq3, Hq2, Hq1, !lookup_delete_ne by done; done).
  ksteps. erewrite bind_Ok by by eapply q_set_exit_run.
  erewrite bind_Ok by (eapply free_rear_nil; [cbn; by rewrite lookup_insert_eq|done]).
  erewrite bind_Ok by done. erewrite bind_Ok by done.
  erewrite bind_Ok.
  2:{ unfold free_slot, kts_wr. cbn. rewrite kts_free_slot_ok; [reflexivity|].
      rewrite Ht3, Ht2, Ht1. unfold table_ok in Htab. rewrite Htab. by destruct Hs. }
  eexists. split; [reflexivity|]. cbn. rewrite Ht3, Ht2, Ht1, Hq3, Hq2, Hq1, Hth3, Hth2, Hth1, Hi3, Hi2, Hi1.
  split_and!; try done.
  - apply list_lookup_insert_eq. destruct Hs. unfold table_ok, zlen in Htab. lia.
  - by rewrite delete_insert_eq.
Qed.

(** ** The session state machine *)

(** The transitions of the diagram of [src/ktli.h] that a client call makes. *)
Inductive sstate_step : ktli_sstate -> ktli_sstate -> Prop :=
  | step_connect : sstate_step KTLI_SSTATE_OPENED KTLI_SSTATE_CONNECTED
  | step_disconnect : sstate_step KTLI_SSTATE_CONNECTED KTLI_SSTATE_DRAINING
  | step_cleanup : sstate_step KTLI_SSTATE_ABORTED KTLI_SSTATE_DRAINING
  | step_drained : sstate_step KTLI_SSTATE_DRAINING KTLI_SSTATE_OPENED.

(** A computation that does not write the session table *)
Definition keeps {A} (m : ST world A) : Prop :=
  forall w a w', m w = Ok (a, w') -> w_table w' = w_table w.

Lemma keeps_bind {A B} (m : ST world A) (f : A -> ST world B) :
  keeps m -> (forall a, keeps (f a)) -> keeps (m ≫= f).
Proof.
  intros Hm Hf w b w2 H. apply bind_inv in H as (a & w1 & H1 & H2).
  apply Hm in H1. apply Hf in H2. congruence.
Qed.
Lemma keeps_ret {A} (a : A) : keeps (mret a).
Proof. intros w b w' [= <- <-]. done. Qed.
Lemma keeps_get : keeps get_st.
Proof. intros w b w' [= <- <-]. done. Qed.
Lemma keeps_ub {A} : keeps (@ub_st world A).
Proof. intros w b w' [=]. Qed.
Lemma keeps_deref {A} (o : option A) : keeps (deref_st o).
Proof. intros w b w' H. unfold deref_st in H. destruct o; by simplify_eq. Qed.
Lemma keeps_assert b : keeps (assert_st b).
Proof. intros w x w' H. unfold assert_st in H. destruct b; by simplify_eq. Qed.
Lemma keeps_kts_rd {A} (f : kts_table_t -> outcome A) : keeps (kts_rd f).
Proof. intros w b w' H. unfold kts_rd in H. destruct (f (w_table w)); by simplify_eq. Qed.
Lemma keeps_errno e : keeps (set_errno e).
Proof. intros w b w' [= <- <-]. done. Qed.
Lemma keeps_lock q : keeps (pthread_mutex_lock q).
Proof. intros w b w' H. unfold pthread_mutex_lock in H. repeat case_match; by simplify_eq. Qed.
Lemma keeps_unlock q : keeps (pthread_mutex_unlock q).
Proof. intros w b w' H. unfold pthread_mutex_unlock in H. repeat case_match; by simplify_eq. Qed.
Lemma keeps_q_list q : keeps (q_list q).
Proof. intros w b w' H. unfold q_list in H. repeat case_match; by simplify_eq. Qed.
Lemma keeps_q_set q l : keeps (q_set q l).
Proof. intros w b w' H. unfold q_set in H. repeat case_match; by simplify_eq. Qed.
Lemma keeps_q_exit q : keeps (q_exit q).
Proof. intros w b w' H. unfold q_exit in H. repeat case_match; by simplify_eq. Qed.
Lemma keeps_kio_rd p : keeps (kio_rd p).
Proof. intros w b w' H. unfold kio_rd, deref_st in H. repeat case_match; by simplify_eq. Qed.
Lemma keeps_kio_upd p f : keeps (kio_upd p f).
Proof. intros w b w' H. unfold kio_upd in H. repeat case_match; by simplify_eq. Qed.
Lemma keeps_malloc size : keeps (malloc size).
Proof. intros w b w' [= <- <-]. done. Qed.
Lemma keeps_fresh : keeps fresh_ptr.
Proof. intros w b w' [= <- <-]. done. Qed.
Lemma keeps_call f : keeps (call_driver f).
Proof.
  intros w b w' H. destruct (call_driver_same w f) as (w1 & H1 & Ht & _). rewrite H1 in H. by simplify_eq.
Qed.

Ltac keeps_tac :=
  unfold fail, list_enqueue, q_traverse, q_remove_curr, q_remove_front, q_mvrear, q_size, malloc_ptr;
  repeat first
    [ apply keeps_ret | apply keeps_get | apply keeps_ub | apply keeps_deref | apply keeps_assert
    | apply keeps_kts_rd | apply keeps_errno | apply keeps_lock | apply keeps_unlock | apply keeps_q_list
    | apply keeps_q_set | apply keeps_q_exit | apply keeps_kio_rd | apply keeps_kio_upd
    | apply keeps_malloc | apply keeps_fresh | apply keeps_call | apply keeps_bind
    | match goal with
      | |- forall _, keeps _ => intros ?
      | |- keeps (match ?x with _ => _ end) => destruct x
      end ].

Lemma ktli_send_keeps kts p : keeps (ktli_send kts p).
Proof. unfold ktli_send, kts_state, kts_sendq. keeps_tac. Qed.
Lemma ktli_receive_unsolicited_keeps kts : keeps (ktli_receive_unsolicited kts).
Proof. unfold ktli_receive_unsolicited, kts_state, kts_compq. keeps_tac. Qed.
Lemma drain_match_q_keeps p q : keeps (drain_match_q p q).
Proof. unfold drain_match_q. keeps_tac. Qed.
Lemma drain_q_keeps q : keeps (drain_q q).
Proof. unfold drain_q. keeps_tac. Qed.
Lemma ktli_config_keeps kts : keeps (ktli_config kts).
Proof. unfold ktli_config, kts_config. keeps_tac. Qed.

(** What a call may do to the table: nothing, or one transition of the
    session it was called on. *)
Definition moved (kts : Z) (s : kts_session) (w w' : world) : Prop :=
  w_table w' = w_table w \/
  exists st, sstate_step (ks_state s) st /\
    w_table w' = <[Z.to_nat kts := Some (set_ks_state st s)]> (w_table w).

Definition moves {A} (kts : Z) (s : kts_session) (m : ST world A) : Prop :=
  forall w a w', session_at w kts s -> m w = Ok (a, w') -> moved kts s w w'.

Lemma moves_keeps {A} kts s (m : ST world A) : keeps m -> moves kts s m.
Proof. intros Hm w a w' _ H. left. by eapply Hm. Qed.
Lemma moves_bind {A B} kts s (m : ST world A) (f : A -> ST world B) :
  keeps m -> (forall a, moves kts s (f a)) -> moves kts s (m ≫= f).
Proof.
  intros Hm Hf w b w2 Hs H. apply bind_inv in H as (a & w1 & H1 & H2).
  apply Hm in H1. assert (session_at w1 kts s) as Hs1 by (unfold session_at; by rewrite H1).
  destruct (Hf a w1 b w2 Hs1 H2) as [Ht|(st & Hst & Ht)].
  - left. congruence.
  - right. exists st. split; [done|]. congruence.
Qed.
Lemma moves_state {A} kts s (f : ktli_sstate -> ST world A) :
  moves kts s (f (ks_state s)) -> moves kts s (kts_rd (kts_state kts) ≫= f).
Proof.
  intros Hf w b w2 Hs H. erewrite bind_Ok in H by by eapply kts_get_run. by eapply Hf.
Qed.
Lemma moves_set {A} kts s st (f : unit -> ST world A) :
  sstate_step (ks_state s) st -> (forall u, keeps (f u)) ->
  moves kts s (kts_wr (kts_set_state st kts) ≫= f).
Proof.
  intros Hst Hf w b w2 Hs H.
  erewrite bind_Ok in H by exact (kts_update_run (set_ks_state st) w kts s Hs).
  apply Hf in H. right. exists st. by rewrite H.
Qed.

Lemma moves_bind_keeps {A B} kts s (m : ST world A) (f : A -> ST world B) :
  moves kts s m -> (forall a, keeps (f a)) -> moves kts s (m ≫= f).
Proof.
  intros Hm Hf w b w2 Hs H. apply bind_inv in H as (a & w1 & H1 & H2).
  apply Hf in H2. destruct (Hm w a w1 Hs H1) as [Ht|(st & Hst & Ht)].
  - left. congruence.
  - right. exists st. split; [done|]. congruence.
Qed.
Lemma moves_set_last kts s st :
  sstate_step (ks_state s) st -> moves kts s (kts_wr (kts_set_state st kts)).
Proof.
  intros Hst w b w2 Hs H.
  pose proof (kts_update_run (set_ks_state st) w kts s Hs) as E. unfold kts_set_state in H.
  rewrite E in H. injection H as _ <-. right. by exists st.
Qed.

Ltac state_side :=
  match goal with
  | H : bool_decide (ks_state ?s <> _) = false |- sstate_step (ks_state ?s) _ =>
      apply bool_decide_eq_false, dec_stable in H; rewrite H
  | H : bool_decide (ks_state ?s <> _) && _ = false |- sstate_step (ks_state ?s) _ =>
      apply andb_false_iff in H as [H|H]; apply bool_decide_eq_false, dec_stable in H; rewrite H
  end; constructor.
Ltac moves_step :=
  first
    [ apply moves_state
    | apply moves_set; [solve [state_side]|intros ?; solve [keeps_tac]]
    | apply moves_keeps; solve [keeps_tac]
    | apply moves_bind; [solve [keeps_tac]|intros ?]
    | match goal with
      | |- moves _ _ (match ?x with _ => _ end) => destruct x eqn:?
      end ].
Ltac moves_tac := repeat moves_step.

Lemma ktli_connect_moves kts s : moves kts s (ktli_connect socket_fns kts).
Proof.
  unfold ktli_connect, ktlid_fns. moves_tac.
Qed.
Lemma ktli_disconnect_moves kts s : moves kts s (ktli_disconnect socket_fns kts).
Proof. unfold ktli_disconnect, ktlid_fns. moves_tac. Qed.
Lemma ktli_drain_moves kts s : moves kts s (ktli_drain kts).
Proof.
  unfold ktli_drain.
  repeat first [ apply moves_bind; [apply drain_q_keeps|intros ?] | moves_step ].
Qed.
Lemma ktli_drain_match_moves kts s p : moves kts s (ktli_drain_match kts p).
Proof.
  unfold ktli_drain_match.
  repeat first [ apply moves_bind; [apply drain_match_q_keeps|intros ?] | moves_step ].
  apply moves_bind_keeps; [|intros ?; keeps_tac].
  case_match; [apply moves_set_last; state_side|apply moves_keeps; keeps_tac].
Qed.
Lemma ktli_receive_moves kts s p : moves kts s (ktli_receive kts p).
Proof.
  unfold ktli_receive.
  repeat first [ apply ktli_drain_match_moves | moves_step ].
Qed.

(** One call of the KTLI API on a session, whatever it answers *)
Inductive client_call (kts : Z) : world -> world -> Prop :=
  | call_connect w r w' : ktli_connect socket_fns kts w = Ok (r, w') -> client_call kts w w'
  | call_disconnect w r w' : ktli_disconnect socket_fns kts w = Ok (r, w') -> client_call kts w w'
  | call_send p w r w' : ktli_send kts p w = Ok (r, w') -> client_call kts w w'
  | call_receive p w r w' : ktli_receive kts p w = Ok (r, w') -> client_call kts w w'
  | call_unsolicited w r w' : ktli_receive_unsolicited kts w = Ok (r, w') -> client_call kts w w'
  | call_drain w r w' : ktli_drain kts w = Ok (r, w') -> client_call kts w w'
  | call_drain_match p w r w' : ktli_drain_match kts p w = Ok (r, w') -> client_call kts w w'
  | call_config w r w' : ktli_config kts w = Ok (r, w') -> client_call kts w w'.

Lemma client_call_moved kts s w w' : session_at w kts s -> client_call kts w w' -> moved kts s w w'.
Proof.
  intros Hs Hc. destruct Hc as [w r w' H|w r w' H|p w r w' H|p w r w' H|w r w' H|w r w' H|p w r w' H|w r w' H].
  - by eapply ktli_connect_moves.
  - by eapply ktli_disconnect_moves.
  - left. by eapply ktli_send_keeps.
  - by eapply ktli_receive_moves.
  - left. by eapply ktli_receive_unsolicited_keeps.
  - by eapply ktli_drain_moves.
  - by eapply ktli_drain_match_moves.
  - left. by eapply ktli_config_keeps.
Qed.

End life.
