(* ===== verification/KtliWitness.v ===== *)
(** The theorems about KTLI at concrete sessions: a list library that has the
    laws ([zlist] of [ListApi.v]), a driver whose calls answer constants, one
    session with descriptor 0.  They show that the theorems' hypotheses can hold. *)

From stdpp Require Import gmap.
From S2P Require Import Prelude Types ListApi Session KtliState Ktli KtliSpec KtliThreads KtliThreadSpec KtliLife.

(** A driver: a receive stores nothing and leaves the vector as it is. *)
Definition constant_driver (send_rc receive_rc poll_rc : Z) : ktli_driver_fns unit :=
  KtliDriverFns unit
    (fun x => (Some 5%positive, x))
    (fun _ x => (0, None, x))
    (fun _ _ _ _ x => (0, None, x))
    (fun _ x => (0, None, x))
    (fun _ _ _ x => (send_rc, None, x))
    (fun _ iov _ x => (receive_rc, None, iov, x))
    (fun _ _ x => (poll_rc, None, x)).

(** Helpers that read the sequence number [aseq] in every message and write a
    one-byte header *)
Definition constant_helpers (aseq : Z) : ktli_helpers :=
  KtliHelpers 9 (Some (fun _ _ => aseq))
    (Some (fun iov _ seq => <[0%nat := Kiovec (Some [seq mod 256]) 1]> iov))
    (Some (fun _ => 2)) (Some (fun _ => 0)).

Definition sess (st : ktli_sstate) : kts_session :=
  KtsSession (Some 1%positive) (Some 5%positive) (Some 1%positive)
    (Some 10%positive) (Some 11%positive) (Some 12%positive) 1 2 st 100 (Some 1%positive).

(** A kio in state [st] with sequence number [seq], deadline [dl] and a one-vector
    request, on the element [e] *)
Definition mk_kio (st : kio_state) (seq dl : Z) (e : option ptr) : kio ptr :=
  let t0 := Timespec 0 0 in
  Kio ptr KIO_MAGIC 4 seq KIOF_REQRESP st 0 (KioMsg (Some [Kiovec (Some [0]) 1]) 1 0 0) kio_msg0
    (Timespec dl 0) e None None None None None (KioTstamps t0 t0 t0 t0).

(** The world: the session in state [st], its queues, the kios, a receiver thread
    in state [rcv]; memory never runs out, the clock stands at 50 s. *)
Definition mk_world (st : ktli_sstate) (aseq : Z) (ls lr lc : list element) (kios : gmap ptr (kio ptr))
    (rcv : thread) : @world zlist_api unit :=
  let q l := KtliQueue (Some (Zlist l (pred (length l)) : @clist zlist_api)) false 0 in
  World 0 1 (<[0%nat := Some (sess st)]> kts_init)
    {[10%positive := q ls; 11%positive := q lr; 12%positive := q lc]} kios
    {[1%positive := constant_helpers aseq]}
    {[1%positive := KtliConfig (Some [108]) (Some [56]) 1 None 0 None]}
    {[40%positive := 0]} {[1 := Sender 40%positive; 2 := rcv]}
    100%positive 0 (sess KTLI_SSTATE_UNKNOWN)
    0%nat (fun _ _ => Some (fun _ => 0)) 0%nat (fun _ => Timespec 50 0) 0%nat (fun n => Some (Z.of_nat n)) tt.

Definition running : thread := Receiver_running 40%positive (Timespec 0 0).

Lemma mk_session st aseq ls lr lc kios rcv : session_at (mk_world st aseq ls lr lc kios rcv) 0 (sess st).
Proof. split; [split; [discriminate|reflexivity]|reflexivity]. Qed.

Lemma mk_queues st aseq ls lr lc kios rcv :
  let z l := Zlist l (pred (length l)) in
  session_queues (mk_world st aseq ls lr lc kios rcv) 0 (sess st) 10%positive 11%positive 12%positive (z ls) (z lr) (z lc) 0 0 0.
Proof. split; try reflexivity; [apply mk_session|repeat split; discriminate]. Qed.

Lemma mk_malloc st aseq ls lr lc kios rcv : malloc_always (mk_world st aseq ls lr lc kios rcv).
Proof. intros n size. by eexists. Qed.

(** ** Client calls *)
Lemma ktli_send_spec_witness :
  let w := mk_world KTLI_SSTATE_CONNECTED 100 [(20, 1)]%positive [] []
    {[1%positive := mk_kio KIO_NEW 0 0 (Some 20%positive); 2%positive := mk_kio KIO_FAILED 0 0 None]} running in
  exists w' l', ktli_send 0 2%positive w = Ok (0, w') /\
    w_queues w' !! 10%positive = Some (KtliQueue (Some l') false 0) /\ contents l' = [(20, 1); (100, 2)]%positive.
Proof.
  intros w.
  destruct (ktli_send_spec w 0 (sess KTLI_SSTATE_CONNECTED) 10%positive (Zlist [(20, 1)]%positive 0) 0 2%positive
    (mk_kio KIO_FAILED 0 0 None) [Kiovec (Some [0]) 1]) as (w' & l' & k' & H & Hl & Hq & _).
  - apply mk_session.
  - reflexivity.
  - reflexivity.
  - reflexivity.
  - reflexivity.
  - reflexivity.
  - discriminate.
  - apply mk_malloc.
  - exists w', l'. split; [exact H|]. split; [|exact Hl]. rewrite Hq. apply lookup_insert_eq.
Defined.

Lemma ktli_send_errors_witness :
  let w := mk_world KTLI_SSTATE_DRAINING 100 [] [] [] ∅ running in
  ktli_send (-1) 2%positive w = Ok (-1, set_errno_w EBADF w) /\ ktli_send 0 2%positive w = Ok (-1, set_errno_w ENOTCONN w).
Proof.
  intros w. split.
  - destruct (ktli_send_errors w (-1) 2%positive) as (H & _). apply H. reflexivity.
  - destruct (ktli_send_errors w 0 2%positive) as (_ & H & _). apply (H (sess KTLI_SSTATE_DRAINING)).
    + apply mk_session.
    + discriminate.
Defined.

(** A completed kio in the middle of the queue *)
Lemma ktli_receive_spec_witness :
  let k e := mk_kio KIO_TIMEDOUT 7 0 (Some e) in
  let w := mk_world KTLI_SSTATE_CONNECTED 100 [] [] [(20, 1); (21, 2); (22, 3)]%positive
    {[1%positive := k 20%positive; 2%positive := k 21%positive; 3%positive := k 22%positive]} running in
  exists w', ktli_receive 0 2%positive w = Ok (0, w') /\ w_errno w' = ETIMEDOUT.
Proof.
  intros k w.
  destruct (ktli_receive_spec w 0 (sess KTLI_SSTATE_CONNECTED) 12%positive (Zlist [(20, 1); (21, 2); (22, 3)]%positive 2) 0 2%positive
    (k 21%positive) 21%positive 1%nat) as (w' & l' & k' & H & _ & _ & _ & _ & _ & _ & _ & He).
  - apply mk_session.
  - reflexivity.
  - reflexivity.
  - reflexivity.
  - apply (bool_decide_unpack (NoDup [20; 21; 22]%positive)). reflexivity.
  - reflexivity.
  - reflexivity.
  - reflexivity.
  - right. left. reflexivity.
  - exists w'. split; [exact H|exact He].
Defined.

Lemma ktli_receive_errors_witness :
  let w := mk_world KTLI_SSTATE_CONNECTED 100 [] [(20, 1)]%positive []
    {[1%positive := mk_kio KIO_SENT 7 80 (Some 20%positive)]} running in
  exists w', ktli_receive 0 1%positive w = Ok (-1, w') /\ w_errno w' = ENOENT.
Proof.
  intros w. destruct (ktli_receive_errors w 0 1%positive) as (_ & _ & H & _).
  destruct (H (sess KTLI_SSTATE_CONNECTED) (mk_kio KIO_SENT 7 80 (Some 20%positive)) 12%positive (Zlist [] 0) 0)
    as (w' & l' & Hr & He & _).
  - apply mk_session.
  - reflexivity.
  - reflexivity.
  - reflexivity.
  - reflexivity.
  - right. reflexivity.
  - exists w'. split; [exact Hr|exact He].
Defined.

(** Three kios, one in each queue *)
Definition three_kios : gmap ptr (kio ptr) :=
  {[1%positive := mk_kio KIO_NEW 0 0 (Some 20%positive); 2%positive := mk_kio KIO_SENT 7 80 (Some 21%positive);
    3%positive := mk_kio KIO_RECEIVED 6 80 (Some 22%positive)]}.
Definition three_world (st : ktli_sstate) : @world zlist_api unit :=
  mk_world st 100 [(20, 1)]%positive [(21, 2)]%positive [(22, 3)]%positive three_kios running.

Lemma three_alive st : kios_alive (three_world st) [(22, 3); (21, 2); (20, 1)]%positive.
Proof.
  intros e p Hin. rewrite !elem_of_cons, elem_of_nil in Hin.
  destruct Hin as [H|[H|[H|[]]]]; injection H as -> ->; by eexists.
Qed.

Lemma ktli_drain_complete_witness :
  exists w', drain_loop 4 0 [] (three_world KTLI_SSTATE_DRAINING) = Ok ((0, [3; 2; 1]%positive), w').
Proof.
  destruct (ktli_drain_complete (three_world KTLI_SSTATE_DRAINING) 0 (sess KTLI_SSTATE_DRAINING)
    10%positive 11%positive 12%positive (Zlist [(20, 1)]%positive 0) (Zlist [(21, 2)]%positive 0)
    (Zlist [(22, 3)]%positive 0) 0 0 0 4) as (w' & s' & H & _).
  - apply mk_queues.
  - reflexivity.
  - apply three_alive.
  - cbn. lia.
  - exists w'. exact H.
Defined.

(** The kio is on the receive queue: it is removed, and the answer is 1. *)
Lemma ktli_drain_match_spec_witness :
  exists w', ktli_drain_match 0 2%positive (three_world KTLI_SSTATE_DRAINING) = Ok (1, w').
Proof.
  destruct (ktli_drain_match_spec (three_world KTLI_SSTATE_DRAINING) 0 (sess KTLI_SSTATE_DRAINING)
    10%positive 11%positive 12%positive (Zlist [(20, 1)]%positive 0) (Zlist [(21, 2)]%positive 0)
    (Zlist [(22, 3)]%positive 0) 0 0 0 2%positive (mk_kio KIO_SENT 7 80 (Some 21%positive))) as (w' & ? & ? & ? & H & _).
  - apply mk_queues.
  - reflexivity.
  - reflexivity.
  - vm_compute. reflexivity.
  - exists w'. exact H.
Defined.

(** Two sleeps bring nothing, the third a completed kio. *)
Definition empty_world (st : ktli_sstate) (rcv : thread) : @world zlist_api unit := mk_world st 100 [] [] [] ∅ rcv.
Definition third_sleep (n : nat) : ST (@world zlist_api unit) Z := fun w =>
  if (n <? 2)%nat then Ok (0, w) else Ok (0, three_world KTLI_SSTATE_CONNECTED).

Lemma ktli_poll_waits_witness :
  exists w', ktli_poll third_sleep 10 0 0 (empty_world KTLI_SSTATE_CONNECTED running) = Ok (0, w').
Proof.
  eexists.
  refine (ktli_poll_waits third_sleep 0 (sess KTLI_SSTATE_CONNECTED) 12%positive
    (fun n => if (n <? 3)%nat then set_errno_w 0 (empty_world KTLI_SSTATE_CONNECTED running) else three_world KTLI_SSTATE_CONNECTED)
    (fun _ => 0) (fun n => if (n <? 2)%nat then Zlist [] 0 else Zlist [(22, 3)]%positive 0) (fun _ => 0) 2 0 10
    (empty_world KTLI_SSTATE_CONNECTED running) _ _ _ _ _ _ _ _ _).
  - apply mk_session.
  - reflexivity.
  - reflexivity.
  - reflexivity.
  - intros i Hi. destruct i as [|[|[|]]]; [reflexivity..|lia].
  - intros i Hi. destruct i as [|[|[|]]]; [reflexivity..|lia].
  - intros i Hi. destruct i as [|[|]]; [reflexivity..|lia].
  - reflexivity.
  - lia.
Defined.

Lemma ktli_poll_one_interval_witness :
  let w := empty_world KTLI_SSTATE_CONNECTED running in
  ktli_poll (fun _ => mret 0) 10 0 1000000 w = Ok (-1, set_errno_w ETIMEDOUT (set_errno_w 0 w)).
Proof.
  intros w.
  refine (ktli_poll_one_interval (fun _ => mret 0) 0 (sess KTLI_SSTATE_CONNECTED) 12%positive w (set_errno_w 0 w) 0
    (Zlist [] 0) 0 1000000 9 _ _ _ _ _ _ _).
  - apply mk_session.
  - reflexivity.
  - reflexivity.
  - reflexivity.
  - split; vm_compute; discriminate.
  - reflexivity.
  - discriminate.
Defined.

Lemma ktli_receive_unsolicited_spec_witness :
  exists w', ktli_receive_unsolicited 0 (three_world KTLI_SSTATE_CONNECTED) = Ok ((-1, None), w').
Proof.
  destruct (ktli_receive_unsolicited_spec (three_world KTLI_SSTATE_CONNECTED) 0 (sess KTLI_SSTATE_CONNECTED)
    12%positive (Zlist [(22, 3)]%positive 0) 0) as (w' & l' & r & H & _ & _ & Hr).
  - apply mk_session.
  - left. reflexivity.
  - reflexivity.
  - reflexivity.
  - intros e p Hin. apply (three_alive KTLI_SSTATE_CONNECTED e p).
    apply list_elem_of_singleton in Hin. rewrite Hin. apply list_elem_of_here.
  - destruct Hr as (-> & _). exists w'. exact H.
Defined.

(** ** The sender *)
Definition two_unsent : @world zlist_api unit :=
  mk_world KTLI_SSTATE_CONNECTED 100 [(20, 1); (21, 2)]%positive [(22, 3)]%positive []
    {[1%positive := mk_kio KIO_NEW 0 0 (Some 20%positive); 2%positive := mk_kio KIO_NEW 0 0 (Some 21%positive);
      3%positive := mk_kio KIO_SENT 99 80 (Some 22%positive)]} running.

Lemma ktli_sender_sequences_witness :
  exists w' s', ktli_sender_drain (constant_driver 0 0 0) 3 0 two_unsent = Ok (tt, w') /\
    session_at w' 0 s' /\ ks_sequence s' = 102.
Proof.
  destruct (ktli_sender_sequences (constant_driver 0 0 0) two_unsent 0 (sess KTLI_SSTATE_CONNECTED)
    10%positive 11%positive 12%positive (Zlist [(20, 1); (21, 2)]%positive 1) (Zlist [(22, 3)]%positive 0) (Zlist [] 0)
    0 0 0 (constant_helpers 100) (fun iov _ seq => <[0%nat := Kiovec (Some [seq mod 256]) 1]> iov))
    as (w' & s' & ls' & lr' & H & Hq & _ & _ & Hs & _).
  - apply mk_queues.
  - split; reflexivity.
  - apply mk_malloc.
  - reflexivity.
  - intros dh iov cnt x. cbn. lia.
  - split.
    + apply (bool_decide_unpack (NoDup [1; 2]%positive)). reflexivity.
    + intros e p Hin. cbn [contents zlist_laws z_elems] in Hin. rewrite !elem_of_cons, elem_of_nil in Hin.
      destruct Hin as [H|[H|[]]]; injection H as -> ->; eexists; repeat split; by eexists.
  - cbn. lia.
  - vm_compute. reflexivity.
  - exists w', s'. split; [exact H|]. split; [apply Hq|exact Hs].
Defined.

Lemma ktli_sender_failed_witness :
  exists w' lc' e', ktli_sender_one (constant_driver (-1) 0 0) 0 two_unsent = Ok (tt, w') /\
    queue_at w' 12%positive lc' 0 /\ contents lc' = [(e', 1%positive)].
Proof.
  destruct (ktli_sender_failed (constant_driver (-1) 0 0) two_unsent 0 (sess KTLI_SSTATE_CONNECTED)
    10%positive 11%positive 12%positive (Zlist [(20, 1); (21, 2)]%positive 1) (Zlist [(22, 3)]%positive 0) (Zlist [] 0)
    0 0 0 (constant_helpers 100) (fun iov _ seq => <[0%nat := Kiovec (Some [seq mod 256]) 1]> iov)
    20%positive 1%positive [(21, 2)]%positive (mk_kio KIO_NEW 0 0 (Some 20%positive)))
    as (w' & ls' & lr' & lc' & k' & e' & H & Hq & _ & _ & Hc & _).
  - apply mk_queues.
  - split; reflexivity.
  - apply mk_malloc.
  - reflexivity.
  - split; [apply NoDup_singleton|]. intros e ->%list_elem_of_singleton. reflexivity.
  - intros dh iov cnt x. cbn. lia.
  - reflexivity.
  - reflexivity.
  - repeat split. by eexists.
  - exists w', lc', e'. split; [exact H|]. split; [apply Hq|exact Hc].
Defined.

(** ** The receiver *)

(** Two requests wait; the first one's deadline is past at 50 s. *)
Definition two_sent (aseq : Z) : @world zlist_api unit :=
  mk_world KTLI_SSTATE_CONNECTED aseq [] [(20, 1); (21, 2)]%positive []
    {[1%positive := mk_kio KIO_SENT 100 40 (Some 20%positive);
      2%positive := mk_kio KIO_SENT 101 80 (Some 21%positive)]} running.

Lemma two_sent_queues aseq :
  session_queues (two_sent aseq) 0 (sess KTLI_SSTATE_CONNECTED) 10%positive 11%positive 12%positive
    (Zlist [] 0) (Zlist [(20, 1); (21, 2)]%positive 1) (Zlist [] 0) 0 0 0.
Proof. apply mk_queues. Qed.

Lemma two_sent_alive aseq : kios_alive (two_sent aseq) [(20, 1); (21, 2)]%positive.
Proof.
  intros e p Hin. rewrite !elem_of_cons, elem_of_nil in Hin.
  destruct Hin as [H|[H|[]]]; injection H as -> ->; by eexists.
Qed.

Lemma two_sent_getaseq aseq : getaseq_at (two_sent aseq) (sess KTLI_SSTATE_CONNECTED) (fun _ _ => aseq).
Proof. exists (constant_helpers aseq). split; reflexivity. Qed.

(** The message the constant driver delivers, and the world after its read *)
Definition a_message : list kiovec :=
  [Kiovec (Some (replicate 9 0)) 9; Kiovec (Some [0; 0]) 2; Kiovec (Some []) 0].
Definition after_read (aseq : Z) : @world zlist_api unit :=
  set_live_w 4 (Nat.iter 4 bump_mcount_w (bump_tick_w (two_sent aseq))).

Lemma a_message_read aseq :
  recvmsg_read (constant_driver 0 0 1) 0 (bump_tick_w (two_sent aseq)) = Ok (inl (0, a_message), after_read aseq).
Proof. reflexivity. Qed.

Lemma timeout_check_spec_witness :
  exists w' lc', timeout_check 3 (Some 11%positive) (Some 12%positive) (Timespec 0 0) (two_sent 0) =
      Ok (Timespec 50 0, w') /\
    queue_at w' 12%positive lc' 0 /\ (contents lc').*2 = [1%positive].
Proof.
  destruct (timeout_check_spec (two_sent 0) 11%positive 12%positive (Zlist [(20, 1); (21, 2)]%positive 1) (Zlist [] 0) 0 0
    (Timespec 0 0) (Timespec 50 0) (fun p => bool_decide (p = 1%positive))) as (w' & lr' & lc' & H & _ & Hq & _ & Hc & _).
  - discriminate.
  - reflexivity.
  - reflexivity.
  - apply mk_malloc.
  - reflexivity.
  - discriminate.
  - split.
    + apply (bool_decide_unpack (NoDup [1; 2]%positive)). reflexivity.
    + intros e p Hin. cbn [contents zlist_laws z_elems] in Hin. rewrite !elem_of_cons, elem_of_nil in Hin.
      destruct Hin as [H|[H|[]]]; injection H as -> ->; eexists; split; reflexivity.
  - exists w', lc'. split; [exact H|]. split; [exact Hq|exact Hc].
Defined.

Lemma ktli_recvmsg_matched_witness :
  exists w' lr' lc', ktli_recvmsg (constant_driver 0 0 1) 5 0 (two_sent 101) = Ok (0, w') /\
    queue_at w' 11%positive lr' 0 /\ contents lr' = [(20, 1)]%positive /\
    queue_at w' 12%positive lc' 0 /\ (contents lc').*2 = [2%positive].
Proof.
  destruct (ktli_recvmsg_matched (constant_driver 0 0 1) 5 (two_sent 101) (after_read 101) 0 (sess KTLI_SSTATE_CONNECTED)
    10%positive 11%positive 12%positive (Zlist [] 0) (Zlist [(20, 1); (21, 2)]%positive 1) (Zlist [] 0) 0 0 0
    (fun _ _ => 101) 0 a_message 1%nat 21%positive 2%positive (mk_kio KIO_SENT 101 80 (Some 21%positive)))
    as (w' & lr' & lc' & k' & H & Hq & Hr & Hc & _).
  - apply two_sent_queues.
  - apply two_sent_getaseq.
  - apply mk_malloc.
  - apply two_sent_alive.
  - apply a_message_read.
  - reflexivity.
  - reflexivity.
  - reflexivity.
  - exists w', lr', lc'. split; [exact H|]. split; [apply Hq|]. split; [exact Hr|]. split; [apply Hq|exact Hc].
Defined.

Lemma ktli_recvmsg_tossed_witness :
  exists w', ktli_recvmsg (constant_driver 0 0 1) 5 0 (two_sent 77) = Ok (0, w') /\ w_live w' = 0.
Proof.
  destruct (ktli_recvmsg_tossed (constant_driver 0 0 1) 5 (two_sent 77) (after_read 77) 0 (sess KTLI_SSTATE_CONNECTED)
    10%positive 11%positive 12%positive (Zlist [] 0) (Zlist [(20, 1); (21, 2)]%positive 1) (Zlist [] 0) 0 0 0
    (fun _ _ => 77) 0 a_message) as (w' & lr' & H & _ & _ & _ & Hl).
  - apply two_sent_queues.
  - apply two_sent_getaseq.
  - apply two_sent_alive.
  - apply a_message_read.
  - reflexivity.
  - reflexivity.
  - exists w'. split; [exact H|exact Hl].
Defined.

(** The driver's receive fails. *)
Lemma ktli_recvmsg_error_hangs_witness :
  ktli_recvmsg (constant_driver 0 (-1) 1) 5 0 (two_sent 101) = Hang.
Proof.
  refine (ktli_recvmsg_error_hangs (constant_driver 0 (-1) 1) 5 (two_sent 101)
    (set_live_w 2 (Nat.iter 2 bump_mcount_w (bump_tick_w (two_sent 101)))) 0 (sess KTLI_SSTATE_CONNECTED)
    10%positive 11%positive 12%positive (Zlist [] 0) (Zlist [(20, 1); (21, 2)]%positive 1) (Zlist [] 0) 0 0 0
    (Some [Some (Some (replicate 9 0)); None; None]) _ _ _).
  - apply two_sent_queues.
  - reflexivity.
  - reflexivity.
Defined.

Lemma ktli_recvmsg_unsolicited_witness :
  exists w' lc', ktli_recvmsg (constant_driver 0 0 1) 5 0 (two_sent (-1)) = Ok (0, w') /\
    queue_at w' 12%positive lc' 0 /\ (contents lc').*2 = [100%positive].
Proof.
  destruct (ktli_recvmsg_unsolicited (constant_driver 0 0 1) 5 (two_sent (-1)) (after_read (-1)) 0 (sess KTLI_SSTATE_CONNECTED)
    10%positive 11%positive 12%positive (Zlist [] 0) (Zlist [(20, 1); (21, 2)]%positive 1) (Zlist [] 0) 0 0 0
    (fun _ _ => -1) 0 a_message) as (w' & lr' & lc' & k' & H & Hq & _ & Hc & _).
  - apply two_sent_queues.
  - apply two_sent_getaseq.
  - apply mk_malloc.
  - apply a_message_read.
  - reflexivity.
  - exists w', lc'. split; [exact H|]. split; [apply Hq|exact Hc].
Defined.

(** Sequence number 0 is nobody's, yet the rear request completes. *)
Lemma ktli_recvmsg_zero_sequence_witness :
  exists w' lc', ktli_recvmsg (constant_driver 0 0 1) 5 0 (two_sent 0) = Ok (0, w') /\
    queue_at w' 12%positive lc' 0 /\ (contents lc').*2 = [2%positive].
Proof.
  destruct (ktli_recvmsg_zero_sequence (constant_driver 0 0 1) 5 (two_sent 0) (after_read 0) 0 (sess KTLI_SSTATE_CONNECTED)
    10%positive 11%positive 12%positive (Zlist [] 0) (Zlist [(20, 1); (21, 2)]%positive 1) (Zlist [] 0) 0 0 0
    (fun _ _ => 0) 0 a_message [(20, 1)]%positive 21%positive 2%positive (mk_kio KIO_SENT 101 80 (Some 21%positive)))
    as (w' & lr' & lc' & k' & H & Hq & _ & Hc & _).
  - apply two_sent_queues.
  - apply two_sent_getaseq.
  - apply mk_malloc.
  - apply a_message_read.
  - reflexivity.
  - discriminate.
  - discriminate.
  - reflexivity.
  - reflexivity.
  - reflexivity.
  - exists w', lc'. split; [exact H|]. split; [apply Hq|exact Hc].
Defined.


Lemma ktli_close_hangs_witness :
  ktli_close (constant_driver 0 0 0) 50 0
    (empty_world KTLI_SSTATE_OPENED (Receiver_waiting 40%positive)) = NoFuel.
Proof.
  refine (ktli_close_hangs (constant_driver 0 0 0) 50 (empty_world KTLI_SSTATE_OPENED (Receiver_waiting 40%positive))
    0 (sess KTLI_SSTATE_OPENED) 10%positive 11%positive 12%positive (Zlist [] 0) (Zlist [] 0) (Zlist [] 0) 0 0 0
    5%positive 40%positive 40%positive (Receiver_waiting 40%positive) _ _ _ _ _ _ _ _ _ _ _ _).
  - apply mk_queues.
  - reflexivity.
  - reflexivity.
  - reflexivity.
  - reflexivity.
  - reflexivity.
  - discriminate.
  - reflexivity.
  - reflexivity.
  - reflexivity.
  - reflexivity.
  - left. reflexivity.
Defined.

Lemma ktli_close_ok_witness :
  exists w', ktli_close (constant_driver 0 0 0) 2 0 (empty_world KTLI_SSTATE_OPENED running) = Ok (0, w').
Proof.
  destruct (ktli_close_ok (constant_driver 0 0 0) 0 (empty_world KTLI_SSTATE_OPENED running)
    0 (sess KTLI_SSTATE_OPENED) 10%positive 11%positive 12%positive (Zlist [] 0) (Zlist [] 0) (Zlist [] 0) 0 0 0
    5%positive 40%positive 40%positive (Timespec 0 0)) as (w' & H & _).
  - apply mk_queues.
  - reflexivity.
  - reflexivity.
  - reflexivity.
  - reflexivity.
  - reflexivity.
  - reflexivity.
  - reflexivity.
  - discriminate.
  - reflexivity.
  - reflexivity.
  - reflexivity.
  - reflexivity.
  - exists w'. exact H.
Defined.

