(* ===== verification/Keys.v ===== *)
(** Key vectors and ranges: [src/util.c].

    A key is an array of kiovecs; the allocator is explicit: [m_malloc n size]
    is its answer to the n-th request (NULL, or the bytes the block holds), and
    [m_live] counts the blocks allocated and not yet freed. *)

From S2P Require Import Prelude Types.

Record mem := Mem { m_count : nat; m_malloc : nat -> Z -> option (nat -> Z); m_live : Z }.

Definition MAXKEYLEN : Z := 4096.

(** [KI_MALLOC]: the block as bytes. *)
Definition KI_MALLOC (size : Z) : ST mem (option buffer) := fun s =>
  match m_malloc s (m_count s) size with
  | None => Ok (None, Mem (S (m_count s)) (m_malloc s) (m_live s))
  | Some f => Ok (Some (f <$> seq 0 (Z.to_nat size)), Mem (S (m_count s)) (m_malloc s) (m_live s + 1))
  end.
Definition KI_FREE : ST mem unit := modify_st (fun s => Mem (m_count s) (m_malloc s) (m_live s - 1)).

(** The bytes a kiovec denotes: its first [kiov_len]; reading past the buffer
    has no meaning. *)
Definition iov_bytes (v : kiovec) : outcome buffer :=
  match kiov_base v with
  | Some b => if kiov_len v <=? zlen b then Ok (take (Z.to_nat (kiov_len v)) b) else Ub
  | None => if kiov_len v =? 0 then Ok [] else Ub
  end.

Definition iov_bytes_st {S} (v : kiovec) : ST S buffer := fun s =>
  match iov_bytes v with Ok b => Ok (b, s) | Ub => Ub | Hang => Hang | NoFuel => NoFuel end.

Definition array_rd {S A} (a : list A) (i : Z) : ST S A := fun s =>
  match array_read a i with Ok x => Ok (x, s) | Ub => Ub | Hang => Hang | NoFuel => NoFuel end.
Definition array_wr {S A} (a : list A) (i : Z) (x : A) : ST S (list A) := fun s =>
  match array_write a i x with Ok a' => Ok (a', s) | Ub => Ub | Hang => Hang | NoFuel => NoFuel end.

(** [ki_keycreate] *)
Definition ki_keycreate (keybuf : option buffer) (keylen : Z) : ST mem (option (list kiovec)) :=
  if bool_decide (keybuf = None) || (keylen >? MAXKEYLEN) then mret None else
  key ← KI_MALLOC 16;
  match key with
  | None => mret None
  | Some _ => mret (Some [Kiovec keybuf keylen])
  end.

(** [ki_keydestroy]: the loop frees each buffer of the first [n] kiovecs. *)
Fixpoint keydestroy_loop (key : list kiovec) (n : nat) (i : Z) : ST mem unit :=
  match n with
  | O => mret tt
  | S n =>
      v ← array_rd key i;
      (match kiov_base v with Some _ => KI_FREE | None => mret tt end) ;;
      keydestroy_loop key n (i + 1)
  end.

Definition ki_keydestroy (key : option (list kiovec)) (keycnt : Z) : ST mem unit :=
  match key with
  | None => mret tt
  | Some key => keydestroy_loop key (Z.to_nat keycnt) 0 ;; KI_FREE
  end.

(** [KI_REALLOC] of a key array to one more element: the old elements, and a
    last one with arbitrary contents [junk]; a failed realloc is NULL, which
    neither caller tests (they test the old pointer). *)
Definition KI_REALLOC (junk : kiovec) (key : list kiovec) (newcnt : Z) : ST mem (option (list kiovec)) := fun s =>
  match m_malloc s (m_count s) (16 * newcnt) with
  | None => Ok (None, Mem (S (m_count s)) (m_malloc s) (m_live s))
  | Some _ => Ok (Some (key ++ [junk]), Mem (S (m_count s)) (m_malloc s) (m_live s))
  end.

(** [for (i=newcnt-1; i>0; i--) memcpy(&new[i], &new[i-1], ...)] *)
Fixpoint move_down (new : list kiovec) (n : nat) : ST mem (list kiovec) :=
  match n with
  | O => mret new
  | S n' =>
      v ← array_rd new (Z.of_nat n');
      new ← array_wr new (Z.of_nat n) v;
      move_down new n'
  end.

Definition ki_keyprepend (junk : kiovec) (key : option (list kiovec)) (keycnt : Z)
    (keybuf : option buffer) (keylen : Z) : ST mem (option (list kiovec)) :=
  if bool_decide (key = None \/ keybuf = None) || (keylen >? MAXKEYLEN) then mret None else
  key ← deref_st key;
  let newcnt := keycnt + 1 in
  new ← KI_REALLOC junk key newcnt;
  new ← deref_st new;
  new ← move_down new (Z.to_nat keycnt);
  new ← array_wr new 0 (Kiovec keybuf keylen);
  mret (Some new).

Definition ki_keyappend (junk : kiovec) (key : option (list kiovec)) (keycnt : Z)
    (keybuf : option buffer) (keylen : Z) : ST mem (option (list kiovec)) :=
  if bool_decide (key = None \/ keybuf = None) || (keylen >? MAXKEYLEN) then mret None else
  key ← deref_st key;
  let newcnt := keycnt + 1 in
  new ← KI_REALLOC junk key newcnt;
  new ← deref_st new;
  new ← array_wr new (newcnt - 1) (Kiovec keybuf keylen);
  mret (Some new).

(** [ki_keydup]: when a buffer cannot be allocated, [ki_keydestroy(new, i-1)]
    has already freed the array that [KI_FREE(new)] frees again. *)
Fixpoint keydup_loop (key new : list kiovec) (n : nat) (i : Z) : ST mem (list kiovec) :=
  match n with
  | O => mret new
  | S n =>
      v ← array_rd key i;
      buf ← KI_MALLOC (kiov_len v);
      match buf with
      | None => ki_keydestroy (Some new) (u64 (i - 1)) ;; ub_st
      | Some _ =>
          bs ← iov_bytes_st v;
          new ← array_wr new i (Kiovec (Some bs) (kiov_len v));
          keydup_loop key new n (i + 1)
      end
  end.

Definition ki_keydup (key : option (list kiovec)) (keycnt : Z) : ST mem (option (list kiovec)) :=
  if keycnt =? 0 then mret None else
  arr ← KI_MALLOC (16 * keycnt);
  match arr with
  | None => mret None
  | Some _ =>
      key ← deref_st key;
      new ← keydup_loop key (replicate (Z.to_nat keycnt) (Kiovec None 0)) (Z.to_nat keycnt) 0;
      mret (Some new)
  end.

(** [ki_keydupf]: [klen] is an [int]. *)
Fixpoint keydupf_len (key : list kiovec) (n : nat) (i : Z) (klen : Z) : ST mem Z :=
  match n with
  | O => mret klen
  | S n =>
      v ← array_rd key i;
      keydupf_len key n (i + 1) (i32 (klen + kiov_len v))
  end.

(** The copy loop: [kbuf] is the buffer, [off] the offset the pointer has
    advanced to; a copy past the buffer has no meaning. *)
Fixpoint keydupf_copy (key : list kiovec) (n : nat) (i : Z) (kbuf : buffer) (off : Z) : ST mem buffer :=
  match n with
  | O => mret kbuf
  | S n =>
      v ← array_rd key i;
      bs ← iov_bytes_st v;
      if off + kiov_len v <=? zlen kbuf then
        keydupf_copy key n (i + 1)
          (take (Z.to_nat off) kbuf ++ bs ++ drop (Z.to_nat (off + kiov_len v)) kbuf) (off + kiov_len v)
      else ub_st
  end.

Definition ki_keydupf (key : option (list kiovec)) (cnt : Z) : ST mem (option (list kiovec)) :=
  if cnt =? 0 then mret None else
  arr ← KI_MALLOC 16;
  match arr with
  | None => mret None
  | Some _ =>
      key ← deref_st key;
      klen ← keydupf_len key (Z.to_nat cnt) 0 0;
      kbuf ← KI_MALLOC (u64 klen);
      match kbuf with
      | None => KI_FREE ;; mret None
      | Some kbuf =>
          kbuf ← keydupf_copy key (Z.to_nat cnt) 0 kbuf 0;
          mret (Some [Kiovec (Some kbuf) (u64 klen)])
      end
  end.

(** [ki_keyfirst], [ki_keylast] *)
Definition ki_keyfirst : ST mem (option (list kiovec)) :=
  key ← KI_MALLOC 16;
  match key with
  | None => mret None
  | Some _ =>
      base ← KI_MALLOC 1;
      match base with
      | None => KI_FREE ;; mret None
      | Some _ => mret (Some [Kiovec (Some [0]) 1])
      end
  end.

(** [for(i=0; i<len; i++) buf[i] = 0xFF] *)
Fixpoint fill_ff (buf : buffer) (n : nat) (i : Z) : ST mem buffer :=
  match n with
  | O => mret buf
  | S n => buf ← array_wr buf i 255; fill_ff buf n (i + 1)
  end.

Definition ki_keylast (len : Z) : ST mem (option (list kiovec)) :=
  key ← KI_MALLOC 16;
  match key with
  | None => mret None
  | Some _ =>
      buf ← KI_MALLOC len;
      match buf with
      | None => KI_FREE ;; mret None
      | Some buf => buf ← fill_ff buf (Z.to_nat len) 0; mret (Some [Kiovec (Some buf) len])
      end
  end.

(** [ki_rangecpy]: the value returned (NULL or the destination) and the
    destination afterwards; after a failure some of its pointers may be to
    blocks that were freed, and its counts are the source's. *)
Definition ki_rangecpy (dst : option krange) (src : krange) : ST mem (option krange * option krange) :=
  match dst with
  | None => mret (None, None)
  | Some d =>
      start ← ki_keydup (kr_start src) (kr_startcnt src);
      let d1 := Krange (kr_flags d) start (kr_startcnt src) (kr_end d) (kr_endcnt d)
                  (kr_count d) (kr_keys d) (kr_keyscnt d) in
      if bool_decide (kr_start src <> None) && bool_decide (start = None) then mret (None, Some d1) else
      end_ ← ki_keydup (kr_end src) (kr_endcnt src);
      let d2 := Krange (kr_flags d) start (kr_startcnt src) end_ (kr_endcnt src)
                  (kr_count d) (kr_keys d) (kr_keyscnt d) in
      if bool_decide (kr_end src <> None) && bool_decide (end_ = None) then
        ki_keydestroy start (kr_startcnt src) ;; mret (None, Some d2)
      else
      keys ← ki_keydup (kr_keys src) (kr_keyscnt src);
      let d3 := Krange (kr_flags d) start (kr_startcnt src) end_ (kr_endcnt src)
                  (kr_count d) keys (kr_keyscnt src) in
      if bool_decide (kr_keys src <> None) && bool_decide (keys = None) then
        ki_keydestroy start (kr_startcnt src) ;; ki_keydestroy end_ (kr_endcnt src) ;;
        mret (None, Some d3)
      else
      let d4 := Krange (kr_flags src) start (kr_startcnt src) end_ (kr_endcnt src)
                  (kr_count src) keys (kr_keyscnt src) in
      mret (Some d4, Some d4)
  end.

(** ** What the operations compute *)
Definition mem_ok (s : mem) : Prop := forall n size, is_Some (m_malloc s n size).

(** The buffers a vector denotes, one per kiovec *)
Definition vec_bytes (key : list kiovec) (bs : list buffer) : Prop :=
  Forall2 (fun v b => iov_bytes v = Ok b /\ 0 <= kiov_len v) key bs.

Lemma iov_bytes_len v b : iov_bytes v = Ok b -> 0 <= kiov_len v -> zlen b = kiov_len v.
Proof.
  unfold iov_bytes, zlen. intros H Hpos. destruct (kiov_base v) as [bb|].
  - case_if; [|done]. zbool. injection H as <-. rewrite length_take. lia.
  - case_if; [|done]. zbool. injection H as <-. cbn. lia.
Qed.

Lemma iov_bytes_full b : iov_bytes (Kiovec (Some b) (zlen b)) = Ok b.
Proof.
  unfold iov_bytes. cbn. replace (zlen b <=? zlen b) with true by lia.
  unfold zlen. by rewrite Nat2Z.id, take_ge.
Qed.

Lemma KI_MALLOC_ok s size :
  mem_ok s -> exists b s', KI_MALLOC size s = Ok (Some b, s') /\ mem_ok s' /\
    zlen b = Z.max 0 size /\ m_live s' = m_live s + 1.
Proof.
  intros H. unfold KI_MALLOC. destruct (H (m_count s) size) as [f ->].
  do 2 eexists. split; [done|]. split; [done|]. split; [|done].
  unfold zlen. rewrite length_fmap, length_seq. lia.
Qed.

(** Reading the element at the border of what a loop has processed *)
Lemma array_rd_middle {S A} (l1 l2 : list A) x (s : S) i :
  i = zlen l1 -> array_rd (l1 ++ x :: l2) i s = Ok (x, s).
Proof.
  intros ->. unfold array_rd, array_read, zlen. replace (Z.of_nat (length l1) <? 0) with false
    by (symmetry; apply Z.ltb_ge, Nat2Z.is_nonneg).
  rewrite Nat2Z.id. by rewrite list_lookup_middle.
Qed.

Lemma array_wr_middle {S A} (l1 l2 : list A) x y (s : S) i :
  i = zlen l1 -> array_wr (l1 ++ x :: l2) i y s = Ok (l1 ++ y :: l2, s).
Proof.
  intros ->. unfold array_wr. rewrite array_write_ok.
  - unfold zlen. rewrite Nat2Z.id, insert_app_r_alt, Nat.sub_diag by lia. done.
  - rewrite zlen_app. unfold zlen. cbn [length]. lia.
Qed.

(** *** Flattening *)
Lemma keydupf_len_run s key bs l1 l2 klen :
  key = l1 ++ l2 -> vec_bytes l2 bs -> 0 <= klen -> klen + zlen (concat bs) < 2 ^ 31 ->
  keydupf_len key (length l2) (zlen l1) klen s = Ok (klen + zlen (concat bs), s).
Proof.
  intros -> Hv. revert l1 klen. induction Hv as [|v b l2 bs [Hb Hpos] Hv IH]; intros l1 klen H0 Hlt.
  - cbn [keydupf_len length concat]. unfold mret, ST_ret, zlen. cbn [length]. do 2 f_equal. lia.
  - cbn [keydupf_len length]. erewrite bind_Ok by by apply array_rd_middle.
    cbn [concat] in *. rewrite zlen_app in *.
    pose proof (iov_bytes_len v b Hb Hpos). pose proof (zlen_nonneg (concat bs)).
    rewrite i32_small by lia.
    replace (zlen l1 + 1) with (zlen (l1 ++ [v])) by (rewrite zlen_app; unfold zlen; cbn; lia).
    replace (l1 ++ v :: l2) with ((l1 ++ [v]) ++ l2) by by rewrite <- app_assoc.
    rewrite IH by lia. do 2 f_equal. lia.
Qed.

Lemma keydupf_copy_run s key bs l1 l2 done_ rest :
  key = l1 ++ l2 -> vec_bytes l2 bs -> zlen rest = zlen (concat bs) ->
  keydupf_copy key (length l2) (zlen l1) (done_ ++ rest) (zlen done_) s = Ok (done_ ++ concat bs, s).
Proof.
  intros -> Hv. revert l1 done_ rest. induction Hv as [|v b l2 bs [Hb Hpos] Hv IH]; intros l1 done_ rest Hr.
  - cbn. destruct rest; [done|]. unfold zlen in Hr. cbn [length concat] in Hr. lia.
  - cbn [keydupf_copy length]. erewrite bind_Ok by by apply array_rd_middle.
    erewrite bind_Ok by (unfold iov_bytes_st; by rewrite Hb).
    cbn [concat] in *. rewrite zlen_app in Hr. pose proof (iov_bytes_len v b Hb Hpos) as Hlen.
    pose proof (zlen_nonneg (concat bs)).
    replace (zlen done_ + kiov_len v <=? zlen (done_ ++ rest)) with true by (rewrite zlen_app; lia).
    rewrite <- Hlen.
    replace (Z.to_nat (zlen done_)) with (length done_) by (unfold zlen; lia).
    replace (Z.to_nat (zlen done_ + zlen b)) with (length done_ + length b)%nat by (unfold zlen; lia).
    rewrite take_app_length, <- drop_drop, drop_app_length.
    replace (zlen l1 + 1) with (zlen (l1 ++ [v])) by (rewrite zlen_app; unfold zlen; cbn; lia).
    replace (l1 ++ v :: l2) with ((l1 ++ [v]) ++ l2) by by rewrite <- app_assoc.
    rewrite app_assoc, <- (zlen_app done_ b). rewrite IH.
    + by rewrite <- app_assoc.
    + unfold zlen in *. rewrite length_drop. lia.
Qed.

Lemma ki_keydupf_run s key bs :
  mem_ok s -> vec_bytes key bs -> key <> [] -> zlen (concat bs) < 2 ^ 31 ->
  exists s', ki_keydupf (Some key) (zlen key) s =
      Ok (Some [Kiovec (Some (concat bs)) (zlen (concat bs))], s') /\
    m_live s' = m_live s + 2 /\ mem_ok s'.
Proof.
  intros Hm Hv Hne Hlt. unfold ki_keydupf. rewrite zlen_eqb0. destruct key as [|v key]; [done|].
  set (k := v :: key) in *.
  destruct (KI_MALLOC_ok s 16 Hm) as (a & s1 & H1 & Hm1 & _ & Hl1). erewrite bind_Ok by exact H1.
  cbn beta iota. erewrite bind_Ok by done.
  replace (Z.to_nat (zlen k)) with (length k) by (unfold zlen; lia).
  erewrite bind_Ok by (apply (keydupf_len_run s1 k bs [] k 0); [done|done|lia|lia]).
  rewrite Z.add_0_l. pose proof (zlen_nonneg (concat bs)).
  rewrite u64_small by lia.
  destruct (KI_MALLOC_ok s1 (zlen (concat bs)) Hm1) as (kb & s2 & H2 & Hm2 & Hkb & Hl2).
  erewrite bind_Ok by exact H2. cbn beta iota.
  erewrite bind_Ok by (apply (keydupf_copy_run s2 k bs [] k [] kb); [done|done|lia]).
  exists s2. split; [done|]. split; [lia|done].
Qed.

(** [ki_keydupf] returns a key of one element whose bytes are those of the
    original vector concatenated in order, as long as they fit an [int]. *)
Theorem ki_keydupf_spec s key bs :
  mem_ok s -> vec_bytes key bs -> key <> [] -> zlen (concat bs) < 2 ^ 31 ->
  exists s', ki_keydupf (Some key) (zlen key) s =
      Ok (Some [Kiovec (Some (concat bs)) (zlen (concat bs))], s') /\
    iov_bytes (Kiovec (Some (concat bs)) (zlen (concat bs))) = Ok (concat bs) /\
    m_live s' = m_live s + 2.
Proof.
  intros Hm Hv Hne Hlt. destruct (ki_keydupf_run s key bs Hm Hv Hne Hlt) as (s' & H & Hl & _).
  exists s'. split; [exact H|]. split; [apply iov_bytes_full|exact Hl].
Qed.

Lemma ki_keydupf_spec_witness :
  let s := Mem 0 (fun _ _ => Some (fun _ => 7)) 0 in
  let key := [Kiovec (Some [1; 2; 3]) 2; Kiovec (Some [9]) 1] in
  mem_ok s /\ vec_bytes key [[1; 2]; [9]] /\
  exists s', ki_keydupf (Some key) 2 s = Ok (Some [Kiovec (Some [1; 2; 9]) 3], s').
Proof.
  intros s key.
  assert (Hm : mem_ok s) by (intros ??; by eexists).
  assert (Hv : vec_bytes key [[1; 2]; [9]]) by (repeat constructor; done).
  split; [exact Hm|]. split; [exact Hv|].
  destruct (ki_keydupf_spec s key [[1; 2]; [9]] Hm Hv ltac:(discriminate) ltac:(vm_compute; reflexivity))
    as (s' & H & _).
  exists s'. exact H.
Defined.

(** *** Duplication *)
Lemma keydestroy_loop_run key : forall l1 l2 s,
  key = l1 ++ l2 -> Forall (fun v => is_Some (kiov_base v)) l2 ->
  exists s', keydestroy_loop key (length l2) (zlen l1) s = Ok (tt, s') /\
    m_live s' = m_live s - zlen l2 /\ m_malloc s' = m_malloc s.
Proof.
  intros l1 l2 s -> Hv. revert l1 s. induction Hv as [|v l2 [b Hb] Hv IH]; intros l1 s.
  - exists s. split; [done|]. split; [unfold zlen; cbn [length]; lia|done].
  - cbn [keydestroy_loop length]. erewrite bind_Ok by by apply array_rd_middle.
    rewrite Hb. erewrite bind_Ok by done.
    replace (zlen l1 + 1) with (zlen (l1 ++ [v])) by (rewrite zlen_app; unfold zlen; cbn [length]; lia).
    replace (l1 ++ v :: l2) with ((l1 ++ [v]) ++ l2) by by rewrite <- app_assoc.
    edestruct IH as (s' & H & Hl & Hm). exists s'. split; [exact H|]. split; [|done].
    rewrite Hl. unfold zlen. cbn [length m_live]. lia.
Qed.

Lemma keydup_loop_run key bs l1 l2 d1 s :
  key = l1 ++ l2 -> length d1 = length l1 -> vec_bytes l2 bs -> mem_ok s ->
  exists s', keydup_loop key (d1 ++ replicate (length l2) (Kiovec None 0)) (length l2) (zlen l1) s =
      Ok (d1 ++ ((fun b => Kiovec (Some b) (zlen b)) <$> bs), s') /\
    mem_ok s' /\ m_live s' = m_live s + zlen l2.
Proof.
  intros -> Hd Hv. revert l1 d1 s Hd.
  induction Hv as [|v b l2 bs [Hb Hpos] Hv IH]; intros l1 d1 s Hd Hm.
  - exists s. split; [done|]. split; [done|]. unfold zlen; cbn [length]; lia.
  - cbn [keydup_loop length replicate]. erewrite bind_Ok by by apply array_rd_middle.
    destruct (KI_MALLOC_ok s (kiov_len v) Hm) as (a & s1 & H1 & Hm1 & _ & Hl1).
    erewrite bind_Ok by exact H1. cbn beta iota.
    erewrite bind_Ok by (unfold iov_bytes_st; by rewrite Hb).
    erewrite bind_Ok by (apply array_wr_middle; unfold zlen; lia).
    replace (zlen l1 + 1) with (zlen (l1 ++ [v])) by (rewrite zlen_app; unfold zlen; cbn [length]; lia).
    replace (l1 ++ v :: l2) with ((l1 ++ [v]) ++ l2) by by rewrite <- app_assoc.
    rewrite <- (iov_bytes_len v b Hb Hpos).
    set (w := Kiovec (Some b) (zlen b)).
    replace (d1 ++ w :: replicate (length l2) (Kiovec None 0))
      with ((d1 ++ [w]) ++ replicate (length l2) (Kiovec None 0)) by by rewrite <- app_assoc.
    destruct (IH (l1 ++ [v]) (d1 ++ [w]) s1) as (s' & H & Hm' & Hl');
      [by rewrite !length_app, Hd|done|].
    exists s'. split; [rewrite H; rewrite <- app_assoc; done|]. split; [done|].
    rewrite Hl', Hl1. unfold zlen. cbn [length]. lia.
Qed.

Definition dup_of (bs : list buffer) : list kiovec := (fun b => Kiovec (Some b) (zlen b)) <$> bs.

Lemma dup_of_bytes bs : vec_bytes (dup_of bs) bs.
Proof.
  induction bs as [|b bs IH]; [by constructor|]. constructor; [|exact IH].
  split; [apply iov_bytes_full|apply zlen_nonneg].
Qed.

Lemma ki_keydup_run s key bs :
  mem_ok s -> vec_bytes key bs ->
  exists s', ki_keydup (Some key) (zlen key) s =
      Ok (if bool_decide (key = []) then None else Some (dup_of bs), s') /\
    mem_ok s' /\ m_live s' = m_live s + (if bool_decide (key = []) then 0 else zlen key + 1).
Proof.
  intros Hm Hv. unfold ki_keydup. rewrite zlen_eqb0. destruct key as [|v key].
  { exists s. split; [done|]. split; [done|]. rewrite bool_decide_true by done. lia. }
  rewrite !bool_decide_false by done. set (k := v :: key) in *.
  destruct (KI_MALLOC_ok s (16 * zlen k) Hm) as (a & s1 & H1 & Hm1 & _ & Hl1).
  erewrite bind_Ok by exact H1. cbn beta iota. erewrite bind_Ok by done.
  replace (Z.to_nat (zlen k)) with (length k) by (unfold zlen; lia).
  destruct (keydup_loop_run k bs [] k [] s1) as (s' & H & Hm' & Hl'); [done..|].
  exists s'. erewrite bind_Ok by exact H. split; [done|]. split; [done|]. lia.
Qed.

(** [ki_keydup] returns a vector with the same buffers, each in a block of
    its own, that owns one block per element and one for the array; and
    [ki_keydestroy] of it gives back exactly those blocks. *)
Theorem ki_keydup_destroy s key bs :
  mem_ok s -> vec_bytes key bs -> key <> [] ->
  exists s' s'', ki_keydup (Some key) (zlen key) s = Ok (Some (dup_of bs), s') /\
    vec_bytes (dup_of bs) bs /\ m_live s' = m_live s + zlen key + 1 /\
    ki_keydestroy (Some (dup_of bs)) (zlen key) s' = Ok (tt, s'') /\ m_live s'' = m_live s.
Proof.
  intros Hm Hv Hne. destruct (ki_keydup_run s key bs Hm Hv) as (s' & H & Hm' & Hl).
  rewrite !bool_decide_false in * by done. exists s'.
  assert (Hlen : length (dup_of bs) = length key).
  { unfold dup_of. rewrite length_fmap. symmetry. eapply Forall2_length, Hv. }
  destruct (keydestroy_loop_run (dup_of bs) [] (dup_of bs) s') as (s2 & H2 & Hl2 & _); [done| |].
  { unfold dup_of. apply Forall_fmap, Forall_true. by eexists. }
  exists (Mem (m_count s2) (m_malloc s2) (m_live s2 - 1)). split; [exact H|].
  split; [apply dup_of_bytes|]. split; [lia|]. split.
  - unfold ki_keydestroy. replace (Z.to_nat (zlen key)) with (length (dup_of bs)) by (unfold zlen; lia).
    erewrite bind_Ok by exact H2. done.
  - cbn [m_live]. unfold zlen in *. lia.
Qed.

Lemma ki_keydup_destroy_witness :
  let s := Mem 0 (fun _ _ => Some (fun _ => 7)) 0 in
  let key := [Kiovec (Some [1; 2; 3]) 2; Kiovec (Some [9]) 1] in
  exists s' s'', ki_keydup (Some key) 2 s = Ok (Some (dup_of [[1; 2]; [9]]), s') /\
    ki_keydestroy (Some (dup_of [[1; 2]; [9]])) 2 s' = Ok (tt, s'') /\ m_live s'' = 0.
Proof.
  intros s key.
  destruct (ki_keydup_destroy s key [[1; 2]; [9]] ltac:(intros ??; by eexists)
    ltac:(repeat constructor; done) ltac:(discriminate)) as (s' & s'' & H1 & _ & _ & H2 & H3).
  exists s', s''. split; [exact H1|]. split; [exact H2|exact H3].
Defined.

(** *** Extending a vector *)
Lemma move_down_run s l y l2 :
  move_down (l ++ y :: l2) (length l) s = Ok (hd y l :: l ++ l2, s).
Proof.
  revert y l2. induction l as [|z l IH] using rev_ind; intros y l2; [done|].
  rewrite length_app, Nat.add_1_r. cbn [move_down].
  replace ((l ++ [z]) ++ y :: l2) with (l ++ z :: y :: l2) by by rewrite <- app_assoc.
  erewrite bind_Ok by (apply array_rd_middle; done).
  replace (l ++ z :: y :: l2) with ((l ++ [z]) ++ y :: l2) by by rewrite <- app_assoc.
  erewrite bind_Ok by (apply array_wr_middle; unfold zlen; rewrite length_app; cbn [length]; lia).
  replace ((l ++ [z]) ++ z :: l2) with (l ++ z :: (z :: l2)) by by rewrite <- app_assoc.
  rewrite IH, <- app_assoc. by destruct l.
Qed.

Lemma KI_REALLOC_ok s junk key n :
  mem_ok s -> exists s', KI_REALLOC junk key n s = Ok (Some (key ++ [junk]), s') /\
    mem_ok s' /\ m_live s' = m_live s.
Proof.
  intros H. unfold KI_REALLOC. destruct (H (m_count s) (16 * n)) as [f ->]. by eexists.
Qed.

(** [ki_keyprepend] and [ki_keyappend] put the caller's buffer before and
    after the elements of the key, whatever the reallocation left in the new
    element, so the bytes of the key are extended at that end. *)
Theorem ki_keyprepend_append s junk key buf keylen :
  mem_ok s -> 0 <= keylen <= MAXKEYLEN ->
  (exists s', ki_keyprepend junk (Some key) (zlen key) (Some buf) keylen s =
     Ok (Some (Kiovec (Some buf) keylen :: key), s')) /\
  (exists s', ki_keyappend junk (Some key) (zlen key) (Some buf) keylen s =
     Ok (Some (key ++ [Kiovec (Some buf) keylen]), s')).
Proof.
  intros Hm Hl. unfold ki_keyprepend, ki_keyappend.
  rewrite bool_decide_false by (intros [?|?]; done).
  replace (keylen >? MAXKEYLEN) with false by lia. cbn [orb].
  destruct (KI_REALLOC_ok s junk key (zlen key + 1) Hm) as (s' & H & _ & _).
  split; exists s'; erewrite bind_Ok by done; erewrite bind_Ok by exact H;
    (erewrite bind_Ok by done).
  - replace (Z.to_nat (zlen key)) with (length key) by (unfold zlen; lia).
    erewrite bind_Ok by apply move_down_run. by rewrite app_nil_r.
  - erewrite bind_Ok by (apply array_wr_middle; lia). done.
Qed.

Lemma ki_keyprepend_append_witness :
  let s := Mem 0 (fun _ _ => Some (fun _ => 7)) 0 in
  let key := [Kiovec (Some [1]) 1; Kiovec (Some [9]) 1] in
  exists s', ki_keyprepend (Kiovec None 77) (Some key) 2 (Some [5]) 1 s =
    Ok (Some [Kiovec (Some [5]) 1; Kiovec (Some [1]) 1; Kiovec (Some [9]) 1], s').
Proof.
  intros s key.
  destruct (ki_keyprepend_append s (Kiovec None 77) key [5] 1 ltac:(intros ??; by eexists)
    ltac:(unfold MAXKEYLEN; lia)) as [[s' H] _].
  exists s'. exact H.
Defined.

(** *** First and last key *)

(** The order of keys: lexicographic on bytes, a prefix before its extensions. *)
Fixpoint key_le (k1 k2 : buffer) : bool :=
  match k1, k2 with
  | [], _ => true
  | _ :: _, [] => false
  | x :: k1, y :: k2 => (x <? y) || ((x =? y) && key_le k1 k2)
  end.

Lemma key_le_last k n :
  Forall (fun b => 0 <= b < 256) k -> (length k <= n)%nat -> key_le k (replicate n 255) = true.
Proof.
  intros Hk. revert n. induction Hk as [|x k Hx Hk IH]; intros n Hn; [done|].
  destruct n as [|n]; cbn [length] in Hn; [lia|]. cbn [replicate key_le].
  rewrite IH by lia. destruct (x <? 255) eqn:E; [done|]. zbool. cbn [orb].
  by replace (x =? 255) with true by lia.
Qed.

Lemma fill_ff_run l1 l2 (s : mem) :
  fill_ff (l1 ++ l2) (length l2) (zlen l1) s = Ok (l1 ++ replicate (length l2) 255, s).
Proof.
  revert l1. induction l2 as [|x l2 IH]; intros l1; [done|].
  cbn [length fill_ff replicate]. erewrite bind_Ok by by apply array_wr_middle.
  replace (zlen l1 + 1) with (zlen (l1 ++ [255])) by (rewrite zlen_app; unfold zlen; cbn [length]; lia).
  replace (l1 ++ 255 :: l2) with ((l1 ++ [255]) ++ l2) by by rewrite <- app_assoc.
  rewrite IH. by rewrite <- app_assoc.
Qed.

(** [ki_keyfirst] returns a key no later than any key of at least one
    byte, and [ki_keylast] of a length a key no earlier than any key of at most
    that length, in the order of the bytes. *)
Theorem ki_key_extremes s len :
  mem_ok s -> 0 <= len ->
  exists first last s1 s2,
    ki_keyfirst s = Ok (Some [first], s1) /\ ki_keylast len s = Ok (Some [last], s2) /\
    exists bf bl, iov_bytes first = Ok bf /\ iov_bytes last = Ok bl /\ zlen bl = len /\
      forall k, Forall (fun b => 0 <= b < 256) k -> 1 <= zlen k <= len ->
        key_le bf k = true /\ key_le k bl = true.
Proof.
  intros Hm Hlen. unfold ki_keyfirst, ki_keylast.
  destruct (KI_MALLOC_ok s 16 Hm) as (a & s1 & H1 & Hm1 & _ & _).
  destruct (KI_MALLOC_ok s1 1 Hm1) as (a2 & s2 & H2 & _ & _ & _).
  destruct (KI_MALLOC_ok s1 len Hm1) as (a3 & s3 & H3 & _ & Hl3 & _).
  exists (Kiovec (Some [0]) 1), (Kiovec (Some (replicate (Z.to_nat len) 255)) len), s2, s3.
  assert (Ha : length a3 = Z.to_nat len) by (unfold zlen in Hl3; lia).
  split; [erewrite bind_Ok by exact H1; cbn beta iota; by erewrite bind_Ok by exact H2|].
  split.
  { erewrite bind_Ok by exact H1. cbn beta iota. erewrite bind_Ok by exact H3. cbn beta iota.
    rewrite <- Ha. by erewrite bind_Ok by apply (fill_ff_run [] a3). }
  exists [0], (replicate (Z.to_nat len) 255). split; [done|].
  assert (Hz : zlen (replicate (Z.to_nat len) 255) = len)
    by (unfold zlen; rewrite length_replicate; lia).
  split; [rewrite <- Hz at 2; apply iov_bytes_full|]. split; [exact Hz|].
  intros k Hk Hkl. split.
  - destruct Hk as [|x k Hx Hk]; [unfold zlen in Hkl; cbn [length] in Hkl; lia|].
    cbn [key_le]. destruct (0 <? x) eqn:E; [done|]. by replace (0 =? x) with true by lia.
  - apply key_le_last; [exact Hk|]. unfold zlen in Hkl. lia.
Qed.

Lemma ki_key_extremes_witness :
  let s := Mem 0 (fun _ _ => Some (fun _ => 7)) 0 in
  mem_ok s /\ exists first last s1 s2,
    ki_keyfirst s = Ok (Some [first], s1) /\ ki_keylast 4 s = Ok (Some [last], s2).
Proof.
  intros s. assert (Hm : mem_ok s) by (intros ??; by eexists). split; [exact Hm|].
  destruct (ki_key_extremes s 4 Hm ltac:(lia)) as (f & l & s1 & s2 & H1 & H2 & _).
  exists f, l, s1, s2. split; [exact H1|exact H2].
Defined.

(** *** Copying a range *)

(** A key of a range: absent (NULL, count 0), or a non-empty vector denoting
    [bs]. *)
Definition key_denotes (key : option (list kiovec)) (cnt : Z) (b : option (list buffer)) : Prop :=
  match key, b with
  | None, None => cnt = 0
  | Some key, Some bs => key <> [] /\ cnt = zlen key /\ vec_bytes key bs
  | _, _ => False
  end.

Lemma ki_keydup_denotes s key cnt b :
  mem_ok s -> key_denotes key cnt b ->
  exists s', ki_keydup key cnt s = Ok (dup_of <$> b, s') /\ mem_ok s' /\
    key_denotes (dup_of <$> b) cnt b.
Proof.
  intros Hm Hd. destruct key as [key|], b as [bs|]; cbn in Hd; try done.
  - destruct Hd as (Hne & -> & Hv). destruct (ki_keydup_run s key bs Hm Hv) as (s' & H & Hm' & _).
    rewrite bool_decide_false in H by done. exists s'. split; [exact H|]. split; [done|].
    pose proof (Forall2_length _ _ _ Hv). cbn. split_and!.
    + destruct bs; [by destruct key|done].
    + unfold zlen, dup_of. rewrite length_fmap. by f_equal.
    + apply dup_of_bytes.
  - subst cnt. by exists s.
Qed.

(** A range whose keys denote [s], [e] and [ks] *)
Definition range_denotes (r : krange) (s e ks : option (list buffer)) : Prop :=
  key_denotes (kr_start r) (kr_startcnt r) s /\ key_denotes (kr_end r) (kr_endcnt r) e /\
  key_denotes (kr_keys r) (kr_keyscnt r) ks.

Definition range_of (r : krange) (s e ks : option (list buffer)) : krange :=
  Krange (kr_flags r) (dup_of <$> s) (kr_startcnt r) (dup_of <$> e) (kr_endcnt r)
    (kr_count r) (dup_of <$> ks) (kr_keyscnt r).

Lemma ki_rangecpy_run m d r s e ks :
  mem_ok m -> range_denotes r s e ks ->
  exists m', ki_rangecpy (Some d) r m =
      Ok ((Some (range_of r s e ks), Some (range_of r s e ks)), m') /\ mem_ok m' /\
    range_denotes (range_of r s e ks) s e ks.
Proof.
  intros Hm (Hs & He & Hk). unfold ki_rangecpy.
  destruct (ki_keydup_denotes m _ _ s Hm Hs) as (m1 & H1 & Hm1 & Hs').
  erewrite bind_Ok by exact H1. cbv beta zeta.
  replace (bool_decide (kr_start r <> None) && _) with false
    by (destruct (kr_start r), s; try done).
  destruct (ki_keydup_denotes m1 _ _ e Hm1 He) as (m2 & H2 & Hm2 & He').
  erewrite bind_Ok by exact H2. cbv beta zeta.
  replace (bool_decide (kr_end r <> None) && _) with false
    by (destruct (kr_end r), e; try done).
  destruct (ki_keydup_denotes m2 _ _ ks Hm2 Hk) as (m3 & H3 & Hm3 & Hk').
  erewrite bind_Ok by exact H3. cbv beta zeta.
  replace (bool_decide (kr_keys r <> None) && _) with false
    by (destruct (kr_keys r), ks; try done).
  exists m3. split; [done|]. split; [done|]. by split_and!.
Qed.

Lemma keydestroy_loop_total key l1 l2 s :
  key = l1 ++ l2 -> mem_ok s ->
  exists s', keydestroy_loop key (length l2) (zlen l1) s = Ok (tt, s') /\ mem_ok s'.
Proof.
  intros ->. revert l1 s. induction l2 as [|v l2 IH]; intros l1 s Hm; [by exists s|].
  cbn [keydestroy_loop length]. erewrite bind_Ok by by apply array_rd_middle.
  replace (zlen l1 + 1) with (zlen (l1 ++ [v])) by (rewrite zlen_app; unfold zlen; cbn [length]; lia).
  replace (l1 ++ v :: l2) with ((l1 ++ [v]) ++ l2) by by rewrite <- app_assoc.
  destruct (kiov_base v); (erewrite bind_Ok by done); by apply IH.
Qed.

Lemma ki_keydestroy_denotes s key cnt b :
  mem_ok s -> key_denotes key cnt b ->
  exists s', ki_keydestroy key cnt s = Ok (tt, s') /\ mem_ok s'.
Proof.
  intros Hm Hd. destruct key as [key|]; [|by exists s].
  destruct b as [bs|]; [|done]. destruct Hd as (_ & -> & _).
  destruct (keydestroy_loop_total key [] key s) as (s' & H & Hm'); [done..|].
  unfold ki_keydestroy. replace (Z.to_nat (zlen key)) with (length key) by (unfold zlen; lia).
  eexists. split; [by erewrite bind_Ok by exact H|done].
Qed.

(** A key array that is present with count 0 cannot be copied. *)
Lemma ki_rangecpy_empty_start m d r key :
  kr_start r = Some key -> kr_startcnt r = 0 ->
  exists d', ki_rangecpy (Some d) r m = Ok ((None, Some d'), m).
Proof.
  intros Hk Hc. unfold ki_rangecpy. rewrite Hk, Hc. by eexists.
Qed.

(** *** The strict order of keys *)
Fixpoint key_lt (k1 k2 : buffer) : bool :=
  match k1, k2 with
  | _, [] => false
  | [], _ :: _ => true
  | x :: k1, y :: k2 => (x <? y) || ((x =? y) && key_lt k1 k2)
  end.

Lemma key_lt_irrefl k : key_lt k k = false.
Proof. induction k as [|x k IH]; [done|]. cbn. rewrite IH, Z.ltb_irrefl. by rewrite andb_false_r. Qed.

Lemma key_le_lt_trans k1 k2 k3 : key_le k1 k2 = true -> key_lt k2 k3 = true -> key_lt k1 k3 = true.
Proof.
  revert k2 k3. induction k1 as [|x k1 IH]; intros [|y k2] [|z k3]; cbn; try done.
  intros H1 H2. specialize (IH k2 k3).
  destruct (x <? y) eqn:?, (y <? z) eqn:?, (x =? y) eqn:?, (y =? z) eqn:?; cbn in *; zbool; try done; try lia.
  all: try (replace (x <? z) with true by lia; done).
  rewrite IH by done. by replace (x =? z) with true by lia; rewrite orb_true_r.
Qed.

Lemma key_lt_le k1 k2 : key_lt k1 k2 = true -> key_le k1 k2 = true.
Proof.
  revert k2. induction k1 as [|x k1 IH]; intros [|y k2]; cbn; try done.
  intros H. destruct (x <? y); [done|]. cbn in *. apply andb_true_iff in H as [-> H]. by rewrite IH.
Qed.

Lemma key_lt_asym k1 k2 : key_lt k1 k2 = true -> key_lt k2 k1 = false.
Proof.
  intros H. destruct (key_lt k2 k1) eqn:H2; [|done].
  pose proof (key_le_lt_trans k1 k2 k1 (key_lt_le _ _ H) H2). by rewrite key_lt_irrefl in *.
Qed.
