(* ===== verification/Ktb.v ===== *)
(** Kinetic typed buffers: [src/ktb.c], with the life of an iterator's ranges
    ([i_iterinit], [i_rangeclean], [i_iterdestroy] of [src/iter.c]) that
    [ki_create] and [ki_destroy] run.

    The heap maps the address of a [ktb_buf] to its buffer: the management
    fields of [ktb_t] and the structure the caller sees.  Reading the header of
    an address that is not in the heap has no meaning (the source reads
    [sizeof(ktb_t)] bytes before the pointer). *)

From stdpp Require Import gmap.
From S2P Require Import Prelude Types Keys.

(** [ki_t], the structure behind [kiter_t] *)
Record kiter := Kiter {
  ki_ktd : Z; ki_rreq : option ptr; ki_rwin1 : option ptr; ki_rwin2 : option ptr;
  ki_curwin : option ptr; ki_curkey : Z; ki_seenkeys : Z; ki_maxkeyreq : Z }.

Record kapplet := Kapplet {
  ka_fnkey : option (list (option ptr)); ka_fnkeycnt : Z; ka_fntype : Z; ka_flags : Z;
  ka_argv : option (list (option buffer)); ka_argc : Z;
  ka_outkey : option ptr; ka_rc : Z; ka_sig : Z;
  ka_msg : option buffer; ka_stdout : option buffer; ka_stdoutlen : Z }.

(** The strings an applet owns, and its result codes *)
Definition set_ka_out (msg out : option buffer) (len : Z) (a : kapplet) : kapplet :=
  Kapplet (ka_fnkey a) (ka_fnkeycnt a) (ka_fntype a) (ka_flags a) (ka_argv a) (ka_argc a) (ka_outkey a)
    (ka_rc a) (ka_sig a) msg out len.
Definition set_ka_codes (rc sig : Z) (a : kapplet) : kapplet :=
  Kapplet (ka_fnkey a) (ka_fnkeycnt a) (ka_fntype a) (ka_flags a) (ka_argv a) (ka_argc a) (ka_outkey a)
    rc sig (ka_msg a) (ka_stdout a) (ka_stdoutlen a).

(** What [ktb_buf] holds; [kversion_t] and [kstats_t] are not looked into. *)
Inductive ktb_data : Type :=
| DKv (v : kv) | DRange (r : krange) | DIter (i : kiter) | DBatch (b : kb)
| DGetlog (g : kgetlog) | DVersion | DStats | DApplet (a : kapplet).

Record ktb := Ktb {
  ktb_magic : Z; ktb_type : Z; ktb_len : Z; ktb_ktd : Z;
  ktb_ctx : option ptr; ktb_destroy : option Z;
  ktb_buf : ktb_data }.

Definition set_ktb_buf (d : ktb_data) (k : ktb) : ktb :=
  Ktb (ktb_magic k) (ktb_type k) (ktb_len k) (ktb_ktd k) (ktb_ctx k) (ktb_destroy k) d.

Record heap := Heap { h_mem : mem; h_blocks : gmap ptr ktb }.

Definition KTB_MAGIC : Z := 0x000000465542544b.
Definition sizeof_ktb : Z := 40.

(** The sizes of the public structures are the compiler's. *)
Class Sizes := {
  sizeof_kv : Z; sizeof_krange : Z; sizeof_ki : Z; sizeof_kb : Z;
  sizeof_kgetlog : Z; sizeof_kversion : Z; sizeof_kstats : Z; sizeof_kapplet : Z }.

(** What the module calls outside itself: [ktli_config] for the limits of the
    session behind a descriptor, [b_startbatch], and the type specific destroy
    routines, which the heap stores by number. *)
Class KtbEnv := {
  config_limits : Z -> option klimits;
  b_startbatch : Z -> ptr -> ST heap Z;
  ktb_callback : Z -> option ptr -> ST heap unit }.

(** *** Access to the heap *)
Definition on_mem {A} (m : ST mem A) : ST heap A := fun h =>
  match m (h_mem h) with
  | Ok (a, s) => Ok (a, Heap s (h_blocks h))
  | Ub => Ub | Hang => Hang | NoFuel => NoFuel
  end.

Definition ktb_base (p : ptr) : ST heap ktb := fun h =>
  match h_blocks h !! p with Some k => Ok (k, h) | None => Ub end.
Definition ktb_put (p : ptr) (k : ktb) : ST heap unit :=
  modify_st (fun h => Heap (h_mem h) (<[p := k]> (h_blocks h))).
Definition ktb_free (p : ptr) : ST heap unit :=
  modify_st (fun h => Heap (h_mem h) (delete p (h_blocks h))).

Definition get_range (p : ptr) : ST heap krange :=
  k ← ktb_base p; match ktb_buf k with DRange r => mret r | _ => ub_st end.
Definition put_range (p : ptr) (r : krange) : ST heap unit :=
  k ← ktb_base p;
  match ktb_buf k with DRange _ => ktb_put p (set_ktb_buf (DRange r) k) | _ => ub_st end.
Definition get_iter (p : ptr) : ST heap kiter :=
  k ← ktb_base p; match ktb_buf k with DIter r => mret r | _ => ub_st end.
Definition put_iter (p : ptr) (i : kiter) : ST heap unit :=
  k ← ktb_base p;
  match ktb_buf k with DIter _ => ktb_put p (set_ktb_buf (DIter i) k) | _ => ub_st end.

(** *** The zeroed structures *)
Definition krange0 : krange := Krange 0 None 0 None 0 0 None 0.
Definition kiter0 : kiter := Kiter 0 None None None None 0 0 0.
Definition kv0 : kv := Kv None 0 None 0 None 0 None 0 None 0 0 0 0.
Definition kb0 : kb := Kb 0 0 0 0 0.
Definition kapplet0 : kapplet := Kapplet None 0 0 0 None 0 None 0 0 None None 0.

Definition zeroed (t : Z) : ktb_data :=
  if t =? KV_T then DKv kv0 else if t =? KRANGE_T then DRange krange0
  else if t =? KITER_T then DIter kiter0 else if t =? KBATCH_T then DBatch kb0
  else if t =? KGETLOG_T then DGetlog kgetlog0 else if t =? KVERSION_T then DVersion
  else if t =? KSTATS_T then DStats else DApplet kapplet0.

Section ktb.
Context {SZ : Sizes} {KE : KtbEnv}.

Definition ktb_buf_len (t : Z) : Z :=
  if t =? KV_T then u32 sizeof_kv
  else if t =? KRANGE_T then u32 sizeof_krange
  else if t =? KITER_T then u32 sizeof_ki
  else if t =? KBATCH_T then u32 sizeof_kb
  else if t =? KGETLOG_T then u32 sizeof_kgetlog
  else if t =? KVERSION_T then u32 sizeof_kversion
  else if t =? KSTATS_T then u32 sizeof_kstats
  else if t =? KAPPLET_T then u32 sizeof_kapplet
  else 0.

Definition ktb_isvalid (p : option ptr) : ST heap bool :=
  match p with
  | None => mret false
  | Some p =>
      k ← ktb_base p;
      mret ((ktb_magic k =? KTB_MAGIC) && (ktb_type k >? KT_NONE) && (ktb_type k <? KT_LAST))
  end.

Definition ki_valid (p : option ptr) : ST heap Z :=
  b ← ktb_isvalid p; mret (if b : bool then 1 else 0).

(** [ki_create] up to its switch: allocate, clear and fill the header. *)
Definition ktb_alloc (ktd t : Z) : ST heap (option ptr) :=
  let l := u32 (sizeof_ktb + ktb_buf_len t) in
  if (t <=? KT_NONE) || (t >=? KT_LAST) then mret None else
  k ← on_mem (KI_MALLOC l);
  match k with
  | None => mret None
  | Some _ =>
      h ← get_st;
      let p := fresh (dom (h_blocks h)) in
      ktb_put p (Ktb KTB_MAGIC t l (u32 ktd) None None (zeroed t)) ;;
      mret (Some p)
  end.

Definition ki_clean (p : option ptr) : ST heap Z :=
  ok ← ktb_isvalid p;
  if negb ok then mret K_EINVAL else
  p ← deref_st p;
  k ← ktb_base p;
  (if ktb_type k =? KAPPLET_T then
     match ktb_buf k with
     | DApplet a =>
         (match ka_msg a with Some _ => on_mem KI_FREE | None => mret tt end) ;;
         (match ka_stdout a with Some _ => on_mem KI_FREE | None => mret tt end) ;;
         ktb_put p (set_ktb_buf (DApplet (set_ka_out None None 0 a)) k)
     | _ => ub_st
     end
   else mret tt) ;;
  (match ktb_destroy k with Some f => ktb_callback f (ktb_ctx k) | None => mret tt end) ;;
  mret K_OK.

Definition i_rangeclean (kr : option ptr) : ST heap unit :=
  match kr with
  | None => mret tt
  | Some p =>
      r ← get_range p;
      on_mem (ki_keydestroy (kr_keys r) (kr_keyscnt r)) ;;
      on_mem (ki_keydestroy (kr_start r) (kr_startcnt r)) ;;
      on_mem (ki_keydestroy (kr_end r) (kr_endcnt r)) ;;
      put_range p krange0
  end.

(** [ki_destroy] and [i_iterdestroy] call each other: the fuel is the depth. *)
Fixpoint ki_destroy_n (n : nat) (p : option ptr) : ST heap Z :=
  match n with
  | O => fun _ => NoFuel
  | S n =>
      rc ← ki_clean p;
      if rc <? 0 then mret K_EINVAL else
      p ← deref_st p;
      k ← ktb_base p;
      (if ktb_type k =? KITER_T then
         kit ← get_iter p;
         i_rangeclean (ki_rreq kit) ;;
         i_rangeclean (ki_rwin1 kit) ;;
         i_rangeclean (ki_rwin2 kit) ;;
         ki_destroy_n n (ki_rreq kit) ;;
         ki_destroy_n n (ki_rwin1 kit) ;;
         ki_destroy_n n (ki_rwin2 kit) ;;
         put_iter p (Kiter (ki_ktd kit) None None None (ki_curwin kit) (ki_curkey kit)
                       (ki_seenkeys kit) (ki_maxkeyreq kit))
       else mret tt) ;;
      ktb_free p ;;
      on_mem KI_FREE ;;
      mret K_OK
  end.
Definition ki_destroy : option ptr -> ST heap Z := ki_destroy_n 2.

(** [i_iterinit]: [ki_create] of a range is [ktb_alloc], its switch has no
    case for ranges. *)
Definition i_iterinit (ktd : Z) (p : ptr) : ST heap Z :=
  match config_limits ktd with
  | None => mret (-1)
  | Some lim =>
      kit ← get_iter p;
      rreq ← ktb_alloc (ki_ktd kit) KRANGE_T;
      rwin1 ← ktb_alloc (ki_ktd kit) KRANGE_T;
      rwin2 ← ktb_alloc (ki_ktd kit) KRANGE_T;
      if bool_decide (rreq = None) || bool_decide (rwin1 = None) || bool_decide (rwin2 = None) then
        ki_destroy rreq ;; ki_destroy rwin1 ;; ki_destroy rwin2 ;;
        put_iter p (Kiter (ki_ktd kit) None None None (ki_curwin kit) (ki_curkey kit)
                      (ki_seenkeys kit) (ki_maxkeyreq kit)) ;;
        mret (-1)
      else
        put_iter p (Kiter ktd rreq rwin1 rwin2 None 0 0 (kl_rangekeycnt lim)) ;;
        mret 0
  end.

(** [ki_create]: the results of the set-up calls are dropped. *)
Definition ki_create (ktd t : Z) : ST heap (option ptr) :=
  p ← ktb_alloc ktd t;
  match p with
  | None => mret None
  | Some q =>
      (if t =? KITER_T then i_iterinit ktd q
       else if t =? KBATCH_T then b_startbatch ktd q
       else mret 0) ;;
      mret (Some q)
  end.
End ktb.

(** ** The typed buffer invariant *)
Section spec.
Context {SZ : Sizes} {KE : KtbEnv}.
Implicit Types (h : heap) (p : ptr) (k : ktb).

Definition data_of_type (t : Z) (d : ktb_data) : bool :=
  match d with
  | DKv _ => t =? KV_T | DRange _ => t =? KRANGE_T | DIter _ => t =? KITER_T
  | DBatch _ => t =? KBATCH_T | DGetlog _ => t =? KGETLOG_T | DVersion => t =? KVERSION_T
  | DStats => t =? KSTATS_T | DApplet _ => t =? KAPPLET_T
  end.

Definition block_wf (k : ktb) : Prop :=
  ktb_magic k = KTB_MAGIC /\ KT_NONE < ktb_type k < KT_LAST /\
  ktb_len k = u32 (sizeof_ktb + ktb_buf_len (ktb_type k)) /\
  data_of_type (ktb_type k) (ktb_buf k) = true.

Definition heap_wf (h : heap) : Prop := map_Forall (fun _ => block_wf) (h_blocks h).

Definition new_block (ktd t : Z) : ktb :=
  Ktb KTB_MAGIC t (u32 (sizeof_ktb + ktb_buf_len t)) (u32 ktd) None None (zeroed t).

Lemma zeroed_type t : KT_NONE < t < KT_LAST -> data_of_type t (zeroed t) = true.
Proof.
  unfold KT_NONE, KT_LAST. intros H.
  assert (t = 1 \/ t = 2 \/ t = 3 \/ t = 4 \/ t = 5 \/ t = 6 \/ t = 7 \/ t = 8) by lia.
  by repeat match goal with H : _ \/ _ |- _ => destruct H as [->|H] | H : t = _ |- _ => subst t end.
Qed.

Lemma new_block_wf ktd t : KT_NONE < t < KT_LAST -> block_wf (new_block ktd t).
Proof. intros H. split; [done|]. split; [done|]. split; [done|]. by apply zeroed_type. Qed.

Lemma block_wf_set k d :
  block_wf k -> data_of_type (ktb_type k) d = true -> block_wf (set_ktb_buf d k).
Proof. unfold block_wf. destruct k; cbn. tauto. Qed.

Lemma ktb_isvalid_run h p k :
  h_blocks h !! p = Some k -> block_wf k -> ktb_isvalid (Some p) h = Ok (true, h).
Proof.
  intros Hp (Hm & Ht & _). unfold ktb_isvalid. erewrite bind_Ok by (unfold ktb_base; by rewrite Hp).
  unfold mret, ST_ret. do 2 f_equal. rewrite Hm. unfold KT_NONE, KT_LAST in *.
  rewrite Z.gtb_ltb. cbn [Z.eqb]. lia.
Qed.

(** *** Allocation *)
Lemma ktb_alloc_run h ktd t :
  mem_ok (h_mem h) -> KT_NONE < t < KT_LAST ->
  exists h', let p := fresh (dom (h_blocks h)) in
    ktb_alloc ktd t h = Ok (Some p, h') /\ h_blocks h !! p = None /\
    h_blocks h' = <[p := new_block ktd t]> (h_blocks h) /\
    mem_ok (h_mem h') /\ m_live (h_mem h') = m_live (h_mem h) + 1.
Proof.
  intros Hm Ht. unfold ktb_alloc, KT_NONE, KT_LAST in *.
  replace ((t <=? 0) || (t >=? 9)) with false by lia.
  destruct (KI_MALLOC_ok (h_mem h) (u32 (sizeof_ktb + ktb_buf_len t)) Hm) as (b & s & H & Hs & _ & Hl).
  eexists. cbv zeta. split.
  - erewrite bind_Ok by (unfold on_mem; by rewrite H). cbv beta iota.
    erewrite bind_Ok by done. cbv beta. by erewrite bind_Ok by done.
  - split; [apply not_elem_of_dom, is_fresh|]. cbn. done.
Qed.

Lemma ktb_alloc_inv h ktd t o h' :
  ktb_alloc ktd t h = Ok (o, h') ->
  match o with
  | None => h_blocks h' = h_blocks h
  | Some p => h_blocks h !! p = None /\ KT_NONE < t < KT_LAST /\
      h_blocks h' = <[p := new_block ktd t]> (h_blocks h)
  end.
Proof.
  unfold ktb_alloc. case_if.
  { intros H%ret_inv. by injection H as -> ->. }
  intros H. inv_run H. unfold on_mem in Hrun.
  destruct (KI_MALLOC _ (h_mem h)) as [[a' m']| | |]; try done. injection Hrun as <- <-.
  destruct a'; [|by apply ret_inv in H; injection H as -> ->].
  inv_run H. unfold get_st in Hrun. injection Hrun as <- <-.
  inv_run H. unfold ktb_put, modify_st in Hrun. injection Hrun as <- <-.
  apply ret_inv in H. injection H as -> ->. cbn. split; [apply not_elem_of_dom, is_fresh|].
  split; [|done]. apply orb_false_iff in E as [? ?]. unfold KT_NONE, KT_LAST in *. lia.
Qed.

(** *** Preservation, by the structure of a computation *)
Definition pres {A} (m : ST heap A) : Prop :=
  forall h a h', m h = Ok (a, h') -> heap_wf h -> heap_wf h'.

Lemma pres_ret {A} (a : A) : pres (mret a).
Proof. intros h a' h' H%ret_inv ?. by simplify_eq. Qed.
Lemma pres_ub {A} : pres (@ub_st heap A).
Proof. by intros ???. Qed.
Lemma pres_bind {A B} (m : ST heap A) (f : A -> ST heap B) :
  pres m -> (forall a, pres (f a)) -> pres (m ≫= f).
Proof. intros Hm Hf h b h' H Hwf. inv_run H. eapply Hf; [exact H|]. eapply Hm; [exact Hrun|done]. Qed.
Lemma pres_deref {A} (o : option A) : pres (deref_st o).
Proof. intros h a h'. unfold deref_st. destruct o; [|done]. by intros [= <- <-]. Qed.
Lemma pres_on_mem {A} (m : ST mem A) : pres (on_mem m).
Proof. intros h a h'. unfold on_mem. destruct (m (h_mem h)) as [[]| | |]; [|done..]. by intros [= <- <-]. Qed.
Lemma pres_base {A} p (f : ktb -> ST heap A) :
  (forall k, block_wf k -> pres (f k)) -> pres (ktb_base p ≫= f).
Proof.
  intros Hf h a h' H Hwf. inv_run H. unfold ktb_base in Hrun.
  destruct (h_blocks h !! p) as [k|] eqn:Hp; [|done]. injection Hrun as <- <-.
  eapply Hf; eauto.
Qed.
Lemma pres_put p k : block_wf k -> pres (ktb_put p k).
Proof. intros Hk h a h' [= <- <-] Hwf. by apply map_Forall_insert_2. Qed.
Lemma pres_free p : pres (ktb_free p).
Proof. intros h a h' [= <- <-] Hwf. by apply map_Forall_delete. Qed.
Lemma pres_alloc ktd t : pres (ktb_alloc ktd t).
Proof.
  intros h [p|] h' H%ktb_alloc_inv Hwf; unfold heap_wf.
  - destruct H as (_ & Ht & ->). apply map_Forall_insert_2; [by apply new_block_wf|done].
  - by rewrite H.
Qed.
End spec.

Create HintDb kpres.
#[export] Hint Resolve pres_ret pres_ub pres_deref pres_on_mem pres_free pres_alloc : kpres.

(** [kpres] proves [pres] of a handler from the structure of its body. *)
Ltac kpres :=
  repeat match goal with
  | |- pres (mbind _ (ktb_base _)) => apply pres_base; intros ??
  | |- pres (mbind _ _) => apply pres_bind; [|intros ?]
  | |- pres (match ?x with _ => _ end) => destruct x eqn:?
  | |- pres _ => solve [eauto with kpres]
  end.

Section invariant.
Context {SZ : Sizes} {KE : KtbEnv}.
Context (Hstart : forall ktd p, pres (b_startbatch ktd p))
        (Hcall : forall f c, pres (ktb_callback f c)).

Lemma pres_isvalid p : pres (ktb_isvalid p).
Proof. unfold ktb_isvalid. kpres. Qed.
Lemma pres_get_range p : pres (get_range p).
Proof. unfold get_range. kpres. Qed.
Lemma pres_get_iter p : pres (get_iter p).
Proof. unfold get_iter. kpres. Qed.

Lemma block_wf_same k d d0 :
  block_wf k -> ktb_buf k = d0 ->
  (data_of_type (ktb_type k) d0 = true -> data_of_type (ktb_type k) d = true) ->
  block_wf (set_ktb_buf d k).
Proof. intros Hk <- H. apply block_wf_set; [done|]. apply H, Hk. Qed.

Lemma pres_put_range p r : pres (put_range p r).
Proof. unfold put_range. kpres. apply pres_put. by eapply block_wf_same. Qed.
Lemma pres_put_iter p i : pres (put_iter p i).
Proof. unfold put_iter. kpres. apply pres_put. by eapply block_wf_same. Qed.
#[local] Hint Resolve pres_isvalid pres_get_range pres_get_iter pres_put_range pres_put_iter : kpres.

Lemma pres_ki_clean p : pres (ki_clean p).
Proof. unfold ki_clean. kpres. apply pres_put. by eapply block_wf_same. Qed.
Lemma pres_i_rangeclean p : pres (i_rangeclean p).
Proof. unfold i_rangeclean. kpres. Qed.
#[local] Hint Resolve pres_ki_clean pres_i_rangeclean : kpres.

Lemma pres_ki_destroy_n n : forall p, pres (ki_destroy_n n p).
Proof. induction n as [|n IH]; intros p; cbn [ki_destroy_n]; [by intros ???|]. kpres; apply IH. Qed.
#[local] Hint Resolve pres_ki_destroy_n : kpres.

Lemma pres_i_iterinit ktd p : pres (i_iterinit ktd p).
Proof. unfold i_iterinit. kpres; apply pres_ki_destroy_n. Qed.
#[local] Hint Resolve pres_i_iterinit : kpres.

Lemma pres_ki_create ktd t : pres (ki_create ktd t).
Proof. unfold ki_create. kpres. Qed.

(** What a program does with typed buffers: the calls of the API on any
    pointer it likes, and writes to the fields of a live structure. *)
Inductive ktb_step (h : heap) : heap -> Prop :=
  | step_create ktd t p h' : ki_create ktd t h = Ok (p, h') -> ktb_step h h'
  | step_clean p rc h' : ki_clean p h = Ok (rc, h') -> ktb_step h h'
  | step_destroy p rc h' : ki_destroy p h = Ok (rc, h') -> ktb_step h h'
  | step_user p k d : h_blocks h !! p = Some k -> data_of_type (ktb_type k) d = true ->
    ktb_step h (Heap (h_mem h) (<[p := set_ktb_buf d k]> (h_blocks h))).

Lemma ktb_step_wf h h' : heap_wf h -> ktb_step h h' -> heap_wf h'.
Proof.
  intros Hwf [ktd t p h2 H|p rc h2 H|p rc h2 H|p k d Hp Hd].
  - by eapply pres_ki_create.
  - by eapply pres_ki_clean.
  - by eapply pres_ki_destroy_n.
  - apply map_Forall_insert_2; [|done]. apply block_wf_set; [by eapply Hwf|done].
Qed.
End invariant.


(** ** What each call does *)
Section calls.
Context {SZ : Sizes} {KE : KtbEnv}.
Implicit Types (h : heap) (p : ptr) (k : ktb).

(** The strings an applet owns, and the applet without them. *)
Definition held (k : ktb) : Z :=
  match ktb_buf k with
  | DApplet a => (if ka_msg a then 1 else 0) + (if ka_stdout a then 1 else 0)
  | _ => 0
  end.
Definition cleaned (k : ktb) : ktb :=
  match ktb_buf k with
  | DApplet a => set_ktb_buf (DApplet (set_ka_out None None 0 a)) k
  | _ => k
  end.

(** The heap after [n] blocks were given back and the buffers became [b]. *)
Definition released (n : Z) (b : gmap ptr ktb) (h : heap) : heap :=
  Heap (Mem (m_count (h_mem h)) (m_malloc (h_mem h)) (m_live (h_mem h) - n)) b.

Lemma released_mem_ok n b h : mem_ok (h_mem h) -> mem_ok (h_mem (released n b h)).
Proof. intros H ??. apply H. Qed.

Lemma ktb_base_run h p k : h_blocks h !! p = Some k -> ktb_base p h = Ok (k, h).
Proof. unfold ktb_base. by intros ->. Qed.

Lemma ki_clean_run h p k :
  h_blocks h !! p = Some k -> block_wf k -> ktb_destroy k = None ->
  ki_clean (Some p) h = Ok (K_OK, released (held k) (<[p := cleaned k]> (h_blocks h)) h).
Proof.
  intros Hp Hwf Hd. unfold ki_clean.
  erewrite bind_Ok by by eapply ktb_isvalid_run. cbn [negb].
  erewrite bind_Ok by done. erewrite bind_Ok by by apply ktb_base_run.
  rewrite Hd. destruct Hwf as (_ & _ & _ & Ht). unfold held, cleaned. destruct h as [[c m l] b].
  destruct (ktb_buf k) eqn:Hb; cbn [data_of_type] in Ht; apply Z.eqb_eq in Ht; rewrite Ht;
    try (cbn; unfold released; cbn [h_mem h_blocks m_count m_malloc m_live] in *;
         rewrite insert_id by done; by rewrite Z.sub_0_r).
  change (KAPPLET_T =? KAPPLET_T) with true.
  destruct (ka_msg a), (ka_stdout a); unfold on_mem, ktb_put, KI_FREE, released; run;
    match goal with |- Ok (_, Heap (Mem _ _ ?x) _) = Ok (_, Heap (Mem _ _ ?y) _) =>
      replace y with x by lia end; done.
Qed.

Lemma ki_destroy_plain n h p k :
  h_blocks h !! p = Some k -> block_wf k -> ktb_destroy k = None -> ktb_type k <> KITER_T ->
  ki_destroy_n (S n) (Some p) h = Ok (K_OK, released (held k + 1) (delete p (h_blocks h)) h).
Proof.
  intros Hp Hwf Hd Ht. cbn [ki_destroy_n]. erewrite bind_Ok by by eapply ki_clean_run.
  change (K_OK <? 0) with false. cbv beta iota. erewrite bind_Ok by done.
  erewrite bind_Ok by (apply ktb_base_run; cbn; apply lookup_insert_eq).
  replace (ktb_type (cleaned k) =? KITER_T) with false.
  2: { symmetry. apply Z.eqb_neq. unfold cleaned. by destruct (ktb_buf k). }
  unfold released, ktb_free, on_mem, KI_FREE. run. rewrite delete_insert_eq. do 4 f_equal. lia.
Qed.

Lemma ki_destroy_dangling n h p : h_blocks h !! p = None -> ki_destroy_n (S n) (Some p) h = Ub.
Proof.
  intros Hp. cbn [ki_destroy_n]. apply bind_Ub. unfold ki_clean, ktb_isvalid. apply bind_Ub.
  apply bind_Ub. unfold ktb_base. by rewrite Hp.
Qed.

Lemma ki_destroy_null n h : ki_destroy_n (S n) None h = Ub.
Proof. done. Qed.

Lemma new_block_held ktd t : held (new_block ktd t) = 0.
Proof. unfold held, new_block, zeroed. cbn. repeat case_if; done. Qed.
End calls.

(** For a type without a set-up call, [ki_create] returns the address of a
    new zeroed valid buffer and changes no other; [ki_destroy] of it restores the
    heap and every block, after which the address is dead: a second
    [ki_destroy], like [ki_destroy] of NULL, runs into undefined behaviour
    instead of returning K_EINVAL.  A type outside the table gives NULL. *)
Theorem ki_create_destroy {SZ : Sizes} {KE : KtbEnv} h ktd t :
  mem_ok (h_mem h) ->
  (~ KT_NONE < t < KT_LAST -> ki_create ktd t h = Ok (None, h)) /\
  (KT_NONE < t < KT_LAST -> t <> KITER_T -> t <> KBATCH_T ->
   exists p h1 h2, ki_create ktd t h = Ok (Some p, h1) /\ h_blocks h !! p = None /\
     h_blocks h1 = <[p := new_block ktd t]> (h_blocks h) /\
     ki_valid (Some p) h1 = Ok (1, h1) /\
     ki_destroy (Some p) h1 = Ok (K_OK, h2) /\
     h_blocks h2 = h_blocks h /\ m_live (h_mem h2) = m_live (h_mem h) /\
     ki_destroy (Some p) h2 = Ub /\ ki_destroy None h2 = Ub).
Proof.
  intros Hm. unfold ki_create. split.
  { intros Ht. unfold ktb_alloc, KT_NONE, KT_LAST in *.
    by replace ((t <=? 0) || (t >=? 9)) with true by lia. }
  intros Ht Hi Hb. destruct (ktb_alloc_run h ktd t Hm Ht) as (h1 & H1 & Hn & Hb1 & _ & Hl1).
  set (p := fresh (dom (h_blocks h))) in *.
  assert (Hp : h_blocks h1 !! p = Some (new_block ktd t)) by (rewrite Hb1; apply lookup_insert_eq).
  pose proof (new_block_wf ktd t Ht) as Hwf.
  exists p, h1. eexists. split.
  { erewrite bind_Ok by exact H1. cbv beta iota.
    replace (t =? KITER_T) with false by lia. by replace (t =? KBATCH_T) with false by lia. }
  split; [done|]. split; [done|]. split.
  { unfold ki_valid. by erewrite bind_Ok by by eapply ktb_isvalid_run. }
  split; [by eapply ki_destroy_plain|]. cbn [released h_blocks h_mem m_live].
  rewrite new_block_held, Hb1, delete_insert_id by done. split; [done|]. split; [lia|].
  split; [by apply ki_destroy_dangling|by apply ki_destroy_null].
Qed.

(** ** Iterators as typed buffers *)
Section iterators.
Context {SZ : Sizes} {KE : KtbEnv}.
Implicit Types (h : heap) (p : ptr) (k : ktb).

Lemma get_range_run h p k r :
  h_blocks h !! p = Some k -> ktb_buf k = DRange r -> get_range p h = Ok (r, h).
Proof. intros Hp Hk. unfold get_range. erewrite bind_Ok by by apply ktb_base_run. by rewrite Hk. Qed.
Lemma put_range_run h p k r r' :
  h_blocks h !! p = Some k -> ktb_buf k = DRange r ->
  put_range p r' h = Ok (tt, Heap (h_mem h) (<[p := set_ktb_buf (DRange r') k]> (h_blocks h))).
Proof. intros Hp Hk. unfold put_range. erewrite bind_Ok by by apply ktb_base_run. by rewrite Hk. Qed.
Lemma get_iter_run h p k i :
  h_blocks h !! p = Some k -> ktb_buf k = DIter i -> get_iter p h = Ok (i, h).
Proof. intros Hp Hk. unfold get_iter. erewrite bind_Ok by by apply ktb_base_run. by rewrite Hk. Qed.
Lemma put_iter_run h p k i i' :
  h_blocks h !! p = Some k -> ktb_buf k = DIter i ->
  put_iter p i' h = Ok (tt, Heap (h_mem h) (<[p := set_ktb_buf (DIter i') k]> (h_blocks h))).
Proof. intros Hp Hk. unfold put_iter. erewrite bind_Ok by by apply ktb_base_run. by rewrite Hk. Qed.

Lemma set_ktb_buf_same k d : ktb_buf k = d -> set_ktb_buf d k = k.
Proof. intros <-. by destruct k. Qed.

Lemma i_rangeclean_empty h p k :
  h_blocks h !! p = Some k -> ktb_buf k = DRange krange0 -> i_rangeclean (Some p) h = Ok (tt, h).
Proof.
  intros Hp Hk. unfold i_rangeclean. erewrite bind_Ok by by eapply get_range_run.
  destruct h as [m b]. do 3 (erewrite bind_Ok by done).
  erewrite put_range_run by done. rewrite set_ktb_buf_same by done. by rewrite insert_id.
Qed.

(** The iterator and its three ranges, distinct and nowhere in [b] *)
Definition iter_blocks (b : gmap ptr ktb) (ktd max : Z) (p r w1 w2 : ptr) : gmap ptr ktb :=
  <[p := set_ktb_buf (DIter (Kiter ktd (Some r) (Some w1) (Some w2) None 0 0 max)) (new_block ktd KITER_T)]>
    (<[w2 := new_block 0 KRANGE_T]> (<[w1 := new_block 0 KRANGE_T]>
      (<[r := new_block 0 KRANGE_T]> (<[p := new_block ktd KITER_T]> b)))).

Lemma ki_create_iter_run h ktd lim :
  mem_ok (h_mem h) -> config_limits ktd = Some lim ->
  exists p r w1 w2 h1, ki_create ktd KITER_T h = Ok (Some p, h1) /\
    h_blocks h1 = iter_blocks (h_blocks h) ktd (kl_rangekeycnt lim) p r w1 w2 /\
    NoDup [p; r; w1; w2] /\ (forall q, q ∈ [p; r; w1; w2] -> h_blocks h !! q = None) /\
    m_live (h_mem h1) = m_live (h_mem h) + 4 /\ mem_ok (h_mem h1).
Proof.
  intros Hm Hc. unfold ki_create, i_iterinit. rewrite Hc.
  assert (Ht : KT_NONE < KITER_T < KT_LAST) by done.
  assert (Hr : KT_NONE < KRANGE_T < KT_LAST) by done.
  destruct (ktb_alloc_run h ktd KITER_T Hm Ht) as (h1 & H1 & Hn1 & Hb1 & Hm1 & Hl1).
  set (p := fresh (dom (h_blocks h))) in *.
  destruct (ktb_alloc_run h1 0 KRANGE_T Hm1 Hr) as (h2 & H2 & Hn2 & Hb2 & Hm2 & Hl2).
  set (r := fresh (dom (h_blocks h1))) in *.
  destruct (ktb_alloc_run h2 0 KRANGE_T Hm2 Hr) as (h3 & H3 & Hn3 & Hb3 & Hm3 & Hl3).
  set (w1 := fresh (dom (h_blocks h2))) in *.
  destruct (ktb_alloc_run h3 0 KRANGE_T Hm3 Hr) as (h4 & H4 & Hn4 & Hb4 & Hm4 & Hl4).
  set (w2 := fresh (dom (h_blocks h3))) in *.
  rewrite Hb3, Hb2, Hb1 in Hn4. rewrite Hb2, Hb1 in Hn3. rewrite Hb1 in Hn2.
  apply lookup_insert_None in Hn2 as [Hn2 ?].
  apply lookup_insert_None in Hn3 as [[Hn3 ?]%lookup_insert_None ?].
  apply lookup_insert_None in Hn4 as [[[Hn4 ?]%lookup_insert_None ?]%lookup_insert_None ?].
  exists p, r, w1, w2. eexists. split.
  { erewrite bind_Ok by exact H1. cbv beta iota. change (KITER_T =? KITER_T) with true. cbv beta iota.
    rewrite bind_assoc.
    erewrite bind_Ok by (eapply get_iter_run; [rewrite Hb1; apply lookup_insert_eq|done]). cbv beta.
    rewrite bind_assoc. erewrite bind_Ok by exact H2. cbv beta.
    rewrite bind_assoc. erewrite bind_Ok by exact H3. cbv beta.
    rewrite bind_assoc. erewrite bind_Ok by exact H4. cbv beta.
    rewrite !bool_decide_eq_false_2 by done. cbn [orb]. cbv iota.
    rewrite bind_assoc. erewrite bind_Ok by (eapply put_iter_run;
      [rewrite Hb4, Hb3, Hb2, Hb1, !lookup_insert_ne by done; apply lookup_insert_eq|done]).
    reflexivity. }
  split; [cbn [h_blocks]; unfold iter_blocks; by rewrite Hb4, Hb3, Hb2, Hb1|]. split.
  { repeat (apply NoDup_cons; split; [rewrite ?not_elem_of_cons; repeat split; try done; apply not_elem_of_nil|]).
    apply NoDup_nil_2. }
  split.
  { intros q Hq. rewrite !elem_of_cons in Hq. destruct Hq as [-> |[-> |[-> |[-> |Hq]]]]; try done.
    by apply elem_of_nil in Hq. }
  cbn [h_mem]. split; [lia|done].
Qed.

Lemma NoDup_4 {A} (a b c d : A) :
  NoDup [a; b; c; d] -> a <> b /\ a <> c /\ a <> d /\ b <> c /\ b <> d /\ c <> d.
Proof. rewrite !NoDup_cons, !not_elem_of_cons. tauto. Qed.

Lemma set_ktb_buf_wf_held k i : held (set_ktb_buf (DIter i) k) = 0.
Proof. done. Qed.

(** Destroying an iterator whose three ranges are empty *)
Lemma ki_destroy_iter_run h p r w1 w2 kp kr k1 k2 it :
  h_blocks h !! p = Some kp -> block_wf kp -> ktb_destroy kp = None -> ktb_buf kp = DIter it ->
  ki_rreq it = Some r -> ki_rwin1 it = Some w1 -> ki_rwin2 it = Some w2 ->
  h_blocks h !! r = Some kr -> h_blocks h !! w1 = Some k1 -> h_blocks h !! w2 = Some k2 ->
  Forall (fun k => block_wf k /\ ktb_destroy k = None /\ ktb_buf k = DRange krange0) [kr; k1; k2] ->
  NoDup [p; r; w1; w2] ->
  exists h', ki_destroy (Some p) h = Ok (K_OK, h') /\
    h_blocks h' = delete p (delete w2 (delete w1 (delete r (h_blocks h)))) /\
    m_live (h_mem h') = m_live (h_mem h) - 4.
Proof.
  intros Hp Hwp Hdp Hbp Er E1 E2 Hr H1 H2 HF HN.
  apply Forall_cons in HF as [(Hwr & Hdr & Hbr) HF]. apply Forall_cons in HF as [(Hw1 & Hd1 & Hb1) HF].
  apply Forall_cons in HF as [(Hw2 & Hd2 & Hb2) _].
  destruct (NoDup_4 _ _ _ _ HN) as (N1 & N2 & N3 & N4 & N5 & N6).
  assert (Ht : ktb_type kp = KITER_T).
  { destruct Hwp as (_ & _ & _ & H). rewrite Hbp in H. by apply Z.eqb_eq in H. }
  assert (Hnt : forall k, block_wf k -> ktb_buf k = DRange krange0 ->
    ktb_type k <> KITER_T /\ held k = 0).
  { intros k (_ & _ & _ & H) Hb. unfold held. rewrite Hb in *. apply Z.eqb_eq in H. by rewrite H. }
  unfold ki_destroy. cbn [ki_destroy_n]. fold (ki_destroy_n 1).
  erewrite bind_Ok by by apply ki_clean_run. unfold cleaned, held. rewrite Hbp, insert_id by done.
  set (h0 := released 0 (h_blocks h) h). change (K_OK <? 0) with false. cbv beta iota.
  erewrite bind_Ok by done. erewrite bind_Ok by (apply ktb_base_run; exact Hp).
  rewrite Ht. change (KITER_T =? KITER_T) with true. cbv beta iota.
  rewrite bind_assoc. erewrite bind_Ok by (eapply get_iter_run; [exact Hp|done]).
  rewrite Er, E1, E2.
  do 3 (rewrite bind_assoc; erewrite bind_Ok by (eapply i_rangeclean_empty; [eassumption|done])).
  rewrite bind_assoc. erewrite bind_Ok.
  2: { apply (ki_destroy_plain 0 h0 r kr); [done..|by apply Hnt]. }
  rewrite bind_assoc. erewrite bind_Ok.
  2: { apply (ki_destroy_plain 0 _ w1 k1); [cbn; by rewrite lookup_delete_ne|done..|by apply Hnt]. }
  rewrite bind_assoc. erewrite bind_Ok.
  2: { apply (ki_destroy_plain 0 _ w2 k2); [cbn; by rewrite !lookup_delete_ne|done..|by apply Hnt]. }
  erewrite bind_Ok.
  2: { eapply put_iter_run; [|exact Hbp]. cbn. by rewrite !lookup_delete_ne. }
  unfold ktb_free, on_mem, KI_FREE, released. run. eexists. split; [done|]. cbn. split.
  - by rewrite delete_insert_eq.
  - destruct (Hnt kr), (Hnt k1), (Hnt k2); try done. lia.
Qed.
End iterators.

(** An iterator created on a session owns three distinct new ranges and
    [ki_destroy] gives back all four buffers; created on a descriptor without a
    session, [ki_create] still returns it, with no ranges, and destroying it runs
    into undefined behaviour, because [ki_destroy] of NULL does not return. *)
Theorem ki_iterator_life {SZ : Sizes} {KE : KtbEnv} h ktd :
  mem_ok (h_mem h) ->
  exists p h1, ki_create ktd KITER_T h = Ok (Some p, h1) /\ h_blocks h !! p = None /\
    match config_limits ktd with
    | Some lim => exists r w1 w2 h2,
        h_blocks h1 = iter_blocks (h_blocks h) ktd (kl_rangekeycnt lim) p r w1 w2 /\
        NoDup [p; r; w1; w2] /\
        ki_destroy (Some p) h1 = Ok (K_OK, h2) /\
        h_blocks h2 = h_blocks h /\ m_live (h_mem h2) = m_live (h_mem h)
    | None => h_blocks h1 = <[p := new_block ktd KITER_T]> (h_blocks h) /\
        ki_destroy (Some p) h1 = Ub
    end.
Proof.
  intros Hm. destruct (config_limits ktd) as [lim|] eqn:Hc.
  - destruct (ki_create_iter_run h ktd lim Hm Hc) as (p & r & w1 & w2 & h1 & H & Hb & HN & Hnone & Hl & _).
    exists p, h1. split; [exact H|]. split; [apply Hnone, list_elem_of_here|].
    exists r, w1, w2.
    destruct (NoDup_4 _ _ _ _ HN) as (N1 & N2 & N3 & N4 & N5 & N6).
    assert (Hk : forall q k, iter_blocks (h_blocks h) ktd (kl_rangekeycnt lim) p r w1 w2 !! q = Some k ->
      h_blocks h1 !! q = Some k) by (intros q k; by rewrite Hb).
    edestruct (ki_destroy_iter_run h1 p r w1 w2) as (h2 & H2 & Hb2 & Hl2);
      [apply Hk; apply lookup_insert_eq
      |by apply (block_wf_set (new_block ktd KITER_T)); [apply new_block_wf|]
      |done..| | | | |exact HN|].
    1-3: apply Hk; unfold iter_blocks; rewrite ?lookup_insert_ne by done; apply lookup_insert_eq.
    { repeat (constructor; [split; [by apply new_block_wf|done]|]). constructor. }
    { exists h2. do 2 (split; [done|]). split; [done|]. split; [|lia].
      rewrite Hb2, Hb. apply map_eq. intros q. unfold iter_blocks.
      destruct (decide (q ∈ [p; r; w1; w2])) as [Hq|Hq].
      * rewrite (Hnone q Hq). rewrite !elem_of_cons in Hq.
        destruct Hq as [-> |[-> |[-> |[-> |Hq]]]]; [by simplify_map_eq..|by apply elem_of_nil in Hq].
      * rewrite !not_elem_of_cons in Hq. destruct Hq as (? & ? & ? & ? & _). by simplify_map_eq. }
  - destruct (ktb_alloc_run h ktd KITER_T Hm) as (h1 & H1 & Hn & Hb & _ & _); [done|].
    eexists _, h1. split.
    { unfold ki_create. erewrite bind_Ok by exact H1. cbv beta iota.
      change (KITER_T =? KITER_T) with true. cbv beta iota.
      unfold i_iterinit. rewrite Hc. reflexivity. }
    split; [done|]. split; [done|].
    unfold ki_destroy. cbn [ki_destroy_n]. fold (ki_destroy_n 1).
    assert (Hp : h_blocks h1 !! fresh (dom (h_blocks h)) = Some (new_block ktd KITER_T))
      by (rewrite Hb; apply lookup_insert_eq).
    erewrite bind_Ok by (apply ki_clean_run; [exact Hp|by apply new_block_wf|done]).
    change (K_OK <? 0) with false. cbv beta iota. unfold cleaned. cbn [new_block ktb_buf zeroed].
    rewrite insert_id by done. erewrite bind_Ok by done. erewrite bind_Ok by (apply ktb_base_run; exact Hp).
    cbn. apply bind_Ub. erewrite bind_Ok by (eapply get_iter_run; [exact Hp|done]).
    done.
Qed.

(** ** A concrete environment

    LP64 sizes, one session (descriptor 3), a batch set-up that only fails and
    no destroy routines. *)
Section concrete.
#[local] Instance lp64_sizes : Sizes :=
  { sizeof_kv := 112; sizeof_krange := 80; sizeof_ki := 64; sizeof_kb := 64;
    sizeof_kgetlog := 480; sizeof_kversion := 88; sizeof_kstats := 600; sizeof_kapplet := 80 }.
#[local] Instance one_session : KtbEnv :=
  { config_limits := fun ktd => if ktd =? 3 then
      Some (Klimits 4096 1048576 128 128 1048576 1024 1048576 16 16 16 16 200 15 15 5) else None;
    b_startbatch := fun _ _ => mret (-1);
    ktb_callback := fun _ _ => mret tt }.

Definition heap0 : heap := Heap (Mem 0 (fun _ _ => Some (fun _ => 0)) 0) ∅.
Lemma heap0_mem : mem_ok (h_mem heap0).
Proof. intros ??. by eexists. Qed.


Lemma ki_create_destroy_witness :
  exists p h1 h2, ki_create 3 KAPPLET_T heap0 = Ok (Some p, h1) /\
    ki_destroy (Some p) h1 = Ok (K_OK, h2) /\ ki_destroy (Some p) h2 = Ub.
Proof.
  destruct (ki_create_destroy heap0 3 KAPPLET_T heap0_mem) as [_ H].
  destruct H as (p & h1 & h2 & H1 & _ & _ & _ & H2 & _ & _ & H3 & _); [split; reflexivity|discriminate..|].
  exists p, h1, h2. split; [exact H1|]. split; [exact H2|exact H3].
Defined.

Lemma ki_iterator_life_witness :
  (exists p h1 h2, ki_create 3 KITER_T heap0 = Ok (Some p, h1) /\
    ki_destroy (Some p) h1 = Ok (K_OK, h2) /\ m_live (h_mem h2) = 0) /\
  (exists p h1, ki_create 9 KITER_T heap0 = Ok (Some p, h1) /\ ki_destroy (Some p) h1 = Ub).
Proof.
  split.
  - destruct (ki_iterator_life heap0 3 heap0_mem) as (p & h1 & H1 & _ & r & w1 & w2 & h2 & _ & _ & H2 & _ & H3).
    exists p, h1, h2. split; [exact H1|]. split; [exact H2|exact H3].
  - destruct (ki_iterator_life heap0 9 heap0_mem) as (p & h1 & H1 & _ & _ & H2).
    exists p, h1. split; [exact H1|exact H2].
Defined.
End concrete.
