(* ===== verification/Iter.v ===== *)
(** The key range iterator: [ki_start] and [ki_next] of [src/iter.c].

    The iterator and its ranges live in the heap of typed buffers.  A result
    [Some (w, i)] is the address [&w->kr_keys[i]]; the caller's dereference is
    [iter_key].  The remote call [ki_getrange] of [src/range.c] is seen through
    the class [GetRange]: what it does to the range it is given, with the law of
    the server it talks to in [GetRangeLaws]. *)

From stdpp Require Import gmap sorting.
From S2P Require Import Prelude Types Keys Ktb.

(** [ki_getrange(ktd, kr)]: the status and the range afterwards. *)
Class GetRange := { ki_getrange : Z -> krange -> ST mem (Z * krange) }.

(** Field updates *)
Definition set_kr_start (s : option (list kiovec)) (n : Z) (r : krange) : krange :=
  Krange (kr_flags r) s n (kr_end r) (kr_endcnt r) (kr_count r) (kr_keys r) (kr_keyscnt r).
Definition set_ki_curwin (w : option ptr) (i : kiter) : kiter :=
  Kiter (ki_ktd i) (ki_rreq i) (ki_rwin1 i) (ki_rwin2 i) w (ki_curkey i) (ki_seenkeys i) (ki_maxkeyreq i).
Definition set_ki_curkey (n : Z) (i : kiter) : kiter :=
  Kiter (ki_ktd i) (ki_rreq i) (ki_rwin1 i) (ki_rwin2 i) (ki_curwin i) n (ki_seenkeys i) (ki_maxkeyreq i).
Definition set_ki_seenkeys (n : Z) (i : kiter) : kiter :=
  Kiter (ki_ktd i) (ki_rreq i) (ki_rwin1 i) (ki_rwin2 i) (ki_curwin i) (ki_curkey i) n (ki_maxkeyreq i).

(** The caller's dereference of a returned address *)
Definition iter_key (a : ptr * Z) : ST heap kiovec :=
  r ← get_range a.1;
  ks ← deref_st (kr_keys r);
  array_rd ks a.2.

Section iter.
Context {GR : GetRange}.

(** [ki_rangecpy(dst, src)] between two buffers of the heap *)
Definition rangecpy_at (dst src : ptr) : ST heap bool :=
  d ← get_range dst;
  s ← get_range src;
  rc ← on_mem (ki_rangecpy (Some d) s);
  d' ← deref_st rc.2;
  put_range dst d' ;;
  mret (bool_decide (rc.1 <> None)).

Definition getrange_at (ktd : Z) (w : ptr) : ST heap Z :=
  r ← get_range w;
  rc ← on_mem (ki_getrange ktd r);
  put_range w rc.2 ;;
  mret rc.1.

(** [&kit->ki_curwin->kr_keys[kit->ki_curkey]] *)
Definition current (kit : ptr) : ST heap (option (ptr * Z)) :=
  i ← get_iter kit;
  w ← deref_st (ki_curwin i);
  r ← get_range w;
  ks ← deref_st (kr_keys r);
  mret (Some (w, ki_curkey i)).

Definition upd_iter (kit : ptr) (f : kiter -> kiter) : ST heap unit :=
  i ← get_iter kit; put_iter kit (f i).
Definition upd_range (w : ptr) (f : krange -> krange) : ST heap unit :=
  r ← get_range w; put_range w (f r).

Definition ki_start (kit ckr : option ptr) : ST heap (option (ptr * Z)) :=
  match kit, ckr with
  | Some kit, Some ckr =>
      c ← get_range ckr;
      if kr_count c =? 0 then mret None else
      i ← get_iter kit;
      match ki_rreq i, ki_rwin1 i, ki_rwin2 i with
      | Some rreq, Some rwin1, Some rwin2 =>
          i_rangeclean (Some rreq) ;;
          i_rangeclean (Some rwin1) ;;
          i_rangeclean (Some rwin2) ;;
          ok ← rangecpy_at rreq ckr;
          if negb ok then mret None else
          upd_iter kit (set_ki_curwin (Some rwin1)) ;;
          ok ← rangecpy_at rwin1 rreq;
          if negb ok then mret None else
          rq ← get_range rreq;
          (if (kr_count rq =? KVR_COUNT_INF) || (u32 (kr_count rq) >? ki_maxkeyreq i)
           then upd_range rwin1 (set_kr_count (i32 (ki_maxkeyreq i))) else mret tt) ;;
          krc ← getrange_at (ki_ktd i) rwin1;
          cw ← get_range rwin1;
          if negb (krc =? K_OK) || (kr_count cw =? 0) then mret None else
          upd_iter kit (set_ki_curkey 0) ;;
          upd_iter kit (set_ki_seenkeys 1) ;;
          current kit
      | _, _, _ => mret None
      end
  | _, _ => mret None
  end.

(** The refill of [ki_next] *)
Definition refill (kit w rreq : ptr) : ST heap Z :=
  i ← get_iter kit;
  cw ← get_range w;
  ks ← deref_st (kr_keys cw);
  v ← array_rd ks (kr_keyscnt cw - 1);
  lastkey ← on_mem (ki_keydupf (Some [v]) 1);
  on_mem (ki_keydestroy (kr_start cw) (kr_startcnt cw)) ;;
  on_mem (ki_keydestroy (kr_keys cw) (kr_keyscnt cw)) ;;
  upd_range w (fun r => KR_FLAG_CLR (set_kr_keys None 0 (set_kr_start lastkey 1 r)) KRF_ISTART) ;;
  rq ← get_range rreq;
  let keysleft := u32 (kr_count rq - ki_seenkeys i) in
  (if (kr_count rq =? KVR_COUNT_INF) || (keysleft >? ki_maxkeyreq i)
   then upd_range w (set_kr_count (i32 (ki_maxkeyreq i)))
   else upd_range w (set_kr_count (i32 keysleft))) ;;
  getrange_at (ki_ktd i) w.

Definition ki_next (kit : option ptr) : ST heap (option (ptr * Z)) :=
  match kit with
  | None => mret None
  | Some kit =>
      i ← get_iter kit;
      match ki_rreq i, ki_rwin1 i with
      | Some rreq, Some _ =>
          rq ← get_range rreq;
          if negb (kr_count rq =? KVR_COUNT_INF) && (ki_seenkeys i >=? kr_count rq) then mret None else
          w ← deref_st (ki_curwin i);
          upd_iter kit (fun i => set_ki_curkey (u32 (ki_curkey i + 1)) i) ;;
          cw ← get_range w;
          if u32 (ki_curkey i + 1) >=? kr_keyscnt cw then
            krc ← refill kit w rreq;
            cw ← get_range w;
            if negb (krc =? K_OK) || (kr_count cw =? 0) then mret None else
            upd_iter kit (set_ki_curkey 0) ;;
            upd_iter kit (fun i => set_ki_seenkeys (i32 (ki_seenkeys i + 1)) i) ;;
            current kit
          else
            upd_iter kit (fun i => set_ki_seenkeys (i32 (ki_seenkeys i + 1)) i) ;;
            current kit
      | _, _ => mret None
      end
  end.

(** The loop of the source's example, collecting the bytes of each key:
    [for (k = ki_start(kit, &kr); k; k = ki_next(kit))]. *)
Definition key_bytes (a : ptr * Z) : ST heap buffer := v ← iter_key a; iov_bytes_st v.

Fixpoint iter_loop (fuel : nat) (kit : option ptr) (k : option (ptr * Z)) : ST heap (list buffer) :=
  match fuel, k with
  | _, None => mret []
  | O, Some _ => fun _ => NoFuel
  | S fuel, Some a =>
      b ← key_bytes a;
      k ← ki_next kit;
      bs ← iter_loop fuel kit k;
      mret (b :: bs)
  end.

Definition iterate (fuel : nat) (kit ckr : option ptr) : ST heap (list buffer) :=
  k ← ki_start kit ckr; iter_loop fuel kit k.
End iter.

(** ** The server's side of a range request *)
Definition after_start (s : option buffer) (incl : bool) (k : buffer) : bool :=
  match s with None => true | Some s => if incl then key_le s k else key_lt s k end.
Definition before_end (e : option buffer) (incl : bool) (k : buffer) : bool :=
  match e with None => true | Some e => if incl then key_le k e else key_lt k e end.

(** The keys of a sorted store in the range a request denotes *)
Definition keys_in (db : list buffer) (s : option buffer) (si : bool) (e : option buffer) (ei : bool) : list buffer :=
  base.filter (fun k => after_start s si k && before_end e ei k = true) db.

Definition istart (r : krange) : bool := negb (KR_ISTART r =? 0).
Definition iend (r : krange) : bool := negb (KR_IEND r =? 0).

(** The bytes of a key given as a vector *)
Definition join (b : option (list buffer)) : option buffer := (fun bs => concat bs) <$> b.

(** The law of [ki_getrange] against a store [db] that does not change, in a
    session whose limits are [keylen] and [rangekeycnt]: a valid forward request
    for [kr_count] keys is answered K_OK with the first [kr_count] of the keys in
    its range, one allocated buffer each, the rest of the structure untouched;
    when there is none, with the status [empty] (and an empty array if that is
    K_OK). *)
Definition bound_ok (keylen : Z) (b : option (list buffer)) : Prop :=
  forall bs, b = Some bs -> 0 < zlen (concat bs) <= keylen.

Definition request_ok (keylen rangekeycnt : Z) (r : krange) (s e : option (list buffer)) : Prop :=
  range_denotes r s e None /\ bound_ok keylen s /\ bound_ok keylen e /\
  KR_REVERSE r = 0 /\ 0 < kr_count r <= rangekeycnt.

Class GetRangeLaws {GR : GetRange} (db : list buffer) (empty keylen rangekeycnt : Z) := {
  db_sorted : StronglySorted (fun a b => key_lt a b = true) db;
  db_keys : Forall (fun k => 0 < zlen k <= keylen) db;
  getrange_ok ktd r s e ks m :
    mem_ok m -> request_ok keylen rangekeycnt r s e ->
    ks = take (Z.to_nat (kr_count r)) (keys_in db (join s) (istart r) (join e) (iend r)) ->
    ks <> [] ->
    exists m', ki_getrange ktd r m = Ok ((K_OK, set_kr_keys (Some (dup_of ks)) (zlen ks) r), m') /\ mem_ok m';
  getrange_empty ktd r s e m :
    mem_ok m -> request_ok keylen rangekeycnt r s e ->
    keys_in db (join s) (istart r) (join e) (iend r) = [] ->
    exists m' r', ki_getrange ktd r m = Ok ((empty, r'), m') /\ mem_ok m' /\
      (empty = K_OK -> r' = set_kr_keys (Some []) 0 r) }.

(** After the last key [x] of a prefix, an exclusive request from [x] asks for
    exactly the rest. *)
Lemma filter_split {A} (P : A -> Prop) `{!forall a, Decision (P a)} db l1 x l2 :
  base.filter P db = l1 ++ x :: l2 ->
  exists d1 d2, db = d1 ++ x :: d2 /\ base.filter P d1 = l1 /\ base.filter P d2 = l2 /\ P x.
Proof.
  revert l1. induction db as [|y db IH]; intros l1 HF; [by destruct l1|].
  rewrite filter_cons in HF. destruct (decide (P y)) as [Hy|Hy].
  - destruct l1 as [|z l1]; injection HF as -> HF.
    + exists [], db. by rewrite HF.
    + destruct (IH l1 HF) as (d1 & d2 & -> & H1 & H2 & Hx). exists (z :: d1), d2.
      rewrite filter_cons_True by done. by rewrite H1.
  - destruct (IH l1 HF) as (d1 & d2 & -> & H1 & H2 & Hx). exists (y :: d1), d2.
    by rewrite filter_cons_False.
Qed.

Lemma filter_Forall_ext {A} (P Q : A -> Prop) `{!forall a, Decision (P a), !forall a, Decision (Q a)} l :
  Forall (fun a => P a <-> Q a) l -> base.filter P l = base.filter Q l.
Proof.
  induction 1 as [|a l Ha Hl IH]; [done|]. rewrite !filter_cons, IH.
  destruct (decide (P a)), (decide (Q a)); tauto.
Qed.

Lemma filter_Forall_not {A} (P : A -> Prop) `{!forall a, Decision (P a)} l :
  Forall (fun a => ~ P a) l -> base.filter P l = [].
Proof. induction 1 as [|a l Ha _ IH]; [done|]. by rewrite filter_cons_False. Qed.

Lemma StronglySorted_app_inv' {A} (R : A -> A -> Prop) l1 x l2 :
  StronglySorted R (l1 ++ x :: l2) -> Forall (fun y => R y x) l1 /\ Forall (R x) l2.
Proof.
  induction l1 as [|y l1 IH]; intros H; inversion_clear H as [|? ? Hs HF].
  - split; [constructor|done].
  - destruct (IH Hs) as [H1 H2]. split; [|done]. constructor; [|done].
    apply Forall_app in HF as [_ HF]. by inversion HF.
Qed.

Lemma after_start_lt s si x y :
  after_start s si x = true -> key_lt x y = true -> after_start s si y = true.
Proof.
  intros H1 H2. destruct s as [s|]; [|done]. cbn in *. destruct si.
  - apply key_lt_le. by eapply key_le_lt_trans.
  - eapply key_le_lt_trans; [by apply key_lt_le|done].
Qed.

Lemma keys_in_after db s si e ei l1 x l2 :
  StronglySorted (fun a b => key_lt a b = true) db ->
  keys_in db s si e ei = l1 ++ x :: l2 ->
  keys_in db (Some x) false e ei = l2.
Proof.
  intros Hs (d1 & d2 & -> & _ & <- & Hx)%filter_split.
  apply StronglySorted_app_inv' in Hs as [H1 H2].
  unfold keys_in. rewrite filter_app, filter_cons_False.
  2: { cbn. by rewrite key_lt_irrefl. }
  rewrite filter_Forall_not.
  2: { eapply Forall_impl; [exact H1|]. intros y Hy. cbn. by rewrite key_lt_asym. }
  apply filter_Forall_ext. eapply Forall_impl; [exact H2|]. intros y Hy. cbn in *.
  apply andb_true_iff in Hx as [Hx _]. rewrite Hy, (after_start_lt _ _ _ _ Hx Hy). done.
Qed.

(** A window of [n] keys and what follows its last key *)
Lemma keys_in_window db s si e ei n x :
  StronglySorted (fun a b => key_lt a b = true) db ->
  let ks := keys_in db s si e ei in
  last (take n ks) = Some x ->
  ks = take n ks ++ keys_in db (Some x) false e ei.
Proof.
  intros Hs ks Hl. rewrite <- (take_drop n ks) at 1. f_equal.
  apply last_Some in Hl as [l Hl]. symmetry. apply (keys_in_after db s si e ei l x); [done|].
  fold ks. rewrite <- (take_drop n ks) at 1. rewrite Hl. by rewrite <- app_assoc.
Qed.

(** ** The heap as the iterator sees it *)
Definition sees (h : heap) (p : ptr) (d : ktb_data) : Prop :=
  exists k, h_blocks h !! p = Some k /\ ktb_buf k = d.

(** [h'] differs from [h] in the block at [p] only. *)
Definition frame (p : ptr) (h h' : heap) : Prop :=
  h_mem h' = h_mem h /\ forall q d, q <> p -> sees h q d -> sees h' q d.

Section view.
Implicit Types (h : heap) (p w kit : ptr).

Lemma sees_range h p r : sees h p (DRange r) -> get_range p h = Ok (r, h).
Proof. intros (k & ? & ?). by eapply get_range_run. Qed.
Lemma sees_iter h p i : sees h p (DIter i) -> get_iter p h = Ok (i, h).
Proof. intros (k & ? & ?). by eapply get_iter_run. Qed.

Lemma frame_insert h p k : frame p h (Heap (h_mem h) (<[p := k]> (h_blocks h))).
Proof.
  split; [done|]. intros q d Hq (k' & ? & ?). exists k'. cbn. by rewrite lookup_insert_ne by done.
Qed.

Lemma put_range_sees h p r r' :
  sees h p (DRange r) ->
  exists h', put_range p r' h = Ok (tt, h') /\ sees h' p (DRange r') /\ frame p h h'.
Proof.
  intros (k & Hp & Hk). eexists. split; [by eapply put_range_run|].
  split; [|apply frame_insert]. eexists. cbn. by rewrite lookup_insert_eq.
Qed.

Lemma upd_range_sees h p r f :
  sees h p (DRange r) ->
  exists h', upd_range p f h = Ok (tt, h') /\ sees h' p (DRange (f r)) /\ frame p h h'.
Proof.
  intros Hp. unfold upd_range. destruct (put_range_sees h p r (f r) Hp) as (h' & H & ?).
  exists h'. split; [|done]. by erewrite bind_Ok by by apply sees_range.
Qed.

Lemma upd_iter_sees h p i f :
  sees h p (DIter i) ->
  exists h', upd_iter p f h = Ok (tt, h') /\ sees h' p (DIter (f i)) /\ frame p h h'.
Proof.
  intros Hp. pose proof Hp as (k & Hk & Hb). unfold upd_iter. eexists. split.
  { erewrite bind_Ok by by apply sees_iter. by eapply put_iter_run. }
  split; [|apply frame_insert]. eexists. cbn. by rewrite lookup_insert_eq.
Qed.

Lemma on_mem_run {A} (m : ST mem A) h a s :
  m (h_mem h) = Ok (a, s) -> on_mem m h = Ok (a, Heap s (h_blocks h)).
Proof. intros H. unfold on_mem. by rewrite H. Qed.

Lemma current_run h kit i w r ks :
  sees h kit (DIter i) -> ki_curwin i = Some w -> sees h w (DRange r) -> kr_keys r = Some ks ->
  current kit h = Ok (Some (w, ki_curkey i), h).
Proof.
  intros Hi Hw Hr Hk. unfold current. erewrite bind_Ok by by apply sees_iter.
  rewrite Hw. erewrite bind_Ok by done. erewrite bind_Ok by by apply sees_range.
  rewrite Hk. by erewrite bind_Ok by done.
Qed.

(** Emptying a range *)
Lemma i_rangeclean_run h p r s e ks :
  sees h p (DRange r) -> range_denotes r s e ks -> mem_ok (h_mem h) ->
  exists h', i_rangeclean (Some p) h = Ok (tt, h') /\ sees h' p (DRange krange0) /\
    mem_ok (h_mem h') /\ forall q d, q <> p -> sees h q d -> sees h' q d.
Proof.
  intros Hp (Hs & He & Hk) Hm. unfold i_rangeclean.
  destruct (ki_keydestroy_denotes _ _ _ _ Hm Hk) as (m1 & H1 & Hm1).
  destruct (ki_keydestroy_denotes _ _ _ _ Hm1 Hs) as (m2 & H2 & Hm2).
  destruct (ki_keydestroy_denotes _ _ _ _ Hm2 He) as (m3 & H3 & Hm3).
  destruct (put_range_sees (Heap m3 (h_blocks h)) p r krange0) as (h' & H & Hp' & Hmem & Hfr); [done|].
  exists h'. split.
  { erewrite bind_Ok by by apply sees_range. erewrite bind_Ok by by apply on_mem_run.
    erewrite bind_Ok by by apply on_mem_run. by erewrite bind_Ok by by apply on_mem_run. }
  split; [done|]. rewrite Hmem. by split.
Qed.

(** Copying a range between two buffers *)
Lemma rangecpy_at_run h dst src d r s e ks :
  sees h dst (DRange d) -> sees h src (DRange r) -> range_denotes r s e ks -> mem_ok (h_mem h) ->
  exists h', rangecpy_at dst src h = Ok (true, h') /\ sees h' dst (DRange (range_of r s e ks)) /\
    range_denotes (range_of r s e ks) s e ks /\
    mem_ok (h_mem h') /\ forall q d, q <> dst -> sees h q d -> sees h' q d.
Proof.
  intros Hd Hr Hden Hm. unfold rangecpy_at.
  destruct (ki_rangecpy_run (h_mem h) d r s e ks Hm Hden) as (m' & H & Hm' & Hden').
  destruct (put_range_sees (Heap m' (h_blocks h)) dst d (range_of r s e ks)) as (h' & H' & Hp' & Hmem & Hfr);
    [done|].
  exists h'. split.
  { erewrite bind_Ok by by apply sees_range. erewrite bind_Ok by by apply sees_range.
    erewrite bind_Ok by by apply on_mem_run. cbn [snd]. erewrite bind_Ok by done.
    by erewrite bind_Ok by exact H'. }
  split; [done|]. split; [done|]. rewrite Hmem. by split.
Qed.
End view.

(** ** The walk *)
Section walk.
Context {GR : GetRange} (db : list buffer) (empty keylen rangekeycnt : Z)
        {GL : GetRangeLaws db empty keylen rangekeycnt}.
Context (kit r w : ptr) (Hnd : NoDup [kit; r; w]).
Context (e : option (list buffer)) (ei : bool) (He : bound_ok keylen e).
Context (n M : Z) (Hn : n = KVR_COUNT_INF \/ 0 < n < 2 ^ 31)
        (HM : 0 < M <= rangekeycnt) (HM2 : M < 2 ^ 31) (Hkl : keylen < 2 ^ 31).

(** The iterator is on key [cur], the [k]-th it returned and the [j]-th of its
    window; [rem] are the keys of the range after it. *)
Record at_key (h : heap) (k j : Z) (cur : buffer) (rem : list buffer) : Prop := AtKey {
  ak_mem : mem_ok (h_mem h);
  ak_iter : exists ktd w2, sees h kit (DIter (Kiter ktd (Some r) (Some w) w2 (Some w) j k M));
  ak_req : exists rq, sees h r (DRange rq) /\ kr_count rq = n;
  ak_win : exists cw s win lastkey, sees h w (DRange cw) /\ range_denotes cw s e (Some win) /\
    KR_REVERSE cw = 0 /\ iend cw = ei /\ 0 < kr_count cw /\
    zlen win <= M /\ Forall (fun b => 0 < zlen b <= keylen) win /\
    0 <= j /\ win !! Z.to_nat j = Some cur /\ last win = Some lastkey /\
    rem = drop (S (Z.to_nat j)) win ++ keys_in db (Some lastkey) false (join e) ei }.

Lemma nd_kit_r : kit <> r. Proof. apply NoDup_cons in Hnd as [H _]. intros ->. apply H. left. Qed.
Lemma nd_kit_w : kit <> w. Proof. apply NoDup_cons in Hnd as [H _]. intros ->. apply H. right; left. Qed.
Lemma nd_r_w : r <> w.
Proof. apply NoDup_cons in Hnd as [_ H]. apply NoDup_cons in H as [H _]. intros ->. apply H. left. Qed.

(** What is left to return, and whether the range runs out before the count *)
Definition wanted (k : Z) (rem : list buffer) : list buffer :=
  if n =? KVR_COUNT_INF then rem else take (Z.to_nat (n - k)) rem.
Definition runs_out (k : Z) (rem : list buffer) : bool :=
  (n =? KVR_COUNT_INF) || (zlen rem <? n - k).

Lemma at_key_bytes h k j cur rem : at_key h k j cur rem -> key_bytes (w, j) h = Ok (cur, h).
Proof.
  intros [_ _ _ (cw & s & win & lk & Hw & (_ & _ & Hk) & _ & _ & _ & _ & _ & Hj & Hc & _)].
  unfold key_bytes, iter_key. rewrite bind_assoc. cbn [fst snd].
  erewrite bind_Ok by by apply sees_range. rewrite bind_assoc.
  destruct (kr_keys cw) as [key|]; [|done]. erewrite bind_Ok by done.
  destruct Hk as (_ & _ & Hv). pose proof (Forall2_lookup_r _ _ _ _ _ Hv Hc) as (v & Hv1 & Hv2 & _).
  erewrite bind_Ok.
  2: { unfold array_rd, array_read. replace (j <? 0) with false by lia. by rewrite Hv1. }
  unfold iov_bytes_st. by rewrite Hv2.
Qed.

(** Within the window *)
Lemma at_key_window h k j cur rem :
  at_key h k j cur rem ->
  exists ktd w2 rq cw cnt,
    sees h kit (DIter (Kiter ktd (Some r) (Some w) w2 (Some w) j k M)) /\
    sees h r (DRange rq) /\ kr_count rq = n /\ sees h w (DRange cw) /\
    kr_keyscnt cw = cnt /\ 0 <= j < cnt /\ cnt <= M.
Proof.
  intros [_ (ktd & w2 & Hi) (rq & Hr & Hq) (cw & s & win & lk & Hw & (_ & _ & Hk) & _ & _ & _ & Hl & _ & Hj & Hc & _)].
  exists ktd, w2, rq, cw, (zlen win). split_and!; try done.
  - destruct (kr_keys cw); [|done]. destruct Hk as (_ & -> & Hv).
    unfold zlen. f_equal. by eapply Forall2_length.
  - apply lookup_lt_Some in Hc. unfold zlen. lia.
Qed.

Lemma ki_next_end h k j cur rem :
  at_key h k j cur rem -> n <> KVR_COUNT_INF -> n <= k -> ki_next (Some kit) h = Ok (None, h).
Proof.
  intros Hk Hn1 Hn2. destruct (at_key_window _ _ _ _ _ Hk) as (ktd & w2 & rq & cw & cnt & Hi & Hr & Hq & _).
  unfold ki_next. erewrite bind_Ok by by apply sees_iter. cbn [ki_rreq ki_rwin1 ki_seenkeys].
  erewrite bind_Ok by by apply sees_range. rewrite Hq.
  replace (n =? KVR_COUNT_INF) with false by lia. cbn [negb andb].
  by replace (k >=? n) with true by lia.
Qed.

(** The range of the next request *)
Definition next_count (k : Z) : Z :=
  if (n =? KVR_COUNT_INF) || (n - k >? M) then M else n - k.
Definition next_request (lk : buffer) (k : Z) (cw : krange) : krange :=
  set_kr_count (next_count k)
    (KR_FLAG_CLR (set_kr_keys None 0 (set_kr_start (Some (dup_of [lk])) 1 cw)) KRF_ISTART).

Lemma clr_istart (f m : Z) :
  Z.land (Z.land f (u32 (Z.lnot KRF_ISTART))) m = Z.land f (Z.land (u32 (Z.lnot KRF_ISTART)) m).
Proof. by rewrite Z.land_assoc. Qed.

Lemma next_request_ok lk k cw s ks :
  range_denotes cw s e ks -> 0 < zlen lk <= keylen -> KR_REVERSE cw = 0 ->
  n = KVR_COUNT_INF \/ k < n -> 0 < next_count k <= M /\
  request_ok keylen rangekeycnt (next_request lk k cw) (Some [lk]) e /\
  istart (next_request lk k cw) = false /\ iend (next_request lk k cw) = iend cw.
Proof.
  intros (_ & Hend & _) Hlk Hrev Hc.
  assert (0 < next_count k <= M) as Hcnt.
  { unfold next_count. destruct ((n =? KVR_COUNT_INF) || (n - k >? M)) eqn:E; [lia|]. zbool. lia. }
  split; [done|]. split.
  - split; [split; [|split]|split; [|split; [exact He|split]]].
    + cbn. split; [done|]. split; [done|]. apply (dup_of_bytes [lk]).
    + exact Hend.
    + done.
    + intros bs [= <-]. cbn [concat]. by rewrite app_nil_r.
    + unfold KR_REVERSE in *. cbn. rewrite clr_istart. exact Hrev.
    + cbn [kr_count set_kr_count next_request]. lia.
  - unfold istart, iend, KR_ISTART, KR_IEND. cbn. rewrite !clr_istart. by rewrite Z.land_0_r.
Qed.

Lemma array_rd_last {A} (l : list A) (v : A) (h : heap) :
  last l = Some v -> array_rd l (zlen l - 1) h = Ok (v, h).
Proof. intros [l' ->]%last_Some. apply array_rd_middle. rewrite zlen_app. unfold zlen. cbn [length]. lia. Qed.

Lemma refill_run h ktd w2 rq cw s win lk k j :
  mem_ok (h_mem h) -> 1 <= k < 2 ^ 31 ->
  sees h kit (DIter (Kiter ktd (Some r) (Some w) w2 (Some w) j k M)) ->
  sees h r (DRange rq) -> kr_count rq = n -> sees h w (DRange cw) ->
  range_denotes cw s e (Some win) -> last win = Some lk -> 0 < zlen lk <= keylen ->
  n = KVR_COUNT_INF \/ k < n ->
  exists h1, refill kit w r h = getrange_at ktd w h1 /\
    sees h1 w (DRange (next_request lk k cw)) /\ mem_ok (h_mem h1) /\
    forall q d, q <> w -> sees h q d -> sees h1 q d.
Proof.
  intros Hm Hk Hi Hr Hq Hw (Hs & Hend & Hks) Hlast Hlk Hc.
  destruct (kr_keys cw) as [key|] eqn:Ekey; [|done]. pose proof Hks as (Hne & Hcnt & Hv).
  destruct (last key) as [v|] eqn:Ev; [|by apply last_None in Ev].
  assert (iov_bytes v = Ok lk /\ 0 <= kiov_len v) as Hvb.
  { apply last_Some in Ev as [k0 ->]. apply last_Some in Hlast as [win0 ->].
    apply Forall2_app_inv in Hv as [_ Hv]; [by inversion Hv|].
    apply Forall2_length in Hv. rewrite !length_app in Hv. cbn in Hv. lia. }
  destruct (ki_keydupf_run (h_mem h) [v] [lk]) as (m1 & H1 & _ & Hm1);
    [done|by constructor|done|cbn [concat]; rewrite app_nil_r; lia|].
  cbn [concat] in H1. rewrite app_nil_r in H1.
  destruct (ki_keydestroy_denotes m1 _ _ _ Hm1 Hs) as (m2 & H2 & Hm2).
  destruct (ki_keydestroy_denotes m2 _ _ _ Hm2 Hks) as (m3 & H3 & Hm3).
  set (h3 := Heap m3 (h_blocks h)).
  destruct (upd_range_sees h3 w cw (fun r => KR_FLAG_CLR (set_kr_keys None 0
    (set_kr_start (Some (dup_of [lk])) 1 r)) KRF_ISTART) Hw) as (h4 & H4 & Hw4 & Hmem4 & Hf4).
  destruct (upd_range_sees h4 w _ (set_kr_count (next_count k)) Hw4) as (h5 & H5 & Hw5 & Hmem5 & Hf5).
  exists h5. split; [|split; [exact Hw5|split; [by rewrite Hmem5, Hmem4|]]].
  2: { intros q d Hne' Hqd. apply Hf5; [done|]. by apply Hf4. }
  unfold refill. erewrite bind_Ok by by apply sees_iter. erewrite bind_Ok by by apply sees_range.
  rewrite Ekey. erewrite bind_Ok by done. rewrite Hcnt.
  erewrite bind_Ok by by apply array_rd_last.
  erewrite bind_Ok by by apply on_mem_run. erewrite bind_Ok by by apply on_mem_run.
  rewrite <- Hcnt. erewrite bind_Ok by (apply on_mem_run; exact H3). erewrite bind_Ok by exact H4.
  erewrite bind_Ok by (apply sees_range; apply Hf4; [by apply nd_r_w|exact Hr]). cbv zeta.
  rewrite Hq. cbn [ki_seenkeys ki_maxkeyreq ki_ktd].
  assert (Hu : n <> KVR_COUNT_INF -> u32 (n - k) = n - k) by (unfold KVR_COUNT_INF in *; intros; apply u32_small; lia).
  erewrite bind_Ok; [done|]. rewrite <- H5. unfold next_count.
  destruct (n =? KVR_COUNT_INF) eqn:En; cbn [orb]; zbool.
  - by rewrite i32_small by lia.
  - rewrite Hu by done. destruct (n - k >? M) eqn:EM; zbool; by rewrite i32_small by lia.
Qed.

(** *** One remote call on the window *)
Lemma getrange_found h ktd q s ks :
  sees h w (DRange q) -> mem_ok (h_mem h) -> request_ok keylen rangekeycnt q s e ->
  ks = take (Z.to_nat (kr_count q)) (keys_in db (join s) (istart q) (join e) (iend q)) -> ks <> [] ->
  exists h', getrange_at ktd w h = Ok (K_OK, h') /\ mem_ok (h_mem h') /\
    sees h' w (DRange (set_kr_keys (Some (dup_of ks)) (zlen ks) q)) /\
    forall p d, p <> w -> sees h p d -> sees h' p d.
Proof.
  intros Hw Hm Hq Hks Hne. destruct (getrange_ok ktd q s e ks (h_mem h) Hm Hq Hks Hne) as (m' & H & Hm').
  destruct (put_range_sees (Heap m' (h_blocks h)) w q (set_kr_keys (Some (dup_of ks)) (zlen ks) q))
    as (h' & H' & Hw' & Hmem & Hf); [done|].
  exists h'. split; [|split; [by rewrite Hmem|by split]].
  unfold getrange_at. erewrite bind_Ok by by apply sees_range. erewrite bind_Ok by by apply on_mem_run.
  by erewrite bind_Ok by exact H'.
Qed.

Lemma getrange_none h ktd q s :
  sees h w (DRange q) -> mem_ok (h_mem h) -> request_ok keylen rangekeycnt q s e ->
  keys_in db (join s) (istart q) (join e) (iend q) = [] ->
  exists h' q', getrange_at ktd w h = Ok (empty, h') /\ mem_ok (h_mem h') /\ sees h' w (DRange q') /\
    (empty = K_OK -> q' = set_kr_keys (Some []) 0 q) /\
    forall p d, p <> w -> sees h p d -> sees h' p d.
Proof.
  intros Hw Hm Hq Hks. destruct (getrange_empty ktd q s e (h_mem h) Hm Hq Hks) as (m' & q' & H & Hm' & He').
  destruct (put_range_sees (Heap m' (h_blocks h)) w q q') as (h' & H' & Hw' & Hmem & Hf); [done|].
  exists h', q'. split; [|split; [by rewrite Hmem|by split_and!]].
  unfold getrange_at. erewrite bind_Ok by by apply sees_range. erewrite bind_Ok by by apply on_mem_run.
  by erewrite bind_Ok by exact H'.
Qed.

(** A window just filled *)
Lemma filled_at_key h k q s all ks x rem :
  mem_ok (h_mem h) ->
  (exists ktd w2, sees h kit (DIter (Kiter ktd (Some r) (Some w) w2 (Some w) 0 k M))) ->
  (exists rq, sees h r (DRange rq) /\ kr_count rq = n) ->
  request_ok keylen rangekeycnt q s e -> iend q = ei -> kr_count q <= M ->
  all = keys_in db (join s) (istart q) (join e) (iend q) ->
  ks = take (Z.to_nat (kr_count q)) all ->
  sees h w (DRange (set_kr_keys (Some (dup_of ks)) (zlen ks) q)) ->
  all = x :: rem -> at_key h k 0 x rem.
Proof.
  intros Hm Hi Hr (( Hs & Hend & _) & _ & _ & Hrev & Hc & Hc2) Hei HcM Eall Eks Hw Hx.
  assert (exists n', Z.to_nat (kr_count q) = S n') as [n' En] by (exists (pred (Z.to_nat (kr_count q))); lia).
  assert (Hne : ks = x :: take n' rem) by by rewrite Eks, Hx, En.
  destruct (last ks) as [lk|] eqn:Hl; [|by apply last_None in Hl; rewrite Hne in Hl].
  split; [done|done|done|].
  exists (set_kr_keys (Some (dup_of ks)) (zlen ks) q), s, ks, lk.
  split_and!; try done.
  - split; [exact Hs|]. split; [exact Hend|]. cbn. split; [by rewrite Hne|]. split.
    + unfold zlen, dup_of. by rewrite length_fmap.
    + apply dup_of_bytes.
  - rewrite Eks. unfold zlen. rewrite length_take. lia.
  - rewrite Eks, Eall. apply Forall_take, Forall_forall. intros b Hb.
    apply list_elem_of_filter in Hb as [_ Hb]. pose proof db_keys as Hdb.
    by eapply Forall_forall in Hdb; [|exact Hb].
  - by rewrite Hne.
  - pose proof (keys_in_window db (join s) (istart q) (join e) (iend q) (Z.to_nat (kr_count q)) lk db_sorted) as Hwd.
    cbv zeta in Hwd. rewrite <- Eall, <- Eks in Hwd. specialize (Hwd Hl).
    rewrite Hei in Hwd. rewrite Hx in Hwd. rewrite Hne in Hwd |- *. cbn. by injection Hwd.
Qed.

(** *** One [ki_next] *)
Definition next_post (k : Z) (rem : list buffer) (res : option (ptr * Z)) (h' : heap) : Prop :=
  match rem with
  | x :: rem' => exists j, res = Some (w, j) /\ at_key h' (k + 1) j x rem'
  | [] => if empty =? K_OK then res = Some (w, 0) /\ key_bytes (w, 0) h' = Ub else res = None
  end.

Lemma at_win_inv h k j cur rem :
  at_key h k j cur rem ->
  exists ktd w2 rq cw s win lk,
    sees h kit (DIter (Kiter ktd (Some r) (Some w) w2 (Some w) j k M)) /\
    sees h r (DRange rq) /\ kr_count rq = n /\ sees h w (DRange cw) /\
    range_denotes cw s e (Some win) /\ kr_keyscnt cw = zlen win /\ is_Some (kr_keys cw) /\
    KR_REVERSE cw = 0 /\ iend cw = ei /\ 0 < kr_count cw /\
    zlen win <= M /\ Forall (fun b => 0 < zlen b <= keylen) win /\
    0 <= j < zlen win /\ last win = Some lk /\
    rem = drop (S (Z.to_nat j)) win ++ keys_in db (Some lk) false (join e) ei.
Proof.
  intros [_ (ktd & w2 & Hi) (rq & Hr & Hq)
    (cw & s & win & lk & Hw & Hden & Hrev & Hei & Hcc & Hl & HF & Hj & Hc & Hlast & Hrem)].
  pose proof Hden as (_ & _ & Hk). exists ktd, w2, rq, cw, s, win, lk.
  apply lookup_lt_Some in Hc.
  split_and!; try done; [|by destruct (kr_keys cw)|unfold zlen; lia].
  destruct (kr_keys cw); [|done]. destruct Hk as (_ & -> & Hv).
  unfold zlen. f_equal. by eapply Forall2_length.
Qed.

Lemma ki_next_within h k j rem ktd w2 rq cw s win lk :
  mem_ok (h_mem h) -> 1 <= k < 2 ^ 31 - 1 -> n = KVR_COUNT_INF \/ k < n ->
  sees h kit (DIter (Kiter ktd (Some r) (Some w) w2 (Some w) j k M)) ->
  sees h r (DRange rq) -> kr_count rq = n -> sees h w (DRange cw) ->
  range_denotes cw s e (Some win) -> kr_keyscnt cw = zlen win -> is_Some (kr_keys cw) ->
  KR_REVERSE cw = 0 -> iend cw = ei -> 0 < kr_count cw ->
  zlen win <= M -> Forall (fun b => 0 < zlen b <= keylen) win ->
  0 <= j -> j + 1 < zlen win -> last win = Some lk ->
  rem = drop (S (Z.to_nat j)) win ++ keys_in db (Some lk) false (join e) ei ->
  exists x rem' h', rem = x :: rem' /\ ki_next (Some kit) h = Ok (Some (w, j + 1), h') /\
    at_key h' (k + 1) (j + 1) x rem'.
Proof.
  intros Hm Hk Hc Hi Hr Hq Hw Hden Hcnt [key Hkey] Hrev Hei Hcc HlM HF Hj Hjl Hlast Hrem.
  destruct (lookup_lt_is_Some_2 win (S (Z.to_nat j))) as [x Hx]; [unfold zlen in Hjl; lia|].
  destruct (upd_iter_sees h kit _ (fun i => set_ki_curkey (u32 (ki_curkey i + 1)) i) Hi) as (h1 & H1 & Hi1 & Hmem1 & Hf1).
  destruct (upd_iter_sees h1 kit _ (fun i => set_ki_seenkeys (i32 (ki_seenkeys i + 1)) i) Hi1)
    as (h2 & H2 & Hi2 & Hmem2 & Hf2).
  pose proof nd_kit_w as Nkw. pose proof nd_kit_r as Nkr.
  cbn [ki_curkey ki_seenkeys set_ki_curkey set_ki_seenkeys ki_ktd ki_rreq ki_rwin1 ki_rwin2 ki_curwin ki_maxkeyreq] in Hi2.
  rewrite u32_small, i32_small in Hi2 by lia.
  assert (Hw2 : sees h2 w (DRange cw)) by (apply Hf2; [done|]; by apply Hf1).
  assert (Hr2 : sees h2 r (DRange rq)) by (apply Hf2; [done|]; by apply Hf1).
  exists x, (drop (S (S (Z.to_nat j))) win ++ keys_in db (Some lk) false (join e) ei), h2.
  split_and!.
  - by rewrite Hrem, (drop_S win x).
  - unfold ki_next. erewrite bind_Ok by by apply sees_iter. cbn [ki_rreq ki_rwin1 ki_seenkeys ki_curwin ki_curkey].
    erewrite bind_Ok by by apply sees_range. rewrite Hq.
    replace (negb (n =? KVR_COUNT_INF) && (k >=? n)) with false by (unfold KVR_COUNT_INF in *; lia).
    erewrite bind_Ok by done. erewrite bind_Ok by exact H1.
    erewrite bind_Ok by (apply sees_range; by apply Hf1).
    rewrite u32_small, Hcnt by lia. replace (j + 1 >=? zlen win) with false by lia.
    erewrite bind_Ok by exact H2. exact (current_run h2 kit _ w cw key Hi2 eq_refl Hw2 Hkey).
  - split; [by rewrite Hmem2, Hmem1|by eauto|by eauto|].
    exists cw, s, win, lk. split_and!; try done; [lia| |]; by replace (Z.to_nat (j + 1)) with (S (Z.to_nat j)) by lia.
Qed.

Lemma ki_next_refill h k j rem ktd w2 rq cw s win lk :
  mem_ok (h_mem h) -> 1 <= k < 2 ^ 31 - 1 -> n = KVR_COUNT_INF \/ k < n ->
  sees h kit (DIter (Kiter ktd (Some r) (Some w) w2 (Some w) j k M)) ->
  sees h r (DRange rq) -> kr_count rq = n -> sees h w (DRange cw) ->
  range_denotes cw s e (Some win) -> kr_keyscnt cw = zlen win ->
  KR_REVERSE cw = 0 -> iend cw = ei ->
  zlen win <= M -> Forall (fun b => 0 < zlen b <= keylen) win ->
  0 <= j < zlen win -> zlen win <= j + 1 -> last win = Some lk ->
  rem = keys_in db (Some lk) false (join e) ei ->
  exists res h', ki_next (Some kit) h = Ok (res, h') /\ next_post k rem res h'.
Proof.
  intros Hm Hk Hc Hi Hr Hq Hw Hden Hcnt Hrev Hei HlM HF Hj Hjl Hlast Hrem.
  destruct (upd_iter_sees h kit _ (fun i => set_ki_curkey (u32 (ki_curkey i + 1)) i) Hi) as (h1 & H1 & Hi1 & Hmem1 & Hf1).
  pose proof nd_kit_w as Nkw. pose proof nd_kit_r as Nkr. pose proof nd_r_w as Nrw.
  cbn [ki_curkey set_ki_curkey ki_ktd ki_rreq ki_rwin1 ki_rwin2 ki_curwin ki_maxkeyreq ki_seenkeys] in Hi1.
  rewrite u32_small in Hi1 by lia.
  assert (Hlk : 0 < zlen lk <= keylen).
  { apply last_Some in Hlast as [win0 ->]. apply Forall_app in HF as [_ HF]. by inversion HF. }
  destruct (next_request_ok lk k cw s (Some win) Hden Hlk Hrev Hc) as (Hcount & Hreq & His & Hie).
  destruct (refill_run h1 ktd w2 rq cw s win lk k (j + 1)) as (h2 & H2 & Hw2 & Hm2 & Hf2);
    [by rewrite Hmem1|lia|exact Hi1|by apply Hf1|done|by apply Hf1|done..|].
  assert (Hrun : forall krc h3 q', getrange_at ktd w h2 = Ok (krc, h3) -> sees h3 w (DRange q') ->
    ki_next (Some kit) h = (if negb (krc =? K_OK) || (kr_count q' =? 0) then mret None else
      upd_iter kit (set_ki_curkey 0) ;;
      upd_iter kit (fun i => set_ki_seenkeys (i32 (ki_seenkeys i + 1)) i) ;; current kit) h3).
  { intros krc h3 q' H3 Hq'. unfold ki_next. erewrite bind_Ok by by apply sees_iter.
    cbn [ki_rreq ki_rwin1 ki_seenkeys ki_curwin ki_curkey].
    erewrite bind_Ok by by apply sees_range. rewrite Hq.
    replace (negb (n =? KVR_COUNT_INF) && (k >=? n)) with false by (unfold KVR_COUNT_INF in *; lia).
    erewrite bind_Ok by done. erewrite bind_Ok by exact H1.
    erewrite bind_Ok by (apply sees_range; by apply Hf1).
    rewrite u32_small, Hcnt by lia. replace (j + 1 >=? zlen win) with true by lia.
    erewrite bind_Ok by (rewrite H2; exact H3). by erewrite bind_Ok by by apply sees_range. }
  assert (Hit2 : sees h2 kit (DIter (Kiter ktd (Some r) (Some w) w2 (Some w) (j + 1) k M))) by by apply Hf2.
  set (q := next_request lk k cw) in *.
  assert (Hkeys : keys_in db (join (Some [lk])) (istart q) (join e) (iend q) = rem).
  { rewrite His, Hie, Hei, Hrem. cbn. by rewrite app_nil_r. }
  destruct (decide (rem = [])) as [Hnil|Hne].
  - rewrite Hnil in Hkeys. destruct (getrange_none h2 ktd q (Some [lk]) Hw2 Hm2 Hreq Hkeys)
      as (h3 & q' & H3 & Hm3 & Hw3 & Hq' & Hf3).
    rewrite (Hrun _ _ _ H3 Hw3). rewrite Hnil. cbn [next_post]. destruct (empty =? K_OK) eqn:Ee; zbool.
    + specialize (Hq' Ee). subst q'. cbn [negb orb]. replace (kr_count _ =? 0) with false by (cbn; lia).
      destruct (upd_iter_sees h3 kit _ (set_ki_curkey 0) (Hf3 _ _ Nkw Hit2)) as (h4 & H4 & Hi4 & _ & Hf4).
      destruct (upd_iter_sees h4 kit _ (fun i => set_ki_seenkeys (i32 (ki_seenkeys i + 1)) i) Hi4)
        as (h5 & H5 & Hi5 & _ & Hf5).
      assert (Hw5 : sees h5 w (DRange (set_kr_keys (Some []) 0 q))) by (apply Hf5; [done|]; by apply Hf4).
      exists (Some (w, 0)), h5. split.
      { erewrite bind_Ok by exact H4. erewrite bind_Ok by exact H5.
        exact (current_run h5 kit _ w _ _ Hi5 eq_refl Hw5 eq_refl). }
      split; [done|]. unfold key_bytes, iter_key. rewrite bind_assoc. cbn [fst snd].
      erewrite bind_Ok by by apply sees_range. done.
    + cbn [negb orb]. by exists None, h3.
  - set (ks := take (Z.to_nat (kr_count q)) rem).
    assert (Hcq : kr_count q = next_count k) by done.
    assert (Hks : ks <> []).
    { unfold ks. destruct rem; [done|]. rewrite Hcq.
      replace (Z.to_nat (next_count k)) with (S (pred (Z.to_nat (next_count k)))) by lia. done. }
    destruct (getrange_found h2 ktd q (Some [lk]) ks Hw2 Hm2 Hreq) as (h3 & H3 & Hm3 & Hw3 & Hf3);
      [by rewrite Hkeys|done|].
    rewrite (Hrun _ _ _ H3 Hw3). change (K_OK =? K_OK) with true. cbn [negb orb].
    replace (kr_count _ =? 0) with false by (cbn [kr_count set_kr_keys]; lia).
    destruct (upd_iter_sees h3 kit _ (set_ki_curkey 0) (Hf3 _ _ Nkw Hit2)) as (h4 & H4 & Hi4 & Hmem4 & Hf4).
    destruct (upd_iter_sees h4 kit _ (fun i => set_ki_seenkeys (i32 (ki_seenkeys i + 1)) i) Hi4)
      as (h5 & H5 & Hi5 & Hmem5 & Hf5).
    assert (Hw5 : sees h5 w (DRange (set_kr_keys (Some (dup_of ks)) (zlen ks) q)))
      by (apply Hf5; [done|]; by apply Hf4).
    assert (Hr5 : sees h5 r (DRange rq)).
    { apply Hf5; [done|]. apply Hf4; [done|]. apply Hf3; [done|]. apply Hf2; [done|]. by apply Hf1. }
    exists (Some (w, 0)), h5. split.
    { erewrite bind_Ok by exact H4. erewrite bind_Ok by exact H5.
        exact (current_run h5 kit _ w _ _ Hi5 eq_refl Hw5 eq_refl). }
    destruct rem as [|x rem']; [done|]. exists 0. split; [done|].
    eapply (filled_at_key h5 (k + 1) q (Some [lk]) (x :: rem') ks);
      [by rewrite Hmem5, Hmem4| |by eauto|done|by rewrite Hie|lia|done|done|done|done].
    cbn [ki_curkey set_ki_curkey set_ki_seenkeys ki_ktd ki_rreq ki_rwin1 ki_rwin2 ki_curwin ki_maxkeyreq ki_seenkeys] in Hi5.
    rewrite i32_small in Hi5 by lia. by eauto.
Qed.

Lemma ki_next_run h k j cur rem :
  at_key h k j cur rem -> 1 <= k < 2 ^ 31 - 1 -> n = KVR_COUNT_INF \/ k < n ->
  exists res h', ki_next (Some kit) h = Ok (res, h') /\ next_post k rem res h'.
Proof.
  intros Hk Hkb Hc. pose proof (ak_mem _ _ _ _ _ Hk) as Hm.
  destruct (at_win_inv _ _ _ _ _ Hk) as (ktd & w2 & rq & cw & s & win & lk & Hi & Hr & Hq & Hw &
    Hden & Hcnt & Hkeys & Hrev & Hei & Hcc & HlM & HF & Hj & Hlast & Hrem).
  destruct (decide (j + 1 < zlen win)) as [Hjl|Hjl].
  - destruct (ki_next_within h k j rem ktd w2 rq cw s win lk) as (x & rem' & h' & -> & H & Hk');
      [done..|lia|lia|done|done|].
    exists (Some (w, j + 1)), h'. split; [done|]. by exists (j + 1).
  - eapply (ki_next_refill h k j rem ktd w2 rq cw s win lk); try done; [lia|].
    rewrite Hrem, drop_ge; [done|]. unfold zlen in Hjl. lia.
Qed.

Definition loop_result {A} (k : Z) (rem : list buffer) (f : list buffer -> list buffer)
    (o : outcome (list buffer * A)) : Prop :=
  if runs_out k rem && (empty =? K_OK) then o = Ub
  else exists h', o = Ok (f (wanted k rem), h').

Lemma iter_loop_run rem : forall h k j cur fuel,
  at_key h k j cur rem -> 1 <= k -> k + zlen rem < 2 ^ 31 - 1 -> n = KVR_COUNT_INF \/ k <= n ->
  (length rem + 2 <= fuel)%nat ->
  loop_result k rem (cons cur) (iter_loop fuel (Some kit) (Some (w, j)) h).
Proof.
  induction rem as [|x rem IH]; intros h k j cur fuel Hk Hk1 Hkr Hc Hf;
    destruct fuel as [|fuel]; [lia| |lia|]; cbn [iter_loop];
    erewrite bind_Ok by (by eapply at_key_bytes).
  all: destruct (decide (n <> KVR_COUNT_INF /\ n <= k)) as [[Hn1 Hn2]|Hnk].
  1, 3: (erewrite bind_Ok by (by eapply ki_next_end); unfold loop_result, runs_out, wanted;
    replace (n =? KVR_COUNT_INF) with false by lia;
    replace (Z.to_nat (n - k)) with 0%nat by lia).
  1: { replace (zlen (@nil buffer) <? n - k) with false
         by (symmetry; apply Z.ltb_ge; unfold zlen; cbn [length]; lia). cbn [orb andb].
       exists h. by destruct fuel. }
  1: { replace (zlen (x :: rem) <? n - k) with false
         by (symmetry; apply Z.ltb_ge; unfold zlen; cbn [length]; lia).
       cbn [orb andb]. exists h. by destruct fuel. }
  all: assert (n = KVR_COUNT_INF \/ k < n) as Hc' by (destruct (decide (n = KVR_COUNT_INF)); [by left|right; lia]).
  - destruct (ki_next_run h k j cur [] Hk) as (res & h' & H & Hp); [unfold zlen in *; cbn [length] in *; lia|done|].
    erewrite bind_Ok by exact H. cbn [next_post] in Hp. unfold loop_result, runs_out, wanted.
    replace ((n =? KVR_COUNT_INF) || (zlen (@nil buffer) <? n - k)) with true
      by (unfold zlen; cbn [length]; destruct Hc' as [-> |Hc']; [done|];
          symmetry; apply orb_true_iff; right; apply Z.ltb_lt; lia).
    cbn [andb]. rewrite take_nil. destruct (empty =? K_OK).
    + destruct Hp as [-> Hub]. destruct fuel as [|fuel]; [cbn [length] in *; lia|]. cbn [iter_loop].
      apply bind_Ub, bind_Ub, Hub.
    + subst res. exists h'. destruct fuel; by destruct (n =? KVR_COUNT_INF).
  - destruct (ki_next_run h k j cur (x :: rem) Hk) as (res & h' & H & Hp);
      [unfold zlen in *; cbn [length] in *; lia|done|].
    erewrite bind_Ok by exact H. destruct Hp as (j' & -> & Hk').
    assert (zlen (x :: rem) = zlen rem + 1) as Hz by (unfold zlen; cbn [length]; lia).
    specialize (IH h' (k + 1) j' x fuel Hk'). cbn [length] in Hf.
    unfold loop_result in *. replace (runs_out k (x :: rem)) with (runs_out (k + 1) rem)
      by (unfold runs_out; rewrite Hz; f_equal;
          destruct (Z.ltb_spec (zlen rem) (n - (k + 1))), (Z.ltb_spec (zlen rem + 1) (n - k)); lia || done).
    replace (wanted k (x :: rem)) with (x :: wanted (k + 1) rem).
    2: { unfold wanted. destruct (n =? KVR_COUNT_INF) eqn:En; [done|]. zbool.
         replace (Z.to_nat (n - k)) with (S (Z.to_nat (n - (k + 1)))) by lia. done. }
    destruct (runs_out (k + 1) rem && (empty =? K_OK)).
    + apply bind_Ub. apply IH; lia.
    + destruct IH as [h2 IH]; [lia..|]. exists h2. by erewrite bind_Ok by exact IH.
Qed.

(** *** [ki_start] *)
Definition holds_range (h : heap) (p : ptr) : Prop :=
  exists q s' e' ks, sees h p (DRange q) /\ range_denotes q s' e' ks.

(** An iterator in use or not, its window [w] and reference range [r], and the
    caller's range [c] at [ckr] *)
Record iter_ready (h : heap) (ckr : ptr) (c : krange) : Prop := IterReady {
  ir_mem : mem_ok (h_mem h);
  ir_iter : exists it w2, sees h kit (DIter it) /\ ki_rreq it = Some r /\ ki_rwin1 it = Some w /\
    ki_rwin2 it = Some w2 /\ ki_maxkeyreq it = M /\ w2 ∉ [kit; r; w; ckr] /\ holds_range h w2;
  ir_req : holds_range h r;
  ir_win : holds_range h w;
  ir_ckr : sees h ckr (DRange c) /\ ckr ∉ [kit; r; w] }.

Lemma clean_run h p :
  holds_range h p -> mem_ok (h_mem h) ->
  exists h', i_rangeclean (Some p) h = Ok (tt, h') /\ sees h' p (DRange krange0) /\
    mem_ok (h_mem h') /\ forall q d, q <> p -> sees h q d -> sees h' q d.
Proof. intros (q & s' & e' & ks & Hp & Hd) Hm. by eapply i_rangeclean_run. Qed.

Lemma holds_range_frame h h' p : holds_range h p -> (forall d, sees h p d -> sees h' p d) -> holds_range h' p.
Proof. intros (q & s' & e' & ks & Hp & Hd) Hf. exists q, s', e', ks. split; [by apply Hf|done]. Qed.

(** The three ranges emptied *)
Lemma start_clean h ckr c :
  iter_ready h ckr c ->
  exists it w2 h', sees h kit (DIter it) /\ ki_rreq it = Some r /\ ki_rwin1 it = Some w /\
    ki_rwin2 it = Some w2 /\ ki_maxkeyreq it = M /\ ckr <> kit /\ ckr <> r /\ ckr <> w /\
    (forall B (f : ST heap B), (i_rangeclean (Some r) ;; i_rangeclean (Some w) ;; i_rangeclean (Some w2) ;; f) h = f h') /\
    sees h' r (DRange krange0) /\ sees h' w (DRange krange0) /\ sees h' ckr (DRange c) /\
    sees h' kit (DIter it) /\ mem_ok (h_mem h').
Proof.
  intros [Hm (it & w2 & Hi & Er & E1 & E2 & EM & Hw2n & Hw2) Hr Hw [Hc Hcn]].
  apply not_elem_of_cons in Hw2n as [N1 [N2 [N3 [N4 _]%not_elem_of_cons]%not_elem_of_cons]%not_elem_of_cons].
  apply not_elem_of_cons in Hcn as [N5 [N6 [N7 _]%not_elem_of_cons]%not_elem_of_cons].
  pose proof nd_kit_w as Nkw. pose proof nd_kit_r as Nkr. pose proof nd_r_w as Nrw.
  destruct (clean_run h r Hr Hm) as (h1 & H1 & Hr1 & Hm1 & Hf1).
  destruct (clean_run h1 w) as (h2 & H2 & Hw2' & Hm2 & Hf2); [eapply holds_range_frame; eauto|done|].
  destruct (clean_run h2 w2) as (h3 & H3 & _ & Hm3 & Hf3); [eapply holds_range_frame; eauto|done|].
  exists it, w2, h3. split_and!; try done; eauto.
  intros B f. erewrite bind_Ok by exact H1. erewrite bind_Ok by exact H2. by erewrite bind_Ok by exact H3.
Qed.

(** The window's first request *)
Lemma start_count h c q0 :
  kr_count c = n -> kr_count q0 = n -> sees h w (DRange q0) -> mem_ok (h_mem h) ->
  exists h', (if (kr_count c =? KVR_COUNT_INF) || (u32 (kr_count c) >? M)
      then upd_range w (set_kr_count (i32 M)) else mret tt) h = Ok (tt, h') /\
    sees h' w (DRange (set_kr_count (next_count 0) q0)) /\ mem_ok (h_mem h') /\
    forall p d, p <> w -> sees h p d -> sees h' p d.
Proof.
  intros Hcc Hq0 Hw Hm. rewrite Hcc. unfold next_count. rewrite Z.sub_0_r.
  destruct (upd_range_sees h w q0 (set_kr_count M) Hw) as (h7 & H7 & Hw7 & Hmem7 & Hf7).
  assert (Hu : n <> KVR_COUNT_INF -> u32 n = n) by (unfold KVR_COUNT_INF in *; intros; apply u32_small; lia).
  destruct (n =? KVR_COUNT_INF) eqn:En; cbn [orb]; zbool; [|rewrite Hu by done; destruct (n >? M) eqn:EM].
  1, 2: rewrite i32_small by lia; exists h7; split_and!; try done; by rewrite Hmem7.
  exists h. split_and!; try done. replace (set_kr_count n q0) with q0; [done|].
  destruct q0. cbn in *. by subst.
Qed.

(** Everything [ki_start] does before the remote call *)
Lemma start_prepare h ckr c s :
  iter_ready h ckr c -> range_denotes c s e None -> bound_ok keylen s -> KR_REVERSE c = 0 ->
  kr_count c = n ->
  exists it h7 rq q, 0 < kr_count q <= M /\ request_ok keylen rangekeycnt q s e /\
    istart q = istart c /\ iend q = iend c /\
    ki_rreq it = Some r /\ ki_rwin1 it = Some w /\ ki_maxkeyreq it = M /\
    sees h7 kit (DIter (set_ki_curwin (Some w) it)) /\ sees h7 w (DRange q) /\
    sees h7 r (DRange rq) /\ kr_count rq = n /\ mem_ok (h_mem h7) /\
    forall krc h8 q', getrange_at (ki_ktd it) w h7 = Ok (krc, h8) -> sees h8 w (DRange q') ->
      ki_start (Some kit) (Some ckr) h = (if negb (krc =? K_OK) || (kr_count q' =? 0) then mret None else
        upd_iter kit (set_ki_curkey 0) ;; upd_iter kit (set_ki_seenkeys 1) ;; current kit) h8.
Proof.
  intros Hready Hcd Hbs Hrev Hcc. pose proof (ir_ckr _ _ _ Hready) as [Hc _].
  destruct (start_clean h ckr c Hready) as (it & w2 & h3 & Hi & Er & E1 & E2 & EM & N1 & N2 & N3 & Hclean &
    Hr3 & Hw3 & Hc3 & Hi3 & Hm3).
  pose proof nd_kit_w as Nkw. pose proof nd_kit_r as Nkr. pose proof nd_r_w as Nrw.
  destruct (rangecpy_at_run h3 r ckr krange0 c s e None Hr3 Hc3 Hcd Hm3) as (h4 & H4 & Hr4 & Hrd4 & Hm4 & Hf4).
  destruct (upd_iter_sees h4 kit it (set_ki_curwin (Some w))) as (h5 & H5 & Hi5 & Hmem5 & Hf5); [by apply Hf4|].
  set (rq := range_of c s e None) in *.
  destruct (rangecpy_at_run h5 w r krange0 rq s e None) as (h6 & H6 & Hw6 & Hqd & Hm6 & Hf6);
    [apply Hf5; [done|]; by apply Hf4|by apply Hf5|done|by rewrite Hmem5|].
  set (q0 := range_of rq s e None) in *.
  destruct (start_count h6 c q0) as (h7 & H7 & Hw7 & Hm7 & Hf7); [done|done|done|done|].
  assert (Hcq : 0 < next_count 0 <= M).
  { unfold next_count, KVR_COUNT_INF in *. destruct ((n =? -1) || (n - 0 >? M)) eqn:E; zbool; lia. }
  exists it, h7, rq, (set_kr_count (next_count 0) q0). cbn [kr_count set_kr_count]. split_and!; try done; try lia.
  - split; [exact Hqd|]. split_and!; try done; cbn [kr_count set_kr_count]; lia.
  - apply Hf7; [done|]. by apply Hf6.
  - apply Hf7; [done|]. apply Hf6; [done|]. by apply Hf5.
  - intros krc h8 q' H8 Hq'. unfold ki_start. erewrite bind_Ok by by apply sees_range.
    rewrite Hcc. replace (n =? 0) with false by (unfold KVR_COUNT_INF in *; lia).
    erewrite bind_Ok by by apply sees_iter. rewrite Er, E1, E2, EM, Hclean.
    erewrite bind_Ok by exact H4. cbn [negb]. erewrite bind_Ok by exact H5.
    erewrite bind_Ok by exact H6. cbn [negb].
    erewrite bind_Ok by (apply sees_range; apply Hf6; [done|]; by apply Hf5).
    erewrite bind_Ok by exact H7. erewrite bind_Ok by exact H8. by erewrite bind_Ok by by apply sees_range.
Qed.

(** Everything it does after a successful one *)
Lemma start_finish h it rq q ks :
  sees h kit (DIter (set_ki_curwin (Some w) it)) ->
  ki_rreq it = Some r -> ki_rwin1 it = Some w -> ki_maxkeyreq it = M ->
  sees h r (DRange rq) -> sees h w (DRange q) -> kr_keys q = Some ks -> mem_ok (h_mem h) ->
  exists h', (upd_iter kit (set_ki_curkey 0) ;; upd_iter kit (set_ki_seenkeys 1) ;; current kit) h =
      Ok (Some (w, 0), h') /\ sees h' w (DRange q) /\ mem_ok (h_mem h') /\ sees h' r (DRange rq) /\
    exists ktd v, sees h' kit (DIter (Kiter ktd (Some r) (Some w) v (Some w) 0 1 M)).
Proof.
  intros Hi Er E1 EM Hr Hw Hks Hm. pose proof nd_kit_w as Nkw. pose proof nd_kit_r as Nkr.
  destruct (upd_iter_sees h kit _ (set_ki_curkey 0) Hi) as (h9 & H9 & Hi9 & Hmem9 & Hf9).
  destruct (upd_iter_sees h9 kit _ (set_ki_seenkeys 1) Hi9) as (h10 & H10 & Hi10 & Hmem10 & Hf10).
  assert (Hw10 : sees h10 w (DRange q)) by (apply Hf10; [done|]; by apply Hf9).
  exists h10. split_and!.
  - erewrite bind_Ok by exact H9. erewrite bind_Ok by exact H10.
    exact (current_run h10 kit _ w q ks Hi10 eq_refl Hw10 Hks).
  - done.
  - by rewrite Hmem10, Hmem9.
  - apply Hf10; [done|]. by apply Hf9.
  - exists (ki_ktd it), (ki_rwin2 it). unfold set_ki_seenkeys, set_ki_curkey, set_ki_curwin in Hi10.
    cbn in Hi10. rewrite Er, E1, EM in Hi10. exact Hi10.
Qed.

(** The whole loop *)
Lemma iterate_run h ckr c s fuel :
  iter_ready h ckr c -> range_denotes c s e None -> bound_ok keylen s -> KR_REVERSE c = 0 ->
  kr_count c = n -> iend c = ei ->
  let all := keys_in db (join s) (istart c) (join e) ei in
  zlen all < 2 ^ 31 - 1 -> (length all + 2 <= fuel)%nat ->
  loop_result 0 all id (iterate fuel (Some kit) (Some ckr) h).
Proof.
  intros Hready Hcd Hbs Hrev Hcc Hie all Hall Hf.
  destruct (start_prepare h ckr c s Hready Hcd Hbs Hrev Hcc) as (it & h7 & rq & q & Hcq & Hreq & His & Hieq &
    Er & E1 & EM & Hi7 & Hw7 & Hr7 & Hrq & Hm7 & Hstart).
  assert (Hallq : keys_in db (join s) (istart q) (join e) (iend q) = all) by by rewrite His, Hieq, Hie.
  pose proof nd_kit_w as Nkw. pose proof nd_r_w as Nrw. unfold iterate, loop_result.
  destruct all as [|x rem] eqn:Ea.
  - destruct (getrange_none h7 (ki_ktd it) q s Hw7 Hm7 Hreq Hallq) as (h8 & q' & H8 & Hm8 & Hw8 & Hq' & Hf8).
    replace (runs_out 0 []) with true.
    2: { symmetry. unfold runs_out. destruct Hn as [-> |Hn']; [done|]. apply orb_true_iff. right.
         apply Z.ltb_lt. unfold zlen. cbn [length]. lia. }
    destruct (empty =? K_OK) eqn:Ee; zbool; cbn [andb].
    + specialize (Hq' Ee). subst q'.
      destruct (start_finish h8 it rq _ [] (Hf8 _ _ Nkw Hi7) Er E1 EM (Hf8 _ _ Nrw Hr7) Hw8 eq_refl Hm8)
        as (h9 & H9 & Hw9 & _).
      erewrite bind_Ok.
      2: { rewrite (Hstart _ _ _ H8 Hw8), Ee. change (K_OK =? K_OK) with true. cbn [negb orb].
           replace (kr_count _ =? 0) with false by (cbn; lia). exact H9. }
      destruct fuel as [|fuel]; [lia|]. cbn [iter_loop]. apply bind_Ub.
      unfold key_bytes, iter_key. rewrite bind_assoc. cbn [fst snd]. by erewrite bind_Ok by by apply sees_range.
    + exists h8. erewrite bind_Ok.
      2: { rewrite (Hstart _ _ _ H8 Hw8). by replace (empty =? K_OK) with false by lia. }
      unfold wanted. rewrite take_nil. destruct fuel; by destruct (n =? KVR_COUNT_INF).
  - set (ks := take (Z.to_nat (kr_count q)) (x :: rem)).
    assert (Hks : ks <> [])
      by (unfold ks; by replace (Z.to_nat (kr_count q)) with (S (pred (Z.to_nat (kr_count q)))) by lia).
    destruct (getrange_found h7 (ki_ktd it) q s ks Hw7 Hm7 Hreq) as (h8 & H8 & Hm8 & Hw8 & Hf8);
      [by rewrite Hallq|done|].
    destruct (start_finish h8 it rq _ (dup_of ks) (Hf8 _ _ Nkw Hi7) Er E1 EM (Hf8 _ _ Nrw Hr7) Hw8 eq_refl Hm8)
      as (h9 & H9 & Hw9 & Hm9 & Hr9 & Hi9).
    assert (Hak : at_key h9 1 0 x rem).
    { eapply (filled_at_key h9 1 q s (x :: rem) ks);
        [done|exact Hi9|exists rq; by split|done|congruence|lia|done|done|done|done]. }
    erewrite bind_Ok.
    2: { rewrite (Hstart _ _ _ H8 Hw8). change (K_OK =? K_OK) with true. cbn [negb orb].
         replace (kr_count _ =? 0) with false by (cbn [kr_count set_kr_keys]; lia). exact H9. }
    assert (zlen (x :: rem) = zlen rem + 1) as Hz by (unfold zlen; cbn [length]; lia).
    cbn [length] in Hf.
    replace (runs_out 0 (x :: rem)) with (runs_out 1 rem).
    2: { unfold runs_out. rewrite Hz. f_equal.
         destruct (Z.ltb_spec (zlen rem) (n - 1)), (Z.ltb_spec (zlen rem + 1) (n - 0)); lia || done. }
    replace (wanted 0 (x :: rem)) with (x :: wanted 1 rem).
    2: { unfold wanted. destruct (n =? KVR_COUNT_INF) eqn:En; [done|]. zbool.
         replace (Z.to_nat (n - 0)) with (S (Z.to_nat (n - 1))) by lia. done. }
    apply (iter_loop_run rem h9 1 0 x fuel Hak); lia.
Qed.
End walk.

(** C28: The loop of the source's example, over a store that answers
    [ki_getrange] as documented: it visits exactly the keys of the caller's range
    in order, however many windows that takes, all of them for an infinite count
    and the first [n] for a count of [n].  If the range runs out before the count
    does and the server reports an empty window with K_OK, the iterator returns
    the address of a key that does not exist ([ki_getrange] leaves [kr_count] as
    requested, so the test on it never sees the end). *)
Theorem ki_iterate {GR : GetRange} db empty keylen rangekeycnt
    {GL : GetRangeLaws db empty keylen rangekeycnt} h kit r w ckr M c s e fuel :
  NoDup [kit; r; w] -> iter_ready kit r w M h ckr c ->
  0 < M <= rangekeycnt -> M < 2 ^ 31 -> keylen < 2 ^ 31 ->
  range_denotes c s e None -> bound_ok keylen s -> bound_ok keylen e ->
  KR_REVERSE c = 0 -> kr_count c = KVR_COUNT_INF \/ 0 < kr_count c < 2 ^ 31 ->
  let all := keys_in db (join s) (istart c) (join e) (iend c) in
  zlen all < 2 ^ 31 - 1 -> (length all + 2 <= fuel)%nat ->
  if runs_out (kr_count c) 0 all && (empty =? K_OK)
  then iterate fuel (Some kit) (Some ckr) h = Ub
  else exists h', iterate fuel (Some kit) (Some ckr) h = Ok (wanted (kr_count c) 0 all, h').
Proof.
  intros Hnd Hready HM HM2 Hkl Hcd Hbs Hbe Hrev Hn all Hall Hf.
  pose proof (iterate_run db empty keylen rangekeycnt kit r w Hnd e (iend c) Hbe (kr_count c) M Hn HM HM2 Hkl
    h ckr c s fuel Hready Hcd Hbs Hrev eq_refl eq_refl Hall Hf) as H.
  unfold loop_result, id in H. exact H.
Qed.

(** ** A server that keeps the law *)
Section server.
Context (db : list buffer) (status : Z).

Fixpoint vec_join (vs : list kiovec) : outcome buffer :=
  match vs with
  | [] => Ok []
  | v :: vs =>
      match iov_bytes v, vec_join vs with Ok b, Ok bs => Ok (b ++ bs) | _, _ => Ub end
  end.

Definition key_join (key : option (list kiovec)) : outcome (option buffer) :=
  match key with
  | None => Ok None
  | Some vs => match vec_join vs with Ok b => Ok (Some b) | _ => Ub end
  end.

Definition store_getrange (ktd : Z) (r : krange) : ST mem (Z * krange) := fun m =>
  match key_join (kr_start r), key_join (kr_end r) with
  | Ok s, Ok e =>
      let ks := take (Z.to_nat (kr_count r)) (keys_in db s (istart r) e (iend r)) in
      match ks with
      | [] => Ok ((status, if status =? K_OK then set_kr_keys (Some []) 0 r else r), m)
      | _ => Ok ((K_OK, set_kr_keys (Some (dup_of ks)) (zlen ks) r), m)
      end
  | _, _ => Ub
  end.

Lemma key_join_denotes key cnt b : key_denotes key cnt b -> key_join key = Ok (join b).
Proof.
  destruct key as [vs|], b as [bs|]; cbn [key_denotes]; try done. intros (_ & _ & Hv). cbn.
  assert (vec_join vs = Ok (concat bs)) as ->; [|done].
  induction Hv as [|v b vs bs [Hb _] _ IH]; [done|]. cbn. by rewrite Hb, IH.
Qed.

#[local] Instance store_GetRange : GetRange := { ki_getrange := store_getrange }.

Lemma store_laws keylen rangekeycnt :
  StronglySorted (fun a b => key_lt a b = true) db -> Forall (fun k => 0 < zlen k <= keylen) db ->
  GetRangeLaws db status keylen rangekeycnt.
Proof.
  intros Hs Hf. split; [done|done| |].
  - intros ktd r s e ks m Hm ((H1 & H2 & _) & _) Hks Hne. exists m. split; [|done]. cbn.
    unfold store_getrange. rewrite (key_join_denotes _ _ _ H1), (key_join_denotes _ _ _ H2).
    cbv zeta. rewrite <- Hks. by destruct ks.
  - intros ktd r s e m Hm ((H1 & H2 & _) & _) Hks. do 2 eexists. cbn.
    unfold store_getrange. rewrite (key_join_denotes _ _ _ H1), (key_join_denotes _ _ _ H2).
    rewrite Hks, take_nil. split; [done|]. split; [done|]. intros ->. done.
Qed.
End server.

(** Seven keys, windows of two: the range [[2], [9]) is walked in three windows. *)
Lemma ki_iterate_witness :
  let db := [[1]; [2]; [3]; [4]; [5; 1]; [6]; [9]] in
  let GR := store_GetRange db K_ENOTFOUND in
  let blk t d := Ktb KTB_MAGIC t 0 0 None None d in
  let c := Krange KRF_ISTART (Some [Kiovec (Some [2]) 1]) 1 (Some [Kiovec (Some [9]) 1]) 1 KVR_COUNT_INF None 0 in
  let it := Kiter 0 (Some 2%positive) (Some 3%positive) (Some 4%positive) None 0 0 2 in
  let h := Heap (Mem 0 (fun _ _ => Some (fun _ => 0)) 0)
    (list_to_map [(1%positive, blk KITER_T (DIter it)); (2%positive, blk KRANGE_T (DRange krange0));
       (3%positive, blk KRANGE_T (DRange krange0)); (4%positive, blk KRANGE_T (DRange krange0));
       (5%positive, blk KRANGE_T (DRange c))]) in
  exists h', @iterate GR 7 (Some 1%positive) (Some 5%positive) h = Ok ([[2]; [3]; [4]; [5; 1]; [6]], h').
Proof.
  intros db GR blk c it h.
  assert (GL : GetRangeLaws db K_ENOTFOUND 16 2).
  { apply store_laws; [repeat constructor; done|repeat constructor; vm_compute; congruence]. }
  assert (Hempty : forall p, sees h p (DRange krange0) -> holds_range h p).
  { intros p Hp. exists krange0, None, None, None. split; [exact Hp|]. repeat split. }
  assert (Hready : iter_ready 1%positive 2%positive 3%positive 2 h 5%positive c).
  { split.
    - intros ??. by eexists.
    - exists it, 4%positive. repeat (split; [try (eexists; split; reflexivity); reflexivity|]).
      split; [|apply Hempty; eexists; split; reflexivity].
      rewrite !not_elem_of_cons. repeat split; try discriminate. apply not_elem_of_nil.
    - apply Hempty. eexists; split; reflexivity.
    - apply Hempty. eexists; split; reflexivity.
    - split; [eexists; split; reflexivity|].
      rewrite !not_elem_of_cons. repeat split; try discriminate. apply not_elem_of_nil. }
  refine (ki_iterate db K_ENOTFOUND 16 2 h 1%positive 2%positive 3%positive 5%positive 2 c (Some [[2]]) (Some [[9]]) 7
    _ Hready _ _ _ _ _ _ _ _ _ _).
  - repeat (apply NoDup_cons; split; [rewrite ?not_elem_of_cons; repeat split; try discriminate; apply not_elem_of_nil|]).
    apply NoDup_nil_2.
  - lia.
  - lia.
  - lia.
  - repeat split; try discriminate; repeat constructor; discriminate.
  - intros bs [= <-]. zc.
  - intros bs [= <-]. zc.
  - reflexivity.
  - by left.
  - vm_compute. reflexivity.
  - vm_compute. lia.
Defined.
