(* ===== verification/Validate.v ===== *)
(** Validation of what callers hand to the API: [src/validate.c].

    Arguments are addresses of typed buffers; the result is the function's [int].
    [errno] is the second component where the function sets it. *)

From stdpp Require Import gmap.
From S2P Require Import Prelude Types Keys Ktb.

Definition KAF_VALIDMASK : Z := 0x0000.

(** The numbers of the applet languages are those of the protocol's generated
    header. *)
Class Langs := { KF_NATIVE : Z; KF_LLVMIR : Z; KF_JAVA : Z; KF_EBPF : Z }.

Definition get_kv (p : ptr) : ST heap kv :=
  k ← ktb_base p; match ktb_buf k with DKv v => mret v | _ => ub_st end.
Definition get_kb (p : ptr) : ST heap kb :=
  k ← ktb_base p; match ktb_buf k with DBatch b => mret b | _ => ub_st end.
Definition get_glog (p : ptr) : ST heap kgetlog :=
  k ← ktb_base p; match ktb_buf k with DGetlog g => mret g | _ => ub_st end.
Definition get_applet (p : ptr) : ST heap kapplet :=
  k ← ktb_base p; match ktb_buf k with DApplet a => mret a | _ => ub_st end.

(** [for (i=0; i<cnt; i++) len += v[i].kiov_len], in the type [wrap] of [len] *)
Fixpoint len_loop (wrap : Z -> Z) (v : list kiovec) (n : nat) (i : Z) (len : Z) : ST heap Z :=
  match n with
  | O => mret len
  | S n => e ← array_rd v i; len_loop wrap v n (i + 1) (wrap (len + kiov_len e))
  end.

Definition ditype_ok (t : Z) : bool :=
  (t =? KDI_SHA1) || (t =? KDI_SHA2) || (t =? KDI_SHA3) ||
  (t =? KDI_CRC32C) || (t =? KDI_CRC64) || (t =? KDI_CRC32).
Definition cpolicy_ok (c : Z) : bool := (c =? KC_WT) || (c =? KC_WB) || (c =? KC_FLUSH).

(** The checks of [ki_validate_kv] after the vectors *)
Definition kv_fields (v : kv) (verck : bool) (lim : klimits) : Z :=
  if bool_decide (kv_ver v <> None) && ((kv_verlen v <? 1) || (kv_verlen v >? kl_verlen lim)) then -1
  else if bool_decide (kv_newver v <> None) &&
          ((kv_newverlen v <? 1) || (kv_newverlen v >? kl_verlen lim)) then -1
  else if verck && bool_decide (kv_ver v = None) then -1
  else if bool_decide (kv_disum v <> None) &&
          ((kv_disumlen v <? 1) || (kv_disumlen v >? kl_disumlen lim)) then -1
  else if bool_decide (kv_disum v <> None) && negb (ditype_ok (kv_ditype v)) then -1
  else if negb (kv_cpolicy v =? 0) && negb (cpolicy_ok (kv_cpolicy v)) then -1
  else 0.

Definition ki_validate_kv (p : option ptr) (verck valck : bool) (lim : klimits) : ST heap Z :=
  match p with
  | None => mret (-1)
  | Some q =>
      v ← get_kv q;
      if bool_decide (kv_key v = None) || (kv_keycnt v <? 1) then mret (-1) else
      valid ← ki_valid p;
      if valid =? 0 then mret (-1) else
      key ← deref_st (kv_key v);
      total_keylen ← len_loop u64 key (Z.to_nat (kv_keycnt v)) 0 0;
      if total_keylen >? kl_keylen lim then mret (-1) else
      bad ← (if valck then
               if bool_decide (kv_val v = None) || (kv_valcnt v <? 1) then mret true else
               val ← deref_st (kv_val v);
               tlen ← len_loop u64 val (Z.to_nat (kv_valcnt v)) 0 0;
               mret (tlen >? kl_vallen lim)
             else mret false);
      if bad : bool then mret (-1) else
      mret (kv_fields v verck lim)
  end.

(** The check of one end of a range: [len] is an [int], the limit a [uint32_t]. *)
Definition range_key_bad (key : option (list kiovec)) (cnt : Z) (lim : klimits) : ST heap bool :=
  match key with
  | None => mret false
  | Some key =>
      len ← len_loop i32 key (Z.to_nat cnt) 0 0;
      mret ((len =? 0) || (u32 len >? kl_keylen lim))
  end.

Definition ki_validate_range (p : option ptr) (lim : klimits) : ST heap Z :=
  match p with
  | None => mret (-1)
  | Some q =>
      valid ← ki_valid p;
      if valid =? 0 then mret (-1) else
      r ← get_range q;
      bad ← range_key_bad (kr_start r) (kr_startcnt r) lim;
      if bad : bool then mret (-1) else
      bad ← range_key_bad (kr_end r) (kr_endcnt r) lim;
      if bad : bool then mret (-1) else
      if negb (Z.land (kr_flags r) (u32 (Z.lnot KRF_VALIDMASK)) =? 0) then mret (-1) else
      if negb (kr_count r =? KVR_COUNT_INF) &&
         ((kr_count r =? 0) || (u32 (kr_count r) >? kl_rangekeycnt lim)) then mret (-1) else
      mret 0
  end.

Definition ki_validate_kb (p : option ptr) (msg_type : Z) : ST heap Z :=
  match p with
  | None => mret (-1)
  | Some q =>
      valid ← ki_valid p;
      if valid =? 0 then mret (-1) else
      if msg_type =? KMT_STARTBAT then mret 0
      else if (msg_type =? KMT_ENDBAT) || (msg_type =? KMT_ABORTBAT) ||
              (msg_type =? KMT_PUT) || (msg_type =? KMT_DEL) then
        b ← get_kb q;
        mret (if kb_bid b >=? KFIRSTBID then 0 else -1)
      else mret (-1)
  end.

(** ** Log requests *)

(** The counters [util], [temp], [cap], [conf], [stat], [mesg], [lim], [log],
    by log type *)
Definition tally : Type := Z -> Z.
Definition tally0 : tally := fun _ => 0.
Definition bump (t d : Z) (c : tally) : tally := fun t' => if t' =? t then c t' + d else c t'.
Definition glog_type_ok (t : Z) : bool := (KGLT_UTILIZATIONS <=? t) && (t <=? KGLT_LOG).
Definition all_types : list Z :=
  [KGLT_UTILIZATIONS; KGLT_TEMPERATURES; KGLT_CAPACITIES; KGLT_CONFIGURATION;
   KGLT_STATISTICS; KGLT_MESSAGES; KGLT_LIMITS; KGLT_LOG].

(** The counting loop; [None] is its [return(-1)] on an unknown type. *)
Fixpoint tally_loop (ts : list Z) (n : nat) (i : Z) (c : tally) : ST heap (option tally) :=
  match n with
  | O => mret (Some c)
  | S n =>
      t ← array_rd ts i;
      if glog_type_ok t then tally_loop ts n (i + 1) (bump t 1 c) else mret None
  end.

(** The conditions on the log name, and on the outputs being clear *)
Definition glog_name_bad (g : kgetlog) (log : Z) : bool :=
  if negb (log =? 0) then
    match kdl_name g with
    | Some _ => (kdl_len g =? 0) || (kdl_len g >? 1024)
    | None => true
    end
  else bool_decide (kdl_name g <> None).
Definition glog_outputs (g : kgetlog) : bool :=
  bool_decide (kgl_util g <> None) || negb (kgl_utilcnt g =? 0) ||
  bool_decide (kgl_temp g <> None) || negb (kgl_tempcnt g =? 0) ||
  bool_decide (kgl_stat g <> None) || negb (kgl_statcnt g =? 0) || bool_decide (kgl_msgs g <> None) || negb (kgl_msgslen g =? 0).

(** [ki_validate_glog]: (result, errno) *)
Definition ki_validate_glog (p : option ptr) : ST heap (Z * Z) :=
  match p with
  | None => mret (-1, K_EINVAL)
  | Some q =>
      g ← get_glog q;
      if bool_decide (kgl_type g = None) || (kgl_typecnt g =? 0) then mret (-1, K_EINVAL) else
      valid ← ki_valid p;
      if valid =? 0 then mret (-1, K_EINVAL) else
      ts ← deref_st (kgl_type g);
      c ← tally_loop ts (Z.to_nat (kgl_typecnt g)) 0 tally0;
      match c with
      | None => mret (-1, K_EINVAL)
      | Some c =>
          if existsb (fun t => c t >? 1) all_types then mret (-1, K_EINVAL) else
          if glog_name_bad g (c KGLT_LOG) then mret (-1, K_EINVAL) else
          if glog_outputs g then mret (-1, K_EINVAL) else
          mret (0, 0)
      end
  end.

(** [ki_validate_glog2].  The inner loop compares element [i] of both arrays,
    whatever [j] is. *)
Fixpoint match_loop (rsp rq : list Z) (i : Z) (n : nat) (j : Z) : ST heap Z :=
  match n with
  | O => mret j
  | S n =>
      a ← array_rd rsp i;
      b ← array_rd rq i;
      if a =? b then mret j else match_loop rsp rq i n (j + 1)
  end.

(** What the answer must carry for a type *)
Definition answered (g : kgetlog) (t : Z) : bool :=
  if t =? KGLT_UTILIZATIONS then bool_decide (kgl_util g <> None) && negb (kgl_utilcnt g =? 0)
  else if t =? KGLT_TEMPERATURES then bool_decide (kgl_temp g <> None) && negb (kgl_tempcnt g =? 0)
  else if t =? KGLT_STATISTICS then bool_decide (kgl_stat g <> None) && negb (kgl_statcnt g =? 0)
  else if (t =? KGLT_MESSAGES) || (t =? KGLT_LOG) then
    bool_decide (kgl_msgs g <> None) && negb (kgl_msgslen g =? 0)
  else true.

Fixpoint answer_loop (g : kgetlog) (rsp rq : list Z) (rqcnt : Z) (n : nat) (i : Z) (c : tally) :
    ST heap (option tally) :=
  match n with
  | O => mret (Some c)
  | S n =>
      j ← match_loop rsp rq i (Z.to_nat rqcnt) 0;
      if j =? rqcnt then mret None else
      t ← array_rd rsp i;
      if negb (glog_type_ok t) then mret None else
      let c := bump t (if t =? KGLT_CAPACITIES then 1 else -1) c in
      if answered g t then answer_loop g rsp rq rqcnt n (i + 1) c else mret None
  end.

Definition ki_validate_glog2 (glrq glrsp : option ptr) : ST heap (Z * Z) :=
  match glrq with
  | None => mret (-1, K_EINVAL)
  | Some q =>
      if bool_decide (glrsp <> None) then mret (-1, K_EINVAL) else
      g ← get_glog q;
      if bool_decide (kgl_type g = None) then mret (-1, K_EINVAL) else
      p ← deref_st glrsp;
      a ← get_glog p;
      if bool_decide (kgl_type a = None) || negb (kgl_typecnt g =? kgl_typecnt a) then
        mret (-1, K_EINVAL) else
      rq ← deref_st (kgl_type g);
      rsp ← deref_st (kgl_type a);
      c ← tally_loop rq (Z.to_nat (kgl_typecnt g)) 0 tally0;
      match c with
      | None => mret (-1, K_EINVAL)
      | Some c =>
          c ← answer_loop a rsp rq (kgl_typecnt g) (Z.to_nat (kgl_typecnt a)) 0 c;
          match c with
          | None => mret (-1, K_EINVAL)
          | Some c =>
              if existsb (fun t => negb (c t =? 0)) all_types then mret (-1, K_EINVAL)
              else mret (0, 0)
          end
      end
  end.

(** [ki_validate_kstats]: errno is cleared on success and untouched otherwise. *)
Definition ki_validate_kstats (p : option ptr) : ST heap (Z * option Z) :=
  match p with
  | None => mret (-1, None)
  | Some _ =>
      valid ← ki_valid p;
      mret (if valid =? 0 then (-1, None) else (0, Some 0))
  end.

Section applets.
Context {LG : Langs}.

Fixpoint fnkeys_loop (ks : list (option ptr)) (n : nat) (i : Z) (lim : klimits) : ST heap Z :=
  match n with
  | O => mret 0
  | S n =>
      k ← array_rd ks i;
      rc ← ki_validate_kv k false false lim;
      if rc <? 0 then mret (-1) else fnkeys_loop ks n (i + 1) lim
  end.

Definition fntype_ok (t : Z) : bool :=
  (t =? KF_NATIVE) || (t =? KF_LLVMIR) || (t =? KF_JAVA) || (t =? KF_EBPF).

Definition ki_validate_kapplet (p : option ptr) (lim : klimits) : ST heap Z :=
  match p with
  | None => mret (-1)
  | Some q =>
      valid ← ki_valid p;
      if valid =? 0 then mret (-1) else
      app ← get_applet q;
      if bool_decide (ka_fnkey app = None) || (ka_fnkeycnt app <? 1) then mret (-1) else
      ks ← deref_st (ka_fnkey app);
      rc ← fnkeys_loop ks (Z.to_nat (ka_fnkeycnt app)) 0 lim;
      if rc <? 0 then mret (-1) else
      if negb (fntype_ok (ka_fntype app)) then mret (-1) else
      if negb (Z.land (ka_flags app) (u32 (Z.lnot KAF_VALIDMASK)) =? 0) then mret (-1) else
      match ka_outkey app with
      | None => mret 0
      | Some k =>
          rc ← ki_validate_kv (Some k) false true lim;
          mret (if rc <? 0 then -1 else 0)
      end
  end.
End applets.

(** ** What is accepted *)
Section spec.
Context {SZ : Sizes}.
Implicit Types (h : heap) (p : ptr).

(** The length of a vector, in the machine's type *)
Definition vec_len (v : list kiovec) : Z := zsum (kiov_len <$> v).

Lemma len_loop_run (wrap : Z -> Z) h l1 l2 len :
  (forall a b, wrap (wrap a + b) = wrap (a + b)) ->
  len_loop wrap (l1 ++ l2) (length l2) (zlen l1) (wrap len) h = Ok (wrap (len + vec_len l2), h).
Proof.
  intros Hwrap. revert l1 len. induction l2 as [|v l2 IH]; intros l1 len.
  - unfold vec_len. cbn [len_loop length fmap list_fmap zsum foldr]. by rewrite Z.add_0_r.
  - cbn [len_loop length]. erewrite bind_Ok by by apply array_rd_middle.
    replace (zlen l1 + 1) with (zlen (l1 ++ [v])) by (rewrite zlen_app; unfold zlen; cbn [length]; lia).
    replace (l1 ++ v :: l2) with ((l1 ++ [v]) ++ l2) by by rewrite <- app_assoc.
    rewrite Hwrap, IH. unfold vec_len. cbn [fmap list_fmap]. rewrite zsum_cons. do 3 f_equal. lia.
Qed.

Lemma u64_add a b : u64 (u64 a + b) = u64 (a + b).
Proof. unfold u64. by rewrite Zplus_mod_idemp_l. Qed.
Lemma i32_add a b : i32 (i32 a + b) = i32 (a + b).
Proof.
  unfold i32. f_equal. replace ((a + 2 ^ 31) mod 2 ^ 32 - 2 ^ 31 + b + 2 ^ 31)
    with ((a + 2 ^ 31) mod 2 ^ 32 + b) by lia.
  rewrite Zplus_mod_idemp_l. f_equal. lia.
Qed.
Lemma u32_i32 a : u32 (i32 a) = u32 a.
Proof.
  unfold u32, i32. replace ((a + 2 ^ 31) mod 2 ^ 32 - 2 ^ 31) with ((a + 2 ^ 31) mod 2 ^ 32 + (- 2 ^ 31)) by lia.
  rewrite Zplus_mod_idemp_l. f_equal. lia.
Qed.
Lemma i32_eqb0 a : (i32 a =? 0) = (u32 a =? 0).
Proof.
  rewrite <- (u32_i32 a). pose proof (i32_range a). unfold u32.
  destruct (Z.eqb_spec (i32 a) 0) as [E|E]; [by rewrite E|]. symmetry. apply Z.eqb_neq.
  intros H0. destruct (Z_le_gt_dec 0 (i32 a)).
  - rewrite Z.mod_small in H0; lia.
  - rewrite <- (Z.mod_add _ 1), Z.mod_small in H0; lia.
Qed.

Lemma len_loop_u64 h v : len_loop u64 v (Z.to_nat (zlen v)) 0 0 h = Ok (u64 (vec_len v), h).
Proof.
  replace (Z.to_nat (zlen v)) with (length v) by (unfold zlen; lia).
  exact (len_loop_run u64 h [] v 0 u64_add).
Qed.
Lemma len_loop_i32 h v : len_loop i32 v (Z.to_nat (zlen v)) 0 0 h = Ok (i32 (vec_len v), h).
Proof.
  replace (Z.to_nat (zlen v)) with (length v) by (unfold zlen; lia).
  exact (len_loop_run i32 h [] v 0 i32_add).
Qed.

Lemma ki_valid_run h p k : h_blocks h !! p = Some k -> block_wf k -> ki_valid (Some p) h = Ok (1, h).
Proof. intros Hp Hk. unfold ki_valid. by erewrite bind_Ok by by eapply ktb_isvalid_run. Qed.

Lemma get_kv_run h p k v : h_blocks h !! p = Some k -> ktb_buf k = DKv v -> get_kv p h = Ok (v, h).
Proof. intros Hp Hk. unfold get_kv. erewrite bind_Ok by by apply ktb_base_run. by rewrite Hk. Qed.
Lemma get_glog_run h p k v : h_blocks h !! p = Some k -> ktb_buf k = DGetlog v -> get_glog p h = Ok (v, h).
Proof. intros Hp Hk. unfold get_glog. erewrite bind_Ok by by apply ktb_base_run. by rewrite Hk. Qed.

(** *** Key values *)

(** An optional field with its length *)
Definition field_ok {A} (f : option A) (len max : Z) : bool :=
  match f with Some _ => (1 <=? len) && (len <=? max) | None => true end.
Definition present {A} (f : option A) : bool := if f then true else false.
Definition vec_ok (v : option (list kiovec)) (max : Z) : bool :=
  match v with Some v => (1 <=? zlen v) && (u64 (vec_len v) <=? max) | None => false end.

Definition kv_valid (v : kv) (verck valck : bool) (lim : klimits) : bool :=
  vec_ok (kv_key v) (kl_keylen lim) && (negb valck || vec_ok (kv_val v) (kl_vallen lim)) &&
  field_ok (kv_ver v) (kv_verlen v) (kl_verlen lim) &&
  field_ok (kv_newver v) (kv_newverlen v) (kl_verlen lim) &&
  (negb verck || present (kv_ver v)) &&
  field_ok (kv_disum v) (kv_disumlen v) (kl_disumlen lim) &&
  (negb (present (kv_disum v)) || ditype_ok (kv_ditype v)) &&
  ((kv_cpolicy v =? 0) || cpolicy_ok (kv_cpolicy v)).

(** The count of a vector is the length of its array. *)
Definition count_ok {A} (v : option (list A)) (cnt : Z) : Prop :=
  match v with Some v => cnt = zlen v | None => True end.

Lemma field_bad {A} (f : option A) len max :
  bool_decide (f <> None) && ((len <? 1) || (len >? max)) = negb (field_ok f len max).
Proof.
  destruct f; [|done]. rewrite bool_decide_true by done. cbn [andb field_ok].
  rewrite Z.gtb_ltb, negb_andb. f_equal; [by rewrite <- Z.ltb_antisym|by rewrite <- Z.ltb_antisym].
Qed.

Lemma kv_fields_run v verck lim :
  kv_fields v verck lim = if field_ok (kv_ver v) (kv_verlen v) (kl_verlen lim) &&
    field_ok (kv_newver v) (kv_newverlen v) (kl_verlen lim) && (negb verck || present (kv_ver v)) &&
    field_ok (kv_disum v) (kv_disumlen v) (kl_disumlen lim) &&
    (negb (present (kv_disum v)) || ditype_ok (kv_ditype v)) &&
    ((kv_cpolicy v =? 0) || cpolicy_ok (kv_cpolicy v)) then 0 else -1.
Proof.
  unfold kv_fields. rewrite !field_bad.
  assert (bool_decide (kv_ver v = None) = negb (present (kv_ver v))) as -> by by destruct (kv_ver v).
  assert (bool_decide (kv_disum v <> None) = present (kv_disum v)) as -> by by destruct (kv_disum v).
  destruct (field_ok (kv_ver v) _ _); cbn [negb andb]; [|done].
  destruct (field_ok (kv_newver v) _ _); cbn [negb andb]; [|done].
  destruct verck, (present (kv_ver v)); cbn [negb andb orb]; try done;
    (destruct (field_ok (kv_disum v) _ _); cbn [negb andb]; [|done];
     destruct (present (kv_disum v)), (ditype_ok (kv_ditype v)); cbn [negb andb orb]; try done;
     by destruct (kv_cpolicy v =? 0), (cpolicy_ok (kv_cpolicy v))).
Qed.

Lemma ki_validate_kv_run h p k v verck valck lim :
  h_blocks h !! p = Some k -> block_wf k -> ktb_buf k = DKv v ->
  count_ok (kv_key v) (kv_keycnt v) -> count_ok (kv_val v) (kv_valcnt v) ->
  ki_validate_kv (Some p) verck valck lim h = Ok (if kv_valid v verck valck lim then 0 else -1, h).
Proof.
  intros Hp Hwf Hk Hkc Hvc. unfold ki_validate_kv, kv_valid.
  erewrite bind_Ok by by eapply get_kv_run.
  destruct (kv_key v) as [key|]; cbn [vec_ok andb]; [|by rewrite bool_decide_true].
  rewrite bool_decide_false by done. cbn [orb count_ok] in *. rewrite Hkc.
  replace (1 <=? zlen key) with (negb (zlen key <? 1)) by (by rewrite Z.ltb_antisym, negb_involutive).
  destruct (zlen key <? 1) eqn:E1; [done|]. cbn [negb andb].
  erewrite bind_Ok by by eapply ki_valid_run. cbn [Z.eqb]. erewrite bind_Ok by done.
  erewrite bind_Ok by apply len_loop_u64. rewrite Z.gtb_ltb.
  replace (u64 (vec_len key) <=? kl_keylen lim) with (negb (kl_keylen lim <? u64 (vec_len key)))
    by (by rewrite Z.ltb_antisym, negb_involutive).
  destruct (kl_keylen lim <? _) eqn:E2; cbn [negb andb]; [done|].
  destruct valck; cbn [negb orb andb]; [|erewrite bind_Ok by done; by rewrite kv_fields_run].
  destruct (kv_val v) as [val|]; cbn [vec_ok andb].
  2: { erewrite bind_Ok by (rewrite bool_decide_true by done; reflexivity). done. }
  rewrite bool_decide_false by done. cbn [orb count_ok] in *. rewrite Hvc.
  replace (1 <=? zlen val) with (negb (zlen val <? 1)) by (by rewrite Z.ltb_antisym, negb_involutive).
  destruct (zlen val <? 1) eqn:E3; [by erewrite bind_Ok by done|]. cbn [negb andb].
  erewrite bind_Ok; [|erewrite bind_Ok by done; by erewrite bind_Ok by apply len_loop_u64].
  rewrite Z.gtb_ltb. replace (u64 (vec_len val) <=? kl_vallen lim)
    with (negb (kl_vallen lim <? u64 (vec_len val))) by (by rewrite Z.ltb_antisym, negb_involutive).
  destruct (kl_vallen lim <? _); cbn [negb andb]; [done|]. by rewrite kv_fields_run.
Qed.
End spec.

(** C40: [ki_validate_kv] accepts exactly: a key of at least one element whose
    total length (modulo 2^64) is at most the session's key length, the same for
    the value when [valck] is set, versions and checksum, where present, of
    length 1 to their limits, a version when [verck] is set, a known algorithm
    with a checksum, and a known or absent cache policy.  It changes nothing. *)
Theorem ki_validate_kv_spec {SZ : Sizes} h p k v verck valck lim :
  h_blocks h !! p = Some k -> block_wf k -> ktb_buf k = DKv v ->
  count_ok (kv_key v) (kv_keycnt v) -> count_ok (kv_val v) (kv_valcnt v) ->
  ki_validate_kv None verck valck lim h = Ok (-1, h) /\
  ki_validate_kv (Some p) verck valck lim h = Ok (if kv_valid v verck valck lim then 0 else -1, h).
Proof. intros. split; [done|]. by eapply ki_validate_kv_run. Qed.

Section spec2.
Context {SZ : Sizes}.
Implicit Types (h : heap) (p : ptr).

(** *** Ranges *)
Definition range_end_ok (key : option (list kiovec)) (lim : klimits) : bool :=
  match key with
  | Some key => (1 <=? u32 (vec_len key)) && (u32 (vec_len key) <=? kl_keylen lim)
  | None => true
  end.

Definition range_valid (r : krange) (lim : klimits) : bool :=
  range_end_ok (kr_start r) lim && range_end_ok (kr_end r) lim &&
  (Z.land (kr_flags r) (u32 (Z.lnot KRF_VALIDMASK)) =? 0) &&
  ((kr_count r =? KVR_COUNT_INF) ||
   ((1 <=? u32 (kr_count r)) && (u32 (kr_count r) <=? kl_rangekeycnt lim))).

Lemma range_key_bad_run h key cnt lim :
  count_ok key cnt -> range_key_bad key cnt lim h = Ok (negb (range_end_ok key lim), h).
Proof.
  intros Hc. destruct key as [key|]; [|done]. cbn in Hc. subst cnt. cbn [range_key_bad range_end_ok].
  erewrite bind_Ok by apply len_loop_i32. unfold mret, ST_ret. do 2 f_equal.
  rewrite u32_i32, i32_eqb0. pose proof (u32_range (vec_len key)).
  destruct (Z.eqb_spec (u32 (vec_len key)) 0); [by replace (1 <=? _) with false by lia|].
  replace (1 <=? u32 (vec_len key)) with true by lia. cbn [orb andb].
  by rewrite Z.gtb_ltb, Z.ltb_antisym.
Qed.

Lemma ki_validate_range_run h p k r lim :
  h_blocks h !! p = Some k -> block_wf k -> ktb_buf k = DRange r ->
  count_ok (kr_start r) (kr_startcnt r) -> count_ok (kr_end r) (kr_endcnt r) ->
  - 2 ^ 31 <= kr_count r < 2 ^ 31 ->
  ki_validate_range (Some p) lim h = Ok (if range_valid r lim then 0 else -1, h).
Proof.
  intros Hp Hwf Hk Hs He Hc. unfold ki_validate_range, range_valid.
  erewrite bind_Ok by by eapply ki_valid_run. cbn [Z.eqb].
  erewrite bind_Ok by by eapply get_range_run.
  erewrite bind_Ok by by apply range_key_bad_run.
  destruct (range_end_ok (kr_start r) lim); cbn [negb andb]; [|done].
  erewrite bind_Ok by by apply range_key_bad_run.
  destruct (range_end_ok (kr_end r) lim); cbn [negb andb]; [|done].
  destruct (Z.land _ _ =? 0); cbn [negb andb]; [|done].
  destruct (kr_count r =? KVR_COUNT_INF); cbn [negb andb orb]; [done|].
  assert ((kr_count r =? 0) = negb (1 <=? u32 (kr_count r))) as ->.
  { pose proof (u32_range (kr_count r)). rewrite <- (i32_small (kr_count r)) at 1 by lia.
    rewrite i32_eqb0. destruct (Z.eqb_spec (u32 (kr_count r)) 0).
    - symmetry. apply negb_true_iff. apply Z.leb_gt. lia.
    - symmetry. apply negb_false_iff. apply Z.leb_le. lia. }
  destruct (1 <=? u32 (kr_count r)); cbn [negb andb orb]; [|done].
  rewrite Z.gtb_ltb, Z.ltb_antisym. by destruct (_ <=? _).
Qed.

(** *** Log requests *)
Definition occ (t : Z) (ts : list Z) : Z := zsum ((fun t' => if t =? t' then 1 else 0) <$> ts).

Lemma occ_nonneg t ts : 0 <= occ t ts.
Proof. unfold occ. apply zsum_nonneg, Forall_fmap, Forall_true. intros x. cbn. case_if; lia. Qed.

Lemma occ_elem t ts : 1 <= occ t ts <-> t ∈ ts.
Proof.
  induction ts as [|t' ts IH]; [split; [cbn; lia|by intros ?%elem_of_nil]|].
  unfold occ in *. cbn [fmap list_fmap]. rewrite zsum_cons, elem_of_cons, <- IH.
  pose proof (occ_nonneg t ts). unfold occ in *. destruct (Z.eqb_spec t t'); [subst|]; lia.
Qed.

Lemma occ_NoDup ts : NoDup ts <-> forall t, occ t ts <= 1.
Proof.
  induction ts as [|t' ts IH]; [split; [done|intros; apply NoDup_nil_2]|].
  rewrite NoDup_cons, IH, <- (occ_elem t' ts). unfold occ at 3. cbn [fmap list_fmap].
  split.
  - intros [Hn H] t. rewrite zsum_cons. fold (occ t ts). specialize (H t).
    destruct (Z.eqb_spec t t'); [subst|]; lia.
  - intros H. split.
    + specialize (H t'). rewrite zsum_cons, Z.eqb_refl in H. fold (occ t' ts) in H. lia.
    + intros t. specialize (H t). rewrite zsum_cons in H. fold (occ t ts) in H. case_if; lia.
Qed.

Lemma tally_loop_run h l1 l2 c :
  exists o, tally_loop (l1 ++ l2) (length l2) (zlen l1) c h = Ok (o, h) /\
    if forallb glog_type_ok l2
    then exists c', o = Some c' /\ forall t, c' t = c t + occ t l2
    else o = None.
Proof.
  revert l1 c. induction l2 as [|t l2 IH]; intros l1 c.
  - exists (Some c). split; [done|]. exists c. split; [done|]. intros t. unfold occ. cbn. lia.
  - cbn [tally_loop length]. erewrite bind_Ok by by apply array_rd_middle. cbn [forallb].
    destruct (glog_type_ok t); [|by exists None].
    replace (zlen l1 + 1) with (zlen (l1 ++ [t])) by (rewrite zlen_app; unfold zlen; cbn [length]; lia).
    replace (l1 ++ t :: l2) with ((l1 ++ [t]) ++ l2) by by rewrite <- app_assoc.
    destruct (IH (l1 ++ [t]) (bump t 1 c)) as (o & H & Ho). exists o. split; [exact H|]. cbn [andb].
    destruct (forallb glog_type_ok l2); [|exact Ho]. destruct Ho as (c' & -> & Hc').
    exists c'. split; [done|]. intros t'. rewrite Hc'. unfold bump, occ. cbn [fmap list_fmap].
    rewrite zsum_cons. case_if; lia.
Qed.

Definition glog_valid (g : kgetlog) : Prop :=
  exists ts, kgl_type g = Some ts /\ ts <> [] /\ Forall (fun t => glog_type_ok t = true) ts /\ NoDup ts /\
    (KGLT_LOG ∈ ts -> kdl_name g <> None /\ kdl_len g <> 0 /\ kdl_len g <= 1024) /\
    (KGLT_LOG ∉ ts -> kdl_name g = None) /\ glog_outputs g = false.

Lemma existsb_dup ts c :
  forallb glog_type_ok ts = true -> (forall t, c t = occ t ts) ->
  existsb (fun t => c t >? 1) all_types = false <-> NoDup ts.
Proof.
  intros Hok Hc. rewrite occ_NoDup. split.
  - intros He t. destruct (glog_type_ok t) eqn:Ht.
    + assert (t ∈ all_types) as Hin.
      { unfold glog_type_ok, all_types, KGLT_UTILIZATIONS, KGLT_TEMPERATURES, KGLT_CAPACITIES,
          KGLT_CONFIGURATION, KGLT_STATISTICS, KGLT_MESSAGES, KGLT_LIMITS, KGLT_LOG in *.
        rewrite !elem_of_cons. lia. }
      destruct (Z.leb_spec (occ t ts) 1) as [|Hgt]; [done|]. exfalso.
      assert (existsb (fun t => c t >? 1) all_types = true) as Ht'; [|by rewrite Ht' in He].
      apply existsb_exists. exists t. split; [by apply list_elem_of_In|]. rewrite Hc. lia.
    + destruct (Z.leb_spec 1 (occ t ts)) as [Hge|]; [|lia]. exfalso.
      apply occ_elem, list_elem_of_In in Hge. rewrite forallb_forall in Hok. specialize (Hok t Hge). by rewrite Ht in Hok.
  - intros H. apply not_true_iff_false. intros He. apply existsb_exists in He as (t & _ & Ht).
    rewrite Hc in Ht. specialize (H t). lia.
Qed.
End spec2.

(** [ki_validate_range] accepts exactly: a start and an end key that are
    absent or of a total length that, modulo 2^32, is between 1 and the key
    length limit; no flag outside the mask; and a count that is infinite or
    between 1 and the range limit.  A negative count other than -1 is rejected
    because the comparison with the limit is unsigned; a key of 2^32 + 1 bytes is
    accepted because the sum is an [int]. *)
Theorem ki_validate_range_spec {SZ : Sizes} h p k r lim :
  h_blocks h !! p = Some k -> block_wf k -> ktb_buf k = DRange r ->
  count_ok (kr_start r) (kr_startcnt r) -> count_ok (kr_end r) (kr_endcnt r) ->
  - 2 ^ 31 <= kr_count r < 2 ^ 31 -> kl_rangekeycnt lim < 2 ^ 31 ->
  ki_validate_range (Some p) lim h = Ok (if range_valid r lim then 0 else -1, h) /\
  (range_valid r lim = true -> kr_count r = -1 \/ 1 <= kr_count r <= kl_rangekeycnt lim).
Proof.
  intros Hp Hwf Hk Hs He Hc Hl. split; [by eapply ki_validate_range_run|].
  unfold range_valid, KVR_COUNT_INF. intros H. apply andb_true_iff in H as [_ H].
  apply orb_true_iff in H as [H|H]; [left; lia|right]. zbool.
  destruct (Z_lt_ge_dec (kr_count r) 0) as [Hneg|Hpos].
  - exfalso. assert (u32 (kr_count r) = kr_count r + 2 ^ 32).
    { unfold u32. rewrite <- (Z.mod_add _ 1), Z.mod_small; lia. }
    lia.
  - rewrite u32_small in * by lia. lia.
Qed.

Lemma glog_name_ok g ts :
  0 <= kdl_len g ->
  glog_name_bad g (occ KGLT_LOG ts) = false <->
  (KGLT_LOG ∈ ts -> kdl_name g <> None /\ kdl_len g <> 0 /\ kdl_len g <= 1024) /\
  (KGLT_LOG ∉ ts -> kdl_name g = None).
Proof.
  intros Hlen. unfold glog_name_bad. pose proof (occ_elem KGLT_LOG ts) as Hel. pose proof (occ_nonneg KGLT_LOG ts).
  destruct (Z.eqb_spec (occ KGLT_LOG ts) 0) as [E|E]; cbn [negb].
  - rewrite bool_decide_eq_false. assert (KGLT_LOG ∉ ts) by (rewrite <- Hel; lia).
    destruct (kdl_name g); naive_solver.
  - assert (KGLT_LOG ∈ ts) by (apply Hel; lia).
    destruct (kdl_name g); [|naive_solver].
    destruct (Z.eqb_spec (kdl_len g) 0), (Z.gtb_spec (kdl_len g) 1024); cbn [orb]; naive_solver lia.
Qed.

Lemma ki_validate_glog_run {SZ : Sizes} h p k g ts :
  h_blocks h !! p = Some k -> block_wf k -> ktb_buf k = DGetlog g ->
  kgl_type g = Some ts -> kgl_typecnt g = zlen ts ->
  ki_validate_glog (Some p) h =
    Ok ((if bool_decide (ts <> []) && forallb glog_type_ok ts && bool_decide (NoDup ts) &&
           negb (glog_name_bad g (occ KGLT_LOG ts)) && negb (glog_outputs g)
         then (0, 0) else (-1, K_EINVAL)), h).
Proof.
  intros Hp Hwf Hk Hts Hc. unfold ki_validate_glog. erewrite bind_Ok by by eapply get_glog_run. rewrite Hts.
  rewrite bool_decide_false by done. rewrite Hc, zlen_eqb0. cbn [orb].
  destruct ts as [|t0 ts0]; [done|]. set (ts := t0 :: ts0) in *.
  rewrite (bool_decide_true (ts <> [])) by done. cbn [andb].
  erewrite bind_Ok by by eapply ki_valid_run. cbn [Z.eqb]. erewrite bind_Ok by done.
  replace (Z.to_nat (zlen ts)) with (length ts) by (unfold zlen; lia).
  destruct (tally_loop_run h [] ts tally0) as (o & H & Ho). erewrite bind_Ok by exact H.
  destruct (forallb glog_type_ok ts) eqn:Hok; [|by subst o]. destruct Ho as (c & -> & Hcc).
  cbn [andb]. pose proof (existsb_dup ts c Hok Hcc) as Hd.
  destruct (existsb _ _).
  - rewrite bool_decide_false; [done|]. intros HN. by apply Hd in HN.
  - rewrite bool_decide_true by by apply Hd. cbn [andb]. rewrite Hcc. unfold tally0. rewrite Z.add_0_l.
    by destruct (glog_name_bad g _), (glog_outputs g).
Qed.

Lemma glog_valid_bool g ts :
  kgl_type g = Some ts -> 0 <= kdl_len g ->
  bool_decide (ts <> []) && forallb glog_type_ok ts && bool_decide (NoDup ts) &&
    negb (glog_name_bad g (occ KGLT_LOG ts)) && negb (glog_outputs g) = true <-> glog_valid g.
Proof.
  intros Hts Hlen. pose proof (glog_name_ok g ts Hlen) as Hname.
  assert (Hf : forallb glog_type_ok ts = true <-> Forall (fun t => glog_type_ok t = true) ts).
  { rewrite forallb_forall, Forall_forall. by setoid_rewrite list_elem_of_In. }
  rewrite !andb_true_iff, !bool_decide_eq_true, !negb_true_iff, Hf, Hname. unfold glog_valid.
  split; [intros; exists ts; naive_solver|intros (ts' & ? & ?); simplify_eq; naive_solver].
Qed.

(** [ki_validate_glog] returns 0 with errno 0 exactly when every requested
    type is a log type, none is repeated, there is at least one, a log name of 1
    to 1024 bytes is given if and only if the device log is requested, and all
    output fields are clear; otherwise -1 with errno K_EINVAL. *)
Theorem ki_validate_glog_spec {SZ : Sizes} h p k g :
  h_blocks h !! p = Some k -> block_wf k -> ktb_buf k = DGetlog g ->
  count_ok (kgl_type g) (kgl_typecnt g) -> 0 <= kdl_len g ->
  (glog_valid g -> ki_validate_glog (Some p) h = Ok ((0, 0), h)) /\
  (~ glog_valid g -> ki_validate_glog (Some p) h = Ok ((-1, K_EINVAL), h)).
Proof.
  intros Hp Hwf Hk Hc Hlen. destruct (kgl_type g) as [ts|] eqn:Hts; cbn [count_ok] in Hc.
  2: { split; [intros (ts & ? & _); congruence|]. intros _. unfold ki_validate_glog.
       erewrite bind_Ok by by eapply get_glog_run. rewrite Hts. by rewrite bool_decide_true. }
  rewrite (ki_validate_glog_run h p k g ts Hp Hwf Hk Hts Hc).
  pose proof (glog_valid_bool g ts Hts Hlen) as Hb.
  destruct (_ && _); [split; [done|]; intros Hn; by destruct Hn; apply Hb|].
  split; [|done]. intros Hv. by apply Hb in Hv.
Qed.

(** [ki_validate_glog2] never accepts an answer: with an answer it returns
    -1 before looking at it (the test on it is inverted), without one it
    dereferences NULL, unless the request itself is NULL or has no types. *)
Theorem ki_validate_glog2_rejects h q k g rsp :
  h_blocks h !! q = Some k -> ktb_buf k = DGetlog g ->
  ki_validate_glog2 (Some q) (Some rsp) h = Ok ((-1, K_EINVAL), h) /\
  ki_validate_glog2 (Some q) None h =
    (if bool_decide (kgl_type g = None) then Ok ((-1, K_EINVAL), h) else Ub).
Proof.
  intros Hq Hk. split; [done|]. unfold ki_validate_glog2. cbn [bool_decide].
  rewrite bool_decide_false by naive_solver. erewrite bind_Ok by by eapply get_glog_run.
  by destruct (bool_decide _).
Qed.

(** ** Concrete arguments *)
Section concrete.
#[local] Existing Instance lp64_sizes.

Definition limits0 : klimits := Klimits 16 64 8 20 1048576 16 1048576 16 16 16 16 200 15 15 5.
Definition heap_with (t : Z) (d : ktb_data) : heap :=
  Heap (Mem 0 (fun _ _ => None) 0) {[ 1%positive := set_ktb_buf d (new_block 3 t) ]}.

Lemma block_with_wf t d :
  KT_NONE < t < KT_LAST -> data_of_type t d = true -> block_wf (set_ktb_buf d (new_block 3 t)).
Proof. intros Ht Hd. apply block_wf_set; [by apply new_block_wf|exact Hd]. Qed.

Lemma ki_validate_kv_spec_witness :
  let v := Kv (Some [Kiovec (Some [1; 2]) 2; Kiovec (Some [3]) 1]) 2 (Some [Kiovec (Some [7]) 1]) 1
             (Some [48]) 1 None 0 (Some [9]) 1 KDI_SHA1 KC_WT 0 in
  ki_validate_kv (Some 1%positive) true true limits0 (heap_with KV_T (DKv v)) =
    Ok (0, heap_with KV_T (DKv v)).
Proof.
  intros v.
  destruct (ki_validate_kv_spec (heap_with KV_T (DKv v)) 1%positive _ v true true limits0
    eq_refl (block_with_wf KV_T (DKv v) ltac:(split; reflexivity) eq_refl) eq_refl eq_refl eq_refl) as [_ H].
  exact H.
Defined.

Lemma ki_validate_range_spec_witness :
  let r := Krange KRF_IEND None 0 (Some [Kiovec (Some [3]) 1]) 1 (-2) None 0 in
  ki_validate_range (Some 1%positive) limits0 (heap_with KRANGE_T (DRange r)) =
    Ok (-1, heap_with KRANGE_T (DRange r)).
Proof.
  intros r.
  destruct (ki_validate_range_spec (heap_with KRANGE_T (DRange r)) 1%positive _ r limits0
    eq_refl (block_with_wf KRANGE_T (DRange r) ltac:(split; reflexivity) eq_refl) eq_refl I eq_refl
    ltac:(cbn; lia) ltac:(cbn; lia)) as [H _].
  exact H.
Defined.

Lemma ki_validate_glog_spec_witness :
  let g := Kgetlog (Some [KGLT_LIMITS; KGLT_LOG]) 2 None 0 None 0 (Kcapacity 0 0) kconfiguration0 None 0 None 0 klimits0 (Some [97; 0]) 2 in
  ki_validate_glog (Some 1%positive) (heap_with KGETLOG_T (DGetlog g)) =
    Ok ((0, 0), heap_with KGETLOG_T (DGetlog g)).
Proof.
  intros g.
  destruct (ki_validate_glog_spec (heap_with KGETLOG_T (DGetlog g)) 1%positive _ g
    eq_refl (block_with_wf KGETLOG_T (DGetlog g) ltac:(split; reflexivity) eq_refl) eq_refl eq_refl
    ltac:(cbn; lia)) as [H _].
  apply H. exists [KGLT_LIMITS; KGLT_LOG]. repeat split; try discriminate.
  - repeat constructor.
  - apply NoDup_cons. split; [|apply NoDup_singleton]. rewrite list_elem_of_singleton. discriminate.
  - intros Hn. destruct Hn. apply list_elem_of_further, list_elem_of_here.
Defined.

Lemma ki_validate_glog2_rejects_witness :
  let g := Kgetlog (Some [KGLT_LIMITS]) 1 None 0 None 0 (Kcapacity 0 0) kconfiguration0 None 0 None 0 klimits0 None 0 in
  ki_validate_glog2 (Some 1%positive) (Some 1%positive) (heap_with KGETLOG_T (DGetlog g)) =
    Ok ((-1, K_EINVAL), heap_with KGETLOG_T (DGetlog g)) /\
  ki_validate_glog2 (Some 1%positive) None (heap_with KGETLOG_T (DGetlog g)) = Ub.
Proof.
  intros g.
  destruct (ki_validate_glog2_rejects (heap_with KGETLOG_T (DGetlog g)) 1%positive _ g 1%positive eq_refl eq_refl)
    as [H1 H2].
  split; [exact H1|exact H2].
Defined.
End concrete.
