(* ===== verification/Socket.v ===== *)
(** The socket driver: [src/ktli_socket.c].

    The kernel is a list of answers, one per system call of a loop: an answer
    says how many bytes the call is willing to move, or how it fails.  What a
    call moves is computed from the [iovec]s the code hands to it.  A list that
    ends before the loop does stands for a kernel that has not answered yet
    ([NoFuel]). *)

From S2P Require Import Prelude Types.

(** A [struct iovec] over buffer number [i] of the message: an offset into it
    (the base pointer is advanced after a partial transfer) and a length. *)
Record iovec := Iovec { iov_off : Z; iov_len : Z }.

Inductive answer : Type :=
| Moves (n : Z)        (** ready for up to [n] bytes *)
| Fails (e : Z)        (** -1, errno is [e] *).

(** The descriptor: errno, the bytes written to the peer, the bytes the peer
    has sent that were not read yet, and the kernel's answers to come. *)
Record sock := Sock { sk_errno : Z; sk_out : buffer; sk_in : buffer; sk_ans : list answer }.

Definition set_sk_errno (e : Z) (s : sock) : sock := Sock e (sk_out s) (sk_in s) (sk_ans s).

(** The bytes of an iovec in its buffer *)
Definition slice (b : buffer) (v : iovec) : buffer :=
  take (Z.to_nat (iov_len v)) (drop (Z.to_nat (iov_off v)) b).

(** What [&iov[curv], iovs-curv] denotes *)
Definition offered (bases : list buffer) (iov : list iovec) (curv : Z) : buffer :=
  concat (zip_with slice (drop (Z.to_nat curv) bases) (drop (Z.to_nat curv) iov)).

(** [writev]: takes the first bytes offered. *)
Definition writev (bases : list buffer) (iov : list iovec) (curv : Z) : ST sock Z := fun s =>
  match sk_ans s with
  | [] => NoFuel
  | Fails e :: ans => Ok (-1, Sock e (sk_out s) (sk_in s) ans)
  | Moves n :: ans =>
      let data := offered bases iov curv in
      let bw := Z.min (Z.max 0 n) (zlen data) in
      Ok (bw, Sock (sk_errno s) (sk_out s ++ take (Z.to_nat bw) data) (sk_in s) ans)
  end.

(** [readv] stores the bytes it gets into the iovecs in turn. *)
Fixpoint scatter (bases : list buffer) (iov : list iovec) (bs : buffer) : list buffer :=
  match bases, iov with
  | b :: bases, v :: iov =>
      let n := Nat.min (Z.to_nat (iov_len v)) (length bs) in
      let o := Z.to_nat (iov_off v) in
      (take o b ++ take n bs ++ drop (o + n) b) :: scatter bases iov (drop n bs)
  | _, _ => bases
  end.

Definition readv (bases : list buffer) (iov : list iovec) (curv : Z) : ST sock (Z * list buffer) := fun s =>
  match sk_ans s with
  | [] => NoFuel
  | Fails e :: ans => Ok ((-1, bases), Sock e (sk_out s) (sk_in s) ans)
  | Moves n :: ans =>
      let br := Z.min (Z.min (Z.max 0 n) (zlen (offered bases iov curv))) (zlen (sk_in s)) in
      let c := Z.to_nat curv in
      Ok ((br, take c bases ++ scatter (drop c bases) (drop c iov) (take (Z.to_nat br) (sk_in s))),
          Sock (sk_errno s) (sk_out s) (drop (Z.to_nat br) (sk_in s)) ans)
  end.

Definition sk_rd {A} (a : list A) (i : Z) : ST sock A := fun s =>
  match array_read a i with Ok x => Ok (x, s) | Ub => Ub | Hang => Hang | NoFuel => NoFuel end.
Definition sk_wr {A} (a : list A) (i : Z) (x : A) : ST sock (list A) := fun s =>
  match array_write a i x with Ok a' => Ok (a', s) | Ub => Ub | Hang => Hang | NoFuel => NoFuel end.

(** [while ((curv < iovs) && (bw >= iov[curv].iov_len)) bw -= iov[curv++].iov_len];
    [n] bounds the iterations. *)
Fixpoint consume (n : nat) (iov : list iovec) (curv bw : Z) : ST sock (Z * Z) :=
  match n with
  | O => mret (curv, bw)
  | S n =>
      if curv <? zlen iov then
        v ← sk_rd iov curv;
        if bw >=? iov_len v then consume n iov (curv + 1) (i32 (bw - iov_len v)) else mret (curv, bw)
      else mret (curv, bw)
  end.

(** After the vectors that were moved whole: what is left of [bw] and [None]
    when all were, else the array with the current vector's base and length
    updated. *)
Definition advance (iov : list iovec) (curv bw : Z) : ST sock (Z * Z * option (list iovec)) :=
  cb ← consume (length iov) iov curv bw;
  if cb.1 =? zlen iov then mret (cb.1, cb.2, None) else
  v ← sk_rd iov cb.1;
  iov ← sk_wr iov cb.1 (Iovec (iov_off v + cb.2) (iov_len v - cb.2));
  mret (cb.1, cb.2, Some iov).

Definition retryable (e : Z) : bool := (e =? EAGAIN) || (e =? EWOULDBLOCK) || (e =? EINTR).

(** The transfer loop of [ktli_socket_send]: the last [bw] and the total; [n]
    bounds the calls. *)
Fixpoint send_loop (n : nat) (bases : list buffer) (iov : list iovec) (curv tbw : Z) : ST sock (Z * Z) :=
  match n with
  | O => fun _ => NoFuel
  | S n =>
      bw ← writev bases iov curv;
      if bw <=? 0 then
        e ← gets_st sk_errno;
        if retryable e then send_loop n bases iov curv tbw else mret (bw, tbw)
      else
        let tbw := i32 (tbw + bw) in
        a ← advance iov curv bw;
        match a.2 with
        | None => mret (a.1.2, tbw)
        | Some iov => send_loop n bases iov a.1.1 tbw
        end
  end.

Fixpoint recv_loop (n : nat) (bases : list buffer) (iov : list iovec) (curv tbr : Z) :
    ST sock (Z * Z * list buffer) :=
  match n with
  | O => fun _ => NoFuel
  | S n =>
      r ← readv bases iov curv;
      let br := r.1 in let bases := r.2 in
      if br <=? 0 then
        e ← gets_st sk_errno;
        if retryable e then recv_loop n bases iov curv tbr else mret (br, tbr, bases)
      else
        let tbr := i32 (tbr + br) in
        a ← advance iov curv br;
        match a.2 with
        | None => mret (a.1.2, tbr, bases)
        | Some iov => recv_loop n bases iov a.1.1 tbr
        end
  end.

Definition base_of (v : kiovec) : buffer := default [] (kiov_base v).

(** The copy loop: the [iovec]s and the total length, an [int]. *)
Definition iov_init (msg : list kiovec) : list iovec := (fun v => Iovec 0 (kiov_len v)) <$> msg.
Fixpoint iov_total (msg : list kiovec) (len : Z) : Z :=
  match msg with [] => len | v :: msg => iov_total msg (i32 (len + kiov_len v)) end.

(** [ktli_socket_send]; [dh] tells whether the handle is not NULL, [alloc]
    whether malloc succeeds. *)
Definition ktli_socket_send (dh alloc : bool) (msg : list kiovec) : ST sock Z :=
  if negb dh || (zlen msg =? 0) then modify_st (set_sk_errno (- EINVAL)) ;; mret (-1) else
  if negb alloc then modify_st (set_sk_errno ENOMEM) ;; mret (-1) else
  s ← get_st;
  r ← send_loop (length (sk_ans s)) (base_of <$> msg) (iov_init msg) 0 0;
  if r.1 <? 0 then mret (-1) else
  if negb (r.2 =? iov_total msg 0) then modify_st (set_sk_errno ECOMM) ;; mret (-1) else
  mret r.2.

(** [ktli_socket_receive]: also the buffers of the message afterwards. *)
Definition ktli_socket_receive (dh alloc : bool) (msg : list kiovec) : ST sock (Z * list buffer) :=
  let bases := base_of <$> msg in
  if negb dh || (zlen msg =? 0) then modify_st (set_sk_errno (- EINVAL)) ;; mret (-1, bases) else
  if negb alloc then modify_st (set_sk_errno ENOMEM) ;; mret (-1, bases) else
  s ← get_st;
  r ← recv_loop (length (sk_ans s)) bases (iov_init msg) 0 0;
  let '(br, tbr, bases) := r in
  if br <? 0 then mret (-1, bases) else
  if negb (tbr =? iov_total msg 0) then modify_st (set_sk_errno ECOMM) ;; mret (-1, bases) else
  mret (tbr, bases).

(** [ktli_socket_poll]: the poll flags used, and what [poll] returned *)
Definition POLLIN : Z := 0x001.
Definition POLLHUP : Z := 0x010.

Definition ktli_socket_poll (dh : bool) (rc revents : Z) : ST sock Z :=
  if negb dh then modify_st (set_sk_errno (- EINVAL)) ;; mret (-1) else
  if rc <? 0 then mret (-1) else
  if negb (rc =? 0) && negb (Z.land revents POLLHUP =? 0) then
    modify_st (set_sk_errno ECONNABORTED) ;; mret (-1)
  else if negb (rc =? 0) && negb (Z.land revents POLLIN =? 0) then mret 1
  else if negb (rc =? 0) then modify_st (set_sk_errno ENOMSG) ;; mret (-1)
  else mret 0.

(** [ktli_socket_disconnect]: [rc] and [e] are what [shutdown] returned and the
    errno it set. *)
Definition ktli_socket_disconnect (dh : bool) (rc e : Z) : ST sock Z :=
  if negb dh then modify_st (set_sk_errno (- EINVAL)) ;; mret (-1) else
  (if rc =? -1 then modify_st (set_sk_errno e) else mret tt) ;; mret rc.

(** ** The window that is left *)

(** An iovec within its buffer; one that was partially moved keeps its end. *)
Definition iov_ok (b : buffer) (v : iovec) : Prop :=
  0 <= iov_off v /\ 0 <= iov_len v /\ iov_off v + iov_len v <= zlen b.

Definition window (bq : list buffer) (iq : list iovec) : buffer := concat (zip_with slice bq iq).
Definition lens (iq : list iovec) : Z := zsum (iov_len <$> iq).

Lemma slice_len b v : iov_ok b v -> zlen (slice b v) = iov_len v.
Proof. intros (? & ? & ?). unfold slice, zlen in *. rewrite length_take, length_drop. lia. Qed.

Lemma window_len bq iq : Forall2 iov_ok bq iq -> zlen (window bq iq) = lens iq.
Proof.
  induction 1 as [|b v bq iq Hok _ IH]; [done|]. unfold window, lens in *. cbn [zip_with concat fmap list_fmap].
  by rewrite zlen_app, zsum_cons, IH, slice_len.
Qed.

Lemma lens_nonneg bq iq : Forall2 iov_ok bq iq -> 0 <= lens iq.
Proof. intros H. rewrite <- (window_len _ _ H). apply zlen_nonneg. Qed.

Lemma offered_split bp bq ip iq :
  length bp = length ip -> offered (bp ++ bq) (ip ++ iq) (zlen ip) = window bq iq.
Proof.
  intros Hl. unfold offered, zlen. rewrite Nat2Z.id, drop_app_length.
  by rewrite <- Hl, drop_app_length.
Qed.

Lemma window_app bm bq im iq :
  length bm = length im -> window (bm ++ bq) (im ++ iq) = window bm im ++ window bq iq.
Proof. intros Hl. unfold window. by rewrite zip_with_app, concat_app. Qed.

(** The iovec after a partial transfer *)
Definition moved (v : iovec) (n : Z) : iovec := Iovec (iov_off v + n) (iov_len v - n).

Lemma moved_ok b v n : iov_ok b v -> 0 <= n <= iov_len v -> iov_ok b (moved v n).
Proof. intros (? & ? & ?) ?. unfold iov_ok, moved. cbn. lia. Qed.

Lemma moved_slice b v n :
  iov_ok b v -> 0 <= n <= iov_len v -> slice b (moved v n) = drop (Z.to_nat n) (slice b v).
Proof.
  intros (? & ? & ?) ?. unfold slice, moved. cbn. rewrite skipn_firstn_comm, drop_drop. f_equal; [lia|].
  f_equal. lia.
Qed.

Lemma sk_rd_middle {A} (l1 l2 : list A) x s i : i = zlen l1 -> sk_rd (l1 ++ x :: l2) i s = Ok (x, s).
Proof.
  intros ->. unfold sk_rd, array_read, zlen. replace (Z.of_nat (length l1) <? 0) with false
    by (symmetry; apply Z.ltb_ge, Nat2Z.is_nonneg).
  rewrite Nat2Z.id. by rewrite list_lookup_middle.
Qed.
Lemma sk_wr_middle {A} (l1 l2 : list A) x y s i :
  i = zlen l1 -> sk_wr (l1 ++ x :: l2) i y s = Ok (l1 ++ y :: l2, s).
Proof.
  intros ->. unfold sk_wr. rewrite array_write_ok.
  - unfold zlen. rewrite Nat2Z.id, insert_app_r_alt, Nat.sub_diag by lia. done.
  - rewrite zlen_app. unfold zlen. cbn [length]. lia.
Qed.

Lemma consume_run s ip iq n bw :
  (length iq <= n)%nat -> Forall (fun v => 0 <= iov_len v) iq -> 0 <= bw < 2 ^ 31 ->
  exists im iq' bw', iq = im ++ iq' /\
    consume n (ip ++ iq) (zlen ip) bw s = Ok ((zlen (ip ++ im), bw'), s) /\
    0 <= bw' /\ bw = lens im + bw' /\
    match iq' with [] => True | v :: _ => bw' < iov_len v end.
Proof.
  revert ip bw n. induction iq as [|v iq IH]; intros ip bw n Hn HF Hbw.
  - exists [], [], bw. split; [done|]. rewrite !app_nil_r. split; [|unfold lens; cbn; lia].
    destruct n; cbn [consume]; [done|]. by replace (zlen ip <? zlen ip) with false by lia.
  - destruct n as [|n]; cbn [length] in Hn; [lia|]. cbn [consume].
    replace (zlen ip <? zlen (ip ++ v :: iq)) with true
      by (symmetry; apply Z.ltb_lt; rewrite zlen_app; unfold zlen; cbn [length]; lia).
    erewrite bind_Ok by by apply sk_rd_middle.
    apply Forall_cons in HF as [Hv HF].
    destruct (bw >=? iov_len v) eqn:E.
    + rewrite i32_small by lia.
      replace (zlen ip + 1) with (zlen (ip ++ [v])) by (rewrite zlen_app; unfold zlen; cbn [length]; lia).
      replace (ip ++ v :: iq) with ((ip ++ [v]) ++ iq) by by rewrite <- app_assoc.
      destruct (IH (ip ++ [v]) (bw - iov_len v) n) as (im & iq' & bw' & -> & H & H0 & Hb & Hq); [lia|done|lia|].
      exists (v :: im), iq', bw'. split; [done|]. split; [by rewrite H, <- app_assoc|].
      split; [done|]. split; [|done]. unfold lens in *. cbn [fmap list_fmap]. rewrite zsum_cons. lia.
    + exists [], (v :: iq), bw. split; [done|]. rewrite app_nil_r. split; [done|].
      split; [lia|]. split; [unfold lens; cbn; lia|lia].
Qed.

(** One transfer of [bw] bytes: the window loses its first [bw] bytes, whatever
    the buffers hold; the iovecs keep their ends. *)
Definition iov_end (v : iovec) : Z := iov_off v + iov_len v.

Lemma advance_run s (bp bq : list buffer) ip iq bw :
  length bp = length ip -> Forall2 iov_ok bq iq -> 0 < bw <= lens iq -> lens iq < 2 ^ 31 ->
  exists im iq' curv bw' o, iq = im ++ iq' /\ curv = zlen (ip ++ im) /\
    advance (ip ++ iq) (zlen ip) bw s = Ok ((curv, bw', o), s) /\ 0 <= bw' /\
    match iq' with
    | [] => o = None /\ bw = lens iq
    | v :: iq'' => o = Some ((ip ++ im) ++ moved v bw' :: iq'') /\ bw = lens im + bw' /\
        bw' < iov_len v /\ bw < lens iq
    end.
Proof.
  intros Hlen HF Hbw Hlt.
  assert (HF' : Forall (fun v => 0 <= iov_len v) iq).
  { clear -HF. induction HF as [|b v bq iq (? & ? & ?) _ IH]; constructor; [lia|done]. }
  destruct (consume_run s ip iq (length (ip ++ iq)) bw) as (im & iq' & bw' & -> & H & H0 & Hb & Hq);
    [rewrite length_app; lia|done|lia|].
  exists im, iq', (zlen (ip ++ im)), bw'. unfold advance. rewrite app_assoc in *.
  unfold lens in Hbw, Hlt. rewrite fmap_app, zsum_app in Hbw, Hlt. unfold lens in *.
  rewrite fmap_app, zsum_app. destruct iq' as [|v iq''].
  - exists None. split; [done|]. split; [done|]. split.
    { erewrite bind_Ok by exact H. cbn [fst snd]. rewrite app_nil_r. by rewrite Z.eqb_refl. }
    split; [done|]. split; [done|]. cbn in *. lia.
  - exists (Some ((ip ++ im) ++ moved v bw' :: iq'')). split; [done|]. split; [done|]. split.
    { erewrite bind_Ok by exact H. cbn [fst snd].
      replace (zlen (ip ++ im) =? zlen ((ip ++ im) ++ v :: iq'')) with false
        by (symmetry; apply Z.eqb_neq; rewrite (zlen_app (ip ++ im)); unfold zlen; cbn [length]; lia).
      erewrite bind_Ok by by apply sk_rd_middle. by erewrite bind_Ok by by apply sk_wr_middle. }
    split; [done|]. split; [done|]. split; [done|]. split; [done|].
    apply Forall_app in HF' as [_ HF']. apply Forall_cons in HF' as [Hv HF'].
    assert (0 <= zsum (iov_len <$> iq'')) by by apply zsum_nonneg, Forall_fmap.
    cbn [fmap list_fmap]. rewrite zsum_cons. lia.
Qed.

Lemma window_moved bm bq im v iq bw' b :
  Forall2 iov_ok bm im -> iov_ok b v -> Forall2 iov_ok bq iq -> 0 <= bw' < iov_len v ->
  window (b :: bq) (moved v bw' :: iq) =
    drop (Z.to_nat (lens im + bw')) (window (bm ++ b :: bq) (im ++ v :: iq)).
Proof.
  intros Hm Hb Hq Hbw. rewrite window_app by (by eapply Forall2_length).
  pose proof (window_len _ _ Hm) as Hl. pose proof (lens_nonneg _ _ Hm).
  rewrite drop_app_ge by (unfold zlen in Hl; lia).
  replace (Z.to_nat (lens im + bw') - length (window bm im))%nat with (Z.to_nat bw') by (unfold zlen in Hl; lia).
  unfold window. cbn [zip_with concat]. rewrite moved_slice by (done || lia).
  rewrite drop_app_le; [done|]. pose proof (slice_len b v Hb). unfold zlen in *. lia.
Qed.

(** A kernel that eventually moves [k] bytes and fails only with errors that are
    retried *)
Definition ready_bytes (a : answer) : Z := match a with Moves n => n | Fails _ => 0 end.
Definition patient (ans : list answer) (k : Z) : Prop :=
  Forall (fun a => match a with Moves n => 0 < n | Fails e => retryable e = true end) ans /\
  k <= zsum (ready_bytes <$> ans).

Lemma patient_cons a ans k :
  patient (a :: ans) k -> match a with Moves n => 0 < n | Fails e => retryable e = true end /\
    forall k', k' <= k - ready_bytes a -> patient ans k'.
Proof.
  intros [HF Hk]. apply Forall_cons in HF as [Ha HF]. split; [done|]. intros k' Hk'.
  split; [done|]. cbn [fmap list_fmap] in Hk. rewrite zsum_cons in Hk. lia.
Qed.

Lemma patient_nil k : 0 < k -> ~ patient [] k.
Proof. intros Hk [_ H]. cbn in H. lia. Qed.

Lemma lens_moved im v iq n : lens (moved v n :: iq) = lens (im ++ v :: iq) - (lens im + n).
Proof. unfold lens. rewrite fmap_app, zsum_app. cbn [fmap list_fmap]. rewrite !zsum_cons. cbn [moved iov_len]. lia. Qed.

(** ** Sending *)

(** What the loop leaves behind: [t0] bytes were out before it, [w] is what it
    had to send; with a patient kernel it sends all of it. *)
Definition send_ok (s : sock) (w : buffer) (t0 : Z) (o : outcome (Z * Z * sock)) : Prop :=
  match o with
  | Ok (r, s') =>
      (exists k, 0 <= k <= zlen w /\ r.2 = t0 + k /\ sk_in s' = sk_in s /\
        sk_out s' = sk_out s ++ take (Z.to_nat k) w /\
        (k = zlen w /\ 0 <= r.1 \/ r.1 <= 0 /\ -1 <= r.1 /\ retryable (sk_errno s') = false)) /\
      (0 < zlen w -> patient (sk_ans s) (zlen w) -> r.2 = t0 + zlen w /\ 0 <= r.1)
  | NoFuel => ~ (0 < zlen w /\ patient (sk_ans s) (zlen w))
  | _ => False
  end.

(** A call that moved nothing *)
Lemma send_retry s s1 a w t0 bw (m : ST sock (Z * Z)) :
  sk_ans s = a :: sk_ans s1 -> sk_in s1 = sk_in s -> sk_out s1 = sk_out s -> -1 <= bw <= 0 ->
  (match a with Moves n => 0 < n | Fails e => retryable e = true end -> 0 < zlen w ->
     retryable (sk_errno s1) = true /\ ready_bytes a = 0) ->
  send_ok s1 w t0 (m s1) ->
  send_ok s w t0 ((e ← gets_st sk_errno; if retryable e then m else mret (bw, t0)) s1).
Proof.
  intros Ha Hi Ho Hbw Hr Hok. erewrite bind_Ok by done.
  assert (Hp : 0 < zlen w -> patient (sk_ans s) (zlen w) ->
    retryable (sk_errno s1) = true /\ patient (sk_ans s1) (zlen w)).
  { rewrite Ha. intros Hl [Hm Hp]%patient_cons. destruct (Hr Hm Hl) as [? H0]. split; [done|].
    apply Hp. lia. }
  destruct (retryable (sk_errno s1)) eqn:Er.
  - unfold send_ok in *. rewrite Hi, Ho in Hok. destruct (m s1) as [[r s']| | |]; try done.
    + destruct Hok as [Hpost Hall]. split; [exact Hpost|]. intros Hl Hpt. apply Hall; [done|]. by apply Hp.
    + intros [Hl Hpt]. apply Hok. split; [done|]. by apply Hp.
  - split.
    + exists 0. cbn [fst snd]. rewrite Hi, Ho, take_0, app_nil_r. pose proof (zlen_nonneg w).
      split_and!; try done; try lia. right. by split_and!; try lia.
    + intros Hl Hpt. destruct (Hp Hl Hpt). congruence.
Qed.

(** A call that moved [m] bytes, and the rest of the loop *)
Lemma send_more s s1 m w t0 o :
  sk_ans s = Moves m :: sk_ans s1 -> sk_in s1 = sk_in s -> 0 < m < zlen w ->
  sk_out s1 = sk_out s ++ take (Z.to_nat m) w ->
  send_ok s1 (drop (Z.to_nat m) w) (t0 + m) o -> send_ok s w t0 o.
Proof.
  intros Ha Hi Hm Ho Hok.
  assert (Hz : zlen (drop (Z.to_nat m) w) = zlen w - m) by (unfold zlen in *; rewrite length_drop; lia).
  assert (Hp : patient (sk_ans s) (zlen w) -> patient (sk_ans s1) (zlen w - m)).
  { rewrite Ha. intros [_ Hp]%patient_cons. apply Hp. cbn [ready_bytes]. lia. }
  unfold send_ok in *. rewrite Hz in Hok. destruct o as [[r s']| | |]; try done.
  - destruct Hok as [(k & Hk & Hr & Hi' & Ho' & Hc) Hall]. split.
    + exists (m + k). split_and!; try lia; [by rewrite Hi', Hi| |destruct Hc; [left; lia|by right]].
      rewrite Ho', Ho, <- app_assoc. f_equal. rewrite Z2Nat.inj_add by lia. apply take_take_drop.
    + intros Hl Hpt. destruct Hall; [lia|by apply Hp|lia].
  - intros [Hl Hpt]. apply Hok. split; [lia|]. by apply Hp.
Qed.

Lemma send_loop_run ans : forall n bp bq ip iq t0 s,
  (length ans <= n)%nat -> sk_ans s = ans -> length bp = length ip -> Forall2 iov_ok bq iq ->
  0 <= t0 -> t0 + lens iq < 2 ^ 31 ->
  send_ok s (window bq iq) t0 (send_loop n (bp ++ bq) (ip ++ iq) (zlen ip) t0 s).
Proof.
  induction ans as [|a ans IH]; intros n bp bq ip iq t0 s Hn Ha Hlen HF Ht Hlt.
  { assert (Hno : send_ok s (window bq iq) t0 NoFuel)
      by (cbn; rewrite Ha; intros [? ?]; by eapply patient_nil).
    destruct n; cbn [send_loop]; [done|]. by erewrite bind_NoFuel by (unfold writev; by rewrite Ha). }
  destruct n as [|n]; cbn [length] in Hn; [lia|]. cbn [send_loop].
  destruct a as [m|e].
  2: { erewrite bind_Ok by (unfold writev; rewrite Ha; reflexivity). replace (-1 <=? 0) with true by done.
       eapply send_retry; [by rewrite Ha|done|done|lia|done|]. apply IH; try done. lia. }
  pose proof (window_len _ _ HF) as Hwl. pose proof (lens_nonneg _ _ HF) as Hln.
  set (bw := Z.min (Z.max 0 m) (zlen (window bq iq))).
  set (s1 := Sock (sk_errno s) (sk_out s ++ take (Z.to_nat bw) (window bq iq)) (sk_in s) ans).
  erewrite bind_Ok by (unfold writev; rewrite Ha, offered_split by done; reflexivity). fold bw. fold s1.
  destruct (bw <=? 0) eqn:Ebw; zbool.
  { assert (bw = 0) as Hbw0 by lia. eapply send_retry; [by rewrite Ha|done| |lia|intros; exfalso; unfold bw in *; lia|apply IH; try done; lia].
    unfold s1. rewrite Hbw0. cbn. by rewrite take_0, app_nil_r. }
  rewrite i32_small by lia.
  destruct (advance_run s1 bp bq ip iq bw) as (im & iq' & curv & bw' & o & -> & -> & H & H0 & Hq); [done..|lia|lia|].
  erewrite bind_Ok by exact H. cbn [fst snd].
  apply Forall2_app_inv_r in HF as (bm & bq' & HFm & HFq & ->).
  destruct iq' as [|v iq''].
  - destruct Hq as [-> Hbw]. split; [|cbn [fst snd]; lia].
    exists bw. cbn [fst snd]. split_and!; try done; lia.
  - destruct Hq as (-> & Hbw & Hbw' & Hlt'). inversion HFq as [|b v' bq'' iq3 Hb HFq' E1 E2]; subst bq' v' iq3.
    assert (bw = m) as Hbm by lia. rewrite Hbm.
    apply (send_more s s1 m); [done|done|lia|unfold s1; cbn [sk_out]; by rewrite Hbm|].
    replace (Z.to_nat m) with (Z.to_nat (lens im + bw')) by lia. rewrite <- (window_moved bm bq'' im v iq'' bw' b HFm Hb HFq' ltac:(lia)).
    replace (bp ++ bm ++ b :: bq'') with ((bp ++ bm) ++ b :: bq'') by by rewrite <- app_assoc.
    apply IH; [lia|done| |constructor; [apply moved_ok; [done|lia]|done]|lia|].
    + rewrite !length_app. f_equal; [done|by eapply Forall2_length].
    + rewrite (lens_moved im). lia.
Qed.

(** ** Receiving *)

(** The message, as the iovecs delimit it: each buffer up to its end *)
Definition whole (bases : list buffer) (iov : list iovec) : buffer :=
  concat (zip_with (fun b v => take (Z.to_nat (iov_end v)) b) bases iov).
(** What the current iovec already holds *)
Definition head_done (bq : list buffer) (iq : list iovec) : buffer :=
  match bq, iq with b :: _, v :: _ => take (Z.to_nat (iov_off v)) b | _, _ => [] end.
(** Only the current iovec has been advanced. *)
Definition fresh_tail (iq : list iovec) : Prop :=
  match iq with [] => True | _ :: iq => Forall (fun v => iov_off v = 0) iq end.

Lemma take_end b v : iov_ok b v -> take (Z.to_nat (iov_end v)) b = take (Z.to_nat (iov_off v)) b ++ slice b v.
Proof.
  intros (? & ? & ?). unfold slice, iov_end. rewrite Z2Nat.inj_add by lia. by rewrite take_take_drop.
Qed.

Lemma whole_fresh bq iq :
  Forall2 iov_ok bq iq -> Forall (fun v => iov_off v = 0) iq -> whole bq iq = window bq iq.
Proof.
  induction 1 as [|b v bq iq Hok _ IH]; intros Hf; [done|].
  apply Forall_cons in Hf as [H0 Hf]. unfold whole, window in *. cbn [zip_with concat].
  rewrite IH by done. f_equal. rewrite (take_end b v Hok), H0. done.
Qed.

Lemma whole_split bp bq ip iq :
  length bp = length ip -> Forall2 iov_ok bq iq -> fresh_tail iq ->
  whole (bp ++ bq) (ip ++ iq) = (whole bp ip ++ head_done bq iq) ++ window bq iq.
Proof.
  intros Hl HF Hf. unfold whole at 1. rewrite zip_with_app, concat_app by done. fold (whole bp ip).
  rewrite <- app_assoc. f_equal. destruct HF as [|b v bq iq Hok HF]; [done|].
  unfold head_done, window. cbn [zip_with concat]. rewrite (take_end b v Hok), <- app_assoc.
  do 2 f_equal. by apply whole_fresh.
Qed.

Lemma scatter_nil bq iq : scatter bq iq [] = bq.
Proof.
  revert iq. induction bq as [|b bq IH]; intros [|v iq]; try done. cbn [scatter length].
  rewrite Nat.min_0_r, take_nil, drop_nil, IH. cbn [app]. by rewrite Nat.add_0_r, take_drop.
Qed.

Definition scattered (b : buffer) (v : iovec) (bs : buffer) : buffer :=
  let n := Nat.min (Z.to_nat (iov_len v)) (length bs) in
  take (Z.to_nat (iov_off v)) b ++ take n bs ++ drop (Z.to_nat (iov_off v) + n) b.

Lemma scattered_spec b v bs :
  iov_ok b v ->
  let n := Nat.min (Z.to_nat (iov_len v)) (length bs) in
  iov_ok (scattered b v bs) v /\
  take (Z.to_nat (iov_off v)) (scattered b v bs) = take (Z.to_nat (iov_off v)) b /\
  slice (scattered b v bs) v = take n bs ++ drop n (slice b v).
Proof.
  intros (? & ? & ?). cbv zeta. unfold scattered, iov_ok, slice, zlen in *.
  set (o := Z.to_nat (iov_off v)) in *. set (l := Z.to_nat (iov_len v)) in *.
  set (n := Nat.min l (length bs)).
  assert (Ho : length (take o b) = o) by (rewrite length_take; lia). split_and!; try lia.
  - rewrite !length_app, !length_take, length_drop. lia.
  - by rewrite <- Ho at 1; rewrite take_app_length.
  - rewrite <- Ho at 1. rewrite drop_app_length, take_app_ge by (rewrite length_take; lia).
    f_equal. rewrite length_take. rewrite (skipn_firstn_comm n), drop_drop.
    by replace (l - min n (length bs))%nat with (l - n)%nat by lia.
Qed.

Lemma scatter_run bq iq bs :
  Forall2 iov_ok bq iq -> (length bs <= length (window bq iq))%nat ->
  Forall2 iov_ok (scatter bq iq bs) iq /\
  head_done (scatter bq iq bs) iq = head_done bq iq /\
  window (scatter bq iq bs) iq = bs ++ drop (length bs) (window bq iq).
Proof.
  intros HF. revert bs. induction HF as [|b v bq iq Hok HF IH]; intros bs Hl.
  { destruct bs; [done|]. cbn in Hl. lia. }
  destruct (scattered_spec b v bs Hok) as (Hok' & Ht & Hs). cbv zeta in Hs.
  assert (scatter (b :: bq) (v :: iq) bs = scattered b v bs ::
    scatter bq iq (drop (Nat.min (Z.to_nat (iov_len v)) (length bs)) bs)) as -> by done.
  set (n := Nat.min (Z.to_nat (iov_len v)) (length bs)) in *.
  unfold window in *. cbn [zip_with concat head_done] in *. rewrite length_app in Hl.
  pose proof (slice_len b v Hok) as Hsl. unfold zlen in Hsl.
  destruct (IH (drop n bs)) as (IH1 & _ & IH3); [rewrite length_drop; lia|].
  split; [by constructor|]. split; [exact Ht|]. rewrite IH3, Hs, length_drop.
  destruct (le_lt_dec (length bs) (Z.to_nat (iov_len v))) as [Hle|Hgt].
  - replace n with (length bs) by lia. rewrite Nat.sub_diag, drop_0, firstn_all, (drop_ge bs (length bs)) by lia.
    rewrite app_nil_l, <- app_assoc, drop_app_le by lia. done.
  - replace n with (Z.to_nat (iov_len v)) by lia. rewrite (drop_ge (slice b v)) by lia.
    rewrite app_nil_r, app_assoc, take_drop. f_equal.
    rewrite drop_app_ge by lia. f_equal. lia.
Qed.

(** What the receive loop leaves behind: [t0] bytes were in before it, the first
    [zlen w] of what the peer sent fill the rest; with a patient kernel and
    enough input it fills all of it. *)
Definition recv_ok (s : sock) (pre w : buffer) (ends : list iovec) (t0 : Z)
    (o : outcome (Z * Z * list buffer * sock)) : Prop :=
  match o with
  | Ok ((br, tbr, bases'), s') =>
      (exists k, 0 <= k <= zlen w /\ k <= zlen (sk_in s) /\ tbr = t0 + k /\ sk_out s' = sk_out s /\
        sk_in s' = drop (Z.to_nat k) (sk_in s) /\
        whole bases' ends = pre ++ take (Z.to_nat k) (sk_in s) ++ drop (Z.to_nat k) w /\
        (k = zlen w /\ 0 <= br \/ br <= 0 /\ -1 <= br /\ retryable (sk_errno s') = false)) /\
      (0 < zlen w <= zlen (sk_in s) -> patient (sk_ans s) (zlen w) -> tbr = t0 + zlen w /\ 0 <= br)
  | NoFuel => ~ (0 < zlen w <= zlen (sk_in s) /\ patient (sk_ans s) (zlen w))
  | _ => False
  end.

Lemma recv_retry s s1 a pre w ends t0 br bases (m : ST sock (Z * Z * list buffer)) :
  sk_ans s = a :: sk_ans s1 -> sk_in s1 = sk_in s -> sk_out s1 = sk_out s -> -1 <= br <= 0 ->
  whole bases ends = pre ++ w ->
  (match a with Moves n => 0 < n | Fails e => retryable e = true end -> 0 < zlen w <= zlen (sk_in s) ->
     retryable (sk_errno s1) = true /\ ready_bytes a = 0) ->
  recv_ok s1 pre w ends t0 (m s1) ->
  recv_ok s pre w ends t0 ((e ← gets_st sk_errno; if retryable e then m else mret (br, t0, bases)) s1).
Proof.
  intros Ha Hi Ho Hbw Hwh Hr Hok. erewrite bind_Ok by done.
  assert (Hp : 0 < zlen w <= zlen (sk_in s) -> patient (sk_ans s) (zlen w) ->
    retryable (sk_errno s1) = true /\ patient (sk_ans s1) (zlen w)).
  { rewrite Ha. intros Hl [Hm Hp]%patient_cons. destruct (Hr Hm Hl) as [? H0]. split; [done|].
    apply Hp. lia. }
  destruct (retryable (sk_errno s1)) eqn:Er.
  - unfold recv_ok in *. rewrite Hi, Ho in Hok. destruct (m s1) as [[[[? ?] ?] s']| | |]; try done.
    + destruct Hok as [Hpost Hall]. split; [exact Hpost|]. intros Hl Hpt. apply Hall; [done|]. by apply Hp.
    + intros [Hl Hpt]. apply Hok. split; [done|]. by apply Hp.
  - split.
    + exists 0. rewrite Hi, Ho, take_0, app_nil_l, drop_0. pose proof (zlen_nonneg w).
      pose proof (zlen_nonneg (sk_in s)).
      split_and!; try done; try lia. right. by split_and!; try lia.
    + intros Hl Hpt. destruct (Hp Hl Hpt). congruence.
Qed.

Lemma recv_more s s1 m br pre w ends t0 o :
  sk_ans s = Moves m :: sk_ans s1 -> sk_out s1 = sk_out s -> 0 < br < zlen w -> br <= zlen (sk_in s) ->
  br <= m -> (br < m -> br = zlen (sk_in s)) ->
  sk_in s1 = drop (Z.to_nat br) (sk_in s) ->
  recv_ok s1 (pre ++ take (Z.to_nat br) (sk_in s)) (drop (Z.to_nat br) w) ends (t0 + br) o ->
  recv_ok s pre w ends t0 o.
Proof.
  intros Ha Ho Hbr Hle Hm Hmin Hi Hok.
  assert (Hz : zlen (drop (Z.to_nat br) w) = zlen w - br) by (unfold zlen in *; rewrite length_drop; lia).
  assert (Hzi : zlen (sk_in s1) = zlen (sk_in s) - br) by (rewrite Hi; unfold zlen in *; rewrite length_drop; lia).
  assert (Hp : zlen w <= zlen (sk_in s) -> patient (sk_ans s) (zlen w) -> patient (sk_ans s1) (zlen w - br)).
  { rewrite Ha. intros Hl [_ Hp]%patient_cons. apply Hp. cbn [ready_bytes]. lia. }
  unfold recv_ok in *. rewrite Hz, Hzi, Ho in Hok. destruct o as [[[[br' tbr] bases'] s']| | |]; try done.
  - destruct Hok as [(k & Hk & Hki & Hr & Ho' & Hi' & Hw & Hc) Hall]. split.
    + exists (br + k). split_and!; try lia; [done| | |destruct Hc; [left; lia|by right]].
      * rewrite Hi', Hi, drop_drop. f_equal. lia.
      * rewrite Hw, Hi, drop_drop, <- app_assoc, (app_assoc (take _ _) (take _ _)), take_take_drop.
        by rewrite <- Z2Nat.inj_add by lia.
    + intros Hl Hpt. destruct Hall; [lia|apply Hp; [lia|done]|lia].
  - intros [Hl Hpt]. apply Hok. split; [lia|]. apply Hp; [lia|done].
Qed.

Lemma whole_ends bases iov iov' : iov_end <$> iov = iov_end <$> iov' -> whole bases iov = whole bases iov'.
Proof.
  intros He. unfold whole. f_equal. revert iov iov' He.
  induction bases as [|b bases IH]; intros [|v iov] [|v' iov'] He; try done.
  cbn in *. injection He as -> He. by rewrite (IH _ _ He).
Qed.

Lemma readv_run s m ans bp bq ip iq :
  sk_ans s = Moves m :: ans -> length bp = length ip -> Forall2 iov_ok bq iq ->
  let br := Z.min (Z.min (Z.max 0 m) (zlen (window bq iq))) (zlen (sk_in s)) in
  let bs := take (Z.to_nat br) (sk_in s) in
  readv (bp ++ bq) (ip ++ iq) (zlen ip) s =
    Ok ((br, bp ++ scatter bq iq bs),
        Sock (sk_errno s) (sk_out s) (drop (Z.to_nat br) (sk_in s)) ans) /\
  zlen bs = br /\ (length bs <= length (window bq iq))%nat.
Proof.
  intros Ha Hl HF br bs. split.
  - unfold readv. rewrite Ha, offered_split by done. unfold zlen at 3 4 5.
    replace (Z.to_nat (Z.of_nat (length ip))) with (length ip) by lia.
    rewrite drop_app_length, <- Hl, take_app_length, drop_app_length. done.
  - unfold bs, zlen in *. rewrite length_take. lia.
Qed.

Lemma recv_loop_run ends ans : forall n bp bq ip iq t0 s,
  (length ans <= n)%nat -> sk_ans s = ans -> length bp = length ip -> Forall2 iov_ok bq iq ->
  fresh_tail iq -> iov_end <$> (ip ++ iq) = iov_end <$> ends ->
  0 <= t0 -> t0 + lens iq < 2 ^ 31 ->
  recv_ok s (whole bp ip ++ head_done bq iq) (window bq iq) ends t0
    (recv_loop n (bp ++ bq) (ip ++ iq) (zlen ip) t0 s).
Proof.
  induction ans as [|a ans IH]; intros n bp bq ip iq t0 s Hn Ha Hlen HF Hf He Ht Hlt.
  { assert (Hno : recv_ok s (whole bp ip ++ head_done bq iq) (window bq iq) ends t0 NoFuel)
      by (cbn; rewrite Ha; intros [[? ?] ?]; by eapply patient_nil).
    destruct n; cbn [recv_loop]; [done|]. by erewrite bind_NoFuel by (unfold readv; by rewrite Ha). }
  destruct n as [|n]; cbn [length] in Hn; [lia|]. cbn [recv_loop].
  assert (Hwh : whole (bp ++ bq) ends = (whole bp ip ++ head_done bq iq) ++ window bq iq).
  { rewrite <- (whole_ends _ _ _ He). by apply whole_split. }
  destruct a as [m|e].
  2: { erewrite bind_Ok by (unfold readv; rewrite Ha; reflexivity). cbn [fst snd].
       replace (-1 <=? 0) with true by done.
       eapply recv_retry; [by rewrite Ha|done|done|lia|exact Hwh|done|]. apply IH; try done. lia. }
  pose proof (window_len _ _ HF) as Hwl. pose proof (lens_nonneg _ _ HF) as Hln.
  destruct (readv_run s m ans bp bq ip iq Ha Hlen HF) as (Hrd & Hbs & Hbl). cbv zeta in *.
  erewrite bind_Ok by exact Hrd. cbn [fst snd].
  set (br := Z.min _ (zlen (sk_in s))) in *. set (bs := take (Z.to_nat br) (sk_in s)) in *.
  set (s1 := Sock _ _ _ ans).
  destruct (scatter_run bq iq bs HF Hbl) as (HF1 & Hh1 & Hw1).
  destruct (br <=? 0) eqn:Ebr; zbool.
  { pose proof (zlen_nonneg (sk_in s)). assert (br = 0) as Hbr0 by lia.
    assert (bs = []) as Hnil by (unfold bs; by rewrite Hbr0).
    rewrite Hnil, scatter_nil. eapply recv_retry;
      [by rewrite Ha| |done|lia|exact Hwh|intros; exfalso; unfold br in *; lia|apply IH; try done; lia].
    unfold s1. rewrite Hbr0. done. }
  rewrite i32_small by lia.
  destruct (advance_run s1 bp (scatter bq iq bs) ip iq br) as (im & iq' & curv & bw' & o & Eiq & -> & H & H0 & Hq);
    [done..|lia|lia|].
  erewrite bind_Ok by exact H. cbn [fst snd].
  assert (Hwh1 : whole (bp ++ scatter bq iq bs) ends =
    ((whole bp ip ++ head_done bq iq) ++ bs) ++ drop (Z.to_nat br) (window bq iq)).
  { replace (Z.to_nat br) with (length bs) by (unfold zlen in Hbs; lia).
    rewrite <- (whole_ends _ _ _ He), whole_split, Hh1, Hw1 by done.
    by rewrite (app_assoc (whole bp ip ++ head_done bq iq)). }
  destruct iq' as [|v iq''].
  - destruct Hq as [-> Hbw]. split; [|lia].
    exists br. rewrite Hwh1, Hwl. rewrite <- app_assoc. split_and!; try done; try lia.
  - destruct Hq as (-> & Hbw & Hbw' & Hlt').
    pose proof HF1 as HF2. rewrite Eiq in HF2.
    apply Forall2_app_inv_r in HF2 as (bm & bq' & HFm & HFq & Ebq).
    inversion HFq as [|b v' bq'' iq3 Hb HFq' E1 E2]; subst bq' v' iq3.
    pose proof (window_moved bm bq'' im v iq'' bw' b HFm Hb HFq' ltac:(lia)) as Hwm.
    rewrite <- Ebq, <- Eiq, Hw1, <- Hbw in Hwm.
    replace (Z.to_nat br) with (length bs) in Hwm by (unfold zlen in Hbs; lia).
    rewrite drop_app_length in Hwm.
    assert (Hlen2 : length (bp ++ bm) = length (ip ++ im))
      by (rewrite !length_app; f_equal; [done|by eapply Forall2_length]).
    assert (HF3 : Forall2 iov_ok (b :: bq'') (moved v bw' :: iq''))
      by (constructor; [apply moved_ok; [done|lia]|done]).
    assert (Hft : fresh_tail (moved v bw' :: iq'')).
    { cbn. rewrite Eiq in Hf. destruct im as [|v0 im]; cbn in Hf; [done|].
      apply Forall_app in Hf as [_ Hf]. by apply Forall_cons in Hf as [_ Hf]. }
    assert (He2 : iov_end <$> ((ip ++ im) ++ moved v bw' :: iq'') = iov_end <$> ends).
    { rewrite <- He, Eiq, <- app_assoc, !fmap_app. do 2 f_equal. cbn [fmap list_fmap]. f_equal.
      unfold iov_end, moved. cbn. lia. }
    apply (recv_more s s1 m br); [done|done|unfold lens in *; lia|unfold br; lia|unfold br; lia|unfold br; lia|done|].
    specialize (IH n (bp ++ bm) (b :: bq'') (ip ++ im) (moved v bw' :: iq'') (t0 + br) s1).
    replace ((bp ++ bm) ++ b :: bq'') with (bp ++ scatter bq iq bs) in IH by (by rewrite Eiq, Ebq, <- app_assoc).
    assert (Hpre : whole (bp ++ bm) (ip ++ im) ++ head_done (b :: bq'') (moved v bw' :: iq'') =
      (whole bp ip ++ head_done bq iq) ++ bs).
    { apply (app_inv_tail (window (b :: bq'') (moved v bw' :: iq''))).
      rewrite <- whole_split by done. rewrite (whole_ends _ _ _ He2).
      replace ((bp ++ bm) ++ b :: bq'') with (bp ++ scatter bq iq bs) by (by rewrite Eiq, Ebq, <- app_assoc).
      rewrite Hwh1, Hwm. by replace (Z.to_nat br) with (length bs) by (unfold zlen in Hbs; lia). }
    rewrite Hpre, Hwm in IH. replace (length bs) with (Z.to_nat br) in IH by (unfold zlen in Hbs; lia).
    apply IH; [lia|done..|lia|]. rewrite (lens_moved im), <- Eiq. lia.
Qed.

(** ** The driver's send and receive *)
Definition msg_ok (msg : list kiovec) : Prop :=
  Forall (fun v => 0 <= kiov_len v <= zlen (base_of v)) msg.
Definition msg_len (msg : list kiovec) : Z := zsum (kiov_len <$> msg).
Definition msg_bytes (msg : list kiovec) : buffer :=
  concat ((fun v => take (Z.to_nat (kiov_len v)) (base_of v)) <$> msg).

Lemma iov_init_ok msg : msg_ok msg -> Forall2 iov_ok (base_of <$> msg) (iov_init msg).
Proof.
  induction 1 as [|v msg Hv _ IH]; constructor; [|exact IH]. unfold iov_ok. cbn. lia.
Qed.
Lemma iov_init_window msg : window (base_of <$> msg) (iov_init msg) = msg_bytes msg.
Proof.
  unfold window, msg_bytes, iov_init. induction msg as [|v msg IH]; [done|].
  cbn [fmap list_fmap zip_with concat]. by rewrite IH.
Qed.
Lemma iov_init_lens msg : lens (iov_init msg) = msg_len msg.
Proof.
  unfold lens, msg_len, iov_init. induction msg as [|v msg IH]; [done|].
  cbn [fmap list_fmap] in *. rewrite !zsum_cons, IH. done.
Qed.
Lemma msg_bytes_len msg : msg_ok msg -> zlen (msg_bytes msg) = msg_len msg.
Proof. intros H. rewrite <- iov_init_window, <- iov_init_lens. by apply window_len, iov_init_ok. Qed.

Lemma iov_total_run msg len : msg_ok msg -> 0 <= len -> len + msg_len msg < 2 ^ 31 -> iov_total msg len = len + msg_len msg.
Proof.
  intros H. revert len. induction H as [|v msg Hv HF IH]; intros len H0 Hl.
  - unfold msg_len. cbn. lia.
  - pose proof (msg_bytes_len msg HF) as Hb. pose proof (zlen_nonneg (msg_bytes msg)).
    unfold msg_len in *. cbn [fmap list_fmap iov_total] in *. rewrite zsum_cons in *.
    rewrite i32_small by lia. rewrite IH by lia. lia.
Qed.

Lemma iov_init_fresh msg : Forall (fun v => iov_off v = 0) (iov_init msg).
Proof. apply Forall_fmap, Forall_true. done. Qed.

(** C35: [ktli_socket_send] writes a prefix of the message's bytes, in order,
    however the kernel splits the transfer; it returns the total length only when
    every byte was written, and otherwise -1 with an errno that is not one it
    retries.  Against a kernel that keeps accepting bytes, interrupted only by
    EAGAIN, EWOULDBLOCK and EINTR, it does send everything. *)
Theorem ktli_socket_send_spec msg s :
  msg <> [] -> msg_ok msg -> msg_len msg < 2 ^ 31 ->
  match ktli_socket_send true true msg s with
  | Ok (rc, s') => exists k, 0 <= k <= msg_len msg /\
      sk_out s' = sk_out s ++ take (Z.to_nat k) (msg_bytes msg) /\ sk_in s' = sk_in s /\
      (rc = msg_len msg /\ k = msg_len msg \/ rc = -1 /\ retryable (sk_errno s') = false)
  | NoFuel => True
  | _ => False
  end /\
  (0 < msg_len msg -> patient (sk_ans s) (msg_len msg) ->
   exists s', ktli_socket_send true true msg s = Ok (msg_len msg, s') /\
     sk_out s' = sk_out s ++ msg_bytes msg).
Proof.
  intros Hne Hok Hlt. unfold ktli_socket_send. rewrite zlen_eqb0. destruct msg as [|v0 msg0]; [done|].
  set (msg := v0 :: msg0) in *. cbn [negb orb]. erewrite bind_Ok by done.
  pose proof (send_loop_run (sk_ans s) (length (sk_ans s)) [] (base_of <$> msg) [] (iov_init msg) 0 s) as H.
  cbn [app] in H. rewrite iov_init_window, iov_init_lens in H.
  specialize (H ltac:(lia) eq_refl eq_refl (iov_init_ok msg Hok) ltac:(lia) ltac:(lia)).
  pose proof (msg_bytes_len msg Hok) as Hlen. unfold send_ok in H. rewrite Hlen in H.
  change (zlen (@nil iovec)) with 0 in H.
  destruct (send_loop _ _ _ 0 0 s) as [[r s']| | |] eqn:E; [|done..|].
  - rewrite !(bind_Ok _ _ _ _ _ E). rewrite iov_total_run by (done || lia).
    destruct H as [(k & Hk & Hr & Hi & Ho & Hc) Hall]. rewrite !Z.add_0_l in *.
    assert (Hfull : k = msg_len msg -> take (Z.to_nat k) (msg_bytes msg) = msg_bytes msg)
      by (intros ->; apply take_ge; unfold zlen in Hlen; lia).
    split.
    + destruct (r.1 <? 0) eqn:E1; zbool; [exists k; split_and!; try done; try lia; right; naive_solver lia|].
      destruct (r.2 =? msg_len msg) eqn:E2; zbool; cbn [negb].
      * exists k. split_and!; try done; try lia.
      * exists k. split_and!; try done; try lia. right. split; [done|].
        destruct Hc as [?|(_ & _ & ?)]; [lia|]. done.
    + intros Hl Hp. destruct (Hall Hl Hp) as [H1 H2]. exists s'.
      replace (r.1 <? 0) with false by lia. rewrite H1, Z.eqb_refl. cbn [negb].
      split; [done|]. rewrite Ho, Hfull by lia. done.
  - rewrite !(bind_NoFuel _ _ _ E). split; [done|]. intros Hl Hp. by destruct H.
Qed.

(** C36: [ktli_socket_receive] stores the bytes the peer sent into the message's
    buffers in order, however the kernel splits the transfer, and takes no more
    than it stores; it returns the total length only when every buffer is full,
    and otherwise -1 with an errno that is not one it retries.  With enough input
    and a kernel that keeps delivering it, it fills all of them. *)
Theorem ktli_socket_receive_spec msg s :
  msg <> [] -> msg_ok msg -> msg_len msg < 2 ^ 31 ->
  match ktli_socket_receive true true msg s with
  | Ok ((rc, bufs), s') => exists k, 0 <= k <= msg_len msg /\ k <= zlen (sk_in s) /\
      sk_in s' = drop (Z.to_nat k) (sk_in s) /\ sk_out s' = sk_out s /\
      whole bufs (iov_init msg) = take (Z.to_nat k) (sk_in s) ++ drop (Z.to_nat k) (msg_bytes msg) /\
      (rc = msg_len msg /\ k = msg_len msg \/ rc = -1 /\ retryable (sk_errno s') = false)
  | NoFuel => True
  | _ => False
  end /\
  (0 < msg_len msg <= zlen (sk_in s) -> patient (sk_ans s) (msg_len msg) ->
   exists bufs s', ktli_socket_receive true true msg s = Ok ((msg_len msg, bufs), s') /\
     whole bufs (iov_init msg) = take (Z.to_nat (msg_len msg)) (sk_in s)).
Proof.
  intros Hne Hok Hlt. unfold ktli_socket_receive. rewrite zlen_eqb0. destruct msg as [|v0 msg0]; [done|].
  set (msg := v0 :: msg0) in *. cbn [negb orb]. erewrite bind_Ok by done.
  assert (Hf : fresh_tail (iov_init msg)).
  { pose proof (iov_init_fresh msg) as Hf. cbn in *. by apply Forall_cons in Hf as [_ Hf]. }
  pose proof (recv_loop_run (iov_init msg) (sk_ans s) (length (sk_ans s)) [] (base_of <$> msg) [] (iov_init msg) 0 s) as H.
  cbn [app] in H. rewrite iov_init_window, iov_init_lens in H.
  specialize (H ltac:(lia) eq_refl eq_refl (iov_init_ok msg Hok) Hf eq_refl ltac:(lia) ltac:(lia)).
  pose proof (msg_bytes_len msg Hok) as Hlen. unfold recv_ok in H. rewrite Hlen in H.
  change (zlen (@nil iovec)) with 0 in H.
  assert (Hpre : whole [] [] ++ head_done (base_of <$> msg) (iov_init msg) = []) by done.
  rewrite Hpre in H. cbn [app] in H.
  destruct (recv_loop _ _ _ 0 0 s) as [[[[br tbr] bases'] s']| | |] eqn:E; [|done..|].
  - rewrite !(bind_Ok _ _ _ _ _ E). rewrite iov_total_run by (done || lia).
    destruct H as [(k & Hk & Hki & Hr & Ho & Hi & Hw & Hc) Hall]. rewrite !Z.add_0_l in *.
    assert (Hfull : k = msg_len msg -> drop (Z.to_nat k) (msg_bytes msg) = [])
      by (intros ->; apply drop_ge; unfold zlen in Hlen; lia).
    split.
    + destruct (br <? 0) eqn:E1; zbool; [exists k; split_and!; try done; try lia; right; naive_solver lia|].
      destruct (tbr =? msg_len msg) eqn:E2; zbool; cbn [negb].
      * exists k. split_and!; try done; try lia.
      * exists k. split_and!; try done; try lia. right. split; [done|].
        destruct Hc as [?|(_ & _ & ?)]; [lia|]. done.
    + intros Hl Hp. destruct (Hall Hl Hp) as [H1 H2]. exists bases', s'.
      replace (br <? 0) with false by lia. rewrite H1, Z.eqb_refl. cbn [negb].
      split; [done|]. rewrite Hw, Hfull by lia. rewrite app_nil_r. f_equal. lia.
  - rewrite !(bind_NoFuel _ _ _ E). split; [done|]. intros Hl Hp. by destruct H.
Qed.

(** A loop that only ever gets an end of file, with a stale errno *)
Lemma recv_loop_eof ans : forall n bases iov curv tbr s,
  sk_in s = [] -> retryable (sk_errno s) = true -> sk_ans s = ans ->
  Forall (fun a => exists m, a = Moves m) ans ->
  length iov = length bases -> 0 <= curv <= zlen iov ->
  recv_loop n bases iov curv tbr s = NoFuel.
Proof.
  induction ans as [|a ans IH]; intros n bases iov curv tbr s Hin He Ha HF Hl Hc.
  { destruct n; cbn [recv_loop]; [done|]. apply bind_NoFuel. unfold readv. by rewrite Ha. }
  destruct n as [|n]; [done|]. cbn [recv_loop]. apply Forall_cons in HF as [[m ->] HF].
  assert (Hrd : readv bases iov curv s = Ok ((0, bases), Sock (sk_errno s) (sk_out s) [] ans)).
  { unfold readv. rewrite Ha, Hin. change (zlen (@nil Z)) with 0.
    replace (Z.min _ 0) with 0 by (pose proof (zlen_nonneg (offered bases iov curv)); lia).
    rewrite take_nil, scatter_nil, take_drop. by rewrite drop_nil. }
  erewrite bind_Ok by exact Hrd. cbn [fst snd]. change (0 <=? 0) with true. cbv iota.
  erewrite bind_Ok by done. cbn [sk_errno]. rewrite He. by apply IH.
Qed.

(** When the peer closes the connection after a read found it not ready,
    [ktli_socket_receive] never returns: each further [readv] returns 0 for the end
    of file without setting errno, the loop reads the EAGAIN that is still there,
    and tries again, however often.  Without a stale errno the same end of file
    is reported as ECOMM. *)
Theorem ktli_socket_receive_eof_spins msg s n :
  msg <> [] -> sk_in s = [] ->
  (sk_ans s = Fails EAGAIN :: replicate n (Moves 1) ->
   ktli_socket_receive true true msg s = NoFuel) /\
  (sk_ans s = replicate (S n) (Moves 1) -> sk_errno s = 0 -> iov_total msg 0 <> 0 ->
   exists s', ktli_socket_receive true true msg s = Ok ((-1, base_of <$> msg), s') /\
     sk_errno s' = ECOMM).
Proof.
  intros Hne Hin. unfold ktli_socket_receive. rewrite zlen_eqb0. destruct msg as [|v0 msg0]; [done|].
  set (msg := v0 :: msg0) in *. cbn [negb orb].
  assert (Hl : length (iov_init msg) = length (base_of <$> msg)) by (unfold iov_init; by rewrite !length_fmap).
  split.
  - intros Ha. erewrite bind_Ok by done. apply bind_NoFuel. rewrite Ha. cbn [length recv_loop].
    erewrite bind_Ok by (unfold readv; rewrite Ha; reflexivity). cbn [fst snd].
    change (-1 <=? 0) with true. cbv iota. erewrite bind_Ok by done.
    change (retryable (sk_errno (Sock EAGAIN _ _ _))) with true. cbv iota.
    eapply recv_loop_eof; [done|done|done| |done|pose proof (zlen_nonneg (iov_init msg)); lia].
    apply Forall_replicate. by eexists.
  - intros Ha He Ht. erewrite bind_Ok by done.
    assert (Hrd : readv (base_of <$> msg) (iov_init msg) 0 s =
      Ok ((0, base_of <$> msg), Sock 0 (sk_out s) [] (replicate n (Moves 1)))).
    { unfold readv. rewrite Ha, Hin. cbn [replicate]. change (zlen (@nil Z)) with 0.
      replace (Z.min _ 0) with 0 by (pose proof (zlen_nonneg (offered (base_of <$> msg) (iov_init msg) 0)); lia).
      rewrite take_nil, scatter_nil, take_drop, drop_nil. by rewrite He. }
    rewrite Ha. cbn [replicate length recv_loop].
    erewrite bind_Ok by (erewrite bind_Ok by exact Hrd; reflexivity).
    cbn [fst snd]. change (0 <? 0) with false. cbv iota.
    replace (0 =? iov_total msg 0) with false by (symmetry; apply Z.eqb_neq; lia). cbn [negb].
    eexists. split; [reflexivity|done].
Qed.

(** *** Concrete transfers *)
Definition msg0 : list kiovec := [Kiovec (Some [1; 2; 3]) 3; Kiovec (Some []) 0; Kiovec (Some [4; 5; 6; 7]) 4].

Lemma msg0_ok : msg_ok msg0.
Proof. repeat constructor; vm_compute; congruence. Qed.

Lemma ktli_socket_send_spec_witness :
  let s := Sock 0 [9] [] [Moves 2; Fails EAGAIN; Moves 3; Fails EINTR; Moves 100] in
  exists s', ktli_socket_send true true msg0 s = Ok (7, s') /\ sk_out s' = [9; 1; 2; 3; 4; 5; 6; 7].
Proof.
  intros s.
  destruct (ktli_socket_send_spec msg0 s ltac:(discriminate) msg0_ok ltac:(vm_compute; reflexivity)) as [_ H].
  destruct H as (s' & H & Ho).
  - vm_compute. reflexivity.
  - split; [repeat constructor; vm_compute; reflexivity|vm_compute; congruence].
  - exists s'. split; [exact H|rewrite Ho; reflexivity].
Defined.

Lemma ktli_socket_receive_spec_witness :
  let s := Sock 0 [] [11; 12; 13; 14; 15; 16; 17; 18] [Moves 2; Fails EAGAIN; Moves 3; Moves 100] in
  exists bufs s', ktli_socket_receive true true msg0 s = Ok ((7, bufs), s') /\
    whole bufs (iov_init msg0) = [11; 12; 13; 14; 15; 16; 17].
Proof.
  intros s.
  destruct (ktli_socket_receive_spec msg0 s ltac:(discriminate) msg0_ok ltac:(vm_compute; reflexivity)) as [_ H].
  destruct H as (bufs & s' & H & Ho).
  - vm_compute. split; congruence.
  - split; [repeat constructor; vm_compute; reflexivity|vm_compute; congruence].
  - exists bufs, s'. split; [exact H|exact Ho].
Defined.

Lemma ktli_socket_receive_eof_spins_witness :
  ktli_socket_receive true true msg0 (Sock 0 [] [] [Fails EAGAIN; Moves 1; Moves 1; Moves 1]) = NoFuel.
Proof.
  destruct (ktli_socket_receive_eof_spins msg0 (Sock 0 [] [] [Fails EAGAIN; Moves 1; Moves 1; Moves 1]) 3
    ltac:(discriminate) eq_refl) as [H _].
  exact (H eq_refl).
Defined.

(** ** Connection set-up

    [ktli_socket_connect]: each address [getaddrinfo] found comes with the
    descriptor [socket] returns for it (-1 when it fails) and whether [connect]
    succeeds; [fds] are the process's open descriptors. *)
Record conn_env := ConnEnv {
  ce_getaddrinfo : Z; ce_addrs : list (Z * bool); ce_getfl : Z; ce_setfl : Z; ce_dup2 : Z }.

Fixpoint connect_loop (addrs : list (Z * bool)) (fds : list Z) : option Z * list Z :=
  match addrs with
  | [] => (None, fds)
  | (sfd, ok) :: addrs =>
      if sfd =? -1 then connect_loop addrs fds
      else if ok then (Some sfd, sfd :: fds)
      else connect_loop addrs fds
  end.

(** (result, open descriptors) *)
Definition ktli_socket_connect (dh host port usetls : bool) (ce : conn_env) (fds : list Z) : Z * list Z :=
  if negb dh || negb host || negb port then (-1, fds) else
  if usetls then (-1, fds) else
  if negb (ce_getaddrinfo ce =? 0) then (-1, fds) else
  match connect_loop (ce_addrs ce) fds with
  | (None, fds) => (-1, fds)
  | (Some sfd, fds) =>
      if ce_getfl ce =? -1 then (-1, fds) else
      if ce_setfl ce <? 0 then (-1, fds) else
      if ce_dup2 ce <? 0 then (-1, fds) else
      (0, fds)
  end.

(** The driver handle is a descriptor in a block of its own. *)
Definition ktli_socket_open (alloc : bool) (dd : Z) (fds : list Z) : option Z * list Z :=
  if negb alloc then (None, fds) else (Some dd, if dd =? -1 then fds else dd :: fds).
Definition ktli_socket_close (dh : option Z) (fds : list Z) : Z * list Z :=
  match dh with
  | None => (-1, fds)
  | Some dd => (0, base.filter (fun fd => fd <> dd) fds)
  end.

(** A connection leaves two descriptors behind, the handle's and the socket it
    was duplicated from, and closing the handle closes one. *)
Lemma ktli_socket_connect_leak ce dd sfd fds :
  ce_getaddrinfo ce = 0 -> ce_addrs ce = [(sfd, true)] -> sfd <> -1 -> sfd <> dd ->
  ce_getfl ce <> -1 -> 0 <= ce_setfl ce -> 0 <= ce_dup2 ce -> dd ∉ fds -> dd <> -1 ->
  let fds1 := (ktli_socket_open true dd fds).2 in
  let r := ktli_socket_connect true true true false ce fds1 in
  r.1 = 0 /\ (ktli_socket_close (Some dd) r.2).2 = sfd :: fds.
Proof.
  intros H0 Ha H1 H2 H3 H4 H5 H6 H7. cbn. replace (dd =? -1) with false by lia.
  unfold ktli_socket_connect. rewrite H0, Ha. cbn. replace (sfd =? -1) with false by lia. cbn.
  replace (ce_getfl ce =? -1) with false by lia. replace (ce_setfl ce <? 0) with false by lia.
  replace (ce_dup2 ce <? 0) with false by lia. cbn [fst snd]. split; [done|].
  rewrite filter_cons_True by done. rewrite filter_cons_False by tauto. f_equal.
  clear -H6. induction fds as [|x fds IH]; [done|].
  apply not_elem_of_cons in H6 as [Hx H6]. rewrite filter_cons_True by congruence. f_equal. by apply IH.
Qed.
