(* ===== verification/BasicKv.v ===== *)
(** The basic key value store API: [src/basickv.c].

    The calls the module makes to the library proper ([ki_limits], [ki_get],
    [ki_put], [ki_del], [ki_getversion]) are the operations of the class
    [KvService]; [KvLaws] states what they promise against a healthy session: they
    read and write a finite map.  The [kv_t] a function creates lives in the heap
    of typed buffers; value buffers are blocks of the allocator. *)

From stdpp Require Import gmap.
From S2P Require Import Prelude Types Keys Ktb Validate.

(** A call on a [kv_t] yields its status and the structure afterwards, over the
    allocator and the remote side. *)
Class KvService (R : Type) := {
  ki_limits : Z -> R -> klimits;
  ki_get : Z -> kv -> ST (mem * R) (Z * kv);
  ki_put : Z -> kv -> ST (mem * R) (Z * kv);
  ki_del : Z -> kv -> ST (mem * R) (Z * kv);
  ki_getversion : Z -> kv -> ST (mem * R) (Z * kv) }.

Definition BKV_N_MAXKEYS : Z := 256.
Definition BKV_N_MAXKEYS_DIGITS : Z := 3.

(** [sprintf(nkey, ".%03d", i)] for [0 <= i < 1000]: the bytes before the NUL *)
Definition nkey_suffix (i : Z) : buffer :=
  [46; 48 + i / 100 mod 10; 48 + i / 10 mod 10; 48 + i mod 10].

(** How to reach a drive, and the limits it announced *)
Record bkvs_open_t := BkvsOpen {
  bkvo_host : option buffer; bkvo_port : option buffer; bkvo_id : Z; bkvo_pass : option buffer; bkvo_usetls : Z }.
Record bkv_limits_t := BkvLimits { bkvl_klen : Z; bkvl_vlen : Z; bkvl_maxn : Z }.

Section bkv.
Context {SZ : Sizes} {KE : KtbEnv} {R : Type} {KS : KvService R}.

Definition bst : Type := heap * R.

Definition on_heap {A} (m : ST heap A) : ST bst A := fun s =>
  match m s.1 with
  | Ok (a, h) => Ok (a, (h, s.2)) | Ub => Ub | Hang => Hang | NoFuel => NoFuel end.

Definition put_kv (p : ptr) (v : kv) : ST heap unit :=
  k ← ktb_base p;
  match ktb_buf k with DKv _ => ktb_put p (set_ktb_buf (DKv v) k) | _ => ub_st end.
Definition upd_kv (p : ptr) (f : kv -> kv) : ST heap unit := v ← get_kv p; put_kv p (f v).

(** A service call on the structure at [p] *)
Definition service (f : kv -> ST (mem * R) (Z * kv)) (p : ptr) : ST bst Z :=
  v ← on_heap (get_kv p);
  r ← (fun s => match f v (h_mem s.1, s.2) with
                | Ok (r, (m, x)) => Ok (r, (Heap m (h_blocks s.1), x))
                | Ub => Ub | Hang => Hang | NoFuel => NoFuel end : outcome (Z * kv * bst));
  on_heap (put_kv p r.2) ;;
  mret r.1.

Definition limits (ktd : Z) : ST bst klimits := gets_st (fun s => ki_limits ktd s.2).

(** The initialisation all functions share: vectors on the caller's stack *)
Definition set_vecs (key val : list kiovec) (v : kv) : kv :=
  Kv (Some key) (zlen key) (Some val) (zlen val) (kv_ver v) (kv_verlen v) (kv_newver v) (kv_newverlen v)
    (kv_disum v) (kv_disumlen v) (kv_ditype v) (kv_cpolicy v) (kv_metaonly v).
(** [kv_newver], [kv_disum], [kv_ditype] and [kv_cpolicy] of a put *)
Definition set_put (v : kv) : kv :=
  Kv (kv_key v) (kv_keycnt v) (kv_val v) (kv_valcnt v) (kv_ver v) (kv_verlen v)
    (Some (replicate 9 48 ++ [0])) 8 (Some [0; 0; 0; 0]) 4 KDI_CRC32 KC_WT (kv_metaonly v).
Definition set_cpolicy (c : Z) (v : kv) : kv :=
  Kv (kv_key v) (kv_keycnt v) (kv_val v) (kv_valcnt v) (kv_ver v) (kv_verlen v) (kv_newver v) (kv_newverlen v)
    (kv_disum v) (kv_disumlen v) (kv_ditype v) c (kv_metaonly v).
(** [kv->kv_val[0] = x] and the rewriting of [nkey], which element 1 of the
    key vector points to *)
Definition set_val0 (x : kiovec) (v : kv) : kv :=
  Kv (kv_key v) (kv_keycnt v) ((fun a => <[0%nat := x]> a) <$> kv_val v) (kv_valcnt v)
    (kv_ver v) (kv_verlen v) (kv_newver v) (kv_newverlen v)
    (kv_disum v) (kv_disumlen v) (kv_ditype v) (kv_cpolicy v) (kv_metaonly v).
Definition set_nkey (i : Z) (v : kv) : kv :=
  Kv ((fun a => <[1%nat := Kiovec (Some (nkey_suffix i)) (BKV_N_MAXKEYS_DIGITS + 1)]> a) <$> kv_key v)
    (kv_keycnt v) (kv_val v) (kv_valcnt v)
    (kv_ver v) (kv_verlen v) (kv_newver v) (kv_newverlen v)
    (kv_disum v) (kv_disumlen v) (kv_ditype v) (kv_cpolicy v) (kv_metaonly v).

Definition val0 (v : kv) : option kiovec := kv_val v ≫= (.!! 0%nat).
Definition kiov0 : kiovec := Kiovec None 0.

(** [bkv_limits] *)
Definition bkv_limits (ktd : Z) (l : bool) : ST bst (Z * option bkv_limits_t) :=
  if negb l then mret (-1, None) else
  kil ← limits ktd;
  if kl_keylen kil =? 0 then mret (-1, None) else
  mret (0, Some (BkvLimits (kl_keylen kil) (kl_vallen kil) BKV_N_MAXKEYS)).

(** [bkv_get]: the result and what is stored through [val] and [vlen] *)
Definition bkv_get (ktd : Z) (key : option buffer) (klen : Z) (val vlen : bool) :
    ST bst (Z * option kiovec) :=
  if bool_decide (key = None) || (klen =? 0) || negb val || negb vlen then mret (-1, None) else
  kil ← limits ktd;
  if kl_keylen kil =? 0 then mret (-1, None) else
  if klen >? kl_keylen kil then mret (-1, None) else
  kv ← on_heap (ki_create ktd KV_T);
  match kv with
  | None => mret (-1, None)
  | Some p =>
      on_heap (upd_kv p (set_vecs [Kiovec key klen] [kiov0])) ;;
      kstatus ← service (ki_get ktd) p;
      if kstatus =? K_OK then
        v ← on_heap (get_kv p);
        x ← deref_st (val0 v);
        mret (0, Some x)
      else mret (-1, None)
  end.

(** [bkv_put], [bkv_del], [bkv_exists] *)
Definition bkv_put (ktd : Z) (key : option buffer) (klen : Z) (val : option buffer) (vlen : Z) : ST bst Z :=
  if bool_decide (key = None) || (klen =? 0) then mret (-1) else
  kil ← limits ktd;
  if kl_keylen kil =? 0 then mret (-1) else
  if klen >? kl_keylen kil then mret (-1) else
  kv ← on_heap (ki_create ktd KV_T);
  match kv with
  | None => mret (-1)
  | Some p =>
      on_heap (upd_kv p (set_vecs [Kiovec key klen] [Kiovec val vlen])) ;;
      on_heap (upd_kv p set_put) ;;
      kstatus ← service (ki_put ktd) p;
      mret (if kstatus =? K_OK then 0 else -1)
  end.

Definition bkv_del (ktd : Z) (key : option buffer) (klen : Z) : ST bst Z :=
  if bool_decide (key = None) || (klen =? 0) then mret (-1) else
  kil ← limits ktd;
  if kl_keylen kil =? 0 then mret (-1) else
  if klen >? kl_keylen kil then mret (-1) else
  kv ← on_heap (ki_create ktd KV_T);
  match kv with
  | None => mret (-1)
  | Some p =>
      on_heap (upd_kv p (set_vecs [Kiovec key klen] [kiov0])) ;;
      on_heap (upd_kv p (set_cpolicy KC_WT)) ;;
      kstatus ← service (ki_del ktd) p;
      mret (if kstatus =? K_OK then 0 else -1)
  end.

Definition bkv_exists (ktd : Z) (key : option buffer) (klen : Z) : ST bst Z :=
  if bool_decide (key = None) || (klen =? 0) then mret (-1) else
  kil ← limits ktd;
  if kl_keylen kil =? 0 then mret (-1) else
  if klen >? kl_keylen kil then mret (-1) else
  kv ← on_heap (ki_create ktd KV_T);
  match kv with
  | None => mret (-1)
  | Some p =>
      on_heap (upd_kv p (set_vecs [Kiovec key klen] [kiov0])) ;;
      kstatus ← service (ki_getversion ktd) p;
      mret (if kstatus =? K_OK then 1 else if kstatus =? K_ENOTFOUND then 0 else -1)
  end.

(** [bkv_getn].  [ival]/[ivlen] are one list of base and length, of [n]
    elements; the loop stops at the first failure. *)
Fixpoint getn_loop (ktd : Z) (p : ptr) (n : nat) (i : Z) (ivals : list kiovec) (vlen : Z) :
    ST bst (bool * list kiovec * Z) :=
  match n with
  | O => mret (true, ivals, vlen)
  | S n =>
      on_heap (upd_kv p (set_nkey i)) ;;
      kstatus ← service (ki_get ktd) p;
      if negb (kstatus =? K_OK) then mret (false, ivals, vlen) else
      v ← on_heap (get_kv p);
      x ← deref_st (val0 v);
      ivals ← on_heap (array_wr ivals i x);
      on_heap (ki_clean (Some p)) ;;
      getn_loop ktd p n (i + 1) ivals (u64 (vlen + kiov_len x))
  end.

(** The copy loop: what is at [*val] after each [memcpy], and the frees *)
Fixpoint getn_copy (ivals : list kiovec) (acc : buffer) : ST bst buffer :=
  match ivals with
  | [] => mret acc
  | x :: ivals =>
      bs ← on_heap (iov_bytes_st x);
      (match kiov_base x with Some _ => on_heap (on_mem KI_FREE) | None => mret tt end) ;;
      getn_copy ivals (acc ++ bs)
  end.

(** [getn_out]: the arrays are NULL ([None]) when they were not allocated. *)
Definition getn_out (p : ptr) (ival : option (list kiovec)) (ivlen : bool) :
    ST bst (Z * option (option buffer * Z)) :=
  on_heap (ki_destroy (Some p)) ;;
  (match ival with
   | None => mret tt
   | Some ivals =>
       forM_st ivals (fun x => match kiov_base x with Some _ => on_heap (on_mem KI_FREE) | None => mret tt end) ;;
       on_heap (on_mem KI_FREE)
   end) ;;
  (if ivlen then on_heap (on_mem KI_FREE) else mret tt) ;;
  mret (-1, Some (None, 0)).

(** The result, and [*val], [*vlen] when they are assigned *)
Definition bkv_getn (ktd : Z) (key : option buffer) (klen n : Z) (val vlen : bool) :
    ST bst (Z * option (option buffer * Z)) :=
  if bool_decide (key = None) || (klen =? 0) || (n =? 0) || negb val || negb vlen then mret (-1, None) else
  if n >? BKV_N_MAXKEYS then mret (-1, None) else
  kil ← limits ktd;
  if kl_keylen kil =? 0 then mret (-1, None) else
  if klen + 1 + BKV_N_MAXKEYS_DIGITS >? kl_keylen kil then mret (-1, None) else
  kv ← on_heap (ki_create ktd KV_T);
  match kv with
  | None => mret (-1, None)
  | Some p =>
      ival ← on_heap (on_mem (KI_MALLOC (8 * n)));
      ivlen ← on_heap (on_mem (KI_MALLOC (8 * n)));
      let ivals := replicate (Z.to_nat n) kiov0 in
      match ival, ivlen with
      | Some _, Some _ =>
          on_heap (upd_kv p (set_vecs [Kiovec key klen; kiov0] [kiov0])) ;;
          r ← getn_loop ktd p (Z.to_nat n) 0 ivals 0;
          let '(ok, ivals, total) := r in
          if negb ok then getn_out p (Some ivals) true else
          buf ← on_heap (on_mem (KI_MALLOC total));
          match buf with
          | None => getn_out p (Some ivals) true
          | Some _ =>
              bs ← getn_copy ivals [];
              on_heap (ki_destroy (Some p)) ;;
              on_heap (on_mem KI_FREE) ;;
              on_heap (on_mem KI_FREE) ;;
              mret (i32 n, Some (Some bs, total))
          end
      | _, _ =>
          getn_out p (if ival then Some ivals else None) (if ivlen then true else false)
      end
  end.

(** [bkv_putn]: [off] is how far [pval] has advanced into the value. *)
Fixpoint putn_loop (ktd : Z) (p : ptr) (val : buffer) (vlen vallen cnt : Z) (n : nat) (i off : Z) : ST bst bool :=
  match n with
  | O => mret true
  | S n =>
      let pvlen := if (i =? u32 (cnt - 1)) && negb (vlen mod vallen =? 0) then vlen mod vallen else vallen in
      on_heap (upd_kv p (set_val0 (Kiovec (Some (drop (Z.to_nat off) val)) pvlen))) ;;
      on_heap (upd_kv p (set_nkey i)) ;;
      kstatus ← service (ki_put ktd) p;
      if negb (kstatus =? K_OK) then mret false else
      on_heap (ki_clean (Some p)) ;;
      putn_loop ktd p val vlen vallen cnt n (i + 1) (off + pvlen)
  end.

(** The result, and [*n] when it is assigned *)
Definition bkv_putn (ktd : Z) (key : option buffer) (klen : Z) (n : bool) (val : option buffer) (vlen : Z) :
    ST bst (Z * option Z) :=
  if bool_decide (key = None) || (klen =? 0) || negb n || bool_decide (val = None) || (vlen =? 0) then
    mret (-1, None) else
  kil ← limits ktd;
  if kl_keylen kil =? 0 then mret (-1, None) else
  if klen + 1 + BKV_N_MAXKEYS_DIGITS >? kl_keylen kil then mret (-1, None) else
  if kl_vallen kil =? 0 then ub_st else
  let cnt := u32 (vlen / kl_vallen kil + (if vlen mod kl_vallen kil =? 0 then 0 else 1)) in
  if cnt >? BKV_N_MAXKEYS then mret (-1, Some cnt) else
  val ← deref_st val;
  kv ← on_heap (ki_create ktd KV_T);
  match kv with
  | None => mret (-1, Some cnt)
  | Some p =>
      on_heap (upd_kv p (set_vecs [Kiovec key klen; kiov0] [kiov0])) ;;
      on_heap (upd_kv p set_put) ;;
      ok ← putn_loop ktd p val vlen (kl_vallen kil) cnt (Z.to_nat cnt) 0 0;
      on_heap (ki_destroy (Some p)) ;;
      mret (if ok : bool then i32 cnt else -1, Some cnt)
  end.

(** [bkv_deln] *)
Fixpoint deln_loop (ktd : Z) (p : ptr) (n : nat) (i : Z) : ST bst bool :=
  match n with
  | O => mret true
  | S n =>
      on_heap (upd_kv p (set_nkey i)) ;;
      kstatus ← service (ki_del ktd) p;
      if negb (kstatus =? K_OK) then mret false else
      on_heap (ki_clean (Some p)) ;;
      deln_loop ktd p n (i + 1)
  end.

Definition bkv_deln (ktd : Z) (key : option buffer) (klen n : Z) : ST bst Z :=
  if bool_decide (key = None) || (klen =? 0) || (n =? 0) then mret (-1) else
  if n >? BKV_N_MAXKEYS then mret (-1) else
  kil ← limits ktd;
  if kl_keylen kil =? 0 then mret (-1) else
  if klen + 1 + BKV_N_MAXKEYS_DIGITS >? kl_keylen kil then mret (-1) else
  kv ← on_heap (ki_create ktd KV_T);
  match kv with
  | None => mret (-1)
  | Some p =>
      on_heap (upd_kv p (set_vecs [Kiovec key klen; kiov0] [kiov0])) ;;
      on_heap (upd_kv p (set_cpolicy KC_WT)) ;;
      ok ← deln_loop ktd p (Z.to_nat n) 0;
      on_heap (ki_destroy (Some p)) ;;
      mret (if ok : bool then i32 n else -1)
  end.
End bkv.

(** ** The service's promise *)
Definition vec_val (v : option (list kiovec)) (b : buffer) : Prop :=
  exists key bs, v = Some key /\ vec_bytes key bs /\ concat bs = b.

(** A healthy session with limits [lim]: requests that pass validation act on
    the map [view] shows; a put or del leaves the caller's structure alone, a get
    hangs one allocated value buffer on it and leaves the key. *)
Class KvLaws {R} (KS : KvService R) (view : R -> gmap buffer buffer) (lim : klimits) := {
  kv_limits ktd x : ki_limits ktd x = lim;
  kv_put ktd v m x kb vb :
    mem_ok m -> kv_valid v false true lim = true -> count_ok (kv_key v) (kv_keycnt v) ->
    count_ok (kv_val v) (kv_valcnt v) -> vec_val (kv_key v) kb -> vec_val (kv_val v) vb ->
    zlen vb <= kl_vallen lim ->
    exists m' x', ki_put ktd v (m, x) = Ok ((K_OK, v), (m', x')) /\ mem_ok m' /\ m_live m' = m_live m /\
      view x' = <[kb := vb]> (view x);
  kv_get ktd v m x kb :
    mem_ok m -> kv_valid v false false lim = true -> count_ok (kv_key v) (kv_keycnt v) ->
    (exists y, kv_val v = Some [y]) -> vec_val (kv_key v) kb ->
    match view x !! kb with
    | Some vb => exists m' x' v', ki_get ktd v (m, x) = Ok ((K_OK, v'), (m', x')) /\ mem_ok m' /\
        m_live m' = m_live m + 1 /\ view x' = view x /\
        kv_key v' = kv_key v /\ kv_keycnt v' = kv_keycnt v /\ kv_valcnt v' = kv_valcnt v /\
        kv_val v' = Some [Kiovec (Some vb) (zlen vb)] /\ kv_fields v' false lim = 0 /\
        zlen vb <= kl_vallen lim
    | None => exists m' x' v', ki_get ktd v (m, x) = Ok ((K_ENOTFOUND, v'), (m', x')) /\ mem_ok m' /\ view x' = view x
    end;
  kv_del ktd v m x kb :
    mem_ok m -> kv_valid v false false lim = true -> count_ok (kv_key v) (kv_keycnt v) ->
    vec_val (kv_key v) kb ->
    exists m' x' rc, ki_del ktd v (m, x) = Ok ((rc, v), (m', x')) /\ mem_ok m' /\ m_live m' = m_live m /\
      view x' = delete kb (view x) /\ rc = (if view x !! kb then K_OK else K_ENOTFOUND);
  kv_getversion ktd v m x kb :
    mem_ok m -> kv_valid v false false lim = true -> count_ok (kv_key v) (kv_keycnt v) ->
    vec_val (kv_key v) kb ->
    exists m' x' v' rc, ki_getversion ktd v (m, x) = Ok ((rc, v'), (m', x')) /\ mem_ok m' /\ view x' = view x /\
      rc = (if view x !! kb then K_OK else K_ENOTFOUND) }.

(** ** The structure of a call in progress *)
Section frame.
Context {SZ : Sizes} {KE : KtbEnv} {R : Type} {KS : KvService R}.
Implicit Types (s : bst (R := R)) (p : ptr) (v : kv).

(** The heap is [b0] and the call's own [kv_t] at [p]. *)
Definition owns (s : bst (R := R)) (p : ptr) (v : kv) (b0 : gmap ptr ktb) : Prop :=
  b0 !! p = None /\ mem_ok (h_mem s.1) /\
  exists k, h_blocks s.1 = <[p := k]> b0 /\ ktb_buf k = DKv v /\ block_wf k /\ ktb_destroy k = None.
Definition live (s : bst (R := R)) : Z := m_live (h_mem s.1).

Lemma on_heap_run {A} (m : ST heap A) s a h : m s.1 = Ok (a, h) -> on_heap m s = Ok (a, (h, s.2)).
Proof. intros H. unfold on_heap. by rewrite H. Qed.

Lemma create_run s ktd :
  mem_ok (h_mem s.1) ->
  exists p s', on_heap (ki_create ktd KV_T) s = Ok (Some p, s') /\ owns s' p kv0 (h_blocks s.1) /\
    live s' = live s + 1 /\ s'.2 = s.2.
Proof.
  intros Hm. destruct (ktb_alloc_run s.1 ktd KV_T Hm ltac:(done)) as (h' & H & Hn & Hb & Hm' & Hl).
  eexists _, (h', s.2). split.
  { apply on_heap_run. unfold ki_create. erewrite bind_Ok by exact H. done. }
  split; [|done]. split; [exact Hn|]. split; [exact Hm'|]. exists (new_block ktd KV_T).
  split; [exact Hb|]. split; [done|]. split; [by apply new_block_wf|done].
Qed.

Lemma owns_lookup s p v b0 :
  owns s p v b0 -> exists k, h_blocks s.1 !! p = Some k /\ ktb_buf k = DKv v /\ block_wf k /\ ktb_destroy k = None.
Proof. intros (_ & _ & k & Hb & Hk). exists k. rewrite Hb, lookup_insert_eq. done. Qed.

Lemma get_kv_owns s p v b0 : owns s p v b0 -> on_heap (get_kv p) s = Ok (v, s).
Proof.
  intros (k & Hk & Hd & _)%owns_lookup. destruct s as [h x]. by erewrite on_heap_run by by eapply get_kv_run.
Qed.

Lemma put_kv_owns s p v b0 v' :
  owns s p v b0 -> exists s', on_heap (put_kv p v') s = Ok (tt, s') /\ owns s' p v' b0 /\
    h_mem s'.1 = h_mem s.1 /\ s'.2 = s.2.
Proof.
  intros (Hn & Hm & k & Hb & Hd & Hwf & Hde).
  assert (Hk : h_blocks s.1 !! p = Some k) by (rewrite Hb; apply lookup_insert_eq).
  eexists (Heap (h_mem s.1) (<[p := set_ktb_buf (DKv v') k]> (h_blocks s.1)), s.2). split.
  { apply on_heap_run. unfold put_kv. erewrite bind_Ok by by apply ktb_base_run. by rewrite Hd. }
  split; [|done]. split; [done|]. split; [exact Hm|]. exists (set_ktb_buf (DKv v') k). cbn.
  rewrite Hb, insert_insert_eq. split; [done|]. split; [done|]. split; [|done].
  eapply block_wf_same; [exact Hwf|exact Hd|done].
Qed.

Lemma upd_kv_owns s p v b0 f :
  owns s p v b0 -> exists s', on_heap (upd_kv p f) s = Ok (tt, s') /\ owns s' p (f v) b0 /\
    h_mem s'.1 = h_mem s.1 /\ s'.2 = s.2.
Proof.
  intros Ho. destruct (put_kv_owns s p v b0 (f v) Ho) as (s' & H & Hr). exists s'. split; [|exact Hr].
  apply owns_lookup in Ho as (k & Hk & Hd & _). unfold on_heap, upd_kv in *.
  by erewrite bind_Ok by by eapply get_kv_run.
Qed.

Lemma service_owns s p v b0 f rc v' m' x' :
  owns s p v b0 -> f v (h_mem s.1, s.2) = Ok ((rc, v'), (m', x')) -> mem_ok m' ->
  exists s', service f p s = Ok (rc, s') /\ owns s' p v' b0 /\ h_mem s'.1 = m' /\ s'.2 = x'.
Proof.
  intros Ho Hf Hm. unfold service. erewrite bind_Ok by by eapply get_kv_owns.
  erewrite bind_Ok by (cbv beta; rewrite Hf; reflexivity). cbn [fst snd].
  destruct Ho as (Hn & _ & k & Hb & Hk).
  destruct (put_kv_owns (Heap m' (h_blocks s.1), x') p v b0 v') as (s' & H & Ho & Hms & Hx).
  { split; [done|]. split; [done|]. by exists k. }
  exists s'. erewrite bind_Ok by exact H. by split_and!.
Qed.

Lemma clean_owns s p v b0 :
  owns s p v b0 -> exists s', on_heap (ki_clean (Some p)) s = Ok (K_OK, s') /\ owns s' p v b0 /\
    live s' = live s /\ s'.2 = s.2.
Proof.
  intros Ho. pose proof Ho as (k & Hk & Hd & Hwf & Hde)%owns_lookup.
  eexists. split; [apply on_heap_run; by apply ki_clean_run|].
  unfold held, cleaned. rewrite Hd. destruct Ho as (Hn & Hm & k' & Hb & _).
  split; [|unfold live; cbn; split; [lia|done]]. split; [done|]. split; [by apply released_mem_ok|].
  exists k. cbn. by rewrite Hb, insert_insert_eq.
Qed.

Lemma destroy_owns s p v b0 :
  owns s p v b0 -> exists s', on_heap (ki_destroy (Some p)) s = Ok (K_OK, s') /\
    h_blocks s'.1 = b0 /\ live s' = live s - 1 /\ s'.2 = s.2 /\ mem_ok (h_mem s'.1).
Proof.
  intros Ho. pose proof Ho as (k & Hk & Hd & Hwf & Hde)%owns_lookup.
  assert (Ht : ktb_type k <> KITER_T).
  { destruct Hwf as (_ & _ & _ & H). rewrite Hd in H. apply Z.eqb_eq in H. by rewrite H. }
  eexists. split; [apply on_heap_run; by apply (ki_destroy_plain 1)|].
  unfold held, live. rewrite Hd. destruct Ho as (Hn & Hm & k' & Hb & _). cbn.
  rewrite Hb, delete_insert_id by done. by split_and!.
Qed.

Lemma malloc_owns s p v b0 size :
  owns s p v b0 -> exists b s', on_heap (on_mem (KI_MALLOC size)) s = Ok (Some b, s') /\ owns s' p v b0 /\
    live s' = live s + 1 /\ s'.2 = s.2.
Proof.
  intros (Hn & Hm & k & Hb & Hk). destruct (KI_MALLOC_ok (h_mem s.1) size Hm) as (b & m' & H & Hm' & _ & Hl).
  exists b, (Heap m' (h_blocks s.1), s.2). split.
  { apply on_heap_run. unfold on_mem. by rewrite H. }
  split; [|done]. split; [done|]. split; [done|]. by exists k.
Qed.

Lemma free_owns s p v b0 :
  owns s p v b0 -> exists s', on_heap (on_mem KI_FREE) s = Ok (tt, s') /\ owns s' p v b0 /\
    live s' = live s - 1 /\ s'.2 = s.2.
Proof.
  intros (Hn & Hm & k & Hb & Hk). eexists. split; [by apply on_heap_run|].
  split; [|done]. split; [done|]. split; [exact Hm|]. by exists k.
Qed.
End frame.

(** ** Single keys *)

(** Limits a usable session has: 32-bit, with room for the version and checksum
    the module sends *)
Definition lim_ok (lim : klimits) : Prop :=
  0 < kl_keylen lim < 2 ^ 32 /\ 0 < kl_vallen lim < 2 ^ 32 /\ 8 <= kl_verlen lim /\ 4 <= kl_disumlen lim.

Lemma kv_valid_fields v verck valck lim :
  kv_valid v verck valck lim = vec_ok (kv_key v) (kl_keylen lim) &&
    (negb valck || vec_ok (kv_val v) (kl_vallen lim)) && (kv_fields v verck lim =? 0).
Proof.
  rewrite kv_fields_run. unfold kv_valid. rewrite <- !andb_assoc. do 2 f_equal. by destruct (_ && _).
Qed.

Lemma vec_ok_1 b len max : 0 <= len <= max -> max < 2 ^ 64 -> vec_ok (Some [Kiovec b len]) max = true.
Proof.
  intros H Hm. unfold vec_ok, vec_len. cbn [fmap list_fmap kiov_len]. rewrite zsum_cons, zsum_nil, u64_small by lia.
  apply andb_true_iff. split; [done|apply Z.leb_le; lia].
Qed.
Lemma vec_ok_2 b1 l1 b2 l2 max :
  0 <= l1 -> 0 <= l2 -> l1 + l2 <= max -> max < 2 ^ 64 -> vec_ok (Some [Kiovec b1 l1; Kiovec b2 l2]) max = true.
Proof.
  intros H1 H2 H Hm. unfold vec_ok, vec_len. cbn [fmap list_fmap kiov_len]. rewrite !zsum_cons, zsum_nil, u64_small by lia.
  apply andb_true_iff. split; [done|apply Z.leb_le; lia].
Qed.

Lemma put_fields v lim :
  lim_ok lim -> kv_ver v = None -> kv_fields (set_put v) false lim = 0.
Proof.
  intros (_ & _ & H1 & H2) Hv. rewrite kv_fields_run. unfold set_put. cbn [kv_ver kv_newver kv_newverlen kv_disum
    kv_disumlen kv_ditype kv_cpolicy kv_verlen]. rewrite Hv. cbn [field_ok present].
  replace (1 <=? 8) with true by done. replace (8 <=? kl_verlen lim) with true by lia.
  replace (1 <=? 4) with true by done. by replace (4 <=? kl_disumlen lim) with true by lia.
Qed.

Lemma vec_val_1 b : vec_val (Some [Kiovec (Some b) (zlen b)]) b.
Proof.
  exists [Kiovec (Some b) (zlen b)], [b]. split; [done|]. split; [|cbn; by rewrite app_nil_r].
  exact (dup_of_bytes [b]).
Qed.

Section single.
Context {SZ : Sizes} {KE : KtbEnv} {R : Type} {KS : KvService R}
        (view : R -> gmap buffer buffer) (lim : klimits) {KL : KvLaws KS view lim} (Hlim : lim_ok lim).
Context (ktd : Z) (key : buffer) (Hkey : 1 <= zlen key <= kl_keylen lim).
Implicit Types (s : bst (R := R)).

(** The map behind a state *)
Definition store (s : bst (R := R)) : gmap buffer buffer := view s.2.

Lemma guard_key : bool_decide (Some key = None) || (zlen key =? 0) = false.
Proof. rewrite bool_decide_false by done. cbn [orb]. apply Z.eqb_neq. lia. Qed.

Lemma limits_run s : limits ktd s = Ok (lim, s).
Proof. unfold limits, gets_st. by rewrite kv_limits. Qed.

Lemma guards_run {A} s (a b : A) (m : ST (bst (R := R)) A) :
  (kil ← limits ktd; if kl_keylen kil =? 0 then mret a else
     if zlen key >? kl_keylen kil then mret b else m) s = m s.
Proof.
  erewrite bind_Ok by apply limits_run. destruct Hlim as (? & _).
  replace (kl_keylen lim =? 0) with false by lia. by replace (zlen key >? kl_keylen lim) with false by lia.
Qed.

Lemma bkv_put_run s val :
  mem_ok (h_mem s.1) -> 0 <= zlen val <= kl_vallen lim ->
  exists p s', bkv_put ktd (Some key) (zlen key) (Some val) (zlen val) s = Ok (0, s') /\
    store s' = <[key := val]> (store s) /\ live s' = live s + 1 /\
    (exists v, owns s' p v (h_blocks s.1)).
Proof.
  intros Hm Hval. unfold bkv_put. rewrite guard_key, guards_run.
  destruct (create_run s ktd Hm) as (p & s1 & H1 & Ho1 & Hl1 & Hx1). erewrite bind_Ok by exact H1. cbv iota.
  destruct (upd_kv_owns s1 p _ _ (set_vecs [Kiovec (Some key) (zlen key)] [Kiovec (Some val) (zlen val)]) Ho1)
    as (s2 & H2 & Ho2 & Hm2 & Hx2).
  erewrite bind_Ok by exact H2.
  destruct (upd_kv_owns s2 p _ _ set_put Ho2) as (s3 & H3 & Ho3 & Hm3 & Hx3). erewrite bind_Ok by exact H3.
  set (v := set_put (set_vecs [Kiovec (Some key) (zlen key)] [Kiovec (Some val) (zlen val)] kv0)) in *.
  destruct (kv_put ktd v (h_mem s3.1) s3.2 key val) as (m' & x' & Hp & Hm' & Hlive & Hview).
  { apply Ho3. }
  { rewrite kv_valid_fields. replace (kv_fields v false lim) with 0 by (symmetry; by apply put_fields).
    destruct Hlim as (? & ? & _). cbn [kv_key kv_val v set_put set_vecs negb orb]. rewrite !vec_ok_1 by lia. done. }
  { done. } { done. } { apply vec_val_1. } { apply vec_val_1. } { lia. }
  destruct (service_owns s3 p v _ (ki_put ktd) _ _ _ _ Ho3 Hp Hm') as (s4 & H4 & Ho4 & Hm4 & Hx4).
  erewrite bind_Ok by exact H4. exists p, s4. split; [done|]. unfold store, live in *.
  rewrite Hx4, Hview, Hx3, Hx2, Hx1. split; [done|]. rewrite Hm4, Hlive, Hm3, Hm2. split; [done|]. by exists v.
Qed.

Lemma bkv_get_run s :
  mem_ok (h_mem s.1) ->
  exists s', bkv_get ktd (Some key) (zlen key) true true s =
      Ok ((match store s !! key with
           | Some val => (0, Some (Kiovec (Some val) (zlen val))) | None => (-1, None) end), s') /\
    store s' = store s /\ mem_ok (h_mem s'.1).
Proof.
  intros Hm. unfold bkv_get. rewrite guard_key. cbn [orb negb]. rewrite guards_run.
  destruct (create_run s ktd Hm) as (p & s1 & H1 & Ho1 & Hl1 & Hx1). erewrite bind_Ok by exact H1. cbv iota.
  destruct (upd_kv_owns s1 p _ _ (set_vecs [Kiovec (Some key) (zlen key)] [kiov0]) Ho1)
    as (s2 & H2 & Ho2 & Hm2 & Hx2).
  erewrite bind_Ok by exact H2. set (v := set_vecs _ [kiov0] kv0) in *.
  pose proof (kv_get ktd v (h_mem s2.1) s2.2 key) as Hg.
  specialize (Hg ltac:(apply Ho2)). unfold store. rewrite <- Hx1, <- Hx2.
  assert (Hv : kv_valid v false false lim = true).
  { destruct Hlim as (? & _). rewrite kv_valid_fields. cbn [kv_key v set_vecs negb orb]. by rewrite vec_ok_1 by lia. }
  specialize (Hg Hv eq_refl ltac:(by eexists) (vec_val_1 key)).
  destruct (view s2.2 !! key) as [val|].
  - destruct Hg as (m' & x' & v' & Hp & Hm' & _ & Hview & _ & _ & _ & Hval & _).
    destruct (service_owns s2 p v _ (ki_get ktd) _ _ _ _ Ho2 Hp Hm') as (s3 & H3 & Ho3 & Hm3 & Hx3).
    erewrite bind_Ok by exact H3. change (K_OK =? K_OK) with true. cbv iota.
    erewrite bind_Ok by (eapply get_kv_owns; exact Ho3).
    erewrite bind_Ok by (unfold val0; rewrite Hval; reflexivity).
    exists s3. split_and!; [done|by rewrite Hx3|apply Ho3].
  - destruct Hg as (m' & x' & v' & Hp & Hm' & Hview).
    destruct (service_owns s2 p v _ (ki_get ktd) _ _ _ _ Ho2 Hp Hm') as (s3 & H3 & Ho3 & Hm3 & Hx3).
    erewrite bind_Ok by exact H3. exists s3. split_and!; [done|by rewrite Hx3|apply Ho3].
Qed.

Lemma bkv_del_run s :
  mem_ok (h_mem s.1) ->
  exists s', bkv_del ktd (Some key) (zlen key) s =
      Ok ((if store s !! key then 0 else -1), s') /\ store s' = delete key (store s) /\ mem_ok (h_mem s'.1).
Proof.
  intros Hm. unfold bkv_del. rewrite guard_key, guards_run.
  destruct (create_run s ktd Hm) as (p & s1 & H1 & Ho1 & Hl1 & Hx1). erewrite bind_Ok by exact H1. cbv iota.
  destruct (upd_kv_owns s1 p _ _ (set_vecs [Kiovec (Some key) (zlen key)] [kiov0]) Ho1)
    as (s2 & H2 & Ho2 & Hm2 & Hx2).
  erewrite bind_Ok by exact H2.
  destruct (upd_kv_owns s2 p _ _ (set_cpolicy KC_WT) Ho2) as (s3 & H3 & Ho3 & Hm3 & Hx3).
  erewrite bind_Ok by exact H3. set (v := set_cpolicy KC_WT _) in *.
  destruct (kv_del ktd v (h_mem s3.1) s3.2 key) as (m' & x' & rc & Hp & Hm' & _ & Hview & ->).
  { apply Ho3. }
  { destruct Hlim as (? & _). rewrite kv_valid_fields. cbn [kv_key v set_vecs set_cpolicy negb orb].
    by rewrite vec_ok_1 by lia. }
  { done. } { apply vec_val_1. }
  destruct (service_owns s3 p v _ (ki_del ktd) _ _ _ _ Ho3 Hp Hm') as (s4 & H4 & Ho4 & Hm4 & Hx4).
  erewrite bind_Ok by exact H4. exists s4. unfold store. rewrite Hx4, Hview, Hx3, Hx2, Hx1.
  split_and!; [by destruct (view s.2 !! key)|done|apply Ho4].
Qed.

Lemma bkv_exists_run s :
  mem_ok (h_mem s.1) ->
  exists s', bkv_exists ktd (Some key) (zlen key) s =
      Ok ((if store s !! key then 1 else 0), s') /\ store s' = store s /\ mem_ok (h_mem s'.1).
Proof.
  intros Hm. unfold bkv_exists. rewrite guard_key, guards_run.
  destruct (create_run s ktd Hm) as (p & s1 & H1 & Ho1 & Hl1 & Hx1). erewrite bind_Ok by exact H1. cbv iota.
  destruct (upd_kv_owns s1 p _ _ (set_vecs [Kiovec (Some key) (zlen key)] [kiov0]) Ho1)
    as (s2 & H2 & Ho2 & Hm2 & Hx2).
  erewrite bind_Ok by exact H2. set (v := set_vecs _ [kiov0] kv0) in *.
  destruct (kv_getversion ktd v (h_mem s2.1) s2.2 key) as (m' & x' & v' & rc & Hp & Hm' & Hview & ->).
  { apply Ho2. }
  { destruct Hlim as (? & _). rewrite kv_valid_fields. cbn [kv_key v set_vecs negb orb].
    by rewrite vec_ok_1 by lia. }
  { done. } { apply vec_val_1. }
  destruct (service_owns s2 p v _ (ki_getversion ktd) _ _ _ _ Ho2 Hp Hm') as (s4 & H4 & Ho4 & Hm4 & Hx4).
  erewrite bind_Ok by exact H4. exists s4. unfold store. rewrite Hx4, Hview, Hx2, Hx1.
  split_and!; [by destruct (view s.2 !! key)|done|apply Ho4].
Qed.
End single.

(** Over a healthy session the four single-key calls are the operations of a
    finite map: put inserts, get looks up (-1 for a missing key), exists tests,
    del removes and tells whether there was anything to remove.  Each leaves the
    [kv_t] it created behind: after a put the heap holds one buffer and one block
    more than before. *)
Theorem bkv_single_ops {SZ : Sizes} {KE : KtbEnv} {R} {KS : KvService R} view lim {KL : KvLaws KS view lim}
    ktd key val (s : bst (R := R)) :
  lim_ok lim -> 1 <= zlen key <= kl_keylen lim -> 0 <= zlen val <= kl_vallen lim -> mem_ok (h_mem s.1) ->
  (exists p v s', bkv_put ktd (Some key) (zlen key) (Some val) (zlen val) s = Ok (0, s') /\
     view s'.2 = <[key := val]> (view s.2) /\ owns s' p v (h_blocks s.1) /\ live s' = live s + 1) /\
  (exists s', bkv_get ktd (Some key) (zlen key) true true s =
     Ok ((match view s.2 !! key with
          | Some val => (0, Some (Kiovec (Some val) (zlen val))) | None => (-1, None) end), s') /\
     view s'.2 = view s.2) /\
  (exists s', bkv_exists ktd (Some key) (zlen key) s = Ok ((if view s.2 !! key then 1 else 0), s') /\
     view s'.2 = view s.2) /\
  (exists s', bkv_del ktd (Some key) (zlen key) s = Ok ((if view s.2 !! key then 0 else -1), s') /\
     view s'.2 = delete key (view s.2)).
Proof.
  intros Hlim Hkey Hval Hm. split_and!.
  - destruct (bkv_put_run view lim Hlim ktd key Hkey s val Hm Hval) as (p & s' & H & Hst & Hl & v & Ho).
    exists p, v, s'. by split_and!.
  - destruct (bkv_get_run view lim Hlim ktd key Hkey s Hm) as (s' & H & Hst & _). by exists s'.
  - destruct (bkv_exists_run view lim Hlim ktd key Hkey s Hm) as (s' & H & Hst & _). by exists s'.
  - destruct (bkv_del_run view lim Hlim ktd key Hkey s Hm) as (s' & H & Hst & _). by exists s'.
Qed.

(** ** Values that span keys *)
Definition nkey (key : buffer) (i : Z) : buffer := key ++ nkey_suffix i.
Definition chunk (val : buffer) (vallen i : Z) : buffer :=
  take (Z.to_nat vallen) (drop (Z.to_nat (i * vallen)) val).
Definition nchunks (vlen vallen : Z) : Z := vlen / vallen + (if vlen mod vallen =? 0 then 0 else 1).

Fixpoint upto (i : Z) (n : nat) : list Z := match n with O => [] | S n => i :: upto (i + 1) n end.

(** The map after the puts and dels of the indices [i, i + n) *)
Fixpoint put_chunks (key : buffer) (c : Z -> buffer) (i : Z) (n : nat) (m : gmap buffer buffer) : gmap buffer buffer :=
  match n with O => m | S n => put_chunks key c (i + 1) n (<[nkey key i := c i]> m) end.
Fixpoint del_chunks (key : buffer) (i : Z) (n : nat) (m : gmap buffer buffer) : gmap buffer buffer :=
  match n with O => m | S n => del_chunks key (i + 1) n (delete (nkey key i) m) end.

Lemma nkey_suffix_inj i j : 0 <= i < 1000 -> 0 <= j < 1000 -> nkey_suffix i = nkey_suffix j -> i = j.
Proof.
  unfold nkey_suffix. intros Hi Hj [= H1 H2 H3].
  pose proof (Z.div_mod i 10 ltac:(lia)). pose proof (Z.div_mod j 10 ltac:(lia)).
  pose proof (Z.div_mod (i / 10) 10 ltac:(lia)). pose proof (Z.div_mod (j / 10) 10 ltac:(lia)).
  rewrite !Z.div_div in * by lia. change (10 * 10) with 100 in *.
  assert (0 <= i / 100 < 10) by (split; [apply Z.div_pos; lia|apply Z.div_lt_upper_bound; lia]).
  assert (0 <= j / 100 < 10) by (split; [apply Z.div_pos; lia|apply Z.div_lt_upper_bound; lia]).
  rewrite (Z.mod_small (i / 100)) in H1 by lia. rewrite (Z.mod_small (j / 100)) in H1 by lia. lia.
Qed.

Lemma nkey_inj key i j : 0 <= i < 1000 -> 0 <= j < 1000 -> nkey key i = nkey key j -> i = j.
Proof. intros Hi Hj H. apply app_inv_head in H. by apply nkey_suffix_inj. Qed.

Lemma put_chunks_other key c n k : forall i m,
  (forall j, i <= j < i + Z.of_nat n -> k <> nkey key j) -> put_chunks key c i n m !! k = m !! k.
Proof.
  induction n as [|n IH]; intros i m Hk; [done|]. cbn [put_chunks].
  rewrite IH by (intros; apply Hk; lia). apply lookup_insert_ne. intros E. symmetry in E. revert E. apply Hk. lia.
Qed.

Lemma put_chunks_lookup key c n j : forall i m,
  0 <= i -> i + Z.of_nat n <= 1000 -> i <= j < i + Z.of_nat n ->
  put_chunks key c i n m !! nkey key j = Some (c j).
Proof.
  induction n as [|n IH]; intros i m Hi Hn Hj; [lia|]. cbn [put_chunks].
  destruct (Z.eq_dec i j) as [->|Hne].
  - rewrite put_chunks_other; [apply lookup_insert_eq|].
    intros j' Hj' E. apply nkey_inj in E; lia.
  - apply IH; lia.
Qed.

Lemma del_chunks_other key n k : forall i m,
  (forall j, i <= j < i + Z.of_nat n -> k <> nkey key j) -> del_chunks key i n m !! k = m !! k.
Proof.
  induction n as [|n IH]; intros i m Hk; [done|]. cbn [del_chunks].
  rewrite IH by (intros; apply Hk; lia). apply lookup_delete_ne. intros E. symmetry in E. revert E. apply Hk. lia.
Qed.

Lemma del_chunks_lookup key n j : forall i m,
  0 <= i -> i + Z.of_nat n <= 1000 -> i <= j < i + Z.of_nat n -> del_chunks key i n m !! nkey key j = None.
Proof.
  induction n as [|n IH]; intros i m Hi Hn Hj; [lia|]. cbn [del_chunks].
  destruct (Z.eq_dec i j) as [->|Hne].
  - rewrite del_chunks_other; [apply lookup_delete_eq|].
    intros j' Hj' E. apply nkey_inj in E; lia.
  - apply IH; lia.
Qed.

(** *** Cutting a value up *)
Section chunks.
Context (val : buffer) (vallen : Z) (Hv : 0 < vallen) (Hval : 0 < zlen val).
Notation cnt := (nchunks (zlen val) vallen).

Lemma cnt_bounds : 0 < cnt /\ (cnt - 1) * vallen < zlen val <= cnt * vallen /\
  zlen val - (cnt - 1) * vallen = (if zlen val mod vallen =? 0 then vallen else zlen val mod vallen).
Proof.
  unfold nchunks. pose proof (Z.div_mod (zlen val) vallen ltac:(lia)).
  pose proof (Z.mod_pos_bound (zlen val) vallen Hv).
  assert (0 <= zlen val / vallen) by (apply Z.div_pos; lia).
  destruct (Z.eqb_spec (zlen val mod vallen) 0); nia.
Qed.

(** The length [bkv_putn] gives piece [i] *)
Definition piece_len (i : Z) : Z :=
  if (i =? u32 (cnt - 1)) && negb (zlen val mod vallen =? 0) then zlen val mod vallen else vallen.

Lemma piece_run i :
  cnt <= BKV_N_MAXKEYS -> 0 <= i < cnt ->
  0 <= piece_len i <= vallen /\ i * vallen + piece_len i <= zlen val /\
  (i < cnt - 1 -> piece_len i = vallen) /\
  take (Z.to_nat (piece_len i)) (drop (Z.to_nat (i * vallen)) val) = chunk val vallen i.
Proof.
  intros Hmax Hi. destruct cnt_bounds as (H0 & H1 & H2). unfold piece_len, BKV_N_MAXKEYS in *.
  rewrite u32_small by lia. pose proof (Z.mod_pos_bound (zlen val) vallen Hv).
  destruct (Z.eqb_spec i (cnt - 1)) as [->|Hne]; cbn [andb].
  - destruct (Z.eqb_spec (zlen val mod vallen) 0); cbn [negb]; [repeat split; try lia; done|].
    split; [lia|]. split; [lia|]. split; [lia|]. unfold chunk, zlen in *.
    rewrite !take_ge by (rewrite length_drop; lia). done.
  - split; [lia|]. split; [nia|]. split; [lia|done].
Qed.

Lemma concat_chunks n i :
  0 <= i -> i + Z.of_nat n = cnt -> concat (chunk val vallen <$> upto i n) = drop (Z.to_nat (i * vallen)) val.
Proof.
  revert i. induction n as [|n IH]; intros i Hi Hn.
  - destruct cnt_bounds as (H0 & H1 & _). cbn. rewrite drop_ge; [done|].
    replace i with cnt by lia. unfold zlen at 1 in H1. apply Nat2Z.inj_le. rewrite Z2Nat.id by lia.
    unfold zlen in *. lia.
  - cbn [upto fmap list_fmap concat]. change (list_fmap Z buffer (chunk val vallen) (upto (i + 1) n))
      with (chunk val vallen <$> upto (i + 1) n).
    rewrite IH by lia. unfold chunk at 1.
    replace (Z.to_nat ((i + 1) * vallen)) with (Z.to_nat (i * vallen) + Z.to_nat vallen)%nat by lia.
    rewrite <- drop_drop. apply take_drop.
Qed.
End chunks.

Section multi.
Context {SZ : Sizes} {KE : KtbEnv} {R : Type} {KS : KvService R}
        (view : R -> gmap buffer buffer) (lim : klimits) {KL : KvLaws KS view lim} (Hlim : lim_ok lim).
Context (ktd : Z) (key : buffer) (Hkey : 1 <= zlen key /\ zlen key + 4 <= kl_keylen lim).
Implicit Types (s : bst (R := R)).

(** The structure between two iterations: the base key, some suffix, one value
    vector, fields that pass validation *)
Definition shape (v : kv) : Prop :=
  (exists z, kv_key v = Some [Kiovec (Some key) (zlen key); z]) /\ kv_keycnt v = 2 /\
  (exists y, kv_val v = Some [y]) /\ kv_valcnt v = 1 /\ kv_fields v false lim = 0.

Lemma shape_nkey v i : shape v -> shape (set_nkey i v).
Proof.
  intros ((z & Hz) & Hc & Hy & Hvc & Hf). unfold shape. cbn [kv_key kv_keycnt kv_val kv_valcnt set_nkey].
  rewrite Hz. split_and!; try done. by eexists.
Qed.
Lemma shape_val0 v x : shape v -> shape (set_val0 x v).
Proof.
  intros (Hz & Hc & (y & Hy) & Hvc & Hf). unfold shape. cbn [kv_key kv_keycnt kv_val kv_valcnt set_val0].
  rewrite Hy. split_and!; try done. by eexists.
Qed.

Lemma nkey_vec v i : shape v -> vec_val (kv_key (set_nkey i v)) (nkey key i).
Proof.
  intros ((z & Hz) & _). cbn [kv_key set_nkey]. rewrite Hz.
  exists [Kiovec (Some key) (zlen key); Kiovec (Some (nkey_suffix i)) 4], [key; nkey_suffix i].
  split; [done|]. split; [exact (dup_of_bytes [key; nkey_suffix i])|].
  unfold nkey. cbn [concat]. by rewrite app_nil_r.
Qed.

Lemma nkey_valid v i : shape v -> kv_valid (set_nkey i v) false false lim = true.
Proof.
  intros Hs. pose proof (shape_nkey v i Hs) as (_ & _ & _ & _ & Hf). destruct Hs as ((z & Hz) & _).
  rewrite kv_valid_fields, Hf. cbn [kv_key set_nkey]. rewrite Hz. destruct Hlim as (? & _).
  cbn [fmap option_fmap option_map list_insert insert negb orb]. unfold BKV_N_MAXKEYS_DIGITS.
  pose proof (zlen_nonneg key). by rewrite vec_ok_2 by lia.
Qed.

Lemma shape_counts v i : shape v ->
  count_ok (kv_key (set_nkey i v)) (kv_keycnt (set_nkey i v)) /\
  count_ok (kv_val (set_nkey i v)) (kv_valcnt (set_nkey i v)).
Proof.
  intros ((z & Hz) & Hc & (y & Hy) & Hvc & _). cbn [kv_key kv_keycnt kv_val kv_valcnt set_nkey].
  by rewrite Hz, Hy, Hc, Hvc.
Qed.

(** *** The loops *)
Section putn.
Context (val : buffer) (Hval : 0 < zlen val) (Hmax : nchunks (zlen val) (kl_vallen lim) <= BKV_N_MAXKEYS).
Notation cnt := (nchunks (zlen val) (kl_vallen lim)).
Notation vallen := (kl_vallen lim).

Lemma putn_loop_run n : forall i s p v b,
  owns s p v b -> shape v -> 0 <= i -> i + Z.of_nat n = cnt ->
  exists v' s', putn_loop ktd p val (zlen val) vallen cnt n i (i * vallen) s = Ok (true, s') /\
    owns s' p v' b /\ live s' = live s /\
    view s'.2 = put_chunks key (chunk val vallen) i n (view s.2).
Proof.
  induction n as [|n IH]; intros i s p v b Ho Hs Hi Hn; [by exists v, s|].
  destruct (piece_run val vallen ltac:(apply Hlim) Hval i Hmax ltac:(lia)) as (Hp1 & Hp2 & Hp3 & Hp4).
  cbn [putn_loop]. fold (piece_len val vallen i).
  set (x := Kiovec (Some (drop (Z.to_nat (i * vallen)) val)) (piece_len val vallen i)).
  destruct (upd_kv_owns s p v b (set_val0 x) Ho) as (s1 & H1 & Ho1 & Hm1 & Hx1). erewrite bind_Ok by exact H1.
  destruct (upd_kv_owns s1 p _ b (set_nkey i) Ho1) as (s2 & H2 & Ho2 & Hm2 & Hx2). erewrite bind_Ok by exact H2.
  pose proof (shape_val0 v x Hs) as Hs1. set (v1 := set_val0 x v) in *.
  assert (Hkv : kv_val (set_nkey i v1) = Some [x]).
  { destruct Hs as (_ & _ & (y & Hy) & _). cbn [kv_val set_nkey set_val0 v1]. by rewrite Hy. }
  destruct Hlim as (Hl1 & Hl2 & _).
  destruct (kv_put ktd (set_nkey i v1) (h_mem s2.1) s2.2 (nkey key i) (chunk val vallen i))
    as (m' & x' & Hput & Hm' & Hlive & Hview).
  { apply Ho2. }
  { pose proof (nkey_valid v1 i Hs1) as Hv. rewrite kv_valid_fields in *. cbn [negb orb] in *.
    rewrite Hkv. unfold x. rewrite vec_ok_1 by lia. exact Hv. }
  { by apply shape_counts. } { by apply shape_counts. } { by apply nkey_vec. }
  { rewrite Hkv. exists [x], [chunk val vallen i]. split; [done|]. split; [|cbn; by rewrite app_nil_r].
    constructor; [|constructor]. split; [|apply Hp1]. unfold x, iov_bytes. cbn [kiov_base kiov_len].
    replace (piece_len val vallen i <=? _) with true; [by rewrite Hp4|].
    symmetry. apply Z.leb_le. unfold zlen in *. rewrite length_drop. lia. }
  { unfold zlen, chunk. rewrite length_take. lia. }
  destruct (service_owns s2 p _ b (ki_put ktd) _ _ _ _ Ho2 Hput Hm') as (s3 & H3 & Ho3 & Hm3 & Hx3).
  erewrite bind_Ok by exact H3. change (K_OK =? K_OK) with true. cbn [negb].
  destruct (clean_owns s3 p _ b Ho3) as (s4 & H4 & Ho4 & Hl4 & Hx4). erewrite bind_Ok by exact H4.
  assert (Hoff : n = 0%nat \/ i * vallen + piece_len val vallen i = (i + 1) * vallen).
  { destruct n; [by left|right]. rewrite Hp3 by lia. lia. }
  assert (Hlive4 : live s4 = live s) by (unfold live in *; rewrite Hl4, Hm3, Hlive, Hm2, Hm1; done).
  assert (Hview4 : view s4.2 = <[nkey key i := chunk val vallen i]> (view s.2))
    by (rewrite Hx4, Hx3, Hview, Hx2, Hx1; done).
  destruct Hoff as [->|Hoff].
  - exists (set_nkey i v1), s4. split; [done|]. split; [done|]. by split.
  - rewrite Hoff. destruct (IH (i + 1) s4 p (set_nkey i v1) b Ho4 (shape_nkey _ _ Hs1) ltac:(lia) ltac:(lia))
      as (v' & s' & H & Ho' & Hl' & Hv').
    exists v', s'. split; [exact H|]. split; [exact Ho'|]. split; [lia|]. by rewrite Hv', Hview4.
Qed.
End putn.

Lemma deln_loop_run n : forall i s p v b,
  owns s p v b -> shape v -> 0 <= i -> i + Z.of_nat n <= BKV_N_MAXKEYS ->
  (forall j, i <= j < i + Z.of_nat n -> is_Some (view s.2 !! nkey key j)) ->
  exists v' s', deln_loop ktd p n i s = Ok (true, s') /\ owns s' p v' b /\ live s' = live s /\
    view s'.2 = del_chunks key i n (view s.2).
Proof.
  induction n as [|n IH]; intros i s p v b Ho Hs Hi Hn Hpres; [by exists v, s|]. cbn [deln_loop].
  destruct (upd_kv_owns s p _ b (set_nkey i) Ho) as (s2 & H2 & Ho2 & Hm2 & Hx2). erewrite bind_Ok by exact H2.
  destruct (kv_del ktd (set_nkey i v) (h_mem s2.1) s2.2 (nkey key i)) as (m' & x' & rc & Hdel & Hm' & Hlive & Hview & Hrc).
  { apply Ho2. } { by apply nkey_valid. } { by apply shape_counts. } { by apply nkey_vec. }
  destruct (Hpres i ltac:(lia)) as [w Hw]. rewrite Hx2, Hw in Hrc. subst rc.
  destruct (service_owns s2 p _ b (ki_del ktd) _ _ _ _ Ho2 Hdel Hm') as (s3 & H3 & Ho3 & Hm3 & Hx3).
  erewrite bind_Ok by exact H3. change (K_OK =? K_OK) with true. cbn [negb].
  destruct (clean_owns s3 p _ b Ho3) as (s4 & H4 & Ho4 & Hl4 & Hx4). erewrite bind_Ok by exact H4.
  assert (Hview4 : view s4.2 = delete (nkey key i) (view s.2)) by (rewrite Hx4, Hx3, Hview, Hx2; done).
  destruct (IH (i + 1) s4 p (set_nkey i v) b Ho4 (shape_nkey _ _ Hs) ltac:(lia) ltac:(lia))
    as (v' & s' & H & Ho' & Hl' & Hv').
  { intros j Hj. rewrite Hview4, lookup_delete_ne; [apply Hpres; lia|].
    intros E. apply nkey_inj in E; unfold BKV_N_MAXKEYS in *; lia. }
  exists v', s'. split; [exact H|]. split; [exact Ho'|]. split; [|by rewrite Hv', Hview4].
  unfold live in *. rewrite Hl', Hl4, Hm3, Hlive, Hm2. done.
Qed.

Lemma getn_loop_run (c : Z -> buffer) n : forall i s p v b done_ total,
  owns s p v b -> shape v -> zlen done_ = i -> i + Z.of_nat n <= BKV_N_MAXKEYS ->
  (forall j, i <= j < i + Z.of_nat n -> view s.2 !! nkey key j = Some (c j)) ->
  0 <= total <= i * 2 ^ 32 ->
  exists v' s', getn_loop ktd p n i (done_ ++ replicate n kiov0) total s =
      Ok ((true, done_ ++ ((fun b => Kiovec (Some b) (zlen b)) <$> (c <$> upto i n)),
           total + zlen (concat (c <$> upto i n))), s') /\
    owns s' p v' b /\ live s' = live s + Z.of_nat n /\ view s'.2 = view s.2.
Proof.
  induction n as [|n IH]; intros i s p v b done_ total Ho Hs Hi Hn Hpres Ht.
  { exists v, s. cbn [getn_loop upto fmap list_fmap concat replicate]. split; [|split; [done|]].
    - unfold mret, ST_ret. do 3 f_equal. unfold zlen. cbn [length]. lia.
    - split; [lia|done]. }
  cbn [getn_loop replicate].
  destruct (upd_kv_owns s p _ b (set_nkey i) Ho) as (s2 & H2 & Ho2 & Hm2 & Hx2). erewrite bind_Ok by exact H2.
  assert (Hi0 : 0 <= i) by (rewrite <- Hi; apply zlen_nonneg).
  pose proof (kv_get ktd (set_nkey i v) (h_mem s2.1) s2.2 (nkey key i)) as Hg.
  rewrite Hx2, (Hpres i ltac:(lia)) in Hg.
  destruct Hg as (m' & x' & v' & Hget & Hm' & Hlive & Hview & Hk & Hkc & Hvc & Hvv & Hf & Hcl).
  { apply Ho2. } { by apply nkey_valid. } { by apply shape_counts. }
  { by destruct (shape_nkey v i Hs) as (_ & _ & Hy & _). } { by apply nkey_vec. }
  rewrite <- Hx2 in Hget.
  assert (Hs' : shape v').
  { destruct (shape_nkey v i Hs) as (Hz & Hc & _ & Hvc' & _). unfold shape. rewrite Hk, Hkc, Hvc, Hvv.
    split_and!; try done. by eexists. }
  destruct (service_owns s2 p _ b (ki_get ktd) _ _ _ _ Ho2 Hget Hm') as (s3 & H3 & Ho3 & Hm3 & Hx3).
  erewrite bind_Ok by exact H3. change (K_OK =? K_OK) with true. cbn [negb].
  erewrite bind_Ok by (eapply get_kv_owns; exact Ho3).
  erewrite bind_Ok by (unfold val0; rewrite Hvv; reflexivity).
  erewrite bind_Ok by (apply on_heap_run; apply array_wr_middle; done).
  destruct s3 as [h3 x3]. cbn [fst snd] in *.
  destruct (clean_owns (h3, x3) p _ b Ho3) as (s4 & H4 & Ho4 & Hl4 & Hx4). cbn [fst snd] in *.
  erewrite bind_Ok by exact H4. destruct Hlim as (_ & Hl2 & _). pose proof (zlen_nonneg (c i)).
  cbn [kiov_len]. unfold BKV_N_MAXKEYS in *. rewrite u64_small by lia.
  set (y := Kiovec (Some (c i)) (zlen (c i))).
  replace (done_ ++ y :: replicate n kiov0) with ((done_ ++ [y]) ++ replicate n kiov0) by by rewrite <- app_assoc.
  destruct (IH (i + 1) s4 p v' b (done_ ++ [y]) (total + zlen (c i)) Ho4 Hs')
    as (v2 & s5 & H5 & Ho5 & Hl5 & Hx5).
  { rewrite zlen_app, Hi. done. } { lia. }
  { intros j Hj. rewrite Hx4, Hx3, Hview. apply Hpres. lia. } { lia. }
  exists v2, s5. split; [|split; [exact Ho5|split]].
  - rewrite H5. cbn [upto fmap list_fmap concat]. rewrite zlen_app, <- app_assoc. do 3 f_equal. lia.
  - unfold live in *. cbn [fst] in *. rewrite Hl5, Hl4, Hm3, Hlive, Hm2. lia.
  - rewrite Hx5, Hx4, Hx3, Hview. done.
Qed.

Lemma getn_copy_run bs : forall acc s p v b,
  owns s p v b ->
  exists s', getn_copy ((fun b => Kiovec (Some b) (zlen b)) <$> bs) acc s = Ok (acc ++ concat bs, s') /\
    owns s' p v b /\ live s' = live s - zlen bs /\ s'.2 = s.2.
Proof.
  induction bs as [|c bs IH]; intros acc s p v b Ho.
  - exists s. cbn. rewrite app_nil_r. split; [done|]. split; [done|]. split; [unfold zlen; cbn [length]; lia|done].
  - cbn [fmap list_fmap getn_copy kiov_base].
    erewrite bind_Ok by (apply on_heap_run; unfold iov_bytes_st; rewrite iov_bytes_full; reflexivity).
    destruct s as [h x]. cbn [fst snd].
    destruct (free_owns (h, x) p v b Ho) as (s1 & H1 & Ho1 & Hl1 & Hx1). erewrite bind_Ok by exact H1.
    destruct (IH (acc ++ c) s1 p v b Ho1) as (s2 & H2 & Ho2 & Hl2 & Hx2).
    exists s2. split; [rewrite H2; cbn [concat]; by rewrite app_assoc|]. split; [done|].
    split; [rewrite Hl2, Hl1; unfold zlen; cbn [length]; lia|by rewrite Hx2, Hx1].
Qed.

(** *** The calls *)
Lemma guards_nkey_run {A} s (a b : A) (m : klimits -> ST (bst (R := R)) A) :
  (kil ← limits ktd; if kl_keylen kil =? 0 then mret a else
     if zlen key + 1 + BKV_N_MAXKEYS_DIGITS >? kl_keylen kil then mret b else m kil) s = m lim s.
Proof.
  erewrite bind_Ok by (unfold limits, gets_st; by rewrite kv_limits). destruct Hlim as (? & _).
  unfold BKV_N_MAXKEYS_DIGITS. replace (kl_keylen lim =? 0) with false by lia.
  by replace (zlen key + 1 + 3 >? kl_keylen lim) with false by lia.
Qed.

Lemma start_shape : shape (set_vecs [Kiovec (Some key) (zlen key); kiov0] [kiov0] kv0).
Proof. unfold shape. split_and!; try done; by eexists. Qed.

Lemma bkv_putn_run s val :
  0 < zlen val -> nchunks (zlen val) (kl_vallen lim) <= BKV_N_MAXKEYS -> mem_ok (h_mem s.1) ->
  let n := nchunks (zlen val) (kl_vallen lim) in
  exists s', bkv_putn ktd (Some key) (zlen key) true (Some val) (zlen val) s = Ok ((n, Some n), s') /\
    view s'.2 = put_chunks key (chunk val (kl_vallen lim)) 0 (Z.to_nat n) (view s.2) /\
    live s' = live s /\ h_blocks s'.1 = h_blocks s.1 /\ mem_ok (h_mem s'.1).
Proof.
  intros Hval Hmax Hm n. unfold bkv_putn.
  rewrite (guard_key lim key ltac:(lia)). rewrite bool_decide_false by done.
  cbn [orb negb]. replace (zlen val =? 0) with false by lia. cbn [orb].
  rewrite guards_nkey_run. destruct (cnt_bounds val (kl_vallen lim) ltac:(apply Hlim) Hval) as (H0 & _).
  replace (kl_vallen lim =? 0) with false by (destruct Hlim as (_ & ? & _); lia). cbv zeta.
  fold (nchunks (zlen val) (kl_vallen lim)). fold n. unfold BKV_N_MAXKEYS in *.
  rewrite (u32_small n) by lia. replace (n >? 256) with false by lia.
  erewrite bind_Ok by reflexivity.
  destruct (create_run s ktd Hm) as (p & s1 & H1 & Ho1 & Hl1 & Hx1). erewrite bind_Ok by exact H1. cbv iota.
  destruct (upd_kv_owns s1 p _ _ (set_vecs [Kiovec (Some key) (zlen key); kiov0] [kiov0]) Ho1)
    as (s2 & H2 & Ho2 & Hm2 & Hx2). erewrite bind_Ok by exact H2.
  destruct (upd_kv_owns s2 p _ _ set_put Ho2) as (s3 & H3 & Ho3 & Hm3 & Hx3). erewrite bind_Ok by exact H3.
  assert (Hs : shape (set_put (set_vecs [Kiovec (Some key) (zlen key); kiov0] [kiov0] kv0))).
  { destruct start_shape as (Hz & Hc & Hy & Hvc & _). unfold shape. split_and!; [exact Hz|exact Hc|exact Hy|exact Hvc|].
    by apply put_fields. }
  destruct (putn_loop_run val Hval Hmax (Z.to_nat n) 0 s3 p _ _ Ho3 Hs ltac:(lia) ltac:(lia))
    as (v' & s4 & H4 & Ho4 & Hl4 & Hv4).
  erewrite bind_Ok by exact H4.
  destruct (destroy_owns s4 p _ _ Ho4) as (s5 & H5 & Hb5 & Hl5 & Hx5 & Hm5). erewrite bind_Ok by exact H5.
  exists s5. rewrite (i32_small n) by lia. split; [done|]. rewrite Hx5, Hv4, Hx3, Hx2, Hx1.
  split; [done|]. split; [|done]. unfold live in *. rewrite Hl5, Hl4, Hm3, Hm2. lia.
Qed.

Lemma bkv_deln_run s n :
  0 < n <= BKV_N_MAXKEYS -> mem_ok (h_mem s.1) ->
  (forall j, 0 <= j < n -> is_Some (view s.2 !! nkey key j)) ->
  exists s', bkv_deln ktd (Some key) (zlen key) n s = Ok (n, s') /\
    view s'.2 = del_chunks key 0 (Z.to_nat n) (view s.2) /\
    live s' = live s /\ h_blocks s'.1 = h_blocks s.1 /\ mem_ok (h_mem s'.1).
Proof.
  intros Hn Hm Hpres. unfold bkv_deln, BKV_N_MAXKEYS in *.
  rewrite (guard_key lim key ltac:(lia)). replace (n =? 0) with false by lia. cbn [orb].
  replace (n >? 256) with false by lia. rewrite (guards_nkey_run s (-1) (-1) (fun _ => _)). cbv beta.
  destruct (create_run s ktd Hm) as (p & s1 & H1 & Ho1 & Hl1 & Hx1). erewrite bind_Ok by exact H1. cbv iota.
  destruct (upd_kv_owns s1 p _ _ (set_vecs [Kiovec (Some key) (zlen key); kiov0] [kiov0]) Ho1)
    as (s2 & H2 & Ho2 & Hm2 & Hx2). erewrite bind_Ok by exact H2.
  destruct (upd_kv_owns s2 p _ _ (set_cpolicy KC_WT) Ho2) as (s3 & H3 & Ho3 & Hm3 & Hx3). erewrite bind_Ok by exact H3.
  assert (Hx : view s3.2 = view s.2) by by rewrite Hx3, Hx2, Hx1.
  destruct (deln_loop_run (Z.to_nat n) 0 s3 p _ _ Ho3 start_shape ltac:(lia) ltac:(unfold BKV_N_MAXKEYS; lia))
    as (v' & s4 & H4 & Ho4 & Hl4 & Hv4).
  { intros j Hj. rewrite Hx. apply Hpres. lia. }
  erewrite bind_Ok by exact H4.
  destruct (destroy_owns s4 p _ _ Ho4) as (s5 & H5 & Hb5 & Hl5 & Hx5 & Hm5). erewrite bind_Ok by exact H5.
  exists s5. rewrite (i32_small n) by lia. split; [done|]. rewrite Hx5, Hv4, Hx.
  split; [done|]. split; [|done]. unfold live in *. rewrite Hl5, Hl4, Hm3, Hm2. lia.
Qed.

Lemma zlen_upto i n : zlen (upto i n) = Z.of_nat n.
Proof. revert i. induction n as [|n IH]; intros i; [done|]. cbn [upto]. rewrite zlen_cons, IH. lia. Qed.

Lemma bkv_getn_run s n (c : Z -> buffer) :
  0 < n <= BKV_N_MAXKEYS -> mem_ok (h_mem s.1) ->
  (forall j, 0 <= j < n -> view s.2 !! nkey key j = Some (c j)) ->
  let val := concat (c <$> upto 0 (Z.to_nat n)) in
  exists s', bkv_getn ktd (Some key) (zlen key) n true true s =
      Ok ((n, Some (Some val, zlen val)), s') /\
    view s'.2 = view s.2 /\ live s' = live s + 1 /\ h_blocks s'.1 = h_blocks s.1 /\ mem_ok (h_mem s'.1).
Proof.
  intros Hn Hm Hpres val. unfold bkv_getn.
  rewrite (guard_key lim key ltac:(lia)). replace (n =? 0) with false by lia. cbn [orb negb].
  replace (n >? BKV_N_MAXKEYS) with false by lia. rewrite (guards_nkey_run s _ _ (fun _ => _)). cbv beta.
  destruct (create_run s ktd Hm) as (p & s1 & H1 & Ho1 & Hl1 & Hx1). erewrite bind_Ok by exact H1. cbv iota.
  destruct (malloc_owns s1 p _ _ (8 * n) Ho1) as (b1 & s2 & H2 & Ho2 & Hl2 & Hx2). erewrite bind_Ok by exact H2.
  destruct (malloc_owns s2 p _ _ (8 * n) Ho2) as (b2 & s3 & H3 & Ho3 & Hl3 & Hx3). erewrite bind_Ok by exact H3.
  cbv zeta iota.
  destruct (upd_kv_owns s3 p _ _ (set_vecs [Kiovec (Some key) (zlen key); kiov0] [kiov0]) Ho3)
    as (s4 & H4 & Ho4 & Hm4 & Hx4). erewrite bind_Ok by exact H4.
  assert (Hx : view s4.2 = view s.2) by by rewrite Hx4, Hx3, Hx2, Hx1.
  destruct (getn_loop_run c (Z.to_nat n) 0 s4 p _ _ [] 0 Ho4 start_shape eq_refl ltac:(lia))
    as (v' & s5 & H5 & Ho5 & Hl5 & Hx5).
  { intros j Hj. rewrite Hx. apply Hpres. lia. } { lia. }
  erewrite bind_Ok by exact H5. cbv iota. cbn [app negb].
  destruct (malloc_owns s5 p _ _ (0 + zlen val) Ho5) as (b6 & s6 & H6 & Ho6 & Hl6 & Hx6). erewrite bind_Ok by exact H6.
  cbv iota.
  destruct (getn_copy_run (c <$> upto 0 (Z.to_nat n)) [] s6 p _ _ Ho6) as (s7 & H7 & Ho7 & Hl7 & Hx7).
  erewrite bind_Ok by exact H7.
  destruct (destroy_owns s7 p _ _ Ho7) as (s8 & H8 & Hb8 & Hl8 & Hx8 & Hm8). erewrite bind_Ok by exact H8.
  do 2 (erewrite bind_Ok by (apply on_heap_run; reflexivity)).
  rewrite (i32_small n) by (unfold BKV_N_MAXKEYS in *; lia). rewrite Z.add_0_l.
  eexists. split; [reflexivity|]. cbn [fst snd h_blocks].
  split; [by rewrite Hx8, Hx7, Hx6, Hx5, Hx|]. split; [|by split].
  rewrite zlen_fmap, zlen_upto in Hl7. unfold live in *. cbn. rewrite Hm4 in Hl5. lia.
Qed.
End multi.


(** ** A session over a map in memory

    It answers as [KvLaws] promises, so the theorems above are not vacuous. *)
Section map_session.
Context (lim : klimits).

Definition vec_read (v : option (list kiovec)) : option buffer :=
  (fun bs => concat bs) <$>
    (v ≫= mapM (fun x => match iov_bytes x with Ok b => Some b | _ => None end)).

Lemma vec_read_val v b : vec_val v b -> vec_read v = Some b.
Proof.
  intros (key & bs & -> & Hv & <-). unfold vec_read. change (Some key ≫= ?f) with (f key). cbv beta.
  rewrite (mapM_Some_2 _ key bs); [done|].
  induction Hv as [|x b key bs [Hb _] _ IH]; constructor; [by rewrite Hb|exact IH].
Qed.

Definition set_kv_val (x : kiovec) (v : kv) : kv :=
  Kv (kv_key v) (kv_keycnt v) (Some [x]) (kv_valcnt v)
    (kv_ver v) (kv_verlen v) (kv_newver v) (kv_newverlen v)
    (kv_disum v) (kv_disumlen v) (kv_ditype v) (kv_cpolicy v) (kv_metaonly v).

(** The entries whose value a session with these limits can have stored *)
Definition fits (kv : buffer * buffer) : Prop := zlen kv.2 <= kl_vallen lim.
Definition map_view : gmap buffer buffer -> gmap buffer buffer := filter fits.

(** One operation on the map, [K_EINVAL] for a key that cannot be read *)
Definition map_op (f : buffer -> ST (mem * gmap buffer buffer) (Z * kv)) (v : kv) :
    ST (mem * gmap buffer buffer) (Z * kv) :=
  match vec_read (kv_key v) with Some kb => f kb | None => mret (K_EINVAL, v) end.

Definition found (db : gmap buffer buffer) (kb : buffer) : Z := if map_view db !! kb then K_OK else K_ENOTFOUND.

#[local] Instance map_service : KvService (gmap buffer buffer) :=
  { ki_limits := fun _ _ => lim;
    ki_get := fun _ v => map_op (fun kb '(m, db) =>
      match map_view db !! kb with
      | None => Ok ((K_ENOTFOUND, v), (m, db))
      | Some vb =>
          match KI_MALLOC (zlen vb) m with
          | Ok (Some _, m') => Ok ((K_OK, set_kv_val (Kiovec (Some vb) (zlen vb)) v), (m', db))
          | _ => Ok ((K_ENOMEM, v), (m, db))
          end
      end) v;
    ki_put := fun _ v => map_op (fun kb '(m, db) =>
      match vec_read (kv_val v) with
      | Some vb => Ok ((K_OK, v), (m, <[kb := vb]> db))
      | None => Ok ((K_EINVAL, v), (m, db))
      end) v;
    ki_del := fun _ v => map_op (fun kb '(m, db) => Ok ((found db kb, v), (m, delete kb db))) v;
    ki_getversion := fun _ v => map_op (fun kb '(m, db) => Ok ((found db kb, v), (m, db))) v }.


Lemma map_laws : KvLaws map_service map_view lim.
Proof.
  split; [done| | | |]; intros ktd v m x; [intros kb vb Hm _ _ _ Hk Hv Hle|intros kb Hm Hv _ _ Hk|intros kb Hm _ _ Hk..];
    cbn; unfold map_op; rewrite (vec_read_val _ _ Hk); cbn.
  - rewrite (vec_read_val _ _ Hv). do 2 eexists. split; [done|]. split; [done|]. split; [done|].
    by apply map_filter_insert_True.
  - destruct (map_view x !! kb) as [vb|] eqn:E.
    + destruct (KI_MALLOC_ok m (zlen vb) Hm) as (b & m' & -> & Hm' & _ & Hl).
      do 3 eexists. split; [done|]. split; [done|]. split; [done|]. split; [done|].
      do 4 (split; [done|]). split; [|by apply map_lookup_filter_Some in E as [_ E]].
      rewrite kv_valid_fields, !andb_true_iff, Z.eqb_eq in Hv. apply Hv.
    + by do 3 eexists.
  - do 3 eexists. split; [done|]. split; [done|]. split; [done|]. split; [|done].
    apply map_filter_delete.
  - do 4 eexists. split; [done|]. done.
Qed.
End map_session.

Section concrete.
#[local] Existing Instance lp64_sizes.
#[local] Existing Instance one_session.

(** Keys of up to 16 bytes, values of up to 4 *)
Definition limits4 : klimits := Klimits 16 4 8 20 1048576 16 1048576 16 16 16 16 200 15 15 5.
Lemma limits4_ok : lim_ok limits4.
Proof. split_and!; cbn; lia. Qed.

Lemma bkv_single_ops_witness :
  let KS := map_service limits4 in
  let s : bst := (heap0, {[ [7] := [1; 2] ]}) in
  (exists s', bkv_get 3 (Some [7]) 1 true true s = Ok ((0, Some (Kiovec (Some [1; 2]) 2)), s')) /\
  (exists s', bkv_exists 3 (Some [8]) 1 s = Ok (0, s')) /\
  (exists s', bkv_del 3 (Some [8]) 1 s = Ok (-1, s')).
Proof.
  intros KS s.
  split; [|split].
  - destruct (bkv_single_ops (KL := map_laws limits4) _ _ 3 [7] [9] s limits4_ok
      ltac:(split; vm_compute; discriminate) ltac:(split; vm_compute; discriminate) heap0_mem) as (_ & (s' & H & _) & _).
    exists s'. exact H.
  - destruct (bkv_single_ops (KL := map_laws limits4) _ _ 3 [8] [9] s limits4_ok
      ltac:(split; vm_compute; discriminate) ltac:(split; vm_compute; discriminate) heap0_mem) as (_ & _ & (s' & H & _) & _).
    exists s'. exact H.
  - destruct (bkv_single_ops (KL := map_laws limits4) _ _ 3 [8] [9] s limits4_ok
      ltac:(split; vm_compute; discriminate) ltac:(split; vm_compute; discriminate) heap0_mem) as (_ & _ & _ & (s' & H & _)).
    exists s'. exact H.
Defined.

End concrete.
