(* ===== verification/Toolbox.v ===== *)
(** Text of the command line tools: [src/toolbox/kctl/util.c] (the tool bkv has
    the same file).  Bytes that do not print go out as [\xHH] and come back in
    the same notation. *)

From S2P Require Import Prelude Types.

Definition backslash : Z := 92.
Definition char_x : Z := 120.

(** The C library, in the C locale *)
Definition isprint (c : Z) : bool := (32 <=? c) && (c <=? 126).
Definition isspace (c : Z) : bool := (c =? 32) || ((9 <=? c) && (c <=? 13)).
Definition hex_digit (d : Z) : Z := if d <? 10 then 48 + d else 55 + d.
Definition digit_hex (c : Z) : option Z :=
  if (48 <=? c) && (c <=? 57) then Some (c - 48)
  else if (65 <=? c) && (c <=? 70) then Some (c - 55)
  else if (97 <=? c) && (c <=? 102) then Some (c - 87)
  else None.

(** [strtol(s, &end, 16)] on a string too short for a prefix [0x] with a digit:
    the value, and what [end] points to.  Without a digit that is the whole
    string. *)
Fixpoint skip_space (s : buffer) : buffer :=
  match s with c :: s' => if isspace c then skip_space s' else s | [] => [] end.
Fixpoint hex_digits (s : buffer) (acc : Z) (any : bool) : Z * buffer * bool :=
  match s with
  | c :: s' => match digit_hex c with Some d => hex_digits s' (16 * acc + d) true | None => (acc, s, any) end
  | [] => (acc, [], any)
  end.
Definition strtol16 (s : buffer) : Z * buffer :=
  let t := skip_space s in
  let '(neg, t) := match t with
                   | 45 :: t' => (true, t')
                   | 43 :: t' => (false, t')
                   | _ => (false, t)
                   end in
  let '(v, rest, any) := hex_digits t 0 false in
  if any : bool then (if neg : bool then - v else v, rest) else (0, s).

(** ** [asciidump]: what is printed *)
Definition dump_byte (c : Z) : buffer :=
  if isprint c then [c] else [backslash; char_x; hex_digit (c / 16); hex_digit (c mod 16)].
Definition dump_bytes (l : buffer) : buffer := mjoin (dump_byte <$> l).
Definition asciidump (data : buffer) (size : Z) : outcome buffer :=
  if size <=? zlen data then Ok (dump_bytes (take (Z.to_nat size) data)) else Ub.

(** ** [asciidecode]

    [rest] is the memory at [&data[i]], [n] is [size - i], [room] what is left of
    the new block.  [Ok None] is a character that does not decode. *)
Definition store (room : Z) (c : Z) (k : Z -> outcome (option buffer)) : outcome (option buffer) :=
  if room <? 1 then Ub else
  match k (room - 1) with Ok (Some l) => Ok (Some (c :: l)) | r => r end.

Definition c_string_of (s0 s1 : Z) : buffer := if s0 =? 0 then [] else if s1 =? 0 then [s0] else [s0; s1].
Definition decoded (s0 s1 : Z) : Z * bool :=
  let '(v, rest) := strtol16 (c_string_of s0 s1) in (v mod 2 ^ 8, match rest with [] => true | _ => false end).

Fixpoint decode_loop (rest : buffer) (n room : Z) : outcome (option buffer) :=
  if n <=? 0 then (if room <? 1 then Ub else Ok (Some [])) else
  match rest with
  | [] => Ub
  | c :: r1 =>
      if c =? backslash then
        match r1 with
        | [] => Ub
        | c1 :: r2 =>
            if c1 =? char_x then
              match r2 with
              | s0 :: s1 :: r4 =>
                  let '(v, ok) := decoded s0 s1 in
                  if room <? 1 then Ub else
                  if ok : bool then store room v (decode_loop r4 (n - 4)) else Ok None
              | _ => Ub
              end
            else store room c (decode_loop r1 (n - 1))
        end
      else store room c (decode_loop r1 (n - 1))
  end.

(** The block is one byte longer than the source; [None]: no memory, or a bad
    character. *)
Definition asciidecode (malloc : Z -> bool) (data : buffer) (size : Z) : outcome (option buffer) :=
  if malloc (size + 1) then decode_loop data size (size + 1) else Ok None.

(** ** [yorn]

    The standard input is the list of lines that are left, each with its newline;
    [fgets] takes a line, or the start of one that does not fit the buffer. *)
Definition fgets (n : Z) (input : list buffer) : option buffer * list buffer :=
  match input with
  | [] => (None, [])
  | l :: input =>
      if zlen l <? n then (Some l, input)
      else (Some (take (Z.to_nat (n - 1)) l), drop (Z.to_nat (n - 1)) l :: input)
  end.

(** A C string: the bytes before the first NUL *)
Fixpoint c_str (s : buffer) : buffer :=
  match s with c :: s => if c =? 0 then [] else c :: c_str s | [] => [] end.

(** The answer, what is left of the input, and what was printed *)
Definition YNBUFLEN : Z := 1024.
Fixpoint yorn (prompt : buffer) (input : list buffer) (default_ans : Z) (attempts : nat) : Z * list buffer * buffer :=
  match attempts with
  | O => (default_ans, input, [])
  | S attempts =>
      let again input := let '(ans, rest, out) := yorn prompt input default_ans attempts in (ans, rest, prompt ++ out) in
      let '(t, input) := fgets YNBUFLEN input in
      match c_str <$> t with
      | None => (default_ans, input, prompt)
      | Some [] => again input
      | Some [10] => (default_ans, input, prompt)
      | Some [c; _] =>
          if (c =? 121) || (c =? 89) then (1, input, prompt)
          else if (c =? 110) || (c =? 78) then (0, input, prompt)
          else again input
      | Some _ => again input
      end
  end.

(** ** Round trip *)
Definition bytes (l : buffer) : Prop := Forall (fun c => 0 <= c < 256) l.
(** Nothing in the data reads as the notation itself. *)
Fixpoint no_escape (l : buffer) : Prop :=
  match l with
  | c :: (d :: _) as l' => ~ (c = backslash /\ d = char_x) /\ no_escape l'
  | _ => True
  end.

Lemma byte_cases (P : Z -> bool) : forallb P (seqZ 0 256) = true -> forall c, 0 <= c < 256 -> P c = true.
Proof.
  intros H c Hc. rewrite forallb_forall in H. apply H, list_elem_of_In, elem_of_seqZ. lia.
Qed.
Lemma decoded_digits c : 0 <= c < 256 -> decoded (hex_digit (c / 16)) (hex_digit (c mod 16)) = (c, true).
Proof.
  intros Hc. eapply bool_decide_eq_true_1.
  exact (byte_cases (fun c => bool_decide (decoded (hex_digit (c / 16)) (hex_digit (c mod 16)) = (c, true)))
    ltac:(by vm_compute) c Hc).
Qed.

Lemma dump_bytes_cons c l : dump_bytes (c :: l) = dump_byte c ++ dump_bytes l.
Proof. done. Qed.
(** What follows a byte in the dump is an [x] only where an [x] follows it in
    the data. *)
Lemma dump_head l tl :
  match l with d :: _ => d <> char_x | [] => True end -> hd 0 (dump_bytes l ++ 0 :: tl) <> char_x.
Proof.
  destruct l as [|d l]; [done|]. intros Hd. rewrite dump_bytes_cons. unfold dump_byte. by destruct (isprint d).
Qed.

Lemma store_ok room c k l : 1 <= room -> k (room - 1) = Ok (Some l) -> store room c k = Ok (Some (c :: l)).
Proof. intros H E. unfold store. replace (room <? 1) with false by lia. by rewrite E. Qed.

Lemma decode_dump l tl room :
  bytes l -> no_escape l -> zlen l < room ->
  decode_loop (dump_bytes l ++ 0 :: tl) (zlen (dump_bytes l)) room = Ok (Some l).
Proof.
  revert room. induction l as [|c l IH]; intros room Hb He Hr.
  { change (zlen []) with 0 in Hr. cbn. by replace (room <? 1) with false by lia. }
  inversion_clear Hb as [|? ? Hc Hl].
  assert (no_escape l) as He' by (destruct l; [done|apply He]).
  rewrite zlen_cons in Hr. pose proof (zlen_nonneg l). rewrite dump_bytes_cons. unfold dump_byte.
  destruct (isprint c) eqn:Ep.
  - cbn [app decode_loop]. rewrite zlen_cons. pose proof (zlen_nonneg (dump_bytes l)).
    replace (_ <=? 0) with false by lia.
    assert (decode_loop (dump_bytes l ++ 0 :: tl) (zlen (dump_bytes l) + 1 - 1) (room - 1) = Ok (Some l)) as E.
    { rewrite Z.add_simpl_r. apply IH; [done|done|lia]. }
    destruct (Z.eqb_spec c backslash) as [Hbs|_]; [|by apply store_ok; [lia|]].
    assert (hd 0 (dump_bytes l ++ 0 :: tl) <> char_x) as Hh.
    { apply dump_head. destruct l as [|d l]; [done|]. destruct He as [He _]. intros ->. by apply He. }
    destruct (dump_bytes l ++ 0 :: tl) as [|d r] eqn:Er; [by destruct (dump_bytes l)|]. cbn in Hh.
    rewrite (proj2 (Z.eqb_neq d char_x)) by done. apply store_ok; [lia|exact E].
  - cbn [app decode_loop]. rewrite !zlen_cons. pose proof (zlen_nonneg (dump_bytes l)).
    replace (_ <=? 0) with false by lia. rewrite !Z.eqb_refl, decoded_digits by done.
    replace (room <? 1) with false by lia. apply store_ok; [lia|].
    match goal with |- decode_loop _ ?n _ = _ => replace n with (zlen (dump_bytes l)) by lia end.
    apply IH; [done|done|lia].
Qed.

Lemma dump_len l : zlen l <= zlen (dump_bytes l).
Proof.
  induction l as [|c l IH]; [done|]. rewrite dump_bytes_cons, zlen_app, zlen_cons. unfold dump_byte.
  destruct (isprint c); unfold zlen in *; cbn [length]; lia.
Qed.

(** C17: The notation of the command line tools is read back as it was printed:
    what [asciidump] prints for any bytes, as a C string, [asciidecode] turns
    into the same bytes again, of the same length, provided the data itself has
    no backslash right before an x (such data is printed as it is, and read as
    the start of a hexadecimal byte). *)
Theorem asciidecode_asciidump l malloc :
  bytes l -> no_escape l -> malloc (zlen (dump_bytes l) + 1) = true ->
  exists d, asciidump l (zlen l) = Ok d /\ asciidecode malloc (d ++ [0]) (zlen d) = Ok (Some l).
Proof.
  intros Hb He Hm. exists (dump_bytes l). unfold asciidump, asciidecode. rewrite Z.leb_refl, Hm.
  split; [unfold zlen; by rewrite Nat2Z.id, take_ge|]. apply decode_dump; [done|done|]. pose proof (dump_len l). lia.
Qed.
Lemma asciidecode_asciidump_witness :
  asciidecode (fun _ => true) ([111; 107; 92; 120; 48; 48; 92; 120; 70; 70; 33; 0]) 11 = Ok (Some [111; 107; 0; 255; 33]).
Proof.
  destruct (asciidecode_asciidump [111; 107; 0; 255; 33] (fun _ => true)) as (d & E & H).
  - repeat constructor; lia.
  - cbn. unfold backslash. lia.
  - reflexivity.
  - vm_compute in E. injection E as <-. exact H.
Defined.

(** Without the proviso: the four bytes [\x41] come back as one. *)
Lemma asciidump_ambiguous : asciidecode (fun _ => true) (dump_bytes [92; 120; 52; 49] ++ [0]) 4 = Ok (Some [65]).
Proof. done. Qed.

(** ** Bounds *)
Definition c_str_bytes (l : buffer) : Prop := Forall (fun c => 0 < c < 256) l.
Fixpoint cut_short (l : buffer) : Prop :=
  match l with
  | [] => False
  | c :: l' => l = [backslash; char_x] \/ cut_short l'
  end.

Lemma decoded_byte s0 s1 : 0 <= (decoded s0 s1).1 < 256.
Proof. unfold decoded. destruct (strtol16 _) as [v rest]. cbn. apply Z.mod_pos_bound. lia. Qed.

Definition fits (n : Z) (o : outcome (option buffer)) : Prop :=
  exists r, o = Ok r /\ forall raw, r = Some raw -> zlen raw <= n /\ bytes raw.
Lemma store_fits room c k n :
  1 <= room -> 0 <= c < 256 -> fits n (k (room - 1)) -> fits (n + 1) (store room c k).
Proof.
  intros Hr Hc (r & E & H). unfold store. replace (room <? 1) with false by lia. rewrite E.
  destruct r as [l|]; [|by exists None]. exists (Some (c :: l)). split; [done|]. intros raw [= <-].
  destruct (H l eq_refl). rewrite zlen_cons. split; [lia|]. by constructor.
Qed.
Lemma fits_le n m o : n <= m -> fits n o -> fits m o.
Proof. intros Hle (r & E & H). exists r. split; [done|]. intros raw Hr. destruct (H raw Hr). split; [lia|done]. Qed.

(** The loop is past the end of the string. *)
Lemma fits_end m rest n room : n <= 0 -> 0 <= m -> 0 < room -> fits m (decode_loop rest n room).
Proof.
  intros Hn Hm Hr. exists (Some []). split.
  - destruct rest; cbn [decode_loop]; replace (n <=? 0) with true by lia; by replace (room <? 1) with false by lia.
  - intros raw [= <-]. split; [done|constructor].
Qed.

Lemma not_cut c l : ~ cut_short (c :: l) -> ~ cut_short l.
Proof. intros H Hl. apply H. by right. Qed.

Lemma decode_bounds n : forall l room,
  (length l <= n)%nat -> c_str_bytes l -> ~ cut_short l -> zlen l < room ->
  fits (zlen l) (decode_loop (l ++ [0]) (zlen l) room).
Proof.
  induction n as [|n IH]; intros l room Hn Hb Hcut Hr; destruct l as [|c l]; cbn [length] in Hn; try lia;
    try (by apply fits_end).
  inversion_clear Hb as [|? ? Hc Hl]. pose proof (zlen_nonneg l). rewrite zlen_cons in *.
  cbn [app decode_loop]. replace (_ <=? 0) with false by lia.
  assert (fits (zlen l + 1) (store room c (decode_loop (l ++ [0]) (zlen l + 1 - 1)))) as Hplain.
  { apply store_fits; [lia|lia|]. rewrite Z.add_simpl_r. apply IH; [lia|done|by eapply not_cut|lia]. }
  destruct (Z.eqb_spec c backslash) as [Hbs|_]; [|exact Hplain].
  destruct l as [|c1 l]; [exact Hplain|]. cbn [app] in *.
  destruct (Z.eqb_spec c1 char_x) as [Hx|_]; [|exact Hplain].
  destruct l as [|s0 l]; [exfalso; apply Hcut; left; by subst|].
  inversion_clear Hl as [|? ? _ Hl']. inversion_clear Hl' as [|? ? Hs0 Hl].
  pose proof (decoded_byte s0) as Hv. cbn [app].
  assert (forall s1 r, fits (zlen l) (decode_loop r (zlen (c1 :: s0 :: l) + 1 - 4) (room - 1)) ->
    fits (zlen (c1 :: s0 :: l) + 1) (let '(v, ok) := decoded s0 s1 in if room <? 1 then Ub else
      if ok : bool then store room v (decode_loop r (zlen (c1 :: s0 :: l) + 1 - 4)) else Ok None)) as Hhex.
  { intros s1 r Hrest. specialize (Hv s1). destruct (decoded s0 s1) as [v [|]]; replace (room <? 1) with false by lia;
      [|by exists None]. eapply fits_le; [|by apply store_fits; [lia|exact Hv|exact Hrest]]. rewrite !zlen_cons. lia. }
  destruct l as [|s1 l]; cbn [app].
  - apply Hhex. rewrite !zlen_cons in *. change (zlen []) with 0 in *. apply fits_end; lia.
  - apply Hhex. inversion_clear Hl as [|? ? _ Hl1]. rewrite !zlen_cons in *.
    replace (zlen l + 1 + 1 + 1 + 1 - 4) with (zlen l) by lia. eapply fits_le; [|apply IH]; [lia|cbn [length] in *; lia|done| |lia].
    do 4 (eapply not_cut in Hcut). done.
Qed.

(** [asciidecode] stays inside its buffers on every C string that does not end
    in an unfinished [\x]: it reads no byte past the terminator, writes no byte
    past the block it allocated, and answers either nothing, for digits that do
    not decode, or at most as many bytes as the string has.  (On a string that
    ends in [\x] it reads past the terminator: see [asciidecode_overread].) *)
Theorem asciidecode_bounds l malloc :
  c_str_bytes l -> ~ cut_short l ->
  exists r, asciidecode malloc (l ++ [0]) (zlen l) = Ok r /\ forall raw, r = Some raw -> zlen raw <= zlen l /\ bytes raw.
Proof.
  intros Hb Hcut. unfold asciidecode. destruct (malloc _); [|by exists None].
  apply (decode_bounds (length l)); [done|done|done|lia].
Qed.
Lemma asciidecode_bounds_witness :
  exists r, asciidecode (fun _ => true) ([97; 92; 120; 52] ++ [0]) 4 = Ok r.
Proof.
  destruct (asciidecode_bounds [97; 92; 120; 52] (fun _ => true)) as (r & E & _).
  - repeat constructor; lia.
  - cbn. intros H. repeat destruct H as [H|H]; done.
  - exists r. exact E.
Defined.

Lemma asciidecode_overread malloc l :
  malloc (zlen l + 3) = true -> ~ In backslash l -> asciidecode malloc (l ++ [backslash; char_x; 0]) (zlen l + 2) = Ub.
Proof.
  intros Hm Hnb. unfold asciidecode. replace (zlen l + 2 + 1) with (zlen l + 3) by lia. rewrite Hm. clear Hm.
  assert (forall room, zlen l + 2 < room -> decode_loop (l ++ [backslash; char_x; 0]) (zlen l + 2) room = Ub) as H; [|apply H; lia].
  induction l as [|c l IH]; intros room Hr; [done|].
  rewrite zlen_cons in *. pose proof (zlen_nonneg l). cbn [app decode_loop]. replace (_ <=? 0) with false by lia.
  rewrite (proj2 (Z.eqb_neq c backslash)) by (intros ->; apply Hnb; by left).
  unfold store. replace (room <? 1) with false by lia. replace (zlen l + 1 + 2 - 1) with (zlen l + 2) by lia.
  rewrite IH; [done| |lia]. intros Hin. apply Hnb. by right.
Qed.
