(* ===== verification/ProtoData.v ===== *)
(** The protobuf structures of [include/kinetic/protocol/kinetic.pb-c.h], the
    aliases and headers of [src/protocol_types.h], and the interface of the
    generated code: packing, unpacking and the number of blocks a message owns.

    A pair [has_x], [x] is an [option]; a repeated field is the list of its
    elements; a pointer to a sub-message is an [option].  The parts of a
    command body no code of the library reads or writes (set-up, peer to peer,
    security, pin, power) are left out.  The applet part and the numbers of its
    enumerations are what [src/exec.c] uses of them: the header in the repository
    is of a protocol without applets. *)

From S2P Require Import Prelude Types Keys.

(** ** ProtobufCBinaryData *)
Record ProtobufCBinaryData := Pbd { pb_len : Z; pb_data : option buffer }.
Definition pbd0 : ProtobufCBinaryData := Pbd 0 None.

(** The bytes a binary field holds, read through its pointer. *)
Definition pbd_bytes (d : ProtobufCBinaryData) : outcome buffer := iov_bytes (Kiovec (pb_data d) (pb_len d)).

(** A field as unpacking leaves it: no block for no bytes. *)
Definition pbd_of (b : buffer) : ProtobufCBinaryData :=
  Pbd (zlen b) (match b with [] => None | _ => Some b end).
Definition pbd_wf (d : ProtobufCBinaryData) : Prop := exists b, d = pbd_of b.

(** ** Messages *)
Definition KAT_INVALID : Z := -1.
Definition KAT_HMAC : Z := 1.
Definition KAT_PIN : Z := 2.
Definition KAT_UNSOLICITED : Z := 3.

Record kproto_hmacauth_t := Hmacauth {
  ha_identity : option Z; ha_hmac : option ProtobufCBinaryData }.
Record kproto_pinauth_t := Pinauth { pa_pin : option ProtobufCBinaryData }.
Record kproto_msg_t := Message {
  m_authtype : option Z;
  m_hmacauth : option kproto_hmacauth_t;
  m_pinauth : option kproto_pinauth_t;
  m_commandbytes : option ProtobufCBinaryData }.

(** ** Commands *)
Record kproto_cmdhdr_t := Cmdhdr {
  h_clusterversion : option Z; h_connectionid : option Z;
  h_sequence : option Z; h_acksequence : option Z; h_messagetype : option Z;
  h_timeout : option Z; h_earlyexit : option Z; h_priority : option Z;
  h_timequanta : option Z; h_batchid : option Z }.

Record kproto_kv_t := Keyvalue {
  kp_newversion : option ProtobufCBinaryData; kp_force : option Z;
  kp_key : option ProtobufCBinaryData; kp_dbversion : option ProtobufCBinaryData;
  kp_tag : option ProtobufCBinaryData; kp_algorithm : option Z;
  kp_metadataonly : option Z; kp_synchronization : option Z }.

Record kproto_keyrange_t := Keyrange {
  rg_startkey : option ProtobufCBinaryData; rg_endkey : option ProtobufCBinaryData;
  rg_startkeyinclusive : option Z; rg_endkeyinclusive : option Z;
  rg_maxreturned : option Z; rg_reverse : option Z;
  rg_keys : list ProtobufCBinaryData }.

Record kproto_batch_t := Batchbody {
  bt_count : option Z; bt_sequence : list Z; bt_failedsequence : option Z }.

Record kproto_status_t := Status {
  st_code : option Z; st_statusmessage : option buffer;
  st_detailedmessage : option ProtobufCBinaryData }.

(** *** The parts of a log; a [float] is its bit pattern *)
Record kproto_utilization_t := Utilization { ut_name : option buffer; ut_value : option Z }.
Record kproto_temperature_t := Temperature {
  te_name : option buffer; te_current : option Z; te_minimum : option Z;
  te_maximum : option Z; te_target : option Z }.
Record kproto_capacity_t := Capacity { ca_nominal : option Z; ca_portionfull : option Z }.
Record kproto_interface_t := Interface {
  in_name : option buffer; in_mac : option ProtobufCBinaryData;
  in_ipv4address : option ProtobufCBinaryData; in_ipv6address : option ProtobufCBinaryData }.
Record kproto_configuration_t := Configuration {
  cf_vendor : option buffer; cf_model : option buffer;
  cf_serialnumber : option ProtobufCBinaryData; cf_worldwidename : option ProtobufCBinaryData;
  cf_version : option buffer; cf_compilationdate : option buffer; cf_sourcehash : option buffer;
  cf_protocolversion : option buffer; cf_protocolcompilationdate : option buffer;
  cf_protocolsourcehash : option buffer; cf_interface : list kproto_interface_t;
  cf_port : option Z; cf_tlsport : option Z; cf_currentpowerlevel : option Z }.
Record kproto_statistics_t := Statistics {
  sx_messagetype : option Z; sx_count : option Z; sx_bytes : option Z; sx_maxlatency : option Z }.
Record kproto_limits_t := Limits {
  li_maxkeysize : option Z; li_maxvaluesize : option Z; li_maxversionsize : option Z;
  li_maxtagsize : option Z; li_maxconnections : option Z;
  li_maxoutstandingreadrequests : option Z; li_maxoutstandingwriterequests : option Z;
  li_maxmessagesize : option Z; li_maxkeyrangecount : option Z; li_maxidentitycount : option Z;
  li_maxpinsize : option Z; li_maxoperationcountperbatch : option Z;
  li_maxbatchcountperdevice : option Z; li_maxbatchsize : option Z;
  li_maxdeletesperbatch : option Z }.
Record kgetlog_device_info := Device { dv_name : option ProtobufCBinaryData }.
Record kproto_getlog_t := Getlog {
  gl_types : list Z; gl_utilizations : list kproto_utilization_t;
  gl_temperatures : list kproto_temperature_t; gl_capacity : option kproto_capacity_t;
  gl_configuration : option kproto_configuration_t; gl_statistics : list kproto_statistics_t;
  gl_messages : option ProtobufCBinaryData; gl_limits : option kproto_limits_t;
  gl_device : option kgetlog_device_info }.

Record kproto_kapplet_t := Applet {
  ma_manageapplettype : option Z; ma_lang : option Z;
  ma_programkey : list ProtobufCBinaryData; ma_programparam : list buffer;
  ma_acknowledgemode : option Z; ma_outputkey : option ProtobufCBinaryData;
  ma_setvalueinresponse : option Z }.

Record kproto_body_t := Body {
  b_keyvalue : option kproto_kv_t; b_range : option kproto_keyrange_t;
  b_getlog : option kproto_getlog_t; b_batch : option kproto_batch_t;
  b_manageapplet : option kproto_kapplet_t }.

Record kproto_cmd_t := Command {
  c_header : option kproto_cmdhdr_t; c_body : option kproto_body_t;
  c_status : option kproto_status_t }.

(** ** The structures after their generated initialisers *)
Definition msg_init : kproto_msg_t := Message None None None None.
Definition hmacauth_init : kproto_hmacauth_t := Hmacauth None None.
Definition pinauth_init : kproto_pinauth_t := Pinauth None.
Definition cmd_init : kproto_cmd_t := Command None None None.
Definition body_init : kproto_body_t := Body None None None None None.
Definition mapplet_init : kproto_kapplet_t := Applet None None [] [] None None None.
Definition cmdhdr_init : kproto_cmdhdr_t :=
  Cmdhdr None None None None None None None None None None.
Definition kv_init : kproto_kv_t := Keyvalue None None None None None None None None.
Definition keyrange_init : kproto_keyrange_t := Keyrange None None None None None None [].
Definition batch_init : kproto_batch_t := Batchbody None [] None.
Definition getlog_init : kproto_getlog_t := Getlog [] [] [] None None [] None None None.

(** Field assignments *)
Definition set_m_commandbytes (d : option ProtobufCBinaryData) (m : kproto_msg_t) : kproto_msg_t :=
  Message (m_authtype m) (m_hmacauth m) (m_pinauth m) d.
Definition set_m_hmacauth (h : option kproto_hmacauth_t) (m : kproto_msg_t) : kproto_msg_t :=
  Message (m_authtype m) h (m_pinauth m) (m_commandbytes m).
Definition set_h_sequence (v : option Z) (h : kproto_cmdhdr_t) : kproto_cmdhdr_t :=
  Cmdhdr (h_clusterversion h) (h_connectionid h) v (h_acksequence h) (h_messagetype h)
    (h_timeout h) (h_earlyexit h) (h_priority h) (h_timequanta h) (h_batchid h).
Definition set_c_header (h : option kproto_cmdhdr_t) (c : kproto_cmd_t) : kproto_cmd_t :=
  Command h (c_body c) (c_status c).

(** ** [kmsghdr_t], [kcmdhdr_t] *)
Record kmsghdr_t := Kmsghdr {
  kmh_atype : Z; kmh_id : Z; kmh_hmac : option buffer; kmh_hmaclen : Z;
  kmh_pin : option buffer; kmh_pinlen : Z }.
Record kcmdhdr_t := Kcmdhdr {
  kch_clustvers : Z; kch_connid : Z; kch_seq : Z; kch_ackseq : Z; kch_type : Z;
  kch_timeout : Z; kch_pri : Z; kch_quanta : Z; kch_qexit : Z; kch_bid : Z }.
Definition set_kch_type (t : Z) (h : kcmdhdr_t) : kcmdhdr_t :=
  Kcmdhdr (kch_clustvers h) (kch_connid h) (kch_seq h) (kch_ackseq h) t (kch_timeout h)
    (kch_pri h) (kch_quanta h) (kch_qexit h) (kch_bid h).
Definition set_kch_bid (b : Z) (h : kcmdhdr_t) : kcmdhdr_t :=
  Kcmdhdr (kch_clustvers h) (kch_connid h) (kch_seq h) (kch_ackseq h) (kch_type h) (kch_timeout h)
    (kch_pri h) (kch_quanta h) (kch_qexit h) b.

(** ** Blocks

    What [free_unpacked] gives back: the structure, every string and non NULL
    binary field, every array, and the sub-messages. *)
Definition opt_blocks {A} (f : A -> Z) (o : option A) : Z := match o with Some a => f a | None => 0 end.
Definition arr_blocks {A} (f : A -> Z) (l : list A) : Z :=
  match l with [] => 0 | _ => 1 + zsum (f <$> l) end.
Definition pbd_blocks (d : ProtobufCBinaryData) : Z := match pb_data d with Some _ => 1 | None => 0 end.
Definition str_blocks : option buffer -> Z := opt_blocks (fun _ => 1).
Definition bin_blocks : option ProtobufCBinaryData -> Z := opt_blocks pbd_blocks.

Definition hmacauth_blocks (h : kproto_hmacauth_t) : Z := 1 + bin_blocks (ha_hmac h).
Definition pinauth_blocks (p : kproto_pinauth_t) : Z := 1 + bin_blocks (pa_pin p).
Definition msg_blocks (m : kproto_msg_t) : Z :=
  1 + opt_blocks hmacauth_blocks (m_hmacauth m) + opt_blocks pinauth_blocks (m_pinauth m)
    + bin_blocks (m_commandbytes m).

Definition kv_blocks (k : kproto_kv_t) : Z :=
  1 + bin_blocks (kp_newversion k) + bin_blocks (kp_key k) + bin_blocks (kp_dbversion k)
    + bin_blocks (kp_tag k).
Definition range_blocks (r : kproto_keyrange_t) : Z :=
  1 + bin_blocks (rg_startkey r) + bin_blocks (rg_endkey r) + arr_blocks pbd_blocks (rg_keys r).
Definition batch_blocks (b : kproto_batch_t) : Z := 1 + arr_blocks (fun _ => 0) (bt_sequence b).
Definition status_blocks (s : kproto_status_t) : Z :=
  1 + str_blocks (st_statusmessage s) + bin_blocks (st_detailedmessage s).
Definition interface_blocks (i : kproto_interface_t) : Z :=
  1 + str_blocks (in_name i) + bin_blocks (in_mac i) + bin_blocks (in_ipv4address i)
    + bin_blocks (in_ipv6address i).
Definition configuration_blocks (c : kproto_configuration_t) : Z :=
  1 + str_blocks (cf_vendor c) + str_blocks (cf_model c) + bin_blocks (cf_serialnumber c)
    + bin_blocks (cf_worldwidename c) + str_blocks (cf_version c) + str_blocks (cf_compilationdate c)
    + str_blocks (cf_sourcehash c) + str_blocks (cf_protocolversion c)
    + str_blocks (cf_protocolcompilationdate c) + str_blocks (cf_protocolsourcehash c)
    + arr_blocks interface_blocks (cf_interface c).
Definition getlog_blocks (g : kproto_getlog_t) : Z :=
  1 + arr_blocks (fun _ => 0) (gl_types g)
    + arr_blocks (fun u => 1 + str_blocks (ut_name u)) (gl_utilizations g)
    + arr_blocks (fun t => 1 + str_blocks (te_name t)) (gl_temperatures g)
    + opt_blocks (fun _ => 1) (gl_capacity g) + opt_blocks configuration_blocks (gl_configuration g)
    + arr_blocks (fun _ => 1) (gl_statistics g) + bin_blocks (gl_messages g)
    + opt_blocks (fun _ => 1) (gl_limits g)
    + opt_blocks (fun d => 1 + bin_blocks (dv_name d)) (gl_device g).
Definition kapplet_blocks (a : kproto_kapplet_t) : Z :=
  1 + arr_blocks pbd_blocks (ma_programkey a) + arr_blocks (fun _ => 1) (ma_programparam a)
    + bin_blocks (ma_outputkey a).
Definition body_blocks (b : kproto_body_t) : Z :=
  1 + opt_blocks kv_blocks (b_keyvalue b) + opt_blocks range_blocks (b_range b)
    + opt_blocks getlog_blocks (b_getlog b) + opt_blocks batch_blocks (b_batch b)
    + opt_blocks kapplet_blocks (b_manageapplet b).
Definition cmd_blocks (c : kproto_cmd_t) : Z :=
  1 + opt_blocks (fun _ => 1) (c_header c) + opt_blocks body_blocks (c_body c)
    + opt_blocks status_blocks (c_status c).

(** ** What the wire can carry

    Values in the range of their C type and binary fields that own their bytes:
    the values that unpacking answers and that packing is specified for. *)
Definition int_of (lo hi : Z) (o : option Z) : Prop := forall v, o = Some v -> lo <= v < hi.
Definition is_u32 : option Z -> Prop := int_of 0 (2 ^ 32).
Definition is_u64 : option Z -> Prop := int_of 0 (2 ^ 64).
Definition is_i32 : option Z -> Prop := int_of (- 2 ^ 31) (2 ^ 31).
Definition is_i64 : option Z -> Prop := int_of (- 2 ^ 63) (2 ^ 63).
Definition is_bool : option Z -> Prop := int_of 0 2.
Definition is_bin (o : option ProtobufCBinaryData) : Prop := forall d, o = Some d -> pbd_wf d.

Definition opt_wf {A} (P : A -> Prop) (o : option A) : Prop := forall a, o = Some a -> P a.

Definition msg_wf (m : kproto_msg_t) : Prop :=
  is_i32 (m_authtype m) /\
  opt_wf (fun h => is_i64 (ha_identity h) /\ is_bin (ha_hmac h)) (m_hmacauth m) /\
  opt_wf (fun p => is_bin (pa_pin p)) (m_pinauth m) /\ is_bin (m_commandbytes m).

Definition cmdhdr_wf (h : kproto_cmdhdr_t) : Prop :=
  is_i64 (h_clusterversion h) /\ is_i64 (h_connectionid h) /\ is_u64 (h_sequence h) /\
  is_u64 (h_acksequence h) /\ is_i32 (h_messagetype h) /\ is_u64 (h_timeout h) /\
  is_bool (h_earlyexit h) /\ is_i32 (h_priority h) /\ is_u64 (h_timequanta h) /\
  is_u32 (h_batchid h).

Definition kvbody_wf (k : kproto_kv_t) : Prop :=
  is_bin (kp_newversion k) /\ is_bool (kp_force k) /\ is_bin (kp_key k) /\ is_bin (kp_dbversion k) /\
  is_bin (kp_tag k) /\ is_i32 (kp_algorithm k) /\ is_bool (kp_metadataonly k) /\
  is_i32 (kp_synchronization k).

Definition batchbody_wf (b : kproto_batch_t) : Prop :=
  is_u32 (bt_count b) /\ Forall (fun v => 0 <= v < 2 ^ 64) (bt_sequence b) /\
  is_u64 (bt_failedsequence b).

Definition keyrange_wf (r : kproto_keyrange_t) : Prop :=
  is_bin (rg_startkey r) /\ is_bin (rg_endkey r) /\ is_bool (rg_startkeyinclusive r) /\
  is_bool (rg_endkeyinclusive r) /\ is_u32 (rg_maxreturned r) /\ is_bool (rg_reverse r) /\
  Forall pbd_wf (rg_keys r).

Definition status_wf (s : kproto_status_t) : Prop :=
  is_i32 (st_code s) /\ opt_wf (Forall (fun b => 0 < b < 256)) (st_statusmessage s) /\
  is_bin (st_detailedmessage s).

Definition is_str (o : option buffer) : Prop := opt_wf (Forall (fun b => 0 < b < 256)) o.
Definition interface_wf (i : kproto_interface_t) : Prop :=
  is_str (in_name i) /\ is_bin (in_mac i) /\ is_bin (in_ipv4address i) /\ is_bin (in_ipv6address i).
Definition configuration_wf (c : kproto_configuration_t) : Prop :=
  Forall is_str [cf_vendor c; cf_model c; cf_version c; cf_compilationdate c; cf_sourcehash c;
    cf_protocolversion c; cf_protocolcompilationdate c; cf_protocolsourcehash c] /\
  is_bin (cf_serialnumber c) /\ is_bin (cf_worldwidename c) /\ Forall interface_wf (cf_interface c) /\
  is_u32 (cf_port c) /\ is_u32 (cf_tlsport c) /\ is_i32 (cf_currentpowerlevel c).
Definition limits_wf (l : kproto_limits_t) : Prop :=
  Forall is_u32 [li_maxkeysize l; li_maxvaluesize l; li_maxversionsize l; li_maxtagsize l; li_maxconnections l;
    li_maxoutstandingreadrequests l; li_maxoutstandingwriterequests l; li_maxmessagesize l;
    li_maxkeyrangecount l; li_maxidentitycount l; li_maxpinsize l; li_maxoperationcountperbatch l;
    li_maxbatchcountperdevice l; li_maxbatchsize l; li_maxdeletesperbatch l].
Definition getlog_wf (g : kproto_getlog_t) : Prop :=
  Forall (fun t => - 2 ^ 31 <= t < 2 ^ 31) (gl_types g) /\
  Forall (fun u => is_str (ut_name u) /\ is_u32 (ut_value u)) (gl_utilizations g) /\
  Forall (fun t => is_str (te_name t) /\
    Forall is_u32 [te_current t; te_minimum t; te_maximum t; te_target t]) (gl_temperatures g) /\
  opt_wf (fun c => is_u64 (ca_nominal c) /\ is_u32 (ca_portionfull c)) (gl_capacity g) /\
  opt_wf configuration_wf (gl_configuration g) /\
  Forall (fun s => is_i32 (sx_messagetype s) /\ Forall is_u64 [sx_count s; sx_bytes s; sx_maxlatency s]) (gl_statistics g) /\
  is_bin (gl_messages g) /\ opt_wf limits_wf (gl_limits g) /\ opt_wf (fun d => is_bin (dv_name d)) (gl_device g).

Definition kapplet_wf (a : kproto_kapplet_t) : Prop :=
  is_i32 (ma_manageapplettype a) /\ is_i32 (ma_lang a) /\ Forall pbd_wf (ma_programkey a) /\
  Forall (Forall (fun b => 0 < b < 256)) (ma_programparam a) /\ is_i32 (ma_acknowledgemode a) /\
  is_bin (ma_outputkey a) /\ is_bool (ma_setvalueinresponse a).

Definition body_wf (b : kproto_body_t) : Prop :=
  opt_wf kvbody_wf (b_keyvalue b) /\ opt_wf keyrange_wf (b_range b) /\
  opt_wf getlog_wf (b_getlog b) /\ opt_wf batchbody_wf (b_batch b) /\ opt_wf kapplet_wf (b_manageapplet b).

Definition cmd_wf (c : kproto_cmd_t) : Prop :=
  opt_wf cmdhdr_wf (c_header c) /\ opt_wf body_wf (c_body c) /\ opt_wf status_wf (c_status c).

(** Packing reads every binary field through its pointer: the fields whose
    pointer has the bytes. *)
Definition bin_ok (o : option ProtobufCBinaryData) : bool :=
  match o with
  | Some d => match pb_data d with Some b => pb_len d <=? zlen b | None => pb_len d =? 0 end
  | None => true
  end.
Definition kvbody_readable (k : kproto_kv_t) : bool :=
  bin_ok (kp_newversion k) && bin_ok (kp_key k) && bin_ok (kp_dbversion k) && bin_ok (kp_tag k).
Definition keyrange_readable (r : kproto_keyrange_t) : bool :=
  bin_ok (rg_startkey r) && bin_ok (rg_endkey r) && forallb (fun d => bin_ok (Some d)) (rg_keys r).
Definition opt_all {A} (f : A -> bool) (o : option A) : bool := match o with Some a => f a | None => true end.
Definition configuration_readable (c : kproto_configuration_t) : bool :=
  bin_ok (cf_serialnumber c) && bin_ok (cf_worldwidename c) &&
  forallb (fun i => bin_ok (in_mac i) && bin_ok (in_ipv4address i) && bin_ok (in_ipv6address i)) (cf_interface c).
Definition getlog_readable (g : kproto_getlog_t) : bool :=
  opt_all configuration_readable (gl_configuration g) && bin_ok (gl_messages g) &&
  opt_all (fun d => bin_ok (dv_name d)) (gl_device g).
Definition kapplet_readable (a : kproto_kapplet_t) : bool :=
  forallb (fun d => bin_ok (Some d)) (ma_programkey a) && bin_ok (ma_outputkey a).
Definition cmd_readable (c : kproto_cmd_t) : bool :=
  opt_all (fun b => opt_all kvbody_readable (b_keyvalue b) && opt_all keyrange_readable (b_range b) &&
             opt_all getlog_readable (b_getlog b) && opt_all kapplet_readable (b_manageapplet b)) (c_body c) &&
  opt_all (fun s => bin_ok (st_detailedmessage s)) (c_status c).
Definition msg_readable (m : kproto_msg_t) : bool :=
  opt_all (fun h => bin_ok (ha_hmac h)) (m_hmacauth m) &&
  opt_all (fun p => bin_ok (pa_pin p)) (m_pinauth m) && bin_ok (m_commandbytes m).

Lemma is_bin_ok o : is_bin o -> bin_ok o = true.
Proof.
  intros H. destruct o as [d|]; [|done]. destruct (H d eq_refl) as [b ->]. unfold pbd_of.
  destruct b; cbn [bin_ok pb_data pb_len]; [done|]. apply Z.leb_le. lia.
Qed.
Lemma bins_ok l : Forall pbd_wf l -> forallb (fun d => bin_ok (Some d)) l = true.
Proof.
  intros H. apply forallb_forall. intros d Hd%list_elem_of_In. apply is_bin_ok. intros d' [= <-].
  by eapply (proj1 (Forall_forall _ _)) in H.
Qed.
Lemma opt_all_wf {A} (P : A -> Prop) f o : opt_wf P o -> (forall a, P a -> f a = true) -> opt_all f o = true.
Proof. intros H Hf. destruct o as [a|]; [|done]. apply Hf, H. done. Qed.

Lemma getlog_wf_readable g : getlog_wf g -> getlog_readable g = true.
Proof.
  intros (_&_&_&_&Hc&_&Hm&_&Hd). unfold getlog_readable. rewrite (is_bin_ok (gl_messages g)) by done.
  rewrite !andb_true_iff. split_and!; [|done|eapply opt_all_wf; [exact Hd|]; intros; by apply is_bin_ok].
  eapply opt_all_wf; [exact Hc|]. intros c (_&?&?&Hi&_). unfold configuration_readable. rewrite !is_bin_ok by done.
  apply forallb_forall. intros i Hin%list_elem_of_In. eapply (proj1 (Forall_forall _ _)) in Hi as (_&?&?&?); [|done].
  by rewrite !is_bin_ok.
Qed.
Lemma cmd_wf_readable c : cmd_wf c -> cmd_readable c = true.
Proof.
  intros (_ & Hb & Hs). unfold cmd_readable. apply andb_true_iff. split.
  - eapply opt_all_wf; [exact Hb|]. intros b (Hk & Hr & Hg & _ & Ha). rewrite !andb_true_iff. split_and!.
    + eapply opt_all_wf; [exact Hk|]. intros k (?&?&?&?&?&?). unfold kvbody_readable.
      by rewrite !is_bin_ok.
    + eapply opt_all_wf; [exact Hr|]. intros r (?&?&?&?&?&?&Hk'). unfold keyrange_readable.
      rewrite !is_bin_ok by done. by apply bins_ok.
    + eapply opt_all_wf; [exact Hg|]. apply getlog_wf_readable.
    + eapply opt_all_wf; [exact Ha|]. intros a (_&_&Hp&_&_&Ho&_). unfold kapplet_readable.
      rewrite (is_bin_ok (ma_outputkey a)), andb_true_r by done. by apply bins_ok.
  - eapply opt_all_wf; [exact Hs|]. intros s (_ & _ & ?). by apply is_bin_ok.
Qed.
Lemma msg_wf_readable m : msg_wf m -> msg_readable m = true.
Proof.
  intros (_ & Hh & Hp & Hc). unfold msg_readable. rewrite !andb_true_iff. split_and!.
  - eapply opt_all_wf; [exact Hh|]. intros h [_ ?]. by apply is_bin_ok.
  - eapply opt_all_wf; [exact Hp|]. intros p ?. by apply is_bin_ok.
  - by apply is_bin_ok.
Qed.

(** ** Booleans on the wire

    A [protobuf_c_boolean] is an [int]; packing writes 1 for any value but 0. *)
Definition norm_bool (o : option Z) : option Z := (fun v => if v =? 0 then 0 else 1) <$> o.
Definition norm_hdr (h : kproto_cmdhdr_t) : kproto_cmdhdr_t :=
  Cmdhdr (h_clusterversion h) (h_connectionid h) (h_sequence h) (h_acksequence h) (h_messagetype h)
    (h_timeout h) (norm_bool (h_earlyexit h)) (h_priority h) (h_timequanta h) (h_batchid h).
Definition norm_kv (k : kproto_kv_t) : kproto_kv_t :=
  Keyvalue (kp_newversion k) (norm_bool (kp_force k)) (kp_key k) (kp_dbversion k) (kp_tag k)
    (kp_algorithm k) (norm_bool (kp_metadataonly k)) (kp_synchronization k).
Definition norm_range (r : kproto_keyrange_t) : kproto_keyrange_t :=
  Keyrange (rg_startkey r) (rg_endkey r) (norm_bool (rg_startkeyinclusive r)) (norm_bool (rg_endkeyinclusive r))
    (rg_maxreturned r) (norm_bool (rg_reverse r)) (rg_keys r).
Definition norm_applet (a : kproto_kapplet_t) : kproto_kapplet_t :=
  Applet (ma_manageapplettype a) (ma_lang a) (ma_programkey a) (ma_programparam a) (ma_acknowledgemode a)
    (ma_outputkey a) (norm_bool (ma_setvalueinresponse a)).
Definition norm_body (b : kproto_body_t) : kproto_body_t :=
  Body (norm_kv <$> b_keyvalue b) (norm_range <$> b_range b) (b_getlog b) (b_batch b) (norm_applet <$> b_manageapplet b).
Definition norm_cmd (c : kproto_cmd_t) : kproto_cmd_t :=
  Command (norm_hdr <$> c_header c) (norm_body <$> c_body c) (c_status c).

Lemma norm_bool_idem o : norm_bool (norm_bool o) = norm_bool o.
Proof. destruct o as [v|]; [|done]. cbn. by destruct (v =? 0). Qed.
Lemma norm_bool_wf o : is_bool o -> norm_bool o = o.
Proof.
  intros H. destruct o as [v|]; [|done]. specialize (H v eq_refl). cbn. f_equal.
  destruct (Z.eqb_spec v 0); lia.
Qed.
Lemma fmap_same {A} (f : A -> A) (o : option A) : (forall a, o = Some a -> f a = a) -> f <$> o = o.
Proof. intros H. destruct o as [a|]; [|done]. cbn. by rewrite H. Qed.
Lemma norm_cmd_idem c : norm_cmd (norm_cmd c) = norm_cmd c.
Proof.
  destruct c as [h b s]. unfold norm_cmd. cbn. f_equal.
  - destruct h; [|done]. cbn. unfold norm_hdr. cbn. by rewrite norm_bool_idem.
  - destruct b as [[k r g bt a]|]; [|done]. cbn. unfold norm_body. cbn. do 2 f_equal.
    + destruct k; [|done]. cbn. unfold norm_kv. cbn. by rewrite !norm_bool_idem.
    + destruct r; [|done]. cbn. unfold norm_range. cbn. by rewrite !norm_bool_idem.
    + destruct a; [|done]. cbn. unfold norm_applet. cbn. by rewrite !norm_bool_idem.
Qed.
Lemma norm_cmd_wf c : cmd_wf c -> norm_cmd c = c.
Proof.
  destruct c as [h b s]. intros (Hh & Hb & _). unfold norm_cmd. cbn. f_equal; apply fmap_same.
  - intros x ->. destruct (Hh x eq_refl) as (_&_&_&_&_&_&H&_). destruct x. unfold norm_hdr. cbn in *.
    by rewrite norm_bool_wf.
  - intros x ->. destruct (Hb x eq_refl) as (Hk & Hr & _ & _ & Ha). destruct x as [k r g bt a]. unfold norm_body. cbn in *.
    f_equal; apply fmap_same.
    + intros y ->. destruct (Hk y eq_refl) as (_&?&_&_&_&_&?&_). destruct y. unfold norm_kv. cbn in *.
      by rewrite !norm_bool_wf.
    + intros y ->. destruct (Hr y eq_refl) as (_&_&?&?&_&?&_). destruct y. unfold norm_range. cbn in *.
      by rewrite !norm_bool_wf.
    + intros y ->. destruct (Ha y eq_refl) as (_&_&_&_&_&_&?). destruct y. unfold norm_applet. cbn in *.
      by rewrite !norm_bool_wf.
Qed.
Lemma norm_cmd_readable c : cmd_readable (norm_cmd c) = cmd_readable c.
Proof. destruct c as [h [[[] [] g bt []]|] s]; done. Qed.

(** ** The generated code and OpenSSL

    [*_pack] is the packed form, [*_packed_size] what [get_packed_size]
    answers, [*_unpack] the structure unpacking builds ([None]: not a message);
    [HMAC_SHA1 key data] is the digest, [None] when [HMAC_Init_ex] or
    [HMAC_Update] reports a failure.  The last three are numbers of the applet
    messages. *)
Class ProtoGen := {
  msg_pack : kproto_msg_t -> buffer;
  msg_packed_size : kproto_msg_t -> Z;
  msg_unpack : buffer -> option kproto_msg_t;
  cmd_pack : kproto_cmd_t -> buffer;
  cmd_packed_size : kproto_cmd_t -> Z;
  cmd_unpack : buffer -> option kproto_cmd_t;
  HMAC_SHA1 : buffer -> buffer -> option buffer;
  KMT_APPLET : Z; CSMAT_EXECUTE : Z; CSMAAM_ON_COMPLETION : Z }.

Definition SHA_DIGEST_LENGTH : Z := 20.

(** What the library relies on: the announced size is the size packed, packing
    and unpacking are inverse on what the wire can carry, a boolean is packed as 0
    or 1, a command with a header
    packs to some bytes, a SHA-1 digest has 20, an applet message is of no
    other type. *)
Class ProtoLaws {PG : ProtoGen} := {
  msg_packed_size_ok m : msg_packed_size m = zlen (msg_pack m);
  cmd_packed_size_ok c : cmd_packed_size c = zlen (cmd_pack c);
  msg_unpack_pack m : msg_wf m -> msg_unpack (msg_pack m) = Some m;
  cmd_unpack_pack c : cmd_wf c -> cmd_unpack (cmd_pack c) = Some c;
  cmd_pack_norm c : cmd_pack (norm_cmd c) = cmd_pack c;
  cmd_pack_nonempty c : c_header c <> None -> cmd_pack c <> [];
  HMAC_SHA1_len k d h : HMAC_SHA1 k d = Some h -> zlen h = SHA_DIGEST_LENGTH;
  KMT_APPLET_new : existsb (Z.eqb KMT_APPLET) [KMT_GET; KMT_PUT; KMT_DEL; KMT_GETNEXT; KMT_GETPREV; KMT_GETRANGE;
    KMT_GETVERS; KMT_GETLOG; KMT_PUSHP2P; KMT_NOOP; KMT_FLUSH; KMT_STARTBAT; KMT_ENDBAT; KMT_ABORTBAT] = false;
  applet_numbers : Forall (fun v => - 2 ^ 31 <= v < 2 ^ 31) [KMT_APPLET; CSMAT_EXECUTE; CSMAAM_ON_COMPLETION] }.

Lemma applet_other {PG : ProtoGen} {PL : ProtoLaws} t :
  t = KMT_NOOP \/ t = KMT_FLUSH \/ t = KMT_ABORTBAT -> existsb (Z.eqb t) [KMT_APPLET] = false.
Proof.
  pose proof KMT_APPLET_new as H. cbn [existsb] in H. rewrite !orb_false_iff in H. cbn [existsb].
  rewrite Z.eqb_sym, orb_false_r. intros [-> | [-> | ->]]; tauto.
Qed.
