(* ===== verification/ProtoModel.v ===== *)
(** The interface of the generated code can be met: a pack and unpack that are
    inverse on everything the wire can carry, and a digest of twenty bytes.
    The witnesses of the theorems over [ProtoLaws] run on this instance. *)

From stdpp Require Import countable.
From S2P Require Import Prelude Types Keys ProtoData.

(** *** Structures as tuples *)
Notation bin_tuple := (Z * option (list Z))%type.
Definition pbd_to (d : ProtobufCBinaryData) : bin_tuple := (pb_len d, pb_data d).
Definition pbd_from (t : bin_tuple) : ProtobufCBinaryData := Pbd t.1 t.2.

Definition msg_to (m : kproto_msg_t) :=
  (m_authtype m, (fun h => (ha_identity h, pbd_to <$> ha_hmac h)) <$> m_hmacauth m,
   (fun p => pbd_to <$> pa_pin p) <$> m_pinauth m, pbd_to <$> m_commandbytes m).
Definition msg_from (t : option Z * option (option Z * option bin_tuple) * option (option bin_tuple) *
    option bin_tuple) : kproto_msg_t :=
  let '(a, h, p, c) := t in
  Message a ((fun h => Hmacauth h.1 (pbd_from <$> h.2)) <$> h) ((fun p => Pinauth (pbd_from <$> p)) <$> p)
    (pbd_from <$> c).

Definition cmdhdr_to (h : kproto_cmdhdr_t) : list (option Z) :=
  [h_clusterversion h; h_connectionid h; h_sequence h; h_acksequence h; h_messagetype h;
   h_timeout h; h_earlyexit h; h_priority h; h_timequanta h; h_batchid h].
Definition cmdhdr_from (l : list (option Z)) : kproto_cmdhdr_t :=
  match l with
  | [a; b; c; d; e; f; g; h; i; j] => Cmdhdr a b c d e f g h i j
  | _ => cmdhdr_init
  end.
Definition kvbody_to (k : kproto_kv_t) :=
  (pbd_to <$> kp_newversion k, pbd_to <$> kp_key k, pbd_to <$> kp_dbversion k, pbd_to <$> kp_tag k,
   [kp_force k; kp_algorithm k; kp_metadataonly k; kp_synchronization k]).
Definition kvbody_from (t : option bin_tuple * option bin_tuple * option bin_tuple * option bin_tuple *
    list (option Z)) : kproto_kv_t :=
  let '(n, k, d, t, l) := t in
  match l with
  | [f; a; m; s] => Keyvalue (pbd_from <$> n) f (pbd_from <$> k) (pbd_from <$> d) (pbd_from <$> t) a m s
  | _ => kv_init
  end.
Definition range_to (r : kproto_keyrange_t) :=
  (pbd_to <$> rg_startkey r, pbd_to <$> rg_endkey r,
   [rg_startkeyinclusive r; rg_endkeyinclusive r; rg_maxreturned r; rg_reverse r], pbd_to <$> rg_keys r).
Definition range_from (t : option bin_tuple * option bin_tuple * list (option Z) * list bin_tuple) :
    kproto_keyrange_t :=
  let '(s, e, l, k) := t in
  match l with
  | [a; b; c; d] => Keyrange (pbd_from <$> s) (pbd_from <$> e) a b c d (pbd_from <$> k)
  | _ => keyrange_init
  end.
Definition batch_to (b : kproto_batch_t) := (bt_count b, bt_sequence b, bt_failedsequence b).
Definition batch_from (t : option Z * list Z * option Z) : kproto_batch_t :=
  let '(a, b, c) := t in Batchbody a b c.
Notation str := (option (list Z)).
Notation ints := (list (option Z)).
Definition util_to (u : kproto_utilization_t) : str * option Z := (ut_name u, ut_value u).
Definition util_from (t : str * option Z) : kproto_utilization_t := Utilization t.1 t.2.
Definition temp_to (t : kproto_temperature_t) : str * ints :=
  (te_name t, [te_current t; te_minimum t; te_maximum t; te_target t]).
Definition temp_from (t : str * ints) : kproto_temperature_t :=
  match t.2 with [a; b; c; d] => Temperature t.1 a b c d | _ => Temperature None None None None None end.
Definition cap_to (c : kproto_capacity_t) : option Z * option Z := (ca_nominal c, ca_portionfull c).
Definition cap_from (t : option Z * option Z) : kproto_capacity_t := Capacity t.1 t.2.
Definition if_to (i : kproto_interface_t) : str * list (option bin_tuple) :=
  (in_name i, [pbd_to <$> in_mac i; pbd_to <$> in_ipv4address i; pbd_to <$> in_ipv6address i]).
Definition if_from (t : str * list (option bin_tuple)) : kproto_interface_t :=
  match t.2 with
  | [a; b; c] => Interface t.1 (pbd_from <$> a) (pbd_from <$> b) (pbd_from <$> c)
  | _ => Interface None None None None
  end.
Definition conf_to (c : kproto_configuration_t) :=
  ([cf_vendor c; cf_model c; cf_version c; cf_compilationdate c; cf_sourcehash c;
    cf_protocolversion c; cf_protocolcompilationdate c; cf_protocolsourcehash c],
   (pbd_to <$> cf_serialnumber c, pbd_to <$> cf_worldwidename c), if_to <$> cf_interface c,
   [cf_port c; cf_tlsport c; cf_currentpowerlevel c]).
Definition conf_from (t : list str * (option bin_tuple * option bin_tuple) *
    list (str * list (option bin_tuple)) * ints) : kproto_configuration_t :=
  let '(s, (sn, wwn), ifs, n) := t in
  match s, n with
  | [v; m; ve; cd; sh; pv; pcd; psh], [p; tp; pl] =>
      Configuration v m (pbd_from <$> sn) (pbd_from <$> wwn) ve cd sh pv pcd psh (if_from <$> ifs) p tp pl
  | _, _ => Configuration None None None None None None None None None None [] None None None
  end.
Definition stat_to (s : kproto_statistics_t) : ints := [sx_messagetype s; sx_count s; sx_bytes s; sx_maxlatency s].
Definition stat_from (t : ints) : kproto_statistics_t :=
  match t with [a; b; c; d] => Statistics a b c d | _ => Statistics None None None None end.
Definition limits_to (l : kproto_limits_t) : ints :=
  [li_maxkeysize l; li_maxvaluesize l; li_maxversionsize l; li_maxtagsize l; li_maxconnections l;
   li_maxoutstandingreadrequests l; li_maxoutstandingwriterequests l; li_maxmessagesize l;
   li_maxkeyrangecount l; li_maxidentitycount l; li_maxpinsize l; li_maxoperationcountperbatch l;
   li_maxbatchcountperdevice l; li_maxbatchsize l; li_maxdeletesperbatch l].
Definition limits_from (t : ints) : kproto_limits_t :=
  match t with
  | [a; b; c; d; e; f; g; h; i; j; k; l; m; n; o] => Limits a b c d e f g h i j k l m n o
  | _ => Limits None None None None None None None None None None None None None None None
  end.
Definition dev_to (d : kgetlog_device_info) : option bin_tuple := pbd_to <$> dv_name d.
Definition dev_from (t : option bin_tuple) : kgetlog_device_info := Device (pbd_from <$> t).
Definition getlog_to (g : kproto_getlog_t) :=
  (gl_types g, util_to <$> gl_utilizations g, temp_to <$> gl_temperatures g, cap_to <$> gl_capacity g,
   conf_to <$> gl_configuration g, stat_to <$> gl_statistics g, pbd_to <$> gl_messages g,
   limits_to <$> gl_limits g, dev_to <$> gl_device g).
Definition getlog_from t : kproto_getlog_t :=
  let '(ty, u, te, c, cf, st, m, l, d) := t in
  Getlog ty (util_from <$> u) (temp_from <$> te) (cap_from <$> c) (conf_from <$> cf) (stat_from <$> st)
    (pbd_from <$> m) (limits_from <$> l) (dev_from <$> d).
Definition applet_to (a : kproto_kapplet_t) :=
  ([ma_manageapplettype a; ma_lang a; ma_acknowledgemode a; ma_setvalueinresponse a],
   pbd_to <$> ma_programkey a, ma_programparam a, pbd_to <$> ma_outputkey a).
Definition applet_from (t : ints * list bin_tuple * list (list Z) * option bin_tuple) : kproto_kapplet_t :=
  let '(l, k, p, o) := t in
  match l with
  | [t; l; a; s] => Applet t l (pbd_from <$> k) p a (pbd_from <$> o) s
  | _ => mapplet_init
  end.
Definition body_to (b : kproto_body_t) :=
  let rest := (kvbody_to <$> b_keyvalue b, range_to <$> b_range b, batch_to <$> b_batch b) in
  match b_getlog b, b_manageapplet b with
  | None, None => inl rest
  | g, a => inr (getlog_to <$> g, applet_to <$> a, rest)
  end.
Definition rest_from g a t : kproto_body_t :=
  let '(k, r, b) := t in Body (kvbody_from <$> k) (range_from <$> r) g (batch_from <$> b) a.
Definition body_from t : kproto_body_t :=
  match t with inl t => rest_from None None t | inr (g, a, t) => rest_from (getlog_from <$> g) (applet_from <$> a) t end.
Definition status_to (s : kproto_status_t) := (st_code s, st_statusmessage s, pbd_to <$> st_detailedmessage s).
Definition status_from (t : option Z * option (list Z) * option bin_tuple) : kproto_status_t :=
  let '(a, b, c) := t in Status a b (pbd_from <$> c).
Definition cmd_to (c : kproto_cmd_t) :=
  (cmdhdr_to <$> c_header c, body_to <$> c_body c, status_to <$> c_status c).
Definition cmd_from t : kproto_cmd_t :=
  let '(h, b, s) := t in Command (cmdhdr_from <$> h) (body_from <$> b) (status_from <$> s).

Lemma fmap_inv {A B} (f : A -> B) (g : B -> A) (o : option A) :
  (forall a, o = Some a -> g (f a) = a) -> g <$> (f <$> o) = o.
Proof. intros H. destruct o as [a|]; [|done]. cbn. by rewrite H. Qed.
Lemma pbd_from_to d : pbd_from (pbd_to d) = d.
Proof. by destruct d. Qed.
Lemma pbds_from_to (o : option ProtobufCBinaryData) : pbd_from <$> (pbd_to <$> o) = o.
Proof. apply fmap_inv. intros d _. apply pbd_from_to. Qed.

Lemma msg_from_to m : msg_from (msg_to m) = m.
Proof.
  destruct m as [a h p c]. unfold msg_to, msg_from. cbn. f_equal; [| |apply pbds_from_to].
  - apply fmap_inv. intros [i d] _. cbn. by rewrite pbds_from_to.
  - apply fmap_inv. intros [d] _. cbn. by rewrite pbds_from_to.
Qed.

Lemma fmap_list_inv {A B} (f : A -> B) (g : B -> A) (l : list A) : (forall a, g (f a) = a) -> g <$> (f <$> l) = l.
Proof. intros H. induction l as [|a l IH]; [done|]. cbn. by rewrite H, IH. Qed.

Lemma getlog_from_to g : getlog_from (getlog_to g) = g.
Proof.
  destruct g as [ty u te c cf st m l d]. unfold getlog_to, getlog_from. cbn.
  f_equal; try apply fmap_list_inv; try apply fmap_inv; try (by intros []).
  - intros [] _. cbn. rewrite !pbds_from_to. f_equal. apply fmap_list_inv. intros []. unfold if_from, if_to. cbn.
    by rewrite !pbds_from_to.
  - intros [] _. unfold dev_to, dev_from. cbn. by rewrite pbds_from_to.
Qed.

Lemma applet_from_to a : applet_from (applet_to a) = a.
Proof.
  destruct a. unfold applet_to, applet_from. cbn. rewrite pbds_from_to. f_equal. apply fmap_list_inv, pbd_from_to.
Qed.

Lemma cmd_from_to c : cmd_from (cmd_to c) = c.
Proof.
  destruct c as [h b s]. unfold cmd_to, cmd_from. cbn. f_equal; apply fmap_inv.
  - intros [] _. done.
  - intros [k r g bt a] _. transitivity (rest_from g a (kvbody_to <$> k, range_to <$> r, batch_to <$> bt)).
    { assert (getlog_from <$> (getlog_to <$> g) = g) as Hg by (apply fmap_inv; intros; apply getlog_from_to).
      assert (applet_from <$> (applet_to <$> a) = a) as Ha by (apply fmap_inv; intros; apply applet_from_to).
      unfold body_to, body_from. cbn [b_getlog b_keyvalue b_range b_batch b_manageapplet].
      destruct g, a; rewrite ?Hg, ?Ha; done. }
    unfold rest_from. f_equal; apply fmap_inv.
    + intros [] _. cbn. by rewrite !pbds_from_to.
    + intros [? ? ? ? ? ? ks] _. cbn. rewrite !pbds_from_to. f_equal. apply fmap_list_inv. exact pbd_from_to.
    + intros [] _. done.
  - intros [] _. cbn. by rewrite pbds_from_to.
Qed.

(** *** Bytes *)
Fixpoint pos_bits (p : positive) : buffer :=
  match p with xH => [] | xO p => 0 :: pos_bits p | xI p => 1 :: pos_bits p end.
Fixpoint bits_pos (b : buffer) : positive :=
  match b with [] => xH | x :: b => if x =? 0 then xO (bits_pos b) else xI (bits_pos b) end.
Lemma bits_pos_bits p : bits_pos (pos_bits p) = p.
Proof. induction p as [p IH|p IH|]; cbn; by rewrite ?IH. Qed.

Definition bytes_of {A} `{Countable A} (a : A) : buffer := 7 :: pos_bits (encode a).
Definition of_bytes {A} `{Countable A} (b : buffer) : option A :=
  match b with _ :: b => decode (bits_pos b) | [] => None end.
Lemma of_bytes_of {A} `{Countable A} (a : A) : of_bytes (bytes_of a) = Some a.
Proof. unfold of_bytes, bytes_of. by rewrite bits_pos_bits, decode_encode. Qed.

Definition digest_of (k d : buffer) : buffer :=
  take 20 (map (fun b => b mod 256) (k ++ rev d) ++ replicate 20 0).

#[export] Instance model_gen : ProtoGen := {
  msg_pack m := bytes_of (msg_to m);
  msg_packed_size m := zlen (bytes_of (msg_to m));
  msg_unpack b := msg_from <$> of_bytes b;
  cmd_pack c := bytes_of (cmd_to (norm_cmd c));
  cmd_packed_size c := zlen (bytes_of (cmd_to (norm_cmd c)));
  cmd_unpack b := cmd_from <$> of_bytes b;
  HMAC_SHA1 k d := Some (digest_of k d);
  KMT_APPLET := 50; CSMAT_EXECUTE := 1; CSMAAM_ON_COMPLETION := 2 }.

#[export] Instance model_laws : ProtoLaws.
Proof.
  split; cbn [msg_pack msg_packed_size msg_unpack cmd_pack cmd_packed_size cmd_unpack HMAC_SHA1 model_gen].
  - done.
  - done.
  - intros m _. rewrite of_bytes_of. apply (f_equal Some), msg_from_to.
  - intros c Hc. rewrite norm_cmd_wf, of_bytes_of by done. apply (f_equal Some), cmd_from_to.
  - intros c. by rewrite norm_cmd_idem.
  - done.
  - intros k d h [= <-]. unfold digest_of, zlen. rewrite length_take, length_app, length_replicate.
    change SHA_DIGEST_LENGTH with 20. lia.
  - done.
  - by repeat constructor.
Qed.
