(* ===== verification/Proto.v ===== *)
(** Building, packing and taking apart messages: [src/protocol_interface.c].

    Structures on the C stack are values; a message or command in allocated
    memory is a value too, and the number of blocks it owns is counted in the
    allocator when it is made and when it is destroyed.  [UNALLOC_VAL], the
    pointer [KI_FREE] leaves, is [None]: no byte can be read through it. *)

From S2P Require Import Prelude Types Pdu Keys ProtoData.

Section proto.
Context {PG : ProtoGen}.
Notation M := (ST mem).

Definition sizeof_msg : Z := 72.
Definition sizeof_hmacauth : Z := 64.
Definition sizeof_pinauth : Z := 48.

Definition add_live (n : Z) : M unit := modify_st (fun s => Mem (m_count s) (m_malloc s) (m_live s + n)).


(** The generated unpack code asks for its blocks one by one and gives them all
    back when one is refused: one question to the allocator for all of them. *)
Definition pb_alloc (blocks : Z) : M bool :=
  b ← KI_MALLOC blocks;
  match b with None => mret false | Some _ => add_live (blocks - 1) ;; mret true end.

(** [free_unpacked] accepts NULL *)
Definition destroy_message (unpacked_msg : option kproto_msg_t) : M unit :=
  match unpacked_msg with None => mret tt | Some m => add_live (- msg_blocks m) end.
Definition destroy_command (unpacked_cmd : option kproto_cmd_t) : M unit :=
  match unpacked_cmd with None => mret tt | Some c => add_live (- cmd_blocks c) end.

(** [KI_FREE] of a binary field's data: freeing NULL does nothing. *)
Definition free_data (d : option buffer) : M unit :=
  match d with Some _ => KI_FREE | None => mret tt end.

Definition pack_kinetic_command (cmd_data : kproto_cmd_t) : M ProtobufCBinaryData :=
  let command_size := cmd_packed_size cmd_data in
  command_buffer ← KI_MALLOC command_size;
  match command_buffer with
  | None => mret pbd0
  | Some _ =>
      assert_st (cmd_readable cmd_data) ;;
      let packed := cmd_pack cmd_data in
      if negb (zlen packed =? command_size) then mret pbd0
      else mret (Pbd (zlen packed) (Some packed))
  end.

Definition unpack_kinetic_command (commandbytes : ProtobufCBinaryData) : M (option kproto_cmd_t) :=
  b ← lift (pbd_bytes commandbytes);
  match cmd_unpack b with
  | None => mret None
  | Some c => ok ← pb_alloc (cmd_blocks c); mret (if ok : bool then Some c else None)
  end.

(** On success the buffer and its size *)
Definition pack_kinetic_message (msg_data : kproto_msg_t) : M (option (buffer * Z)) :=
  let msg_size := msg_packed_size msg_data in
  msg_buffer ← KI_MALLOC msg_size;
  match msg_buffer with
  | None => mret None
  | Some _ =>
      assert_st (msg_readable msg_data) ;;
      let packed := msg_pack msg_data in
      if negb (zlen packed =? msg_size) then KI_FREE ;; mret None
      else mret (Some (packed, msg_size))
  end.

Definition unpack_kinetic_message (response_buffer : option buffer) (response_size : Z) :
    M (option kproto_msg_t) :=
  b ← lift (pbd_bytes (Pbd response_size response_buffer));
  match msg_unpack b with
  | None => mret None
  | Some m => ok ← pb_alloc (msg_blocks m); mret (if ok : bool then Some m else None)
  end.

(** [set_primitive_optional] under a test *)
Definition set_if (v : Z) : option Z := if v =? 0 then None else Some v.

Definition extract_to_command_header (cmdhdr_data : kcmdhdr_t) : kproto_cmdhdr_t :=
  Cmdhdr (Some (kch_clustvers cmdhdr_data)) (Some (kch_connid cmdhdr_data))
    (Some (kch_seq cmdhdr_data)) None (Some (kch_type cmdhdr_data))
    (set_if (kch_timeout cmdhdr_data)) None (set_if (kch_pri cmdhdr_data))
    (set_if (kch_quanta cmdhdr_data)) (set_if (kch_bid cmdhdr_data)).

(** What the [void *] handed to [create_command_bytes] points to *)
Inductive proto_cmd_data : Type :=
  | PNone | PKv (k : kproto_kv_t) | PGetlog (g : kproto_getlog_t)
  | PRange (r : kproto_keyrange_t) | PBatch (b : kproto_batch_t)
  | PApplet (a : kproto_kapplet_t).

(** The switch: reading the data at another type than its own has no meaning,
    and NULL leaves the member NULL. *)
Definition stitch_body (messagetype : Z) (d : proto_cmd_data) : outcome kproto_body_t :=
  let one_of l := existsb (Z.eqb messagetype) l in
  if one_of [KMT_GET; KMT_GETVERS; KMT_GETNEXT; KMT_GETPREV; KMT_PUT; KMT_DEL] then
    match d with PKv k => Ok (Body (Some k) None None None None) | PNone => Ok body_init | _ => Ub end
  else if one_of [KMT_GETLOG] then
    match d with PGetlog g => Ok (Body None None (Some g) None None) | PNone => Ok body_init | _ => Ub end
  else if one_of [KMT_GETRANGE] then
    match d with PRange r => Ok (Body None (Some r) None None None) | PNone => Ok body_init | _ => Ub end
  else if one_of [KMT_STARTBAT; KMT_ENDBAT] then
    match d with PBatch b => Ok (Body None None None (Some b) None) | PNone => Ok body_init | _ => Ub end
  else if one_of [KMT_APPLET] then
    match d with PApplet a => Ok (Body None None None None (Some a)) | PNone => Ok body_init | _ => Ub end
  else Ok body_init.

Definition create_command_bytes (cmd_hdr : kcmdhdr_t) (d : proto_cmd_data) : M ProtobufCBinaryData :=
  let proto_cmd_hdr := extract_to_command_header cmd_hdr in
  proto_cmdbdy ← lift (stitch_body (kch_type cmd_hdr) d);
  pack_kinetic_command (Command (Some proto_cmd_hdr) (Some proto_cmdbdy) None).

(** [strlen] *)
Fixpoint strlen (s : buffer) : Z :=
  match s with [] => 0 | c :: s => if c =? 0 then 0 else 1 + strlen s end.

Definition create_message (msg_hdr : kmsghdr_t) (cmd_bytes : ProtobufCBinaryData) :
    M (option kproto_msg_t) :=
  m ← KI_MALLOC sizeof_msg;
  match m with
  | None => mret None
  | Some _ =>
      let cb := if negb (pb_len cmd_bytes =? 0) && bool_decide (pb_data cmd_bytes <> None)
                then Some cmd_bytes else None in
      if kmh_atype msg_hdr =? KAT_HMAC then
        h ← KI_MALLOC sizeof_hmacauth;
        match h with
        | None => mret None
        | Some _ =>
            s ← deref_st (kmh_hmac msg_hdr);
            mret (Some (Message (Some KAT_HMAC)
              (Some (Hmacauth (Some (kmh_id msg_hdr)) (Some (Pbd (strlen s) (Some s))))) None cb))
        end
      else if kmh_atype msg_hdr =? KAT_PIN then
        p ← KI_MALLOC sizeof_pinauth;
        match p with
        | None => mret None
        | Some _ =>
            mret (Some (Message (Some KAT_PIN) None
              (Some (Pinauth (Some (Pbd (kmh_pinlen msg_hdr) (kmh_pin msg_hdr))))) cb))
        end
      else mret None
  end.

(** [calc_total_len] *)
Fixpoint calc_loop (byte_fragments : list kiovec) (n : nat) (i total_len : Z) : M Z :=
  match n with
  | O => mret total_len
  | S n =>
      v ← array_rd byte_fragments i;
      calc_loop byte_fragments n (i + 1) (u64 (total_len + kiov_len v))
  end.
Definition calc_total_len (byte_fragments : list kiovec) (fragment_count : Z) : M Z :=
  calc_loop byte_fragments (Z.to_nat fragment_count) 0 0.

(** The gathering loop of [keyname_to_proto]: [off] is where the alias points. *)
Fixpoint gather_loop (keynames : list kiovec) (n : nat) (i : Z) (key_buffer : buffer) (off : Z) : M buffer :=
  match n with
  | O => mret key_buffer
  | S n =>
      v ← array_rd keynames i;
      bs ← lift (iov_bytes v);
      if off + kiov_len v <=? zlen key_buffer then
        gather_loop keynames n (i + 1)
          (take (Z.to_nat off) key_buffer ++ bs ++ drop (Z.to_nat (off + kiov_len v)) key_buffer)
          (off + kiov_len v)
      else ub_st
  end.

(** [keyname_to_proto]: [None] is its answer 0, with nothing written. *)
Definition keyname_to_proto (keynames : option (list kiovec)) (keycnt : Z) : M (option ProtobufCBinaryData) :=
  match keynames with
  | None => mret None
  | Some keynames =>
      total_keylen ← calc_loop keynames (Z.to_nat keycnt) 0 0;
      key_buffer ← KI_MALLOC total_keylen;
      match key_buffer with
      | None => mret None
      | Some key_buffer =>
          key_buffer ← gather_loop keynames (Z.to_nat keycnt) 0 key_buffer 0;
          mret (Some (Pbd total_keylen (Some key_buffer)))
      end
  end.

(** [helper_bytes_to_str] *)
Definition helper_bytes_to_str (proto_bytes : ProtobufCBinaryData) : M (option buffer) :=
  s ← KI_MALLOC (pb_len proto_bytes + 1);
  match s with
  | None => mret None
  | Some _ => bs ← lift (pbd_bytes proto_bytes); mret (Some (bs ++ [0]))
  end.

Definition extract_cmdstatus_code (protobuf_command : option kproto_cmd_t) : Z :=
  match protobuf_command with
  | None => K_EINTERNAL
  | Some c => default K_EINTERNAL (c_status c ≫= st_code)
  end.

(** [extract_cmdstatus_msg], [extract_cmdstatus_dmsg]: the status, and the
    string and length stored in the caller's variables ([None]: not written). *)
Definition extract_cmdstatus_msg (protobuf_command : option kproto_cmd_t) :
    M (Z * option (option buffer * Z)) :=
  match protobuf_command ≫= c_status with
  | None => mret (K_EINTERNAL, None)
  | Some response_status =>
      sm ← deref_st (st_statusmessage response_status);
      let len := strlen sm + 1 in
      msg ← KI_MALLOC len;
      match msg with
      | None => mret (K_EINTERNAL, Some (None, len))
      | Some _ => mret (K_OK, Some (Some (take (Z.to_nat (strlen sm)) sm ++ [0]), len))
      end
  end.

(** The copy reads [*len], one byte more than the field holds; the terminator
    is assigned to [msg[*len-1]], a pointer of the caller's memory, which has a
    meaning only when that is [*msg] itself. *)
Definition extract_cmdstatus_dmsg (protobuf_command : option kproto_cmd_t) :
    M (Z * option (option buffer * Z)) :=
  match protobuf_command ≫= c_status with
  | None => mret (K_EINTERNAL, None)
  | Some response_status =>
      match st_detailedmessage response_status with
      | None => mret (K_OK, None)
      | Some dm =>
          let len := pb_len dm + 1 in
          msg ← KI_MALLOC len;
          match msg with
          | None => mret (K_EINTERNAL, Some (None, len))
          | Some _ =>
              _ ← lift (pbd_bytes (Pbd len (pb_data dm)));
              if len =? 1 then mret (K_OK, Some (None, len)) else ub_st
          end
      end
  end.

(** [extract_cmdhdr]: the status and the header with what the response gave. *)
Definition extract_cmdhdr (kinetic_msg : option kproto_msg_t) (cmdhdr_data : kcmdhdr_t) :
    M (Z * kcmdhdr_t) :=
  match kinetic_msg ≫= m_commandbytes with
  | None => mret (K_EINTERNAL, cmdhdr_data)
  | Some cb =>
      response_cmd ← unpack_kinetic_command cb;
      match response_cmd with
      | None => mret (K_EINTERNAL, cmdhdr_data)
      | Some c =>
          h ← deref_st (c_header c);
          let d := cmdhdr_data in
          let d := Kcmdhdr (default (kch_clustvers d) (h_clusterversion h))
                     (default (kch_connid d) (h_connectionid h)) (kch_seq d) (kch_ackseq d) (kch_type d)
                     (default (kch_timeout d) (h_timeout h)) (default (kch_pri d) (h_priority h))
                     (default (kch_quanta d) (h_timequanta h)) (kch_qexit d)
                     (default (kch_bid d) (h_batchid h)) in
          let krc := extract_cmdstatus_code response_cmd in
          destroy_command response_cmd ;;
          mret (krc, d)
      end
  end.

(** [compute_hmac]: the result code and the message with its digest.  The
    digest of a message with command bytes covers their length, big endian, and
    the bytes.  [HMAC_Final] writes through the unchecked allocation and
    through [hmacauth]. *)
Definition hmac_data (m : kproto_msg_t) : outcome buffer :=
  match m_commandbytes m with
  | None => Ok []
  | Some cb => b ← pbd_bytes cb; Ok (pack_u32 (htonl (u32 (pb_len cb))) ++ b)
  end.

Definition compute_hmac (msg_data : kproto_msg_t) (key : option buffer) (key_len : Z) :
    M (Z * kproto_msg_t) :=
  k ← lift (pbd_bytes (Pbd key_len key));
  d ← lift (hmac_data msg_data);
  match HMAC_SHA1 k d with
  | None => mret (-1, msg_data)
  | Some digest =>
      p ← KI_MALLOC SHA_DIGEST_LENGTH;
      _ ← deref_st p;
      h ← deref_st (m_hmacauth msg_data);
      mret (1, set_m_hmacauth (Some (Hmacauth (ha_identity h)
                  (Some (Pbd SHA_DIGEST_LENGTH (Some digest))))) msg_data)
  end.

(** ** Helpers for KTLI *)
Definition ki_getaseq (msg : list kiovec) (msgcnt : Z) : M Z :=
  if Z.of_nat KIOV_MSG >=? msgcnt then mret 0 else
  p ← array_rd msg (Z.of_nat KIOV_PDU);
  pb ← deref_st (kiov_base p);
  pdu ← lift (UNPACK_PDU pb);
  v ← array_rd msg (Z.of_nat KIOV_MSG);
  tmp_msg ← unpack_kinetic_message (kiov_base v) (kp_msglen pdu);
  match tmp_msg with
  | None => mret 0
  | Some m =>
      tmp_cmd ← unpack_kinetic_command (default pbd0 (m_commandbytes m));
      c ← deref_st tmp_cmd;
      h ← deref_st (c_header c);
      let ack_seq := default (u64 (-1)) (h_acksequence h) in
      destroy_command tmp_cmd ;;
      destroy_message tmp_msg ;;
      mret ack_seq
  end.

(** The vector after [ki_setseq]; a message that cannot be repacked is left
    with the freed pointer and its old length. *)
Definition ki_setseq (msg : list kiovec) (msgcnt seq : Z) : M (list kiovec) :=
  if Z.of_nat KIOV_MSG >=? msgcnt then mret msg else
  v ← array_rd msg (Z.of_nat KIOV_MSG);
  tmp_msg ← unpack_kinetic_message (kiov_base v) (kiov_len v);
  match tmp_msg with
  | None => mret msg
  | Some m =>
      let cb := default pbd0 (m_commandbytes m) in
      tmp_cmd ← unpack_kinetic_command cb;
      c ← deref_st tmp_cmd;
      h ← deref_st (c_header c);
      let c := set_c_header (Some (set_h_sequence (Some seq) h)) c in
      free_data (pb_data cb) ;;
      cb ← pack_kinetic_command c;
      let m := set_m_commandbytes (Some cb) m in
      ha ← deref_st (m_hmacauth m);
      let hm := default pbd0 (ha_hmac ha) in
      '(_, m) ← compute_hmac m (pb_data hm) (u32 (pb_len hm));
      free_data (kiov_base v) ;;
      r ← pack_kinetic_message m;
      let v' := match r with Some (b, n) => Kiovec (Some b) n | None => Kiovec None (kiov_len v) end in
      msg ← array_wr msg (Z.of_nat KIOV_MSG) v';
      p ← array_rd msg (Z.of_nat KIOV_PDU);
      pb ← deref_st (kiov_base p);
      pdu ← lift (UNPACK_PDU pb);
      let pdu := Kpdu (kp_magic pdu) (u32 (kiov_len v')) (kp_vallen pdu) in
      msg ← array_wr msg (Z.of_nat KIOV_PDU)
              (Kiovec (Some (PACK_PDU pdu ++ drop (Z.to_nat KP_PLENGTH) pb)) (kiov_len p));
      destroy_command (Some c) ;;
      destroy_message (Some m) ;;
      mret msg
  end.

(** [unpack_response] *)
Definition unpack_response (response_buffer : kiovec) : M (option kproto_cmd_t) :=
  c ← unpack_kinetic_command (Pbd (kiov_len response_buffer) (kiov_base response_buffer));
  match (c ≫= c_body) ≫= b_getlog with
  | None => mret None
  | Some _ => mret c
  end.

(** ** Answers of the drive

    [extract_status] ([src/batch.c]) and the extraction the other operations
    begin with. *)
Definition extract_status (resp_msg : kproto_msg_t) : M Z :=
  match m_commandbytes resp_msg with
  | None => mret K_EINTERNAL
  | Some cb =>
      resp_cmd ← unpack_kinetic_command cb;
      match resp_cmd with
      | None => mret K_EINTERNAL
      | Some _ =>
          let krc := extract_cmdstatus_code resp_cmd in
          destroy_command resp_cmd ;;
          mret krc
      end
  end.
End proto.
