(* ===== verification/ProtoSpec.v ===== *)
(** What [Proto.v] promises: the request that reaches the wire after KTLI has
    stamped it, the acknowledged sequence read from a response, the answers'
    status, and the balance of the allocations. *)

From S2P Require Import Prelude Types Pdu Keys ProtoData ProtoModel Proto.

(** ** Running under an allocator that never refuses

    [adv k l s] is [s] after [k] requests, with [l] more blocks alive. *)
Definition adv (k : nat) (l : Z) (s : mem) : mem := Mem (k + m_count s) (m_malloc s) (m_live s + l).

Lemma adv_adv k l k' l' s : adv k l (adv k' l' s) = adv (k + k') (l' + l) s.
Proof. unfold adv. cbn. f_equal; lia. Qed.
Lemma adv_0 s : adv 0 0 s = s.
Proof. unfold adv. destruct s. cbn. f_equal. lia. Qed.
Lemma adv_ok k l s : mem_ok s -> mem_ok (adv k l s).
Proof. intros H. exact H. Qed.
Lemma adv_live k l s : m_live (adv k l s) = m_live s + l.
Proof. done. Qed.

Create HintDb kproto.
#[export] Hint Resolve adv_ok : kproto.
#[export] Hint Rewrite adv_adv : kproto.

Lemma KI_MALLOC_adv s size :
  mem_ok s -> exists b, KI_MALLOC size s = Ok (Some b, adv 1 1 s) /\ zlen b = Z.max 0 size.
Proof.
  intros H. unfold KI_MALLOC. destruct (H (m_count s) size) as [f ->].
  eexists. split; [done|]. unfold zlen. rewrite length_fmap, length_seq. lia.
Qed.
Lemma KI_FREE_adv s : KI_FREE s = Ok (tt, adv 0 (-1) s).
Proof. done. Qed.
Lemma add_live_adv n s : add_live n s = Ok (tt, adv 0 n s).
Proof. done. Qed.

Lemma pb_alloc_adv s n : mem_ok s -> pb_alloc n s = Ok (true, adv 1 n s).
Proof.
  intros H. unfold pb_alloc. destruct (KI_MALLOC_adv s n H) as (b & E & _).
  erewrite bind_Ok by exact E. cbv beta iota. erewrite bind_Ok by apply add_live_adv.
  rewrite adv_adv. unfold mret, ST_ret. do 3 f_equal. lia.
Qed.

Lemma deref_Some {S A} (o : option A) a (s : S) : o = Some a -> deref_st o s = Ok (a, s).
Proof. by intros ->. Qed.

(** *** Binary fields *)
Lemma pbd_of_bytes b : pbd_bytes (pbd_of b) = Ok b.
Proof.
  unfold pbd_bytes, pbd_of. destruct b as [|x b]; [done|]. cbn [pb_data pb_len].
  apply iov_bytes_full.
Qed.
Lemma pbd_of_nonempty b : b <> [] -> pbd_of b = Pbd (zlen b) (Some b).
Proof. by destruct b. Qed.
Lemma pbd_of_wf b : pbd_wf (pbd_of b).
Proof. by exists b. Qed.
Lemma free_data_adv d s : free_data d s = Ok (tt, adv 0 (- match d with Some _ => 1 | None => 0 end) s).
Proof. destruct d; [done|]. unfold free_data, mret, ST_ret. by rewrite Z.opp_0, adv_0. Qed.
#[export] Hint Resolve pbd_of_wf : kproto.

Section proto.
Context {PG : ProtoGen} {PL : ProtoLaws}.
Implicit Types (s : mem) (m : kproto_msg_t) (c : kproto_cmd_t) (h : kproto_cmdhdr_t).

Lemma pack_command_run s c :
  mem_ok s -> cmd_wf c ->
  pack_kinetic_command c s = Ok (Pbd (zlen (cmd_pack c)) (Some (cmd_pack c)), adv 1 1 s).
Proof.
  intros Hs Hc. unfold pack_kinetic_command. destruct (KI_MALLOC_adv s (cmd_packed_size c) Hs) as (b & E & _).
  erewrite bind_Ok by exact E. cbv beta iota. rewrite cmd_wf_readable by done.
  erewrite bind_Ok by done. cbv beta zeta. by rewrite cmd_packed_size_ok, Z.eqb_refl.
Qed.

Lemma pack_message_run s m :
  mem_ok s -> msg_wf m ->
  pack_kinetic_message m s = Ok (Some (msg_pack m, zlen (msg_pack m)), adv 1 1 s).
Proof.
  intros Hs Hm. unfold pack_kinetic_message. destruct (KI_MALLOC_adv s (msg_packed_size m) Hs) as (b & E & _).
  erewrite bind_Ok by exact E. cbv beta iota. rewrite msg_wf_readable by done.
  erewrite bind_Ok by done. cbv beta zeta. by rewrite msg_packed_size_ok, Z.eqb_refl.
Qed.

Lemma unpack_command_run s c d :
  mem_ok s -> cmd_wf c -> pbd_bytes d = Ok (cmd_pack c) ->
  unpack_kinetic_command d s = Ok (Some c, adv 1 (cmd_blocks c) s).
Proof.
  intros Hs Hc Hd. unfold unpack_kinetic_command. erewrite bind_Ok by by apply lift_Ok.
  cbv beta. rewrite cmd_unpack_pack by done. by erewrite bind_Ok by by apply pb_alloc_adv.
Qed.

Lemma unpack_message_run s m b n :
  mem_ok s -> msg_wf m -> pbd_bytes (Pbd n b) = Ok (msg_pack m) ->
  unpack_kinetic_message b n s = Ok (Some m, adv 1 (msg_blocks m) s).
Proof.
  intros Hs Hm Hd. unfold unpack_kinetic_message. erewrite bind_Ok by by apply lift_Ok.
  cbv beta. rewrite msg_unpack_pack by done. by erewrite bind_Ok by by apply pb_alloc_adv.
Qed.

(** ** Stamping a request *)

(** The bytes the digest covers *)
Definition signed (cb : buffer) : buffer := pack_u32 (htonl (u32 (zlen cb))) ++ cb.

(** The request that goes out: the command with sequence number [seq], and the
    digest of it under the key the request carried. *)
Definition stamp_cmd (seq : Z) (c : kproto_cmd_t) (h : kproto_cmdhdr_t) : kproto_cmd_t :=
  set_c_header (Some (set_h_sequence (Some seq) h)) c.
Definition stamp_msg (seq : Z) (digest : buffer) (c : kproto_cmd_t) (h : kproto_cmdhdr_t)
    (id : option Z) (m : kproto_msg_t) : kproto_msg_t :=
  Message (m_authtype m) (Some (Hmacauth id (Some (pbd_of digest)))) (m_pinauth m)
    (Some (pbd_of (cmd_pack (stamp_cmd seq c h)))).

Lemma stamp_cmd_wf seq c h :
  cmd_wf c -> c_header c = Some h -> 0 <= seq < 2 ^ 64 -> cmd_wf (stamp_cmd seq c h).
Proof.
  intros (Hh & Hb & Hst) E Hseq. split; [|by split]. intros h' [= <-].
  destruct (Hh h E) as (?&?&?&?&?&?&?&?&?&?). unfold cmdhdr_wf. split_and!; try done. by intros v [= <-].
Qed.

Lemma stamp_cmd_blocks seq c h : c_header c = Some h -> cmd_blocks (stamp_cmd seq c h) = cmd_blocks c.
Proof. unfold cmd_blocks. by intros ->. Qed.

Lemma stamp_msg_wf seq digest c h id m :
  msg_wf m -> (forall a, m_hmacauth m = Some a -> ha_identity a = id) -> is_Some (m_hmacauth m) ->
  msg_wf (stamp_msg seq digest c h id m).
Proof.
  intros (Ha & Hh & Hp & Hc) Hid [a Ea]. split_and!; try done; cbn.
  - intros a' [= <-]. cbn. split; [|intros d [= <-]; apply pbd_of_wf].
    rewrite <- (Hid a Ea). exact (proj1 (Hh a Ea)).
  - intros d [= <-]. apply pbd_of_wf.
Qed.

Lemma digest_pbd k d digest : HMAC_SHA1 k d = Some digest -> Pbd SHA_DIGEST_LENGTH (Some digest) = pbd_of digest.
Proof.
  intros H. pose proof (HMAC_SHA1_len _ _ _ H) as Hl. rewrite pbd_of_nonempty; [by rewrite Hl|].
  intros ->. done.
Qed.

Lemma pack_pbd c : c_header c <> None -> Pbd (zlen (cmd_pack c)) (Some (cmd_pack c)) = pbd_of (cmd_pack c).
Proof. intros ?. by rewrite pbd_of_nonempty by by apply cmd_pack_nonempty. Qed.

Lemma compute_hmac_run s m cb key a digest :
  mem_ok s -> m_commandbytes m = Some (pbd_of cb) -> m_hmacauth m = Some a ->
  HMAC_SHA1 key (signed cb) = Some digest ->
  compute_hmac m (pb_data (pbd_of key)) (pb_len (pbd_of key)) s =
    Ok (1, set_m_hmacauth (Some (Hmacauth (ha_identity a) (Some (pbd_of digest)))) m, adv 1 1 s).
Proof.
  intros Hs Hcb Ha Hd. unfold compute_hmac.
  erewrite bind_Ok by (apply lift_Ok; rewrite <- (pbd_of_bytes key); by destruct (pbd_of key)). cbv beta.
  erewrite bind_Ok by (apply lift_Ok; unfold hmac_data; by rewrite Hcb, pbd_of_bytes). cbv beta.
  replace (pb_len (pbd_of cb)) with (zlen cb) by done. fold (signed cb). rewrite Hd.
  destruct (KI_MALLOC_adv s SHA_DIGEST_LENGTH Hs) as (b & E & _).
  erewrite bind_Ok by exact E. cbv beta. erewrite bind_Ok by by apply deref_Some. cbv beta.
  erewrite bind_Ok by by apply deref_Some. cbv beta.
  by rewrite (digest_pbd _ _ _ Hd).
Qed.

Lemma array_rd_0 {S A} (x : A) l (s : S) : array_rd (x :: l) 0 s = Ok (x, s).
Proof. exact (array_rd_middle [] l x s 0 eq_refl). Qed.
Lemma array_rd_1 {S A} (x y : A) l (s : S) : array_rd (x :: y :: l) 1 s = Ok (y, s).
Proof. exact (array_rd_middle [x] l y s 1 eq_refl). Qed.
Lemma array_wr_0 {S A} (x z : A) l (s : S) : array_wr (x :: l) 0 z s = Ok (z :: l, s).
Proof. exact (array_wr_middle [] l x z s 0 eq_refl). Qed.
Lemma array_wr_1 {S A} (x y z : A) l (s : S) : array_wr (x :: y :: l) 1 z s = Ok (x :: z :: l, s).
Proof. exact (array_wr_middle [x] l y z s 1 eq_refl). Qed.

(** A request as the operations queue it: the packed PDU, the packed message
    [m] around command [c], any number of value vectors. *)
Record request (m : kproto_msg_t) (c : kproto_cmd_t) (h : kproto_cmdhdr_t)
    (a : kproto_hmacauth_t) (key : buffer) : Prop := {
  rq_msg : msg_wf m; rq_cmd : cmd_wf c; rq_hdr : c_header c = Some h;
  rq_bytes : m_commandbytes m = Some (pbd_of (cmd_pack c));
  rq_auth : m_hmacauth m = Some a; rq_key : ha_hmac a = Some (pbd_of key);
  rq_keylen : zlen key < 2 ^ 32 }.

Definition wire (pdu : kpdu) (m : kproto_msg_t) (vals : list kiovec) : list kiovec :=
  Kiovec (Some (PACK_PDU pdu)) KP_PLENGTH :: Kiovec (Some (msg_pack m)) (zlen (msg_pack m)) :: vals.

Lemma pack_pdu_length pdu : length (PACK_PDU pdu) = 9%nat.
Proof. done. Qed.

Lemma packed_blocks c : c_header c <> None -> pbd_blocks (pbd_of (cmd_pack c)) = 1.
Proof. intros ?. by rewrite pbd_of_nonempty by by apply cmd_pack_nonempty. Qed.

Lemma stamp_blocks seq k d digest c h a m key :
  request m c h a key -> 0 <= seq < 2 ^ 64 -> HMAC_SHA1 k d = Some digest ->
  msg_blocks (stamp_msg seq digest c h (ha_identity a) m) = msg_blocks m + 1 - pbd_blocks (pbd_of key).
Proof.
  intros [? Hc Hh Hb Ha Hk ?] Hseq Hd. unfold msg_blocks, stamp_msg. rewrite Hb, Ha.
  cbn [m_hmacauth m_pinauth m_commandbytes opt_blocks bin_blocks]. unfold hmacauth_blocks.
  rewrite Hk. cbn [ha_hmac opt_blocks bin_blocks].
  rewrite (packed_blocks c), (packed_blocks (stamp_cmd seq c h)), <- (digest_pbd _ _ _ Hd);
    [cbn [pbd_blocks pb_data]; lia|done|by rewrite Hh].
Qed.

Lemma ki_setseq_run s m c h a key digest pdu vals seq :
  mem_ok s -> request m c h a key -> pdu_ok pdu -> 0 <= seq < 2 ^ 64 ->
  let c' := stamp_cmd seq c h in
  HMAC_SHA1 key (signed (cmd_pack c')) = Some digest ->
  let m' := stamp_msg seq digest c h (ha_identity a) m in
  zlen (msg_pack m') < 2 ^ 32 ->
  ki_setseq (wire pdu m vals) (2 + zlen vals) seq s =
    Ok (wire (Kpdu (kp_magic pdu) (zlen (msg_pack m')) (kp_vallen pdu)) m' vals,
        adv 5 (pbd_blocks (pbd_of key)) s) /\
  msg_unpack (msg_pack m') = Some m' /\
  m_commandbytes m' = Some (pbd_of (cmd_pack c')) /\ cmd_unpack (cmd_pack c') = Some c'.
Proof.
  intros Hs R Hpdu Hseq c' Hd m' Hlen. pose proof R as [Hm Hc Hh Hb Ha Hk Hkl].
  assert (Hc' : cmd_wf c') by by apply stamp_cmd_wf.
  assert (Hm' : msg_wf m').
  { apply stamp_msg_wf; [done| |by rewrite Ha]. intros a'. rewrite Ha. by intros [= ->]. }
  split_and!; [|by apply msg_unpack_pack|done|by apply cmd_unpack_pack].
  unfold ki_setseq, wire. change (Z.of_nat KIOV_MSG) with 1. change (Z.of_nat KIOV_PDU) with 0.
  replace (1 >=? 2 + zlen vals) with false
    by (symmetry; rewrite Z.geb_leb; apply Z.leb_gt; pose proof (zlen_nonneg vals); lia).
  erewrite bind_Ok by apply array_rd_1. cbn [kiov_base kiov_len].
  rewrite (bind_Ok _ _ _ _ _ (unpack_message_run s m _ _ Hs Hm (iov_bytes_full _))). cbv beta iota.
  rewrite Hb. cbn [default from_option id].
  rewrite (bind_Ok _ _ _ _ _ (unpack_command_run _ c _ (adv_ok _ _ _ Hs) Hc (pbd_of_bytes _))).
  erewrite bind_Ok by by apply deref_Some. erewrite bind_Ok by by apply deref_Some.
  erewrite bind_Ok by apply free_data_adv. fold (stamp_cmd seq c h). fold c'.
  erewrite bind_Ok by (apply (pack_command_run _ c'); [by repeat apply adv_ok|done]).
  rewrite (pack_pbd c') by done.
  erewrite bind_Ok by by apply deref_Some. rewrite Hk. cbn [default from_option id].
  replace (u32 (pb_len (pbd_of key))) with (pb_len (pbd_of key))
    by (symmetry; apply u32_small; cbn; pose proof (zlen_nonneg key); lia).
  erewrite bind_Ok by (eapply compute_hmac_run; [by repeat apply adv_ok|done|done|exact Hd]).
  cbv beta iota. change (set_m_hmacauth _ _) with m'.
  erewrite bind_Ok by apply free_data_adv.
  erewrite bind_Ok by (apply (pack_message_run _ m'); [by repeat apply adv_ok|done]). cbv beta iota.
  erewrite bind_Ok by apply array_wr_1. erewrite bind_Ok by apply array_rd_0.
  erewrite bind_Ok by by apply deref_Some.
  erewrite bind_Ok by (apply lift_Ok; rewrite <- (app_nil_r (PACK_PDU pdu)); by apply unpack_packed).
  cbn [kiov_len]. rewrite u32_small by (pose proof (zlen_nonneg (msg_pack m')); lia).
  erewrite bind_Ok by apply array_wr_0. rewrite drop_ge, app_nil_r by by rewrite pack_pdu_length.
  erewrite bind_Ok by apply add_live_adv. erewrite bind_Ok by apply add_live_adv.
  rewrite !adv_adv. unfold mret, ST_ret. do 4 f_equal. unfold c'. rewrite stamp_cmd_blocks by done.
  unfold m'. rewrite (stamp_blocks _ _ _ _ _ _ _ _ _ R Hseq Hd).
  pose proof (packed_blocks c ltac:(by rewrite Hh)) as Hp. unfold pbd_blocks at 1 in Hp. lia.
Qed.

(** C16: Stamping a queued request with its sequence number leaves on the wire
    a message a drive reads back as the same request: the command bytes unpack
    to the command with that sequence number and nothing else changed, and the
    digest is HMAC-SHA1, under the key the request carried, of the big endian
    length of exactly those command bytes followed by them.  The PDU announces
    the new message length and the value vectors are untouched.  One block is
    lost per request: the unpacked copy of the key, whose pointer the digest
    overwrites. *)
Theorem ki_setseq_spec s m c h a key digest pdu vals seq :
  mem_ok s -> request m c h a key -> pdu_ok pdu -> 0 <= seq < 2 ^ 64 ->
  let c' := stamp_cmd seq c h in
  HMAC_SHA1 key (signed (cmd_pack c')) = Some digest ->
  let m' := stamp_msg seq digest c h (ha_identity a) m in
  zlen (msg_pack m') < 2 ^ 32 ->
  ki_setseq (wire pdu m vals) (2 + zlen vals) seq s =
    Ok (wire (Kpdu (kp_magic pdu) (zlen (msg_pack m')) (kp_vallen pdu)) m' vals,
        adv 5 (pbd_blocks (pbd_of key)) s) /\
  msg_unpack (msg_pack m') = Some m' /\
  m_commandbytes m' = Some (pbd_of (cmd_pack c')) /\ cmd_unpack (cmd_pack c') = Some c'.
Proof. apply ki_setseq_run. Qed.

(** From a response KTLI reads the sequence number it acknowledges, and
    2^64 - 1, which no request carries before the counter wraps, when the
    drive acknowledges none; everything unpacked to find it is freed. *)
Theorem ki_getaseq_spec s m c h pdu vals :
  mem_ok s -> msg_wf m -> cmd_wf c -> c_header c = Some h ->
  m_commandbytes m = Some (pbd_of (cmd_pack c)) ->
  pdu_ok pdu -> kp_msglen pdu = zlen (msg_pack m) ->
  ki_getaseq (wire pdu m vals) (2 + zlen vals) s =
    Ok (match h_acksequence h with Some q => q | None => 2 ^ 64 - 1 end, adv 2 0 s).
Proof.
  intros Hs Hm Hc Hh Hb Hpdu Hlen.
  unfold ki_getaseq, wire. change (Z.of_nat KIOV_MSG) with 1. change (Z.of_nat KIOV_PDU) with 0.
  replace (1 >=? 2 + zlen vals) with false
    by (symmetry; rewrite Z.geb_leb; apply Z.leb_gt; pose proof (zlen_nonneg vals); lia).
  erewrite bind_Ok by apply array_rd_0. erewrite bind_Ok by by apply deref_Some.
  erewrite bind_Ok by (apply lift_Ok; rewrite <- (app_nil_r (PACK_PDU pdu)); by apply unpack_packed).
  erewrite bind_Ok by apply array_rd_1. cbn [kiov_base]. rewrite Hlen.
  rewrite (bind_Ok _ _ _ _ _ (unpack_message_run s m _ _ Hs Hm (iov_bytes_full _))). cbv beta iota.
  rewrite Hb. cbn [default from_option id].
  rewrite (bind_Ok _ _ _ _ _ (unpack_command_run _ c _ (adv_ok _ _ _ Hs) Hc (pbd_of_bytes _))).
  erewrite bind_Ok by by apply deref_Some. erewrite bind_Ok by by apply deref_Some.
  erewrite bind_Ok by apply add_live_adv. erewrite bind_Ok by apply add_live_adv.
  rewrite !adv_adv. unfold mret, ST_ret. do 3 f_equal. lia.
Qed.

(** ** The balance of the allocations on every path

    [balance m Q]: whenever [m] returns, whatever the allocator refused, its
    answer and the number of blocks gained satisfy [Q]. *)
Definition balance {A} (m : ST mem A) (Q : A -> Z -> Prop) : Prop :=
  forall s a s', m s = Ok (a, s') -> Q a (m_live s' - m_live s).

Lemma balance_bind {A B} (m : ST mem A) (f : A -> ST mem B) Q (Q' : B -> Z -> Prop) :
  balance m Q -> (forall a n, Q a n -> balance (f a) (fun b n' => Q' b (n + n'))) -> balance (m ≫= f) Q'.
Proof.
  intros Hm Hf s b s' H. apply bind_inv in H as (a & s1 & H1 & H2).
  pose proof (Hf a _ (Hm _ _ _ H1) _ _ _ H2) as H.
  replace (m_live s' - m_live s) with (m_live s1 - m_live s + (m_live s' - m_live s1)) by lia. done.
Qed.
Lemma balance_ret {A} (a : A) (Q : A -> Z -> Prop) : Q a 0 -> balance (mret a) Q.
Proof. intros HQ s b s' [= <- <-]. by rewrite Z.sub_diag. Qed.
Lemma balance_weaken {A} (m : ST mem A) (Q Q' : A -> Z -> Prop) :
  balance m Q -> (forall a n, Q a n -> Q' a n) -> balance m Q'.
Proof. intros H HQ s a s' E. by apply HQ, (H s). Qed.
Lemma balance_same {A} (m : ST mem A) :
  respects (fun s s' => m_live s' = m_live s) m -> balance m (fun _ n => n = 0).
Proof. intros H s a s' E. apply H in E. lia. Qed.
#[local] Instance same_live : PreOrder (fun s s' => m_live s' = m_live s).
Proof. split; [by intros s|]. intros s1 s2 s3 H1 H2. congruence. Qed.
Lemma same_lift {A} (o : outcome A) : respects (fun s s' => m_live s' = m_live s) (lift o).
Proof. intros s a s' H. unfold lift in H. destruct o; by simplify_eq. Qed.
Lemma same_array_rd {A} (l : list A) i : respects (fun s s' => m_live s' = m_live s) (array_rd l i).
Proof. intros s a s' H. unfold array_rd in H. destruct (array_read l i); by simplify_eq. Qed.

Lemma balance_malloc size : balance (KI_MALLOC size) (fun r n => n = match r with Some _ => 1 | None => 0 end).
Proof.
  intros s a s' H. unfold KI_MALLOC in H. destruct (m_malloc s _ _); simplify_eq; cbn; lia.
Qed.
Lemma balance_free : balance KI_FREE (fun _ n => n = -1).
Proof. intros s a s' [= <- <-]. cbn. lia. Qed.
Lemma balance_add k : balance (add_live k) (fun _ n => n = k).
Proof. intros s a s' [= <- <-]. cbn. lia. Qed.
Lemma balance_free_data d : balance (free_data d) (fun _ n => n = - match d with Some _ => 1 | None => 0 end).
Proof. destruct d; [apply balance_free|by apply balance_ret]. Qed.
Lemma balance_lift {A} (o : outcome A) : balance (lift o) (fun a n => o = Ok a /\ n = 0).
Proof. intros s a s' H. unfold lift in H. destruct o; simplify_eq. split; [done|lia]. Qed.
Lemma balance_deref {A} (o : option A) : balance (deref_st o) (fun a n => o = Some a /\ n = 0).
Proof. intros s a s' H. unfold deref_st in H. destruct o; simplify_eq. split; [done|lia]. Qed.
Lemma balance_assert b : balance (assert_st b) (fun _ n => b = true /\ n = 0).
Proof. intros s a s' H. unfold assert_st in H. destruct b; simplify_eq. split; [done|lia]. Qed.

Lemma balance_pb_alloc k : balance (pb_alloc k) (fun ok n => n = if ok : bool then k else 0).
Proof.
  unfold pb_alloc. eapply balance_bind; [apply balance_malloc|]. intros [b|] n ->.
  - eapply balance_bind; [apply balance_add|]. intros _ ? ->. apply balance_ret. lia.
  - apply balance_ret. lia.
Qed.

Lemma balance_pack_command c :
  balance (pack_kinetic_command c)
    (fun r n => (r = pbd0 /\ n = 0) \/ (r = Pbd (zlen (cmd_pack c)) (Some (cmd_pack c)) /\ n = 1)).
Proof.
  unfold pack_kinetic_command. eapply balance_bind; [apply balance_malloc|]. intros [b|] n ->.
  - eapply balance_bind; [apply balance_assert|]. intros _ ? [_ ->]. cbv zeta.
    rewrite cmd_packed_size_ok, Z.eqb_refl. apply balance_ret. by right.
  - apply balance_ret. by left.
Qed.

Lemma balance_pack_message m :
  balance (pack_kinetic_message m) (fun r n => n = match r with Some _ => 1 | None => 0 end).
Proof.
  unfold pack_kinetic_message. eapply balance_bind; [apply balance_malloc|]. intros [b|] n ->.
  - eapply balance_bind; [apply balance_assert|]. intros _ ? [_ ->]. cbv zeta.
    rewrite msg_packed_size_ok, Z.eqb_refl. by apply balance_ret.
  - by apply balance_ret.
Qed.

Lemma balance_unpack_command d :
  balance (unpack_kinetic_command d) (fun r n => n = opt_blocks cmd_blocks r).
Proof.
  unfold unpack_kinetic_command. eapply balance_bind; [apply balance_lift|]. intros b n [_ ->].
  destruct (cmd_unpack b) as [c|]; [|by apply balance_ret].
  eapply balance_bind; [apply balance_pb_alloc|]. intros [|] n ->; apply balance_ret; cbn; lia.
Qed.
Lemma balance_unpack_message b k :
  balance (unpack_kinetic_message b k) (fun r n => n = opt_blocks msg_blocks r).
Proof.
  unfold unpack_kinetic_message. eapply balance_bind; [apply balance_lift|]. intros bs n [_ ->].
  destruct (msg_unpack bs) as [m|]; [|by apply balance_ret].
  eapply balance_bind; [apply balance_pb_alloc|]. intros [|] n ->; apply balance_ret; cbn; lia.
Qed.

Lemma same_calc_loop ks k i t : respects (fun s s' => m_live s' = m_live s) (calc_loop ks k i t).
Proof.
  revert i t. induction k as [|k IH]; intros i t; cbn [calc_loop]; [apply (respects_ret _)|].
  apply (respects_bind _); [apply same_array_rd|]. intros v. apply IH.
Qed.
Lemma same_gather_loop ks k i b off : respects (fun s s' => m_live s' = m_live s) (gather_loop ks k i b off).
Proof.
  revert i b off. induction k as [|k IH]; intros i b off; cbn [gather_loop]; [apply (respects_ret _)|].
  apply (respects_bind _); [apply same_array_rd|]. intros v.
  apply (respects_bind _); [apply same_lift|]. intros bs. case_match; [apply IH|apply (respects_ub _)].
Qed.

Lemma balance_keyname ks cnt :
  balance (keyname_to_proto ks cnt)
    (fun r n => n = match r with Some _ => 1 | None => 0 end /\
                forall d, r = Some d -> pb_data d <> None).
Proof.
  unfold keyname_to_proto. destruct ks as [ks|]; [|by apply balance_ret].
  eapply balance_bind; [apply balance_same|].
  { apply same_calc_loop. }
  intros t ? ->. eapply balance_bind; [apply balance_malloc|]. intros [b|] n ->; [|by apply balance_ret].
  eapply balance_bind; [apply balance_same|].
  { apply same_gather_loop. }
  intros kb ? ->. apply balance_ret. split; [done|]. by intros d [= <-].
Qed.

(** A request message: when it is made, its blocks are what [destroy_message]
    frees once the borrowed key is taken out of it; when not, at most [lost]
    blocks are left behind. *)
Definition creates (lost : Z) (create : ST mem (option kproto_msg_t)) : Prop :=
  balance create (fun r n =>
    match r with
    | None => 0 <= n <= lost
    | Some m => exists a, m_hmacauth m = Some a /\ is_Some (ha_hmac a) /\
        n = msg_blocks (set_m_hmacauth (Some (Hmacauth (ha_identity a) (Some pbd0))) m)
    end).

Lemma balance_create_message mh cb :
  kmh_atype mh = KAT_HMAC ->
  balance (create_message mh cb) (fun r n =>
    match r with
    | None => 0 <= n <= 1
    | Some m => exists s : buffer, m = Message (Some KAT_HMAC)
          (Some (Hmacauth (Some (kmh_id mh)) (Some (Pbd (strlen s) (Some s))))) None
          (if negb (pb_len cb =? 0) && bool_decide (pb_data cb <> None) then Some cb else None) /\
        kmh_hmac mh = Some s /\ n = 2
    end).
Proof.
  intros Ht. unfold create_message. rewrite Ht. eapply balance_bind; [apply balance_malloc|].
  intros [b|] n ->; [|by apply balance_ret]. cbv zeta. rewrite Z.eqb_refl.
  eapply balance_bind; [apply balance_malloc|]. intros [h|] n ->; [|by apply balance_ret].
  eapply balance_bind; [apply balance_deref|]. intros s n [Es ->]. apply balance_ret. by exists s.
Qed.

Lemma create_message_creates mh cb :
  kmh_atype mh = KAT_HMAC -> (pb_data cb <> None -> pb_len cb <> 0) ->
  balance (create_message mh cb) (fun r n =>
    match r with
    | None => 0 <= n <= 1
    | Some m => exists a, m_hmacauth m = Some a /\ is_Some (ha_hmac a) /\
        n + pbd_blocks cb = msg_blocks (set_m_hmacauth (Some (Hmacauth (ha_identity a) (Some pbd0))) m)
    end).
Proof.
  intros Ht Hcb. eapply balance_weaken; [by apply balance_create_message|].
  intros [m|] n; [|done]. intros (s & -> & _ & ->). eexists. split; [done|]. split; [done|].
  unfold msg_blocks, pbd_blocks. cbn. destruct (pb_data cb) as [d|] eqn:E.
  - rewrite (proj2 (Z.eqb_neq _ _)) by by apply Hcb. cbn. unfold pbd_blocks. by rewrite E.
  - by rewrite andb_comm.
Qed.

Lemma balance_command_bytes ch d :
  balance (create_command_bytes ch d)
    (fun r n => n = pbd_blocks r /\ (pb_data r <> None -> pb_len r <> 0)).
Proof.
  unfold create_command_bytes. eapply balance_bind; [apply balance_lift|]. intros b n [_ ->].
  eapply balance_weaken; [apply balance_pack_command|]. intros r n [[-> ->]|[-> ->]]; [done|].
  split; [done|]. intros _. cbn [pb_len]. apply Z.eqb_neq. rewrite zlen_eqb0. pose proof (cmd_pack_nonempty (Command (Some (extract_to_command_header ch)) (Some b) None) ltac:(done)).
  by destruct (cmd_pack _).
Qed.
End proto.

(** ** A put as it is queued *)
Definition sample_key : buffer := [97; 115; 100; 102].
Definition sample_hdr : kproto_cmdhdr_t :=
  Cmdhdr (Some 0) (Some 1234567) (Some 0) None (Some KMT_PUT) None None None None None.
Definition sample_cmd : kproto_cmd_t :=
  Command (Some sample_hdr)
    (Some (Body (Some (Keyvalue None (Some 1) (Some (pbd_of [107; 101; 121])) None None (Some 1) None (Some 1)))
             None None None None)) None.
Definition sample_auth : kproto_hmacauth_t := Hmacauth (Some 1) (Some (pbd_of sample_key)).
Definition sample_msg : kproto_msg_t :=
  Message (Some KAT_HMAC) (Some sample_auth) None (Some (pbd_of (cmd_pack sample_cmd))).
Definition sample_mem : mem := Mem 0 (fun _ _ => Some (fun _ => 7)) 0.

Lemma sample_mem_ok : mem_ok sample_mem.
Proof. intros n size. by eexists. Qed.

(** Closes the well-formedness of a concrete structure. *)
Ltac wf_concrete :=
  unfold msg_wf, cmd_wf, cmdhdr_wf, body_wf, kvbody_wf, batchbody_wf, keyrange_wf, status_wf,
    getlog_wf, configuration_wf, interface_wf, limits_wf, is_str, is_i32, is_u32, is_i64, is_u64, is_bool, is_bin, opt_wf, int_of;
  repeat match goal with
  | |- _ /\ _ => split
  | |- forall _, Some _ = Some _ -> _ => let H := fresh in intros ? [= H]; subst
  | |- forall _, None = Some _ -> _ => done
  | |- Forall _ (_ :: _) => apply Forall_cons
  | |- Forall _ [] => apply Forall_nil_2
  | |- pbd_wf (pbd_of _) => apply pbd_of_wf
  | |- pbd_wf (Pbd ?n ?b) => exists (default [] b); reflexivity
  | |- _ => progress cbn [c_header c_body c_status m_authtype m_hmacauth m_pinauth m_commandbytes
      ha_identity ha_hmac h_clusterversion h_connectionid h_sequence h_acksequence h_messagetype
      h_timeout h_earlyexit h_priority h_timequanta h_batchid b_keyvalue b_range b_getlog b_batch
      kp_newversion kp_force kp_key kp_dbversion kp_tag kp_algorithm kp_metadataonly kp_synchronization
      rg_startkey rg_endkey rg_startkeyinclusive rg_endkeyinclusive rg_maxreturned rg_reverse rg_keys
      gl_types gl_utilizations gl_temperatures gl_capacity gl_configuration gl_statistics gl_messages gl_limits gl_device
      ut_name ut_value dv_name li_maxkeysize li_maxvaluesize li_maxversionsize li_maxtagsize li_maxconnections
      li_maxoutstandingreadrequests li_maxoutstandingwriterequests li_maxmessagesize li_maxkeyrangecount
      li_maxidentitycount li_maxpinsize li_maxoperationcountperbatch li_maxbatchcountperdevice li_maxbatchsize
      li_maxdeletesperbatch cf_vendor cf_model cf_serialnumber cf_worldwidename cf_version cf_compilationdate
      cf_sourcehash cf_protocolversion cf_protocolcompilationdate cf_protocolsourcehash cf_interface cf_port
      cf_tlsport cf_currentpowerlevel in_name in_mac in_ipv4address in_ipv6address
      bt_count bt_sequence bt_failedsequence st_code st_statusmessage st_detailedmessage]
  | |- _ <= _ => by vm_compute
  | |- _ < _ => by vm_compute
  | |- _ => done
  end.

Ltac cmd_concrete := match goal with |- cmd_wf ?c => let c' := eval vm_compute in c in change (cmd_wf c'); wf_concrete end.

Lemma sample_cmd_wf : cmd_wf sample_cmd.
Proof. unfold sample_cmd, sample_hdr. wf_concrete. Qed.
Lemma sample_msg_wf : msg_wf sample_msg.
Proof. unfold sample_msg, sample_auth. wf_concrete. Qed.
Lemma sample_request : request sample_msg sample_cmd sample_hdr sample_auth sample_key.
Proof. split; [apply sample_msg_wf|apply sample_cmd_wf|done|done|done|done|by vm_compute]. Qed.

Definition sample_pdu : kpdu := Kpdu KP_MAGIC (zlen (msg_pack sample_msg)) 5.
Definition sample_vals : list kiovec := [Kiovec (Some [1; 2; 3; 4; 5]) 5].
Definition sample_digest : buffer := digest_of sample_key (signed (cmd_pack (stamp_cmd 7 sample_cmd sample_hdr))).
Definition stamped_msg : kproto_msg_t := stamp_msg 7 sample_digest sample_cmd sample_hdr (Some 1) sample_msg.

Lemma sample_pdu_ok : pdu_ok sample_pdu.
Proof. vm_compute. repeat split; congruence. Qed.

Lemma ki_setseq_spec_witness :
  exists msg s', ki_setseq (wire sample_pdu sample_msg sample_vals) 3 7 sample_mem = Ok (msg, s') /\
    msg_unpack (msg_pack stamped_msg) = Some stamped_msg.
Proof.
  destruct (ki_setseq_spec sample_mem sample_msg sample_cmd sample_hdr sample_auth sample_key sample_digest
    sample_pdu sample_vals 7) as (H & Hu & _);
    [apply sample_mem_ok|apply sample_request|apply sample_pdu_ok|done|reflexivity|by vm_compute|].
  eexists _, _. split; [exact H|exact Hu].
Defined.

Definition response_hdr : kproto_cmdhdr_t :=
  Cmdhdr (Some 0) (Some 1234567) None (Some 7) (Some KMT_PUT) None None None None None.
Definition sample_response : kproto_cmd_t :=
  Command (Some response_hdr) None
    (Some (Status (Some 1) None None)).
Definition response_msg : kproto_msg_t :=
  Message (Some KAT_HMAC) (Some sample_auth) None (Some (pbd_of (cmd_pack sample_response))).

Lemma ki_getaseq_spec_witness :
  ki_getaseq (wire (Kpdu KP_MAGIC (zlen (msg_pack response_msg)) 0) response_msg []) 2 sample_mem =
    Ok (7, adv 2 0 sample_mem).
Proof.
  apply (ki_getaseq_spec sample_mem response_msg sample_response response_hdr
    (Kpdu KP_MAGIC (zlen (msg_pack response_msg)) 0) []).
  - apply sample_mem_ok.
  - unfold response_msg, sample_auth. wf_concrete.
  - unfold sample_response, response_hdr. wf_concrete.
  - reflexivity.
  - reflexivity.
  - vm_compute. repeat split; congruence.
  - reflexivity.
Defined.
