(* ===== verification/Stat.v ===== *)
(** Statistics of the operations: [src/stat.c], the [kopstat_t]/[kstats_t] of
    [src/kinetic_types.h], and the running means every operation keeps.

    A C [double] is an IEEE 754 binary64 number, [spec_float] with the Standard
    Library's round-to-nearest operations at 53 bits of precision. *)

From Stdlib Require Import SpecFloat.
From S2P Require Import Prelude Types.

(** ** double *)
Definition double : Type := spec_float.
Definition dadd : double -> double -> double := SFadd 53 1024.
Definition dsub : double -> double -> double := SFsub 53 1024.
Definition dmul : double -> double -> double := SFmul 53 1024.
Definition ddiv : double -> double -> double := SFdiv 53 1024.
Definition dsqrt : double -> double := SFsqrt 53 1024.
Definition dofz (z : Z) : double := binary_normalize 53 1024 z 0 false.
Definition d0 : double := S754_zero false.

(** ** kopstat_t, kstats_t *)
Definition KOPF_TSTAT : Z := 0x0001.

(** [double kop_xxx[KOP_TMAX]] by its named elements; [KOP_TVAR] and
    [KOP_TSTDDEV] are derived. *)
Record ktimes := Ktimes {
  KOP_TTOTAL : double; KOP_TMEAN : double; KOP_TMEANSQ : double;
  KOP_TVAR : double; KOP_TSTDDEV : double }.

Record kopstat := Kopstat {
  kop_flags : Z; kop_ok : Z; kop_err : Z; kop_dropped : Z;
  kop_ssize : double; kop_smsq : double; kop_sstdev : double;
  kop_rsize : double; kop_klen : double; kop_vlen : double;
  kop_tot : ktimes; kop_req : ktimes; kop_resp : ktimes }.

Definition ktimes0 : ktimes := Ktimes d0 d0 d0 d0 d0.
Definition kopstat0 : kopstat := Kopstat 0 0 0 0 d0 d0 d0 d0 d0 d0 ktimes0 ktimes0 ktimes0.

(** One structure per kind of operation *)
Inductive op_kind := OpPut | OpDel | OpGet | OpNoop | OpFlush | OpExec.

#[global] Instance op_kind_eq_dec : EqDecision op_kind.
Proof. solve_decision. Defined.

Record kstats := Kstats {
  kst_puts : kopstat; kst_dels : kopstat; kst_gets : kopstat;
  kst_noops : kopstat; kst_flushs : kopstat; kst_execs : kopstat }.

Definition kstats0 : kstats := Kstats kopstat0 kopstat0 kopstat0 kopstat0 kopstat0 kopstat0.
Definition kst_get (o : op_kind) (s : kstats) : kopstat :=
  match o with
  | OpPut => kst_puts s | OpDel => kst_dels s | OpGet => kst_gets s
  | OpNoop => kst_noops s | OpFlush => kst_flushs s | OpExec => kst_execs s
  end.
Definition kst_upd (o : op_kind) (f : kopstat -> kopstat) (s : kstats) : kstats :=
  let on o' k := if bool_decide (o' = o) then f k else k in
  Kstats (on OpPut (kst_puts s)) (on OpDel (kst_dels s)) (on OpGet (kst_gets s))
    (on OpNoop (kst_noops s)) (on OpFlush (kst_flushs s)) (on OpExec (kst_execs s)).

Definition KIOP_ISSET (k : kopstat) (f : Z) : bool := negb (Z.land (kop_flags k) f =? 0).

(** Field updates *)
Definition set_counts (ok err dropped : Z) (k : kopstat) : kopstat :=
  Kopstat (kop_flags k) ok err dropped (kop_ssize k) (kop_smsq k) (kop_sstdev k)
    (kop_rsize k) (kop_klen k) (kop_vlen k) (kop_tot k) (kop_req k) (kop_resp k).
Definition set_sizes (ss sq rs kl vl : double) (k : kopstat) : kopstat :=
  Kopstat (kop_flags k) (kop_ok k) (kop_err k) (kop_dropped k) ss sq (kop_sstdev k) rs kl vl
    (kop_tot k) (kop_req k) (kop_resp k).
Definition set_times (sd : double) (tot req resp : ktimes) (k : kopstat) : kopstat :=
  Kopstat (kop_flags k) (kop_ok k) (kop_err k) (kop_dropped k) (kop_ssize k) (kop_smsq k) sd
    (kop_rsize k) (kop_klen k) (kop_vlen k) tot req resp.

Definition count_err (k : kopstat) : kopstat := set_counts (kop_ok k) (u32 (kop_err k + 1)) (kop_dropped k) k.
Definition count_ok (k : kopstat) : kopstat := set_counts (u32 (kop_ok k + 1)) (kop_err k) (kop_dropped k) k.

(** ** Running means

    [mean + (x - mean)/n], and the sum of squares Welford's method keeps. *)
Definition run_mean (mean : double) (x n : Z) : double :=
  dadd mean (ddiv (dsub (dofz x) mean) (dofz n)).
Definition run_msq (msq mean nmn : double) (x : Z) : double :=
  dadd msq (dmul (dsub (dofz x) mean) (dsub (dofz x) nmn)).

(** The update after a completed operation: put, delete, noop and flush *)
Definition stat_sizes (sl rl kl vl : Z) (k : kopstat) : kopstat :=
  if kop_ok k =? 1 then set_sizes (dofz sl) d0 (dofz rl) (dofz kl) (dofz vl) k
  else
    let n := kop_ok k in
    let nmn := run_mean (kop_ssize k) sl n in
    set_sizes nmn (run_msq (kop_smsq k) (kop_ssize k) nmn sl)
      (run_mean (kop_rsize k) rl n) (run_mean (kop_klen k) kl n) (run_mean (kop_vlen k) vl n) k.

(** The get's own version: the first sample goes to [kop_smsq], twice, and
    [kop_ssize] keeps its value; the other means are updated by the recurrence
    from the first sample on. *)
Definition stat_sizes_get (sl rl kl vl : Z) (k : kopstat) : kopstat :=
  let n := kop_ok k in
  let '(ss, sq) :=
    if n =? 1 then (kop_ssize k, d0)
    else let nmn := run_mean (kop_ssize k) sl n in
         (nmn, run_msq (kop_smsq k) (kop_ssize k) nmn sl) in
  set_sizes ss sq (run_mean (kop_rsize k) rl n) (run_mean (kop_klen k) kl n)
    (run_mean (kop_vlen k) vl n) k.

(** ** Times *)
Definition KOP_BNS : Z := 1000000000.
Definition KOP_MAXINTV : Z := 1000000.

(** [ts_sub]: the interval in microseconds, 0 for a nonsensical one, and the
    minuend, whose seconds the borrow decrements in place.  The division is of
    unsigned 64-bit numbers. *)
Definition ts_sub (me se : timespec) : Z * timespec :=
  let d := tv_nsec me - tv_nsec se in
  let '(d, me) := if d <? 0 then (d + KOP_BNS, Timespec (tv_sec me - 1) (tv_nsec me)) else (d, me) in
  let d := d + (tv_sec me - tv_sec se) * KOP_BNS in
  let d := i64 (u64 d / 1000) in
  (if (d >? KOP_MAXINTV) || (d <? 0) || (d =? 0) then 0 else d, me).

Definition tsa_first (t : Z) (a : ktimes) : ktimes :=
  Ktimes (dofz t) (dofz t) d0 (KOP_TVAR a) (KOP_TSTDDEV a).
Definition tsa_next (t n : Z) (a : ktimes) : ktimes :=
  let nmn := dadd (KOP_TMEAN a) (ddiv (dsub (dofz t) (KOP_TMEAN a)) (dofz n)) in
  let nsq := dadd (KOP_TMEANSQ a) (dmul (dsub (dofz t) (KOP_TMEAN a)) (dsub (dofz t) nmn)) in
  Ktimes (dadd (KOP_TTOTAL a) (dofz t)) nmn nsq (KOP_TVAR a) (KOP_TSTDDEV a).

(** [s_stats_addts]: the code, the structure and the kio's timestamps. *)
Definition s_stats_addts (kop : kopstat) (ts : kio_tstamps) : Z * kopstat * kio_tstamps :=
  let '(tot, comp) := ts_sub (kiot_comp ts) (kiot_start ts) in
  let '(st, sent) := ts_sub (kiot_sent ts) (kiot_start ts) in
  let '(rt, comp) := ts_sub comp (kiot_recvs ts) in
  let ts := KioTstamps (kiot_start ts) sent (kiot_recvs ts) comp in
  if (tot =? 0) || (st =? 0) || (rt =? 0) then
    (-1, set_counts (u32 (kop_ok kop - 1)) (kop_err kop) (u32 (kop_dropped kop + 1)) kop, ts)
  else
    let upd := if kop_ok kop =? 1 then tsa_first else fun t => tsa_next t (kop_ok kop) in
    (0, set_times (kop_sstdev kop) (upd tot (kop_tot kop)) (upd st (kop_req kop)) (upd rt (kop_resp kop)) kop, ts).

(** [s_stat_updatekop]: sample variances and deviations *)
Definition variance (n : Z) (a : ktimes) : ktimes :=
  let v := ddiv (KOP_TMEANSQ a) (dofz (u32 (n - 1))) in
  Ktimes (KOP_TTOTAL a) (KOP_TMEAN a) (KOP_TMEANSQ a) v (dsqrt v).
Definition s_stat_updatekop (kop : kopstat) : kopstat :=
  if negb (KIOP_ISSET kop KOPF_TSTAT) then kop else
  let n := kop_ok kop in
  set_times (dsqrt (ddiv (kop_smsq kop) (dofz (u32 (n - 1)))))
    (variance n (kop_tot kop)) (variance n (kop_req kop)) (variance n (kop_resp kop)) kop.

(** The answer of [ki_getstats], from the session's statistics *)
Definition finish_stats (s : kstats) : kstats :=
  Kstats (s_stat_updatekop (kst_puts s)) (s_stat_updatekop (kst_dels s)) (s_stat_updatekop (kst_gets s))
    (s_stat_updatekop (kst_noops s)) (kst_flushs s) (kst_execs s).

(** ** What the statistics mean *)

(** *** Integers as doubles *)
Lemma digits2_xO m n : digits2_pos (Pos.iter xO m n) = (digits2_pos m + n)%positive.
Proof.
  induction n as [|n IH] using Pos.peano_ind; [cbn; lia|].
  rewrite Pos.iter_succ. cbn [digits2_pos]. rewrite IH. lia.
Qed.

Lemma digits2_le m : 2 ^ (Z.pos (digits2_pos m) - 1) <= Z.pos m.
Proof.
  induction m as [m IH|m IH|]; cbn [digits2_pos]; [| |by vm_compute];
    rewrite Pos2Z.inj_succ; replace (Z.succ (Z.pos (digits2_pos m)) - 1)
      with (Z.succ (Z.pos (digits2_pos m) - 1)) by lia; rewrite Z.pow_succ_r by lia; lia.
Qed.

Lemma digits2_bound m n : 0 <= n -> Z.pos m < 2 ^ n -> Z.pos (digits2_pos m) <= n.
Proof.
  intros Hn H. pose proof (digits2_le m). destruct (Z_le_gt_dec (Z.pos (digits2_pos m)) n); [done|].
  assert (2 ^ n <= 2 ^ (Z.pos (digits2_pos m) - 1)) by (apply Z.pow_le_mono_r; lia). lia.
Qed.

Lemma shr_fexp_id m e :
  Z.pos (digits2_pos m) = 53 -> - 1074 <= e -> shr_fexp 53 1024 (Z.pos m) e loc_Exact = (Build_shr_record (Z.pos m) false false, e).
Proof.
  intros Hd He. unfold shr_fexp, fexp, emin. cbn [Zdigits2]. rewrite Hd.
  replace (Z.max (53 + e - 53) (3 - 1024 - 53) - e) with 0 by lia. done.
Qed.

(** Every positive 32-bit integer is a finite double. *)
Lemma dofz_finite z : 0 < z < 2 ^ 32 -> exists m e, dofz z = S754_finite false m e.
Proof.
  intros [Hz Hlt]. destruct z as [|m|]; try lia.
  pose proof (digits2_bound m 32 ltac:(lia) Hlt) as Hd.
  unfold dofz, binary_normalize, binary_round.
  assert (E : fexp 53 1024 (Z.pos (digits2_pos m) + 0) = Z.pos (digits2_pos m) - 53)
    by (unfold fexp, emin; lia).
  rewrite E. unfold shl_align. rewrite Z.sub_0_r.
  destruct (Z.pos (digits2_pos m) - 53) as [|k|k] eqn:Ek; try lia.
  assert (Hdig : Z.pos (digits2_pos (Pos.iter xO m k)) = 53) by (rewrite digits2_xO, Pos2Z.inj_add; lia).
  unfold binary_round_aux. rewrite shr_fexp_id by (done || lia).
  cbn [SpecFloat.shr_m loc_of_shr_record round_nearest_even].
  rewrite shr_fexp_id by (done || lia). cbn [SpecFloat.shr_m].
  replace (Z.neg k <=? 1024 - 53) with true
    by (symmetry; apply Z.leb_le; pose proof (Pos2Z.neg_is_neg k); lia). eauto.
Qed.

(** The difference of a number with itself, over any positive count, is zero,
    and adding it changes nothing. *)
Lemma dsub_self s m e : dsub (S754_finite s m e) (S754_finite s m e) = d0.
Proof. unfold dsub, SFsub. by rewrite Z.sub_diag. Qed.

Lemma run_mean_fixed x n : 0 < x < 2 ^ 32 -> 0 < n < 2 ^ 32 -> run_mean (dofz x) x n = dofz x.
Proof.
  intros (mx & ex & Hx)%dofz_finite (mn & en & Hn)%dofz_finite.
  unfold run_mean. rewrite Hx, dsub_self, Hn. done.
Qed.

Lemma run_mean_fixed0 n : 0 < n < 2 ^ 32 -> run_mean d0 0 n = d0.
Proof. intros (mn & en & Hn)%dofz_finite. unfold run_mean. rewrite Hn. done. Qed.

Lemma run_mean_same x n : 0 <= x < 2 ^ 32 -> 0 < n < 2 ^ 32 -> run_mean (dofz x) x n = dofz x.
Proof.
  intros Hx Hn. destruct (decide (x = 0)) as [->|]; [by apply run_mean_fixed0|].
  apply run_mean_fixed; lia.
Qed.

Lemma run_msq_same x : 0 <= x < 2 ^ 32 -> run_msq d0 (dofz x) (dofz x) x = d0.
Proof.
  intros Hx. unfold run_msq. destruct (decide (x = 0)) as [->|]; [done|].
  destruct (dofz_finite x) as (m & e & ->); [lia|]. by rewrite dsub_self.
Qed.

(** [n] completed operations of the same sizes *)
Definition completed (upd : Z -> Z -> Z -> Z -> kopstat -> kopstat) (sl rl kl vl : Z) (k : kopstat) : kopstat :=
  upd sl rl kl vl (count_ok k).

(** Whatever the statistics held when the count was zero, after any number
    of operations that all send, receive and carry the same sizes, the count is
    that number, every mean is exactly the common size and the sum of squares
    is exactly zero: the rounding of the recurrence adds no drift. *)
Theorem stat_sizes_constant sl rl kl vl n k :
  Forall (fun x => 0 <= x < 2 ^ 32) [sl; rl; kl; vl] ->
  kop_ok k = 0 -> Z.of_nat (S n) < 2 ^ 32 ->
  let k' := Nat.iter (S n) (completed stat_sizes sl rl kl vl) k in
  kop_ok k' = Z.of_nat (S n) /\ kop_err k' = kop_err k /\
  kop_ssize k' = dofz sl /\ kop_smsq k' = d0 /\ kop_rsize k' = dofz rl /\
  kop_klen k' = dofz kl /\ kop_vlen k' = dofz vl.
Proof.
  rewrite !Forall_cons. intros (Hs & Hr & Hk & Hv & _) H0. induction n as [|n IH]; intros Hn k'.
  - unfold k', completed, stat_sizes. cbn [Nat.iter nat_rect]. unfold count_ok. cbn [kop_ok set_counts].
    rewrite H0. by cbn.
  - cbv zeta in IH. destruct IH as (E1 & E2 & E3 & E4 & E5 & E6 & E7); [lia|].
    change k' with (completed stat_sizes sl rl kl vl (Nat.iter (S n) (completed stat_sizes sl rl kl vl) k)).
    clear k'. set (k1 := Nat.iter (S n) _ k) in *. clearbody k1.
    unfold completed, stat_sizes, count_ok. cbn [kop_ok set_counts]. rewrite E1, u32_small by lia.
    replace (Z.of_nat (S n) + 1 =? 1) with false by (symmetry; apply Z.eqb_neq; lia).
    cbn [set_sizes set_counts kop_ok kop_err kop_ssize kop_smsq kop_rsize kop_klen kop_vlen].
    rewrite E3, E4, E5, E6, E7, !run_mean_same by (done || lia). rewrite run_msq_same by done.
    split_and!; try done. lia.
Qed.

Lemma stat_sizes_constant_witness :
  kop_ssize (Nat.iter 3 (completed stat_sizes 120 90 4 100) kopstat0) = dofz 120.
Proof.
  apply (stat_sizes_constant 120 90 4 100 2 kopstat0); [|reflexivity|reflexivity].
  repeat constructor; vm_compute; congruence.
Defined.

(** The timestamps of an operation that completes in a later second of the
    clock than it started in, and whose response was received in that second,
    are thrown away however well ordered they are: the borrow of the first
    subtraction takes a second off the completion time itself, so the receive
    interval comes out negative. The operation is uncounted. *)
Theorem s_stats_addts_second_boundary k t0 sent n0 n1 n2 :
  0 <= n2 <= n1 -> n1 < n0 < KOP_BNS -> 0 <= t0 -> t0 + 1 < 2 ^ 32 ->
  let ts := KioTstamps (Timespec t0 n0) sent (Timespec (t0 + 1) n2) (Timespec (t0 + 1) n1) in
  exists ts', s_stats_addts k ts =
    (-1, set_counts (u32 (kop_ok k - 1)) (kop_err k) (u32 (kop_dropped k + 1)) k, ts').
Proof.
  intros H1 H2 Ht0 Ht ts. unfold s_stats_addts, ts. cbn [kiot_comp kiot_start kiot_sent kiot_recvs].
  unfold ts_sub at 1. cbn [tv_nsec tv_sec]. replace (n1 - n0 <? 0) with true by lia. cbv beta iota.
  destruct (ts_sub sent _) as [st s']. unfold ts_sub at 1. cbn [tv_nsec tv_sec].
  replace (n1 - n2 <? 0) with false by lia. cbv beta iota zeta.
  assert (E : forall d, - KOP_BNS <= d < 0 ->
     (if (i64 (u64 d / 1000) >? KOP_MAXINTV) || (i64 (u64 d / 1000) <? 0) || (i64 (u64 d / 1000) =? 0)
      then 0 else i64 (u64 d / 1000)) = 0).
  { unfold KOP_BNS. intros d Hd. unfold u64. replace (d mod 2 ^ 64) with (d + 2 ^ 64)
      by (rewrite <- (Z.mod_add d 1), Z.mod_small by lia; lia).
    assert (H : 2 ^ 54 <= (d + 2 ^ 64) / 1000 < 2 ^ 63) by (Z.to_euclidean_division_equations; lia).
    set (q := (d + 2 ^ 64) / 1000) in *. clearbody q. rewrite i64_small by lia.
    replace (q >? KOP_MAXINTV) with true; [done|].
    unfold KOP_MAXINTV. symmetry. rewrite Z.gtb_ltb. apply Z.ltb_lt. apply (Z.lt_le_trans _ (2 ^ 54)); [done|apply H]. }
  cbn [tv_sec tv_nsec]. rewrite (E (n1 - n2 + (t0 + 1 - 1 - (t0 + 1)) * KOP_BNS)) by (unfold KOP_BNS in *; lia).
  rewrite orb_true_r. eauto.
Qed.

Lemma s_stats_addts_second_boundary_witness :
  let ts := KioTstamps (Timespec 7 999999000) (Timespec 7 999999500) (Timespec 8 1000) (Timespec 8 3000) in
  exists ts', s_stats_addts (set_counts 1 0 0 kopstat0) ts = (-1, set_counts 0 0 1 kopstat0, ts').
Proof.
  apply (s_stats_addts_second_boundary (set_counts 1 0 0 kopstat0) 7 (Timespec 7 999999500) 999999000 3000 1000);
    unfold KOP_BNS; lia.
Defined.
