(* ===== verification/Op.v ===== *)
(** What the operations of the API share: the session structure
    ([src/session.h]), the state they run on, and the two bodies every
    operation instantiates, initiating a request and completing it.

    [src/put.c], [src/del.c], [src/get.c], [src/noop.c], [src/flush.c] and
    [src/batch.c] repeat the same code around what is special to the operation;
    here that code is written once, over a description of the operation. *)

From stdpp Require Import gmap.
From S2P Require Import Prelude Types ListApi Session KtliState Ktli Pdu Keys Ktb Validate ProtoData Proto Stat.

(** ** [ksession_t] *)
Record ksession := Ksession {
  ks_bid : Z; ks_bats : Z; ks_l : klimits; ks_ch : kcmdhdr_t; ks_stats : kstats }.

Definition set_ks_batch (bid bats : Z) (s : ksession) : ksession :=
  Ksession bid bats (ks_l s) (ks_ch s) (ks_stats s).
Definition set_ks_stats (st : kstats) (s : ksession) : ksession :=
  Ksession (ks_bid s) (ks_bats s) (ks_l s) (ks_ch s) st.

Section op.
Context `{LA : ListApi} {X : Type} {PG : ProtoGen}.

Notation world := (@world LA X).

(** The state: KTLI's world, the typed buffers and the allocator of the API
    layer, the sessions by address, and the response each [kv_t] holds in its
    [kv_protobuf]. *)
Record opst := Opst {
  o_w : world; o_heap : heap; o_ses : gmap ptr ksession; o_pb : gmap ptr kproto_cmd_t }.

Notation OP := (ST opst).

(** *** The parts as computations of the whole *)
Definition on_w {A} (m : ST world A) : OP A := fun o =>
  match m (o_w o) with
  | Ok (a, w) => Ok (a, Opst w (o_heap o) (o_ses o) (o_pb o))
  | Ub => Ub | Hang => Hang | NoFuel => NoFuel
  end.
Definition on_h {A} (m : ST heap A) : OP A := fun o =>
  match m (o_heap o) with
  | Ok (a, h) => Ok (a, Opst (o_w o) h (o_ses o) (o_pb o))
  | Ub => Ub | Hang => Hang | NoFuel => NoFuel
  end.
Definition on_m {A} (m : ST mem A) : OP A := on_h (on_mem m).

(** [struct ktli_config] behind a pointer, the session behind [kcfg_pconf] *)
Definition cfg_rd (cf : option ptr) : OP KtliState.ktli_config := fun o =>
  deref_st (cf ≫= (w_configs (o_w o) !!.)) o.
Definition ses_rd (ses : option ptr) : OP ksession := fun o => deref_st (ses ≫= (o_ses o !!.)) o.
Definition ses_upd (ses : option ptr) (f : ksession -> ksession) : OP unit := fun o =>
  match ses ≫= (o_ses o !!.) with
  | Some s => Ok (tt, Opst (o_w o) (o_heap o) (<[default 1%positive ses := f s]> (o_ses o)) (o_pb o))
  | None => Ub
  end.

(** [kst->kst_xxx] and its error count; a batch keeps no statistics. *)
Definition kop_upd (ses : option ptr) (k : option op_kind) (f : kopstat -> kopstat) : OP unit :=
  match k with
  | Some k => ses_upd ses (fun s => set_ks_stats (kst_upd k f (ks_stats s)) s)
  | None => mret tt
  end.
Definition err_inc (ses : option ptr) (k : option op_kind) : OP unit := kop_upd ses k count_err.
Definition kop_rd (ses : option ptr) (k : op_kind) : OP kopstat :=
  s ← ses_rd ses; mret (kst_get k (ks_stats s)).

(** Fields of the caller's structures *)
Definition kv_rd (p : option ptr) : OP kv := p ← deref_st p; on_h (get_kv p).
Definition kv_wr (p : option ptr) (v : kv) : OP unit :=
  p ← deref_st p;
  on_h (k ← ktb_base p; match ktb_buf k with DKv _ => ktb_put p (set_ktb_buf (DKv v) k) | _ => ub_st end).
Definition kb_rd (p : option ptr) : OP kb := p ← deref_st p; on_h (get_kb p).
Definition kb_wr (p : option ptr) (b : kb) : OP unit :=
  p ← deref_st p;
  on_h (k ← ktb_base p; match ktb_buf k with DBatch _ => ktb_put p (set_ktb_buf (DBatch b) k) | _ => ub_st end).

(** ** KIOs *)
Definition ts0 : timespec := Timespec 0 0.
Definition tstamps0 : kio_tstamps := KioTstamps ts0 ts0 ts0 ts0.
Definition kio_zero : kio ptr :=
  Kio ptr 0 0 0 0 KIO_NEW 0 kio_msg0 kio_msg0 ts0 None None None None None None tstamps0.

(** [KI_MALLOC(sizeof(struct kio))] and the memset *)
Definition kio_alloc : OP (option ptr) :=
  b ← on_m (KI_MALLOC sizeof_kio);
  match b with
  | None => mret None
  | Some _ =>
      p ← on_w fresh_ptr;
      on_w (modify_st (fun w => set_kios_w (<[p := kio_zero]> (w_kios w)) w)) ;;
      mret (Some p)
  end.
Definition kio_free (p : ptr) : OP unit :=
  on_w (modify_st (fun w => set_kios_w (delete p (w_kios w)) w)) ;;
  on_m KI_FREE.

(** ** Initiating a request

    What is special to an operation: its message type, the kind its statistics
    are kept under, what the kio carries for the completion, the value vectors
    it sends, how its message is made, the status when that fails, the batch id
    of its header, and the accounting done before the request is sent ([Some]:
    refused with that status). *)
Record op_desc := OpDesc {
  od_cmd : Z; od_flags : Z; od_kop : option op_kind;
  od_kv : option ptr; od_altkv : option ptr; od_kb : option ptr; od_app : option ptr; od_cctx : option ptr;
  od_vals : list kiovec;
  od_create : kmsghdr_t -> kcmdhdr_t -> ST mem (option kproto_msg_t);
  od_create_err : Z;
  od_bid : option Z;
  od_account : Z -> Z -> OP (option Z) }.

(** Before [destroy_message], the reference to the session's HMAC key goes. *)
Definition strip_key (m : kproto_msg_t) : outcome kproto_msg_t :=
  match m_hmacauth m with
  | Some h => Ok (set_m_hmacauth (Some (Hmacauth (ha_identity h)
                (match ha_hmac h with Some _ => Some pbd0 | None => None end))) m)
  | None => Ub
  end.
Definition destroy_request (m : kproto_msg_t) : OP unit :=
  on_m (m ← lift (strip_key m); destroy_message (Some m)).

(** The error exits, last label first *)
Definition ex_kio (ses : option ptr) (d : op_desc) (p : ptr) (krc : Z) : OP (Z * option ptr) :=
  kio_free p ;; err_inc ses (od_kop d) ;; mret (krc, None).
Definition ex_kmreq ses d p m krc : OP (Z * option ptr) := destroy_request m ;; ex_kio ses d p krc.
Definition ex_kmmsg ses d p m krc : OP (Z * option ptr) := on_m KI_FREE ;; ex_kmreq ses d p m krc.
Definition ex_kmmsg_pdu ses d p m krc : OP (Z * option ptr) := on_m KI_FREE ;; ex_kmmsg ses d p m krc.
Definition ex_kmmsg_msg ses d p m krc : OP (Z * option ptr) := on_m KI_FREE ;; ex_kmmsg_pdu ses d p m krc.

(** The kio of a request before its vectors are hung on it *)
Definition setup_kio (d : op_desc) (tstat : bool) (start : timespec) : kio ptr :=
  let flags := Z.lor (Z.lor KIOF_INIT (od_flags d)) (if tstat then KIOF_TSTAMP else 0) in
  let ts := if tstat then KioTstamps start ts0 ts0 ts0 else tstamps0 in
  Kio ptr KIO_MAGIC (od_cmd d) 0 flags KIO_NEW 0 kio_msg0 kio_msg0 ts0 None
    (od_cctx d) (od_kv d) (od_altkv d) (od_kb d) (od_app d) ts.

Definition tstat_on (ses : option ptr) (k : option op_kind) : OP bool :=
  match k with
  | Some k => kop ← kop_rd ses k; mret (KIOP_ISSET kop KOPF_TSTAT)
  | None => mret false
  end.

(** From the allocation of the kio to the end of the function *)
Definition send_request (ktd : Z) (cf ses : option ptr) (start : timespec) (d : op_desc) : OP (Z * option ptr) :=
  kio ← kio_alloc;
  match kio with
  | None => err_inc ses (od_kop d) ;; mret (K_ENOMEM, None)
  | Some p =>
      cfg ← cfg_rd cf;
      s ← ses_rd ses;
      let msg_hdr := Kmsghdr KAT_HMAC (kcfg_id cfg) (kcfg_hkey cfg) 0 None 0 in
      let cmd_hdr := set_kch_type (od_cmd d) (ks_ch s) in
      let cmd_hdr := match od_bid d with Some b => set_kch_bid b cmd_hdr | None => cmd_hdr end in
      kmreq ← on_m (od_create d msg_hdr cmd_hdr);
      match kmreq with
      | None => ex_kio ses d p (od_create_err d)
      | Some m =>
          tstat ← tstat_on ses (od_kop d);
          on_w (kio_upd p (fun _ => setup_kio d tstat start)) ;;
          let km_cnt := KM_CNT_NOVAL + zlen (od_vals d) in
          arr ← on_m (KI_MALLOC (sizeof_kiovec * km_cnt));
          match arr with None => ex_kmreq ses d p m K_ENOMEM | Some _ =>
          pdub ← on_m (KI_MALLOC KP_PLENGTH);
          match pdub with None => ex_kmmsg ses d p m K_ENOMEM | Some _ =>
          packed ← on_m (pack_kinetic_message m);
          match packed with None => ex_kmmsg_pdu ses d p m K_EINTERNAL | Some (b, n) =>
          vallen ← on_h (len_loop u32 (od_vals d) (length (od_vals d)) 0 0);
          let pdu := Kpdu KP_MAGIC (u32 n) vallen in
          let iov := Kiovec (Some (PACK_PDU pdu)) KP_PLENGTH :: Kiovec (Some b) n :: od_vals d in
          on_w (kio_upd p (set_kio_sendmsg (KioMsg (Some iov) km_cnt 0 0))) ;;
          refused ← od_account d (kp_msglen pdu) (kp_vallen pdu);
          match refused with Some krc => ex_kmmsg_msg ses d p m krc | None =>
          rc ← on_w (ktli_send ktd p);
          if rc <? 0 then ex_kmmsg_msg ses d p m K_EINTERNAL
          else destroy_request m ;; mret (K_OK, Some p)
          end end end end
      end
  end.

(** ** Completing a request *)

(** [!kio || kio->kio_magic != KIO_MAGIC] *)
Definition kio_bad (kio : option ptr) : OP bool :=
  match kio with
  | None => mret true
  | Some p => k ← on_w (kio_rd p); mret (negb (kio_magic k =? KIO_MAGIC))
  end.

(** The receive: [Some] is the status of an early return. *)
Definition receive_kio (ktd : Z) (ses : option ptr) (k : option op_kind) (p : ptr) : OP (option Z) :=
  rc ← on_w (ktli_receive ktd p);
  if rc <? 0 then
    o ← get_st;
    if w_errno (o_w o) =? ENOENT then mret (Some K_EAGAIN)
    else err_inc ses k ;; mret (Some K_EINTERNAL)
  else mret None.

(** A kio that came back without a response *)
Definition state_status (ses : option ptr) (k : option op_kind) (kio : kio ptr) : OP (option Z) :=
  if bool_decide (kio_st kio = KIO_TIMEDOUT) then err_inc ses k ;; mret (Some K_ETIMEDOUT)
  else if bool_decide (kio_st kio = KIO_FAILED) then err_inc ses k ;; mret (Some K_ENOMSG)
  else mret None.

(** The response's PDU checked against the received vectors, and the message
    unpacked; [None] is K_EINTERNAL. *)
Definition decode_response (kio : kio ptr) : OP (option kproto_msg_t) :=
  kiov ← deref_st (km_msg (kio_recvmsg kio));
  v ← array_rd kiov (Z.of_nat KIOV_PDU);
  if negb (kiov_len v =? KP_PLENGTH) then mret None else
  b ← deref_st (kiov_base v);
  pdu ← lift (UNPACK_PDU b);
  msg ← array_rd kiov (Z.of_nat KIOV_MSG);
  val ← array_rd kiov (Z.of_nat KIOV_VAL);
  if negb (kp_msglen pdu =? kiov_len msg) || negb (kp_vallen pdu =? kiov_len val) then mret None else
  on_m (unpack_kinetic_message (kiov_base msg) (kiov_len msg)).

(** [for (rl=0, i=0; i < km_cnt; i++) { rl += kiov_len; KI_FREE(kiov_base); }],
    then the array; all of it is KTLI's memory. *)
Definition free_base (v : kiovec) : OP unit :=
  match kiov_base v with Some _ => on_w free_buf | None => mret tt end.
Fixpoint recv_loop (iov : list kiovec) (n : nat) (i rl : Z) : OP Z :=
  match n with
  | O => mret rl
  | S n =>
      v ← array_rd iov i;
      free_base v ;;
      recv_loop iov n (i + 1) (u32 (rl + kiov_len v))
  end.
Definition free_recvmsg (m : kio_msg) : OP Z :=
  match km_msg m with
  | None => mret 0
  | Some iov => rl ← recv_loop iov (Z.to_nat (km_cnt m)) 0 0; on_w free_buf ;; mret rl
  end.

(** The request: PDU and message are the operation's, the rest the caller's. *)
Fixpoint send_loop (iov : list kiovec) (n : nat) (i sl : Z) : OP Z :=
  match n with
  | O => mret sl
  | S n =>
      v ← array_rd iov i;
      (if i <? KM_CNT_NOVAL then deref_st (kiov_base v) ;; on_m KI_FREE else mret tt) ;;
      send_loop iov n (i + 1) (u32 (sl + kiov_len v))
  end.
Definition free_sendmsg (m : kio_msg) : OP Z :=
  iov ← deref_st (km_msg m);
  sl ← send_loop iov (Z.to_nat (km_cnt m)) 0 0;
  on_m KI_FREE ;;
  mret sl.

(** Key and value lengths of a kv *)
Definition kv_lens (kv : option ptr) : OP (Z * Z) :=
  v ← kv_rd kv;
  key ← deref_st (kv_key v);
  kl ← on_h (len_loop u32 key (Z.to_nat (kv_keycnt v)) 0 0);
  vl ← (if kv_valcnt v <? 1 then mret 0 else
          val ← deref_st (kv_val v); on_h (len_loop u32 val (Z.to_nat (kv_valcnt v)) 0 0));
  mret (kl, vl).

(** The statistics of a completed operation *)
Definition record_ok (ses : option ptr) (k : op_kind) (p : ptr)
    (sizes : Z -> Z -> Z -> Z -> kopstat -> kopstat) (sl rl kl vl : Z) : OP unit :=
  kop_upd ses (Some k) (fun s => sizes sl rl kl vl (count_ok s)) ;;
  kop ← kop_rd ses k;
  if KIOP_ISSET kop KOPF_TSTAT then
    comp ← on_w ktli_gettime;
    kio ← on_w (kio_rd p);
    let t := kio_ts kio in
    let '(_, kop, ts) := s_stats_addts kop (KioTstamps (kiot_start t) (kiot_sent t) (kiot_recvs t) comp) in
    kop_upd ses (Some k) (fun _ => kop)
  else mret tt.

(** The end of a completion: the buffers, the statistics, the kio.  [lens] is
    run for a successful operation only. *)
Definition finish_kio (ses : option ptr) (k : op_kind) (p : ptr) (kio : kio ptr) (krc : Z)
    (free_recv : OP Z) (sizes : Z -> Z -> Z -> Z -> kopstat -> kopstat) (lens : OP (Z * Z)) : OP unit :=
  rl ← free_recv;
  sl ← free_sendmsg (kio_sendmsg kio);
  (if krc =? K_OK then '(kl, vl) ← lens; record_ok ses k p sizes sl rl kl vl
   else err_inc ses (Some k)) ;;
  kio_free p.

(** [kv_data->kv_protobuf = response]: a response the kv held before is
    forgotten. *)
Definition hang_response (kv : option ptr) (c : kproto_cmd_t) : OP unit :=
  kv_rd kv ;; p ← deref_st kv;
  modify_st (fun o => Opst (o_w o) (o_heap o) (o_ses o) (<[p := c]> (o_pb o))).

(** The first steps of [extract_putkey], [extract_delkey], [extract_getkey]:
    the response hung on the kv, its status, its key value part ([inr]: the
    status of an early exit). *)
Definition extract_response (resp_msg : kproto_msg_t) (kv : option ptr) (on_error : kproto_cmd_t -> OP unit) :
    OP (kproto_kv_t + Z) :=
  match m_commandbytes resp_msg with
  | None => mret (inr K_EINTERNAL)
  | Some cb =>
      resp_cmd ← on_m (unpack_kinetic_command cb);
      match resp_cmd with
      | None => mret (inr K_EINTERNAL)
      | Some c =>
          hang_response kv c ;;
          let krc := extract_cmdstatus_code (Some c) in
          if negb (krc =? K_OK) then on_error c ;; mret (inr krc) else
          match c_body c ≫= b_keyvalue with
          | None => on_error c ;; mret (inr K_EINTERNAL)
          | Some resp => mret (inl resp)
          end
      end
  end.

(** The fields of the caller's kv that a response to a put or a delete
    overwrites: what [extract_bytes_optional] stores when the field is there. *)
Definition set_kv_key0 (d : ProtobufCBinaryData) (v : kv) : OP kv :=
  key ← deref_st (kv_key v);
  key ← array_wr key 0 (Kiovec (pb_data d) (pb_len d));
  mret (Kv (Some key) 1 (kv_val v) (kv_valcnt v) (kv_ver v) (kv_verlen v) (kv_newver v) (kv_newverlen v)
          (kv_disum v) (kv_disumlen v) (kv_ditype v) (kv_cpolicy v) (kv_metaonly v)).
Definition set_kv_ver (d : ProtobufCBinaryData) (v : kv) : kv :=
  Kv (kv_key v) (kv_keycnt v) (kv_val v) (kv_valcnt v) (pb_data d) (pb_len d) (kv_newver v) (kv_newverlen v)
    (kv_disum v) (kv_disumlen v) (kv_ditype v) (kv_cpolicy v) (kv_metaonly v).
Definition set_kv_disum (d : ProtobufCBinaryData) (v : kv) : kv :=
  Kv (kv_key v) (kv_keycnt v) (kv_val v) (kv_valcnt v) (kv_ver v) (kv_verlen v) (kv_newver v) (kv_newverlen v)
    (pb_data d) (pb_len d) (kv_ditype v) (kv_cpolicy v) (kv_metaonly v).
Definition set_kv_ditype (t : Z) (v : kv) : kv :=
  Kv (kv_key v) (kv_keycnt v) (kv_val v) (kv_valcnt v) (kv_ver v) (kv_verlen v) (kv_newver v) (kv_newverlen v)
    (kv_disum v) (kv_disumlen v) t (kv_cpolicy v) (kv_metaonly v).
Definition opt_set {A B} (f : A -> B -> B) (o : option A) (b : B) : B :=
  match o with Some a => f a b | None => b end.

Definition fill_kv (resp : kproto_kv_t) (kv : option ptr) : OP unit :=
  v ← kv_rd kv;
  v ← match kp_key resp with Some d => set_kv_key0 d v | None => mret v end;
  let v := opt_set set_kv_ver (kp_dbversion resp) v in
  let v := opt_set set_kv_disum (kp_tag resp) v in
  let v := opt_set set_kv_ditype (kp_algorithm resp) v in
  kv_wr kv v.

(** The part of a completion between the receive and the buffers: the status
    of a kio without response, of a response that does not decode, or what
    [extract] makes of it; the unpacked message is destroyed. *)
Definition response_status (kio : kio ptr) (extract : kproto_msg_t -> OP Z) : OP Z :=
  resp ← decode_response kio;
  match resp with
  | None => mret K_EINTERNAL
  | Some m => krc ← extract m; on_m (destroy_message (Some m)) ;; mret krc
  end.

(** A status alone: [extract_status], [extract_noop], [extract_flush] *)
Definition extract_code (resp_msg : kproto_msg_t) : OP Z := on_m (extract_status resp_msg).

(** ** Waiting

    The loop of the blocking calls.  [asleep i n] is what the other threads do
    during the [n]-th sleep of the [i]-th poll; the fuel [poll_fuel] bounds a
    poll, [fuel] the rounds. *)
Fixpoint wait_loop (complete : OP Z) (asleep : nat -> nat -> ST world Z) (poll_fuel : nat)
    (ktd : Z) (fuel : nat) (i : nat) : OP Z :=
  match fuel with
  | O => fun _ => NoFuel
  | S fuel =>
      rc ← on_w (ktli_poll (asleep i) poll_fuel ktd 100);
      o ← get_st;
      if (rc <? 1) && (w_errno (o_w o) =? ETIMEDOUT) then
        wait_loop complete asleep poll_fuel ktd fuel (S i)
      else
      ks ← complete;
      if ks =? K_EAGAIN then wait_loop complete asleep poll_fuel ktd fuel (S i) else mret ks
  end.

(** ** The statistics of a session: [src/stat.c]

    [kst] is the caller's structure: [false] and [None] are NULL. *)
Definition ki_getstats (ktd : Z) (kst : bool) : OP (Z * option kstats) :=
  if negb kst then mret (K_EINVAL, None) else
  '(rc, cf) ← on_w (ktli_config ktd);
  if rc <? 0 then mret (K_EBADSESS, None) else
  cfg ← cfg_rd cf;
  s ← ses_rd (kcfg_pconf cfg);
  mret (K_OK, Some (finish_stats (ks_stats s))).

Definition ki_putstats (ktd : Z) (kst : option kstats) : OP Z :=
  match kst with
  | None => mret K_EINVAL
  | Some kst =>
      '(rc, cf) ← on_w (ktli_config ktd);
      if rc <? 0 then mret K_EBADSESS else
      cfg ← cfg_rd cf;
      ses_upd (kcfg_pconf cfg) (set_ks_stats kst) ;;
      mret K_OK
  end.
End op.
