(* ===== verification/Put.v ===== *)
(** Put and compare-and-swap: [src/put.c]. *)

From stdpp Require Import gmap.
From S2P Require Import Prelude Types ListApi Session KtliState Ktli Pdu Keys Ktb Validate ProtoData Proto Stat Op.

Section put.
Context `{LA : ListApi} {X : Type} {PG : ProtoGen}.

Notation OP := (ST (@opst LA X)).

(** The body of the command; both version fields are set when either version is
    given, the tag always. *)
Definition put_body (key : ProtobufCBinaryData) (cmd_data : kv) (bool_shouldforce : Z) : kproto_kv_t :=
  let vers := bool_decide (kv_newver cmd_data <> None) || bool_decide (kv_ver cmd_data <> None) in
  Keyvalue (if vers then Some (Pbd (kv_newverlen cmd_data) (kv_newver cmd_data)) else None)
    (Some bool_shouldforce) (Some key)
    (if vers then Some (Pbd (kv_verlen cmd_data) (kv_ver cmd_data)) else None)
    (Some (Pbd (kv_disumlen cmd_data) (kv_disum cmd_data)))
    (Some (kv_ditype cmd_data)) None (Some (kv_cpolicy cmd_data)).

Definition create_put_message (msg_hdr : kmsghdr_t) (cmd_hdr : kcmdhdr_t) (cmd_data : kv)
    (bool_shouldforce : Z) : ST mem (option kproto_msg_t) :=
  key ← keyname_to_proto (kv_key cmd_data) (kv_keycnt cmd_data);
  match key with
  | None => mret None
  | Some key =>
      command_bytes ← create_command_bytes cmd_hdr (PKv (put_body key cmd_data bool_shouldforce));
      free_data (pb_data key) ;;
      if bool_decide (pb_data command_bytes = None) then mret None
      else create_message msg_hdr command_bytes
  end.

Definition extract_putkey (resp_msg : kproto_msg_t) (kv_data : option ptr) : OP Z :=
  r ← extract_response resp_msg kv_data (fun _ => mret tt);
  match r with
  | inr krc => mret krc
  | inl resp => fill_kv resp kv_data ;; mret K_OK
  end.

(** Batch accounting: the counters are raised before the limits are looked at.
    [Some]: the request is refused. *)
Definition kb_add (dels msglen vallen : Z) (b : kb) : kb :=
  Kb (kb_ktd b) (kb_bid b) (u32 (kb_ops b + 1)) (u32 (kb_dels b + dels))
    (u32 (kb_bytes b + u32 (msglen + vallen))).
Definition over (limit count : Z) : bool := (limit >? 0) && (count >? limit).

Definition put_account (ses kbp : option ptr) (msglen vallen : Z) : OP (option Z) :=
  match kbp with
  | None => mret None
  | Some _ =>
      b ← kb_rd kbp;
      let b := kb_add 0 msglen vallen b in
      kb_wr kbp b ;;
      s ← ses_rd ses;
      if over (kl_batlen (ks_l s)) (kb_bytes b) then mret (Some K_EBATCH)
      else if over (kl_batopscnt (ks_l s)) (kb_ops b) then mret (Some K_EBATCH)
      else mret None
  end.

(** What a put or a delete checks first: [inl] the configuration, the session
    and the batch id for the header; [inr] the status of an early return.
    [ckio] tells whether the caller gave a place for the kio. *)
Definition kv_request_checks (k : op_kind) (ktd : Z) (kvp kbp : option ptr) (verck ckio : bool) :
    OP (option ptr * option ptr * option Z + Z) :=
  if negb ckio then mret (inr K_EINVAL) else
  '(rc, cf) ← on_w (ktli_config ktd);
  if rc <? 0 then mret (inr K_EBADSESS) else
  cfg ← cfg_rd cf;
  let ses := kcfg_pconf cfg in
  s ← ses_rd ses;
  rc ← on_h (ki_validate_kv kvp verck true (ks_l s));
  if rc <? 0 then err_inc ses (Some k) ;; mret (inr K_EINVAL) else
  rc ← on_h (ki_validate_kb kbp KMT_PUT);
  if bool_decide (kbp <> None) && (rc <? 0) then err_inc ses (Some k) ;; mret (inr K_EINVAL) else
  bid ← match kbp with Some _ => b ← kb_rd kbp; mret (Some (kb_bid b)) | None => mret None end;
  mret (inl (cf, ses, bid)).

Definition reqflag (kbp : option ptr) : Z := match kbp with Some _ => KIOF_REQONLY | None => KIOF_REQRESP end.

Definition p_put_aio_generic (ktd : Z) (kvp kbp : option ptr) (verck : bool) (cctx : option ptr)
    (ckio : bool) : OP (Z * option ptr) :=
  start ← on_w ktli_gettime;
  r ← kv_request_checks OpPut ktd kvp kbp verck ckio;
  match r with
  | inr krc => mret (krc, None)
  | inl (cf, ses, bid) =>
      v ← kv_rd kvp;
      val ← deref_st (kv_val v);
      send_request ktd cf ses start
        (OpDesc KMT_PUT (reqflag kbp) (Some OpPut) kvp None kbp None cctx
           (take (Z.to_nat (kv_valcnt v)) val)
           (fun mh ch => create_put_message mh ch v (if verck then 0 else 1)) K_EINTERNAL bid
           (put_account ses kbp))
  end.

(** The status, and what is stored in the caller's [*cctx]: NULL always. *)
Definition p_put_aio_complete (ktd : Z) (kio : option ptr) : OP (Z * option ptr) :=
  bad ← kio_bad kio;
  if bad : bool then mret (K_EINVAL, None) else
  p ← deref_st kio;
  '(rc, cf) ← on_w (ktli_config ktd);
  if rc <? 0 then mret (K_EBADSESS, None) else
  cfg ← cfg_rd cf;
  let ses := kcfg_pconf cfg in
  early ← receive_kio ktd ses (Some OpPut) p;
  match early with
  | Some krc => mret (krc, None)
  | None =>
      k ← on_w (kio_rd p);
      st ← state_status ses (Some OpPut) k;
      krc ← match st with
            | Some krc => mret krc
            | None =>
                match kio_ckb k with
                | Some _ => mret K_OK
                | None => response_status k (fun m => extract_putkey m (kio_ckv k))
                end
            end;
      finish_kio ses OpPut p k krc (free_recvmsg (kio_recvmsg k)) stat_sizes (kv_lens (kio_ckv k)) ;;
      mret (krc, None)
  end.

Definition p_put_generic (asleep : nat -> nat -> ST (@world LA X) Z) (poll_fuel fuel : nat)
    (ktd : Z) (kvp kbp : option ptr) (verck : bool) : OP Z :=
  '(ks, kio) ← p_put_aio_generic ktd kvp kbp verck None true;
  if negb (ks =? K_OK) then mret ks else
  wait_loop ('(ks, _) ← p_put_aio_complete ktd kio; mret ks) asleep poll_fuel ktd fuel 0.

Definition ki_aio_put ktd kbp kvp cctx ckio : OP (Z * option ptr) := p_put_aio_generic ktd kvp kbp false cctx ckio.
Definition ki_aio_cas ktd kbp kvp cctx ckio : OP (Z * option ptr) := p_put_aio_generic ktd kvp kbp true cctx ckio.
Definition ki_put asleep poll_fuel fuel ktd kbp kvp : OP Z := p_put_generic asleep poll_fuel fuel ktd kvp kbp false.
Definition ki_cas asleep poll_fuel fuel ktd kbp kvp : OP Z := p_put_generic asleep poll_fuel fuel ktd kvp kbp true.
End put.
