(* ===== verification/Del.v ===== *)
(** Delete and compare-and-delete: [src/del.c]. *)

From stdpp Require Import gmap.
From S2P Require Import Prelude Types ListApi Session KtliState Ktli Pdu Keys Ktb Validate ProtoData Proto Stat Op Put.

Section del.
Context `{LA : ListApi} {X : Type} {PG : ProtoGen}.

Notation OP := (ST (@opst LA X)).

(** [key] is [None] when the key buffer could not be made: the source tests
    for a negative result, which [keyname_to_proto] never gives. *)
Definition del_body (key : option ProtobufCBinaryData) (cmd_data : kv) (bool_shouldforce : Z) : kproto_kv_t :=
  Keyvalue None (Some bool_shouldforce) key (Some (Pbd (kv_verlen cmd_data) (kv_ver cmd_data)))
    None None None (Some (kv_cpolicy cmd_data)).

Definition create_delkey_message (msg_hdr : kmsghdr_t) (cmd_hdr : kcmdhdr_t) (cmd_data : kv)
    (bool_shouldforce : Z) : ST mem (option kproto_msg_t) :=
  key ← keyname_to_proto (kv_key cmd_data) (kv_keycnt cmd_data);
  command_bytes ← create_command_bytes cmd_hdr (PKv (del_body key cmd_data bool_shouldforce));
  free_data (key ≫= pb_data) ;;
  if bool_decide (pb_data command_bytes = None) then mret None
  else create_message msg_hdr command_bytes.

(** On an error the response is destroyed, still hung on the kv. *)
Definition extract_delkey (resp_msg : kproto_msg_t) (kv_data : option ptr) : OP Z :=
  r ← extract_response resp_msg kv_data (fun c => on_m (destroy_command (Some c)));
  match r with
  | inr krc => mret krc
  | inl resp => fill_kv resp kv_data ;; mret K_OK
  end.

Definition del_account (ses kbp : option ptr) (msglen vallen : Z) : OP (option Z) :=
  match kbp with
  | None => mret None
  | Some _ =>
      b ← kb_rd kbp;
      let b := kb_add 1 msglen vallen b in
      kb_wr kbp b ;;
      s ← ses_rd ses;
      if over (kl_batlen (ks_l s)) (kb_bytes b) then mret (Some K_EBATCH)
      else if over (kl_batopscnt (ks_l s)) (kb_ops b) then mret (Some K_EBATCH)
      else if over (kl_batdelcnt (ks_l s)) (kb_dels b) then mret (Some K_EBATCH)
      else mret None
  end.

Definition d_del_aio_generic (ktd : Z) (kvp kbp : option ptr) (verck : bool) (cctx : option ptr)
    (ckio : bool) : OP (Z * option ptr) :=
  start ← on_w ktli_gettime;
  r ← kv_request_checks OpDel ktd kvp kbp verck ckio;
  match r with
  | inr krc => mret (krc, None)
  | inl (cf, ses, bid) =>
      v ← kv_rd kvp;
      send_request ktd cf ses start
        (OpDesc KMT_DEL (reqflag kbp) (Some OpDel) kvp None kbp None cctx []
           (fun mh ch => create_delkey_message mh ch v (if verck then 0 else 1)) K_EINTERNAL bid
           (del_account ses kbp))
  end.

(** The received lengths are not added up. *)
Definition d_del_aio_complete (ktd : Z) (kio : option ptr) : OP (Z * option ptr) :=
  bad ← kio_bad kio;
  if bad : bool then mret (K_EINVAL, None) else
  p ← deref_st kio;
  '(rc, cf) ← on_w (ktli_config ktd);
  if rc <? 0 then mret (K_EBADSESS, None) else
  cfg ← cfg_rd cf;
  let ses := kcfg_pconf cfg in
  early ← receive_kio ktd ses (Some OpDel) p;
  match early with
  | Some krc => mret (krc, None)
  | None =>
      k ← on_w (kio_rd p);
      st ← state_status ses (Some OpDel) k;
      krc ← match st with
            | Some krc => mret krc
            | None =>
                match kio_ckb k with
                | Some _ => mret K_OK
                | None => response_status k (fun m => extract_delkey m (kio_ckv k))
                end
            end;
      finish_kio ses OpDel p k krc (free_recvmsg (kio_recvmsg k) ;; mret 0) stat_sizes (kv_lens (kio_ckv k)) ;;
      mret (krc, None)
  end.

Definition d_del_generic (asleep : nat -> nat -> ST (@world LA X) Z) (poll_fuel fuel : nat)
    (ktd : Z) (kvp kbp : option ptr) (verck : bool) : OP Z :=
  '(ks, kio) ← d_del_aio_generic ktd kvp kbp verck None true;
  if negb (ks =? K_OK) then mret ks else
  wait_loop ('(ks, _) ← d_del_aio_complete ktd kio; mret ks) asleep poll_fuel ktd fuel 0.

Definition ki_aio_del ktd kbp kvp cctx ckio : OP (Z * option ptr) := d_del_aio_generic ktd kvp kbp false cctx ckio.
Definition ki_aio_cad ktd kbp kvp cctx ckio : OP (Z * option ptr) := d_del_aio_generic ktd kvp kbp true cctx ckio.
Definition ki_del asleep poll_fuel fuel ktd kbp kvp : OP Z := d_del_generic asleep poll_fuel fuel ktd kvp kbp false.
Definition ki_cad asleep poll_fuel fuel ktd kbp kvp : OP Z := d_del_generic asleep poll_fuel fuel ktd kvp kbp true.
End del.
