(* ===== verification/Get.v ===== *)
(** Get, get next, get previous and get version: [src/get.c]. *)

From stdpp Require Import gmap.
From S2P Require Import Prelude Types ListApi Session KtliState Ktli Pdu Keys Ktb Validate ProtoData Proto Stat Op.

Section get.
Context `{LA : ListApi} {X : Type} {PG : ProtoGen}.

Notation OP := (ST (@opst LA X)).

(** When the command cannot be packed the key buffer is not freed. *)
Definition get_body (key : ProtobufCBinaryData) (cmd_data : kv) : kproto_kv_t :=
  Keyvalue None None (Some key) None None None (Some (kv_metaonly cmd_data)) None.

Definition create_getkey_message (msg_hdr : kmsghdr_t) (cmd_hdr : kcmdhdr_t) (cmd_data : kv) :
    ST mem (option kproto_msg_t) :=
  key ← keyname_to_proto (kv_key cmd_data) (kv_keycnt cmd_data);
  match key with
  | None => mret None
  | Some key =>
      command_bytes ← create_command_bytes cmd_hdr (PKv (get_body key cmd_data));
      if bool_decide (pb_data command_bytes = None) then mret None else
      free_data (pb_data key) ;;
      create_message msg_hdr command_bytes
  end.

(** The fields of the response the kv takes: only those its pointers leave
    open. *)
Definition extract_getkey (response_msg : kproto_msg_t) (kv_data : option ptr) : OP Z :=
  r ← extract_response response_msg kv_data (fun _ => mret tt);
  match r with
  | inr krc => mret krc
  | inl response =>
      v ← kv_rd kv_data;
      key ← deref_st (kv_key v);
      k0 ← array_rd key 0;
      v ← match kiov_base k0, kp_key response with
          | None, Some d => set_kv_key0 d v
          | _, _ => mret v
          end;
      let v := match kv_ver v with None => opt_set set_kv_ver (kp_dbversion response) v | Some _ => v end in
      let v := match kv_disum v with
               | None => opt_set set_kv_ditype (kp_algorithm response) (opt_set set_kv_disum (kp_tag response) v)
               | Some _ => v
               end in
      kv_wr kv_data v ;;
      mret K_OK
  end.

Definition altkv_needed (msg_type : Z) : bool := (msg_type =? KMT_GETNEXT) || (msg_type =? KMT_GETPREV).
Definition get_command (msg_type : Z) : bool :=
  altkv_needed msg_type || (msg_type =? KMT_GET) || (msg_type =? KMT_GETVERS).

(** The validation switch and the validation of the kvs; [true]: refused. *)
Definition get_refused (kvp altkv : option ptr) (msg_type : Z) (lim : klimits) : ST heap bool :=
  if altkv_needed msg_type && bool_decide (altkv = None) then mret true else
  if negb (get_command msg_type) || bool_decide (kvp = None) then mret true else
  rc ← ki_validate_kv kvp false true lim;
  if rc <? 0 then mret true else
  match altkv with
  | None => mret false
  | Some _ => rc ← ki_validate_kv altkv false true lim; mret (rc <? 0)
  end.

Definition g_get_aio_generic (ktd : Z) (kvp altkv : option ptr) (msg_type : Z) (cctx : option ptr)
    (ckio : bool) : OP (Z * option ptr) :=
  start ← on_w ktli_gettime;
  if negb ckio then mret (K_EINVAL, None) else
  '(rc, cf) ← on_w (ktli_config ktd);
  if rc <? 0 then mret (K_EBADSESS, None) else
  cfg ← cfg_rd cf;
  let ses := kcfg_pconf cfg in
  s ← ses_rd ses;
  refused ← on_h (get_refused kvp altkv msg_type (ks_l s));
  if refused : bool then err_inc ses (Some OpGet) ;; mret (K_EINVAL, None) else
  v ← kv_rd kvp;
  send_request ktd cf ses start
    (OpDesc msg_type KIOF_REQRESP (Some OpGet) kvp altkv None None cctx []
       (fun mh ch => create_getkey_message mh ch v) K_ENOMEM None (fun _ _ => mret None)).

(** [kv_val[0] = kiov[KIOV_VAL]] *)
Definition hang_value (kvp : option ptr) (val : kiovec) : OP unit :=
  v ← kv_rd kvp;
  iov ← deref_st (kv_val v);
  iov ← array_wr iov 0 val;
  kv_wr kvp (Kv (kv_key v) (kv_keycnt v) (Some iov) (kv_valcnt v) (kv_ver v) (kv_verlen v) (kv_newver v)
    (kv_newverlen v) (kv_disum v) (kv_disumlen v) (kv_ditype v) (kv_cpolicy v) (kv_metaonly v)).

Definition extract_get (k : kio ptr) (m : kproto_msg_t) : OP Z :=
  kiov ← deref_st (km_msg (kio_recvmsg k));
  val ← array_rd kiov (Z.of_nat KIOV_VAL);
  if kio_cmd k =? KMT_GET then hang_value (kio_ckv k) val ;; extract_getkey m (kio_ckv k)
  else if kio_cmd k =? KMT_GETVERS then extract_getkey m (kio_ckv k)
  else if altkv_needed (kio_cmd k) then
    hang_value (kio_caltkv k) val ;; extract_getkey m (kio_caltkv k)
  else ub_st.  (* assert(0) *)

(** The received buffers: the value stays with the caller unless the operation
    failed, was for a version, or the kv asks for metadata alone. *)
Definition drop_value (k : kio ptr) (krc : Z) : OP bool :=
  if negb (krc =? K_OK) || (kio_cmd k =? KMT_GETVERS) then mret true else
  v ← kv_rd (kio_ckv k); mret (negb (kv_metaonly v =? 0)).

Definition vec_if (b : bool) (iov : list kiovec) (i : nat) : OP kiovec :=
  if b then array_rd iov (Z.of_nat i) else mret (Kiovec None 0).
Definition free_get_recvmsg (k : kio ptr) (krc : Z) : OP Z :=
  match km_msg (kio_recvmsg k) with
  | None => mret 0
  | Some iov =>
      let cnt := km_cnt (kio_recvmsg k) in
      pdu ← vec_if (cnt >? Z.of_nat KIOV_PDU) iov KIOV_PDU;
      rl ← (if bool_decide (kiov_base pdu <> None) then free_base pdu ;; mret (u32 (kiov_len pdu)) else mret 0);
      msg ← vec_if (cnt >=? Z.of_nat KIOV_MSG) iov KIOV_MSG;
      rl ← (if bool_decide (kiov_base msg <> None) then free_base msg ;; mret (u32 (rl + kiov_len msg)) else mret rl);
      val ← vec_if (cnt >=? Z.of_nat KIOV_VAL) iov KIOV_VAL;
      let rl := if bool_decide (kiov_base val <> None) then u32 (rl + kiov_len val) else rl in
      (if (cnt >? Z.of_nat KIOV_VAL) && bool_decide (kiov_base val <> None) then
         drop ← drop_value k krc; if drop : bool then free_base val else mret tt
       else mret tt) ;;
      on_w free_buf ;;
      mret rl
  end.

(** The status, and what is stored in the caller's [*cctx]. *)
Definition g_get_aio_complete (ktd : Z) (kio : option ptr) : OP (Z * option ptr) :=
  bad ← kio_bad kio;
  if bad : bool then mret (K_EINVAL, None) else
  p ← deref_st kio;
  '(rc, cf) ← on_w (ktli_config ktd);
  if rc <? 0 then mret (K_EBADSESS, None) else
  cfg ← cfg_rd cf;
  let ses := kcfg_pconf cfg in
  early ← receive_kio ktd ses (Some OpGet) p;
  match early with
  | Some krc => mret (krc, None)
  | None =>
      k ← on_w (kio_rd p);
      st ← state_status ses (Some OpGet) k;
      krc ← match st with Some krc => mret krc | None => response_status k (extract_get k) end;
      finish_kio ses OpGet p k krc (free_get_recvmsg k krc) stat_sizes_get (kv_lens (kio_ckv k)) ;;
      mret (krc, if krc =? K_OK then kio_cctx k else None)
  end.

Definition g_get_generic (asleep : nat -> nat -> ST (@world LA X) Z) (poll_fuel fuel : nat)
    (ktd : Z) (kvp altkv : option ptr) (msg_type : Z) : OP Z :=
  '(ks, kio) ← g_get_aio_generic ktd kvp altkv msg_type None true;
  if negb (ks =? K_OK) then mret ks else
  wait_loop ('(ks, _) ← g_get_aio_complete ktd kio; mret ks) asleep poll_fuel ktd fuel 0.

(** The asynchronous calls all send KMT_GET. *)
Definition ki_aio_get ktd key cctx ckio : OP (Z * option ptr) := g_get_aio_generic ktd key None KMT_GET cctx ckio.
Definition ki_aio_getnext ktd key next cctx ckio : OP (Z * option ptr) := g_get_aio_generic ktd key next KMT_GET cctx ckio.
Definition ki_aio_getprev ktd key prev cctx ckio : OP (Z * option ptr) := g_get_aio_generic ktd key prev KMT_GET cctx ckio.
Definition ki_aio_getvers ktd key cctx ckio : OP (Z * option ptr) := g_get_aio_generic ktd key None KMT_GET cctx ckio.
Definition ki_get asleep poll_fuel fuel ktd key : OP Z := g_get_generic asleep poll_fuel fuel ktd key None KMT_GET.
Definition ki_getnext asleep poll_fuel fuel ktd key next : OP Z :=
  g_get_generic asleep poll_fuel fuel ktd key next KMT_GETNEXT.
Definition ki_getprev asleep poll_fuel fuel ktd key prev : OP Z :=
  g_get_generic asleep poll_fuel fuel ktd key prev KMT_GETPREV.
Definition ki_getversion asleep poll_fuel fuel ktd key : OP Z :=
  g_get_generic asleep poll_fuel fuel ktd key None KMT_GETVERS.
End get.
