(* ===== verification/Noop.v ===== *)
(** Noop and flush: [src/noop.c] and [src/flush.c], the same code for two
    message types. *)

From stdpp Require Import gmap.
From S2P Require Import Prelude Types ListApi Session KtliState Ktli Pdu Keys Ktb Validate ProtoData Proto Stat Op.

Section noop.
Context `{LA : ListApi} {X : Type} {PG : ProtoGen}.

Notation OP := (ST (@opst LA X)).

Definition create_noop_message (msg_hdr : kmsghdr_t) (cmd_hdr : kcmdhdr_t) : ST mem (option kproto_msg_t) :=
  command_bytes ← create_command_bytes cmd_hdr (PKv kv_init);
  if bool_decide (pb_data command_bytes = None) then mret None
  else create_message msg_hdr command_bytes.
Definition create_flush_message : kmsghdr_t -> kcmdhdr_t -> ST mem (option kproto_msg_t) := create_noop_message.

Definition plain_aio_generic (k : op_kind) (msg_type : Z)
    (create : kmsghdr_t -> kcmdhdr_t -> ST mem (option kproto_msg_t))
    (ktd : Z) (cctx : option ptr) (ckio : bool) : OP (Z * option ptr) :=
  start ← on_w ktli_gettime;
  if negb ckio then mret (K_EINVAL, None) else
  '(rc, cf) ← on_w (ktli_config ktd);
  if rc <? 0 then mret (K_EBADSESS, None) else
  cfg ← cfg_rd cf;
  send_request ktd cf (kcfg_pconf cfg) start
    (OpDesc msg_type KIOF_REQRESP (Some k) None None None None cctx [] create K_EINTERNAL None
       (fun _ _ => mret None)).

Definition plain_aio_complete (k : op_kind) (ktd : Z) (kio : option ptr) : OP (Z * option ptr) :=
  bad ← kio_bad kio;
  if bad : bool then mret (K_EINVAL, None) else
  p ← deref_st kio;
  '(rc, cf) ← on_w (ktli_config ktd);
  if rc <? 0 then mret (K_EBADSESS, None) else
  cfg ← cfg_rd cf;
  let ses := kcfg_pconf cfg in
  early ← receive_kio ktd ses (Some k) p;
  match early with
  | Some krc => mret (krc, None)
  | None =>
      kio ← on_w (kio_rd p);
      st ← state_status ses (Some k) kio;
      krc ← match st with Some krc => mret krc | None => response_status kio extract_code end;
      finish_kio ses k p kio krc (free_recvmsg (kio_recvmsg kio)) stat_sizes (mret (0, 0)) ;;
      mret (krc, None)
  end.

Definition n_noop_aio_generic : Z -> option ptr -> bool -> OP (Z * option ptr) :=
  plain_aio_generic OpNoop KMT_NOOP create_noop_message.
Definition n_noop_aio_complete : Z -> option ptr -> OP (Z * option ptr) := plain_aio_complete OpNoop.
Definition f_flush_aio_generic : Z -> option ptr -> bool -> OP (Z * option ptr) :=
  plain_aio_generic OpFlush KMT_FLUSH create_flush_message.
Definition f_flush_aio_complete : Z -> option ptr -> OP (Z * option ptr) := plain_aio_complete OpFlush.

Definition plain_generic (initiate : OP (Z * option ptr)) (complete : option ptr -> OP (Z * option ptr))
    (asleep : nat -> nat -> ST (@world LA X) Z) (poll_fuel fuel : nat) (ktd : Z) : OP Z :=
  '(ks, kio) ← initiate;
  if negb (ks =? K_OK) then mret ks else
  wait_loop ('(ks, _) ← complete kio; mret ks) asleep poll_fuel ktd fuel 0.
Definition n_noop_generic asleep poll_fuel fuel ktd : OP Z :=
  plain_generic (n_noop_aio_generic ktd None true) (n_noop_aio_complete ktd) asleep poll_fuel fuel ktd.
Definition f_flush_generic asleep poll_fuel fuel ktd : OP Z :=
  plain_generic (f_flush_aio_generic ktd None true) (f_flush_aio_complete ktd) asleep poll_fuel fuel ktd.

Definition ki_aio_noop ktd cctx ckio : OP (Z * option ptr) := n_noop_aio_generic ktd cctx ckio.
Definition ki_noop asleep poll_fuel fuel ktd : OP Z := n_noop_generic asleep poll_fuel fuel ktd.
Definition ki_aio_flush ktd cctx ckio : OP (Z * option ptr) := f_flush_aio_generic ktd cctx ckio.
Definition ki_flush asleep poll_fuel fuel ktd : OP Z := f_flush_generic asleep poll_fuel fuel ktd.
End noop.
