(* ===== verification/Batch.v ===== *)
(** Batches: [src/batch.c], without KBATCH_SEQTRACKING (the source says it is
    not working code).

    The batch's own mutex protects fields only this thread's call touches while
    it runs, and is not modelled; the session's counters are shared with other
    threads, whose writes between a read and the compare-and-swap are an
    argument of [b_atom_inc]. *)

From stdpp Require Import gmap.
From S2P Require Import Prelude Types ListApi Session KtliState Ktli Pdu Keys Ktb Validate ProtoData Proto Stat Op.

(** ** [b_atom_inc]

    [race n] is what another thread stores in the counter between the n-th read
    and its compare-and-swap ([None]: nothing).  The loop ends when the swap
    succeeds or when [retries--] tests 0; the answer is the return code, [*v]
    and the counter. *)
Definition retry_max : Z := 1000.

Fixpoint atom_loop (race : nat -> option Z) (fuel n : nat) (retries p i : Z) : outcome (Z * Z * Z) :=
  let v := p in
  let p := default p (race n) in
  if p =? v then Ok (if retries =? 0 then -1 else 0, v, u32 (v + i))
  else if retries =? 0 then
    (* the test decrements it to -1 *)
    Ok (0, v, p)
  else match fuel with O => NoFuel | S fuel => atom_loop race fuel (S n) (retries - 1) p i end.

Definition b_atom_inc (race : nat -> option Z) (p i : Z) : outcome (Z * Z * Z) :=
  atom_loop race (Z.to_nat retry_max) 0 retry_max p i.

Section batch.
Context `{LA : ListApi} {X : Type} {PG : ProtoGen}.

Notation OP := (ST (@opst LA X)).

(** The other threads' writes during the three increments of a call *)
Record races := Races { r_bid : nat -> option Z; r_bats : nat -> option Z; r_dec : nat -> option Z }.
Definition quiet : races := Races (fun _ => None) (fun _ => None) (fun _ => None).

Definition inc_bid (ses : option ptr) (race : nat -> option Z) : OP (Z * Z) :=
  s ← ses_rd ses;
  '(rc, v, bid) ← lift (b_atom_inc race (ks_bid s) 1);
  ses_upd ses (fun s => set_ks_batch bid (ks_bats s) s) ;;
  mret (rc, v).
Definition inc_bats (ses : option ptr) (race : nat -> option Z) (i : Z) : OP (Z * Z) :=
  s ← ses_rd ses;
  '(rc, v, bats) ← lift (b_atom_inc race (ks_bats s) i);
  ses_upd ses (fun s => set_ks_batch (ks_bid s) bats s) ;;
  mret (rc, v).

Definition create_batch_message (msg_hdr : kmsghdr_t) (cmd_hdr : kcmdhdr_t) (ops : Z) :
    ST mem (option kproto_msg_t) :=
  command_bytes ← create_command_bytes cmd_hdr (PBatch (Batchbody (Some ops) [] None));
  create_message msg_hdr command_bytes.

(** The clean-up of a failed start ([bex_kb]): the status to return. *)
Definition bex_kb (ses : option ptr) (race : nat -> option Z) (msg_type krc : Z) : OP (Z * option ptr) :=
  if msg_type =? KMT_STARTBAT then
    '(rc, _) ← inc_bats ses race (-1);
    mret (if rc <? 0 then K_EBATCH else krc, None)
  else mret (krc, None).

(** The switch: [None] goes on, [Some (krc, cleanup)] stops. *)
Definition set_up_batch (ktd : Z) (ses kbp : option ptr) (r : races) (msg_type : Z) : OP (option (Z * bool)) :=
  if msg_type =? KMT_STARTBAT then
    b ← kb_rd kbp;
    '(rc, bid) ← inc_bid ses (r_bid r);
    kb_wr kbp (Kb (kb_ktd b) bid (kb_ops b) (kb_dels b) (kb_bytes b)) ;;
    if rc <? 0 then mret (Some (K_EBATCH, false)) else
    '(rc, batcnt) ← inc_bats ses (r_bats r) 1;
    if rc <? 0 then mret (Some (K_EBATCH, false)) else
    s ← ses_rd ses;
    if (kl_devbatcnt (ks_l s) >? 0) && (batcnt >? kl_devbatcnt (ks_l s)) then mret (Some (K_EBATCH, true)) else
    kb_wr kbp (Kb ktd bid 0 0 0) ;;
    mret None
  else if (msg_type =? KMT_ENDBAT) || (msg_type =? KMT_ABORTBAT) then mret None
  else mret (Some (K_EREJECTED, false)).

Definition b_batch_aio_generic (ktd : Z) (kbp : option ptr) (msg_type : Z) (r : races)
    (cctx : option ptr) (ckio : bool) : OP (Z * option ptr) :=
  if negb ckio then mret (K_EINVAL, None) else
  '(rc, cf) ← on_w (ktli_config ktd);
  if rc <? 0 then mret (K_EBADSESS, None) else
  cfg ← cfg_rd cf;
  let ses := kcfg_pconf cfg in
  rc ← on_h (ki_validate_kb kbp msg_type);
  if bool_decide (kbp <> None) && (rc <? 0) then mret (K_EINVAL, None) else
  stop ← set_up_batch ktd ses kbp r msg_type;
  match stop with
  | Some (krc, true) => bex_kb ses (r_dec r) msg_type krc
  | Some (krc, false) => mret (krc, None)
  | None =>
      b ← kb_rd kbp;
      '(krc, kio) ← send_request ktd cf ses ts0
        (OpDesc msg_type KIOF_REQRESP None None None kbp None cctx []
           (fun mh ch => create_batch_message mh ch (kb_ops b)) K_EINTERNAL (Some (kb_bid b))
           (fun _ _ => mret None));
      if krc =? K_OK then mret (krc, kio) else bex_kb ses (r_dec r) msg_type krc
  end.

(** A batch request has a PDU and a message. *)
Definition free_batch_sendmsg (m : kio_msg) : OP unit :=
  iov ← deref_st (km_msg m);
  pdu ← array_rd iov (Z.of_nat KIOV_PDU);
  deref_st (kiov_base pdu) ;; on_m KI_FREE ;;
  msg ← array_rd iov (Z.of_nat KIOV_MSG);
  deref_st (kiov_base msg) ;; on_m KI_FREE ;;
  on_m KI_FREE.

(** [*cctx] is never set to anything but NULL.  When the count of active
    batches cannot be decremented the function returns at once. *)
Definition b_batch_aio_complete (ktd : Z) (r : races) (kio : option ptr) : OP (Z * option ptr) :=
  '(rc, cf) ← on_w (ktli_config ktd);
  if rc <? 0 then mret (K_EBADSESS, None) else
  cfg ← cfg_rd cf;
  let ses := kcfg_pconf cfg in
  bad ← kio_bad kio;
  if bad : bool then mret (K_EINVAL, None) else
  p ← deref_st kio;
  early ← receive_kio ktd ses None p;
  match early with
  | Some krc => mret (krc, None)
  | None =>
      k ← on_w (kio_rd p);
      let bex krc :=
        free_recvmsg (kio_recvmsg k) ;; free_batch_sendmsg (kio_sendmsg k) ;; kio_free p ;; mret (krc, None) in
      if bool_decide (kio_st k <> KIO_RECEIVED) then bex K_EINTERNAL else
      resp ← decode_response k;
      match resp with
      | None => bex K_EINTERNAL
      | Some m =>
          krc ← extract_code m;
          rc ← (if (krc =? K_OK) && ((kio_cmd k =? KMT_ENDBAT) || (kio_cmd k =? KMT_ABORTBAT)) then
                  '(rc, _) ← inc_bats ses (r_dec r) (-1); mret rc
                else mret 0);
          if rc <? 0 then mret (K_EBATCH, None) else
          on_m (destroy_message (Some m)) ;;
          bex krc
      end
  end.

Definition b_batch_generic (asleep : nat -> nat -> ST (@world LA X) Z) (poll_fuel fuel : nat)
    (ktd : Z) (kbp : option ptr) (msg_type : Z) (r r' : races) : OP Z :=
  '(ks, kio) ← b_batch_aio_generic ktd kbp msg_type r None true;
  if negb (ks =? K_OK) then mret ks else
  wait_loop ('(ks, _) ← b_batch_aio_complete ktd r' kio; mret ks) asleep poll_fuel ktd fuel 0.

Definition b_startbatch asleep poll_fuel fuel ktd kbp r r' : OP Z :=
  b_batch_generic asleep poll_fuel fuel ktd kbp KMT_STARTBAT r r'.
Definition ki_aio_submitbatch ktd kbp r cctx ckio : OP (Z * option ptr) :=
  b_batch_aio_generic ktd kbp KMT_ENDBAT r cctx ckio.
Definition ki_submitbatch asleep poll_fuel fuel ktd kbp r r' : OP Z :=
  b_batch_generic asleep poll_fuel fuel ktd kbp KMT_ENDBAT r r'.
Definition ki_aio_abortbatch ktd kbp r cctx ckio : OP (Z * option ptr) :=
  b_batch_aio_generic ktd kbp KMT_ABORTBAT r cctx ckio.
Definition ki_abortbatch asleep poll_fuel fuel ktd kbp r r' : OP Z :=
  b_batch_generic asleep poll_fuel fuel ktd kbp KMT_ABORTBAT r r'.
End batch.
