(* ===== verification/Labels.v ===== *)
(** Tables of names and the version of the library: [src/labels.c],
    [src/version.c], and the one reader of a table that checks its index
    ([kctl_ditype_str] of [toolbox/kctl/get.c]). *)

From stdpp Require Import strings pretty.
From S2P Require Import Prelude Types Keys Ktb.

Definition ki_msgtype_label : list string := [
  "Reserved Message Type 0"; "Get Resp"; "Get"; "Put Resp"; "Put"; "Delete Resp"; "Delete"; "Get Next Resp";
  "Get Next"; "Get Previous Resp"; "Get Previous"; "Get Key Range Resp"; "Get Key Range";
  "Reserved Message Type 13"; "Reserved Message Type 14"; "Get Version Resp"; "Get Version";
  "Reserved Message Type 17"; "Reserved Message Type 18"; "Reserved Message Type 19";
  "Reserved Message Type 20"; "Setup Resp"; "Setup"; "Getlog Resp"; "Getlog"; "Security Resp"; "Security";
  "Peer2Peer Push Resp"; "Peer2Peer Push"; "Noop Resp"; "Noop"; "Flush All Data Resp"; "Flush All Data";
  "Reserved Message Type 33"; "Reserved Message Type 34"; "PIN Op Resp"; "PIN Op"; "Media Scan Resp";
  "Media Scan"; "Mediaoptimize Resp"; "Mediaoptimize"; "Start Batch Resp"; "Start Batch"; "End Batch Resp";
  "End Batch"; "Abort Batch Resp"; "Abort Batch"; "Set Power Level Resp"; "Set Power Level" ]%string.
Definition ki_msgtype_max : Z := 48.

Definition ki_status_label1 : list string := [
  "Not attempted"; "Success"; "HMAC failure"; "Not authorized"; "Version failure"; "Internal error";
  "Header required"; "Not found"; "Version mismatch"; "Service busy"; "Expired"; "Data error";
  "Perm data error"; "Remote connection error"; "No space"; "No such hmac algorithm"; "Invalid request";
  "Nested operation errors"; "Device locked"; "Device already unlocked"; "Connection terminated";
  "Invalid batch"; "Hibernate"; "Shutdown" ]%string.
Definition ki_status_max : Z := 23.

Definition ki_cpolicy_label : list string := [
  "No Policy Defined"; "Write Through"; "Write Back"; "Flush" ]%string.
Definition ki_cpolicy_max : Z := 3.

Definition ki_ditype_label : list string := [
  "No Policy Defined"; "SHA1"; "SHA2"; "SHA3"; "CRC32C"; "CRC64"; "CRC32" ]%string.
Definition ki_ditype_max : Z := 6.

Definition ki_ktype_label : list string := [
  "KT_NONE"; "KV_T"; "KRANGE_T"; "KITER_T"; "KBATCH_T"; "KGETLOG_T" ]%string.
Definition ki_ktype_max : Z := 5.

(** [kctl_ditype_str] *)
Definition kctl_ditype_str (d : Z) : outcome string :=
  if (d >? 0) && (d <=? ki_ditype_max) then array_read ki_ditype_label d else array_read ki_ditype_label 0.

(** ** The version *)
Definition KVERS_MAJOR : Z := 0.
Definition KVERS_MINOR : Z := 2.
Definition KVERS_PATCH : Z := 0.

Record kversion := Kversion {
  kvn_pb_c_vers : string; kvn_pb_c_vers_num : Z; kvn_pb_kinetic_vers : string; kvn_ki_githash : string;
  kvn_ki_vers : string; kvn_ki_vers_num : Z }.

(** [v_kinetic_vers_num]; the doubles are exact. *)
Definition v_kinetic_vers_num : Z := KVERS_MAJOR * 1000000 + KVERS_MINOR * 1000 + KVERS_PATCH.

(** What protobuf-c, the generated header and the build provide *)
Class Build := {
  protobuf_c_version : string; protobuf_c_version_number : Z; PB_KINETIC_VERS : string; ki_githash : string }.

(** The status, and the structure written *)
Definition ki_version {SZ : Sizes} {B : Build} (kver : option ptr) : ST heap (Z * option kversion) :=
  valid ← ki_valid kver;
  if valid =? 0 then mret (K_EINVAL, None) else
  mret (K_OK, Some (Kversion protobuf_c_version protobuf_c_version_number PB_KINETIC_VERS ki_githash
    (pretty KVERS_MAJOR +:+ "." +:+ pretty KVERS_MINOR +:+ "." +:+ pretty KVERS_PATCH)%string v_kinetic_vers_num)).

(** ** What the tables name *)

(** A table can be read from 0 to its announced maximum, and not beyond. *)
Definition covers (table : list string) (max : Z) : Prop :=
  (forall i, 0 <= i <= max -> exists s, array_read table i = Ok s) /\ forall i, max < i -> array_read table i = Ub.
Lemma covers_len table max : zlen table = max + 1 -> covers table max.
Proof.
  intros H. split; intros i Hi.
  - destruct (array_read_ok table i ltac:(lia)) as (s & E & _). by exists s.
  - unfold array_read. case_match; [done|]. rewrite lookup_ge_None_2; [done|]. unfold zlen in H. lia.
Qed.

Definition message_types : list Z :=
  [KMT_GET; KMT_PUT; KMT_DEL; KMT_GETNEXT; KMT_GETPREV; KMT_GETRANGE; KMT_GETVERS; KMT_GETLOG; KMT_PUSHP2P;
   KMT_NOOP; KMT_FLUSH; KMT_STARTBAT; KMT_ENDBAT; KMT_ABORTBAT].
(** The label of the response to a request of type [t] is that of [t] with " Resp". *)
Definition paired (t : Z) : bool :=
  match array_read ki_msgtype_label t, array_read ki_msgtype_label (t - 1) with
  | Ok a, Ok b => bool_decide (b = (a +:+ " Resp")%string)
  | _, _ => false
  end.

(** Each table is read safely up to its announced maximum and nowhere beyond.
    The maxima are those of the types they name: every message type has a label,
    and its response's is that label with " Resp"; every status of group 1, cache
    policy and algorithm has one; but of the typed buffers the last three,
    version, statistics and applet, have none: the table ends at KGETLOG_T. *)
Theorem labels_cover :
  covers ki_msgtype_label ki_msgtype_max /\ covers ki_status_label1 ki_status_max /\
  covers ki_cpolicy_label ki_cpolicy_max /\ covers ki_ditype_label ki_ditype_max /\
  covers ki_ktype_label ki_ktype_max /\
  Forall (fun t => 0 <= t <= ki_msgtype_max /\ paired t = true) message_types /\
  KSTAT_GRP1_LAST = ki_status_max + 1 /\ KC_FLUSH = ki_cpolicy_max /\ KDI_CRC32 = ki_ditype_max /\
  (forall d, exists s, kctl_ditype_str d = Ok s) /\
  forall t, KT_NONE < t < KT_LAST -> (array_read ki_ktype_label t = Ub <-> t = KVERSION_T \/ t = KSTATS_T \/ t = KAPPLET_T).
Proof.
  split_and!; try by apply covers_len.
  - by repeat constructor.
  - done.
  - done.
  - done.
  - intros d. unfold kctl_ditype_str. destruct ((d >? 0) && (d <=? ki_ditype_max)) eqn:E.
    + destruct (array_read_ok ki_ditype_label d) as (s & Hs & _); [|by exists s]. unfold ki_ditype_max in E.
      change (zlen ki_ditype_label) with 7. lia.
    + by eexists.
  - intros t Ht. unfold KT_NONE, KT_LAST in Ht.
    assert (t = 1 \/ t = 2 \/ t = 3 \/ t = 4 \/ t = 5 \/ t = 6 \/ t = 7 \/ t = 8) as Hc by lia.
    destruct_or! Hc; subst; split; try done; intros; destruct_or?; try done; auto.
Qed.
