(* ===== verification/Exec.v ===== *)
(** Applet execution: [src/exec.c].

    An applet sends the keys its function is stored under, its arguments and
    the key of its output, and the drive answers with a message in a format of
    its own that is taken apart here.  The parts an applet shares with the other
    operations are the instances of [Op] it takes. *)

From stdpp Require Import gmap.
From S2P Require Import Prelude Types ListApi Session KtliState Ktli Pdu Keys Ktb Validate ProtoData Proto Stat Op Get.

(** ** C strings *)
Definition colon : Z := 58.

(** The bytes before the terminator; a buffer without one is no string. *)
Fixpoint c_string_at (b : buffer) : outcome buffer :=
  match b with
  | [] => Ub
  | c :: b => if c =? 0 then Ok [] else s ← c_string_at b; Ok (c :: s)
  end.

(** [strncpy]: [n] bytes, zeros from the terminator on *)
Fixpoint strncpy (src : buffer) (n : nat) : outcome buffer :=
  match n with
  | O => Ok []
  | S n' =>
      match src with
      | [] => Ub
      | c :: src => if c =? 0 then Ok (replicate n 0) else d ← strncpy src n'; Ok (c :: d)
      end
  end.
Definition iov_strncpy (v : kiovec) : outcome buffer :=
  match kiov_base v with Some b => strncpy b (Z.to_nat (kiov_len v)) | None => if kiov_len v =? 0 then Ok [] else Ub end.

(** [strchr]: from the character on *)
Fixpoint strchr (s : buffer) (c : Z) : option buffer :=
  match s with [] => None | x :: s' => if x =? c then Some s else strchr s' c end.

(** [%d] of [sscanf]: white space, a sign, digits; a number an [int] does not
    hold has no meaning. *)
Definition scan_space (c : Z) : bool := (c =? 32) || ((9 <=? c) && (c <=? 13)).
Definition digit (c : Z) : bool := (48 <=? c) && (c <=? 57).
Fixpoint skip_spaces (s : buffer) : buffer :=
  match s with [] => [] | c :: s' => if scan_space c then skip_spaces s' else s end.
Fixpoint scan_digits (s : buffer) (acc : Z) : Z * buffer :=
  match s with
  | [] => (acc, [])
  | c :: s' => if digit c then scan_digits s' (10 * acc + (c - 48)) else (acc, s)
  end.
Definition scan_sign (s : buffer) : Z * buffer :=
  match s with
  | c :: s' => if c =? 45 then (-1, s') else if c =? 43 then (1, s') else (1, s)
  | [] => (1, [])
  end.
Definition scan_int (s : buffer) : outcome (option (Z * buffer)) :=
  let '(sg, s) := scan_sign (skip_spaces s) in
  match s with
  | c :: _ =>
      if digit c then
        let '(v, s) := scan_digits s 0 in
        if (- 2 ^ 31 <=? sg * v) && (sg * v <? 2 ^ 31) then Ok (Some (sg * v, s)) else Ub
      else Ok None
  | [] => Ok None
  end.

(** [sscanf(s, "%d:%d:", ...)]: the numbers assigned; the second colon is not
    counted. *)
Definition sscanf_codes (s : buffer) : outcome (option Z * option Z) :=
  r ← scan_int s;
  match r with
  | None => Ok (None, None)
  | Some (rc, s) =>
      match s with
      | c :: s =>
          if c =? colon then
            r ← scan_int s;
            Ok (Some rc, match r with Some (sig, _) => Some sig | None => None end)
          else Ok (Some rc, None)
      | [] => Ok (Some rc, None)
      end
  end.

(** [dmsg = strchr(dmsg, ':'); dmsg++]: past a NULL nothing can be read. *)
Definition past_colon (s : buffer) : outcome buffer :=
  match strchr s colon with Some (_ :: s) => Ok s | _ => Ub end.

Section exec.
Context `{LA : ListApi} {X : Type} {PG : ProtoGen}.

Notation OP := (ST (@opst LA X)).
Notation M := (ST mem).

Definition sizeof_pbd : Z := 16.

(** ** The request *)

(** Copying a key vector, whose bytes are copied as strings *)
Fixpoint strncpy_loop (key : list kiovec) (n : nat) (i : Z) (buf : buffer) (off : Z) : M buffer :=
  match n with
  | O => mret buf
  | S n =>
      v ← array_rd key i;
      bs ← lift (iov_strncpy v);
      if (0 <=? off) && (off + kiov_len v <=? zlen buf) then
        strncpy_loop key n (i + 1)
          (take (Z.to_nat off) buf ++ bs ++ drop (Z.to_nat (off + kiov_len v)) buf) (i32 (off + kiov_len v))
      else ub_st
  end.
Definition copy_key (k : kv) : M (option ProtobufCBinaryData) :=
  let key := default [] (kv_key k) in
  len ← calc_loop key (Z.to_nat (kv_keycnt k)) 0 0;
  data ← KI_MALLOC len;
  match data with
  | None => mret None
  | Some b => b ← strncpy_loop key (Z.to_nat (kv_keycnt k)) 0 b 0; mret (Some (Pbd len (Some b)))
  end.

(** The elements filled so far, and whether the loop came to its end *)
Fixpoint copy_keys (keys : list (option kv)) (done : list ProtobufCBinaryData) :
    M (list ProtobufCBinaryData * bool) :=
  match keys with
  | [] => mret (done, true)
  | None :: _ => mret (done, false)
  | Some k :: keys =>
      d ← copy_key k;
      match d with None => mret (done, false) | Some d => copy_keys keys (done ++ [d]) end
  end.

(** The arguments, read when they are packed *)
Fixpoint argv_loop (argv : list (option buffer)) (n : nat) : outcome (list buffer) :=
  match n, argv with
  | O, _ => Ok []
  | S n, Some s :: argv => rest ← argv_loop argv n; Ok (take (Z.to_nat (strlen s)) s :: rest)
  | _, _ => Ub
  end.
Definition argv_strings (app : kapplet) : outcome (list buffer) :=
  if ka_argc app <? 0 then Ub else argv_loop (default [] (ka_argv app)) (Z.to_nat (ka_argc app)).

Definition exec_body (app : kapplet) (progkey : list ProtobufCBinaryData) (outkey : option ProtobufCBinaryData)
    (argv : list buffer) : kproto_kapplet_t :=
  Applet (Some CSMAT_EXECUTE) (Some (ka_fntype app)) progkey argv (Some CSMAAM_ON_COMPLETION) outkey
    (match outkey with Some _ => Some 1 | None => None end).

Fixpoint free_keys (l : list ProtobufCBinaryData) : M unit :=
  match l with [] => mret tt | d :: l => free_data (pb_data d) ;; free_keys l end.

(** The exit [cb_ex] reads [progkey] without a test; [keys] and [outkey] are the
    kvs behind the applet's pointers. *)
Definition create_exec_message (msg_hdr : kmsghdr_t) (cmd_hdr : kcmdhdr_t) (app : kapplet)
    (keys : list (option kv)) (outkey : option kv) : M (option kproto_msg_t) :=
  let cnt := ka_fnkeycnt app in
  progkey ← (if cnt =? 0 then mret None
             else assert_st (sizeof_pbd * cnt <? 2 ^ 31) ;; KI_MALLOC (sizeof_pbd * cnt));
  if negb (cnt =? 0) && bool_decide (progkey = None) then ub_st else
  '(prog, ok) ← copy_keys keys [];
  '(out, ok) ← (match outkey with
                | Some k => if ok : bool then d ← copy_key k; mret (d, bool_decide (d <> None)) else mret (None, false)
                | None => mret (None, ok)
                end);
  command_bytes ← (if ok : bool then
                     argv ← lift (argv_strings app);
                     create_command_bytes cmd_hdr (PApplet (exec_body app prog out argv))
                   else mret pbd0);
  free_keys prog ;;
  (match progkey with Some _ => KI_FREE | None => mret tt end) ;;
  (match out with Some d => free_data (pb_data d) | None => mret tt end) ;;
  if bool_decide (pb_data command_bytes = None) then mret None else create_message msg_hdr command_bytes.

(** The kvs of the function keys *)
Fixpoint fn_kvs (ks : list (option ptr)) (n : nat) : ST heap (list (option kv)) :=
  match n with
  | O => mret []
  | S n =>
      match ks with
      | [] => ub_st
      | k :: ks =>
          v ← (match k with Some p => v ← get_kv p; mret (Some v) | None => mret None end);
          rest ← fn_kvs ks n; mret (v :: rest)
      end
  end.
Definition out_kv (k : option ptr) : ST heap (option kv) :=
  match k with Some p => v ← get_kv p; mret (Some v) | None => mret None end.

Definition app_rd (p : option ptr) : OP kapplet := p ← deref_st p; on_h (get_applet p).
Definition app_upd (p : option ptr) (f : kapplet -> kapplet) : OP unit :=
  p ← deref_st p;
  on_h (k ← ktb_base p;
        match ktb_buf k with DApplet a => ktb_put p (set_ktb_buf (DApplet (f a)) k) | _ => ub_st end).

Definition e_exec_aio_generic {LG : Langs} (ktd : Z) (app : option ptr) (cctx : option ptr) (ckio : bool) :
    OP (Z * option ptr) :=
  start ← on_w ktli_gettime;
  if negb ckio then mret (K_EINVAL, None) else
  '(rc, cf) ← on_w (ktli_config ktd);
  if rc <? 0 then mret (K_EBADSESS, None) else
  cfg ← cfg_rd cf;
  let ses := kcfg_pconf cfg in
  s ← ses_rd ses;
  rc ← on_h (ki_validate_kapplet app (ks_l s));
  if rc <? 0 then err_inc ses (Some OpExec) ;; mret (K_EINVAL, None) else
  a ← app_rd app;
  keys ← on_h (fn_kvs (default [] (ka_fnkey a)) (Z.to_nat (ka_fnkeycnt a)));
  outkey ← on_h (out_kv (ka_outkey a));
  send_request ktd cf ses start
    (OpDesc KMT_APPLET KIOF_REQRESP (Some OpExec) None None None app cctx []
       (fun mh ch => create_exec_message mh ch a keys outkey) K_EINTERNAL None (fun _ _ => mret None)).

(** ** The response *)

(** [strdup] *)
Definition strdup (s : buffer) : M (option buffer) :=
  b ← KI_MALLOC (zlen s + 1); mret (match b with Some _ => Some s | None => None end).

Definition set_ka_msg (m : option buffer) (a : kapplet) : kapplet := set_ka_out m (ka_stdout a) (ka_stdoutlen a) a.

(** [extract_exec_response]: the unpacked command is destroyed on no path. *)
Definition extract_exec_response (resp_msg : kproto_msg_t) (app : option ptr) : OP Z :=
  match m_commandbytes resp_msg with
  | None => mret K_EINTERNAL
  | Some cb =>
      resp_cmd ← on_m (unpack_kinetic_command cb);
      match resp_cmd ≫= c_status with
      | Some (Status (Some krc) (Some statusmessage) (Some detailedmessage)) =>
          m ← on_m (strdup (take (Z.to_nat (strlen statusmessage)) statusmessage));
          app_upd app (set_ka_msg m) ;;
          b ← lift (pbd_bytes detailedmessage);
          dmsg ← lift (c_string_at b);
          '(rc, sig) ← lift (sscanf_codes dmsg);
          app_upd app (fun a => set_ka_codes (default (ka_rc a) rc) (default (ka_sig a) sig) a) ;;
          (if bool_decide (sig = None) then mret K_EINTERNAL else
           rest ← lift (past_colon dmsg);
           rest ← lift (past_colon rest);
           rest ← lift (past_colon rest);
           out ← on_m (strdup rest);
           app_upd app (fun a => set_ka_out (ka_msg a) out
             (u32 (u32 (pb_len detailedmessage) - (zlen dmsg - zlen rest))) a) ;;
           mret krc)
      | _ => mret K_EINTERNAL
      end
  end.

Definition extract_exec (k : kio ptr) (m : kproto_msg_t) : OP Z :=
  a ← app_rd (kio_ckapp k);
  (match ka_outkey a with
   | Some q =>
       kiov ← deref_st (km_msg (kio_recvmsg k));
       val ← array_rd kiov (Z.of_nat KIOV_VAL);
       hang_value (Some q) val
   | None => mret tt
   end) ;;
  extract_exec_response m (kio_ckapp k).

(** The received buffers: a value stays with the caller when the call succeeded. *)
Fixpoint exec_recv_loop (krc : Z) (iov : list kiovec) (n : nat) (i rl : Z) : OP Z :=
  match n with
  | O => mret rl
  | S n =>
      v ← array_rd iov i;
      (if (i <? KM_CNT_NOVAL) || negb (krc =? K_OK) then free_base v else mret tt) ;;
      exec_recv_loop krc iov n (i + 1) (u32 (rl + kiov_len v))
  end.
Definition free_exec_recvmsg (k : kio ptr) (krc : Z) : OP Z :=
  match km_msg (kio_recvmsg k) with
  | None => mret 0
  | Some iov =>
      rl ← exec_recv_loop krc iov (Z.to_nat (km_cnt (kio_recvmsg k))) 0 0;
      on_w free_buf ;; mret rl
  end.

(** No key and value lengths are kept for an applet. *)
Definition stat_sizes_exec (sl rl kl vl : Z) (k : kopstat) : kopstat :=
  if kop_ok k =? 1 then set_sizes (dofz sl) d0 (dofz rl) (kop_klen k) (kop_vlen k) k
  else
    let n := kop_ok k in
    let nmn := run_mean (kop_ssize k) sl n in
    set_sizes nmn (run_msq (kop_smsq k) (kop_ssize k) nmn sl) (run_mean (kop_rsize k) rl n) (kop_klen k) (kop_vlen k) k.

Definition e_exec_aio_complete (ktd : Z) (kio : option ptr) : OP (Z * option ptr) :=
  bad ← kio_bad kio;
  if bad : bool then mret (K_EINVAL, None) else
  p ← deref_st kio;
  '(rc, cf) ← on_w (ktli_config ktd);
  if rc <? 0 then mret (K_EBADSESS, None) else
  cfg ← cfg_rd cf;
  let ses := kcfg_pconf cfg in
  early ← receive_kio ktd ses (Some OpExec) p;
  match early with
  | Some krc => mret (krc, None)
  | None =>
      k ← on_w (kio_rd p);
      st ← state_status ses (Some OpExec) k;
      krc ← match st with Some krc => mret krc | None => response_status k (extract_exec k) end;
      finish_kio ses OpExec p k krc (free_exec_recvmsg k krc) stat_sizes_exec (mret (0, 0)) ;;
      mret (krc, None)
  end.

Definition e_exec_generic {LG : Langs} (asleep : nat -> nat -> ST (@world LA X) Z) (poll_fuel fuel : nat)
    (ktd : Z) (app : option ptr) : OP Z :=
  '(ks, kio) ← e_exec_aio_generic ktd app None true;
  if negb (ks =? K_OK) then mret ks else
  wait_loop ('(ks, _) ← e_exec_aio_complete ktd kio; mret ks) asleep poll_fuel ktd fuel 0.

Definition ki_aio_exec {LG : Langs} ktd app cctx ckio : OP (Z * option ptr) := e_exec_aio_generic ktd app cctx ckio.
Definition ki_exec {LG : Langs} asleep poll_fuel fuel ktd app : OP Z := e_exec_generic asleep poll_fuel fuel ktd app.
End exec.
