(* ===== verification/Aio.v ===== *)
(** Asynchronous completion: [src/aio.c]. *)

From stdpp Require Import gmap.
From S2P Require Import Prelude Types ListApi Session KtliState Ktli Pdu Keys Ktb Validate ProtoData Proto Stat Op.
From S2P Require Import Put Del Get Noop Batch Exec.

Section aio.
Context `{LA : ListApi} {X : Type} {PG : ProtoGen}.

Notation OP := (ST (@opst LA X)).

(** [ki_aio_complete]: the completion by the kio's command.  A peer to peer push
    returns an uninitialised status. *)
Definition ki_aio_complete (ktd : Z) (kio : option ptr) (r : races) : OP (Z * option ptr) :=
  p ← deref_st kio;
  k ← on_w (kio_rd p);
  let cmd := kio_cmd k in
  let one_of l := existsb (Z.eqb cmd) l in
  if one_of [KMT_PUT] then p_put_aio_complete ktd kio
  else if one_of [KMT_DEL] then d_del_aio_complete ktd kio
  else if one_of [KMT_GET; KMT_GETNEXT; KMT_GETPREV; KMT_GETVERS] then g_get_aio_complete ktd kio
  else if one_of [KMT_STARTBAT; KMT_ABORTBAT; KMT_ENDBAT] then b_batch_aio_complete ktd r kio
  else if one_of [KMT_NOOP] then n_noop_aio_complete ktd kio
  else if one_of [KMT_FLUSH] then f_flush_aio_complete ktd kio
  else if one_of [KMT_PUSHP2P] then ub_st
  else if one_of [KMT_APPLET] then e_exec_aio_complete ktd kio
  else mret (K_EINVAL, None).

Definition ki_poll (asleep : nat -> ST (@world LA X) Z) (fuel : nat) (ktd timeout : Z) : OP Z :=
  on_w (ktli_poll asleep fuel ktd timeout).
End aio.
