(* ===== verification/Sync.v ===== *)
(** Requests that wait for their own response: the code [src/range.c] and
    [src/getlog.c] share, from the allocation of the kio to the end of the
    function.

    The packed PDU is an array on the stack, and the kio carries no magic
    number: these kios are never seen by [ki_aio_complete]. *)

From stdpp Require Import gmap.
From S2P Require Import Prelude Types ListApi Session KtliState Ktli Pdu Keys Ktb Validate ProtoData Proto Stat Op.

Section sync.
Context `{LA : ListApi} {X : Type} {PG : ProtoGen}.

Notation world := (@world LA X).
Notation OP := (ST (@opst LA X)).

(** What is special to a request: its message type, how its message is made
    and what is made of the response. *)
Record sync_desc := SyncDesc {
  sd_cmd : Z;
  sd_create : kmsghdr_t -> kcmdhdr_t -> ST mem (option kproto_msg_t);
  sd_extract : kproto_msg_t -> OP Z }.

Definition sync_kio (cmd : Z) (iov : list kiovec) : kio ptr :=
  Kio ptr 0 cmd 0 (Z.lor KIOF_INIT KIOF_REQRESP) KIO_NEW 0 (KioMsg (Some iov) KM_CNT_NOVAL 0 0) kio_msg0
    ts0 None None None None None None tstamps0.

(** The exits, last label first.  [rex_sendmsg] frees the message the kio
    carries, and [rex_recvmsg] reads the received vector, whether they are there
    or not; the received value buffer is not freed. *)
Definition rex_kio (p : ptr) (krc : Z) : OP Z := kio_free p ;; mret krc.
Definition rex_req (m : kproto_msg_t) (p : ptr) (krc : Z) : OP Z := destroy_request m ;; rex_kio p krc.
Definition rex_sendmsg (m : kproto_msg_t) (p : ptr) (krc : Z) : OP Z :=
  k ← on_w (kio_rd p);
  iov ← deref_st (km_msg (kio_sendmsg k));
  v ← array_rd iov (Z.of_nat KIOV_MSG);
  deref_st (kiov_base v) ;; on_m KI_FREE ;;
  on_m KI_FREE ;;
  rex_req m p krc.
Definition rex_recvmsg (m : kproto_msg_t) (p : ptr) (krc : Z) : OP Z :=
  k ← on_w (kio_rd p);
  iov ← deref_st (km_msg (kio_recvmsg k));
  pdu ← array_rd iov (Z.of_nat KIOV_PDU);
  free_base pdu ;;
  msg ← array_rd iov (Z.of_nat KIOV_MSG);
  free_base msg ;;
  on_w free_buf ;;
  rex_sendmsg m p krc.

(** The loop: [Some] is the status when the receive failed.  [asleep], [fuel]
    and [poll_fuel] are those of [wait_loop]. *)
Fixpoint sync_wait (asleep : nat -> nat -> ST world Z) (poll_fuel : nat) (ktd : Z) (p : ptr)
    (fuel i : nat) : OP (option Z) :=
  match fuel with
  | O => fun _ => NoFuel
  | S fuel =>
      on_w (ktli_poll (asleep i) poll_fuel ktd 0) ;;
      rc ← on_w (ktli_receive ktd p);
      if rc <? 0 then
        o ← get_st;
        if w_errno (o_w o) =? ENOENT then sync_wait asleep poll_fuel ktd p fuel (S i)
        else mret (Some K_EINTERNAL)
      else mret None
  end.

(** From the receive to the end *)
Definition sync_finish (d : sync_desc) (m : kproto_msg_t) (p : ptr) : OP Z :=
  k ← on_w (kio_rd p);
  if bool_decide (kio_st k = KIO_TIMEDOUT) then rex_recvmsg m p K_ETIMEDOUT else
  if bool_decide (kio_st k = KIO_FAILED) then rex_recvmsg m p K_ENOMSG else
  kiov ← deref_st (km_msg (kio_recvmsg k));
  v ← array_rd kiov (Z.of_nat KIOV_PDU);
  if negb (kiov_len v =? KP_PLENGTH) then rex_recvmsg m p K_EINTERNAL else
  b ← deref_st (kiov_base v);
  rpdu ← lift (UNPACK_PDU b);
  msg ← array_rd kiov (Z.of_nat KIOV_MSG);
  if negb (u32 (kp_msglen rpdu + kp_vallen rpdu) =? kiov_len msg) then rex_recvmsg m p K_EINTERNAL else
  resp ← on_m (unpack_kinetic_message (kiov_base msg) (kiov_len msg));
  krc ← match resp with None => mret K_EINTERNAL | Some rm => sd_extract d rm end;
  on_m (destroy_message resp) ;;
  rex_recvmsg m p krc.

Definition sync_request (asleep : nat -> nat -> ST world Z) (poll_fuel fuel : nat)
    (ktd : Z) (cf ses : option ptr) (d : sync_desc) : OP Z :=
  kio ← kio_alloc;
  match kio with
  | None => mret K_ENOMEM
  | Some p =>
      cfg ← cfg_rd cf;
      s ← ses_rd ses;
      let msg_hdr := Kmsghdr KAT_HMAC (kcfg_id cfg) (kcfg_hkey cfg) 0 None 0 in
      let cmd_hdr := set_kch_type (sd_cmd d) (ks_ch s) in
      kmreq ← on_m (sd_create d msg_hdr cmd_hdr);
      match kmreq with
      | None => rex_kio p K_EINTERNAL
      | Some m =>
          arr ← on_m (KI_MALLOC (sizeof_kiovec * KM_CNT_NOVAL));
          match arr with None => rex_req m p K_ENOMEM | Some _ =>
          (* the message pointer of the new array is not initialised *)
          on_w (kio_upd p (fun _ => sync_kio (sd_cmd d) [Kiovec None KP_PLENGTH; Kiovec None 0])) ;;
          packed ← on_m (pack_kinetic_message m);
          match packed with None => rex_sendmsg m p K_EINTERNAL | Some (b, n) =>
          let pdu := Kpdu KP_MAGIC (u32 n) 0 in
          on_w (kio_upd p (fun _ => sync_kio (sd_cmd d)
                  [Kiovec (Some (PACK_PDU pdu)) KP_PLENGTH; Kiovec (Some b) n])) ;;
          on_w (ktli_send ktd p) ;;
          r ← sync_wait asleep poll_fuel ktd p fuel 0;
          match r with Some krc => rex_sendmsg m p krc | None => sync_finish d m p end
          end end
      end
  end.
End sync.
