(* ===== verification/Range.v ===== *)
(** Key ranges: [src/range.c]. *)

From stdpp Require Import gmap.
From S2P Require Import Prelude Types ListApi Session KtliState Ktli Pdu Keys Ktb Validate ProtoData Proto Stat Op Sync.

Section range.
Context `{LA : ListApi} {X : Type} {PG : ProtoGen}.

Notation world := (@world LA X).
Notation OP := (ST (@opst LA X)).

Definition kr_rd (p : option ptr) : OP krange := p ← deref_st p; on_h (get_range p).
Definition kr_wr (p : option ptr) (r : krange) : OP unit := p ← deref_st p; on_h (put_range p r).

(** A key that is NULL, or whose buffer could not be allocated, is left out of
    the request. *)
Definition range_body (skey ekey : option ProtobufCBinaryData) (cmd_data : krange) : kproto_keyrange_t :=
  Keyrange skey ekey (Some (KR_ISTART cmd_data)) (Some (KR_IEND cmd_data)) (Some (u32 (kr_count cmd_data)))
    (Some (KR_REVERSE cmd_data)) [].

Definition create_rangekey_message (msg_hdr : kmsghdr_t) (cmd_hdr : kcmdhdr_t) (cmd_data : krange) :
    ST mem (option kproto_msg_t) :=
  skey ← keyname_to_proto (kr_start cmd_data) (kr_startcnt cmd_data);
  ekey ← keyname_to_proto (kr_end cmd_data) (kr_endcnt cmd_data);
  command_bytes ← create_command_bytes cmd_hdr (PRange (range_body skey ekey cmd_data));
  free_data (skey ≫= pb_data) ;;
  free_data (ekey ≫= pb_data) ;;
  create_message msg_hdr command_bytes.

(** [extract_keyrange]: the keys of the range point into the response, which
    stays hung on the range.  The size of their array is an [int]; the loop writes
    as many keys as there are. *)
Definition extract_keyrange (resp_msg : kproto_msg_t) (kr_data : option ptr) : OP Z :=
  match m_commandbytes resp_msg with
  | None => mret K_EINTERNAL
  | Some cb =>
      resp_cmd ← on_m (unpack_kinetic_command cb);
      match resp_cmd with
      | None => mret K_EINTERNAL
      | Some c =>
          r ← kr_rd kr_data;
          p ← deref_st kr_data;
          modify_st (fun o => Opst (o_w o) (o_heap o) (o_ses o) (<[p := c]> (o_pb o))) ;;
          let krc := extract_cmdstatus_code (Some c) in
          if negb (krc =? K_OK) then mret krc else
          match c_body c ≫= b_range with
          | None => mret K_EINTERNAL
          | Some resp =>
              keys ← on_m (KI_MALLOC (u64 (i32 (sizeof_kiovec * zlen (rg_keys resp)))));
              match keys with
              | None => kr_wr kr_data (set_kr_keys None (zlen (rg_keys resp)) r) ;; mret K_ENOMEM
              | Some arr =>
                  assert_st (sizeof_kiovec * zlen (rg_keys resp) <=? zlen arr) ;;
                  kr_wr kr_data (set_kr_keys (Some ((fun d => Kiovec (pb_data d) (pb_len d)) <$> rg_keys resp))
                                   (zlen (rg_keys resp)) r) ;;
                  mret krc
              end
          end
      end
  end.

Definition ki_getrange (asleep : nat -> nat -> ST world Z) (poll_fuel fuel : nat) (ktd : Z) (kr : option ptr) : OP Z :=
  '(rc, cf) ← on_w (ktli_config ktd);
  if rc <? 0 then mret K_EBADSESS else
  cfg ← cfg_rd cf;
  let ses := kcfg_pconf cfg in
  s ← ses_rd ses;
  rc ← on_h (ki_validate_range kr (ks_l s));
  if rc <? 0 then mret K_EINVAL else
  r ← kr_rd kr;
  (if kr_count r =? KVR_COUNT_INF then kr_wr kr (set_kr_count (i32 (kl_rangekeycnt (ks_l s))) r) else mret tt) ;;
  r ← kr_rd kr;
  sync_request asleep poll_fuel fuel ktd cf ses
    (SyncDesc KMT_GETRANGE (fun mh ch => create_rangekey_message mh ch r) (fun m => extract_keyrange m kr)).

(** [destroy_protobuf_keyrange]: the structure it frees last is inside the block
    [ki_create] allocated, so the free has no meaning. *)
Definition destroy_protobuf_keyrange (kr : option ptr) : OP unit :=
  match kr with
  | None => mret tt
  | Some p =>
      o ← get_st;
      on_m (destroy_command (o_pb o !! p)) ;;
      r ← kr_rd kr;
      (match kr_keys r with Some _ => on_m KI_FREE | None => mret tt end) ;;
      ub_st
  end.
End range.
