(* ===== verification/Getlog.v ===== *)
(** Log requests: [src/getlog.c].

    A log is filled in on the stack.  [Glog] is such a structure: the fields,
    which of its pointers are blocks of its own, the response it holds, and
    whether its destructor is set.  A field nothing was stored in keeps what the
    memory happened to hold; a pointer made of such bytes is [wild]: not NULL,
    and with no byte to read. *)

From stdpp Require Import gmap.
From S2P Require Import Prelude Types ListApi Session KtliState Ktli Pdu Keys Ktb Validate ProtoData Proto Stat Op Sync.

(** ** Memory as [malloc] gives it *)
Fixpoint le_word (b : buffer) : Z := match b with [] => 0 | x :: b => x mod 2 ^ 8 + 2 ^ 8 * le_word b end.
Definition junk (arr : buffer) (off n : Z) : Z := le_word (take (Z.to_nat n) (drop (Z.to_nat off) arr)).
Definition wild (arr : buffer) (off : Z) : option buffer := if junk arr off 8 =? 0 then None else Some [].

Definition sizeof_kutilization : Z := 16.
Definition sizeof_ktemperature : Z := 24.
Definition sizeof_kstatistics : Z := 32.
Definition sizeof_kinterface : Z := 32.
Definition sizeof_device : Z := 48.

(** ** The structure being filled *)
Inductive held : Type := HNull | HLive (c : kproto_cmd_t) | HWild.
Record glog_st := Glog {
  gs_log : kgetlog;
  gs_util : bool; gs_temp : bool; gs_stat : bool; gs_serial : bool; gs_wwn : bool; gs_ifs : bool;
  gs_pb : held; gs_set : bool }.

(** [memset] to zero, and a structure nothing was stored in *)
Definition glog_zero : glog_st := Glog kgetlog0 false false false false false false HNull false.
Definition glog_junk (g : kgetlog) : glog_st := Glog g false false false false false false HWild false.

(** Field assignments *)
Definition set_kgl_type (ts : option (list Z)) (n : Z) (g : kgetlog) : kgetlog :=
  Kgetlog ts n (kgl_util g) (kgl_utilcnt g) (kgl_temp g) (kgl_tempcnt g) (kgl_cap g) (kgl_conf g)
    (kgl_stat g) (kgl_statcnt g) (kgl_msgs g) (kgl_msgslen g) (kgl_limits g) (kdl_name g) (kdl_len g).
Definition set_kgl_util (u : option (list kutilization)) (n : Z) (g : kgetlog) : kgetlog :=
  Kgetlog (kgl_type g) (kgl_typecnt g) u n (kgl_temp g) (kgl_tempcnt g) (kgl_cap g) (kgl_conf g)
    (kgl_stat g) (kgl_statcnt g) (kgl_msgs g) (kgl_msgslen g) (kgl_limits g) (kdl_name g) (kdl_len g).
Definition set_kgl_temp (t : option (list ktemperature)) (n : Z) (g : kgetlog) : kgetlog :=
  Kgetlog (kgl_type g) (kgl_typecnt g) (kgl_util g) (kgl_utilcnt g) t n (kgl_cap g) (kgl_conf g)
    (kgl_stat g) (kgl_statcnt g) (kgl_msgs g) (kgl_msgslen g) (kgl_limits g) (kdl_name g) (kdl_len g).
Definition set_kgl_cap (c : kcapacity) (g : kgetlog) : kgetlog :=
  Kgetlog (kgl_type g) (kgl_typecnt g) (kgl_util g) (kgl_utilcnt g) (kgl_temp g) (kgl_tempcnt g) c (kgl_conf g)
    (kgl_stat g) (kgl_statcnt g) (kgl_msgs g) (kgl_msgslen g) (kgl_limits g) (kdl_name g) (kdl_len g).
Definition set_kgl_conf (c : kconfiguration) (g : kgetlog) : kgetlog :=
  Kgetlog (kgl_type g) (kgl_typecnt g) (kgl_util g) (kgl_utilcnt g) (kgl_temp g) (kgl_tempcnt g) (kgl_cap g) c
    (kgl_stat g) (kgl_statcnt g) (kgl_msgs g) (kgl_msgslen g) (kgl_limits g) (kdl_name g) (kdl_len g).
Definition set_kgl_stat (s : option (list kstatistics)) (n : Z) (g : kgetlog) : kgetlog :=
  Kgetlog (kgl_type g) (kgl_typecnt g) (kgl_util g) (kgl_utilcnt g) (kgl_temp g) (kgl_tempcnt g) (kgl_cap g) (kgl_conf g)
    s n (kgl_msgs g) (kgl_msgslen g) (kgl_limits g) (kdl_name g) (kdl_len g).
Definition set_kgl_msgs (m : option buffer) (n : Z) (g : kgetlog) : kgetlog :=
  Kgetlog (kgl_type g) (kgl_typecnt g) (kgl_util g) (kgl_utilcnt g) (kgl_temp g) (kgl_tempcnt g) (kgl_cap g) (kgl_conf g)
    (kgl_stat g) (kgl_statcnt g) m n (kgl_limits g) (kdl_name g) (kdl_len g).
Definition set_kgl_limits (l : klimits) (g : kgetlog) : kgetlog :=
  Kgetlog (kgl_type g) (kgl_typecnt g) (kgl_util g) (kgl_utilcnt g) (kgl_temp g) (kgl_tempcnt g) (kgl_cap g) (kgl_conf g)
    (kgl_stat g) (kgl_statcnt g) (kgl_msgs g) (kgl_msgslen g) l (kdl_name g) (kdl_len g).
Definition set_kdl (n : option buffer) (len : Z) (g : kgetlog) : kgetlog :=
  Kgetlog (kgl_type g) (kgl_typecnt g) (kgl_util g) (kgl_utilcnt g) (kgl_temp g) (kgl_tempcnt g) (kgl_cap g) (kgl_conf g)
    (kgl_stat g) (kgl_statcnt g) (kgl_msgs g) (kgl_msgslen g) (kgl_limits g) n len.
Definition set_kcf_serial (s : option buffer) (c : kconfiguration) : kconfiguration :=
  Kconfiguration (kcf_vendor c) (kcf_model c) s (kcf_wwn c) (kcf_version c) (kcf_compdate c) (kcf_srchash c) (kcf_proto c)
    (kcf_protocompdate c) (kcf_protosrchash c) (kcf_interfaces c) (kcf_interfacescnt c) (kcf_port c) (kcf_tlsport c) (kcf_power c).
Definition set_kcf_wwn (s : option buffer) (c : kconfiguration) : kconfiguration :=
  Kconfiguration (kcf_vendor c) (kcf_model c) (kcf_serial c) s (kcf_version c) (kcf_compdate c) (kcf_srchash c) (kcf_proto c)
    (kcf_protocompdate c) (kcf_protosrchash c) (kcf_interfaces c) (kcf_interfacescnt c) (kcf_port c) (kcf_tlsport c) (kcf_power c).
Definition set_kcf_interfaces (i : option (list kinterface)) (n : Z) (c : kconfiguration) : kconfiguration :=
  Kconfiguration (kcf_vendor c) (kcf_model c) (kcf_serial c) (kcf_wwn c) (kcf_version c) (kcf_compdate c) (kcf_srchash c)
    (kcf_proto c) (kcf_protocompdate c) (kcf_protosrchash c) i n (kcf_port c) (kcf_tlsport c) (kcf_power c).

Definition upd_log (f : kgetlog -> kgetlog) (g : glog_st) : glog_st :=
  Glog (f (gs_log g)) (gs_util g) (gs_temp g) (gs_stat g) (gs_serial g) (gs_wwn g) (gs_ifs g) (gs_pb g) (gs_set g).
Definition upd_conf (f : kconfiguration -> kconfiguration) (g : glog_st) : glog_st :=
  upd_log (fun l => set_kgl_conf (f (kgl_conf l)) l) g.
Definition own_arrays (u t s : bool) (g : glog_st) : glog_st :=
  Glog (gs_log g) u t s (gs_serial g) (gs_wwn g) (gs_ifs g) (gs_pb g) (gs_set g).
Definition own_conf (s w i : bool) (g : glog_st) : glog_st :=
  Glog (gs_log g) (gs_util g) (gs_temp g) (gs_stat g) s w i (gs_pb g) (gs_set g).
Definition set_gs_pb (p : held) (g : glog_st) : glog_st :=
  Glog (gs_log g) (gs_util g) (gs_temp g) (gs_stat g) (gs_serial g) (gs_wwn g) (gs_ifs g) p true.

Section getlog.
Context {PG : ProtoGen}.

Notation M := (ST mem).

(** ** The request *)
Definition array_prefix {A} (l : option (list A)) (n : Z) : outcome (list A) :=
  match l with
  | Some l => if n <=? zlen l then Ok (take (Z.to_nat n) l) else Ub
  | None => if n =? 0 then Ok [] else Ub
  end.

(** The device name's block is written without a NULL test and never freed. *)
Definition extract_to_command_body (cmd_data : kgetlog) : M kproto_getlog_t :=
  types ← lift (array_prefix (kgl_type cmd_data) (kgl_typecnt cmd_data));
  device ← match kdl_name cmd_data with
           | None => mret None
           | Some name =>
               d ← KI_MALLOC sizeof_device;
               _ ← deref_st d;
               mret (Some (Device (Some (Pbd (strlen name) (Some name)))))
           end;
  mret (Getlog types [] [] None None [] None None device).

Definition create_getlog_message (msg_hdr : kmsghdr_t) (cmd_hdr : kcmdhdr_t) (cmd_body : kgetlog) :
    M (option kproto_msg_t) :=
  body ← extract_to_command_body cmd_body;
  command_bytes ← create_command_bytes cmd_hdr (PGetlog body);
  create_message msg_hdr command_bytes.

(** ** The response

    The loops: an [int] counts up to a [size_t], over a block [arr] of
    [malloc]. *)
Definition int_count {A} (l : list A) : M unit := assert_st (zlen l <? 2 ^ 31).

Fixpoint fill_utilizations (arr : buffer) (util_data : list kproto_utilization_t) (ndx : Z) : list kutilization :=
  match util_data with
  | [] => []
  | u :: util_data =>
      Kutilization (ut_name u) (default (junk arr (sizeof_kutilization * ndx + 8) 4) (ut_value u))
        :: fill_utilizations arr util_data (ndx + 1)
  end.
Definition extract_utilizations (util_data : list kproto_utilization_t) (g : glog_st) : M (Z * glog_st) :=
  let n := u32 (zlen util_data) in
  match util_data with
  | [] => mret (0, own_arrays false (gs_temp g) (gs_stat g) (upd_log (set_kgl_util None n) g))
  | _ =>
      arr ← KI_MALLOC (u64 (sizeof_kutilization * zlen util_data));
      match arr with
      | None => mret (-1, own_arrays false (gs_temp g) (gs_stat g) (upd_log (set_kgl_util None n) g))
      | Some arr =>
          int_count util_data ;;
          mret (0, own_arrays true (gs_temp g) (gs_stat g) (upd_log (set_kgl_util (Some (fill_utilizations arr util_data 0)) n) g))
      end
  end.

Fixpoint fill_temperatures (arr : buffer) (temp_data : list kproto_temperature_t) (ndx : Z) : list ktemperature :=
  match temp_data with
  | [] => []
  | t :: temp_data =>
      let at_ off := junk arr (sizeof_ktemperature * ndx + off) 4 in
      Ktemperature (te_name t) (default (at_ 8) (te_current t)) (default (at_ 12) (te_minimum t))
        (default (at_ 16) (te_maximum t)) (default (at_ 20) (te_target t))
        :: fill_temperatures arr temp_data (ndx + 1)
  end.
Definition extract_temperatures (temp_data : list kproto_temperature_t) (g : glog_st) : M (Z * glog_st) :=
  let n := u32 (zlen temp_data) in
  match temp_data with
  | [] => mret (0, own_arrays (gs_util g) false (gs_stat g) (upd_log (set_kgl_temp None n) g))
  | _ =>
      arr ← KI_MALLOC (u64 (sizeof_ktemperature * zlen temp_data));
      match arr with
      | None => mret (-1, own_arrays (gs_util g) false (gs_stat g) (upd_log (set_kgl_temp None n) g))
      | Some arr =>
          int_count temp_data ;;
          mret (0, own_arrays (gs_util g) true (gs_stat g) (upd_log (set_kgl_temp (Some (fill_temperatures arr temp_data 0)) n) g))
      end
  end.

Fixpoint fill_statistics (arr : buffer) (stat_data : list kproto_statistics_t) (ndx : Z) : list kstatistics :=
  match stat_data with
  | [] => []
  | s :: stat_data =>
      let at_ off n := junk arr (sizeof_kstatistics * ndx + off) n in
      Kstatistics (default (i32 (at_ 0 4)) (sx_messagetype s)) (default (at_ 8 8) (sx_count s))
        (default (at_ 16 8) (sx_bytes s)) (default (at_ 24 8) (sx_maxlatency s))
        :: fill_statistics arr stat_data (ndx + 1)
  end.
Definition extract_statistics (stat_data : list kproto_statistics_t) (g : glog_st) : M (Z * glog_st) :=
  let n := u32 (zlen stat_data) in
  match stat_data with
  | [] => mret (0, own_arrays (gs_util g) (gs_temp g) false (upd_log (set_kgl_stat None n) g))
  | _ =>
      arr ← KI_MALLOC (u64 (sizeof_kstatistics * zlen stat_data));
      match arr with
      | None => mret (-1, own_arrays (gs_util g) (gs_temp g) false (upd_log (set_kgl_stat None n) g))
      | Some arr =>
          int_count stat_data ;;
          mret (0, own_arrays (gs_util g) (gs_temp g) true (upd_log (set_kgl_stat (Some (fill_statistics arr stat_data 0)) n) g))
      end
  end.

(** The strings of an interface are blocks nothing frees. *)
Definition bytes_to_str (o : option ProtobufCBinaryData) (old : option buffer) : M (option buffer) :=
  match o with Some d => helper_bytes_to_str d | None => mret old end.
Fixpoint fill_interfaces (arr : buffer) (if_data : list kproto_interface_t) (ndx : Z) : M (list kinterface) :=
  match if_data with
  | [] => mret []
  | i :: if_data =>
      let at_ off := wild arr (sizeof_kinterface * ndx + off) in
      mac ← bytes_to_str (in_mac i) (at_ 8);
      ipv4 ← bytes_to_str (in_ipv4address i) (at_ 16);
      ipv6 ← bytes_to_str (in_ipv6address i) (at_ 24);
      rest ← fill_interfaces arr if_data (ndx + 1);
      mret (Kinterface (in_name i) mac ipv4 ipv6 :: rest)
  end.
Definition extract_interfaces (if_data : list kproto_interface_t) : M (Z * option (list kinterface)) :=
  match if_data with
  | [] => mret (0, None)
  | _ =>
      arr ← KI_MALLOC (u64 (sizeof_kinterface * zlen if_data));
      match arr with
      | None => mret (-1, None)
      | Some arr => int_count if_data ;; l ← fill_interfaces arr if_data 0; mret (0, Some l)
      end
  end.

Definition non_null {A} (o : option A) : bool := match o with Some _ => true | None => false end.

Definition extract_configuration (config : option kproto_configuration_t) (g : glog_st) : M (Z * glog_st) :=
  match config with
  | None => mret (0, own_conf false false false (upd_log (set_kgl_conf kconfiguration0) g))
  | Some config =>
      serial ← bytes_to_str (cf_serialnumber config) (kcf_serial (kgl_conf (gs_log g)));
      wwn ← bytes_to_str (cf_worldwidename config) (kcf_wwn (kgl_conf (gs_log g)));
      let own has now was := if non_null has then non_null now else was in
      let old := kgl_conf (gs_log g) in
      let conf := Kconfiguration (cf_vendor config) (cf_model config) serial wwn (cf_version config)
        (cf_compilationdate config) (cf_sourcehash config) (cf_protocolversion config)
        (cf_protocolcompilationdate config) (cf_protocolsourcehash config)
        (kcf_interfaces old) (kcf_interfacescnt old)
        (default (kcf_port old) (cf_port config)) (default (kcf_tlsport old) (cf_tlsport config))
        (default (kcf_power old) (cf_currentpowerlevel config)) in
      let g := own_conf (own (cf_serialnumber config) serial (gs_serial g)) (own (cf_worldwidename config) wwn (gs_wwn g))
                 (gs_ifs g) (upd_conf (fun _ => conf) g) in
      '(extract_result, ifs) ← extract_interfaces (cf_interface config);
      let cnt := if extract_result <? 0 then kcf_interfacescnt old else u32 (zlen (cf_interface config)) in
      mret (if extract_result <? 0 then -1 else 0,
            own_conf (gs_serial g) (gs_wwn g) (non_null ifs) (upd_conf (set_kcf_interfaces ifs cnt) g))
  end.

Definition extract_limits (limits : option kproto_limits_t) (g : glog_st) : glog_st :=
  upd_log (set_kgl_limits
    match limits with
    | None => klimits0
    | Some l =>
        Klimits (default 0 (li_maxkeysize l)) (default 0 (li_maxvaluesize l)) (default 0 (li_maxversionsize l))
          (default 0 (li_maxtagsize l)) (default 0 (li_maxmessagesize l)) (default 0 (li_maxpinsize l))
          (default 0 (li_maxbatchsize l)) (default 0 (li_maxoutstandingreadrequests l))
          (default 0 (li_maxoutstandingwriterequests l)) (default 0 (li_maxconnections l))
          (default 0 (li_maxidentitycount l)) (default 0 (li_maxkeyrangecount l))
          (default 0 (li_maxoperationcountperbatch l)) (default 0 (li_maxdeletesperbatch l))
          (default 0 (li_maxbatchcountperdevice l))
    end) g.

(** [if (p) KI_FREE(p)]: the pointer becomes [UNALLOC_VAL], which no block is
    at. *)
Definition free_owned (p live : bool) : M unit :=
  if p then if live then KI_FREE else ub_st else mret tt.
Definition unalloc {A} (o : option (list A)) : option (list A) := match o with Some _ => Some [] | None => None end.

Definition destroy_protobuf_getlog (g : glog_st) : M glog_st :=
  match gs_pb g with
  | HWild => ub_st
  | HNull => mret tt
  | HLive c => destroy_command (Some c)
  end ;;
  let l := gs_log g in
  let cf := kgl_conf l in
  free_owned (non_null (kgl_util l)) (gs_util g) ;;
  free_owned (non_null (kgl_temp l)) (gs_temp g) ;;
  free_owned (non_null (kgl_stat l)) (gs_stat g) ;;
  free_owned (non_null (kcf_serial cf)) (gs_serial g) ;;
  free_owned (non_null (kcf_wwn cf)) (gs_wwn g) ;;
  free_owned (non_null (kcf_interfaces cf)) (gs_ifs g) ;;
  let cf' := set_kcf_interfaces (unalloc (kcf_interfaces cf)) (kcf_interfacescnt cf)
               (set_kcf_wwn (unalloc (kcf_wwn cf)) (set_kcf_serial (unalloc (kcf_serial cf)) cf)) in
  let l' := set_kgl_conf cf' (set_kgl_stat (unalloc (kgl_stat l)) (kgl_statcnt l)
              (set_kgl_temp (unalloc (kgl_temp l)) (kgl_tempcnt l) (set_kgl_util (unalloc (kgl_util l)) (kgl_utilcnt l) l))) in
  mret (Glog l' false false false false false false
          (match gs_pb g with HNull => HNull | _ => HWild end) (gs_set g)).

(** [extract_glex]: the status is not K_OK. *)
Definition extract_glex (krc : Z) (g : glog_st) : M (Z * glog_st) :=
  g ← destroy_protobuf_getlog g;
  mret (if krc =? K_OK then K_EINTERNAL else krc, g).

Definition extract_getlog (resp_msg : kproto_msg_t) (g : glog_st) : M (Z * glog_st) :=
  match m_commandbytes resp_msg with
  | None => mret (K_EINTERNAL, g)
  | Some cb =>
      resp_cmd ← unpack_kinetic_command cb;
      match resp_cmd with
      | None => mret (K_EINTERNAL, g)
      | Some c =>
          let g := set_gs_pb (HLive c) g in
          let krc := extract_cmdstatus_code resp_cmd in
          if negb (krc =? K_OK) then extract_glex krc g else
          match c_body c ≫= b_getlog with
          | None => extract_glex krc g
          | Some resp =>
              let types := match gl_types resp with [] => None | ts => Some ts end in
              let g := upd_log (set_kgl_type types (zlen (gl_types resp))) g in
              '(rc, g) ← extract_utilizations (gl_utilizations resp) g;
              if rc <? 0 then extract_glex krc g else
              '(rc, g) ← extract_temperatures (gl_temperatures resp) g;
              if rc <? 0 then extract_glex krc g else
              '(rc, g) ← extract_statistics (gl_statistics resp) g;
              if rc <? 0 then extract_glex krc g else
              let g := match gl_messages resp with
                       | Some d => upd_log (set_kgl_msgs (pb_data d) (pb_len d)) g | None => g end in
              let g := match gl_capacity resp with
                       | Some c => upd_log (fun l => set_kgl_cap (Kcapacity (default (kc_total (kgl_cap l)) (ca_nominal c))
                                     (default (kc_used (kgl_cap l)) (ca_portionfull c))) l) g
                       | None => g end in
              '(rc, g) ← extract_configuration (gl_configuration resp) g;
              if rc <? 0 then extract_glex krc g else
              let g := extract_limits (gl_limits resp) g in
              let g := match gl_device resp ≫= dv_name with
                       | Some d => upd_log (set_kdl (pb_data d) (pb_len d)) g | None => g end in
              mret (krc, g)
          end
      end
  end.

(** [destroy_protobuf(&glog)] through the structure's pointer *)
Definition call_destructor (g : glog_st) : M glog_st :=
  if gs_set g then destroy_protobuf_getlog g else ub_st.

(** ** [ki_getlog] *)
Context `{LA : ListApi} {X : Type}.
Notation world := (@world LA X).
Notation OP := (ST (@opst LA X)).

Definition glog_rd (p : option ptr) : OP kgetlog := p ← deref_st p; on_h (get_glog p).
Definition glog_wr (p : option ptr) (g : kgetlog) : OP unit :=
  p ← deref_st p;
  on_h (k ← ktb_base p; match ktb_buf k with DGetlog _ => ktb_put p (set_ktb_buf (DGetlog g) k) | _ => ub_st end).

(** [junk] is what the stack holds where [glog2] is.  The response hangs on the
    caller's log afterwards. *)
Definition answer_getlog (junk : kgetlog) (glog : option ptr) (resp_msg : kproto_msg_t) : OP Z :=
  '(krc, glog2) ← on_m (extract_getlog resp_msg (glog_junk junk));
  if krc =? K_OK then
    glog_wr glog (gs_log glog2) ;;
    p ← deref_st glog;
    match gs_pb glog2 with
    | HLive c => modify_st (fun o => Opst (o_w o) (o_heap o) (o_ses o) (<[p := c]> (o_pb o)))
    | _ => mret tt
    end ;;
    mret krc
  else on_m (call_destructor glog2) ;; mret krc.

Definition ki_getlog (asleep : nat -> nat -> ST world Z) (poll_fuel fuel : nat) (junk : kgetlog)
    (ktd : Z) (glog : option ptr) : OP Z :=
  '(rc, cf) ← on_w (ktli_config ktd);
  if rc <? 0 then mret K_EBADSESS else
  cfg ← cfg_rd cf;
  '(rc, _) ← on_h (ki_validate_glog glog);
  if rc <? 0 then mret K_EINVAL else
  g ← glog_rd glog;
  sync_request asleep poll_fuel fuel ktd cf (kcfg_pconf cfg)
    (SyncDesc KMT_GETLOG (fun mh ch => create_getlog_message mh ch g) (answer_getlog junk glog)).
End getlog.
