(* ===== verification/Open.v ===== *)
(** Opening a session of the API: [src/open.c].

    [ki_open] allocates with [malloc] and [strdup] directly; these blocks are
    KTLI's for its life, so they come from the allocator of the transport
    layer. *)

From stdpp Require Import gmap.
From S2P Require Import Prelude Types ListApi Session KtliState Ktli KtliThreads Pdu Keys Ktb Validate.
From S2P Require Import ProtoData Proto Stat Op Sync Getlog BasicKv.

Definition sizeof_ktli_config : Z := 48.
Definition sizeof_ksession : Z := 848.
(** [COM__SEAGATE__KINETIC__PROTO__COMMAND__PRIORITY__NORMAL] *)
Definition NORMAL : Z := 5.

Section open.
Context `{LA : ListApi} {X : Type} {PG : ProtoGen} (socket_fns : ktli_driver_fns X).

Notation world := (@world LA X).
Notation OP := (ST (@opst LA X)).

Definition set_configs_w (v : gmap ptr KtliState.ktli_config) (w : world) : world :=
  World (w_errno w) (ktli_up w) (w_table w) (w_queues w) (w_kios w) (w_helpers w) v (w_ints w)
    (w_threads w) (w_next w) (w_live w) (w_blank w) (w_mcount w) (w_malloc w) (w_tick w) (w_clock w)
    (w_tcount w) (w_pthread w) (w_env w).

(** The copy of a C string; [None] when there is no memory. *)
Definition strdup (s : option buffer) : ST world (option buffer) :=
  s ← deref_st s;
  m ← malloc (strlen s + 1);
  mret (match m with None => None | Some _ => Some (take (Z.to_nat (strlen s)) s) end).

Definition kcmdhdr0 : kcmdhdr_t := Kcmdhdr 0 0 0 0 0 0 0 0 0 0.
(** The command header before the drive has spoken: no cluster version, no
    connection. *)
Definition unset_hdr : kcmdhdr_t := Kcmdhdr (-1) (-1) 0 0 0 0 NORMAL 0 0 0.

Definition set_ks_limits (l : klimits) (s : ksession) : ksession :=
  Ksession (ks_bid s) (ks_bats s) l (ks_ch s) (ks_stats s).
Definition set_ks_hdr (h : kcmdhdr_t) (s : ksession) : ksession :=
  Ksession (ks_bid s) (ks_bats s) (ks_l s) h (ks_stats s).

(** The configuration and the session; [memset] writes through the unchecked
    pointers. *)
Definition open_setup (host port : option buffer) (usetls id : Z) (hkey : option buffer) : OP (ptr * ptr) :=
  cf ← on_w (malloc_ptr sizeof_ktli_config);
  ks ← on_w (malloc_ptr sizeof_ksession);
  cf ← deref_st cf;
  ks ← deref_st ks;
  h ← on_w (strdup host);
  p ← on_w (strdup port);
  k ← on_w (strdup hkey);
  let flags := if usetls =? 0 then 0 else KCFF_TLS in
  on_w (modify_st (fun w => set_configs_w (<[cf := KtliConfig h p id k flags (Some ks)]> (w_configs w)) w)) ;;
  modify_st (fun o => Opst (o_w o) (o_heap o) (<[ks := Ksession 0 0 klimits0 unset_hdr kstats0]> (o_ses o)) (o_pb o)) ;;
  mret (cf, ks).

(** The loop: whatever the error, it goes on. *)
Fixpoint open_wait (asleep : nat -> nat -> ST world Z) (poll_fuel : nat) (ktd : Z) (fuel i : nat) : OP ptr :=
  match fuel with
  | O => fun _ => NoFuel
  | S fuel =>
      on_w (ktli_poll (asleep i) poll_fuel ktd 0) ;;
      '(rc, kio) ← on_w (ktli_receive_unsolicited ktd);
      if rc <? 0 then open_wait asleep poll_fuel ktd fuel (S i) else deref_st kio
  end.

(** [oex1] and [oex2]: the descriptor is answered, whatever went before. *)
Definition oex1 (ktd : Z) (glog : glog_st) (m : kproto_msg_t) : OP Z :=
  on_m (call_destructor glog) ;; on_m (destroy_message (Some m)) ;; mret ktd.

(** What the unsolicited status becomes; neither the kio nor what it carries is
    freed.  [ks_conf], which takes the configuration, is read nowhere. *)
Definition open_status (ktd : Z) (ks kio : ptr) : OP Z :=
  k ← on_w (kio_rd kio);
  iov ← deref_st (km_msg (kio_recvmsg k));
  kiov ← array_rd iov (Z.of_nat KIOV_MSG);
  kmresp ← on_m (unpack_kinetic_message (kiov_base kiov) (kiov_len kiov));
  match kmresp with
  | None => mret ktd
  | Some m =>
      '(krc, glog) ← on_m (extract_getlog m glog_zero);
      if negb (krc =? K_OK) then oex1 ktd glog m else
      ses_upd (Some ks) (set_ks_limits (kgl_limits (gs_log glog))) ;;
      '(krc, cmd_hdr) ← on_m (extract_cmdhdr (Some m) kcmdhdr0);
      if negb (krc =? K_OK) then oex1 ktd glog m else
      ses_upd (Some ks) (set_ks_hdr cmd_hdr) ;;
      ses_upd (Some ks) (set_ks_batch KFIRSTBID 0) ;;
      oex1 ktd glog m
  end.

(** [kh] is the address of the helpers [ki_kh]; [thread_fuel] bounds the service
    threads a failing call joins. *)
Definition ki_open (thread_fuel : nat) (asleep : nat -> nat -> ST world Z) (poll_fuel fuel : nat) (kh : ptr)
    (host port : option buffer) (usetls id : Z) (hkey : option buffer) : OP Z :=
  '(cf, ks) ← open_setup host port usetls id hkey;
  ktd ← on_w (ktli_open socket_fns thread_fuel KTLI_DRIVER_SOCKET (Some cf) (Some kh));
  if ktd <? 0 then mret (-1) else
  rc ← on_w (ktli_connect socket_fns ktd);
  if rc <? 0 then on_w (ktli_close socket_fns thread_fuel ktd) ;; mret (-1) else
  kio ← open_wait asleep poll_fuel ktd fuel 0;
  open_status ktd ks kio.

(** [ki_close] is not implemented. *)
Definition ki_close (ktd : Z) : OP Z := mret (-1).

(** The same for the basic API ([basickv.c]); its close answers success. *)
Definition bkv_open (thread_fuel : nat) (asleep : nat -> nat -> ST world Z) (poll_fuel fuel : nat) (kh : ptr)
    (bkvo : bkvs_open_t) : OP Z :=
  ktd ← ki_open thread_fuel asleep poll_fuel fuel kh (bkvo_host bkvo) (bkvo_port bkvo) (u32 (bkvo_usetls bkvo))
    (i64 (bkvo_id bkvo)) (bkvo_pass bkvo);
  if ktd <? 0 then mret (-1) else mret ktd.
Definition bkv_close (ktd : Z) : OP Z := _ ← ki_close ktd; mret 0.
End open.
