(* ===== verification/OpFrame.v ===== *)
(** What the KTLI calls an operation makes leave alone: everything but the
    queues, errno, the session's state and the one kio they are given. *)

From stdpp Require Import gmap.
From S2P Require Import Prelude Types ListApi Session KtliState Ktli KtliSpec KtliLife.

Section frame.
Context `{LA : ListApi} {X : Type}.

Notation world := (@world LA X).

(** The fields of a kio the transport layer never writes *)
Definition same_request (k k' : kio ptr) : Prop :=
  kio_magic k' = kio_magic k /\ kio_cmd k' = kio_cmd k /\ kio_flags k' = kio_flags k /\
  km_msg (kio_sendmsg k') = km_msg (kio_sendmsg k) /\ km_cnt (kio_sendmsg k') = km_cnt (kio_sendmsg k) /\
  kio_cctx k' = kio_cctx k /\ kio_ckv k' = kio_ckv k /\ kio_caltkv k' = kio_caltkv k /\
  kio_ckb k' = kio_ckb k /\ kio_ckapp k' = kio_ckapp k.
(** ... and the response, which a receive does not write either *)
Definition same_response (k k' : kio ptr) : Prop := same_request k k' /\ kio_recvmsg k' = kio_recvmsg k.

#[global] Instance same_request_preorder : PreOrder same_request.
Proof.
  split; [by intros k|]. intros k1 k2 k3 (?&?&?&?&?&?&?&?&?&?) (?&?&?&?&?&?&?&?&?&?).
  unfold same_request. split_and!; congruence.
Qed.
#[global] Instance same_response_preorder : PreOrder same_response.
Proof. split; [by intros k|]. intros k1 k2 k3 [? ?] [? ?]. split; [by etrans|congruence]. Qed.

(** What belongs to the service threads and their driver *)
Definition same_threads (w w' : world) : Prop :=
  w_helpers w' = w_helpers w /\ w_malloc w' = w_malloc w /\ w_env w' = w_env w.

Definition wframe (K : relation (kio ptr)) (p : ptr) (w w' : world) : Prop :=
  w_live w' = w_live w /\ w_configs w' = w_configs w /\
  (forall q, q <> p -> w_kios w' !! q = w_kios w !! q) /\
  option_Forall2 K (w_kios w !! p) (w_kios w' !! p) /\ same_threads w w'.

Context (K : relation (kio ptr)) `{!PreOrder K} (p : ptr).

#[global] Instance wframe_preorder : PreOrder (wframe K p).
Proof.
  split.
  - intros w. do 3 (split; [done|]). split; [|done]. destruct (w_kios w !! p); constructor. reflexivity.
  - intros w1 w2 w3 (H1 & H2 & H3 & H4 & H5 & H6 & H7) (H1' & H2' & H3' & H4' & H5' & H6' & H7').
    split_and!; [congruence|congruence| | |split_and!; congruence].
    + intros q Hq. by rewrite H3', H3.
    + destruct H4; inversion H4'; subst; constructor. by etrans.
Qed.

Lemma wframe_same (w w' : world) :
  w_live w' = w_live w -> w_configs w' = w_configs w -> w_kios w' = w_kios w -> same_threads w w' -> wframe K p w w'.
Proof.
  intros H1 H2 H3 H4. split_and!; [done|done|by rewrite H3| |done]. rewrite H3.
  destruct (w_kios w !! p); constructor. reflexivity.
Qed.

Lemma wf_kts_rd {A} (f : kts_table_t -> outcome A) : respects (wframe K p) (kts_rd f).
Proof. intros w b w' H. unfold kts_rd in H. destruct (f (w_table w)); simplify_eq. reflexivity. Qed.
Lemma wf_kts_wr f : respects (wframe K p) (kts_wr f).
Proof. intros w b w' H. unfold kts_wr in H. destruct (f (w_table w)); simplify_eq. by apply wframe_same. Qed.
Lemma wf_errno e : respects (wframe K p) (set_errno e).
Proof. intros w b w' [= <- <-]. by apply wframe_same. Qed.
Lemma wf_lock q : respects (wframe K p) (pthread_mutex_lock q).
Proof. intros w b w' H. unfold pthread_mutex_lock in H. repeat case_match; simplify_eq. by apply wframe_same. Qed.
Lemma wf_unlock q : respects (wframe K p) (pthread_mutex_unlock q).
Proof. intros w b w' H. unfold pthread_mutex_unlock in H. repeat case_match; simplify_eq. by apply wframe_same. Qed.
Lemma wf_q_list q : respects (wframe K p) (q_list q).
Proof. intros w b w' H. unfold q_list in H. repeat case_match; simplify_eq. reflexivity. Qed.
Lemma wf_q_set q l : respects (wframe K p) (q_set q l).
Proof. intros w b w' H. unfold q_set in H. repeat case_match; simplify_eq. by apply wframe_same. Qed.
Lemma wf_kio_rd q : respects (wframe K p) (kio_rd q).
Proof. intros w b w' H. unfold kio_rd, deref_st in H. repeat case_match; simplify_eq. reflexivity. Qed.
Lemma wf_kio_upd f : (forall k, K k (f k)) -> respects (wframe K p) (kio_upd p f).
Proof.
  intros Hf w b w' H. unfold kio_upd in H. destruct (w_kios w !! p) as [k|] eqn:E; simplify_eq.
  split_and!; [done|done|intros q Hq; cbn; by rewrite lookup_insert_ne| |done]. cbn.
  rewrite E, lookup_insert_eq. constructor. apply Hf.
Qed.
Lemma wf_malloc size : respects (wframe K p) (malloc size).
Proof. intros w b w' [= <- <-]. by apply wframe_same. Qed.
Lemma wf_fresh : respects (wframe K p) fresh_ptr.
Proof. intros w b w' [= <- <-]. by apply wframe_same. Qed.
End frame.

Ltac wframe_tac side :=
  unfold fail, list_enqueue, q_traverse, q_remove_curr, q_remove_front, q_mvrear, q_size, malloc_ptr;
  respects_with ltac:(first
    [ apply (wf_kts_rd _) | apply (wf_kts_wr _) | apply (wf_errno _) | apply (wf_lock _)
    | apply (wf_unlock _) | apply (wf_q_list _) | apply (wf_q_set _) | apply (wf_kio_rd _)
    | apply (wf_kio_upd _); side | apply (wf_malloc _) | apply (wf_fresh _) ]).

Section calls.
Context `{LA : ListApi} {X : Type}.
Notation world := (@world LA X).

Lemma ktli_config_frame kts (w : world) r w' :
  ktli_config kts w = Ok (r, w') -> w' = w \/ w' = set_errno_w EBADF w.
Proof.
  unfold ktli_config. intros H. inv_run H. unfold kts_rd in Hrun.
  destruct (kts_isvalid kts (w_table w)); simplify_eq.
  destruct a; cbn [negb] in H.
  - inv_run H. unfold kts_rd in Hrun. destruct (kts_config kts (w_table s)); simplify_eq.
    apply ret_inv in H. simplify_eq. by left.
  - unfold fail in H. inv_run H. inv_run Hrun. unfold set_errno, modify_st in Hrun0. simplify_eq.
    apply ret_inv in Hrun, H. simplify_eq. by right.
Qed.

Lemma ktli_send_frame kts p : respects (wframe same_request p) (@ktli_send LA X kts p).
Proof. unfold ktli_send, kts_state, kts_sendq. wframe_tac ltac:(by intros k). Qed.

Lemma ktli_receive_frame kts p : respects (wframe same_response p) (@ktli_receive LA X kts p).
Proof.
  unfold ktli_receive, ktli_drain_match, drain_match_q, kts_state, kts_compq, kts_recvq, kts_sendq.
  wframe_tac ltac:(by intros k).
Qed.
End calls.
