(* ===== verification/OpSpec.v ===== *)
(** What initiating a request promises, whatever the operation and whatever the
    allocator refuses: either the kio is queued and owns exactly its buffers, or
    everything is given back. *)

From stdpp Require Import gmap.
From S2P Require Import Prelude Types ListApi Session KtliState Ktli Pdu Keys Ktb Validate ProtoData Proto ProtoSpec Stat Op OpFrame.
From S2P Require Import Put Del Get Noop Batch.

Section balance.
Context `{LA : ListApi} {X : Type} {PG : ProtoGen} {PL : ProtoLaws}.

Notation opst := (@opst LA X).
Notation OP := (ST opst).
Implicit Types (o : opst).

(** Blocks alive: the API layer's and the ones KTLI allocated *)
Definition live o : Z := m_live (h_mem (o_heap o)) + w_live (o_w o).
Definition kios o : gmap ptr (kio ptr) := w_kios (o_w o).

(** *** Taking a step of one part of the state apart *)
Lemma on_w_inv {A} (m : ST (@world LA X) A) o a o' :
  on_w m o = Ok (a, o') ->
  exists w, m (o_w o) = Ok (a, w) /\ o' = Opst w (o_heap o) (o_ses o) (o_pb o).
Proof. unfold on_w. intros H. destruct (m (o_w o)) as [[x w]| | |]; simplify_eq. eauto. Qed.
Lemma on_h_inv {A} (m : ST heap A) o a o' :
  on_h m o = Ok (a, o') ->
  exists h, m (o_heap o) = Ok (a, h) /\ o' = Opst (o_w o) h (o_ses o) (o_pb o).
Proof. unfold on_h. intros H. destruct (m (o_heap o)) as [[x h]| | |]; simplify_eq. eauto. Qed.
Lemma on_m_inv {A} (m : ST mem A) o a o' :
  on_m m o = Ok (a, o') ->
  exists s, m (h_mem (o_heap o)) = Ok (a, s) /\
    o' = Opst (o_w o) (Heap s (h_blocks (o_heap o))) (o_ses o) (o_pb o).
Proof.
  intros (h & H & ->)%on_h_inv. unfold on_mem in H.
  destruct (m (h_mem (o_heap o))) as [[x s]| | |]; simplify_eq. eauto.
Qed.

(** Computations that neither allocate nor touch a kio *)
Definition sameres o o' : Prop :=
  live o' = live o /\ kios o' = kios o /\ w_next (o_w o') = w_next (o_w o).
#[local] Instance sameres_preorder : PreOrder sameres.
Proof. split; [by intros o|]. intros o1 o2 o3 (?&?&?) (?&?&?). unfold sameres. split_and!; congruence. Qed.

Lemma sr_ses_rd ses : respects sameres (ses_rd ses).
Proof. intros o a o' H. unfold ses_rd, deref_st in H. case_match; simplify_eq. reflexivity. Qed.
Lemma sr_cfg_rd cf : respects sameres (cfg_rd cf).
Proof. intros o a o' H. unfold cfg_rd, deref_st in H. case_match; simplify_eq. reflexivity. Qed.
Lemma sr_ses_upd ses f : respects sameres (ses_upd ses f).
Proof. intros o a o' H. unfold ses_upd in H. case_match; by simplify_eq. Qed.
Lemma sr_err_inc ses k : respects sameres (err_inc ses k).
Proof. unfold err_inc, kop_upd. destruct k; [apply sr_ses_upd|apply (respects_ret _)]. Qed.
Lemma sr_tstat ses k : respects sameres (tstat_on ses k).
Proof.
  unfold tstat_on, kop_rd. destruct k; [|apply (respects_ret _)].
  repeat (apply (respects_bind _); [apply (respects_bind _); [apply sr_ses_rd|intros ?; apply (respects_ret _)]|intros ?; apply (respects_ret _)]).
Qed.

Lemma sr_on_h {A} (m : ST heap A) : respects (fun h h' => h_mem h' = h_mem h) m -> respects sameres (on_h m).
Proof. intros Hm o a o' (h & H & ->)%on_h_inv. apply Hm in H. unfold sameres, live. cbn. by rewrite H. Qed.
Lemma sr_on_w {A} (m : ST (@world LA X) A) :
  respects (fun w w' => w_live w' = w_live w /\ w_kios w' = w_kios w /\ w_next w' = w_next w) m ->
  respects sameres (on_w m).
Proof.
  intros Hm o a o' (w & H & ->)%on_w_inv. apply Hm in H as (H1 & H2 & H3). unfold sameres, live, kios. cbn.
  by rewrite H1, H2, H3.
Qed.

#[local] Instance same_hmem : PreOrder (fun h h' : heap => h_mem h' = h_mem h).
Proof. split; [by intros h|]. intros h1 h2 h3 H1 H2. congruence. Qed.

Lemma sm_base p : respects (fun h h' : heap => h_mem h' = h_mem h) (ktb_base p).
Proof. intros h a h' H. unfold ktb_base in H. case_match; by simplify_eq. Qed.
Lemma sm_put p k : respects (fun h h' : heap => h_mem h' = h_mem h) (ktb_put p k).
Proof. by intros h a h' [= <- <-]. Qed.
Lemma sm_rd {A} (l : list A) i : respects (fun h h' : heap => h_mem h' = h_mem h) (array_rd l i).
Proof. intros h a h' H. unfold array_rd in H. case_match; by simplify_eq. Qed.

Ltac sm := respects_with ltac:(first [apply sm_base|apply sm_put|apply sm_rd]).

Lemma sm_len_loop wrap l n i len : respects (fun h h' : heap => h_mem h' = h_mem h) (len_loop wrap l n i len).
Proof. revert i len. induction n as [|n IH]; intros i len; cbn [len_loop]; sm. apply IH. Qed.
Lemma sm_valid p : respects (fun h h' : heap => h_mem h' = h_mem h) (ki_valid p).
Proof. unfold ki_valid, ktb_isvalid. sm. Qed.
Lemma sm_get_kv p : respects (fun h h' : heap => h_mem h' = h_mem h) (get_kv p).
Proof. unfold get_kv. sm. Qed.
Lemma sm_get_kb p : respects (fun h h' : heap => h_mem h' = h_mem h) (get_kb p).
Proof. unfold get_kb. sm. Qed.

Ltac sm' := respects_with ltac:(first
  [apply sm_base|apply sm_put|apply sm_rd|apply sm_len_loop|apply sm_valid|apply sm_get_kv|apply sm_get_kb]).

Lemma sm_validate_kv p verck valck lim : respects (fun h h' : heap => h_mem h' = h_mem h) (ki_validate_kv p verck valck lim).
Proof. unfold ki_validate_kv. sm'. Qed.
Lemma sm_validate_kb p t : respects (fun h h' : heap => h_mem h' = h_mem h) (ki_validate_kb p t).
Proof. unfold ki_validate_kb. sm'. Qed.
Lemma sm_get_refused kvp altkv t lim : respects (fun h h' : heap => h_mem h' = h_mem h) (get_refused kvp altkv t lim).
Proof. unfold get_refused. respects_with ltac:(apply sm_validate_kv). Qed.

Lemma sr_kv_rd p : respects sameres (kv_rd p).
Proof. unfold kv_rd. apply (respects_bind _); [apply (respects_deref _)|]. intros q. apply sr_on_h, sm_get_kv. Qed.
Lemma sr_kb_rd p : respects sameres (kb_rd p).
Proof. unfold kb_rd. apply (respects_bind _); [apply (respects_deref _)|]. intros q. apply sr_on_h, sm_get_kb. Qed.
Lemma sr_kb_wr p b : respects sameres (kb_wr p b).
Proof. unfold kb_wr. apply (respects_bind _); [apply (respects_deref _)|]. intros q. apply sr_on_h. sm'. Qed.
Lemma sr_config ktd : respects sameres (on_w (@ktli_config LA X ktd)).
Proof. apply sr_on_w. intros w a w' [->| ->]%ktli_config_frame; done. Qed.
Lemma sr_gettime : respects sameres (on_w (@ktli_gettime LA X)).
Proof. apply sr_on_w. by intros w a w' [= <- <-]. Qed.
Lemma sr_lift {A} (x : outcome A) : respects sameres (lift x).
Proof. intros o a o' H. unfold lift in H. destruct x; simplify_eq. reflexivity. Qed.

Lemma sr_len_loop wrap l n i len : respects sameres (on_h (len_loop wrap l n i len)).
Proof. apply sr_on_h, sm_len_loop. Qed.

Ltac sr := respects_with ltac:(first
  [ apply sr_ses_rd | apply sr_cfg_rd | apply sr_ses_upd | apply sr_err_inc | apply sr_tstat
  | apply sr_kv_rd | apply sr_kb_rd | apply sr_kb_wr | apply sr_config | apply sr_gettime | apply sr_lift
  | apply sr_on_h; first [apply sm_validate_kv | apply sm_validate_kb | apply sm_get_refused | apply sm_len_loop] ]).

Lemma sr_put_account ses kbp a b : respects sameres (put_account ses kbp a b).
Proof. unfold put_account. sr. Qed.
Lemma sr_del_account ses kbp a b : respects sameres (del_account ses kbp a b).
Proof. unfold del_account. sr. Qed.
Lemma sr_checks k ktd kvp kbp verck ckio : respects sameres (kv_request_checks k ktd kvp kbp verck ckio).
Proof. unfold kv_request_checks. sr. Qed.
Lemma sr_set_up ktd ses kbp r t : respects sameres (set_up_batch ktd ses kbp r t).
Proof. unfold set_up_batch, inc_bid, inc_bats. sr. Qed.
Lemma sr_bex ses race t krc : respects sameres (bex_kb ses race t krc).
Proof. unfold bex_kb, inc_bats. sr. Qed.

(** *** Steps that change the balance *)
Lemma on_m_balance {A} (m : ST mem A) Q o a o' :
  balance m Q -> on_m m o = Ok (a, o') -> Q a (live o' - live o) /\ kios o' = kios o.
Proof.
  intros Hm (s & H & ->)%on_m_inv. split; [|done]. apply Hm in H. unfold live. cbn.
  by replace (m_live s + w_live (o_w o) - (m_live (h_mem (o_heap o)) + w_live (o_w o)))
    with (m_live s - m_live (h_mem (o_heap o))) by lia.
Qed.

Lemma kio_alloc_inv o r o' :
  kio_alloc o = Ok (r, o') ->
  match r with
  | None => sameres o o'
  | Some p => p = w_next (o_w o) /\ kios o' = <[p := kio_zero]> (kios o) /\ live o' = live o + 1
  end.
Proof.
  unfold kio_alloc. intros H. inv_run H.
  apply (on_m_balance _ _ _ _ _ (balance_malloc _)) in Hrun as Hb. destruct Hb as [Hl Hk].
  apply on_m_inv in Hrun as (sm & _ & ->). destruct a as [b|].
  - inv_run H. apply on_w_inv in Hrun as (w & Hrun & ->). unfold fresh_ptr in Hrun. simplify_eq.
    inv_run H. apply on_w_inv in Hrun as (w & Hrun & ->). unfold modify_st in Hrun. simplify_eq.
    apply ret_inv in H. simplify_eq. split_and!; [done|done|]. unfold live in *. cbn in *. lia.
  - apply ret_inv in H. simplify_eq. split; [lia|done].
Qed.

(** An exit with status [krc] that gives back [held] blocks and the kio [p] *)
Definition exits (p : ptr) (krc held : Z) (c : OP (Z * option ptr)) : Prop :=
  forall o r o', c o = Ok (r, o') -> r = (krc, None) /\ live o' = live o - held /\ kios o' = delete p (kios o).

Lemma ex_kio_exits ses d p krc : exits p krc 1 (ex_kio ses d p krc).
Proof.
  intros o r o' H. unfold ex_kio, kio_free in H. inv_run H. inv_run Hrun.
  apply on_w_inv in Hrun0 as (w & Hw & ->). unfold modify_st in Hw. simplify_eq.
  apply (on_m_balance _ _ _ _ _ balance_free) in Hrun as [Hl Hk].
  inv_run H. apply sr_err_inc in Hrun as (Hl'&Hk'&_). apply ret_inv in H. simplify_eq.
  split; [done|]. rewrite Hk', Hk. split; [|done]. unfold live in *. cbn in *. lia.
Qed.

Lemma exits_after {A} (m : ST mem A) n p krc held c :
  balance m (fun _ k => k = - n) -> exits p krc held c -> exits p krc (n + held) (on_m m ;; c).
Proof.
  intros Hm Hc o r o' H. inv_run H. apply (on_m_balance _ _ _ _ _ Hm) in Hrun as [Hl Hk].
  apply Hc in H as (-> & Hl' & ->). rewrite Hk. split; [done|]. split; [lia|done].
Qed.

(** A request's message and the blocks freed with it *)
Definition owns_msg (m : kproto_msg_t) (n : Z) : Prop :=
  exists a, m_hmacauth m = Some a /\ is_Some (ha_hmac a) /\
    n = msg_blocks (set_m_hmacauth (Some (Hmacauth (ha_identity a) (Some pbd0))) m).

Lemma balance_destroy m n :
  owns_msg m n -> balance (m ← lift (strip_key m); destroy_message (Some m)) (fun _ k => k = - n).
Proof.
  intros (a & Ha & [h Hh] & ->). eapply balance_bind; [apply balance_lift|]. intros m' k [E ->].
  unfold strip_key in E. rewrite Ha, Hh in E. injection E as <-. apply balance_add.
Qed.

Lemma ex_kmreq_exits ses d p m n krc : owns_msg m n -> exits p krc (n + 1) (ex_kmreq ses d p m krc).
Proof. intros Hm. apply exits_after; [by apply balance_destroy|apply ex_kio_exits]. Qed.
Lemma ex_kmmsg_exits ses d p m n krc : owns_msg m n -> exits p krc (1 + (n + 1)) (ex_kmmsg ses d p m krc).
Proof. intros Hm. apply exits_after; [apply balance_free|by apply ex_kmreq_exits]. Qed.
Lemma ex_kmmsg_pdu_exits ses d p m n krc : owns_msg m n -> exits p krc (1 + (1 + (n + 1))) (ex_kmmsg_pdu ses d p m krc).
Proof. intros Hm. apply exits_after; [apply balance_free|by apply ex_kmmsg_exits]. Qed.
Lemma ex_kmmsg_msg_exits ses d p m n krc : owns_msg m n -> exits p krc (1 + (1 + (1 + (n + 1)))) (ex_kmmsg_msg ses d p m krc).
Proof. intros Hm. apply exits_after; [apply balance_free|by apply ex_kmmsg_pdu_exits]. Qed.

(** What a call that initiates a request leaves: [lost] bounds what is left
    behind when the status is [krc0]. *)
Definition initiated (krc0 : Z -> Prop) (lost : Z) (o : opst) (r : Z * option ptr) (o' : opst) : Prop :=
  match r.2 with
  | Some p =>
      r.1 = K_OK /\ p = w_next (o_w o) /\ live o' = live o + 4 /\
      is_Some (kios o' !! p) /\ forall q, q <> p -> kios o' !! q = kios o !! q
  | None =>
      kios o' = kios o /\
      (live o' = live o \/ krc0 r.1 /\ live o <= live o' <= live o + lost)
  end.

(** From the state [o1] in which the kio [p] was made *)
Definition started (o : opst) (held : Z) (p : ptr) (o1 : opst) : Prop :=
  live o1 = live o + held /\ is_Some (kios o1 !! p) /\
  kios o !! p = None /\ p = w_next (o_w o) /\ forall q, q <> p -> kios o1 !! q = kios o !! q.

Lemma exits_started o held p o1 krc krc0 lost c r o' :
  started o held p o1 -> exits p krc held c -> c o1 = Ok (r, o') -> initiated krc0 lost o r o'.
Proof.
  intros (Hl & _ & Hn & _ & Hq) Hc H. apply Hc in H as (-> & Hl' & Hk). cbn. split; [|left; lia].
  rewrite Hk. apply map_eq. intros q. destruct (decide (q = p)) as [->|].
  - by rewrite lookup_delete_eq.
  - rewrite lookup_delete_ne by done. by apply Hq.
Qed.

Lemma started_same o held p o1 o2 : started o held p o1 -> sameres o1 o2 -> started o held p o2.
Proof. intros (H1&H2&H3&H4&H5) (E1&E2&_). unfold started. rewrite E1, E2. done. Qed.
Lemma started_more o held p o1 o2 n :
  started o held p o1 -> live o2 - live o1 = n -> kios o2 = kios o1 -> started o (n + held) p o2.
Proof. intros (H1&H2&H3&H4&H5) E1 E2. unfold started. rewrite E2. split_and!; try done. lia. Qed.
Lemma started_upd o held p o1 f r o2 :
  started o held p o1 -> on_w (kio_upd p f) o1 = Ok (r, o2) -> started o held p o2.
Proof.
  intros (H1&H2&H3&H4&H5) (w & H & ->)%on_w_inv. unfold kio_upd in H. case_match; [|done]. simplify_eq.
  unfold started, live, kios in *. cbn. rewrite lookup_insert_eq. split_and!; try done.
  intros q Hq. rewrite lookup_insert_ne by done. by apply H5.
Qed.
Lemma kio_alloc_started o p o1 :
  kios o !! w_next (o_w o) = None -> kio_alloc o = Ok (Some p, o1) -> started o 1 p o1.
Proof.
  intros Hn H. apply kio_alloc_inv in H as (-> & Hk & Hl). unfold started. rewrite Hk, lookup_insert_eq.
  split_and!; [done|done|done|done|]. intros q Hq. by rewrite lookup_insert_ne.
Qed.

Lemma started_alloc {A} (m : ST mem (option A)) o held p o1 r o2 :
  started o held p o1 ->
  balance m (fun r n => n = match r with Some _ => 1 | None => 0 end) ->
  on_m m o1 = Ok (r, o2) -> started o (match r with Some _ => 1 | None => 0 end + held) p o2.
Proof.
  intros Hs Hm H. apply (on_m_balance _ _ _ _ _ Hm) in H as [Hl Hk]. by eapply started_more.
Qed.

Lemma started_send o held p o1 ktd r o2 :
  started o held p o1 -> on_w (ktli_send ktd p) o1 = Ok (r, o2) -> started o held p o2.
Proof.
  intros (H1&[k Hk]&H3&H4&H5) (w & H & ->)%on_w_inv. apply ktli_send_frame in H as (Hl & _ & Hq & Hp & _).
  unfold started, live, kios in *. cbn. rewrite Hl. split_and!; try done.
  - rewrite Hk in Hp. inversion Hp. eauto.
  - intros q Hqp. rewrite Hq by done. by apply H5.
Qed.

(** What a description must promise *)
Definition desc_ok (lost : Z) (d : op_desc) : Prop :=
  (forall mh ch, kmh_atype mh = KAT_HMAC -> creates lost (od_create d mh ch)) /\
  (forall a b, respects sameres (od_account d a b)).

(** [same H S lem]: the next step of [H] keeps [S]; [block H S lem]: it may add
    a block. *)
Ltac next_as H Hrun' := inv_run H; match type of H with _ ?o = _ => match goal with R : _ = Ok (_, o) |- _ => rename R into Hrun' end end.
Ltac case_of H := match type of H with match ?x with _ => _ end _ = _ => destruct x end.
Ltac case_of_eq H E := match type of H with (if ?x then _ else _) _ = _ => destruct x eqn:E end.
Ltac same H S lem :=
  let R := fresh "R" in next_as H R; apply lem in R; eapply started_same in S; [|exact R]; clear R.
Ltac block H S lem :=
  let R := fresh "R" in next_as H R; apply (started_alloc _ _ _ _ _ _ _ S) in R; [|apply lem]; clear S; rename R into S.
Ltac upd H S := let R := fresh "R" in next_as H R; apply (started_upd _ _ _ _ _ _ _ S) in R; clear S; rename R into S.

Lemma send_request_balance lost ktd cf ses start d o r o' :
  desc_ok lost d -> kios o !! w_next (o_w o) = None ->
  send_request ktd cf ses start d o = Ok (r, o') -> initiated (eq (od_create_err d)) lost o r o'.
Proof.
  intros [Hc Ha] Hn H. unfold send_request in H. inv_run H. destruct a as [p|].
  2: { apply kio_alloc_inv in Hrun. inv_run H. apply sr_err_inc in Hrun0. apply ret_inv in H. simplify_eq.
       destruct Hrun as (H1&H2&_), Hrun0 as (H3&H4&_). split; [congruence|left; congruence]. }
  pose proof (kio_alloc_started _ _ _ Hn Hrun) as S. clear Hrun Hn.
  same H S sr_cfg_rd. same H S sr_ses_rd. cbv zeta in H.
  inv_run H. apply (on_m_balance _ _ _ _ _ (Hc (Kmsghdr KAT_HMAC _ _ _ _ _) _ eq_refl)) in Hrun as [Hb Hk]. destruct a1 as [m|].
  2: { pose proof S as (Hl & _ & Hq1 & Hq2 & Hq3).
       apply ex_kio_exits in H as (-> & Hl' & Hk'). split; cbn.
       - rewrite Hk', Hk. apply map_eq. intros q. destruct (decide (q = p)) as [->|].
         + by rewrite lookup_delete_eq.
         + rewrite lookup_delete_ne by done. by apply Hq3.
       - right. split; [done|]. lia. }
  set (n := live s2 - live s1) in *. change (owns_msg m n) in Hb.
  eapply (started_more _ _ _ _ _ n) in S; [|reflexivity|exact Hk].
  clearbody n. clear Hk.
  same H S sr_tstat. upd H S.
  block H S balance_malloc. case_of H; [|by eapply exits_started; [exact S|eapply ex_kmreq_exits|exact H]].
  block H S balance_malloc. case_of H; [|by eapply exits_started; [exact S|eapply ex_kmmsg_exits|exact H]].
  block H S balance_pack_message.
  case_of H; [|by eapply exits_started; [exact S|eapply ex_kmmsg_pdu_exits|exact H]].
  case_of H. same H S sr_len_loop. upd H S.
  same H S Ha. case_of H; [by eapply exits_started; [exact S|eapply ex_kmmsg_msg_exits|exact H]|].
  next_as H R. apply (started_send _ _ _ _ _ _ _ S) in R. clear S. case_if.
  { by eapply exits_started; [exact R|eapply ex_kmmsg_msg_exits|exact H]. }
  inv_run H. apply (on_m_balance _ _ _ _ _ (balance_destroy _ _ Hb)) in Hrun as [Hl Hk].
  apply ret_inv in H. simplify_eq. destruct R as (Hl' & Hsome & _ & Hp & Hq). unfold initiated. cbn.
  rewrite Hk. split_and!; [done|done| |done|done]. lia.
Qed.
(** *** The messages *)
Lemma pbd_blocks_range d : 0 <= pbd_blocks d <= 1.
Proof. unfold pbd_blocks. case_match; lia. Qed.

Lemma creates_tail mh cb n0 lost :
  kmh_atype mh = KAT_HMAC -> (pb_data cb <> None -> pb_len cb <> 0) ->
  pbd_blocks cb = n0 -> 1 + n0 <= lost ->
  balance (create_message mh cb) (fun r n =>
    match r with None => 0 <= n0 + n <= lost | Some m => owns_msg m (n0 + n) end).
Proof.
  intros Ht Hcb Hn Hl. eapply balance_weaken; [by apply create_message_creates|].
  pose proof (pbd_blocks_range cb). intros [m|] n Hm.
  - destruct Hm as (a & ? & ? & ?). exists a. split_and!; [done|done|lia].
  - lia.
Qed.

(** What the operations do once the command bytes are made: [held] blocks are
    given back by [fr]. *)
Lemma creates_packed mh ch pd (fr : ST mem unit) held lost :
  kmh_atype mh = KAT_HMAC -> 2 <= lost ->
  balance fr (fun _ n => n = - held) ->
  balance (cb ← create_command_bytes ch pd; fr ;;
           if bool_decide (pb_data cb = None) then mret None else create_message mh cb)
    (fun r n => match r with None => 0 <= held + n <= lost | Some m => owns_msg m (held + n) end).
Proof.
  intros Ht Hl Hf. eapply balance_bind; [apply balance_command_bytes|]. intros cb n [Hn Hcb]. cbv beta in Hn.
  pose proof (pbd_blocks_range cb).
  eapply balance_bind; [exact Hf|]. intros _ ? ->. case_bool_decide as E.
  - apply balance_ret. unfold pbd_blocks in Hn. rewrite E in Hn. lia.
  - eapply balance_weaken; [apply (creates_tail mh cb n lost); [done|done|lia|lia]|].
    intros [m|] k; replace (held + (n + (- held + k))) with (n + k) by lia; done.
Qed.

Lemma put_creates mh ch v f : kmh_atype mh = KAT_HMAC -> creates 2 (create_put_message mh ch v f).
Proof.
  intros Ht. unfold create_put_message, creates. eapply balance_bind; [apply balance_keyname|].
  intros [key|] n [-> Hk]; [|by apply balance_ret].
  destruct (pb_data key) as [b|] eqn:E; [|by destruct (Hk key)].
  apply (creates_packed mh ch _ _ 1 2); [done|done|apply (balance_free_data (Some b))].
Qed.

Lemma del_creates mh ch v f : kmh_atype mh = KAT_HMAC -> creates 2 (create_delkey_message mh ch v f).
Proof.
  intros Ht. unfold create_delkey_message, creates. eapply balance_bind; [apply balance_keyname|].
  intros [key|] n [-> Hk]; cbn [mbind option_bind].
  - destruct (pb_data key) as [b|] eqn:E; [|by destruct (Hk key)].
    apply (creates_packed mh ch _ _ 1 2); [done|done|apply (balance_free_data (Some b))].
  - apply (creates_packed mh ch _ _ 0 2); [done|done|apply (balance_free_data None)].
Qed.

Lemma get_creates mh ch v : kmh_atype mh = KAT_HMAC -> creates 2 (create_getkey_message mh ch v).
Proof.
  intros Ht. unfold create_getkey_message, creates. eapply balance_bind; [apply balance_keyname|].
  intros [key|] n [-> Hk]; [|by apply balance_ret].
  destruct (pb_data key) as [b|] eqn:E; [|by destruct (Hk key)].
  eapply balance_bind; [apply balance_command_bytes|]. intros cb k [Hn Hcb]. cbv beta in *.
  pose proof (pbd_blocks_range cb). case_bool_decide as E'; [apply balance_ret; lia|].
  eapply balance_bind; [apply (balance_free_data (Some b))|]. intros _ ? ->.
  eapply balance_weaken; [apply (creates_tail mh cb k 2); [done|done|lia|lia]|].
  intros [m|] q; replace (1 + (k + (- (1) + q))) with (k + q) by lia; done.
Qed.

Lemma noop_creates mh ch : kmh_atype mh = KAT_HMAC -> creates 2 (create_noop_message mh ch).
Proof.
  intros Ht. unfold create_noop_message, creates. eapply balance_bind; [apply balance_command_bytes|].
  intros cb k [Hn Hcb]. pose proof (pbd_blocks_range cb). cbv beta in *.
  case_bool_decide as E; [apply balance_ret; lia|]. apply (creates_tail mh cb k 2); [done|done|lia|lia].
Qed.

Lemma batch_creates mh ch n : kmh_atype mh = KAT_HMAC -> creates 2 (create_batch_message mh ch n).
Proof.
  intros Ht. unfold create_batch_message, creates. eapply balance_bind; [apply balance_command_bytes|].
  intros cb k [Hn Hcb]. pose proof (pbd_blocks_range cb). cbv beta in *.
  apply (creates_tail mh cb k 2); [done|done|lia|lia].
Qed.
(** *** Every initiating call *)
Inductive request_call : Type :=
  | CallPut (kbp kvp : option ptr) (verck : bool)
  | CallDel (kbp kvp : option ptr) (verck : bool)
  | CallGet (kvp altkv : option ptr) (msg_type : Z)
  | CallNoop | CallFlush
  | CallBatch (kbp : option ptr) (msg_type : Z) (r : races).

Definition initiate (c : request_call) (ktd : Z) (cctx : option ptr) (ckio : bool) : OP (Z * option ptr) :=
  match c with
  | CallPut kbp kvp verck => p_put_aio_generic ktd kvp kbp verck cctx ckio
  | CallDel kbp kvp verck => d_del_aio_generic ktd kvp kbp verck cctx ckio
  | CallGet kvp altkv msg_type => g_get_aio_generic ktd kvp altkv msg_type cctx ckio
  | CallNoop => n_noop_aio_generic ktd cctx ckio
  | CallFlush => f_flush_aio_generic ktd cctx ckio
  | CallBatch kbp msg_type r => b_batch_aio_generic ktd kbp msg_type r cctx ckio
  end.

(** The status when the message could not be made *)
Definition no_message (c : request_call) (krc : Z) : Prop :=
  match c with
  | CallGet _ _ _ => krc = K_ENOMEM
  | CallBatch _ _ _ => krc = K_EINTERNAL \/ krc = K_EBATCH
  | _ => krc = K_EINTERNAL
  end.

Lemma initiated_weaken P Q lost o r o' :
  (forall krc, P krc -> Q krc) -> initiated P lost o r o' -> initiated Q lost o r o'.
Proof. intros HPQ. unfold initiated. case_match; [done|]. intros [? [?|[? ?]]]; auto. Qed.
Lemma initiated_refused P lost o krc o' : sameres o o' -> initiated P lost o (krc, None) o'.
Proof. intros (?&?&?). split; [done|by left]. Qed.
Lemma initiated_after P lost o o1 r o' : sameres o o1 -> initiated P lost o1 r o' -> initiated P lost o r o'.
Proof. intros (H1&H2&H3). unfold initiated. by rewrite H1, H2, H3. Qed.

Lemma fresh_same o o1 : sameres o o1 -> kios o !! w_next (o_w o) = None -> kios o1 !! w_next (o_w o1) = None.
Proof. intros (_&H2&H3). by rewrite H2, H3. Qed.
Lemma sr_deref {A} (x : option A) : respects sameres (deref_st x).
Proof. apply (respects_deref _). Qed.

(** [keep H S lem]: the next step of [H] keeps the resources. *)
Ltac keep H S lem :=
  let R := fresh "R" in next_as H R; apply lem in R;
  match type of S with sameres ?a _ => apply (transitivity (x:=a) S) in R end; clear S; rename R into S.
Ltac done_refused S H := apply ret_inv in H; simplify_eq; by apply initiated_refused.
Ltac request S Hn H crt acc :=
  eapply initiated_after; [exact S|];
  eapply send_request_balance in H; [exact H|split; [intros; by apply crt|intros; apply acc]|by eapply fresh_same].

Lemma put_balance ktd kvp kbp verck cctx ckio o r o' :
  kios o !! w_next (o_w o) = None -> p_put_aio_generic ktd kvp kbp verck cctx ckio o = Ok (r, o') ->
  initiated (eq K_EINTERNAL) 2 o r o'.
Proof.
  intros Hn H. assert (S : sameres o o) by done. unfold p_put_aio_generic in H.
  keep H S sr_gettime. keep H S sr_checks. case_of H; [|by done_refused S H]. do 2 case_of H.
  keep H S sr_kv_rd. keep H S @sr_deref.
  request S Hn H put_creates sr_put_account.
Qed.

Lemma del_balance ktd kvp kbp verck cctx ckio o r o' :
  kios o !! w_next (o_w o) = None -> d_del_aio_generic ktd kvp kbp verck cctx ckio o = Ok (r, o') ->
  initiated (eq K_EINTERNAL) 2 o r o'.
Proof.
  intros Hn H. assert (S : sameres o o) by done. unfold d_del_aio_generic in H.
  keep H S sr_gettime. keep H S sr_checks. case_of H; [|by done_refused S H]. do 2 case_of H.
  keep H S sr_kv_rd.
  request S Hn H del_creates sr_del_account.
Qed.

Lemma sr_mret {A} (x : A) : respects sameres (mret x).
Proof. apply (respects_ret _). Qed.
Lemma sr_refused kvp altkv t lim : respects sameres (on_h (get_refused kvp altkv t lim)).
Proof. apply sr_on_h, sm_get_refused. Qed.
Lemma sr_valid_kb p t : respects sameres (on_h (ki_validate_kb p t)).
Proof. apply sr_on_h, sm_validate_kb. Qed.

Lemma get_balance ktd kvp altkv t cctx ckio o r o' :
  kios o !! w_next (o_w o) = None -> g_get_aio_generic ktd kvp altkv t cctx ckio o = Ok (r, o') ->
  initiated (eq K_ENOMEM) 2 o r o'.
Proof.
  intros Hn H. assert (S : sameres o o) by done. unfold g_get_aio_generic in H.
  keep H S sr_gettime. case_of H; [by done_refused S H|].
  keep H S sr_config. case_of H. case_of H; [by done_refused S H|].
  keep H S sr_cfg_rd. cbv zeta in H. keep H S sr_ses_rd. keep H S sr_refused. case_of H.
  { keep H S sr_err_inc. done_refused S H. }
  keep H S sr_kv_rd. request S Hn H get_creates @sr_mret.
Qed.

Lemma plain_balance k t create ktd cctx ckio o r o' :
  (forall mh ch, kmh_atype mh = KAT_HMAC -> creates 2 (create mh ch)) ->
  kios o !! w_next (o_w o) = None -> plain_aio_generic k t create ktd cctx ckio o = Ok (r, o') ->
  initiated (eq K_EINTERNAL) 2 o r o'.
Proof.
  intros Hc Hn H. assert (S : sameres o o) by done. unfold plain_aio_generic in H.
  keep H S sr_gettime. case_of H; [by done_refused S H|].
  keep H S sr_config. case_of H. case_of H; [by done_refused S H|].
  keep H S sr_cfg_rd. request S Hn H Hc @sr_mret.
Qed.

Lemma initiated_then o krc kio o1 krc' a o2 :
  initiated (eq K_EINTERNAL) 2 o (krc, kio) o1 -> (krc =? K_OK) = false -> sameres o1 o2 ->
  a = (krc, None) \/ a = (krc', None) -> krc' = K_EBATCH ->
  initiated (fun k => k = K_EINTERNAL \/ k = K_EBATCH) 2 o a o2.
Proof.
  unfold initiated. cbn. intros Hi E (H1&H2&_) Ha ->. destruct kio as [p|].
  { destruct Hi as (-> & _). done. }
  destruct Hi as (Hk & Hl). destruct Ha as [-> | ->]; cbn; rewrite H1, H2; split; try done;
    destruct Hl as [?|[? ?]]; auto.
Qed.

Lemma bex_inv ses race t krc o r o' :
  bex_kb ses race t krc o = Ok (r, o') -> sameres o o' /\ (r = (krc, None) \/ r = (K_EBATCH, None)).
Proof.
  intros H. split; [by apply sr_bex in H|]. unfold bex_kb in H. case_of H.
  - inv_run H. case_of H. apply ret_inv in H. simplify_eq. case_match; auto.
  - apply ret_inv in H. simplify_eq. auto.
Qed.

Lemma batch_balance ktd kbp t r cctx ckio o a o' :
  kios o !! w_next (o_w o) = None -> b_batch_aio_generic ktd kbp t r cctx ckio o = Ok (a, o') ->
  initiated (fun krc => krc = K_EINTERNAL \/ krc = K_EBATCH) 2 o a o'.
Proof.
  intros Hn H. assert (S : sameres o o) by done. unfold b_batch_aio_generic in H.
  case_of H; [by done_refused S H|].
  keep H S sr_config. case_of H. case_of H; [by done_refused S H|].
  keep H S sr_cfg_rd. cbv zeta in H. keep H S sr_valid_kb. case_of H; [by done_refused S H|].
  keep H S sr_set_up. case_of H.
  { do 2 case_of H; [|by done_refused S H]. apply bex_inv in H as [R Hr].
    destruct Hr as [-> | ->]; apply initiated_refused; by etrans. }
  keep H S sr_kb_rd. inv_run H. eapply send_request_balance in Hrun;
    [|split; [intros; by apply batch_creates|intros; apply sr_mret]|by eapply fresh_same].
  eapply initiated_after; [exact S|]. case_of H. case_of_eq H E.
  - apply ret_inv in H. simplify_eq. eapply initiated_weaken; [|exact Hrun]. cbn. by left.
  - apply bex_inv in H as [R Hr]. by eapply initiated_then; [exact Hrun|exact E|exact R|exact Hr|].
Qed.

(** C4: Whatever the allocator refuses and whatever the request, a call that
    starts an operation either answers K_OK with a kio it just made, which owns
    exactly four blocks (itself, its vector array, the PDU and the packed
    message), or answers no kio, leaves the set of kios as it was and gives
    back every block it took.  The one exception is a request message that
    cannot be made: the call then answers K_EINTERNAL (K_ENOMEM for a get) and
    leaves at most two blocks behind.  No other kio is touched. *)
Theorem initiate_balance c ktd cctx ckio o r o' :
  kios o !! w_next (o_w o) = None -> initiate c ktd cctx ckio o = Ok (r, o') ->
  initiated (no_message c) 2 o r o'.
Proof.
  intros Hn H. destruct c; cbn [initiate] in H.
  - eapply initiated_weaken; [|by eapply put_balance]. by intros ? <-.
  - eapply initiated_weaken; [|by eapply del_balance]. by intros ? <-.
  - eapply initiated_weaken; [|by eapply get_balance]. by intros ? <-.
  - eapply initiated_weaken; [|eapply plain_balance; [intros; by apply noop_creates|done|exact H]].
    by intros ? <-.
  - eapply initiated_weaken; [|eapply plain_balance; [intros; by apply noop_creates|done|exact H]].
    by intros ? <-.
  - by eapply batch_balance.
Qed.
End balance.
