(* ===== verification/OpRequest.v ===== *)
(** The request a call queues: the message each operation makes, and the run of
    a call whose arguments are accepted, up to the queue of the sender. *)

From stdpp Require Import gmap.
From S2P Require Import Prelude Types ListApi Session KtliState Ktli KtliSpec KtliLife Pdu Keys Ktb Validate.
From S2P Require Import ProtoData Proto ProtoSpec Stat Op OpFrame Put Del Get Noop Batch OpSpec.

(** ** The messages *)
Section message.
Context {PG : ProtoGen} {PL : ProtoLaws}.
Implicit Types (s : mem).

Lemma calc_loop_run s key bs l1 l2 n :
  key = l1 ++ l2 -> vec_bytes l2 bs -> 0 <= n -> n + zlen (concat bs) < 2 ^ 64 ->
  calc_loop key (length l2) (zlen l1) n s = Ok (n + zlen (concat bs), s).
Proof.
  intros -> Hv. revert l1 n. induction Hv as [|v b l2 bs [Hb Hpos] Hv IH]; intros l1 n H0 Hlt.
  - cbn [calc_loop length concat]. unfold mret, ST_ret, zlen. cbn [length]. do 2 f_equal. lia.
  - cbn [calc_loop length]. erewrite bind_Ok by by apply array_rd_middle.
    cbn [concat] in *. rewrite zlen_app in *.
    pose proof (iov_bytes_len v b Hb Hpos). pose proof (zlen_nonneg (concat bs)).
    rewrite u64_small by lia.
    replace (zlen l1 + 1) with (zlen (l1 ++ [v])) by (rewrite zlen_app; unfold zlen; cbn [length]; lia).
    replace (l1 ++ v :: l2) with ((l1 ++ [v]) ++ l2) by by rewrite <- app_assoc.
    rewrite IH by lia. do 2 f_equal. lia.
Qed.

(** The gathering loop is the one of [ki_keydupf]. *)
Lemma gather_loop_copy key n i b off s : gather_loop key n i b off s = keydupf_copy key n i b off s.
Proof. reflexivity. Qed.

Lemma keyname_run s key bs :
  mem_ok s -> vec_bytes key bs -> concat bs <> [] -> zlen (concat bs) < 2 ^ 64 ->
  keyname_to_proto (Some key) (zlen key) s = Ok (Some (pbd_of (concat bs)), adv 1 1 s).
Proof.
  intros Hs Hv Hne Hlt. unfold keyname_to_proto.
  replace (Z.to_nat (zlen key)) with (length key) by (unfold zlen; lia).
  rewrite (bind_Ok _ _ _ _ _ (calc_loop_run s key bs [] key 0 eq_refl Hv ltac:(lia) ltac:(lia))). rewrite Z.add_0_l.
  destruct (KI_MALLOC_adv s (zlen (concat bs)) Hs) as (kb & Ek & Hk).
  erewrite bind_Ok by exact Ek. cbv beta iota. pose proof (zlen_nonneg (concat bs)).
  erewrite bind_Ok.
  2: { rewrite gather_loop_copy. apply (keydupf_copy_run _ key bs [] key [] kb); [done|done|lia]. }
  by rewrite pbd_of_nonempty.
Qed.

(** Types without a body of their own *)
Lemma stitch_default t d : t = KMT_NOOP \/ t = KMT_FLUSH \/ t = KMT_ABORTBAT -> stitch_body t d = Ok body_init.
Proof. intros H. unfold stitch_body. cbv zeta. rewrite applet_other by done. by destruct H as [-> | [-> | ->]]. Qed.

Lemma command_run s ch pd body :
  mem_ok s -> stitch_body (kch_type ch) pd = Ok body ->
  let c := Command (Some (extract_to_command_header ch)) (Some body) None in
  cmd_wf c -> create_command_bytes ch pd s = Ok (pbd_of (cmd_pack c), adv 1 1 s).
Proof.
  intros Hs Hb c Hc. unfold create_command_bytes. erewrite bind_Ok by by apply lift_Ok. cbv beta.
  fold c. rewrite (pack_command_run s c) by done. by rewrite pack_pbd.
Qed.

(** The HMAC key as a C string *)
Definition c_string (b : buffer) : Prop := b <> [] /\ Forall (fun c => c <> 0) b.
Lemma strlen_c_string b : c_string b -> strlen b = zlen b.
Proof.
  intros [_ H]. induction H as [|c b Hc H IH]; [done|]. cbn [strlen]. replace (c =? 0) with false by lia.
  rewrite IH. unfold zlen. cbn [length]. lia.
Qed.

(** The message around a command, before it is stamped *)
Definition request_auth (id : Z) (hkey : buffer) : kproto_hmacauth_t := Hmacauth (Some id) (Some (pbd_of hkey)).
Definition request_msg (id : Z) (hkey : buffer) (c : kproto_cmd_t) : kproto_msg_t :=
  Message (Some KAT_HMAC) (Some (request_auth id hkey)) None (Some (pbd_of (cmd_pack c))).

Lemma message_run s id hkey c :
  mem_ok s -> c_string hkey -> c_header c <> None ->
  create_message (Kmsghdr KAT_HMAC id (Some hkey) 0 None 0) (pbd_of (cmd_pack c)) s =
    Ok (Some (request_msg id hkey c), adv 2 2 s).
Proof.
  intros Hs Hk Hc. unfold create_message. destruct (KI_MALLOC_adv s sizeof_msg Hs) as (b & E & _).
  erewrite bind_Ok by exact E. cbv beta iota zeta. cbn [kmh_atype]. rewrite Z.eqb_refl.
  destruct (KI_MALLOC_adv (adv 1 1 s) sizeof_hmacauth (adv_ok _ _ _ Hs)) as (h & E' & _).
  erewrite bind_Ok by exact E'. cbv beta iota. erewrite bind_Ok by done. cbv beta.
  rewrite strlen_c_string by done.
  pose proof (cmd_pack_nonempty c Hc) as Hne. rewrite (pbd_of_nonempty (cmd_pack c)) by done. cbn [pb_len pb_data].
  rewrite zlen_eqb0. destruct (cmd_pack c) as [|x b'] eqn:Ec; [done|]. cbn [negb andb].
  rewrite bool_decide_true by done. cbn [kmh_id]. unfold mret, ST_ret.
  unfold request_msg, request_auth. rewrite Ec, adv_adv, (pbd_of_nonempty hkey) by apply Hk. done.
Qed.

Lemma free_pbd b s : b <> [] -> free_data (pb_data (pbd_of b)) s = Ok (tt, adv 0 (-1) s).
Proof. intros H. by rewrite free_data_adv, (pbd_of_nonempty b). Qed.

(** *** What each operation makes *)
Definition kv_command (ch : kcmdhdr_t) (k : kproto_kv_t) : kproto_cmd_t :=
  Command (Some (extract_to_command_header ch)) (Some (Body (Some k) None None None None)) None.
Definition plain_command (ch : kcmdhdr_t) : kproto_cmd_t :=
  Command (Some (extract_to_command_header ch)) (Some body_init) None.
Definition batch_command (ch : kcmdhdr_t) (b : kproto_body_t) : kproto_cmd_t :=
  Command (Some (extract_to_command_header ch)) (Some b) None.

(** [makes create id hkey c]: with memory, [create] answers the message around
    [c], which owns three blocks. *)
Definition makes (create : ST mem (option kproto_msg_t)) (id : Z) (hkey : buffer) (c : kproto_cmd_t) : Prop :=
  forall s, mem_ok s -> exists k, create s = Ok (Some (request_msg id hkey c), adv k 3 s).

Section create.
Context (id : Z) (hkey : buffer) (ch : kcmdhdr_t) (Hkey : c_string hkey).
Notation mh := (Kmsghdr KAT_HMAC id (Some hkey) 0 None 0).

(** The key of a kv as the operations read it *)
Context (v : kv) (key : list kiovec) (bs : list buffer).
Definition key_ready : Prop :=
  kv_key v = Some key /\ kv_keycnt v = zlen key /\ vec_bytes key bs /\ concat bs <> [] /\
  zlen (concat bs) < 2 ^ 64.

(** [finish] runs what comes after the command bytes, from a state [adv k l s]. *)
Lemma finish_run s c k :
  mem_ok s -> c_header c <> None ->
  exists k', (if bool_decide (pb_data (pbd_of (cmd_pack c)) = None) then mret None
              else create_message mh (pbd_of (cmd_pack c))) (adv k 1 s) =
             Ok (Some (request_msg id hkey c), adv k' 3 s).
Proof.
  intros Hs Hc. pose proof (cmd_pack_nonempty c Hc). rewrite bool_decide_false by (by rewrite pbd_of_nonempty).
  rewrite message_run by done. rewrite adv_adv. eauto.
Qed.

Lemma create_put_makes f :
  key_ready -> kch_type ch = KMT_PUT ->
  let c := kv_command ch (put_body (pbd_of (concat bs)) v f) in
  cmd_wf c -> makes (create_put_message mh ch v f) id hkey c.
Proof.
  intros (Hk & Hn & Hv & Hne & Hlt) Ht c Hc s Hs. unfold create_put_message. rewrite Hk, Hn.
  rewrite (bind_Ok _ _ _ _ _ (keyname_run s key bs Hs Hv Hne Hlt)). cbv beta iota.
  erewrite bind_Ok by (eapply command_run; [done|by rewrite Ht|done]). cbv beta.
  erewrite bind_Ok by by apply free_pbd. rewrite !adv_adv.
  by apply finish_run.
Qed.

Lemma create_del_makes f :
  key_ready -> kch_type ch = KMT_DEL ->
  let c := kv_command ch (del_body (Some (pbd_of (concat bs))) v f) in
  cmd_wf c -> makes (create_delkey_message mh ch v f) id hkey c.
Proof.
  intros (Hk & Hn & Hv & Hne & Hlt) Ht c Hc s Hs. unfold create_delkey_message. rewrite Hk, Hn.
  rewrite (bind_Ok _ _ _ _ _ (keyname_run s key bs Hs Hv Hne Hlt)). cbv beta iota.
  erewrite bind_Ok by (eapply command_run; [done|by rewrite Ht|done]). cbv beta.
  cbn [mbind option_bind]. erewrite bind_Ok by by apply free_pbd. rewrite !adv_adv. by apply finish_run.
Qed.

Lemma create_get_makes :
  key_ready -> get_command (kch_type ch) = true ->
  let c := kv_command ch (get_body (pbd_of (concat bs)) v) in
  cmd_wf c -> makes (create_getkey_message mh ch v) id hkey c.
Proof.
  intros (Hk & Hn & Hv & Hne & Hlt) Ht c Hc s Hs. unfold create_getkey_message. rewrite Hk, Hn.
  rewrite (bind_Ok _ _ _ _ _ (keyname_run s key bs Hs Hv Hne Hlt)). cbv beta iota.
  assert (stitch_body (kch_type ch) (PKv (get_body (pbd_of (concat bs)) v)) =
    Ok (Body (Some (get_body (pbd_of (concat bs)) v)) None None None None)) as Hst.
  { unfold get_command, altkv_needed in Ht. apply orb_true_iff in Ht as [Ht|Ht%Z.eqb_eq]; [|by rewrite Ht].
    apply orb_true_iff in Ht as [Ht|Ht%Z.eqb_eq]; [|by rewrite Ht].
    apply orb_true_iff in Ht as [Ht%Z.eqb_eq|Ht%Z.eqb_eq]; by rewrite Ht. }
  erewrite bind_Ok by (eapply command_run; [done|exact Hst|done]). cbv beta.
  pose proof (cmd_pack_nonempty c ltac:(done)) as Hp.
  rewrite bool_decide_false by (fold c; by rewrite pbd_of_nonempty).
  erewrite bind_Ok by by apply free_pbd. rewrite !adv_adv.
  fold c. destruct (finish_run s c 2 Hs ltac:(done)) as [k' E]. exists k'. rewrite <- E.
  by rewrite bool_decide_false by (by rewrite pbd_of_nonempty).
Qed.
End create.

Lemma create_noop_makes id hkey ch :
  c_string hkey -> kch_type ch = KMT_NOOP \/ kch_type ch = KMT_FLUSH ->
  cmd_wf (plain_command ch) ->
  makes (create_noop_message (Kmsghdr KAT_HMAC id (Some hkey) 0 None 0) ch) id hkey (plain_command ch).
Proof.
  intros Hkey Ht Hc s Hs. unfold create_noop_message.
  erewrite bind_Ok by (eapply command_run; [done|apply stitch_default; tauto|done]).
  by apply finish_run.
Qed.

Definition batch_body (t n : Z) : kproto_body_t :=
  if t =? KMT_ABORTBAT then body_init else Body None None None (Some (Batchbody (Some n) [] None)) None.
Lemma create_batch_makes id hkey ch n :
  c_string hkey -> kch_type ch = KMT_STARTBAT \/ kch_type ch = KMT_ENDBAT \/ kch_type ch = KMT_ABORTBAT ->
  cmd_wf (batch_command ch (batch_body (kch_type ch) n)) ->
  makes (create_batch_message (Kmsghdr KAT_HMAC id (Some hkey) 0 None 0) ch n) id hkey
    (batch_command ch (batch_body (kch_type ch) n)).
Proof.
  intros Hkey Ht Hc s Hs. unfold create_batch_message.
  erewrite bind_Ok by (eapply command_run; [done| |exact Hc]; destruct Ht as [-> | [-> | ->]]; [done..|]; apply stitch_default; auto).
  cbv beta. destruct (finish_run id hkey Hkey s (batch_command ch (batch_body (kch_type ch) n)) 1 Hs ltac:(done)) as [k' E].
  exists k'. rewrite <- E.
  by rewrite bool_decide_false by (rewrite pbd_of_nonempty; [done|by apply cmd_pack_nonempty]).
Qed.
End message.

(** ** Sending it *)
Section send.
Context {LA : ListApi} {LL : ListLaws} {X : Type} {PG : ProtoGen} {PL : ProtoLaws} {SZ : Sizes}.

Notation opst := (@opst LA X).
Notation world := (@world LA X).
Notation op_desc := (@op_desc LA X).
Notation St w s bl ses pb := (@Opst LA X w (Heap s bl) ses pb).

Lemma on_w_run {A} (m : ST world A) w w' s bl ses pb (a : A) :
  m w = Ok (a, w') -> on_w m (St w s bl ses pb) = Ok (a, St w' s bl ses pb).
Proof. intros H. unfold on_w. cbn. by rewrite H. Qed.
Lemma on_m_run {A} (m : ST mem A) w s s' bl ses pb (a : A) :
  m s = Ok (a, s') -> on_m m (St w s bl ses pb) = Ok (a, St w s' bl ses pb).
Proof. intros H. unfold on_m, on_h, on_mem. cbn. by rewrite H. Qed.
Lemma on_h_run {A} (m : ST heap A) w s bl ses pb (a : A) :
  m (Heap s bl) = Ok (a, Heap s bl) -> on_h m (St w s bl ses pb) = Ok (a, St w s bl ses pb).
Proof. intros H. unfold on_h. cbn. by rewrite H. Qed.

(** The session [ktd] as a call finds it: connected, its send queue and its
    configuration in place. *)
Record session_ready (w : world) (ktd : Z) (sq : ptr) (l : clist) (ex : Z) (cf : ptr)
    (cfg : KtliState.ktli_config) (hkey : buffer) : Prop := {
  sr_at : exists s, session_at w ktd s /\ ks_state s = KTLI_SSTATE_CONNECTED /\ ks_sendq s = Some sq /\
    ks_config s = Some cf;
  sr_queue : queue_at w sq l ex; sr_malloc : malloc_ok w sizeof_ptr;
  sr_config : w_configs w !! cf = Some cfg;
  sr_hkey : kcfg_hkey cfg = Some hkey; sr_key : c_string hkey }.

(** The kio [p] with the request [k] at the rear of the queue, and nothing else
    changed in the transport layer *)
Definition queued (w : world) (sq : ptr) (l : clist) (ex : Z) (p : ptr) (k : kio ptr) (w' : world) : Prop :=
  exists l' k', w_queues w' = <[sq := KtliQueue (Some l') false ex]> (w_queues w) /\
    contents l' = contents l ++ [(Pos.succ p, p)] /\
    w_kios w' = <[p := k']> (w_kios w) /\ same_request k k' /\
    kio_st k' = KIO_NEW /\ kio_recvmsg k' = kio_msg0 /\ w_table w' = w_table w /\ w_configs w' = w_configs w /\
    w_live w' = w_live w /\ same_threads w w'.

(** The kio of the request of [d] around the message [m] *)
Definition request_pdu (m : kproto_msg_t) (vals : list kiovec) : kpdu :=
  Kpdu KP_MAGIC (u32 (zlen (msg_pack m))) (u32 (vec_len vals)).
Definition request_kio (d : op_desc) (tstat : bool) (start : timespec) (m : kproto_msg_t) : kio ptr :=
  set_kio_sendmsg (KioMsg (Some (wire (request_pdu m (od_vals d)) m (od_vals d))) (KM_CNT_NOVAL + zlen (od_vals d)) 0 0)
    (setup_kio d tstat start).

Lemma kio_alloc_run w s bl ses pb :
  mem_ok s ->
  kio_alloc (St w s bl ses pb) =
    Ok (Some (w_next w), St (set_kios_w (<[w_next w := kio_zero]> (w_kios w)) (set_next_w (Pos.succ (w_next w)) w))
                           (adv 1 1 s) bl ses pb).
Proof.
  intros Hs. unfold kio_alloc. destruct (KI_MALLOC_adv s sizeof_kio Hs) as (b & E & _).
  erewrite bind_Ok by (apply on_m_run; exact E). cbv beta iota. 
  erewrite bind_Ok by by apply on_w_run. erewrite bind_Ok by by apply on_w_run. done.
Qed.

(** A request owns three blocks, and gives them back. *)
Lemma destroy_request_exact id hkey c w s bl ses pb :
  c_header c <> None ->
  destroy_request (request_msg id hkey c) (St w s bl ses pb) = Ok (tt, St w (adv 0 (-3) s) bl ses pb).
Proof.
  intros Hc. unfold destroy_request. apply on_m_run. cbn [mbind]. erewrite bind_Ok by done. cbv beta.
  unfold destroy_message. rewrite add_live_adv. unfold msg_blocks. cbn [set_m_hmacauth request_msg m_hmacauth m_pinauth m_commandbytes opt_blocks bin_blocks].
  by rewrite packed_blocks.
Qed.

Lemma u32_add a b : u32 (u32 a + b) = u32 (a + b).
Proof. unfold u32. by rewrite Zplus_mod_idemp_l. Qed.
Lemma len_loop_u32 h v : len_loop u32 v (length v) 0 0 h = Ok (u32 (vec_len v), h).
Proof. exact (len_loop_run u32 h [] v 0 u32_add). Qed.

Lemma send_queued w ktd sq l ex cf cfg hkey k iov :
  let p := w_next w in
  let w1 := set_kios_w (<[p := kio_zero]> (w_kios w)) (set_next_w (Pos.succ p) w) in
  session_ready w ktd sq l ex cf cfg hkey ->
  km_msg (kio_sendmsg k) = Some iov -> km_cnt (kio_sendmsg k) <> 0 ->
  exists w', ktli_send ktd p (upd_k p k w1) = Ok (0, w') /\ queued w sq l ex p k w'.
Proof.
  intros p w1 [(s & Hat & Hst & Hsq & _) Hq Hm _ _ _] Hmsg Hcnt.
  destruct (ktli_send_run (upd_k p k w1) ktd s sq l ex p k iov) as (w' & l' & k' & E & Hl & Hqs & Hks & Ht & _ & Hst' & _ & _ & Hr);
    try done.
  { cbn. by rewrite lookup_insert_eq. }
  exists w'. split; [exact E|]. apply ktli_send_frame in E as (Hlive & Hcf & _ & Hk & Hth).
  cbn in Hk. rewrite Hks, !lookup_insert_eq in Hk. inversion Hk as [? ? Hsame|]; subst.
  exists l', k'. split_and!; try done. cbn in Hks. by rewrite Hks, !insert_insert_eq.
Qed.

(** A call from the allocation of the kio on: with memory and a connected
    session the request of [d] is queued. *)
Lemma send_request_run w s bl bl' ses pb ktd sq l ex cf cfg hkey sp ksn start d c :
  mem_ok s -> session_ready w ktd sq l ex cf cfg hkey -> ses !! sp = Some ksn ->
  (let ch := set_kch_type (od_cmd d) (ks_ch ksn) in
   let ch := match od_bid d with Some b => set_kch_bid b ch | None => ch end in
   makes (od_create d (Kmsghdr KAT_HMAC (kcfg_id cfg) (Some hkey) 0 None 0) ch) (kcfg_id cfg) hkey c) ->
  let m := request_msg (kcfg_id cfg) hkey c in
  msg_wf m -> c_header c <> None ->
  (forall w s, od_account d (kp_msglen (request_pdu m (od_vals d))) (kp_vallen (request_pdu m (od_vals d)))
                 (St w s bl ses pb) = Ok (None, St w s bl' ses pb)) ->
  let tstat := match od_kop d with Some k => KIOP_ISSET (kst_get k (ks_stats ksn)) KOPF_TSTAT | None => false end in
  exists w' n, send_request ktd (Some cf) (Some sp) start d (St w s bl ses pb) =
      Ok ((K_OK, Some (w_next w)), St w' (adv n 4 s) bl' ses pb) /\
    queued w sq l ex (w_next w) (request_kio d tstat start m) w'.
Proof.
  intros Hs [Hat Hq Hm Hcf Hhk Hc] Hses Hmk m Hmw Hhdr Hacc tstat. set (p := w_next w).
  unfold send_request. erewrite bind_Ok by by apply kio_alloc_run. cbv beta iota. fold p.
  set (w1 := set_kios_w _ _).
  erewrite bind_Ok. 2:{ unfold cfg_rd, deref_st. cbn. rewrite Hcf. reflexivity. } cbv beta iota.
  erewrite bind_Ok. 2:{ unfold ses_rd, deref_st. cbn. rewrite Hses. reflexivity. } cbv beta iota zeta.
  rewrite Hhk. destruct (Hmk (adv 1 1 s) (adv_ok _ _ _ Hs)) as [k1 E1].
  erewrite bind_Ok by (apply on_m_run; exact E1). cbv beta iota. clear E1 Hmk. fold m.
  erewrite (bind_Ok (tstat_on _ _) _ _ tstat).
  2: { unfold tstat_on, kop_rd, tstat. destruct (od_kop d); [|reflexivity].
       unfold mbind, ST_bind, ses_rd, deref_st, mret, ST_ret. cbn. by rewrite Hses. }
  cbv beta. erewrite bind_Ok.
  2: { apply on_w_run, kio_upd_run. unfold w1. cbn. apply lookup_insert_eq. }
  fold p. rewrite adv_adv.
  destruct (KI_MALLOC_adv (adv (k1 + 1) (1 + 3) s) (sizeof_kiovec * (KM_CNT_NOVAL + zlen (od_vals d)))
    (adv_ok _ _ _ Hs)) as (b1 & E1 & _).
  erewrite bind_Ok by (apply on_m_run; exact E1). cbv beta iota. rewrite adv_adv.
  destruct (KI_MALLOC_adv (adv (1 + (k1 + 1)) (1 + 3 + 1) s) KP_PLENGTH (adv_ok _ _ _ Hs)) as (b2 & E2 & _).
  erewrite bind_Ok by (apply on_m_run; exact E2). cbv beta iota. rewrite adv_adv.
  erewrite bind_Ok by (apply on_m_run, pack_message_run; [by apply adv_ok|done]). cbv beta iota.
  erewrite bind_Ok by (apply on_h_run, len_loop_u32). cbv beta.
  erewrite bind_Ok by (apply on_w_run, kio_upd_run; apply lookup_insert_eq).
  erewrite bind_Ok by apply Hacc. cbv beta iota.
  destruct (send_queued w ktd sq l ex cf cfg hkey (request_kio d tstat start m)
    (wire (request_pdu m (od_vals d)) m (od_vals d))) as (w' & E3 & Q); [done|done| |].
  { cbn. unfold KM_CNT_NOVAL. pose proof (zlen_nonneg (od_vals d)). lia. }
  erewrite bind_Ok by (apply on_w_run; rewrite upd_k_k; exact E3). cbv beta.
  cbn [Z.ltb Z.compare]. erewrite bind_Ok by by apply destroy_request_exact. rewrite !adv_adv. eauto.
Qed.
(** *** What a call describes *)

(** A kv the session accepts: [k] is the bytes of its key. *)
Definition kv_at (bl : gmap ptr ktb) (p : option ptr) (v : kv) (verck : bool) (lim : klimits) : Prop :=
  exists q b, p = Some q /\ bl !! q = Some b /\ block_wf b /\ ktb_buf b = DKv v /\
    Validate.count_ok (kv_key v) (kv_keycnt v) /\ Validate.count_ok (kv_val v) (kv_valcnt v) /\ kv_valid v verck true lim = true.

Definition call_type (c : request_call) : Z :=
  match c with
  | CallPut _ _ _ => KMT_PUT | CallDel _ _ _ => KMT_DEL | CallGet _ _ t => t
  | CallNoop => KMT_NOOP | CallFlush => KMT_FLUSH | CallBatch _ t _ => t
  end.
(** The command of a call on the kv [v] with key [k], under the header [ch] *)
Definition call_command (c : request_call) (ch : kcmdhdr_t) (v : kv) (k : buffer) : kproto_cmd_t :=
  match c with
  | CallPut _ _ verck => kv_command ch (put_body (pbd_of k) v (if verck then 0 else 1))
  | CallDel _ _ verck => kv_command ch (del_body (Some (pbd_of k)) v (if verck then 0 else 1))
  | CallGet _ _ _ => kv_command ch (get_body (pbd_of k) v)
  | _ => plain_command ch
  end.
Definition call_vals (c : request_call) (v : kv) : list kiovec :=
  match c with CallPut _ _ _ => default [] (kv_val v) | _ => [] end.
(** What a command says, field by field: the header of the session with the
    operation's type and the sequence number [seq]; the key, and the fields of
    the caller's kv the operation is about. *)
Definition carries (call : request_call) (ses : ksession) (v : kv) (k : buffer) (seq : Z) (c : kproto_cmd_t) : Prop :=
  (exists h, c_header c = Some h /\ h_messagetype h = Some (call_type call) /\ h_sequence h = Some seq /\
     h_clusterversion h = Some (kch_clustvers (ks_ch ses)) /\ h_connectionid h = Some (kch_connid (ks_ch ses))) /\
  exists b, c_body c = Some b /\ b_range b = None /\ b_getlog b = None /\ b_batch b = None /\
  match call with
  | CallPut _ _ verck => exists p, b_keyvalue b = Some p /\ kp_key p = Some (pbd_of k) /\
      kp_force p = Some (if verck then 0 else 1) /\ kp_synchronization p = Some (kv_cpolicy v) /\
      kp_tag p = Some (Pbd (kv_disumlen v) (kv_disum v)) /\ kp_algorithm p = Some (kv_ditype v) /\
      (kv_ver v <> None \/ kv_newver v <> None ->
         kp_dbversion p = Some (Pbd (kv_verlen v) (kv_ver v)) /\
         kp_newversion p = Some (Pbd (kv_newverlen v) (kv_newver v))) /\
      (kv_ver v = None -> kv_newver v = None -> kp_dbversion p = None /\ kp_newversion p = None)
  | CallDel _ _ verck => exists p, b_keyvalue b = Some p /\ kp_key p = Some (pbd_of k) /\
      kp_force p = Some (if verck then 0 else 1) /\ kp_synchronization p = Some (kv_cpolicy v) /\
      kp_dbversion p = Some (Pbd (kv_verlen v) (kv_ver v)) /\ kp_newversion p = None
  | CallGet _ _ _ => exists p, b_keyvalue b = Some p /\ kp_key p = Some (pbd_of k) /\
      kp_metadataonly p = Some (kv_metaonly v) /\ kp_dbversion p = None
  | _ => b_keyvalue b = None
  end.
Lemma call_carries call ses v k seq :
  match call with CallBatch _ _ _ => False | _ => True end ->
  let ch := set_kch_type (call_type call) (ks_ch ses) in
  carries call ses v k seq (stamp_cmd seq (call_command call ch v k) (extract_to_command_header ch)).
Proof.
  intros Hc ch. split; [by eexists|]. destruct call as [? ? verck|? ? verck|? ? ?| | |]; try done;
    (eexists; split_and!; [reflexivity..|]); try done.
  - eexists. split_and!; try reflexivity.
    + cbn. intros [H|H]; rewrite ?(bool_decide_true _ H), ?orb_true_r; done.
    + cbn. intros -> ->. done.
  - eexists. by split_and!.
  - eexists. by split_and!.
Qed.

(** What a call finds: its kvs valid, no batch *)
Definition call_ready (c : request_call) (bl : gmap ptr ktb) (lim : klimits) (v : kv) (key : list kiovec)
    (bs : list buffer) : Prop :=
  match c with
  | CallPut kbp kvp verck | CallDel kbp kvp verck => kbp = None /\ kv_at bl kvp v verck lim /\ key_ready v key bs
  | CallGet kvp altkv t =>
      get_command t = true /\ kv_at bl kvp v false lim /\ key_ready v key bs /\
      match altkv with None => altkv_needed t = false | Some _ => exists v', kv_at bl altkv v' false lim end
  | CallNoop | CallFlush => True
  | CallBatch _ _ _ => False
  end.

Lemma ktli_config_run w ktd sq l ex cf cfg hkey :
  session_ready w ktd sq l ex cf cfg hkey -> ktli_config ktd w = Ok ((0, Some cf), w).
Proof.
  intros [(s & Hs & _ & _ & Hc) _ _ _ _ _]. unfold ktli_config.
  ksteps. done.
Qed.

Lemma get_kv_at bl p v verck lim s :
  kv_at bl p v verck lim ->
  (exists q, p = Some q /\ get_kv q (Heap s bl) = Ok (v, Heap s bl)) /\
  ki_validate_kv p verck true lim (Heap s bl) = Ok (0, Heap s bl).
Proof.
  intros (q & b & -> & Hb & Hwf & Hd & Hk & Hv & Hok). split.
  - exists q. split; [done|]. by eapply get_kv_run.
  - erewrite ki_validate_kv_run by done. by rewrite Hok.
Qed.
Lemma kv_rd_at w s bl ses pb p v verck lim :
  kv_at bl p v verck lim -> kv_rd p (St w s bl ses pb) = Ok (v, St w s bl ses pb).
Proof.
  intros ((q & -> & Hg) & _)%(get_kv_at _ _ _ _ _ s). unfold kv_rd. erewrite bind_Ok by done. by apply on_h_run.
Qed.

(** The checks of a put or a delete without batch *)
Lemma checks_run k w s bl ses pb ktd sq l ex cf cfg hkey sp ksn kvp v verck :
  session_ready w ktd sq l ex cf cfg hkey -> kcfg_pconf cfg = Some sp -> ses !! sp = Some ksn ->
  kv_at bl kvp v verck (ks_l ksn) ->
  kv_request_checks k ktd kvp None verck true (St w s bl ses pb) =
    Ok (inl (Some cf, Some sp, None), St w s bl ses pb).
Proof.
  intros Hr Hp Hses Hkv. unfold kv_request_checks. cbn [negb].
  erewrite bind_Ok by (apply on_w_run; by eapply ktli_config_run). cbv beta iota. cbn [Z.ltb Z.compare].
  erewrite bind_Ok. 2:{ unfold cfg_rd, deref_st. cbn. rewrite (sr_config _ _ _ _ _ _ _ _ Hr). reflexivity. }
  cbv beta zeta. rewrite Hp.
  erewrite bind_Ok. 2:{ unfold ses_rd, deref_st. cbn. rewrite Hses. reflexivity. } cbv beta.
  erewrite bind_Ok by (apply on_h_run; exact (proj2 (get_kv_at _ _ _ _ _ _ Hkv))). cbv beta. cbn [Z.ltb Z.compare].
  erewrite bind_Ok by (apply on_h_run; reflexivity). cbv beta.
  rewrite bool_decide_false by (intros H; by apply H). done.
Qed.

Definition call_kv (c : request_call) : option ptr :=
  match c with CallPut _ kvp _ | CallDel _ kvp _ | CallGet kvp _ _ => kvp | _ => None end.
Definition call_altkv (c : request_call) : option ptr := match c with CallGet _ altkv _ => altkv | _ => None end.
(** What a kio says of the call it was made for *)
Definition made_for (call : request_call) (cctx : option ptr) (k : kio ptr) : Prop :=
  kio_magic k = KIO_MAGIC /\ kio_cmd k = call_type call /\ kio_cctx k = cctx /\
  kio_ckv k = call_kv call /\ kio_caltkv k = call_altkv call /\ kio_ckb k = None.

(** What the description of a call queues *)
Definition queues (call : request_call) (ktd : Z) (cctx : option ptr) w s bl ses pb sq l ex cfg hkey ksn v bs : Prop :=
  let ch := set_kch_type (call_type call) (ks_ch ksn) in
  let m := request_msg (kcfg_id cfg) hkey (call_command call ch v bs) in
  let vals := call_vals call v in
  exists w' n k, initiate call ktd cctx true (St w s bl ses pb) = Ok ((K_OK, Some (w_next w)), St w' (adv n 4 s) bl ses pb) /\
    queued w sq l ex (w_next w) k w' /\
    km_msg (kio_sendmsg k) = Some (wire (request_pdu m vals) m vals) /\
    km_cnt (kio_sendmsg k) = 2 + zlen vals /\ made_for call cctx k /\ KIOF_ISSET k KIOF_REQONLY = false.

Section calls.
Context (w : world) (s : mem) (bl : gmap ptr ktb) (ses : gmap ptr ksession) (pb : gmap ptr kproto_cmd_t).
Context (ktd : Z) (sq : ptr) (l : clist) (ex : Z) (cf : ptr) (cfg : KtliState.ktli_config) (hkey : buffer).
Context (sp : ptr) (ksn : ksession) (cctx : option ptr) (v : kv) (key : list kiovec) (bs : list buffer)
  (Hs : mem_ok s) (Hready : session_ready w ktd sq l ex cf cfg hkey)
  (Hsp : kcfg_pconf cfg = Some sp) (Hses : ses !! sp = Some ksn).

Notation hdr call := (set_kch_type (call_type call) (ks_ch ksn)).
Notation cmd call := (call_command call (hdr call) v (concat bs)).

Lemma ready_tick : session_ready (bump_tick_w w) ktd sq l ex cf cfg hkey.
Proof. by destruct Hready. Qed.

(** The common end: the request of the description of a call without batch *)
Lemma request_queues (d : op_desc) start call :
  od_cmd d = call_type call -> od_bid d = None -> od_vals d = call_vals call v -> od_cctx d = cctx ->
  od_kv d = call_kv call -> od_altkv d = call_altkv call -> od_kb d = None ->
  (forall a b o, od_account d a b o = Ok (None, o)) -> od_flags d = KIOF_REQRESP ->
  makes (od_create d (Kmsghdr KAT_HMAC (kcfg_id cfg) (Some hkey) 0 None 0) (hdr call)) (kcfg_id cfg) hkey (cmd call) ->
  cmd_wf (cmd call) -> msg_wf (request_msg (kcfg_id cfg) hkey (cmd call)) ->
  let m := request_msg (kcfg_id cfg) hkey (cmd call) in
  exists w' n k, send_request ktd (Some cf) (Some sp) start d (St (bump_tick_w w) s bl ses pb) =
      Ok ((K_OK, Some (w_next w)), St w' (adv n 4 s) bl ses pb) /\
    queued w sq l ex (w_next w) k w' /\
    km_msg (kio_sendmsg k) = Some (wire (request_pdu m (call_vals call v)) m (call_vals call v)) /\
    km_cnt (kio_sendmsg k) = 2 + zlen (call_vals call v) /\ made_for call cctx k /\
    KIOF_ISSET k KIOF_REQONLY = false.
Proof.
  intros Ht Hb Hv Hcx Hkv Hakv Hkb Hacc Hfl Hmk Hc Hm m.
  destruct (send_request_run (bump_tick_w w) s bl bl ses pb ktd sq l ex cf cfg hkey sp ksn start d (cmd call))
    as (w' & n & E & Q); [done|apply ready_tick|done|by rewrite Hb, Ht|done|by unfold call_command; destruct call|by intros; apply Hacc|].
  eexists w', n, _. split; [exact E|]. split; [exact Q|]. unfold request_kio, made_for. cbn. rewrite Hv, Ht, Hcx, Hkv, Hakv, Hkb.
  split_and!; try done. unfold KIOF_ISSET, setup_kio. cbn -[Z.land Z.lor]. rewrite Hfl. by destruct (od_kop d) as [o|]; [destruct (KIOP_ISSET _ _)|].
Qed.

Lemma take_vals (val : list kiovec) : Validate.count_ok (Some val) (kv_valcnt v) -> take (Z.to_nat (kv_valcnt v)) val = val.
Proof. intros ->. unfold zlen. rewrite Nat2Z.id. by apply take_ge. Qed.

Lemma put_queues kvp verck :
  let call := CallPut None kvp verck in call_ready call bl (ks_l ksn) v key bs -> cmd_wf (cmd call) -> msg_wf (request_msg (kcfg_id cfg) hkey (cmd call)) ->
  queues call ktd cctx w s bl ses pb sq l ex cfg hkey ksn v (concat bs).
Proof.
  intros call (_ & Hkv & Hkey) Hc Hm. unfold queues. cbv zeta. unfold call at 1. cbn [initiate]. unfold p_put_aio_generic.
  erewrite bind_Ok by by apply on_w_run. cbv beta.
  erewrite bind_Ok by (eapply checks_run; [apply ready_tick|done|done|exact Hkv]). cbv beta iota.
  erewrite bind_Ok by by eapply kv_rd_at. cbv beta.
  pose proof Hkv as (q & b & _ & _ & _ & _ & _ & Hcnt & Hvalid).
  destruct (kv_val v) as [val|] eqn:Hval.
  2: { unfold kv_valid in Hvalid. rewrite Hval in Hvalid. cbn in Hvalid. by rewrite !andb_false_r in Hvalid. }
  erewrite bind_Ok by done. cbv beta. rewrite take_vals by done.
  apply request_queues; [done|done|by unfold call_vals; rewrite Hval|done|done|done|done|done|done| |done|done].
  by apply (create_put_makes _ _ _ (sr_key _ _ _ _ _ _ _ _ Hready) v key bs).
Qed.

Lemma del_queues kvp verck :
  let call := CallDel None kvp verck in call_ready call bl (ks_l ksn) v key bs ->
  cmd_wf (cmd call) -> msg_wf (request_msg (kcfg_id cfg) hkey (cmd call)) ->
  queues call ktd cctx w s bl ses pb sq l ex cfg hkey ksn v (concat bs).
Proof.
  intros call (_ & Hkv & Hkey) Hc Hm. unfold queues. cbv zeta. unfold call at 1. cbn [initiate]. unfold d_del_aio_generic.
  erewrite bind_Ok by by apply on_w_run. cbv beta.
  erewrite bind_Ok by (eapply checks_run; [apply ready_tick|done|done|exact Hkv]). cbv beta iota.
  erewrite bind_Ok by by eapply kv_rd_at. cbv beta.
  apply request_queues; [done|done|done|done|done|done|done|done|done| |done|done].
  by apply (create_del_makes _ _ _ (sr_key _ _ _ _ _ _ _ _ Hready) v key bs).
Qed.

Lemma config_run : on_w (ktli_config ktd) (St (bump_tick_w w) s bl ses pb) = Ok ((0, Some cf), St (bump_tick_w w) s bl ses pb).
Proof. apply on_w_run. eapply ktli_config_run, ready_tick. Qed.
Lemma cfg_run : cfg_rd (Some cf) (St (bump_tick_w w) s bl ses pb) = Ok (cfg, St (bump_tick_w w) s bl ses pb).
Proof. unfold cfg_rd, deref_st. cbn. by rewrite (sr_config _ _ _ _ _ _ _ _ Hready). Qed.
Lemma session_run : ses_rd (Some sp) (St (bump_tick_w w) s bl ses pb) = Ok (ksn, St (bump_tick_w w) s bl ses pb).
Proof. unfold ses_rd, deref_st. cbn. by rewrite Hses. Qed.

Lemma get_queues kvp altkv t :
  let call := CallGet kvp altkv t in call_ready call bl (ks_l ksn) v key bs ->
  cmd_wf (cmd call) -> msg_wf (request_msg (kcfg_id cfg) hkey (cmd call)) ->
  queues call ktd cctx w s bl ses pb sq l ex cfg hkey ksn v (concat bs).
Proof.
  intros call (Ht & Hkv & Hkey & Halt) Hc Hm. unfold queues. cbv zeta. unfold call at 1. cbn [initiate]. unfold g_get_aio_generic.
  erewrite bind_Ok by by apply on_w_run. cbv beta. cbn [negb].
  erewrite bind_Ok by apply config_run. cbv beta iota. cbn [Z.ltb Z.compare].
  erewrite bind_Ok by apply cfg_run. cbv beta zeta. rewrite Hsp.
  erewrite bind_Ok by apply session_run. cbv beta.
  erewrite (bind_Ok (on_h _) _ _ false).
  2: { apply on_h_run. unfold get_refused. rewrite Ht. destruct (get_kv_at _ _ _ _ _ s Hkv) as [(q & Eq & _) E].
       replace (altkv_needed t && bool_decide (altkv = None)) with false
         by (destruct altkv; [by rewrite andb_comm|by rewrite Halt]).
       rewrite bool_decide_false by by rewrite Eq. cbn [negb orb]. erewrite bind_Ok by exact E. cbv beta.
       cbn [Z.ltb Z.compare]. destruct altkv as [a|]; [|done]. destruct Halt as [v' Hv'].
       by rewrite (bind_Ok _ _ _ _ _ (proj2 (get_kv_at _ _ _ _ _ s Hv'))). }
  cbv beta iota. erewrite bind_Ok by by eapply kv_rd_at. cbv beta.
  apply request_queues; [done|done|done|done|done|done|done|done|done| |done|done].
  by apply (create_get_makes _ _ _ (sr_key _ _ _ _ _ _ _ _ Hready) v key bs).
Qed.

Lemma plain_queues call k :
  (call = CallNoop /\ k = OpNoop) \/ (call = CallFlush /\ k = OpFlush) ->
  cmd_wf (cmd call) -> msg_wf (request_msg (kcfg_id cfg) hkey (cmd call)) ->
  queues call ktd cctx w s bl ses pb sq l ex cfg hkey ksn v (concat bs).
Proof.
  intros Hcall Hc Hm. unfold queues. cbv zeta.
  replace (initiate call ktd cctx true) with (plain_aio_generic k (call_type call) create_noop_message ktd cctx true : ST opst _)
    by by destruct Hcall as [[-> ->]|[-> ->]].
  unfold plain_aio_generic. erewrite bind_Ok by by apply on_w_run. cbv beta. cbn [negb].
  erewrite bind_Ok by apply config_run. cbv beta iota. cbn [Z.ltb Z.compare].
  erewrite bind_Ok by apply cfg_run. cbv beta. rewrite Hsp.
  assert (cmd call = plain_command (hdr call)) as Ec by by destruct Hcall as [[-> ->]|[-> ->]].
  apply request_queues; try done; [by destruct Hcall as [[-> ->]|[-> ->]]..|].
  cbn [od_create]. rewrite Ec. rewrite Ec in Hc. apply create_noop_makes; [|by destruct Hcall as [[-> ->]|[-> ->]]; [left|right]|done].
  exact (sr_key _ _ _ _ _ _ _ _ Hready).
Qed.

Lemma call_queues call :
  call_ready call bl (ks_l ksn) v key bs ->
  cmd_wf (cmd call) -> msg_wf (request_msg (kcfg_id cfg) hkey (cmd call)) ->
  queues call ktd cctx w s bl ses pb sq l ex cfg hkey ksn v (concat bs).
Proof.
  intros Hr. destruct call as [kbp kvp verck|kbp kvp verck|kvp altkv t| | |]; [| | | | |done].
  - pose proof (proj1 Hr). subst kbp. by apply put_queues.
  - pose proof (proj1 Hr). subst kbp. by apply del_queues.
  - by apply get_queues.
  - apply (plain_queues CallNoop OpNoop). by left.
  - apply (plain_queues CallFlush OpFlush). by right.
Qed.
End calls.

Lemma request_msg_wf id hkey c : -2 ^ 63 <= id < 2 ^ 63 -> msg_wf (request_msg id hkey c).
Proof.
  intros Hid. split_and!; [by intros v [= <-]| | |].
  - intros h [= <-]. split; [by intros v [= <-]|]. intros d [= <-]. apply pbd_of_wf.
  - by intros p [=].
  - intros d [= <-]. apply pbd_of_wf.
Qed.
Lemma request_msg_request id hkey c h :
  -2 ^ 63 <= id < 2 ^ 63 -> zlen hkey < 2 ^ 32 -> cmd_wf c -> c_header c = Some h ->
  request (request_msg id hkey c) c h (request_auth id hkey) hkey.
Proof. intros. by split; [apply request_msg_wf|..]. Qed.
Lemma request_pdu_ok m vals : pdu_ok (request_pdu m vals).
Proof.
  unfold pdu_ok, request_pdu. cbn. pose proof (u32_range (zlen (msg_pack m))). pose proof (u32_range (vec_len vals)).
  unfold KP_MAGIC. lia.
Qed.

(** C3: A put, delete, get, noop or flush that its validations accept, on a
    connected session with memory to spare, answers K_OK with a new kio at the
    rear of the send queue.  What the sender makes of that kio is what the
    caller described: stamped with any sequence number, its vectors are the
    PDU with the exact length of the message and the sum of the caller's value
    vectors, the message, and the value vectors themselves; the message
    unpacks on the drive to a command with the operation's type, the session's
    header, that sequence number, the concatenation of the caller's key vector
    and the versions, tag, algorithm, cache policy and force flag of the
    caller's kv, authenticated by the session's key.  No session, typed buffer
    or held response changes. *)
Theorem call_on_the_wire w s bl ses pb ktd sq l ex cf cfg hkey sp ksn cctx v key bs call seq digest s0 :
  mem_ok s -> session_ready w ktd sq l ex cf cfg hkey -> kcfg_pconf cfg = Some sp -> ses !! sp = Some ksn ->
  call_ready call bl (ks_l ksn) v key bs ->
  -2 ^ 63 <= kcfg_id cfg < 2 ^ 63 -> zlen hkey < 2 ^ 32 ->
  let ch := set_kch_type (call_type call) (ks_ch ksn) in
  let c := call_command call ch v (concat bs) in
  let c' := stamp_cmd seq c (extract_to_command_header ch) in
  let vals := call_vals call v in
  cmd_wf c -> 0 <= seq < 2 ^ 64 -> mem_ok s0 -> HMAC_SHA1 hkey (signed (cmd_pack c')) = Some digest ->
  let m' := stamp_msg seq digest c (extract_to_command_header ch) (Some (kcfg_id cfg)) (request_msg (kcfg_id cfg) hkey c) in
  zlen (msg_pack m') < 2 ^ 32 ->
  exists w' s' k iov s1,
    initiate call ktd cctx true (St w s bl ses pb) = Ok ((K_OK, Some (w_next w)), St w' s' bl ses pb) /\
    queued w sq l ex (w_next w) k w' /\ kio_cctx k = cctx /\
    km_msg (kio_sendmsg k) = Some iov /\
    ki_setseq iov (km_cnt (kio_sendmsg k)) seq s0 =
      Ok (wire (Kpdu KP_MAGIC (zlen (msg_pack m')) (u32 (vec_len vals))) m' vals, s1) /\
    msg_unpack (msg_pack m') = Some m' /\
    m_commandbytes m' = Some (pbd_of (cmd_pack c')) /\ cmd_unpack (cmd_pack c') = Some c' /\
    carries call ksn v (concat bs) seq c'.
Proof.
  intros Hs Hr Hsp Hses Hcall Hid Hk ch c c' vals Hc Hseq Hs0 Hd m' Hlen.
  destruct (call_queues w s bl ses pb ktd sq l ex cf cfg hkey sp ksn cctx v key bs Hs Hr Hsp Hses call Hcall Hc
    (request_msg_wf _ _ _ Hid)) as (w' & n & k & E & Q & Hmsg & Hcnt & (_ & _ & Hcx & _) & _).
  assert (c_header c = Some (extract_to_command_header ch)) as Hh by (unfold c, call_command; by destruct call).
  destruct (ki_setseq_run s0 _ c _ _ hkey digest (request_pdu (request_msg (kcfg_id cfg) hkey c) vals) vals seq Hs0
    (request_msg_request _ _ _ _ Hid Hk Hc Hh) (request_pdu_ok _ _) Hseq Hd Hlen) as (Es & Hu & Hb & Huc).
  eexists w', _, k, _, _. rewrite Hcnt. split_and!; try done.
  apply (call_carries call). by destruct call.
Qed.
End send.
