(* ===== verification/Util.v ===== *)
(** The rest of [src/util.c]: [ki_rangedup] over the heap of typed buffers and
    [ki_limits] over the sessions. *)

From stdpp Require Import gmap.
From S2P Require Import Prelude Types ListApi Session KtliState Ktli KtliSpec Pdu Keys Ktb Iter Validate.
From S2P Require Import ProtoData Proto ProtoSpec Stat Op OpFrame OpRequest.

(** [ki_rangecpy(new, kr) < 0] compares a pointer with 0 and is never true: the
    new range is returned whether or not the copy went through. *)
Definition ki_rangedup {SZ : Sizes} {KE : KtbEnv} (ktd : Z) (kr : option ptr) : ST heap (option ptr) :=
  match kr with
  | None => mret None
  | Some src =>
      new ← ki_create ktd KRANGE_T;
      match new with
      | None => mret None
      | Some d => rangecpy_at d src ;; mret (Some d)
      end
  end.

Section rangedup.
Context {SZ : Sizes} {KE : KtbEnv}.

Lemma create_range_run h ktd :
  mem_ok (h_mem h) ->
  exists p h1, ki_create ktd KRANGE_T h = Ok (Some p, h1) /\ h_blocks h !! p = None /\
    h_blocks h1 = <[p := new_block ktd KRANGE_T]> (h_blocks h) /\ mem_ok (h_mem h1).
Proof.
  intros Hm. destruct (ktb_alloc_run h ktd KRANGE_T Hm ltac:(done)) as (h1 & H1 & Hn & Hb & Hm1 & _).
  eexists _, h1. split; [|by split_and!]. unfold ki_create. by erewrite bind_Ok by exact H1.
Qed.

(** [ki_rangedup] of a range whose keys can be read answers a new typed
    buffer: a range equal to the given one in flags, counts and keys, with keys
    in memory of its own; nothing else on the heap changes.  But when the copy
    fails, the answer is not NULL: a start key that is present with count 0
    cannot be copied, and the caller gets a range without flags, end and count
    as if it were the duplicate. *)
Theorem ki_rangedup_spec h ktd src r :
  mem_ok (h_mem h) -> sees h src (DRange r) ->
  (forall s e ks, range_denotes r s e ks ->
     exists p h', ki_rangedup ktd (Some src) h = Ok (Some p, h') /\ h_blocks h !! p = None /\
       sees h' p (DRange (range_of r s e ks)) /\ range_denotes (range_of r s e ks) s e ks /\
       forall q d, sees h q d -> sees h' q d) /\
  (forall key, kr_start r = Some key -> kr_startcnt r = 0 ->
     exists p h' d, ki_rangedup ktd (Some src) h = Ok (Some p, h') /\ h_blocks h !! p = None /\
       sees h' p (DRange d) /\ kr_start d = None /\ kr_end d = None /\ kr_flags d = 0 /\ kr_count d = 0).
Proof.
  intros Hm Hr. destruct (create_range_run h ktd Hm) as (p & h1 & E1 & Hn & Hb & Hm1).
  assert (forall q d, sees h q d -> q <> p /\ sees h1 q d) as Hkeep.
  { intros q d (b & Hq & Hd). assert (q <> p) by congruence. split; [done|]. exists b. split; [|done].
    by rewrite Hb, lookup_insert_ne. }
  assert (sees h1 p (DRange krange0)) as Hp by (eexists; rewrite Hb, lookup_insert_eq; by split).
  destruct (Hkeep _ _ Hr) as [Hne Hr1]. split.
  - intros s e ks Hden.
    destruct (rangecpy_at_run h1 p src krange0 r s e ks Hp Hr1 Hden Hm1) as (h2 & E2 & Hp2 & Hden2 & _ & Hfr).
    exists p, h2. split_and!; try done.
    + cbn [ki_rangedup]. erewrite bind_Ok by exact E1. cbv beta iota. by erewrite bind_Ok by exact E2.
    + intros q d [Hq Hs]%Hkeep. by apply Hfr.
  - intros key Hk Hc.
    destruct (put_range_sees h1 p krange0 (Krange (kr_flags krange0) None 0 (kr_end krange0) (kr_endcnt krange0)
      (kr_count krange0) (kr_keys krange0) (kr_keyscnt krange0)) Hp) as (h2 & E2 & Hp2 & _).
    exists p, h2. eexists. split; [|split; [done|]; split; [exact Hp2|done]].
    cbn [ki_rangedup]. erewrite bind_Ok by exact E1. cbv beta iota. unfold rangecpy_at.
    rewrite bind_assoc. erewrite bind_Ok by by apply sees_range. cbv beta.
    rewrite bind_assoc. erewrite bind_Ok by by apply sees_range. cbv beta. rewrite bind_assoc.
    erewrite (bind_Ok (on_mem _)).
    2: { unfold on_mem, ki_rangecpy. rewrite Hk, Hc. reflexivity. }
    cbv beta. cbn [snd]. rewrite bind_assoc. erewrite bind_Ok by done. cbv beta.
    rewrite bind_assoc. destruct h1 as [m1 b1]. erewrite bind_Ok by exact E2. done.
Qed.
End rangedup.

(** ** The limits of a session *)
Definition ki_limits `{LA : ListApi} {X} (ktd : Z) : ST (@opst LA X) klimits :=
  '(rc, cf) ← on_w (ktli_config ktd);
  if rc <? 0 then mret klimits0 else
  cfg ← cfg_rd cf;
  ses ← ses_rd (kcfg_pconf cfg);
  mret (ks_l ses).

Lemma ki_limits_run {LA : ListApi} {LL : ListLaws} {X : Type} (w : @world LA X) h ses pb ktd sq l ex cf cfg hkey sp ksn :
  session_ready w ktd sq l ex cf cfg hkey -> kcfg_pconf cfg = Some sp -> ses !! sp = Some ksn ->
  ki_limits ktd (Opst w h ses pb) = Ok (ks_l ksn, Opst w h ses pb).
Proof.
  intros Hr Hp Hs. unfold ki_limits. destruct h as [s bl].
  erewrite bind_Ok by (apply on_w_run; by eapply ktli_config_run). cbv beta iota. cbn [Z.ltb Z.compare].
  erewrite bind_Ok. 2:{ unfold cfg_rd, deref_st. cbn. rewrite (sr_config _ _ _ _ _ _ _ _ Hr). reflexivity. }
  cbv beta. rewrite Hp. erewrite bind_Ok. 2:{ unfold ses_rd, deref_st. cbn. rewrite Hs. reflexivity. } done.
Qed.

#[local] Existing Instance lp64_sizes.
#[local] Existing Instance one_session.

Definition dup_range : krange := Krange KRF_ISTART (Some [Kiovec (Some [97; 98]) 2]) 1 None 0 5 None 0.
Definition dup_heap : heap := Heap (h_mem heap0) {[9%positive := set_ktb_buf (DRange dup_range) (new_block 3 KRANGE_T)]}.

Lemma ki_rangedup_spec_witness :
  exists p h', ki_rangedup 3 (Some 9%positive) dup_heap = Ok (Some p, h') /\
    sees h' p (DRange dup_range) /\ sees h' 9%positive (DRange dup_range).
Proof.
  destruct (ki_rangedup_spec dup_heap 3 9%positive dup_range heap0_mem) as [H _]; [by eexists|].
  destruct (H (Some [[97; 98]]) None None) as (p & h' & E & _ & Hs & _ & Hfr).
  - split; [|by split]. split; [done|]. split; [done|]. repeat constructor; done.
  - exists p, h'. split; [exact E|]. split; [exact Hs|]. apply Hfr. by eexists.
Defined.
