(* ===== verification/ExecSpec.v ===== *)
(** Applet execution proved: the strings the code copies and scans, the request
    an applet makes, and what [extract_exec_response] makes of the answer. *)

From stdpp Require Import gmap.
From S2P Require Import Prelude Types ListApi Session KtliState Ktli KtliSpec KtliLife Pdu Keys Ktb Validate.
From S2P Require Import ProtoData Proto ProtoSpec Stat Op OpFrame Put Del Get Noop Batch Exec OpSpec OpRequest.

(** ** Strings *)
Definition no_nul (b : buffer) : Prop := Forall (fun c => c <> 0) b.

Lemma c_string_at_spec s rest : no_nul s -> c_string_at (s ++ 0 :: rest) = Ok s.
Proof.
  induction 1 as [|c s Hc Hs IH]; [done|]. cbn [c_string_at app]. rewrite (proj2 (Z.eqb_neq c 0)) by done.
  by rewrite IH.
Qed.
Lemma c_string_at_none b : no_nul b -> c_string_at b = Ub.
Proof.
  induction 1 as [|c s Hc Hs IH]; [done|]. cbn [c_string_at]. rewrite (proj2 (Z.eqb_neq c 0)) by done. by rewrite IH.
Qed.

(** What [strncpy] leaves of a key: zeros from the first zero on *)
Fixpoint nul_filled (b : buffer) : buffer :=
  match b with
  | [] => []
  | c :: b' => if c =? 0 then replicate (length b) 0 else c :: nul_filled b'
  end.
Lemma nul_filled_length b : length (nul_filled b) = length b.
Proof.
  induction b as [|c b IH]; [done|]. cbn [nul_filled]. case_match; [by rewrite length_replicate|]. cbn. by rewrite IH.
Qed.
Lemma nul_filled_id b : no_nul b -> nul_filled b = b.
Proof. induction 1 as [|c s Hc Hs IH]; [done|]. cbn. rewrite (proj2 (Z.eqb_neq c 0)) by done. by rewrite IH. Qed.

Lemma strncpy_spec b n : (n <= length b)%nat -> strncpy b n = Ok (nul_filled (take n b)).
Proof.
  revert n. induction b as [|c b IH]; intros [|n] Hn; cbn in Hn; try lia; [done..|].
  cbn [strncpy take nul_filled]. destruct (c =? 0).
  - cbn [length]. rewrite length_take. do 2 f_equal. lia.
  - rewrite IH by lia. done.
Qed.

Lemma iov_strncpy_run v b : iov_bytes v = Ok b -> 0 <= kiov_len v -> iov_strncpy v = Ok (nul_filled b).
Proof.
  unfold iov_bytes, iov_strncpy. destruct (kiov_base v) as [base|].
  - case_match eqn:E; [|done]. intros [= <-] H. apply strncpy_spec. apply Z.leb_le in E. unfold zlen in E. lia.
  - by case_match; [intros [= <-]|].
Qed.

(** *** Numbers *)
Fixpoint decimal (fuel : nat) (v : Z) : buffer :=
  match fuel with
  | O => []
  | S fuel => if v <? 10 then [48 + v] else decimal fuel (v / 10) ++ [48 + v mod 10]
  end.
(** [%d] of [printf], for an [int]: ten digits are enough. *)
Definition print_int (v : Z) : buffer := if v <? 0 then 45 :: decimal 10 (- v) else decimal 10 v.

Lemma digit_of d : 0 <= d < 10 -> digit (48 + d) = true.
Proof. intros. unfold digit. apply andb_true_iff. split; apply Z.leb_le; lia. Qed.

Lemma scan_digits_app a b acc :
  Forall (fun c => digit c = true) a ->
  scan_digits (a ++ b) acc = scan_digits b (fold_left (fun acc c => 10 * acc + (c - 48)) a acc).
Proof. intros H. revert acc. induction H as [|c a Hc Ha IH]; intros acc; [done|]. cbn. by rewrite Hc, IH. Qed.

Lemma decimal_ok fuel v :
  0 <= v < 10 ^ Z.of_nat fuel -> (0 < fuel)%nat ->
  Forall (fun c => digit c = true) (decimal fuel v) /\ decimal fuel v <> [] /\
  fold_left (fun acc c => 10 * acc + (c - 48)) (decimal fuel v) 0 = v.
Proof.
  revert v. induction fuel as [|fuel IH]; intros v Hv Hf; [lia|]. cbn [decimal].
  destruct (Z.ltb_spec v 10).
  - split_and!; [constructor; [apply digit_of; lia|done]|done|cbn [fold_left]; lia].
  - rewrite Nat2Z.inj_succ, Z.pow_succ_r in Hv by lia.
    pose proof (Z.mod_pos_bound v 10 ltac:(lia)). pose proof (Z.div_mod v 10 ltac:(lia)).
    assert (0 <= v / 10 < 10 ^ Z.of_nat fuel) as Hq.
    { split; [apply Z.div_pos; lia|]. apply Z.div_lt_upper_bound; lia. }
    destruct (IH (v / 10) Hq) as (I1 & I2 & I3).
    { destruct fuel; [|lia]. cbn in Hq. assert (1 <= v / 10) by (apply Z.div_le_lower_bound; lia). lia. }
    split_and!.
    + apply Forall_app. split; [done|]. constructor; [by apply digit_of|done].
    + intros E. by apply app_eq_nil in E as [_ ?].
    + rewrite fold_left_app, I3. cbn [fold_left]. lia.
Qed.

Definition not_digit (rest : buffer) : Prop := match rest with c :: _ => digit c = false | [] => True end.
Lemma scan_digits_end rest acc : not_digit rest -> scan_digits rest acc = (acc, rest).
Proof. destruct rest as [|c rest]; [done|]. cbn. by intros ->. Qed.

Lemma digit_head c : digit c = true -> scan_space c = false /\ c <> 45 /\ c <> 43.
Proof. unfold digit, scan_space. intros [H1%Z.leb_le H2%Z.leb_le]%andb_true_iff. split_and!; lia. Qed.
Lemma scan_sign_digit c s : c <> 45 -> c <> 43 -> scan_sign (c :: s) = (1, c :: s).
Proof. intros H1 H2. unfold scan_sign. by rewrite (proj2 (Z.eqb_neq c 45)), (proj2 (Z.eqb_neq c 43)). Qed.

Lemma scan_decimal sg v rest :
  0 <= v < 10 ^ 10 -> - 2 ^ 31 <= sg * v < 2 ^ 31 -> not_digit rest ->
  exists c s, decimal 10 v ++ rest = c :: s /\ digit c = true /\
    (let '(u, s) := scan_digits (c :: s) 0 in
     if (- 2 ^ 31 <=? sg * u) && (sg * u <? 2 ^ 31) then Ok (Some (sg * u, s)) else Ub) = Ok (Some (sg * v, rest)).
Proof.
  intros Hv Hsg Hrest. destruct (decimal_ok 10 v Hv ltac:(lia)) as (H1 & H2 & H3).
  destruct (decimal 10 v) as [|c d] eqn:E; [done|]. exists c, (d ++ rest). split; [done|].
  split; [by inversion H1|]. change (c :: d ++ rest) with ((c :: d) ++ rest).
  rewrite scan_digits_app, H3, scan_digits_end by done.
  by replace ((- 2 ^ 31 <=? sg * v) && (sg * v <? 2 ^ 31)) with true by lia.
Qed.

(** Scanning what was printed gives the number back. *)
Lemma scan_print v rest :
  - 2 ^ 31 <= v < 2 ^ 31 -> not_digit rest -> scan_int (print_int v ++ rest) = Ok (Some (v, rest)).
Proof.
  intros Hv Hrest. unfold print_int, scan_int. destruct (Z.ltb_spec v 0).
  - destruct (scan_decimal (-1) (- v) rest ltac:(lia) ltac:(lia) Hrest) as (c & s & E & Hc & Es).
    cbn [app skip_spaces]. change (scan_space 45) with false. cbv iota. cbn [scan_sign Z.eqb Pos.eqb]. rewrite E, Hc, Es.
    do 3 f_equal. lia.
  - destruct (scan_decimal 1 v rest ltac:(lia) ltac:(lia) Hrest) as (c & s & E & Hc & Es). rewrite E.
    destruct (digit_head c Hc) as (Hs & Hm & Hp). cbn [skip_spaces]. rewrite Hs, scan_sign_digit by done.
    rewrite Hc, Es. do 3 f_equal. lia.
Qed.

Lemma print_clean v : - 2 ^ 31 <= v < 2 ^ 31 -> Forall (fun c => c <> 0 /\ c <> colon) (print_int v).
Proof.
  intros Hv. assert (forall u, 0 <= u < 10 ^ 10 -> Forall (fun c => c <> 0 /\ c <> colon) (decimal 10 u)) as H.
  { intros u Hu. destruct (decimal_ok 10 u Hu ltac:(lia)) as (H & _). eapply Forall_impl; [exact H|].
    unfold digit, colon. intros c [H1%Z.leb_le H2%Z.leb_le]%andb_true_iff. lia. }
  unfold print_int. case_match; [constructor; [done|]|]; apply H; lia.
Qed.

(** ** The request *)
Section request.
Context {PG : ProtoGen} {PL : ProtoLaws}.
Implicit Types (s : mem).

Lemma strncpy_loop_run s key bs l1 l2 done_ rest :
  key = l1 ++ l2 -> vec_bytes l2 bs -> zlen rest = zlen (concat bs) -> zlen done_ + zlen rest < 2 ^ 31 ->
  strncpy_loop key (length l2) (zlen l1) (done_ ++ rest) (zlen done_) s = Ok (done_ ++ concat (nul_filled <$> bs), s).
Proof.
  intros -> Hv. revert l1 done_ rest. induction Hv as [|v b l2 bs [Hb Hpos] Hv IH]; intros l1 done_ rest Hr Hlt.
  - cbn. destruct rest; [done|]. unfold zlen in Hr. cbn [length concat] in Hr. lia.
  - cbn [strncpy_loop length]. erewrite bind_Ok by by apply array_rd_middle.
    erewrite bind_Ok by (apply lift_Ok; by apply iov_strncpy_run).
    cbn [concat fmap list_fmap] in *. rewrite zlen_app in Hr. pose proof (iov_bytes_len v b Hb Hpos) as Hlen.
    pose proof (zlen_nonneg (concat bs)). pose proof (zlen_nonneg done_). pose proof (zlen_nonneg b).
    replace ((0 <=? zlen done_) && (zlen done_ + kiov_len v <=? zlen (done_ ++ rest))) with true by (rewrite zlen_app; lia).
    rewrite <- Hlen. assert (zlen b = zlen (nul_filled b)) as Hz by (unfold zlen; by rewrite nul_filled_length).
    rewrite i32_small by lia. rewrite Hz at 2.
    replace (Z.to_nat (zlen done_)) with (length done_) by (unfold zlen; lia).
    replace (Z.to_nat (zlen done_ + zlen b)) with (length done_ + length b)%nat by (unfold zlen; lia).
    rewrite take_app_length, <- drop_drop, drop_app_length.
    replace (zlen l1 + 1) with (zlen (l1 ++ [v])) by (rewrite zlen_app; unfold zlen; cbn; lia).
    replace (l1 ++ v :: l2) with ((l1 ++ [v]) ++ l2) by by rewrite <- app_assoc.
    rewrite app_assoc, <- (zlen_app done_ (nul_filled b)). rewrite IH.
    + by rewrite <- app_assoc.
    + unfold zlen in *. rewrite length_drop. lia.
    + rewrite zlen_app, <- Hz. assert (zlen (drop (length b) rest) = zlen rest - zlen b) as ->; [|lia].
      unfold zlen in *. rewrite length_drop. lia.
Qed.

(** [sends v b]: the key of the kv [v], whose bytes an [int] counts, is sent as [b]. *)
Definition sends (v : kv) (b : buffer) : Prop :=
  exists key bs, key_ready v key bs /\ zlen (concat bs) < 2 ^ 31 /\ b = concat (nul_filled <$> bs).

Lemma nul_filled_concat bs : zlen (concat (nul_filled <$> bs)) = zlen (concat bs).
Proof.
  induction bs as [|b bs IH]; [done|]. cbn [concat fmap list_fmap]. rewrite !zlen_app, IH. unfold zlen.
  by rewrite nul_filled_length.
Qed.

Lemma copy_key_run s v b :
  mem_ok s -> sends v b -> copy_key v s = Ok (Some (pbd_of b), adv 1 1 s) /\ b <> [].
Proof.
  intros Hs (key & bs & (Hk & Hn & Hv & Hne & _) & Hlt & ->). unfold copy_key. rewrite Hk, Hn. cbn [default].
  pose proof (nul_filled_concat bs) as Hlen. pose proof (zlen_nonneg (concat bs)).
  assert (concat (nul_filled <$> bs) <> []) as Hne'.
  { intros E. rewrite E in Hlen. destruct (concat bs); [done|]. unfold zlen in Hlen. cbn in Hlen. lia. }
  split; [|done]. replace (Z.to_nat (zlen key)) with (length key) by (unfold zlen; lia).
  rewrite (bind_Ok _ _ _ _ _ (calc_loop_run s key bs [] key 0 eq_refl Hv ltac:(lia) ltac:(lia))). rewrite Z.add_0_l.
  destruct (KI_MALLOC_adv s (zlen (concat bs)) Hs) as (kb & Ek & Hkb).
  erewrite bind_Ok by exact Ek. cbv beta iota.
  erewrite bind_Ok by (apply (strncpy_loop_run _ key bs [] key [] kb); [done|done|lia|change (zlen []) with 0; lia]).
  cbn [app]. by rewrite pbd_of_nonempty, Hlen.
Qed.

Lemma copy_keys_run s kvs bs done_ :
  mem_ok s -> Forall2 sends kvs bs ->
  copy_keys (Some <$> kvs) done_ s = Ok ((done_ ++ (pbd_of <$> bs), true), adv (length bs) (zlen bs) s).
Proof.
  intros Hs H. revert s done_ Hs. induction H as [|v b kvs bs Hb H IH]; intros s done_ Hs.
  - cbn. unfold mret, ST_ret. by rewrite app_nil_r, adv_0.
  - cbn [copy_keys fmap list_fmap]. erewrite bind_Ok by by apply copy_key_run. cbv beta iota.
    rewrite IH by by apply adv_ok. rewrite adv_adv, <- app_assoc. cbn [app fmap list_fmap length].
    rewrite zlen_cons. do 2 f_equal. f_equal; lia.
Qed.

Lemma free_keys_run s bs :
  Forall (fun b => b <> []) bs -> free_keys (pbd_of <$> bs) s = Ok (tt, adv 0 (- zlen bs) s).
Proof.
  intros H. revert s. induction H as [|b bs Hb H IH]; intros s.
  - cbn. unfold mret, ST_ret. by rewrite adv_0.
  - cbn [free_keys fmap list_fmap]. erewrite bind_Ok by by apply free_pbd. rewrite IH, adv_adv, zlen_cons.
    do 3 f_equal. lia.
Qed.

(** The command of an applet *)
Definition exec_command (ch : kcmdhdr_t) (a : kapplet) (progs : list buffer) (out : option buffer)
    (args : list buffer) : kproto_cmd_t :=
  Command (Some (extract_to_command_header ch))
    (Some (Body None None None None (Some (exec_body a (pbd_of <$> progs) (pbd_of <$> out) args)))) None.

Lemma stitch_applet a : stitch_body KMT_APPLET (PApplet a) = Ok (Body None None None None (Some a)).
Proof.
  pose proof KMT_APPLET_new as H. cbn [existsb] in H. rewrite !orb_false_iff in H.
  destruct H as (H1&H2&H3&H4&H5&H6&H7&H8&H9&H10&H11&H12&H13&H14&_).
  unfold stitch_body. cbn [existsb]. by rewrite H1, H2, H3, H4, H5, H6, H7, H8, H12, H13, Z.eqb_refl.
Qed.

Lemma sends_nonempty kvs bs : Forall2 sends kvs bs -> Forall (fun b => b <> []) bs.
Proof.
  induction 1 as [|v b kvs bs H _ IH]; constructor; [|done].
  by destruct (copy_key_run (Mem 0 (fun _ _ => Some (fun _ => 0)) 0) v b) as [_ ?]; [intros ? ?; by eexists|done|].
Qed.

(** With memory, the message of an applet with function keys is made, around
    the command that names them. *)
Lemma create_exec_makes id hkey ch a kvs bs outv outb args :
  c_string hkey -> kch_type ch = KMT_APPLET -> ka_fnkeycnt a = zlen bs -> bs <> [] -> sizeof_pbd * zlen bs < 2 ^ 31 ->
  Forall2 sends kvs bs -> option_Forall2 sends outv outb -> argv_strings a = Ok args ->
  let c := exec_command ch a bs outb args in
  cmd_wf c ->
  makes (create_exec_message (Kmsghdr KAT_HMAC id (Some hkey) 0 None 0) ch a (Some <$> kvs) outv) id hkey c.
Proof.
  intros Hkey Ht Hcnt Hne Hbig Hk Ho Ha c Hc s Hs. unfold create_exec_message. rewrite Hcnt.
  pose proof (sends_nonempty _ _ Hk) as Hbs.
  replace (zlen bs =? 0) with false by (rewrite zlen_eqb0; by destruct bs). cbn [negb andb].
  destruct (KI_MALLOC_adv s (sizeof_pbd * zlen bs) Hs) as (pk & Ek & _).
  erewrite bind_Ok. 2:{ rewrite (proj2 (Z.ltb_lt _ _) Hbig). erewrite bind_Ok by done. exact Ek. }
  cbv beta iota. rewrite bool_decide_false by done.
  erewrite bind_Ok by by (apply copy_keys_run; [by apply adv_ok|done]). cbv beta iota. cbn [app]. rewrite adv_adv.
  assert (exists n, (match outv with
                | Some k => d ← copy_key k; mret (d, bool_decide (d <> None))
                | None => mret (None, true)
                end) (adv (length bs + 1) (1 + zlen bs) s) =
            Ok ((pbd_of <$> outb, true), adv n (1 + zlen bs + (if outb then 1 else 0)) s) /\
          (forall b, outb = Some b -> b <> [])) as (n & Eo & Hob).
  { destruct Ho as [v b Hb|].
    - destruct (copy_key_run (adv (length bs + 1) (1 + zlen bs) s) v b (adv_ok _ _ _ Hs) Hb) as [E Hb'].
      eexists. split; [|by intros ? [= <-]]. erewrite bind_Ok by exact E. rewrite adv_adv. by rewrite bool_decide_true.
    - eexists. split; [|done]. by rewrite Z.add_0_r. }
  erewrite bind_Ok by exact Eo. cbv beta iota. clear Eo.
  erewrite bind_Ok.
  2: { erewrite bind_Ok by by apply lift_Ok. cbv beta. eapply command_run; [by apply adv_ok| |exact Hc].
       rewrite Ht. apply stitch_applet. }
  cbv beta. rewrite adv_adv. erewrite bind_Ok by by apply free_keys_run. cbv beta.
  erewrite bind_Ok by done. cbv beta.
  assert (exists l, (match pbd_of <$> outb with Some d => free_data (pb_data d) | None => mret tt end)
     (adv 0 (- 1) (adv 0 (- zlen bs) (adv (1 + n) (1 + zlen bs + (if outb then 1 else 0) + 1) s))) = Ok (tt, adv l 1 s)) as [j Ej].
  { eexists. destruct outb as [b|]; cbn [fmap option_fmap option_map].
    - rewrite free_pbd by by apply Hob. rewrite !adv_adv. do 3 f_equal. lia.
    - unfold mret, ST_ret. rewrite !adv_adv. do 3 f_equal. lia. }
  erewrite bind_Ok by exact Ej. by apply finish_run.
Qed.

(** When the array of program keys is refused, [cb_ex] goes through it. *)
Lemma create_exec_no_array mh ch a keys outv s s' :
  ka_fnkeycnt a <> 0 -> KI_MALLOC (sizeof_pbd * ka_fnkeycnt a) s = Ok (None, s') ->
  create_exec_message mh ch a keys outv s = Ub.
Proof.
  intros Hn Hm. unfold create_exec_message. rewrite (proj2 (Z.eqb_neq _ 0) Hn). cbn [negb andb].
  unfold assert_st. cbn [mbind ST_bind]. destruct (sizeof_pbd * ka_fnkeycnt a <? 2 ^ 31).
  - unfold mbind, ST_bind. rewrite Hm. by rewrite bool_decide_true.
  - done.
Qed.

(** Two keys that differ behind a zero byte are sent as one. *)
Lemma strncpy_merges : nul_filled [97; 0; 98] = nul_filled [97; 0; 99].
Proof. done. Qed.
End request.

(** ** The call *)
Section call.
Context {LA : ListApi} {LL : ListLaws} {X : Type} {PG : ProtoGen} {PL : ProtoLaws} {SZ : Sizes} {LG : Langs}.

Notation world := (@world LA X).
Notation St w s bl ses pb := (@Opst LA X w (Heap s bl) ses pb).

(** A function key the session accepts; its value is not looked at. *)
Definition fn_at (bl : gmap ptr ktb) (lim : klimits) (p : ptr) (v : kv) : Prop :=
  exists b, bl !! p = Some b /\ block_wf b /\ ktb_buf b = DKv v /\
    Validate.count_ok (kv_key v) (kv_keycnt v) /\ Validate.count_ok (kv_val v) (kv_valcnt v) /\
    kv_valid v false false lim = true.

(** An applet the session accepts, with the kvs behind its pointers *)
Record app_ready (bl : gmap ptr ktb) (lim : klimits) (app : option ptr) (a : kapplet) (kvs : list kv)
    (outv : option kv) : Prop := {
  ar_block : exists q b, app = Some q /\ bl !! q = Some b /\ block_wf b /\ ktb_buf b = DApplet a;
  ar_keys : exists ps, ka_fnkey a = Some (Some <$> ps) /\ ka_fnkeycnt a = zlen ps /\ ps <> [] /\
    Forall2 (fn_at bl lim) ps kvs;
  ar_type : fntype_ok (ka_fntype a) = true;
  ar_flags : Z.land (ka_flags a) (u32 (Z.lnot KAF_VALIDMASK)) = 0;
  ar_out : option_Forall2 (fun p v => kv_at bl (Some p) v false lim) (ka_outkey a) outv }.

Lemma get_applet_run h q b a : h_blocks h !! q = Some b -> ktb_buf b = DApplet a -> get_applet q h = Ok (a, h).
Proof. intros Hb Hd. unfold get_applet. erewrite bind_Ok by by apply ktb_base_run. by rewrite Hd. Qed.

Lemma fnkeys_loop_run s bl lim l1 ps kvs :
  Forall2 (fn_at bl lim) ps kvs ->
  fnkeys_loop (l1 ++ (Some <$> ps)) (length ps) (zlen l1) lim (Heap s bl) = Ok (0, Heap s bl).
Proof.
  intros H. revert l1. induction H as [|p v ps kvs (b & Hb & Hwf & Hd & Hk & Hv & Hok) H IH]; intros l1; [done|].
  cbn [fnkeys_loop length fmap list_fmap]. erewrite bind_Ok by by apply array_rd_middle.
  erewrite bind_Ok by by eapply ki_validate_kv_run. rewrite Hok. cbn [Z.ltb Z.compare].
  replace (zlen l1 + 1) with (zlen (l1 ++ [Some p])) by (rewrite zlen_app; unfold zlen; cbn; lia).
  replace (l1 ++ Some p :: (Some <$> ps)) with ((l1 ++ [Some p]) ++ (Some <$> ps)) by by rewrite <- app_assoc.
  apply IH.
Qed.

(** [ki_validate_kapplet] accepts a ready applet. *)
Lemma validate_applet_run s bl lim app a kvs outv :
  app_ready bl lim app a kvs outv -> ki_validate_kapplet app lim (Heap s bl) = Ok (0, Heap s bl).
Proof.
  intros [(q & b & -> & Hb & Hwf & Hd) (ps & Hf & Hc & Hne & Hps) Ht Hfl Ho]. unfold ki_validate_kapplet.
  erewrite bind_Ok by by eapply ki_valid_run. cbn [Z.eqb].
  erewrite bind_Ok by by eapply get_applet_run. rewrite Hf, Hc, bool_decide_false by done. cbn [orb].
  assert (1 <= zlen ps) by (destruct ps; [done|]; rewrite zlen_cons; pose proof (zlen_nonneg ps); lia).
  replace (zlen ps <? 1) with false by lia. erewrite bind_Ok by done. cbv beta.
  replace (Z.to_nat (zlen ps)) with (length ps) by (unfold zlen; lia).
  erewrite bind_Ok by exact (fnkeys_loop_run s bl lim [] ps kvs Hps). cbn [Z.ltb Z.compare].
  rewrite Ht, Hfl. cbn [negb Z.eqb]. destruct Ho as [p v Hp|]; [|done].
  destruct (get_kv_at _ _ _ _ _ s Hp) as [_ E]. by erewrite bind_Ok by exact E.
Qed.

Lemma fn_kvs_run s bl lim ps kvs :
  Forall2 (fn_at bl lim) ps kvs -> fn_kvs (Some <$> ps) (length ps) (Heap s bl) = Ok (Some <$> kvs, Heap s bl).
Proof.
  induction 1 as [|p v ps kvs (b & Hb & Hwf & Hd & _) H IH]; [done|]. cbn [fn_kvs length fmap list_fmap].
  erewrite bind_Ok by (erewrite bind_Ok by (eapply get_kv_run; [exact Hb|exact Hd]); done).
  by erewrite bind_Ok by exact IH.
Qed.
Lemma out_kv_run s bl lim o v :
  option_Forall2 (fun p v => kv_at bl (Some p) v false lim) o v -> out_kv o (Heap s bl) = Ok (v, Heap s bl).
Proof.
  intros [p k (q & b & [= <-] & Hb & _ & Hd & _)|]; [|done]. cbn [out_kv].
  by erewrite bind_Ok by (eapply get_kv_run; [exact Hb|exact Hd]).
Qed.

(** An accepted applet on a connected session is queued. *)
Lemma exec_queues w s bl ses pb ktd sq l ex cf cfg hkey sp ksn app a kvs outv bs outb args cctx :
  mem_ok s -> session_ready w ktd sq l ex cf cfg hkey -> kcfg_pconf cfg = Some sp -> ses !! sp = Some ksn ->
  app_ready bl (ks_l ksn) app a kvs outv ->
  Forall2 sends kvs bs -> option_Forall2 sends outv outb -> argv_strings a = Ok args -> sizeof_pbd * zlen bs < 2 ^ 31 ->
  let ch := set_kch_type KMT_APPLET (ks_ch ksn) in
  let c := exec_command ch a bs outb args in
  let m := request_msg (kcfg_id cfg) hkey c in
  cmd_wf c -> msg_wf m ->
  exists w' n k, e_exec_aio_generic ktd app cctx true (St w s bl ses pb) =
      Ok ((K_OK, Some (w_next w)), St w' (adv n 4 s) bl ses pb) /\
    queued w sq l ex (w_next w) k w' /\
    km_msg (kio_sendmsg k) = Some (wire (request_pdu m []) m []) /\ km_cnt (kio_sendmsg k) = 2 /\
    kio_magic k = KIO_MAGIC /\ kio_cmd k = KMT_APPLET /\ kio_cctx k = cctx /\ kio_ckapp k = app.
Proof.
  intros Hs Hready Hsp Hses Happ Hk Ho Ha Hbig ch c m Hc Hm. unfold e_exec_aio_generic.
  pose proof Happ as [(q & b & -> & Hb & Hwf & Hd) (ps & Hf & Hcnt & Hne & Hps) _ _ Hout].
  assert (session_ready (bump_tick_w w) ktd sq l ex cf cfg hkey) as Hready' by by destruct Hready.
  erewrite bind_Ok by by apply on_w_run. cbv beta. cbn [negb].
  erewrite bind_Ok by (apply on_w_run; by eapply ktli_config_run). cbv beta iota. cbn [Z.ltb Z.compare].
  erewrite bind_Ok. 2:{ unfold cfg_rd, deref_st. cbn. rewrite (sr_config _ _ _ _ _ _ _ _ Hready). reflexivity. }
  cbv beta zeta. rewrite Hsp.
  erewrite bind_Ok. 2:{ unfold ses_rd, deref_st. cbn. rewrite Hses. reflexivity. } cbv beta.
  erewrite bind_Ok by (apply on_h_run; by eapply validate_applet_run). cbv beta. cbn [Z.ltb Z.compare].
  erewrite bind_Ok. 2:{ unfold app_rd. erewrite bind_Ok by done. apply on_h_run. by eapply get_applet_run. }
  cbv beta. rewrite Hf, Hcnt. cbn [default].
  replace (Z.to_nat (zlen ps)) with (length ps) by (unfold zlen; lia).
  erewrite bind_Ok by (apply on_h_run; by eapply fn_kvs_run). cbv beta.
  erewrite bind_Ok by (apply on_h_run; by eapply out_kv_run). cbv beta.
  assert (zlen ps = zlen bs) as Hlen.
  { unfold zlen. by rewrite (Forall2_length _ _ _ Hps), (Forall2_length _ _ _ Hk). }
  edestruct (send_request_run (bump_tick_w w) s bl bl ses pb ktd sq l ex cf cfg hkey sp ksn) as (w' & n & E & Q);
    [done|exact Hready'|done| |exact Hm|done| |].
  3: { eexists w', n, _. split; [exact E|]. split; [exact Q|]. done. }
  - cbn [od_cmd od_bid od_create]. eapply create_exec_makes; try done.
    + exact (sr_key _ _ _ _ _ _ _ _ Hready).
    + by rewrite Hcnt.
    + intros ->. destruct ps; [done|]. rewrite zlen_cons in Hlen. pose proof (zlen_nonneg ps). change (zlen []) with 0 in Hlen. lia.
  - done.
Qed.

(** C12: An applet whose function keys, flags, type and output key the session
    accepts is queued with K_OK, carrying the caller's applet and context.  What
    the sender makes of it, stamped with any sequence number, is a message that
    unpacks on the drive to an EXECUTE of the applet's type with one program key
    per function key in order, each the concatenation of its key vector with
    every element cut at its first zero byte and padded with zeros, the
    arguments, and the output key with the request for its value exactly when
    the applet has one.  Nothing the caller can see changes. *)
Theorem exec_on_the_wire w s bl ses pb ktd sq l ex cf cfg hkey sp ksn app a kvs outv bs outb args cctx seq digest s0 :
  mem_ok s -> session_ready w ktd sq l ex cf cfg hkey -> kcfg_pconf cfg = Some sp -> ses !! sp = Some ksn ->
  app_ready bl (ks_l ksn) app a kvs outv ->
  Forall2 sends kvs bs -> option_Forall2 sends outv outb -> argv_strings a = Ok args -> sizeof_pbd * zlen bs < 2 ^ 31 ->
  -2 ^ 63 <= kcfg_id cfg < 2 ^ 63 -> zlen hkey < 2 ^ 32 ->
  let ch := set_kch_type KMT_APPLET (ks_ch ksn) in
  let c := exec_command ch a bs outb args in
  let c' := stamp_cmd seq c (extract_to_command_header ch) in
  cmd_wf c -> 0 <= seq < 2 ^ 64 -> mem_ok s0 -> HMAC_SHA1 hkey (signed (cmd_pack c')) = Some digest ->
  let m' := stamp_msg seq digest c (extract_to_command_header ch) (Some (kcfg_id cfg)) (request_msg (kcfg_id cfg) hkey c) in
  zlen (msg_pack m') < 2 ^ 32 ->
  exists w' s' k iov s1,
    e_exec_aio_generic ktd app cctx true (St w s bl ses pb) = Ok ((K_OK, Some (w_next w)), St w' s' bl ses pb) /\
    queued w sq l ex (w_next w) k w' /\ kio_cctx k = cctx /\ kio_ckapp k = app /\
    km_msg (kio_sendmsg k) = Some iov /\
    ki_setseq iov (km_cnt (kio_sendmsg k)) seq s0 = Ok (wire (Kpdu KP_MAGIC (zlen (msg_pack m')) 0) m' [], s1) /\
    msg_unpack (msg_pack m') = Some m' /\
    m_commandbytes m' = Some (pbd_of (cmd_pack c')) /\ cmd_unpack (cmd_pack c') = Some c' /\
    exists h, c_header c' = Some h /\ h_messagetype h = Some KMT_APPLET /\ h_sequence h = Some seq /\
      h_clusterversion h = Some (kch_clustvers (ks_ch ksn)) /\ h_connectionid h = Some (kch_connid (ks_ch ksn)) /\
    c_body c' = Some (Body None None None None (Some
      (Applet (Some CSMAT_EXECUTE) (Some (ka_fntype a)) (pbd_of <$> bs) args (Some CSMAAM_ON_COMPLETION)
         (pbd_of <$> outb) (if outb then Some 1 else None)))).
Proof.
  intros Hs Hr Hsp Hses Happ Hk Ho Ha Hbig Hid Hkey ch c c' Hc Hseq Hs0 Hd m' Hlen.
  destruct (exec_queues w s bl ses pb ktd sq l ex cf cfg hkey sp ksn app a kvs outv bs outb args cctx Hs Hr Hsp Hses
    Happ Hk Ho Ha Hbig Hc (request_msg_wf _ _ _ Hid)) as (w' & n & k & E & Q & Hmsg & Hcnt & _ & _ & Hcx & Hap).
  destruct (ki_setseq_run s0 _ c _ _ hkey digest (request_pdu (request_msg (kcfg_id cfg) hkey c) []) [] seq Hs0
    (request_msg_request _ _ _ _ Hid Hkey Hc eq_refl) (request_pdu_ok _ _) Hseq Hd Hlen) as (Es & Hu & Hb & Huc).
  eexists w', _, k, _, _. rewrite Hcnt. split_and!; try done.
  eexists. split_and!; try reflexivity. cbn. unfold exec_body. do 4 f_equal. by destruct outb.
Qed.
End call.
