(* ===== verification/OpComplete.v ===== *)
(** Completing an operation: what [ki_aio_complete] answers, gives back and
    leaves in the caller's kv, for a kio that timed out or failed and for one
    that came back with a response. *)

From stdpp Require Import gmap.
From S2P Require Import Prelude Types ListApi Session KtliState Ktli KtliSpec Pdu Keys Ktb Validate.
From S2P Require Import ProtoData Proto ProtoSpec Stat Op OpFrame Put Del Get Noop Batch Exec Aio OpSpec OpRequest.

Section complete.
Context {LA : ListApi} {LL : ListLaws} {X : Type} {PG : ProtoGen} {PL : ProtoLaws} {SZ : Sizes}.

Notation opst := (@opst LA X).
Notation world := (@world LA X).
Notation OP := (ST opst).
Notation St w s bl ses pb := (@Opst LA X w (Heap s bl) ses pb).
Implicit Types (w : world) (k : kio ptr).

(** A completed kio on the completion queue of a connected session *)
Record completed w (ktd : Z) (cq : ptr) (l : clist) (ex : Z) (i : nat) (e p : ptr) k (cf sp : ptr) : Prop := {
  cp_at : exists s, session_at w ktd s /\ ks_state s = KTLI_SSTATE_CONNECTED /\ ks_compq s = Some cq /\
    ks_config s = Some cf;
  cp_queue : queue_at w cq l ex; cp_nodup : NoDup (contents l).*1; cp_elem : contents l !! i = Some (e, p);
  cp_kio : w_kios w !! p = Some k; cp_qbp : kio_qbp k = Some e; cp_magic : kio_magic k = KIO_MAGIC;
  cp_config : exists cfg, w_configs w !! cf = Some cfg /\ kcfg_pconf cfg = Some sp }.

(** The world after the receive *)
(** The session, its configurations and what belongs to the threads stay. *)
Definition same_session w w' : Prop := w_table w' = w_table w /\ w_configs w' = w_configs w /\ same_threads w w'.
Definition taken w (cq : ptr) (l : clist) (ex : Z) (i : nat) (p : ptr) k w' : Prop :=
  exists l' k', contents l' = delete i (contents l) /\
    w_queues w' = <[cq := KtliQueue (Some l') false ex]> (w_queues w) /\
    w_kios w' = <[p := k']> (w_kios w) /\ same_response k k' /\ kio_st k' = kio_st k /\
    w_live w' = w_live w /\ same_session w w'.

Lemma receive_run w ktd cq l ex i e p k cf sp s bl ses pb sess kop :
  completed w ktd cq l ex i e p k cf sp ->
  kio_st k = KIO_RECEIVED \/ kio_st k = KIO_TIMEDOUT \/ kio_st k = KIO_FAILED ->
  exists w', receive_kio ktd sess kop p (St w s bl ses pb) = Ok (None, St w' s bl ses pb) /\
    taken w cq l ex i p k w'.
Proof.
  intros [(x & Hx & Hst & Hcq & _) Hq Hnd Hi Hk Hqbp _ _] Hk3.
  destruct (ktli_receive_run w ktd x cq l ex p k e i Hx Hst Hcq Hq Hnd Hi Hk Hqbp Hk3)
    as (w' & l' & k' & E & Hl & Hqs & Hks & Ht & _ & Hst' & Hr & _).
  exists w'. split.
  - unfold receive_kio. by erewrite bind_Ok by (apply on_w_run; exact E).
  - apply ktli_receive_frame in E as (Hlive & Hcf & _ & Hk' & Hth).
    rewrite Hks, lookup_insert_eq, Hk in Hk'. inversion Hk'; subst. by exists l', k'.
Qed.

(** *** The buffers *)
(** The request as the operations send it *)
Definition sent_request k (vals : list kiovec) : Prop :=
  exists pdu msg, km_msg (kio_sendmsg k) = Some (pdu :: msg :: vals) /\
    km_cnt (kio_sendmsg k) = 2 + zlen vals /\ is_Some (kiov_base pdu) /\ is_Some (kiov_base msg).

Lemma send_loop_rest (o : opst) l1 l2 sl :
  2 <= zlen l1 -> send_loop (l1 ++ l2) (length l2) (zlen l1) (u32 sl) o = Ok (u32 (sl + vec_len l2), o).
Proof.
  revert l1 sl. induction l2 as [|v l2 IH]; intros l1 sl Hl; cbn [send_loop length].
  - unfold vec_len. cbn. by rewrite Z.add_0_r.
  - erewrite bind_Ok by by apply array_rd_middle. replace (zlen l1 <? KM_CNT_NOVAL) with false
      by (symmetry; apply Z.ltb_ge; unfold KM_CNT_NOVAL; lia).
    erewrite bind_Ok by done. cbv beta. rewrite u32_add.
    replace (zlen l1 + 1) with (zlen (l1 ++ [v])) by (rewrite zlen_app; unfold zlen; cbn [length]; lia).
    replace (l1 ++ v :: l2) with ((l1 ++ [v]) ++ l2) by by rewrite <- app_assoc.
    rewrite IH by (rewrite zlen_app; unfold zlen in *; cbn [length]; lia).
    unfold vec_len. cbn [fmap list_fmap]. rewrite zsum_cons. do 3 f_equal. lia.
Qed.

Lemma free_run w s bl ses pb : on_m KI_FREE (St w s bl ses pb) = Ok (tt, St w (adv 0 (-1) s) bl ses pb).
Proof. done. Qed.

Lemma free_sendmsg_run k vals w s bl ses pb :
  sent_request k vals ->
  exists sl, free_sendmsg (kio_sendmsg k) (St w s bl ses pb) = Ok (sl, St w (adv 0 (-3) s) bl ses pb).
Proof.
  intros (a & b & Hm & Hc & [ba Ha] & [bb Hb]). unfold free_sendmsg. rewrite Hm, Hc.
  erewrite bind_Ok by done. cbv beta.
  replace (Z.to_nat (2 + zlen vals)) with (S (S (length vals))) by (unfold zlen; lia).
  eexists. cbn [send_loop]. rewrite ?bind_assoc.
  erewrite bind_Ok by apply array_rd_0. change (0 <? KM_CNT_NOVAL) with true. cbv iota beta. rewrite Ha, ?bind_assoc.
  erewrite bind_Ok by done. cbv beta. rewrite ?bind_assoc. erewrite bind_Ok by apply free_run. cbv beta.
  rewrite ?bind_assoc.
  erewrite bind_Ok by apply array_rd_1. change (0 + 1 <? KM_CNT_NOVAL) with true. cbv iota beta. rewrite Hb, ?bind_assoc.
  erewrite bind_Ok by done. cbv beta. rewrite ?bind_assoc. erewrite bind_Ok by apply free_run. cbv beta.
  erewrite bind_Ok by exact (send_loop_rest _ [a; b] vals _ ltac:(done)). cbv beta.
  erewrite bind_Ok by apply free_run. unfold mret, ST_ret. by rewrite !adv_adv.
Qed.

Lemma free_batch_run k w s bl ses pb :
  sent_request k [] -> free_batch_sendmsg (kio_sendmsg k) (St w s bl ses pb) = Ok (tt, St w (adv 0 (-3) s) bl ses pb).
Proof.
  intros (a & b & Hm & _ & [ba Ha] & [bb Hb]). unfold free_batch_sendmsg. rewrite Hm.
  erewrite bind_Ok by done. cbv beta. erewrite bind_Ok by apply array_rd_0. cbv beta. rewrite Ha.
  erewrite bind_Ok by done. erewrite bind_Ok by apply free_run.
  erewrite bind_Ok by apply array_rd_1. cbv beta. rewrite Hb. erewrite bind_Ok by done.
  erewrite bind_Ok by apply free_run. rewrite free_run. by rewrite !adv_adv.
Qed.

(** *** The session and the kio *)
Definition err_ks (kop : op_kind) (ksn : ksession) : ksession :=
  set_ks_stats (kst_upd kop count_err (ks_stats ksn)) ksn.
Lemma err_inc_run kop sp ksn w s bl ses pb :
  ses !! sp = Some ksn ->
  err_inc (Some sp) (Some kop) (St w s bl ses pb) = Ok (tt, St w s bl (<[sp := err_ks kop ksn]> ses) pb).
Proof. intros H. unfold err_inc, kop_upd, ses_upd. cbn. by rewrite H. Qed.
Lemma kio_free_run p w s bl ses pb :
  kio_free p (St w s bl ses pb) = Ok (tt, St (set_kios_w (delete p (w_kios w)) w) (adv 0 (-1) s) bl ses pb).
Proof. done. Qed.

Lemma kio_bad_run w ktd cq l ex i e p k cf sp s bl ses pb :
  completed w ktd cq l ex i e p k cf sp ->
  kio_bad (Some p) (St w s bl ses pb) = Ok (false, St w s bl ses pb).
Proof.
  intros [_ _ _ _ Hk _ Hm _]. unfold kio_bad. erewrite bind_Ok by by apply on_w_run, kio_rd_run.
  cbv beta. by rewrite Hm.
Qed.
Lemma config_done_run w ktd cq l ex i e p k cf sp s bl ses pb :
  completed w ktd cq l ex i e p k cf sp ->
  on_w (ktli_config ktd) (St w s bl ses pb) = Ok ((0, Some cf), St w s bl ses pb).
Proof.
  intros [(x & Hx & _ & _ & Hc) _ _ _ _ _ _ _]. apply on_w_run. unfold ktli_config. by ksteps.
Qed.
Lemma cfg_done_run w ktd cq l ex i e p k cf sp s bl ses pb :
  completed w ktd cq l ex i e p k cf sp ->
  exists cfg, cfg_rd (Some cf) (St w s bl ses pb) = Ok (cfg, St w s bl ses pb) /\ kcfg_pconf cfg = Some sp.
Proof.
  intros [_ _ _ _ _ _ _ (cfg & Hc & Hp)]. exists cfg. split; [|done]. unfold cfg_rd, deref_st. cbn. by rewrite Hc.
Qed.

(** The end of a completion that failed: the received buffers were freed. *)
Lemma finish_error_run kop p k k' vals krc (fr : OP Z) sizes lens w s bl ses pb w1 sp ksn :
  krc <> K_OK -> sent_request k vals -> same_request k k' -> ses !! sp = Some ksn ->
  (exists rl, fr (St w s bl ses pb) = Ok (rl, St w1 s bl ses pb)) ->
  finish_kio (Some sp) kop p k' krc fr sizes lens (St w s bl ses pb) =
    Ok (tt, St (set_kios_w (delete p (w_kios w1)) w1) (adv 0 (-4) s) bl (<[sp := err_ks kop ksn]> ses) pb).
Proof.
  intros Hkrc Hsent Hsame Hses [rl Hfr]. unfold finish_kio. erewrite bind_Ok by exact Hfr. cbv beta.
  assert (Hsent' : sent_request k' vals).
  { destruct Hsent as (a & b & Hm & Hc & Ha & Hb), Hsame as (_&_&_&H1&H2&_).
    exists a, b. by rewrite H1, H2. }
  destruct (free_sendmsg_run k' vals w1 s bl ses pb Hsent') as [sl Es].
  erewrite bind_Ok by exact Es. cbv beta. rewrite (proj2 (Z.eqb_neq krc K_OK)) by done.
  erewrite bind_Ok by by apply err_inc_run. rewrite kio_free_run. by rewrite adv_adv.
Qed.
(** ** Without a response *)
Definition no_response (st : kio_state) : Z := match st with KIO_TIMEDOUT => K_ETIMEDOUT | _ => K_ENOMSG end.

Lemma state_status_run kop k w s bl ses pb sp ksn :
  kio_st k = KIO_TIMEDOUT \/ kio_st k = KIO_FAILED -> ses !! sp = Some ksn ->
  state_status (Some sp) (Some kop) k (St w s bl ses pb) =
    Ok (Some (no_response (kio_st k)), St w s bl (<[sp := err_ks kop ksn]> ses) pb).
Proof.
  intros Hst Hses. unfold state_status. destruct Hst as [-> | ->];
    repeat first [rewrite bool_decide_true by done | rewrite bool_decide_false by done];
    by erewrite bind_Ok by by apply err_inc_run.
Qed.

(** The command of a kio and the statistics it is counted in *)
Definition kind_of (cmd : Z) : option op_kind :=
  if cmd =? KMT_PUT then Some OpPut else if cmd =? KMT_DEL then Some OpDel
  else if get_command cmd then Some OpGet
  else if cmd =? KMT_NOOP then Some OpNoop else if cmd =? KMT_FLUSH then Some OpFlush
  else if cmd =? KMT_APPLET then Some OpExec else None.

Definition complete_of (kop : op_kind) (ktd : Z) (kio : option ptr) : OP (Z * option ptr) :=
  match kop with
  | OpPut => p_put_aio_complete ktd kio | OpDel => d_del_aio_complete ktd kio
  | OpGet => g_get_aio_complete ktd kio | OpNoop => n_noop_aio_complete ktd kio
  | OpFlush => f_flush_aio_complete ktd kio | OpExec => e_exec_aio_complete ktd kio
  end.
Lemma dispatch_kind ktd p r w s bl ses pb k kop :
  w_kios w !! p = Some k -> kind_of (kio_cmd k) = Some kop ->
  ki_aio_complete ktd (Some p) r (St w s bl ses pb) = complete_of kop ktd (Some p) (St w s bl ses pb).
Proof.
  intros Hk Hc. pose proof KMT_APPLET_new as Hnew. unfold ki_aio_complete. erewrite bind_Ok by done. cbv beta.
  erewrite bind_Ok by by apply on_w_run, kio_rd_run. cbv beta zeta. unfold kind_of, get_command, altkv_needed in Hc.
  generalize dependent (kio_cmd k). clear -Hnew. intros cmd Hc. cbn [existsb]. rewrite !orb_false_r.
  destruct (Z.eqb_spec cmd KMT_PUT) as [E|E1]; [rewrite ?orb_true_r in Hc; by simplify_eq/=|].
  destruct (Z.eqb_spec cmd KMT_DEL) as [E|E2]; [rewrite ?orb_true_r in Hc; by simplify_eq/=|].
  destruct (Z.eqb_spec cmd KMT_GET) as [E|E3]; [rewrite ?orb_true_r in Hc; by simplify_eq/=|].
  destruct (Z.eqb_spec cmd KMT_GETNEXT) as [E|E4]; [rewrite ?orb_true_r in Hc; by simplify_eq/=|].
  destruct (Z.eqb_spec cmd KMT_GETPREV) as [E|E5]; [rewrite ?orb_true_r in Hc; by simplify_eq/=|].
  destruct (Z.eqb_spec cmd KMT_GETVERS) as [E|E6]; [rewrite ?orb_true_r in Hc; by simplify_eq/=|]. cbn [orb] in *.
  destruct (Z.eqb_spec cmd KMT_NOOP) as [E|E7]; [rewrite ?orb_true_r in Hc; by simplify_eq/=|].
  destruct (Z.eqb_spec cmd KMT_FLUSH) as [E|E8]; [rewrite ?orb_true_r in Hc; by simplify_eq/=|].
  destruct (Z.eqb_spec cmd KMT_APPLET) as [E|]; [|done]. simplify_eq/=.
  cbn [existsb] in Hnew. rewrite !orb_false_iff in Hnew.
  destruct Hnew as (_&_&_&_&_&_&_&_&->&_&_&->&->&->&_). done.
Qed.

(** What the completions share, up to the receive *)
Definition completing (kop : op_kind) (ktd : Z) (kio : option ptr) (body : option ptr -> ptr -> OP (Z * option ptr)) :
    OP (Z * option ptr) :=
  bad ← kio_bad kio;
  if bad : bool then mret (K_EINVAL, None) else
  p ← deref_st kio;
  '(rc, cf) ← on_w (ktli_config ktd);
  if rc <? 0 then mret (K_EBADSESS, None) else
  cfg ← cfg_rd cf;
  early ← receive_kio ktd (kcfg_pconf cfg) (Some kop) p;
  match early with Some krc => mret (krc, None) | None => body (kcfg_pconf cfg) p end.

Lemma completing_run w ktd cq l ex i e p k cf sp kop body s bl ses pb :
  completed w ktd cq l ex i e p k cf sp ->
  kio_st k = KIO_RECEIVED \/ kio_st k = KIO_TIMEDOUT \/ kio_st k = KIO_FAILED ->
  exists w', taken w cq l ex i p k w' /\
    completing kop ktd (Some p) body (St w s bl ses pb) = body (Some sp) p (St w' s bl ses pb).
Proof.
  intros Hc Hst. destruct (receive_run _ _ _ _ _ _ _ _ _ _ _ s bl ses pb (Some sp) (Some kop) Hc Hst) as (w' & E & T).
  destruct (cfg_done_run _ _ _ _ _ _ _ _ _ _ _ s bl ses pb Hc) as (cfg & Ecf & Hsp).
  exists w'. split; [exact T|]. unfold completing.
  erewrite bind_Ok by by eapply kio_bad_run. cbv beta iota. erewrite bind_Ok by done. cbv beta.
  erewrite bind_Ok by by eapply config_done_run. cbv beta iota. cbn [Z.ltb Z.compare].
  erewrite bind_Ok by exact Ecf. cbv beta. rewrite Hsp. by erewrite bind_Ok by exact E.
Qed.

Lemma taken_kio w cq l ex i p k w' :
  taken w cq l ex i p k w' -> exists k', w_kios w' !! p = Some k' /\ same_response k k' /\ kio_st k' = kio_st k /\
    delete p (w_kios w') = delete p (w_kios w).
Proof.
  intros (l' & k' & _ & _ & Hk & Hs & Hst & _). exists k'. rewrite Hk. rewrite lookup_insert_eq, delete_insert_eq. done.
Qed.

(** ... and from it on *)
Definition rest_of (kop : op_kind) k : OP Z :=
  match kop with
  | OpPut => match kio_ckb k with Some _ => mret K_OK | None => response_status k (fun m => extract_putkey m (kio_ckv k)) end
  | OpDel => match kio_ckb k with Some _ => mret K_OK | None => response_status k (fun m => extract_delkey m (kio_ckv k)) end
  | OpGet => response_status k (extract_get k)
  | OpExec => response_status k (extract_exec k)
  | _ => response_status k extract_code
  end.
Definition free_of (kop : op_kind) k (krc : Z) : OP Z :=
  match kop with
  | OpGet => free_get_recvmsg k krc | OpExec => free_exec_recvmsg k krc
  | OpDel => free_recvmsg (kio_recvmsg k) ;; mret 0
  | _ => free_recvmsg (kio_recvmsg k)
  end.
Definition sizes_of (kop : op_kind) := match kop with OpGet => stat_sizes_get | OpExec => stat_sizes_exec | _ => stat_sizes end.
Definition lens_of (kop : op_kind) k : OP (Z * Z) :=
  match kop with OpNoop | OpFlush | OpExec => mret (0, 0) | _ => kv_lens (kio_ckv k) end.
Definition closing (kop : op_kind) (sess : option ptr) (p : ptr) : OP (Z * option ptr) :=
  k ← on_w (kio_rd p);
  st ← state_status sess (Some kop) k;
  krc ← match st with Some krc => mret krc | None => rest_of kop k end;
  finish_kio sess kop p k krc (free_of kop k krc) (sizes_of kop) (lens_of kop k) ;;
  mret (krc, match kop with OpGet => if krc =? K_OK then kio_cctx k else None | _ => None end).
Lemma complete_of_closing kop ktd kio : complete_of kop ktd kio = completing kop ktd kio (closing kop).
Proof. by destruct kop. Qed.

(** A completion whose kio carries no response *)
Lemma closing_failed_run kop w p k' k vals s bl ses pb sp ksn :
  w_kios w !! p = Some k' -> same_response k k' -> kio_st k' = KIO_TIMEDOUT \/ kio_st k' = KIO_FAILED ->
  sent_request k vals -> kio_recvmsg k = kio_msg0 -> ses !! sp = Some ksn ->
  closing kop (Some sp) p (St w s bl ses pb) =
    Ok ((no_response (kio_st k'), None),
        St (set_kios_w (delete p (w_kios w)) w) (adv 0 (-4) s) bl (<[sp := err_ks kop (err_ks kop ksn)]> ses) pb).
Proof.
  intros Hk [Hsame Hr] Hst Hsent Hm Hses. unfold closing. erewrite bind_Ok by by apply on_w_run, kio_rd_run.
  cbv beta. erewrite bind_Ok by by apply state_status_run. cbv beta iota. rewrite bind_ret. cbv beta.
  assert (no_response (kio_st k') <> K_OK) as Hne by by destruct Hst as [-> | ->].
  erewrite bind_Ok.
  2: { eapply (finish_error_run kop p k k' vals); [done|done|done|apply lookup_insert_eq|].
       rewrite Hm in Hr. unfold free_of, free_recvmsg, free_get_recvmsg, free_exec_recvmsg. rewrite Hr. destruct kop; by eexists. }
  rewrite insert_insert_eq. unfold mret, ST_ret. do 2 f_equal. f_equal. destruct kop; try done.
  by rewrite (proj2 (Z.eqb_neq _ K_OK)).
Qed.

Lemma complete_failed_run w ktd cq l ex i e p k cf sp vals s bl ses pb ksn kop :
  completed w ktd cq l ex i e p k cf sp -> kio_st k = KIO_TIMEDOUT \/ kio_st k = KIO_FAILED ->
  sent_request k vals -> kio_recvmsg k = kio_msg0 -> ses !! sp = Some ksn ->
  exists w' l', complete_of kop ktd (Some p) (St w s bl ses pb) =
      Ok ((no_response (kio_st k), None), St w' (adv 0 (-4) s) bl (<[sp := err_ks kop (err_ks kop ksn)]> ses) pb) /\
    contents l' = delete i (contents l) /\ w_queues w' = <[cq := KtliQueue (Some l') false ex]> (w_queues w) /\
    w_kios w' = delete p (w_kios w) /\ w_live w' = w_live w.
Proof.
  intros Hc Hst Hsent Hr Hses. rewrite complete_of_closing.
  destruct (completing_run _ _ _ _ _ _ _ _ _ _ _ kop (closing kop) s bl ses pb Hc (or_intror Hst)) as (w' & T & ->).
  destruct (taken_kio _ _ _ _ _ _ _ _ T) as (k' & Hk' & Hsame & Hst' & Hdel).
  destruct T as (l' & _ & Hl & Hq & _ & _ & _ & Hlive & _).
  erewrite closing_failed_run by (try done; by rewrite Hst'). rewrite Hst'.
  eexists _, l'. split; [reflexivity|]. split_and!; done.
Qed.

(** A kio that timed out, or that KTLI failed, is completed without a
    response: [ki_aio_complete] answers K_ETIMEDOUT or K_ENOMSG and no
    context, takes the kio off the completion queue, gives back exactly the
    four blocks the request owned, leaves every typed buffer and held response
    as it was, and counts the failure, twice, in the statistics of the
    operation's kind. *)
Theorem complete_without_response w ktd cq l ex i e p k cf sp vals s bl ses pb ksn r kop :
  completed w ktd cq l ex i e p k cf sp -> kio_st k = KIO_TIMEDOUT \/ kio_st k = KIO_FAILED ->
  sent_request k vals -> kio_recvmsg k = kio_msg0 -> ses !! sp = Some ksn -> kind_of (kio_cmd k) = Some kop ->
  exists w' l', ki_aio_complete ktd (Some p) r (St w s bl ses pb) =
      Ok ((no_response (kio_st k), None), St w' (adv 0 (-4) s) bl (<[sp := err_ks kop (err_ks kop ksn)]> ses) pb) /\
    contents l' = delete i (contents l) /\ w_queues w' = <[cq := KtliQueue (Some l') false ex]> (w_queues w) /\
    w_kios w' = delete p (w_kios w) /\ w_live w' = w_live w.
Proof.
  intros Hc Hst Hsent Hr Hses Hkind. rewrite (dispatch_kind _ _ _ _ _ _ _ _ k kop) by (done || by apply Hc).
  by eapply complete_failed_run.
Qed.

(** ** With a response *)
Definition stats_only (a b : ksession) : Prop :=
  ks_bid b = ks_bid a /\ ks_bats b = ks_bats a /\ ks_l b = ks_l a /\ ks_ch b = ks_ch a.
(** Worlds that agree on what an operation can see *)
Definition same_kernel w w' : Prop :=
  w_queues w' = w_queues w /\ w_kios w' = w_kios w /\ w_live w' = w_live w /\ same_session w w'.

Lemma kop_upd_run kop f sp ksn w s bl ses pb :
  ses !! sp = Some ksn ->
  kop_upd (Some sp) (Some kop) f (St w s bl ses pb) =
    Ok (tt, St w s bl (<[sp := set_ks_stats (kst_upd kop f (ks_stats ksn)) ksn]> ses) pb).
Proof. intros H. unfold kop_upd, ses_upd. cbn. by rewrite H. Qed.
Lemma kop_rd_run kop sp ksn w s bl ses pb :
  ses !! sp = Some ksn -> kop_rd (Some sp) kop (St w s bl ses pb) = Ok (kst_get kop (ks_stats ksn), St w s bl ses pb).
Proof. intros H. unfold kop_rd, mbind, ST_bind, ses_rd, deref_st. cbn. by rewrite H. Qed.

Lemma record_ok_run kop p k sizes sl rl kl vl w s bl ses pb sp ksn :
  ses !! sp = Some ksn -> w_kios w !! p = Some k ->
  exists w' ksn', record_ok (Some sp) kop p sizes sl rl kl vl (St w s bl ses pb) =
      Ok (tt, St w' s bl (<[sp := ksn']> ses) pb) /\ same_kernel w w' /\ stats_only ksn ksn'.
Proof.
  intros Hses Hk. unfold record_ok. erewrite bind_Ok by by apply kop_upd_run. cbv beta.
  erewrite bind_Ok by (apply kop_rd_run, lookup_insert_eq). cbv beta. case_match; [|by eexists w, _].
  erewrite bind_Ok by by apply on_w_run. cbv beta.
  erewrite bind_Ok by (apply on_w_run, kio_rd_run; exact Hk). cbv beta zeta.
  destruct (s_stats_addts _ _) as [[? kop'] ?]. erewrite kop_upd_run by apply lookup_insert_eq.
  rewrite insert_insert_eq. by eexists _, _.
Qed.

Lemma len_loop_total (wrap : Z -> Z) h l n i len :
  0 <= i -> i + Z.of_nat n <= zlen l -> exists r, len_loop wrap l n i len h = Ok (r, h).
Proof.
  revert i len. induction n as [|n IH]; intros i len Hi Hn; cbn [len_loop]; [by eexists|].
  destruct (array_read_ok l i ltac:(lia)) as (x & Hx & _).
  erewrite bind_Ok by (unfold array_rd; by rewrite Hx). apply IH; lia.
Qed.

(** The vectors of a kv can be read up to their counts. *)
Definition kv_readable (v : kv) : Prop :=
  (exists key, kv_key v = Some key /\ kv_keycnt v <= zlen key) /\
  (1 <= kv_valcnt v -> exists val, kv_val v = Some val /\ kv_valcnt v <= zlen val).

Lemma kv_lens_run p q b v w s bl ses pb :
  p = Some q -> bl !! q = Some b -> ktb_buf b = DKv v -> kv_readable v ->
  exists r, kv_lens p (St w s bl ses pb) = Ok (r, St w s bl ses pb).
Proof.
  intros -> Hb Hd [(key & Hk & Hkc) Hv]. unfold kv_lens.
  erewrite bind_Ok.
  2: { unfold kv_rd. erewrite bind_Ok by done. apply on_h_run. by eapply get_kv_run. }
  cbv beta. rewrite Hk. erewrite bind_Ok by done. cbv beta.
  assert (forall l n, n <= zlen l -> exists r, on_h (len_loop u32 l (Z.to_nat n) 0 0) (St w s bl ses pb) = Ok (r, St w s bl ses pb)) as Hl.
  { intros l n Hn. destruct (len_loop_total u32 (Heap s bl) l (Z.to_nat n) 0 0) as [r Hr]; [lia| |].
    - pose proof (zlen_nonneg l). lia.
    - exists r. by apply on_h_run. }
  destruct (Hl key _ Hkc) as [kl Hkl]. erewrite bind_Ok by exact Hkl. cbv beta.
  destruct (kv_valcnt v <? 1) eqn:E.
  - rewrite bind_ret. by eexists.
  - destruct (Hv ltac:(lia)) as (val & Hval & Hvc). rewrite Hval. destruct (Hl val _ Hvc) as [vl Hvl].
    erewrite bind_Ok. 2:{ erewrite bind_Ok by done. exact Hvl. } by eexists.
Qed.

(** The end of a completion that succeeded *)
Lemma finish_ok_run kop p k' vals (fr : OP Z) sizes lens w s bl ses pb w1 sp ksn :
  sent_request k' vals -> ses !! sp = Some ksn -> w_kios w1 !! p = Some k' ->
  (exists rl, fr (St w s bl ses pb) = Ok (rl, St w1 s bl ses pb)) ->
  (forall w s, exists r, lens (St w s bl ses pb) = Ok (r, St w s bl ses pb)) ->
  exists w2 ksn', finish_kio (Some sp) kop p k' K_OK fr sizes lens (St w s bl ses pb) =
      Ok (tt, St (set_kios_w (delete p (w_kios w2)) w2) (adv 0 (-4) s) bl (<[sp := ksn']> ses) pb) /\
    same_kernel w1 w2 /\ stats_only ksn ksn'.
Proof.
  intros Hsent Hses Hk [rl Hfr] Hlens. unfold finish_kio. erewrite bind_Ok by exact Hfr. cbv beta.
  destruct (free_sendmsg_run k' vals w1 s bl ses pb Hsent) as [sl Es]. erewrite bind_Ok by exact Es. cbv beta.
  rewrite Z.eqb_refl. destruct (Hlens w1 (adv 0 (-3) s)) as [[kl vl] Hl]. rewrite bind_assoc.
  erewrite bind_Ok by exact Hl. cbv beta iota.
  destruct (record_ok_run kop p k' sizes sl rl kl vl w1 (adv 0 (-3) s) bl ses pb sp ksn Hses Hk)
    as (w2 & ksn' & Er & Hw & Hks).
  exists w2, ksn'. erewrite bind_Ok by exact Er. cbv beta. rewrite kio_free_run. by rewrite adv_adv.
Qed.

(** A completion that got a response: [rest_of] answered [krc] and the received
    buffers were freed. *)
Lemma closing_received_run kop w w1 p k' vals krc s s1 bl bl1 ses pb pb1 sp ksn :
  w_kios w !! p = Some k' -> kio_st k' = KIO_RECEIVED -> sent_request k' vals -> ses !! sp = Some ksn ->
  rest_of kop k' (St w s bl ses pb) = Ok (krc, St w s1 bl1 ses pb1) ->
  (exists rl, free_of kop k' krc (St w s1 bl1 ses pb1) = Ok (rl, St w1 s1 bl1 ses pb1)) ->
  w_kios w1 = w_kios w ->
  (krc = K_OK -> kop = OpNoop \/ kop = OpFlush \/ kop = OpExec \/
     exists q b v, kio_ckv k' = Some q /\ bl1 !! q = Some b /\ ktb_buf b = DKv v /\ kv_readable v) ->
  exists w2 ksn', closing kop (Some sp) p (St w s bl ses pb) =
      Ok ((krc, match kop with OpGet => if krc =? K_OK then kio_cctx k' else None | _ => None end),
          St (set_kios_w (delete p (w_kios w2)) w2) (adv 0 (-4) s1) bl1 (<[sp := ksn']> ses) pb1) /\
    same_kernel w1 w2 /\ stats_only ksn ksn'.
Proof.
  intros Hk Hst Hsent Hses Hrest Hfree Hw1 Hlens. unfold closing.
  erewrite bind_Ok by by apply on_w_run, kio_rd_run. cbv beta.
  erewrite bind_Ok.
  2: { unfold state_status. rewrite Hst. do 2 rewrite bool_decide_false by done. reflexivity. }
  cbv beta iota. erewrite bind_Ok by exact Hrest. cbv beta.
  destruct (decide (krc = K_OK)) as [->|Hne].
  2: { eexists w1, _. split; [|split; [done|]].
       - erewrite bind_Ok by by eapply (finish_error_run kop p k' k' vals). done.
       - done. }
  destruct (finish_ok_run kop p k' vals (free_of kop k' K_OK) (sizes_of kop) (lens_of kop k') w s1 bl1 ses pb1 w1 sp ksn) as (w2 & ksn' & E & Hw & Hks); [done|done|by rewrite Hw1|done| |].
  { intros w0 s0. destruct (Hlens eq_refl) as [-> |[-> |[-> |(q & b & v & Hq & Hb & Hd & Hv)]]]; [by eexists..|].
    destruct (kv_lens_run (kio_ckv k') q b v w0 s0 bl1 ses pb1 Hq Hb Hd Hv) as [r Er].
    destruct kop; by eexists. }
  exists w2, ksn'. by erewrite bind_Ok by exact E.
Qed.

(** The response [rc] in the message [rm], with the value [val], as the
    receiver hands it over: the PDU announces both lengths. *)
Record response k (rm : kproto_msg_t) (rc : kproto_cmd_t) (val : kiovec) : Prop := {
  rs_vec : exists pdu, km_msg (kio_recvmsg k) =
      Some [Kiovec (Some (PACK_PDU pdu)) KP_PLENGTH; Kiovec (Some (msg_pack rm)) (zlen (msg_pack rm)); val] /\
    pdu_ok pdu /\ kp_msglen pdu = zlen (msg_pack rm) /\ kp_vallen pdu = kiov_len val;
  rs_cnt : km_cnt (kio_recvmsg k) = 3; rs_msg : msg_wf rm;
  rs_bytes : m_commandbytes rm = Some (pbd_of (cmd_pack rc)); rs_cmd : cmd_wf rc }.

Lemma array_rd_2 {S A} (x y z : A) l (st : S) : array_rd (x :: y :: z :: l) 2 st = Ok (z, st).
Proof. exact (array_rd_middle [x; y] l z st 2 eq_refl). Qed.

Lemma decode_run k rm rc val w s bl ses pb :
  mem_ok s -> response k rm rc val ->
  decode_response k (St w s bl ses pb) = Ok (Some rm, St w (adv 1 (msg_blocks rm) s) bl ses pb).
Proof.
  intros Hs [(pdu & Hv & Hp & Hm & Hl) _ Hwf _ _]. unfold decode_response. rewrite Hv.
  change (Z.of_nat KIOV_PDU) with 0. change (Z.of_nat KIOV_MSG) with 1. change (Z.of_nat KIOV_VAL) with 2.
  erewrite bind_Ok by done. cbv beta. erewrite bind_Ok by apply array_rd_0. cbv beta. cbn [kiov_len kiov_base].
  rewrite Z.eqb_refl. cbn [negb]. erewrite bind_Ok by done. cbv beta.
  erewrite bind_Ok by (apply lift_Ok; rewrite <- (app_nil_r (PACK_PDU pdu)); by apply unpack_packed). cbv beta.
  erewrite bind_Ok by apply array_rd_1. cbv beta. erewrite bind_Ok by apply array_rd_2. cbv beta.
  cbn [kiov_len kiov_base]. rewrite Hm, Hl, !Z.eqb_refl. cbn [negb orb].
  apply on_m_run, unpack_message_run; [done|done|apply iov_bytes_full].
Qed.

(** [response_status] around an extraction that runs *)
Lemma response_status_run k rm rc val ext krc w s n l bl bl' ses pb pb' :
  mem_ok s -> response k rm rc val ->
  (forall s', mem_ok s' -> ext rm (St w s' bl ses pb) = Ok (krc, St w (adv n l s') bl' ses pb')) ->
  exists n', response_status k ext (St w s bl ses pb) = Ok (krc, St w (adv n' l s) bl' ses pb').
Proof.
  intros Hs Hr Hext. unfold response_status. erewrite bind_Ok by by eapply decode_run. cbv beta iota.
  erewrite bind_Ok by (apply Hext; by apply adv_ok). cbv beta.
  erewrite bind_Ok by by apply on_m_run. unfold mret, ST_ret.
  exists (n + 1)%nat. do 4 f_equal. unfold adv. cbn. f_equal; lia.
Qed.

(** *** The status alone *)
Lemma extract_code_run rm rc w s bl ses pb :
  mem_ok s -> m_commandbytes rm = Some (pbd_of (cmd_pack rc)) -> cmd_wf rc ->
  extract_code rm (St w s bl ses pb) = Ok (extract_cmdstatus_code (Some rc), St w (adv 1 0 s) bl ses pb).
Proof.
  intros Hs Hb Hc. unfold extract_code. apply on_m_run. unfold extract_status. rewrite Hb.
  erewrite bind_Ok by (eapply unpack_command_run; [done|done|apply pbd_of_bytes]). cbv beta iota zeta.
  unfold destroy_command. erewrite bind_Ok by apply add_live_adv. rewrite adv_adv. unfold mret, ST_ret.
  by rewrite Z.add_opp_diag_r.
Qed.

(** *** The fields of the caller's kv *)
Definition set_kv_vecs (key : option (list kiovec)) (keycnt : Z) (val : option (list kiovec)) (v : kv) : kv :=
  Kv key keycnt val (kv_valcnt v) (kv_ver v) (kv_verlen v) (kv_newver v) (kv_newverlen v)
    (kv_disum v) (kv_disumlen v) (kv_ditype v) (kv_cpolicy v) (kv_metaonly v).
(** A put or a delete takes over every field the response has. *)
Definition filled (resp : kproto_kv_t) (v : kv) : kv :=
  let v := match kp_key resp, kv_key v with
           | Some d, Some (_ :: key) => set_kv_vecs (Some (Kiovec (pb_data d) (pb_len d) :: key)) 1 (kv_val v) v
           | _, _ => v
           end in
  opt_set set_kv_ditype (kp_algorithm resp)
    (opt_set set_kv_disum (kp_tag resp) (opt_set set_kv_ver (kp_dbversion resp) v)).
Definition kv_answer (rc : kproto_cmd_t) (fill : kproto_kv_t -> kv -> kv) (v : kv) : Z * kv :=
  let code := extract_cmdstatus_code (Some rc) in
  if code =? K_OK then
    match c_body rc ≫= b_keyvalue with Some resp => (K_OK, fill resp v) | None => (K_EINTERNAL, v) end
  else (code, v).

(** The kv block [q] of the caller holding [v] *)
Definition kv_block (bl : gmap ptr ktb) (q : ptr) (b : ktb) (v : kv) : Prop := bl !! q = Some b /\ ktb_buf b = DKv v.
Definition put_kv (bl : gmap ptr ktb) (q : ptr) (b : ktb) (v : kv) : gmap ptr ktb := <[q := set_ktb_buf (DKv v) b]> bl.

Lemma kv_rd_run bl q b v w s ses pb :
  kv_block bl q b v -> kv_rd (Some q) (St w s bl ses pb) = Ok (v, St w s bl ses pb).
Proof. intros [Hb Hd]. unfold kv_rd. erewrite bind_Ok by done. apply on_h_run. by eapply get_kv_run. Qed.
Lemma kv_wr_run bl q b v v' w s ses pb :
  kv_block bl q b v -> kv_wr (Some q) v' (St w s bl ses pb) = Ok (tt, St w s (put_kv bl q b v') ses pb).
Proof.
  intros [Hb Hd]. unfold kv_wr. erewrite bind_Ok by done. cbv beta. unfold on_h. cbn [o_heap].
  erewrite bind_Ok by (by apply ktb_base_run). cbv beta. by rewrite Hd.
Qed.

Lemma put_kv_same bl q b v : kv_block bl q b v -> put_kv bl q b v = bl.
Proof.
  intros [Hb Hd]. unfold put_kv. apply insert_id. rewrite Hb. f_equal. destruct b. cbn in Hd. by subst.
Qed.
Lemma kv_block_put bl q b v : kv_block (put_kv bl q b v) q (set_ktb_buf (DKv v) b) v.
Proof. unfold kv_block, put_kv. by rewrite lookup_insert_eq. Qed.

Lemma hang_run q rc w s bl ses pb b v :
  kv_block bl q b v -> hang_response (Some q) rc (St w s bl ses pb) = Ok (tt, St w s bl ses (<[q := rc]> pb)).
Proof. intros H. unfold hang_response. erewrite bind_Ok by by eapply kv_rd_run. by erewrite bind_Ok by done. Qed.

Lemma fill_run resp q b v w s bl ses pb :
  kv_block bl q b v -> (kp_key resp <> None -> exists hd key, kv_key v = Some (hd :: key)) ->
  fill_kv resp (Some q) (St w s bl ses pb) = Ok (tt, St w s (put_kv bl q b (filled resp v)) ses pb).
Proof.
  intros Hb Hkey. unfold fill_kv. erewrite bind_Ok by by eapply kv_rd_run. cbv beta.
  erewrite bind_Ok.
  2: { instantiate (1 := St w s bl ses pb).
       instantiate (1 := match kp_key resp, kv_key v with
         | Some d, Some (_ :: key) => set_kv_vecs (Some (Kiovec (pb_data d) (pb_len d) :: key)) 1 (kv_val v) v
         | _, _ => v end).
       destruct (kp_key resp) as [d|]; [|done]. destruct (Hkey ltac:(done)) as (hd & key & Hk). unfold set_kv_key0.
       rewrite Hk. erewrite bind_Ok by done. cbv beta. by erewrite bind_Ok by apply array_wr_0. }
  cbv beta zeta. by erewrite kv_wr_run.
Qed.

Lemma extract_response_run rm rc q b v (err : kproto_cmd_t -> OP unit) e w s bl ses pb :
  mem_ok s -> m_commandbytes rm = Some (pbd_of (cmd_pack rc)) -> cmd_wf rc -> kv_block bl q b v ->
  (forall s, err rc (St w s bl ses (<[q := rc]> pb)) = Ok (tt, St w (adv 0 (- e) s) bl ses (<[q := rc]> pb))) ->
  extract_response rm (Some q) err (St w s bl ses pb) =
    Ok (if extract_cmdstatus_code (Some rc) =? K_OK
        then match c_body rc ≫= b_keyvalue with Some resp => inl resp | None => inr K_EINTERNAL end
        else inr (extract_cmdstatus_code (Some rc)),
        St w (adv 1 (if (extract_cmdstatus_code (Some rc) =? K_OK) && bool_decide (c_body rc ≫= b_keyvalue <> None)
                     then cmd_blocks rc else cmd_blocks rc - e) s) bl ses (<[q := rc]> pb)).
Proof.
  intros Hs Hb Hc Hkv Herr. unfold extract_response. rewrite Hb.
  erewrite bind_Ok by (apply on_m_run; eapply unpack_command_run; [done|done|apply pbd_of_bytes]). cbv beta iota.
  erewrite bind_Ok by by eapply hang_run. cbv beta zeta.
  destruct (extract_cmdstatus_code (Some rc) =? K_OK); cbn [negb andb].
  - destruct (c_body rc ≫= b_keyvalue) as [resp|].
    + by rewrite bool_decide_true by done.
    + rewrite bool_decide_false by (intros H; by apply H). erewrite bind_Ok by apply Herr. rewrite adv_adv. done.
  - erewrite bind_Ok by apply Herr. rewrite adv_adv. done.
Qed.

(** What [extract_putkey] and [extract_delkey] make of a response *)
Lemma extract_fill_run rm rc q b v (err : kproto_cmd_t -> OP unit) e w s bl ses pb :
  mem_ok s -> m_commandbytes rm = Some (pbd_of (cmd_pack rc)) -> cmd_wf rc -> kv_block bl q b v ->
  (exists hd key, kv_key v = Some (hd :: key)) ->
  (forall s, err rc (St w s bl ses (<[q := rc]> pb)) = Ok (tt, St w (adv 0 (- e) s) bl ses (<[q := rc]> pb))) ->
  let a := kv_answer rc filled v in
  (r ← extract_response rm (Some q) err;
   match r with inr krc => mret krc | inl resp => fill_kv resp (Some q) ;; mret K_OK end) (St w s bl ses pb) =
    Ok (a.1, St w (adv 1 (if a.1 =? K_OK then cmd_blocks rc else cmd_blocks rc - e) s)
               (put_kv bl q b a.2) ses (<[q := rc]> pb)).
Proof.
  intros Hs Hb Hc Hkv Hkey Herr a. erewrite bind_Ok by by eapply extract_response_run. cbv beta. unfold a, kv_answer.
  destruct (extract_cmdstatus_code (Some rc) =? K_OK) eqn:E; cbn [andb fst snd].
  - destruct (c_body rc ≫= b_keyvalue) as [resp|]; cbn [fst snd].
    + rewrite bool_decide_true by done. by erewrite bind_Ok by by eapply fill_run.
    + rewrite bool_decide_false by (intros H; by apply H). by rewrite put_kv_same.
  - rewrite E. by rewrite put_kv_same.
Qed.

(** *** The received buffers, KTLI's memory *)
Definition vec_block (v : kiovec) : Z := match kiov_base v with Some _ => 1 | None => 0 end.
Definition drop_live (n : Z) w : world := set_live_w (w_live w - n) w.

Lemma drop_drop a b w : drop_live a (drop_live b w) = drop_live (b + a) w.
Proof. unfold drop_live, set_live_w. cbn. f_equal. lia. Qed.
Lemma free_base_run v w s bl ses pb :
  free_base v (St w s bl ses pb) = Ok (tt, St (drop_live (vec_block v) w) s bl ses pb).
Proof.
  unfold free_base, vec_block. destruct (kiov_base v); [by apply on_w_run|].
  unfold mret, ST_ret, drop_live, set_live_w. rewrite Z.sub_0_r. by destruct w.
Qed.
Lemma free_buf_run w s bl ses pb : on_w free_buf (St w s bl ses pb) = Ok (tt, St (drop_live 1 w) s bl ses pb).
Proof. done. Qed.

Lemma free_recvmsg_run k rm rc val w s bl ses pb :
  response k rm rc val ->
  exists rl, free_recvmsg (kio_recvmsg k) (St w s bl ses pb) = Ok (rl, St (drop_live (3 + vec_block val) w) s bl ses pb).
Proof.
  intros [(pdu & Hv & _) Hc _ _ _]. unfold free_recvmsg. rewrite Hv, Hc. change (Z.to_nat 3) with 3%nat.
  eexists. cbn [recv_loop]. rewrite ?bind_assoc.
  erewrite bind_Ok by apply array_rd_0. cbv beta. rewrite ?bind_assoc. erewrite bind_Ok by apply free_base_run. cbv beta.
  rewrite ?bind_assoc. erewrite bind_Ok by apply array_rd_1. cbv beta. rewrite ?bind_assoc.
  erewrite bind_Ok by apply free_base_run. cbv beta. rewrite ?bind_assoc. erewrite bind_Ok by apply array_rd_2. cbv beta.
  rewrite ?bind_assoc. erewrite bind_Ok by apply free_base_run. cbv beta. rewrite bind_ret. cbv beta.
  erewrite bind_Ok by apply free_buf_run. unfold mret, ST_ret. rewrite !drop_drop. unfold vec_block at 1 2. cbn [kiov_base].
  do 3 f_equal. f_equal. lia.
Qed.

(** *** Put, delete, noop and flush *)
Definition fills (kop : op_kind) : bool := match kop with OpPut | OpDel => true | _ => false end.
(** The caller's kv [v] at [q], for the operations that look at one *)
Definition caller_kv k (bl : gmap ptr ktb) (q : ptr) (b : ktb) (v : kv) : Prop :=
  kio_ckb k = None /\ kio_ckv k = Some q /\ kv_block bl q b v /\ kv_readable v /\ exists hd key, kv_key v = Some (hd :: key).

Definition status_of (kop : op_kind) (rc : kproto_cmd_t) (v : kv) : Z :=
  if fills kop then (kv_answer rc filled v).1 else extract_cmdstatus_code (Some rc).
Definition kvs_after (kop : op_kind) (rc : kproto_cmd_t) (bl : gmap ptr ktb) (q : ptr) (b : ktb) (v : kv) : gmap ptr ktb :=
  if fills kop then put_kv bl q b (kv_answer rc filled v).2 else bl.
Definition held_after (kop : op_kind) (rc : kproto_cmd_t) (q : ptr) (pb : gmap ptr kproto_cmd_t) : gmap ptr kproto_cmd_t :=
  if fills kop then <[q := rc]> pb else pb.
(** The blocks of the response that stay with the kv *)
Definition held_blocks (kop : op_kind) (rc : kproto_cmd_t) (v : kv) : Z :=
  match kop with
  | OpPut => cmd_blocks rc
  | OpDel => if status_of OpDel rc v =? K_OK then cmd_blocks rc else 0
  | _ => 0
  end.

Lemma rest_run kop k rm rc val w s bl ses pb q b v :
  mem_ok s -> kop <> OpGet -> kop <> OpExec -> response k rm rc val -> (fills kop = true -> caller_kv k bl q b v) ->
  exists n, rest_of kop k (St w s bl ses pb) =
    Ok (status_of kop rc v, St w (adv n (held_blocks kop rc v) s) (kvs_after kop rc bl q b v) ses (held_after kop rc q pb)).
Proof.
  intros Hs Hg He Hr Hkv. pose proof Hr as [_ _ _ Hb Hc]. unfold rest_of.
  destruct kop; try done; unfold status_of, kvs_after, held_after; cbn [fills].
  - destruct (Hkv eq_refl) as (-> & -> & Hblk & Hread & Hkey).
    eapply response_status_run; [done|exact Hr|]. intros s' Hs'. unfold extract_putkey.
    erewrite (extract_fill_run rm rc q b v _ 0) by (try done; intros; by rewrite adv_0). cbv zeta. rewrite Z.sub_0_r.
    by case_match.
  - destruct (Hkv eq_refl) as (-> & -> & Hblk & Hread & Hkey).
    eapply response_status_run; [done|exact Hr|]. intros s' Hs'. unfold extract_delkey.
    erewrite (extract_fill_run rm rc q b v _ (cmd_blocks rc)) by (try done; intros; by apply on_m_run). cbv zeta.
    unfold held_blocks, status_of. cbn [fills]. by rewrite Z.sub_diag.
  - eapply response_status_run; [done|exact Hr|]. intros s' Hs'. by apply extract_code_run.
  - eapply response_status_run; [done|exact Hr|]. intros s' Hs'. by apply extract_code_run.
Qed.

Lemma filled_readable resp v : kv_readable v -> kv_readable (filled resp v).
Proof.
  intros [(key & Hk & Hkc) Hv]. unfold filled.
  match goal with |- context [opt_set set_kv_ver _ ?x] => set (v1 := x) end.
  assert (kv_readable v1) as [H1 H2].
  { unfold v1. destruct (kp_key resp) as [d|]; [|by split; eauto]. rewrite Hk.
    destruct key as [|hd key]; [by split; eauto|]. split; [|done].
    eexists. split; [done|]. cbn [set_kv_vecs kv_keycnt]. unfold zlen. cbn [length]. lia. }
  unfold opt_set, set_kv_ditype, set_kv_disum, set_kv_ver. repeat case_match; by split.
Qed.
Lemma answer_readable rc v : kv_readable v -> kv_readable (kv_answer rc filled v).2.
Proof. intros H. unfold kv_answer. repeat case_match; cbn [snd]; auto using filled_readable. Qed.

Lemma same_sent k k' vals : same_response k k' -> sent_request k vals -> sent_request k' vals.
Proof. intros [(_&_&_&H1&H2&_) _] (a & b & Hm & Hc & Ha & Hb). exists a, b. by rewrite H1, H2. Qed.
Lemma same_resp k k' rm rc val : same_response k k' -> response k rm rc val -> response k' rm rc val.
Proof. intros [_ Hr] [H1 H2 H3 H4 H5]. split; by rewrite ?Hr. Qed.
Lemma same_caller k k' bl q b v : same_response k k' -> caller_kv k bl q b v -> caller_kv k' bl q b v.
Proof. intros [(_&_&_&_&_&_&H1&_&H2&_) _]. unfold caller_kv. by rewrite H1, H2. Qed.

Lemma taken_gone w cq l ex i p k w' w1 n w2 :
  taken w cq l ex i p k w' -> w1 = drop_live n w' -> same_kernel w1 w2 ->
  exists l', contents l' = delete i (contents l) /\
    w_queues (set_kios_w (delete p (w_kios w2)) w2) = <[cq := KtliQueue (Some l') false ex]> (w_queues w) /\
    w_kios (set_kios_w (delete p (w_kios w2)) w2) = delete p (w_kios w) /\
    w_live (set_kios_w (delete p (w_kios w2)) w2) = w_live w - n /\ same_session w (set_kios_w (delete p (w_kios w2)) w2).
Proof.
  intros (l' & k' & Hl & Hq & Hks & _ & _ & Hlive & Hs) -> (H1 & H2 & H3 & Hs2). exists l'. cbn in *.
  rewrite H1, H2, H3, Hq, Hks, Hlive, delete_insert_eq. split_and!; try done.
  destruct Hs as (?&?&?&?&?), Hs2 as (?&?&?&?&?). unfold same_session, same_threads. cbn in *. split_and!; congruence.
Qed.

Lemma complete_received_run w ktd cq l ex i e p k cf sp vals s bl ses pb ksn kop rm rc val q b v :
  completed w ktd cq l ex i e p k cf sp -> kio_st k = KIO_RECEIVED ->
  sent_request k vals -> response k rm rc val -> ses !! sp = Some ksn -> mem_ok s ->
  kop <> OpExec -> kop <> OpGet -> (fills kop = true -> caller_kv k bl q b v) ->
  exists w' s' ksn' l', complete_of kop ktd (Some p) (St w s bl ses pb) =
      Ok ((status_of kop rc v, None),
          St w' s' (kvs_after kop rc bl q b v) (<[sp := ksn']> ses) (held_after kop rc q pb)) /\
    contents l' = delete i (contents l) /\ w_queues w' = <[cq := KtliQueue (Some l') false ex]> (w_queues w) /\
    w_kios w' = delete p (w_kios w) /\ stats_only ksn ksn' /\
    m_live s' + w_live w' = m_live s + w_live w - 4 - (3 + vec_block val) + held_blocks kop rc v /\
    mem_ok s' /\ same_session w w'.
Proof.
  intros Hc Hst Hsent Hr Hses Hs Hne Hget Hkv. rewrite complete_of_closing.
  destruct (completing_run _ _ _ _ _ _ _ _ _ _ _ kop (closing kop) s bl ses pb Hc (or_introl Hst)) as (w' & T & ->).
  destruct (taken_kio _ _ _ _ _ _ _ _ T) as (k' & Hk' & Hsame & Hst' & Hdel).
  assert (fills kop = true -> caller_kv k' bl q b v) as Hkv' by by eauto using same_caller.
  destruct (rest_run kop k' rm rc val w' s bl ses pb q b v Hs Hget Hne (same_resp _ _ _ _ _ Hsame Hr) Hkv') as [n Hrest].
  destruct (free_recvmsg_run k' rm rc val w' (adv n (held_blocks kop rc v) s) (kvs_after kop rc bl q b v) ses
    (held_after kop rc q pb) (same_resp _ _ _ _ _ Hsame Hr)) as [rl Hfree].
  destruct (closing_received_run kop w' (drop_live (3 + vec_block val) w') p k' vals (status_of kop rc v) s
    (adv n (held_blocks kop rc v) s) bl (kvs_after kop rc bl q b v) ses pb (held_after kop rc q pb) sp ksn)
    as (w2 & ksn' & E & Hw & Hks); [done|by rewrite Hst'|by eapply same_sent|done|exact Hrest| |done| |].
  - unfold free_of. destruct kop; try done; try by eexists. erewrite bind_Ok by exact Hfree. by eexists.
  - intros _. destruct kop; auto; try done; right; right; right; destruct (Hkv' eq_refl) as (_ & Hq & Hb & Hread & _);
      do 3 eexists; (split; [exact Hq|]); unfold kvs_after; cbn [fills];
      destruct (kv_block_put bl q b (kv_answer rc filled v).2) as [H1 H2];
      (split; [exact H1|]; split; [exact H2|]; by apply answer_readable).
  - destruct (taken_gone _ _ _ _ _ _ _ _ _ _ _ T eq_refl Hw) as (l' & Hl & Hq & Hkios & Hlive & Hsame').
    eexists _, _, ksn', l'. rewrite E. split; [destruct kop; done|]. split_and!; try done.
    rewrite Hlive, !adv_live. lia.
Qed.

(** A put, delete, noop or flush whose response arrived is completed with
    the drive's own status (K_EINTERNAL when a put or delete answers success
    without its key-value part).  A put or delete whose response is good takes
    over, into the caller's kv, exactly the key, version, tag and algorithm
    the response carries, and keeps the response alive for the caller; on any
    other status the kv is unchanged.  The kio leaves the completion queue,
    the request's four blocks and all of KTLI's received buffers are given
    back, what remains of the response being the blocks the kv now holds, and
    of the session only the statistics change. *)
Theorem complete_with_response w ktd cq l ex i e p k cf sp vals s bl ses pb ksn r kop rm rc val q b v :
  completed w ktd cq l ex i e p k cf sp -> kio_st k = KIO_RECEIVED ->
  sent_request k vals -> response k rm rc val -> ses !! sp = Some ksn -> mem_ok s ->
  kind_of (kio_cmd k) = Some kop -> kop <> OpGet -> kop <> OpExec -> (fills kop = true -> caller_kv k bl q b v) ->
  exists w' s' ksn' l', ki_aio_complete ktd (Some p) r (St w s bl ses pb) =
      Ok ((status_of kop rc v, None),
          St w' s' (kvs_after kop rc bl q b v) (<[sp := ksn']> ses) (held_after kop rc q pb)) /\
    contents l' = delete i (contents l) /\ w_queues w' = <[cq := KtliQueue (Some l') false ex]> (w_queues w) /\
    w_kios w' = delete p (w_kios w) /\ stats_only ksn ksn' /\
    m_live s' + w_live w' = m_live s + w_live w - 4 - (3 + vec_block val) + held_blocks kop rc v.
Proof.
  intros Hc Hst Hsent Hr Hses Hs Hkind Hget Hexec Hkv. rewrite (dispatch_kind _ _ _ _ _ _ _ _ k kop) by (done || by apply Hc).
  edestruct complete_received_run as (w' & s' & ksn' & l' & E & Hl & Hq & Hk & Hso & Hlv & _); try done.
  by exists w', s', ksn', l'.
Qed.

(** *** Get, get next and get previous *)
Definition hung (val : kiovec) (v : kv) : kv :=
  match kv_val v with Some (_ :: vs) => set_kv_vecs (kv_key v) (kv_keycnt v) (Some (val :: vs)) v | _ => v end.
(** A get takes over only what the kv's own pointers leave open. *)
Definition got (resp : kproto_kv_t) (v : kv) : kv :=
  let v := match kv_key v, kp_key resp with
           | Some (Kiovec None _ :: key), Some d => set_kv_vecs (Some (Kiovec (pb_data d) (pb_len d) :: key)) 1 (kv_val v) v
           | _, _ => v
           end in
  let v := match kv_ver v with None => opt_set set_kv_ver (kp_dbversion resp) v | Some _ => v end in
  match kv_disum v with
  | None => opt_set set_kv_ditype (kp_algorithm resp) (opt_set set_kv_disum (kp_tag resp) v)
  | Some _ => v
  end.

Definition full_vecs (v : kv) : Prop :=
  (exists hd key, kv_key v = Some (hd :: key)) /\ exists v0 vs, kv_val v = Some (v0 :: vs).

Lemma hang_value_run q b v val w s bl ses pb :
  kv_block bl q b v -> full_vecs v ->
  hang_value (Some q) val (St w s bl ses pb) = Ok (tt, St w s (put_kv bl q b (hung val v)) ses pb).
Proof.
  intros Hb (_ & v0 & vs & Hv). unfold hang_value, hung. erewrite bind_Ok by by eapply kv_rd_run. cbv beta.
  rewrite Hv. erewrite bind_Ok by done. cbv beta. erewrite bind_Ok by apply array_wr_0. cbv beta.
  by erewrite kv_wr_run.
Qed.

Lemma hung_full val v : full_vecs v -> full_vecs (hung val v).
Proof. intros (Hk & v0 & vs & Hv). unfold hung. rewrite Hv. split; [done|by eexists _, _]. Qed.

Lemma put_put bl q b v v' : put_kv (put_kv bl q b v) q (set_ktb_buf (DKv v) b) v' = put_kv bl q b v'.
Proof. unfold put_kv. by rewrite insert_insert_eq. Qed.

Lemma extract_getkey_run rm rc q b v w s bl ses pb :
  mem_ok s -> m_commandbytes rm = Some (pbd_of (cmd_pack rc)) -> cmd_wf rc -> kv_block bl q b v -> full_vecs v ->
  let a := kv_answer rc got v in
  extract_getkey rm (Some q) (St w s bl ses pb) =
    Ok (a.1, St w (adv 1 (cmd_blocks rc) s) (put_kv bl q b a.2) ses (<[q := rc]> pb)).
Proof.
  intros Hs Hb Hc Hkv ((hd & key & Hk) & _) a. unfold extract_getkey.
  erewrite bind_Ok by (eapply extract_response_run with (e := 0); try done; intros; by rewrite adv_0). cbv beta.
  rewrite Z.sub_0_r. unfold a, kv_answer.
  destruct (extract_cmdstatus_code (Some rc) =? K_OK) eqn:E; cbn [andb fst snd].
  2: { by rewrite put_kv_same. }
  destruct (c_body rc ≫= b_keyvalue) as [resp|]; cbn [fst snd].
  2: { rewrite bool_decide_false by (intros H; by apply H). by rewrite put_kv_same. }
  rewrite bool_decide_true by done. erewrite bind_Ok by by eapply kv_rd_run. cbv beta. unfold got. rewrite Hk.
  erewrite bind_Ok by done. cbv beta. erewrite bind_Ok by apply array_rd_0. cbv beta.
  destruct hd as [[base|] len]; cbn [kiov_base].
  - rewrite bind_ret. cbv beta zeta. by erewrite bind_Ok by by eapply kv_wr_run.
  - destruct (kp_key resp) as [d|].
    + erewrite bind_Ok. 2:{ unfold set_kv_key0. rewrite Hk. erewrite bind_Ok by done. cbv beta.
        erewrite bind_Ok by apply array_wr_0. reflexivity. }
      cbv beta zeta. by erewrite bind_Ok by by eapply kv_wr_run.
    + rewrite bind_ret. cbv beta zeta. by erewrite bind_Ok by by eapply kv_wr_run.
Qed.

(** Which kv receives the value *)
Definition value_cmd (cmd : Z) : bool := (cmd =? KMT_GET) || altkv_needed cmd.
Definition get_target k : option ptr := if kio_cmd k =? KMT_GET then kio_ckv k else kio_caltkv k.

Lemma extract_get_run k rm rc val q b v w s bl ses pb :
  mem_ok s -> response k rm rc val -> value_cmd (kio_cmd k) = true -> get_target k = Some q ->
  kv_block bl q b v -> full_vecs v ->
  let a := kv_answer rc got (hung val v) in
  extract_get k rm (St w s bl ses pb) =
    Ok (a.1, St w (adv 1 (cmd_blocks rc) s) (put_kv bl q b a.2) ses (<[q := rc]> pb)).
Proof.
  intros Hs [(pdu & Hv & _) _ _ Hb Hc] Hcmd Hq Hkv Hfull a. unfold extract_get. rewrite Hv.
  erewrite bind_Ok by done. cbv beta. erewrite bind_Ok by apply array_rd_2. cbv beta.
  unfold get_target in Hq. unfold value_cmd in Hcmd.
  assert ((hang_value (Some q) val ;; extract_getkey rm (Some q)) (St w s bl ses pb) =
    Ok (a.1, St w (adv 1 (cmd_blocks rc) s) (put_kv bl q b a.2) ses (<[q := rc]> pb))) as E.
  { erewrite bind_Ok by by apply hang_value_run. cbv beta.
    erewrite extract_getkey_run by (done || apply kv_block_put || by apply hung_full). by rewrite put_put. }
  destruct (kio_cmd k =? KMT_GET) eqn:E1; [by rewrite Hq|]. cbn [orb] in Hcmd.
  assert ((kio_cmd k =? KMT_GETVERS) = false) as ->.
  { apply Z.eqb_neq. intros E2. by rewrite E2 in Hcmd. }
  rewrite Hcmd, Hq. exact E.
Qed.

Lemma got_meta resp v : kv_metaonly (got resp v) = kv_metaonly v.
Proof.
  unfold got, opt_set, set_kv_ditype, set_kv_disum, set_kv_ver, set_kv_vecs.
  repeat case_match; reflexivity.
Qed.
Lemma answer_meta rc val v : kv_metaonly (kv_answer rc got (hung val v)).2 = kv_metaonly v.
Proof.
  assert (kv_metaonly (hung val v) = kv_metaonly v) as Hh by (unfold hung; by repeat case_match).
  unfold kv_answer. repeat case_match; cbn [snd]; by rewrite ?got_meta.
Qed.
Lemma got_readable resp v : kv_readable v -> kv_readable (got resp v).
Proof.
  intros [(key & Hk & Hkc) Hv]. unfold got.
  match goal with |- context [kv_ver ?x] => set (v1 := x) end.
  assert (kv_readable v1) as [H1 H2].
  { unfold v1. rewrite Hk. destruct key as [|[[base|] len] key]; [by split; eauto|by split; eauto|].
    destruct (kp_key resp) as [d|]; [|by split; eauto]. split; [|done].
    eexists. split; [done|]. cbn [set_kv_vecs kv_keycnt]. unfold zlen. cbn [length]. lia. }
  clearbody v1. unfold opt_set, set_kv_ditype, set_kv_disum, set_kv_ver. repeat case_match; by split.
Qed.
Lemma hung_readable val v : kv_readable v -> kv_readable (hung val v).
Proof.
  intros [Hk Hv]. unfold hung. destruct (kv_val v) as [[|v0 vs]|] eqn:E; [split; [done|by rewrite E]| |split; [done|by rewrite E]].
  split; [done|]. intros H. destruct (Hv H) as (? & [= <-] & Hc). eexists. split; [done|].
  unfold zlen in *. cbn [length] in *. done.
Qed.
Lemma get_answer_readable rc val v : kv_readable v -> kv_readable (kv_answer rc got (hung val v)).2.
Proof. intros H. unfold kv_answer. repeat case_match; cbn [snd]; auto using got_readable, hung_readable. Qed.

(** The kv [q1] asked for, after the kv [q] received its answer *)
Lemma asked_after bl q b v rc val q1 b1 v1 :
  kv_block bl q b v -> kv_block bl q1 b1 v1 -> kv_readable v1 ->
  exists b1' v1', kv_block (put_kv bl q b (kv_answer rc got (hung val v)).2) q1 b1' v1' /\
    kv_metaonly v1' = kv_metaonly v1 /\ kv_readable v1'.
Proof.
  intros [Hb Hd] [Hb1 Hd1] Hr. destruct (decide (q1 = q)) as [->|Hne].
  - rewrite Hb in Hb1. injection Hb1 as <-. rewrite Hd in Hd1. injection Hd1 as <-.
    eexists _, _. split; [apply kv_block_put|]. split; [apply answer_meta|by apply get_answer_readable].
  - exists b1, v1. split; [|done]. split; [|done]. unfold put_kv. by rewrite lookup_insert_ne.
Qed.

Lemma free_get_run k rm rc val krc w s bl ses pb q1 b1 v1 :
  response k rm rc val -> value_cmd (kio_cmd k) = true -> kio_ckv k = Some q1 -> kv_block bl q1 b1 v1 ->
  kv_metaonly v1 = 0 ->
  exists rl, free_get_recvmsg k krc (St w s bl ses pb) =
    Ok (rl, St (drop_live (if krc =? K_OK then 3 else 3 + vec_block val) w) s bl ses pb).
Proof.
  intros [(pdu & Hv & _) Hc _ _ _] Hcmd Hq Hb Hmeta. unfold free_get_recvmsg. rewrite Hv, Hc. cbn [Z.gtb Z.geb Z.of_nat KIOV_PDU].
  eexists. unfold vec_if. change (3 >? Z.of_nat KIOV_PDU) with true. change (3 >=? Z.of_nat KIOV_MSG) with true.
  change (3 >=? Z.of_nat KIOV_VAL) with true. change (3 >? Z.of_nat KIOV_VAL) with true. cbv iota.
  erewrite bind_Ok by apply array_rd_0. cbv beta. cbn [kiov_base]. rewrite bool_decide_true by done.
  erewrite bind_Ok by by erewrite bind_Ok by apply free_base_run. cbv beta.
  erewrite bind_Ok by apply array_rd_1. cbv beta. cbn [kiov_base]. rewrite bool_decide_true by done.
  erewrite bind_Ok by by erewrite bind_Ok by apply free_base_run. cbv beta.
  erewrite bind_Ok by apply array_rd_2. cbv beta zeta. cbn [andb]. rewrite !drop_drop.
  change (vec_block _ + vec_block _) with 2.
  erewrite (bind_Ok (if bool_decide (kiov_base val <> None) then _ else _) _ _ tt
    (St (drop_live (if krc =? K_OK then 2 else 2 + vec_block val) w) s bl ses pb)).
  2: { unfold vec_block. destruct (kiov_base val) as [base|] eqn:Ebase.
       2: { rewrite bool_decide_false by (intros H; by apply H). by destruct (krc =? K_OK). }
       rewrite bool_decide_true by done. unfold drop_value.
       assert ((kio_cmd k =? KMT_GETVERS) = false) as ->.
       { apply Z.eqb_neq. intros E. by rewrite E in Hcmd. }
       rewrite orb_false_r. destruct (krc =? K_OK); cbn [negb].
       - rewrite bind_assoc, Hq. erewrite bind_Ok by by eapply kv_rd_run. cbv beta. rewrite bind_ret, Hmeta. done.
       - rewrite bind_ret. rewrite free_base_run. unfold vec_block. by rewrite Ebase, drop_drop. }
  cbv beta. erewrite bind_Ok by apply free_buf_run. unfold mret, ST_ret. rewrite drop_drop. do 3 f_equal.
  f_equal. destruct (krc =? K_OK); lia.
Qed.

Lemma value_kind cmd : value_cmd cmd = true -> kind_of cmd = Some OpGet.
Proof.
  unfold value_cmd, altkv_needed. rewrite !orb_true_iff, !Z.eqb_eq. by intros [-> |[-> | ->]].
Qed.

Lemma complete_get_run w ktd cq l ex i e p k cf sp vals s bl ses pb ksn rm rc val q b v q1 b1 v1 :
  completed w ktd cq l ex i e p k cf sp -> kio_st k = KIO_RECEIVED ->
  sent_request k vals -> response k rm rc val -> ses !! sp = Some ksn -> mem_ok s ->
  value_cmd (kio_cmd k) = true -> get_target k = Some q -> kv_block bl q b v -> full_vecs v ->
  kio_ckv k = Some q1 -> kv_block bl q1 b1 v1 -> kv_readable v1 -> kv_metaonly v1 = 0 ->
  let a := kv_answer rc got (hung val v) in
  exists w' s' ksn' l', complete_of OpGet ktd (Some p) (St w s bl ses pb) =
      Ok ((a.1, if a.1 =? K_OK then kio_cctx k else None),
          St w' s' (put_kv bl q b a.2) (<[sp := ksn']> ses) (<[q := rc]> pb)) /\
    contents l' = delete i (contents l) /\ w_queues w' = <[cq := KtliQueue (Some l') false ex]> (w_queues w) /\
    w_kios w' = delete p (w_kios w) /\ stats_only ksn ksn' /\
    m_live s' + w_live w' = m_live s + w_live w - 4 - 3 - (if a.1 =? K_OK then 0 else vec_block val) + cmd_blocks rc /\
    mem_ok s' /\ same_session w w'.
Proof.
  intros Hc Hst Hsent Hr Hses Hs Hcmd Hq Hb Hfull Hq1 Hb1 Hread Hmeta a.
  rewrite complete_of_closing.
  destruct (completing_run _ _ _ _ _ _ _ _ _ _ _ OpGet (closing OpGet) s bl ses pb Hc (or_introl Hst)) as (w' & T & ->).
  destruct (taken_kio _ _ _ _ _ _ _ _ T) as (k' & Hk' & Hsame & Hst' & Hdel).
  pose proof Hsame as [(_ & Hcmd' & _ & _ & _ & Hcx' & Hckv' & Halt' & _) _].
  pose proof (same_resp _ _ _ _ _ Hsame Hr) as Hr'.
  destruct (response_status_run k' rm rc val (extract_get k') a.1 w' s 1 (cmd_blocks rc) bl (put_kv bl q b a.2) ses pb
    (<[q := rc]> pb) Hs Hr') as [n Hrest].
  { intros s' Hs'. apply extract_get_run; try done; [by rewrite Hcmd'|]. unfold get_target. by rewrite Hcmd', Hckv', Halt'. }
  destruct (asked_after bl q b v rc val q1 b1 v1 Hb Hb1 Hread) as (b1' & v1' & Hb1' & Hm' & Hr1').
  destruct (free_get_run k' rm rc val a.1 w' (adv n (cmd_blocks rc) s) (put_kv bl q b a.2) ses (<[q := rc]> pb) q1 b1' v1')
    as [rl Hfree]; [done|by rewrite Hcmd'|by rewrite Hckv'|done|by rewrite Hm'|].
  destruct (closing_received_run OpGet w' (drop_live (if a.1 =? K_OK then 3 else 3 + vec_block val) w') p k' vals a.1 s
    (adv n (cmd_blocks rc) s) bl (put_kv bl q b a.2) ses pb (<[q := rc]> pb) sp ksn) as (w2 & ksn' & E & Hw & Hks);
    [done|by rewrite Hst'|by eapply same_sent|done|exact Hrest|by eexists|done| |].
  { intros _. right. right. right. exists q1, b1', v1'. rewrite Hckv'. destruct Hb1'. done. }
  destruct (taken_gone _ _ _ _ _ _ _ _ _ _ _ T eq_refl Hw) as (l' & Hl & Hqs & Hkios & Hlive & Hsame').
  eexists _, _, ksn', l'. rewrite E, Hcx'. split; [done|]. split_and!; try done.
  rewrite Hlive, !adv_live. destruct (a.1 =? K_OK); lia.
Qed.

(** A get (or get next, get previous) whose response arrived is completed
    with the drive's status.  When that is success, the caller's context comes
    back, the first value vector of the kv that was to receive it is the
    received value buffer itself, which is not freed, and of its key, version,
    tag and algorithm exactly those its own pointers left open are taken from
    the response; on failure the value buffer is freed.  Everything else is as
    for the other operations: the kio is gone, the request's blocks and the
    received PDU and message are given back, the response stays with the kv. *)
Theorem get_complete w ktd cq l ex i e p k cf sp vals s bl ses pb ksn r rm rc val q b v q1 b1 v1 :
  completed w ktd cq l ex i e p k cf sp -> kio_st k = KIO_RECEIVED ->
  sent_request k vals -> response k rm rc val -> ses !! sp = Some ksn -> mem_ok s ->
  value_cmd (kio_cmd k) = true -> get_target k = Some q -> kv_block bl q b v -> full_vecs v ->
  kio_ckv k = Some q1 -> kv_block bl q1 b1 v1 -> kv_readable v1 -> kv_metaonly v1 = 0 ->
  let a := kv_answer rc got (hung val v) in
  exists w' s' ksn' l', ki_aio_complete ktd (Some p) r (St w s bl ses pb) =
      Ok ((a.1, if a.1 =? K_OK then kio_cctx k else None),
          St w' s' (put_kv bl q b a.2) (<[sp := ksn']> ses) (<[q := rc]> pb)) /\
    contents l' = delete i (contents l) /\ w_queues w' = <[cq := KtliQueue (Some l') false ex]> (w_queues w) /\
    w_kios w' = delete p (w_kios w) /\ stats_only ksn ksn' /\
    m_live s' + w_live w' = m_live s + w_live w - 4 - 3 - (if a.1 =? K_OK then 0 else vec_block val) + cmd_blocks rc.
Proof.
  intros Hc Hst Hsent Hr Hses Hs Hcmd Hq Hb Hfull Hq1 Hb1 Hread Hmeta a.
  rewrite (dispatch_kind _ _ _ _ _ _ _ _ k OpGet) by (by apply Hc || by apply value_kind).
  edestruct complete_get_run as (w' & s' & ksn' & l' & E & Hl & Hqs & Hk & Hso & Hlv & _); try done.
  by exists w', s', ksn', l'.
Qed.
End complete.
