(* ===== verification/ExecComplete.v ===== *)
(** The completion of an applet proved: what the format of the detailed message
    gives the caller, the faults of a message outside it, and the completion
    from the receive to the buffers. *)

From stdpp Require Import gmap.
From S2P Require Import Prelude Types ListApi Session KtliState Ktli KtliSpec Pdu Keys Ktb Validate.
From S2P Require Import ProtoData Proto ProtoSpec Stat Op OpFrame Put Del Get Noop Batch Exec Aio OpSpec OpRequest.
From S2P Require Import ExecSpec OpComplete.

(** ** The detailed message

    [<rc>:<sig>:<mesg>:<stdout>], its terminator, and what may follow it *)
Definition detail (rc sig : Z) (mesg out tail : buffer) : buffer :=
  print_int rc ++ colon :: print_int sig ++ colon :: mesg ++ colon :: out ++ 0 :: tail.

Definition clean (b : buffer) : Prop := Forall (fun c => c <> 0 /\ c <> colon) b.

Lemma clean_no_nul b : clean b -> no_nul b.
Proof. intros H. eapply Forall_impl; [exact H|]. by intros c []. Qed.
Lemma strchr_clean p r : clean p -> strchr (p ++ colon :: r) colon = Some (colon :: r).
Proof. induction 1 as [|c p [_ Hc] H IH]; [done|]. cbn. by rewrite (proj2 (Z.eqb_neq c colon)). Qed.
Lemma past_colon_clean p r : clean p -> past_colon (p ++ colon :: r) = Ok r.
Proof. intros H. unfold past_colon. by rewrite strchr_clean. Qed.
Lemma past_colon_none s : Forall (fun c => c <> colon) s -> past_colon s = Ub.
Proof.
  intros H. unfold past_colon. enough (strchr s colon = None) as -> by done.
  induction H as [|c s Hc H IH]; [done|]. cbn. by rewrite (proj2 (Z.eqb_neq c colon)).
Qed.

Lemma codes_of_print rc sig r :
  - 2 ^ 31 <= rc < 2 ^ 31 -> - 2 ^ 31 <= sig < 2 ^ 31 -> not_digit r ->
  sscanf_codes (print_int rc ++ colon :: print_int sig ++ r) = Ok (Some rc, Some sig).
Proof.
  intros H1 H2 H. unfold sscanf_codes. rewrite scan_print by done. cbn [mbind outcome_bind].
  rewrite Z.eqb_refl. by rewrite scan_print.
Qed.

(** The string [sscanf] and [strchr] see *)
Definition dmsg_of (rc sig : Z) (mesg out : buffer) : buffer :=
  print_int rc ++ colon :: print_int sig ++ colon :: mesg ++ colon :: out.
Lemma detail_string rc sig mesg out tail :
  - 2 ^ 31 <= rc < 2 ^ 31 -> - 2 ^ 31 <= sig < 2 ^ 31 -> clean mesg -> no_nul out ->
  c_string_at (detail rc sig mesg out tail) = Ok (dmsg_of rc sig mesg out).
Proof.
  intros H1 H2 Hm Ho. unfold detail, dmsg_of. rewrite <- (c_string_at_spec _ tail).
  - f_equal. by rewrite <- !app_assoc, <- !app_comm_cons, <- !app_assoc, <- !app_comm_cons, <- !app_assoc.
  - pose proof (clean_no_nul _ (print_clean rc H1)). pose proof (clean_no_nul _ (print_clean sig H2)).
    pose proof (clean_no_nul _ Hm). unfold no_nul in *.
    rewrite !Forall_app, !Forall_cons, !Forall_app, !Forall_cons, !Forall_app, !Forall_cons. done.
Qed.

Lemma strlen_no_nul b : no_nul b -> strlen b = zlen b.
Proof.
  induction 1 as [|c b Hc H IH]; [done|]. cbn [strlen]. rewrite (proj2 (Z.eqb_neq c 0)), IH by done.
  rewrite zlen_cons. lia.
Qed.
Lemma take_strlen b : no_nul b -> take (Z.to_nat (strlen b)) b = b.
Proof. intros H. rewrite strlen_no_nul by done. unfold zlen. rewrite Nat2Z.id. by apply take_ge. Qed.

(** Without three colons [dmsg] runs past a NULL. *)
Fixpoint colons (s : buffer) : nat :=
  match s with [] => O | c :: s => if c =? colon then S (colons s) else colons s end.
Lemma past_colon_count s :
  (past_colon s = Ub /\ colons s = 0%nat) \/ exists r, past_colon s = Ok r /\ colons s = S (colons r).
Proof.
  unfold past_colon. induction s as [|c s IH]; [by left|]. cbn [strchr colons]. destruct (Z.eqb_spec c colon) as [->|Hne]; [|done].
  right. by exists s.
Qed.
Lemma few_colons s :
  (colons s < 3)%nat -> (r ← past_colon s; r ← past_colon r; past_colon r) = Ub.
Proof.
  intros H. destruct (past_colon_count s) as [[-> _]|(r & -> & E)]; [done|]. cbn [mbind outcome_bind].
  destruct (past_colon_count r) as [[-> _]|(r' & -> & E')]; [done|]. cbn [mbind outcome_bind].
  destruct (past_colon_count r') as [[-> _]|(r'' & -> & E'')]; [done|lia].
Qed.

Section complete.
Context {LA : ListApi} {LL : ListLaws} {X : Type} {PG : ProtoGen} {PL : ProtoLaws} {SZ : Sizes}.

Notation opst := (@opst LA X).
Notation world := (@world LA X).
Notation OP := (ST opst).
Notation St w s bl ses pb := (@Opst LA X w (Heap s bl) ses pb).
Implicit Types (w : world) (k : kio ptr).

Definition app_block (bl : gmap ptr ktb) (q : ptr) (b : ktb) (a : kapplet) : Prop := bl !! q = Some b /\ ktb_buf b = DApplet a.
Definition put_app (bl : gmap ptr ktb) (q : ptr) (b : ktb) (a : kapplet) : gmap ptr ktb := <[q := set_ktb_buf (DApplet a) b]> bl.

Lemma app_rd_run q b a w s bl ses pb :
  app_block bl q b a -> app_rd (Some q) (St w s bl ses pb) = Ok (a, St w s bl ses pb).
Proof. intros [Hb Hd]. unfold app_rd. erewrite bind_Ok by done. apply on_h_run. by eapply get_applet_run. Qed.
Lemma app_upd_run q b a f w s bl ses pb :
  app_block bl q b a -> app_upd (Some q) f (St w s bl ses pb) = Ok (tt, St w s (put_app bl q b (f a)) ses pb).
Proof.
  intros [Hb Hd]. unfold app_upd. erewrite bind_Ok by done. cbv beta. unfold on_h. cbn [o_heap].
  erewrite bind_Ok by by apply ktb_base_run. cbv beta. by rewrite Hd.
Qed.
Lemma app_block_put bl q b a : app_block (put_app bl q b a) q (set_ktb_buf (DApplet a) b) a.
Proof. unfold app_block, put_app. by rewrite lookup_insert_eq. Qed.
Lemma put_app_put bl q b a a' : put_app (put_app bl q b a) q (set_ktb_buf (DApplet a) b) a' = put_app bl q b a'.
Proof. unfold put_app. by rewrite insert_insert_eq. Qed.

Lemma app_strdup_run s b : mem_ok s -> strdup b s = Ok (Some b, adv 1 1 s).
Proof. intros Hs. unfold strdup. destruct (KI_MALLOC_adv s (zlen b + 1) Hs) as (m & E & _). by erewrite bind_Ok by exact E. Qed.

(** The applet after an answer in the format *)
Definition answered (a : kapplet) (sm : buffer) (rc sig : Z) (out tail : buffer) : kapplet :=
  set_ka_out (Some sm) (Some out) (u32 (zlen out + 1 + zlen tail)) (set_ka_codes rc sig a).

(** [formatted rm code sm rc sig mesg out tail]: the message carries a command with a status in the format. *)
Record formatted (rm : kproto_msg_t) (c : kproto_cmd_t) (code : Z) (sm : buffer) (rc sig : Z) (mesg out tail : buffer) : Prop := {
  fm_bytes : m_commandbytes rm = Some (pbd_of (cmd_pack c)); fm_wf : cmd_wf c;
  fm_status : c_status c = Some (Status (Some code) (Some sm) (Some (pbd_of (detail rc sig mesg out tail))));
  fm_rc : - 2 ^ 31 <= rc < 2 ^ 31; fm_sig : - 2 ^ 31 <= sig < 2 ^ 31;
  fm_mesg : clean mesg; fm_out : no_nul out }.

Lemma formatted_sm rm c code sm rc sig mesg out tail : formatted rm c code sm rc sig mesg out tail -> no_nul sm.
Proof.
  intros [_ (_ & _ & Hs) E _ _ _ _]. destruct (Hs _ E) as (_ & H & _). specialize (H sm eq_refl).
  eapply Forall_impl; [exact H|]. cbn. lia.
Qed.

Lemma stdout_len rc sig mesg out tail :
  u32 (u32 (pb_len (pbd_of (detail rc sig mesg out tail))) - (zlen (dmsg_of rc sig mesg out) - zlen out)) =
  u32 (zlen out + 1 + zlen tail).
Proof.
  unfold Z.sub. rewrite u32_add. f_equal. cbn [pbd_of pb_len]. unfold detail, dmsg_of.
  rewrite !zlen_app, !zlen_cons, !zlen_app, !zlen_cons, !zlen_app, !zlen_cons, !zlen_app, !zlen_cons. lia.
Qed.

Lemma extract_exec_run rm c code sm rc sig mesg out tail q b a w s bl ses pb :
  mem_ok s -> formatted rm c code sm rc sig mesg out tail -> app_block bl q b a ->
  extract_exec_response rm (Some q) (St w s bl ses pb) =
    Ok (code, St w (adv 3 (cmd_blocks c + 2) s) (put_app bl q b (answered a sm rc sig out tail)) ses pb).
Proof.
  intros Hs Hf Ha. pose proof (formatted_sm _ _ _ _ _ _ _ _ _ Hf) as Hsm.
  destruct Hf as [Hb Hwf Est Hrc Hsig Hm Ho]. unfold extract_exec_response. rewrite Hb.
  erewrite bind_Ok by (apply on_m_run; eapply unpack_command_run; [done|done|apply pbd_of_bytes]).
  cbn [mbind option_bind]. rewrite Est.
  erewrite bind_Ok by (apply on_m_run, app_strdup_run; by apply adv_ok). cbv beta. rewrite take_strlen by done.
  erewrite bind_Ok by by apply app_upd_run. cbv beta.
  erewrite bind_Ok by (apply lift_Ok, pbd_of_bytes). cbv beta.
  erewrite bind_Ok by (apply lift_Ok; by apply detail_string). cbv beta.
  erewrite bind_Ok by (apply lift_Ok; unfold dmsg_of; by apply codes_of_print). cbv beta iota.
  erewrite bind_Ok by (apply app_upd_run, app_block_put). cbv beta. rewrite put_app_put, bool_decide_false by done.
  unfold dmsg_of. erewrite bind_Ok by (apply lift_Ok, past_colon_clean; by apply print_clean). cbv beta.
  erewrite bind_Ok by (apply lift_Ok, past_colon_clean; by apply print_clean). cbv beta.
  erewrite bind_Ok by (apply lift_Ok; by apply past_colon_clean). cbv beta.
  erewrite bind_Ok by (apply on_m_run, app_strdup_run; by rewrite adv_adv; apply adv_ok). cbv beta.
  erewrite bind_Ok by (apply app_upd_run, app_block_put). rewrite put_app_put, !adv_adv. unfold mret, ST_ret.
  fold (dmsg_of rc sig mesg out). by rewrite stdout_len.
Qed.

(** ** Answers outside the format *)

(** A status the code goes on with: code, message and detailed message *)
Definition full_status (c : kproto_cmd_t) (code : Z) (sm b : buffer) : Prop :=
  c_status c = Some (Status (Some code) (Some sm) (Some (pbd_of b))).
Definition partial_status (c : kproto_cmd_t) : Prop :=
  forall st, c_status c = Some st -> st_code st = None \/ st_statusmessage st = None \/ st_detailedmessage st = None.

Lemma lift_bind {S A B} (o : outcome A) (k : A -> ST S B) (st : S) a : o = Ok a -> (lift o ≫= k) st = k a st.
Proof. by intros ->. Qed.
Lemma lift_bind_ub {S A B} (o : outcome A) (k : A -> ST S B) (st : S) : o = Ub -> (lift o ≫= k) st = Ub.
Proof. by intros ->. Qed.

Section answers.
Context (rm : kproto_msg_t) (c : kproto_cmd_t) (q : ptr) (b : ktb) (a : kapplet) (bl : gmap ptr ktb).
Context (w : world) (s : mem) (ses : gmap ptr ksession) (pb : gmap ptr kproto_cmd_t).
Context (Hs : mem_ok s) (Hb : m_commandbytes rm = Some (pbd_of (cmd_pack c))) (Hc : cmd_wf c) (Ha : app_block bl q b a).

Lemma partial_run :
  partial_status c ->
  extract_exec_response rm (Some q) (St w s bl ses pb) = Ok (K_EINTERNAL, St w (adv 1 (cmd_blocks c) s) bl ses pb).
Proof.
  intros Hp. unfold extract_exec_response. rewrite Hb.
  erewrite bind_Ok by (apply on_m_run; eapply unpack_command_run; [done|done|apply pbd_of_bytes]).
  cbn [mbind option_bind]. destruct (c_status c) as [[code sm dm]|] eqn:E; [|done].
  destruct (Hp _ E) as [H|[H|H]]; cbn in H; subst; [done| |]; by repeat case_match.
Qed.

(** The run with a full status up to the detailed message *)
Lemma full_run code sm d :
  full_status c code sm d ->
  extract_exec_response rm (Some q) (St w s bl ses pb) =
    (dmsg ← lift (c_string_at d);
     '(rc, sig) ← lift (sscanf_codes dmsg);
     app_upd (Some q) (fun a => set_ka_codes (default (ka_rc a) rc) (default (ka_sig a) sig) a) ;;
     (if bool_decide (sig = None) then mret K_EINTERNAL else
      rest ← lift (past_colon dmsg);
      rest ← lift (past_colon rest);
      rest ← lift (past_colon rest);
      out ← on_m (strdup rest);
      app_upd (Some q) (fun a => set_ka_out (ka_msg a) out (u32 (u32 (pb_len (pbd_of d)) - (zlen dmsg - zlen rest))) a) ;;
      mret code)) (St w (adv 2 (cmd_blocks c + 1) s) (put_app bl q b (set_ka_msg (Some sm) a)) ses pb).
Proof.
  intros Est. unfold extract_exec_response. rewrite Hb.
  erewrite bind_Ok by (apply on_m_run; eapply unpack_command_run; [done|done|apply pbd_of_bytes]).
  cbn [mbind option_bind]. rewrite Est.
  assert (no_nul sm) as Hsm.
  { destruct Hc as (_ & _ & H). destruct (H _ Est) as (_ & H2 & _). eapply Forall_impl; [exact (H2 _ eq_refl)|]. cbn. lia. }
  erewrite bind_Ok by (apply on_m_run, app_strdup_run; by apply adv_ok). cbv beta. rewrite take_strlen by done.
  erewrite bind_Ok by by apply app_upd_run. cbv beta.
  erewrite bind_Ok by (apply lift_Ok, pbd_of_bytes). cbv beta. by rewrite adv_adv.
Qed.

Lemma unscanned_run code sm d dmsg rc :
  full_status c code sm d -> c_string_at d = Ok dmsg -> sscanf_codes dmsg = Ok (rc, None) ->
  extract_exec_response rm (Some q) (St w s bl ses pb) =
    Ok (K_EINTERNAL, St w (adv 2 (cmd_blocks c + 1) s)
      (put_app bl q b (set_ka_codes (default (ka_rc a) rc) (ka_sig a) (set_ka_msg (Some sm) a))) ses pb).
Proof.
  intros Hf Hd Hsc. rewrite (full_run _ _ _ Hf), (lift_bind _ _ _ _ Hd), (lift_bind _ _ _ _ Hsc). cbv beta iota.
  erewrite bind_Ok by (apply app_upd_run, app_block_put). rewrite put_app_put. done.
Qed.

Lemma unterminated_run code sm d :
  full_status c code sm d -> no_nul d -> extract_exec_response rm (Some q) (St w s bl ses pb) = Ub.
Proof. intros Hf Hd. rewrite (full_run _ _ _ Hf). by apply lift_bind_ub, c_string_at_none. Qed.

Lemma few_colons_run code sm d dmsg rc sig :
  full_status c code sm d -> c_string_at d = Ok dmsg -> sscanf_codes dmsg = Ok (rc, Some sig) -> (colons dmsg < 3)%nat ->
  extract_exec_response rm (Some q) (St w s bl ses pb) = Ub.
Proof.
  intros Hf Hd Hsc Hn. rewrite (full_run _ _ _ Hf), (lift_bind _ _ _ _ Hd), (lift_bind _ _ _ _ Hsc). cbv beta iota.
  erewrite bind_Ok by (apply app_upd_run, app_block_put). rewrite bool_decide_false by done.
  pose proof (few_colons dmsg Hn) as H.
  destruct (past_colon dmsg) as [r| | |] eqn:E1; try done.
  cbn [mbind outcome_bind] in H. rewrite (lift_bind _ _ _ _ eq_refl).
  destruct (past_colon r) as [r'| | |] eqn:E2; try done.
  cbn [mbind outcome_bind] in H. rewrite (lift_bind _ _ _ _ eq_refl). by apply lift_bind_ub.
Qed.
End answers.

(** C14: What [extract_exec_response] does with any other answer.  A status that
    lacks its code, its message or its detailed message gives K_EINTERNAL and
    leaves the applet as it was; two numbers that cannot be scanned give
    K_EINTERNAL with the status message, and a scanned first number, already in
    the applet.  An answer whose detailed message has no terminator inside the
    field, or has its two numbers but fewer than three colons, takes the code
    out of its buffers: it has no meaning.  In the first two cases the unpacked
    command is lost. *)
Theorem exec_malformed rm c q b a bl w s ses pb :
  mem_ok s -> m_commandbytes rm = Some (pbd_of (cmd_pack c)) -> cmd_wf c -> app_block bl q b a ->
  let run := extract_exec_response rm (Some q) (St w s bl ses pb) in
  (partial_status c -> run = Ok (K_EINTERNAL, St w (adv 1 (cmd_blocks c) s) bl ses pb)) /\
  (forall code sm d, full_status c code sm d ->
     (no_nul d -> run = Ub) /\
     forall dmsg, c_string_at d = Ok dmsg ->
       (forall rc, sscanf_codes dmsg = Ok (rc, None) ->
          run = Ok (K_EINTERNAL, St w (adv 2 (cmd_blocks c + 1) s)
            (put_app bl q b (set_ka_codes (default (ka_rc a) rc) (ka_sig a) (set_ka_msg (Some sm) a))) ses pb)) /\
       (forall rc sig, sscanf_codes dmsg = Ok (rc, Some sig) -> (colons dmsg < 3)%nat -> run = Ub)).
Proof.
  intros Hs Hb Hc Ha run. split; [by apply partial_run|]. intros code sm d Hf. split.
  - by eapply unterminated_run.
  - intros dmsg Hd. split; [intros; by eapply unscanned_run|intros; by eapply few_colons_run].
Qed.

(** ** The completion *)

(** The buffers after the received value was hung on the output key, if there is one *)
Definition out_hung (bl : gmap ptr ktb) (outkey : option ptr) (val : kiovec) (bl' : gmap ptr ktb) : Prop :=
  match outkey with
  | Some q => exists b v, kv_block bl q b v /\ full_vecs v /\ bl' = put_kv bl q b (hung val v)
  | None => bl' = bl
  end.

Lemma out_hung_app bl o val bl' q b a : out_hung bl o val bl' -> app_block bl q b a -> app_block bl' q b a.
Proof.
  destruct o as [q2|]; [|by intros ->]. intros (b2 & v & [Hb2 Hd2] & _ & ->) [Hb Hd]. split; [|done].
  unfold put_kv. rewrite lookup_insert_ne; [done|]. intros ->. rewrite Hb in Hb2. injection Hb2 as <-. by rewrite Hd in Hd2.
Qed.

Lemma extract_run k rm c val code sm rc sig mesg out tail q b a bl bl1 w s ses pb :
  mem_ok s -> response k rm c val -> formatted rm c code sm rc sig mesg out tail ->
  kio_ckapp k = Some q -> app_block bl q b a -> out_hung bl (ka_outkey a) val bl1 ->
  extract_exec k rm (St w s bl ses pb) =
    Ok (code, St w (adv 3 (cmd_blocks c + 2) s) (put_app bl1 q b (answered a sm rc sig out tail)) ses pb).
Proof.
  intros Hs [(pdu & Hv & _) _ _ _ _] Hf Hq Ha Ho. unfold extract_exec. rewrite Hq.
  erewrite bind_Ok by by eapply app_rd_run. cbv beta.
  pose proof (out_hung_app _ _ _ _ _ _ _ Ho Ha) as Ha1.
  erewrite bind_Ok; [by eapply extract_exec_run|]. unfold out_hung in Ho.
  destruct (ka_outkey a) as [q2|]; [|by rewrite Ho]. destruct Ho as (b2 & v & Hkv & Hfull & ->). rewrite Hv.
  erewrite bind_Ok by done. cbv beta. change (Z.of_nat KIOV_VAL) with 2. erewrite bind_Ok by apply array_rd_2.
  by apply hang_value_run.
Qed.

Lemma free_exec_run k rm c val krc w s bl ses pb :
  response k rm c val ->
  exists rl, free_exec_recvmsg k krc (St w s bl ses pb) =
    Ok (rl, St (drop_live (if krc =? K_OK then 3 else 3 + vec_block val) w) s bl ses pb).
Proof.
  intros [(pdu & Hv & _) Hc _ _ _]. unfold free_exec_recvmsg. rewrite Hv, Hc. change (Z.to_nat 3) with 3%nat.
  eexists. cbn [exec_recv_loop]. change (0 <? KM_CNT_NOVAL) with true. change (0 + 1 <? KM_CNT_NOVAL) with true.
  change (0 + 1 + 1 <? KM_CNT_NOVAL) with false. cbn [orb]. rewrite ?bind_assoc.
  erewrite bind_Ok by apply array_rd_0. cbv beta. rewrite ?bind_assoc. erewrite bind_Ok by apply free_base_run. cbv beta.
  rewrite ?bind_assoc. erewrite bind_Ok by apply array_rd_1. cbv beta. rewrite ?bind_assoc.
  erewrite bind_Ok by apply free_base_run. cbv beta. rewrite ?bind_assoc. erewrite bind_Ok by apply array_rd_2. cbv beta.
  rewrite ?bind_assoc.
  erewrite (bind_Ok (if negb (krc =? K_OK) then _ else _) _ _ tt
    (St (drop_live (if krc =? K_OK then 2 else 2 + vec_block val) w) s bl ses pb)).
  2: { rewrite drop_drop. change (vec_block _ + vec_block _) with 2. destruct (krc =? K_OK); [done|]. cbn [negb].
       rewrite free_base_run, drop_drop. done. }
  cbv beta. rewrite bind_ret. cbv beta. erewrite bind_Ok by apply free_buf_run. unfold mret, ST_ret.
  rewrite drop_drop. do 3 f_equal. f_equal. destruct (krc =? K_OK); lia.
Qed.

Lemma kind_applet : kind_of KMT_APPLET = Some OpExec.
Proof.
  pose proof KMT_APPLET_new as H. cbn [existsb] in H. rewrite !orb_false_iff in H.
  destruct H as (H1&H2&H3&H4&H5&H6&H7&H8&H9&H10&H11&H12&H13&H14&_). unfold kind_of, get_command, altkv_needed.
  by rewrite H1, H2, H3, H4, H5, H7, H10, H11, Z.eqb_refl.
Qed.

Lemma complete_exec_run w ktd cq l ex i e p k cf sp vals s bl ses pb ksn rm c val code sm rc sig mesg out tail q b a bl1 :
  completed w ktd cq l ex i e p k cf sp -> kio_st k = KIO_RECEIVED ->
  sent_request k vals -> response k rm c val -> ses !! sp = Some ksn -> mem_ok s ->
  kio_ckapp k = Some q -> app_block bl q b a -> out_hung bl (ka_outkey a) val bl1 ->
  formatted rm c code sm rc sig mesg out tail ->
  exists w' s' ksn' l', complete_of OpExec ktd (Some p) (St w s bl ses pb) =
      Ok ((code, None), St w' s' (put_app bl1 q b (answered a sm rc sig out tail)) (<[sp := ksn']> ses) pb) /\
    contents l' = delete i (contents l) /\ w_queues w' = <[cq := KtliQueue (Some l') false ex]> (w_queues w) /\
    w_kios w' = delete p (w_kios w) /\ stats_only ksn ksn' /\
    m_live s' + w_live w' =
      m_live s + w_live w - 4 - (if code =? K_OK then 3 else 3 + vec_block val) + cmd_blocks c + 2.
Proof.
  intros Hc Hst Hsent Hr Hses Hs Hq Ha Ho Hf. rewrite complete_of_closing.
  destruct (completing_run _ _ _ _ _ _ _ _ _ _ _ OpExec (closing OpExec) s bl ses pb Hc (or_introl Hst)) as (w' & T & ->).
  destruct (taken_kio _ _ _ _ _ _ _ _ T) as (k' & Hk' & Hsame & Hst' & Hdel).
  pose proof (same_resp _ _ _ _ _ Hsame Hr) as Hr'.
  assert (kio_ckapp k' = Some q) as Hq' by (destruct Hsame as [(_&_&_&_&_&_&_&_&_&H) _]; by rewrite H).
  destruct (response_status_run k' rm c val (extract_exec k') code w' s 3 (cmd_blocks c + 2) bl
    (put_app bl1 q b (answered a sm rc sig out tail)) ses pb pb Hs Hr') as [n Hrest].
  { intros s' Hs'. by eapply extract_run. }
  destruct (free_exec_run k' rm c val code w' (adv n (cmd_blocks c + 2) s)
    (put_app bl1 q b (answered a sm rc sig out tail)) ses pb Hr') as [rl Hfree].
  destruct (closing_received_run OpExec w' (drop_live (if code =? K_OK then 3 else 3 + vec_block val) w') p k' vals code s
    (adv n (cmd_blocks c + 2) s) bl (put_app bl1 q b (answered a sm rc sig out tail)) ses pb pb sp ksn) as (w2 & ksn' & E & Hw & Hks);
    [done|by rewrite Hst'|by eapply same_sent|done|exact Hrest|by eexists|done|by auto|].
  destruct (taken_gone _ _ _ _ _ _ _ _ _ _ _ T eq_refl Hw) as (l' & Hl & Hqs & Hkios & Hlive & _).
  eexists _, _, ksn', l'. rewrite E. split; [done|]. split_and!; try done.
  rewrite Hlive, !adv_live. destruct (code =? K_OK); lia.
Qed.

(** C13: An applet whose answer arrived is completed with the drive's status and
    no context.  From an answer in the format <rc>:<sig>:<mesg>:<stdout>, with
    its terminator inside the field, the caller's applet takes the result
    code, the signal, the output and the status message exactly as the drive
    wrote them, and as the length of the output one more than its bytes plus
    what follows the terminator; the output key, when there is one, takes the
    received value itself.  The kio leaves the completion queue, the request's
    four blocks and KTLI's buffers are given back, all but the value when the
    status is success; the two strings are the caller's, and the blocks of the
    unpacked command stay allocated though nothing points to them. *)
Theorem exec_complete w ktd cq l ex i e p k cf sp vals s bl ses pb ksn r rm c val code sm rc sig mesg out tail q b a bl1 :
  completed w ktd cq l ex i e p k cf sp -> kio_st k = KIO_RECEIVED -> kio_cmd k = KMT_APPLET ->
  sent_request k vals -> response k rm c val -> ses !! sp = Some ksn -> mem_ok s ->
  kio_ckapp k = Some q -> app_block bl q b a -> out_hung bl (ka_outkey a) val bl1 ->
  formatted rm c code sm rc sig mesg out tail ->
  let a' := answered a sm rc sig out tail in
  exists w' s' ksn' l', ki_aio_complete ktd (Some p) r (St w s bl ses pb) =
      Ok ((code, None), St w' s' (put_app bl1 q b a') (<[sp := ksn']> ses) pb) /\
    (ka_rc a' = rc /\ ka_sig a' = sig /\ ka_msg a' = Some sm /\ ka_stdout a' = Some out /\
     ka_stdoutlen a' = u32 (zlen out + 1 + zlen tail)) /\
    contents l' = delete i (contents l) /\ w_queues w' = <[cq := KtliQueue (Some l') false ex]> (w_queues w) /\
    w_kios w' = delete p (w_kios w) /\ stats_only ksn ksn' /\
    m_live s' + w_live w' =
      m_live s + w_live w - 4 - (if code =? K_OK then 3 else 3 + vec_block val) + cmd_blocks c + 2.
Proof.
  intros Hc Hst Hcmd Hsent Hr Hses Hs Hq Ha Ho Hf a'.
  rewrite (dispatch_kind _ _ _ _ _ _ _ _ k OpExec) by (by apply Hc || by rewrite Hcmd, kind_applet).
  destruct (complete_exec_run w ktd cq l ex i e p k cf sp vals s bl ses pb ksn rm c val code sm rc sig mesg out tail q b a bl1)
    as (w' & s' & ksn' & l' & E & H); try done.
  exists w', s', ksn', l'. split; [exact E|]. destruct H as (?&?&?&?&?). by split_and!.
Qed.
End complete.
