(* ===== verification/Blocking.v ===== *)
(** The blocking calls from end to end: a request is queued, the caller polls,
    the response comes back, the status is returned.  What the other threads do
    in the meantime is any sequence of worlds the polls and receives lead
    through. *)

From stdpp Require Import gmap.
From S2P Require Import Prelude Types ListApi Session KtliState Ktli KtliSpec Pdu Keys Ktb Validate.
From S2P Require Import ProtoData Proto ProtoSpec Stat Op OpFrame Put Del Get Noop Batch Exec Aio OpSpec OpRequest OpComplete.

Section blocking.
Context {LA : ListApi} {LL : ListLaws} {X : Type} {PG : ProtoGen} {PL : ProtoLaws} {SZ : Sizes}.

Notation opst := (@opst LA X).
Notation world := (@world LA X).
Notation OP := (ST opst).
Notation St w s bl ses pb := (@Opst LA X w (Heap s bl) ses pb).
Implicit Types (w : world) (s : mem) (k : kio ptr).

(** The blocking form of a call, and the kind of operation it is *)
Definition blocking (call : request_call) asleep pf fuel ktd : OP Z :=
  match call with
  | CallPut kbp kvp verck => p_put_generic asleep pf fuel ktd kvp kbp verck
  | CallDel kbp kvp verck => d_del_generic asleep pf fuel ktd kvp kbp verck
  | CallGet kvp altkv t => g_get_generic asleep pf fuel ktd kvp altkv t
  | CallNoop => n_noop_generic asleep pf fuel ktd
  | CallFlush => f_flush_generic asleep pf fuel ktd
  | CallBatch kbp t r => b_batch_generic asleep pf fuel ktd kbp t r r
  end.
Definition call_kind (call : request_call) : op_kind :=
  match call with
  | CallPut _ _ _ => OpPut | CallDel _ _ _ => OpDel | CallGet _ _ _ => OpGet | CallNoop => OpNoop | CallFlush => OpFlush
  | CallBatch _ _ _ => OpExec
  end.
Definition finished (kop : op_kind) (ktd : Z) (kio : option ptr) : OP Z := '(ks, _) ← complete_of kop ktd kio; mret ks.

Lemma blocking_shape call asleep pf fuel ktd :
  match call with CallBatch _ _ _ => False | _ => True end ->
  blocking call asleep pf fuel ktd =
    ('(ks, kio) ← initiate call ktd None true;
     if negb (ks =? K_OK) then mret ks else wait_loop (finished (call_kind call) ktd kio) asleep pf ktd fuel 0).
Proof. by destruct call. Qed.

(** ** The loop *)

(** The kio [p] is out, on a session whose configuration is in place. *)
Record out w (ktd : Z) (p : ptr) : Prop := {
  ou_at : exists x cf cfg, session_at w ktd x /\ ks_config x = Some cf /\ w_configs w !! cf = Some cfg;
  ou_kio : exists k, w_kios w !! p = Some k /\ kio_magic k = KIO_MAGIC }.

Definition timed_out (r : Z) w : bool := (r <? 1) && (w_errno w =? ETIMEDOUT).

(** [n] rounds that brought nothing, from the [i]-th on: the poll timed out, or
    woke up for other responses; then a poll after which the caller completes. *)
Inductive turns (asleep : nat -> nat -> ST world Z) (pf : nat) (ktd : Z) (p : ptr) : nat -> nat -> world -> world -> Prop :=
  | turns_here i w r w1 :
      ktli_poll (asleep i) pf ktd 100 w = Ok (r, w1) -> timed_out r w1 = false -> turns asleep pf ktd p i 0 w w1
  | turns_timeout i n w r w1 w' :
      ktli_poll (asleep i) pf ktd 100 w = Ok (r, w1) -> timed_out r w1 = true ->
      turns asleep pf ktd p (S i) n w1 w' -> turns asleep pf ktd p i (S n) w w'
  | turns_other i n w r w1 rc w2 w' :
      ktli_poll (asleep i) pf ktd 100 w = Ok (r, w1) -> timed_out r w1 = false -> out w1 ktd p ->
      ktli_receive ktd p w1 = Ok (rc, w2) -> rc < 0 -> w_errno w2 = ENOENT ->
      turns asleep pf ktd p (S i) n w2 w' -> turns asleep pf ktd p i (S n) w w'.

Lemma not_yet_run kop w ktd p rc w' s bl ses pb :
  out w ktd p -> ktli_receive ktd p w = Ok (rc, w') -> rc < 0 -> w_errno w' = ENOENT ->
  finished kop ktd (Some p) (St w s bl ses pb) = Ok (K_EAGAIN, St w' s bl ses pb).
Proof.
  intros [(x & cf & cfg & Hx & Hcf & Hcfg) (k & Hk & Hm)] Hrc Hneg Herr.
  unfold finished. rewrite complete_of_closing. unfold completing.
  assert (kio_bad (Some p) (St w s bl ses pb) = Ok (false, St w s bl ses pb)) as Ebad.
  { unfold kio_bad. erewrite bind_Ok by by apply on_w_run, kio_rd_run. cbv beta. by rewrite Hm. }
  assert (ktli_config ktd w = Ok ((0, Some cf), w)) as Ecf by (unfold ktli_config; by ksteps).
  erewrite bind_Ok.
  2: { erewrite bind_Ok by exact Ebad. cbv beta iota. erewrite bind_Ok by done. cbv beta.
       erewrite bind_Ok by (apply on_w_run; exact Ecf). cbv beta iota. cbn [Z.ltb Z.compare].
       erewrite bind_Ok. 2:{ unfold cfg_rd, deref_st. cbn. rewrite Hcfg. reflexivity. } cbv beta.
       erewrite bind_Ok. 2:{ unfold receive_kio. erewrite bind_Ok by (apply on_w_run; exact Hrc). cbv beta.
         replace (rc <? 0) with true by lia. erewrite bind_Ok by done. cbv beta. cbn [o_w]. by rewrite Herr, Z.eqb_refl. }
       reflexivity. }
  done.
Qed.

(** A completion that does not say "again" ends the wait. *)
Lemma wait_loop_run kop asleep pf ktd p i0 n w w1 fuel s bl ses pb ks o' :
  turns asleep pf ktd p i0 n w w1 -> (n < fuel)%nat ->
  finished kop ktd (Some p) (St w1 s bl ses pb) = Ok (ks, o') -> ks <> K_EAGAIN ->
  wait_loop (finished kop ktd (Some p)) asleep pf ktd fuel i0 (St w s bl ses pb) = Ok (ks, o').
Proof.
  intros Hw Hf Hdone Hks. revert fuel Hf.
  induction Hw as [i0 w r w1 Hp Ht|i0 n w r w1 w' Hp Ht Hw IH|i0 n w r w1 rc w2 w' Hp Ht Hout Hrc Hneg Herr Hw IH];
    intros [|fuel] Hf; try lia; cbn [wait_loop]; erewrite bind_Ok by (apply on_w_run; exact Hp); cbv beta;
    erewrite bind_Ok by done; cbv beta; cbn [o_w]; unfold timed_out in Ht; rewrite Ht.
  - erewrite bind_Ok by exact Hdone. cbv beta. by rewrite (proj2 (Z.eqb_neq ks K_EAGAIN)).
  - apply IH; [done|lia].
  - erewrite bind_Ok by by eapply not_yet_run. cbv beta. rewrite Z.eqb_refl. apply IH; [done|lia].
Qed.

Lemma finished_run kop ktd kio o ks cx o' : complete_of kop ktd kio o = Ok ((ks, cx), o') -> finished kop ktd kio o = Ok (ks, o').
Proof. intros E. unfold finished. by erewrite bind_Ok by exact E. Qed.

(** *** The caller's kv *)
Lemma ready_readable bl kvp v verck lim key bs :
  kv_at bl kvp v verck lim -> key_ready v key bs ->
  kv_readable v /\ exists hd tl, kv_key v = Some (hd :: tl).
Proof.
  intros (q & b & _ & _ & _ & _ & _ & Hval & Hok) (Hk & Hcnt & Hv & Hne & _). split.
  - split; [exists key; split; [done|lia]|]. intros _. unfold kv_valid in Hok.
    rewrite !andb_true_iff in Hok. destruct Hok as (((((((_&Hvv)&_)&_)&_)&_)&_)&_). cbn [negb orb] in Hvv.
    destruct (kv_val v) as [val|]; [|done]. exists val. split; [done|]. cbn in Hval. lia.
  - destruct key as [|hd tl]; [|by eexists _, _]. inversion Hv; subst. done.
Qed.

Lemma call_caller call bl lim v key bs k q b :
  call_ready call bl lim v key bs ->
  fills (call_kind call) = true -> made_for call None k -> call_kv call = Some q -> kv_block bl q b v ->
  caller_kv k bl q b v.
Proof.
  intros Hcall Hf (_ & _ & _ & Hkv & _ & Hkb) Hq Hb. rewrite Hq in Hkv.
  assert (kv_readable v /\ exists hd tl, kv_key v = Some (hd :: tl)) as [H1 H2].
  { destruct call as [kbp kvp verck|kbp kvp verck|kvp altkv t| | |]; try done;
      destruct Hcall as (_ & Hat & Hkey); by eapply ready_readable. }
  by split_and!.
Qed.

Lemma call_kind_of call bl lim v key bs :
  call_ready call bl lim v key bs -> kind_of (call_type call) = Some (call_kind call) /\ call_kind call <> OpExec.
Proof.
  intros Hcall. destruct call as [| |kvp altkv t| | |]; try (by split); try done.
  destruct Hcall as (Ht & _). split; [|done]. cbn. unfold kind_of. rewrite Ht.
  destruct (t =? KMT_PUT) eqn:E; [apply Z.eqb_eq in E; by subst|].
  destruct (t =? KMT_DEL) eqn:E'; [apply Z.eqb_eq in E'; by subst|done].
Qed.

(** ** The calls *)
Section calls.
Context (w : world) (s : mem) (bl : gmap ptr ktb) (ses : gmap ptr ksession) (pb : gmap ptr kproto_cmd_t).
Context (ktd : Z) (sq : ptr) (l : clist) (ex : Z) (cf : ptr) (cfg : KtliState.ktli_config) (hkey : buffer).
Context (sp : ptr) (ksn : ksession) (v : kv) (key : list kiovec) (bs : list buffer) (call : request_call).
Context (Hs : mem_ok s) (Hready : session_ready w ktd sq l ex cf cfg hkey)
  (Hsp : kcfg_pconf cfg = Some sp) (Hses : ses !! sp = Some ksn) (Hcall : call_ready call bl (ks_l ksn) v key bs)
  (Hid : -2 ^ 63 <= kcfg_id cfg < 2 ^ 63).

Notation c := (call_command call (set_kch_type (call_type call) (ks_ch ksn)) v (concat bs)).
Context (Hc : cmd_wf c).

(** The request is queued, and the rest is the wait. *)
Lemma blocking_queued :
  exists w1 n k1, queued w sq l ex (w_next w) k1 w1 /\ made_for call None k1 /\
    km_msg (kio_sendmsg k1) = Some (wire (request_pdu (request_msg (kcfg_id cfg) hkey c) (call_vals call v))
      (request_msg (kcfg_id cfg) hkey c) (call_vals call v)) /\
    km_cnt (kio_sendmsg k1) = 2 + zlen (call_vals call v) /\ KIOF_ISSET k1 KIOF_REQONLY = false /\
    initiate call ktd None true (St w s bl ses pb) = Ok ((K_OK, Some (w_next w)), St w1 (adv n 4 s) bl ses pb) /\
    forall asleep pf fuel, blocking call asleep pf fuel ktd (St w s bl ses pb) =
      wait_loop (finished (call_kind call) ktd (Some (w_next w))) asleep pf ktd fuel 0 (St w1 (adv n 4 s) bl ses pb).
Proof.
  destruct (call_queues w s bl ses pb ktd sq l ex cf cfg hkey sp ksn None v key bs Hs Hready Hsp Hses call Hcall Hc
    (request_msg_wf _ _ _ Hid)) as (w1 & n & k1 & E & Q & Hmsg & Hcnt & Hfor & Hfl).
  exists w1, n, k1. split_and!; [done|done|done|done|done|done|]. intros asleep pf fuel.
  rewrite blocking_shape by by destruct call. erewrite bind_Ok by exact E. cbv beta iota. by rewrite Z.eqb_refl.
Qed.

End calls.

(** The wait of a call without value to receive, and of a get, once the kio is
    back with its response *)
Lemma wait_call_run call asleep pf fuel ktd p n w1 w2 cq lc exc i e k cf sp rm rc val q b j s bl ses pb ksn lim v key bs :
  turns asleep pf ktd p 0 n w1 w2 -> (n < fuel)%nat -> completed w2 ktd cq lc exc i e p k cf sp ->
  call_ready call bl lim v key bs -> call_kind call <> OpGet -> mem_ok s -> ses !! sp = Some ksn ->
  made_for call None k -> sent_request k (call_vals call v) -> kio_st k = KIO_RECEIVED -> response k rm rc val ->
  let kop := call_kind call in
  (fills kop = true -> call_kv call = Some q /\ kv_block bl q b v) -> status_of kop rc v <> K_EAGAIN ->
  exists w3 s3 ksn' lc', wait_loop (finished kop ktd (Some p)) asleep pf ktd fuel 0 (St w1 (adv j 4 s) bl ses pb) =
      Ok (status_of kop rc v, St w3 s3 (kvs_after kop rc bl q b v) (<[sp := ksn']> ses) (held_after kop rc q pb)) /\
    contents lc' = delete i (contents lc) /\ w_queues w3 = <[cq := KtliQueue (Some lc') false exc]> (w_queues w2) /\
    w_kios w3 = delete p (w_kios w2) /\ stats_only ksn ksn' /\
    m_live s3 + w_live w3 = m_live s + w_live w2 - (3 + vec_block val) + held_blocks kop rc v /\
    mem_ok s3 /\ same_session w2 w3.
Proof.
  intros Hw Hn Hdone Hcall Hget Hs Hses Hfor Hsent Hst Hresp kop Hkv Hks.
  destruct (call_kind_of call bl _ v key bs Hcall) as [_ Hne].
  destruct (complete_received_run w2 ktd cq lc exc i e p k cf sp (call_vals call v) (adv j 4 s) bl ses pb ksn kop rm rc val q b v
    Hdone Hst Hsent Hresp Hses (adv_ok _ _ _ Hs) Hne Hget) as (w3 & s3 & ksn' & lc' & Ec & Hl & Hq & Hk & Hst' & Hlive & Hms & Hss).
  { intros Hf. destruct (Hkv Hf) as [H1 H2]. by eapply call_caller. }
  exists w3, s3, ksn', lc'. split.
  - eapply wait_loop_run; [exact Hw|done| |done]. by eapply finished_run.
  - split_and!; try done. rewrite adv_live in Hlive. lia.
Qed.

Lemma wait_get_run asleep pf fuel ktd p n w1 w2 cq lc exc i e k cf sp rm rc val kvp altkv t q b vq q1 b1 j s bl ses pb ksn v lim key bs :
  let call := CallGet kvp altkv t in
  turns asleep pf ktd p 0 n w1 w2 -> (n < fuel)%nat -> completed w2 ktd cq lc exc i e p k cf sp ->
  call_ready call bl lim v key bs -> mem_ok s -> ses !! sp = Some ksn ->
  value_cmd t = true -> (if t =? KMT_GET then kvp else altkv) = Some q -> kv_block bl q b vq -> full_vecs vq ->
  kvp = Some q1 -> kv_block bl q1 b1 v -> kv_metaonly v = 0 ->
  made_for call None k -> sent_request k [] -> kio_st k = KIO_RECEIVED -> response k rm rc val ->
  let a := kv_answer rc got (hung val vq) in
  a.1 <> K_EAGAIN ->
  exists w3 s3 ksn' lc', wait_loop (finished OpGet ktd (Some p)) asleep pf ktd fuel 0 (St w1 (adv j 4 s) bl ses pb) =
      Ok (a.1, St w3 s3 (put_kv bl q b a.2) (<[sp := ksn']> ses) (<[q := rc]> pb)) /\
    contents lc' = delete i (contents lc) /\ w_queues w3 = <[cq := KtliQueue (Some lc') false exc]> (w_queues w2) /\
    w_kios w3 = delete p (w_kios w2) /\ stats_only ksn ksn' /\
    m_live s3 + w_live w3 = m_live s + w_live w2 - 3 - (if a.1 =? K_OK then 0 else vec_block val) + cmd_blocks rc /\
    mem_ok s3 /\ same_session w2 w3.
Proof.
  intros call Hw Hn Hdone Hcall Hs Hses Hval Hq Hb Hfull Hq1 Hb1 Hmeta Hfor Hsent Hst Hresp a Hks.
  pose proof Hfor as (_ & Hcmd & _ & Hkv & Halt & _). cbn in Hcmd, Hkv, Halt.
  destruct Hcall as (_ & Hat & Hkey & _). destruct (ready_readable bl kvp v false _ key bs Hat Hkey) as [Hread _].
  destruct (complete_get_run w2 ktd cq lc exc i e p k cf sp [] (adv j 4 s) bl ses pb ksn rm rc val q b vq q1 b1 v
    Hdone Hst Hsent Hresp Hses (adv_ok _ _ _ Hs)) as (w3 & s3 & ksn' & lc' & Ec & Hl & Hqs & Hk & Hst' & Hlive & Hms & Hss); try done.
  { by rewrite Hcmd. }
  { unfold get_target. by rewrite Hcmd, Hkv, Halt. }
  { by rewrite Hkv. }
  exists w3, s3, ksn', lc'. split.
  - eapply (wait_loop_run OpGet); [exact Hw|done| |exact Hks]. by eapply finished_run.
  - split_and!; try done. rewrite adv_live in Hlive. fold a in Hlive. destruct (a.1 =? K_OK); lia.
Qed.


(** C8: A blocking call whose kio times out, or is failed by KTLI, answers
    K_ETIMEDOUT or K_ENOMSG, puts, deletes, gets, noops and flushes alike: the
    caller's kv is as it was, no response is held, the kio is gone, and every
    block the request took is given back. *)
Theorem blocking_without_response w s bl ses pb ktd sq l ex cf cfg hkey sp ksn v key bs call :
  mem_ok s -> session_ready w ktd sq l ex cf cfg hkey -> kcfg_pconf cfg = Some sp -> ses !! sp = Some ksn ->
  call_ready call bl (ks_l ksn) v key bs -> -2 ^ 63 <= kcfg_id cfg < 2 ^ 63 ->
  cmd_wf (call_command call (set_kch_type (call_type call) (ks_ch ksn)) v (concat bs)) ->
  exists w1 k1, queued w sq l ex (w_next w) k1 w1 /\ made_for call None k1 /\
  forall asleep pf fuel n w2 cq lc exc i e k,
    turns asleep pf ktd (w_next w) 0 n w1 w2 -> (n < fuel)%nat -> completed w2 ktd cq lc exc i e (w_next w) k cf sp ->
    sent_request k (call_vals call v) -> kio_st k = KIO_TIMEDOUT \/ kio_st k = KIO_FAILED -> kio_recvmsg k = kio_msg0 ->
    exists w3 j ksn' lc', blocking call asleep pf fuel ktd (St w s bl ses pb) =
        Ok (no_response (kio_st k), St w3 (adv j 0 s) bl (<[sp := ksn']> ses) pb) /\
      contents lc' = delete i (contents lc) /\ w_queues w3 = <[cq := KtliQueue (Some lc') false exc]> (w_queues w2) /\
      w_kios w3 = delete (w_next w) (w_kios w2) /\ w_live w3 = w_live w2 /\ stats_only ksn ksn'.
Proof.
  intros Hs Hready Hsp Hses Hcall Hid Hc.
  destruct (blocking_queued w s bl ses pb ktd sq l ex cf cfg hkey sp ksn v key bs call Hs Hready Hsp Hses Hcall Hid Hc)
    as (w1 & j & k1 & Q & Hfor1 & _ & _ & _ & _ & E).
  exists w1, k1. split; [done|]. split; [done|].
  intros asleep pf fuel n w2 cq lc exc i e k Hw Hn Hdone Hsent Hst Hrecv.
  destruct (complete_failed_run w2 ktd cq lc exc i e (w_next w) k cf sp (call_vals call v) (adv j 4 s) bl ses pb ksn (call_kind call)
    Hdone Hst Hsent Hrecv Hses) as (w3 & lc' & Ec & Hl & Hq & Hk & Hlive).
  rewrite adv_adv in Ec. eexists w3, j, _, lc'. rewrite E. split.
  - eapply wait_loop_run; [exact Hw|done|by eapply finished_run|by destruct Hst as [-> | ->]].
  - by split_and!.
Qed.

(** A get (or get next, get previous) from end to end: as for the other
    calls, and when the drive's status is success the first value vector of the
    caller's kv (of its alternate kv for next and previous) is the received
    buffer itself, its key, version, tag and algorithm are taken from the
    response where its own pointers left them open, and the buffer is the one
    block of the answer, beside the response, that is not freed. *)
Theorem blocking_get_spec w s bl ses pb ktd sq l ex cf cfg hkey sp ksn v key bs kvp altkv t q b vq q1 b1 :
  let call := CallGet kvp altkv t in
  mem_ok s -> session_ready w ktd sq l ex cf cfg hkey -> kcfg_pconf cfg = Some sp -> ses !! sp = Some ksn ->
  call_ready call bl (ks_l ksn) v key bs -> -2 ^ 63 <= kcfg_id cfg < 2 ^ 63 ->
  cmd_wf (call_command call (set_kch_type t (ks_ch ksn)) v (concat bs)) ->
  value_cmd t = true -> (if t =? KMT_GET then kvp else altkv) = Some q -> kv_block bl q b vq -> full_vecs vq ->
  kvp = Some q1 -> kv_block bl q1 b1 v -> kv_metaonly v = 0 ->
  exists w1 k1, queued w sq l ex (w_next w) k1 w1 /\ made_for call None k1 /\
  forall asleep pf fuel n w2 cq lc exc i e k rm rc val,
    turns asleep pf ktd (w_next w) 0 n w1 w2 -> (n < fuel)%nat -> completed w2 ktd cq lc exc i e (w_next w) k cf sp ->
    made_for call None k -> sent_request k [] -> kio_st k = KIO_RECEIVED -> response k rm rc val ->
    let a := kv_answer rc got (hung val vq) in
    a.1 <> K_EAGAIN ->
    exists w3 s3 ksn' lc', blocking call asleep pf fuel ktd (St w s bl ses pb) =
        Ok (a.1, St w3 s3 (put_kv bl q b a.2) (<[sp := ksn']> ses) (<[q := rc]> pb)) /\
      contents lc' = delete i (contents lc) /\ w_queues w3 = <[cq := KtliQueue (Some lc') false exc]> (w_queues w2) /\
      w_kios w3 = delete (w_next w) (w_kios w2) /\ stats_only ksn ksn' /\
      m_live s3 + w_live w3 = m_live s + w_live w2 - 3 - (if a.1 =? K_OK then 0 else vec_block val) + cmd_blocks rc.
Proof.
  intros call Hs Hready Hsp Hses Hcall Hid Hc Hval Hq Hb Hfull Hq1 Hb1 Hmeta.
  destruct (blocking_queued w s bl ses pb ktd sq l ex cf cfg hkey sp ksn v key bs call Hs Hready Hsp Hses Hcall Hid Hc)
    as (w1 & j & k1 & Q & Hfor1 & _ & _ & _ & _ & E).
  exists w1, k1. split; [done|]. split; [done|].
  intros asleep pf fuel n w2 cq lc exc i e k rm rc val Hw Hn Hdone Hfor Hsent Hst Hresp a Hks.
  rewrite E. edestruct wait_get_run as (w3 & s3 & ksn' & lc' & H1 & H2 & H3 & H4 & H5 & H6 & _); try done.
  by exists w3, s3, ksn', lc'.
Qed.
End blocking.
