(* ===== verification/SyncSpec.v ===== *)
(** The requests that wait for their own response: the run of [sync_request]
    from the queue of the sender to the status, and what happens to one that
    times out. *)

From stdpp Require Import gmap.
From S2P Require Import Prelude Types ListApi Session KtliState Ktli KtliSpec Pdu Keys Ktb Validate.
From S2P Require Import ProtoData Proto ProtoSpec Stat Op OpFrame Put Del Get Noop Batch Exec Aio Sync OpSpec OpRequest OpComplete.

(** ** Commands whose booleans are flags *)
Section norm.
Context {PG : ProtoGen} {PL : ProtoLaws}.
Implicit Types (s : mem).

Lemma pack_command_norm_run s c :
  mem_ok s -> cmd_wf (norm_cmd c) ->
  pack_kinetic_command c s = Ok (Pbd (zlen (cmd_pack c)) (Some (cmd_pack c)), adv 1 1 s).
Proof.
  intros Hs Hc. unfold pack_kinetic_command. destruct (KI_MALLOC_adv s (cmd_packed_size c) Hs) as (b & E & _).
  erewrite bind_Ok by exact E. cbv beta iota. rewrite <- norm_cmd_readable, cmd_wf_readable by done.
  erewrite bind_Ok by done. cbv beta zeta. by rewrite cmd_packed_size_ok, Z.eqb_refl.
Qed.

Lemma command_norm_run s ch pd body :
  mem_ok s -> stitch_body (kch_type ch) pd = Ok body ->
  let c := Command (Some (extract_to_command_header ch)) (Some body) None in
  cmd_wf (norm_cmd c) -> create_command_bytes ch pd s = Ok (pbd_of (cmd_pack c), adv 1 1 s).
Proof.
  intros Hs Hb c Hc. unfold create_command_bytes. erewrite bind_Ok by by apply lift_Ok. cbv beta.
  fold c. rewrite pack_command_norm_run by done. by rewrite pack_pbd.
Qed.

(** [create] answers the message around [c], and leaves [lost] blocks behind. *)
Definition makes_losing (lost : Z) (create : ST mem (option kproto_msg_t)) (id : Z) (hkey : buffer) (c : kproto_cmd_t) : Prop :=
  forall s, mem_ok s -> exists k, create s = Ok (Some (request_msg id hkey c), adv k (3 + lost) s).

Lemma request_msg_norm id hkey c : request_msg id hkey (norm_cmd c) = request_msg id hkey c.
Proof. unfold request_msg. by rewrite cmd_pack_norm. Qed.

(** What the sender makes of the request [m]: stamped with any sequence number
    it carries a command that says [says], authenticated by the key. *)
Definition stamped_as (says : Z -> kproto_cmd_t -> Prop) (c : kproto_cmd_t) (h : kproto_cmdhdr_t) (id : Z) (hkey : buffer)
    (m : kproto_msg_t) : Prop :=
  forall seq digest s0,
    let c' := stamp_cmd seq c h in
    0 <= seq < 2 ^ 64 -> mem_ok s0 -> HMAC_SHA1 hkey (signed (cmd_pack c')) = Some digest ->
    let m' := stamp_msg seq digest c h (Some id) m in
    zlen (msg_pack m') < 2 ^ 32 ->
    exists s1, ki_setseq (wire (request_pdu m []) m []) 2 seq s0 =
        Ok (wire (Kpdu KP_MAGIC (zlen (msg_pack m')) 0) m' [], s1) /\
      msg_unpack (msg_pack m') = Some m' /\ m_commandbytes m' = Some (pbd_of (cmd_pack c')) /\
      cmd_unpack (cmd_pack c') = Some c' /\ says seq c'.
Lemma request_stamps (says : Z -> kproto_cmd_t -> Prop) c h id hkey :
  -2 ^ 63 <= id < 2 ^ 63 -> zlen hkey < 2 ^ 32 -> cmd_wf c -> c_header c = Some h ->
  (forall seq, says seq (stamp_cmd seq c h)) -> stamped_as says c h id hkey (request_msg id hkey c).
Proof.
  intros Hid Hk Hc Hh Hsay seq digest s0 c' Hseq Hs0 Hd m' Hlen.
  destruct (ki_setseq_run s0 _ c _ _ hkey digest (request_pdu (request_msg id hkey c) []) [] seq Hs0
    (request_msg_request _ _ _ h Hid Hk Hc Hh) (request_pdu_ok _ _) Hseq Hd Hlen) as (Es & Hu & Hb & Huc).
  eexists. split_and!; [exact Es|done|done|done|apply Hsay].
Qed.
End norm.

(** ** The wait *)
Section sync.
Context {LA : ListApi} {LL : ListLaws} {X : Type} {PG : ProtoGen} {PL : ProtoLaws}.

Notation opst := (@opst LA X).
Notation world := (@world LA X).
Notation OP := (ST opst).
Notation St w s bl ses pb := (@Opst LA X w (Heap s bl) ses pb).
Implicit Types (w : world) (k : kio ptr).

(** [waits asleep pf ktd p i n w w']: [n] polls that woke up for other
    responses, from the [i]-th poll on, and one after which the caller looks
    again. *)
Inductive waits (asleep : nat -> nat -> ST world Z) (pf : nat) (ktd : Z) (p : ptr) : nat -> nat -> world -> world -> Prop :=
  | waits_here i w r w1 :
      ktli_poll (asleep i) pf ktd 0 w = Ok (r, w1) -> waits asleep pf ktd p i 0 w w1
  | waits_more i n w r w1 rc w2 w' :
      ktli_poll (asleep i) pf ktd 0 w = Ok (r, w1) -> ktli_receive ktd p w1 = Ok (rc, w2) -> rc < 0 ->
      w_errno w2 = ENOENT -> waits asleep pf ktd p (S i) n w2 w' -> waits asleep pf ktd p i (S n) w w'.

(** A poll that finds something at once *)
Lemma poll_wakes (asleep : nat -> ST world Z) kts x cq w w1 remain l ex fuel t :
  session_at w kts x -> ks_state x = KTLI_SSTATE_CONNECTED -> ks_compq x = Some cq ->
  asleep 0%nat (set_errno_w 0 w) = Ok (remain, w1) -> queue_at w1 cq l ex -> contents l <> [] ->
  ktli_poll asleep (S fuel) kts t w = Ok (0, w1).
Proof.
  intros Hs Hst Hcq Hsl Hq Hne. unfold ktli_poll. ksteps. erewrite poll_loop_step by eauto.
  unfold poll_look. by destruct (contents l).
Qed.

(** The kio [p] came back: it is on the completion queue. *)
Record returned w (ktd : Z) (cq : ptr) (l : clist) (ex : Z) (i : nat) (e p : ptr) k : Prop := {
  rt_at : exists s, session_at w ktd s /\ ks_state s = KTLI_SSTATE_CONNECTED /\ ks_compq s = Some cq;
  rt_queue : queue_at w cq l ex; rt_nodup : NoDup (contents l).*1; rt_elem : contents l !! i = Some (e, p);
  rt_kio : w_kios w !! p = Some k; rt_qbp : kio_qbp k = Some e }.

Lemma sync_receive_run w ktd cq l ex i e p k s bl ses pb :
  returned w ktd cq l ex i e p k -> kio_st k = KIO_RECEIVED \/ kio_st k = KIO_TIMEDOUT \/ kio_st k = KIO_FAILED ->
  exists w', on_w (ktli_receive ktd p) (St w s bl ses pb) = Ok (0, St w' s bl ses pb) /\ taken w cq l ex i p k w'.
Proof.
  intros [(x & Hx & Hst & Hcq) Hq Hnd Hi Hk Hqbp] Hk3.
  destruct (ktli_receive_run w ktd x cq l ex p k e i Hx Hst Hcq Hq Hnd Hi Hk Hqbp Hk3)
    as (w' & l' & k' & E & Hl & Hqs & Hks & Ht & _ & Hst' & Hr & _).
  exists w'. split; [by apply on_w_run|]. apply ktli_receive_frame in E as (Hlive & Hcf & _ & Hk' & Hth).
  rewrite Hks, lookup_insert_eq, Hk in Hk'. inversion Hk'; subst. by exists l', k'.
Qed.

Lemma sync_wait_run asleep pf ktd p i0 n w w1 cq l ex i e k fuel s bl ses pb :
  waits asleep pf ktd p i0 n w w1 -> (n < fuel)%nat -> returned w1 ktd cq l ex i e p k ->
  kio_st k = KIO_RECEIVED \/ kio_st k = KIO_TIMEDOUT \/ kio_st k = KIO_FAILED ->
  exists w2, sync_wait asleep pf ktd p fuel i0 (St w s bl ses pb) = Ok (None, St w2 s bl ses pb) /\
    taken w1 cq l ex i p k w2.
Proof.
  intros Hw Hf Hr Hst. revert fuel Hf. induction Hw as [i0 w r w1 Hp|i0 n w r w1 rc w2 w' Hp Hrc Hneg Herr Hw IH];
    intros [|fuel] Hf; try lia; cbn [sync_wait]; erewrite bind_Ok by (apply on_w_run; exact Hp); cbv beta.
  - destruct (sync_receive_run _ _ _ _ _ _ _ _ _ s bl ses pb Hr Hst) as (w2 & E & T).
    exists w2. split; [|exact T]. by erewrite bind_Ok by exact E.
  - erewrite bind_Ok by (apply on_w_run; exact Hrc). cbv beta. replace (rc <? 0) with true by lia.
    erewrite bind_Ok by done. cbv beta. cbn [o_w]. rewrite Herr, Z.eqb_refl.
    destruct (IH Hr fuel ltac:(lia)) as (w3 & E & T). by exists w3.
Qed.

(** ** The end *)
Lemma rex_sendmsg_run id hkey c w s bl ses pb p k krc :
  c_header c <> None -> w_kios w !! p = Some k -> sent_request k [] ->
  rex_sendmsg (request_msg id hkey c) p krc (St w s bl ses pb) =
    Ok (krc, St (set_kios_w (delete p (w_kios w)) w) (adv 0 (-6) s) bl ses pb).
Proof.
  intros Hc Hk (a & b & Hm & _ & _ & [bb Hb]). unfold rex_sendmsg, rex_req, rex_kio.
  erewrite bind_Ok by by apply on_w_run, kio_rd_run. cbv beta. rewrite Hm. erewrite bind_Ok by done. cbv beta.
  erewrite bind_Ok by apply array_rd_1. cbv beta. rewrite Hb. erewrite bind_Ok by done.
  erewrite bind_Ok by apply free_run. erewrite bind_Ok by apply free_run.
  erewrite bind_Ok by by apply destroy_request_exact. erewrite bind_Ok by apply kio_free_run.
  unfold mret, ST_ret. by rewrite !adv_adv.
Qed.

Lemma rex_recvmsg_run id hkey c w s bl ses pb p k krc rm rc val :
  c_header c <> None -> w_kios w !! p = Some k -> sent_request k [] -> response k rm rc val ->
  rex_recvmsg (request_msg id hkey c) p krc (St w s bl ses pb) =
    Ok (krc, St (set_kios_w (delete p (w_kios w)) (drop_live 3 w)) (adv 0 (-6) s) bl ses pb).
Proof.
  intros Hc Hk Hs [(pdu & Hv & _) _ _ _ _]. unfold rex_recvmsg.
  erewrite bind_Ok by by apply on_w_run, kio_rd_run. cbv beta. rewrite Hv. erewrite bind_Ok by done. cbv beta.
  erewrite bind_Ok by apply array_rd_0. cbv beta. erewrite bind_Ok by apply free_base_run.
  erewrite bind_Ok by apply array_rd_1. cbv beta. erewrite bind_Ok by apply free_base_run.
  erewrite bind_Ok by apply free_buf_run. rewrite !drop_drop. cbn [vec_block kiov_base].
  by erewrite rex_sendmsg_run by done.
Qed.

(** A kio that came back without a response has no received vector; the exit
    reads it all the same. *)
Lemma rex_recvmsg_null w s bl ses pb p k m krc :
  w_kios w !! p = Some k -> kio_recvmsg k = kio_msg0 -> rex_recvmsg m p krc (St w s bl ses pb) = Ub.
Proof.
  intros Hk Hr. unfold rex_recvmsg. erewrite bind_Ok by by apply on_w_run, kio_rd_run. cbv beta. by rewrite Hr.
Qed.

(** What the response became: [ext] gives the status [krc], with [held] blocks
    more alive and the typed buffers as [Q] says. *)
Definition extracts (ext : kproto_msg_t -> OP Z) (rm : kproto_msg_t) (krc held : Z) (bl : gmap ptr ktb)
    (Q : gmap ptr ktb -> Prop) (ses : gmap ptr ksession) (pb pb' : gmap ptr kproto_cmd_t) : Prop :=
  forall w s, mem_ok s -> exists n bl', Q bl' /\ ext rm (St w s bl ses pb) = Ok (krc, St w (adv n held s) bl' ses pb').

Lemma destroy_message_run m w s bl ses pb :
  on_m (destroy_message (Some m)) (St w s bl ses pb) = Ok (tt, St w (adv 0 (- msg_blocks m) s) bl ses pb).
Proof. by apply on_m_run. Qed.

(** Up to the extraction *)
Lemma sync_finish_decode d m w s bl ses pb p k rm rc val :
  mem_ok s -> w_kios w !! p = Some k -> kio_st k = KIO_RECEIVED -> response k rm rc val -> kiov_len val = 0 ->
  sync_finish d m p (St w s bl ses pb) =
    (krc ← sd_extract d rm; on_m (destroy_message (Some rm)) ;; rex_recvmsg m p krc)
      (St w (adv 1 (msg_blocks rm) s) bl ses pb).
Proof.
  intros Hs Hk Hst Hr Hval. pose proof Hr as [(pdu & Hv & Hp & Hm & Hl) _ Hwf _ _]. unfold sync_finish.
  erewrite bind_Ok by by apply on_w_run, kio_rd_run. cbv beta. rewrite Hst. do 2 rewrite bool_decide_false by done.
  rewrite Hv. erewrite bind_Ok by done. cbv beta. change (Z.of_nat KIOV_PDU) with 0. change (Z.of_nat KIOV_MSG) with 1.
  erewrite bind_Ok by apply array_rd_0. cbv beta. cbn [kiov_len kiov_base]. rewrite Z.eqb_refl. cbn [negb].
  erewrite bind_Ok by done. cbv beta.
  erewrite bind_Ok by (apply lift_Ok; rewrite <- (app_nil_r (PACK_PDU pdu)); by apply unpack_packed). cbv beta.
  erewrite bind_Ok by apply array_rd_1. cbv beta. cbn [kiov_len kiov_base].
  rewrite Hl, Hval, Z.add_0_r, Hm, u32_small by (destruct Hp as (_&?&_); lia). rewrite Z.eqb_refl. cbn [negb].
  by erewrite bind_Ok by (apply on_m_run, unpack_message_run; [done|done|apply iov_bytes_full]).
Qed.

Lemma sync_finish_run d id hkey c w s bl Q ses pb pb' p k rm rc val krc held :
  mem_ok s -> c_header c <> None -> w_kios w !! p = Some k -> kio_st k = KIO_RECEIVED -> sent_request k [] ->
  response k rm rc val -> kiov_len val = 0 -> extracts (sd_extract d) rm krc held bl Q ses pb pb' ->
  exists n bl', Q bl' /\ sync_finish d (request_msg id hkey c) p (St w s bl ses pb) =
    Ok (krc, St (set_kios_w (delete p (w_kios w)) (drop_live 3 w)) (adv n (held - 6) s) bl' ses pb').
Proof.
  intros Hs Hc Hk Hst Hsent Hr Hval Hext. erewrite sync_finish_decode by done.
  destruct (Hext w (adv 1 (msg_blocks rm) s) (adv_ok _ _ _ Hs)) as (n & bl' & HQ & E). erewrite bind_Ok by exact E. cbv beta.
  erewrite bind_Ok by apply destroy_message_run. cbv beta.
  erewrite rex_recvmsg_run by done. rewrite !adv_adv.
  match goal with |- context [adv ?n ?l s] => exists n, bl'; split; [exact HQ|]; by replace l with (held - 6) by lia end.
Qed.
Lemma sync_finish_bad d m w s bl ses pb p k rm rc val :
  mem_ok s -> w_kios w !! p = Some k -> kio_st k = KIO_RECEIVED -> response k rm rc val -> kiov_len val = 0 ->
  (forall w s, mem_ok s -> sd_extract d rm (St w s bl ses pb) = Ub) ->
  sync_finish d m p (St w s bl ses pb) = Ub.
Proof.
  intros Hs Hk Hst Hr Hval Hext. erewrite sync_finish_decode by done. unfold mbind, ST_bind at 1.
  by rewrite Hext by by apply adv_ok.
Qed.

(** ** The whole request *)

(** The sender's view of a request: a new kio at the rear of the queue, with the
    PDU and the message [m]. *)
Definition asked w (sq : ptr) (l : clist) (ex : Z) (m : kproto_msg_t) (w1 : world) : Prop :=
  exists k, queued w sq l ex (w_next w) k w1 /\ km_msg (kio_sendmsg k) = Some (wire (request_pdu m []) m []) /\
    km_cnt (kio_sendmsg k) = 2.

Section request.
Context w (s : mem) (bl : gmap ptr ktb) (ses : gmap ptr ksession) (pb : gmap ptr kproto_cmd_t).
Context (ktd : Z) (sq : ptr) (l : clist) (ex : Z) (cf : ptr) (cfg : KtliState.ktli_config) (hkey : buffer).
Context (sp : ptr) (ksn : ksession) (d : @sync_desc LA X) (c : kproto_cmd_t).
Context (lost : Z).
Context (Hs : mem_ok s) (Hready : session_ready w ktd sq l ex cf cfg hkey) (Hses : ses !! sp = Some ksn)
  (Hmk : makes_losing lost (sd_create d (Kmsghdr KAT_HMAC (kcfg_id cfg) (Some hkey) 0 None 0) (set_kch_type (sd_cmd d) (ks_ch ksn)))
           (kcfg_id cfg) hkey c)
  (Hhdr : c_header c <> None) (Hid : -2 ^ 63 <= kcfg_id cfg < 2 ^ 63).

Notation m := (request_msg (kcfg_id cfg) hkey c).

Lemma sync_ask_run :
  exists w1 n, asked w sq l ex m w1 /\ forall asleep pf fuel,
    sync_request asleep pf fuel ktd (Some cf) (Some sp) d (St w s bl ses pb) =
      (r ← sync_wait asleep pf ktd (w_next w) fuel 0;
       match r with Some krc => rex_sendmsg m (w_next w) krc | None => sync_finish d m (w_next w) end)
        (St w1 (adv n (6 + lost) s) bl ses pb).
Proof.
  destruct Hready as [Hat Hq Hm Hcf Hhk Hc]. set (p := w_next w).
  destruct (Hmk (adv 1 1 s) (adv_ok _ _ _ Hs)) as [k1 E1].
  destruct (KI_MALLOC_adv (adv (k1 + 1) (1 + (3 + lost)) s) (sizeof_kiovec * KM_CNT_NOVAL) (adv_ok _ _ _ Hs)) as (b1 & E2 & _).
  destruct (send_queued w ktd sq l ex cf cfg hkey (sync_kio (sd_cmd d) (wire (request_pdu m []) m []))
    (wire (request_pdu m []) m [])) as (w' & E3 & Q); [done|done|done|].
  exists w', (1 + (1 + (k1 + 1)))%nat. split; [by eexists|]. intros asleep pf fuel. unfold sync_request.
  erewrite bind_Ok by by apply kio_alloc_run. cbv beta iota. fold p. set (w1 := set_kios_w _ _).
  erewrite bind_Ok. 2:{ unfold cfg_rd, deref_st. cbn. rewrite Hcf. reflexivity. } cbv beta iota.
  erewrite bind_Ok. 2:{ unfold ses_rd, deref_st. cbn. rewrite Hses. reflexivity. } cbv beta iota zeta.
  rewrite Hhk. erewrite bind_Ok by (apply on_m_run; exact E1). cbv beta iota. rewrite adv_adv.
  erewrite bind_Ok by (apply on_m_run; exact E2). cbv beta iota. rewrite adv_adv.
  erewrite bind_Ok. 2: { apply on_w_run, kio_upd_run. unfold w1. cbn. apply lookup_insert_eq. }
  erewrite bind_Ok by (apply on_m_run, pack_message_run; [by apply adv_ok|by apply request_msg_wf]). cbv beta iota.
  rewrite adv_adv. replace (1 + (3 + lost) + 1 + 1) with (6 + lost) by lia.
  erewrite bind_Ok by (apply on_w_run, kio_upd_run; apply lookup_insert_eq).
  erewrite bind_Ok by (apply on_w_run; rewrite upd_k_k; exact E3). done.
Qed.

(** The response came: the status is what [ext] makes of it, and the memory is
    what it was, apart from what [ext] keeps. *)
Lemma sync_request_run :
  exists w1, asked w sq l ex m w1 /\
  forall asleep pf fuel n w2 cq lc exc i e k rm rc val Q pb' krc held,
    waits asleep pf ktd (w_next w) 0 n w1 w2 -> (n < fuel)%nat -> returned w2 ktd cq lc exc i e (w_next w) k ->
    kio_st k = KIO_RECEIVED -> sent_request k [] -> response k rm rc val -> kiov_len val = 0 ->
    extracts (sd_extract d) rm krc held bl Q ses pb pb' ->
    exists w3 j lc' bl', Q bl' /\ sync_request asleep pf fuel ktd (Some cf) (Some sp) d (St w s bl ses pb) =
        Ok (krc, St w3 (adv j (held + lost) s) bl' ses pb') /\
      contents lc' = delete i (contents lc) /\ w_queues w3 = <[cq := KtliQueue (Some lc') false exc]> (w_queues w2) /\
      w_kios w3 = delete (w_next w) (w_kios w2) /\ w_live w3 = w_live w2 - 3.
Proof.
  destruct sync_ask_run as (w1 & j & Hask & E). exists w1. split; [exact Hask|].
  intros asleep pf fuel n w2 cq lc exc i e k rm rc val Q pb' krc held Hw Hn Hr Hst Hsent Hresp Hval Hext.
  rewrite E. destruct (sync_wait_run _ _ _ _ _ _ _ _ _ _ _ _ _ _ fuel (adv j (6 + lost) s) bl ses pb Hw Hn Hr (or_introl Hst))
    as (w3 & Ew & T).
  erewrite bind_Ok by exact Ew. cbv beta iota.
  destruct (taken_kio _ _ _ _ _ _ _ _ T) as (k' & Hk' & Hsame & Hst' & Hdel).
  destruct (sync_finish_run d (kcfg_id cfg) hkey c w3 (adv j (6 + lost) s) bl Q ses pb pb' (w_next w) k' rm rc val krc held)
    as (j' & bl' & HQ & Ef); [done|done|done|by rewrite Hst'|by eapply same_sent|by eapply same_resp|done|done|].
  rewrite adv_adv in Ef. replace (6 + lost + (held - 6)) with (held + lost) in Ef by lia.
  destruct T as (lc' & k'' & Hl & Hq & _ & _ & _ & Hlive & _).
  eexists _, _, lc', bl'. split; [exact HQ|]. split; [exact Ef|]. split_and!; [done|done|exact Hdel|cbn; by rewrite Hlive].
Qed.

(** The response came, and what the caller makes of it has no meaning. *)
Lemma sync_request_bad :
  exists w1, asked w sq l ex m w1 /\
  forall asleep pf fuel n w2 cq lc exc i e k rm rc val,
    waits asleep pf ktd (w_next w) 0 n w1 w2 -> (n < fuel)%nat -> returned w2 ktd cq lc exc i e (w_next w) k ->
    kio_st k = KIO_RECEIVED -> response k rm rc val -> kiov_len val = 0 ->
    (forall w s, mem_ok s -> sd_extract d rm (St w s bl ses pb) = Ub) ->
    sync_request asleep pf fuel ktd (Some cf) (Some sp) d (St w s bl ses pb) = Ub.
Proof.
  destruct sync_ask_run as (w1 & j & Hask & E). exists w1. split; [exact Hask|].
  intros asleep pf fuel n w2 cq lc exc i e k rm rc val Hw Hn Hr Hst Hresp Hval Hext.
  rewrite E. destruct (sync_wait_run _ _ _ _ _ _ _ _ _ _ _ _ _ _ fuel (adv j (6 + lost) s) bl ses pb Hw Hn Hr (or_introl Hst))
    as (w3 & Ew & T).
  erewrite bind_Ok by exact Ew. cbv beta iota.
  destruct (taken_kio _ _ _ _ _ _ _ _ T) as (k' & Hk' & Hsame & Hst' & _).
  eapply sync_finish_bad; [by apply adv_ok|exact Hk'|by rewrite Hst'|by eapply same_resp|done|done].
Qed.

(** No response came: the caller's wait ends in a read through NULL. *)
Lemma sync_request_lost :
  exists w1, asked w sq l ex m w1 /\
  forall asleep pf fuel n w2 cq lc exc i e k,
    waits asleep pf ktd (w_next w) 0 n w1 w2 -> (n < fuel)%nat -> returned w2 ktd cq lc exc i e (w_next w) k ->
    kio_st k = KIO_TIMEDOUT \/ kio_st k = KIO_FAILED -> kio_recvmsg k = kio_msg0 ->
    sync_request asleep pf fuel ktd (Some cf) (Some sp) d (St w s bl ses pb) = Ub.
Proof.
  destruct sync_ask_run as (w1 & j & Hask & E). exists w1. split; [exact Hask|].
  intros asleep pf fuel n w2 cq lc exc i e k Hw Hn Hr Hst Hrecv.
  rewrite E. destruct (sync_wait_run _ _ _ _ _ _ _ _ _ _ _ _ _ _ fuel (adv j (6 + lost) s) bl ses pb Hw Hn Hr (or_intror Hst))
    as (w3 & Ew & T).
  erewrite bind_Ok by exact Ew. cbv beta iota.
  destruct (taken_kio _ _ _ _ _ _ _ _ T) as (k' & Hk' & [_ Hsame] & Hst' & _).
  unfold sync_finish. erewrite bind_Ok by by apply on_w_run, kio_rd_run. cbv beta. rewrite Hst'.
  rewrite Hrecv in Hsame. destruct Hst as [-> | ->].
  - rewrite bool_decide_true by done. by eapply rex_recvmsg_null.
  - rewrite bool_decide_false, bool_decide_true by done. by eapply rex_recvmsg_null.
Qed.
End request.
End sync.
