(* ===== verification/RangeSpec.v ===== *)
(** Key ranges: what [ki_getrange] asks the drive, and what it makes of the
    answer. *)

From stdpp Require Import gmap.
From S2P Require Import Prelude Types ListApi Session KtliState Ktli KtliSpec Pdu Keys Ktb Validate.
From S2P Require Import ProtoData Proto ProtoSpec Stat Op OpFrame OpSpec OpRequest OpComplete Sync SyncSpec Range.

(** ** The request *)
Section message.
Context {PG : ProtoGen} {PL : ProtoLaws}.
Implicit Types (s : mem) (r : krange).

(** A bound of a range, as the bytes of its key *)
Definition range_bound (key : option (list kiovec)) (cnt : Z) (b : option buffer) : Prop :=
  match key, b with
  | None, None => True
  | Some key, Some b => exists bs, cnt = zlen key /\ vec_bytes key bs /\ concat bs = b /\ b <> [] /\ zlen b < 2 ^ 64
  | _, _ => False
  end.
Definition bound_blocks (b : option buffer) : Z := match b with Some _ => 1 | None => 0 end.

Lemma bound_count key cnt b : range_bound key cnt b -> Validate.count_ok key cnt.
Proof. destruct key, b; [|done..]. by intros (bs & -> & _). Qed.
Lemma bound_run s key cnt b :
  mem_ok s -> range_bound key cnt b ->
  exists n, keyname_to_proto key cnt s = Ok (pbd_of <$> b, adv n (bound_blocks b) s).
Proof.
  intros Hs Hb. destruct key as [key|], b as [b|]; try done.
  - destruct Hb as (bs & -> & Hv & <- & Hne & Hlt). eexists. by rewrite (keyname_run s key bs).
  - exists 0%nat. by rewrite adv_0.
Qed.
Lemma free_bound b key cnt s :
  range_bound key cnt b -> free_data ((pbd_of <$> b) ≫= pb_data) s = Ok (tt, adv 0 (- bound_blocks b) s).
Proof.
  destruct key, b as [b|]; try done; intros Hb.
  - destruct Hb as (_&_&_&_&Hb&_). by apply free_pbd.
  - cbn. unfold mret, ST_ret. by rewrite adv_0.
Qed.

Definition range_command (ch : kcmdhdr_t) r (b1 b2 : option buffer) : kproto_cmd_t :=
  Command (Some (extract_to_command_header ch))
    (Some (Body None (Some (range_body (pbd_of <$> b1) (pbd_of <$> b2) r)) None None None)) None.

Lemma create_range_makes id hkey ch r b1 b2 :
  c_string hkey -> kch_type ch = KMT_GETRANGE ->
  range_bound (kr_start r) (kr_startcnt r) b1 -> range_bound (kr_end r) (kr_endcnt r) b2 ->
  cmd_wf (norm_cmd (range_command ch r b1 b2)) ->
  makes (create_rangekey_message (Kmsghdr KAT_HMAC id (Some hkey) 0 None 0) ch r) id hkey (range_command ch r b1 b2).
Proof.
  intros Hkey Ht H1 H2 Hc s Hs. unfold create_rangekey_message.
  destruct (bound_run s _ _ _ Hs H1) as [n1 E1]. erewrite bind_Ok by exact E1. cbv beta.
  destruct (bound_run (adv n1 (bound_blocks b1) s) _ _ _ (adv_ok _ _ _ Hs) H2) as [n2 E2].
  erewrite bind_Ok by exact E2. cbv beta. rewrite adv_adv.
  erewrite bind_Ok by (eapply command_norm_run; [by apply adv_ok|by rewrite Ht|exact Hc]). cbv beta. rewrite adv_adv.
  erewrite bind_Ok by by eapply free_bound. erewrite bind_Ok by by eapply free_bound. rewrite !adv_adv.
  rewrite message_run by done. rewrite adv_adv. eexists. do 3 f_equal. lia.
Qed.

(** What the drive is asked for, field by field: the session's header with the
    type of the operation and the sequence number; the two bounds, whether each
    is in the range, the direction, and how many keys at most. *)
Definition asks_range (ses : ksession) r (b1 b2 : option buffer) (seq : Z) (c : kproto_cmd_t) : Prop :=
  (exists h, c_header c = Some h /\ h_messagetype h = Some KMT_GETRANGE /\ h_sequence h = Some seq /\
     h_clusterversion h = Some (kch_clustvers (ks_ch ses)) /\ h_connectionid h = Some (kch_connid (ks_ch ses))) /\
  exists g, c_body c = Some (Body None (Some g) None None None) /\
    rg_startkey g = pbd_of <$> b1 /\ rg_endkey g = pbd_of <$> b2 /\
    rg_startkeyinclusive g = Some (if KR_ISTART r =? 0 then 0 else 1) /\
    rg_endkeyinclusive g = Some (if KR_IEND r =? 0 then 0 else 1) /\
    rg_reverse g = Some (if KR_REVERSE r =? 0 then 0 else 1) /\
    rg_maxreturned g = Some (u32 (if kr_count r =? KVR_COUNT_INF then kl_rangekeycnt (ks_l ses) else kr_count r)) /\
    rg_keys g = [].

(** The range a request is made for *)
Definition counted (ses : ksession) r : krange :=
  if kr_count r =? KVR_COUNT_INF then set_kr_count (i32 (kl_rangekeycnt (ks_l ses))) r else r.

Lemma range_asks ses r b1 b2 seq :
  let ch := set_kch_type KMT_GETRANGE (ks_ch ses) in
  let c := norm_cmd (range_command ch (counted ses r) b1 b2) in
  asks_range ses r b1 b2 seq (stamp_cmd seq c (norm_hdr (extract_to_command_header ch))).
Proof.
  intros ch c. split; [by eexists|]. eexists. split; [reflexivity|]. unfold counted.
  destruct (kr_count r =? KVR_COUNT_INF); split_and!; try done. cbn. f_equal. apply u32_i32.
Qed.

(** *** The answer *)
Definition pbd_vec (d : ProtobufCBinaryData) : kiovec := Kiovec (pb_data d) (pb_len d).

(** Status, range, and the blocks that stay: the response hangs on the range
    whatever the status. *)
Definition range_answer (rc : kproto_cmd_t) r : Z * krange * Z :=
  let code := extract_cmdstatus_code (Some rc) in
  if code =? K_OK then
    match c_body rc ≫= b_range with
    | Some g => (K_OK, set_kr_keys (Some (pbd_vec <$> rg_keys g)) (zlen (rg_keys g)) r, cmd_blocks rc + 1)
    | None => (K_EINTERNAL, r, cmd_blocks rc)
    end
  else (code, r, cmd_blocks rc).
(** The array of the keys has a size an [int] can hold. *)
Definition keys_fit (rc : kproto_cmd_t) : Prop :=
  forall g, c_body rc ≫= b_range = Some g -> 16 * zlen (rg_keys g) < 2 ^ 31.
End message.

(** ** [ki_getrange] *)
Section range.
Context {LA : ListApi} {LL : ListLaws} {X : Type} {PG : ProtoGen} {PL : ProtoLaws} {SZ : Sizes}.

Notation opst := (@opst LA X).
Notation world := (@world LA X).
Notation St w s bl ses pb := (@Opst LA X w (Heap s bl) ses pb).
Implicit Types (w : world) (s : mem).

Definition put_block (bl : gmap ptr ktb) (q : ptr) (b : ktb) (r : krange) : gmap ptr ktb :=
  <[q := set_ktb_buf (DRange r) b]> bl.
Lemma put_block_same bl q b r : bl !! q = Some b -> ktb_buf b = DRange r -> put_block bl q b r = bl.
Proof. intros Hb Hd. unfold put_block. apply insert_id. rewrite Hb. f_equal. destruct b. cbn in Hd. by subst. Qed.

Lemma kr_rd_run bl q b r w s ses pb :
  bl !! q = Some b -> ktb_buf b = DRange r -> kr_rd (Some q) (St w s bl ses pb) = Ok (r, St w s bl ses pb).
Proof. intros Hb Hd. unfold kr_rd. erewrite bind_Ok by done. apply on_h_run. by eapply get_range_run. Qed.
Lemma kr_wr_run bl q b r r' w s ses pb :
  bl !! q = Some b -> ktb_buf b = DRange r ->
  kr_wr (Some q) r' (St w s bl ses pb) = Ok (tt, St w s (put_block bl q b r') ses pb).
Proof.
  intros Hb Hd. unfold kr_wr. erewrite bind_Ok by done. cbv beta. unfold on_h. cbn [o_heap].
  erewrite put_range_run by done. done.
Qed.

Lemma extract_keyrange_run rm rc q b r bl ses pb :
  bl !! q = Some b -> ktb_buf b = DRange r ->
  m_commandbytes rm = Some (pbd_of (cmd_pack rc)) -> cmd_wf rc -> keys_fit rc ->
  let '(krc, r', held) := range_answer rc r in
  extracts (X:=X) (fun m => extract_keyrange m (Some q)) rm krc held bl (eq (put_block bl q b r')) ses pb (<[q := rc]> pb).
Proof.
  intros Hb Hd Hm Hc Hfit. destruct (range_answer rc r) as [[krc r'] held] eqn:E. intros w s Hs. unfold extract_keyrange.
  rewrite Hm. erewrite bind_Ok by (apply on_m_run; eapply unpack_command_run; [done|done|apply pbd_of_bytes]). cbv beta iota.
  erewrite bind_Ok by by eapply kr_rd_run. cbv beta. erewrite bind_Ok by done. erewrite bind_Ok by done. cbv beta zeta.
  cbn [o_w o_heap o_ses o_pb]. unfold range_answer in E.
  destruct (extract_cmdstatus_code (Some rc) =? K_OK) eqn:Ek; cbn [negb].
  2: { simplify_eq. rewrite put_block_same by done. by do 2 eexists. }
  destruct (c_body rc ≫= b_range) as [g|] eqn:Eg; simplify_eq.
  2: { rewrite put_block_same by done. by do 2 eexists. }
  pose proof (Hfit _ Eg) as Hn. pose proof (zlen_nonneg (rg_keys g)).
  destruct (KI_MALLOC_adv (adv 1 (cmd_blocks rc) s) (u64 (i32 (sizeof_kiovec * zlen (rg_keys g)))) (adv_ok _ _ _ Hs))
    as (arr & Ea & Hlen).
  erewrite bind_Ok by (apply on_m_run; exact Ea). cbv beta iota. rewrite adv_adv.
  assert (zlen arr = 16 * zlen (rg_keys g)) as ->.
  { rewrite Hlen. unfold sizeof_kiovec. rewrite i32_small, u64_small by lia. lia. }
  unfold sizeof_kiovec. rewrite Z.leb_refl. erewrite bind_Ok by done.
  erewrite bind_Ok by by eapply kr_wr_run. apply Z.eqb_eq in Ek. rewrite Ek. by do 2 eexists.
Qed.

(** What a call finds: a valid range on a connected session *)
Record range_ready (bl : gmap ptr ktb) (q : ptr) (b : ktb) (r : krange) (b1 b2 : option buffer) (lim : klimits) : Prop := {
  rr_block : bl !! q = Some b; rr_wf : block_wf b; rr_range : ktb_buf b = DRange r;
  rr_start : range_bound (kr_start r) (kr_startcnt r) b1; rr_end : range_bound (kr_end r) (kr_endcnt r) b2;
  rr_count : - 2 ^ 31 <= kr_count r < 2 ^ 31; rr_valid : range_valid r lim = true }.

Section call.
Context w s (bl : gmap ptr ktb) (ses : gmap ptr ksession) (pb : gmap ptr kproto_cmd_t).
Context (ktd : Z) (sq : ptr) (l : clist) (ex : Z) (cf : ptr) (cfg : KtliState.ktli_config) (hkey : buffer).
Context (sp : ptr) (ksn : ksession) (q : ptr) (b : ktb) (r : krange) (b1 b2 : option buffer).
Context (Hs : mem_ok s) (Hready : session_ready w ktd sq l ex cf cfg hkey)
  (Hsp : kcfg_pconf cfg = Some sp) (Hses : ses !! sp = Some ksn) (Hr : range_ready bl q b r b1 b2 (ks_l ksn))
  (Hid : -2 ^ 63 <= kcfg_id cfg < 2 ^ 63).

Notation ch := (set_kch_type KMT_GETRANGE (ks_ch ksn)).
Notation c := (range_command ch (counted ksn r) b1 b2).
Notation d := (@SyncDesc LA X KMT_GETRANGE (fun mh ch => create_rangekey_message mh ch (counted ksn r))
                 (fun m => extract_keyrange m (Some q))).

Lemma ki_getrange_sync asleep pf fuel :
  ki_getrange asleep pf fuel ktd (Some q) (St w s bl ses pb) =
    sync_request asleep pf fuel ktd (Some cf) (Some sp) d (St w s (put_block bl q b (counted ksn r)) ses pb).
Proof.
  destruct Hr as [Hb Hwf Hd H1 H2 Hcnt Hv]. unfold ki_getrange.
  erewrite bind_Ok by (apply on_w_run; by eapply ktli_config_run). cbv beta iota. cbn [Z.ltb Z.compare].
  erewrite bind_Ok. 2:{ unfold cfg_rd, deref_st. cbn. rewrite (sr_config _ _ _ _ _ _ _ _ Hready). reflexivity. }
  cbv beta zeta. rewrite Hsp.
  erewrite bind_Ok. 2:{ unfold ses_rd, deref_st. cbn. rewrite Hses. reflexivity. } cbv beta.
  erewrite bind_Ok.
  2: { apply on_h_run. rewrite (ki_validate_range_run (Heap s bl) q b r (ks_l ksn)); eauto using bound_count. }
  rewrite Hv. cbn [Z.ltb Z.compare]. erewrite bind_Ok by by eapply kr_rd_run. cbv beta.
  erewrite (bind_Ok _ _ _ tt (St w s (put_block bl q b (counted ksn r)) ses pb)).
  2: { unfold counted. destruct (kr_count r =? KVR_COUNT_INF); [by erewrite kr_wr_run|by rewrite put_block_same]. }
  erewrite bind_Ok by (eapply kr_rd_run; [apply lookup_insert_eq|done]). done.
Qed.

Lemma counted_bound : range_bound (kr_start (counted ksn r)) (kr_startcnt (counted ksn r)) b1 /\
  range_bound (kr_end (counted ksn r)) (kr_endcnt (counted ksn r)) b2.
Proof. destruct Hr. unfold counted. by destruct (_ =? _). Qed.
Lemma range_makes : cmd_wf (norm_cmd c) ->
  makes_losing 0 (create_rangekey_message (Kmsghdr KAT_HMAC (kcfg_id cfg) (Some hkey) 0 None 0) ch (counted ksn r)) (kcfg_id cfg) hkey c.
Proof. intros. apply create_range_makes; [apply Hready|done|apply counted_bound|apply counted_bound|done]. Qed.
End call.

(** C9: [ki_getrange] on a valid range of a connected session, with memory to
    spare, queues one request: the drive is asked, under the sequence number the
    sender stamps, for the two bounds of the range, whether each belongs to it,
    the direction, and the caller's count, the limit of the session when the
    caller asked for all.  Whatever the waits in between, when the response
    comes the call answers its status (K_EINTERNAL for K_OK without a range);
    on K_OK the range holds exactly the keys of the response, in its order; the
    response stays hung on the range, every other block of the request is given
    back, the kio is gone, and of the received buffers the one of the empty
    value alone is left. *)
Theorem ki_getrange_spec w s bl ses pb ktd sq l ex cf cfg hkey sp ksn q b r b1 b2 :
  mem_ok s -> session_ready w ktd sq l ex cf cfg hkey -> kcfg_pconf cfg = Some sp -> ses !! sp = Some ksn ->
  range_ready bl q b r b1 b2 (ks_l ksn) -> -2 ^ 63 <= kcfg_id cfg < 2 ^ 63 -> zlen hkey < 2 ^ 32 ->
  let c := range_command (set_kch_type KMT_GETRANGE (ks_ch ksn)) (counted ksn r) b1 b2 in
  let m := request_msg (kcfg_id cfg) hkey c in
  let p := w_next w in
  cmd_wf (norm_cmd c) ->
  let h := norm_hdr (extract_to_command_header (set_kch_type KMT_GETRANGE (ks_ch ksn))) in
  exists w1, asked w sq l ex m w1 /\ stamped_as (asks_range ksn r b1 b2) (norm_cmd c) h (kcfg_id cfg) hkey m /\
  forall asleep pf fuel n w2 cq lc exc i e k rm rc val,
    waits asleep pf ktd p 0 n w1 w2 -> (n < fuel)%nat -> returned w2 ktd cq lc exc i e p k ->
    kio_st k = KIO_RECEIVED -> sent_request k [] -> response k rm rc val -> kiov_len val = 0 -> keys_fit rc ->
    let '(krc, r', held) := range_answer rc (counted ksn r) in
    exists w3 j lc', ki_getrange asleep pf fuel ktd (Some q) (St w s bl ses pb) =
        Ok (krc, St w3 (adv j held s) (put_block bl q b r') ses (<[q := rc]> pb)) /\
      contents lc' = delete i (contents lc) /\ w_queues w3 = <[cq := KtliQueue (Some lc') false exc]> (w_queues w2) /\
      w_kios w3 = delete p (w_kios w2) /\ w_live w3 = w_live w2 - 3.
Proof.
  intros Hs Hready Hsp Hses Hr Hid Hk c m p Hc h. set (bl1 := put_block bl q b (counted ksn r)).
  destruct (sync_request_run w s bl1 ses pb ktd sq l ex cf cfg hkey sp ksn
    (SyncDesc KMT_GETRANGE (fun mh ch => create_rangekey_message mh ch (counted ksn r)) (fun m => extract_keyrange m (Some q)))
    c 0 Hs Hready Hses) as (w1 & Hask & Hrun); [by eapply range_makes|done|done|].
  exists w1. split; [exact Hask|]. split.
  { unfold m. rewrite <- request_msg_norm. apply request_stamps; [done..|apply range_asks]. }
  intros asleep pf fuel n w2 cq lc exc i e k rm rc val Hw Hn Hret Hst Hsent Hresp Hval Hfit.
  pose proof Hresp as [_ _ _ Hb Hrc].
  pose proof (extract_keyrange_run rm rc q (set_ktb_buf (DRange (counted ksn r)) b) (counted ksn r) bl1 ses pb
    (lookup_insert_eq _ _ _) eq_refl Hb Hrc Hfit) as Hext.
  destruct (range_answer rc (counted ksn r)) as [[krc r'] held].
  destruct (Hrun asleep pf fuel n w2 cq lc exc i e k rm rc val _ _ krc held Hw Hn Hret Hst Hsent Hresp Hval Hext)
    as (w3 & j & lc' & bl' & <- & E & Hpost).
  exists w3, j, lc'. split; [|exact Hpost]. erewrite ki_getrange_sync by done. fold bl1. rewrite E.
  unfold bl1, put_block. by rewrite insert_insert_eq, Z.add_0_r.
Qed.

(** C29: A key range request that times out, or that KTLI fails, has no defined
    end: [ki_getrange] has found the state of the kio, K_ETIMEDOUT or K_ENOMSG
    is the status it means to return, but the clean-up it jumps to reads the
    vector of a response that never came. *)
Theorem ki_getrange_without_response w s bl ses pb ktd sq l ex cf cfg hkey sp ksn q b r b1 b2 :
  mem_ok s -> session_ready w ktd sq l ex cf cfg hkey -> kcfg_pconf cfg = Some sp -> ses !! sp = Some ksn ->
  range_ready bl q b r b1 b2 (ks_l ksn) -> -2 ^ 63 <= kcfg_id cfg < 2 ^ 63 ->
  let c := range_command (set_kch_type KMT_GETRANGE (ks_ch ksn)) (counted ksn r) b1 b2 in
  cmd_wf (norm_cmd c) ->
  exists w1, asked w sq l ex (request_msg (kcfg_id cfg) hkey c) w1 /\
  forall asleep pf fuel n w2 cq lc exc i e k,
    waits asleep pf ktd (w_next w) 0 n w1 w2 -> (n < fuel)%nat -> returned w2 ktd cq lc exc i e (w_next w) k ->
    kio_st k = KIO_TIMEDOUT \/ kio_st k = KIO_FAILED -> kio_recvmsg k = kio_msg0 ->
    ki_getrange asleep pf fuel ktd (Some q) (St w s bl ses pb) = Ub.
Proof.
  intros Hs Hready Hsp Hses Hr Hid c Hc.
  destruct (sync_request_lost w s (put_block bl q b (counted ksn r)) ses pb ktd sq l ex cf cfg hkey sp ksn
    (SyncDesc KMT_GETRANGE (fun mh ch => create_rangekey_message mh ch (counted ksn r)) (fun m => extract_keyrange m (Some q)))
    c 0 Hs Hready Hses) as (w1 & Hask & Hrun); [by eapply range_makes|done|].
  exists w1. split; [exact Hask|].
  intros asleep pf fuel n w2 cq lc exc i e k Hw Hn Hret Hst Hrecv.
  erewrite ki_getrange_sync by done. by eapply Hrun.
Qed.
End range.
