(* ===== verification/GetlogSpec.v ===== *)
(** Log requests: what [extract_getlog] makes of a response, and what
    [ki_getlog] does with it. *)

From stdpp Require Import gmap.
From S2P Require Import Prelude Types ListApi Session KtliState Ktli KtliSpec Pdu Keys Ktb Validate.
From S2P Require Import ProtoData Proto ProtoSpec Stat Op OpFrame OpSpec OpRequest OpComplete Sync SyncSpec Getlog.

(** ** What a log is after a response

    [stored o v]: [v] is the field [o] of the response, if it has it. *)
Definition stored {A} (o : option A) (v : A) : Prop := forall a, o = Some a -> v = a.
(** A binary field becomes a C string. *)
Definition str_stored (o : option ProtobufCBinaryData) (v : option buffer) : Prop :=
  forall d, o = Some d -> exists bs, pbd_bytes d = Ok bs /\ v = Some (bs ++ [0]).
(** A repeated field becomes an array, NULL when it is empty, and its count. *)
Definition vec_logged {A B} (R : A -> B -> Prop) (l : list A) (o : option (list B)) (cnt : Z) : Prop :=
  cnt = zlen l /\ match l with [] => o = None | _ => exists ks, o = Some ks /\ Forall2 R l ks end.

Definition util_logged (u : kproto_utilization_t) (k : kutilization) : Prop :=
  ku_name k = ut_name u /\ stored (ut_value u) (ku_value k).
Definition temp_logged (t : kproto_temperature_t) (k : ktemperature) : Prop :=
  kt_name k = te_name t /\ stored (te_current t) (kt_cur k) /\ stored (te_minimum t) (kt_min k) /\
  stored (te_maximum t) (kt_max k) /\ stored (te_target t) (kt_target k).
Definition stat_logged (s : kproto_statistics_t) (k : kstatistics) : Prop :=
  stored (sx_messagetype s) (ks_mtype k) /\ stored (sx_count s) (ks_cnt k) /\ stored (sx_bytes s) (ks_bytes k) /\
  stored (sx_maxlatency s) (ks_maxlatency k).
Definition if_logged (i : kproto_interface_t) (k : kinterface) : Prop :=
  ki_name k = in_name i /\ str_stored (in_mac i) (ki_mac k) /\ str_stored (in_ipv4address i) (ki_ipv4 k) /\
  str_stored (in_ipv6address i) (ki_ipv6 k).

(** The configuration; what it lacks is as it [old] was. *)
Definition conf_logged (config : option kproto_configuration_t) (old conf : kconfiguration) : Prop :=
  match config with
  | None => conf = kconfiguration0
  | Some c =>
      kcf_vendor conf = cf_vendor c /\ kcf_model conf = cf_model c /\ kcf_version conf = cf_version c /\
      kcf_compdate conf = cf_compilationdate c /\ kcf_srchash conf = cf_sourcehash c /\
      kcf_proto conf = cf_protocolversion c /\ kcf_protocompdate conf = cf_protocolcompilationdate c /\
      kcf_protosrchash conf = cf_protocolsourcehash c /\
      str_stored (cf_serialnumber c) (kcf_serial conf) /\ (cf_serialnumber c = None -> kcf_serial conf = kcf_serial old) /\
      str_stored (cf_worldwidename c) (kcf_wwn conf) /\ (cf_worldwidename c = None -> kcf_wwn conf = kcf_wwn old) /\
      vec_logged if_logged (cf_interface c) (kcf_interfaces conf) (kcf_interfacescnt conf) /\
      kcf_port conf = default (kcf_port old) (cf_port c) /\ kcf_tlsport conf = default (kcf_tlsport old) (cf_tlsport c) /\
      kcf_power conf = default (kcf_power old) (cf_currentpowerlevel c)
  end.
(** The limits; one the response lacks is zero. *)
Definition limits_logged (o : option kproto_limits_t) (l : klimits) : Prop :=
  match o with
  | None => l = klimits0
  | Some p =>
      kl_keylen l = default 0 (li_maxkeysize p) /\ kl_vallen l = default 0 (li_maxvaluesize p) /\
      kl_verlen l = default 0 (li_maxversionsize p) /\ kl_disumlen l = default 0 (li_maxtagsize p) /\
      kl_msglen l = default 0 (li_maxmessagesize p) /\ kl_pinlen l = default 0 (li_maxpinsize p) /\
      kl_batlen l = default 0 (li_maxbatchsize p) /\ kl_pendrdcnt l = default 0 (li_maxoutstandingreadrequests p) /\
      kl_pendwrcnt l = default 0 (li_maxoutstandingwriterequests p) /\ kl_conncnt l = default 0 (li_maxconnections p) /\
      kl_idcnt l = default 0 (li_maxidentitycount p) /\ kl_rangekeycnt l = default 0 (li_maxkeyrangecount p) /\
      kl_batopscnt l = default 0 (li_maxoperationcountperbatch p) /\ kl_batdelcnt l = default 0 (li_maxdeletesperbatch p) /\
      kl_devbatcnt l = default 0 (li_maxbatchcountperdevice p)
  end.

(** [logged g old l]: the log [l] is the response [g]; the messages, the
    capacity and the device name it lacks are those of [old]. *)
Record logged (g : kproto_getlog_t) (old l : kgetlog) : Prop := {
  lg_types : vec_logged eq (gl_types g) (kgl_type l) (kgl_typecnt l);
  lg_util : vec_logged util_logged (gl_utilizations g) (kgl_util l) (kgl_utilcnt l);
  lg_temp : vec_logged temp_logged (gl_temperatures g) (kgl_temp l) (kgl_tempcnt l);
  lg_stat : vec_logged stat_logged (gl_statistics g) (kgl_stat l) (kgl_statcnt l);
  lg_msgs : (kgl_msgs l, kgl_msgslen l) =
    match gl_messages g with Some d => (pb_data d, pb_len d) | None => (kgl_msgs old, kgl_msgslen old) end;
  lg_cap : kgl_cap l = match gl_capacity g with
    | Some c => Kcapacity (default (kc_total (kgl_cap old)) (ca_nominal c)) (default (kc_used (kgl_cap old)) (ca_portionfull c))
    | None => kgl_cap old end;
  lg_conf : conf_logged (gl_configuration g) (kgl_conf old) (kgl_conf l);
  lg_limits : limits_logged (gl_limits g) (kgl_limits l);
  lg_name : (kdl_name l, kdl_len l) =
    match gl_device g ≫= dv_name with Some d => (pb_data d, pb_len d) | None => (kdl_name old, kdl_len old) end }.

(** ** The blocks of a log *)
Definition str_blocks (o : option ProtobufCBinaryData) : Z := match o with Some _ => 1 | None => 0 end.
Definition vec_blocks {A} (l : list A) : Z := match l with [] => 0 | _ => 1 end.
Definition if_strings (l : list kproto_interface_t) : Z :=
  zsum ((fun i => str_blocks (in_mac i) + str_blocks (in_ipv4address i) + str_blocks (in_ipv6address i)) <$> l).
Definition conf_blocks (config : option kproto_configuration_t) : Z :=
  match config with
  | None => 0
  | Some c => str_blocks (cf_serialnumber c) + str_blocks (cf_worldwidename c) + vec_blocks (cf_interface c)
  end.
Definition conf_strings (config : option kproto_configuration_t) : Z :=
  match config with None => 0 | Some c => if_strings (cf_interface c) end.
Definition log_blocks (g : kproto_getlog_t) : Z :=
  vec_blocks (gl_utilizations g) + vec_blocks (gl_temperatures g) + vec_blocks (gl_statistics g) +
  conf_blocks (gl_configuration g).
(** Every count fits an [int]. *)
Definition counts_fit (g : kproto_getlog_t) : Prop :=
  zlen (gl_utilizations g) < 2 ^ 31 /\ zlen (gl_temperatures g) < 2 ^ 31 /\ zlen (gl_statistics g) < 2 ^ 31 /\
  forall c, gl_configuration g = Some c -> zlen (cf_interface c) < 2 ^ 31.

(** ** The loops *)
Lemma stored_default {A} (d : A) o : stored o (default d o).
Proof. by intros a ->. Qed.

Lemma fill_utilizations_logged arr l i : Forall2 util_logged l (fill_utilizations arr l i).
Proof. revert i. induction l as [|u l IH]; intros i; constructor; [split; [done|apply stored_default]|apply IH]. Qed.
Lemma fill_temperatures_logged arr l i : Forall2 temp_logged l (fill_temperatures arr l i).
Proof. revert i. induction l as [|u l IH]; intros i; constructor; [split_and!; (done || apply stored_default)|apply IH]. Qed.
Lemma fill_statistics_logged arr l i : Forall2 stat_logged l (fill_statistics arr l i).
Proof. revert i. induction l as [|u l IH]; intros i; constructor; [split_and!; apply stored_default|apply IH]. Qed.

(** An extraction that filled an array, or left NULL for none *)
Lemma vec_logged_nil {A B} (R : A -> B -> Prop) : vec_logged R [] None (u32 (zlen (@nil A))).
Proof. by split. Qed.
Lemma vec_logged_cons {A B} (R : A -> B -> Prop) x l ks :
  zlen (x :: l) < 2 ^ 31 -> Forall2 R (x :: l) ks -> vec_logged R (x :: l) (Some ks) (u32 (zlen (x :: l))).
Proof. intros Hl HR. split; [|by eexists]. rewrite u32_small; [done|]. pose proof (zlen_nonneg (x :: l)). lia. Qed.

Section extract.
Context {PG : ProtoGen}.
Implicit Types (s : mem) (g : glog_st).

Lemma int_count_run {A} (l : list A) s : zlen l < 2 ^ 31 -> int_count l s = Ok (tt, s).
Proof. intros H. unfold int_count, assert_st. by rewrite (proj2 (Z.ltb_lt _ _) H). Qed.

Lemma extract_utilizations_run us s g :
  mem_ok s -> zlen us < 2 ^ 31 ->
  exists o n, extract_utilizations us g s =
    Ok ((0, own_arrays (non_null o) (gs_temp g) (gs_stat g) (upd_log (set_kgl_util o (u32 (zlen us))) g)),
        adv n (vec_blocks us) s) /\ vec_logged util_logged us o (u32 (zlen us)).
Proof.
  intros Hs Hn. destruct us as [|u us].
  - exists None, 0%nat. cbn [vec_blocks]. rewrite adv_0. split; [done|apply vec_logged_nil].
  - unfold extract_utilizations.
    destruct (KI_MALLOC_adv s (u64 (sizeof_kutilization * zlen (u :: us))) Hs) as (arr & E & _).
    eexists (Some _), _. erewrite bind_Ok by exact E. cbv beta iota. erewrite bind_Ok by by apply int_count_run.
    split; [done|]. apply vec_logged_cons; [done|apply fill_utilizations_logged].
Qed.
Lemma extract_temperatures_run ts s g :
  mem_ok s -> zlen ts < 2 ^ 31 ->
  exists o n, extract_temperatures ts g s =
    Ok ((0, own_arrays (gs_util g) (non_null o) (gs_stat g) (upd_log (set_kgl_temp o (u32 (zlen ts))) g)),
        adv n (vec_blocks ts) s) /\ vec_logged temp_logged ts o (u32 (zlen ts)).
Proof.
  intros Hs Hn. destruct ts as [|t ts].
  - exists None, 0%nat. cbn [vec_blocks]. rewrite adv_0. split; [done|apply vec_logged_nil].
  - unfold extract_temperatures.
    destruct (KI_MALLOC_adv s (u64 (sizeof_ktemperature * zlen (t :: ts))) Hs) as (arr & E & _).
    eexists (Some _), _. erewrite bind_Ok by exact E. cbv beta iota. erewrite bind_Ok by by apply int_count_run.
    split; [done|]. apply vec_logged_cons; [done|apply fill_temperatures_logged].
Qed.
Lemma extract_statistics_run ts s g :
  mem_ok s -> zlen ts < 2 ^ 31 ->
  exists o n, extract_statistics ts g s =
    Ok ((0, own_arrays (gs_util g) (gs_temp g) (non_null o) (upd_log (set_kgl_stat o (u32 (zlen ts))) g)),
        adv n (vec_blocks ts) s) /\ vec_logged stat_logged ts o (u32 (zlen ts)).
Proof.
  intros Hs Hn. destruct ts as [|t ts].
  - exists None, 0%nat. cbn [vec_blocks]. rewrite adv_0. split; [done|apply vec_logged_nil].
  - unfold extract_statistics.
    destruct (KI_MALLOC_adv s (u64 (sizeof_kstatistics * zlen (t :: ts))) Hs) as (arr & E & _).
    eexists (Some _), _. erewrite bind_Ok by exact E. cbv beta iota. erewrite bind_Ok by by apply int_count_run.
    split; [done|]. apply vec_logged_cons; [done|apply fill_statistics_logged].
Qed.

(** *** Strings, interfaces, configuration *)
Lemma bytes_to_str_run o old s :
  mem_ok s -> is_bin o ->
  exists v n, bytes_to_str o old s = Ok (v, adv n (str_blocks o) s) /\ str_stored o v /\
    (o = None -> v = old) /\ (o <> None -> non_null v = true).
Proof.
  intros Hs Ho. destruct o as [d|].
  - destruct (Ho d eq_refl) as [b ->]. destruct (KI_MALLOC_adv s (pb_len (pbd_of b) + 1) Hs) as (x & E & _).
    exists (Some (b ++ [0])). eexists. unfold bytes_to_str, helper_bytes_to_str. erewrite bind_Ok by exact E. cbv beta iota.
    rewrite pbd_of_bytes. erewrite bind_Ok by done. split; [done|].
    split; [|done]. intros d [= <-]. exists b. by rewrite pbd_of_bytes.
  - exists old, 0%nat. cbn [bytes_to_str str_blocks]. rewrite adv_0. by split_and!.
Qed.

Lemma fill_interfaces_run arr l i s :
  mem_ok s -> Forall interface_wf l ->
  exists ks n, fill_interfaces arr l i s = Ok (ks, adv n (if_strings l) s) /\ Forall2 if_logged l ks.
Proof.
  intros Hs Hl. revert i s Hs. induction Hl as [|x l (_ & Hm & H4 & H6) Hl IH]; intros i s Hs.
  - exists [], 0%nat. rewrite adv_0. split; [done|constructor].
  - cbn [fill_interfaces].
    destruct (bytes_to_str_run (in_mac x) (wild arr (sizeof_kinterface * i + 8)) s Hs Hm) as (v1 & n1 & E1 & S1 & _).
    erewrite bind_Ok by exact E1. cbv beta.
    destruct (bytes_to_str_run (in_ipv4address x) (wild arr (sizeof_kinterface * i + 16)) _ (adv_ok n1 (str_blocks (in_mac x)) _ Hs) H4)
      as (v2 & n2 & E2 & S2 & _).
    erewrite bind_Ok by exact E2. cbv beta. rewrite adv_adv.
    destruct (bytes_to_str_run (in_ipv6address x) (wild arr (sizeof_kinterface * i + 24)) _
      (adv_ok (n2 + n1) (str_blocks (in_mac x) + str_blocks (in_ipv4address x)) _ Hs) H6) as (v3 & n3 & E3 & S3 & _).
    erewrite bind_Ok by exact E3. cbv beta. rewrite adv_adv.
    destruct (IH (i + 1) (adv (n3 + (n2 + n1)) (str_blocks (in_mac x) + str_blocks (in_ipv4address x) + str_blocks (in_ipv6address x)) s)
      (adv_ok _ _ _ Hs)) as (ks & n4 & E4 & S4).
    erewrite bind_Ok by exact E4. rewrite adv_adv. eexists (_ :: ks), _. split.
    + unfold mret, ST_ret. unfold if_strings. cbn [fmap list_fmap]. by rewrite zsum_cons.
    + constructor; [by split_and!|done].
Qed.

Lemma extract_interfaces_run l s :
  mem_ok s -> Forall interface_wf l -> zlen l < 2 ^ 31 ->
  exists o n, extract_interfaces l s = Ok ((0, o), adv n (vec_blocks l + if_strings l) s) /\
    vec_logged if_logged l o (u32 (zlen l)).
Proof.
  intros Hs Hl Hn. destruct l as [|x l].
  - exists None, 0%nat. cbn. rewrite adv_0. split; [done|apply vec_logged_nil].
  - unfold extract_interfaces.
    destruct (KI_MALLOC_adv s (u64 (sizeof_kinterface * zlen (x :: l))) Hs) as (arr & E & _).
    erewrite bind_Ok by exact E. cbv beta iota. erewrite bind_Ok by by apply int_count_run.
    destruct (fill_interfaces_run arr (x :: l) 0 (adv 1 1 s) (adv_ok _ _ _ Hs) Hl) as (ks & n & Ef & HR).
    erewrite bind_Ok by exact Ef. rewrite adv_adv. eexists (Some ks), _. split; [done|]. by apply vec_logged_cons.
Qed.

(** Whether the log owns a string of its configuration: the response has it, or
    it owned it before. *)
Definition conf_own (config : option kproto_configuration_t)
    (field : kproto_configuration_t -> option ProtobufCBinaryData) (was : bool) : bool :=
  match config with None => false | Some c => non_null (field c) || was end.

Lemma extract_configuration_run config s g :
  mem_ok s -> opt_wf configuration_wf config -> (forall c, config = Some c -> zlen (cf_interface c) < 2 ^ 31) ->
  exists conf n, extract_configuration config g s =
    Ok ((0, Glog (set_kgl_conf conf (gs_log g)) (gs_util g) (gs_temp g) (gs_stat g)
              (conf_own config cf_serialnumber (gs_serial g)) (conf_own config cf_worldwidename (gs_wwn g))
              (non_null (kcf_interfaces conf)) (gs_pb g) (gs_set g)),
        adv n (conf_blocks config + conf_strings config) s) /\
    conf_logged config (kgl_conf (gs_log g)) conf.
Proof.
  intros Hs Hc Hn. destruct config as [c|].
  2: { exists kconfiguration0, 0%nat. cbn. rewrite adv_0. done. }
  destruct (Hc c eq_refl) as (_ & Hser & Hwwn & Hif & _). unfold extract_configuration.
  destruct (bytes_to_str_run (cf_serialnumber c) (kcf_serial (kgl_conf (gs_log g))) s Hs Hser) as (v1 & n1 & E1 & S1 & K1 & N1).
  erewrite bind_Ok by exact E1. cbv beta.
  destruct (bytes_to_str_run (cf_worldwidename c) (kcf_wwn (kgl_conf (gs_log g))) _ (adv_ok n1 (str_blocks (cf_serialnumber c)) _ Hs) Hwwn)
    as (v2 & n2 & E2 & S2 & K2 & N2).
  erewrite bind_Ok by exact E2. cbv beta. rewrite adv_adv.
  destruct (extract_interfaces_run (cf_interface c) _ (adv_ok (n2 + n1) (str_blocks (cf_serialnumber c) + str_blocks (cf_worldwidename c)) _ Hs)
    Hif (Hn c eq_refl)) as (ifs & n3 & E3 & S3).
  cbv zeta. erewrite bind_Ok by exact E3. cbv beta iota. cbn [Z.ltb Z.compare]. rewrite adv_adv.
  eexists (Kconfiguration _ _ _ _ _ _ _ _ _ _ _ _ _ _ _), _. split.
  - unfold mret, ST_ret. do 2 f_equal.
    + f_equal. unfold own_conf, upd_conf, upd_log, conf_own. cbn. f_equal.
      * destruct (cf_serialnumber c); cbn; [by rewrite N1|done].
      * destruct (cf_worldwidename c); cbn; [by rewrite N2|done].
    + f_equal. cbn. lia.
  - cbn. by split_and!.
Qed.

(** ** The whole response *)
Definition getlog_of (rc : kproto_cmd_t) (g : kproto_getlog_t) : Prop :=
  extract_cmdstatus_code (Some rc) = K_OK /\ c_body rc ≫= b_getlog = Some g.

Lemma limits_logged_run o g : limits_logged o (kgl_limits (gs_log (extract_limits o g))).
Proof. destruct o; [by cbn; split_and!|done]. Qed.

(** The log a response fills in, over a structure holding [g0]: its pointers are
    its own. *)
Definition filled_log (rc : kproto_cmd_t) (g : kproto_getlog_t) (g0 : glog_st) (l : kgetlog) : glog_st :=
  Glog l (non_null (kgl_util l)) (non_null (kgl_temp l)) (non_null (kgl_stat l))
    (conf_own (gl_configuration g) cf_serialnumber (gs_serial g0))
    (conf_own (gl_configuration g) cf_worldwidename (gs_wwn g0))
    (non_null (kcf_interfaces (kgl_conf l))) (HLive rc) true.

Definition kept_log g ts tn us un te ten st sn : Prop :=
  kgl_type (gs_log g) = ts /\ kgl_typecnt (gs_log g) = tn /\ kgl_util (gs_log g) = us /\ kgl_utilcnt (gs_log g) = un /\
  kgl_temp (gs_log g) = te /\ kgl_tempcnt (gs_log g) = ten /\ kgl_stat (gs_log g) = st /\ kgl_statcnt (gs_log g) = sn.

Context {PL : ProtoLaws}.

Lemma extract_getlog_run rm rc g0 (g : kproto_getlog_t) s :
  mem_ok s -> m_commandbytes rm = Some (pbd_of (cmd_pack rc)) -> cmd_wf rc -> getlog_of rc g -> counts_fit g ->
  exists l n, extract_getlog rm g0 s =
    Ok ((K_OK, filled_log rc g g0 l), adv n (cmd_blocks rc + log_blocks g + conf_strings (gl_configuration g)) s) /\
    logged g (gs_log g0) l.
Proof.
  intros Hs Hb Hc [Hst Hg] (Hn1 & Hn2 & Hn3 & Hn4).
  assert (getlog_wf g) as (_&_&_&_&Hcf&_).
  { destruct Hc as (_ & Hbody & _). destruct (c_body rc) as [b|]; [|done]. destruct (Hbody b eq_refl) as (_&_&Hgl&_). by apply Hgl. }
  unfold extract_getlog. rewrite Hb. erewrite bind_Ok by (eapply unpack_command_run; [done|done|apply pbd_of_bytes]).
  cbv beta iota zeta. rewrite Hst, Z.eqb_refl. cbn [negb]. rewrite Hg.
  match goal with |- context [extract_utilizations _ ?x] => set (ga := x) end.
  destruct (extract_utilizations_run (gl_utilizations g) (adv 1 (cmd_blocks rc) s) ga (adv_ok _ _ _ Hs) Hn1) as (ou & n1 & E1 & L1).
  erewrite bind_Ok by exact E1. cbv beta iota. cbn [Z.ltb Z.compare]. rewrite adv_adv.
  match goal with |- context [extract_temperatures _ ?x] => set (gb := x) end.
  destruct (extract_temperatures_run (gl_temperatures g) (adv (n1 + 1) (cmd_blocks rc + vec_blocks (gl_utilizations g)) s) gb
    (adv_ok _ _ _ Hs) Hn2) as (ot & n2 & E2 & L2).
  erewrite bind_Ok by exact E2. cbv beta iota. cbn [Z.ltb Z.compare]. rewrite adv_adv.
  match goal with |- context [extract_statistics _ ?x] => set (gc := x) end.
  match goal with |- context [adv ?n ?l s] =>
    destruct (extract_statistics_run (gl_statistics g) (adv n l s) gc (adv_ok _ _ _ Hs) Hn3) as (os & n3 & E3 & L3) end.
  erewrite bind_Ok by exact E3. cbv beta iota zeta. cbn [Z.ltb Z.compare]. rewrite adv_adv.
  match goal with |- context [extract_configuration _ ?x] => set (gd := x) end.
  match goal with |- context [adv ?n ?l s] =>
    destruct (extract_configuration_run (gl_configuration g) (adv n l s) gd (adv_ok _ _ _ Hs) Hcf Hn4) as (cf & n4 & E4 & L4) end.
  erewrite bind_Ok by exact E4. cbv beta iota zeta. cbn [Z.ltb Z.compare]. rewrite adv_adv.
  set (ge := extract_limits (gl_limits g) _).
  assert (Hgd : gs_util gd = non_null ou /\ gs_temp gd = non_null ot /\ gs_stat gd = non_null os /\
    gs_serial gd = gs_serial g0 /\ gs_wwn gd = gs_wwn g0 /\ gs_pb gd = HLive rc /\ gs_set gd = true)
    by (unfold gd; by destruct (gl_capacity g), (gl_messages g)).
  assert (Hld : kept_log gd (match gl_types g with [] => None | ts => Some ts end) (zlen (gl_types g))
      ou (u32 (zlen (gl_utilizations g))) ot (u32 (zlen (gl_temperatures g))) os (u32 (zlen (gl_statistics g))) /\
    kgl_conf (gs_log gd) = kgl_conf (gs_log g0) /\
    (kgl_msgs (gs_log gd), kgl_msgslen (gs_log gd)) =
      match gl_messages g with Some d => (pb_data d, pb_len d) | None => (kgl_msgs (gs_log g0), kgl_msgslen (gs_log g0)) end /\
    kgl_cap (gs_log gd) = match gl_capacity g with
      | Some c => Kcapacity (default (kc_total (kgl_cap (gs_log g0))) (ca_nominal c)) (default (kc_used (kgl_cap (gs_log g0))) (ca_portionfull c))
      | None => kgl_cap (gs_log g0) end /\
    kdl_name (gs_log gd) = kdl_name (gs_log g0) /\ kdl_len (gs_log gd) = kdl_len (gs_log g0))
    by (unfold gd; destruct (gl_capacity g), (gl_messages g); by split_and!).
  clearbody gd. clear ga gb gc E1 E2 E3 E4.
  destruct Hgd as (H1&H2&H3&H4&H5&H6&H7), Hld as ((K1&K2&K3&K4&K5&K6&K7&K8)&K9&K10&K11&K12&K13).
  match goal with |- context [mret (_, ?x) (adv ?n ?l s)] => exists (gs_log x), n; set (gf := x) end.
  assert (Hf : gf = filled_log rc g g0 (gs_log gf)).
  { unfold gf, ge, filled_log. destruct (gl_device g ≫= dv_name); cbn; by rewrite H1, H2, H3, H4, H5, H6, H7, K3, K5, K7. }
  split.
  - unfold mret, ST_ret. rewrite Hf at 1. do 2 f_equal. f_equal. unfold log_blocks. lia.
  - unfold gf, ge. rewrite K9 in L4. destruct (gl_device g ≫= dv_name) as [dn|] eqn:Ed;
    (split; cbn; rewrite ?Ed, ?K1, ?K2, ?K3, ?K4, ?K5, ?K6, ?K7, ?K8, ?K12, ?K13; try done;
     [split; [done|]; destruct (gl_types g); [done|by eexists]|apply (limits_logged_run (gl_limits g) gd)]).
Qed.
End extract.

(** ** Destroying a log *)
Section destroy.
Context {PG : ProtoGen}.

Lemma free_owned_run b s : free_owned b b s = Ok (tt, adv 0 (- if b then 1 else 0) s).
Proof. destruct b; [done|]. unfold free_owned, mret, ST_ret. by rewrite adv_0. Qed.

Lemma vec_own {A B} (R : A -> B -> Prop) l o n : vec_logged R l o n -> (if non_null o then 1 else 0) = vec_blocks l.
Proof. intros [_ H]. destruct l; [by subst|]. by destruct H as (? & -> & _). Qed.
Lemma str_own o v b : str_stored o v -> (o = None -> v = None) -> b = non_null o || false -> non_null v = b.
Proof.
  intros Hs Hn ->. destruct o as [d|]; [|by rewrite Hn]. by destruct (Hs d eq_refl) as (bs & _ & ->).
Qed.

(** A log filled in over zeroes gives back all its blocks, the strings of the
    interfaces apart. *)
Lemma destroy_filled rc g l s :
  logged g kgetlog0 l ->
  exists g', destroy_protobuf_getlog (filled_log rc g glog_zero l) s =
    Ok (g', adv 0 (- (cmd_blocks rc + log_blocks g)) s).
Proof.
  intros [_ Hu Ht Hst _ _ Hc _ _].
  assert (non_null (kcf_serial (kgl_conf l)) = conf_own (gl_configuration g) cf_serialnumber false /\
          non_null (kcf_wwn (kgl_conf l)) = conf_own (gl_configuration g) cf_worldwidename false) as [Hser Hwwn].
  { destruct (gl_configuration g) as [c|]; cbn in Hc; [|by rewrite Hc].
    destruct Hc as (_&_&_&_&_&_&_&_&H1&H2&H3&H4&_). split; by eapply str_own. }
  assert (Hb : (if conf_own (gl_configuration g) cf_serialnumber false then 1 else 0) +
    (if conf_own (gl_configuration g) cf_worldwidename false then 1 else 0) +
    (if non_null (kcf_interfaces (kgl_conf l)) then 1 else 0) = conf_blocks (gl_configuration g)).
  { destruct (gl_configuration g) as [c|]; cbn in Hc |- *; [|by rewrite Hc].
    destruct Hc as (_&_&_&_&_&_&_&_&_&_&_&_&Hi&_). rewrite (vec_own _ _ _ _ Hi).
    unfold str_blocks. by destruct (cf_serialnumber c), (cf_worldwidename c). }
  unfold destroy_protobuf_getlog, filled_log.
  cbn [gs_pb gs_log gs_util gs_temp gs_stat gs_serial gs_wwn gs_ifs glog_zero].
  rewrite Hser, Hwwn. unfold destroy_command. rewrite (bind_Ok _ _ _ _ _ (add_live_adv _ s)).
  do 6 (erewrite bind_Ok by apply free_owned_run; rewrite ?adv_adv).
  eexists. unfold mret, ST_ret. do 3 f_equal.
  rewrite (vec_own _ _ _ _ Hu), (vec_own _ _ _ _ Ht), (vec_own _ _ _ _ Hst). unfold log_blocks. lia.
Qed.

Lemma free_owned_junk b s : free_owned b false s = Ok (tt, s) \/ free_owned b false s = Ub.
Proof. destruct b; [by right|by left]. Qed.

(** Destroying a structure that is not filled in has no meaning, once or twice. *)
Lemma destroy_junk_twice l c s :
  destroy_protobuf_getlog (Glog l false false false false false false (HLive c) true) s = Ub \/
  exists g' s', destroy_protobuf_getlog (Glog l false false false false false false (HLive c) true) s = Ok (g', s') /\
    gs_pb g' = HWild /\ gs_set g' = true.
Proof.
  unfold destroy_protobuf_getlog. cbn [gs_pb gs_log gs_util gs_temp gs_stat gs_serial gs_wwn gs_ifs gs_set].
  unfold destroy_command. rewrite (bind_Ok _ _ _ _ _ (add_live_adv _ s)).
  do 6 (match goal with |- context [free_owned ?b false ≫= _] =>
    let E := fresh in destruct (free_owned_junk b (adv 0 (- cmd_blocks c) s)) as [E|E];
      [rewrite (bind_Ok _ _ _ _ _ E)|left; by apply bind_Ub] end).
  right. eexists _, _. by split_and!.
Qed.
Lemma destroy_wild g s : gs_pb g = HWild -> destroy_protobuf_getlog g s = Ub.
Proof. intros H. unfold destroy_protobuf_getlog. rewrite H. by apply bind_Ub. Qed.
End destroy.

(** ** The request *)
Section message.
Context {PG : ProtoGen} {PL : ProtoLaws}.
Implicit Types (s : mem) (g : kgetlog).

Definition log_body g (ts : list Z) : kproto_getlog_t :=
  Getlog ts [] [] None None [] None None ((fun n => Device (Some (pbd_of n))) <$> kdl_name g).
Definition getlog_command (ch : kcmdhdr_t) g (ts : list Z) : kproto_cmd_t :=
  Command (Some (extract_to_command_header ch)) (Some (Body None None (Some (log_body g ts)) None None)) None.
(** The block of the device name is not freed. *)
Definition name_lost g : Z := match kdl_name g with Some _ => 1 | None => 0 end.
Definition name_ok g : Prop := forall n, kdl_name g = Some n -> c_string n.

Lemma extract_body_run g ts s :
  mem_ok s -> kgl_type g = Some ts -> kgl_typecnt g = zlen ts -> name_ok g ->
  exists n, extract_to_command_body g s = Ok (log_body g ts, adv n (name_lost g) s).
Proof.
  intros Hs Ht Hc Hn. unfold extract_to_command_body, log_body, name_lost. rewrite Ht, Hc.
  erewrite bind_Ok.
  2: { apply lift_Ok. cbn. rewrite Z.leb_refl. unfold zlen. by rewrite Nat2Z.id, take_ge. }
  destruct (kdl_name g) as [name|] eqn:En.
  - destruct (KI_MALLOC_adv s sizeof_device Hs) as (b & E & _). rewrite bind_assoc.
    erewrite bind_Ok by exact E. cbv beta. eexists. cbn. rewrite strlen_c_string by by apply Hn.
    by rewrite (pbd_of_nonempty name) by (by apply Hn).
  - exists 0%nat. rewrite adv_0. done.
Qed.

Lemma create_getlog_makes id hkey ch g ts :
  c_string hkey -> kch_type ch = KMT_GETLOG -> kgl_type g = Some ts -> kgl_typecnt g = zlen ts -> name_ok g ->
  cmd_wf (getlog_command ch g ts) ->
  makes_losing (name_lost g) (create_getlog_message (Kmsghdr KAT_HMAC id (Some hkey) 0 None 0) ch g) id hkey (getlog_command ch g ts).
Proof.
  intros Hkey Ht Hty Hcnt Hn Hc s Hs. unfold create_getlog_message.
  destruct (extract_body_run g ts s Hs Hty Hcnt Hn) as [n E]. erewrite bind_Ok by exact E. cbv beta.
  erewrite bind_Ok by (eapply command_run; [by apply adv_ok|by rewrite Ht|exact Hc]). cbv beta. rewrite adv_adv.
  rewrite message_run by done. rewrite adv_adv. eexists. do 3 f_equal. lia.
Qed.
End message.

(** ** [ki_getlog] *)
Section getlog.
Context {LA : ListApi} {LL : ListLaws} {X : Type} {PG : ProtoGen} {PL : ProtoLaws} {SZ : Sizes}.

Notation opst := (@opst LA X).
Notation world := (@world LA X).
Notation St w s bl ses pb := (@Opst LA X w (Heap s bl) ses pb).
Implicit Types (w : world) (s : mem).

Definition put_glog (bl : gmap ptr ktb) (q : ptr) (b : ktb) (g : kgetlog) : gmap ptr ktb :=
  <[q := set_ktb_buf (DGetlog g) b]> bl.
Lemma glog_wr_run bl q b g g' w s ses pb :
  bl !! q = Some b -> ktb_buf b = DGetlog g ->
  glog_wr (Some q) g' (St w s bl ses pb) = Ok (tt, St w s (put_glog bl q b g') ses pb).
Proof.
  intros Hb Hd. unfold glog_wr. erewrite bind_Ok by done. cbv beta. unfold on_h. cbn [o_heap].
  erewrite bind_Ok by (by apply ktb_base_run). cbv beta. by rewrite Hd.
Qed.

Lemma answer_getlog_run junk q b g rm rc lg bl ses pb :
  bl !! q = Some b -> ktb_buf b = DGetlog g ->
  m_commandbytes rm = Some (pbd_of (cmd_pack rc)) -> cmd_wf rc -> getlog_of rc lg -> counts_fit lg ->
  extracts (X:=X) (answer_getlog junk (Some q)) rm K_OK (cmd_blocks rc + log_blocks lg + conf_strings (gl_configuration lg))
    bl (fun bl' => exists l, logged lg junk l /\ bl' = put_glog bl q b l) ses pb (<[q := rc]> pb).
Proof.
  intros Hb Hd Hm Hc Hg Hfit w s Hs. unfold answer_getlog.
  destruct (extract_getlog_run rm rc (glog_junk junk) lg s Hs Hm Hc Hg Hfit) as (l & n & E & L).
  erewrite bind_Ok by (apply on_m_run; exact E). cbv beta iota. rewrite Z.eqb_refl.
  erewrite bind_Ok by by eapply glog_wr_run. cbv beta. erewrite bind_Ok by done. cbv beta.
  erewrite bind_Ok by done. eexists n, _. split; [by exists l|done].
Qed.

(** A response that is not a good log: the structure, which nothing has filled
    in, is destroyed by [extract_getlog] already. *)
Lemma extract_getlog_bad l h b rm rc s :
  mem_ok s -> m_commandbytes rm = Some (pbd_of (cmd_pack rc)) -> cmd_wf rc -> ~ (exists lg, getlog_of rc lg) ->
  extract_getlog rm (Glog l false false false false false false h b) s = Ub \/
  exists krc g' s', extract_getlog rm (Glog l false false false false false false h b) s = Ok ((krc, g'), s') /\
    krc <> K_OK /\ gs_pb g' = HWild /\ gs_set g' = true.
Proof.
  intros Hs Hm Hc Hbad. set (g0 := Glog l false false false false false false h b).
  unfold extract_getlog. rewrite Hm. erewrite bind_Ok by (eapply unpack_command_run; [done|done|apply pbd_of_bytes]).
  cbv beta iota zeta. unfold extract_glex.
  assert (forall krc s0, krc <> K_OK ->
            (g' ← destroy_protobuf_getlog (set_gs_pb (HLive rc) g0); mret (krc, g')) s0 = Ub \/
            exists krc' g' s', (g' ← destroy_protobuf_getlog (set_gs_pb (HLive rc) g0); mret (krc, g')) s0 =
              Ok ((krc', g'), s') /\ krc' <> K_OK /\ gs_pb g' = HWild /\ gs_set g' = true) as Hx.
  { intros krc s0 Hne. destruct (destroy_junk_twice l rc s0) as [E|(g' & s' & E & H1 & H2)].
    - left. by apply bind_Ub.
    - right. exists krc, g', s'. split; [by rewrite (bind_Ok _ _ _ _ _ E)|done]. }
  destruct (Z.eqb_spec (extract_cmdstatus_code (Some rc)) K_OK) as [Ek|Ek]; cbn [negb]; [|by apply Hx].
  destruct (c_body rc ≫= b_getlog) as [lg|] eqn:Eb; [|by apply Hx].
  exfalso. apply Hbad. by exists lg.
Qed.

Lemma answer_getlog_bad junk q rm rc w s bl ses pb :
  mem_ok s -> m_commandbytes rm = Some (pbd_of (cmd_pack rc)) -> cmd_wf rc ->
  ~ (exists lg, getlog_of rc lg) -> answer_getlog junk q rm (St w s bl ses pb) = Ub.
Proof.
  intros Hs Hm Hc Hbad. unfold answer_getlog, mbind, ST_bind at 1.
  destruct (extract_getlog_bad junk HWild false rm rc s Hs Hm Hc Hbad) as [E|(krc & g' & s' & E & Hk & Hpb & Hset)];
    fold (glog_junk junk) in E.
  - unfold on_m, on_h, on_mem. cbn. by rewrite E.
  - rewrite (on_m_run _ _ _ _ _ _ _ _ E). cbv beta iota. rewrite (proj2 (Z.eqb_neq krc K_OK) Hk).
    apply bind_Ub. unfold on_m, on_h, on_mem, call_destructor. cbn. rewrite Hset. by rewrite destroy_wild.
Qed.

(** What a call finds: a valid log request on a connected session *)
Record glog_ready (bl : gmap ptr ktb) (q : ptr) (b : ktb) (g : kgetlog) (ts : list Z) : Prop := {
  gr_block : bl !! q = Some b; gr_wf : block_wf b; gr_glog : ktb_buf b = DGetlog g;
  gr_type : kgl_type g = Some ts; gr_cnt : kgl_typecnt g = zlen ts; gr_valid : glog_valid g;
  gr_len : 0 <= kdl_len g; gr_name : name_ok g }.

(** What the drive is asked for: the types of the log, in their order, and the
    name of the device log. *)
Definition asks_log (ses : ksession) (g : kgetlog) (ts : list Z) (seq : Z) (c : kproto_cmd_t) : Prop :=
  (exists h, c_header c = Some h /\ h_messagetype h = Some KMT_GETLOG /\ h_sequence h = Some seq /\
     h_clusterversion h = Some (kch_clustvers (ks_ch ses)) /\ h_connectionid h = Some (kch_connid (ks_ch ses))) /\
  exists lg, c_body c = Some (Body None None (Some lg) None None) /\ gl_types lg = ts /\
    gl_device lg ≫= dv_name = pbd_of <$> kdl_name g /\
    gl_utilizations lg = [] /\ gl_temperatures lg = [] /\ gl_statistics lg = [] /\ gl_capacity lg = None /\
    gl_configuration lg = None /\ gl_messages lg = None /\ gl_limits lg = None.

Section call.
Context w s (bl : gmap ptr ktb) (ses : gmap ptr ksession) (pb : gmap ptr kproto_cmd_t).
Context (ktd : Z) (sq : ptr) (l : clist) (ex : Z) (cf : ptr) (cfg : KtliState.ktli_config) (hkey : buffer).
Context (sp : ptr) (ksn : ksession) (q : ptr) (b : ktb) (g : kgetlog) (ts : list Z) (junk : kgetlog).
Context (Hs : mem_ok s) (Hready : session_ready w ktd sq l ex cf cfg hkey)
  (Hsp : kcfg_pconf cfg = Some sp) (Hses : ses !! sp = Some ksn) (Hg : glog_ready bl q b g ts)
  (Hid : -2 ^ 63 <= kcfg_id cfg < 2 ^ 63).

Notation ch := (set_kch_type KMT_GETLOG (ks_ch ksn)).
Notation d := (@SyncDesc LA X KMT_GETLOG (fun mh ch => create_getlog_message mh ch g) (answer_getlog junk (Some q))).

Lemma ki_getlog_sync asleep pf fuel :
  ki_getlog asleep pf fuel junk ktd (Some q) (St w s bl ses pb) =
    sync_request asleep pf fuel ktd (Some cf) (Some sp) d (St w s bl ses pb).
Proof.
  destruct Hg as [Hb Hwf Hd Ht Hc Hv Hl _]. unfold ki_getlog.
  erewrite bind_Ok by (apply on_w_run; by eapply ktli_config_run). cbv beta iota. cbn [Z.ltb Z.compare].
  erewrite bind_Ok. 2:{ unfold cfg_rd, deref_st. cbn. rewrite (sr_config _ _ _ _ _ _ _ _ Hready). reflexivity. }
  cbv beta. rewrite Hsp.
  erewrite bind_Ok.
  2: { apply on_h_run. rewrite (ki_validate_glog_run (Heap s bl) q b g ts) by done.
       by rewrite (proj2 (glog_valid_bool g ts Ht Hl) Hv). }
  cbv beta iota. cbn [Z.ltb Z.compare].
  erewrite bind_Ok.
  2: { unfold glog_rd. erewrite bind_Ok by done. apply on_h_run. by eapply get_glog_run. }
  done.
Qed.
Lemma getlog_makes : cmd_wf (getlog_command ch g ts) ->
  makes_losing (name_lost g) (create_getlog_message (Kmsghdr KAT_HMAC (kcfg_id cfg) (Some hkey) 0 None 0) ch g) (kcfg_id cfg) hkey
    (getlog_command ch g ts).
Proof. intros. destruct Hg. apply create_getlog_makes; try done. apply Hready. Qed.
End call.

(** C10: [ki_getlog] with a valid request on a connected session, with memory to
    spare, asks the drive for exactly the caller's types, in their order, and
    the device log the caller names.  When a good log comes back, whatever the
    waits in between, the call answers K_OK and the caller's log is the
    response: its types, the utilizations, temperatures and statistics element
    by element, the configuration with its interfaces, and the limits.  What the
    response lacks among the messages, the capacity, the configuration and the
    device name is what the stack held, [junk].  Left alive are the response,
    the arrays and strings of the log, those of its interfaces, and the block
    made for the device name. *)
Theorem ki_getlog_spec w s bl ses pb ktd sq l ex cf cfg hkey sp ksn q b g ts junk :
  mem_ok s -> session_ready w ktd sq l ex cf cfg hkey -> kcfg_pconf cfg = Some sp -> ses !! sp = Some ksn ->
  glog_ready bl q b g ts -> -2 ^ 63 <= kcfg_id cfg < 2 ^ 63 -> zlen hkey < 2 ^ 32 ->
  let ch := set_kch_type KMT_GETLOG (ks_ch ksn) in
  let c := getlog_command ch g ts in
  let m := request_msg (kcfg_id cfg) hkey c in
  let p := w_next w in
  cmd_wf c ->
  exists w1, asked w sq l ex m w1 /\
  stamped_as (asks_log ksn g ts) c (extract_to_command_header ch) (kcfg_id cfg) hkey m /\
  forall asleep pf fuel n w2 cq lc exc i e k rm rc val lg,
    waits asleep pf ktd p 0 n w1 w2 -> (n < fuel)%nat -> returned w2 ktd cq lc exc i e p k ->
    kio_st k = KIO_RECEIVED -> sent_request k [] -> response k rm rc val -> kiov_len val = 0 ->
    getlog_of rc lg -> counts_fit lg ->
    let kept := cmd_blocks rc + log_blocks lg + conf_strings (gl_configuration lg) + name_lost g in
    exists w3 j lc' log, ki_getlog asleep pf fuel junk ktd (Some q) (St w s bl ses pb) =
        Ok (K_OK, St w3 (adv j kept s) (put_glog bl q b log) ses (<[q := rc]> pb)) /\
      logged lg junk log /\
      contents lc' = delete i (contents lc) /\ w_queues w3 = <[cq := KtliQueue (Some lc') false exc]> (w_queues w2) /\
      w_kios w3 = delete p (w_kios w2) /\ w_live w3 = w_live w2 - 3.
Proof.
  intros Hs Hready Hsp Hses Hg Hid Hk ch c m p Hc.
  destruct (sync_request_run w s bl ses pb ktd sq l ex cf cfg hkey sp ksn
    (SyncDesc KMT_GETLOG (fun mh ch => create_getlog_message mh ch g) (answer_getlog junk (Some q)))
    c (name_lost g) Hs Hready Hses) as (w1 & Hask & Hrun); [by eapply getlog_makes|done|done|].
  exists w1. split; [exact Hask|]. split.
  { apply request_stamps; [done..|]. intros seq. split; [by eexists|]. eexists. split; [reflexivity|]. split_and!; try done.
    cbn. by destruct (kdl_name g). }
  intros asleep pf fuel n w2 cq lc exc i e k rm rc val lg Hw Hn Hret Hst Hsent Hresp Hval Hlg Hfit kept.
  pose proof Hresp as [_ _ _ Hb Hrc]. pose proof Hg as [Hbl _ Hd _ _ _ _ _].
  destruct (Hrun asleep pf fuel n w2 cq lc exc i e k rm rc val _ _ _ _ Hw Hn Hret Hst Hsent Hresp Hval
    (answer_getlog_run junk q b g rm rc lg bl ses pb Hbl Hd Hb Hrc Hlg Hfit)) as (w3 & j & lc' & bl' & (log & Hlog & ->) & E & Hpost).
  exists w3, j, lc', log. split; [|done]. erewrite ki_getlog_sync by done. exact E.
Qed.

(** C30: Any other answer of the drive, an error status included, has no defined
    end: [extract_getlog] destroys the structure it did not finish, which was
    never initialised, and [ki_getlog] destroys it once more. *)
Theorem ki_getlog_refused w s bl ses pb ktd sq l ex cf cfg hkey sp ksn q b g ts junk :
  mem_ok s -> session_ready w ktd sq l ex cf cfg hkey -> kcfg_pconf cfg = Some sp -> ses !! sp = Some ksn ->
  glog_ready bl q b g ts -> -2 ^ 63 <= kcfg_id cfg < 2 ^ 63 ->
  let c := getlog_command (set_kch_type KMT_GETLOG (ks_ch ksn)) g ts in
  cmd_wf c ->
  exists w1, asked w sq l ex (request_msg (kcfg_id cfg) hkey c) w1 /\
  forall asleep pf fuel n w2 cq lc exc i e k rm rc val,
    waits asleep pf ktd (w_next w) 0 n w1 w2 -> (n < fuel)%nat -> returned w2 ktd cq lc exc i e (w_next w) k ->
    kio_st k = KIO_RECEIVED -> response k rm rc val -> kiov_len val = 0 ->
    ~ (exists lg, getlog_of rc lg) ->
    ki_getlog asleep pf fuel junk ktd (Some q) (St w s bl ses pb) = Ub.
Proof.
  intros Hs Hready Hsp Hses Hg Hid c Hc.
  destruct (sync_request_bad w s bl ses pb ktd sq l ex cf cfg hkey sp ksn
    (SyncDesc KMT_GETLOG (fun mh ch => create_getlog_message mh ch g) (answer_getlog junk (Some q)))
    c (name_lost g) Hs Hready Hses) as (w1 & Hask & Hrun); [by eapply getlog_makes|done|].
  exists w1. split; [exact Hask|]. intros asleep pf fuel n w2 cq lc exc i e k rm rc val Hw Hn Hret Hst Hresp Hval Hbad.
  erewrite ki_getlog_sync by done. eapply Hrun; try done. intros w0 s0 Hs0. by eapply answer_getlog_bad; [done|apply Hresp..|].
Qed.
End getlog.
