(* ===== verification/OpenSpec.v ===== *)
(** Opening a session: what [ki_open] leaves behind once the drive has sent its
    unsolicited status, and when it never returns. *)

From stdpp Require Import gmap.
From S2P Require Import Prelude Types ListApi Session KtliState Ktli KtliSpec KtliThreads KtliThreadSpec KtliLife.
From S2P Require Import Pdu Keys Ktb Validate ProtoData Proto ProtoSpec Stat Op OpFrame OpSpec OpRequest OpComplete.
From S2P Require Import Sync SyncSpec Getlog GetlogSpec Open.

Section open.
Context {LA : ListApi} {LL : ListLaws} {X : Type} {PG : ProtoGen} {PL : ProtoLaws} (socket_fns : ktli_driver_fns X).

Notation opst := (@opst LA X).
Notation world := (@world LA X).
Notation St w s bl ses pb := (@Opst LA X w (Heap s bl) ses pb).
Implicit Types (w : world) (s : mem).

(** ** The configuration and the session *)

(** The bytes of a C string *)
Definition c_str (b : buffer) : buffer := take (Z.to_nat (strlen b)) b.
Definition config_of (host port hkey : buffer) (usetls id : Z) (sp : ptr) : KtliState.ktli_config :=
  KtliConfig (Some (c_str host)) (Some (c_str port)) id (Some (c_str hkey)) (if usetls =? 0 then 0 else KCFF_TLS) (Some sp).
Definition opening : ksession := Ksession 0 0 klimits0 unset_hdr kstats0.

(** What the transport layer finds: nothing but the configurations and the
    allocator has moved. *)
Definition set_up w w1 (cfg : KtliState.ktli_config) : Prop :=
  malloc_always w1 /\ ktli_up w1 = ktli_up w /\ w_table w1 = w_table w /\ w_helpers w1 = w_helpers w /\
  w_env w1 = w_env w /\ w_pthread w1 = w_pthread w /\ w_tcount w1 = w_tcount w /\ w_kios w1 = w_kios w /\
  w_threads w1 = w_threads w /\ w_configs w1 = <[w_next w := cfg]> (w_configs w).

Lemma fresh_block_run w size :
  malloc_always w -> malloc_ptr size w = Ok (Some (w_next w), set_next_w (Pos.succ (w_next w)) (bump_mcount_w w)).
Proof. intros. apply malloc_ptr_some. by apply malloc_always_ok. Qed.
Lemma strdup_run w b : malloc_always w -> strdup (Some b) w = Ok (Some (c_str b), bump_mcount_w w).
Proof.
  intros Hm. unfold strdup. erewrite bind_Ok by done. cbv beta.
  destruct (Hm (w_mcount w) (strlen b + 1)) as [f Hf]. unfold malloc, mbind, ST_bind. by rewrite Hf.
Qed.

Lemma open_setup_run w s bl ses pb host port hkey usetls id :
  malloc_always w ->
  let sp := Pos.succ (w_next w) in
  exists w1, open_setup (Some host) (Some port) usetls id (Some hkey) (St w s bl ses pb) =
      Ok ((w_next w, sp), St w1 s bl (<[sp := opening]> ses) pb) /\
    set_up w w1 (config_of host port hkey usetls id sp).
Proof.
  intros Hm sp. unfold open_setup.
  erewrite bind_Ok by (apply on_w_run; by apply fresh_block_run). cbv beta.
  erewrite bind_Ok by (apply on_w_run; by apply fresh_block_run). cbv beta.
  erewrite bind_Ok by done. cbv beta. erewrite bind_Ok by done. cbv beta.
  do 3 (erewrite bind_Ok by (apply on_w_run; by apply strdup_run); cbv beta). cbv zeta.
  erewrite bind_Ok by by apply on_w_run. cbv beta. erewrite bind_Ok by done.
  eexists. split; [reflexivity|]. by split_and!.
Qed.

(** ** Connecting *)
Definition connects (w : world) (dh : ptr) (cfg : KtliState.ktli_config) : Z :=
  (ktli_dfns_connect socket_fns (Some dh) (kcfg_host cfg) (kcfg_port cfg) (Z.land (kcfg_flags cfg) KCFF_TLS) (w_env w)).1.1.

Lemma ktli_connect_run w kts x rq l ex dh cf cfg :
  session_at w kts x -> ks_state x = KTLI_SSTATE_OPENED -> ks_driver x = Some 1%positive -> ks_dhandle x = Some dh ->
  ks_config x = Some cf -> w_configs w !! cf = Some cfg -> ks_recvq x = Some rq -> queue_at w rq l ex ->
  exists w', ktli_connect socket_fns kts w = Ok (if connects w dh cfg =? -1 then -1 else 0, w') /\
    session_at w' kts (if connects w dh cfg =? -1 then x else set_ks_state KTLI_SSTATE_CONNECTED x) /\
    w_queues w' = w_queues w /\ w_kios w' = w_kios w /\ w_configs w' = w_configs w /\ w_threads w' = w_threads w /\
    w_ints w' = w_ints w.
Proof.
  intros Hs Hst Hde Hdh Hcf Hcfg Hrq Hq. unfold ktli_connect, queue_at in *. ksteps.
  assert (Hcall : exists w1, call_driver (ktli_dfns_connect socket_fns (Some dh) (kcfg_host cfg) (kcfg_port cfg)
      (Z.land (kcfg_flags cfg) KCFF_TLS)) w = Ok (connects w dh cfg, w1) /\ w_table w1 = w_table w /\ w_queues w1 = w_queues w /\
      w_kios w1 = w_kios w /\ w_configs w1 = w_configs w /\ w_threads w1 = w_threads w /\ w_ints w1 = w_ints w).
  { unfold call_driver, connects. destruct (ktli_dfns_connect _ _ _ _ _ _) as [[rc [e|]] y]; eexists; by split_and!. }
  destruct Hcall as (w1 & E & H1 & H2 & H3 & H4 & H5 & H6). erewrite bind_Ok by exact E. cbn beta.
  assert (Hs1 : session_at w1 kts x) by (unfold session_at; by rewrite H1).
  destruct (connects w dh cfg =? -1); [by exists w1|].
  destruct (kts_wr_update w1 kts x (set_ks_state KTLI_SSTATE_CONNECTED) Hs1) as (t & Et & Hs2).
  unfold kts_set_state. erewrite bind_Ok by exact Et. cbn beta.
  assert (w_queues (set_table_w t w1) !! rq = Some (KtliQueue (Some l) false ex)) as Hq1 by (cbn; by rewrite H2).
  ksteps. eexists. split; [reflexivity|]. split; [exact Hs2|]. cbn. split_and!; try done.
  rewrite H2. apply insert_id. by rewrite <- H2.
Qed.

(** ** The unsolicited status *)

(** [n] rounds of the loop that found nothing, then a poll after which the
    caller looks again *)
Inductive awaits (asleep : nat -> nat -> ST world Z) (pf : nat) (ktd : Z) : nat -> nat -> world -> world -> Prop :=
  | awaits_here i w r w1 :
      ktli_poll (asleep i) pf ktd 0 w = Ok (r, w1) -> awaits asleep pf ktd i 0 w w1
  | awaits_more i n w r w1 rc o w2 w' :
      ktli_poll (asleep i) pf ktd 0 w = Ok (r, w1) -> ktli_receive_unsolicited ktd w1 = Ok ((rc, o), w2) -> rc < 0 ->
      awaits asleep pf ktd (S i) n w2 w' -> awaits asleep pf ktd i (S n) w w'.

(** A kio without a request is the first of its kind on the completion queue. *)
Definition no_request w (p : ptr) : bool :=
  match w_kios w !! p with Some k => km_cnt (kio_sendmsg k) =? 0 | None => false end.
Record unsolicited w (ktd : Z) (cq : ptr) (l : clist) (ex : Z) (i : nat) (e p : ptr) (k : kio ptr) : Prop := {
  un_at : exists x, session_at w ktd x /\ ks_state x = KTLI_SSTATE_CONNECTED /\ ks_compq x = Some cq;
  un_queue : queue_at w cq l ex; un_alive : kios_alive w (contents l);
  un_first : list_find (fun x : element => no_request w x.2 = true) (contents l) = Some (i, (e, p));
  un_kio : w_kios w !! p = Some k }.

(** The kio [p] off the queue, nothing else *)
Definition handed w (cq : ptr) (l : clist) (ex : Z) (i : nat) (p : ptr) (k : kio ptr) w' : Prop :=
  exists l', contents l' = delete i (contents l) /\ w_queues w' = <[cq := KtliQueue (Some l') false ex]> (w_queues w) /\
    w_kios w' = <[p := set_kio_qbp None k]> (w_kios w) /\ w_table w' = w_table w.

Lemma open_wait_run asleep pf ktd i0 n w w1 cq l ex i e p k fuel s bl ses pb :
  awaits asleep pf ktd i0 n w w1 -> (n < fuel)%nat -> unsolicited w1 ktd cq l ex i e p k ->
  exists w2, open_wait asleep pf ktd fuel i0 (St w s bl ses pb) = Ok (p, St w2 s bl ses pb) /\ handed w1 cq l ex i p k w2.
Proof.
  intros Hw Hf [(x & Hx & Hst & Hcq) Hq Hal Hfirst Hk]. revert fuel Hf.
  induction Hw as [i0 w r w1 Hp|i0 n w r w1 rc o w2 w' Hp Hrc Hneg Hw IH];
    intros [|fuel] Hf; try lia; cbn [open_wait]; erewrite bind_Ok by (apply on_w_run; exact Hp); cbv beta.
  - destruct (ktli_receive_unsolicited_spec w1 ktd x cq l ex Hx (or_introl Hst) Hcq Hq Hal) as (w2 & l' & r' & E & Hq' & Ht & Hm).
    unfold no_request in Hfirst. rewrite Hfirst in Hm. destruct Hm as (-> & Hl' & k' & Hk' & Hks).
    exists w2. split.
    + by erewrite bind_Ok by (apply on_w_run; exact E).
    + rewrite Hk in Hk'. injection Hk' as <-. by exists l'.
  - erewrite bind_Ok by (apply on_w_run; exact Hrc). cbv beta iota. replace (rc <? 0) with true by lia.
    by apply IH; try done; lia.
Qed.

(** On a session that is neither connected nor draining nothing ever arrives,
    and the loop does not look at the error. *)
Lemma unsolicited_refused w ktd x :
  session_at w ktd x -> ks_state x <> KTLI_SSTATE_CONNECTED -> ks_state x <> KTLI_SSTATE_DRAINING ->
  exists w2, ktli_receive_unsolicited ktd w = Ok ((-1, None), w2) /\ session_at w2 ktd x.
Proof. intros Hx H1 H2. unfold ktli_receive_unsolicited. ksteps. by eexists. Qed.

Lemma open_wait_spins asleep pf ktd x fuel i w s bl ses pb :
  session_at w ktd x -> ks_state x <> KTLI_SSTATE_CONNECTED -> ks_state x <> KTLI_SSTATE_DRAINING ->
  open_wait asleep pf ktd fuel i (St w s bl ses pb) = NoFuel.
Proof.
  intros Hx H1 H2. revert i w Hx. induction fuel as [|fuel IH]; intros i w Hx; [done|]. cbn [open_wait].
  assert (ktli_poll (asleep i) pf ktd 0 w = Ok (-1, set_errno_w ENOTCONN (set_errno_w 0 w))) as Ep.
  { unfold ktli_poll. ksteps. done. }
  erewrite bind_Ok by (apply on_w_run; exact Ep). cbv beta.
  destruct (unsolicited_refused (set_errno_w ENOTCONN (set_errno_w 0 w)) ktd x Hx H1 H2) as (w2 & E & Hx2).
  erewrite bind_Ok by (apply on_w_run; exact E). cbv beta iota. cbn [Z.ltb Z.compare]. by apply IH.
Qed.

Lemma open_wait_lost asleep pf ktd i0 n w w1 x fuel s bl ses pb :
  awaits asleep pf ktd i0 n w w1 ->
  session_at w1 ktd x -> ks_state x <> KTLI_SSTATE_CONNECTED -> ks_state x <> KTLI_SSTATE_DRAINING ->
  open_wait asleep pf ktd fuel i0 (St w s bl ses pb) = NoFuel.
Proof.
  intros Hw Hx H1 H2. revert fuel.
  induction Hw as [i0 w r w1 Hp|i0 n w r w1 rc o w2 w' Hp Hrc Hneg Hw IH];
    intros [|fuel]; try done; cbn [open_wait]; erewrite bind_Ok by (apply on_w_run; exact Hp); cbv beta.
  - destruct (unsolicited_refused w1 ktd x Hx H1 H2) as (w2 & E & Hx2).
    erewrite bind_Ok by (apply on_w_run; exact E). cbv beta iota. cbn [Z.ltb Z.compare]. by eapply open_wait_spins.
  - erewrite bind_Ok by (apply on_w_run; exact Hrc). cbv beta iota. replace (rc <? 0) with true by lia. by apply IH.
Qed.

(** The header the requests of the session carry *)
Definition status_hdr (h : kproto_cmdhdr_t) : kcmdhdr_t :=
  Kcmdhdr (default 0 (h_clusterversion h)) (default 0 (h_connectionid h)) 0 0 0 (default 0 (h_timeout h))
    (default 0 (h_priority h)) (default 0 (h_timequanta h)) 0 (default 0 (h_batchid h)).
Definition opened (lim : klimits) (h : kproto_cmdhdr_t) : ksession :=
  Ksession KFIRSTBID 0 lim (status_hdr h) kstats0.

Lemma extract_cmdhdr_run rm rc h s :
  mem_ok s -> m_commandbytes rm = Some (pbd_of (cmd_pack rc)) -> cmd_wf rc -> c_header rc = Some h ->
  extract_cmdhdr (Some rm) kcmdhdr0 s = Ok ((extract_cmdstatus_code (Some rc), status_hdr h), adv 1 0 s).
Proof.
  intros Hs Hm Hc Hh. unfold extract_cmdhdr. cbn [mbind option_bind]. rewrite Hm.
  erewrite bind_Ok by (eapply unpack_command_run; [done|done|apply pbd_of_bytes]). cbv beta iota.
  erewrite bind_Ok by by apply deref_Some. cbv beta zeta. unfold destroy_command. erewrite bind_Ok by apply add_live_adv.
  rewrite adv_adv. unfold mret, ST_ret. by rewrite Z.add_opp_diag_r.
Qed.

(** The status [rc] in the message [rm], as the receiver hands it over *)
Definition carries_status (k : kio ptr) (rm : kproto_msg_t) (rc : kproto_cmd_t) : Prop :=
  (exists pdu val, km_msg (kio_recvmsg k) = Some [pdu; Kiovec (Some (msg_pack rm)) (zlen (msg_pack rm)); val]) /\
  msg_wf rm /\ m_commandbytes rm = Some (pbd_of (cmd_pack rc)) /\ cmd_wf rc.

Lemma ses_upd_run sp x f w s bl ses pb :
  ses !! sp = Some x -> ses_upd (Some sp) f (St w s bl ses pb) = Ok (tt, St w s bl (<[sp := f x]> ses) pb).
Proof. intros H. unfold ses_upd. cbn. by rewrite H. Qed.

Lemma open_status_run w s bl ses pb ktd sp p k rm rc lg h :
  mem_ok s -> w_kios w !! p = Some k -> carries_status k rm rc -> getlog_of rc lg -> counts_fit lg ->
  c_header rc = Some h -> ses !! sp = Some opening ->
  exists n lim, open_status ktd sp p (St w s bl ses pb) =
      Ok (ktd, St w (adv n (conf_strings (gl_configuration lg)) s) bl (<[sp := opened lim h]> ses) pb) /\
    limits_logged (gl_limits lg) lim.
Proof.
  intros Hs Hk ((pdu & val & Hv) & Hwf & Hm & Hc) Hg Hfit Hh Hses. unfold open_status.
  erewrite bind_Ok by by apply on_w_run, kio_rd_run. cbv beta. rewrite Hv. erewrite bind_Ok by done. cbv beta.
  change (Z.of_nat KIOV_MSG) with 1. erewrite bind_Ok by apply array_rd_1. cbv beta. cbn [kiov_base kiov_len].
  erewrite bind_Ok by (apply on_m_run, unpack_message_run; [done|done|apply iov_bytes_full]). cbv beta iota.
  destruct (extract_getlog_run rm rc glog_zero lg (adv 1 (msg_blocks rm) s) (adv_ok _ _ _ Hs) Hm Hc Hg Hfit) as (l & n & E & L).
  erewrite bind_Ok by (apply on_m_run; exact E). cbv beta iota. rewrite Z.eqb_refl. cbn [negb]. rewrite adv_adv.
  erewrite bind_Ok by by apply ses_upd_run. cbv beta.
  erewrite bind_Ok by (apply on_m_run; eapply extract_cmdhdr_run; [by apply adv_ok|done..]). cbv beta iota.
  rewrite (proj1 Hg), Z.eqb_refl. cbn [negb]. rewrite adv_adv.
  erewrite bind_Ok by by apply ses_upd_run, lookup_insert_eq. cbv beta. rewrite insert_insert_eq.
  erewrite bind_Ok by by apply ses_upd_run, lookup_insert_eq. cbv beta. rewrite insert_insert_eq.
  unfold oex1, call_destructor. cbn [gs_set filled_log].
  match goal with |- context [adv ?n ?z s] => destruct (destroy_filled rc lg _ (adv n z s) L) as [g' Ed] end.
  erewrite bind_Ok by (apply on_m_run; exact Ed). cbv beta. rewrite adv_adv.
  erewrite bind_Ok by apply destroy_message_run. rewrite adv_adv. unfold mret, ST_ret.
  match goal with |- context [adv ?n ?z s] => exists n, (kgl_limits (gs_log (filled_log rc lg glog_zero l))) end.
  split; [|apply L].
  match goal with |- context [adv ?n ?z s] => replace z with (conf_strings (gl_configuration lg)) by lia end. done.
Qed.

(** A status that is not a good log with limits and the like: the session's
    structure is destroyed twice. *)
Lemma open_status_bad w s bl ses pb ktd sp p k rm rc :
  mem_ok s -> w_kios w !! p = Some k -> carries_status k rm rc -> ~ (exists lg, getlog_of rc lg) ->
  open_status ktd sp p (St w s bl ses pb) = Ub.
Proof.
  intros Hs Hk ((pdu & val & Hv) & Hwf & Hm & Hc) Hbad. unfold open_status.
  erewrite bind_Ok by by apply on_w_run, kio_rd_run. cbv beta. rewrite Hv. erewrite bind_Ok by done. cbv beta.
  change (Z.of_nat KIOV_MSG) with 1. erewrite bind_Ok by apply array_rd_1. cbv beta. cbn [kiov_base kiov_len].
  erewrite bind_Ok by (apply on_m_run, unpack_message_run; [done|done|apply iov_bytes_full]). cbv beta iota.
  destruct (extract_getlog_bad kgetlog0 HNull false rm rc (adv 1 (msg_blocks rm) s) (adv_ok _ _ _ Hs) Hm Hc Hbad)
    as [E|(krc & g' & s' & E & Hne & Hpb & Hset)]; fold glog_zero in E.
  - apply bind_Ub. unfold on_m, on_h, on_mem. cbn. by rewrite E.
  - erewrite bind_Ok by (apply on_m_run; exact E). cbv beta iota. rewrite (proj2 (Z.eqb_neq krc K_OK) Hne). cbn [negb].
    unfold oex1. apply bind_Ub. unfold on_m, on_h, on_mem, call_destructor. cbn. rewrite Hset. by rewrite destroy_wild.
Qed.

(** ** The call *)

(** What an open in the world [w] finds: the transport layer up, a free
    descriptor [n], the helpers, two threads and a driver that opens a handle *)
Record can_open w (kh : ptr) (n : Z) (dh : ptr) (stid rtid : Z) : Prop := {
  co_malloc : malloc_always w; co_up : ktli_up w <> 0; co_table : table_ok (w_table w);
  co_free : first_free (w_table w) 0 = Some n;
  co_helpers : exists h, w_helpers w !! kh = Some h /\ helpers_valid h;
  co_driver : (ktli_dfns_open socket_fns (w_env w)).1 = Some dh;
  co_sender : w_pthread w (w_tcount w) = Some stid; co_receiver : w_pthread w (S (w_tcount w)) = Some rtid }.

(** The session the threads of [w] serve: [n] with empty queues and the
    configuration [cf] *)
Definition serves w (kh : ptr) (n : Z) (dh : ptr) (stid rtid : Z) (cf : ptr) (st : ktli_sstate) : Prop :=
  exists sq rq cq p,
    session_queues w n (set_ks_state st (session_of (Some 1%positive) (Some dh) (Some kh) (Some sq) (Some rq) (Some cq)
      (Some cf) stid rtid)) sq rq cq list_create list_create list_create 0 0 0 /\
    w_threads w !! stid = Some (Sender p) /\ w_threads w !! rtid = Some (Receiver_waiting p) /\ w_ints w !! p = Some n.

(** Up to the connection *)
Lemma ki_open_opened tf kh host port hkey usetls id w s bl ses pb n dh stid rtid :
  can_open w kh n dh stid rtid -> stid <> rtid ->
  let cfg := config_of host port hkey usetls id (Pos.succ (w_next w)) in
  let rc := (ktli_dfns_connect socket_fns (Some dh) (kcfg_host cfg) (kcfg_port cfg) (Z.land (kcfg_flags cfg) KCFF_TLS)
    (ktli_dfns_open socket_fns (w_env w)).2).1.1 in
  exists w1, serves w1 kh n dh stid rtid (w_next w) (if rc =? -1 then KTLI_SSTATE_OPENED else KTLI_SSTATE_CONNECTED) /\
    w_kios w1 = w_kios w /\ w_configs w1 !! w_next w = Some cfg /\ forall asleep pf fuel,
    ki_open socket_fns tf asleep pf fuel kh (Some host) (Some port) usetls id (Some hkey) (St w s bl ses pb) =
      (if rc =? -1 then on_w (ktli_close socket_fns tf n) ;; mret (-1)
       else kio ← open_wait asleep pf n fuel 0; open_status n (Pos.succ (w_next w)) kio)
      (St w1 s bl (<[Pos.succ (w_next w) := opening]> ses) pb).
Proof.
  intros [Hm Hup Htab Hfree (h & Hh & Hv) Hdh Hst Hrt] Hne cfg rc.
  destruct (open_setup_run w s bl ses pb host port hkey usetls id Hm) as
    (w1 & E1 & Hm1 & Hup1 & Ht1 & Hh1 & He1 & Hp1 & Htc1 & Hk1 & Hth1 & Hc1).
  destruct (ktli_open_run socket_fns tf w1 (Some (w_next w)) (Some kh) h dh stid rtid n) as
    (w2 & sq & rq & cq & E2 & [Hs2 _ _ _ Hd2 Hqs2 Hqr2 Hqc2] & Hk2 & _ & (p & Hth2 & Hi2) & He2 & Hc2); rewrite ?Hup1, ?Ht1, ?Hp1, ?Htc1, ?He1; try done.
  { cbn. by rewrite Hh1. }
  pose proof (first_free_Some _ _ _ Hfree) as (Hn & _ & _).
  destruct (ktli_connect_run w2 n _ rq list_create 0 dh (w_next w) cfg Hs2) as (w3 & E3 & Hs3 & Hq3 & Hk3 & Hc3 & Hth3 & Hi3); try done.
  { rewrite Hc2, Hc1. apply lookup_insert_eq. }
  assert (connects w2 dh cfg = rc) as Hrc by (unfold connects, rc; by rewrite He2, He1). rewrite Hrc in *.
  exists w3. split; [|split; [congruence|split; [by rewrite Hc3, Hc2, Hc1, lookup_insert_eq|]]].
  - exists sq, rq, cq, p. split; [|rewrite Hth3, Hi3, Hth2; by rewrite lookup_insert_ne, !lookup_insert_eq].
    unfold queue_at in *. by destruct (rc =? -1); constructor; try done; unfold queue_at; rewrite Hq3.
  - intros asleep pf fuel. unfold ki_open. rewrite (bind_Ok _ _ _ _ _ E1). cbv beta iota.
    rewrite (bind_Ok _ _ _ _ _ (on_w_run _ _ _ _ _ _ _ _ E2)). cbv beta. replace (n <? 0) with false by lia.
    rewrite (bind_Ok _ _ _ _ _ (on_w_run _ _ _ _ _ _ _ _ E3)). cbv beta. by destruct (rc =? -1).
Qed.

(** What the driver's connect answers to the open of [w] *)
Definition dialled w (dh : ptr) (cfg : KtliState.ktli_config) : Z :=
  (ktli_dfns_connect socket_fns (Some dh) (kcfg_host cfg) (kcfg_port cfg) (Z.land (kcfg_flags cfg) KCFF_TLS)
    (ktli_dfns_open socket_fns (w_env w)).2).1.1.

(** C11: [ki_open] on a drive that accepts the connection.  It serves the session on
    the lowest free descriptor, connected, with empty queues, with a configuration
    that copies the caller's host, port, identity and key and points to a new API
    session.  Whenever, after any number of rounds in which nothing came, the
    drive's unsolicited status is on the completion queue, the call answers the
    descriptor; the session then has the limits of the status, absent ones being
    0, the cluster version and connection of its header, the first batch number
    and no active batch; what the status was unpacked into is freed, except for
    the strings of the configuration; the kio is taken off the queue, and neither
    it nor the buffers it carries are freed. *)
Theorem ki_open_spec tf kh host port hkey usetls id w s bl ses pb n dh stid rtid :
  can_open w kh n dh stid rtid -> stid <> rtid -> mem_ok s ->
  let sp := Pos.succ (w_next w) in let cfg := config_of host port hkey usetls id sp in
  dialled w dh cfg <> -1 ->
  exists w1, serves w1 kh n dh stid rtid (w_next w) KTLI_SSTATE_CONNECTED /\ w_kios w1 = w_kios w /\
    w_configs w1 !! w_next w = Some cfg /\
    forall asleep pf fuel r w2 cq l ex i e p k rm rc lg h,
      awaits asleep pf n 0 r w1 w2 -> (r < fuel)%nat -> unsolicited w2 n cq l ex i e p k ->
      carries_status k rm rc -> getlog_of rc lg -> counts_fit lg -> c_header rc = Some h ->
      exists w3 m lim,
        ki_open socket_fns tf asleep pf fuel kh (Some host) (Some port) usetls id (Some hkey) (St w s bl ses pb) =
          Ok (n, St w3 (adv m (conf_strings (gl_configuration lg)) s) bl (<[sp := opened lim h]> ses) pb) /\
        limits_logged (gl_limits lg) lim /\ handed w2 cq l ex i p k w3.
Proof.
  intros Ho Hne Hs sp cfg Hrc.
  destruct (ki_open_opened tf kh host port hkey usetls id w s bl ses pb n dh stid rtid Ho Hne)
    as (w1 & Hsv & Hk1 & Hc1 & E).
  fold sp cfg in Hsv, Hc1, E. fold (dialled w dh cfg) in Hsv, E. apply Z.eqb_neq in Hrc. rewrite Hrc in *.
  exists w1. split; [done|]. split; [done|]. split; [done|].
  intros asleep pf fuel r w2 cq l ex i e p k rm rc lg h Hw Hf Hu Hcs Hg Hfit Hh. rewrite E.
  edestruct (open_wait_run asleep pf n 0 r) as (w3 & E3 & Hd); [exact Hw|exact Hf|exact Hu|].
  erewrite bind_Ok by exact E3. cbv beta.
  destruct (open_status_run w3 s bl (<[sp := opening]> ses) pb n sp p (set_kio_qbp None k) rm rc lg h) as (m & lim & Es & Hl); try done.
  { destruct Hd as (l' & _ & _ & Hk & _). by rewrite Hk, lookup_insert_eq. }
  { apply lookup_insert_eq. }
  exists w3, m, lim. rewrite Es, insert_insert_eq. done.
Qed.

(** When the unsolicited status is an error, or carries no log, the structure for
    the log is destroyed twice: the call has no meaning. *)
Theorem ki_open_bad_status tf kh host port hkey usetls id w s bl ses pb n dh stid rtid :
  can_open w kh n dh stid rtid -> stid <> rtid -> mem_ok s ->
  dialled w dh (config_of host port hkey usetls id (Pos.succ (w_next w))) <> -1 ->
  exists w1, serves w1 kh n dh stid rtid (w_next w) KTLI_SSTATE_CONNECTED /\
    forall asleep pf fuel r w2 cq l ex i e p k rm rc,
      awaits asleep pf n 0 r w1 w2 -> (r < fuel)%nat -> unsolicited w2 n cq l ex i e p k ->
      carries_status k rm rc -> ~ (exists lg, getlog_of rc lg) ->
      ki_open socket_fns tf asleep pf fuel kh (Some host) (Some port) usetls id (Some hkey) (St w s bl ses pb) = Ub.
Proof.
  intros Ho Hne Hs Hrc.
  destruct (ki_open_opened tf kh host port hkey usetls id w s bl ses pb n dh stid rtid Ho Hne)
    as (w1 & Hsv & _ & _ & E).
  unfold dialled in Hrc. apply Z.eqb_neq in Hrc. rewrite Hrc in E, Hsv.
  exists w1. split; [done|]. intros asleep pf fuel r w2 cq l ex i e p k rm rc Hw Hf Hu Hcs Hbad. rewrite E.
  edestruct (open_wait_run asleep pf n 0 r) as (w3 & E3 & (l' & _ & _ & Hk & _)); [exact Hw|exact Hf|exact Hu|].
  erewrite bind_Ok by exact E3. cbv beta.
  apply (open_status_bad w3 s bl _ pb n _ p (set_kio_qbp None k) rm rc); try done.
  by rewrite Hk, lookup_insert_eq.
Qed.

(** C31: [ki_open] never returns when the driver's connect fails, whatever the
    service threads are given: it closes the session, and the receiver of a
    session that was never connected does not end. *)
Theorem ki_open_refused_hangs tf asleep pf fuel kh host port hkey usetls id w s bl ses pb n dh stid rtid :
  can_open w kh n dh stid rtid -> stid <> rtid ->
  dialled w dh (config_of host port hkey usetls id (Pos.succ (w_next w))) = -1 ->
  (forall o x, (ktli_dfns_close socket_fns o x).1.1 = 0) ->
  ki_open socket_fns tf asleep pf fuel kh (Some host) (Some port) usetls id (Some hkey) (St w s bl ses pb) = NoFuel.
Proof.
  intros Ho Hne Hrc Hcl.
  destruct (ki_open_opened tf kh host port hkey usetls id w s bl ses pb n dh stid rtid Ho Hne)
    as (w1 & (sq & rq & cq & p & Hsq & Hts & Htr & Hi) & _ & _ & E).
  unfold dialled in Hrc. rewrite Hrc in E, Hsq. cbn [Z.eqb Z.compare Pos.compare Pos.compare_cont Pos.eqb] in E, Hsq. rewrite E.
  assert (ktli_close socket_fns tf n w1 = NoFuel) as Hc.
  { eapply (ktli_close_joins socket_fns tf w1 n _ sq rq cq); [exact Hsq|unfold pending; by rewrite list_create_contents|done|done|done|done|done| | |exact Hi..|by left]; done. }
  unfold mbind, ST_bind, on_w. cbn. by rewrite Hc.
Qed.

(** [ki_open] never returns when the connection is lost before the status has come:
    the loop takes every error of the receive for "not yet". *)
Theorem ki_open_lost_spins tf kh host port hkey usetls id w s bl ses pb n dh stid rtid :
  can_open w kh n dh stid rtid -> stid <> rtid ->
  dialled w dh (config_of host port hkey usetls id (Pos.succ (w_next w))) <> -1 ->
  exists w1, serves w1 kh n dh stid rtid (w_next w) KTLI_SSTATE_CONNECTED /\
    forall asleep pf fuel r w2 x, awaits asleep pf n 0 r w1 w2 -> session_at w2 n x ->
      ks_state x <> KTLI_SSTATE_CONNECTED -> ks_state x <> KTLI_SSTATE_DRAINING ->
      ki_open socket_fns tf asleep pf fuel kh (Some host) (Some port) usetls id (Some hkey) (St w s bl ses pb) = NoFuel.
Proof.
  intros Ho Hne Hrc.
  destruct (ki_open_opened tf kh host port hkey usetls id w s bl ses pb n dh stid rtid Ho Hne)
    as (w1 & Hsv & _ & _ & E).
  unfold dialled in Hrc. apply Z.eqb_neq in Hrc. rewrite Hrc in E, Hsv.
  exists w1. split; [done|]. intros asleep pf fuel r w2 x Hw Hx H1 H2. rewrite E. apply bind_NoFuel. by eapply open_wait_lost.
Qed.
End open.
