(* ===== verification/BatchSpec.v ===== *)
(** What the batch code promises: the atomic increment under contention, the
    life of a batch on its session's counters, and the limits a batch's puts
    and deletes are held to. *)

From stdpp Require Import gmap.
From S2P Require Import Prelude Types ListApi Session KtliState Ktli KtliSpec Pdu Keys Ktb Validate.
From S2P Require Import ProtoData Proto ProtoSpec Stat Op OpFrame Put Del Get Noop Batch Exec Aio OpSpec OpRequest OpComplete.

(** ** The increment *)

(** The counter at the [n]-th read, when every swap before it failed *)
Fixpoint counter (race : nat -> option Z) (p : Z) (n : nat) : Z :=
  match n with O => p | S n => default (counter race p n) (race n) end.
(** The [n]-th swap finds the counter as it was read. *)
Definition undisturbed (race : nat -> option Z) (p : Z) (n : nat) : Prop :=
  counter race p (S n) = counter race p n.

Lemma atom_loop_run race p i fuel n retries :
  retries = Z.of_nat fuel ->
  (forall m, (n <= m)%nat -> (m < n + fuel)%nat -> ~ undisturbed race p m) ->
  atom_loop race fuel n retries (counter race p n) i =
    let m := (n + fuel)%nat in
    if counter race p (S m) =? counter race p m
    then Ok (-1, counter race p m, u32 (counter race p m + i))
    else Ok (0, counter race p m, counter race p (S m)).
Proof.
  revert n retries. induction fuel as [|fuel IH]; intros n retries -> Hno.
  - cbn [atom_loop]. rewrite Nat.add_0_r. cbn [counter]. case_match; [|done].
    done.
  - cbn [atom_loop]. change (default (counter race p n) (race n)) with (counter race p (S n)).
    rewrite (proj2 (Z.eqb_neq (counter race p (S n)) _)) by (apply Hno; lia).
    replace (Z.of_nat (S fuel) =? 0) with false by (symmetry; apply Z.eqb_neq; lia).
    replace (n + S fuel)%nat with (S n + fuel)%nat by lia. apply IH; [lia|].
    intros m H1 H2. apply Hno; lia.
Qed.

Lemma atom_loop_stops race p i fuel n retries k :
  retries = Z.of_nat fuel -> (k < fuel)%nat ->
  (forall m, (n <= m)%nat -> (m < n + k)%nat -> ~ undisturbed race p m) -> undisturbed race p (n + k) ->
  atom_loop race fuel n retries (counter race p n) i =
    Ok (0, counter race p (n + k), u32 (counter race p (n + k) + i)).
Proof.
  revert n retries k. induction fuel as [|fuel IH]; intros n retries k -> Hk Hno Hyes; [lia|].
  cbn [atom_loop]. change (default (counter race p n) (race n)) with (counter race p (S n)). destruct k as [|k].
  - rewrite Nat.add_0_r in *. rewrite (proj2 (Z.eqb_eq (counter race p (S n)) _)) by exact Hyes.
    by replace (Z.of_nat (S fuel) =? 0) with false by (symmetry; apply Z.eqb_neq; lia).
  - rewrite (proj2 (Z.eqb_neq (counter race p (S n)) _)) by (apply Hno; lia).
    replace (Z.of_nat (S fuel) =? 0) with false by (symmetry; apply Z.eqb_neq; lia).
    replace (n + S k)%nat with (S n + k)%nat in * by lia. apply IH; [lia|lia| |done].
    intros m H1 H2. apply Hno; lia.
Qed.

(** [b_atom_inc] swaps at most 1001 times.  If the first undisturbed swap is
    among the first thousand it answers 0, stores the old value (the comment
    says the new one) and adds [i] to the counter; if it is the last one the
    counter is raised although the answer is -1; and when every swap was
    disturbed the answer is 0 although nothing was added. *)
Theorem b_atom_inc_spec race p i :
  (forall n, (n < 1000)%nat -> (forall m, (m < n)%nat -> ~ undisturbed race p m) -> undisturbed race p n ->
     b_atom_inc race p i = Ok (0, counter race p n, u32 (counter race p n + i))) /\
  ((forall m, (m < 1000)%nat -> ~ undisturbed race p m) ->
     b_atom_inc race p i =
       if counter race p 1001 =? counter race p 1000
       then Ok (-1, counter race p 1000, u32 (counter race p 1000 + i))
       else Ok (0, counter race p 1000, counter race p 1001)).
Proof.
  unfold b_atom_inc. change (Z.to_nat retry_max) with 1000%nat. split.
  - intros n Hn Hno Hyes. change p with (counter race p 0) at 1.
    apply (atom_loop_stops race p i 1000 0 1000 n); [done|lia|intros; apply Hno; lia|done].
  - intros Hno. change p with (counter race p 0) at 1.
    apply (atom_loop_run race p i 1000 0 1000); [done|intros; apply Hno; lia].
Qed.

Lemma b_atom_inc_spec_witness :
  (let race n := if (n <? 2)%nat then Some (Z.of_nat n + 6) else None in b_atom_inc race 5 1 = Ok (0, 7, 8)) /\
  (let race n := Some (Z.of_nat n + 6) in b_atom_inc race 5 1 = Ok (0, 1005, 1006)).
Proof.
  split; intros race.
  - apply (proj1 (b_atom_inc_spec race 5 1) 2%nat); [lia| |reflexivity].
    intros m Hm H. assert (m = 0 \/ m = 1)%nat as [-> | ->] by lia; discriminate H.
  - rewrite (proj2 (b_atom_inc_spec race 5 1)); [reflexivity|].
    intros m Hm H. destruct m as [|m]; [discriminate H|]. unfold undisturbed in H. cbn [counter default] in H.
    unfold race in H. cbn [default from_option id] in H. lia.
Defined.

Section batch.
Context {LA : ListApi} {LL : ListLaws} {X : Type} {PG : ProtoGen} {PL : ProtoLaws} {SZ : Sizes}.

Notation opst := (@opst LA X).
Notation world := (@world LA X).
Notation OP := (ST opst).
Notation St w s bl ses pb := (@Opst LA X w (Heap s bl) ses pb).

(** The batch [t] of the caller at [q] *)
Definition kb_block (bl : gmap ptr ktb) (q : ptr) (b : ktb) (t : kb) : Prop :=
  bl !! q = Some b /\ ktb_buf b = DBatch t /\ block_wf b.
Definition put_kb (bl : gmap ptr ktb) (q : ptr) (b : ktb) (t : kb) : gmap ptr ktb := <[q := set_ktb_buf (DBatch t) b]> bl.

Lemma kb_rd_run bl q b t w s ses pb :
  kb_block bl q b t -> kb_rd (Some q) (St w s bl ses pb) = Ok (t, St w s bl ses pb).
Proof.
  intros (Hb & Hd & _). unfold kb_rd. erewrite bind_Ok by done. apply on_h_run.
  unfold get_kb. erewrite bind_Ok by by apply ktb_base_run. by rewrite Hd.
Qed.
Lemma kb_wr_run bl q b t t' w s ses pb :
  kb_block bl q b t -> kb_wr (Some q) t' (St w s bl ses pb) = Ok (tt, St w s (put_kb bl q b t') ses pb).
Proof.
  intros (Hb & Hd & _). unfold kb_wr. erewrite bind_Ok by done. cbv beta. unfold on_h. cbn [o_heap].
  erewrite bind_Ok by (by apply ktb_base_run). cbv beta. by rewrite Hd.
Qed.
Lemma kb_block_put bl q b t t' : kb_block bl q b t -> kb_block (put_kb bl q b t') q (set_ktb_buf (DBatch t') b) t'.
Proof.
  intros (Hb & Hd & Hwf). split_and!; [apply lookup_insert_eq|done|]. apply block_wf_set; [done|].
  destruct Hwf as (_ & _ & _ & H). rewrite Hd in H. unfold data_of_type in *. by repeat case_match.
Qed.
Lemma put_kb_put bl q b t t' : put_kb (put_kb bl q b t) q (set_ktb_buf (DBatch t) b) t' = put_kb bl q b t'.
Proof. unfold put_kb. by rewrite insert_insert_eq. Qed.

(** ** The limits of a batch *)
Definition within (limit count : Z) : Prop := 0 < limit -> count <= limit.
Lemma over_within limit count : over limit count = false <-> within limit count.
Proof.
  unfold over, within. rewrite !Z.gtb_ltb, andb_false_iff, !Z.ltb_ge. lia.
Qed.

(** The batch's counters after one more operation, and the limits it must be in *)
Definition batch_ok (lim : klimits) (dels : bool) (t : kb) : Prop :=
  within (kl_batlen lim) (kb_bytes t) /\ within (kl_batopscnt lim) (kb_ops t) /\
  (dels = true -> within (kl_batdelcnt lim) (kb_dels t)).
Definition account_of (dels : bool) (ses kbp : option ptr) : Z -> Z -> OP (option Z) :=
  if dels then del_account ses kbp else put_account ses kbp.

Definition exceeded (lim : klimits) (dels : bool) (t : kb) : bool :=
  over (kl_batlen lim) (kb_bytes t) || over (kl_batopscnt lim) (kb_ops t) || (dels && over (kl_batdelcnt lim) (kb_dels t)).
Lemma exceeded_ok lim dels t : exceeded lim dels t = false <-> batch_ok lim dels t.
Proof.
  unfold exceeded, batch_ok. rewrite !orb_false_iff, andb_false_iff, !over_within.
  destruct dels; intuition congruence.
Qed.

Lemma account_run (dels : bool) w s bl ses pb sp ksn q b t msglen vallen :
  ses !! sp = Some ksn -> kb_block bl q b t ->
  let t' := kb_add (if dels then 1 else 0) msglen vallen t in
  account_of dels (Some sp) (Some q) msglen vallen (St w s bl ses pb) =
    Ok (if exceeded (ks_l ksn) dels t' then Some K_EBATCH else None, St w s (put_kb bl q b t') ses pb).
Proof.
  intros Hses Hb t'. assert (forall bl, ses_rd (Some sp) (St w s bl ses pb) = Ok (ksn, St w s bl ses pb)) as Hrd.
  { intros bl'. unfold ses_rd, deref_st. cbn. by rewrite Hses. }
  unfold t', exceeded, account_of.
  destruct dels; [unfold del_account|unfold put_account]; (erewrite bind_Ok by by eapply kb_rd_run); cbv beta zeta;
    (erewrite bind_Ok by by eapply kb_wr_run); (erewrite bind_Ok by apply Hrd); cbv beta;
    repeat (destruct (over _ _); cbn [orb andb]; try done).
Qed.


(** ** The life of a batch, undisturbed by other threads *)
Lemma b_atom_inc_quiet p i : b_atom_inc (fun _ => None) p i = Ok (0, p, u32 (p + i)).
Proof. apply (atom_loop_stops (fun _ => None) p i 1000 0 1000 0); [done|lia|lia|done]. Qed.

Lemma inc_bid_run w s bl ses pb sp ksn :
  ses !! sp = Some ksn ->
  inc_bid (Some sp) (r_bid quiet) (St w s bl ses pb) =
    Ok ((0, ks_bid ksn), St w s bl (<[sp := set_ks_batch (u32 (ks_bid ksn + 1)) (ks_bats ksn) ksn]> ses) pb).
Proof.
  intros H. unfold inc_bid. erewrite bind_Ok. 2:{ unfold ses_rd, deref_st. cbn. rewrite H. reflexivity. }
  cbv beta. erewrite bind_Ok by (apply lift_Ok, b_atom_inc_quiet). cbv beta iota.
  erewrite bind_Ok. 2:{ unfold ses_upd. cbn. rewrite H. reflexivity. } done.
Qed.
Lemma inc_bats_run i w s bl ses pb sp ksn :
  ses !! sp = Some ksn ->
  inc_bats (Some sp) (r_bats quiet) i (St w s bl ses pb) =
    Ok ((0, ks_bats ksn), St w s bl (<[sp := set_ks_batch (ks_bid ksn) (u32 (ks_bats ksn + i)) ksn]> ses) pb).
Proof.
  intros H. unfold inc_bats. erewrite bind_Ok. 2:{ unfold ses_rd, deref_st. cbn. rewrite H. reflexivity. }
  cbv beta. erewrite bind_Ok by (apply lift_Ok, b_atom_inc_quiet). cbv beta iota.
  erewrite bind_Ok. 2:{ unfold ses_upd. cbn. rewrite H. reflexivity. } done.
Qed.

(** The session and the batch after a start, and whether it goes on *)
Definition started_ks (ksn : ksession) : ksession := set_ks_batch (u32 (ks_bid ksn + 1)) (u32 (ks_bats ksn + 1)) ksn.
Definition no_room (ksn : ksession) : bool := over (kl_devbatcnt (ks_l ksn)) (ks_bats ksn).

Lemma set_up_start_run ktd w s bl ses pb sp ksn q b t :
  ses !! sp = Some ksn -> kb_block bl q b t ->
  set_up_batch ktd (Some sp) (Some q) quiet KMT_STARTBAT (St w s bl ses pb) =
    Ok (if no_room ksn then Some (K_EBATCH, true) else None,
        St w s (put_kb bl q b (if no_room ksn then Kb (kb_ktd t) (ks_bid ksn) (kb_ops t) (kb_dels t) (kb_bytes t)
                               else Kb ktd (ks_bid ksn) 0 0 0))
          (<[sp := started_ks ksn]> ses) pb).
Proof.
  intros Hses Hb. unfold set_up_batch. rewrite Z.eqb_refl.
  erewrite bind_Ok by by eapply kb_rd_run. cbv beta. erewrite bind_Ok by by apply inc_bid_run. cbv beta iota.
  erewrite bind_Ok by by eapply kb_wr_run. cbn [Z.ltb Z.compare].
  erewrite bind_Ok by (apply inc_bats_run, lookup_insert_eq). cbv beta iota. cbn [Z.ltb Z.compare].
  rewrite insert_insert_eq. cbn [ks_bats ks_bid set_ks_batch].
  change (set_ks_batch _ _ (set_ks_batch _ _ ksn)) with (started_ks ksn).
  erewrite bind_Ok. 2:{ unfold ses_rd, deref_st. cbn. rewrite lookup_insert_eq. reflexivity. } cbv beta.
  change ((kl_devbatcnt (ks_l (started_ks ksn)) >? 0) && (ks_bats ksn >? kl_devbatcnt (ks_l (started_ks ksn)))) with (no_room ksn).
  destruct (no_room ksn); [done|]. erewrite bind_Ok by (eapply kb_wr_run; by eapply kb_block_put). by rewrite put_kb_put.
Qed.

Lemma validate_kb_start bl q b t s :
  kb_block bl q b t -> ki_validate_kb (Some q) KMT_STARTBAT (Heap s bl) = Ok (0, Heap s bl).
Proof.
  intros (Hb & Hd & Hwf). unfold ki_validate_kb. erewrite bind_Ok by by eapply ki_valid_run. by rewrite Z.eqb_refl.
Qed.
Lemma validate_kb_end bl q b t s m :
  kb_block bl q b t -> m = KMT_ENDBAT \/ m = KMT_ABORTBAT ->
  ki_validate_kb (Some q) m (Heap s bl) = Ok (if kb_bid t >=? KFIRSTBID then 0 else -1, Heap s bl).
Proof.
  intros (Hb & Hd & Hwf) Hm. unfold ki_validate_kb. erewrite bind_Ok by by eapply ki_valid_run. cbv beta.
  assert (get_kb q (Heap s bl) = Ok (t, Heap s bl)) as Hg.
  { unfold get_kb. erewrite bind_Ok by by apply ktb_base_run. by rewrite Hd. }
  destruct Hm as [-> | ->]; exact (bind_Ok _ _ _ _ _ Hg).
Qed.

Section calls.
Context (w : world) (s : mem) (bl : gmap ptr ktb) (ses : gmap ptr ksession) (pb : gmap ptr kproto_cmd_t).
Context (ktd : Z) (sq : ptr) (l : clist) (ex : Z) (cf : ptr) (cfg : KtliState.ktli_config) (hkey : buffer).
Context (sp : ptr) (ksn : ksession) (q : ptr) (b : ktb) (t : kb) (cctx : option ptr)
  (Hs : mem_ok s) (Hready : session_ready w ktd sq l ex cf cfg hkey)
  (Hsp : kcfg_pconf cfg = Some sp) (Hses : ses !! sp = Some ksn) (Hkb : kb_block bl q b t)
  (Hid : -2 ^ 63 <= kcfg_id cfg < 2 ^ 63).

(** The command of a batch call of type [m] for the batch [t] *)
Definition batch_hdr (m : Z) (t : kb) (ksn : ksession) : kcmdhdr_t := set_kch_bid (kb_bid t) (set_kch_type m (ks_ch ksn)).
Definition batch_cmd (m : Z) (t : kb) (ksn : ksession) : kproto_cmd_t :=
  batch_command (batch_hdr m t ksn) (batch_body m (kb_ops t)).
(** The kio [p] queued with the request [c] *)
Definition batch_queued (c : kproto_cmd_t) (m : Z) (w' : world) : Prop :=
  exists k, queued w sq l ex (w_next w) k w' /\ kio_cmd k = m /\ kio_ckb k = Some q /\ kio_cctx k = cctx /\
    let msg := request_msg (kcfg_id cfg) hkey c in
    km_msg (kio_sendmsg k) = Some (wire (request_pdu msg []) msg []) /\ km_cnt (kio_sendmsg k) = 2.

Lemma batch_send_run m bl' ses' ksn' b' t' :
  m = KMT_STARTBAT \/ m = KMT_ENDBAT \/ m = KMT_ABORTBAT ->
  kb_block bl' q b' t' -> ses' !! sp = Some ksn' -> cmd_wf (batch_cmd m t' ksn') ->
  exists w' s',
    (b ← kb_rd (Some q);
     '(krc, kio) ← send_request ktd (Some cf) (Some sp) ts0
       (OpDesc m KIOF_REQRESP None None None (Some q) None cctx []
          (fun mh ch => create_batch_message mh ch (kb_ops b)) K_EINTERNAL (Some (kb_bid b)) (fun _ _ => mret None));
     if krc =? K_OK then mret (krc, kio) else bex_kb (Some sp) (r_dec quiet) m krc) (St w s bl' ses' pb) =
      Ok ((K_OK, Some (w_next w)), St w' s' bl' ses' pb) /\
    batch_queued (batch_cmd m t' ksn') m w'.
Proof.
  intros Hm Hb Hk Hc. erewrite bind_Ok by by eapply kb_rd_run. cbv beta.
  set (d := OpDesc _ _ _ _ _ _ _ _ _ _ _ _ _).
  destruct (send_request_run w s bl' bl' ses' pb ktd sq l ex cf cfg hkey sp ksn' ts0 d (batch_cmd m t' ksn'))
    as (w' & n & E & Q); [done|done|done| |by apply request_msg_wf|done|done|].
  { cbv zeta. apply create_batch_makes; [by apply Hready|done|done]. }
  eexists w', _. erewrite bind_Ok by exact E. split; [done|]. eexists. split; [exact Q|]. done.
Qed.

Lemma batch_prefix_run m :
  ki_validate_kb (Some q) m (Heap s bl) = Ok (0, Heap s bl) ->
  b_batch_aio_generic ktd (Some q) m quiet cctx true (St w s bl ses pb) =
    (stop ← set_up_batch ktd (Some sp) (Some q) quiet m;
     match stop with
     | Some (krc, true) => bex_kb (Some sp) (r_dec quiet) m krc
     | Some (krc, false) => mret (krc, None)
     | None =>
         b ← kb_rd (Some q);
         '(krc, kio) ← send_request ktd (Some cf) (Some sp) ts0
           (OpDesc m KIOF_REQRESP None None None (Some q) None cctx []
              (fun mh ch => create_batch_message mh ch (kb_ops b)) K_EINTERNAL (Some (kb_bid b)) (fun _ _ => mret None));
         if krc =? K_OK then mret (krc, kio) else bex_kb (Some sp) (r_dec quiet) m krc
     end) (St w s bl ses pb).
Proof.
  intros Hv. unfold b_batch_aio_generic. cbn [negb].
  erewrite bind_Ok by (apply on_w_run; by eapply ktli_config_run). cbv beta iota. cbn [Z.ltb Z.compare].
  erewrite bind_Ok. 2:{ unfold cfg_rd, deref_st. cbn. rewrite (sr_config _ _ _ _ _ _ _ _ Hready). reflexivity. }
  cbv beta zeta. rewrite Hsp. erewrite bind_Ok by (apply on_h_run; exact Hv). cbv beta.
  rewrite bool_decide_true by done. cbn [andb Z.ltb Z.compare]. done.
Qed.

(** C33: Starting a batch, no other thread interfering, takes the session's next
    batch id and counts the batch as active; the batch gets that id, the
    session's descriptor and counters of zero, and a STARTBAT request with the
    id in its header is queued.  When the number of batches already active is
    over the device's limit the start is refused with K_EBATCH: the count of
    active batches is as before, the id is used up and in the batch.  (The
    count is compared before the increment, so one batch more than the limit
    can be active.) *)
Theorem start_batch_spec :
  0 <= ks_bats ksn < 2 ^ 32 -> cmd_wf (batch_cmd KMT_STARTBAT (Kb ktd (ks_bid ksn) 0 0 0) ksn) ->
  if no_room ksn then
    b_batch_aio_generic ktd (Some q) KMT_STARTBAT quiet cctx true (St w s bl ses pb) =
      Ok ((K_EBATCH, None),
          St w s (put_kb bl q b (Kb (kb_ktd t) (ks_bid ksn) (kb_ops t) (kb_dels t) (kb_bytes t)))
            (<[sp := set_ks_batch (u32 (ks_bid ksn + 1)) (ks_bats ksn) ksn]> ses) pb)
  else exists w' s', b_batch_aio_generic ktd (Some q) KMT_STARTBAT quiet cctx true (St w s bl ses pb) =
      Ok ((K_OK, Some (w_next w)), St w' s' (put_kb bl q b (Kb ktd (ks_bid ksn) 0 0 0)) (<[sp := started_ks ksn]> ses) pb) /\
    batch_queued (batch_cmd KMT_STARTBAT (Kb ktd (ks_bid ksn) 0 0 0) ksn) KMT_STARTBAT w'.
Proof.
  intros Hbats Hc. rewrite batch_prefix_run by by eapply validate_kb_start.
  rewrite (bind_Ok _ _ _ _ _ (set_up_start_run ktd w s bl ses pb sp ksn q b t Hses Hkb)).
  destruct (no_room ksn); cbv beta iota.
  - unfold bex_kb. rewrite Z.eqb_refl. erewrite bind_Ok by (apply inc_bats_run, lookup_insert_eq). cbv beta iota.
    cbn [Z.ltb Z.compare]. rewrite insert_insert_eq. unfold mret, ST_ret. do 3 f_equal. f_equal.
    unfold started_ks, set_ks_batch. cbn. f_equal. rewrite u32_add. replace (ks_bats ksn + 1 + -1) with (ks_bats ksn) by lia.
    by apply u32_small.
  - eapply (batch_send_run KMT_STARTBAT _ _ (started_ks ksn)); [by left|by eapply kb_block_put|apply lookup_insert_eq|exact Hc].
Qed.

(** Submitting or aborting a batch whose id is a session's (at least the first
    id) queues an ENDBAT request, carrying the number of operations the batch
    counted, or an ABORTBAT request without body, under the batch's id, and
    changes neither the batch nor the session; any other id is K_EINVAL and
    nothing happens. *)
Theorem end_batch_spec m :
  m = KMT_ENDBAT \/ m = KMT_ABORTBAT -> cmd_wf (batch_cmd m t ksn) ->
  if kb_bid t >=? KFIRSTBID then
    exists w' s', b_batch_aio_generic ktd (Some q) m quiet cctx true (St w s bl ses pb) =
      Ok ((K_OK, Some (w_next w)), St w' s' bl ses pb) /\ batch_queued (batch_cmd m t ksn) m w'
  else
    b_batch_aio_generic ktd (Some q) m quiet cctx true (St w s bl ses pb) = Ok ((K_EINVAL, None), St w s bl ses pb).
Proof.
  intros Hm Hc. pose proof (validate_kb_end bl q b t s m Hkb Hm) as Hv. destruct (kb_bid t >=? KFIRSTBID).
  - rewrite batch_prefix_run by exact Hv. rewrite (bind_Ok _ _ _ None (St w s bl ses pb)).
    2: { unfold set_up_batch. by destruct Hm as [-> | ->]. }
    cbv beta iota. eapply (batch_send_run m _ _ ksn); [by right|done|done|exact Hc].
  - unfold b_batch_aio_generic. cbn [negb].
    erewrite bind_Ok by (apply on_w_run; by eapply ktli_config_run). cbv beta iota. cbn [Z.ltb Z.compare].
    erewrite bind_Ok. 2:{ unfold cfg_rd, deref_st. cbn. rewrite (sr_config _ _ _ _ _ _ _ _ Hready). reflexivity. }
    cbv beta zeta. erewrite bind_Ok by (apply on_h_run; exact Hv). cbv beta.
    rewrite bool_decide_true by done. done.
Qed.
End calls.

(** *** Completion *)
Definition ends_batch (krc cmd : Z) : bool := (krc =? K_OK) && ((cmd =? KMT_ENDBAT) || (cmd =? KMT_ABORTBAT)).
Definition ended_ks (ksn : ksession) : ksession := set_ks_batch (ks_bid ksn) (u32 (ks_bats ksn + -1)) ksn.

Lemma dispatch_batch ktd p r w s bl ses pb k :
  w_kios w !! p = Some k -> kio_cmd k = KMT_STARTBAT \/ kio_cmd k = KMT_ENDBAT \/ kio_cmd k = KMT_ABORTBAT ->
  ki_aio_complete ktd (Some p) r (St w s bl ses pb) = b_batch_aio_complete ktd r (Some p) (St w s bl ses pb).
Proof.
  intros Hk Hc. unfold ki_aio_complete. erewrite bind_Ok by done. cbv beta.
  erewrite bind_Ok by by apply on_w_run, kio_rd_run. cbv beta zeta. by destruct Hc as [-> |[-> | ->]].
Qed.

(** A batch request whose response arrived is completed with the drive's
    status and all of its buffers given back; a successful end or abort, and
    only that, takes one batch off the session's count of active batches.  A
    start the drive rejects therefore stays counted. *)
Theorem batch_complete_spec w ktd cq l ex i e p k cf sp s bl ses pb ksn rm rc val :
  completed w ktd cq l ex i e p k cf sp -> kio_st k = KIO_RECEIVED ->
  sent_request k [] -> response k rm rc val -> ses !! sp = Some ksn -> mem_ok s ->
  kio_cmd k = KMT_STARTBAT \/ kio_cmd k = KMT_ENDBAT \/ kio_cmd k = KMT_ABORTBAT ->
  let krc := extract_cmdstatus_code (Some rc) in
  exists w' s' l', ki_aio_complete ktd (Some p) quiet (St w s bl ses pb) =
      Ok ((krc, None), St w' s' bl (if ends_batch krc (kio_cmd k) then <[sp := ended_ks ksn]> ses else ses) pb) /\
    contents l' = delete i (contents l) /\ w_queues w' = <[cq := KtliQueue (Some l') false ex]> (w_queues w) /\
    w_kios w' = delete p (w_kios w) /\
    m_live s' + w_live w' = m_live s + w_live w - 4 - (3 + vec_block val).
Proof.
  intros Hc Hst Hsent Hr Hses Hs Hcmd krc. rewrite (dispatch_batch _ _ _ _ _ _ _ _ k) by (done || by apply Hc).
  destruct (cfg_done_run _ _ _ _ _ _ _ _ _ _ _ s bl ses pb Hc) as (cfg & Ecf & Hsp).
  destruct (receive_run _ _ _ _ _ _ _ _ _ _ _ s bl ses pb (Some sp) None Hc (or_introl Hst)) as (w' & E & T).
  destruct (taken_kio _ _ _ _ _ _ _ _ T) as (k' & Hk' & Hsame & Hst' & Hdel).
  pose proof (same_resp _ _ _ _ _ Hsame Hr) as Hr'. pose proof Hr' as [_ _ _ Hb Hcw].
  unfold b_batch_aio_complete. erewrite bind_Ok by by eapply config_done_run. cbv beta iota. cbn [Z.ltb Z.compare].
  erewrite bind_Ok by exact Ecf. cbv beta zeta. rewrite Hsp. erewrite bind_Ok by by eapply kio_bad_run. cbv beta iota.
  erewrite bind_Ok by done. cbv beta. erewrite bind_Ok by exact E. cbv beta iota.
  erewrite bind_Ok by by apply on_w_run, kio_rd_run. cbv beta zeta.
  rewrite bool_decide_false by (rewrite Hst', Hst; intros H; by apply H).
  erewrite bind_Ok by by eapply decode_run. cbv beta iota.
  erewrite bind_Ok by by (apply extract_code_run; [by apply adv_ok|..]). cbv beta. fold krc.
  pose proof Hsame as [(_ & Hcmd' & _) _]. rewrite Hcmd'. fold (ends_batch krc (kio_cmd k)).
  erewrite (bind_Ok (if ends_batch _ _ then _ else _) _ _ 0
    (St w' (adv 1 0 (adv 1 (msg_blocks rm) s)) bl (if ends_batch krc (kio_cmd k) then <[sp := ended_ks ksn]> ses else ses) pb)).
  2: { destruct (ends_batch _ _); [|done]. by erewrite bind_Ok by by apply inc_bats_run. }
  cbv beta. cbn [Z.ltb Z.compare]. erewrite bind_Ok by by apply on_m_run. cbv beta.
  destruct (free_recvmsg_run k' rm rc val w' (adv 0 (- msg_blocks rm) (adv 1 0 (adv 1 (msg_blocks rm) s))) bl
    (if ends_batch krc (kio_cmd k) then <[sp := ended_ks ksn]> ses else ses) pb Hr') as [rl Ef].
  erewrite bind_Ok by exact Ef. cbv beta. erewrite bind_Ok by (apply free_batch_run; by eapply same_sent). cbv beta.
  erewrite bind_Ok by apply kio_free_run. cbv beta.
  destruct (taken_gone _ _ _ _ _ _ _ _ _ _ (drop_live (3 + vec_block val) w') T eq_refl ltac:(done)) as (l' & Hl & Hqs & Hks & Hlive & _).
  eexists _, _, l'. split; [reflexivity|]. split_and!; try done. rewrite Hlive, !adv_live. lia.
Qed.
End batch.
