(* ===== verification/CommandTypes.v ===== *)
(** The types of the commands: what the operations hand to the protobuf packer is
    in the range of the fields it goes to, for every request the library makes,
    when the caller's structures and the session's header are in the range of
    their C types; and the header a session is opened with is. *)

From stdpp Require Import gmap.
From S2P Require Import Prelude Types ListApi Session KtliState Ktli Pdu Keys Ktb Validate ProtoData Proto ProtoSpec Stat Op OpFrame.
From S2P Require Import Put Del Get Noop Batch OpSpec OpRequest OpComplete Sync SyncSpec Range RangeSpec Getlog GetlogSpec.
From S2P Require Import Open OpenSpec BatchSpec.

Definition u32_typed (v : Z) : Prop := 0 <= v < 2 ^ 32.
Definition i32_typed (v : Z) : Prop := - 2 ^ 31 <= v < 2 ^ 31.
Definition u64_typed (v : Z) : Prop := 0 <= v < 2 ^ 64.
Definition i64_typed (v : Z) : Prop := - 2 ^ 63 <= v < 2 ^ 63.

(** [kcmdhdr_t] *)
Record hdr_typed (h : kcmdhdr_t) : Prop := {
  ht_clustvers : i64_typed (kch_clustvers h); ht_connid : i64_typed (kch_connid h); ht_seq : u64_typed (kch_seq h);
  ht_type : i32_typed (kch_type h); ht_timeout : u64_typed (kch_timeout h); ht_pri : i32_typed (kch_pri h);
  ht_quanta : u64_typed (kch_quanta h); ht_bid : u32_typed (kch_bid h) }.
(** The fields of [kv_t] the requests carry: a pointer and its length belong
    together. *)
Record kv_typed (v : kv) : Prop := {
  kt_ver : pbd_wf (Pbd (kv_verlen v) (kv_ver v)); kt_newver : pbd_wf (Pbd (kv_newverlen v) (kv_newver v));
  kt_disum : pbd_wf (Pbd (kv_disumlen v) (kv_disum v)); kt_ditype : i32_typed (kv_ditype v);
  kt_cpolicy : i32_typed (kv_cpolicy v); kt_metaonly : u32_typed (kv_metaonly v) }.
Definition log_typed (ts : list Z) : Prop := Forall i32_typed ts.

Lemma int_of_some lo hi v : lo <= v < hi -> int_of lo hi (Some v).
Proof. by intros H x [= <-]. Qed.
Lemma int_of_none lo hi : int_of lo hi None.
Proof. done. Qed.
Lemma int_of_if lo hi v : lo <= v < hi -> int_of lo hi (set_if v).
Proof. intros H x. unfold set_if. destruct (v =? 0); [done|]. by intros [= <-]. Qed.
Lemma int_of_default lo hi o : lo <= 0 < hi -> int_of lo hi o -> lo <= default 0 o < hi.
Proof. intros H Ho. destruct o as [v|]; [by apply Ho|done]. Qed.
Lemma norm_bool_bool o : is_bool (norm_bool o).
Proof. intros v H. destruct o as [x|]; [|done]. cbn in H. destruct (x =? 0); injection H as <-; lia. Qed.
Lemma is_bin_of b : is_bin (Some (pbd_of b)).
Proof. intros d [= <-]. by exists b. Qed.
Lemma is_bin_some d : pbd_wf d -> is_bin (Some d).
Proof. by intros H x [= <-]. Qed.
Lemma is_bin_none : is_bin None.
Proof. done. Qed.
#[local] Arguments norm_bool : simpl never.
Create HintDb typed discriminated.
#[export] Hint Resolve norm_bool_bool is_bin_of is_bin_some is_bin_none : typed.
#[export] Hint Extern 1 (is_u32 _) => first [apply int_of_some; assumption|apply int_of_if; assumption|apply int_of_none] : typed.
#[export] Hint Extern 1 (is_u64 _) => first [apply int_of_some; assumption|apply int_of_if; assumption|apply int_of_none] : typed.
#[export] Hint Extern 1 (is_i32 _) => first [apply int_of_some; assumption|apply int_of_if; assumption|apply int_of_none] : typed.
#[export] Hint Extern 1 (is_i64 _) => first [apply int_of_some; assumption|apply int_of_if; assumption|apply int_of_none] : typed.

Lemma header_typed h : hdr_typed h -> cmdhdr_wf (norm_hdr (extract_to_command_header h)).
Proof. intros []. unfold cmdhdr_wf, norm_hdr. cbn. split_and!; auto with typed. Qed.
Lemma norm_command_typed h b :
  hdr_typed h -> body_wf (norm_body b) -> cmd_wf (norm_cmd (Command (Some (extract_to_command_header h)) (Some b) None)).
Proof.
  intros Hh Hb. split_and!; [intros x [= <-]; by apply header_typed|intros x [= <-]; exact Hb|done].
Qed.

Lemma body_init_typed : body_wf (norm_body body_init).
Proof. by split_and!. Qed.
Lemma kv_body_typed k : kvbody_wf (norm_kv k) -> body_wf (norm_body (Body (Some k) None None None None)).
Proof. intros H. split_and!; [by intros x [= <-]|done..]. Qed.

Lemma put_body_typed k v force : pbd_wf k -> kv_typed v -> kvbody_wf (norm_kv (put_body k v force)).
Proof.
  intros Hk []. unfold kvbody_wf, norm_kv, put_body. cbn.
  destruct (bool_decide _ || bool_decide _); split_and!; auto with typed.
Qed.
Lemma del_body_typed k v force : is_bin k -> kv_typed v -> kvbody_wf (norm_kv (del_body k v force)).
Proof. intros Hk []. unfold kvbody_wf, norm_kv, del_body. cbn. split_and!; auto with typed. Qed.
Lemma get_body_typed k v : pbd_wf k -> kvbody_wf (norm_kv (get_body k v)).
Proof. intros Hk. unfold kvbody_wf, norm_kv, get_body. cbn. split_and!; auto with typed. Qed.

Lemma call_typed call ch v k :
  hdr_typed ch -> i32_typed (call_type call) -> kv_typed v ->
  cmd_wf (norm_cmd (call_command call (set_kch_type (call_type call) ch) v k)).
Proof.
  intros Hch Ht Hv.
  assert (hdr_typed (set_kch_type (call_type call) ch)) as Hh by (destruct Hch; by split).
  assert (pbd_wf (pbd_of k)) as Hk by by exists k.
  destruct call; apply norm_command_typed; try exact Hh; try apply body_init_typed; apply kv_body_typed.
  - by apply put_body_typed.
  - apply del_body_typed; auto with typed.
  - by apply get_body_typed.
Qed.

Lemma range_typed ch r b1 b2 :
  hdr_typed ch -> cmd_wf (norm_cmd (range_command (set_kch_type KMT_GETRANGE ch) r b1 b2)).
Proof.
  intros Hch. apply norm_command_typed; [destruct Hch; by split|]. split_and!; [done| |done..].
  intros x [= <-]. unfold keyrange_wf, norm_range, range_body. cbn.
  split_and!; auto with typed.
  - destruct b1; cbn; auto with typed.
  - destruct b2; cbn; auto with typed.
  - apply int_of_some, u32_range.
Qed.

Lemma getlog_typed ch g ts :
  hdr_typed ch -> log_typed ts -> cmd_wf (norm_cmd (getlog_command (set_kch_type KMT_GETLOG ch) g ts)).
Proof.
  intros Hch Hts. apply norm_command_typed; [destruct Hch; by split|]. split_and!; [done|done| |done..].
  intros x [= <-]. unfold getlog_wf, log_body. cbn. split_and!; try done.
  intros d Hd. destruct (kdl_name g); [|done]. injection Hd as <-. apply is_bin_of.
Qed.

Lemma batch_typed ch m bid n :
  hdr_typed ch -> i32_typed m -> u32_typed bid -> u32_typed n ->
  cmd_wf (norm_cmd (batch_command (set_kch_bid bid (set_kch_type m ch)) (batch_body m n))).
Proof.
  intros Hch Hm Hb Hn. apply norm_command_typed; [destruct Hch; by split|]. unfold batch_body.
  destruct (m =? KMT_ABORTBAT); [apply body_init_typed|]. split_and!; [done..| |done].
  intros x [= <-]. unfold batchbody_wf. cbn. split_and!; auto with typed.
Qed.

Lemma status_hdr_typed h : cmdhdr_wf h -> hdr_typed (status_hdr h).
Proof.
  intros (H1&H2&_&_&_&H3&_&H4&H5&H6).
  split; cbn; try (by apply int_of_default); unfold u64_typed, i32_typed; lia.
Qed.

