(* ===== verification/OpWitness.v ===== *)
(** The theorems about the operations of the API at a concrete session: the
    transport of [KtliWitness.v] with a configuration that has a key and a
    session, the protobuf instance of [ProtoModel.v], one kv and one batch. *)

From stdpp Require Import gmap.
From S2P Require Import Prelude Types ListApi Session KtliState Ktli KtliSpec KtliThreads KtliThreadSpec KtliLife KtliWitness.
From S2P Require Import Pdu Keys Ktb Validate ProtoData ProtoModel Proto ProtoSpec Stat Op OpFrame Put Del Get Noop Batch Exec Aio.
From S2P Require Import OpSpec OpRequest OpComplete BatchSpec.

#[local] Existing Instance lp64_sizes.

Definition op_config : KtliState.ktli_config := KtliConfig (Some [108]) (Some [56]) 1 (Some sample_key) 0 (Some 7%positive).
Definition op_world (ls lc : list element) (kios : gmap ptr (kio ptr)) : @world zlist_api unit :=
  let w := mk_world KTLI_SSTATE_CONNECTED 100 ls [] lc kios running in
  World (w_errno w) (ktli_up w) (w_table w) (w_queues w) (w_kios w) (w_helpers w) {[1%positive := op_config]} (w_ints w)
    (w_threads w) (w_next w) (w_live w) (w_blank w) (w_mcount w) (w_malloc w) (w_tick w) (w_clock w)
    (w_tcount w) (w_pthread w) (w_env w).

Definition op_session (bats : Z) : ksession := Ksession KFIRSTBID bats limits0 (Kcmdhdr 0 1234567 0 0 0 0 0 0 0 0) kstats0.
Definition op_sessions (bats : Z) : gmap ptr ksession := {[7%positive := op_session bats]}.

Definition op_key : list kiovec := [Kiovec (Some [107; 101]) 2; Kiovec (Some [121]) 1].
Definition op_kv : kv :=
  Kv (Some op_key) 2 (Some [Kiovec (Some [1; 2; 3]) 3]) 1 None 0 None 0 None 0 KDI_SHA1 KC_WT 0.
Definition op_kb : kb := Kb 0 KFIRSTBID 2 0 40.
Definition op_blocks : gmap ptr ktb :=
  {[30%positive := set_ktb_buf (DKv op_kv) (new_block 3 KV_T); 31%positive := set_ktb_buf (DBatch op_kb) (new_block 4 KBATCH_T)]}.
Definition op_state (ls lc : list element) (kios : gmap ptr (kio ptr)) (bats : Z) : @opst zlist_api unit :=
  Opst (op_world ls lc kios) (Heap sample_mem op_blocks) (op_sessions bats) ∅.

(** *** Initiating *)
Lemma op_ready ls lc kios :
  session_ready (op_world ls lc kios) 0 10%positive (Zlist ls (pred (length ls))) 0 1%positive op_config sample_key.
Proof.
  split; try done.
  - exists (sess KTLI_SSTATE_CONNECTED). split_and!; done.
  - by eexists.
  - by repeat constructor.
Qed.

Lemma op_kv_at verck : kv_at op_blocks (Some 30%positive) op_kv false (ks_l (op_session verck)).
Proof.
  exists 30%positive, (set_ktb_buf (DKv op_kv) (new_block 3 KV_T)). split_and!; try reflexivity.
  apply (block_with_wf KV_T); [by split|done].
Qed.
Lemma op_key_ready : key_ready op_kv op_key [[107; 101]; [121]].
Proof.
  split_and!; [reflexivity|reflexivity| |discriminate|by vm_compute].
  repeat constructor; by vm_compute.
Qed.

Definition op_put : request_call := CallPut None (Some 30%positive) false.
Definition op_hdr (t : Z) : kcmdhdr_t := set_kch_type t (ks_ch (op_session 0)).
Definition op_put_cmd : kproto_cmd_t := call_command op_put (op_hdr KMT_PUT) op_kv [107; 101; 121].
Lemma op_put_wf : cmd_wf op_put_cmd.
Proof. cmd_concrete. Qed.

Lemma op_put_runs ls cctx :
  exists o', initiate op_put 0 cctx true (op_state ls [] ∅ 0) = Ok ((K_OK, Some 100%positive), o').
Proof.
  destruct (call_queues (op_world ls [] ∅) sample_mem op_blocks (op_sessions 0) ∅ 0 10%positive (Zlist ls (pred (length ls))) 0
    1%positive op_config sample_key 7%positive (op_session 0) cctx op_kv op_key [[107; 101]; [121]] sample_mem_ok (op_ready _ _ _)
    eq_refl eq_refl op_put) as (w' & s' & k & E & _).
  - split; [reflexivity|]. split; [apply op_kv_at|apply op_key_ready].
  - apply op_put_wf.
  - by apply request_msg_wf.
  - eexists. exact E.
Qed.

Lemma initiate_balance_witness :
  exists o', initiate op_put 0 None true (op_state [(20, 1)]%positive [] ∅ 0) = Ok ((K_OK, Some 100%positive), o') /\
    live o' = live (op_state [(20, 1)]%positive [] ∅ 0) + 4.
Proof.
  destruct (op_put_runs [(20, 1)]%positive None) as [o' E]. exists o'. split; [exact E|].
  by apply (initiate_balance op_put 0 None true (op_state [(20, 1)]%positive [] ∅ 0) (K_OK, Some 100%positive) o').
Defined.

(** The request of a call as it goes out with sequence number 100 *)
Definition digest_for (call : request_call) : buffer := digest_of sample_key (signed (cmd_pack
  (stamp_cmd 100 (call_command call (op_hdr (call_type call)) op_kv [107; 101; 121]) (extract_to_command_header (op_hdr (call_type call)))))).

Definition stamped_for (call : request_call) : kproto_msg_t :=
  let c := call_command call (op_hdr (call_type call)) op_kv [107; 101; 121] in
  stamp_msg 100 (digest_for call) c (extract_to_command_header (op_hdr (call_type call))) (Some 1) (request_msg 1 sample_key c).
Lemma digest_ok call :
  HMAC_SHA1 sample_key (signed (cmd_pack (stamp_cmd 100 (call_command call (op_hdr (call_type call)) op_kv [107; 101; 121])
    (extract_to_command_header (op_hdr (call_type call)))))) = Some (digest_for call).
Proof. reflexivity. Qed.
Lemma put_len : zlen (msg_pack (stamped_for op_put)) < 2 ^ 32.
Proof. vm_cast_no_check (eq_refl Lt). Qed.
(** The value goes out as it is, after a message with sequence number 100. *)
Lemma call_on_the_wire_witness :
  let ls := [(20, 1)]%positive in
  exists w' s' k iov s1 m',
    initiate op_put 0 (Some 9%positive) true (op_state ls [] ∅ 0) =
      Ok ((K_OK, Some 100%positive), Opst w' (Heap s' op_blocks) (op_sessions 0) ∅) /\
    km_msg (kio_sendmsg k) = Some iov /\
    ki_setseq iov (km_cnt (kio_sendmsg k)) 100 sample_mem =
      Ok (wire (Kpdu KP_MAGIC (zlen (msg_pack m')) 3) m' [Kiovec (Some [1; 2; 3]) 3], s1) /\
    queued (op_world ls [] ∅) 10%positive (Zlist ls 0) 0 100%positive k w'.
Proof.
  intros ls.
  destruct (call_on_the_wire (op_world ls [] ∅) sample_mem op_blocks (op_sessions 0) ∅ 0 10%positive (Zlist ls 0) 0
    1%positive op_config sample_key 7%positive (op_session 0) (Some 9%positive) op_kv op_key [[107; 101]; [121]] op_put 100
    (digest_for op_put) sample_mem) as (w' & s' & k & iov & s1 & E & Q & _ & Hm & Es & _).
  - apply sample_mem_ok.
  - apply op_ready.
  - reflexivity.
  - reflexivity.
  - split; [reflexivity|]. split; [apply op_kv_at|apply op_key_ready].
  - by vm_compute.
  - by vm_compute.
  - apply op_put_wf.
  - by vm_compute.
  - apply sample_mem_ok.
  - apply digest_ok.
  - apply put_len.
  - do 6 eexists. split; [exact E|]. split; [exact Hm|]. split; [exact Es|exact Q].
Defined.

(** *** Completing *)
Definition done_kio (st : kio_state) (cmd : Z) (kbp : option ptr) (recv : kio_msg) : kio ptr :=
  let v := Kiovec (Some [0]) 1 in
  Kio ptr KIO_MAGIC cmd 7 KIOF_REQRESP st 0 (KioMsg (Some [v; v]) 2 0 0) recv (Timespec 0 0) (Some 20%positive)
    (Some 9%positive) (Some 30%positive) None kbp None tstamps0.
Definition done_state (k : kio ptr) (bats : Z) : @opst zlist_api unit :=
  op_state [] [(20, 2)]%positive {[2%positive := k]} bats.

Lemma done_completed st cmd kbp recv :
  completed (op_world [] [(20, 2)]%positive {[2%positive := done_kio st cmd kbp recv]}) 0 12%positive
    (Zlist [(20, 2)]%positive 0) 0 0 20%positive 2%positive (done_kio st cmd kbp recv) 1%positive 7%positive.
Proof.
  split; try done.
  - exists (sess KTLI_SSTATE_CONNECTED). split_and!; done.
  - apply (bool_decide_unpack (NoDup [20%positive])). reflexivity.
  - by exists op_config.
Qed.
Lemma done_sent st cmd kbp recv : sent_request (done_kio st cmd kbp recv) [].
Proof. by exists (Kiovec (Some [0]) 1), (Kiovec (Some [0]) 1). Qed.

(** A good answer with version 9 and a value of two bytes *)
Definition answer_cmd : kproto_cmd_t :=
  Command (Some response_hdr)
    (Some (Body (Some (Keyvalue None None None (Some (pbd_of [57])) None None None None)) None None None None))
    (Some (Status (Some K_OK) None None)).
Definition answer_msg : kproto_msg_t :=
  Message (Some KAT_HMAC) (Some sample_auth) None (Some (pbd_of (cmd_pack answer_cmd))).
Definition answer_val : kiovec := Kiovec (Some [8; 9]) 2.
Definition answer_recv : kio_msg :=
  KioMsg (Some [Kiovec (Some (PACK_PDU (Kpdu KP_MAGIC (zlen (msg_pack answer_msg)) 2))) KP_PLENGTH;
                Kiovec (Some (msg_pack answer_msg)) (zlen (msg_pack answer_msg)); answer_val]) 3 0 0.
Lemma done_response st cmd kbp : response (done_kio st cmd kbp answer_recv) answer_msg answer_cmd answer_val.
Proof.
  split.
  - eexists. split; [reflexivity|]. split; [vm_compute; repeat split; congruence|]. done.
  - done.
  - unfold answer_msg, sample_auth. wf_concrete.
  - done.
  - cmd_concrete.
Qed.

Lemma op_kv_block : kv_block op_blocks 30%positive (set_ktb_buf (DKv op_kv) (new_block 3 KV_T)) op_kv.
Proof. done. Qed.
Lemma op_kv_readable : kv_readable op_kv.
Proof. split; [by eexists|]. intros _. by eexists. Qed.

Lemma complete_without_response_witness :
  exists w' s' ses', ki_aio_complete 0 (Some 2%positive) quiet
      (done_state (done_kio KIO_TIMEDOUT KMT_PUT None kio_msg0) 0) =
    Ok ((K_ETIMEDOUT, None), Opst w' (Heap s' op_blocks) ses' ∅) /\ w_kios w' = ∅.
Proof.
  destruct (complete_without_response _ 0 _ _ 0 0 20%positive 2%positive _ 1%positive 7%positive []
    sample_mem op_blocks (op_sessions 0) ∅ (op_session 0) quiet OpPut
    (done_completed KIO_TIMEDOUT KMT_PUT None kio_msg0)) as (w' & l' & E & _ & _ & Hk & _).
  - by left.
  - apply done_sent.
  - reflexivity.
  - reflexivity.
  - reflexivity.
  - eexists w', _, _. split; [exact E|]. rewrite Hk. reflexivity.
Defined.

Lemma complete_with_response_witness :
  exists w' s' ses', ki_aio_complete 0 (Some 2%positive) quiet
      (done_state (done_kio KIO_RECEIVED KMT_PUT None answer_recv) 0) =
    Ok ((K_OK, None), Opst w' (Heap s' (put_kv op_blocks 30%positive (set_ktb_buf (DKv op_kv) (new_block 3 KV_T))
                                          (set_kv_ver (pbd_of [57]) op_kv))) ses' {[30%positive := answer_cmd]}) /\
    w_kios w' = ∅.
Proof.
  destruct (complete_with_response _ 0 _ _ 0 0 20%positive 2%positive _ 1%positive 7%positive []
    sample_mem op_blocks (op_sessions 0) ∅ (op_session 0) quiet OpPut answer_msg answer_cmd answer_val 30%positive
    (set_ktb_buf (DKv op_kv) (new_block 3 KV_T)) op_kv
    (done_completed KIO_RECEIVED KMT_PUT None answer_recv)) as (w' & s' & ksn' & l' & E & _ & _ & Hk & _).
  - reflexivity.
  - apply done_sent.
  - apply done_response.
  - reflexivity.
  - apply sample_mem_ok.
  - reflexivity.
  - discriminate.
  - discriminate.
  - intros _. split_and!; [done|done|apply op_kv_block|apply op_kv_readable|by do 2 eexists].
  - eexists w', _, _. split; [exact E|]. rewrite Hk. reflexivity.
Defined.

Lemma get_complete_witness :
  exists w' s' ses' v', ki_aio_complete 0 (Some 2%positive) quiet
      (done_state (done_kio KIO_RECEIVED KMT_GET None answer_recv) 0) =
    Ok ((K_OK, Some 9%positive), Opst w' (Heap s' (put_kv op_blocks 30%positive (set_ktb_buf (DKv op_kv) (new_block 3 KV_T)) v'))
          ses' {[30%positive := answer_cmd]}) /\
    kv_val v' = Some [answer_val] /\ kv_ver v' = Some [57].
Proof.
  destruct (get_complete _ 0 _ _ 0 0 20%positive 2%positive _ 1%positive 7%positive []
    sample_mem op_blocks (op_sessions 0) ∅ (op_session 0) quiet answer_msg answer_cmd answer_val 30%positive
    (set_ktb_buf (DKv op_kv) (new_block 3 KV_T)) op_kv 30%positive (set_ktb_buf (DKv op_kv) (new_block 3 KV_T)) op_kv
    (done_completed KIO_RECEIVED KMT_GET None answer_recv)) as (w' & s' & ksn' & l' & E & _ & _ & Hk & _).
  - reflexivity.
  - apply done_sent.
  - apply done_response.
  - reflexivity.
  - apply sample_mem_ok.
  - reflexivity.
  - reflexivity.
  - apply op_kv_block.
  - split; by do 2 eexists.
  - reflexivity.
  - apply op_kv_block.
  - apply op_kv_readable.
  - reflexivity.
  - eexists w', _, _, _. split; [exact E|]. split; reflexivity.
Defined.

(** *** Batches *)
Definition kb_ktb : ktb := set_ktb_buf (DBatch op_kb) (new_block 4 KBATCH_T).
Lemma op_kb_block : kb_block op_blocks 31%positive kb_ktb op_kb.
Proof. split_and!; [reflexivity|reflexivity|]. apply (block_with_wf KBATCH_T); [by split|done]. Qed.


(** The first start is accepted; the sixth active batch, one over the device's
    limit of five, too; the seventh is not. *)
Lemma start_batch_spec_witness :
  (exists w' s', b_batch_aio_generic 0 (Some 31%positive) KMT_STARTBAT quiet None true (op_state [] [] ∅ 5) =
     Ok ((K_OK, Some 100%positive),
         Opst w' (Heap s' (put_kb op_blocks 31%positive kb_ktb (Kb 0 KFIRSTBID 0 0 0))) {[7%positive := started_ks (op_session 5)]} ∅)) /\
  exists o', b_batch_aio_generic 0 (Some 31%positive) KMT_STARTBAT quiet None true (op_state [] [] ∅ 6) =
     Ok ((K_EBATCH, None), o').
Proof.
  pose proof (fun bats => start_batch_spec (op_world [] [] ∅) sample_mem op_blocks (op_sessions bats) ∅ 0 10%positive (Zlist [] 0) 0
    1%positive op_config sample_key 7%positive (op_session bats) 31%positive kb_ktb op_kb None sample_mem_ok (op_ready _ _ _)
    eq_refl eq_refl op_kb_block ltac:(by vm_compute)) as H. split.
  - destruct (H 5) as (w' & s' & E & _); [by vm_compute|cmd_concrete|]. exists w', s'. exact E.
  - pose proof (H 6 ltac:(by vm_compute) ltac:(cmd_concrete)) as H6. change (no_room (op_session 6)) with true in H6.
    cbv iota in H6. eexists. exact H6.
Defined.

Lemma end_batch_spec_witness :
  exists w' s', b_batch_aio_generic 0 (Some 31%positive) KMT_ENDBAT quiet None true (op_state [] [] ∅ 1) =
    Ok ((K_OK, Some 100%positive), Opst w' (Heap s' op_blocks) (op_sessions 1) ∅).
Proof.
  destruct (end_batch_spec (op_world [] [] ∅) sample_mem op_blocks (op_sessions 1) ∅ 0 10%positive (Zlist [] 0) 0
    1%positive op_config sample_key 7%positive (op_session 1) 31%positive kb_ktb op_kb None sample_mem_ok (op_ready _ _ _)
    eq_refl eq_refl op_kb_block ltac:(by vm_compute) KMT_ENDBAT) as (w' & s' & E & _).
  - by left.
  - cmd_concrete.
  - exists w', s'. exact E.
Defined.

Lemma batch_complete_spec_witness :
  exists w' s' ses', ki_aio_complete 0 (Some 2%positive) quiet
      (done_state (done_kio KIO_RECEIVED KMT_ENDBAT (Some 31%positive) answer_recv) 3) =
    Ok ((K_OK, None), Opst w' (Heap s' op_blocks) ses' ∅) /\ ks_bats <$> ses' !! 7%positive = Some 2.
Proof.
  destruct (batch_complete_spec _ 0 _ _ 0 0 20%positive 2%positive _ 1%positive 7%positive
    sample_mem op_blocks (op_sessions 3) ∅ (op_session 3) answer_msg answer_cmd answer_val
    (done_completed KIO_RECEIVED KMT_ENDBAT (Some 31%positive) answer_recv)) as (w' & s' & l' & E & _).
  - reflexivity.
  - apply done_sent.
  - apply done_response.
  - reflexivity.
  - apply sample_mem_ok.
  - right. by left.
  - eexists w', _, _. split; [exact E|reflexivity].
Defined.
