(* ===== verification/ExecWitness.v ===== *)
(** Concrete runs of applet execution: an applet of one function key, sent and
    completed, and answers outside the format. *)

From stdpp Require Import gmap.
From S2P Require Import Prelude Types ListApi Session KtliState Ktli KtliSpec KtliThreads KtliThreadSpec KtliLife KtliWitness.
From S2P Require Import Pdu Keys Ktb Validate ProtoData ProtoModel Proto ProtoSpec Stat Op OpFrame Put Del Get Noop Batch Exec Aio.
From S2P Require Import OpSpec OpRequest ExecSpec OpComplete ExecComplete BatchSpec OpWitness.

#[local] Existing Instance lp64_sizes.
#[local] Instance some_langs : Langs := { KF_NATIVE := 1; KF_LLVMIR := 2; KF_JAVA := 3; KF_EBPF := 4 }.

(** One function key and the same key for the output; an argument "-v" *)
Definition run_app : kapplet :=
  Kapplet (Some [Some 30%positive]) 1 KF_NATIVE 0 (Some [Some [45; 118]]) 1 (Some 30%positive) 0 0 None None 0.
Definition app_ktb : ktb := set_ktb_buf (DApplet run_app) (new_block 3 KAPPLET_T).
Definition app_blocks : gmap ptr ktb := <[32%positive := app_ktb]> op_blocks.

Lemma app_blocks_kv : app_blocks !! 30%positive = Some (set_ktb_buf (DKv op_kv) (new_block 3 KV_T)).
Proof. done. Qed.
Lemma app_kv_wf : block_wf (set_ktb_buf (DKv op_kv) (new_block 3 KV_T)).
Proof. apply (block_with_wf KV_T); [by split|done]. Qed.

Lemma run_app_ready : app_ready app_blocks (ks_l (op_session 0)) (Some 32%positive) run_app [op_kv] (Some op_kv).
Proof.
  split.
  - eexists _, app_ktb. split; [done|]. split; [done|]. split; [|done]. apply (block_with_wf KAPPLET_T); [by split|done].
  - exists [30%positive]. split; [done|]. split; [done|]. split; [done|]. constructor; [|done].
    eexists. split; [apply app_blocks_kv|]. split; [apply app_kv_wf|]. by split_and!.
  - done.
  - done.
  - constructor. exists 30%positive, (set_ktb_buf (DKv op_kv) (new_block 3 KV_T)). split; [done|].
    split; [apply app_blocks_kv|]. split; [apply app_kv_wf|]. by split_and!.
Qed.

Lemma op_kv_sends : sends op_kv [107; 101; 121].
Proof. exists op_key, [[107; 101]; [121]]. split; [apply op_key_ready|]. by split. Qed.

Definition run_cmd : kproto_cmd_t := exec_command (op_hdr KMT_APPLET) run_app [[107; 101; 121]] (Some [107; 101; 121]) [[45; 118]].
Lemma run_cmd_wf : cmd_wf run_cmd.
Proof.
  unfold run_cmd, exec_command, exec_body. split_and!.
  - intros h [= <-]. split_and!; by intros v [= <-] || done.
  - intros b [= <-]. split_and!; try done. intros x [= <-]. split_and!; try (by intros v [= <-]).
    + constructor; [by eexists|done].
    + by repeat constructor.
    + intros d [= <-]. by eexists.
  - done.
Qed.

Lemma exec_on_the_wire_witness :
  exists w' s' (k : kio ptr) iov s1 m',
    e_exec_aio_generic 0 (Some 32%positive) (Some 9%positive) true
      (@Opst zlist_api unit (op_world [] [] ∅) (Heap sample_mem app_blocks) (op_sessions 0) ∅) =
      Ok ((K_OK, Some 100%positive), Opst w' (Heap s' app_blocks) (op_sessions 0) ∅) /\
    km_msg (kio_sendmsg k) = Some iov /\
    ki_setseq iov (km_cnt (kio_sendmsg k)) 100 sample_mem = Ok (wire (Kpdu KP_MAGIC (zlen (msg_pack m')) 0) m' [], s1).
Proof.
  destruct (exec_on_the_wire (op_world [] [] ∅) sample_mem app_blocks (op_sessions 0) ∅ 0 10%positive (Zlist [] 0) 0
    1%positive op_config sample_key 7%positive (op_session 0) (Some 32%positive) run_app [op_kv] (Some op_kv)
    [[107; 101; 121]] (Some [107; 101; 121]) [[45; 118]] (Some 9%positive) 100
    (digest_of sample_key (signed (cmd_pack (stamp_cmd 100 run_cmd (extract_to_command_header (op_hdr KMT_APPLET))))))
    sample_mem) as (w' & s' & k & iov & s1 & E & _ & _ & _ & Hm & Es & _).
  - apply sample_mem_ok.
  - apply op_ready.
  - reflexivity.
  - reflexivity.
  - apply run_app_ready.
  - constructor; [apply op_kv_sends|constructor].
  - constructor. apply op_kv_sends.
  - reflexivity.
  - by vm_compute.
  - by vm_compute.
  - by vm_compute.
  - apply run_cmd_wf.
  - by vm_compute.
  - apply sample_mem_ok.
  - reflexivity.
  - by vm_compute.
  - do 6 eexists. split; [exact E|]. split; [exact Hm|exact Es].
Defined.

(** *** The answer "-3:9:ok:hi" *)
Definition run_status (d : buffer) : kproto_status_t := Status (Some K_OK) (Some [79; 75]) (Some (pbd_of d)).
Definition run_answer (d : buffer) : kproto_cmd_t := Command (Some response_hdr) None (Some (run_status d)).
Definition run_msg (d : buffer) : kproto_msg_t :=
  Message (Some KAT_HMAC) (Some sample_auth) None (Some (pbd_of (cmd_pack (run_answer d)))).
Definition good_detail : buffer := detail (-3) 9 [111; 107] [104; 105] [].
Definition run_recv (d : buffer) : kio_msg :=
  KioMsg (Some [Kiovec (Some (PACK_PDU (Kpdu KP_MAGIC (zlen (msg_pack (run_msg d))) 2))) KP_PLENGTH;
                Kiovec (Some (msg_pack (run_msg d))) (zlen (msg_pack (run_msg d))); answer_val]) 3 0 0.
Definition run_kio : kio ptr :=
  let v := Kiovec (Some [0]) 1 in
  Kio ptr KIO_MAGIC KMT_APPLET 7 KIOF_REQRESP KIO_RECEIVED 0 (KioMsg (Some [v; v]) 2 0 0) (run_recv good_detail)
    (Timespec 0 0) (Some 20%positive) (Some 9%positive) None None None (Some 32%positive) tstamps0.

Lemma run_answer_wf d : cmd_wf (run_answer d).
Proof.
  split_and!; [|done|].
  - intros h [= <-]. split_and!; by intros v [= <-] || done.
  - intros x [= <-]. split_and!; [by intros v [= <-]| |].
    + intros m [= <-]. by repeat constructor.
    + intros v [= <-]. by eexists.
Qed.
Lemma run_formatted :
  formatted (run_msg good_detail) (run_answer good_detail) K_OK [79; 75] (-3) 9 [111; 107] [104; 105] [].
Proof.
  split; try done; [apply run_answer_wf|by repeat constructor..].
Qed.

Lemma exec_complete_witness :
  exists w' s' ses' a', ki_aio_complete 0 (Some 2%positive) quiet
      (@Opst zlist_api unit (op_world [] [(20, 2)]%positive {[2%positive := run_kio]}) (Heap sample_mem app_blocks)
         (op_sessions 0) ∅) =
    Ok ((K_OK, None), Opst w' (Heap s' (put_app (put_kv app_blocks 30%positive (set_ktb_buf (DKv op_kv) (new_block 3 KV_T))
                                             (hung answer_val op_kv)) 32%positive app_ktb a')) ses' ∅) /\
    ka_rc a' = -3 /\ ka_sig a' = 9 /\ ka_stdout a' = Some [104; 105] /\ ka_stdoutlen a' = 3.
Proof.
  destruct (exec_complete (op_world [] [(20, 2)]%positive {[2%positive := run_kio]}) 0 12%positive (Zlist [(20, 2)]%positive 0)
    0 0 20%positive 2%positive run_kio 1%positive 7%positive []
    sample_mem app_blocks (op_sessions 0) ∅ (op_session 0) quiet (run_msg good_detail) (run_answer good_detail) answer_val
    K_OK [79; 75] (-3) 9 [111; 107] [104; 105] [] 32%positive app_ktb run_app
    (put_kv app_blocks 30%positive (set_ktb_buf (DKv op_kv) (new_block 3 KV_T)) (hung answer_val op_kv)))
    as (w' & s' & ksn' & l' & E & (Hrc & Hsig & _ & Hout & Hlen) & _).
  - split; try done.
    + exists (sess KTLI_SSTATE_CONNECTED). split_and!; done.
    + apply (bool_decide_unpack (NoDup [20%positive])). reflexivity.
    + by exists op_config.
  - reflexivity.
  - reflexivity.
  - by exists (Kiovec (Some [0]) 1), (Kiovec (Some [0]) 1).
  - split.
    + eexists. split; [reflexivity|]. split; [vm_compute; repeat split; congruence|]. done.
    + done.
    + unfold run_msg, sample_auth. wf_concrete.
    + done.
    + apply run_answer_wf.
  - reflexivity.
  - apply sample_mem_ok.
  - reflexivity.
  - by split.
  - exists (set_ktb_buf (DKv op_kv) (new_block 3 KV_T)), op_kv. split; [by split|]. split; [|done]. split; by do 2 eexists.
  - apply run_formatted.
  - do 4 eexists. split; [exact E|]. split; [exact Hrc|]. split; [exact Hsig|]. split; [exact Hout|exact Hlen].
Defined.

(** "OK" alone, then "-3:9:ok:hi" without its terminator, then "1:2" with it *)
Lemma exec_malformed_witness :
  let st := @Opst zlist_api unit (op_world [] [] ∅) (Heap sample_mem app_blocks) (op_sessions 0) ∅ in
  (exists o', extract_exec_response (run_msg [79; 75; 0]) (Some 32%positive) st = Ok (K_EINTERNAL, o')) /\
  extract_exec_response (run_msg [45; 51; 58; 57; 58; 111; 107; 58; 104; 105]) (Some 32%positive) st = Ub /\
  extract_exec_response (run_msg [49; 58; 50; 0]) (Some 32%positive) st = Ub.
Proof.
  intros st.
  assert (app_block app_blocks 32%positive app_ktb run_app) as Ha by (by split).
  pose proof (fun d => exec_malformed (run_msg d) (run_answer d) 32%positive app_ktb run_app app_blocks
    (op_world [] [] ∅) sample_mem (op_sessions 0) ∅ sample_mem_ok eq_refl (run_answer_wf d) Ha) as H.
  split; [|split].
  - destruct (H [79; 75; 0]) as [_ H1]. destruct (H1 K_OK [79; 75] [79; 75; 0] eq_refl) as [_ H2].
    destruct (H2 [79; 75] eq_refl) as [H3 _]. eexists. apply (H3 None). reflexivity.
  - destruct (H [45; 51; 58; 57; 58; 111; 107; 58; 104; 105]) as [_ H1].
    apply (H1 K_OK [79; 75] _ eq_refl). by repeat constructor.
  - destruct (H [49; 58; 50; 0]) as [_ H1]. destruct (H1 K_OK [79; 75] _ eq_refl) as [_ H2].
    apply (H2 [49; 58; 50] eq_refl) with (rc := Some 1) (sig := 2); [reflexivity|]. vm_compute. lia.
Defined.
