(* ===== verification/SyncWitness.v ===== *)
(** The theorems about the requests that wait for their response at a concrete
    session: the one of [OpWitness.v], with a key range. *)

From stdpp Require Import gmap.
From S2P Require Import Prelude Types ListApi Session KtliState Ktli KtliSpec KtliWitness Pdu Keys Ktb Validate.
From S2P Require Import ProtoData ProtoModel Proto ProtoSpec Stat Op OpFrame OpSpec OpRequest OpComplete OpWitness.
From S2P Require Import Sync SyncSpec Range RangeSpec Getlog GetlogSpec.

#[local] Existing Instance lp64_sizes.

(** From "a", which is in the range, to "z", which is not; all the keys *)
Definition sample_range : krange :=
  Krange KRF_ISTART (Some [Kiovec (Some [97]) 1]) 1 (Some [Kiovec (Some [122]) 1]) 1 KVR_COUNT_INF None 0.
Definition range_blocks : gmap ptr ktb := {[32%positive := set_ktb_buf (DRange sample_range) (new_block 3 KRANGE_T)]}.
Definition range_state : @opst zlist_api unit := Opst (op_world [] [] ∅) (Heap sample_mem range_blocks) (op_sessions 0) ∅.

Lemma sample_range_ready :
  range_ready range_blocks 32%positive (set_ktb_buf (DRange sample_range) (new_block 3 KRANGE_T)) sample_range
    (Some [97]) (Some [122]) (ks_l (op_session 0)).
Proof.
  split; try reflexivity.
  - apply (block_with_wf KRANGE_T); [by split|done].
  - exists [[97]]. split_and!; try done. by repeat constructor.
  - exists [[122]]. split_and!; try done. by repeat constructor.
  - done.
Qed.

(** The sender took the kio, the receiver hung the response on it and put it on
    the completion queue. *)
Definition come_back (t : Z) (st : kio_state) (recv : kio_msg) : @world zlist_api unit :=
  op_world [] [(20, 100)]%positive {[100%positive := done_kio st t None recv]}.
Definition sleep_until (w : @world zlist_api unit) (i n : nat) : ST (@world zlist_api unit) Z := fun _ => Ok (0, w).

Lemma come_back_returned t st recv :
  returned (come_back t st recv) 0 12%positive (Zlist [(20, 100)]%positive 0) 0 0 20%positive 100%positive
    (done_kio st t None recv).
Proof.
  split; try done.
  - exists (sess KTLI_SSTATE_CONNECTED). split_and!; done.
  - apply (bool_decide_unpack (NoDup [20%positive])). reflexivity.
Qed.

Lemma come_back_waits w1 m t st recv :
  asked (op_world [] [] ∅) 10%positive (Zlist [] 0) 0 m w1 ->
  waits (sleep_until (come_back t st recv)) 1 0 100%positive 0 0 w1 (come_back t st recv).
Proof.
  intros (k & (l' & k' & _ & _ & _ & _ & _ & _ & Ht & _) & _). eapply waits_here.
  eapply (poll_wakes _ 0 (sess KTLI_SSTATE_CONNECTED) 12%positive).
  - split; [done|]. rewrite Ht. reflexivity.
  - reflexivity.
  - reflexivity.
  - reflexivity.
  - reflexivity.
  - discriminate.
Qed.

(** A good answer with two keys *)
Definition keys_cmd : kproto_cmd_t :=
  Command (Some response_hdr)
    (Some (Body None (Some (Keyrange None None None None None None [pbd_of [97]; pbd_of [98; 99]])) None None None))
    (Some (Status (Some K_OK) None None)).
Definition keys_msg : kproto_msg_t :=
  Message (Some KAT_HMAC) (Some sample_auth) None (Some (pbd_of (cmd_pack keys_cmd))).
Definition no_value : kiovec := Kiovec (Some []) 0.
Definition keys_recv : kio_msg :=
  KioMsg (Some [Kiovec (Some (PACK_PDU (Kpdu KP_MAGIC (zlen (msg_pack keys_msg)) 0))) KP_PLENGTH;
                Kiovec (Some (msg_pack keys_msg)) (zlen (msg_pack keys_msg)); no_value]) 3 0 0.
Lemma keys_response st : response (done_kio st KMT_GETRANGE None keys_recv) keys_msg keys_cmd no_value.
Proof.
  split.
  - eexists. split; [reflexivity|]. split; [vm_compute; repeat split; congruence|]. done.
  - done.
  - unfold keys_msg, sample_auth. wf_concrete.
  - done.
  - cmd_concrete.
Qed.

Lemma range_cmd_wf : cmd_wf (norm_cmd (range_command (set_kch_type KMT_GETRANGE (ks_ch (op_session 0)))
  (counted (op_session 0) sample_range) (Some [97]) (Some [122]))).
Proof. cmd_concrete. Qed.

Lemma ki_getrange_spec_witness :
  exists o' r', ki_getrange (sleep_until (come_back KMT_GETRANGE KIO_RECEIVED keys_recv)) 1 1 0 (Some 32%positive) range_state = Ok (K_OK, o') /\
    h_blocks (o_heap o') !! 32%positive = Some (set_ktb_buf (DRange r') (new_block 3 KRANGE_T)) /\
    kr_keys r' = Some [Kiovec (Some [97]) 1; Kiovec (Some [98; 99]) 2] /\ kr_keyscnt r' = 2.
Proof.
  destruct (ki_getrange_spec (op_world [] [] ∅) sample_mem range_blocks (op_sessions 0) ∅ 0 10%positive (Zlist [] 0) 0
    1%positive op_config sample_key 7%positive (op_session 0) 32%positive _ sample_range (Some [97]) (Some [122])
    sample_mem_ok (op_ready _ _ _) eq_refl eq_refl sample_range_ready ltac:(by vm_compute) ltac:(by vm_compute) range_cmd_wf)
    as (w1 & Hask & _ & Hrun).
  destruct (Hrun _ 1%nat 1%nat 0%nat _ _ _ _ _ _ _ keys_msg keys_cmd no_value
    (come_back_waits _ _ KMT_GETRANGE KIO_RECEIVED keys_recv Hask) ltac:(lia) (come_back_returned _ _ _) eq_refl (done_sent _ _ _ _)
    (keys_response _) eq_refl ltac:(intros g [= <-]; by vm_compute)) as (w3 & j & lc' & E & _).
  do 2 eexists. split; [exact E|]. split; [reflexivity|]. split; reflexivity.
Defined.

Lemma ki_getrange_without_response_witness :
  ki_getrange (sleep_until (come_back KMT_GETRANGE KIO_TIMEDOUT kio_msg0)) 1 1 0 (Some 32%positive) range_state = Ub.
Proof.
  destruct (ki_getrange_without_response (op_world [] [] ∅) sample_mem range_blocks (op_sessions 0) ∅ 0 10%positive (Zlist [] 0) 0
    1%positive op_config sample_key 7%positive (op_session 0) 32%positive _ sample_range (Some [97]) (Some [122])
    sample_mem_ok (op_ready _ _ _) eq_refl eq_refl sample_range_ready ltac:(by vm_compute) range_cmd_wf) as (w1 & Hask & Hrun).
  apply (Hrun _ 1%nat 1%nat 0%nat _ _ _ _ _ _ _ (come_back_waits _ _ KMT_GETRANGE KIO_TIMEDOUT kio_msg0 Hask) ltac:(lia)
    (come_back_returned _ _ _)); [by left|reflexivity].
Defined.

(** *** Logs: the utilizations and the limits, nothing else *)
Definition sample_glog : kgetlog := set_kgl_type (Some [KGLT_UTILIZATIONS; KGLT_LIMITS]) 2 kgetlog0.
Definition glog_ktb : ktb := set_ktb_buf (DGetlog sample_glog) (new_block 3 KGETLOG_T).
Definition glog_blocks : gmap ptr ktb := {[33%positive := glog_ktb]}.
Definition glog_state : @opst zlist_api unit := Opst (op_world [] [] ∅) (Heap sample_mem glog_blocks) (op_sessions 0) ∅.

Lemma sample_glog_ready : glog_ready glog_blocks 33%positive glog_ktb sample_glog [KGLT_UTILIZATIONS; KGLT_LIMITS].
Proof.
  split; try reflexivity.
  - apply (block_with_wf KGETLOG_T); [by split|done].
  - apply (glog_valid_bool sample_glog [KGLT_UTILIZATIONS; KGLT_LIMITS]); [done|done|]. reflexivity.
  - by intros n [=].
Qed.

Definition answer_limits : kproto_limits_t :=
  Limits (Some 4096) (Some 1048576) None None None None None None (Some 200) None None (Some 15) None None None.
Definition log_cmd (st : Z) : kproto_cmd_t :=
  Command (Some response_hdr)
    (Some (Body None None (Some (Getlog [KGLT_UTILIZATIONS; KGLT_LIMITS] [Utilization (Some [67; 80; 85]) (Some 1065353216); Utilization (Some [72; 68; 65]) None]
       [] None None [] None (Some answer_limits) None)) None None))
    (Some (Status (Some st) None None)).
Definition log_msg (st : Z) : kproto_msg_t :=
  Message (Some KAT_HMAC) (Some sample_auth) None (Some (pbd_of (cmd_pack (log_cmd st)))).
Definition log_recv (st : Z) : kio_msg :=
  KioMsg (Some [Kiovec (Some (PACK_PDU (Kpdu KP_MAGIC (zlen (msg_pack (log_msg st))) 0))) KP_PLENGTH;
                Kiovec (Some (msg_pack (log_msg st))) (zlen (msg_pack (log_msg st))); no_value]) 3 0 0.
Lemma log_response st : st = K_OK \/ st = K_ENOTFOUND ->
  response (done_kio KIO_RECEIVED KMT_GETLOG None (log_recv st)) (log_msg st) (log_cmd st) no_value.
Proof.
  intros H. split.
  - eexists. split; [reflexivity|]. split; [|done]. destruct H as [-> | ->]; vm_compute; repeat split; congruence.
  - done.
  - unfold log_msg, sample_auth. wf_concrete.
  - done.
  - destruct H as [-> | ->]; cmd_concrete.
Qed.

Lemma getlog_cmd_wf :
  cmd_wf (getlog_command (set_kch_type KMT_GETLOG (ks_ch (op_session 0))) sample_glog [KGLT_UTILIZATIONS; KGLT_LIMITS]).
Proof. cmd_concrete. Qed.

Lemma ki_getlog_spec_witness :
  exists o' log, ki_getlog (sleep_until (come_back KMT_GETLOG KIO_RECEIVED (log_recv K_OK))) 1 1 kgetlog0 0 (Some 33%positive) glog_state =
      Ok (K_OK, o') /\ h_blocks (o_heap o') !! 33%positive = Some (set_ktb_buf (DGetlog log) glog_ktb) /\
    kgl_utilcnt log = 2 /\ kl_keylen (kgl_limits log) = 4096 /\ kl_verlen (kgl_limits log) = 0.
Proof.
  destruct (ki_getlog_spec (op_world [] [] ∅) sample_mem glog_blocks (op_sessions 0) ∅ 0 10%positive (Zlist [] 0) 0
    1%positive op_config sample_key 7%positive (op_session 0) 33%positive glog_ktb sample_glog [KGLT_UTILIZATIONS; KGLT_LIMITS] kgetlog0
    sample_mem_ok (op_ready _ _ _) eq_refl eq_refl sample_glog_ready ltac:(by vm_compute) ltac:(by vm_compute) getlog_cmd_wf)
    as (w1 & Hask & _ & Hrun).
  destruct (Hrun _ 1%nat 1%nat 0%nat _ _ _ _ _ _ _ (log_msg K_OK) (log_cmd K_OK) no_value _
    (come_back_waits _ _ KMT_GETLOG KIO_RECEIVED (log_recv K_OK) Hask) ltac:(lia) (come_back_returned _ _ _) eq_refl (done_sent _ _ _ _)
    (log_response K_OK (or_introl eq_refl)) eq_refl (conj eq_refl eq_refl)
    ltac:(by split_and!)) as (w3 & j & lc' & log & E & [_ [Hu _] _ _ _ _ _ Hl _] & _).
  do 2 eexists. split; [exact E|]. split; [reflexivity|]. split; [exact Hu|]. split; [apply Hl|apply Hl].
Defined.

Lemma ki_getlog_refused_witness :
  ki_getlog (sleep_until (come_back KMT_GETLOG KIO_RECEIVED (log_recv K_ENOTFOUND))) 1 1 kgetlog0 0 (Some 33%positive) glog_state = Ub.
Proof.
  destruct (ki_getlog_refused (op_world [] [] ∅) sample_mem glog_blocks (op_sessions 0) ∅ 0 10%positive (Zlist [] 0) 0
    1%positive op_config sample_key 7%positive (op_session 0) 33%positive glog_ktb sample_glog [KGLT_UTILIZATIONS; KGLT_LIMITS] kgetlog0
    sample_mem_ok (op_ready _ _ _) eq_refl eq_refl sample_glog_ready ltac:(by vm_compute) getlog_cmd_wf) as (w1 & Hask & Hrun).
  apply (Hrun _ 1%nat 1%nat 0%nat _ _ _ _ _ _ _ (log_msg K_ENOTFOUND) (log_cmd K_ENOTFOUND) no_value
    (come_back_waits _ _ KMT_GETLOG KIO_RECEIVED (log_recv K_ENOTFOUND) Hask) ltac:(lia) (come_back_returned _ _ _)).
  - reflexivity.
  - apply log_response. by right.
  - reflexivity.
  - intros (lg & H & _). vm_compute in H. discriminate.
Defined.
