(* ===== verification/OpenWitness.v ===== *)
(** The theorems about opening a session at a concrete world: nothing is open,
    the driver accepts or refuses, the drive's status arrives during the first
    sleep. *)

From stdpp Require Import gmap.
From S2P Require Import Prelude Types ListApi Session KtliState Ktli KtliSpec KtliThreads KtliThreadSpec KtliLife KtliWitness.
From S2P Require Import Pdu Keys Ktb Validate ProtoData ProtoModel Proto ProtoSpec Stat Op OpFrame OpSpec OpRequest OpComplete.
From S2P Require Import OpWitness Sync SyncSpec Getlog GetlogSpec SyncWitness Open OpenSpec CommandTypes.

(** The driver's connect answers [rc]. *)
Definition dialling (rc : Z) : ktli_driver_fns unit :=
  KtliDriverFns unit
    (fun x => (Some 5%positive, x)) (fun _ x => (0, None, x)) (fun _ _ _ _ x => (rc, None, x)) (fun _ x => (0, None, x))
    (fun _ _ _ x => (0, None, x)) (fun _ iov _ x => (0, None, iov, x)) (fun _ _ x => (0, None, x)).
Definition closed_world : @world zlist_api unit :=
  World 0 1 kts_init ∅ ∅ {[1%positive := constant_helpers 100]} ∅ ∅ ∅
    100%positive 0 (sess KTLI_SSTATE_UNKNOWN)
    0%nat (fun _ _ => Some (fun _ => 0)) 0%nat (fun _ => Timespec 50 0) 0%nat (fun n => Some (Z.of_nat n)) tt.
Definition host : buffer := [108; 111; 0].
Definition port : buffer := [56; 49; 0].
Definition hkey : buffer := [107; 0].
Definition closed_state : @opst zlist_api unit := Opst closed_world (Heap sample_mem ∅) ∅ ∅.

Lemma closed_can_open rc : can_open (dialling rc) closed_world 1%positive 0 5%positive 0 1.
Proof.
  split; try done.
  - intros n size. by eexists.
  - eexists. split; [reflexivity|]. split_and!; try (by eexists); done.
Qed.

(** The unsolicited status on the completion queue *)
Definition status_kio (recv : kio_msg) : kio ptr :=
  Kio ptr KIO_MAGIC 0 0 KIOF_RESPONLY KIO_RECEIVED 0 kio_msg0 recv (Timespec 0 0) (Some 20%positive)
    None None None None None tstamps0.
Definition status_queue : @clist zlist_api := Zlist [(20, 100)]%positive 0.
Definition arrived (st : Z) (cq : ptr) (w : @world zlist_api unit) : @world zlist_api unit :=
  set_queues_w (<[cq := KtliQueue (Some status_queue) false 0]> (w_queues w))
    (set_kios_w {[100%positive := status_kio (log_recv st)]} (set_errno_w 0 w)).

Lemma arrived_awaits rc n dh stid rtid cf st w :
  serves (X := unit) w rc n dh stid rtid cf KTLI_SSTATE_CONNECTED ->
  exists cq, awaits (fun _ => sleep_until (arrived st cq w) 0) 1 n 0 0 w (arrived st cq w) /\
    unsolicited (arrived st cq w) n cq status_queue 0 0 20%positive 100%positive (status_kio (log_recv st)).
Proof.
  intros (sq & rq & cq & p & [Hs _ _ Hcq _ _ _ _] & _). exists cq. split.
  - eapply awaits_here. eapply (poll_wakes _ n _ cq).
    + exact Hs.
    + reflexivity.
    + exact Hcq.
    + reflexivity.
    + unfold queue_at. cbn. apply lookup_insert_eq.
    + discriminate.
  - split.
    + eexists. split; [exact Hs|]. by split.
    + unfold queue_at. cbn. apply lookup_insert_eq.
    + intros e q [= -> ->]%list_elem_of_singleton. by eexists.
    + reflexivity.
    + reflexivity.
Qed.

Lemma status_carried st : st = K_OK \/ st = K_ENOTFOUND ->
  carries_status (status_kio (log_recv st)) (log_msg st) (log_cmd st).
Proof.
  intros H. destruct (log_response st H) as [_ _ H2 H3 H4].
  split; [|by split]. by eexists _, _.
Qed.

(** The session has the limits of the status, a connection of its own and the
    first batch number. *)
Lemma ki_open_spec_witness :
  exists asleep w3 s3 x, ki_open (dialling 0) 0 asleep 1 1 1%positive (Some host) (Some port) 0 1 (Some hkey) closed_state =
      Ok (0, Opst w3 (Heap s3 ∅) {[101%positive := x]} ∅) /\
    kl_keylen (ks_l x) = 4096 /\ ks_bid x = KFIRSTBID /\ Some (kch_connid (ks_ch x)) = h_connectionid response_hdr.
Proof.
  destruct (ki_open_spec (dialling 0) 0 1%positive host port hkey 0 1 closed_world sample_mem ∅ ∅ ∅ 0 5%positive 0 1
    (closed_can_open 0) ltac:(discriminate) sample_mem_ok ltac:(by vm_compute)) as (w1 & Hsv & _ & _ & Hrun).
  destruct (arrived_awaits _ _ _ _ _ _ K_OK _ Hsv) as (cq & Haw & Hun).
  destruct (Hrun _ 1%nat 1%nat 0%nat _ _ _ _ _ _ _ _ (log_msg K_OK) (log_cmd K_OK) _ response_hdr Haw ltac:(lia) Hun
    (status_carried K_OK (or_introl eq_refl)) (conj eq_refl eq_refl) ltac:(by split_and!) eq_refl)
    as (w3 & m & lim & E & Hl & _).
  do 4 eexists. split; [exact E|]. split; [apply Hl|by split].
Defined.

(** The drive answers "not found" instead. *)
Lemma ki_open_bad_status_witness :
  exists asleep, ki_open (dialling 0) 0 asleep 1 1 1%positive (Some host) (Some port) 0 1 (Some hkey) closed_state = Ub.
Proof.
  destruct (ki_open_bad_status (dialling 0) 0 1%positive host port hkey 0 1 closed_world sample_mem ∅ ∅ ∅ 0 5%positive 0 1
    (closed_can_open 0) ltac:(discriminate) sample_mem_ok ltac:(by vm_compute)) as (w1 & Hsv & Hrun).
  destruct (arrived_awaits _ _ _ _ _ _ K_ENOTFOUND _ Hsv) as (cq & Haw & Hun).
  eexists. refine (Hrun _ 1%nat 1%nat 0%nat _ _ _ _ _ _ _ _ (log_msg K_ENOTFOUND) (log_cmd K_ENOTFOUND) Haw ltac:(lia) Hun
    (status_carried K_ENOTFOUND (or_intror eq_refl)) _).
  intros (lg & H & _). vm_compute in H. discriminate.
Defined.

Lemma ki_open_refused_hangs_witness :
  ki_open (dialling (-1)) 1000 (fun _ _ => mret 0) 1 1 1%positive (Some host) (Some port) 1 1 (Some hkey) closed_state = NoFuel.
Proof.
  apply (ki_open_refused_hangs (dialling (-1)) 1000 (fun _ _ => mret 0) 1 1 1%positive host port hkey 1 1 closed_world sample_mem ∅ ∅ ∅ 0 5%positive 0 1).
  - apply closed_can_open.
  - discriminate.
  - reflexivity.
  - reflexivity.
Defined.

(** The connection is lost while the call sleeps. *)
Definition aborted : kts_session -> kts_session := set_ks_state KTLI_SSTATE_ABORTED.
Definition lost (w : @world zlist_api unit) (x : kts_session) : @world zlist_api unit :=
  set_table_w (<[0%nat := Some (aborted x)]> (w_table w)) w.
Definition losing (x : kts_session) (cq : ptr) (w : @world zlist_api unit) : @world zlist_api unit :=
  set_queues_w (<[cq := KtliQueue (Some status_queue) false 0]> (w_queues w)) (lost (set_errno_w 0 w) x).

Lemma ki_open_lost_spins_witness :
  exists asleep, forall fuel,
    ki_open (dialling 0) 0 asleep 1 fuel 1%positive (Some host) (Some port) 0 1 (Some hkey) closed_state = NoFuel.
Proof.
  destruct (ki_open_lost_spins (dialling 0) 0 1%positive host port hkey 0 1 closed_world sample_mem ∅ ∅ ∅ 0 5%positive 0 1
    (closed_can_open 0) ltac:(discriminate) ltac:(by vm_compute)) as (w1 & Hsv & Hrun).
  destruct Hsv as (sq & rq & cq & p & [Hs _ _ Hcq _ _ _ _] & _).
  match type of Hs with session_at _ _ ?x => set (w2 := losing x cq w1) end.
  exists (fun _ => sleep_until w2 0). intros fuel.
  eapply (Hrun _ 1%nat fuel 0%nat w2).
  - eapply awaits_here. eapply (poll_wakes _ 0 _ cq).
    + exact Hs.
    + reflexivity.
    + exact Hcq.
    + reflexivity.
    + unfold queue_at. cbn. apply lookup_insert_eq.
    + discriminate.
  - destruct Hs as [Hv Ht]. split; [exact Hv|]. cbn. apply list_lookup_insert_eq. by eapply lookup_lt_Some.
  - discriminate.
  - discriminate.
Defined.

