(* ===== verification/BlockingWitness.v ===== *)
(** The theorems about the blocking calls at the session of [OpWitness.v]: the
    response, or the time-out, is there when the first sleep ends. *)

From stdpp Require Import gmap.
From S2P Require Import Prelude Types ListApi Session KtliState Ktli KtliSpec KtliWitness Pdu Keys Ktb Validate.
From S2P Require Import ProtoData ProtoModel Proto ProtoSpec Stat Op OpFrame OpSpec OpRequest OpComplete OpWitness.
From S2P Require Import Blocking SyncSpec SyncWitness.

#[local] Existing Instance lp64_sizes.

(** The kio of a put or a get of the kv, in state [st] *)
Definition call_kio (cmd : Z) (vals : list kiovec) (st : kio_state) (recv : kio_msg) : kio ptr :=
  let v := Kiovec (Some [0]) 1 in
  Kio ptr KIO_MAGIC cmd 7 KIOF_REQRESP st 0 (KioMsg (Some (v :: v :: vals)) (2 + zlen vals) 0 0) recv (Timespec 0 0)
    (Some 20%positive) None (Some 30%positive) None None None tstamps0.
Definition call_back cmd vals st recv : @world zlist_api unit :=
  op_world [] [(20, 100)]%positive {[100%positive := call_kio cmd vals st recv]}.

Lemma call_completed cmd vals st recv :
  completed (call_back cmd vals st recv) 0 12%positive (Zlist [(20, 100)]%positive 0) 0 0 20%positive 100%positive
    (call_kio cmd vals st recv) 1%positive 7%positive.
Proof.
  split; try done.
  - exists (sess KTLI_SSTATE_CONNECTED). split_and!; done.
  - apply (bool_decide_unpack (NoDup [20%positive])). reflexivity.
  - by exists op_config.
Qed.
Lemma call_sent cmd vals st recv : sent_request (call_kio cmd vals st recv) vals.
Proof. by exists (Kiovec (Some [0]) 1), (Kiovec (Some [0]) 1). Qed.

Lemma call_turns w1 k1 cmd vals st recv :
  queued (op_world [] [] ∅) 10%positive (Zlist [] 0) 0 100%positive k1 w1 ->
  turns (sleep_until (call_back cmd vals st recv)) 1 0 100%positive 0 0 w1 (call_back cmd vals st recv).
Proof.
  intros (l' & k' & _ & _ & _ & _ & _ & _ & Ht & _). eapply turns_here.
  - eapply (poll_wakes _ 0 (sess KTLI_SSTATE_CONNECTED) 12%positive).
    + split; [done|]. rewrite Ht. reflexivity.
    + reflexivity.
    + reflexivity.
    + reflexivity.
    + reflexivity.
    + discriminate.
  - reflexivity.
Qed.

Lemma call_response cmd vals st : response (call_kio cmd vals st answer_recv) answer_msg answer_cmd answer_val.
Proof. destruct (done_response st cmd None) as [H1 H2 H3 H4 H5]. by split. Qed.

Definition put_ktb : ktb := set_ktb_buf (DKv op_kv) (new_block 3 KV_T).
Definition put_vals : list kiovec := [Kiovec (Some [1; 2; 3]) 3].
Lemma op_put_ready : call_ready op_put op_blocks (ks_l (op_session 0)) op_kv op_key [[107; 101]; [121]].
Proof. split; [reflexivity|]. split; [apply (op_kv_at 0)|apply op_key_ready]. Qed.


Lemma blocking_without_response_witness :
  exists o', blocking op_put (sleep_until (call_back KMT_PUT put_vals KIO_TIMEDOUT kio_msg0)) 1 1 0 (op_state [] [] ∅ 0) = Ok (K_ETIMEDOUT, o') /\
    m_live (h_mem (o_heap o')) = m_live sample_mem /\ w_kios (o_w o') = ∅.
Proof.
  destruct (blocking_without_response (op_world [] [] ∅) sample_mem op_blocks (op_sessions 0) ∅ 0 10%positive (Zlist [] 0) 0
    1%positive op_config sample_key 7%positive (op_session 0) op_kv op_key [[107; 101]; [121]] op_put
    sample_mem_ok (op_ready _ _ _) eq_refl eq_refl op_put_ready ltac:(by vm_compute) op_put_wf)
    as (w1 & k1 & Hq & _ & Hrun).
  destruct (Hrun _ 1%nat 1%nat 0%nat _ _ _ _ _ _ (call_kio KMT_PUT put_vals KIO_TIMEDOUT kio_msg0)
    (call_turns w1 k1 KMT_PUT put_vals KIO_TIMEDOUT kio_msg0 Hq) ltac:(lia) (call_completed _ _ _ _)
    (call_sent _ _ _ _) (or_introl eq_refl) eq_refl) as (w3 & j & ksn' & l' & E & _ & _ & Hk & _).
  eexists. split; [exact E|]. split; [reflexivity|]. etransitivity; [exact Hk|reflexivity].
Defined.

Definition op_get : request_call := CallGet (Some 30%positive) None KMT_GET.
Lemma op_get_ready : call_ready op_get op_blocks (ks_l (op_session 0)) op_kv op_key [[107; 101]; [121]].
Proof. split; [reflexivity|]. split; [apply (op_kv_at 0)|]. split; [apply op_key_ready|reflexivity]. Qed.
Lemma op_get_wf : cmd_wf (call_command op_get (op_hdr KMT_GET) op_kv [107; 101; 121]).
Proof. cmd_concrete. Qed.

(** The get answers K_OK, and the value of the kv is the received buffer. *)
Lemma blocking_get_spec_witness :
  exists o' v', blocking op_get (sleep_until (call_back KMT_GET [] KIO_RECEIVED answer_recv)) 1 1 0 (op_state [] [] ∅ 0) = Ok (K_OK, o') /\
    h_blocks (o_heap o') = put_kv op_blocks 30%positive put_ktb v' /\ kv_val v' = Some [answer_val] /\ kv_ver v' = Some [57].
Proof.
  destruct (blocking_get_spec (op_world [] [] ∅) sample_mem op_blocks (op_sessions 0) ∅ 0 10%positive (Zlist [] 0) 0
    1%positive op_config sample_key 7%positive (op_session 0) op_kv op_key [[107; 101]; [121]] (Some 30%positive) None KMT_GET
    30%positive put_ktb op_kv 30%positive put_ktb
    sample_mem_ok (op_ready _ _ _) eq_refl eq_refl op_get_ready ltac:(by vm_compute) op_get_wf eq_refl eq_refl op_kv_block
    ltac:(split; by do 2 eexists) eq_refl op_kv_block eq_refl) as (w1 & k1 & Hq & _ & Hrun).
  destruct (Hrun _ 1%nat 1%nat 0%nat _ _ _ _ _ _ (call_kio KMT_GET [] KIO_RECEIVED answer_recv) _ _ answer_val
    (call_turns w1 k1 KMT_GET [] KIO_RECEIVED answer_recv Hq) ltac:(lia) (call_completed _ _ _ _)
    ltac:(by split_and!) (call_sent _ _ _ _) eq_refl (call_response _ _ _) ltac:(discriminate))
    as (w3 & s3 & ksn' & l' & E & _).
  do 2 eexists. split; [exact E|]. split; [reflexivity|]. split; reflexivity.
Defined.
