(* ===== verification/RoundTrip.v ===== *)
(** A blocking call over the service threads: while the caller sleeps the
    sender stamps the request and hands it to the driver, the receiver takes the
    drive's answer and completes the kio. *)

From stdpp Require Import gmap.
From S2P Require Import Prelude Types ListApi Session KtliState Ktli KtliSpec KtliThreads KtliThreadSpec Pdu Keys Ktb Validate.
From S2P Require Import ProtoData Proto ProtoSpec Stat Op OpFrame Put Del Get Noop Batch Exec Aio OpSpec OpRequest OpComplete.
From S2P Require Import SyncSpec Blocking.

Section helpers.
Context {PG : ProtoGen}.

(** [ki_kh]: the helpers a session of the API is opened with.  KTLI calls them
    as functions of the message: each runs on the allocator [s0]. *)
Definition ki_kh (s0 : mem) : ktli_helpers :=
  KtliHelpers KP_PLENGTH
    (Some (fun iov cnt => match ki_getaseq iov cnt s0 with Ok (r, _) => i64 r | _ => 0 end))
    (Some (fun iov cnt seq => match ki_setseq iov cnt seq s0 with Ok (r, _) => r | _ => iov end))
    (Some (fun v => match ki_msglen (Some v) with Ok n => n | _ => -1 end))
    (Some (fun v => match ki_vallen (Some v) with Ok n => n | _ => -1 end)).
End helpers.

Section threads.
Context {LA : ListApi} {LL : ListLaws} {X : Type} (socket_fns : ktli_driver_fns X).

Notation world := (@world LA X).
Implicit Types (w : world).

(** What the threads do in one sleep: the sender's pass over the send queue, the
    receiver's receipt of one message.  Each thread has an errno of its own. *)
Definition threads (kts : Z) (i n : nat) : ST world Z :=
  w ← get_st;
  ktli_sender_drain socket_fns 2 kts ;;
  rc ← ktli_recvmsg socket_fns 1 kts;
  set_errno (w_errno w) ;;
  mret rc.

(** The driver has a whole message to read: the header first, then the message
    and the value, into whatever buffers they are asked for. *)
Definition delivers (dh : option ptr) (x : X) (pdu msg val : buffer) (xe : X) : Prop :=
  exists r1 e1 x1 r2 e2, r1 <> -1 /\ r2 <> -1 /\
    (forall b, zlen b = zlen pdu ->
       ktli_dfns_receive socket_fns dh [Kiovec (Some b) (zlen pdu)] 1 x = (r1, e1, [Kiovec (Some pdu) (zlen pdu)], x1)) /\
    (forall m v, zlen m = zlen msg -> zlen v = zlen val ->
       ktli_dfns_receive socket_fns dh [Kiovec (Some m) (zlen msg); Kiovec (Some v) (zlen val)] 2 x1 =
         (r2, e2, [Kiovec (Some msg) (zlen msg); Kiovec (Some val) (zlen val)], xe)).

Lemma malloc_buf_run size w :
  malloc_always w -> 0 <= size -> exists b, zlen b = size /\ malloc_buf size w = Ok (Some b, set_live_w (w_live w + 1) (bump_mcount_w w)).
Proof.
  intros Hm Hsize. unfold malloc_buf, malloc. destruct (Hm (w_mcount w) size) as [f Hf].
  eexists. split; [|erewrite bind_Ok by done; by rewrite Hf].
  unfold zlen. rewrite length_fmap, length_seq. lia.
Qed.
Lemma call_receive_run w f rc e iov x :
  f (w_env w) = (rc, e, iov, x) ->
  call_receive f w = Ok ((rc, iov), set_errno_w (default (w_errno w) e) (set_env_w x w)).
Proof. intros H. unfold call_receive. rewrite H. destruct e; [done|]. cbn. by destruct w. Qed.

Lemma recvmsg_read_run w kts s h getmsg getval pdu msg val xe :
  session_at w kts s -> ks_driver s = Some 1%positive -> (ks_helpers s ≫= (w_helpers w !!.)) = Some h ->
  malloc_always w -> delivers (ks_dhandle s) (w_env w) pdu msg val xe ->
  kh_recvhdr_len h = zlen pdu -> kh_msglen_fn h = Some getmsg -> kh_vallen_fn h = Some getval ->
  getmsg (Kiovec (Some pdu) (zlen pdu)) = zlen msg -> getval (Kiovec (Some pdu) (zlen pdu)) = zlen val ->
  zlen pdu < 2 ^ 64 -> zlen msg < 2 ^ 64 -> zlen val < 2 ^ 64 ->
  exists rc w', recvmsg_read socket_fns kts w =
      Ok (inl (rc, [Kiovec (Some pdu) (zlen pdu); Kiovec (Some msg) (zlen msg); Kiovec (Some val) (zlen val)]), w') /\
    w_env w' = xe /\ w_live w' = w_live w + 4 /\ w_configs w' = w_configs w /\
    w_helpers w' = w_helpers w /\ w_malloc w' = w_malloc w.
Proof.
  intros Hs Hde Hh Hm (r1 & e1 & x1 & r2 & e2 & Hr1 & Hr2 & H1 & H2) Hlen Hgm Hgv Em Ev Lp Lm Lv.
  pose proof (zlen_nonneg pdu). pose proof (zlen_nonneg msg). pose proof (zlen_nonneg val).
  unfold recvmsg_read. ksteps.
  destruct (malloc_buf_run (sizeof_kiovec * KM_CNT_WITHVAL) w Hm ltac:(done)) as (b0 & _ & E0).
  erewrite bind_Ok by exact E0. cbv beta iota. rewrite Hlen. clear E0.
  match goal with |- context [(malloc_buf _ ≫= _) ?wx] => destruct (malloc_buf_run (zlen pdu) wx) as (b1 & Hb1 & E1) end; [done|lia|].
  erewrite bind_Ok by exact E1. cbv beta iota. clear E1. rewrite (u64_small (zlen pdu)) by lia.
  erewrite bind_Ok by (apply call_receive_run, H1, Hb1). cbv beta iota. ksteps.
  rewrite (proj2 (Z.eqb_neq r1 (-1))) by done. ksteps.
  rewrite Em, Ev, !u64_small by lia.
  replace (zlen msg <? 0) with false by lia. replace (zlen val <? 0) with false by lia. cbn [orb].
  match goal with |- context [(malloc_buf _ ≫= _) ?wx] => destruct (malloc_buf_run (zlen msg) wx) as (b2 & Hb2 & E2) end; [done|lia|].
  erewrite bind_Ok by exact E2. cbv beta iota. clear E2.
  match goal with |- context [(malloc_buf _ ≫= _) ?wx] => destruct (malloc_buf_run (zlen val) wx) as (b3 & Hb3 & E3) end; [done|lia|].
  erewrite bind_Ok by exact E3. cbv beta iota. clear E3.
  erewrite bind_Ok by (apply call_receive_run, H2; [exact Hb2|exact Hb3]). cbv beta iota.
  rewrite (proj2 (Z.eqb_neq r2 (-1))) by done.
  eexists r2, _. split; [reflexivity|]. cbn. split_and!; try done. lia.
Qed.

Lemma same_owner_trans (k1 k2 k3 : kio ptr) : same_owner k1 k2 -> same_owner k2 k3 -> same_owner k1 k3.
Proof. intros (?&?&?&?&?&?&?&?) (?&?&?&?&?&?&?&?). unfold same_owner. split_and!; congruence. Qed.

Lemma session_queues_put w w1 kts s sq rq cq ls lr lc es er ec l1 :
  session_queues w kts s sq rq cq ls lr lc es er ec ->
  w_table w1 = w_table w -> w_queues w1 = <[sq := KtliQueue (Some l1) false es]> (w_queues w) ->
  session_queues w1 kts s sq rq cq l1 lr lc es er ec.
Proof.
  intros [H1 H2 H3 H4 (H5 & H6 & H7) H8 H9 H10] Ht Hqs. unfold queue_at in *.
  constructor; try assumption; unfold queue_at, session_at; rewrite ?Ht, ?Hqs; [done|done| | |]; by simplify_map_eq.
Qed.

(** One pass of the sender over a queue that holds one request *)
Lemma drain_one_run w kts s sq rq cq ls lr lc es er ec h setseq e p k :
  session_queues w kts s sq rq cq ls lr lc es er ec -> helpers_at w s h setseq -> malloc_always w ->
  ks_driver s = Some 1%positive -> contents ls = [(e, p)] -> w_kios w !! p = Some k -> unsent k ->
  0 <= (handed socket_fns s setseq k (w_env w)).1.1 ->
  exists w' ls' lr' k', ktli_sender_drain socket_fns 2 kts w = Ok (tt, w') /\
    session_queues w' kts (sequenced s) sq rq cq ls' lr' lc es er ec /\
    contents ls' = [] /\ (contents lr').*2 = (contents lr).*2 ++ [p] /\
    w_kios w' = <[p := k']> (w_kios w) /\ sent_as setseq (ks_sequence s) k k' /\
    helpers_at w' (sequenced s) h setseq /\ malloc_always w' /\
    w_configs w' = w_configs w /\ w_live w' = w_live w /\ w_env w' = (handed socket_fns s setseq k (w_env w)).2.
Proof.
  intros Hq Hh Hm Hde Hls Hk Hun Hsend.
  destruct (ktli_sender_one_sent socket_fns w kts s sq rq cq ls lr lc es er ec h setseq e p [] k Hq Hh Hm Hde Hls Hk Hun Hsend)
    as (w' & ls' & lr' & k' & E & Hq' & Hls' & H).
  exists w', ls', lr', k'. split; [|exact (conj Hq' (conj Hls' H))]. cbn [ktli_sender_drain].
  destruct Hq as [Hs Hsq _ _ _ Hqs _ _]. destruct Hq' as [Hs' Hsq' _ _ _ Hqs' _ _]. unfold queue_at in *.
  ksteps. rewrite zlen_eqb0, Hls. erewrite bind_Ok by exact E. ksteps. by rewrite zlen_eqb0, Hls'.
Qed.

(** One sleep: the request goes out, the answer to it comes in, and the kio is
    on the completion queue. *)
Lemma threads_run i n w kts s sq rq cq ls lr lc es er ec h setseq g getmsg getval pdu msg val xe e p k iov :
  let vecs := [Kiovec (Some pdu) (zlen pdu); Kiovec (Some msg) (zlen msg); Kiovec (Some val) (zlen val)] in
  session_queues w kts s sq rq cq ls lr lc es er ec -> malloc_always w -> ks_driver s = Some 1%positive ->
  helpers_at w s h setseq -> kh_getaseq_fn h = Some g -> kh_recvhdr_len h = zlen pdu ->
  kh_msglen_fn h = Some getmsg -> kh_vallen_fn h = Some getval ->
  contents ls = [(e, p)] -> contents lr = [] -> w_kios w !! p = Some k -> unsent k ->
  km_msg (kio_sendmsg k) = Some iov -> 0 < ks_sequence s < 2 ^ 63 ->
  0 <= (handed socket_fns s setseq k (w_env w)).1.1 ->
  delivers (ks_dhandle s) (handed socket_fns s setseq k (w_env w)).2 pdu msg val xe ->
  getmsg (Kiovec (Some pdu) (zlen pdu)) = zlen msg -> getval (Kiovec (Some pdu) (zlen pdu)) = zlen val ->
  zlen pdu < 2 ^ 64 -> zlen msg < 2 ^ 64 -> zlen val < 2 ^ 64 ->
  g vecs KM_CNT_WITHVAL = ks_sequence s ->
  exists w' ls' lr' lc' k' e', threads kts i n w = Ok (0, w') /\
    session_queues w' kts (sequenced s) sq rq cq ls' lr' lc' es er ec /\
    contents ls' = [] /\ contents lr' = [] /\ contents lc' = contents lc ++ [(e', p)] /\
    w_kios w' = <[p := k']> (w_kios w) /\ kio_qbp k' = Some e' /\ kio_st k' = KIO_RECEIVED /\ same_owner k k' /\
    km_msg (kio_sendmsg k') = Some (setseq iov (km_cnt (kio_sendmsg k)) (u64 (ks_sequence s))) /\
    km_cnt (kio_sendmsg k') = km_cnt (kio_sendmsg k) /\ kio_recvmsg k' = KioMsg (Some vecs) KM_CNT_WITHVAL 0 0 /\
    w_configs w' = w_configs w /\ w_live w' = w_live w + 4 /\ w_env w' = xe /\ w_errno w' = w_errno w /\
    helpers_at w' (sequenced s) h setseq /\ malloc_always w'.
Proof.
  intros vecs Hq Hm Hde Hh Hg Hlen Hgm Hgv Hls Hlr Hk Hun Hmsg Hseq Hsend Hdel Em Ev Lp Lm Lv Hans.
  destruct (drain_one_run w kts s sq rq cq ls lr lc es er ec h setseq e p k)
    as (w1 & ls1 & lr1 & k1 & E1 & Hq1 & Hls1 & Hlr1 & Hk1 & (Hs1 & _ & _ & _ & Hm1 & Hc1 & Ho1) & Hh1 & Hma1 & Hcf1 & Hlv1 & He1); [done..|].
  rewrite Hlr in Hlr1. cbn in Hlr1. destruct (contents lr1) as [|[e1 p1] [|]] eqn:El1; try done. cbn in Hlr1. simplify_eq.
  unfold threads. erewrite bind_Ok by done. cbv beta. erewrite bind_Ok by exact E1. clear E1.
  destruct (recvmsg_read_run (bump_tick_w w1) kts (sequenced s) h getmsg getval pdu msg val xe)
    as (rc & w2 & E2 & He2 & Hl2 & Hcf2 & Hhe2 & Hma2); try done.
  { by destruct Hq1. }
  { by destruct Hh1. }
  { cbn. by rewrite He1. }
  assert (i64 (g vecs KM_CNT_WITHVAL) = ks_sequence s) as Hi by (rewrite Hans; apply i64_small; lia).
  destruct (recvmsg_matched_run socket_fns 1 w1 w2 kts (sequenced s) sq rq cq ls1 lr1 lc es er ec g rc vecs 0 e1 p k1)
    as (w3 & lr2 & lc2 & k2 & e2 & E3 & Hq3 & Hlr2 & Hlc2 & Hk3 & (Hst & _ & _ & Hsm & Hrm & Ho2) & Hqbp & Hcf3 & Hl3 & He3 & Hhe3 & Hma3); try done.
  { exists h. destruct Hh1. by split. }
  { intros e' p'. rewrite El1. intros [= -> ->]%list_elem_of_singleton. rewrite Hk1, lookup_insert_eq. eauto. }
  { lia. }
  { rewrite Hi, El1. unfold answered, list_find. cbn. rewrite decide_True; [done|].
    unfold awaits. by rewrite Hk1, lookup_insert_eq, Hs1, Z.eqb_refl. }
  { by rewrite Hk1, lookup_insert_eq. }
  rewrite El1 in Hlr2. exists (set_errno_w (w_errno w) w3), ls1, lr2, lc2, k2, e2. split_and!; try done.
  - by erewrite bind_Ok by exact E3.
  - eapply session_queues_same; [| |exact Hq3]; done.
  - cbn. by rewrite Hk3, Hk1, insert_insert_eq.
  - by eapply same_owner_trans.
  - by rewrite Hsm, Hm1, Hmsg.
  - by rewrite Hsm.
  - cbn. by rewrite Hcf3, Hcf2.
  - cbn. rewrite Hl3, Hl2. cbn. lia.
  - cbn. by rewrite He3.
  - unfold helpers_at. cbn. by rewrite Hhe3, Hhe2.
  - unfold malloc_always. cbn. by rewrite Hma3, Hma2.
Qed.
End threads.

Section trip.
Context {LA : ListApi} {LL : ListLaws} {X : Type} {PG : ProtoGen} {PL : ProtoLaws} {SZ : Sizes} (socket_fns : ktli_driver_fns X).

Notation world := (@world LA X).
Notation St w s bl ses pb := (@Opst LA X w (Heap s bl) ses pb).
Implicit Types (w : world) (s : mem).

(** A session of the API as [ki_open] leaves it, with nothing under way *)
Record idle w (ktd : Z) (x : kts_session) (sq rq cq : ptr) (ls lr lc : clist) (es er ec : Z) (cf : ptr)
    (cfg : KtliState.ktli_config) (hkey : buffer) (s0 : mem) : Prop := {
  il_queues : session_queues w ktd x sq rq cq ls lr lc es er ec;
  il_empty : contents ls = [] /\ contents lr = [] /\ contents lc = [];
  il_state : ks_state x = KTLI_SSTATE_CONNECTED; il_driver : ks_driver x = Some 1%positive;
  il_config : ks_config x = Some cf /\ w_configs w !! cf = Some cfg;
  il_hkey : kcfg_hkey cfg = Some hkey /\ c_string hkey /\ zlen hkey < 2 ^ 32; il_id : -2 ^ 63 <= kcfg_id cfg < 2 ^ 63;
  il_helpers : (ks_helpers x ≫= (w_helpers w !!.)) = Some (ki_kh s0); il_s0 : mem_ok s0;
  il_malloc : malloc_always w; il_sequence : 0 < ks_sequence x < 2 ^ 63 }.

(** The session with nothing under way, whatever its lists look like *)
Definition at_rest w (ktd : Z) (x : kts_session) (sq rq cq : ptr) (es er ec : Z) (cf : ptr)
    (cfg : KtliState.ktli_config) (hkey : buffer) (s0 : mem) : Prop :=
  exists ls lr lc, idle w ktd x sq rq cq ls lr lc es er ec cf cfg hkey s0.

(** The drive accepts the message [sent] and answers with the command [rc] and
    the value [val]; the answer acknowledges [seq]. *)
Record drive_answers (dh : option ptr) (env : X) (sent : list kiovec) (seq : Z) (rm : kproto_msg_t) (rc : kproto_cmd_t)
    (val : buffer) (env' : X) : Prop := {
  da_sends : 0 <= (ktli_dfns_send socket_fns dh sent (zlen sent) env).1.1;
  da_delivers : exists rpdu, pdu_ok rpdu /\ kp_msglen rpdu = zlen (msg_pack rm) /\ kp_vallen rpdu = zlen val /\
    delivers socket_fns dh (ktli_dfns_send socket_fns dh sent (zlen sent) env).2 (PACK_PDU rpdu) (msg_pack rm) val env';
  da_lens : zlen (msg_pack rm) < 2 ^ 31 /\ zlen val < 2 ^ 31;
  da_msg : msg_wf rm; da_cmd : cmd_wf rc; da_bytes : m_commandbytes rm = Some (pbd_of (cmd_pack rc));
  da_ack : exists rh, c_header rc = Some rh /\ h_acksequence rh = Some seq }.

Lemma idle_ready w ktd x sq rq cq ls lr lc es er ec cf cfg hkey s0 :
  idle w ktd x sq rq cq ls lr lc es er ec cf cfg hkey s0 -> session_ready w ktd sq ls es cf cfg hkey.
Proof.
  intros [[] _ ? _ [? ?] (? & ? & _) _ _ _ ? _]. split; try done; [by exists x|by apply malloc_always_ok].
Qed.

(** The three queues of the session hold nothing. *)
Definition queued_nothing w (sq rq cq : ptr) (es er ec : Z) : Prop :=
  exists ls lr lc, queue_at w sq ls es /\ queue_at w rq lr er /\ queue_at w cq lc ec /\
    contents ls = [] /\ contents lr = [] /\ contents lc = [].

Lemma emptied w w' ktd x sq rq cq ls lr lc lc' es er ec e p :
  session_queues w ktd x sq rq cq ls lr lc es er ec -> contents ls = [] -> contents lr = [] -> contents lc = [(e, p)] ->
  contents lc' = delete 0%nat (contents lc) -> w_queues w' = <[cq := KtliQueue (Some lc') false ec]> (w_queues w) ->
  queued_nothing w' sq rq cq es er ec.
Proof.
  intros [_ _ _ _ (H5 & H6 & H7) H8 H9 _] Hls Hlr Hlc Hl Hq. unfold queue_at in *. rewrite Hlc in Hl.
  exists ls, lr, lc'. unfold queue_at. rewrite Hq, lookup_insert_eq, !lookup_insert_ne by done. by split_and!.
Qed.

(** What the helpers make of a header and of an answer *)
Lemma kh_lengths s0 rpdu n v :
  pdu_ok rpdu -> kp_msglen rpdu = n -> kp_vallen rpdu = v -> n < 2 ^ 31 -> v < 2 ^ 31 ->
  exists getmsg getval, kh_msglen_fn (ki_kh s0) = Some getmsg /\ kh_vallen_fn (ki_kh s0) = Some getval /\
    getmsg (Kiovec (Some (PACK_PDU rpdu)) KP_PLENGTH) = n /\ getval (Kiovec (Some (PACK_PDU rpdu)) KP_PLENGTH) = v.
Proof.
  intros Hp <- <- Hm Hv.
  destruct (msglen_vallen_of_packed rpdu (Kiovec (Some (PACK_PDU rpdu)) KP_PLENGTH) Hp eq_refl) as [H _].
  destruct (H eq_refl) as (_ & Ev & Em & _). destruct Hp as (_ & ? & ?).
  do 2 eexists. split; [reflexivity|]. split; [reflexivity|]. cbv beta. rewrite Em, Ev by done. split; [done|].
  apply i32_small. lia.
Qed.
Lemma kh_getaseq s0 rm rc rh rpdu vals seq :
  mem_ok s0 -> msg_wf rm -> cmd_wf rc -> c_header rc = Some rh -> m_commandbytes rm = Some (pbd_of (cmd_pack rc)) ->
  pdu_ok rpdu -> kp_msglen rpdu = zlen (msg_pack rm) -> h_acksequence rh = Some seq -> 0 <= seq < 2 ^ 63 ->
  exists g, kh_getaseq_fn (ki_kh s0) = Some g /\ g (wire rpdu rm vals) (2 + zlen vals) = seq.
Proof.
  intros Hs Hm Hc Hh Hb Hp Hl Hack Hseq. eexists. split; [reflexivity|]. cbv beta.
  rewrite (ki_getaseq_spec s0 rm rc rh rpdu vals Hs Hm Hc Hh Hb Hp Hl), Hack. apply i64_small. lia.
Qed.

Section call.
Context (w : world) (s : mem) (bl : gmap ptr ktb) (ses : gmap ptr ksession) (pb : gmap ptr kproto_cmd_t).
Context (ktd : Z) (x : kts_session) (sq rq cq : ptr) (ls lr lc : clist) (es er ec : Z) (cf : ptr)
  (cfg : KtliState.ktli_config) (hkey : buffer) (s0 : mem).
Context (sp : ptr) (ksn : ksession) (v : kv) (key : list kiovec) (bs : list buffer) (call : request_call).
Context (Hs : mem_ok s) (Hidle : idle w ktd x sq rq cq ls lr lc es er ec cf cfg hkey s0)
  (Hsp : kcfg_pconf cfg = Some sp) (Hses : ses !! sp = Some ksn) (Hcall : call_ready call bl (ks_l ksn) v key bs).

Notation ch := (set_kch_type (call_type call) (ks_ch ksn)).
Notation c := (call_command call ch v (concat bs)).
Notation hdr := (extract_to_command_header ch).
Notation seq := (ks_sequence x).
Context (Hc : cmd_wf c) (digest : buffer) (Hd : HMAC_SHA1 hkey (signed (cmd_pack (stamp_cmd seq c hdr))) = Some digest).
Notation m' := (stamp_msg seq digest c hdr (Some (kcfg_id cfg)) (request_msg (kcfg_id cfg) hkey c)).
Context (Hlen : zlen (msg_pack m') < 2 ^ 32).
Notation sent := (wire (Kpdu KP_MAGIC (zlen (msg_pack m')) (u32 (vec_len (call_vals call v)))) m' (call_vals call v)).
Context (rm : kproto_msg_t) (rc : kproto_cmd_t) (val : buffer) (env' : X)
  (Hdrive : drive_answers (ks_dhandle x) (w_env w) sent seq rm rc val env').

Lemma setseq_request s1 :
  mem_ok s1 -> exists s2, ki_setseq (wire (request_pdu (request_msg (kcfg_id cfg) hkey c) (call_vals call v))
      (request_msg (kcfg_id cfg) hkey c) (call_vals call v)) (2 + zlen (call_vals call v)) seq s1 = Ok (sent, s2).
Proof.
  intros Hs1. destruct Hidle as [_ _ _ _ _ (_ & _ & Hk) Hid _ _ _ Hseq].
  assert (c_header c = Some hdr) as Hh by (unfold call_command; by destruct call).
  destruct (ki_setseq_run s1 _ c hdr _ hkey digest (request_pdu (request_msg (kcfg_id cfg) hkey c) (call_vals call v))
    (call_vals call v) seq Hs1 (request_msg_request _ _ _ _ Hid Hk Hc Hh) (request_pdu_ok _ _) ltac:(lia) Hd Hlen) as (Es & _).
  eexists. exact Es.
Qed.

(** The request on the send queue of the session, as the sender will see it *)
Lemma request_waits :
  exists w1 n l1 k1, session_queues (set_errno_w 0 w1) ktd x sq rq cq l1 lr lc es er ec /\
    contents l1 = [(Pos.succ (w_next w), w_next w)] /\ w_kios w1 = <[w_next w := k1]> (w_kios w) /\
    unsent k1 /\ made_for call None k1 /\ km_cnt (kio_sendmsg k1) = 2 + zlen (call_vals call v) /\
    km_msg (kio_sendmsg k1) = Some (wire (request_pdu (request_msg (kcfg_id cfg) hkey c) (call_vals call v))
      (request_msg (kcfg_id cfg) hkey c) (call_vals call v)) /\
    w_table w1 = w_table w /\ w_configs w1 = w_configs w /\ w_live w1 = w_live w /\ same_threads w w1 /\
    forall asleep pf fuel, blocking call asleep pf fuel ktd (St w s bl ses pb) =
      wait_loop (finished (call_kind call) ktd (Some (w_next w))) asleep pf ktd fuel 0 (St w1 (adv n 4 s) bl ses pb).
Proof.
  destruct Hidle as [Hq (Hels & _ & _) _ _ _ _ Hid _ _ _ _].
  destruct (blocking_queued w s bl ses pb ktd sq ls es cf cfg hkey sp ksn v key bs call Hs (idle_ready _ _ _ _ _ _ _ _ _ _ _ _ _ _ _ _ Hidle)
    Hsp Hses Hcall Hid Hc) as (w1 & n & k & Q & Hfor & Hmsg & Hcnt & Hfl & _ & Hrun).
  destruct Q as (l1 & k1 & Hqs1 & Hl1 & Hks1 & Hsame & Hnew & _ & Ht1 & Hcf1 & Hlv1 & Hth1).
  rewrite Hels in Hl1. destruct Hsame as (Hmg & Hcmd & Hflg & Hmsg' & Hcnt' & Hcx & Hkv & Hakv & Hkb & _).
  exists w1, n, l1, k1. unfold unsent, made_for. split_and!; try done.
  - eapply session_queues_same; [reflexivity|reflexivity|]. by eapply session_queues_put.
  - by rewrite (KIOF_ISSET_flags k).
  - by rewrite Hmsg', Hmsg.
  - by destruct Hfor as (?&?&?&?&?&?); congruence.
  - by destruct Hfor as (?&?&?&?&?&?); congruence.
  - by destruct Hfor as (?&?&?&?&?&?); congruence.
  - by destruct Hfor as (?&?&?&?&?&?); congruence.
  - by destruct Hfor as (?&?&?&?&?&?); congruence.
  - by destruct Hfor as (?&?&?&?&?&?); congruence.
  - by rewrite Hcnt'.
  - by rewrite Hmsg', Hmsg.
Qed.

(** The caller's first sleep brings the answer. *)
Lemma trip_run :
  exists w1 n w2 lc' e' k,
    blocking call (threads socket_fns ktd) 1 1 ktd (St w s bl ses pb) =
      wait_loop (finished (call_kind call) ktd (Some (w_next w))) (threads socket_fns ktd) 1 ktd 1 0 (St w1 (adv n 4 s) bl ses pb) /\
    turns (threads socket_fns ktd) 1 ktd (w_next w) 0 0 w1 w2 /\
    completed w2 ktd cq lc' ec 0 e' (w_next w) k cf sp /\ contents lc' = [(e', w_next w)] /\
    made_for call None k /\ sent_request k (call_vals call v) /\ kio_st k = KIO_RECEIVED /\
    response k rm rc (Kiovec (Some val) (zlen val)) /\
    (exists ls' lr', session_queues w2 ktd (sequenced x) sq rq cq ls' lr' lc' es er ec /\ contents ls' = [] /\ contents lr' = []) /\
    w_kios w2 = <[w_next w := k]> (w_kios w) /\ w_live w2 = w_live w + 4 /\ w_env w2 = env' /\
    w_configs w2 = w_configs w /\ (ks_helpers x ≫= (w_helpers w2 !!.)) = Some (ki_kh s0) /\ malloc_always w2.
Proof.
  destruct request_waits as (w1 & n & l1 & k1 & Hq1 & Hl1 & Hks1 & Hun & Hfor & Hcnt & Hmsg & Ht1 & Hcf1 & Hlv1 & (Hhe1 & Hma1 & Hen1) & Hrun).
  destruct Hidle as [Hq (Hels & Helr & Helc) Hst Hde [Hcf Hcfg] (Hkey & Hstr & Hkl) Hid Hh Hs0 Hma Hseq].
  destruct Hdrive as [Hsend (rpdu & Hp & Hpl & Hpv & Hdel) [Hlm Hlv] Hm Hcw Hb (rh & Hrh & Hack)].
  destruct (kh_lengths s0 rpdu _ _ Hp Hpl Hpv Hlm Hlv) as (getmsg & getval & Hgm & Hgv & Em & Ev).
  destruct (kh_getaseq s0 rm rc rh rpdu [Kiovec (Some val) (zlen val)] seq Hs0 Hm Hcw Hrh Hb Hp Hpl Hack ltac:(lia)) as (g & Hg & Eg).
  destruct (setseq_request s0 Hs0) as [s2 Eset].
  assert (zlen (PACK_PDU rpdu) = KP_PLENGTH) as Hl9 by (unfold zlen; by rewrite pack_pdu_length).
  set (setseq := fun (iov : list kiovec) (cnt sq : Z) => match ki_setseq iov cnt sq s0 with Ok (r, _) => r | _ => iov end).
  assert (handed socket_fns x setseq k1 (w_env w1) =
    ktli_dfns_send socket_fns (ks_dhandle x) sent (zlen sent) (w_env w)) as Hhand.
  { unfold handed. rewrite Hmsg, Hcnt, Hen1, (u64_small seq) by lia. cbn [default from_option id].
    unfold setseq. rewrite Eset. do 2 f_equal. unfold wire. rewrite !zlen_cons. lia. }
  destruct (threads_run socket_fns 0 0 (set_errno_w 0 w1) ktd x sq rq cq l1 lr lc es er ec (ki_kh s0)
    setseq g getmsg getval (PACK_PDU rpdu) (msg_pack rm) val env' (Pos.succ (w_next w)) (w_next w) k1
    (wire (request_pdu (request_msg (kcfg_id cfg) hkey c) (call_vals call v)) (request_msg (kcfg_id cfg) hkey c) (call_vals call v)))
    as (w2 & ls2 & lr2 & lc2 & k2 & e2 & Ew & Hq2 & Hls2 & Hlr2 & Hlc2 & Hk2 & Hqbp & Hst2 & Ho2 & Hm2 & Hc2 & Hr2 & Hcf2 & Hlv2 & Hen2 & Her2 & Hhe2 & Hma2);
    rewrite ?Hl9; cbn [w_env set_errno_w w_kios]; rewrite ?Hhand; try (done || lia).
  { unfold malloc_always. cbn. by rewrite Hma1. }
  { split; [|done]. cbn. by rewrite Hhe1. }
  { by rewrite Hks1, lookup_insert_eq. }
  rewrite Helc in Hlc2. cbn [app] in Hlc2. cbn in Hk2, Hlv2, Hcf2, Her2.
  destruct Ho2 as (Hmg & Hcmd & _ & Hcx & Hkv & Hakv & Hkb & _). destruct Hfor as (Fm & Fc & Fx & Fk & Fa & Fb).
  exists w1, n, w2, lc2, e2, k2. split_and!; try done.
  - apply (turns_here _ _ _ _ _ _ 0); [|by unfold timed_out; rewrite Her2].
    eapply poll_wakes; [| | |exact Ew| |by rewrite Hlc2]; try done; [by destruct Hq1|by destruct Hq1|by destruct Hq2].
  - destruct Hq2. split; [exists (sequenced x); by split_and!|done|by rewrite Hlc2; apply NoDup_singleton|by rewrite Hlc2| |done|congruence|].
    + by rewrite Hk2, lookup_insert_eq.
    + exists cfg. by rewrite Hcf2, Hcf1.
  - unfold made_for. split_and!; congruence.
  - unfold sent_request. rewrite Hm2, Hc2, Hcnt, (u64_small seq) by lia. unfold setseq. rewrite Eset. do 2 eexists. by split_and!.
  - split; [exists rpdu; rewrite Hr2; by rewrite Hl9|by rewrite Hr2|done..].
  - by exists ls2, lr2.
  - by rewrite Hk2, Hks1, insert_insert_eq.
  - by rewrite Hlv2, Hlv1.
  - by rewrite Hcf2, Hcf1.
  - by destruct Hhe2.
Qed.

(** After the call: the queues hold nothing, the drive is where its answer left
    it, and the session can take the next call under the next number. *)
Definition rested (w' : world) : Prop :=
  queued_nothing w' sq rq cq es er ec /\ w_env w' = env' /\
  (seq + 1 < 2 ^ 63 -> at_rest w' ktd (sequenced x) sq rq cq es er ec cf cfg hkey s0).

Lemma rested_after w2 w3 ls' lr' lc' l3 e' p :
  session_queues w2 ktd (sequenced x) sq rq cq ls' lr' lc' es er ec -> contents ls' = [] -> contents lr' = [] ->
  contents lc' = [(e', p)] -> contents l3 = delete 0%nat (contents lc') ->
  w_queues w3 = <[cq := KtliQueue (Some l3) false ec]> (w_queues w2) -> same_session w2 w3 ->
  w_env w2 = env' -> w_configs w2 = w_configs w -> (ks_helpers x ≫= (w_helpers w2 !!.)) = Some (ki_kh s0) ->
  malloc_always w2 -> rested w3.
Proof.
  intros Hq Hls Hlr Hlc Hl3 Hq3 (Ht & Hcf3 & Hhe & Hma & Hen) Henv Hcfs Hhe2 Hma2.
  split; [by eapply emptied|]. split; [congruence|]. intros Hsq. exists ls', lr', l3.
  destruct Hidle as [_ _ Hst Hde [Hcf Hcfg] Hkey Hid _ Hs0 _ Hseq].
  destruct Hq as [[Hr Hs'] H2 H3 H4 (H5 & H6 & H7) H8 H9 _]. rewrite Hlc in Hl3. unfold queue_at in *.
  split; try assumption.
  - constructor; try assumption; unfold queue_at, session_at; rewrite ?Ht, ?Hq3; [by split|done| | |]; by simplify_map_eq.
  - done.
  - split; [done|]. by rewrite Hcf3, Hcfs.
  - cbn. by rewrite Hhe.
  - unfold malloc_always. by rewrite Hma.
  - cbn. rewrite i64_small by lia. lia.
Qed.

(** The call from end to end, its completion included *)
Lemma call_trip_run q b :
  call_kind call <> OpGet ->
  let kop := call_kind call in
  (fills kop = true -> call_kv call = Some q /\ kv_block bl q b v) -> status_of kop rc v <> K_EAGAIN ->
  exists w' s' ksn', blocking call (threads socket_fns ktd) 1 1 ktd (St w s bl ses pb) =
      Ok (status_of kop rc v, St w' s' (kvs_after kop rc bl q b v) (<[sp := ksn']> ses) (held_after kop rc q pb)) /\
    rested w' /\ mem_ok s' /\ w_kios w' = delete (w_next w) (w_kios w) /\ stats_only ksn ksn' /\
    m_live s' + w_live w' = m_live s + w_live w + held_blocks kop rc v.
Proof.
  intros Hget kop Hkv Hks.
  destruct trip_run as (w1 & n & w2 & lc' & e' & k & E & Hturns & Hdone & Hlc & Hfor & Hsent & Hst & Hresp & (ls' & lr' & Hq & Hls & Hlr) & Hk & Hlive & Hen & Hcfs & Hhe & Hma).
  destruct (wait_call_run _ _ 1 1 ktd _ _ _ _ _ _ _ _ _ _ _ _ rm rc _ q b n s bl ses pb ksn _ v key bs Hturns ltac:(lia) Hdone Hcall Hget Hs Hses Hfor Hsent Hst Hresp Hkv Hks)
    as (w3 & s3 & ksn' & l3 & Ew & Hl3 & Hq3 & Hk3 & Hstats & Hl & Hms & Hss).
  exists w3, s3, ksn'. rewrite E. split; [exact Ew|]. split; [by eapply rested_after|].
  split_and!; [done|by rewrite Hk3, Hk, delete_insert_eq|done|]. unfold vec_block in Hl. cbn in Hl. fold kop in Hl. lia.
Qed.

Lemma get_trip_run kvp altkv t q b vq q1 b1 :
  call = CallGet kvp altkv t -> value_cmd t = true -> (if t =? KMT_GET then kvp else altkv) = Some q ->
  kv_block bl q b vq -> full_vecs vq -> kvp = Some q1 -> kv_block bl q1 b1 v -> kv_metaonly v = 0 ->
  let a := kv_answer rc got (hung (Kiovec (Some val) (zlen val)) vq) in
  a.1 <> K_EAGAIN ->
  exists w' s' ksn', blocking call (threads socket_fns ktd) 1 1 ktd (St w s bl ses pb) =
      Ok (a.1, St w' s' (put_kv bl q b a.2) (<[sp := ksn']> ses) (<[q := rc]> pb)) /\
    rested w' /\ mem_ok s' /\ w_kios w' = delete (w_next w) (w_kios w) /\ stats_only ksn ksn' /\
    m_live s' + w_live w' = m_live s + w_live w + (if a.1 =? K_OK then 1 else 0) + cmd_blocks rc.
Proof.
  intros Hcg Hval Hq Hb Hfull Hq1 Hb1 Hmeta a Hks.
  destruct trip_run as (w1 & n & w2 & lc' & e' & k & E & Hturns & Hdone & Hlc & Hfor & Hsent & Hst & Hresp & (ls' & lr' & Hqs & Hls & Hlr) & Hk & Hlive & Hen & Hcfs & Hhe & Hma).
  rewrite E. clear E. rewrite Hcg in Hcall, Hfor, Hsent |- *.
  destruct (wait_get_run (threads socket_fns ktd) 1 1 ktd _ _ _ _ _ _ _ _ _ _ _ _ rm rc _ kvp altkv t q b vq q1 b1 n s bl ses pb ksn v _ key bs
    Hturns ltac:(lia) Hdone Hcall Hs Hses Hval Hq Hb Hfull Hq1 Hb1 Hmeta Hfor Hsent Hst Hresp Hks)
    as (w3 & s3 & ksn' & l3 & Ew & Hl3 & Hq3 & Hk3 & Hstats & Hl & Hms & Hss).
  exists w3, s3, ksn'. split; [exact Ew|]. split; [by eapply rested_after|].
  split_and!; [done|by rewrite Hk3, Hk, delete_insert_eq|done|]. fold a in Hl. unfold vec_block in Hl. cbn [kiov_base] in Hl.
  destruct (a.1 =? K_OK); lia.
Qed.
End call.


End trip.
