(* ===== verification/RoundTripWitness.v ===== *)
(** The round trips of a put and of a get at the session of [OpWitness.v], with
    the library's own helpers and a drive that answers success. *)

From stdpp Require Import gmap.
From S2P Require Import Prelude Types ListApi Session KtliState Ktli KtliSpec KtliThreads KtliThreadSpec KtliWitness Pdu Keys Ktb Validate.
From S2P Require Import ProtoData ProtoModel Proto ProtoSpec Stat Op OpFrame OpSpec OpRequest OpComplete OpWitness.
From S2P Require Import Blocking BlockingWitness RoundTrip.

#[local] Existing Instance lp64_sizes.

(** The drive takes any message and answers it with a header, a message that
    acknowledges the request 100, and the value 8 9. *)
Definition trip_cmd : kproto_cmd_t := 
  set_c_header (Some (Cmdhdr (Some 0) (Some 1234567) None (Some 100) (Some KMT_PUT) None None None None None)) answer_cmd.
Definition trip_msg : kproto_msg_t := Message (Some KAT_HMAC) (Some sample_auth) None (Some (pbd_of (cmd_pack trip_cmd))).
Definition trip_pdu : kpdu := Kpdu KP_MAGIC (zlen (msg_pack trip_msg)) 2.
Definition drive : ktli_driver_fns unit :=
  KtliDriverFns unit
    (fun x => (Some 5%positive, x))
    (fun _ x => (0, None, x))
    (fun _ _ _ _ x => (0, None, x))
    (fun _ x => (0, None, x))
    (fun _ _ _ x => (1, None, x))
    (fun _ iov _ x => (0, None,
       match iov with
       | [_] => [Kiovec (Some (PACK_PDU trip_pdu)) 9]
       | _ => [Kiovec (Some (msg_pack trip_msg)) (zlen (msg_pack trip_msg)); Kiovec (Some [8; 9]) 2]
       end, x))
    (fun _ _ x => (1, None, x)).

Definition trip_world : @world zlist_api unit :=
  let w := op_world [] [] ∅ in
  World (w_errno w) (ktli_up w) (w_table w) (w_queues w) (w_kios w) {[1%positive := ki_kh sample_mem]} (w_configs w) (w_ints w)
    (w_threads w) (w_next w) (w_live w) (w_blank w) (w_mcount w) (w_malloc w) (w_tick w) (w_clock w)
    (w_tcount w) (w_pthread w) (w_env w).

Lemma trip_idle :
  idle trip_world 0 (sess KTLI_SSTATE_CONNECTED) 10%positive 11%positive 12%positive (Zlist [] 0) (Zlist [] 0) (Zlist [] 0) 0 0 0
    1%positive op_config sample_key sample_mem.
Proof.
  split; try done.
  - split_and!; [done|by repeat constructor|by vm_compute].
  - apply sample_mem_ok.
  - intros n size. by eexists.
Qed.

Lemma trip_answers sent :
  drive_answers drive (Some 5%positive) tt sent 100 trip_msg trip_cmd [8; 9] tt.
Proof.
  split.
  - done.
  - exists trip_pdu. split; [vm_compute; repeat split; congruence|]. split; [done|]. split; [done|].
    exists 0, None, tt, 0, None. split_and!; done.
  - by vm_compute.
  - unfold trip_msg, sample_auth. wf_concrete.
  - cmd_concrete.
  - done.
  - by eexists.
Qed.

Definition trip_state : @opst zlist_api unit := Opst trip_world (Heap sample_mem op_blocks) (op_sessions 0) ∅.
Lemma get_len : zlen (msg_pack (stamped_for op_get)) < 2 ^ 32.
Proof. vm_cast_no_check (eq_refl Lt). Qed.


