(* ===== verification/BkvTool.v ===== *)
(** The command line tool of the basic API: [src/toolbox/bkv].

    A command takes its words, parses its options and works on the drive through
    the calls of [BasicKv].  What is printed on the standard output is kept, in
    the order of the calls (the raw value of [get] is written around the buffer of
    [printf], and comes first where that buffer is not flushed at every line);
    what goes to the standard error (usage texts and diagnostics) is left out.
    The standard input is a list of lines. *)

From stdpp Require Import strings pretty.
From S2P Require Import Prelude Types Keys Ktb Validate BasicKv Toolbox.

(** ** The C library *)

(** A string literal, and the decimal notation of a number *)
Definition text (s : string) : buffer := (fun c => Z.of_nat (Ascii.nat_of_ascii c)) <$> String.list_ascii_of_string s.
Definition decimal (n : Z) : buffer := text (pretty n).

(** [strtoul(s, &end, 0)]: the value, and what [end] points to *)
Definition ULONG_MAX : Z := 2 ^ 64 - 1.
Definition digit_of (base c : Z) : option Z :=
  match digit_hex c with Some d => if d <? base then Some d else None | None => None end.
Fixpoint digits (base : Z) (s : buffer) (acc : Z) (any : bool) : Z * buffer * bool :=
  match s with
  | c :: s' => match digit_of base c with Some d => digits base s' (base * acc + d) true | None => (acc, s, any) end
  | [] => (acc, [], any)
  end.
(** The digits after the prefix; a prefix [0x] without a digit is the number 0. *)
Definition unsigned (s : buffer) : Z * buffer * bool :=
  match s with
  | 48 :: x :: s' =>
      if (x =? 120) || (x =? 88) then
        match s' with
        | d :: _ => if digit_hex d then digits 16 s' 0 false else (0, x :: s', true)
        | [] => (0, x :: s', true)
        end
      else digits 8 s 0 false
  | 48 :: _ => digits 8 s 0 false
  | _ => digits 10 s 0 false
  end.
Definition strtoul (s : buffer) : Z * buffer :=
  let t := skip_space s in
  let '(neg, t) := match t with 45 :: t' => (true, t') | 43 :: t' => (false, t') | _ => (false, t) end in
  let '(v, rest, any) := unsigned t in
  if negb any then (0, s) else
  if v >? ULONG_MAX then (ULONG_MAX, rest) else (if neg : bool then u64 (- v) else v, rest).
(** [strtol(s, &end, 0)] *)
Definition strtol (s : buffer) : Z * buffer :=
  let t := skip_space s in
  let '(neg, t) := match t with 45 :: t' => (true, t') | 43 :: t' => (false, t') | _ => (false, t) end in
  let '(v, rest, any) := unsigned t in
  if negb any then (0, s) else
  (Z.max (- 2 ^ 63) (Z.min (2 ^ 63 - 1) (if neg : bool then - v else v)), rest).

(** *** [getopt]

    The options of a command with whether they take an argument; what the calls
    answer one after the other, each with [optarg], and the words left at the
    end.  In the tool the first call asks for the words in order ([+]), and
    that holds for the options of the command too; the interactive loop starts
    over with [optind = 0], and the words that are not options are moved behind
    those that are. *)
Definition question : Z := 63.
Fixpoint option_arg (spec : list (Z * bool)) (c : Z) : option bool :=
  match spec with
  | (d, arg) :: spec => if c =? d then Some arg else option_arg spec c
  | [] => None
  end.
(** The options of one word, and the one that takes the next word *)
Fixpoint cluster (spec : list (Z * bool)) (w : buffer) : list (Z * option buffer) * option Z :=
  match w with
  | [] => ([], None)
  | c :: w =>
      match option_arg spec c with
      | None => let '(l, p) := cluster spec w in ((question, None) :: l, p)
      | Some false => let '(l, p) := cluster spec w in ((c, None) :: l, p)
      | Some true => match w with [] => ([], Some c) | _ => ([(c, Some w)], None) end
      end
  end.
Definition is_option (w : buffer) : bool := match w with 45 :: _ :: _ => true | _ => false end.
Fixpoint getopt (spec : list (Z * bool)) (permute : bool) (pending : option Z) (args : list buffer) :
    list (Z * option buffer) * list buffer :=
  match args with
  | [] => (match pending with Some _ => [(question, None)] | None => [] end, [])
  | w :: args' =>
      match pending with
      | Some c => let '(l, r) := getopt spec permute None args' in ((c, Some w) :: l, r)
      | None =>
          if bool_decide (w = [45; 45]) then ([], args')
          else if is_option w then
            let '(l, p) := cluster spec (tail w) in
            let '(l', r) := getopt spec permute p args' in (l ++ l', r)
          else if permute then let '(l, r) := getopt spec permute None args' in (l, w :: r)
          else ([], args)
      end
  end.
(** An option string: letters, a colon after those with an argument *)
Fixpoint optstring (s : buffer) : list (Z * bool) :=
  match s with
  | c :: ((58 :: s') as s1) => (c, true) :: optstring s'
  | c :: s => (c, false) :: optstring s
  | [] => []
  end.

(** A file the tool can name: what [stat] says of its size, whether it opens,
    what it holds *)
Record file := File { f_size : Z; f_opens : bool; f_data : buffer }.

(** ** [struct bargs] ([bkv.h]) *)
Inductive bkv_cmd := BKV_NOOP | BKV_GET | BKV_GETN | BKV_PUT | BKV_PUTN | BKV_DEL | BKV_EXISTS | BKV_LIMITS | BKV_EOT.
Inductive bkv_input := BKV_INTERACTIVE | BKV_SCRIPT | BKV_CMDLINE.
#[global] Instance bkv_cmd_eq : EqDecision bkv_cmd.
Proof. solve_decision. Defined.
#[global] Instance bkv_input_eq : EqDecision bkv_input.
Proof. solve_decision. Defined.

(** [ba_cmdstr] is [None] once the word it points to has been freed. *)
Record bargs := Bargs {
  ba_progname : buffer; ba_cmd : bkv_cmd; ba_cmdstr : option buffer;
  ba_key : option buffer; ba_keylen : Z; ba_val : option buffer; ba_vallen : Z;
  ba_cinfo : bkvs_open_t; ba_quiet : bool; ba_terse : bool; ba_verbose : bool;
  ba_input : bkv_input; ba_yes : bool; ba_limits : bkv_limits_t }.

Definition set_ba_cmd (c : bkv_cmd) (s : option buffer) (ba : bargs) : bargs :=
  Bargs (ba_progname ba) c s (ba_key ba) (ba_keylen ba) (ba_val ba) (ba_vallen ba) (ba_cinfo ba) (ba_quiet ba) (ba_terse ba)
    (ba_verbose ba) (ba_input ba) (ba_yes ba) (ba_limits ba).
Definition set_ba_key (k : option buffer) (n : Z) (ba : bargs) : bargs :=
  Bargs (ba_progname ba) (ba_cmd ba) (ba_cmdstr ba) k n (ba_val ba) (ba_vallen ba) (ba_cinfo ba) (ba_quiet ba) (ba_terse ba)
    (ba_verbose ba) (ba_input ba) (ba_yes ba) (ba_limits ba).
Definition set_ba_val (v : option buffer) (n : Z) (ba : bargs) : bargs :=
  Bargs (ba_progname ba) (ba_cmd ba) (ba_cmdstr ba) (ba_key ba) (ba_keylen ba) v n (ba_cinfo ba) (ba_quiet ba) (ba_terse ba)
    (ba_verbose ba) (ba_input ba) (ba_yes ba) (ba_limits ba).
Definition set_ba_cinfo (c : bkvs_open_t) (ba : bargs) : bargs :=
  Bargs (ba_progname ba) (ba_cmd ba) (ba_cmdstr ba) (ba_key ba) (ba_keylen ba) (ba_val ba) (ba_vallen ba) c (ba_quiet ba) (ba_terse ba)
    (ba_verbose ba) (ba_input ba) (ba_yes ba) (ba_limits ba).
Definition set_ba_flags (q t v y : bool) (i : bkv_input) (ba : bargs) : bargs :=
  Bargs (ba_progname ba) (ba_cmd ba) (ba_cmdstr ba) (ba_key ba) (ba_keylen ba) (ba_val ba) (ba_vallen ba) (ba_cinfo ba) q t v i y
    (ba_limits ba).
Definition set_ba_limits (l : bkv_limits_t) (ba : bargs) : bargs :=
  Bargs (ba_progname ba) (ba_cmd ba) (ba_cmdstr ba) (ba_key ba) (ba_keylen ba) (ba_val ba) (ba_vallen ba) (ba_cinfo ba) (ba_quiet ba)
    (ba_terse ba) (ba_verbose ba) (ba_input ba) (ba_yes ba) l.

Definition bargs0 (progname : buffer) : bargs :=
  Bargs progname BKV_EOT (Some (text "<none>")) (Some (text "<none>")) 6 (Some (text "<none>")) 6
    (BkvsOpen (Some (text "127.0.0.1")) (Some (text "8123")) 1 (Some (text "asdfasdf")) 0)
    false false false BKV_CMDLINE false (BkvLimits 0 0 0).

(** ** The commands *)
Section tool.
Context {SZ : Sizes} {KE : KtbEnv} {R : Type} {KS : KvService R} (files : buffer -> option file).

(** The library's state, the standard input that is left, the standard output *)
Record tst := Tst { t_kv : @bst R; t_in : list buffer; t_out : buffer }.
Notation T := (ST tst).

Definition on_kv {A} (m : ST (@bst R) A) : T A := fun t =>
  match m (t_kv t) with
  | Ok (a, s) => Ok (a, Tst s (t_in t) (t_out t)) | Ub => Ub | Hang => Hang | NoFuel => NoFuel end.
Definition print (b : buffer) : T unit := fun t => Ok (tt, Tst (t_kv t) (t_in t) (t_out t ++ b)).
Definition c_malloc (n : Z) : T (option buffer) := on_kv (on_heap (on_mem (KI_MALLOC n))).
Definition c_free : T unit := on_kv (on_heap (on_mem KI_FREE)).

(** [asciidecode(arg, strlen(arg), &raw, &rawlen)] on a word of the command
    line: [raw] and [rawlen] afterwards, which keeps what it held ([n]) when
    there is no memory *)
Definition decode_word (w : buffer) (n : Z) : T (option buffer * Z) :=
  b ← c_malloc (zlen w + 1);
  match b with
  | None => mret (None, n)
  | Some _ =>
      r ← on_kv (on_heap (lift (asciidecode (fun _ => true) (w ++ [0]) (zlen w))));
      match r with Some raw => mret (Some raw, zlen raw) | None => c_free ;; mret (None, 0) end
  end.
Definition take_key (w : buffer) (ba : bargs) : T (bool * bargs) :=
  '(r, n) ← decode_word w (ba_keylen ba);
  mret (bool_decide (r <> None), set_ba_key r n ba).
Definition ask (prompt : buffer) (default_ans : Z) (attempts : nat) : T bool := fun t =>
  let '(ans, rest, out) := yorn prompt (t_in t) default_ans attempts in
  Ok (negb (ans =? 0), Tst (t_kv t) rest (t_out t ++ out)).

(** The count of [-n]: [None] is a refusal. *)
Definition count_arg (ba : bargs) (optarg : buffer) : option Z :=
  match optarg with
  | 45 :: _ => None
  | _ => let '(count, rest) := strtoul optarg in
         match rest with
         | [] => if count >? bkvl_maxn (ba_limits ba) then None else Some count
         | _ => None
         end
  end.

(** [b_get] *)
Record get_opts := GetOpts { go_count : Z; go_hdump : bool; go_adump : bool }.
Fixpoint get_options (ba : bargs) (evs : list (Z * option buffer)) (o : get_opts) : option get_opts :=
  match evs with
  | [] => Some o
  | (110, Some a) :: evs =>
      match count_arg ba a with Some n => get_options ba evs (GetOpts n (go_hdump o) (go_adump o)) | None => None end
  | (65, _) :: evs => if go_hdump o then None else get_options ba evs (GetOpts (go_count o) false true)
  | (88, _) :: evs => if go_adump o then None else get_options ba evs (GetOpts (go_count o) true false)
  | _ => None
  end.

(** [hexdump]: its [sprintf] reads the line it writes, for any byte to dump. *)
Definition hexdump (data : option buffer) (size : Z) : T unit := if size =? 0 then mret tt else ub_st.
Definition ascii (data : option buffer) (size : Z) : T unit :=
  if size =? 0 then mret tt else
  d ← deref_st data;
  out ← on_kv (on_heap (lift (asciidump d size)));
  print out.
Definition bytes_at (data : option buffer) (size : Z) : T buffer :=
  if size =? 0 then mret [] else
  d ← deref_st data;
  if size <=? zlen d then mret (take (Z.to_nat size) d) else ub_st.

Definition newline : buffer := [10].
Definition cmdstr (ba : bargs) : T buffer := deref_st (ba_cmdstr ba).

Definition show_key (o : get_opts) (ba : bargs) : T unit :=
  print (text "Key(" ++ decimal (ba_keylen ba) ++ text "):") ;;
  (if go_adump o then print newline ;; ascii (ba_key ba) (ba_keylen ba) ;; print newline
   else if go_hdump o then print newline ;; hexdump (ba_key ba) (ba_keylen ba)
   else k ← bytes_at (ba_key ba) (ba_keylen ba); print (newline ++ c_str k ++ newline)) ;;
  print (text "Value(" ++ decimal (ba_vallen ba) ++ text "):" ++ newline).
Definition show_value (o : get_opts) (ba : bargs) : T unit :=
  if go_adump o then ascii (ba_val ba) (ba_vallen ba) ;; (if ba_quiet ba then mret tt else print newline)
  else if go_hdump o then hexdump (ba_val ba) (ba_vallen ba)
  else v ← bytes_at (ba_val ba) (ba_vallen ba); print v ;; (if ba_quiet ba then mret tt else print newline).

(** A command answers its exit code and the arguments it leaves behind; [args]
    are the words after the command's name. *)
Definition b_get (permute : bool) (args : list buffer) (ktd : Z) (ba : bargs) : T (Z * bargs) :=
  let '(evs, rest) := getopt (optstring (text "n:AXh?")) permute None args in
  match get_options ba evs (GetOpts 0 false false), rest with
  | Some o, [w] =>
      '(ok, ba) ← take_key w ba;
      if negb ok then mret (-1, ba) else
      '(rc, ba) ←
        (if negb (go_count o =? 0) then
           '(rc, r) ← on_kv (bkv_getn ktd (ba_key ba) (ba_keylen ba) (u32 (go_count o)) true true);
           mret (rc, match r with Some (v, n) => set_ba_val v n ba | None => ba end)
         else
           '(rc, r) ← on_kv (bkv_get ktd (ba_key ba) (ba_keylen ba) true true);
           mret (rc, match r with Some x => set_ba_val (kiov_base x) (kiov_len x) ba | None => ba end));
      if rc <? 0 then
        name ← cmdstr ba;
        print (name ++ text ": No key found." ++ newline) ;; mret (rc, ba)
      else
        (if ba_quiet ba then mret tt else show_key o ba) ;;
        show_value o ba ;;
        mret (rc, ba)
  | _, _ => mret (-1, ba)
  end.

(** [b_put] *)
Record put_opts := PutOpts { po_file : option buffer; po_large : bool; po_zlen : Z }.
Fixpoint put_options (evs : list (Z * option buffer)) (o : put_opts) : option put_opts :=
  match evs with
  | [] => Some o
  | (102, Some f) :: evs =>
      if po_zlen o >? -1 then None else put_options evs (PutOpts (Some f) (po_large o) (po_zlen o))
  | (108, _) :: evs => put_options evs (PutOpts (po_file o) true (po_zlen o))
  | (122, Some a) :: evs =>
      match a with
      | 45 :: _ => None
      | _ =>
          let '(z, rest) := strtoul a in
          match rest, po_file o with
          | [], None => put_options evs (PutOpts None (po_large o) (i32 z))
          | _, _ => None
          end
      end
  | _ => None
  end.

(** The value of a put: the word, zeros with the key in front, or a file.
    [false] is a refusal. *)
Definition put_word (w : buffer) (maxlen : Z) (ba : bargs) : T (bool * bargs) :=
  '(r, n) ← decode_word w (ba_vallen ba);
  mret (bool_decide (r <> None) && (n <=? maxlen), set_ba_val r n ba).
Definition put_zeros (n maxlen : Z) (ba : bargs) : T (bool * bargs) :=
  if n >? maxlen then mret (false, ba) else
  if n =? 0 then mret (true, set_ba_val None 0 ba) else
  b ← c_malloc n;
  match b with
  | None => mret (false, set_ba_val None (ba_vallen ba) ba)
  | Some _ =>
      k ← bytes_at (ba_key ba) (ba_keylen ba);
      (* the key is copied to the front, whether or not it fits *)
      if zlen k <=? n then mret (true, set_ba_val (Some (k ++ replicate (Z.to_nat (n - zlen k)) 0)) n ba)
      else ub_st
  end.
Definition put_file (name : buffer) (maxlen : Z) (ba : bargs) : T (bool * bargs) :=
  match files name with
  | None => mret (false, ba)
  | Some f =>
      if u64 (f_size f) >? maxlen then mret (false, ba) else
      b ← c_malloc (u64 (f_size f));
      match b with
      | None => mret (false, set_ba_val None (u64 (f_size f)) ba)
      | Some b =>
          if negb (f_opens f) then mret (false, set_ba_val (Some b) (u64 (f_size f)) ba) else
          let n := u64 (f_size f) in
          let got := take (Z.to_nat n) (f_data f) in
          mret (zlen got =? n, set_ba_val (Some (got ++ drop (length got) b)) n ba)
      end
  end.

Definition b_put (permute : bool) (args : list buffer) (ktd : Z) (ba : bargs) : T (Z * bargs) :=
  let '(evs, rest) := getopt (optstring (text "f:h?lz:")) permute None args in
  match put_options evs (PutOpts None false (-1)), rest with
  | Some o, w :: rest =>
      '(ok, ba) ← take_key w ba;
      if negb ok then mret (-1, ba) else
      let maxlen := u64 (bkvl_vlen (ba_limits ba) * (if po_large o then bkvl_maxn (ba_limits ba) else 1)) in
      let made := (po_zlen o >? -1) || bool_decide (po_file o <> None) in
      '(ok, ba) ←
        match rest with
        | [] =>
            if po_zlen o >? -1 then put_zeros (po_zlen o) maxlen ba
            else match po_file o with Some f => put_file f maxlen ba | None => mret (false, ba) end
        | [v] => if made then mret (false, ba) else put_word v maxlen ba
        | _ => mret (false, ba)
        end;
      if negb ok then mret (-1, ba) else
      rc ←
        (if po_large o then
           '(rc, n) ← on_kv (bkv_putn ktd (ba_key ba) (ba_keylen ba) true (ba_val ba) (ba_vallen ba));
           (if ba_quiet ba then mret tt else print (text "Put " ++ decimal (i32 (default 0 n)) ++ text " keys" ++ newline)) ;;
           mret rc
         else on_kv (bkv_put ktd (ba_key ba) (ba_keylen ba) (ba_val ba) (ba_vallen ba)));
      (if rc <? 0 then name ← cmdstr ba; print (name ++ text ": Put failed." ++ newline) else mret tt) ;;
      mret (rc, ba)
  | _, _ => mret (-1, ba)
  end.

(** [b_del] *)
Fixpoint del_options (ba : bargs) (evs : list (Z * option buffer)) (count : Z) : option Z :=
  match evs with
  | [] => Some count
  | (110, Some a) :: evs => match count_arg ba a with Some n => del_options ba evs n | None => None end
  | _ => None
  end.

Definition b_del (permute : bool) (args : list buffer) (ktd : Z) (ba : bargs) : T (Z * bargs) :=
  let '(evs, rest) := getopt (optstring (text "h?n:")) permute None args in
  match del_options ba evs 0, rest with
  | Some count, [w] =>
      '(ok, ba) ← take_key w ba;
      if negb ok then mret (-1, ba) else
      found ← (if count =? 0 then on_kv (bkv_exists ktd (ba_key ba) (ba_keylen ba)) else mret 1);
      if (count =? 0) && (found =? 0) then
        name ← cmdstr ba; print (name ++ text ": Key not found." ++ newline) ;; mret (1, ba)
      else
      let sure := ba_yes ba && negb (ba_quiet ba) in
      print (text (if sure then "***DELETING " else "***DELETE? ") ++
             (if count =? 0 then text "Key: " else decimal (i64 count) ++ text " Key(s): ")) ;;
      ascii (ba_key ba) (ba_keylen ba) ;;
      print newline ;;
      yes ← (if ba_yes ba then mret true else ask (text "Please answer y or n [yN]: ") 0 5);
      (* the code returned is the one of the test, and not initialised after -n *)
      if negb yes then (if count =? 0 then mret (found, ba) else ub_st) else
      rc ← (if count =? 0 then on_kv (bkv_del ktd (ba_key ba) (ba_keylen ba))
            else on_kv (bkv_deln ktd (ba_key ba) (ba_keylen ba) (u32 count)));
      (if rc <? 0 then name ← cmdstr ba; print (name ++ text ": No key found." ++ newline) else mret tt) ;;
      mret (rc, ba)
  | _, _ => mret (-1, ba)
  end.

(** [b_exists], [b_limits] *)
Definition no_options (evs : list (Z * option buffer)) : bool := match evs with [] => true | _ => false end.
Definition b_exists (permute : bool) (args : list buffer) (ktd : Z) (ba : bargs) : T (Z * bargs) :=
  let '(evs, rest) := getopt (optstring (text "h?")) permute None args in
  match no_options evs, rest with
  | true, [w] =>
      '(ok, ba) ← take_key w ba;
      if negb ok then mret (-1, ba) else
      rc ← on_kv (bkv_exists ktd (ba_key ba) (ba_keylen ba));
      if rc =? 1 then
        (if ba_quiet ba then mret tt else print (text "Key exists" ++ newline)) ;; mret (0, ba)
      else if rc =? 0 then
        (if ba_quiet ba then mret tt else print (text "Key doesn't exist" ++ newline)) ;; mret (1, ba)
      else mret (rc, ba)
  | _, _ => mret (-1, ba)
  end.

Definition tab : buffer := [9].
Definition b_limits (permute : bool) (args : list buffer) (ktd : Z) (ba : bargs) : T (Z * bargs) :=
  let '(evs, rest) := getopt (optstring (text "h?n:")) permute None args in
  match no_options evs, rest with
  | true, [] =>
      '(rc, bl) ← on_kv (bkv_limits ktd true);
      match bl with
      | Some bl =>
          print (text "Limits:" ++ newline ++ tab ++ text "Max Key Length: " ++ decimal (bkvl_klen bl) ++ newline ++
                 tab ++ text "Max Val Length: " ++ decimal (bkvl_vlen bl) ++ newline ++
                 tab ++ text "Max N:          " ++ decimal (bkvl_maxn bl) ++ newline) ;;
          mret (0, ba)
      | None => name ← cmdstr ba; print (name ++ text ": Get limits failed." ++ newline) ;; mret (rc, ba)
      end
  | _, _ => mret (-1, ba)
  end.

(** ** The tool ([bkv.c]) *)
Definition handler : Type := bool -> list buffer -> Z -> bargs -> T (Z * bargs).
Definition btable : list (bkv_cmd * buffer * handler) :=
  [(BKV_GET, text "get", b_get); (BKV_GETN, text "getn", b_get); (BKV_PUT, text "put", b_put);
   (BKV_PUTN, text "putn", b_put); (BKV_DEL, text "del", b_del); (BKV_EXISTS, text "exists", b_exists);
   (BKV_LIMITS, text "limits", b_limits)].
Definition find_cmd (name : buffer) : option (bkv_cmd * buffer * handler) :=
  snd <$> list_find (fun e => e.1.2 = name) btable.

(** [connect] is [bkv_open], [hangup] is [bkv_close]. *)
Context (connect : bkvs_open_t -> ST (@bst R) Z) (hangup : Z -> ST (@bst R) Z).
Definition EINVAL : Z := 22.

(** The descriptor, or what makes it fail *)
Definition b_start (ba : bargs) : T (Z * bargs) :=
  ktd ← on_kv (connect (ba_cinfo ba));
  if ktd <? 0 then mret (-1, ba) else
  '(rc, l) ← on_kv (bkv_limits ktd true);
  match l with
  | Some l => mret (ktd, set_ba_limits l ba)
  | None => mret (-1, ba)
  end.

(** [bkv]: the word is one of the table. *)
Definition bkv (args : list buffer) (ba : bargs) : T (Z * bargs) :=
  '(ktd, ba) ← b_start ba;
  if ktd <? 0 then mret (EINVAL, ba) else
  match list_find (fun e : bkv_cmd * buffer * handler => e.1.1 = ba_cmd ba) btable with
  | Some (_, (_, _, h)) => '(rc, ba) ← h false args ktd ba; _ ← on_kv (hangup ktd); mret (rc, ba)
  | None => ub_st
  end.

(** The common options of [main].  [script] reads the file that replaces the
    standard input ([None]: it does not open); [inp] is the input from then on.
    [usage] ends the program with 2, but not any more once a script is read. *)
Context (script : buffer -> option (list buffer)).
Definition set_host v ba := let c := ba_cinfo ba in set_ba_cinfo (BkvsOpen v (bkvo_port c) (bkvo_id c) (bkvo_pass c) (bkvo_usetls c)) ba.
Definition set_port v ba := let c := ba_cinfo ba in set_ba_cinfo (BkvsOpen (bkvo_host c) v (bkvo_id c) (bkvo_pass c) (bkvo_usetls c)) ba.
Definition set_id v ba := let c := ba_cinfo ba in set_ba_cinfo (BkvsOpen (bkvo_host c) (bkvo_port c) v (bkvo_pass c) (bkvo_usetls c)) ba.
Definition set_pass v ba := let c := ba_cinfo ba in set_ba_cinfo (BkvsOpen (bkvo_host c) (bkvo_port c) (bkvo_id c) v (bkvo_usetls c)) ba.
Definition set_usetls v ba := let c := ba_cinfo ba in set_ba_cinfo (BkvsOpen (bkvo_host c) (bkvo_port c) (bkvo_id c) (bkvo_pass c) v) ba.
Definition set_input i ba := set_ba_flags (ba_quiet ba) (ba_terse ba) (ba_verbose ba) (ba_yes ba) i ba.
Definition usage_exits (ba : bargs) : bool := bool_decide (ba_input ba = BKV_CMDLINE).

Fixpoint main_options (evs : list (Z * option buffer)) (ba : bargs) (inp : option (list buffer)) :
    bargs * option (list buffer) + Z :=
  match evs with
  | [] => inl (ba, inp)
  | (104, Some a) :: evs => main_options evs (set_host (Some a) ba) inp
  | (109, Some a) :: evs => main_options evs (set_pass (Some a) ba) inp
  | (112, Some a) :: evs => main_options evs (set_port (Some a) ba) inp
  | (102, Some a) :: evs =>
      match script a with
      | Some l => main_options evs (set_input BKV_SCRIPT ba) (Some l)
      | None => if usage_exits ba then inr 2 else main_options evs (set_input BKV_SCRIPT ba) (Some [])
      end
  | (115, _) :: evs => main_options evs (set_usetls 1 ba) inp
  | (113, _) :: evs => main_options evs (set_ba_flags true (ba_terse ba) (ba_verbose ba) (ba_yes ba) (ba_input ba) ba) inp
  | (116, _) :: evs => main_options evs (set_ba_flags (ba_quiet ba) true (ba_verbose ba) (ba_yes ba) (ba_input ba) ba) inp
  | (117, Some a) :: evs =>
      let '(id, rest) := strtol a in
      let ba := set_id (u64 id) ba in
      if bool_decide (rest <> []) && usage_exits ba then inr 2 else main_options evs ba inp
  | (118, _) :: evs => main_options evs (set_ba_flags (ba_quiet ba) (ba_terse ba) true (ba_yes ba) (ba_input ba) ba) inp
  | (86, _) :: _ => inr 0
  | (121, _) :: evs => main_options evs (set_ba_flags (ba_quiet ba) (ba_terse ba) (ba_verbose ba) true (ba_input ba) ba) inp
  | _ :: evs => if usage_exits ba then inr 2 else main_options evs ba inp
  end.

(** What [env], [version] and the verbose mode print *)
Definition pad (n : nat) (b : buffer) : buffer := replicate (n - length b) 32 ++ b.
Definition line (label : string) (b : buffer) : buffer := pad 12 (text label) ++ text " " ++ b ++ newline.
Definition flag (b : bool) : buffer := decimal (if b then 1 else 0).
Definition str (s : option buffer) : T buffer := s ← deref_st s; mret (c_str s).
Definition print_args (ba : bargs) : T unit :=
  let c := ba_cinfo ba in
  host ← str (bkvo_host c); port ← str (bkvo_port c); pass ← str (bkvo_pass c); name ← cmdstr ba;
  let id := decimal (i64 (bkvo_id c)) in
  print (line "URL:" (text "kinetic" ++ (if bkvo_usetls c =? 0 then [] else text "s") ++ text "://" ++ id ++ text ":" ++ pass ++
           text "@" ++ host ++ text ":" ++ port ++ text "/" ++ name) ++
         line "Host:" host ++ line "Port:" port ++ line "UserID:" id ++ line "UserPass:" pass ++
         line "Use TLS:" (decimal (bkvo_usetls c)) ++ line "Yes:" (flag (ba_yes ba)) ++ line "Quiet:" (flag (ba_quiet ba)) ++
         line "Terse:" (flag (ba_terse ba)) ++ line "Verbose:" (flag (ba_verbose ba)) ++ line "Command:" name).
Definition print_version : T unit := print (text "BKV Utility Version: 1.0.0" ++ newline).

(** *** The words of a line

    [strtok] on blanks; then the pieces of a quoted string are put back
    together.  [alias] says that no word was joined yet, so that the word under
    work is the very string the loop looks at: its closing quote is dropped in
    the copy that is kept, and a lone quote is looked for before the start of an
    empty copy.  After a join the closing quote of a one-word string is dropped
    in the original, and the copy keeps it. *)
Definition blank (c : Z) : bool := (c =? 32) || (c =? 9).
Fixpoint strtok (s cur : buffer) : list buffer :=
  match s with
  | [] => match cur with [] => [] | _ => [cur] end
  | c :: s =>
      if blank c then match cur with [] => strtok s [] | _ => cur :: strtok s [] end else strtok s (cur ++ [c])
  end.
Definition quote : Z := 34.
Definition comment : Z := 35.
Definition closes (w : buffer) : bool := bool_decide (last w = Some quote).
Definition drop_last (w : buffer) : buffer := take (pred (length w)) w.
Definition add_word (w : buffer) (r : outcome (list buffer * bool)) : outcome (list buffer * bool) :=
  '(l, u) ← r; mret (w :: l, u).
Fixpoint words (alias : bool) (open : option buffer) (toks : list buffer) : outcome (list buffer * bool) :=
  match toks with
  | [] => match open with Some s => Ok ([s], true) | None => Ok ([], false) end
  | t :: toks =>
      match open with
      | Some s =>
          if closes t then add_word (s ++ 32 :: drop_last t) (words false None toks)
          else words false (Some (s ++ 32 :: t)) toks
      | None =>
          match t with
          | [] => add_word t (words alias None toks)
          | c :: w =>
              if c =? comment then Ok ([], false)
              else if negb (c =? quote) then add_word t (words alias None toks)
              else if alias then
                match w with
                | [] => Ub
                | _ => if closes w then add_word (drop_last w) (words alias None toks) else words alias (Some w) toks
                end
              else if closes t then add_word w (words alias None toks)
              else words alias (Some w) toks
          end
      end
  end.
Definition maxargs : nat := 1024.
Definition parse_line (l : buffer) : outcome (list buffer * bool) := words true None (take (pred maxargs) (strtok (c_str l) [])).

(** [readline] takes the newline off; the script mode drops the last byte,
    whatever it is. *)
Definition read_line (mode : bkv_input) : T (option buffer) := fun t =>
  match t_in t with
  | [] => Ok (None, t)
  | l :: rest =>
      let l := if bool_decide (mode = BKV_INTERACTIVE) then (if bool_decide (last l = Some 10) then drop_last l else l) else drop_last l in
      Ok (Some l, Tst (t_kv t) rest (t_out t))
  end.

Fixpoint spaced (l : list buffer) : buffer :=
  match l with [] => [] | [w] => w | w :: l => w ++ 32 :: spaced l end.
Fixpoint show_argv (i : Z) (l : list buffer) : buffer :=
  match l with [] => [] | w :: l => text "ARGV[" ++ decimal i ++ text "] -> " ++ w ++ newline ++ show_argv (i + 1) l end.
Definition on_off (b : bool) : buffer := text (if b then "ON" else "OFF").
Definition toggle_verbose (ba : bargs) : bargs :=
  set_ba_flags (ba_quiet ba) (ba_terse ba) (negb (ba_verbose ba)) (ba_yes ba) (ba_input ba) ba.
Definition toggle_yes (ba : bargs) : bargs :=
  set_ba_flags (ba_quiet ba) (ba_terse ba) (ba_verbose ba) (negb (ba_yes ba)) (ba_input ba) ba.

(** One line: [inr] ends the loop.  The words are freed at the end, the
    command's name with them. *)
Definition b_line (ktd : Z) (l : buffer) (ba : bargs) : T (bargs + bargs) :=
  '(argv, unmatched) ← lift (parse_line l);
  match argv with
  | [] => mret (inl ba)
  | w :: args =>
      (if bool_decide (ba_input ba = BKV_SCRIPT) then print (text "bkv> " ++ spaced argv ++ newline) else mret tt) ;;
      if negb (hd 0 w =? comment) && unmatched then mret (inl ba) else
      (if ba_verbose ba then print (show_argv 0 argv) else mret tt) ;;
      if bool_decide (w = text "quit") then mret (inr ba)
      else if bool_decide (w = text "echo") then print (spaced args ++ newline) ;; mret (inl ba)
      else if bool_decide (w = text "help") then mret (inl ba)
      else if bool_decide (w = text "env") then print_args ba ;; mret (inl ba)
      else if bool_decide (w = text "verbose") then
        let ba := toggle_verbose ba in
        print (text "Verbose Mode in " ++ on_off (ba_verbose ba) ++ newline) ;; mret (inl ba)
      else if bool_decide (w = text "version") then print_version ;; mret (inl ba)
      else if bool_decide (w = text "yes") then
        let ba := toggle_yes ba in
        print (text "Yes Mode in " ++ on_off (ba_yes ba) ++ newline) ;; mret (inl ba)
      else
        match find_cmd w with
        | Some (c, _, h) =>
            '(_, ba) ← h true args ktd (set_ba_cmd c (Some w) ba);
            mret (inl (set_ba_cmd (ba_cmd ba) None ba))
        | None => mret (inl (set_ba_cmd (ba_cmd ba) None ba))
        end
  end.
Fixpoint b_loop (fuel : nat) (ktd : Z) (ba : bargs) : T bargs :=
  match fuel with
  | O => fun _ => NoFuel
  | S fuel =>
      l ← read_line (ba_input ba);
      match l with
      | None => mret ba
      | Some l => r ← b_line ktd l ba; match r with inl ba => b_loop fuel ktd ba | inr ba => mret ba end
      end
  end.

(** The answer when the loop ends without a command is not initialised, and not
    used either. *)
Definition b_interactive (fuel : nat) (ba : bargs) : T unit :=
  '(ktd, ba) ← b_start ba;
  if ktd <? 0 then mret tt else
  ba ← b_loop fuel ktd ba;
  (if ba_verbose ba then print (newline ++ text "kctl exiting" ++ newline) else mret tt) ;;
  _ ← on_kv (hangup ktd); mret tt.

(** The exit code *)
Definition main (fuel : nat) (progname : buffer) (args : list buffer) : T Z :=
  let '(evs, rest) := getopt (optstring (text "c:f:h:m:p:qsu:tvVy?")) false None args in
  match main_options evs (bargs0 progname) None with
  | inr code => (if code =? 0 then print_version else mret tt) ;; mret code
  | inl (ba, inp) =>
      modify_st (fun t => Tst (t_kv t) (default (t_in t) inp) (t_out t)) ;;
      match rest with
      | w :: args =>
          if bool_decide (ba_input ba = BKV_CMDLINE) then
            match find_cmd w with
            | None => mret 2
            | Some (c, _, _) =>
                let ba := set_ba_cmd c (Some w) ba in
                (if ba_verbose ba && negb (ba_terse ba) then print_args ba else mret tt) ;;
                '(rc, _) ← bkv args ba; mret rc
            end
          else b_interactive fuel ba ;; mret 0
      | [] =>
          let ba := if bool_decide (ba_input ba = BKV_CMDLINE) then set_input BKV_INTERACTIVE ba else ba in
          (if ba_verbose ba && bool_decide (ba_input ba = BKV_INTERACTIVE) then print (text "Going interactive..." ++ newline) else mret tt) ;;
          b_interactive fuel ba ;; mret 0
      end
  end.
End tool.
Arguments Tst {_} _ _ _.
