(* ===== verification/BkvToolSpec.v ===== *)
(** What the command line tool bkv does: its commands over a healthy session,
    the words of a line, a whole script, and that every script comes to an
    end. *)

From stdpp Require Import gmap strings pretty.
From S2P Require Import Prelude Types Keys Ktb Validate Iter BasicKv Toolbox BkvTool.

(** ** Words *)

(** What a word of the command line stands for *)
Definition reads (w raw : buffer) : Prop := asciidecode (fun _ => true) (w ++ [0]) (zlen w) = Ok (Some raw).

Lemma getopt_word spec permute w : is_option w = false -> getopt spec permute None [w] = ([], [w]).
Proof.
  intros H. cbn [getopt]. rewrite bool_decide_false by (intros ->; done). rewrite H. by destruct permute.
Qed.
Lemma getopt_words spec permute w1 w2 :
  is_option w1 = false -> is_option w2 = false -> getopt spec permute None [w1; w2] = ([], [w1; w2]).
Proof.
  intros H1 H2. cbn [getopt]. rewrite !bool_decide_false by (intros ->; done). rewrite H1, H2. by destruct permute.
Qed.

(** ** One command *)
Section commands.
Context {SZ : Sizes} {KE : KtbEnv} {R : Type} {KS : KvService R} (files : buffer -> option file)
        (view : R -> gmap buffer buffer) (lim : klimits) {KL : KvLaws KS view lim} (Hlim : lim_ok lim).
Implicit Types (t : @tst R) (ba : bargs) (k v w d : buffer).

Definition db t : gmap buffer buffer := view (t_kv t).2.
Definition healthy t : Prop := mem_ok (h_mem (t_kv t).1).
(** [t'] is [t] after something was printed and the map became [m]. *)
Definition did (m : gmap buffer buffer) (out : buffer) t t' : Prop :=
  healthy t' /\ db t' = m /\ t_in t' = t_in t /\ t_out t' = t_out t ++ out.

Lemma on_kv_run {A} (m : ST bst A) t a s :
  m (t_kv t) = Ok (a, s) -> on_kv m t = Ok (a, Tst s (t_in t) (t_out t)).
Proof. intros H. unfold on_kv. by rewrite H. Qed.

Lemma did_refl t : healthy t -> did (db t) [] t t.
Proof. intros H. split_and!; [done..|]. by rewrite app_nil_r. Qed.
Lemma did_trans t1 t2 t3 m2 m3 o2 o3 : did m2 o2 t1 t2 -> did m3 o3 t2 t3 -> did m3 (o2 ++ o3) t1 t3.
Proof.
  intros (_ & _ & Hi2 & Ho2) (H3 & Hd3 & Hi3 & Ho3). split_and!; [done|done|by rewrite Hi3|by rewrite Ho3, Ho2, app_assoc].
Qed.
Lemma print_run t b : healthy t -> exists t', print b t = Ok (tt, t') /\ did (db t) b t t'.
Proof. intros H. eexists. split; [done|]. by split_and!. Qed.

Lemma decode_word_run t w raw n :
  healthy t -> reads w raw -> exists t', decode_word w n t = Ok ((Some raw, zlen raw), t') /\ did (db t) [] t t'.
Proof.
  intros Hm Hr. unfold decode_word, c_malloc.
  destruct (KI_MALLOC_ok (h_mem (t_kv t).1) (zlen w + 1) Hm) as (b & m & Em & Hm' & _).
  rewrite (bind_Ok _ _ _ _ _ (on_kv_run _ t _ _ (on_heap_run _ _ _ _ (on_mem_run _ _ _ _ Em)))). cbv beta iota.
  erewrite bind_Ok by (eapply on_kv_run, on_heap_run, lift_Ok; exact Hr).
  eexists. split; [done|]. split_and!; [done..|]. cbn. by rewrite app_nil_r.
Qed.
Lemma take_key_run t w raw ba :
  healthy t -> reads w raw ->
  exists t', take_key w ba t = Ok ((true, set_ba_key (Some raw) (zlen raw) ba), t') /\ did (db t) [] t t'.
Proof.
  intros Hm Hr. unfold take_key. destruct (decode_word_run t w raw (ba_keylen ba) Hm Hr) as (t' & E & H).
  exists t'. split; [|done]. erewrite bind_Ok by exact E. cbv beta iota. by rewrite bool_decide_true.
Qed.

(** The next step of a run, and how far it brought the state *)
Ltac step E := rewrite (bind_Ok _ _ _ _ _ E); cbv beta iota.

Context (ktd : Z).

(** *** The calls of the library *)
Lemma put_call t k v :
  healthy t -> 1 <= zlen k <= kl_keylen lim -> zlen v <= kl_vallen lim ->
  exists t', on_kv (bkv_put ktd (Some k) (zlen k) (Some v) (zlen v)) t = Ok (0, t') /\ did (<[k := v]> (db t)) [] t t'.
Proof.
  intros Hm Hk Hv. pose proof (zlen_nonneg v).
  destruct (bkv_put_run view lim Hlim ktd k Hk (t_kv t) v Hm ltac:(lia)) as (p & s' & E & Hs & _ & x & Ho).
  eexists. split; [by apply on_kv_run|]. split_and!; [apply Ho|exact Hs|done|]. cbn. by rewrite app_nil_r.
Qed.
Lemma get_call t k :
  healthy t -> 1 <= zlen k <= kl_keylen lim ->
  exists t', on_kv (bkv_get ktd (Some k) (zlen k) true true) t =
      Ok ((match db t !! k with Some v => (0, Some (Kiovec (Some v) (zlen v))) | None => (-1, None) end), t') /\
    did (db t) [] t t'.
Proof.
  intros Hm Hk. destruct (bkv_get_run view lim Hlim ktd k Hk (t_kv t) Hm) as (s' & E & Hs & Hm').
  eexists. split; [by apply on_kv_run|]. split_and!; [done..|]. cbn. by rewrite app_nil_r.
Qed.
Lemma exists_call t k :
  healthy t -> 1 <= zlen k <= kl_keylen lim ->
  exists t', on_kv (bkv_exists ktd (Some k) (zlen k)) t = Ok ((if db t !! k then 1 else 0), t') /\ did (db t) [] t t'.
Proof.
  intros Hm Hk. destruct (bkv_exists_run view lim Hlim ktd k Hk (t_kv t) Hm) as (s' & E & Hs & Hm').
  eexists. split; [by apply on_kv_run|]. split_and!; [done..|]. cbn. by rewrite app_nil_r.
Qed.
Lemma del_call t k :
  healthy t -> 1 <= zlen k <= kl_keylen lim ->
  exists t', on_kv (bkv_del ktd (Some k) (zlen k)) t = Ok ((if db t !! k then 0 else -1), t') /\
    did (delete k (db t)) [] t t'.
Proof.
  intros Hm Hk. destruct (bkv_del_run view lim Hlim ktd k Hk (t_kv t) Hm) as (s' & E & Hs & Hm').
  eexists. split; [by apply on_kv_run|]. split_and!; [done..|]. cbn. by rewrite app_nil_r.
Qed.

(** *** The commands *)
Lemma asciidump_all d : asciidump d (zlen d) = Ok (dump_bytes d).
Proof. unfold asciidump. rewrite Z.leb_refl. unfold zlen. by rewrite Nat2Z.id, take_ge. Qed.
Lemma ascii_run t d : healthy t -> exists t', ascii (Some d) (zlen d) t = Ok (tt, t') /\ did (db t) (dump_bytes d) t t'.
Proof.
  intros Hm. unfold ascii. destruct (Z.eqb_spec (zlen d) 0) as [E|_].
  - destruct d; [|rewrite zlen_cons in E; pose proof (zlen_nonneg d); lia]. eexists. split; [done|]. by apply did_refl.
  - cbn [deref_st]. erewrite bind_Ok by done. cbv beta.
    erewrite bind_Ok by (apply on_kv_run, on_heap_run, lift_Ok, asciidump_all). cbv beta.
    eexists. split; [done|]. by split_and!.
Qed.
Lemma bytes_at_run t d : bytes_at (Some d) (zlen d) t = Ok (d, t).
Proof.
  unfold bytes_at. destruct (Z.eqb_spec (zlen d) 0) as [E|_].
  - destruct d; [done|]. rewrite zlen_cons in E. pose proof (zlen_nonneg d). lia.
  - erewrite bind_Ok by done. cbv beta. rewrite Z.leb_refl. unfold zlen. by rewrite Nat2Z.id, take_ge.
Qed.

Lemma put_zeros_overflow t n maxlen k ba :
  healthy t -> 0 < n < zlen k -> n <= maxlen -> ba_key ba = Some k -> ba_keylen ba = zlen k ->
  put_zeros n maxlen ba t = Ub.
Proof.
  intros Hm Hn Hmax Hk Hl. unfold put_zeros. replace (n >? maxlen) with false by lia. replace (n =? 0) with false by lia.
  destruct (KI_MALLOC_ok (h_mem (t_kv t).1) n Hm) as (b & m & Em & _). unfold c_malloc.
  rewrite (bind_Ok _ _ _ _ _ (on_kv_run _ t _ _ (on_heap_run _ _ _ _ (on_mem_run _ _ _ _ Em)))). cbv beta iota.
  rewrite Hk, Hl. erewrite bind_Ok by apply bytes_at_run. cbv beta. by replace (zlen k <=? n) with false by lia.
Qed.

Lemma b_put_run permute t wk wv k v ba :
  is_option wk = false -> is_option wv = false -> reads wk k -> reads wv v -> healthy t ->
  1 <= zlen k <= kl_keylen lim -> zlen v <= kl_vallen lim -> bkvl_vlen (ba_limits ba) = kl_vallen lim ->
  exists t', b_put files permute [wk; wv] ktd ba t =
      Ok ((0, set_ba_val (Some v) (zlen v) (set_ba_key (Some k) (zlen k) ba)), t') /\
    did (<[k := v]> (db t)) [] t t'.
Proof.
  intros Ok1 Ok2 Hk Hv Hm Hlk Hlv Hb. unfold b_put. rewrite getopt_words by done. cbv beta iota. cbn [put_options].
  destruct (take_key_run t wk k ba Hm Hk) as (t1 & E1 & D1). step E1. cbn [negb po_large po_zlen po_file].
  rewrite Z.mul_1_r. change (-1 >? -1) with false. cbn [orb]. rewrite bool_decide_false by tauto. cbv beta iota.
  cbn [ba_limits set_ba_key]. destruct Hlim as (_ & Hv32 & _). rewrite Hb, u64_small by lia. pose proof (zlen_nonneg v).
  destruct (decode_word_run t1 wv v (ba_vallen ba) ltac:(apply D1) Hv) as (t2 & E2 & D2).
  pose proof (did_trans _ _ _ _ _ _ _ D1 D2) as D12.
  unfold put_word. cbn [ba_vallen set_ba_key].
  erewrite bind_Ok by (rewrite (bind_Ok _ _ _ _ _ E2); reflexivity). cbv beta iota.
  rewrite bool_decide_true by done. replace (zlen v <=? kl_vallen lim) with true by lia. cbn [negb andb].
  cbn [ba_key ba_keylen ba_val ba_vallen set_ba_key set_ba_val].
  destruct (put_call t2 k v ltac:(apply D2) Hlk Hlv) as (t3 & E3 & D3).
  step E3. cbn [Z.ltb Z.compare]. eexists. split; [reflexivity|].
  destruct D2 as (_ & Hd2 & _), D1 as (_ & Hd1 & _). rewrite <- Hd1, <- Hd2. exact (did_trans _ _ _ _ _ _ _ D12 D3).
Qed.

(** What get prints for the value [v] of the key [k]; quietly that is the value
    and nothing else. *)
Definition shown (quiet : bool) (k v : buffer) : buffer :=
  (if quiet then [] else text "Key(" ++ decimal (zlen k) ++ text "):" ++ newline ++ c_str k ++ newline ++
                         text "Value(" ++ decimal (zlen v) ++ text "):" ++ newline) ++
  v ++ (if quiet then [] else newline).

Lemma show_key_run t ba k :
  healthy t -> ba_key ba = Some k -> ba_keylen ba = zlen k ->
  exists t', show_key (GetOpts 0 false false) ba t = Ok (tt, t') /\
    did (db t) (text "Key(" ++ decimal (zlen k) ++ text "):" ++ newline ++ c_str k ++ newline ++
                text "Value(" ++ decimal (ba_vallen ba) ++ text "):" ++ newline) t t'.
Proof.
  intros Hm Hk Hl. unfold show_key. rewrite Hk, Hl. cbn [go_adump go_hdump].
  erewrite bind_Ok by done. cbv beta.
  erewrite bind_Ok by (erewrite bind_Ok by apply bytes_at_run; reflexivity). cbv beta.
  eexists. split; [reflexivity|]. split_and!; [done..|]. cbn [t_out]. by rewrite <- !app_assoc.
Qed.
Lemma show_value_run t ba v :
  healthy t -> ba_val ba = Some v -> ba_vallen ba = zlen v ->
  exists t', show_value (GetOpts 0 false false) ba t = Ok (tt, t') /\
    did (db t) (v ++ (if ba_quiet ba then [] else newline)) t t'.
Proof.
  intros Hm Hv Hl. unfold show_value. rewrite Hv, Hl. cbn [go_adump go_hdump].
  erewrite bind_Ok by apply bytes_at_run. cbv beta. erewrite bind_Ok by done. cbv beta.
  destruct (ba_quiet ba); (eexists; split; [reflexivity|]); split_and!; try done; cbn [t_out]; by rewrite ?app_nil_r, ?app_assoc.
Qed.

Lemma b_get_run permute t w k ba name :
  is_option w = false -> reads w k -> healthy t -> 1 <= zlen k <= kl_keylen lim -> ba_cmdstr ba = Some name ->
  let ba1 := set_ba_key (Some k) (zlen k) ba in
  exists t', b_get permute [w] ktd ba t =
      Ok ((match db t !! k with Some v => (0, set_ba_val (Some v) (zlen v) ba1) | None => (-1, ba1) end), t') /\
    did (db t) (match db t !! k with Some v => shown (ba_quiet ba) k v
                | None => name ++ text ": No key found." ++ newline end) t t'.
Proof.
  intros Ok1 Hk Hm Hlk Hname ba1. unfold b_get. rewrite getopt_word by done. cbv beta iota. cbn [get_options].
  destruct (take_key_run t w k ba Hm Hk) as (t1 & E1 & D1). step E1. cbn [negb go_count Z.eqb].
  fold ba1. cbn [ba_key ba_keylen set_ba_key ba1].
  destruct (get_call t1 k ltac:(apply D1) Hlk) as (t2 & E2 & D2).
  pose proof (did_trans _ _ _ _ _ _ _ D1 D2) as D. destruct D1 as (_ & Hd1 & _). rewrite Hd1 in *.
  revert E2. destruct (db t !! k) as [v|]; intros E2;
    (erewrite bind_Ok by (rewrite (bind_Ok _ _ _ _ _ E2); reflexivity)); cbv beta iota.
  - cbn [Z.ltb Z.compare kiov_base kiov_len]. set (ba2 := set_ba_val (Some v) (zlen v) ba1).
    change (ba_quiet ba2) with (ba_quiet ba). unfold shown. pose proof D2 as (Hm2 & Hd2 & _). destruct (ba_quiet ba) eqn:Q.
    + erewrite bind_Ok by done. cbv beta.
      destruct (show_value_run t2 ba2 v Hm2 eq_refl eq_refl) as (t3 & E3 & D3). step E3.
      change (ba_quiet ba2) with (ba_quiet ba) in D3. rewrite Q, Hd2 in D3.
      exists t3. split; [done|]. exact (did_trans _ _ _ _ _ _ _ D D3).
    + destruct (show_key_run t2 ba2 k Hm2 eq_refl eq_refl) as (t3 & E3 & D3). step E3.
      destruct (show_value_run t3 ba2 v ltac:(apply D3) eq_refl eq_refl) as (t4 & E4 & D4). step E4.
      pose proof D3 as (_ & Hd3 & _). change (ba_quiet ba2) with (ba_quiet ba) in D4.
      rewrite Q, Hd3, Hd2 in D4. rewrite Hd2 in D3.
      exists t4. split; [done|]. exact (did_trans _ _ _ _ _ _ _ D (did_trans _ _ _ _ _ _ _ D3 D4)).
  - cbn [Z.ltb Z.compare]. unfold cmdstr. cbn [ba_cmdstr set_ba_key ba1]. rewrite Hname.
    erewrite bind_Ok by done. cbv beta. pose proof D2 as (Hm2 & Hd2 & _).
    destruct (print_run t2 (name ++ text ": No key found." ++ newline) Hm2) as (t3 & E3 & D3). step E3.
    rewrite Hd2 in D3. exists t3. split; [done|]. exact (did_trans _ _ _ _ _ _ _ D D3).
Qed.

Lemma b_exists_run permute t w k ba :
  is_option w = false -> reads w k -> healthy t -> 1 <= zlen k <= kl_keylen lim ->
  exists t', b_exists permute [w] ktd ba t =
      Ok ((if db t !! k then 0 else 1, set_ba_key (Some k) (zlen k) ba), t') /\
    did (db t) (if ba_quiet ba then [] else text (if db t !! k then "Key exists" else "Key doesn't exist") ++ newline) t t'.
Proof.
  intros Ok1 Hk Hm Hlk. unfold b_exists. rewrite getopt_word by done. cbv beta iota. cbn [no_options].
  destruct (take_key_run t w k ba Hm Hk) as (t1 & E1 & D1). step E1. cbn [negb ba_key ba_keylen ba_quiet set_ba_key].
  destruct (exists_call t1 k ltac:(apply D1) Hlk) as (t2 & E2 & D2). step E2.
  pose proof (did_trans _ _ _ _ _ _ _ D1 D2) as D. destruct D1 as (_ & Hd1 & _), D2 as (Hm2 & Hd2 & _). rewrite Hd1 in *.
  destruct (db t !! k); cbn [Z.eqb Z.compare Pos.eqb]; (destruct (ba_quiet ba); [by exists t2|]);
    (match goal with |- context [print ?b] => destruct (print_run t2 b Hm2) as (t3 & E3 & D3) end); step E3;
    rewrite Hd2 in D3; exists t3; (split; [done|]); exact (did_trans _ _ _ _ _ _ _ D D3).
Qed.

(** What del prints about a key that it goes on to delete *)
Definition deleting (ba : bargs) (k : buffer) : buffer :=
  text (if ba_yes ba && negb (ba_quiet ba) then "***DELETING " else "***DELETE? ") ++ text "Key: " ++ dump_bytes k ++ newline.

Lemma b_del_run permute t w k ba name :
  is_option w = false -> reads w k -> healthy t -> 1 <= zlen k <= kl_keylen lim -> ba_cmdstr ba = Some name ->
  ba_yes ba = true ->
  exists t', b_del permute [w] ktd ba t = Ok ((if db t !! k then 0 else 1, set_ba_key (Some k) (zlen k) ba), t') /\
    did (delete k (db t)) (if db t !! k then deleting ba k else name ++ text ": Key not found." ++ newline) t t'.
Proof.
  intros Ok1 Hk Hm Hlk Hname Hyes. unfold b_del. rewrite getopt_word by done. cbv beta iota. cbn [del_options].
  destruct (take_key_run t w k ba Hm Hk) as (t1 & E1 & D1). step E1.
  cbn [negb Z.eqb andb ba_key ba_keylen ba_quiet ba_yes set_ba_key].
  destruct (exists_call t1 k ltac:(apply D1) Hlk) as (t2 & E2 & D2). step E2.
  pose proof (did_trans _ _ _ _ _ _ _ D1 D2) as D. destruct D1 as (_ & Hd1 & _), D2 as (Hm2 & Hd2 & _). rewrite Hd1 in *.
  destruct (db t !! k) as [v|] eqn:Ek; cbn [Z.eqb].
  - rewrite Hyes. cbn [andb]. set (p := text (if negb _ then _ else _) ++ text "Key: ").
    destruct (print_run t2 p Hm2) as (t3 & E3 & D3). step E3.
    pose proof (did_trans _ _ _ _ _ _ _ D D3) as D13. pose proof D3 as (Hm3 & Hd3 & _).
    destruct (ascii_run t3 k Hm3) as (t4 & E4 & D4). step E4.
    pose proof (did_trans _ _ _ _ _ _ _ D13 D4) as D14. pose proof D4 as (Hm4 & Hd4 & _).
    destruct (print_run t4 newline Hm4) as (t5 & E5 & D5). step E5.
    pose proof (did_trans _ _ _ _ _ _ _ D14 D5) as D15. pose proof D5 as (Hm5 & Hd5 & _).
    erewrite bind_Ok by done. cbv beta. cbn [negb].
    assert (db t5 = db t) as Hd by congruence.
    destruct (del_call t5 k Hm5 Hlk) as (t6 & E6 & D6). rewrite Hd, Ek in *. step E6. cbn [Z.ltb Z.compare].
    erewrite bind_Ok by done. cbv beta. exists t6. split; [done|].
    pose proof (did_trans _ _ _ _ _ _ _ D15 D6) as D16. unfold deleting. rewrite Hyes. cbn [andb].
    subst p. rewrite !app_nil_r, <- !app_assoc in D16. exact D16.
  - rewrite delete_id by done. unfold cmdstr. cbn [andb ba_cmdstr set_ba_key]. rewrite Hname.
    erewrite bind_Ok by done. cbv beta.
    destruct (print_run t2 (name ++ text ": Key not found." ++ newline) Hm2) as (t3 & E3 & D3). step E3.
    rewrite Hd2 in D3. exists t3. split; [done|]. exact (did_trans _ _ _ _ _ _ _ D D3).
Qed.
End commands.

(** ** The words of a line

    A line is written as words and quoted strings of words; [tokens] is what
    [strtok] leaves of it. *)
Inductive item := Plain (w : buffer) | Quoted (ws : list buffer).
Definition content (i : item) : buffer := match i with Plain w => w | Quoted ws => spaced ws end.
Definition render (i : item) : buffer := match i with Plain w => w | Quoted ws => quote :: spaced ws ++ [quote] end.
Fixpoint close_last (ws : list buffer) : list buffer :=
  match ws with [] => [] | [w] => [w ++ [quote]] | w :: ws => w :: close_last ws end.
Definition tokens (i : item) : list buffer :=
  match i with
  | Plain w => [w]
  | Quoted ws => match close_last ws with w :: l => (quote :: w) :: l | [] => [] end
  end.

Definition in_word (c : Z) : Prop := blank c = false /\ c <> 0.
Definition solid (w : buffer) : Prop := w <> [] /\ Forall in_word w.
Definition item_ok (i : item) : Prop :=
  match i with
  | Plain w => solid w /\ hd 0 w <> quote /\ hd 0 w <> comment
  | Quoted ws => ws <> [] /\ Forall (fun w => solid w /\ last w <> Some quote) ws
  end.
(** Once a quoted string of several words was put together, no string of a
    single word may follow. *)
Fixpoint quotable (joined : bool) (l : list item) : Prop :=
  match l with
  | [] => True
  | Quoted [w] :: l => joined = false /\ quotable joined l
  | Quoted _ :: l => quotable true l
  | Plain _ :: l => quotable joined l
  end.

Lemma spaced_cons w w' l : spaced (w :: w' :: l) = w ++ 32 :: spaced (w' :: l).
Proof. done. Qed.
Lemma spaced_app l1 l2 : l1 <> [] -> l2 <> [] -> spaced (l1 ++ l2) = spaced l1 ++ 32 :: spaced l2.
Proof.
  intros H1 H2. induction l1 as [|w [|w' l1] IH]; [done| |].
  - destruct l2; [done|]. done.
  - change ((w :: w' :: l1) ++ l2) with (w :: w' :: l1 ++ l2). rewrite !spaced_cons. cbn [app] in IH.
    rewrite IH by done. by rewrite <- app_assoc.
Qed.
Lemma close_last_spaced ws : ws <> [] -> spaced (close_last ws) = spaced ws ++ [quote].
Proof.
  induction ws as [|w [|w' ws] IH]; [done..|]. intros _.
  change (close_last (w :: w' :: ws)) with (w :: close_last (w' :: ws)). rewrite spaced_cons, <- app_assoc. cbn [app].
  rewrite <- IH by done. by destruct ws.
Qed.
Lemma spaced_tokens i : item_ok i -> tokens i <> [] /\ spaced (tokens i) = render i.
Proof.
  destruct i as [w|ws]; [done|]. intros [Hne _]. cbn [tokens render]. rewrite <- close_last_spaced by done.
  destruct ws as [|w [|w' ws]]; [done..|]. change (close_last (w :: w' :: ws)) with (w :: close_last (w' :: ws)).
  split; [done|]. by destruct ws.
Qed.
Lemma spaced_items l : Forall item_ok l -> spaced (render <$> l) = spaced (l ≫= tokens).
Proof.
  induction 1 as [|i l Hi Hl IH]; [done|]. destruct (spaced_tokens i Hi) as [Hne Hs]. cbn [mbind list_bind fmap list_fmap].
  change (fmap render l) with (render <$> l) in *. change (mbind tokens l) with (l ≫= tokens) in *.
  destruct l as [|j l]; [cbn; by rewrite app_nil_r|].
  assert ((j :: l) ≫= tokens <> []) as Hne'.
  { cbn. apply Forall_cons_1 in Hl as [Hj _]. destruct (spaced_tokens j Hj) as [H _]. by destruct (tokens j). }
  rewrite spaced_app by done. rewrite <- IH, Hs. done.
Qed.

Lemma solid_close ws : Forall solid ws -> Forall solid (close_last ws).
Proof.
  induction 1 as [|w ws [Hne Hw] Hws IH]; [done|]. destruct ws as [|w' ws].
  - constructor; [|done]. split; [by destruct w|]. apply Forall_app. split; [done|]. by repeat constructor.
  - by constructor.
Qed.
Lemma solid_tokens i : item_ok i -> Forall solid (tokens i).
Proof.
  destruct i as [w|ws]; [intros (H & _); by constructor|]. intros [_ Hws]. cbn [tokens].
  assert (Forall solid ws) as H by (eapply Forall_impl; [exact Hws|by intros ? [? _]]). apply solid_close in H.
  destruct (close_last ws) as [|w l]; [done|]. apply Forall_cons_1 in H as [[_ Hw] Hl].
  constructor; [|done]. split; [done|]. by repeat constructor.
Qed.

Lemma strtok_word w : Forall in_word w -> forall cur s, strtok (w ++ s) cur = strtok s (cur ++ w).
Proof.
  induction 1 as [|c w [Hb _] _ IH]; intros cur s; [by rewrite app_nil_r|].
  cbn [app strtok]. rewrite Hb, IH, <- app_assoc. done.
Qed.
Lemma strtok_spaced l : Forall solid l -> strtok (spaced l) [] = l.
Proof.
  induction 1 as [|w l [Hne Hw] Hl IH]; [done|]. destruct l as [|w' l].
  - cbn [spaced]. rewrite <- (app_nil_r w) at 1. rewrite strtok_word by done. by destruct w.
  - rewrite spaced_cons, strtok_word by done. cbn [app strtok]. change (blank 32) with true. cbv iota.
    rewrite IH. by destruct w.
Qed.
Lemma c_str_in_word s : Forall (fun c => c <> 0) s -> c_str s = s.
Proof.
  induction 1 as [|c s Hc _ IH]; [done|]. cbn [c_str]. destruct (Z.eqb_spec c 0); [done|]. by rewrite IH.
Qed.
Lemma spaced_no_nul l : Forall solid l -> Forall (fun c => c <> 0) (spaced l).
Proof.
  induction 1 as [|w l [_ Hw] Hl IH]; [constructor|].
  assert (Forall (fun c => c <> 0) w) as H by (eapply Forall_impl; [exact Hw|]; by intros ? []).
  destruct l as [|w' l]; [done|]. rewrite spaced_cons. apply Forall_app. split; [done|]. by constructor.
Qed.

Lemma closes_quoted w : closes (w ++ [quote]) = true.
Proof. unfold closes. by rewrite last_snoc, bool_decide_true. Qed.
Lemma closes_other w : last w <> Some quote -> closes w = false.
Proof. intros H. unfold closes. by rewrite bool_decide_false. Qed.
Lemma drop_last_snoc w c : drop_last (w ++ [c]) = w.
Proof. unfold drop_last. rewrite length_app. cbn [length]. rewrite Nat.add_1_r. cbn [pred]. by rewrite take_app_length. Qed.

Definition inner (w : buffer) : Prop := solid w /\ last w <> Some quote.
Lemma words_join toks ws : ws <> [] -> Forall inner ws -> forall alias s,
  words alias (Some s) (close_last ws ++ toks) = add_word (s ++ 32 :: spaced ws) (words false None toks).
Proof.
  intros Hne H. induction H as [|w ws [[Hw _] Hq] Hws IH]; [done|]. intros alias s. destruct ws as [|w' ws].
  - cbn [close_last app words spaced]. by rewrite closes_quoted, drop_last_snoc.
  - change (close_last (w :: w' :: ws)) with (w :: close_last (w' :: ws)). cbn [app words].
    rewrite closes_other by done. rewrite IH, spaced_cons by done. by rewrite <- app_assoc.
Qed.

(** Whether the words that follow an item come behind a joined string *)
Definition joins (i : item) : bool := match i with Quoted (_ :: _ :: _) => true | _ => false end.
Lemma words_item i toks joined :
  item_ok i -> match i with Quoted [_] => joined = false | _ => True end ->
  words (negb joined) None (tokens i ++ toks) = add_word (content i) (words (negb (joined || joins i)) None toks).
Proof.
  destruct i as [w|[|w [|w' ws]]]; intros Hi Hj; [|by destruct Hi| |].
  - destruct Hi as ([Hne Hw] & Hq & Hc). destruct w as [|c w]; [done|]. cbn in Hq, Hc. cbn [tokens app words joins content].
    rewrite orb_false_r. destruct (Z.eqb_spec c comment); [done|]. by destruct (Z.eqb_spec c quote).
  - subst joined. cbn [tokens close_last app words joins content spaced orb]. change (quote =? comment) with false.
    rewrite Z.eqb_refl, closes_quoted, drop_last_snoc. cbn [negb]. by destruct w.
  - destruct Hi as [_ Hws]. apply Forall_cons_1 in Hws as [[[Hne _] Hq] Hws]. cbn [joins content]. rewrite orb_true_r.
    unfold tokens. change (close_last (w :: w' :: ws)) with (w :: close_last (w' :: ws)). cbn [app words].
    change (quote =? comment) with false. rewrite Z.eqb_refl. cbn [negb]. rewrite spaced_cons.
    assert (closes (quote :: w) = false) as Hqw.
    { apply closes_other. destruct w as [|c w]; [done|]. by rewrite last_cons_cons. }
    destruct joined; cbn [negb]; [rewrite Hqw; by apply words_join|].
    destruct w as [|c w]; [done|]. rewrite (closes_other (c :: w)) by done. by apply words_join.
Qed.

Lemma words_items l : Forall item_ok l -> forall joined, quotable joined l ->
  words (negb joined) None (l ≫= tokens) = Ok (content <$> l, false).
Proof.
  induction 1 as [|i l Hi Hl IH]; intros joined Hq; [done|].
  change ((i :: l) ≫= tokens) with (tokens i ++ (l ≫= tokens)).
  rewrite words_item by (done || (destruct i as [|[|? [|? ?]]]; cbn in *; tauto)).
  rewrite IH; [done|]. destruct i as [|[|? [|? ?]]]; cbn in *; rewrite ?orb_false_r, ?orb_true_r; tauto.
Qed.

Lemma parse_items l :
  Forall item_ok l -> quotable false l -> (length (l ≫= tokens) < maxargs)%nat ->
  parse_line (spaced (render <$> l)) = Ok (content <$> l, false).
Proof.
  intros Hl Hq Hn. unfold parse_line. rewrite spaced_items by done.
  assert (Forall solid (l ≫= tokens)) as Hs.
  { clear Hq Hn. induction Hl as [|i l Hi _ IH]; [constructor|]. change ((i :: l) ≫= tokens) with (tokens i ++ (l ≫= tokens)).
    apply Forall_app. split; [by apply solid_tokens|done]. }
  rewrite c_str_in_word by by apply spaced_no_nul. rewrite strtok_spaced by done.
  rewrite take_ge by (unfold maxargs in *; lia). exact (words_items l Hl false Hq).
Qed.
(** C25: The interactive loop reads a line back as it was meant: for words without
    blanks and strings in double quotes, separated by single blanks, the words
    handed to a command are the words and the contents of the strings, in order,
    no quote is left open, and nothing is lost. The line may have 1023 blank
    separated pieces. The one restriction the code needs is that a string of a
    single word does not follow a string of several: it would keep its closing
    quote. *)
Theorem parse_line_render l :
  Forall item_ok l -> quotable false l -> (length (l ≫= tokens) < maxargs)%nat ->
  parse_line (spaced (render <$> l)) = Ok (content <$> l, false).
Proof. apply parse_items. Qed.
Ltac items_ok := repeat constructor; cbn; try (split; [done|]); repeat constructor; cbn; try done; intros [=].
Lemma parse_line_render_witness :
  let l := [Plain (text "put"); Quoted [text "k"]; Quoted [text "one"; text "two"]; Plain (text "x")] in
  Forall item_ok l /\
  parse_line (spaced (render <$> l)) = Ok ([text "put"; text "k"; text "one two"; text "x"], false).
Proof.
  intros l. assert (Forall item_ok l) as Hl by items_ok.
  split; [exact Hl|]. apply (parse_line_render l Hl); [by repeat split|vm_compute; lia].
Defined.

(** Where the restriction comes from, and a lone quote at the front of a line *)
Lemma parse_line_after_join :
  parse_line (spaced (render <$> [Plain (text "put"); Quoted [text "a"; text "b"]; Quoted [text "c"]])) =
  Ok ([text "put"; text "a b"; text "c" ++ [quote]], false).
Proof. done. Qed.
Lemma parse_line_lone_quote l : words true None ([quote] :: l) = Ub.
Proof. done. Qed.

(** ** A script

    What the lines of a script ask for, over keys and values as bytes *)
Inductive command := Put (k v : buffer) | Get (k : buffer) | Exists (k : buffer) | Del (k : buffer).
Definition effect (c : command) (m : gmap buffer buffer) : gmap buffer buffer :=
  match c with Put k v => <[k := v]> m | Del k => delete k m | _ => m end.
(** What the command prints, with yes to every question *)
Definition reply (quiet : bool) (c : command) (m : gmap buffer buffer) : buffer :=
  match c with
  | Put _ _ => []
  | Get k => match m !! k with Some v => shown quiet k v | None => text "get: No key found." ++ newline end
  | Exists k => if quiet then [] else text (if m !! k then "Key exists" else "Key doesn't exist") ++ newline
  | Del k => match m !! k with
             | Some _ => text (if quiet then "***DELETE? Key: " else "***DELETING Key: ") ++ dump_bytes k ++ newline
             | None => text "del: Key not found." ++ newline
             end
  end.

(** The words of a command; a key and a value within the limits of the drive *)
Section asks.
Context (lim : klimits).
Definition key_word (w k : buffer) : Prop := is_option w = false /\ reads w k /\ 1 <= zlen k <= kl_keylen lim.
Definition val_word (w v : buffer) : Prop := is_option w = false /\ reads w v /\ zlen v <= kl_vallen lim.
Inductive wants : list buffer -> command -> Prop :=
| wants_put wk wv k v : key_word wk k -> val_word wv v -> wants [text "put"; wk; wv] (Put k v)
| wants_get w k : key_word w k -> wants [text "get"; w] (Get k)
| wants_exists w k : key_word w k -> wants [text "exists"; w] (Exists k)
| wants_del w k : key_word w k -> wants [text "del"; w] (Del k).

(** A line of the script, with its newline *)
Definition asks (l : buffer) (req : list buffer * command) : Prop :=
  wants req.1 req.2 /\
  exists items, Forall item_ok items /\ quotable false items /\ (length (items ≫= tokens) < maxargs)%nat /\
    content <$> items = req.1 /\ l = spaced (render <$> items) ++ [10].
End asks.

(** The abstract run: every line is echoed, answered and takes effect. *)
Fixpoint session (quiet : bool) (reqs : list (list buffer * command)) (m : gmap buffer buffer) : gmap buffer buffer * buffer :=
  match reqs with
  | [] => (m, [])
  | (argv, c) :: reqs =>
      let '(m', out) := session quiet reqs (effect c m) in
      (m', (text "bkv> " ++ spaced argv ++ newline ++ reply quiet c m) ++ out)
  end.

Section script.
Context {SZ : Sizes} {KE : KtbEnv} {R : Type} {KS : KvService R} (files : buffer -> option file)
        (view : R -> gmap buffer buffer) (lim : klimits) {KL : KvLaws KS view lim} (Hlim : lim_ok lim).
Implicit Types (t : @tst R) (ba : bargs) (k v w l : buffer).
Notation db := (db view).
Notation did := (did view).

(** The arguments of a script run with [-y] *)
Definition settings (quiet : bool) ba : Prop :=
  ba_quiet ba = quiet /\ ba_yes ba = true /\ ba_verbose ba = false /\ ba_input ba = BKV_SCRIPT /\
  bkvl_vlen (ba_limits ba) = kl_vallen lim.

(** A command of the table, as the loop runs it *)
Lemma b_line_command ktd l w args ba c n h quiet t ba1 m out rc :
  parse_line l = Ok (w :: args, false) -> settings quiet ba ->
  existsb (fun s => bool_decide (w = text s)) ["quit"; "echo"; "help"; "env"; "verbose"; "version"; "yes"]%string = false ->
  find_cmd files w = Some (c, n, h) -> healthy t ->
  (forall t0, healthy t0 -> db t0 = db t ->
     exists t1, h true args ktd (set_ba_cmd c (Some w) ba) t0 = Ok ((rc, ba1), t1) /\ did m out t0 t1) ->
  exists t1, b_line files ktd l ba t = Ok (inl (set_ba_cmd (ba_cmd ba1) None ba1), t1) /\
    did m (text "bkv> " ++ spaced (w :: args) ++ newline ++ out) t t1.
Proof.
  intros Hp (_ & _ & Hv & Hi & _) Hw Hf Hm Hh. unfold b_line. erewrite bind_Ok by (apply lift_Ok; exact Hp).
  cbv beta iota. rewrite Hi, Hv, (bool_decide_true (BKV_SCRIPT = BKV_SCRIPT)) by done. set (e := text "bkv> " ++ _).
  destruct (print_run view t e Hm) as (t0 & E0 & D0). rewrite (bind_Ok _ _ _ _ _ E0). cbv beta iota.
  rewrite andb_false_r, bind_ret.
  cbv [existsb] in Hw. repeat (apply orb_false_iff in Hw as [?%bool_decide_eq_false Hw]).
  rewrite !bool_decide_false by done. rewrite Hf.
  pose proof D0 as (Hm0 & Hd0 & _). destruct (Hh t0 Hm0 Hd0) as (t1 & E1 & D1). rewrite (bind_Ok _ _ _ _ _ E1). cbv beta iota.
  exists t1. split; [done|]. pose proof (did_trans _ _ _ _ _ _ _ _ D0 D1) as D. subst e. rewrite <- !app_assoc in D. exact D.
Qed.

(** A line with the command [w], given how its handler runs *)
Ltac by_command ktd w H :=
  let L := fresh "L" in
  pose proof (fun l => b_line_command ktd l w) as L; edestruct L as (t1 & E & D);
  [eassumption | eassumption | reflexivity | reflexivity | eassumption
  | let t0 := fresh "t0" in let H0 := fresh "H0" in let Hd0 := fresh "Hd0" in
    intros t0 H0 Hd0; destruct (H t0 H0) as (t1 & E & D); rewrite ?Hd0 in E; rewrite ?Hd0 in D;
    try match goal with Ek : db _ !! _ = _ |- _ => rewrite ?Ek in E; rewrite ?Ek in D end;
    exists t1; split; [exact E|exact D]
  | clear L; eexists t1, _; split; [exact E|]; split; [|exact D]].

Lemma b_line_run ktd l argv c ba quiet t :
  asks lim (l ++ [10]) (argv, c) -> settings quiet ba -> healthy t ->
  exists t1 ba1, b_line files ktd l ba t = Ok (inl ba1, t1) /\ settings quiet ba1 /\
    did (effect c (db t)) (text "bkv> " ++ spaced argv ++ newline ++ reply quiet c (db t)) t t1.
Proof.
  intros (Hw & items & Hok & Hq & Hn & Hc & Hl) Hs Hm. cbn [fst snd] in *. apply app_inj_tail in Hl as [-> _].
  assert (parse_line (spaced (render <$> items)) = Ok (argv, false)) as Hp by (rewrite parse_items by done; by rewrite Hc).
  pose proof Hs as (Q & Y & _ & _ & Hb).
  destruct Hw as [wk wv k v (O1 & R1 & L1) (O2 & R2 & L2)|w k (O1 & R1 & L1)|w k (O1 & R1 & L1)|w k (O1 & R1 & L1)].
  - pose proof (fun t0 H0 => b_put_run files view lim Hlim ktd true t0 wk wv k v
        (set_ba_cmd BKV_PUT (Some (text "put")) ba) O1 O2 R1 R2 H0 L1 L2 Hb) as H.
    by_command ktd (text "put") H. exact Hs.
  - pose proof (fun t0 H0 => b_get_run view lim Hlim ktd true t0 w k
        (set_ba_cmd BKV_GET (Some (text "get")) ba) (text "get") O1 R1 H0 L1 eq_refl) as H.
    cbv zeta in H. cbn [effect reply]. subst quiet. destruct (db t !! k) eqn:Ek; by_command ktd (text "get") H; exact Hs.
  - pose proof (fun t0 H0 => b_exists_run view lim Hlim ktd true t0 w k
        (set_ba_cmd BKV_EXISTS (Some (text "exists")) ba) O1 R1 H0 L1) as H.
    cbn [effect reply]. subst quiet. destruct (db t !! k) eqn:Ek; by_command ktd (text "exists") H; exact Hs.
  - pose proof (fun t0 H0 => b_del_run view lim Hlim ktd true t0 w k
        (set_ba_cmd BKV_DEL (Some (text "del")) ba) (text "del") O1 R1 H0 L1 eq_refl Y) as H.
    assert (text (if quiet then "***DELETE? Key: " else "***DELETING Key: ") ++ dump_bytes k ++ newline =
            deleting (set_ba_cmd BKV_DEL (Some (text "del")) ba) k) as Hdel.
    { unfold deleting. cbn [ba_yes ba_quiet set_ba_cmd]. rewrite Y, Q. by destruct quiet. }
    cbn [effect reply]. rewrite Hdel. destruct (db t !! k) eqn:Ek; by_command ktd (text "del") H; exact Hs.
Qed.

(** Every line of a script *)
Lemma b_loop_run ktd quiet lines reqs : Forall2 (asks lim) lines reqs ->
  forall fuel ba t, settings quiet ba -> healthy t -> t_in t = lines -> (length lines < fuel)%nat ->
  exists t1 ba1, b_loop files fuel ktd ba t = Ok (ba1, t1) /\ settings quiet ba1 /\ healthy t1 /\ t_in t1 = [] /\
    (db t1, t_out t1) = prod_map id (app (t_out t)) (session quiet reqs (db t)).
Proof.
  induction 1 as [|l [argv c] lines reqs Hl _ IH]; intros fuel ba t Hs Hm Hin Hf; (destruct fuel as [|fuel]; [cbn in Hf; lia|]).
  - exists t, ba. cbn [b_loop]. erewrite bind_Ok by (unfold read_line; rewrite Hin; reflexivity). cbv beta iota.
    split_and!; [done..|]. unfold prod_map. cbn. by rewrite app_nil_r.
  - cbn [b_loop]. pose proof Hs as (_ & _ & _ & Hi & _).
    pose proof Hl as (_ & items & _ & _ & _ & _ & E). set (l0 := spaced (render <$> items)) in *. subst l.
    set (t0 := Tst (t_kv t) lines (t_out t)).
    erewrite bind_Ok by (unfold read_line; rewrite Hin, Hi, bool_decide_false, drop_last_snoc by done; reflexivity).
    cbv beta iota. fold t0.
    destruct (b_line_run ktd l0 argv c ba quiet t0 Hl Hs Hm) as (t1 & ba1 & E1 & Hs1 & Hm1 & Hd1 & Hi1 & Ho1).
    rewrite (bind_Ok _ _ _ _ _ E1). cbv beta iota.
    destruct (IH fuel ba1 t1 Hs1 Hm1 Hi1 ltac:(cbn in Hf; lia)) as (t2 & ba2 & E2 & Hs2 & Hm2 & Hi2 & Hr).
    exists t2, ba2. split_and!; [done..|]. rewrite Hr, Hd1, Ho1. change (db t0) with (db t). cbn [session t0 t_out].
    destruct (session quiet reqs (effect c (db t))) as [m out]. unfold prod_map. cbn [fst snd id]. by rewrite <- !app_assoc.
Qed.

(** *** The program *)
Context (connect : bkvs_open_t -> ST (@bst R) Z) (hangup : Z -> ST (@bst R) Z) (script : buffer -> option (list buffer)).

(** Opening a session answers a descriptor, closing it comes back, and neither
    touches what is stored. *)
Definition connects : Prop := forall c s, mem_ok (h_mem s.1) ->
  exists ktd s', connect c s = Ok (ktd, s') /\ 0 <= ktd /\ mem_ok (h_mem s'.1) /\ view s'.2 = view s.2.
Definition hangs_up : Prop := forall ktd s, mem_ok (h_mem s.1) ->
  exists rc s', hangup ktd s = Ok (rc, s') /\ view s'.2 = view s.2.

Lemma b_start_run ba t : connects -> healthy t ->
  exists ktd t1, b_start connect ba t = Ok ((ktd, set_ba_limits (BkvLimits (kl_keylen lim) (kl_vallen lim) BKV_N_MAXKEYS) ba), t1) /\
    0 <= ktd /\ did (db t) [] t t1.
Proof.
  intros Hc Hm. destruct (Hc (ba_cinfo ba) (t_kv t) Hm) as (ktd & s & E & Hk & Hm1 & Hv). unfold b_start.
  rewrite (bind_Ok _ _ _ _ _ (on_kv_run _ _ _ _ E)). cbv beta iota. replace (ktd <? 0) with false by lia.
  erewrite bind_Ok.
  2:{ apply on_kv_run. unfold bkv_limits. cbn [negb]. erewrite bind_Ok by (unfold limits, gets_st; by rewrite kv_limits).
      cbv beta. destruct Hlim as (? & _). replace (kl_keylen lim =? 0) with false by lia. reflexivity. }
  cbv beta iota. eexists ktd, _. split; [reflexivity|]. split; [done|]. split_and!; [done..|]. cbn. by rewrite app_nil_r.
Qed.

Definition script_args (quiet : bool) (name : buffer) : list buffer :=
  (if quiet then [text "-q"] else []) ++ [text "-y"; text "-f"; name].

Lemma main_run fuel prog name quiet lines reqs t :
  connects -> hangs_up -> healthy t -> script name = Some lines -> Forall2 (asks lim) lines reqs ->
  (length lines < fuel)%nat ->
  exists t1, main files connect hangup script fuel prog (script_args quiet name) t = Ok (0, t1) /\ t_in t1 = [] /\
    db t1 = (session quiet reqs (db t)).1 /\ t_out t1 = t_out t ++ (session quiet reqs (db t)).2.
Proof.
  intros Hc Hh Hm Hn Hl Hf. unfold main.
  assert (getopt (optstring (text "c:f:h:m:p:qsu:tvVy?")) false None (script_args quiet name) =
    ((if quiet then [(113, None)] else []) ++ [(121, None); (102, Some name)], [])) as -> by by destruct quiet.
  cbv iota. set (ba := set_input BKV_SCRIPT (set_ba_flags quiet false false true BKV_CMDLINE (bargs0 prog))).
  assert (main_options script ((if quiet then [(113, None)] else []) ++ [(121, None); (102, Some name)]) (bargs0 prog) None =
    inl (ba, Some lines)) as -> by (destruct quiet; cbn [app main_options]; by rewrite Hn).
  cbv iota. erewrite bind_Ok by done. cbv beta. cbn [default]. set (t0 := Tst (t_kv t) lines (t_out t)).
  assert (bool_decide (ba_input ba = BKV_CMDLINE) = false) as -> by done. cbv zeta iota. change (ba_verbose ba) with false.
  cbn [andb]. rewrite bind_ret. unfold b_interactive. rewrite bind_assoc.
  destruct (b_start_run ba t0 Hc Hm) as (ktd & t1 & E1 & Hk & Hm1 & Hd1 & Hi1 & Ho1).
  rewrite (bind_Ok _ _ _ _ _ E1). cbv beta iota. replace (ktd <? 0) with false by lia. rewrite bind_assoc.
  set (ba1 := set_ba_limits _ ba).
  destruct (b_loop_run ktd quiet lines reqs Hl fuel ba1 t1) as (t2 & ba2 & E2 & (_ & _ & Hv2 & _) & Hm2 & Hi2 & Hr2);
    [by destruct Hlim as (_ & _)|done|by rewrite Hi1|done|].
  rewrite (bind_Ok _ _ _ _ _ E2). cbv beta. rewrite Hv2, bind_assoc, bind_ret, bind_assoc.
  destruct (Hh ktd (t_kv t2) Hm2) as (rc & s3 & E3 & Hv3).
  rewrite (bind_Ok _ _ _ _ _ (on_kv_run _ _ _ _ E3)), bind_ret. eexists. split; [reflexivity|]. split; [exact Hi2|].
  rewrite Hd1, Ho1, app_nil_r in Hr2. change (db t0) with (db t) in Hr2.
  destruct (session quiet reqs (db t)) as [m out]. injection Hr2 as Hdb Hout. split; [|exact Hout].
  rewrite <- Hdb. exact Hv3.
Qed.
End script.

(** C23: The bkv tool over a healthy drive does what a script says. Let each line
    of the file be a put, get, exists or del, its words plain or quoted, keys and
    values in the tool's notation and within the limits of the drive. Then
    [bkv -y -f file] (with [-q] or without) comes to an end with exit code 0 once
    the fuel exceeds the number of lines, having read the whole file; what is
    stored is the map changed by the puts and dels in order; and what is printed
    is, line by line, the echo of the words and the answer the map gives: the
    value with its lengths, the presence of the key, what is deleted, or that
    there is no such key. This composes the option parsing, the loop, the joining
    of quoted words, the decoding and the calls of the basic API. *)
Theorem bkv_script_refines {SZ : Sizes} {KE : KtbEnv} {R} {KS : KvService R} files view lim {KL : KvLaws KS view lim}
    connect hangup script fuel prog name quiet lines reqs (t : tst) :
  lim_ok lim -> connects view connect -> hangs_up view hangup -> mem_ok (h_mem (t_kv t).1) ->
  script name = Some lines -> Forall2 (asks lim) lines reqs -> (length lines < fuel)%nat ->
  exists t1, main files connect hangup script fuel prog (script_args quiet name) t = Ok (0, t1) /\ t_in t1 = [] /\
    view (t_kv t1).2 = (session quiet reqs (view (t_kv t).2)).1 /\
    t_out t1 = t_out t ++ (session quiet reqs (view (t_kv t).2)).2.
Proof. intros Hlim. by apply main_run. Qed.

Section concrete.
#[local] Existing Instance lp64_sizes.
#[local] Existing Instance one_session.
#[local] Instance drive4 : KvService (gmap buffer buffer) := map_service limits4.

(** A key, and a value of two words; what is deleted is gone. *)
Definition sample_items : list (list item) :=
  [[Plain (text "put"); Plain (text "k"); Quoted [text "a"; text "b"]]; [Plain (text "get"); Plain (text "k")];
   [Plain (text "del"); Quoted [text "k"]]; [Plain (text "exists"); Plain (text "k")]].
Definition sample_reqs : list (list buffer * command) :=
  [([text "put"; text "k"; text "a b"], Put (text "k") (text "a b")); ([text "get"; text "k"], Get (text "k"));
   ([text "del"; text "k"], Del (text "k")); ([text "exists"; text "k"], Exists (text "k"))].
Definition sample_lines : list buffer := (fun l => spaced (render <$> l) ++ [10]) <$> sample_items.
Lemma sample_asks : Forall2 (asks limits4) sample_lines sample_reqs.
Proof.
  assert (forall items req, wants limits4 (content <$> items) req -> Forall item_ok items -> quotable false items ->
    (length (items ≫= tokens) < maxargs)%nat -> asks limits4 (spaced (render <$> items) ++ [10]) (content <$> items, req)) as H.
  { intros items req Hw Hok Hq Hn. split; [exact Hw|]. by exists items. }
  repeat apply Forall2_cons_2; [..|apply Forall2_nil_2];
    (apply H; [constructor; split_and!; vm_compute; (reflexivity || intros [=]) | items_ok | by repeat split | vm_compute; lia]).
Qed.

Lemma bkv_script_refines_witness :
  exists t1 : tst, main (fun _ => None) (fun _ s => Ok (3, s)) (fun _ s => Ok (0, s)) (fun _ => Some sample_lines) 5 (text "bkv")
      (script_args false (text "file")) (Tst (heap0, ∅) [] []) = Ok (0, t1) /\
    map_view limits4 (t_kv t1).2 = ∅ /\
    t_out t1 = text "bkv> put k a b" ++ newline ++ text "bkv> get k" ++ newline ++ text "Key(1):" ++ newline ++ text "k" ++ newline ++
      text "Value(3):" ++ newline ++ text "a b" ++ newline ++ text "bkv> del k" ++ newline ++ text "***DELETING Key: k" ++ newline ++
      text "bkv> exists k" ++ newline ++ text "Key doesn't exist" ++ newline.
Proof.
  assert (lim_ok limits4) as Hlim by exact limits4_ok.
  destruct (bkv_script_refines (KL := map_laws limits4) (fun _ => None) (map_view limits4) limits4
    (fun _ s => Ok (3, s)) (fun _ s => Ok (0, s)) (fun _ => Some sample_lines) 5 (text "bkv") (text "file") false
    sample_lines sample_reqs (Tst (heap0, ∅) [] [])) as (t1 & E & _ & Hv & Ho).
  - exact Hlim.
  - intros c s Hm. exists 3, s. split_and!; [reflexivity|lia|exact Hm|reflexivity].
  - intros k s Hm. exists 0, s. split; reflexivity.
  - exact heap0_mem.
  - reflexivity.
  - exact sample_asks.
  - vm_compute. lia.
  - exists t1. split; [exact E|]. split; [|exact Ho]. exact Hv.
Defined.

(** The end of the input declines; after [-n] there is no code to return. *)
Lemma del_declined :
  b_del true [text "-n"; text "2"; text "k"] 3 (set_ba_limits (BkvLimits 16 4 256) (bargs0 (text "bkv"))) (Tst (heap0, ∅) [] []) = Ub.
Proof. by vm_compute. Qed.
End concrete.
