(* ===== verification/BkvToolEnds.v ===== *)
(** The command line tool bkv comes to an end on every input: each round of its
    loop takes a line away, also where a command asks a question. *)

From stdpp Require Import gmap strings pretty.
From S2P Require Import Prelude Types Keys Ktb Validate Iter BasicKv Toolbox BkvTool BkvToolSpec.

(** From a state in [P] the run of [m] does not lack fuel, and what it returns
    is in [Q]. *)
Definition ends {S A} (P : S -> Prop) (m : ST S A) (Q : A -> S -> Prop) : Prop :=
  forall s, P s -> m s <> NoFuel /\ forall a s', m s = Ok (a, s') -> Q a s'.
Definition stays {S A} (I : S -> Prop) (m : ST S A) : Prop := ends I m (fun _ => I).

Section ends.
Context {S : Type}.
Implicit Types P I : S -> Prop.

Lemma ends_bind {A B} P Q R (m : ST S A) (f : A -> ST S B) :
  ends P m Q -> (forall a, ends (Q a) (f a) R) -> ends P (m ≫= f) R.
Proof.
  intros Hm Hf s Hs. destruct (Hm s Hs) as [H1 H2]. unfold mbind, ST_bind.
  destruct (m s) as [[a s1]| | |]; [by apply Hf, H2|..]; by split.
Qed.
Lemma ends_weaken {A} P (Q Q' : A -> S -> Prop) (m : ST S A) : ends P m Q -> (forall a s, Q a s -> Q' a s) -> ends P m Q'.
Proof. intros Hm HQ s Hs. destruct (Hm s Hs) as [H1 H2]. split; [done|]. intros a s' E. by apply HQ, H2. Qed.
Lemma ends_pre {A} P P' (Q : A -> S -> Prop) (m : ST S A) : ends P m Q -> (forall s, P' s -> P s) -> ends P' m Q.
Proof. intros Hm HP s Hs. by apply Hm, HP. Qed.
Lemma stays_bind {A B} I (m : ST S A) (f : A -> ST S B) : stays I m -> (forall a, stays I (f a)) -> stays I (m ≫= f).
Proof. intros Hm Hf. eapply ends_bind; [exact Hm|]. intros a. apply Hf. Qed.
Lemma stays_ret {A} I (a : A) : stays I (mret a).
Proof. intros s Hs. split; [done|]. by intros b s' [= <- <-]. Qed.
Lemma stays_ub {A} I : stays I (@ub_st S A).
Proof. intros s Hs. by split. Qed.
Lemma stays_deref {A} I (o : option A) : stays I (deref_st o).
Proof. intros s Hs. destruct o; split; [done|by intros b s' [= <- <-]|done|done]. Qed.
Lemma stays_lift {A} I (o : outcome A) : o <> NoFuel -> stays I (lift o).
Proof. intros Ho s Hs. destruct o; [|by split..|done]. split; [done|]. by intros b s' [= <- <-]. Qed.
Lemma stays_gets {A} I (f : S -> A) : stays I (gets_st f).
Proof. intros s Hs. split; [done|]. by intros b s' [= <- <-]. Qed.
Lemma stays_modify I f : (forall s, I s -> I (f s)) -> stays I (modify_st f).
Proof. intros Hf s Hs. split; [done|]. intros b s' [= <- <-]. by apply Hf. Qed.
Lemma stays_forM {A} I (l : list A) body : (forall x, stays I (body x)) -> stays I (forM_st l body).
Proof. intros H. induction l as [|x l IH]; [apply stays_ret|]. apply stays_bind; [apply H|intros _; exact IH]. Qed.
End ends.

(** Walks through a computation that keeps an invariant. *)
Ltac keep_with prims :=
  repeat first
    [ prims
    | apply stays_ret | apply stays_ub | apply stays_deref | apply stays_gets | apply stays_bind
    | match goal with
      | |- forall _, stays _ _ => intros ?
      | |- stays _ (match ?x with _ => _ end) => destruct x
      end ].

(** ** The basic API *)
Section calls.
Context {SZ : Sizes} {KE : KtbEnv} {R : Type} {KS : KvService R}.
(** The calls below the basic API come back, and the destroy routines leave the
    blocks of the heap what they are. *)
Definition services_end : Prop :=
  forall ktd v s, ki_get ktd v s <> NoFuel /\ ki_put ktd v s <> NoFuel /\ ki_del ktd v s <> NoFuel /\
    ki_getversion ktd v s <> NoFuel.
Definition callbacks_end : Prop :=
  forall f c, ends (fun _ => True) (ktb_callback f c) (fun _ _ => True) /\
    forall p t, stays (fun h => exists k, h_blocks h !! p = Some k /\ ktb_type k = t) (ktb_callback f c).
Context (Hserv : services_end) (Hcb : callbacks_end).

Definition at_kv (p : ptr) (h : heap) : Prop := exists k, h_blocks h !! p = Some k /\ ktb_type k = KV_T.
Definition has_kv (p : ptr) (s : @bst R) : Prop := at_kv p s.1.

Lemma stays_on_mem {A} p (m : ST mem A) : stays (fun _ => True) m -> stays (at_kv p) (on_mem m).
Proof.
  intros Hm h Hh. destruct (Hm (h_mem h) I) as [H _]. unfold on_mem.
  destruct (m (h_mem h)) as [[a s]| | |]; [|by split..|done]. split; [done|]. by intros b s' [= <- <-].
Qed.
Lemma stays_on_heap {A} (J : heap -> Prop) (m : ST heap A) : stays J m -> stays (fun s : @bst R => J s.1) (on_heap m).
Proof.
  intros Hm s Hs. destruct (Hm s.1 Hs) as [H1 H2]. unfold on_heap.
  destruct (m s.1) as [[a h]| | |]; [|by split..|done]. split; [done|]. intros b s' [= <- <-]. by eapply H2.
Qed.
Lemma stays_KI_MALLOC n : stays (fun _ => True) (KI_MALLOC n).
Proof. intros s _. unfold KI_MALLOC. by destruct (m_malloc s (m_count s) n). Qed.
Lemma stays_KI_FREE : stays (fun _ => True) KI_FREE.
Proof. by apply stays_modify. Qed.
Lemma stays_ktb_base J p : stays J (ktb_base p).
Proof. intros h Hh. unfold ktb_base. destruct (_ !! p); [|by split]. split; [done|]. by intros b s' [= <- <-]. Qed.
Lemma stays_get_kv J p : stays J (get_kv p).
Proof. unfold get_kv. keep_with ltac:(apply stays_ktb_base). Qed.
Lemma stays_put_kv p v : stays (at_kv p) (put_kv p v).
Proof.
  unfold put_kv. intros h (k & Hk & Ht). run. unfold ktb_base. rewrite Hk. cbn. destruct (ktb_buf k); cbn; try by split.
  split; [done|]. intros b s' [= <- <-]. eexists. cbn. rewrite lookup_insert_eq. by destruct k.
Qed.
Lemma stays_array_wr {A} (J : heap -> Prop) (a : list A) i x : stays J (array_wr a i x).
Proof.
  intros h Hh. unfold array_wr, array_write. destruct (_ && _); [|by split]. split; [done|]. by intros b s' [= <- <-].
Qed.
Lemma stays_iov_bytes (J : heap -> Prop) v : stays J (iov_bytes_st v).
Proof.
  intros h Hh. unfold iov_bytes_st, iov_bytes.
  destruct (kiov_base v); (destruct (_ : bool); [|by split]); (split; [done|]); by intros b' s' [= <- <-].
Qed.
Lemma stays_upd_kv p f : stays (at_kv p) (upd_kv p f).
Proof. unfold upd_kv. keep_with ltac:(first [apply stays_get_kv|apply stays_put_kv]). Qed.
Lemma stays_clean p : stays (at_kv p) (ki_clean (Some p)).
Proof using Hcb.
  intros h (k & Hk & Ht). pose proof (ktb_base_run h p k Hk) as Hb.
  unfold ki_clean, ktb_isvalid. rewrite bind_assoc, (bind_Ok _ _ _ _ _ Hb), bind_ret. destruct (negb _); [split; [done|]; intros b s' [= <- <-]; by exists k|].
  erewrite bind_Ok by done. cbv beta. rewrite (bind_Ok _ _ _ _ _ Hb), Ht. change (KV_T =? KAPPLET_T) with false. cbv iota. rewrite bind_ret.
  clear Hb. revert h Hk. cut (stays (at_kv p) (match ktb_destroy k with Some f => ktb_callback f (ktb_ctx k) | None => mret tt end ;; mret K_OK)).
  { intros H h Hk. apply H. by exists k. }
  apply stays_bind; [|intros; apply stays_ret]. destruct (ktb_destroy k); [by apply Hcb|apply stays_ret].
Qed.
Lemma ends_destroy p : ends (at_kv p) (ki_destroy (Some p)) (fun _ _ => True).
Proof using Hcb.
  unfold ki_destroy. cbn [ki_destroy_n]. eapply ends_bind; [apply stays_clean|]. intros rc.
  destruct (rc <? 0); [intros s Hs; by split|].
  intros h (k & Hk & Ht). erewrite bind_Ok by done. cbv beta. erewrite bind_Ok by by apply ktb_base_run. cbv beta.
  rewrite Ht. change (KV_T =? KITER_T) with false. cbv iota. rewrite bind_ret. by split.
Qed.

Lemma stays_service p f : (forall v s, f v s <> NoFuel) -> stays (has_kv p) (service f p).
Proof.
  intros Hf. unfold service. apply stays_bind; [apply (stays_on_heap (at_kv p)), stays_get_kv|]. intros v.
  apply stays_bind; [|intros [rc v']; apply stays_bind; [apply (stays_on_heap (at_kv p)), stays_put_kv|intros; apply stays_ret]].
  intros s Hs. specialize (Hf v (h_mem s.1, s.2)). destruct (f v (h_mem s.1, s.2)) as [[r [m x]]| | |]; [|by split..|done].
  split; [done|]. by intros b s' [= <- <-].
Qed.

(** A kv has been created, or there was no memory. *)
Definition created (o : option ptr) (s : @bst R) : Prop := match o with Some p => has_kv p s | None => True end.
Lemma ends_create ktd : ends (fun _ => True) (on_heap (ki_create ktd KV_T)) created.
Proof.
  intros s _. unfold on_heap, ki_create, ktb_alloc. change ((KV_T <=? KT_NONE) || (KV_T >=? KT_LAST)) with false. cbv iota zeta.
  set (l := u32 _). pose proof (stays_KI_MALLOC l (h_mem s.1) I) as [Hn _]. run. unfold on_mem.
  destruct (KI_MALLOC l (h_mem s.1)) as [[[b|] m]| | |]; cbn; [..|by split|by split|done].
  - split; [done|]. intros o s' [= <- <-]. eexists. cbn. by rewrite lookup_insert_eq.
  - split; [done|]. by intros o s' [= <- <-].
Qed.

(** What a call does between creating its kv and giving it up *)
Ltac kv_prims :=
  first [ apply (stays_on_heap (at_kv _)), stays_get_kv | apply (stays_on_heap (at_kv _)), stays_array_wr
        | apply (stays_on_heap (at_kv _)), stays_iov_bytes | apply (stays_on_heap (at_kv _)), stays_upd_kv
        | apply stays_service; intros; apply Hserv | apply (stays_on_heap (at_kv _)), stays_clean
        | apply (stays_on_heap (at_kv _)), stays_on_mem, stays_KI_MALLOC
        | apply (stays_on_heap (at_kv _)), stays_on_mem, stays_KI_FREE ].

Lemma stays_getn_loop ktd p n : forall i ivals vlen, stays (has_kv p) (getn_loop ktd p n i ivals vlen).
Proof using Hserv Hcb.
  induction n as [|n IH]; intros i ivals vlen; cbn [getn_loop]; keep_with ltac:(first [apply IH|kv_prims]).
Qed.
Lemma stays_putn_loop ktd p val vlen vallen cnt n : forall i off, stays (has_kv p) (putn_loop ktd p val vlen vallen cnt n i off).
Proof using Hserv Hcb.
  induction n as [|n IH]; intros i off; cbn [putn_loop]; cbv zeta; keep_with ltac:(first [apply IH|kv_prims]).
Qed.
Lemma stays_deln_loop ktd p n : forall i, stays (has_kv p) (deln_loop ktd p n i).
Proof using Hserv Hcb.
  induction n as [|n IH]; intros i; cbn [deln_loop]; keep_with ltac:(first [apply IH|kv_prims]).
Qed.
Lemma stays_getn_copy p ivals : forall acc, stays (has_kv p) (getn_copy ivals acc).
Proof. induction ivals as [|x l IH]; intros acc; cbn [getn_copy]; keep_with ltac:(first [apply IH|kv_prims]). Qed.

(** A call: it may give up its kv, and nothing is asked of the heap after that. *)
Definition comes_back {A} (m : ST (@bst R) A) : Prop := stays (fun _ => True) m.
Definition free_ok {A} p (m : ST (@bst R) A) : Prop := ends (has_kv p) m (fun _ _ => True).

Lemma free_ok_keeps {A} p (m : ST (@bst R) A) : stays (has_kv p) m -> free_ok p m.
Proof. intros H. eapply ends_weaken; [exact H|done]. Qed.
Lemma free_ok_bind {A B} p (m : ST (@bst R) A) (f : A -> ST (@bst R) B) :
  stays (has_kv p) m -> (forall a, free_ok p (f a)) -> free_ok p (m ≫= f).
Proof. intros Hm Hf. eapply ends_bind; [exact Hm|exact Hf]. Qed.
Lemma free_ok_destroy {B} p (f : Z -> ST (@bst R) B) :
  (forall a, comes_back (f a)) -> free_ok p (on_heap (ki_destroy (Some p)) ≫= f).
Proof.
  intros Hf. eapply ends_bind; [|exact Hf]. intros s Hs. destruct (ends_destroy p s.1 Hs) as [H1 H2]. unfold on_heap.
  destruct (ki_destroy (Some p) s.1) as [[a h]| | |]; by split.
Qed.
Lemma comes_back_create {B} ktd (f : option ptr -> ST (@bst R) B) :
  comes_back (f None) -> (forall p, free_ok p (f (Some p))) -> comes_back (on_heap (ki_create ktd KV_T) ≫= f).
Proof. intros H1 H2. eapply ends_bind; [apply ends_create|]. intros [p|]; [apply H2|exact H1]. Qed.
Lemma comes_back_mem {A} (m : ST mem A) : stays (fun _ => True) m -> comes_back (on_heap (on_mem m)).
Proof.
  intros Hm. apply (stays_on_heap (fun _ => True)). intros h _. destruct (Hm (h_mem h) I) as [H _]. unfold on_mem.
  by destruct (m (h_mem h)) as [[a s]| | |].
Qed.
Lemma comes_back_limits ktd : comes_back (limits ktd).
Proof. apply stays_gets. Qed.

Ltac call :=
  repeat first
    [ apply comes_back_create | apply free_ok_destroy | apply comes_back_limits
    | apply comes_back_mem, stays_KI_FREE
    | apply (stays_ret (fun _ => True)) | apply (stays_ub (fun _ => True)) | apply (stays_deref (fun _ => True))
    | apply free_ok_bind; [keep_with ltac:(first [apply stays_getn_loop|apply stays_putn_loop|apply stays_deln_loop
        |apply stays_getn_copy|kv_prims])|]
    | apply (free_ok_keeps _), stays_ret
    | apply (stays_bind (fun _ => True))
    | apply (stays_forM (fun _ => True))
    | match goal with
      | |- forall _, _ => intros ?
      | |- comes_back (match ?x with _ => _ end) => destruct x
      | |- stays _ (match ?x with _ => _ end) => destruct x
      | |- free_ok _ (match ?x with _ => _ end) => destruct x
      | |- free_ok _ ((match ?x with _ => _ end) _) => destruct x
      end ].

Lemma bkv_put_ends ktd key klen val vlen : comes_back (bkv_put ktd key klen val vlen).
Proof using Hserv Hcb. unfold bkv_put. call. Qed.
Lemma bkv_get_ends ktd key klen a b : comes_back (bkv_get ktd key klen a b).
Proof using Hserv Hcb. unfold bkv_get. call. Qed.
Lemma bkv_del_ends ktd key klen : comes_back (bkv_del ktd key klen).
Proof using Hserv Hcb. unfold bkv_del. call. Qed.
Lemma bkv_exists_ends ktd key klen : comes_back (bkv_exists ktd key klen).
Proof using Hserv Hcb. unfold bkv_exists. call. Qed.
Lemma bkv_limits_ends ktd l : comes_back (bkv_limits ktd l).
Proof. unfold bkv_limits. call. Qed.
Lemma bkv_deln_ends ktd key klen n : comes_back (bkv_deln ktd key klen n).
Proof using Hserv Hcb. unfold bkv_deln. call. Qed.
Lemma bkv_putn_ends ktd key klen n val vlen : comes_back (bkv_putn ktd key klen n val vlen).
Proof using Hserv Hcb. unfold bkv_putn. cbv zeta. call. Qed.
Lemma getn_out_ends p ival ivlen : free_ok p (getn_out p ival ivlen).
Proof using Hcb. unfold getn_out. call. Qed.
Lemma bkv_getn_ends ktd key klen n a b : comes_back (bkv_getn ktd key klen n a b).
Proof using Hserv Hcb. unfold bkv_getn. cbv zeta. call; apply getn_out_ends. Qed.
End calls.

(** ** The tool *)
Lemma decode_loop_fuel k : forall rest n room, (length rest <= k)%nat -> decode_loop rest n room <> NoFuel.
Proof.
  assert (forall room c f, (forall r, f r <> NoFuel) -> store room c f <> NoFuel) as Hstore.
  { intros room c f H. unfold store. destruct (room <? 1); [done|]. specialize (H (room - 1)). by destruct (f (room - 1)) as [[|]| | |]. }
  induction k as [|k IH]; intros rest n room Hl; (destruct rest as [|c r1]; [cbn; by repeat case_if|]); [cbn in Hl; lia|].
  cbn [length] in Hl. cbn [decode_loop]. repeat (case_if || case_match); try done;
    try (apply Hstore; intros; apply IH; subst; cbn in *; lia).
Qed.
Lemma asciidecode_fuel f s n : asciidecode f s n <> NoFuel.
Proof. unfold asciidecode. case_if; [|done]. by eapply decode_loop_fuel. Qed.
Lemma asciidump_fuel d n : asciidump d n <> NoFuel.
Proof. unfold asciidump. by case_if. Qed.
Lemma words_fuel toks : forall alias open, words alias open toks <> NoFuel.
Proof.
  assert (forall w r, r <> NoFuel -> add_word w r <> NoFuel) as Hadd by (intros w [[l u]| | |]; done).
  induction toks as [|t toks IH]; intros alias open; [by destruct open|].
  cbn [words]. repeat (case_if || case_match); try done; try apply Hadd; apply IH.
Qed.
Lemma fgets_rest n input : (length (fgets n input).2 <= length input)%nat.
Proof. unfold fgets. destruct input; [done|]. case_if; cbn; lia. Qed.
Lemma yorn_rest prompt d k : forall input, (length (yorn prompt input d k).1.2 <= length input)%nat.
Proof.
  induction k as [|k IH]; intros input; [done|]. cbn [yorn]. pose proof (fgets_rest YNBUFLEN input) as Hf.
  destruct (fgets YNBUFLEN input) as [s rest]. cbn in Hf. specialize (IH rest). destruct (yorn prompt rest d k) as [[a r] o]. cbn in IH.
  repeat case_match; cbn; lia.
Qed.

Section tool.
Context {SZ : Sizes} {KE : KtbEnv} {R : Type} {KS : KvService R} (files : buffer -> option file).
Context (Hserv : services_end (KS := KS)) (Hcb : callbacks_end).
Context (connect : bkvs_open_t -> ST (@bst R) Z) (hangup : Z -> ST (@bst R) Z) (script : buffer -> option (list buffer)).
Implicit Types (t : @tst R) (ba : bargs).

(** At most [n] lines are left to read. *)
Definition left (n : nat) t : Prop := (length (t_in t) <= n)%nat.

Lemma stays_on_kv {A} n (m : ST (@bst R) A) : comes_back m -> stays (left n) (on_kv m).
Proof.
  intros Hm t Ht. destruct (Hm (t_kv t) I) as [H _]. unfold on_kv.
  destruct (m (t_kv t)) as [[a s]| | |]; [|by split..|done]. split; [done|]. by intros b s' [= <- <-].
Qed.
Lemma stays_print n b : stays (left n) (print (R := R) b).
Proof. intros t Ht. split; [done|]. by intros x s' [= <- <-]. Qed.
Lemma stays_ask n p d k : stays (left n) (ask (R := R) p d k).
Proof.
  intros t Ht. unfold ask. pose proof (yorn_rest p d k (t_in t)) as H. destruct (yorn p (t_in t) d k) as [[a r] o]. cbn in H.
  split; [done|]. intros x s' [= <- <-]. unfold left in *. cbn. lia.
Qed.
Lemma stays_kv_lift {A} n (o : outcome A) : o <> NoFuel -> stays (left n) (on_kv (R := R) (on_heap (lift o))).
Proof. intros Ho. apply stays_on_kv, (stays_on_heap (fun _ => True)), stays_lift, Ho. Qed.
Lemma stays_kv_mem {A} n (m : ST mem A) : stays (fun _ => True) m -> stays (left n) (on_kv (R := R) (on_heap (on_mem m))).
Proof. intros Hm. by apply stays_on_kv, comes_back_mem. Qed.

Ltac tool_prims :=
  first [ apply stays_print | apply stays_ask | apply stays_kv_mem, stays_KI_MALLOC | apply stays_kv_mem, stays_KI_FREE
        | apply stays_kv_lift, asciidecode_fuel | apply stays_kv_lift, asciidump_fuel
        | apply stays_on_kv; (apply bkv_put_ends || apply bkv_get_ends || apply bkv_del_ends || apply bkv_exists_ends
          || apply bkv_limits_ends || apply bkv_deln_ends || apply bkv_putn_ends || apply bkv_getn_ends); assumption
        | apply stays_on_kv, bkv_limits_ends ].
Ltac tool := cbv zeta; keep_with ltac:(first [tool_prims|match goal with |- stays _ ((let _ := _ in _)) => cbv zeta end]).

Lemma stays_take_key n w ba : stays (left n) (take_key (R := R) w ba).
Proof. unfold take_key, decode_word, c_malloc, c_free. tool. Qed.
Ltac command := cbv zeta; keep_with ltac:(first [apply stays_take_key|tool_prims]).
Lemma stays_b_get n permute args ktd ba : stays (left n) (b_get permute args ktd ba).
Proof using Hserv Hcb. unfold b_get, show_key, show_value, hexdump, ascii, bytes_at, cmdstr. command. Qed.
Lemma stays_b_put n permute args ktd ba : stays (left n) (b_put files permute args ktd ba).
Proof using Hserv Hcb.
  unfold b_put, put_zeros, put_word, put_file, decode_word, c_malloc, c_free, bytes_at, cmdstr. command.
Qed.
Lemma stays_b_del n permute args ktd ba : stays (left n) (b_del permute args ktd ba).
Proof using Hserv Hcb. unfold b_del, ascii, cmdstr. command. Qed.
Lemma stays_b_exists n permute args ktd ba : stays (left n) (b_exists permute args ktd ba).
Proof using Hserv Hcb. unfold b_exists. command. Qed.
Lemma stays_b_limits n permute args ktd ba : stays (left n) (b_limits permute args ktd ba).
Proof. unfold b_limits, cmdstr. command. Qed.
Lemma stays_table n permute args ktd ba :
  Forall (fun e => stays (left n) (e.2 permute args ktd ba)) (btable files).
Proof using Hserv Hcb.
  unfold btable. repeat (apply Forall_cons_2; [cbn [snd]|]); [..|apply Forall_nil_2];
  (apply stays_b_get || apply stays_b_put || apply stays_b_del || apply stays_b_exists || apply stays_b_limits).
Qed.
Lemma stays_found (P : bkv_cmd * buffer * handler -> Prop) `{!forall e, Decision (P e)} i c w h n permute args ktd ba :
  list_find P (btable files) = Some (i, (c, w, h)) -> stays (left n) (h permute args ktd ba).
Proof using Hserv Hcb.
  intros E. apply list_find_Some in E as (E & _). apply list_elem_of_lookup_2 in E.
  exact (proj1 (Forall_forall _ _) (stays_table n permute args ktd ba) _ E).
Qed.
Lemma stays_b_line n ktd l ba : stays (left n) (b_line files ktd l ba).
Proof using Hserv Hcb.
  unfold b_line, print_args, print_version, str, cmdstr. cbv zeta.
  keep_with ltac:(first [apply stays_lift, words_fuel|tool_prims|
    match goal with |- stays _ (match find_cmd ?f ?w with _ => _ end) =>
      let E := fresh "E" in destruct (find_cmd f w) as [[[? ?] ?]|] eqn:E;
      [unfold find_cmd in E; destruct (list_find _ _) as [[? ?]|] eqn:E'; [|discriminate E];
       cbn in E; apply (inj Some) in E; subst; apply stays_bind; [eapply stays_found; exact E'|]|] end]).
Qed.
Lemma ends_read_line mode n :
  ends (left n) (read_line (R := R) mode)
    (fun l t => match l with Some _ => exists m, n = Datatypes.S m /\ left m t | None => True end).
Proof.
  intros t Ht. unfold read_line, left in *. destruct (t_in t) as [|l rest] eqn:E; (split; [done|]; intros o s' [= <- <-]); [done|].
  cbn in *. destruct n as [|n]; [lia|]. exists n. split; [done|lia].
Qed.

(** Every round takes a line away. *)
Lemma b_loop_ends fuel : forall n ktd ba, (n < fuel)%nat -> ends (left n) (b_loop files fuel ktd ba) (fun _ _ => True).
Proof using Hserv Hcb.
  induction fuel as [|fuel IH]; intros n ktd ba Hn; [lia|]. cbn [b_loop]. eapply ends_bind; [apply ends_read_line|].
  intros [l|]; [|intros t _; by split]. intros t (m & -> & Ht). revert t Ht.
  change (ends (left m) (r ← b_line files ktd l ba; match r with inl ba => b_loop files fuel ktd ba | inr ba => mret ba end)
    (fun _ _ => True)).
  eapply ends_bind; [apply stays_b_line|]. intros [ba1|ba1]; [apply IH; lia|]. intros t _. by split.
Qed.

Definition opens_and_closes : Prop := forall c s ktd s', connect c s <> NoFuel /\ hangup ktd s' <> NoFuel.
Context (Hconn : opens_and_closes).
Lemma comes_back_any {A} (m : ST (@bst R) A) : (forall s, m s <> NoFuel) -> comes_back m.
Proof. intros H s _. by split. Qed.
Lemma stays_b_start n ba : stays (left n) (b_start connect ba).
Proof using Hconn.
  unfold b_start. keep_with ltac:(first [apply stays_on_kv, comes_back_any; intros; apply (Hconn _ _ 0 ltac:(assumption))|tool_prims]).
Qed.
Lemma stays_hangup n ktd : stays (left n) (on_kv (hangup ktd)).
Proof using Hconn. apply stays_on_kv, comes_back_any. intros s. by apply (Hconn (BkvsOpen None None 0 None 0) s ktd s). Qed.
Lemma stays_bkv n args ba : stays (left n) (bkv files connect hangup args ba).
Proof using Hconn Hserv Hcb.
  unfold bkv. apply stays_bind; [apply stays_b_start|]. intros [ktd ba1]. case_if; [apply stays_ret|].
  destruct (list_find _ _) as [[i [[c w] h]]|] eqn:E'; [|apply stays_ub].
  apply stays_bind; [eapply stays_found; exact E'|]. intros [rc ba2]. apply stays_bind; [apply stays_hangup|]. intros; apply stays_ret.
Qed.
Lemma b_interactive_ends n fuel ba : (n < fuel)%nat -> ends (left n) (b_interactive files connect hangup fuel ba) (fun _ _ => True).
Proof using Hconn Hserv Hcb.
  intros Hn. unfold b_interactive. eapply ends_bind; [apply stays_b_start|]. intros [ktd ba1].
  case_if; [intros t _; by split|]. eapply ends_bind; [by apply b_loop_ends|]. intros ba2.
  eapply ends_bind with (Q := fun _ _ => True); [intros t _; by destruct (ba_verbose ba2)|]. intros _.
  eapply ends_bind with (Q := fun _ _ => True); [|intros rc t _; by split]. intros t _.
  destruct (stays_hangup (length (t_in t)) ktd t) as [H _]; [unfold left; lia|by split].
Qed.

Lemma stays_print_args n ba : stays (left n) (print_args (R := R) ba).
Proof. unfold print_args, str, cmdstr. cbv zeta. keep_with ltac:(apply stays_print). Qed.

(** The input a run can read: the one it starts with, or a script *)
Definition input_below (fuel : nat) t : Prop :=
  (length (t_in t) < fuel)%nat /\ forall name l, script name = Some l -> (length l < fuel)%nat.
Lemma main_options_input evs : forall ba inp ba1 inp1,
  main_options script evs ba inp = inl (ba1, inp1) ->
  inp1 = inp \/ inp1 = Some [] \/ exists name l, inp1 = Some l /\ script name = Some l.
Proof.
  induction evs as [|[c o] evs IH]; intros ba inp ba1 inp1 H; [injection H as -> ->; by left|].
  cbn [main_options] in H.
  repeat (first [discriminate H | case_match; simplify_eq]);
    (apply IH in H as [->|[->|H]]; eauto 10).
Qed.
Lemma main_ends_run fuel prog args t : input_below fuel t -> main files connect hangup script fuel prog args t <> NoFuel.
Proof using Hconn Hserv Hcb.
  intros [H1 H2]. unfold main. destruct (getopt _ _ _ _) as [evs rest].
  destruct (main_options script evs (bargs0 prog) None) as [[ba inp]|code] eqn:E; [|by destruct (code =? 0)].
  apply main_options_input in E. set (t0 := Tst (t_kv t) (default (t_in t) inp) (t_out t)).
  assert (exists n, (n < fuel)%nat /\ left n t0) as (n & Hn & Ht0).
  { exists (length (t_in t0)). split; [|unfold left; lia]. subst t0. cbn.
    destruct E as [->|[->|(name & l & -> & Hs)]]; [done|cbn; lia|by eapply H2]. }
  erewrite bind_Ok by done. cbv beta. fold t0. clearbody t0. revert t0 Ht0. cbv zeta.
  match goal with |- forall t0, _ -> ?m t0 <> NoFuel => cut (ends (left n) m (fun _ _ => True)) end;
    [intros H t0 Ht0; by apply (H t0 Ht0)|].
  destruct rest as [|w args'].
  - eapply ends_bind with (Q := fun _ => left n).
    + destruct (_ && _); [apply stays_print|apply stays_ret].
    + intros _. eapply ends_bind; [by apply b_interactive_ends|]. intros _ t' _. by split.
  - case_bool_decide.
    + destruct (find_cmd files w) as [[[c ?] ?]|]; [|intros t' _; by split].
      eapply ends_bind with (Q := fun _ => left n); [destruct (_ && _); [apply stays_print_args|apply stays_ret]|].
      intros _. eapply ends_bind; [apply stays_bkv|]. intros [rc ?] t' _. by split.
    + eapply ends_bind; [by apply b_interactive_ends|]. intros _ t' _. by split.
Qed.
End tool.


Section concrete.
#[local] Existing Instance lp64_sizes.
#[local] Existing Instance one_session.
#[local] Instance drive : KvService (gmap buffer buffer) := map_service limits4.

End concrete.
