(* ===== verification/MapSession.v ===== *)
(** A session over a drive that keeps a map: puts, deletes and gets, one after
    the other, through the calls, the queues, the service threads, the packing
    and the digests, answer what a finite map answers. *)

From stdpp Require Import gmap.
From S2P Require Import Prelude Types ListApi Session KtliState Ktli KtliSpec KtliThreads KtliThreadSpec Pdu Keys Ktb Validate.
From S2P Require Import ProtoData Proto ProtoSpec Stat Op OpFrame Put Del Get Noop Batch Exec Aio OpSpec OpRequest OpComplete.
From S2P Require Import SyncSpec Blocking RoundTrip.

(** ** The map *)
Inductive map_op := MPut | MDel | MGet.
#[export] Instance map_op_eq : EqDecision map_op.
Proof. solve_decision. Defined.
Definition op_type (o : map_op) : Z := match o with MPut => KMT_PUT | MDel => KMT_DEL | MGet => KMT_GET end.

(** What a drive holding [M] does with a forced operation on [k]: its status,
    the value it sends, what it holds afterwards.  [absent]: the status for a
    key it does not hold. *)
Definition map_step (absent : map_op -> Z) (o : map_op) (k v : buffer) (M : gmap buffer buffer) :
    Z * buffer * gmap buffer buffer :=
  match o, M !! k with
  | MPut, _ => (K_OK, [], <[k := v]> M)
  | _, None => (absent o, [], M)
  | MDel, Some _ => (K_OK, [], delete k M)
  | MGet, Some b => (K_OK, b, M)
  end.

(** ** The drive *)

(** The message [m] around the command [c], signed under [hkey], asks for the
    operation [o] on the key [k]. *)
Record asks {PG : ProtoGen} (hkey : buffer) (id : Z) (m : kproto_msg_t) (c : kproto_cmd_t) (o : map_op) (seq : Z)
    (k : buffer) : Prop := {
  as_msg : msg_wf m; as_cmd : cmd_wf c; as_bytes : m_commandbytes m = Some (pbd_of (cmd_pack c));
  as_signed : exists d, HMAC_SHA1 hkey (signed (cmd_pack c)) = Some d /\
    m_hmacauth m = Some (Hmacauth (Some id) (Some (pbd_of d)));
  as_header : exists h, c_header c = Some h /\ h_messagetype h = Some (op_type o) /\ h_sequence h = Some seq;
  as_body : exists b p, c_body c = Some b /\ b_keyvalue b = Some p /\ kp_key p = Some (pbd_of k) /\
    (o <> MGet -> kp_force p = Some 1) }.

Definition small_values (M : gmap buffer buffer) : Prop := map_Forall (fun _ v => zlen v < 2 ^ 31) M.

(** A drive that keeps a map: it accepts every request it is asked under its
    key, and what it has ready to be read is the answer [map_step] demands.
    [dr_reply] is the command it answers with, [dr_message] the message around
    it, which must fit in one PDU. *)
Class MapDrive {X : Type} {PG : ProtoGen} (socket_fns : ktli_driver_fns X) (dh : option ptr) (hkey : buffer) (id : Z) := {
  dr_store : X -> gmap buffer buffer;
  dr_absent : map_op -> Z;
  dr_reply : X -> kproto_cmd_t -> kproto_cmd_t;
  dr_message : kproto_cmd_t -> kproto_msg_t;
  dr_absent_ok o : dr_absent o <> K_EAGAIN;
  dr_absent_get : dr_absent MGet <> K_OK;
  dr_answers env m c o seq k vals vbs :
    asks hkey id m c o seq k -> 0 < seq < 2 ^ 63 -> vec_bytes vals vbs -> zlen (concat vbs) < 2 ^ 31 ->
    (o <> MPut -> vals = []) -> small_values (dr_store env) ->
    let rc := dr_reply env c in
    let r := map_step dr_absent o k (concat vbs) (dr_store env) in
    zlen (msg_pack (dr_message rc)) < 2 ^ 31 ->
    exists env', drive_answers socket_fns dh env (wire (Kpdu KP_MAGIC (zlen (msg_pack m)) (u32 (vec_len vals))) m vals)
        seq (dr_message rc) rc r.1.2 env' /\
      dr_store env' = r.2 /\ extract_cmdstatus_code (Some rc) = r.1.1 /\
      (r.1.1 = K_OK -> is_Some (c_body rc ≫= b_keyvalue)) }.

Section session.
Context {LA : ListApi} {LL : ListLaws} {X : Type} {PG : ProtoGen} {PL : ProtoLaws} {SZ : Sizes}.
Context (socket_fns : ktli_driver_fns X).

Notation opst := (@opst LA X).
Notation world := (@world LA X).
Notation OP := (ST opst).
Notation St w s bl ses pb := (@Opst LA X w (Heap s bl) ses pb).
Implicit Types (w : world) (s : mem).

(** ** The client *)

(** One operation of a client: the kv it has filled in, the bytes of the key and
    of the value in it *)
Record map_req := MapReq { rq_op : map_op; rq_kv : kv; rq_key : buffer; rq_val : buffer }.

Definition found (v : kv) : option buffer :=
  match kv_val v with Some (Kiovec (Some b) n :: _) => Some (take (Z.to_nat n) b) | _ => None end.

(** The client fills its kv block [q] in, makes the call, and looks at the value
    when a get was successful. *)
Definition serve (ktd : Z) (q : ptr) (r : map_req) : OP (Z * option buffer) :=
  kv_wr (Some q) (rq_kv r) ;;
  match rq_op r with
  | MPut => ks ← ki_put (threads socket_fns ktd) 1 1 ktd None (Some q); mret (ks, None)
  | MDel => ks ← ki_del (threads socket_fns ktd) 1 1 ktd None (Some q); mret (ks, None)
  | MGet =>
      ks ← ki_get (threads socket_fns ktd) 1 1 ktd (Some q);
      v ← kv_rd (Some q);
      mret (ks, if ks =? K_OK then found v else None)
  end.
Fixpoint serve_all (ktd : Z) (q : ptr) (rs : list map_req) : OP (list (Z * option buffer)) :=
  match rs with
  | [] => mret []
  | r :: rs => a ← serve ktd q r; rest ← serve_all ktd q rs; mret (a :: rest)
  end.

(** What the map answers *)
Definition spec (absent : map_op -> Z) (r : map_req) (M : gmap buffer buffer) : Z * option buffer * gmap buffer buffer :=
  let '(st, b, M') := map_step absent (rq_op r) (rq_key r) (rq_val r) M in
  (st, match rq_op r with MGet => if st =? K_OK then Some b else None | _ => None end, M').
Fixpoint spec_all (absent : map_op -> Z) (rs : list map_req) (M : gmap buffer buffer) :
    list (Z * option buffer) * gmap buffer buffer :=
  match rs with
  | [] => ([], M)
  | r :: rs => let a := spec absent r M in let rest := spec_all absent rs a.2 in (a.1 :: rest.1, rest.2)
  end.

Section serving.
Context (dh : option ptr) (hkey : buffer) (id : Z) {MD : MapDrive socket_fns dh hkey id}.
Context (ktd : Z) (sq rq cq : ptr) (es er ec : Z) (cf : ptr) (cfg : KtliState.ktli_config) (s0 : mem) (sp q : ptr).
Context (lim : klimits) (chs : kcmdhdr_t).

(** The session, idle under the next number [seq], with the drive holding [M] *)
Inductive serving (M : gmap buffer buffer) (seq : Z) : opst -> Prop :=
  | Serving w s bl ses pb x ksn b v :
      mem_ok s -> at_rest w ktd x sq rq cq es er ec cf cfg hkey s0 -> ks_sequence x = seq -> ks_dhandle x = dh ->
      ses !! sp = Some ksn -> ks_l ksn = lim -> ks_ch ksn = chs -> kv_block bl q b v -> block_wf b ->
      dr_store (w_env w) = M -> small_values M -> serving M seq (St w s bl ses pb).

Definition req_call (r : map_req) : request_call :=
  match rq_op r with
  | MPut => CallPut None (Some q) false | MDel => CallDel None (Some q) false | MGet => CallGet (Some q) None KMT_GET
  end.
Definition req_hdr (r : map_req) : kproto_cmdhdr_t := extract_to_command_header (set_kch_type (op_type (rq_op r)) chs).
Definition req_cmd (r : map_req) : kproto_cmd_t :=
  call_command (req_call r) (set_kch_type (op_type (rq_op r)) chs) (rq_kv r) (rq_key r).

(** The kv of a request is one the session accepts, with the bytes it says. *)
Definition prepared (r : map_req) : Prop :=
  exists key bs vals vbs, key_ready (rq_kv r) key bs /\ concat bs = rq_key r /\
    kv_val (rq_kv r) = Some vals /\ kv_valcnt (rq_kv r) = zlen vals /\ vec_bytes vals vbs /\ concat vbs = rq_val r /\
    zlen (rq_val r) < 2 ^ 31 /\ kv_valid (rq_kv r) false true lim = true /\ kv_metaonly (rq_kv r) = 0.

(** Its message can be signed, and the two messages fit in a PDU. *)
Definition fits (r : map_req) (seq : Z) : Prop :=
  cmd_wf (req_cmd r) /\
  (exists d, HMAC_SHA1 hkey (signed (cmd_pack (stamp_cmd seq (req_cmd r) (req_hdr r)))) = Some d /\
     zlen (msg_pack (stamp_msg seq d (req_cmd r) (req_hdr r) (Some id) (request_msg id hkey (req_cmd r)))) < 2 ^ 32) /\
  forall env, zlen (msg_pack (dr_message (dr_reply env (stamp_cmd seq (req_cmd r) (req_hdr r))))) < 2 ^ 31.
Fixpoint all_fit (rs : list map_req) (seq : Z) : Prop :=
  match rs with [] => True | r :: rs => prepared r /\ fits r seq /\ all_fit rs (seq + 1) end.

Lemma req_asks r seq d :
  -2 ^ 63 <= id < 2 ^ 63 -> 0 < seq < 2 ^ 63 -> cmd_wf (req_cmd r) ->
  HMAC_SHA1 hkey (signed (cmd_pack (stamp_cmd seq (req_cmd r) (req_hdr r)))) = Some d ->
  asks hkey id (stamp_msg seq d (req_cmd r) (req_hdr r) (Some id) (request_msg id hkey (req_cmd r)))
    (stamp_cmd seq (req_cmd r) (req_hdr r)) (rq_op r) seq (rq_key r).
Proof.
  intros Hid Hseq Hc Hd.
  assert (c_header (req_cmd r) = Some (req_hdr r)) as Hh by (unfold req_cmd, req_call, req_hdr; by destruct (rq_op r)).
  split.
  - apply stamp_msg_wf; [by apply request_msg_wf|by intros a [= <-]|by eexists].
  - apply stamp_cmd_wf; [done|done|lia].
  - done.
  - by eexists.
  - eexists. split; [done|]. by split.
  - unfold req_cmd, req_call. destruct (rq_op r); do 2 eexists; (split; [done|split; [done|split; done]]).
Qed.

(** *** What the kv shows after a get *)
Lemma got_value p v : kv_val (got p v) = kv_val v.
Proof.
  unfold got, opt_set, set_kv_ver, set_kv_ditype, set_kv_disum. repeat case_match; reflexivity.
Qed.
Lemma found_answer rc val v vals :
  kv_val v = Some vals -> vals <> [] -> extract_cmdstatus_code (Some rc) = K_OK -> is_Some (c_body rc ≫= b_keyvalue) ->
  let a := kv_answer rc got (hung (Kiovec (Some val) (zlen val)) v) in
  a.1 = K_OK /\ found a.2 = Some val.
Proof.
  intros Hv Hne Hok [resp Hresp]. unfold kv_answer. rewrite Hok, Hresp. cbn [Z.eqb fst snd]. rewrite Z.eqb_refl. split; [done|].
  unfold found. cbn [snd]. rewrite got_value. unfold hung. rewrite Hv. destruct vals as [|v0 vs]; [done|].
  cbn. unfold zlen. by rewrite Nat2Z.id, take_ge.
Qed.
Lemma valid_value v vals : kv_valid v false true lim = true -> kv_val v = Some vals -> vals <> [].
Proof.
  unfold kv_valid. rewrite !andb_true_iff. intros (((((((_ & H) & _) & _) & _) & _) & _) & _) Hv ->. rewrite Hv in H. done.
Qed.
Lemma answer_status rc fill v :
  (extract_cmdstatus_code (Some rc) = K_OK -> is_Some (c_body rc ≫= b_keyvalue)) ->
  (kv_answer rc fill v).1 = extract_cmdstatus_code (Some rc).
Proof. intros H. unfold kv_answer. case_match eqn:E; [|done]. zbool. destruct (H E) as [p ->]. by rewrite E. Qed.

Lemma status_answered kop rc v :
  (extract_cmdstatus_code (Some rc) = K_OK -> is_Some (c_body rc ≫= b_keyvalue)) ->
  status_of kop rc v = extract_cmdstatus_code (Some rc).
Proof. intros H. unfold status_of. case_match; [by apply answer_status|done]. Qed.

Lemma small_step M o k v :
  small_values M -> zlen v < 2 ^ 31 -> small_values (map_step dr_absent o k v M).2.
Proof.
  intros HM Hv. unfold map_step. destruct o, (M !! k); try done; try (by apply map_Forall_insert_2); by apply map_Forall_delete.
Qed.

Lemma block_wf_kv bl b v v' : kv_block bl q b v -> block_wf b -> block_wf (set_ktb_buf (DKv v') b).
Proof. intros [_ Hb] Hwf. pose proof Hwf as (_ & _ & _ & Ht). apply block_wf_set; [exact Hwf|by rewrite Hb in Ht]. Qed.

(** *** One request *)
Section step.
Context (w : world) (s : mem) (bl : gmap ptr ktb) (ses : gmap ptr ksession) (pb : gmap ptr kproto_cmd_t).
Context (x : kts_session) (ksn : ksession) (b : ktb) (r : map_req) (ls lr lc : clist).
Context (Hcp : kcfg_pconf cfg = Some sp) (Hid : kcfg_id cfg = id).
Context (Hs : mem_ok s) (Hrest : idle w ktd x sq rq cq ls lr lc es er ec cf cfg hkey s0) (Hdh : ks_dhandle x = dh)
  (Hses : ses !! sp = Some ksn) (Hlim : ks_l ksn = lim) (Hchs : ks_ch ksn = chs)
  (Hb : kv_block bl q b (rq_kv r)) (Hwf : block_wf b) (HM : small_values (dr_store (w_env w)))
  (Hprep : prepared r) (Hfits : fits r (ks_sequence x)) (Hseq : ks_sequence x + 1 < 2 ^ 63).

Lemma req_ready : exists key bs, call_ready (req_call r) bl (ks_l ksn) (rq_kv r) key bs /\ concat bs = rq_key r.
Proof.
  destruct Hprep as (key & bs & vals & vbs & Hkey & Ek & Hvals & Hcnt & _ & _ & _ & Hvalid & _).
  assert (kv_at bl (Some q) (rq_kv r) false (ks_l ksn)) as Hat.
  { destruct Hb as [Hb1 Hb2]. exists q, b. rewrite Hlim, Hvals. destruct Hkey as (Hk & Hkc & _). rewrite Hk. by split_and!. }
  exists key, bs. split; [|done]. unfold req_call. destruct (rq_op r); by split_and!.
Qed.

(** The drive's answer to the request as it goes out *)
Lemma req_answered :
  exists d env', HMAC_SHA1 hkey (signed (cmd_pack (stamp_cmd (ks_sequence x) (req_cmd r) (req_hdr r)))) = Some d /\
    let m := stamp_msg (ks_sequence x) d (req_cmd r) (req_hdr r) (Some id) (request_msg id hkey (req_cmd r)) in
    let rc := dr_reply (w_env w) (stamp_cmd (ks_sequence x) (req_cmd r) (req_hdr r)) in
    let a := map_step dr_absent (rq_op r) (rq_key r) (rq_val r) (dr_store (w_env w)) in
    let vals := call_vals (req_call r) (rq_kv r) in
    zlen (msg_pack m) < 2 ^ 32 /\
    drive_answers socket_fns (ks_dhandle x) (w_env w) (wire (Kpdu KP_MAGIC (zlen (msg_pack m)) (u32 (vec_len vals))) m vals)
      (ks_sequence x) (dr_message rc) rc a.1.2 env' /\
    dr_store env' = a.2 /\ extract_cmdstatus_code (Some rc) = a.1.1 /\ (a.1.1 = K_OK -> is_Some (c_body rc ≫= b_keyvalue)).
Proof.
  destruct Hfits as (Hc & (d & Hd & Hlen) & Hrl). destruct Hrest. 
  destruct Hprep as (key & bs & vals & vbs & Hkey & Ek & Hvals & Hcnt & Hvb & Ev & Hvl & _).
  assert (map_step dr_absent (rq_op r) (rq_key r) (rq_val r) (dr_store (w_env w)) =
    map_step dr_absent (rq_op r) (rq_key r) (concat (match rq_op r with MPut => vbs | _ => [] end)) (dr_store (w_env w))) as Em.
  { rewrite <- Ev. by destruct (rq_op r). }
  destruct (dr_answers (w_env w) _ _ _ _ _ (call_vals (req_call r) (rq_kv r)) (match rq_op r with MPut => vbs | _ => [] end)
    (req_asks r (ks_sequence x) d ltac:(congruence) ltac:(lia) Hc Hd) ltac:(lia)) as (env' & H1 & H2 & H3 & H4).
  - unfold req_call, call_vals. destruct (rq_op r); [by rewrite Hvals|by constructor|by constructor].
  - destruct (rq_op r); [by rewrite Ev|done|done].
  - unfold req_call, call_vals. by destruct (rq_op r).
  - done.
  - apply Hrl.
  - exists d, env'. split; [done|]. cbv zeta. rewrite Em, Hdh. by split_and!.
Qed.

Notation answer := (map_step dr_absent (rq_op r) (rq_key r) (rq_val r) (dr_store (w_env w))).

Lemma answer_not_again : answer.1.1 <> K_EAGAIN.
Proof. unfold map_step. destruct (rq_op r), (dr_store (w_env w) !! rq_key r); try done; apply dr_absent_ok. Qed.

(** The state after the call serves the map after the operation. *)
Lemma serving_after w' s' bl' ksn' pb' env' b' v' :
  rested ktd x sq rq cq es er ec cf cfg hkey s0 env' w' -> mem_ok s' -> stats_only ksn ksn' ->
  kv_block bl' q b' v' -> block_wf b' -> dr_store env' = answer.2 ->
  serving answer.2 (ks_sequence x + 1) (St w' s' bl' (<[sp := ksn']> ses) pb').
Proof.
  intros (_ & Hen & Hre) Hs' (_ & _ & Hl & Hch) Hb' Hwf' Hst. destruct Hrest.
  eapply (Serving _ _ w' s' bl' _ pb' (sequenced x) ksn' b' v'); try done.
  - by apply Hre.
  - cbn. apply i64_small. lia.
  - by rewrite lookup_insert_eq.
  - congruence.
  - congruence.
  - by rewrite Hen.
  - apply small_step; [done|]. by destruct Hprep as (? & ? & ? & ? & _ & _ & _ & _ & _ & _ & ? & _).
Qed.

(** What the request of this client is, in the words of [call_trip_run] *)
Lemma req_words bs :
  concat bs = rq_key r ->
  extract_to_command_header (set_kch_type (call_type (req_call r)) (ks_ch ksn)) = req_hdr r /\
  call_command (req_call r) (set_kch_type (call_type (req_call r)) (ks_ch ksn)) (rq_kv r) (concat bs) = req_cmd r.
Proof. intros Ek. unfold req_cmd, req_hdr, req_call. rewrite Ek, Hchs. by destruct (rq_op r). Qed.

Lemma req_runs :
  exists o', blocking (req_call r) (threads socket_fns ktd) 1 1 ktd (St w s bl ses pb) = Ok (answer.1.1, o') /\
    serving answer.2 (ks_sequence x + 1) o' /\
    (rq_op r = MGet -> exists v', kv_rd (Some q) o' = Ok (v', o') /\ (answer.1.1 = K_OK -> found v' = Some answer.1.2)).
Proof.
  destruct req_ready as (key & bs & Hready & Ek). destruct req_answered as (d & env' & Hd & Hlen & Hdrive & Hst & Hcode & Hbody).
  destruct Hfits as (Hc & _). pose proof answer_not_again as Hag. destruct (req_words bs Ek) as [Eh Ec].
  pose proof (call_trip_run socket_fns w s bl ses pb ktd x sq rq cq ls lr lc es er ec cf cfg hkey s0 sp ksn (rq_kv r) key bs (req_call r)
    Hs Hrest Hcp Hses Hready) as Hcall.
  pose proof (get_trip_run socket_fns w s bl ses pb ktd x sq rq cq ls lr lc es er ec cf cfg hkey s0 sp ksn (rq_kv r) key bs (req_call r)
    Hs Hrest Hcp Hses Hready) as Hget.
  rewrite Eh, Ec, Hid in Hcall, Hget. specialize (Hcall Hc d Hd Hlen _ _ _ _ Hdrive). specialize (Hget Hc d Hd Hlen _ _ _ _ Hdrive).
  destruct Hprep as (key' & bs' & vals & vbs & (Hk & _ & Hkb & Hkne & _) & Ek' & Hvals & Hcnt & _ & _ & _ & Hvalid & Hmeta).
  rewrite <- Hcode in *.
  assert (vals <> []) as Hvne by by eapply valid_value.
  destruct (decide (rq_op r = MGet)) as [Eo|Eo].
  - destruct (Hget (Some q) None KMT_GET q b (rq_kv r) q b) as (w' & s' & ksn' & E & Hrested & Hms & _ & Hstats & _); try done.
    + unfold req_call. by rewrite Eo.
    + destruct key' as [|k0 key']; [by inversion Hkb; subst|]. destruct vals as [|v0 vals]; [done|].
      split; by do 2 eexists.
    + by rewrite answer_status.
    + eexists. rewrite E, answer_status by done. split; [done|].
      split; [eapply serving_after; [exact Hrested|exact Hms|exact Hstats|apply kv_block_put|eapply block_wf_kv; [exact Hb|exact Hwf]|exact Hst]|].
      intros _. eexists. split; [eapply kv_rd_run, kv_block_put|]. intros Hok.
      by apply (found_answer _ _ _ vals Hvals Hvne Hok (Hbody Hok)).
  - destruct (Hcall q b) as (w' & s' & ksn' & E & Hrested & Hms & _ & Hstats & _).
    + unfold req_call. by destruct (rq_op r).
    + unfold req_call. by destruct (rq_op r).
    + by rewrite status_answered.
    + eexists. rewrite E, status_answered by done. split; [done|]. split; [|done].
      assert (fills (call_kind (req_call r)) = true) as Hfl by (unfold req_call; by destruct (rq_op r)).
      unfold kvs_after. rewrite Hfl.
      eapply serving_after; [exact Hrested|exact Hms|exact Hstats|apply kv_block_put|eapply block_wf_kv; [exact Hb|exact Hwf]|exact Hst].
Qed.
End step.

(** One operation of the client, and any number of them *)
Lemma serve_run M seq r o :
  kcfg_pconf cfg = Some sp -> kcfg_id cfg = id -> prepared r -> fits r seq -> seq + 1 < 2 ^ 63 -> serving M seq o ->
  let a := spec dr_absent r M in
  exists o', serve ktd q r o = Ok (a.1, o') /\ serving a.2 (seq + 1) o'.
Proof.
  intros Hcp Hid Hprep Hfits Hseq Hserv.
  destruct Hserv as [w s bl ses pb x ksn b v Hs (ls & lr & lc & Hrest) <- Hdh Hses Hlim Hchs Hb Hwf <- HM].
  destruct (req_runs w s (put_kv bl q b (rq_kv r)) ses pb x ksn (set_ktb_buf (DKv (rq_kv r)) b) r ls lr lc Hcp Hid Hs Hrest
    Hdh Hses Hlim Hchs (kv_block_put _ _ _ _) (block_wf_kv _ _ _ _ Hb Hwf) HM Hprep Hfits Hseq) as (o' & E & Hserv & Hfound).
  exists o'. unfold serve, spec. erewrite bind_Ok by by eapply kv_wr_run. cbv beta.
  unfold req_call in E. destruct (map_step _ _ _ _ _) as [[st b'] M']. cbn [fst snd] in *. split; [|exact Hserv].
  destruct (rq_op r); [by erewrite bind_Ok by exact E|by erewrite bind_Ok by exact E|].
  destruct (Hfound eq_refl) as (v' & Ev & Hf). erewrite bind_Ok by exact E. cbv beta. erewrite bind_Ok by exact Ev. cbv beta.
  case_match eqn:Est; [|done]. zbool. by rewrite Hf.
Qed.

Lemma serve_all_run rs : forall M seq o,
  kcfg_pconf cfg = Some sp -> kcfg_id cfg = id -> all_fit rs seq -> seq + zlen rs < 2 ^ 63 -> serving M seq o ->
  let a := spec_all dr_absent rs M in
  exists o', serve_all ktd q rs o = Ok (a.1, o') /\ serving a.2 (seq + zlen rs) o'.
Proof.
  induction rs as [|r rs IH]; intros M seq o Hcp Hid Hfit Hseq Hserv; cbn [serve_all spec_all].
  - exists o. split; [done|]. by rewrite Z.add_0_r.
  - destruct Hfit as (Hprep & Hf & Hfit). rewrite zlen_cons in *. pose proof (zlen_nonneg rs).
    destruct (serve_run M seq r o Hcp Hid Hprep Hf ltac:(lia) Hserv) as (o1 & E1 & Hs1).
    destruct (IH _ _ _ Hcp Hid Hfit ltac:(lia) Hs1) as (o2 & E2 & Hs2).
    exists o2. erewrite bind_Ok by exact E1. cbv beta. erewrite bind_Ok by exact E2. split; [done|].
    by replace (seq + (zlen rs + 1)) with (seq + 1 + zlen rs) by lia.
Qed.
End serving.

(** C1: The library over a drive is a map.  On an idle session whose drive keeps
    a map under the session's key, a client's forced puts, forced deletes and
    gets, made one after the other with the blocking calls, answer status for
    status and value for value what a finite map answers, however many there
    are and on whatever keys: a get finds the value of the last put on its key,
    or the status of a key that is not there.  Each request goes through
    validation, packing, the send queue, the sequence number and the digest, the
    driver, the receiver's matching and the completion; the drive is asked only
    properly signed requests under consecutive numbers, its map ends as the
    client's map, and the session is idle again under the number after the last
    one. *)
Theorem session_serves_map dh hkey id {MD : MapDrive socket_fns dh hkey id} ktd sq rq cq es er ec cf cfg s0 sp q lim chs rs M seq o :
  kcfg_pconf cfg = Some sp -> kcfg_id cfg = id -> all_fit dh hkey id q lim chs rs seq -> seq + zlen rs < 2 ^ 63 ->
  serving dh hkey id ktd sq rq cq es er ec cf cfg s0 sp q lim chs M seq o ->
  let answers := spec_all dr_absent rs M in
  exists o', serve_all ktd q rs o = Ok (answers.1, o') /\
    serving dh hkey id ktd sq rq cq es er ec cf cfg s0 sp q lim chs answers.2 (seq + zlen rs) o'.
Proof. by apply serve_all_run. Qed.
End session.
