(* ===== verification/MapSessionWitness.v ===== *)
(** A drive that keeps a map in its environment, and a put, a get, a delete and
    a get of the same key at the session of [OpWitness.v]. *)

From stdpp Require Import gmap.
From S2P Require Import Prelude Types ListApi Session KtliState Ktli KtliSpec KtliThreads KtliThreadSpec KtliWitness Pdu Keys Ktb Validate.
From S2P Require Import ProtoData ProtoModel Proto ProtoSpec Stat Op OpFrame OpSpec OpRequest OpComplete OpWitness.
From S2P Require Import Blocking BlockingWitness RoundTrip RoundTripWitness MapSession.

#[local] Existing Instance lp64_sizes.

(** *** The drive *)

(** What it holds, and the answer it has ready *)
Record drive_env := DriveEnv { de_store : gmap buffer buffer; de_answer : kproto_msg_t; de_value : buffer }.
Definition no_key (o : map_op) : Z := K_ENOTFOUND.

(** The operation and the key a command asks for *)
Definition asked (c : kproto_cmd_t) : option (map_op * buffer) :=
  h ← c_header c; t ← h_messagetype h; b ← c_body c; p ← b_keyvalue b; d ← kp_key p;
  o ← (if t =? KMT_PUT then Some MPut else if t =? KMT_DEL then Some MDel else if t =? KMT_GET then Some MGet else None);
  Some (o, default [] (pb_data d)).

Definition reply_with (seq : option Z) (st : Z) : kproto_cmd_t :=
  Command (Some (Cmdhdr (Some 0) (Some 1234567) None seq None None None None None None))
    (Some (Body (Some kv_init) None None None None)) (Some (Status (Some st) None None)).
Definition reply (env : drive_env) (c : kproto_cmd_t) : kproto_cmd_t :=
  let st := match asked c with Some (o, k) => (map_step no_key o k [] (de_store env)).1.1 | None => K_EINVAL end in
  reply_with (c_header c ≫= h_sequence) st.
Definition message (c : kproto_cmd_t) : kproto_msg_t :=
  Message (Some KAT_HMAC) (Some sample_auth) None (Some (pbd_of (cmd_pack c))).

Definition vec_of (v : kiovec) : buffer := match iov_bytes v with Ok b => b | _ => [] end.
(** It takes a message whose digest is right. *)
Definition signed_ok (m : kproto_msg_t) (cb : buffer) : bool :=
  bool_decide ((m_hmacauth m ≫= ha_hmac) ≫= pb_data = HMAC_SHA1 sample_key (signed cb)).
Definition take_request (iov : list kiovec) (env : drive_env) : option drive_env :=
  match iov with
  | _ :: Kiovec (Some mb) _ :: vals =>
      m ← msg_unpack mb; cb ← m_commandbytes m ≫= pb_data; c ← cmd_unpack cb; '(o, k) ← asked c;
      if signed_ok m cb then
        let r := map_step no_key o k (concat (vec_of <$> vals)) (de_store env) in
        Some (DriveEnv r.2 (message (reply env c)) r.1.2)
      else None
  | _ => None
  end.
Definition map_drive : ktli_driver_fns drive_env :=
  KtliDriverFns drive_env
    (fun x => (Some 5%positive, x))
    (fun _ x => (0, None, x))
    (fun _ _ _ _ x => (0, None, x))
    (fun _ x => (0, None, x))
    (fun _ iov _ x => match take_request iov x with Some x' => (1, None, x') | None => (-1, None, x) end)
    (fun _ iov _ x => (0, None,
       match iov with
       | [_] => [Kiovec (Some (PACK_PDU (Kpdu KP_MAGIC (zlen (msg_pack (de_answer x))) (zlen (de_value x))))) 9]
       | _ => [Kiovec (Some (msg_pack (de_answer x))) (zlen (msg_pack (de_answer x))); Kiovec (Some (de_value x)) (zlen (de_value x))]
       end, x))
    (fun _ _ x => (1, None, x)).

Lemma vec_of_all vals vbs : vec_bytes vals vbs -> concat (vec_of <$> vals) = concat vbs.
Proof. induction 1 as [|v b vs bs [H _] _ IH]; [done|]. cbn. unfold vec_of at 1. by rewrite H, IH. Qed.

Lemma asks_asked m c o seq k : asks sample_key 1 m c o seq k -> asked c = Some (o, k) /\ c_header c ≫= h_sequence = Some seq.
Proof.
  intros [_ _ _ _ (h & Hh & Ht & Hs) (b & p & Hb & Hp & Hk & _)]. unfold asked. rewrite Hh. cbn. rewrite Ht. cbn.
  rewrite Hb. cbn. rewrite Hp. cbn. rewrite Hk. cbn. split; [|done]. by destruct o, k.
Qed.

Lemma take_asked m c o seq k pdu n vals vbs env :
  asks sample_key 1 m c o seq k -> vec_bytes vals vbs ->
  take_request (Kiovec (Some (PACK_PDU pdu)) n :: Kiovec (Some (msg_pack m)) (zlen (msg_pack m)) :: vals) env =
    let r := map_step no_key o k (concat vbs) (de_store env) in Some (DriveEnv r.2 (message (reply env c)) r.1.2).
Proof.
  intros Ha Hv. destruct (asks_asked _ _ _ _ _ Ha) as [Has Hsq]. destruct Ha as [Hm Hc Hb (d & Hd & Hau) (h & Hh & _) _].
  unfold take_request. rewrite msg_unpack_pack by done. cbn [mbind option_bind]. rewrite Hb. cbn [mbind option_bind].
  rewrite pbd_of_nonempty by (apply cmd_pack_nonempty; by rewrite Hh). cbn [pb_data mbind option_bind].
  rewrite cmd_unpack_pack by done. cbn [mbind option_bind]. rewrite Has. cbn [mbind option_bind].
  assert (d <> []) as Hne by (intros ->; by apply HMAC_SHA1_len in Hd).
  unfold signed_ok. rewrite Hau, Hd. cbn [mbind option_bind ha_hmac]. rewrite pbd_of_nonempty by done. cbn [pb_data].
  rewrite bool_decide_true by done. by rewrite (vec_of_all _ _ Hv).
Qed.

(** It keeps the interface's promise. *)
Lemma reply_wf seq st : 0 <= seq < 2 ^ 64 -> -2 ^ 31 <= st < 2 ^ 31 -> cmd_wf (reply_with (Some seq) st).
Proof.
  intros Hs Ht. split; [|split]; intros y [= <-].
  - split_and!; intros y [= <-]; (done || lia).
  - split_and!; intros y [= <-]. split_and!; by intros z [=].
  - split_and!; intros y [= <-]. done.
Qed.
Lemma map_status o k v M : let a := (map_step no_key o k v M).1.1 in a = K_OK \/ a = K_ENOTFOUND.
Proof. unfold map_step. destruct o, (M !! k); cbn; tauto. Qed.
Lemma map_status_value o k v M : (map_step no_key o k v M).1.1 = (map_step no_key o k [] M).1.1.
Proof. unfold map_step. by destruct o, (M !! k). Qed.
Lemma map_value_small o k v M : small_values M -> zlen (map_step no_key o k v M).1.2 < 2 ^ 31.
Proof. unfold map_step. intros HM. destruct o, (M !! k) eqn:E; try done. by eapply HM. Qed.

Lemma map_drive_answers env m c o seq k vals vbs :
  asks sample_key 1 m c o seq k -> 0 < seq < 2 ^ 63 -> vec_bytes vals vbs -> zlen (concat vbs) < 2 ^ 31 ->
  (o <> MPut -> vals = []) -> small_values (de_store env) ->
  let rc := reply env c in
  let r := map_step no_key o k (concat vbs) (de_store env) in
  zlen (msg_pack (message rc)) < 2 ^ 31 ->
  exists env', drive_answers map_drive (Some 5%positive) env
      (wire (Kpdu KP_MAGIC (zlen (msg_pack m)) (u32 (vec_len vals))) m vals) seq (message rc) rc r.1.2 env' /\
    de_store env' = r.2 /\ extract_cmdstatus_code (Some rc) = r.1.1 /\ (r.1.1 = K_OK -> is_Some (c_body rc ≫= b_keyvalue)).
Proof.
  intros Ha Hseq Hv Hsm Hvals HM rc r Hlen.
  destruct (asks_asked _ _ _ _ _ Ha) as [Has Hsq].
  assert (rc = reply_with (Some seq) r.1.1) as Erc by (unfold rc, r, reply; rewrite Has, Hsq; by rewrite (map_status_value o k (concat vbs))).
  assert (cmd_wf rc) as Hwf.
  { rewrite Erc. apply reply_wf; [lia|]. unfold r. destruct (map_status o k (concat vbs) (de_store env)) as [-> | ->]; by vm_compute. }
  exists (DriveEnv r.2 (message rc) r.1.2). split; [|split; [done|split; [by rewrite Erc|by rewrite Erc]]].
  pose proof (map_value_small o k (concat vbs) _ HM) as Hval. fold r in Hval.
  pose proof (zlen_nonneg (msg_pack (message rc))). pose proof (zlen_nonneg r.1.2).
  split.
  + cbn [ktli_dfns_send map_drive]. unfold wire. by rewrite (take_asked m c o seq k _ _ vals vbs env Ha Hv).
  + exists (Kpdu KP_MAGIC (zlen (msg_pack (message rc))) (zlen r.1.2)). split; [unfold pdu_ok; cbn [kp_magic kp_msglen kp_vallen]; split_and!; (done || lia)|]. split; [done|]. split; [done|].
    cbn [ktli_dfns_send ktli_dfns_receive map_drive]. unfold wire. rewrite (take_asked m c o seq k _ _ vals vbs env Ha Hv).
    exists 0, None, (DriveEnv r.2 (message rc) r.1.2), 0, None. by split_and!.
  + done.
  + unfold message, sample_auth. wf_concrete.
  + done.
  + done.
  + rewrite Erc. by eexists.
Qed.

#[local] Instance map_drive_laws : MapDrive map_drive (Some 5%positive) sample_key 1 := {
  dr_store := de_store; dr_absent := no_key; dr_reply := reply; dr_message := message;
  dr_absent_ok := ltac:(done); dr_absent_get := ltac:(done); dr_answers := map_drive_answers }.

(** *** The session and the client *)
Definition map_world (M : gmap buffer buffer) : @world zlist_api drive_env :=
  let w := trip_world in
  World (w_errno w) (ktli_up w) (w_table w) (w_queues w) (w_kios w) (w_helpers w) (w_configs w) (w_ints w)
    (w_threads w) (w_next w) (w_live w) (w_blank w) (w_mcount w) (w_malloc w) (w_tick w) (w_clock w)
    (w_tcount w) (w_pthread w) (DriveEnv M (message trip_cmd) []).
Definition map_state (M : gmap buffer buffer) : @opst zlist_api drive_env :=
  Opst (map_world M) (Heap sample_mem op_blocks) (op_sessions 0) ∅.

Notation serves := (serving map_drive (Some 5%positive) sample_key 1 0 10%positive 11%positive 12%positive 0 0 0 1%positive op_config sample_mem
  7%positive 30%positive limits0 (ks_ch (op_session 0))).

Lemma map_serving M : small_values M -> serves M 100 (map_state M).
Proof.
  intros HM. eapply Serving with (x := sess KTLI_SSTATE_CONNECTED) (ksn := op_session 0) (b := put_ktb) (v := op_kv); try done.
  - apply sample_mem_ok.
  - exists (Zlist [] 0), (Zlist [] 0), (Zlist [] 0). destruct trip_idle. by split.
Qed.

Notation request o := (MapReq o op_kv [107; 101; 121] [1; 2; 3]).
Notation session_hdr := (ks_ch (op_session 0)).
Definition map_client : list map_req := [request MPut; request MGet].

Lemma op_prepared o : prepared limits0 (request o).
Proof.
  exists op_key, [[107; 101]; [121]], [Kiovec (Some [1; 2; 3]) 3], [[1; 2; 3]].
  split_and!; try done; [apply op_key_ready|]. by repeat constructor.
Qed.

Definition client_digest (o : map_op) (seq : Z) : buffer :=
  digest_of sample_key (signed (cmd_pack (stamp_cmd seq (req_cmd 30%positive session_hdr (request o)) (req_hdr session_hdr (request o))))).
Definition client_msg (o : map_op) (seq : Z) : kproto_msg_t :=
  let c := req_cmd 30%positive session_hdr (request o) in
  stamp_msg seq (client_digest o seq) c (req_hdr session_hdr (request o)) (Some 1) (request_msg 1 sample_key c).
Lemma client_get_len : zlen (msg_pack (client_msg MGet 101)) < 2 ^ 32.
Proof. vm_cast_no_check (eq_refl Lt). Qed.
Lemma client_put_len : zlen (msg_pack (client_msg MPut 100)) < 2 ^ 32.
Proof. exact put_len. Qed.

Lemma replies_small env o seq :
  seq = 100 \/ seq = 101 ->
  zlen (msg_pack (message (reply env (stamp_cmd seq (req_cmd 30%positive session_hdr (request o)) (req_hdr session_hdr (request o)))))) < 2 ^ 31.
Proof.
  intros Hs. assert (exists st, (st = K_OK \/ st = K_ENOTFOUND) /\
    reply env (stamp_cmd seq (req_cmd 30%positive session_hdr (request o)) (req_hdr session_hdr (request o))) = reply_with (Some seq) st) as (st & Hst & ->).
  { exists (map_step no_key o [107; 101; 121] [] (de_store env)).1.1. split; [apply map_status|]. by destruct o. }
  destruct Hs as [-> | ->], Hst as [-> | ->]; by vm_compute.
Qed.

Lemma client_fits o seq :
  seq = 100 \/ seq = 101 -> zlen (msg_pack (client_msg o seq)) < 2 ^ 32 ->
  fits (MD := map_drive_laws) map_drive (Some 5%positive) sample_key 1 30%positive session_hdr (request o) seq.
Proof.
  intros Hs Hlen. split; [destruct o; cmd_concrete|]. split; [exists (client_digest o seq); by split|].
  intros env. by apply replies_small.
Qed.

Lemma client_answers :
  spec_all (dr_absent (MapDrive := map_drive_laws)) map_client ∅ = ([(K_OK, None); (K_OK, Some [1; 2; 3])], {[ [107; 101; 121] := [1; 2; 3] ]}).
Proof. by vm_compute. Qed.

(** The get finds what the put wrote, and the drive holds it under the key. *)
Lemma session_serves_map_witness :
  exists o', serve_all map_drive 0 30%positive map_client (map_state ∅) = Ok ([(K_OK, None); (K_OK, Some [1; 2; 3])], o') /\
    serves {[ [107; 101; 121] := [1; 2; 3] ]} 102 o'.
Proof.
  destruct (session_serves_map map_drive (Some 5%positive) sample_key 1 0 10%positive 11%positive 12%positive 0 0 0 1%positive op_config
    sample_mem 7%positive 30%positive limits0 session_hdr map_client ∅ 100 (map_state ∅) eq_refl eq_refl) as (o' & E & Hs).
  - split; [apply op_prepared|]. split; [apply client_fits; [by left|exact client_put_len]|].
    split; [apply op_prepared|]. split; [apply client_fits; [by right|exact client_get_len]|]. exact I.
  - reflexivity.
  - apply map_serving. by intros ? ? ?.
  - exists o'. rewrite client_answers in E, Hs. split; [exact E|exact Hs].
Defined.
