(* ===== verification/KctlTool.v ===== *)
(** The command line tool of the library: [src/toolbox/kctl].

    As in [BkvTool], a command takes its words, parses its options and works on
    the drive; what is printed on the standard output is kept in the order of the
    calls, the standard error is left out, and so are the times [-S] prints.  The
    calls of the library are the operations of the classes [KvService],
    [KctlService] and [GetRange].  The commands ping, info, stats and exec are a
    parameter of the table. *)

From stdpp Require Import strings pretty.
From S2P Require Import Prelude Types Keys Ktb Validate Errors Labels Iter BasicKv Toolbox BkvTool.

(** ** The library the tool calls, beside [KvService]

    [kc_forget b]: the two fields of the response that a call has left on a
    [kv_t] are cleared, after the function one of them names has been called when
    [b] is true. *)
Class KctlService {SZ : Sizes} (R : Type) := {
  kc_put : Z -> option ptr -> kv -> ST (mem * R) (Z * kv);
  kc_cas : Z -> option ptr -> kv -> ST (mem * R) (Z * kv);
  kc_del : Z -> option ptr -> kv -> ST (mem * R) (Z * kv);
  kc_cad : Z -> option ptr -> kv -> ST (mem * R) (Z * kv);
  kc_getnext : Z -> kv -> kv -> ST (mem * R) (Z * kv);
  kc_getprev : Z -> kv -> kv -> ST (mem * R) (Z * kv);
  kc_forget : bool -> kv -> ST (mem * R) unit;
  kc_flush : Z -> ST (mem * R) Z;
  kc_submitbatch : Z -> ptr -> ST (heap * R) Z;
  kc_abortbatch : Z -> ptr -> ST (heap * R) Z }.

(** ** [kctl.h] *)
Inductive kctl_cmd :=
  | KCTL_NOOP | KCTL_GET | KCTL_GETNEXT | KCTL_GETPREV | KCTL_GETVERS | KCTL_RANGE | KCTL_PUT | KCTL_DEL | KCTL_GETLOG
  | KCTL_SETCLUSTERV | KCTL_SETLOCKPIN | KCTL_LOCK | KCTL_UNLOCK | KCTL_ACL | KCTL_BATCH | KCTL_STATS | KCTL_FLUSH
  | KCTL_EXEC | KCTL_EOT.
Inductive kctl_input := KCTL_INTERACTIVE | KCTL_SCRIPT | KCTL_CMDLINE.
#[global] Instance kctl_cmd_eq : EqDecision kctl_cmd.
Proof. solve_decision. Defined.
#[global] Instance kctl_input_eq : EqDecision kctl_input.
Proof. solve_decision. Defined.

(** [struct kargs], its connection and its switches in records of their own;
    [ka_cmdstr] is [None] once the word it points to has been freed. *)
Record kconn := Kconn {
  kn_user : Z; kn_hkey : buffer; kn_host : buffer; kn_port : buffer; kn_usetls : Z; kn_timeout : Z; kn_clustervers : Z }.
Record kflags := Kflags {
  kf_quiet : bool; kf_terse : bool; kf_verbose : bool; kf_input : kctl_input; kf_yes : bool; kf_stats : bool }.
Record kargs := Kargs {
  ka_progname : buffer; ka_cmd : kctl_cmd; ka_cmdstr : option buffer;
  ka_key : option buffer; ka_keylen : Z; ka_val : option buffer; ka_vallen : Z;
  ka_conn : kconn; ka_batch : option ptr; ka_flags : kflags; ka_limits : klimits }.

Definition set_ka_cmd (c : kctl_cmd) (s : option buffer) (ka : kargs) : kargs :=
  Kargs (ka_progname ka) c s (ka_key ka) (ka_keylen ka) (ka_val ka) (ka_vallen ka) (ka_conn ka) (ka_batch ka) (ka_flags ka) (ka_limits ka).
Definition set_ka_key (k : option buffer) (n : Z) (ka : kargs) : kargs :=
  Kargs (ka_progname ka) (ka_cmd ka) (ka_cmdstr ka) k n (ka_val ka) (ka_vallen ka) (ka_conn ka) (ka_batch ka) (ka_flags ka) (ka_limits ka).
Definition set_ka_val (v : option buffer) (n : Z) (ka : kargs) : kargs :=
  Kargs (ka_progname ka) (ka_cmd ka) (ka_cmdstr ka) (ka_key ka) (ka_keylen ka) v n (ka_conn ka) (ka_batch ka) (ka_flags ka) (ka_limits ka).
Definition set_ka_conn (c : kconn) (ka : kargs) : kargs :=
  Kargs (ka_progname ka) (ka_cmd ka) (ka_cmdstr ka) (ka_key ka) (ka_keylen ka) (ka_val ka) (ka_vallen ka) c (ka_batch ka) (ka_flags ka) (ka_limits ka).
Definition set_ka_batch (b : option ptr) (ka : kargs) : kargs :=
  Kargs (ka_progname ka) (ka_cmd ka) (ka_cmdstr ka) (ka_key ka) (ka_keylen ka) (ka_val ka) (ka_vallen ka) (ka_conn ka) b (ka_flags ka) (ka_limits ka).
Definition set_ka_flags (f : kflags) (ka : kargs) : kargs :=
  Kargs (ka_progname ka) (ka_cmd ka) (ka_cmdstr ka) (ka_key ka) (ka_keylen ka) (ka_val ka) (ka_vallen ka) (ka_conn ka) (ka_batch ka) f (ka_limits ka).
Definition set_ka_limits (l : klimits) (ka : kargs) : kargs :=
  Kargs (ka_progname ka) (ka_cmd ka) (ka_cmdstr ka) (ka_key ka) (ka_keylen ka) (ka_val ka) (ka_vallen ka) (ka_conn ka) (ka_batch ka) (ka_flags ka) l.
Definition ka_quiet (ka : kargs) : bool := kf_quiet (ka_flags ka).
Definition ka_verbose (ka : kargs) : bool := kf_verbose (ka_flags ka).
Definition ka_input (ka : kargs) : kctl_input := kf_input (ka_flags ka).
Definition ka_yes (ka : kargs) : bool := kf_yes (ka_flags ka).

Definition klimits_zero : klimits := Klimits 0 0 0 0 0 0 0 0 0 0 0 0 0 0 0.
Definition kargs0 (progname : buffer) : kargs :=
  Kargs progname KCTL_EOT (Some (text "<none>")) (Some (text "<none>")) 6 (Some (text "<none>")) 6
    (Kconn 1 (text "asdfasdf") (text "127.0.0.1") (text "8123") 0 10 (-1)) None
    (Kflags false false false KCTL_CMDLINE false false) klimits_zero.

(** ** Numbers in text *)

(** [%08x] of 32 bits, [%09d] of a number below a billion *)
Definition hex_lower (d : Z) : Z := if d <? 10 then 48 + d else 87 + d.
Definition padded (digit : Z -> Z) (base : Z) (width : nat) (n : Z) : buffer :=
  (fun i => digit (n / base ^ Z.of_nat (width - S i) mod base)) <$> seq 0 width.
Definition hex8 (n : Z) : buffer := padded hex_lower 16 8 n.
Definition dec9 (n : Z) : buffer := padded (fun d => 48 + d) 10 9 n.

(** [strtoul(p, NULL, 16)], on the memory at [p]: the number ends before the
    memory does. *)
Definition strtoul16 (m : buffer) : outcome Z :=
  let t := skip_space m in
  let '(neg, t) := match t with 45 :: t' => (true, t') | 43 :: t' => (false, t') | _ => (false, t) end in
  let t := match t with
           | 48 :: x :: ((d :: _) as t') =>
               if ((x =? 120) || (x =? 88)) && bool_decide (digit_hex d <> None) then t' else t
           | _ => t
           end in
  let '(v, rest, _) := digits 16 t 0 false in
  match rest with
  | [] => Ub
  | _ => Ok (if v >? ULONG_MAX then ULONG_MAX else if neg : bool then u64 (- v) else v)
  end.

(** A C string in memory; [printf] of one *)
Definition c_str_at (m : buffer) : outcome buffer := if bool_decide (0 ∈ m) then Ok (c_str m) else Ub.

(** [kr->kr_start], [kr->kr_end], [KR_FLAG_SET] *)
Definition set_kr_end (e : option (list kiovec)) (n : Z) (r : krange) : krange :=
  Krange (kr_flags r) (kr_start r) (kr_startcnt r) e n (kr_count r) (kr_keys r) (kr_keyscnt r).
Definition KR_FLAG_SET (f : Z) (r : krange) : krange :=
  Krange (Z.lor (kr_flags r) f) (kr_start r) (kr_startcnt r) (kr_end r) (kr_endcnt r) (kr_count r) (kr_keys r) (kr_keyscnt r).

(** *** Options several commands have *)

(** [-p]: no more than two letters, of which the first decide *)
Definition policy_arg (a : buffer) : option Z :=
  if bool_decide (take 2 a = text "wt") then Some KC_WT
  else if bool_decide (take 2 a = text "wb") then Some KC_WB
  else if bool_decide (take 1 a = text "f") then Some KC_FLUSH
  else None.
(** A number that is not written with a minus, in an [int] *)
Definition int_arg (a : buffer) : option Z :=
  match a with
  | 45 :: _ => None
  | _ => match strtol a with (n, []) => Some (i32 n) | _ => None end
  end.

(** ** The commands *)
Section kctl.
Context {SZ : Sizes} {KE : KtbEnv} {R : Type} {KS : KvService R} {KC : KctlService R} {GR : GetRange}.
Context (files : buffer -> option file) (show_ptr : option ptr -> buffer).
Notation T := (ST (tst (R := R))).

Definition heap_op {A} (m : ST heap A) : T A := on_kv (on_heap m).
Definition remote {A} (m : ST (mem * R) A) : T A := fun t =>
  let s := t_kv t in
  match m (h_mem s.1, s.2) with
  | Ok (a, (m', x)) => Ok (a, Tst (Heap m' (h_blocks s.1), x) (t_in t) (t_out t))
  | Ub => Ub | Hang => Hang | NoFuel => NoFuel
  end.
(** A call on the [kv_t] at [p]; one that answers in the [kv_t] at [rp] *)
Definition call (f : kv -> ST (mem * R) (Z * kv)) (p : ptr) : T Z := on_kv (service f p).
Definition call_next (f : kv -> kv -> ST (mem * R) (Z * kv)) (p rp : ptr) : T Z := v ← heap_op (get_kv p); call (f v) rp.
Definition forget (run : bool) (p : ptr) : T unit := v ← heap_op (get_kv p); remote (kc_forget run v).

Definition kname (ka : kargs) : T buffer := deref_st (ka_cmdstr ka).
Definition take_kctl_key (w : buffer) (ka : kargs) : T (bool * kargs) :=
  '(r, n) ← decode_word w (ka_keylen ka);
  mret (bool_decide (r <> None), set_ka_key r n ka).
Definition take_kctl_val (w : buffer) (ka : kargs) : T (bool * kargs) :=
  '(r, n) ← decode_word w (ka_vallen ka);
  mret (bool_decide (r <> None), set_ka_val r n ka).

(** A [printf] of a C string behind a pointer *)
Definition show_str (s : option buffer) : T unit := m ← deref_st s; b ← lift (c_str_at m); print b.
Definition show_label (table : list string) (i : Z) : T unit := s ← lift (array_read table i); print (text s).

(** *** [kctl_do_put] *)
Definition version_text (n : Z) : buffer := text "0x" ++ hex8 n.
Definition VERLEN : Z := 11.
Definition le32 (n : Z) : buffer := [n mod 256; n / 256 mod 256; n / 65536 mod 256; n / 16777216 mod 256].
Definition set_kv_put (newver : option buffer) (newverlen : Z) (disum : option buffer) (disumlen ditype cpolicy metaonly : Z) (v : kv) : kv :=
  Kv (kv_key v) (kv_keycnt v) (kv_val v) (kv_valcnt v) (kv_ver v) (kv_verlen v) newver newverlen disum disumlen ditype cpolicy metaonly.
Definition set_kv_version (ver : option buffer) (verlen : Z) (v : kv) : kv :=
  Kv (kv_key v) (kv_keycnt v) (kv_val v) (kv_valcnt v) ver verlen (kv_newver v) (kv_newverlen v) (kv_disum v) (kv_disumlen v)
    (kv_ditype v) (kv_cpolicy v) (kv_metaonly v).
Definition set_kv_keycnt (n : Z) (v : kv) : kv :=
  Kv (kv_key v) n (kv_val v) (kv_valcnt v) (kv_ver v) (kv_verlen v) (kv_newver v) (kv_newverlen v) (kv_disum v) (kv_disumlen v)
    (kv_ditype v) (kv_cpolicy v) (kv_metaonly v).
Definition set_kv_meta (m : Z) (v : kv) : kv :=
  Kv (kv_key v) (kv_keycnt v) (kv_val v) (kv_valcnt v) (kv_ver v) (kv_verlen v) (kv_newver v) (kv_newverlen v) (kv_disum v) (kv_disumlen v)
    (kv_ditype v) (kv_cpolicy v) m.
(** [kv->kv_key[i] = x] *)
Definition set_key_at (i : nat) (x : kiovec) (v : kv) : kv :=
  Kv ((fun a => <[i := x]> a) <$> kv_key v) (kv_keycnt v) (kv_val v) (kv_valcnt v)
    (kv_ver v) (kv_verlen v) (kv_newver v) (kv_newverlen v)
    (kv_disum v) (kv_disumlen v) (kv_ditype v) (kv_cpolicy v) (kv_metaonly v).

(** The version that follows the one the drive holds; the first is 0. *)
Definition next_version (krc : Z) (v : kv) : T (buffer * bool) :=
  if krc =? K_OK then
    ver ← deref_st (kv_ver v);
    n ← lift (strtoul16 ver);
    mret (version_text (u32 (u64 (n + 1))), true)
  else mret (version_text 0, false).

Fixpoint ascii_all (l : list kiovec) : T unit :=
  match l with [] => mret tt | x :: l => ascii (kiov_base x) (kiov_len x) ;; ascii_all l end.
Definition show_put (ka : kargs) (p : ptr) (newver : buffer) (exists' bat cas : bool) (sum cpolicy : Z) : T unit :=
  v ← heap_op (get_kv p);
  key ← deref_st (kv_key v);
  print (text "Key:             ") ;;
  (if kv_keycnt v <=? zlen key then ascii_all (take (Z.to_nat (kv_keycnt v)) key) else ub_st) ;;
  print (newline ++ text "Batch:           " ++ show_ptr (if bat then ka_batch ka else None) ++ newline ++
    text "Compare & Swap:  " ++ text (if cas then "Enabled" else "Disabled") ++ newline ++ text "Version:         ") ;;
  (if exists' then show_str (kv_ver v) else mret tt) ;;
  print (newline ++ text "New Version:     " ++ newver ++ newline ++ text "DI Sum:          " ++ hex8 sum ++ newline ++
    text "DI Type:         CRC32" ++ newline ++ text "Cache Policy:    ") ;;
  show_label ki_cpolicy_label cpolicy ;;
  print (newline ++ newline).

Definition kctl_do_put (ktd : Z) (ka : kargs) (p : ptr) (sum cpolicy : Z) (bat cas : bool) : T Z :=
  krc ← call (ki_getversion ktd) p;
  v ← heap_op (get_kv p);
  '(newver, exists') ← next_version krc v;
  heap_op (upd_kv p (set_kv_put (Some (newver ++ [0])) VERLEN (Some (le32 sum)) 4 KDI_CRC32 cpolicy 0)) ;;
  heap_op (upd_kv p (set_val0 (Kiovec (ka_val ka) (ka_vallen ka)))) ;;
  (if ka_verbose ka then show_put ka p newver exists' bat cas sum cpolicy else mret tt) ;;
  let kb := if bat then ka_batch ka else None in
  krc ← (if cas then call (kc_cas ktd kb) p else call (kc_put ktd kb) p);
  heap_op (upd_kv p (set_kv_version None 0)) ;;
  heap_op (upd_kv p (set_kv_put None 0 None 0 0 0 0)) ;;
  forget (krc =? K_OK) p ;;
  heap_op (upd_kv p (set_val0 kiov0)) ;;
  mret (if krc =? K_OK then 0 else -1).

(** *** [kctl_put] *)
Record kput_opts := KputOpts {
  kpo_file : option buffer; kpo_count : Z; kpo_cas : bool; kpo_zlen : Z; kpo_bat : bool; kpo_flush : bool; kpo_sum : Z; kpo_policy : Z }.
Definition kput_opts0 : kput_opts := KputOpts None 0 false (-1) false false 0 KC_WB.
Fixpoint kput_options (ka : kargs) (evs : list (Z * option buffer)) (o : kput_opts) : outcome (option kput_opts) :=
  match evs with
  | [] => Ok (Some o)
  | (98, _) :: evs =>
      match ka_batch ka with
      | None => Ok None
      | Some _ => kput_options ka evs (KputOpts (kpo_file o) (kpo_count o) (kpo_cas o) (kpo_zlen o) true (kpo_flush o) (kpo_sum o) (kpo_policy o))
      end
  | (99, _) :: evs =>
      kput_options ka evs (KputOpts (kpo_file o) (kpo_count o) true (kpo_zlen o) (kpo_bat o) (kpo_flush o) (kpo_sum o) (kpo_policy o))
  | (70, _) :: evs =>
      kput_options ka evs (KputOpts (kpo_file o) (kpo_count o) (kpo_cas o) (kpo_zlen o) (kpo_bat o) true (kpo_sum o) (kpo_policy o))
  | (102, Some f) :: evs =>
      if kpo_zlen o >? -1 then Ok None else
      kput_options ka evs (KputOpts (Some f) (kpo_count o) (kpo_cas o) (kpo_zlen o) (kpo_bat o) (kpo_flush o) (kpo_sum o) (kpo_policy o))
  | (110, Some a) :: evs =>
      match int_arg a with
      | None => Ok None
      | Some n =>
          if n >? 10000000 then Ok None else
          kput_options ka evs (KputOpts (kpo_file o) n (kpo_cas o) (kpo_zlen o) (kpo_bat o) (kpo_flush o) (kpo_sum o) (kpo_policy o))
      end
  | (112, Some a) :: evs =>
      if zlen a >? 2 then Ok None else
      match policy_arg a with
      | None => Ok None
      | Some c => kput_options ka evs (KputOpts (kpo_file o) (kpo_count o) (kpo_cas o) (kpo_zlen o) (kpo_bat o) (kpo_flush o) (kpo_sum o) c)
      end
  | (122, Some a) :: evs =>
      match int_arg a with
      | None => Ok None
      | Some n =>
          (* the length is compared with the limit as an unsigned number *)
          if (u32 n >? kl_vallen (ka_limits ka)) || bool_decide (kpo_file o <> None) then Ok None else
          kput_options ka evs (KputOpts (kpo_file o) (kpo_count o) (kpo_cas o) n (kpo_bat o) (kpo_flush o) (kpo_sum o) (kpo_policy o))
      end
  | (115, Some a) :: evs =>
      if zlen a >? 8 then Ok None else
      match strtoul16 (a ++ [0]) with
      | Ok s => kput_options ka evs (KputOpts (kpo_file o) (kpo_count o) (kpo_cas o) (kpo_zlen o) (kpo_bat o) (kpo_flush o) (u32 s) (kpo_policy o))
      | _ => Ub
      end
  | _ => Ok None
  end.

(** The value: zeros with the key in front, or the contents of a file.  [false]
    is a refusal. *)
Definition kput_zeros (n : Z) (ka : kargs) : T (bool * kargs) :=
  if n =? 0 then mret (true, set_ka_val None 0 ka) else
  b ← c_malloc n;
  match b with
  | None => mret (false, set_ka_val None (ka_vallen ka) ka)
  | Some _ =>
      k ← bytes_at (ka_key ka) (ka_keylen ka);
      (* the key is copied to the front, whether or not it fits *)
      if zlen k <=? n then mret (true, set_ka_val (Some (k ++ replicate (Z.to_nat (n - zlen k)) 0)) n ka)
      else ub_st
  end.
Definition kput_file (name : buffer) (ka : kargs) : T (bool * kargs) :=
  match files name with
  | None => mret (false, ka)
  | Some f =>
      let n := u64 (f_size f) in
      if n >? kl_vallen (ka_limits ka) then mret (false, ka) else
      b ← c_malloc n;
      match b with
      | None => mret (false, set_ka_val None n ka)
      | Some b =>
          if negb (f_opens f) then mret (false, set_ka_val (Some b) n ka) else
          let got := take (Z.to_nat n) (f_data f) in
          mret (zlen got =? n, set_ka_val (Some (got ++ drop (length got) b)) n ka)
      end
  end.

(** The copies of the key: [kv->kv_key[1]] is the suffix [.000000000] and up. *)
Definition copy_suffix (i : Z) : buffer := 46 :: dec9 i ++ [0; 0].
Fixpoint put_copies (ktd : Z) (ka : kargs) (p : ptr) (sum cpolicy : Z) (bat cas : bool) (n : nat) (i : Z) : T Z :=
  match n with
  | O => mret 0
  | S n =>
      heap_op (upd_kv p (set_key_at 1 (Kiovec (Some (copy_suffix i)) 10))) ;;
      rc ← kctl_do_put ktd ka p sum cpolicy bat cas;
      if rc <? 0 then mret rc else put_copies ktd ka p sum cpolicy bat cas n (i + 1)
  end.

Definition kctl_put (permute : bool) (args : list buffer) (ktd : Z) (ka : kargs) : T (Z * kargs) :=
  let '(evs, rest) := getopt (optstring (text "bcFf:h?n:p:s:z:")) permute None args in
  o ← lift (kput_options ka evs kput_opts0);
  match o, rest with
  | Some o, w :: rest =>
      if match rest with [] => negb (kpo_zlen o >? -1) && bool_decide (kpo_file o = None) | [_] => false | _ => true end
      then mret (-1, ka) else
      '(ok, ka) ← take_kctl_key w ka;
      if negb ok then mret (-1, ka) else
      '(ok, ka) ←
        match rest with
        | v :: _ => take_kctl_val v ka
        | [] => if kpo_zlen o >? -1 then kput_zeros (kpo_zlen o) ka
                else match kpo_file o with Some f => kput_file f ka | None => mret (false, ka) end
        end;
      if negb ok then mret (-1, ka) else
      kv ← heap_op (ki_create ktd KV_T);
      match kv with
      | None => mret (-1, ka)
      | Some p =>
          heap_op (upd_kv p (set_vecs [kiov0; kiov0] [kiov0])) ;;
          heap_op (upd_kv p (set_kv_keycnt 1)) ;;
          if (ka_keylen ka >? kl_keylen (ka_limits ka)) || (ka_vallen ka >? kl_vallen (ka_limits ka)) then mret (-1, ka) else
          heap_op (upd_kv p (set_key_at 0 (Kiovec (ka_key ka) (ka_keylen ka)))) ;;
          rc ←
            (if negb (kpo_count o =? 0) then
               heap_op (upd_kv p (set_kv_keycnt 2)) ;;
               (* with a count below 1 no put is made, and the answer is not initialised *)
               if (kpo_count o <? 0) && negb (kpo_flush o) then ub_st
               else put_copies ktd ka p (kpo_sum o) (kpo_policy o) (kpo_bat o) (kpo_cas o) (Z.to_nat (kpo_count o)) 0
             else kctl_do_put ktd ka p (kpo_sum o) (kpo_policy o) (kpo_bat o) (kpo_cas o));
          rc ← (if kpo_flush o then remote (kc_flush ktd) else mret rc);
          if kpo_flush o && negb (rc =? K_OK) then mret (-1, ka) else
          (match ka_val ka with Some _ => c_free | None => mret tt end) ;;
          heap_op (ki_destroy (Some p)) ;;
          mret (rc, ka)
      end
  | _, _ => mret (-1, ka)
  end.

(** *** [kctl_get]: get, getnext, getprev and getvers *)
Record kget_opts := KgetOpts { kgo_meta : bool; kgo_hdump : bool; kgo_adump : bool }.
Fixpoint kget_options (evs : list (Z * option buffer)) (o : kget_opts) : option kget_opts :=
  match evs with
  | [] => Some o
  | (109, _) :: evs => kget_options evs (KgetOpts true (kgo_hdump o) (kgo_adump o))
  | (65, _) :: evs => if kgo_hdump o then None else kget_options evs (KgetOpts (kgo_meta o) false true)
  | (88, _) :: evs => if kgo_adump o then None else kget_options evs (KgetOpts (kgo_meta o) true false)
  | _ => None
  end.

(** [printf("%s", rkey)] of a copy of the first [n] bytes, up to a NUL *)
Definition show_raw (data : option buffer) (n : Z) : T unit :=
  b ← (match data with
       | Some d => if bool_decide (0 ∈ d) then mret (take (Z.to_nat n) d) else bytes_at data n
       | None => bytes_at data n
       end);
  s ← c_malloc (zlen (c_str b) + 1);
  match s with Some _ => print (c_str b) ;; c_free | None => ub_st end.
Definition dump (adump hdump : bool) (data : option buffer) (n : Z) : T unit :=
  if adump then ascii data n else hexdump data n.

Definition vec0 (v : option (list kiovec)) : T kiovec := l ← deref_st v; deref_st (l !! 0%nat).
Definition show_meta (o : kget_opts) (v : kv) : T unit :=
  if kgo_adump o then
    print (text "Version:   ") ;; ascii (kv_ver v) (kv_verlen v) ;;
    print (newline ++ text "Checksum:  ") ;; ascii (kv_disum v) (kv_disumlen v) ;;
    print (newline ++ text "Algorithm: ") ;;
    s ← lift (kctl_ditype_str (kv_ditype v)); print (text s ++ newline)
  else
    print (text "Version:   ") ;; hexdump (kv_ver v) (kv_verlen v) ;;
    print (text "Checksum:  ") ;; hexdump (kv_disum v) (kv_disumlen v) ;;
    print (text "Algorithm: ") ;;
    s ← lift (kctl_ditype_str (kv_ditype v)); print (text s ++ newline).

(** What is printed of the answer, and the exit code *)
Definition show_answer (o : kget_opts) (ka : kargs) (v : kv) : T Z :=
  (if ka_quiet ka then mret tt else
   k ← vec0 (kv_key v);
   print (text "Key(") ;;
   (if kgo_adump o then ascii (kiov_base k) (kiov_len k)
    else if kgo_hdump o then print newline ;; hexdump (kiov_base k) (kiov_len k)
    else show_raw (kiov_base k) (kiov_len k)) ;;
   print (text ")" ++ newline)) ;;
  if bool_decide (ka_cmd ka = KCTL_GETVERS) then
    (if ka_quiet ka then mret tt else print (text "Version: ")) ;;
    (match kv_ver v with Some _ => show_str (kv_ver v) | None => print (text "N/A") end) ;;
    print newline ;;
    mret (-1)
  else if kgo_meta o then show_meta o v ;; mret 0
  else
    x ← vec0 (kv_val v);
    (if ka_quiet ka then mret tt else print (newline ++ text "Length: " ++ decimal (kiov_len x) ++ newline)) ;;
    (if kgo_adump o then ascii (kiov_base x) (kiov_len x)
     else if kgo_hdump o then hexdump (kiov_base x) (kiov_len x)
     else b ← bytes_at (kiov_base x) (kiov_len x); print b) ;;
    (if ka_quiet ka then mret tt else print newline) ;;
    mret 0.

Definition kctl_get (permute : bool) (args : list buffer) (ktd : Z) (ka : kargs) : T (Z * kargs) :=
  let '(evs, rest) := getopt (optstring (text "mAXh?")) permute None args in
  match kget_options evs (KgetOpts false false false), rest with
  | Some o, [w] =>
      '(ok, ka) ← take_kctl_key w ka;
      if negb ok then mret (-1, ka) else
      kv ← heap_op (ki_create ktd KV_T);
      match kv with
      | None => mret (-1, ka)
      | Some p =>
          rkv ← heap_op (ki_create ktd KV_T);
          match rkv with
          | None => mret (-1, ka)
          | Some rp =>
              heap_op (upd_kv p (set_vecs [kiov0] [kiov0])) ;;
              heap_op (upd_kv p (set_kv_meta (if kgo_meta o then 1 else 0))) ;;
              heap_op (upd_kv rp (set_vecs [kiov0] [kiov0])) ;;
              heap_op (upd_kv p (set_key_at 0 (Kiovec (ka_key ka) (ka_keylen ka)))) ;;
              r ←
                match ka_cmd ka with
                | KCTL_GET => krc ← call (ki_get ktd) p; mret (Some (krc, p))
                | KCTL_GETNEXT => krc ← call_next (kc_getnext ktd) p rp; mret (Some (krc, rp))
                | KCTL_GETPREV => krc ← call_next (kc_getprev ktd) p rp; mret (Some (krc, rp))
                | KCTL_GETVERS => krc ← call (ki_getversion ktd) p; mret (Some (krc, p))
                | _ => mret None
                end;
              match r with
              | None => mret (-1, ka)
              | Some (krc, pkv) =>
                  rc ←
                    (if krc =? K_OK then v ← heap_op (get_kv pkv); show_answer o ka v
                     else
                       name ← kname ka;
                       (if krc =? K_ENOTFOUND then print (name ++ text ": No key found." ++ newline)
                        else
                          e ← lift (ki_error krc);
                          print (name ++ text ": failed: status code " ++ decimal krc ++ text " " ++ text e ++ newline)) ;;
                       mret (-1));
                  heap_op (ki_destroy (Some p)) ;;
                  heap_op (ki_destroy (Some rp)) ;;
                  mret (rc, ka)
              end
          end
      end
  | _, _ => mret (-1, ka)
  end.

(** *** Ranges *)

(** One end of a range, decoded into [kr]: [None] when it does not decode *)
Definition range_end (set : option (list kiovec) -> Z -> krange -> krange) (w : option buffer) (kr : ptr) : T bool :=
  match w with
  | None => mret true
  | Some w =>
      '(r, n) ← decode_word w 0;
      heap_op (upd_range kr (set (Some [Kiovec r n]) 1)) ;;
      mret (bool_decide (r <> None))
  end.
Definition range_flag (b : bool) (f : Z) (kr : ptr) : T unit := if b then heap_op (upd_range kr (KR_FLAG_SET f)) else mret tt.
(** Both ends, their flags and the count *)
Definition set_range (start : option buffer) (starti : bool) (end' : option buffer) (endi reverse : bool) (count : Z) (kr : ptr) : T bool :=
  ok ← range_end set_kr_start start kr;
  if negb ok then mret false else
  range_flag starti KRF_ISTART kr ;;
  ok ← range_end set_kr_end end' kr;
  if negb ok then mret false else
  range_flag endi KRF_IEND kr ;;
  range_flag reverse KRF_REVERSE kr ;;
  heap_op (upd_range kr (set_kr_count (if count <? 0 then KVR_COUNT_INF else count))) ;;
  mret true.

(** The range in brackets: the first five characters of its ends *)
Definition end_text (w : option buffer) (escape : bool) (none : string) : buffer :=
  match w with
  | None => text none
  | Some w => if escape then dump_bytes (take 5 w) else take 5 w
  end.
Definition range_text (start : option buffer) (starti : bool) (end' : option buffer) (endi escape : bool) (count : Z) : buffer :=
  text (if starti then "[" else "(") ++ end_text start escape "{FIRSTKEY}" ++ text "," ++ end_text end' escape "{LASTKEY}" ++
  text (if endi then "]:" else "):") ++ (if count >? 0 then decimal count else text "unlimited").

(** *** [kctl_range] *)
Record krange_opts := KrangeOpts {
  kro_start : option buffer; kro_starti : bool; kro_end : option buffer; kro_endi : bool; kro_count : Z;
  kro_reverse : bool; kro_hdump : bool; kro_adump : bool }.
Definition krange_opts0 : krange_opts := KrangeOpts None false None false KVR_COUNT_INF false false false.
Fixpoint krange_options (evs : list (Z * option buffer)) (o : krange_opts) : option krange_opts :=
  match evs with
  | [] => Some o
  | (114, _) :: evs =>
      krange_options evs (KrangeOpts (kro_start o) (kro_starti o) (kro_end o) (kro_endi o) (kro_count o) true (kro_hdump o) (kro_adump o))
  | (110, Some a) :: evs =>
      match int_arg a with
      | None | Some 0 => None
      | Some n => krange_options evs (KrangeOpts (kro_start o) (kro_starti o) (kro_end o) (kro_endi o) n (kro_reverse o) (kro_hdump o) (kro_adump o))
      end
  | (115, Some k) :: evs =>
      if kro_starti o then None else
      krange_options evs (KrangeOpts (Some k) false (kro_end o) (kro_endi o) (kro_count o) (kro_reverse o) (kro_hdump o) (kro_adump o))
  | (83, Some k) :: evs =>
      if bool_decide (kro_start o <> None) then None else
      krange_options evs (KrangeOpts (Some k) true (kro_end o) (kro_endi o) (kro_count o) (kro_reverse o) (kro_hdump o) (kro_adump o))
  | (101, Some k) :: evs =>
      if bool_decide (kro_end o <> None) then None else
      krange_options evs (KrangeOpts (kro_start o) (kro_starti o) (Some k) (kro_endi o) (kro_count o) (kro_reverse o) (kro_hdump o) (kro_adump o))
  | (69, Some k) :: evs =>
      if kro_endi o then None else
      krange_options evs (KrangeOpts (kro_start o) (kro_starti o) (Some k) true (kro_count o) (kro_reverse o) (kro_hdump o) (kro_adump o))
  | (65, _) :: evs =>
      if kro_hdump o then None else
      krange_options evs (KrangeOpts (kro_start o) (kro_starti o) (kro_end o) (kro_endi o) (kro_count o) (kro_reverse o) false true)
  | (88, _) :: evs =>
      if kro_adump o then None else
      krange_options evs (KrangeOpts (kro_start o) (kro_starti o) (kro_end o) (kro_endi o) (kro_count o) (kro_reverse o) true false)
  | _ => None
  end.

(** A key on a line of its own, numbered in verbose mode *)
Definition show_number (ka : kargs) (i : Z) : T unit := if ka_verbose ka then print (decimal i ++ text ": ") else mret tt.
Definition show_key_line (o : krange_opts) (k : kiovec) : T unit :=
  if kro_hdump o then hexdump (kiov_base k) (kiov_len k)
  else if kro_adump o then ascii (kiov_base k) (kiov_len k) ;; print newline
  else show_raw (kiov_base k) (kiov_len k) ;; print newline.
Fixpoint show_keys (o : krange_opts) (ka : kargs) (i : Z) (ks : list kiovec) : T unit :=
  match ks with
  | [] => mret tt
  | k :: ks => show_number ka i ;; show_key_line o k ;; show_keys o ka (i + 1) ks
  end.
Fixpoint show_iter (fuel : nat) (o : krange_opts) (ka : kargs) (i : Z) (kit : option ptr) (k : option (ptr * Z)) : T unit :=
  match fuel, k with
  | _, None => mret tt
  | O, Some _ => fun _ => NoFuel
  | S fuel, Some a =>
      show_number ka i ;;
      x ← heap_op (iter_key a);
      show_key_line o x ;;
      k ← heap_op (ki_next kit);
      show_iter fuel o ka (i + 1) kit k
  end.

Definition kctl_range (fuel : nat) (permute : bool) (args : list buffer) (ktd : Z) (ka : kargs) : T (Z * kargs) :=
  let '(evs, rest) := getopt (optstring (text "rs:S:e:E:n:AXh?")) permute None args in
  match krange_options evs krange_opts0, rest with
  | Some o, [] =>
      (* an end that is not given is inclusive *)
      let starti := kro_starti o || bool_decide (kro_start o = None) in
      let endi := kro_endi o || bool_decide (kro_end o = None) in
      kr ← heap_op (ki_create ktd KRANGE_T);
      match kr with
      | None => mret (-1, ka)
      | Some kr =>
          ok ← set_range (kro_start o) starti (kro_end o) endi (kro_reverse o) (kro_count o) kr;
          if negb ok then mret (-1, ka) else
          (if ka_verbose ka then
             print (text "Key Range " ++ range_text (kro_start o) starti (kro_end o) endi (kro_adump o) (kro_count o) ++ newline)
           else mret tt) ;;
          if (kro_count o >? 0) && (kro_count o <=? kl_rangekeycnt (ka_limits ka)) then
            (if ka_verbose ka then print (text "Single Range Call..." ++ newline) else mret tt) ;;
            krc ← heap_op (getrange_at ktd kr);
            if negb (krc =? K_OK) then mret (-1, ka) else
            r ← heap_op (get_range kr);
            if kr_keyscnt r =? 0 then print (text "No Keys Found." ++ newline) ;; mret (0, ka) else
            if kr_keyscnt r <=? 0 then mret (0, ka) else
            ks ← deref_st (kr_keys r);
            (if kr_keyscnt r <=? zlen ks then show_keys o ka 0 (take (Z.to_nat (kr_keyscnt r)) ks) else ub_st) ;;
            mret (0, ka)
          else
            (if ka_verbose ka then print (text "Iterating..." ++ newline) else mret tt) ;;
            kit ← heap_op (ki_create ktd KITER_T);
            match kit with
            | None => mret (-1, ka)
            | Some _ =>
                k ← heap_op (ki_start kit (Some kr));
                show_iter fuel o ka 0 kit k ;;
                heap_op (ki_destroy kit) ;;
                heap_op (ki_destroy (Some kr)) ;;
                mret (0, ka)
            end
      end
  | _, _ => mret (-1, ka)
  end.

(** *** [kctl_batch]: the three flags in the order of the options *)
Fixpoint kbatch_options (ka : kargs) (evs : list (Z * option buffer)) (create submit abort : bool) : option (bool * bool * bool) :=
  match evs with
  | [] => Some (create, submit, abort)
  | (67, _) :: evs => if bool_decide (ka_batch ka <> None) then None else kbatch_options ka evs true submit abort
  | (83, _) :: evs => if bool_decide (ka_batch ka = None) then None else kbatch_options ka evs create true abort
  | (65, _) :: evs => if bool_decide (ka_batch ka = None) then None else kbatch_options ka evs create submit true
  | _ => None
  end.
Definition show_failure (what : string) (krc : Z) : T unit :=
  e ← lift (ki_error krc); print (text what ++ text " failed: " ++ text e ++ newline).
Definition kctl_batch (permute : bool) (args : list buffer) (ktd : Z) (ka : kargs) : T (Z * kargs) :=
  let '(evs, rest) := getopt (optstring (text "SCA?h")) permute None args in
  match kbatch_options ka evs false false false, rest with
  | Some (true, false, false), [] =>
      kb ← heap_op (ki_create ktd KBATCH_T);
      let ka := set_ka_batch kb ka in
      match kb with
      | None => print (text "Batch Start failed" ++ newline) ;; mret (-1, ka)
      | Some _ => mret (0, ka)
      end
  | Some (false, true, false), [] =>
      kb ← deref_st (ka_batch ka);
      krc ← on_kv (kc_submitbatch ktd kb);
      if krc =? K_OK then mret (0, set_ka_batch None ka)
      else show_failure "Batch commit" krc ;; mret (-1, ka)
  | Some (false, false, true), [] =>
      kb ← deref_st (ka_batch ka);
      krc ← on_kv (kc_abortbatch ktd kb);
      let ka := set_ka_batch None ka in
      if krc =? K_OK then mret (0, ka)
      else show_failure "Batch abort" krc ;; mret (-1, ka)
  | _, _ => mret (-1, ka)
  end.

(** *** [kctl_flush] *)
Definition kctl_flush (permute : bool) (args : list buffer) (ktd : Z) (ka : kargs) : T (Z * kargs) :=
  let '(evs, rest) := getopt (optstring (text "?h")) permute None args in
  match no_options evs, rest with
  | true, [] =>
      krc ← remote (kc_flush ktd);
      if krc =? K_OK then mret (0, ka) else print (text "Flush failed" ++ newline) ;; mret (-1, ka)
  | _, _ => mret (-1, ka)
  end.

(** *** [kctl_del] *)
Record kdel_opts := KdelOpts {
  kdo_start : option buffer; kdo_starti : bool; kdo_end : option buffer; kdo_endi : bool; kdo_count : Z; kdo_all : bool;
  kdo_cmpdel : bool; kdo_bat : bool; kdo_flush : bool; kdo_policy : Z }.
Definition kdel_opts0 : kdel_opts := KdelOpts None false None false KVR_COUNT_INF false false false false KC_WB.
Definition HAVE_RANGE (o : kdel_opts) : bool :=
  (kdo_count o >? -1) || bool_decide (kdo_start o <> None) || kdo_starti o || bool_decide (kdo_end o <> None) || kdo_endi o || kdo_all o.
Definition kdo_set_start (s : option buffer) (i : bool) (o : kdel_opts) : kdel_opts :=
  KdelOpts s i (kdo_end o) (kdo_endi o) (kdo_count o) (kdo_all o) (kdo_cmpdel o) (kdo_bat o) (kdo_flush o) (kdo_policy o).
Definition kdo_set_end (e : option buffer) (i : bool) (o : kdel_opts) : kdel_opts :=
  KdelOpts (kdo_start o) (kdo_starti o) e i (kdo_count o) (kdo_all o) (kdo_cmpdel o) (kdo_bat o) (kdo_flush o) (kdo_policy o).
Definition kdo_set_count (n : Z) (all : bool) (o : kdel_opts) : kdel_opts :=
  KdelOpts (kdo_start o) (kdo_starti o) (kdo_end o) (kdo_endi o) n all (kdo_cmpdel o) (kdo_bat o) (kdo_flush o) (kdo_policy o).
Definition kdo_set_mode (cmpdel bat flush : bool) (policy : Z) (o : kdel_opts) : kdel_opts :=
  KdelOpts (kdo_start o) (kdo_starti o) (kdo_end o) (kdo_endi o) (kdo_count o) (kdo_all o) cmpdel bat flush policy.
(** [-p] with more than two letters prints the usage and goes on. *)
Fixpoint kdel_options (ka : kargs) (evs : list (Z * option buffer)) (o : kdel_opts) : option kdel_opts :=
  match evs with
  | [] => Some o
  | (98, _) :: evs =>
      if bool_decide (ka_batch ka = None) then None
      else kdel_options ka evs (kdo_set_mode (kdo_cmpdel o) true (kdo_flush o) (kdo_policy o) o)
  | (99, _) :: evs => kdel_options ka evs (kdo_set_mode true (kdo_bat o) (kdo_flush o) (kdo_policy o) o)
  | (70, _) :: evs => kdel_options ka evs (kdo_set_mode (kdo_cmpdel o) (kdo_bat o) true (kdo_policy o) o)
  | (112, Some a) :: evs =>
      match policy_arg a with
      | None => None
      | Some c => kdel_options ka evs (kdo_set_mode (kdo_cmpdel o) (kdo_bat o) (kdo_flush o) c o)
      end
  | (110, Some a) :: evs =>
      if kdo_all o then None else
      match int_arg a with None => None | Some n => kdel_options ka evs (kdo_set_count n (kdo_all o) o) end
  | (97, _) :: evs =>
      if HAVE_RANGE o then None
      else kdel_options ka evs (kdo_set_start (kdo_start o) true (kdo_set_end (kdo_end o) true (kdo_set_count (kdo_count o) true o)))
  | (115, Some k) :: evs =>
      if kdo_starti o || kdo_all o then None else kdel_options ka evs (kdo_set_start (Some k) (kdo_starti o) o)
  | (83, Some k) :: evs =>
      if bool_decide (kdo_start o <> None) || kdo_all o then None else kdel_options ka evs (kdo_set_start (Some k) true o)
  | (101, Some k) :: evs =>
      if bool_decide (kdo_end o <> None) || kdo_all o then None else kdel_options ka evs (kdo_set_end (Some k) (kdo_endi o) o)
  | (69, Some k) :: evs =>
      if kdo_endi o || kdo_all o then None else kdel_options ka evs (kdo_set_end (Some k) true o)
  | _ => None
  end.

Definition set_kv_cpolicy (c : Z) (v : kv) : kv :=
  Kv (kv_key v) (kv_keycnt v) (kv_val v) (kv_valcnt v) (kv_ver v) (kv_verlen v) (kv_newver v) (kv_newverlen v) (kv_disum v) (kv_disumlen v)
    (kv_ditype v) c (kv_metaonly v).
Definition yn_prompt : buffer := text "Please answer y or n [yN]: ".
Definition say_yes (ka : kargs) (prompt : buffer) : T bool := if ka_yes ka then mret true else ask prompt 0 5.
(** [ki_cad] or [ki_del] *)
Definition remove (ktd : Z) (ka : kargs) (o : kdel_opts) (p : ptr) : T Z :=
  let kb := if kdo_bat o then ka_batch ka else None in
  if kdo_cmpdel o then call (kc_cad ktd kb) p else call (kc_del ktd kb) p.
(** [-F], and whether it succeeds *)
Definition flush_after (ktd : Z) (o : kdel_opts) : T bool :=
  if kdo_flush o then krc ← remote (kc_flush ktd); mret (krc =? K_OK) else mret true.

Definition kctl_del_key (ktd : Z) (o : kdel_opts) (p : ptr) (w : buffer) (ka : kargs) : T (Z * kargs) :=
  '(ok, ka) ← take_kctl_key w ka;
  if negb ok then mret (-1, ka) else
  if (ka_keylen ka >? kl_keylen (ka_limits ka)) || (ka_vallen ka >? kl_vallen (ka_limits ka)) then mret (-1, ka) else
  heap_op (upd_kv p (set_key_at 0 (Kiovec (ka_key ka) (ka_keylen ka)))) ;;
  krc ← call (ki_getversion ktd) p;
  if negb (krc =? K_OK) then mret (-1, ka) else
  (if ka_verbose ka then
     v ← heap_op (get_kv p);
     print (text "Compare & Delete: " ++ text (if kdo_cmpdel o then "Enabled" else "Disabled") ++ newline ++ text "Current Version:  ") ;;
     show_str (kv_ver v) ;; print newline
   else mret tt) ;;
  print (text (if ka_yes ka && negb (ka_quiet ka) then "***DELETING Key: " else "***DELETE? Key: ")) ;;
  ascii (ka_key ka) (ka_keylen ka) ;;
  print newline ;;
  yes ← say_yes ka yn_prompt;
  krc ← (if yes : bool then remove ktd ka o p else mret K_OK);
  if negb (krc =? K_OK) then mret (-1, ka) else
  ok ← flush_after ktd o;
  mret (if ok : bool then 0 else -1, ka).

(** The keys of the range one after the other: [None] when all are deleted, or
    the answer of a failure; [dels] counts them. *)
Fixpoint delete_keys (fuel : nat) (ktd : Z) (ka : kargs) (o : kdel_opts) (p : ptr) (kit : option ptr) (kr : ptr) (dels : Z)
    (k : option (ptr * Z)) : T (option Z * Z) :=
  match fuel, k with
  | _, None => mret (None, dels)
  | O, Some _ => fun _ => NoFuel
  | S fuel, Some a =>
      let dels := dels + 1 in
      if kdo_bat o && (u32 dels >? kl_batdelcnt (ka_limits ka)) then
        heap_op (ki_destroy kit) ;; heap_op (ki_destroy (Some kr)) ;; mret (Some (-1), dels)
      else
        x ← heap_op (iter_key a);
        heap_op (upd_kv p (set_key_at 0 x)) ;;
        vrc ← (if kdo_cmpdel o then call (ki_getversion ktd) p else mret K_OK);
        if negb (vrc =? K_OK) then mret (Some (-1), dels) else
        krc ← remove ktd ka o p;
        if negb (krc =? K_OK) then
          ascii (kiov_base x) (kiov_len x) ;;
          heap_op (ki_destroy kit) ;; heap_op (ki_destroy (Some kr)) ;; mret (Some (-1), dels)
        else
          k ← heap_op (ki_next kit);
          delete_keys fuel ktd ka o p kit kr dels k
  end.

Definition kctl_del_range (fuel : nat) (ktd : Z) (o : kdel_opts) (p : ptr) (ka : kargs) : T (Z * kargs) :=
  kr ← heap_op (ki_create ktd KRANGE_T);
  match kr with
  | None => mret (-1, ka)
  | Some kr =>
      ok ← set_range (kdo_start o) (kdo_starti o) (kdo_end o) (kdo_endi o) false (kdo_count o) kr;
      if negb ok then mret (-1, ka) else
      print (text (if ka_yes ka then "***DELETING " else "***DELETE ") ++
             (if kdo_all o then text "All Keys: [{FIRSTKEY}, {LASTKEY}]:unlimited"
              else text "Key Range " ++
                   range_text (kdo_start o) (kdo_starti o) (kdo_end o) (kdo_endi o) true (kdo_count o))) ;;
      yes ← say_yes ka (text "?" ++ newline ++ yn_prompt);
      if negb yes then mret (0, ka) else
      print newline ;;
      kit ← heap_op (ki_create ktd KITER_T);
      match kit with
      | None => mret (-1, ka)
      | Some _ =>
          k ← heap_op (ki_start kit (Some kr));
          '(rc, dels) ← delete_keys fuel ktd ka o p kit kr 0 k;
          match rc with
          | Some rc => mret (rc, ka)
          | None =>
              ok ← flush_after ktd o;
              if negb ok then mret (-1, ka) else
              (if ka_verbose ka then name ← kname ka; print (name ++ text ": Deleted " ++ decimal dels ++ text " keys" ++ newline)
               else mret tt) ;;
              heap_op (ki_destroy kit) ;;
              heap_op (ki_destroy (Some kr)) ;;
              mret (0, ka)
          end
      end
  end.

Definition kctl_del (fuel : nat) (permute : bool) (args : list buffer) (ktd : Z) (ka : kargs) : T (Z * kargs) :=
  let '(evs, rest) := getopt (optstring (text "abcFp:s:S:e:E:n:h?")) permute None args in
  match kdel_options ka evs kdel_opts0 with
  | None => mret (-1, ka)
  | Some o =>
      kv ← heap_op (ki_create ktd KV_T);
      match kv with
      | None => mret (-1, ka)
      | Some p =>
          heap_op (upd_kv p (set_vecs [kiov0] [kiov0])) ;;
          heap_op (upd_kv p (set_kv_cpolicy (kdo_policy o))) ;;
          match rest, HAVE_RANGE o with
          | [w], false => kctl_del_key ktd o p w ka
          | [], true => kctl_del_range fuel ktd o p ka
          | _, _ => mret (-1, ka)
          end
      end
  end.

(** ** The tool ([kctl.c])

    [other] is the commands ping, info, stats and exec; [connect] is [ki_open] on
    the fields of the connection, [hangup] is [ki_close]. *)
Definition khandler : Type := bool -> list buffer -> Z -> kargs -> T (Z * kargs).
Context (fuel : nat) (other : kctl_cmd -> khandler).
Definition ktable : list (kctl_cmd * buffer * khandler) :=
  [(KCTL_NOOP, text "ping", other KCTL_NOOP); (KCTL_GET, text "get", kctl_get); (KCTL_GETNEXT, text "getnext", kctl_get);
   (KCTL_GETPREV, text "getprev", kctl_get); (KCTL_GETVERS, text "getvers", kctl_get); (KCTL_PUT, text "put", kctl_put);
   (KCTL_DEL, text "del", kctl_del fuel); (KCTL_GETLOG, text "info", other KCTL_GETLOG); (KCTL_RANGE, text "range", kctl_range fuel);
   (KCTL_BATCH, text "batch", kctl_batch); (KCTL_STATS, text "stats", other KCTL_STATS); (KCTL_FLUSH, text "flush", kctl_flush);
   (KCTL_EXEC, text "exec", other KCTL_EXEC)].
Definition kfind_cmd (name : buffer) : option (kctl_cmd * buffer * khandler) :=
  snd <$> list_find (fun e => e.1.2 = name) ktable.

Context (connect : kconn -> ST (@bst R) Z) (hangup : Z -> ST (@bst R) Z).

(** The descriptor, or what makes it fail: a connection without limits is not
    closed. *)
Definition kctl_start (ka : kargs) : T (Z * kargs) :=
  ktd ← on_kv (connect (ka_conn ka));
  if ktd <? 0 then mret (-1, ka) else
  l ← on_kv (limits ktd);
  let ka := set_ka_limits l ka in
  if kl_keylen l =? 0 then mret (-1, ka) else mret (ktd, ka).

(** [kctl]: the word is one of the table. *)
Definition kctl (args : list buffer) (ka : kargs) : T (Z * kargs) :=
  '(ktd, ka) ← kctl_start ka;
  if ktd <? 0 then mret (EINVAL, ka) else
  match list_find (fun e : kctl_cmd * buffer * khandler => e.1.1 = ka_cmd ka) ktable with
  | Some (_, (_, _, h)) => '(rc, ka) ← h false args ktd ka; _ ← on_kv (hangup ktd); mret (rc, ka)
  | None => ub_st
  end.

(** [atoi] *)
Definition atoi (s : buffer) : Z :=
  let t := skip_space s in
  let '(neg, t) := match t with 45 :: t' => (true, t') | 43 :: t' => (false, t') | _ => (false, t) end in
  let '(v, _, _) := digits 10 t 0 false in
  i32 (Z.max (- 2 ^ 63) (Z.min (2 ^ 63 - 1) (if neg : bool then - v else v))).

(** The common options of [main]; [script] and [inp] as in [BkvTool] *)
Context (script : buffer -> option (list buffer)).
Definition kset_host v ka := let c := ka_conn ka in
  set_ka_conn (Kconn (kn_user c) (kn_hkey c) v (kn_port c) (kn_usetls c) (kn_timeout c) (kn_clustervers c)) ka.
Definition kset_hkey v ka := let c := ka_conn ka in
  set_ka_conn (Kconn (kn_user c) v (kn_host c) (kn_port c) (kn_usetls c) (kn_timeout c) (kn_clustervers c)) ka.
Definition kset_port v ka := let c := ka_conn ka in
  set_ka_conn (Kconn (kn_user c) (kn_hkey c) (kn_host c) v (kn_usetls c) (kn_timeout c) (kn_clustervers c)) ka.
Definition kset_user v ka := let c := ka_conn ka in
  set_ka_conn (Kconn v (kn_hkey c) (kn_host c) (kn_port c) (kn_usetls c) (kn_timeout c) (kn_clustervers c)) ka.
Definition kset_usetls v ka := let c := ka_conn ka in
  set_ka_conn (Kconn (kn_user c) (kn_hkey c) (kn_host c) (kn_port c) v (kn_timeout c) (kn_clustervers c)) ka.
Definition kset_clustervers v ka := let c := ka_conn ka in
  set_ka_conn (Kconn (kn_user c) (kn_hkey c) (kn_host c) (kn_port c) (kn_usetls c) (kn_timeout c) v) ka.
Definition kset_flags (q t v y s : bool) (i : kctl_input) (ka : kargs) : kargs := set_ka_flags (Kflags q t v i y s) ka.
Definition kset_input i ka := let f := ka_flags ka in kset_flags (kf_quiet f) (kf_terse f) (kf_verbose f) (kf_yes f) (kf_stats f) i ka.
Definition kusage_exits (ka : kargs) : bool := bool_decide (ka_input ka = KCTL_CMDLINE).

Fixpoint kmain_options (evs : list (Z * option buffer)) (ka : kargs) (inp : option (list buffer)) :
    kargs * option (list buffer) + Z :=
  match evs with
  | [] => inl (ka, inp)
  | (c, arg) :: evs =>
      let f := ka_flags ka in
      let usage ka inp := if kusage_exits ka then inr 2 else kmain_options evs ka inp in
      match c, arg with
      | 104, Some a => kmain_options evs (kset_host a ka) inp
      | 109, Some a => kmain_options evs (kset_hkey a ka) inp
      | 112, Some a => kmain_options evs (kset_port a ka) inp
      | 99, Some a =>
          let '(v, rest) := strtol a in
          let ka := kset_clustervers v ka in
          if bool_decide (rest <> []) then usage ka inp else kmain_options evs ka inp
      | 102, Some a =>
          match script a with
          | Some l => kmain_options evs (kset_input KCTL_SCRIPT ka) (Some l)
          | None => if kusage_exits ka then inr 2 else kmain_options evs (kset_input KCTL_SCRIPT ka) (Some [])
          end
      | 115, _ => kmain_options evs (kset_usetls 1 ka) inp
      | 83, _ => kmain_options evs (kset_flags (kf_quiet f) (kf_terse f) (kf_verbose f) (kf_yes f) true (kf_input f) ka) inp
      | 113, _ => kmain_options evs (kset_flags true (kf_terse f) (kf_verbose f) (kf_yes f) (kf_stats f) (kf_input f) ka) inp
      | 116, _ => kmain_options evs (kset_flags (kf_quiet f) true (kf_verbose f) (kf_yes f) (kf_stats f) (kf_input f) ka) inp
      | 117, Some a => kmain_options evs (kset_user (atoi a) ka) inp
      | 118, _ => kmain_options evs (kset_flags (kf_quiet f) (kf_terse f) true (kf_yes f) (kf_stats f) (kf_input f) ka) inp
      | 86, _ => inr 0
      | 121, _ => kmain_options evs (kset_flags (kf_quiet f) (kf_terse f) (kf_verbose f) true (kf_stats f) (kf_input f) ka) inp
      | _, _ => usage ka inp
      end
  end.

(** What [env], [version] and the verbose mode print *)
Definition kprint_args (ka : kargs) : T unit :=
  let c := ka_conn ka in
  let f := ka_flags ka in
  name ← kname ka;
  let user := decimal (kn_user c) in
  print (line "URL:" (text "kinetic" ++ (if kn_usetls c =? 0 then [] else text "s") ++ text "://" ++ user ++ text ":" ++ kn_hkey c ++
           text "@" ++ kn_host c ++ text ":" ++ kn_port c ++ text "/" ++ name) ++
         line "Host:" (kn_host c) ++ line "Port:" (kn_port c) ++ line "UserID:" user ++ line "HMAC Key:" (kn_hkey c) ++
         line "Use TLS:" (decimal (kn_usetls c)) ++ line "Timeout:" (decimal (kn_timeout c)) ++
         line "Cluster Version:" (decimal (kn_clustervers c)) ++ line "Batch:" (show_ptr (ka_batch ka)) ++
         line "Yes:" (flag (kf_yes f)) ++ line "Quiet:" (flag (kf_quiet f)) ++ line "Terse:" (flag (kf_terse f)) ++
         line "Verbose:" (flag (kf_verbose f)) ++ line "Command:" name).
Definition kprint_version `{Build} : T unit :=
  kver ← heap_op (ki_create (-1) KVERSION_T);
  r ← heap_op (ki_version kver);
  v ← deref_st r.2;
  print (text "KCTL Version: 1.0.0" ++ newline ++
         text "Kinetic Protobuf Version: " ++ text (kvn_pb_kinetic_vers v) ++ newline ++
         text "Kinetic Library Version: " ++ text (kvn_ki_vers v) ++ newline ++
         text "Kinetic Library Git Hash: " ++ text (kvn_ki_githash v) ++ newline ++
         text "Protobuf C Version: " ++ text (kvn_pb_c_vers v) ++ newline) ;;
  heap_op (ki_destroy kver) ;; mret tt.

(** A line is read and cut into words by the same code as in [bkv.c]. *)
Definition kread_line (ka : kargs) : T (option buffer) :=
  read_line (if bool_decide (ka_input ka = KCTL_INTERACTIVE) then BKV_INTERACTIVE else BKV_SCRIPT).
Definition kctl_argv (l : buffer) : outcome (list buffer * bool) := parse_line l.
Definition ktoggle_verbose (ka : kargs) : kargs :=
  let f := ka_flags ka in kset_flags (kf_quiet f) (kf_terse f) (negb (kf_verbose f)) (kf_yes f) (kf_stats f) (kf_input f) ka.
Definition ktoggle_yes (ka : kargs) : kargs :=
  let f := ka_flags ka in kset_flags (kf_quiet f) (kf_terse f) (kf_verbose f) (negb (kf_yes f)) (kf_stats f) (kf_input f) ka.

Definition kctl_line `{Build} (ktd : Z) (l : buffer) (ka : kargs) : T (kargs + kargs) :=
  '(argv, unmatched) ← lift (kctl_argv l);
  match argv with
  | [] => mret (inl ka)
  | w :: args =>
      (if bool_decide (ka_input ka = KCTL_SCRIPT) then print (text "kctl> " ++ spaced argv ++ newline) else mret tt) ;;
      if negb (hd 0 w =? comment) && unmatched then mret (inl ka) else
      (if ka_verbose ka then print (show_argv 0 argv) else mret tt) ;;
      if bool_decide (w = text "quit") then mret (inr ka)
      else if bool_decide (w = text "echo") then print (spaced args ++ newline) ;; mret (inl ka)
      else if bool_decide (w = text "help") then mret (inl ka)
      else if bool_decide (w = text "env") then kprint_args ka ;; mret (inl ka)
      else if bool_decide (w = text "verbose") then
        let ka := ktoggle_verbose ka in
        print (text "Verbose Mode in " ++ on_off (ka_verbose ka) ++ newline) ;; mret (inl ka)
      else if bool_decide (w = text "version") then kprint_version ;; mret (inl ka)
      else if bool_decide (w = text "yes") then
        let ka := ktoggle_yes ka in
        print (text "Yes Mode in " ++ on_off (ka_yes ka) ++ newline) ;; mret (inl ka)
      else
        match kfind_cmd w with
        | Some (c, _, h) =>
            '(_, ka) ← h true args ktd (set_ka_cmd c (Some w) ka);
            mret (inl (set_ka_cmd (ka_cmd ka) None ka))
        | None => mret (inl (set_ka_cmd (ka_cmd ka) None ka))
        end
  end.
Fixpoint kctl_loop `{Build} (lines : nat) (ktd : Z) (ka : kargs) : T kargs :=
  match lines with
  | O => fun _ => NoFuel
  | S lines =>
      l ← kread_line ka;
      match l with
      | None => mret ka
      | Some l => r ← kctl_line ktd l ka; match r with inl ka => kctl_loop lines ktd ka | inr ka => mret ka end
      end
  end.
Definition kctl_interactive `{Build} (lines : nat) (ka : kargs) : T unit :=
  '(ktd, ka) ← kctl_start ka;
  if ktd <? 0 then mret tt else
  ka ← kctl_loop lines ktd ka;
  (if ka_verbose ka then print (newline ++ text "kctl exiting" ++ newline) else mret tt) ;;
  _ ← on_kv (hangup ktd); mret tt.

(** The exit code of the program: 0 once a command ran, whatever it answered *)
Definition kctl_main `{Build} (lines : nat) (progname : buffer) (args : list buffer) : T Z :=
  let '(evs, rest) := getopt (optstring (text "c:f:h:m:p:qsSu:tvVy?")) false None args in
  match kmain_options evs (kargs0 progname) None with
  | inr code => (if code =? 0 then kprint_version else mret tt) ;; mret code
  | inl (ka, inp) =>
      modify_st (fun t => Tst (t_kv t) (default (t_in t) inp) (t_out t)) ;;
      match rest with
      | w :: args =>
          if bool_decide (ka_input ka = KCTL_CMDLINE) then
            match kfind_cmd w with
            | None => mret 2
            | Some (c, _, _) =>
                let ka := set_ka_cmd c (Some w) ka in
                (if ka_verbose ka && negb (kf_terse (ka_flags ka)) then kprint_args ka else mret tt) ;;
                _ ← kctl args ka; mret 0
            end
          else kctl_interactive lines ka ;; mret 0
      | [] =>
          let ka := if bool_decide (ka_input ka = KCTL_CMDLINE) then kset_input KCTL_INTERACTIVE ka else ka in
          (if ka_verbose ka && bool_decide (ka_input ka = KCTL_INTERACTIVE) then print (text "Going interactive..." ++ newline) else mret tt) ;;
          kctl_interactive lines ka ;; mret 0
      end
  end.
End kctl.
