(* ===== verification/KctlToolSpec.v ===== *)
(** What the put of the tool kctl does: the version it writes is the text of the
    number after the one the drive holds, and over a drive that keeps a value and
    a version for every key a put, with any of its options, is a short program on
    that map. *)

From stdpp Require Import gmap strings pretty.
From S2P Require Import Prelude Types Keys Ktb Validate Errors Labels Iter BasicKv Toolbox BkvTool BkvToolSpec KctlTool.

(** ** Numbers *)

(** The digits of [n] in front of a text are read as [n]. *)
Lemma padded_S digit base w n : padded digit base (S w) n = digit (n / base ^ Z.of_nat w mod base) :: padded digit base w n.
Proof.
  unfold padded. cbn [seq fmap list_fmap]. f_equal.
  - do 4 f_equal. lia.
  - rewrite <- fmap_S_seq, <- list_fmap_compose. apply list_fmap_ext. intros i x Hx. unfold compose. do 4 f_equal.
Qed.
Lemma digits_padded digit base w n rest :
  1 < base -> (forall d, 0 <= d < base -> digit_of base (digit d) = Some d) -> 0 <= n ->
  forall acc any, digits base (padded digit base w n ++ rest) acc any =
    digits base rest (acc * base ^ Z.of_nat w + n mod base ^ Z.of_nat w) (any || (0 <? Z.of_nat w)).
Proof.
  intros Hb Hd Hn. induction w as [|w IH]; intros acc any.
  - cbn [padded seq fmap list_fmap app]. rewrite Z.mod_1_r, orb_false_r. f_equal. change (Z.of_nat 0) with 0. lia.
  - rewrite padded_S. cbn [app digits].
    assert (0 < base ^ Z.of_nat w) by (apply Z.pow_pos_nonneg; lia).
    rewrite Hd by (apply Z.mod_pos_bound; lia). rewrite IH. cbv iota. f_equal.
    + rewrite Nat2Z.inj_succ, Z.pow_succ_r by lia.
      rewrite (Z.mul_comm base (base ^ _)), Z.rem_mul_r by lia. lia.
    + by rewrite orb_true_r.
Qed.
Lemma hex_lower_digit d : 0 <= d < 16 -> digit_of 16 (hex_lower d) = Some d.
Proof.
  intros H. assert (Hall : Forall (fun d => digit_of 16 (hex_lower d) = Some d) (Z.of_nat <$> seq 0 16)) by repeat constructor.
  rewrite Forall_forall in Hall. apply Hall. apply list_elem_of_fmap. exists (Z.to_nat d). split; [lia|]. apply elem_of_seq. lia.
Qed.
Lemma zlen_padded digit base w n : zlen (padded digit base w n) = Z.of_nat w.
Proof. unfold padded, zlen. by rewrite length_fmap, length_seq. Qed.

(** The version is read back as the number it was written from. *)
Lemma strtoul16_version n : 0 <= n < 2 ^ 32 -> strtoul16 (version_text n ++ [0]) = Ok n.
Proof.
  intros H. unfold version_text. change (text "0x") with [48; 120]. cbn [app].
  assert (E : exists c r, hex8 n ++ [0] = c :: r /\ digit_hex c <> None).
  { unfold hex8. rewrite padded_S. eexists _, _. split; [reflexivity|].
    pose proof (hex_lower_digit (n / 16 ^ Z.of_nat 7 mod 16) ltac:(apply Z.mod_pos_bound; lia)) as Hd.
    intros Hn. unfold digit_of in Hd. by rewrite Hn in Hd. }
  destruct E as (c & r & E & Hc). rewrite E. unfold strtoul16. cbn [skip_space]. cbv iota.
  change (isspace 48) with false. cbv iota. change (120 =? 120) with true. cbn [orb andb].
  rewrite bool_decide_true by done. rewrite <- E. unfold hex8.
  assert (Hn : 0 <= n) by lia. pose proof (digits_padded hex_lower 16 8 n [0] eq_refl hex_lower_digit Hn 0 false) as Hp.
  rewrite Hp, Z.mul_0_l, Z.add_0_l.
  change (16 ^ Z.of_nat 8) with (2 ^ 32). rewrite Z.mod_small by lia. cbn [digits].
  change (digit_of 16 0) with (@None Z). cbv iota beta.
  assert (n >? ULONG_MAX = false) as -> by (change ULONG_MAX with 18446744073709551615; lia). done.
Qed.
Lemma zlen_version n : zlen (version_text n ++ [0]) = VERLEN.
Proof. unfold version_text. rewrite !zlen_app. unfold hex8. by rewrite zlen_padded. Qed.

(** ** A drive that keeps a value and a version for every key *)
Notation versions := (gmap buffer (buffer * Z)).

(** A structure as the calls read it: the vectors up to their counts *)
Definition cut (v : kv) : kv :=
  Kv (take (Z.to_nat (kv_keycnt v)) <$> kv_key v) (kv_keycnt v) (take (Z.to_nat (kv_valcnt v)) <$> kv_val v) (kv_valcnt v)
    (kv_ver v) (kv_verlen v) (kv_newver v) (kv_newverlen v) (kv_disum v) (kv_disumlen v) (kv_ditype v) (kv_cpolicy v) (kv_metaonly v).
Definition same_vecs (v v' : kv) : Prop :=
  kv_key v' = kv_key v /\ kv_keycnt v' = kv_keycnt v /\ kv_val v' = kv_val v /\ kv_valcnt v' = kv_valcnt v.

(** A healthy session over such a drive: a version that is there comes back on
    the structure; a put stores the new version, and one that compares succeeds
    when the version given is the one the drive has, and is not sent without one;
    dropping a response touches nothing else. *)
Class VersionLaws {SZ : Sizes} {R} (KS : KvService R) (KC : KctlService R) (view : R -> versions) (lim : klimits) := {
  vl_limits ktd x : ki_limits ktd x = lim;
  vl_bounds x k e : view x !! k = Some e -> 0 <= e.2 < 2 ^ 32;
  vl_getversion ktd v m x kb :
    mem_ok m -> kv_valid (cut v) false false lim = true -> vec_val (kv_key (cut v)) kb ->
    exists rc v' m' x', ki_getversion ktd v (m, x) = Ok ((rc, v'), (m', x')) /\ mem_ok m' /\ view x' = view x /\ same_vecs v v' /\
      match view x !! kb with
      | Some (_, n) => rc = K_OK /\ kv_ver v' = Some (version_text n ++ [0]) /\ kv_verlen v' = VERLEN
      | None => rc = K_ENOTFOUND /\ kv_ver v' = kv_ver v /\ kv_verlen v' = kv_verlen v
      end;
  vl_put ktd v m x kb vb n :
    mem_ok m -> kv_valid (cut v) false true lim = true -> vec_val (kv_key (cut v)) kb -> vec_val (kv_val (cut v)) vb ->
    kv_newver v = Some (version_text n ++ [0]) -> kv_newverlen v = VERLEN -> 0 <= n < 2 ^ 32 ->
    exists m' x', kc_put ktd None v (m, x) = Ok ((K_OK, v), (m', x')) /\ mem_ok m' /\ view x' = <[kb := (vb, n)]> (view x);
  vl_cas ktd v m x kb vb n v0 n0 :
    mem_ok m -> kv_valid (cut v) true true lim = true -> vec_val (kv_key (cut v)) kb -> vec_val (kv_val (cut v)) vb ->
    kv_newver v = Some (version_text n ++ [0]) -> kv_newverlen v = VERLEN -> 0 <= n < 2 ^ 32 ->
    view x !! kb = Some (v0, n0) -> kv_ver v = Some (version_text n0 ++ [0]) -> kv_verlen v = VERLEN ->
    exists m' x', kc_cas ktd None v (m, x) = Ok ((K_OK, v), (m', x')) /\ mem_ok m' /\ view x' = <[kb := (vb, n)]> (view x);
  vl_cas_invalid ktd v s : kv_valid (cut v) true true lim = false -> kc_cas ktd None v s = Ok ((K_EINVAL, v), s);
  vl_forget run v m x :
    mem_ok m -> exists m' x', kc_forget run v (m, x) = Ok (tt, (m', x')) /\ mem_ok m' /\ view x' = view x }.

(** What one put does to the map: the first version is 0, and then the next
    number of 32 bits; with [-c] a key that is not there is refused. *)
Definition put_one (cas : bool) (k v : buffer) (m : versions) : option versions :=
  match m !! k with
  | Some (_, n) => Some (<[k := (v, u32 (n + 1))]> m)
  | None => if cas then None else Some (<[k := (v, 0)]> m)
  end.
(** Several, up to the first that is refused *)
Fixpoint put_all (cas : bool) (ks : list buffer) (v : buffer) (m : versions) : Z * versions :=
  match ks with
  | [] => (0, m)
  | k :: ks => match put_one cas k v m with Some m => put_all cas ks v m | None => (-1, m) end
  end.

(** ** Runs *)
Section runs.
Context {S : Type}.
(** The run of [m] from [s] ends as [Q] says. *)
Definition runs {A} (m : ST S A) (s : S) (Q : A -> S -> Prop) : Prop := exists a s', m s = Ok (a, s') /\ Q a s'.
Lemma runs_bind {A B} (m : ST S A) (f : A -> ST S B) s P Q :
  runs m s P -> (forall a s', P a s' -> runs (f a) s' Q) -> runs (m ≫= f) s Q.
Proof.
  intros (a & s1 & E & HP) Hf. destruct (Hf a s1 HP) as (b & s2 & E2 & HQ). exists b, s2.
  split; [|done]. by rewrite (bind_Ok _ _ _ _ _ E).
Qed.
Lemma runs_ret {A} (a : A) s (Q : A -> S -> Prop) : Q a s -> runs (mret a) s Q.
Proof. intros H. by exists a, s. Qed.
Lemma runs_weaken {A} (m : ST S A) s (P Q : A -> S -> Prop) : runs m s P -> (forall a s', P a s' -> Q a s') -> runs m s Q.
Proof. intros (a & s' & E & H) HQ. exists a, s'. auto. Qed.
Lemma runs_bind_ret {A B} (a : A) (f : A -> ST S B) s Q : runs (f a) s Q -> runs (mret a ≫= f) s Q.
Proof. done. Qed.
End runs.

Section put.
Context {SZ : Sizes} {KE : KtbEnv} {R : Type} {KS : KvService R} {KC : KctlService R}
        (files : buffer -> option file) (show_ptr : option ptr -> buffer)
        (view : R -> versions) (lim : klimits) {VL : VersionLaws KS KC view lim} (Hlim : lim_ok lim) (Hver : VERLEN <= kl_verlen lim).
Implicit Types (t : @tst R) (v : kv) (p : ptr).
Context (ktd : Z) (t0 : @tst R).

(** [t] is a state of the call that began at [t0]: its structure is at [p],
    nothing was printed, and the map is [m]. *)
Definition vmap t : versions := view (t_kv t).2.
Definition quiet t : Prop := mem_ok (h_mem (t_kv t).1) /\ t_in t = t_in t0 /\ t_out t = t_out t0.
Definition before (m : versions) t : Prop :=
  quiet t /\ h_blocks (t_kv t).1 = h_blocks (t_kv t0).1 /\ vmap t = m.
Definition within p v (m : versions) t : Prop :=
  owns (t_kv t) p v (h_blocks (t_kv t0).1) /\ quiet t /\ vmap t = m.

Lemma within_quiet p v m t s' :
  quiet t -> owns s' p v (h_blocks (t_kv t0).1) -> view s'.2 = m -> within p v m (Tst s' (t_in t) (t_out t)).
Proof. intros (_ & Hi & Ho) Hs Hv. split; [done|]. split; [|done]. split; [apply Hs|done]. Qed.
Lemma create_step m t : before m t -> runs (heap_op (ki_create ktd KV_T)) t (fun a t' => exists p, a = Some p /\ within p kv0 m t').
Proof.
  intros (Hq & Hb & Hm). destruct (create_run (t_kv t) ktd ltac:(apply Hq)) as (p & s' & E & Ho & _ & Hx).
  eexists _, _. split; [by apply on_kv_run|]. exists p. split; [done|]. rewrite Hb in Ho.
  apply within_quiet; [done|done|]. by rewrite Hx.
Qed.
Lemma upd_step p v m t f : within p v m t -> runs (heap_op (upd_kv p f)) t (fun _ => within p (f v) m).
Proof.
  intros (Ho & Hq & Hm). destruct (upd_kv_owns _ p v _ f Ho) as (s' & E & Ho' & _ & Hx).
  eexists _, _. split; [by apply on_kv_run|]. apply within_quiet; [done..|]. by rewrite Hx.
Qed.
Lemma read_step p v m t : within p v m t -> runs (heap_op (get_kv p)) t (fun v' t' => v' = v /\ within p v m t').
Proof.
  intros Hw. pose proof Hw as (Ho & Hq & Hm). eexists _, _. split; [apply on_kv_run; by eapply get_kv_owns|].
  split; [done|]. destruct t. exact Hw.
Qed.
Lemma call_step p v m t f rc v' m' x' :
  within p v m t -> f v (h_mem (t_kv t).1, (t_kv t).2) = Ok ((rc, v'), (m', x')) -> mem_ok m' ->
  runs (call f p) t (fun a t' => a = rc /\ within p v' (view x') t').
Proof.
  intros (Ho & Hq & Hm) E Hm'. destruct (service_owns _ p v _ f rc v' m' x' Ho E Hm') as (s' & E' & Ho' & _ & Hx).
  eexists _, _. split; [by apply on_kv_run|]. split; [done|]. apply within_quiet; [done..|]. by rewrite Hx.
Qed.
Lemma forget_step p v m t b : within p v m t -> runs (forget b p) t (fun _ => within p v m).
Proof.
  intros Hw. unfold forget. eapply runs_bind; [by apply read_step|]. intros v1 t1 (-> & Ho & (Hm1 & Hi & Hout) & Hv).
  destruct (vl_forget b v (h_mem (t_kv t1).1) (t_kv t1).2 Hm1) as (m' & x' & E & Hm' & Hx).
  unfold remote. eexists _, _. rewrite E. split; [done|]. destruct Ho as (Hn & _ & Hk).
  split; [by split|]. split; [by split|]. unfold vmap. cbn. by rewrite Hx.
Qed.
Lemma free_step p v m t : within p v m t -> runs c_free t (fun _ => within p v m).
Proof.
  intros (Ho & Hq & Hm). destruct (free_owns _ p v _ Ho) as (s' & E & Ho' & _ & Hx).
  eexists _, _. split; [by apply on_kv_run|]. apply within_quiet; [done..|]. by rewrite Hx.
Qed.
Lemma destroy_step p v m t : within p v m t -> runs (heap_op (ki_destroy (Some p))) t (fun _ => before m).
Proof.
  intros (Ho & Hq & Hm). destruct (destroy_owns _ p v _ Ho) as (s' & E & Hb & _ & Hx & Hm').
  eexists _, _. split; [by apply on_kv_run|]. destruct Hq as (_ & Hi & Hout).
  split; [by split|]. split; [done|]. unfold vmap. cbn. by rewrite Hx.
Qed.

(** *** One put *)

(** A structure at rest, with the key [k] hung on it *)
Definition idle (k : buffer) (v : kv) : Prop :=
  (kv_ver v = None /\ kv_newver v = None /\ kv_disum v = None /\ kv_cpolicy v = 0) /\
  (exists x, kv_val v = Some [x]) /\ kv_valcnt v = 1 /\
  vec_val (kv_key (cut v)) k /\ vec_ok (kv_key (cut v)) (kl_keylen lim) = true.
Lemma idle_valid k v : idle k v -> kv_valid (cut v) false false lim = true.
Proof.
  intros ((H1 & H2 & H3 & H4) & _ & _ & _ & Hk). rewrite kv_valid_fields, Hk. cbn [negb orb andb]. rewrite kv_fields_run.
  cbn [cut kv_ver kv_newver kv_disum kv_cpolicy]. by rewrite H1, H2, H3, H4.
Qed.

(** The structure as it is sent *)
Definition dressed (v : kv) (n sum cpolicy : Z) (val : buffer) : kv :=
  set_val0 (Kiovec (Some val) (zlen val)) (set_kv_put (Some (version_text n ++ [0])) VERLEN (Some (le32 sum)) 4 KDI_CRC32 cpolicy 0 v).
Lemma dressed_vecs k v v1 n sum cpolicy val :
  idle k v -> same_vecs v v1 ->
  kv_key (cut (dressed v1 n sum cpolicy val)) = kv_key (cut v) /\
  kv_val (cut (dressed v1 n sum cpolicy val)) = Some [Kiovec (Some val) (zlen val)].
Proof.
  intros (_ & (x & Hx) & Hc & _) (E1 & E2 & E3 & E4).
  cbn [cut dressed set_val0 set_kv_put kv_key kv_keycnt kv_val kv_valcnt]. rewrite E1, E2, E3, E4, Hx, Hc. done.
Qed.
Lemma dressed_valid k v v1 n sum cpolicy val cas :
  idle k v -> same_vecs v v1 -> (kv_ver v1 = None \/ exists b, kv_ver v1 = Some b /\ kv_verlen v1 = VERLEN) ->
  zlen val <= kl_vallen lim -> cpolicy_ok cpolicy = true ->
  kv_valid (cut (dressed v1 n sum cpolicy val)) cas true lim = negb cas || bool_decide (kv_ver v1 <> None).
Proof.
  intros Hid Hs Hv1 Hval Hcp. destruct (dressed_vecs k v v1 n sum cpolicy val Hid Hs) as (Ek & Ev).
  rewrite kv_valid_fields, Ek, Ev. destruct Hid as (_ & _ & _ & _ & ->).
  destruct Hlim as (_ & ? & _ & Hd). pose proof (zlen_nonneg val). rewrite vec_ok_1 by lia. cbn [negb orb andb].
  rewrite kv_fields_run. cbn [cut dressed set_val0 set_kv_put kv_ver kv_verlen kv_newver kv_newverlen kv_disum kv_disumlen kv_ditype kv_cpolicy].
  rewrite Hcp, !orb_true_r. cbn [field_ok present]. unfold VERLEN in *. assert (11 <= kl_verlen lim) by exact Hver.
  replace (11 <=? kl_verlen lim) with true by lia. replace (4 <=? kl_disumlen lim) with true by lia.
  change (1 <=? 11) with true. change (1 <=? 4) with true. change (ditype_ok KDI_CRC32) with true. cbn [andb negb orb].
  destruct Hv1 as [->|(b & -> & ->)]; cbn [field_ok present].
  - rewrite bool_decide_false by tauto. by destruct cas.
  - replace (11 <=? kl_verlen lim) with true by lia. rewrite bool_decide_true by done. by destruct cas.
Qed.

(** The version that goes out, read from the answer of the drive *)
Definition next (e : option (buffer * Z)) : Z := match e with Some (_, n) => u32 (n + 1) | None => 0 end.
Definition versioned (v v1 : kv) (e : option (buffer * Z)) (rc : Z) : Prop :=
  same_vecs v v1 /\
  match e with
  | Some (_, n) => rc = K_OK /\ kv_ver v1 = Some (version_text n ++ [0]) /\ kv_verlen v1 = VERLEN /\ 0 <= n < 2 ^ 32
  | None => rc = K_ENOTFOUND /\ kv_ver v1 = None
  end.
Lemma getversion_step p v m t k :
  idle k v -> within p v m t ->
  runs (call (ki_getversion ktd) p) t (fun rc t' => exists v1, within p v1 m t' /\ versioned v v1 (m !! k) rc).
Proof.
  intros Hid Hw. pose proof Hw as (_ & (Hm & _) & Hx).
  destruct (vl_getversion ktd v (h_mem (t_kv t).1) (t_kv t).2 k Hm (idle_valid k v Hid) ltac:(apply Hid))
    as (rc & v' & m' & x' & E & Hm' & Hx' & Hs & Hv).
  destruct (call_step p v m t _ rc v' m' x' Hw E Hm') as (a & t' & E' & -> & Hw').
  exists rc, t'. split; [done|]. exists v'. unfold vmap in Hx. rewrite Hx', Hx in Hw'. split; [done|]. split; [done|].
  fold (vmap t) in Hx. rewrite <- Hx. unfold vmap. destruct (view (t_kv t).2 !! k) as [[v0 n]|] eqn:Ek.
  - pose proof (vl_bounds _ _ _ Ek). naive_solver.
  - destruct Hid as ((Hn & _) & _). destruct Hv as (-> & -> & _). done.
Qed.
Lemma next_version_run v v1 e rc t :
  versioned v v1 e rc -> next_version rc v1 t = Ok ((version_text (next e), bool_decide (e <> None)), t).
Proof.
  intros (_ & H). unfold next_version. destruct e as [[v0 n]|].
  - destruct H as (-> & Hv & _ & Hn). change (K_OK =? K_OK) with true. cbv iota. rewrite Hv.
    erewrite bind_Ok by done. cbv beta. erewrite bind_Ok by (apply lift_Ok; by apply strtoul16_version). cbv beta.
    rewrite bool_decide_true by done. cbn [next]. by rewrite (u64_small (n + 1)) by lia.
  - destruct H as (-> & _). by rewrite bool_decide_false by tauto.
Qed.
Lemma next_bounds e : 0 <= next e < 2 ^ 32.
Proof. destruct e as [[v n]|]; cbn [next]; [apply u32_range|lia]. Qed.

(** The call that stores *)
Lemma store_step p k v v1 rc0 m t sum cpolicy val (cas : bool) :
  idle k v -> versioned v v1 (m !! k) rc0 -> zlen val <= kl_vallen lim -> cpolicy_ok cpolicy = true ->
  let w := dressed v1 (next (m !! k)) sum cpolicy val in
  within p w m t ->
  runs (if cas then call (kc_cas ktd None) p else call (kc_put ktd None) p) t (fun rc t' =>
    match put_one cas k val m with
    | Some m' => rc = K_OK /\ within p w m' t'
    | None => rc = K_EINVAL /\ within p w m t'
    end).
Proof.
  intros Hid (Hs & Hv) Hval Hcp w Hw. pose proof Hw as (_ & (Hm & _) & Hx).
  destruct (dressed_vecs k v v1 (next (m !! k)) sum cpolicy val Hid Hs) as (Ek & Ev). fold w in Ek, Ev.
  assert (Hkey : vec_val (kv_key (cut w)) k) by (rewrite Ek; apply Hid).
  assert (Hval' : vec_val (kv_val (cut w)) val) by (rewrite Ev; apply vec_val_1).
  assert (Hok : kv_valid (cut w) cas true lim = negb cas || bool_decide (kv_ver v1 <> None)).
  { eapply dressed_valid; [exact Hid|done| |done|done]. destruct (m !! k) as [[? ?]|]; naive_solver. }
  pose proof (next_bounds (m !! k)) as Hn. unfold vmap in Hx. destruct cas; cbn [negb orb] in Hok.
  - destruct (m !! k) as [[v0 n0]|] eqn:Em.
    + destruct Hv as (_ & Hv1 & Hl1 & _). rewrite Hv1, bool_decide_true in Hok by done.
      destruct (vl_cas ktd w _ (t_kv t).2 k val _ v0 n0 Hm Hok Hkey Hval' eq_refl eq_refl Hn) as (m' & x' & E & Hm' & Hx').
      { by rewrite Hx. } { done. } { done. }
      destruct (call_step p w m t _ _ _ _ _ Hw E Hm') as (a & t' & E' & -> & Hw').
      exists K_OK, t'. split; [done|]. unfold put_one. rewrite Em. split; [done|]. by rewrite Hx', Hx in Hw'.
    + destruct Hv as (_ & Hv1). rewrite Hv1, bool_decide_false in Hok by tauto.
      pose proof (vl_cas_invalid ktd w (h_mem (t_kv t).1, (t_kv t).2) Hok) as E.
      destruct (call_step p w m t _ _ _ _ _ Hw E Hm) as (a & t' & E' & -> & Hw').
      exists K_EINVAL, t'. split; [done|]. unfold put_one. rewrite Em. split; [done|]. by rewrite Hx in Hw'.
  - destruct (vl_put ktd w _ (t_kv t).2 k val _ Hm Hok Hkey Hval' eq_refl eq_refl Hn) as (m' & x' & E & Hm' & Hx').
    destruct (call_step p w m t _ _ _ _ _ Hw E Hm') as (a & t' & E' & -> & Hw').
    exists K_OK, t'. split; [done|]. unfold put_one. rewrite Hx', Hx in Hw'. by destruct (m !! k) as [[? ?]|].
Qed.

Definition undressed (w : kv) : kv := set_val0 kiov0 (set_kv_put None 0 None 0 0 0 0 (set_kv_version None 0 w)).
Lemma undressed_idle k v v1 n sum cpolicy val :
  idle k v -> same_vecs v v1 ->
  let w := undressed (dressed v1 n sum cpolicy val) in idle k w /\ kv_key w = kv_key v /\ kv_keycnt w = kv_keycnt v.
Proof.
  intros (_ & (x & Hx) & Hc & Hk & Hl) (E1 & E2 & E3 & E4) w. unfold idle.
  cbn [w undressed dressed cut set_val0 set_kv_put set_kv_version kv_key kv_keycnt kv_val kv_valcnt kv_ver kv_newver kv_disum kv_cpolicy].
  rewrite E1, E2, E3, E4, Hx. split; [|done]. split; [done|]. split; [by exists kiov0|]. done.
Qed.

Lemma kctl_do_put_run ka p v m t sum cpolicy cas k val :
  idle k v -> within p v m t -> ka_val ka = Some val -> ka_vallen ka = zlen val -> zlen val <= kl_vallen lim ->
  ka_verbose ka = false -> cpolicy_ok cpolicy = true ->
  runs (kctl_do_put show_ptr ktd ka p sum cpolicy false cas) t (fun rc t' => exists w,
    (idle k w /\ kv_key w = kv_key v /\ kv_keycnt w = kv_keycnt v) /\
    match put_one cas k val m with Some m' => rc = 0 /\ within p w m' t' | None => rc = -1 /\ within p w m t' end).
Proof.
  intros Hid Hw Hv Hl Hle Hq Hcp. unfold kctl_do_put. rewrite Hv, Hl, Hq.
  eapply runs_bind; [by eapply getversion_step|]. intros rc0 t1 (v1 & H1 & Hver1).
  eapply runs_bind; [by apply read_step|]. intros ? t2 (-> & H2).
  eapply (runs_bind _ _ _ (fun a t' => a = (version_text (next (m !! k)), bool_decide (m !! k <> None)) /\ within p v1 m t')).
  { eexists _, _. split; [by eapply next_version_run|done]. }
  intros a t3 (-> & H3). cbv beta iota.
  eapply runs_bind; [by apply upd_step|]. intros [] t4 H4. eapply runs_bind; [by apply upd_step|]. intros [] t5 H5.
  apply runs_bind_ret. cbv iota.
  eapply runs_bind; [eapply store_step; [exact Hid|done|exact Hle|exact Hcp|exact H5]|]. intros rc t7 H7.
  pose proof (undressed_idle k v v1 (next (m !! k)) sum cpolicy val Hid (proj1 Hver1)) as Hun. cbv zeta in Hun.
  assert (Hend : exists m', within p (dressed v1 (next (m !! k)) sum cpolicy val) m' t7 /\
    forall t' w, within p w m' t' -> match put_one cas k val m with
      | Some m' => (if rc =? K_OK then 0 else -1) = 0 /\ within p w m' t'
      | None => (if rc =? K_OK then 0 else -1) = -1 /\ within p w m t' end).
  { destruct (put_one cas k val m) as [m'|]; destruct H7 as (-> & H7); eexists; (split; [exact H7|]); done. }
  destruct Hend as (m' & H8 & Hend).
  eapply runs_bind; [by apply upd_step|]. intros [] t8 H9. eapply runs_bind; [by apply upd_step|]. intros [] t9 H10.
  eapply runs_bind; [by apply forget_step|]. intros [] t10 H11. eapply runs_bind; [by apply upd_step|]. intros [] t11 H12.
  apply runs_ret. eexists. split; [exact Hun|]. apply Hend, H12.
Qed.

(** *** Several copies *)
Fixpoint copies (k : buffer) (n : nat) (i : Z) : list buffer :=
  match n with O => [] | S n => (k ++ 46 :: dec9 i) :: copies k n (i + 1) end.

(** The structure between two copies *)
Definition paused (k : buffer) (v : kv) : Prop :=
  ((kv_ver v = None /\ kv_newver v = None /\ kv_disum v = None /\ kv_cpolicy v = 0) /\
   (exists x, kv_val v = Some [x]) /\ kv_valcnt v = 1) /\
  (exists y, kv_key v = Some [Kiovec (Some k) (zlen k); y]) /\ kv_keycnt v = 2.
Lemma zlen_suffix i : zlen (46 :: dec9 i) = 10.
Proof. rewrite zlen_cons. unfold dec9. by rewrite zlen_padded. Qed.
Lemma copy_idle k v i :
  paused k v -> 0 < zlen k -> zlen k + 10 <= kl_keylen lim ->
  let w := set_key_at 1 (Kiovec (Some (copy_suffix i)) 10) v in
  idle (k ++ 46 :: dec9 i) w /\ kv_key w = Some [Kiovec (Some k) (zlen k); Kiovec (Some (copy_suffix i)) 10] /\ kv_keycnt w = 2.
Proof.
  intros ((Hf & Hv & Hc) & (y & Hk) & Hn) Hpos Hle w.
  assert (Ek : kv_key w = Some [Kiovec (Some k) (zlen k); Kiovec (Some (copy_suffix i)) 10]).
  { cbn [w set_key_at kv_key]. by rewrite Hk. }
  split; [|done]. split; [exact Hf|]. split; [exact Hv|]. split; [exact Hc|].
  assert (Ec : kv_key (cut w) = kv_key w) by (cbn [cut kv_key]; rewrite Ek; cbn [w set_key_at kv_keycnt]; by rewrite Hn).
  rewrite Ec, Ek. split.
  - exists [Kiovec (Some k) (zlen k); Kiovec (Some (copy_suffix i)) 10], [k; 46 :: dec9 i].
    split; [done|]. split; [|change (k ++ (46 :: dec9 i) ++ [] = k ++ 46 :: dec9 i); by rewrite app_nil_r]. pose proof (zlen_nonneg k).
    constructor; [|constructor; [|constructor]]; (split; [|cbn; lia]); unfold iov_bytes; cbn [kiov_base kiov_len].
    + rewrite Z.leb_refl. unfold zlen. by rewrite Nat2Z.id, take_ge.
    + unfold copy_suffix. change (46 :: dec9 i ++ [0; 0]) with ((46 :: dec9 i) ++ [0; 0]).
      rewrite zlen_app, zlen_suffix. change (10 <=? 10 + zlen [0; 0]) with true. cbv iota.
      rewrite take_app_length' by (pose proof (zlen_suffix i) as E; unfold zlen in E; lia). done.
  - destruct Hlim as (? & _). apply vec_ok_2; lia.
Qed.
Lemma idle_paused k k' v y : idle k' v -> kv_key v = Some [Kiovec (Some k) (zlen k); y] -> kv_keycnt v = 2 -> paused k v.
Proof. intros (H1 & H2 & H3 & _) Hk Hn. split; [done|]. split; [by exists y|done]. Qed.

Lemma put_copies_run ka p sum cpolicy cas k val :
  ka_val ka = Some val -> ka_vallen ka = zlen val -> zlen val <= kl_vallen lim -> ka_verbose ka = false -> cpolicy_ok cpolicy = true ->
  0 < zlen k -> zlen k + 10 <= kl_keylen lim -> forall n i v m t, paused k v -> within p v m t ->
  runs (put_copies show_ptr ktd ka p sum cpolicy false cas n i) t (fun rc t' => exists w,
    rc = (put_all cas (copies k n i) val m).1 /\ within p w (put_all cas (copies k n i) val m).2 t').
Proof.
  intros Hv Hl Hle Hq Hcp Hk Hkl. induction n as [|n IH]; intros i v m t Hp Hw; cbn [put_copies copies put_all].
  { apply runs_ret. by exists v. }
  destruct (copy_idle k v i Hp Hk Hkl) as (Hid & Ek & En).
  eapply runs_bind; [by apply upd_step|]. intros [] t1 H1.
  eapply runs_bind; [eapply kctl_do_put_run; [exact Hid|exact H1|done..]|].
  intros rc t2 (w & (Hidw & Ekw & Enw) & H2). destruct (put_one cas _ val m) as [m'|]; destruct H2 as (-> & H2).
  - apply (IH (i + 1) w m' t2); [|exact H2]. eapply idle_paused; [exact Hidw|by rewrite Ekw|by rewrite Enw].
  - apply runs_ret. by exists w.
Qed.

(** *** The command *)
Lemma decode_step m t w raw n : before m t -> reads w raw -> runs (decode_word w n) t (fun a t' => a = (Some raw, zlen raw) /\ before m t').
Proof.
  intros ((Hm & Hi & Ho) & Hb & Hx) Hr. unfold decode_word, c_malloc.
  destruct (KI_MALLOC_ok (h_mem (t_kv t).1) (zlen w + 1) Hm) as (b & m' & Em & Hm' & _).
  eexists _, _. rewrite (bind_Ok _ _ _ _ _ (on_kv_run _ t _ _ (on_heap_run _ _ _ _ (on_mem_run _ _ _ _ Em)))). cbv beta iota.
  erewrite bind_Ok by (eapply on_kv_run, on_heap_run, lift_Ok; exact Hr). split; [done|]. split; [done|]. by split.
Qed.
Lemma take_key_step m t w raw ka :
  before m t -> reads w raw -> runs (take_kctl_key w ka) t (fun a t' => a = (true, set_ka_key (Some raw) (zlen raw) ka) /\ before m t').
Proof.
  intros Hb Hr. unfold take_kctl_key. eapply runs_bind; [by eapply decode_step|]. intros a t' (-> & H). cbv beta iota.
  apply runs_ret. by rewrite bool_decide_true.
Qed.
Lemma take_val_step m t w raw ka :
  before m t -> reads w raw -> runs (take_kctl_val w ka) t (fun a t' => a = (true, set_ka_val (Some raw) (zlen raw) ka) /\ before m t').
Proof.
  intros Hb Hr. unfold take_kctl_val. eapply runs_bind; [by eapply decode_step|]. intros a t' (-> & H). cbv beta iota.
  apply runs_ret. by rewrite bool_decide_true.
Qed.

(** The keys a put with a count stores *)
Definition put_keys (k : buffer) (count : Z) : list buffer := if count =? 0 then [k] else copies k (Z.to_nat count) 0.

(** The options leave the value to the word, use no batch and no flush, and the
    key fits with its suffix. *)
Definition plain_put (k : buffer) (o : kput_opts) : Prop :=
  kpo_zlen o = -1 /\ kpo_file o = None /\ kpo_bat o = false /\ kpo_flush o = false /\ 0 <= kpo_count o /\
  cpolicy_ok (kpo_policy o) = true /\ 0 < zlen k /\ zlen k + (if kpo_count o =? 0 then 0 else 10) <= kl_keylen lim.

(** The structure [kctl_put] sets up, without and with a suffix *)
Lemma hung_idle k :
  0 < zlen k <= kl_keylen lim ->
  let w := set_key_at 0 (Kiovec (Some k) (zlen k)) (set_kv_keycnt 1 (set_vecs [kiov0; kiov0] [kiov0] kv0)) in
  idle k w /\ paused k (set_kv_keycnt 2 w).
Proof.
  intros Hk w. split.
  - split; [done|]. split; [by exists kiov0|]. split; [done|].
    change (kv_key (cut w)) with (Some [Kiovec (Some k) (zlen k)]). split; [apply vec_val_1|].
    destruct Hlim as (? & _). apply vec_ok_1; lia.
  - split; [|by split; [exists kiov0|]]. split; [done|]. split; [by exists kiov0|done].
Qed.

Lemma put_body_run ka p m t o cas k val :
  ka_val ka = Some val -> ka_vallen ka = zlen val -> zlen val <= kl_vallen lim -> ka_verbose ka = false -> plain_put k o ->
  let w := set_key_at 0 (Kiovec (Some k) (zlen k)) (set_kv_keycnt 1 (set_vecs [kiov0; kiov0] [kiov0] kv0)) in
  within p w m t ->
  runs (if negb (kpo_count o =? 0) then
          heap_op (upd_kv p (set_kv_keycnt 2)) ;;
          if (kpo_count o <? 0) && negb (kpo_flush o) then ub_st
          else put_copies show_ptr ktd ka p (kpo_sum o) (kpo_policy o) (kpo_bat o) cas (Z.to_nat (kpo_count o)) 0
        else kctl_do_put show_ptr ktd ka p (kpo_sum o) (kpo_policy o) (kpo_bat o) cas) t (fun rc t' => exists w',
    rc = (put_all cas (put_keys k (kpo_count o)) val m).1 /\
    within p w' (put_all cas (put_keys k (kpo_count o)) val m).2 t').
Proof.
  intros Hv Hl Hle Hq (_ & _ & -> & -> & Hc & Hcp & Hk & Hkl) w Hw. unfold put_keys.
  destruct (kpo_count o =? 0) eqn:E; cbn [negb].
  - destruct (hung_idle k ltac:(lia)) as (Hid & _).
    eapply runs_weaken; [eapply kctl_do_put_run; [exact Hid|exact Hw|done..]|].
    intros rc t' (w' & _ & H). exists w'. cbn [put_all]. destruct (put_one cas k val m); destruct H as (-> & H); done.
  - destruct (hung_idle k ltac:(lia)) as (_ & Hp).
    eapply runs_bind; [by apply upd_step|]. intros [] t1 H1. replace (kpo_count o <? 0) with false by lia. cbn [andb].
    eapply put_copies_run; [done..|exact Hk|exact Hkl|exact Hp|exact H1].
Qed.

Definition kput_spec : buffer := text "bcFf:h?n:p:s:z:".
Lemma kctl_put_run permute args evs wk wv o k val ka :
  mem_ok (h_mem (t_kv t0).1) ->
  getopt (optstring kput_spec) permute None args = (evs, [wk; wv]) -> kput_options ka evs kput_opts0 = Ok (Some o) ->
  plain_put k o -> reads wk k -> reads wv val -> zlen val <= kl_vallen lim -> ka_limits ka = lim -> ka_verbose ka = false ->
  let ka' := set_ka_val (Some val) (zlen val) (set_ka_key (Some k) (zlen k) ka) in
  let res := put_all (kpo_cas o) (put_keys k (kpo_count o)) val (vmap t0) in
  runs (kctl_put files show_ptr permute args ktd ka) t0 (fun a t' => a = (res.1, ka') /\ before res.2 t').
Proof.
  intros Hm Eg Eo Hp Rk Rv Hle Hlm Hq ka' res. unfold kctl_put, kput_spec in *. rewrite Eg. cbv beta iota.
  rewrite Eo. apply runs_bind_ret. cbv beta iota.
  eapply runs_bind; [eapply take_key_step; [|exact Rk]; by split; [split_and!|]|]. intros a t1 (-> & B1). cbv beta iota. cbn [negb].
  eapply runs_bind; [eapply take_val_step; [exact B1|exact Rv]|]. intros a t2 (-> & B2). cbv beta iota. cbn [negb]. fold ka'.
  eapply runs_bind; [by apply create_step|]. intros kv t3 (p & -> & W3). cbv iota.
  eapply runs_bind; [by apply upd_step|]. intros [] t4 W4. eapply runs_bind; [by apply upd_step|]. intros [] t5 W5.
  assert (Hc : (ka_keylen ka' >? kl_keylen (ka_limits ka')) || (ka_vallen ka' >? kl_vallen (ka_limits ka')) = false).
  { cbn [ka' set_ka_key set_ka_val ka_keylen ka_vallen ka_limits]. rewrite Hlm. apply orb_false_iff.
    destruct Hp as (_ & _ & _ & _ & _ & _ & _ & Hkl). destruct (kpo_count o =? 0); lia. }
  rewrite Hc. eapply runs_bind; [by apply upd_step|]. intros [] t6 W6.
  eapply runs_bind; [eapply (put_body_run ka' p (vmap t0) t6 o (kpo_cas o) k val); [done..|exact W6]|].
  intros rc t7 (w' & -> & W7). pose proof Hp as (_ & _ & _ & -> & _). apply runs_bind_ret. cbn [andb negb].
  eapply runs_bind; [by eapply free_step|]. intros [] t8 W8.
  eapply runs_bind; [by eapply destroy_step|]. intros rc t9 B9. by apply runs_ret.
Qed.
End put.


(** ** A drive in memory *)
Section drive.
Context {SZ : Sizes} (lim : klimits).
Definition version_view (db : versions) : versions := (fun e => (e.1, u32 e.2)) <$> db.
Definition key_of (v : kv) : buffer := default [] (vec_read (kv_key (cut v))).
Definition val_of (v : kv) : buffer := default [] (vec_read (kv_val (cut v))).
Definition number_of (b : option buffer) : Z := match b with Some b => match strtoul16 b with Ok n => n | _ => 0 end | None => 0 end.
Definition keep (v : kv) (s : mem * versions) : outcome (Z * kv * (mem * versions)) :=
  Ok ((K_OK, v), (s.1, <[key_of v := (val_of v, number_of (kv_newver v))]> s.2)).
Definition K_EBADVERS : Z := 8.

#[local] Instance version_service : KvService versions :=
  { ki_limits := fun _ _ => lim;
    ki_get := fun _ v s => Ok ((if s.2 !! key_of v then K_OK else K_ENOTFOUND, v), s);
    ki_put := fun _ => keep;
    ki_del := fun _ v s => Ok ((if s.2 !! key_of v then K_OK else K_ENOTFOUND, v), (s.1, delete (key_of v) s.2));
    ki_getversion := fun _ v s =>
      match s.2 !! key_of v with
      | Some (_, n) => Ok ((K_OK, set_kv_version (Some (version_text (u32 n) ++ [0])) VERLEN v), s)
      | None => Ok ((K_ENOTFOUND, v), s)
      end }.
#[local] Instance version_kctl : KctlService versions :=
  { kc_put := fun _ _ => keep;
    kc_cas := fun _ _ v s =>
      if negb (kv_valid (cut v) true true lim) then Ok ((K_EINVAL, v), s) else
      match version_view s.2 !! key_of v with
      | Some (_, n) => if number_of (kv_ver v) =? n then keep v s else Ok ((K_EBADVERS, v), s)
      | None => Ok ((K_EBADVERS, v), s)
      end;
    kc_del := fun ktd _ => ki_del ktd; kc_cad := fun ktd _ => ki_del ktd;
    kc_getnext := fun _ v rv s => Ok ((K_ENOTFOUND, rv), s); kc_getprev := fun _ v rv s => Ok ((K_ENOTFOUND, rv), s);
    kc_forget := fun _ _ s => Ok (tt, s); kc_flush := fun _ s => Ok (K_OK, s);
    kc_submitbatch := fun _ _ s => Ok (K_OK, s); kc_abortbatch := fun _ _ s => Ok (K_OK, s) }.

Lemma key_of_val v k : vec_val (kv_key (cut v)) k -> key_of v = k.
Proof. intros H. unfold key_of. by rewrite (vec_read_val _ _ H). Qed.
Lemma keep_run v m x k val n :
  mem_ok m -> vec_val (kv_key (cut v)) k -> vec_val (kv_val (cut v)) val -> kv_newver v = Some (version_text n ++ [0]) -> 0 <= n < 2 ^ 32 ->
  exists m' x', keep v (m, x) = Ok ((K_OK, v), (m', x')) /\ mem_ok m' /\ version_view x' = <[k := (val, n)]> (version_view x).
Proof.
  intros Hm Hk Hv Hn Hb. eexists _, _. split; [reflexivity|]. split; [done|]. cbn [snd].
  unfold version_view. rewrite (fmap_insert (M := gmap buffer)), (key_of_val _ _ Hk). unfold val_of, number_of. rewrite (vec_read_val _ _ Hv), Hn.
  cbn [default fst snd from_option id]. by rewrite strtoul16_version, u32_small.
Qed.
Lemma version_laws : VersionLaws version_service version_kctl version_view lim.
Proof.
  split.
  - done.
  - intros x k e. unfold version_view. rewrite lookup_fmap, fmap_Some. intros (e' & _ & ->). apply u32_range.
  - intros ktd v m x kb Hm _ Hk. cbn [ki_getversion version_service snd]. rewrite (key_of_val _ _ Hk).
    unfold version_view. rewrite lookup_fmap. destruct (x !! kb) as [[v0 n]|] eqn:E; cbn [fmap option_fmap option_map fst snd];
      do 4 eexists; (split; [reflexivity|]); by repeat split.
  - intros ktd v m x kb vb n Hm _ Hk Hv Hn _ Hb. by apply keep_run.
  - intros ktd v m x kb vb n v0 n0 Hm Hok Hk Hv Hn _ Hb Hx Hver _. cbn [kc_cas version_kctl]. rewrite Hok. cbn [negb snd].
    rewrite (key_of_val _ _ Hk), Hx. unfold number_of at 1. rewrite Hver.
    assert (0 <= n0 < 2 ^ 32).
    { unfold version_view in Hx. rewrite lookup_fmap, fmap_Some in Hx. destruct Hx as (e & _ & [= -> ->]). apply u32_range. }
    rewrite strtoul16_version, Z.eqb_refl by done. by apply keep_run.
  - intros ktd v s H. cbn [kc_cas version_kctl]. by rewrite H.
  - intros run v m x Hm. eexists _, _. by split.
Qed.
End drive.

Section witness.
#[local] Existing Instance lp64_sizes.
#[local] Existing Instance one_session.
#[local] Existing Instance version_service.
#[local] Existing Instance version_kctl.

Definition limits16 : klimits := Klimits 16 4 16 20 1048576 16 1048576 16 16 16 16 200 15 15 5.
Definition kargs16 : kargs := set_ka_limits limits16 (kargs0 (text "kctl")).
(** The first copy is there with the last version, the second is not. *)
Definition drive1 : versions := {[ text "k.000000000" := ([1], 2 ^ 32 - 1) ]}.

End witness.

(** ** The exit code *)
Section exit.
Context {SZ : Sizes} {KE : KtbEnv} {B : Build} {R : Type} {KS : KvService R} {KC : KctlService R} {GR : GetRange}
        (files : buffer -> option file) (show_ptr : option ptr -> buffer) (fuel : nat) (other : kctl_cmd -> khandler (R := R))
        (connect : kconn -> ST (@bst R) Z) (hangup : Z -> ST (@bst R) Z) (script : buffer -> option (list buffer)).

(** A command that ran leaves the exit code 0, whatever it answered, and even
    when the drive could not be reached. *)
Lemma kctl_main_exit lines progname args evs w rest ka inp e t code t' :
  getopt (optstring (text "c:f:h:m:p:qsSu:tvVy?")) false None args = (evs, w :: rest) ->
  kmain_options script evs (kargs0 progname) None = inl (ka, inp) -> ka_input ka = KCTL_CMDLINE ->
  kfind_cmd files show_ptr fuel other w = Some e ->
  kctl_main files show_ptr fuel other connect hangup script lines progname args t = Ok (code, t') -> code = 0.
Proof.
  intros Eg Eo Ei Ec. unfold kctl_main. rewrite Eg, Eo. cbv beta iota. rewrite Ei, bool_decide_true, Ec by done.
  destruct e as [[c name] h]. intros H.
  repeat match goal with
  | H : (_ ≫= _) _ = Ok _ |- _ => apply bind_inv in H as (? & ? & _ & H)
  | H : context [match ?x with _ => _ end] |- _ => destruct x
  end.
  by injection H.
Qed.
End exit.
