(* ===== verification/KctlRangeSpec.v ===== *)
(** What the range of the tool kctl prints: for a count the drive grants in one
    request, the keys between the two ends, one on a line and in order. *)

From stdpp Require Import gmap strings pretty.
From S2P Require Import Prelude Types Keys Ktb Validate Errors Iter BasicKv Toolbox BkvTool BkvToolSpec KctlTool KctlToolSpec.

Section range.
Context {SZ : Sizes} {KE : KtbEnv} {R : Type} {GR : GetRange} (db : list buffer) (empty keylen rangekeycnt : Z)
        {GL : GetRangeLaws db empty keylen rangekeycnt}.
Implicit Types (t : @tst R) (p : ptr) (r : krange) (ka : kargs).
Context (ktd : Z) (t0 : @tst R).

(** [t] is a state of the call that began at [t0]: its range is [r] at [p], and
    [out] was printed. *)
Definition printed (out : buffer) t : Prop :=
  mem_ok (h_mem (t_kv t).1) /\ (t_kv t).2 = (t_kv t0).2 /\ t_in t = t_in t0 /\ t_out t = t_out t0 ++ out.
Definition ranged p r (out : buffer) t : Prop := printed out t /\ sees (t_kv t).1 p (DRange r).

Lemma range_create t out :
  printed out t -> runs (heap_op (ki_create ktd KRANGE_T)) t (fun a t' => exists p, a = Some p /\ ranged p krange0 out t').
Proof.
  intros (Hm & Hx & Hi & Ho). destruct (ktb_alloc_run (t_kv t).1 ktd KRANGE_T Hm ltac:(done)) as (h' & E & _ & Hb & Hm' & _).
  eexists _, _. split.
  { apply on_kv_run, on_heap_run. unfold ki_create. erewrite bind_Ok by exact E. reflexivity. }
  eexists. split; [reflexivity|]. split; [by split_and!|]. exists (new_block ktd KRANGE_T). cbn. rewrite Hb.
  by rewrite lookup_insert_eq.
Qed.
Lemma range_upd p r out t f : ranged p r out t -> runs (heap_op (upd_range p f)) t (fun _ => ranged p (f r) out).
Proof.
  intros ((Hm & Hx & Hi & Ho) & Hs). destruct (upd_range_sees _ p r f Hs) as (h' & E & Hs' & Hmem & _).
  eexists _, _. split; [by apply on_kv_run, on_heap_run|]. split; [|done]. split_and!; try done. cbn. by rewrite Hmem.
Qed.
Lemma range_get p r out t : ranged p r out t -> runs (heap_op (get_range p)) t (fun r' t' => r' = r /\ ranged p r out t').
Proof.
  intros H. pose proof H as (_ & Hs). exists r, t. split; [|done].
  unfold heap_op. erewrite on_kv_run by (apply on_heap_run; by apply sees_range). by destruct t as [[] ? ?].
Qed.
Lemma range_decode p r out t w raw n :
  ranged p r out t -> reads w raw -> runs (decode_word w n) t (fun a t' => a = (Some raw, zlen raw) /\ ranged p r out t').
Proof.
  intros ((Hm & Hx & Hi & Ho) & Hs) Hr. unfold decode_word, c_malloc.
  destruct (KI_MALLOC_ok (h_mem (t_kv t).1) (zlen w + 1) Hm) as (b & m' & Em & Hm' & _).
  eexists _, _. rewrite (bind_Ok _ _ _ _ _ (on_kv_run _ t _ _ (on_heap_run _ _ _ _ (on_mem_run _ _ _ _ Em)))). cbv beta iota.
  erewrite bind_Ok by (eapply on_kv_run, on_heap_run, lift_Ok; exact Hr). split; [done|]. split; [done|]. by split; [split_and!|].
Qed.

(** *** Setting the range up *)

(** What a word says of an end of the range *)
Definition end_reads (w : option buffer) (e : option (list buffer)) : Prop :=
  match w with Some w => exists raw, reads w raw /\ 0 < zlen raw <= keylen /\ e = Some [raw] | None => e = None end.
Definition hung (e : option (list buffer)) : option (list kiovec) := dup_of <$> e.
Definition hung_count (e : option (list buffer)) : Z := if e then 1 else 0.
Lemma hung_denotes w e : end_reads w e -> key_denotes (hung e) (hung_count e) e.
Proof.
  destruct w as [w|]; cbn [end_reads]; [intros (raw & _ & _ & ->)|by intros ->].
  split; [done|]. split; [done|]. apply dup_of_bytes.
Qed.
Lemma end_bound w e : end_reads w e -> bound_ok keylen e.
Proof.
  destruct w as [w|]; cbn [end_reads]; [intros (raw & _ & H & ->)|intros ->]; intros bs [=].
  subst bs. cbn [concat]. by rewrite app_nil_r.
Qed.

Lemma range_end_step (set : option (list kiovec) -> Z -> krange -> krange) w e p r out t :
  end_reads w e -> ranged p r out t ->
  runs (range_end set w p) t (fun a t' => a = true /\ ranged p (if w then set (hung e) (hung_count e) r else r) out t').
Proof.
  destruct w as [w|]; cbn [end_reads range_end]; [intros (raw & Hr & _ & ->) H|intros -> H; by apply runs_ret].
  eapply runs_bind; [by eapply range_decode|]. intros a t1 (-> & H1). cbv beta iota.
  eapply runs_bind; [by apply range_upd|]. intros [] t2 H2. apply runs_ret. by rewrite bool_decide_true.
Qed.
Lemma range_flag_step (b : bool) f p r out t :
  ranged p r out t -> runs (range_flag b f p) t (fun _ => ranged p (if b then KR_FLAG_SET f r else r) out).
Proof. intros H. unfold range_flag. destruct b; [by apply range_upd|by apply runs_ret]. Qed.

Definition the_flags (starti endi : bool) : Z := Z.lor (if starti then KRF_ISTART else 0) (if endi then KRF_IEND else 0).
Definition the_range (s e : option (list buffer)) (starti endi : bool) (count : Z) : krange :=
  Krange (the_flags starti endi) (hung s) (hung_count s) (hung e) (hung_count e) count None 0.
Lemma set_range_step start starti end' endi count s e p out t :
  end_reads start s -> end_reads end' e -> 0 < count -> ranged p krange0 out t ->
  runs (set_range start starti end' endi false count p) t (fun a t' => a = true /\ ranged p (the_range s e starti endi count) out t').
Proof.
  intros Hs He Hc H. unfold set_range.
  eapply runs_bind; [eapply range_end_step; [exact Hs|exact H]|]. intros a t1 (-> & H1). cbn [negb].
  eapply runs_bind; [by apply range_flag_step|]. intros [] t2 H2.
  eapply runs_bind; [eapply range_end_step; [exact He|exact H2]|]. intros a t3 (-> & H3). cbn [negb].
  eapply runs_bind; [by apply range_flag_step|]. intros [] t4 H4.
  eapply runs_bind; [by apply range_flag_step|]. intros [] t5 H5. cbv iota in H5.
  eapply runs_bind; [by apply range_upd|]. intros [] t6 H6. replace (count <? 0) with false in H6 by lia.
  apply runs_ret. split; [done|].
  destruct start, end', starti, endi; cbn [end_reads] in *; try (destruct Hs as (? & _ & _ & ->)); try (destruct He as (? & _ & _ & ->));
    try subst s; try subst e; exact H6.
Qed.
Lemma the_range_request start starti end' endi count s e :
  end_reads start s -> end_reads end' e -> 0 < count <= rangekeycnt ->
  let r := the_range s e starti endi count in
  request_ok keylen rangekeycnt r s e /\ istart r = starti /\ iend r = endi /\ kr_count r = count.
Proof.
  intros Hs He Hc r. split; [|by destruct starti, endi]. split_and!.
  - split; [by eapply hung_denotes|]. split; [by eapply hung_denotes|done].
  - by eapply end_bound.
  - by eapply end_bound.
  - by destruct starti, endi.
  - exact (proj1 Hc).
  - exact (proj2 Hc).
Qed.

(** *** Printing the keys *)
Definition key_line (k : buffer) : buffer := c_str k ++ newline.
Lemma print_step t b out : printed out t -> runs (print b) t (fun _ => printed (out ++ b)).
Proof. intros (Hm & Hx & Hi & Ho). eexists _, _. split; [reflexivity|]. split_and!; try done. cbn. by rewrite Ho, app_assoc. Qed.
Lemma show_raw_step t b out : printed out t -> runs (show_raw (Some b) (zlen b)) t (fun _ => printed (out ++ c_str b)).
Proof.
  intros H. unfold show_raw.
  eapply (runs_bind _ _ _ (fun a t' => a = b /\ printed out t')).
  { exists b, t. split; [|done]. case_bool_decide; [|apply bytes_at_run]. unfold zlen. by rewrite Nat2Z.id, take_ge. }
  intros a t1 (-> & H1). unfold c_malloc.
  destruct (KI_MALLOC_ok (h_mem (t_kv t1).1) (zlen (c_str b) + 1) ltac:(apply H1)) as (x & m' & Em & Hm' & _).
  eapply (runs_bind _ _ _ (fun a t' => a = Some x /\ printed out t')).
  { eexists _, _. split; [exact (on_kv_run _ t1 _ _ (on_heap_run _ _ _ _ (on_mem_run _ _ _ _ Em)))|].
    destruct H1 as (_ & Hx & Hi & Ho). split; [done|]. by split_and!. }
  intros a t2 (-> & H2). cbv iota. eapply runs_bind; [by apply print_step|]. intros [] t3 (Hm3 & Hx3 & Hi3 & Ho3).
  eexists _, _. split; [reflexivity|]. by split_and!.
Qed.
Lemma show_keys_step o ka ks : kro_hdump o = false -> kro_adump o = false -> ka_verbose ka = false ->
  forall i t out, printed out t -> runs (show_keys o ka i (dup_of ks)) t (fun _ => printed (out ++ concat (key_line <$> ks))).
Proof.
  intros Hh Ha Hv. induction ks as [|k ks IH]; intros i t out H; cbn [dup_of fmap list_fmap show_keys concat].
  { apply runs_ret. by rewrite app_nil_r. }
  unfold show_number, show_key_line. rewrite Hv, Hh, Ha. apply runs_bind_ret. cbn [kiov_base kiov_len].
  eapply (runs_bind _ _ _ (fun _ => printed (out ++ key_line k))).
  { eapply runs_bind; [by apply show_raw_step|]. intros [] t1 H1. unfold key_line. rewrite app_assoc. by apply print_step. }
  intros [] t1 H1. rewrite app_assoc. exact (IH _ t1 _ H1).
Qed.

(** *** The command *)
Definition krange_spec : buffer := text "rs:S:e:E:n:AXh?".

(** The answer of the drive *)
Lemma range_call p r s e t out :
  request_ok keylen rangekeycnt r s e -> ranged p r out t ->
  let ks := take (Z.to_nat (kr_count r)) (keys_in db (join s) (istart r) (join e) (iend r)) in
  runs (heap_op (getrange_at ktd p)) t (fun rc t' => exists r', ranged p r' out t' /\
    (rc = K_OK -> kr_keys r' = Some (dup_of ks) /\ kr_keyscnt r' = zlen ks) /\
    rc = (if ks then empty else K_OK)).
Proof.
  intros Hr ((Hm & Hx & Hi & Ho) & Hs) ks.
  assert (Hcall : exists rc h' r', getrange_at ktd p (t_kv t).1 = Ok (rc, h') /\ mem_ok (h_mem h') /\ sees h' p (DRange r') /\
    (rc = K_OK -> kr_keys r' = Some (dup_of ks) /\ kr_keyscnt r' = zlen ks) /\ rc = (if ks then empty else K_OK)).
  { destruct (decide (ks = [])) as [Hn|Hn].
    - assert (Hk : keys_in db (join s) (istart r) (join e) (iend r) = []).
      { unfold ks in Hn. destruct Hr as (_ & _ & _ & _ & Hc). destruct (keys_in db _ _ _ _); [done|].
        by replace (Z.to_nat (kr_count r)) with (S (pred (Z.to_nat (kr_count r)))) in Hn by lia. }
      destruct (getrange_none db empty keylen rangekeycnt p e (t_kv t).1 ktd r s Hs Hm Hr Hk) as (h' & r' & E & Hm' & Hs' & He & _).
      exists empty, h', r'. rewrite Hn. split_and!; try done; intros HK; by rewrite (He HK).
    - destruct (getrange_found db empty keylen rangekeycnt p e (t_kv t).1 ktd r s ks Hs Hm Hr eq_refl Hn) as (h' & E & Hm' & Hs' & _).
      eexists K_OK, h', _. split; [exact E|]. split; [done|]. split; [exact Hs'|]. split; [done|]. by destruct ks. }
  destruct Hcall as (rc & h' & r' & E & Hm' & Hs' & Hk & Hrc).
  exists rc. eexists. split; [by apply on_kv_run, on_heap_run|]. exists r'. split; [|done]. split; [by split_and!|done].
Qed.
End range.

(** C27: [kctl range] with a count that the drive grants in one request
    ([-n N], 0 < N <= the limit), any of [-s], [-S], [-e], [-E] with words that
    decode to keys of the drive's size, not [-r], [-A], [-X] or verbose, over a
    drive that answers range requests as documented: it prints exactly the first
    N keys of the range in order, each up to its first NUL and on a line of its
    own, and answers 0.  An end given in lower case is exclusive, one in upper
    case inclusive, and one that is not given is the end of all keys.  When there
    is no key, it prints No Keys Found. and answers 0 if the drive reports an
    empty result as success, and prints nothing and answers -1 otherwise.  The
    session and the arguments stay as they are. *)
Theorem kctl_range_spec {SZ : Sizes} {KE : KtbEnv} {R} {GR : GetRange} db empty keylen rangekeycnt
    {GL : GetRangeLaws db empty keylen rangekeycnt} fuel permute args evs o s e ktd ka (t0 : @tst R) :
  mem_ok (h_mem (t_kv t0).1) -> getopt (optstring krange_spec) permute None args = (evs, []) ->
  krange_options evs krange_opts0 = Some o -> kro_reverse o = false -> kro_hdump o = false -> kro_adump o = false ->
  end_reads keylen (kro_start o) s -> end_reads keylen (kro_end o) e ->
  ka_verbose ka = false -> kl_rangekeycnt (ka_limits ka) = rangekeycnt -> 0 < kro_count o <= rangekeycnt ->
  let starti := kro_starti o || bool_decide (kro_start o = None) in
  let endi := kro_endi o || bool_decide (kro_end o = None) in
  let ks := take (Z.to_nat (kro_count o)) (keys_in db (join s) starti (join e) endi) in
  exists t', kctl_range fuel permute args ktd ka t0 = Ok ((if ks then if empty =? K_OK then 0 else -1 else 0, ka), t') /\
    t_out t' = t_out t0 ++ (if ks then if empty =? K_OK then text "No Keys Found." ++ newline else [] else concat (key_line <$> ks)) /\
    (t_kv t').2 = (t_kv t0).2 /\ t_in t' = t_in t0 /\ mem_ok (h_mem (t_kv t').1).
Proof.
  intros Hm Eg Eo Hrev Hh Ha Hs He Hv Hlim Hc starti endi ks.
  assert (Hrun : runs (kctl_range fuel permute args ktd ka) t0 (fun a t' =>
    a = (if ks then if empty =? K_OK then 0 else -1 else 0, ka) /\
    printed t0 (if ks then if empty =? K_OK then text "No Keys Found." ++ newline else [] else concat (key_line <$> ks)) t')).
  { unfold kctl_range, krange_spec in *. rewrite Eg. cbv beta iota. rewrite Eo, Hrev, Hv, Hlim. fold starti endi.
    eapply runs_bind; [apply (range_create ktd t0 t0 []); split_and!; [done..|]; by rewrite app_nil_r|].
    intros a t1 (p & -> & H1). cbv iota.
    eapply runs_bind; [eapply (set_range_step keylen t0); [exact Hs|exact He|apply Hc|exact H1]|]. intros a t2 (-> & H2). cbn [negb].
    apply runs_bind_ret. replace ((kro_count o >? 0) && (kro_count o <=? rangekeycnt)) with true by lia. apply runs_bind_ret.
    destruct (the_range_request keylen rangekeycnt (kro_start o) starti (kro_end o) endi (kro_count o) s e Hs He Hc)
      as (Hreq & Hi1 & Hi2 & Hcnt).
    eapply runs_bind; [eapply (range_call db empty keylen rangekeycnt ktd t0); [exact Hreq|exact H2]|].
    rewrite Hi1, Hi2, Hcnt. fold ks. intros rc t3 (r' & H3 & Hok & Hrc). subst rc.
    destruct ks as [|k ks'] eqn:Eks.
    - destruct (empty =? K_OK) eqn:Ee; cbn [negb]; [|apply runs_ret; split; [done|apply H3]].
      destruct (Hok (proj1 (Z.eqb_eq _ _) Ee)) as (_ & Hcnt0).
      eapply runs_bind; [by eapply range_get|]. intros r t4 (-> & H4). rewrite Hcnt0. cbn [zlen].
      change (zlen (@nil buffer) =? 0) with true. cbv iota.
      eapply runs_bind; [eapply print_step, H4|]. intros [] t5 H5. by apply runs_ret.
    - cbn [negb]. change (K_OK =? K_OK) with true. cbn [negb]. destruct (Hok eq_refl) as (Hkeys & Hcnt0).
      eapply runs_bind; [by eapply range_get|]. intros r t4 (-> & H4). rewrite Hcnt0, Hkeys.
      pose proof (zlen_cons k ks') as Hz. pose proof (zlen_nonneg ks').
      replace (zlen (k :: ks') =? 0) with false by lia. replace (zlen (k :: ks') <=? 0) with false by lia.
      eapply (runs_bind _ _ _ (fun a t' => a = dup_of (k :: ks') /\ printed t0 [] t'));
        [exists (dup_of (k :: ks')), t4; split; [done|by split; [|apply H4]]|].
      intros l t5 (-> & H5). assert (Hlen : zlen (dup_of (k :: ks')) = zlen (k :: ks')) by apply zlen_fmap.
      rewrite Hlen, Z.leb_refl. unfold zlen at 1. rewrite Nat2Z.id, take_ge by (unfold dup_of; by rewrite length_fmap).
      eapply runs_bind; [by eapply (show_keys_step t0 o ka (k :: ks'))|]. intros [] t6 H6. apply runs_ret. by split. }
  destruct Hrun as (a & t' & E & -> & Hm' & Hx & Hi & Ho). exists t'. by split_and!.
Qed.

Section witness.
#[local] Existing Instance lp64_sizes.
#[local] Existing Instance one_session.
#[local] Existing Instance store_GetRange.

(** From b on, two keys of four *)
Lemma kctl_range_spec_witness :
  let GR := store_GetRange [text "a"; text "b"; text "bc"; text "d"] K_ENOTFOUND in
  exists t', kctl_range (R := unit) 0 false [text "-n2"; text "-S"; text "b"] 3 (set_ka_limits limits16 (kargs0 [])) (Tst (heap0, tt) [] []) =
      Ok ((0, set_ka_limits limits16 (kargs0 [])), t') /\
    t_out t' = text "b" ++ newline ++ text "bc" ++ newline.
Proof.
  intros GR.
  assert (GL : GetRangeLaws [text "a"; text "b"; text "bc"; text "d"] K_ENOTFOUND 16 200).
  { apply store_laws; [repeat constructor; done|repeat constructor; vm_compute; congruence]. }
  destruct (kctl_range_spec (R := unit) [text "a"; text "b"; text "bc"; text "d"] K_ENOTFOUND 16 200 0 false
    [text "-n2"; text "-S"; text "b"] [(110, Some (text "2")); (83, Some (text "b"))]
    (KrangeOpts (Some (text "b")) true None false 2 false false false) (Some [text "b"]) None 3
    (set_ka_limits limits16 (kargs0 [])) (Tst (heap0, tt) [] [])) as (t' & E & Ho & _).
  - exact heap0_mem.
  - reflexivity.
  - reflexivity.
  - reflexivity.
  - reflexivity.
  - reflexivity.
  - exists (text "b"). split_and!; (reflexivity || (vm_compute; discriminate)).
  - reflexivity.
  - reflexivity.
  - reflexivity.
  - cbn. lia.
  - exists t'. split; [exact E|exact Ho].
Defined.
End witness.
